(* ===== verification/_CoqProject ===== *)
-Q . S2P
Prelude.v
JsString.v
JsNum.v
JsVal.v
Ui.v
Validation.v
ProtocolGroup.v
Ajax.v
JsDate.v
CalendarDate.v
CalendarGrid.v
Calendar.v
Dom.v
Container.v
ContainerData.v
PopupForm.v
ContainerSearch.v
Report.v
ReportAnswer.v
ReportClient.v
CalendarMouse.v
CalendarSetup.v
CalendarPlace.v
CalendarTable.v
Menu.v
SearchData.v
Script.v
Table.v
TablePages.v
Desk.v
Combo.v
ComboSpec.v
PopupList.v
PopupSpec.v
HelpString.v
HelpPattern.v
HelpUnicode.v
HelpBooks.v
HelpPages.v
HelpPhrase.v
HelpScore.v
HelpSearch.v
HelpFind.v
HelpFound.v
HelpResults.v
HelpView.v
HelpTree.v
HelpOutline.v
HelpContents.v
HelpContentsPage.v
HelpContentsInv.v
HelpContentsSteps.v
HelpContentsSync.v
HelpContentsReach.v
HelpHover.v
HelpIndex.v
HelpIndexSort.v
HelpIndexPage.v
HelpIndexWalk.v
HelpIndexText.v
HelpIndexLoad.v
HelpIndexPaths.v
HelpIndexReady.v
HelpIndexShow.v
HelpIndexReach.v
HelpIndexLinks.v
HelpIndexSee.v
HelpIndexSelect.v
HelpIndexExample.v
HelpBrowser.v
HelpCookies.v
HelpAddress.v
HelpFavorites.v
HelpFavoritesKept.v
HelpPanels.v
HelpTabs.v
HelpFrames.v
HelpFramesCore.v
HelpFramesLive.v
HelpFramesStuck.v
