(* ===== verification/Prelude.v ===== *)
(** * The JavaScript client of Cyberoam iView: a verified model

    iView is a log analyser; its console is a set of JSP pages whose scripts are in
    [src/webapp/src/web/javascript/], with an online help whose viewer is in
    [src/webapp/build/docs/onlinehelp/wwhelp/wwhimpl/] ([common/scripts/] and
    [js/scripts/]).  This library models the scripts of these directories that carry
    logic of their own, states what each of them is meant to do, and proves it of
    definitions that follow the code function by function.  File and function names
    below are those of these directories.

    ** The parts and how they interact

    A page builds report containers ([container.js]), which ask the server for the
    page of records to show through the request queue ([ajax.js]) and write the
    answer into the document; older pages use tables that fetch their records from a
    function of the page ([table.js]).  A page has a menu ([menu.js]), combo boxes
    ([combo.js]), fields that open a list of check boxes ([popup.js]), pop-up forms
    ([popupform.js]) and input forms with their checks ([ipvalidation.js],
    [utilities.js], [protocolgroup.js], [SearchData.js]); combo boxes and pop-up lists
    share the component that is open ([setOpenComponent]), which a click elsewhere
    closes ([closeElements]).  Dates are chosen with the calendar widget
    ([calendar.js], texts in [calendar-en.js]), which [calendar-setup.js] connects with
    the fields of the page.

    The viewer of the online help is a second client, of frames instead of one page.
    It knows books in groups ([booklist.js], [filelist.js], [bookgrps.js]) and shows
    their contents as a tree that is opened and closed ([outline.js] with the two drawing
    objects of [outlfast.js] and [outlsafe.js]), an index whose entries come from the data
    of all books ([index.js]), the reader's favourites, kept in a cookie ([favorite.js],
    [browser.js]), and a search ([search.js], [pairs.js],
    [phrase.js], [mltphrs.js]) over words found by [unibreak.js] and [unidata.js];
    all write their pages with [strutils.js].  Each of the four is the panel of a tab
    ([panels.js], [tabs.js], [javascpt.js], [handler.js]), in frames whose pages are loaded
    one after the other and call the viewer when they are there.

    ** The files

    Language and browser:
    - [Prelude]: notations, automation ([bool_to_prop], [case_if]), generic lemmas.
    - [JsString], [JsNum], [JsVal]: strings, numbers (exact rationals with NaN and
      the infinities), [parseInt], [Number], and values that are passed around.
    - [JsDate]: the [Date] of the language, in milliseconds, on the proleptic
      Gregorian calendar, with setters that carry out-of-range days and months.
    - [Ui]: the effects a handler has (dialogs, focus, submits, timers, requests).
    - [Dom]: a document is a finite map from ids to elements; a script is a function
      of the monad [M] (document, globals, log, exceptions).  [sim] relates the
      document to the elements a component knows, so that scripts run on those.
      What markup defines is the class [Browser].
    - [Script]: scripts over the state of one widget, the monad [Sc]: done, threw (with
      what was done before), or not ended within the fuel; [keeps] for invariants;
      drop-down lists.

    Components:
    - [Ajax] (ajax.js): record [ajax_object], one definition per method; the browser
      is the class [Host].  The object drains when the network answers ([ajax_drains]).
      Module [Server]: a first-in first-out server on plain lists, which the object follows
      event for event ([ajax_refines_fifo]).
    - [Validation], [ProtocolGroup]: the checks, each with the exact set of inputs it
      accepts.
    - [CalendarDate]: the methods added to [Date], [print] and [parseDate]; round trip,
      ISO week, month lengths.  [CalendarGrid]: the object ([calendar]) and [_init];
      the invariant [cal_inv].  [Calendar]: clicks, keys, time row; every step keeps
      the invariant.  [CalendarMouse]: press, hold, drag and release as a step
      relation [gui_step] with timers and listeners; combo boxes.  [CalendarSetup]:
      [Calendar.setup], with the end-to-end property [calendar_picks_day].
      [CalendarPlace]: the calendar on the screen ([screen]): placing, showing, hiding,
      presses outside it, what it covers; [scr_step] are its steps.  [CalendarTable]:
      the rows and cells that [create] builds.
    - [Container] (layout, paging, visibility), [ContainerData] (the answers of the
      server: [ajaxRequest], [setTable], [addTableRecord]), [ContainerSearch] (filters,
      tool tips, name resolution, downloads, bookmarks): container.js.  [Report] puts
      the requests of a container on the queue of [Ajax] ([on_client]); [ReportAnswer]
      runs [ajaxRequest] on a complete answer; [ReportClient] is the page as a whole,
      clicks and answers in any order ([run_client]), and refines the machine [view].
    - [Table] (table.js): record [table], one definition per function; the page's
      [getRecord] is a parameter.  [TablePages]: the table as a list of pages.
    - [Desk]: what combo.js and popup.js share, the record [page] with the boxes and the
      lists, timers, the open component.  [Combo] (combo.js) and [ComboSpec]; [PopupList]
      (popup.js) and [PopupSpec]: functions, then properties.
    - [PopupForm], [Menu], [SearchData]: the files of the same names.

    Online help (names of the form [WWHSearch_Submit] are [Submit] here):
    - [HelpString] (strutils.js): escaping, patterns, the buffer pages are written to, the
      parser of a search text.  [HelpPattern]: the regular expressions made of words, with
      a matcher and what it means.  [HelpUnicode] (unidata.js, unibreak.js): classes of
      characters and where words end.
    - [HelpBooks] (filelist.js, booklist.js, bookgrps.js): files, books, groups, addresses,
      neighbours of a page, scopes of a search; [HelpPages] proves the addresses and
      neighbours right.
    - [HelpPhrase] (pairs.js, phrase.js, mltphrs.js), [HelpScore], [HelpSearch] (search.js):
      phrases, matches and results, the object [WWHSearch] with the scripts of its two
      pages.  [HelpFind] and [HelpFound] say what a search finds, [HelpResults] and
      [HelpView] how it is shown, from the form to the page.
    - [HelpTree] (outline.js, the iterator): entries are numbers in a [store], with the
      parent, the list of children and the flags; [rep] says that a store holds a tree.
      [HelpOutline] (outline.js, entries): [InitGroupings], [NewChild], the text of an
      entry.  [HelpContents] (outline.js, outlfast.js, outlsafe.js): pages, clicks,
      [Sync].  [HelpContentsPage]: the segments are the text of a walk, a nested list.
      [HelpContentsInv], [HelpContentsSteps], [HelpContentsReach]: the entries are linked as
      one tree in every reachable state.  [HelpContentsSync]: what [Sync] finds and opens,
      and what opening an entry draws again.
    - [HelpHover]: the pop-ups of the contents, of the index and of the favourites.
    - [HelpIndex] (index.js, index1s.js): entries in a [store], the hash of children with
      its keys, [AddEntry], sorting, "see also", loading.  [HelpIndexPage] (index.js): the
      iterator, the page, the list of sections, clicks.  [HelpIndexSelect] (index.js): the
      list of an entry's documents.  [HelpIndexSort]: the order of the keys.
      [HelpIndexLoad]: what the calls of the data files make ([loaded]); [HelpIndexPaths]
      and [HelpIndexReady]: the entries as a tree named by paths of keys, linked and ready.
      [HelpIndexWalk] and [HelpIndexText]: the iterator visits that tree, the segments are
      its text.  [HelpIndexShow], [HelpIndexReach], [HelpIndexLinks], [HelpIndexSee]: every
      reachable state, what its page shows and where its links lead.  [HelpIndexExample]:
      the index of the manual ([wwhdata/js/index.js]).
    - [HelpBrowser] (browser.js): which browser it is, addresses, locations, focus, cookies;
      the browser's cookies are the class [Jar].  [HelpCookies]: the laws [JarLaws], cookies
      that are read back, their path.  [HelpAddress]: addresses in one form.
    - [HelpFavorites] (favorite.js): the list, the current page, the cookie, the panel.
      [HelpFavoritesKept]: sessions and what a later session reads.
    - [HelpPanels] (panels.js, javascpt.js, handler.js): the panel that is shown, the tab that
      is chosen, the handlers of loaded pages, with what they ask for as a list.  [HelpTabs]
      (tabs.js): the tabs as they are drawn.  [HelpFrames] (the pages of js/html): pages on
      their way, arriving in any order between clicks.  [HelpFramesCore]: what handlers do
      to the flags.  [HelpFramesLive], [HelpFramesStuck]: which changes of tabs end.

    ** What is proved

    Invariants over all reachable states of the queue, the calendar, the mouse gestures,
    the class names of combo boxes and the elements under a calendar; refinement of an
    abstract queue, of a table by the list of its pages, and of a report page with its
    queue by a machine that knows the page shown, the pages asked for and the page drawn
    ([report_consistent], [report_settles]); functional specifications
    of every navigation step, with the error branches; round trips (print and parse,
    field and calendar, ids of combo items, time fields); equivalences with a reference
    (grid of days, menu nesting, ISO week, conjunction of filters, choosing and opening
    lists, delayed placing, the pattern of a search word, the part of the contents that is
    drawn again); which loops end and which do not; and, where the code does
    not do what it means to, theorems that say exactly what it does.
    Of the help: a search shows exactly the pages that every word and every phrase
    finds, each once, best first ([search_finds], [search_shows]); a page is found from its
    address, with its neighbours ([sync_prev_next]); the contents stay one tree
    ([contents_reachable]), show the entry of a page ([sync_shows]) and are drawn again in
    part as they would be as a whole ([entry_redrawn]); the index shows what the books'
    data describe, each entry once and in order ([index_shows]), its links lead back to
    their entries ([index_links_back]) and "see also" to the entry meant
    ([see_also_jumps]), and the documents of an entry are listed once each
    ([selection_groups]); favourites are read back in a later session, whatever the places
    of their books then ([favorites_survive]), and addresses are compared in one form, which
    is described ([NormalizeURL_spec]).  A change of tabs ends with the panel that was
    chosen last, whatever happens meanwhile ([tabs_settle]), but for one order of arrival,
    after which the tabs never answer again ([tab_stuck]), and for a click of a timer on
    the tab that is shown ([double_click_deaf]).

    Where a property holds on a condition only - a page size of two or more, a browser
    that is not Konqueror, contexts without commas, a transport that does not fail, a
    format with separators, a panel that is initialised - its comment says so, and most
    often names the lemma that shows what happens without.  The theorems on the
    contents allow hidden books, as the only one that is shipped ([shipped_hidden]).

    ** Bounds and fuel

    Loops whose end depends on their data have fuel that is shown to be enough, or
    return [None] when it is not: [replaceChar] has the length of its text
    ([replaceChar_total]), and never ends for the arguments of [replaceChar_diverges];
    [replaceAll] likewise ([replaceAll_total]); the list of pages of a table ends after
    the number of its lines ([setTableHeightByPage_pages]) unless the page size is 0
    ([setTableHeightByPage_ends]); [findTableRecord] needs the number of lines plus two
    rounds ([pages_in_order]), and none are enough without a page size
    ([no_size_diverges]).  The loops of [_init] run over the 6 by 7 cells that [create]
    builds, those of the combo boxes over their 12 items.  [nat_digits] has one unit per
    binary digit.  A walk of the contents has the number of entries and two rounds
    ([enough]), which a tree never uses up ([ids_size], [visits_below]); the pages of the
    index likewise ([stands_length]).  [settle] has eleven pages: five of a panel that is
    loaded, the page of the tabs and five of the panel that is loaded next ([good_bound]).

    ** What is not modelled

    The grid of dhtmlx (dhtmlx*.js: vendored and minified); the tables of the online help
    (files.js, topics.js, toc.js and the search data, generated by the authoring tool:
    the functions of the model take them as arguments) and, of its viewer,
    pop-ups, related topics, buttons, highlighting and [help.js] but for one function; the JSP pages, the
    Java server and the C daemon.  Of the modelled files: [GetCoords] of popup.js, which returns nothing, and
    the height of a long list there; the empty demo functions of container.js;
    [stopEvent] and the listeners that only call it.  Parsing of HTML, styles and layout
    are parameters ([Browser], [Window], [Layout], [Place], [Screen]).  [ReportClient]
    follows one report with visible, not searchable columns whose number of records does
    not change; the server is a function from addresses to documents.  The state of a
    calendar is in three records, one for each group of functions ([calendar] within
    [gui], [widget], [screen]): what a function does is said of the record of its
    group.  Numbers are exact (no rounding at 53 bits), strings have 8-bit characters,
    dates have no daylight saving.  Colours and cursors are left out. *)
From Stdlib Require Export ZArith Lia.
From Stdlib Require Export Ascii.
From stdpp Require Export base tactics list gmap strings option relations.

Global Set Default Goal Selector "!".

(** ** Notations *)
Declare Scope js_scope.
Delimit Scope js_scope with js.

(** JavaScript string concatenation [a + b]. *)
Notation "a +++ b" := (String.append a b) (at level 60, right associativity) : js_scope.
Open Scope js_scope.
#[global] Arguments String.append !_ _ : simpl nomatch.

(** ** Automation *)
Create HintDb js discriminated.
Create Rewrite HintDb js_rw.

(** Case analysis on the condition of the first [if] of the goal or of a hypothesis. *)
Ltac case_if :=
  match goal with
  | |- context [if ?b then _ else _] => let E := fresh "E" in destruct b eqn:E
  | H : context [if ?b then _ else _] |- _ => let E := fresh "E" in destruct b eqn:E
  end.

(** Turns the boolean comparisons of the context into propositions. *)
Ltac bool_to_prop :=
  repeat match goal with
  | H : (_ && _)%bool = true |- _ => apply andb_true_iff in H; destruct H
  | H : (_ || _)%bool = false |- _ => apply orb_false_iff in H; destruct H
  | H : negb _ = true |- _ => apply negb_true_iff in H
  | H : negb _ = false |- _ => apply negb_false_iff in H
  | H : (_ =? _)%Z = true |- _ => apply Z.eqb_eq in H
  | H : (_ =? _)%Z = false |- _ => apply Z.eqb_neq in H
  | H : (_ <? _)%Z = true |- _ => apply Z.ltb_lt in H
  | H : (_ <? _)%Z = false |- _ => apply Z.ltb_ge in H
  | H : (_ <=? _)%Z = true |- _ => apply Z.leb_le in H
  | H : (_ <=? _)%Z = false |- _ => apply Z.leb_gt in H
  | H : String.eqb _ _ = true |- _ => apply String.eqb_eq in H
  | H : String.eqb _ _ = false |- _ => apply String.eqb_neq in H
  end.

(** ** Options and lists *)

(** The first defined value of a list of options. *)
Fixpoint first_some {A} (l : list (option A)) : option A :=
  match l with
  | [] => None
  | Some a :: _ => Some a
  | None :: l => first_some l
  end.

Lemma first_some_app {A} (l k : list (option A)) :
  first_some (l ++ k) = match first_some l with Some a => Some a | None => first_some k end.
Proof. by induction l as [|[a|] l IH]. Qed.

Lemma first_some_None {A} (l : list (option A)) :
  first_some l = None <-> Forall (fun o => o = None) l.
Proof.
  induction l as [|[a|] l IH]; simpl; [split; auto|split; [done|by inversion 1]|].
  rewrite IH. split; [by constructor|by inversion 1].
Qed.

(** [range a n] is [a; a+1; ...; a+n-1]: the values of a counting [for] loop. *)
Fixpoint range (a : Z) (n : nat) : list Z :=
  match n with O => [] | S n => a :: range (a + 1) n end.

Lemma range_length a n : length (range a n) = n.
Proof. revert a. induction n as [|n IH]; intros a; simpl; [done|by rewrite IH]. Qed.

Lemma range_lookup a n i : (i < n)%nat -> range a n !! i = Some (a + Z.of_nat i)%Z.
Proof.
  revert a i. induction n as [|n IH]; intros a [|i] H; simpl; try lia.
  - f_equal; lia.
  - rewrite IH by lia. f_equal; lia.
Qed.

Lemma range_in a n x : x ∈ range a n <-> (a <= x < a + Z.of_nat n)%Z.
Proof.
  revert a. induction n as [|n IH]; intros a; simpl.
  - rewrite elem_of_nil. lia.
  - rewrite elem_of_cons, IH. lia.
Qed.
Lemma range_app a n m : range a (n + m) = range a n ++ range (a + Z.of_nat n) m.
Proof.
  revert a. induction n as [|n IH]; intros a; cbn [range Nat.add app]; [f_equal; lia|].
  f_equal. rewrite IH. do 2 f_equal. lia.
Qed.
#[export] Hint Rewrite range_length : js_rw.
