(* ===== verification/JsString.v ===== *)
(** * JavaScript strings
    The string operations of the language that the client uses, on sequences of
    8-bit code units: [charAt], [substring], [substr], [indexOf], [lastIndexOf],
    [split], [replace] with a string pattern, [toLowerCase], and decimal printing.
    Indices are [Z], clamped the way ECMAScript clamps them. *)
From S2P Require Import Prelude.
Open Scope Z_scope.

(** Double quotes are written with a backquote in the literals below: [qq] puts
    the double quote back, so that HTML templates read like the source's. *)
Definition dquote : Ascii.ascii := Ascii.ascii_of_nat 34.
Fixpoint qq (s : string) : string :=
  match s with
  | EmptyString => EmptyString
  | String c s => String (if Ascii.eqb c "`"%char then dquote else c) (qq s)
  end.

Definition slen (s : string) : Z := Z.of_nat (String.length s).

Fixpoint sdrop (n : nat) (s : string) : string :=
  match n, s with
  | S n, String _ s => sdrop n s
  | _, _ => s
  end.

Fixpoint stake (n : nat) (s : string) : string :=
  match n, s with
  | S n, String c s => String c (stake n s)
  | _, _ => EmptyString
  end.

(** [s.charAt(i)] *)
Definition charAt (s : string) (i : Z) : string :=
  if (i <? 0) then EmptyString else stake 1 (sdrop (Z.to_nat i) s).

Definition clamp (lo hi x : Z) : Z := Z.max lo (Z.min hi x).

(** [s.substring(a, b)]: both ends clamped, then swapped when out of order. *)
Definition substring2 (s : string) (a b : Z) : string :=
  let a' := clamp 0 (slen s) a in
  let b' := clamp 0 (slen s) b in
  stake (Z.to_nat (Z.max a' b' - Z.min a' b')) (sdrop (Z.to_nat (Z.min a' b')) s).

(** [s.substring(a)] *)
Definition substring1 (s : string) (a : Z) : string :=
  sdrop (Z.to_nat (clamp 0 (slen s) a)) s.

(** [s.substr(a, n)] for [a >= 0]. *)
Definition substr (s : string) (a n : Z) : string :=
  stake (Z.to_nat n) (sdrop (Z.to_nat a) s).

Fixpoint prefixb (p s : string) : bool :=
  match p, s with
  | EmptyString, _ => true
  | String a p, String b s => Ascii.eqb a b && prefixb p s
  | String _ _, EmptyString => false
  end.

(** Offset of the first occurrence of [p] in [s]. *)
Fixpoint index_of (p s : string) : option nat :=
  if prefixb p s then Some O
  else match s with
       | EmptyString => None
       | String _ s => S <$> index_of p s
       end.

(** [s.indexOf(p)] *)
Definition indexOf (s p : string) : Z :=
  match index_of p s with Some n => Z.of_nat n | None => -1 end.

(** [s.indexOf(p) != -1], the test the code writes. *)
Definition contains (s p : string) : bool :=
  match index_of p s with Some _ => true | None => false end.

Fixpoint last_index_of (p s : string) : option nat :=
  match s with
  | EmptyString => if prefixb p s then Some O else None
  | String _ s' =>
      match last_index_of p s' with
      | Some n => Some (S n)
      | None => if prefixb p s then Some O else None
      end
  end.

(** [s.lastIndexOf(p)] *)
Definition lastIndexOf (s p : string) : Z :=
  match last_index_of p s with Some n => Z.of_nat n | None => -1 end.

(** [s.split(sep)] for a non-empty separator.  [skip] counts the characters of a
    separator just matched that remain to be passed over. *)
Fixpoint js_split_go (sep : string) (skip : nat) (s : string) : string * list string :=
  match s with
  | EmptyString => (EmptyString, [])
  | String c s' =>
      match skip with
      | S k => js_split_go sep k s'
      | O =>
          if prefixb sep s
          then let '(h, t) := js_split_go sep (String.length sep - 1)%nat s' in
               (EmptyString, h :: t)
          else let '(h, t) := js_split_go sep O s' in (String c h, t)
      end
  end.
Definition js_split (s sep : string) : list string :=
  let '(h, t) := js_split_go sep O s in h :: t.

(** [a.join(sep)] *)
Fixpoint join (sep : string) (l : list string) : string :=
  match l with
  | [] => EmptyString
  | [s] => s
  | s :: l => s +++ sep +++ join sep l
  end.

(** [s.replace(p, r)] with a string pattern: the first occurrence only.  A dollar sign in
    [r] stands for itself here: the browser's patterns that begin with one are not
    interpreted, and none of the texts that the program itself puts in has one. *)
Fixpoint replace_first (p r s : string) : string :=
  if prefixb p s then r +++ sdrop (String.length p) s
  else match s with
       | EmptyString => EmptyString
       | String c s => String c (replace_first p r s)
       end.

(** [s.toLowerCase()] on 8-bit characters: the letters of ASCII and of Latin-1.
    [s.toUpperCase()] on the same letters; sharp s, the micro sign and y with diaeresis,
    whose upper case has no 8-bit code, are left as they are. *)
Definition lower_char (c : Ascii.ascii) : Ascii.ascii :=
  let n := Ascii.nat_of_ascii c in
  if (Nat.leb 65 n && Nat.leb n 90 || Nat.leb 192 n && Nat.leb n 222 && negb (Nat.eqb n 215))%bool
  then Ascii.ascii_of_nat (n + 32) else c.
Definition upper_char (c : Ascii.ascii) : Ascii.ascii :=
  let n := Ascii.nat_of_ascii c in
  if (Nat.leb 97 n && Nat.leb n 122 || Nat.leb 224 n && Nat.leb n 254 && negb (Nat.eqb n 247))%bool then Ascii.ascii_of_nat (n - 32) else c.
Fixpoint smap (f : Ascii.ascii -> Ascii.ascii) (s : string) : string :=
  match s with
  | EmptyString => EmptyString
  | String c s => String (f c) (smap f s)
  end.
Definition toLowerCase : string -> string := smap lower_char.
Definition toUpperCase : string -> string := smap upper_char.

Fixpoint sall (P : Ascii.ascii -> bool) (s : string) : bool :=
  match s with
  | EmptyString => true
  | String c s => P c && sall P s
  end.

(** ** Decimal digits *)
Definition digit_char (d : Z) : Ascii.ascii := Ascii.ascii_of_nat (48 + Z.to_nat d).
Definition is_digit (c : Ascii.ascii) : bool :=
  let n := Ascii.nat_of_ascii c in (Nat.leb 48 n && Nat.leb n 57)%bool.
Definition digit_val (c : Ascii.ascii) : Z := Z.of_nat (Ascii.nat_of_ascii c) - 48.

(** [digits_val a s]: [a] followed by the digits of [s]; [None] if [s] has a non-digit. *)
Fixpoint digits_val (a : Z) (s : string) : option Z :=
  match s with
  | EmptyString => Some a
  | String c s => if is_digit c then digits_val (10 * a + digit_val c) s else None
  end.

Fixpoint udigits (fuel : nat) (z : Z) (acc : string) : string :=
  match fuel with
  | O => acc
  | S fuel =>
      if z <? 10 then String (digit_char z) acc
      else udigits fuel (z / 10) (String (digit_char (z mod 10)) acc)
  end.
Definition nat_digits (z : Z) : string := udigits (S (Z.to_nat (Z.log2 z))) z EmptyString.

(** [String(z)] for an integer [z] of magnitude below 1e21. *)
Definition Z_to_string (z : Z) : string :=
  if z <? 0 then String "-"%char (nat_digits (- z)) else nat_digits z.

(** ** Lemmas *)
Lemma sapp_nil_r s : s +++ EmptyString = s.
Proof. induction s as [|c s IH]; simpl; [done|by rewrite IH]. Qed.

Lemma sapp_assoc a b c : (a +++ b) +++ c = a +++ b +++ c.
Proof. induction a as [|x a IH]; simpl; [done|by rewrite IH]. Qed.

Lemma sapp_length a b : String.length (a +++ b) = (String.length a + String.length b)%nat.
Proof. induction a as [|x a IH]; simpl; [done|by rewrite IH]. Qed.

Lemma sdrop_app a b : sdrop (String.length a) (a +++ b) = b.
Proof. induction a as [|x a IH]; simpl; [by destruct b|done]. Qed.

Lemma sdrop_length n s : String.length (sdrop n s) = (String.length s - n)%nat.
Proof. revert s. induction n as [|n IH]; intros [|c s]; simpl; try lia. apply IH. Qed.

Lemma stake_length n s : String.length (stake n s) = Nat.min n (String.length s).
Proof. revert s. induction n as [|n IH]; intros [|c s]; simpl; try lia. by rewrite IH. Qed.

Lemma stake_all n s : (String.length s <= n)%nat -> stake n s = s.
Proof.
  revert s. induction n as [|n IH]; intros [|c s]; simpl; intros H; try done; try lia.
  by rewrite IH by lia.
Qed.

Lemma stake_sdrop n s : stake n s +++ sdrop n s = s.
Proof. revert s. induction n as [|n IH]; intros [|c s]; simpl; try done. by rewrite IH. Qed.

Lemma sall_app P a b : sall P (a +++ b) = sall P a && sall P b.
Proof. induction a as [|x a IH]; simpl; [done|by rewrite IH, andb_assoc]. Qed.

Lemma sall_impl (P Q : Ascii.ascii -> bool) s :
  (forall c, P c = true -> Q c = true) -> sall P s = true -> sall Q s = true.
Proof.
  intros HPQ. induction s as [|c s IH]; simpl; [done|].
  intros H. bool_to_prop. by rewrite HPQ, IH.
Qed.

Lemma prefixb_app p s : prefixb p (p +++ s) = true.
Proof. induction p as [|c p IH]; simpl; [done|]. by rewrite Ascii.eqb_refl. Qed.

Lemma prefixb_spec p s : prefixb p s = true <-> exists t, s = p +++ t.
Proof.
  split; [|by intros [t ->]; apply prefixb_app].
  revert s. induction p as [|c p IH]; intros s H; simpl; [by exists s|].
  destruct s as [|d s]; [done|]. simpl in H.
  destruct (Ascii.eqb_spec c d) as [->|]; [|done].
  destruct (IH s H) as [t ->]. by exists t.
Qed.

Lemma prefixb_length p s : prefixb p s = true -> (String.length p <= String.length s)%nat.
Proof. intros [t ->]%prefixb_spec. rewrite sapp_length. lia. Qed.

(** [index_of] finds the first occurrence. *)
Lemma index_of_Some p s n :
  index_of p s = Some n -> exists a b, s = a +++ p +++ b /\ String.length a = n.
Proof.
  revert n. induction s as [|c s IH]; intros n; simpl.
  - destruct (prefixb p "") eqn:E; [|done]. intros [= <-].
    apply prefixb_spec in E as [t ->]. by exists "", t.
  - destruct (prefixb p (String c s)) eqn:E.
    + intros [= <-]. apply prefixb_spec in E as [t ->]. by exists "", t.
    + destruct (index_of p s) as [m|]; [|done]. intros [= <-].
      destruct (IH m eq_refl) as (a & b & -> & <-). by exists (String c a), b.
Qed.

Lemma index_of_None p s : index_of p s = None -> forall a b, s <> a +++ p +++ b.
Proof.
  induction s as [|c s IH]; simpl; destruct (prefixb p _) eqn:E; try done; intros H a b Heq.
  - destruct a; [|done]. simpl in Heq. rewrite Heq in E. by rewrite prefixb_app in E.
  - destruct (index_of p s) eqn:E2; [done|]. destruct a as [|d a]; simpl in Heq.
    + rewrite Heq in E. by rewrite prefixb_app in E.
    + injection Heq as _ Heq. by apply (IH eq_refl a b).
Qed.

Lemma contains_spec s p : contains s p = true <-> exists a b, s = a +++ p +++ b.
Proof.
  unfold contains. destruct (index_of p s) eqn:E.
  - split; [|done]. intros _. apply index_of_Some in E as (a & b & -> & _). by exists a, b.
  - split; [done|]. intros (a & b & Heq). by apply (index_of_None p s E a b) in Heq.
Qed.

(** [replace] with a string pattern rewrites the first occurrence. *)
Lemma replace_first_index p r s :
  replace_first p r s =
  match index_of p s with
  | Some n => stake n s +++ r +++ sdrop (n + String.length p) s
  | None => s
  end.
Proof.
  induction s as [|c s IH]; simpl; destruct (prefixb p _) eqn:E; simpl; try done.
  - rewrite IH. by destruct (index_of p s).
Qed.

Lemma replace_first_length p r s :
  contains s p = true ->
  (String.length (replace_first p r s) + String.length p
   = String.length s + String.length r)%nat.
Proof.
  unfold contains. rewrite replace_first_index. destruct (index_of p s) eqn:E; [|done].
  intros _. apply index_of_Some in E as (a & b & -> & <-).
  rewrite !sapp_length, stake_length, sdrop_length, !sapp_length. lia.
Qed.

Lemma slen_nonneg s : 0 <= slen s.
Proof. unfold slen. lia. Qed.

(** ** Digits *)
Lemma digit_char_ok d : 0 <= d < 10 -> is_digit (digit_char d) = true /\ digit_val (digit_char d) = d.
Proof.
  intros H. unfold is_digit, digit_val, digit_char.
  rewrite Ascii.nat_ascii_embedding by lia.
  split; [|lia]. apply andb_true_iff; split; apply Nat.leb_le; lia.
Qed.

Lemma digits_val_udigits fuel z acc :
  0 <= z < 10 ^ Z.of_nat fuel -> digits_val 0 (udigits fuel z acc) = digits_val z acc.
Proof.
  revert z acc. induction fuel as [|f IH]; intros z acc [H0 H1].
  - simpl in *. by replace z with 0 by lia.
  - cbn [udigits]. rewrite Nat2Z.inj_succ, Z.pow_succ_r in H1 by lia.
    destruct (Z.ltb_spec z 10).
    + cbn [digits_val]. destruct (digit_char_ok z) as [-> ->]; [lia|]. f_equal; lia.
    + rewrite IH by (split; [apply Z.div_pos; lia|apply Z.div_lt_upper_bound; lia]).
      cbn [digits_val]. pose proof (Z.mod_pos_bound z 10 ltac:(lia)).
      destruct (digit_char_ok (z mod 10)) as [-> ->]; [lia|].
      f_equal. pose proof (Z.div_mod z 10). lia.
Qed.

Lemma nat_digits_fuel z : 0 <= z -> z < 10 ^ Z.of_nat (S (Z.to_nat (Z.log2 z))).
Proof.
  intros H. pose proof (Z.log2_nonneg z).
  rewrite Nat2Z.inj_succ, Z2Nat.id by lia.
  destruct (Z.eq_dec z 0) as [->|]; [done|].
  destruct (Z.log2_spec z) as [_ Hlt]; [lia|].
  eapply Z.lt_le_trans; [apply Hlt|]. apply Z.pow_le_mono_l. lia.
Qed.

(** Printing then reading gives the number back. *)
Lemma digits_val_nat_digits z : 0 <= z -> digits_val 0 (nat_digits z) = Some z.
Proof. intros H. unfold nat_digits. by rewrite digits_val_udigits by (split; [done|by apply nat_digits_fuel]). Qed.

Lemma udigits_digits fuel z acc :
  0 <= z -> sall is_digit acc = true -> sall is_digit (udigits fuel z acc) = true.
Proof.
  revert z acc. induction fuel as [|f IH]; intros z acc Hz Ha; cbn [udigits]; [done|].
  destruct (Z.ltb_spec z 10).
  - cbn [sall]. destruct (digit_char_ok z) as [-> _]; [lia|done].
  - apply IH; [apply Z.div_pos; lia|]. cbn [sall].
    pose proof (Z.mod_pos_bound z 10 ltac:(lia)).
    destruct (digit_char_ok (z mod 10)) as [-> _]; [lia|done].
Qed.

Lemma nat_digits_digits z : 0 <= z -> sall is_digit (nat_digits z) = true.
Proof. intros H. by apply udigits_digits. Qed.

Lemma udigits_nonempty fuel z acc : udigits (S fuel) z acc <> EmptyString.
Proof.
  revert z acc. induction fuel as [|f IH]; intros z acc; cbn [udigits].
  - by destruct (z <? 10).
  - destruct (z <? 10); [done|]. apply IH.
Qed.

Lemma nat_digits_nonempty z : nat_digits z <> EmptyString.
Proof. apply udigits_nonempty. Qed.

Lemma Z_to_string_nonneg z : 0 <= z -> Z_to_string z = nat_digits z.
Proof. intros H. unfold Z_to_string. by destruct (Z.ltb_spec z 0); [lia|]. Qed.

Lemma digits_val_all a s v : digits_val a s = Some v -> sall is_digit s = true.
Proof.
  revert a. induction s as [|c s IH]; simpl; intros a H; [done|].
  destruct (is_digit c); [|done]. by rewrite (IH _ H).
Qed.

Lemma digits_val_total a s : sall is_digit s = true -> exists v, digits_val a s = Some v.
Proof.
  revert a. induction s as [|c s IH]; simpl; intros a H; [by eexists|].
  destruct (is_digit c); [|done]. by apply IH.
Qed.

Lemma is_digit_val c : is_digit c = true -> 0 <= digit_val c <= 9.
Proof.
  unfold is_digit, digit_val. intros H. apply andb_true_iff in H as [H1 H2].
  apply Nat.leb_le in H1, H2. lia.
Qed.

(** ** Splitting at a one-character separator *)
Definition not_char (c d : Ascii.ascii) : bool := negb (Ascii.eqb c d).

Lemma js_split_char_cons c p rest :
  sall (not_char c) p = true ->
  js_split (p +++ String c rest) (String c EmptyString)
  = p :: js_split rest (String c EmptyString).
Proof.
  unfold js_split. induction p as [|d p IH]; simpl; intros H.
  - rewrite Ascii.eqb_refl. simpl. by destruct (js_split_go _ _ rest).
  - apply andb_true_iff in H as [H1 H2]. unfold not_char in H1.
    destruct (Ascii.eqb c d); [done|]. simpl. specialize (IH H2).
    destruct (js_split_go (String c "") 0 (p +++ String c rest)) as [h t].
    destruct (js_split_go (String c "") 0 rest) as [h' t']. by injection IH as -> ->.
Qed.

Lemma js_split_char_none c p :
  sall (not_char c) p = true -> js_split p (String c EmptyString) = [p].
Proof.
  unfold js_split. induction p as [|d p IH]; simpl; intros H; [done|].
  apply andb_true_iff in H as [H1 H2]. unfold not_char in H1.
  destruct (Ascii.eqb c d); [done|]. simpl. specialize (IH H2).
  destruct (js_split_go (String c "") 0 p) as [h t]. by injection IH as -> ->.
Qed.

Lemma js_split_nonempty s sep : js_split s sep <> [].
Proof. unfold js_split. by destruct (js_split_go sep 0 s). Qed.

Lemma digits_not_char c s : is_digit c = false -> sall is_digit s = true -> sall (not_char c) s = true.
Proof.
  intros Hc. apply sall_impl. intros d Hd. unfold not_char.
  apply negb_true_iff, Ascii.eqb_neq. congruence.
Qed.

(** [join] undoes [split]. *)
Lemma join_split_char c s : join (String c EmptyString) (js_split s (String c EmptyString)) = s.
Proof.
  unfold js_split. induction s as [|d s IH]; simpl; [done|].
  destruct (js_split_go (String c "") 0 s) as [h t] eqn:E.
  destruct (Ascii.eqb_spec c d) as [->|]; simpl in *.
  - by rewrite IH.
  - destruct t; by rewrite <- IH.
Qed.

Lemma js_split_join c l :
  Forall (fun s => sall (not_char c) s = true) l -> l <> [] ->
  js_split (join (String c EmptyString) l) (String c EmptyString) = l.
Proof.
  induction l as [|s l IH]; intros H Hne; [done|]. inv H as [|? ? Hs Hl].
  destruct l as [|t l]; [by apply js_split_char_none|].
  cbn [join]. change (s +++ String c "" +++ ?x) with (s +++ String c x).
  rewrite js_split_char_cons by done. f_equal. by apply IH.
Qed.

(** ** Ids made of parts
    An id [p id _ t]: the part behind the last bar, and the part between the known
    prefix and that bar. *)
Lemma last_index_of_char c a t :
  sall (not_char c) t = true -> last_index_of (String c "") (a +++ String c t) = Some (String.length a).
Proof.
  intros Ht. assert (Hnone : last_index_of (String c "") t = None).
  { induction t as [|d t IH]; [done|]. cbn [sall last_index_of] in *. bool_to_prop. rewrite IH by done. cbn [prefixb].
    unfold not_char in *. bool_to_prop. by destruct (Ascii.eqb c d). }
  induction a as [|d a IH]; cbn [String.append last_index_of String.length].
  - rewrite Hnone. cbn [prefixb]. by rewrite Ascii.eqb_refl.
  - by rewrite IH.
Qed.

Lemma stake_app a b : stake (String.length a) (a +++ b) = a.
Proof. induction a as [|c a IH]; simpl; [done|by rewrite IH]. Qed.

Lemma split_item_id c p i t :
  sall (not_char c) t = true ->
  let s := p +++ i +++ String c t in
  substring2 s (slen p) (lastIndexOf s (String c "")) = i /\
  substring1 s (lastIndexOf s (String c "") + 1) = t.
Proof.
  intros Ht s. subst s. assert (E : lastIndexOf (p +++ i +++ String c t) (String c "") = slen (p +++ i)).
  { unfold lastIndexOf. rewrite <- sapp_assoc, last_index_of_char by done. done. }
  rewrite E. unfold substring2, substring1, clamp, slen. rewrite !sapp_length. cbn [String.length]. split.
  - rewrite Z.max_r, Z.min_r by lia. rewrite Z.max_r by lia.
    replace (Z.to_nat _) with (String.length i) by lia.
    replace (Z.to_nat _) with (String.length p) by lia. by rewrite sdrop_app, stake_app.
  - replace (Z.to_nat _) with (String.length ((p +++ i) +++ String c "")) by (rewrite !sapp_length; cbn [String.length]; lia).
    replace (p +++ i +++ String c t) with (((p +++ i) +++ String c "") +++ t) by by rewrite !sapp_assoc.
    apply sdrop_app.
Qed.
