(* ===== verification/JsNum.v ===== *)
(** * JavaScript numbers
    A number is [NaN], an infinity or an exact rational in lowest terms; rounding
    to 53 bits, the difference between [0] and [-0] and exponents outside the
    double range are not modelled (every quantity the client computes is far
    inside them).  The conversions follow ECMAScript: [Number(s)] reads the whole
    string, [parseInt] and [parseFloat] its longest numeric prefix. *)
From Stdlib Require Import QArith Qround Qreduction.
From Stdlib Require Qcanon.
From S2P Require Import Prelude JsString.
Open Scope Z_scope.

Inductive num :=
| NaN
| Inf (negative : bool)
| Fin (q : Q).

Definition fin (q : Q) : num := Fin (Qred q).
Definition num_of_Z (z : Z) : num := Fin (inject_Z z).

(** ** Reading numerals *)
(** White space among the 8-bit characters: the space, tab to carriage return, and the
    no-break space. *)
Definition is_space (c : Ascii.ascii) : bool :=
  let n := Ascii.nat_of_ascii c in (Nat.eqb n 32 || (Nat.leb 9 n && Nat.leb n 13) || Nat.eqb n 160)%bool.

Fixpoint skip_space (s : string) : string :=
  match s with
  | String c s' => if is_space c then skip_space s' else s
  | EmptyString => EmptyString
  end.

Definition all_space (s : string) : bool := sall is_space s.

(** The longest prefix of digits, accumulated; how many there were; the rest. *)
Fixpoint take_digits (a : Z) (n : nat) (s : string) : Z * nat * string :=
  match s with
  | String c s' => if is_digit c then take_digits (10 * a + digit_val c) (S n) s' else (a, n, s)
  | EmptyString => (a, n, s)
  end.

Definition hex_val (c : Ascii.ascii) : option Z :=
  let n := Ascii.nat_of_ascii c in
  if is_digit c then Some (digit_val c)
  else if (Nat.leb 97 n && Nat.leb n 102)%bool then Some (Z.of_nat n - 87)
  else if (Nat.leb 65 n && Nat.leb n 70)%bool then Some (Z.of_nat n - 55)
  else None.
Fixpoint take_hex (a : Z) (n : nat) (s : string) : Z * nat * string :=
  match s with
  | String c s' =>
      match hex_val c with Some d => take_hex (16 * a + d) (S n) s' | None => (a, n, s) end
  | EmptyString => (a, n, s)
  end.

Definition take_sign (s : string) : bool * string :=
  match s with
  | String c s' =>
      if Ascii.eqb c "-"%char then (true, s')
      else if Ascii.eqb c "+"%char then (false, s') else (false, s)
  | EmptyString => (false, s)
  end.

Definition drop_char (c : Ascii.ascii) (s : string) : option string :=
  match s with
  | String c' s' => if Ascii.eqb c c' then Some s' else None
  | EmptyString => None
  end.

(** [m * 10^e] in lowest terms. *)
Definition scale10 (m e : Z) : Q :=
  if e <? 0 then Qred (Qmake m (Z.to_pos (10 ^ (- e)))) else inject_Z (m * 10 ^ e).

(** The exponent part, when it is complete. *)
Definition take_exp (s : string) : Z * string :=
  match s with
  | String c s' =>
      if (Ascii.eqb c "e"%char || Ascii.eqb c "E"%char)%bool then
        let '(neg, t) := take_sign s' in
        let '(e, n, rest) := take_digits 0 0 t in
        match n with O => (0, s) | _ => (if neg then - e else e, rest) end
      else (0, s)
  | EmptyString => (0, s)
  end.

(** An unsigned decimal literal at the head of [s], and what follows it. *)
Definition take_decimal (s : string) : option (Q * string) :=
  let '(ip, ni, r) := take_digits 0 0 s in
  let '(m, nf, r') :=
    match drop_char "."%char r with
    | Some t => let '(m, nf, r') := take_digits ip 0 t in
                match (ni + nf)%nat with O => (ip, O, r) | _ => (m, nf, r') end
    | None => (ip, O, r)
    end in
  match (ni + nf)%nat with
  | O => None
  | _ => let '(e, r'') := take_exp r' in Some (scale10 m (e - Z.of_nat nf), r'')
  end.

Definition signed (neg : bool) (q : Q) : num := fin (if neg then Qopp q else q).

Definition take_number (s : string) : option (num * string) :=
  let '(neg, t) := take_sign s in
  if prefixb "Infinity" t then Some (Inf neg, sdrop 8 t)
  else '(q, r) ← take_decimal t; Some (signed neg q, r).

(** [Number(s)], the conversion of the arithmetic operators and of [isNaN]. *)
Definition toNumber (s : string) : num :=
  let t := skip_space s in
  match t with
  | EmptyString => num_of_Z 0
  | _ =>
      if (prefixb "0x" t || prefixb "0X" t)%bool then
        let '(v, n, r) := take_hex 0 0 (sdrop 2 t) in
        match n with O => NaN | _ => if sall is_space r then num_of_Z v else NaN end
      else
        match take_number t with
        | Some (v, r) => if sall is_space r then v else NaN
        | None => NaN
        end
  end.

(** [parseInt(s)] with no radix (ECMAScript 5: a leading 0 does not mean octal);
    [None] is [NaN]. *)
Definition parseInt (s : string) : option Z :=
  let '(neg, t) := take_sign (skip_space s) in
  let '(v, n, _) :=
    if (prefixb "0x" t || prefixb "0X" t)%bool then take_hex 0 0 (sdrop 2 t)
    else take_digits 0 0 t in
  match n with O => None | _ => Some (if neg then - v else v) end.

(** [parseInt(s, 10)] *)
Definition parseInt10 (s : string) : option Z :=
  let '(neg, t) := take_sign (skip_space s) in
  let '(v, n, _) := take_digits 0 0 t in
  match n with O => None | _ => Some (if neg then - v else v) end.

Definition parseFloat (s : string) : num :=
  match take_number (skip_space s) with Some (v, _) => v | None => NaN end.

(** ** Arithmetic *)
Definition isNaN (x : num) : bool := match x with NaN => true | _ => false end.

Definition Qtrunc (q : Q) : Z := Z.quot (Qnum q) (Zpos (Qden q)).

(** [parseInt(x)] of a number: truncation.  (Printing in exponent form, which
    changes the answer from 1e21 on and below 1e-6, is out of range here.) *)
Definition parseInt_num (x : num) : option Z :=
  match x with Fin q => Some (Qtrunc q) | _ => None end.

Definition of_parse (o : option Z) : num :=
  match o with Some z => num_of_Z z | None => NaN end.

Definition Q_sign_neg (q : Q) : bool := Qnum q <? 0.
Definition Q_is0 (q : Q) : bool := Qnum q =? 0.

Definition num_neg (x : num) : num :=
  match x with NaN => NaN | Inf s => Inf (negb s) | Fin q => Fin (Qopp q) end.
Definition num_add (x y : num) : num :=
  match x, y with
  | NaN, _ | _, NaN => NaN
  | Inf s, Inf t => if Bool.eqb s t then Inf s else NaN
  | Inf s, Fin _ | Fin _, Inf s => Inf s
  | Fin p, Fin q => fin (p + q)
  end.
Definition num_sub (x y : num) : num := num_add x (num_neg y).
Definition num_mul (x y : num) : num :=
  match x, y with
  | NaN, _ | _, NaN => NaN
  | Inf s, Inf t => Inf (xorb s t)
  | Inf s, Fin q | Fin q, Inf s => if Q_is0 q then NaN else Inf (xorb s (Q_sign_neg q))
  | Fin p, Fin q => fin (p * q)
  end.
Definition num_div (x y : num) : num :=
  match x, y with
  | NaN, _ | _, NaN => NaN
  | Inf _, Inf _ => NaN
  | Inf s, Fin q => Inf (xorb s (Q_sign_neg q))
  | Fin _, Inf _ => num_of_Z 0
  | Fin p, Fin q =>
      if Q_is0 q then (if Q_is0 p then NaN else Inf (Q_sign_neg p)) else fin (p / q)
  end.
(** [x % y]: the remainder has the sign of [x]. *)
Definition num_mod (x y : num) : num :=
  match x, y with
  | NaN, _ | _, NaN => NaN
  | Inf _, _ => NaN
  | Fin p, Inf _ => Fin p
  | Fin p, Fin q => if Q_is0 q then NaN else fin (p - q * inject_Z (Qtrunc (p / q)))
  end.
Definition num_ltb (x y : num) : bool :=
  match x, y with
  | NaN, _ | _, NaN => false
  | Inf s, Inf t => s && negb t
  | Inf s, Fin _ => s
  | Fin _, Inf t => negb t
  | Fin p, Fin q => negb (Qle_bool q p)
  end.
Definition num_gtb (x y : num) : bool := num_ltb y x.
Definition num_leb (x y : num) : bool :=
  match x, y with
  | NaN, _ | _, NaN => false
  | Inf s, Inf t => s || negb t
  | Inf s, Fin _ => s
  | Fin _, Inf t => negb t
  | Fin p, Fin q => Qle_bool p q
  end.
Definition num_eqb (x y : num) : bool :=
  match x, y with
  | NaN, _ | _, NaN => false
  | Inf s, Inf t => Bool.eqb s t
  | Fin p, Fin q => Qeq_bool p q
  | _, _ => false
  end.
(** [Math.ceil(x)] *)
Definition num_ceil (x : num) : num :=
  match x with Fin q => num_of_Z (Qceiling q) | _ => x end.

(** [String(x)].  The digits of a number that is not an integer are produced by
    the engine: [frac] stands for them. *)
Definition num_to_string (frac : Q -> string) (x : num) : string :=
  match x with
  | NaN => "NaN"
  | Inf false => "Infinity"
  | Inf true => "-Infinity"
  | Fin q => if Pos.eqb (Qden (Qred q)) 1 then Z_to_string (Qnum (Qred q)) else frac q
  end.

(** ** Lemmas *)
Lemma is_digit_not_space c : is_digit c = true -> is_space c = false.
Proof.
  unfold is_digit, is_space. intros H. apply andb_true_iff in H as [H1 H2].
  apply Nat.leb_le in H1, H2.
  apply orb_false_iff; split; [apply orb_false_iff; split; [apply Nat.eqb_neq; lia|]|apply Nat.eqb_neq; lia].
  apply andb_false_iff; right. apply Nat.leb_gt. lia.
Qed.

Lemma is_digit_neq c d : is_digit c = true -> is_digit d = false -> Ascii.eqb c d = false.
Proof. intros H1 H2. apply Ascii.eqb_neq. congruence. Qed.

Lemma take_digits_app a n s r v :
  digits_val a s = Some v ->
  match r with String c _ => is_digit c = false | EmptyString => True end ->
  take_digits a n (s +++ r) = (v, (n + String.length s)%nat, r).
Proof.
  intros H Hr. revert a n H. induction s as [|c s IH]; intros a n H; simpl in *.
  - injection H as ->. replace (n + 0)%nat with n by lia.
    destruct r as [|c r]; simpl; [done|]. by rewrite Hr.
  - destruct (is_digit c); [|done]. rewrite (IH _ _ H). do 2 f_equal. lia.
Qed.

Lemma take_digits_all a n s v :
  digits_val a s = Some v -> take_digits a n s = (v, (n + String.length s)%nat, EmptyString).
Proof. intros H. rewrite <- (sapp_nil_r s) at 1. by apply take_digits_app. Qed.

Section digit_strings.
Context (s : string) (v : Z) (Hne : s <> EmptyString) (Hv : digits_val 0 s = Some v).

Lemma digit_head : exists c t, s = String c t /\ is_digit c = true.
Proof using Hne Hv.
    destruct s as [|c t]; [done|]. exists c, t. split; [done|].
    apply digits_val_all in Hv. simpl in Hv. by destruct (is_digit c).
Qed.

Lemma skip_space_digits : skip_space s = s.
Proof using Hne Hv.
    destruct digit_head as (c & t & -> & Hc). simpl. by rewrite is_digit_not_space.
Qed.

Lemma take_sign_digits : take_sign s = (false, s).
Proof using Hne Hv.
    destruct digit_head as (c & t & -> & Hc). cbn [take_sign].
    by rewrite !(is_digit_neq c) by done.
Qed.

Lemma not_hex_digits : (prefixb "0x" s || prefixb "0X" s)%bool = false.
Proof using Hne Hv.
    destruct digit_head as (c & t & Hs & Hc). pose proof (digits_val_all _ _ _ Hv) as Ha.
    rewrite Hs in *. destruct t as [|d t]; cbn [prefixb sall] in *.
    { by rewrite !andb_false_r. }
    apply andb_true_iff in Ha as [_ Ha]. apply andb_true_iff in Ha as [Hd _].
    rewrite (Ascii.eqb_sym "x"), (Ascii.eqb_sym "X"), !(is_digit_neq d) by done.
    by rewrite !andb_false_r.
Qed.

Lemma not_infinity_digits : prefixb "Infinity" s = false.
Proof using Hne Hv.
    destruct digit_head as (c & t & -> & Hc). cbn [prefixb].
    by rewrite Ascii.eqb_sym, (is_digit_neq c).
Qed.

Lemma digits_length : String.length s = S (String.length s - 1).
Proof using Hne Hv. destruct s; [done|simpl; lia]. Qed.

Lemma parseInt_digits : parseInt s = Some v.
Proof using Hne Hv.
    unfold parseInt. rewrite skip_space_digits, take_sign_digits, not_hex_digits.
    rewrite (take_digits_all _ _ _ _ Hv), digits_length. done.
Qed.

Lemma parseInt10_digits : parseInt10 s = Some v.
Proof using Hne Hv.
    unfold parseInt10. rewrite skip_space_digits, take_sign_digits.
    rewrite (take_digits_all _ _ _ _ Hv), digits_length. done.
Qed.

Lemma Qred_inject_Z z : Qred (inject_Z z) = inject_Z z.
Proof. apply Qcanon.Qred_identity. simpl. apply Z.gcd_1_r. Qed.

Lemma take_number_digits : take_number s = Some (num_of_Z v, EmptyString).
Proof using Hne Hv.
    unfold take_number. rewrite take_sign_digits, not_infinity_digits.
    unfold take_decimal. rewrite (take_digits_all _ _ _ _ Hv), digits_length. simpl.
    unfold signed, fin, scale10, num_of_Z. simpl.
    rewrite Z.mul_1_r. by rewrite Qred_inject_Z.
Qed.

Lemma toNumber_digits : toNumber s = num_of_Z v.
Proof using Hne Hv.
    unfold toNumber. rewrite skip_space_digits, not_hex_digits, take_number_digits. simpl.
    destruct s; [done|reflexivity].
Qed.

Lemma parseFloat_digits : parseFloat s = num_of_Z v.
Proof using Hne Hv. unfold parseFloat. by rewrite skip_space_digits, take_number_digits. Qed.
End digit_strings.

Lemma parseInt_Z_to_string z : 0 <= z -> parseInt (Z_to_string z) = Some z.
Proof.
  intros H. rewrite Z_to_string_nonneg by done.
  apply parseInt_digits; [apply nat_digits_nonempty|by apply digits_val_nat_digits].
Qed.

Lemma parseInt10_Z_to_string z : 0 <= z -> parseInt10 (Z_to_string z) = Some z.
Proof.
  intros H. rewrite Z_to_string_nonneg by done.
  apply parseInt10_digits; [apply nat_digits_nonempty|by apply digits_val_nat_digits].
Qed.

Lemma toNumber_Z_to_string z : 0 <= z -> toNumber (Z_to_string z) = num_of_Z z.
Proof.
  intros H. rewrite Z_to_string_nonneg by done.
  apply toNumber_digits; [apply nat_digits_nonempty|by apply digits_val_nat_digits].
Qed.

Lemma Z_to_string_inj x y : 0 <= x -> 0 <= y -> Z_to_string x = Z_to_string y -> x = y.
Proof.
  intros Hx Hy H. apply (f_equal parseInt) in H.
  rewrite !parseInt_Z_to_string in H by done. by injection H.
Qed.

(** ** Arithmetic on integers *)
Lemma num_add_Z a b : num_add (num_of_Z a) (num_of_Z b) = num_of_Z (a + b).
Proof.
  unfold num_add, num_of_Z, fin. f_equal. rewrite <- (Qred_inject_Z (a + b)).
  apply Qred_complete. by rewrite inject_Z_plus.
Qed.
Lemma num_neg_Z a : num_neg (num_of_Z a) = num_of_Z (- a).
Proof. done. Qed.
Lemma num_sub_Z a b : num_sub (num_of_Z a) (num_of_Z b) = num_of_Z (a - b).
Proof. unfold num_sub. by rewrite num_neg_Z, num_add_Z. Qed.
Lemma num_mul_Z a b : num_mul (num_of_Z a) (num_of_Z b) = num_of_Z (a * b).
Proof.
  unfold num_mul, num_of_Z, fin. f_equal. rewrite <- (Qred_inject_Z (a * b)).
  apply Qred_complete. by rewrite inject_Z_mult.
Qed.
Lemma num_ltb_Z a b : num_ltb (num_of_Z a) (num_of_Z b) = (a <? b).
Proof.
  simpl. unfold Qle_bool. simpl. rewrite !Z.mul_1_r. by rewrite Z.leb_antisym, negb_involutive.
Qed.
Lemma num_gtb_Z a b : num_gtb (num_of_Z a) (num_of_Z b) = (b <? a).
Proof. apply num_ltb_Z. Qed.
Lemma num_leb_Z a b : num_leb (num_of_Z a) (num_of_Z b) = (a <=? b).
Proof. simpl. unfold Qle_bool. simpl. by rewrite !Z.mul_1_r. Qed.
Lemma num_eqb_Z a b : num_eqb (num_of_Z a) (num_of_Z b) = (a =? b).
Proof. simpl. unfold Qeq_bool. simpl. rewrite !Z.mul_1_r. done. Qed.
Lemma num_to_string_Z frac z : num_to_string frac (num_of_Z z) = Z_to_string z.
Proof. unfold num_to_string, num_of_Z. rewrite Qred_inject_Z. done. Qed.
Lemma parseInt_num_Z z : parseInt_num (num_of_Z z) = Some z.
Proof. unfold parseInt_num, num_of_Z, Qtrunc. simpl. by rewrite Z.quot_1_r. Qed.

(** [Math.ceil(a / b)] on integers, [b > 0]. *)
Lemma num_ceil_div a b :
  0 < b -> num_ceil (num_div (num_of_Z a) (num_of_Z b)) = num_of_Z (- ((- a) / b)).
Proof.
  intros H. unfold num_div, num_of_Z, Q_is0. simpl.
  destruct (Z.eqb_spec b 0); [lia|]. unfold fin, num_ceil, num_of_Z. do 2 f_equal.
  rewrite (Qceiling_comp _ _ (Qred_correct _)). unfold Qceiling, Qfloor.
  destruct b as [|b|b]; try lia. unfold Qdiv, Qmult, Qinv, Qopp. simpl.
  by rewrite Z.mul_1_r.
Qed.

(** [a % b] on non-negative integers. *)
Lemma num_mod_Z a b :
  0 <= a -> 0 < b -> num_mod (num_of_Z a) (num_of_Z b) = num_of_Z (a mod b).
Proof.
  intros Ha H. unfold num_mod, num_of_Z, Q_is0. simpl.
  destruct (Z.eqb_spec b 0); [lia|]. unfold fin. f_equal.
  rewrite <- (Qred_inject_Z (a mod b)). apply Qred_complete.
  destruct b as [|b|b]; try lia. unfold Qdiv, Qtrunc, Qinv, Qmult. simpl.
  rewrite Z.mul_1_r. rewrite Z.quot_div_nonneg by lia.
  rewrite Z.mod_eq by lia. unfold Qeq, Qminus, Qplus, Qopp, Qmult, inject_Z. cbn -[Z.div Z.mul Z.add]. rewrite !Pos.mul_1_l. ring.
Qed.

#[export] Hint Rewrite parseInt_Z_to_string parseInt10_Z_to_string toNumber_Z_to_string
  using lia : js_rw.
#[export] Hint Rewrite num_add_Z num_sub_Z num_mul_Z num_ltb_Z num_gtb_Z num_leb_Z num_eqb_Z
  num_to_string_Z parseInt_num_Z : js_rw.

Lemma take_digits_inv s : forall a n v m r,
  take_digits a n s = (v, m, r) ->
  exists p, s = p +++ r /\ digits_val a p = Some v /\ m = (n + String.length p)%nat /\
            match r with String c _ => is_digit c = false | EmptyString => True end.
Proof.
  induction s as [|c s IH]; simpl; intros a n v m r.
  - intros [= <- <- <-]. exists EmptyString. simpl. repeat split; try done; lia.
  - destruct (is_digit c) eqn:Ec.
    + intros H. destruct (IH _ _ _ _ _ H) as (p & -> & Hv & -> & Hr).
      exists (String c p). simpl. rewrite Ec. repeat split; try done; lia.
    + intros [= <- <- <-]. exists EmptyString. simpl. repeat split; try done; lia.
Qed.

Lemma num_of_Z_inj a b : num_of_Z a = num_of_Z b -> a = b.
Proof. by intros [= ->]. Qed.
