(* ===== verification/JsVal.v ===== *)
(** * JavaScript values
    The values that the client passes around without looking inside: callbacks,
    context parameters, possibly absent arguments. *)
From S2P Require Import Prelude JsString JsNum.
Open Scope Z_scope.

Inductive jsval :=
| Undefined
| Null
| JStr (s : string)
| JNum (z : Z)
| JBool (b : bool)
| JFun (name : string)
| JObj (name : string).

#[export] Instance jsval_eq_dec : EqDecision jsval.
Proof. solve_decision. Defined.

(** The condition of [if (v)]. *)
Definition truthy (v : jsval) : bool :=
  match v with
  | Undefined | Null => false
  | JStr s => negb (String.eqb s "")
  | JNum z => negb (z =? 0)
  | JBool b => b
  | JFun _ | JObj _ => true
  end.

(** Conversion by the relational operators. *)
Definition val_num (v : jsval) : num :=
  match v with
  | Undefined => NaN
  | Null => num_of_Z 0
  | JStr s => toNumber s
  | JNum z => num_of_Z z
  | JBool b => num_of_Z (if b then 1 else 0)
  | JFun _ | JObj _ => NaN
  end.

(** [v == n] for a number [n]: [null] and [undefined] equal no number. *)
Definition eq_number (v : jsval) (n : Z) : bool :=
  match v with
  | Undefined | Null => false
  | _ => num_eqb (val_num v) (num_of_Z n)
  end.

Definition is_function (v : jsval) : bool := match v with JFun _ => true | _ => false end.

(** [v == s] for a string [s] that is not the text of a number. *)
Definition eq_string (v : jsval) (s : string) : bool :=
  match v with JStr t => String.eqb t s | _ => false end.

Definition val_string (v : jsval) : string :=
  match v with
  | Undefined => "undefined"
  | Null => "null"
  | JStr s => s
  | JNum z => Z_to_string z
  | JBool true => "true"
  | JBool false => "false"
  | JFun name => name
  | JObj _ => "[object Object]"
  end.

(** [unescape(s)]: [%XX] becomes the character with that code.  ([%uXXXX] denotes
    a 16-bit unit, outside the 8-bit strings modelled here, and is left as it is.) *)
Fixpoint unescape (s : string) : string :=
  match s with
  | EmptyString => EmptyString
  | String c s' =>
      if Ascii.eqb c "%"%char then
        match s' with
        | String a (String b t) =>
            match hex_val a, hex_val b with
            | Some x, Some y => String (Ascii.ascii_of_nat (Z.to_nat (16 * x + y))) (unescape t)
            | _, _ => String c (unescape s')
            end
        | _ => String c (unescape s')
        end
      else String c (unescape s')
  end.
