(* ===== verification/Ui.v ===== *)
(** * Observable effects of the client
    The dialog boxes, focus changes, form submissions, timers and requests that a
    handler performs, recorded in the order in which it performs them. *)
From S2P Require Import Prelude.

Inductive effect :=
| Alert (msg : string)
| Focus (elem : string)
| Submit (form : string)
| Timer (code : string) (ms : Z)
| Request (url callback method param : string)
| Call (code : string).          (** a function of the page *)

#[export] Instance effect_eq_dec : EqDecision effect.
Proof. solve_decision. Defined.

(** What a form handler does: its effects, and whether it returned [false]
    (otherwise it falls off its end). *)
Record handler_result := HandlerResult { effects : list effect; returned_false : bool }.

Definition rejects (fx : list effect) : handler_result := HandlerResult fx true.
Definition accepts (fx : list effect) : handler_result := HandlerResult fx false.

Definition submits (form : string) (r : handler_result) : bool :=
  bool_decide (Submit form ∈ effects r).

Lemma submits_accepts f : submits f (accepts [Submit f]) = true.
Proof. apply bool_decide_true. by constructor. Qed.

Lemma submits_alert f m : submits f (rejects [Alert m]) = false.
Proof. apply bool_decide_false. cbn. rewrite !elem_of_cons, elem_of_nil. intuition congruence. Qed.

Lemma submits_alert_focus f m e : submits f (rejects [Alert m; Focus e]) = false.
Proof. apply bool_decide_false. cbn. rewrite !elem_of_cons, elem_of_nil. intuition congruence. Qed.

#[export] Hint Rewrite submits_accepts submits_alert submits_alert_focus : js_rw.
