(* ===== verification/Validation.v ===== *)
(** * Field validation (utilities.js, ipvalidation.js)
    [trim], [isPosInteger], [isValidIP] and [isValidPort], with the regular
    expressions they test written as recognisers. *)
From S2P Require Import Prelude JsString JsNum.
Open Scope Z_scope.

(** ** utilities.js *)

(** [while (value.charAt(0) == ' ') value = value.substring(1);] *)
Fixpoint trim_front (fuel : nat) (value : string) : string :=
  match fuel with
  | O => value
  | S fuel =>
      if String.eqb (charAt value 0) " " then trim_front fuel (substring1 value 1) else value
  end.

(** [while (value.charAt(value.length-1) == ' ') value = value.substring(0, value.length-1);] *)
Fixpoint trim_back (fuel : nat) (value : string) : string :=
  match fuel with
  | O => value
  | S fuel =>
      if String.eqb (charAt value (slen value - 1)) " "
      then trim_back fuel (substring2 value 0 (slen value - 1)) else value
  end.

(** Each iteration removes a character, so the length is enough fuel. *)
Definition trim (value : string) : string :=
  let value := trim_front (String.length value) value in
  trim_back (String.length value) value.

(** [new RegExp("^[0-9]+$").test(value)] *)
Definition re_digits (value : string) : bool :=
  match value with EmptyString => false | _ => sall is_digit value end.

Definition isPosInteger (value : string) : bool :=
  if negb (re_digits value) then false else true.

(** ** ipvalidation.js *)

(** [\d{1,3}] followed by a non-digit: the rest of the string. *)
Definition re_octet (s : string) : option string :=
  let '(_, n, r) := take_digits 0 0 s in
  if (Nat.leb 1 n && Nat.leb n 3)%bool then Some r else None.

(** [/^\d{1,3}\.\d{1,3}\.\d{1,3}\.\d{1,3}$/] *)
Definition re_ip (s : string) : bool :=
  match
    (s ← re_octet s; s ← drop_char "."%char s; s ← re_octet s; s ← drop_char "."%char s;
     s ← re_octet s; s ← drop_char "."%char s; re_octet s)
  with
  | Some EmptyString => true
  | _ => false
  end.

(** [parseInt(parseFloat(part))] *)
Definition octet_value (part : string) : option Z := parseInt_num (parseFloat part).

Definition isValidIP (ipaddr : string) : bool :=
  if re_ip ipaddr then
    let parts := js_split ipaddr "." in
    if match parts with
       | p :: _ => match octet_value p with Some v => v =? 0 | None => false end
       | [] => false
       end
    then false
    else if existsb (fun p => match octet_value p with Some v => 255 <? v | None => false end) parts
    then false
    else true
  else false.

Definition isValidPort (port : string) : bool :=
  let portval := re_digits port in
  if negb portval then false
  else if match parseInt port with Some v => (v <? 1) || (65535 <? v) | None => false end
  then false
  else true.

(** ** Lemmas *)
Fixpoint spaces (n : nat) : string :=
  match n with O => EmptyString | S n => String " "%char (spaces n) end.

Lemma spaces_snoc n : spaces n +++ " " = spaces (S n).
Proof. induction n as [|n IH]; [done|]. simpl in *. by rewrite IH. Qed.

(** Specification of [trim]: no space at either end. *)
Definition trimmed (s : string) : Prop :=
  charAt s 0 <> " " /\ charAt s (slen s - 1) <> " ".

Lemma substring1_1 c s : substring1 (String c s) 1 = s.
Proof.
  unfold substring1, clamp, slen. simpl String.length.
  replace (Z.to_nat _) with 1%nat by lia. by destruct s.
Qed.

Lemma trim_front_spec fuel s :
  (String.length s <= fuel)%nat ->
  exists n, s = spaces n +++ trim_front fuel s /\ charAt (trim_front fuel s) 0 <> " ".
Proof.
  revert s. induction fuel as [|f IH]; intros s H.
  - destruct s; [|simpl in H; lia]. by exists O.
  - cbn [trim_front]. destruct (String.eqb_spec (charAt s 0) " ") as [E|E]; [|by exists O].
    destruct s as [|c s]; [done|]. injection E as ->.
    rewrite substring1_1. destruct (IH s) as (n & Heq & Hc); [simpl in H; lia|].
    exists (S n). split; [|done]. simpl. by rewrite <- Heq.
Qed.

(** The last character and what precedes it. *)
Lemma snoc_inv s : s <> EmptyString -> exists t c, s = t +++ String c EmptyString.
Proof.
  induction s as [|d s IH]; [done|]. intros _. destruct s as [|e s].
  - by exists EmptyString, d.
  - destruct IH as (t & c & ->); [done|]. by exists (String d t), c.
Qed.

Lemma charAt_last t c : charAt (t +++ String c EmptyString) (slen (t +++ String c EmptyString) - 1) = String c EmptyString.
Proof.
  unfold charAt, slen. rewrite sapp_length. simpl String.length.
  destruct (Z.ltb_spec (Z.of_nat (String.length t + 1) - 1) 0); [lia|].
  replace (Z.to_nat _) with (String.length t) by lia. by rewrite sdrop_app.
Qed.

Lemma substring2_init t c :
  substring2 (t +++ String c EmptyString) 0 (slen (t +++ String c EmptyString) - 1) = t.
Proof.
  unfold substring2, clamp, slen. rewrite sapp_length. simpl String.length.
  replace (Z.to_nat (Z.min _ _)) with O by lia. simpl sdrop.
  replace (Z.to_nat _) with (String.length t) by lia. apply stake_app.
Qed.

Lemma trim_back_spec fuel s :
  (String.length s <= fuel)%nat ->
  exists n, s = trim_back fuel s +++ spaces n /\
            charAt (trim_back fuel s) (slen (trim_back fuel s) - 1) <> " ".
Proof.
  revert s. induction fuel as [|f IH]; intros s H.
  - destruct s; [|simpl in H; lia]. by exists O.
  - cbn [trim_back]. destruct (String.eqb_spec (charAt s (slen s - 1)) " ") as [E|E].
    2:{ exists O. by rewrite sapp_nil_r. }
    destruct (decide (s = EmptyString)) as [->|Hs]; [done|].
    destruct (snoc_inv s Hs) as (t & c & ->). rewrite charAt_last in E. injection E as ->.
    rewrite substring2_init. rewrite sapp_length in H. simpl in H.
    destruct (IH t) as (n & Heq & Hc); [lia|]. exists (S n). split; [|done].
    rewrite Heq at 1. by rewrite sapp_assoc, spaces_snoc.
Qed.

(** What is left after dropping characters at the back starts the same way. *)
Lemma charAt0_app t u : t <> EmptyString -> charAt (t +++ u) 0 = charAt t 0.
Proof. destruct t as [|c t]; [done|]. intros _. cbn. by destruct t, u. Qed.

Lemma re_digits_spec s : re_digits s = true <-> s <> EmptyString /\ exists v, digits_val 0 s = Some v.
Proof.
  destruct s as [|c s]; [split; [done|by intros []]|].
  unfold re_digits. split.
  - intros H. split; [done|]. by apply digits_val_total.
  - intros [_ [v H]]. by eapply digits_val_all.
Qed.

(** An octet of a dotted quad: one to three digits. *)
Definition octet (p : string) (v : Z) : Prop :=
  digits_val 0 p = Some v /\ (1 <= String.length p <= 3)%nat.

Lemma octet_nonempty p v : octet p v -> p <> EmptyString.
Proof. intros [_ H] ->. simpl in H. lia. Qed.

Lemma octet_no_dot p v : octet p v -> sall (not_char "."%char) p = true.
Proof. intros [H _]. apply digits_not_char; [done|]. by eapply digits_val_all. Qed.

Lemma octet_value_octet p v : octet p v -> octet_value p = Some v.
Proof.
  intros H. unfold octet_value. rewrite (parseFloat_digits p v); [|by eapply octet_nonempty|apply H].
  apply parseInt_num_Z.
Qed.

Definition no_digit_head (r : string) : Prop :=
  match r with String c _ => is_digit c = false | EmptyString => True end.

Lemma re_octet_spec s r :
  re_octet s = Some r <-> exists p v, s = p +++ r /\ octet p v /\ no_digit_head r.
Proof.
  unfold re_octet. split.
  - destruct (take_digits 0 0 s) as [[v n] r'] eqn:E.
    apply take_digits_inv in E as (p & -> & Hv & -> & Hr).
    destruct (Nat.leb 1 _ && Nat.leb _ 3)%bool eqn:E; [|done]. intros [= <-].
    apply andb_true_iff in E as [E1 E2]. apply Nat.leb_le in E1, E2.
    exists p, v. repeat split; try done; lia.
  - intros (p & v & -> & [Hv Hl] & Hr). rewrite (take_digits_app _ _ _ _ _ Hv Hr). simpl.
    destruct (String.length p) as [|[|[|[|]]]]; simpl; try done; lia.
Qed.

Lemma drop_char_spec c s r : drop_char c s = Some r <-> s = String c r.
Proof.
  destruct s as [|d s]; simpl; [done|]. destruct (Ascii.eqb_spec c d) as [->|]; split; congruence.
Qed.

Definition dotted (a b c d : string) : string := a +++ "." +++ b +++ "." +++ c +++ "." +++ d.

Lemma re_ip_spec s :
  re_ip s = true <->
  exists a b c d va vb vc vd,
    s = dotted a b c d /\ octet a va /\ octet b vb /\ octet c vc /\ octet d vd.
Proof.
  unfold re_ip. split.
  - intros H.
    destruct (re_octet s) as [s1|] eqn:E1; [|done]. simpl in H.
    destruct (drop_char _ s1) as [t1|] eqn:D1; [|done]. simpl in H.
    destruct (re_octet t1) as [s2|] eqn:E2; [|done]. simpl in H.
    destruct (drop_char _ s2) as [t2|] eqn:D2; [|done]. simpl in H.
    destruct (re_octet t2) as [s3|] eqn:E3; [|done]. simpl in H.
    destruct (drop_char _ s3) as [t3|] eqn:D3; [|done]. simpl in H.
    destruct (re_octet t3) as [[|]|] eqn:E4; try done.
    apply drop_char_spec in D1, D2, D3. subst.
    apply re_octet_spec in E1 as (a & va & -> & Ha & _), E2 as (b & vb & -> & Hb & _),
      E3 as (c & vc & -> & Hc & _), E4 as (d & vd & -> & Hd & _).
    exists a, b, c, d, va, vb, vc, vd. by rewrite sapp_nil_r.
  - intros (a & b & c & d & va & vb & vc & vd & -> & Ha & Hb & Hc & Hd). unfold dotted.
    simpl.
    assert (Hdot : forall p v r, octet p v ->
      re_octet (p +++ String "."%char r) = Some (String "."%char r)).
    { intros p v r Hp. apply re_octet_spec. by exists p, v. }
    rewrite (Hdot _ _ _ Ha). simpl. rewrite (Hdot _ _ _ Hb). simpl.
    rewrite (Hdot _ _ _ Hc). simpl.
    assert (re_octet d = Some EmptyString) as ->; [|done].
    apply re_octet_spec. exists d, vd. by rewrite sapp_nil_r.
Qed.

Lemma split_dotted a b c d va vb vc vd :
  octet a va -> octet b vb -> octet c vc -> octet d vd ->
  js_split (dotted a b c d) "." = [a; b; c; d].
Proof.
  intros Ha Hb Hc Hd. unfold dotted. simpl.
  rewrite js_split_char_cons by (by eapply octet_no_dot). f_equal.
  rewrite js_split_char_cons by (by eapply octet_no_dot). f_equal.
  rewrite js_split_char_cons by (by eapply octet_no_dot). f_equal.
  apply js_split_char_none. by eapply octet_no_dot.
Qed.

Lemma isValidIP_dotted a b c d va vb vc vd :
  octet a va -> octet b vb -> octet c vc -> octet d vd ->
  isValidIP (dotted a b c d) =
  negb (va =? 0) && negb ((255 <? va) || (255 <? vb) || (255 <? vc) || (255 <? vd)).
Proof.
  intros Ha Hb Hc Hd. unfold isValidIP.
  replace (re_ip _) with true
    by (symmetry; apply re_ip_spec; exists a, b, c, d, va, vb, vc, vd; auto).
  rewrite (split_dotted _ _ _ _ _ _ _ _ Ha Hb Hc Hd). cbn [existsb].
  rewrite (octet_value_octet _ _ Ha), (octet_value_octet _ _ Hb), (octet_value_octet _ _ Hc),
    (octet_value_octet _ _ Hd).
  destruct (va =? 0); [done|]. rewrite orb_false_r, !orb_assoc.
  by destruct (_ || _).
Qed.

Lemma isValidPort_iff_digits s :
  isValidPort s = true -> s <> EmptyString /\ exists v, digits_val 0 s = Some v.
Proof.
  unfold isValidPort. destruct (re_digits s) eqn:E; [|done]. by apply re_digits_spec in E.
Qed.

(** ** Properties *)

(** [trim] removes exactly the spaces at both ends: the argument is the
    result with some spaces before and after it, and the result neither starts nor
    ends with a space. *)
Theorem trim_spec s :
  exists n m, s = spaces n +++ trim s +++ spaces m /\ trimmed (trim s).
Proof.
  unfold trim. destruct (trim_front_spec (String.length s) s) as (n & Hs & Hf); [lia|].
  set (t := trim_front (String.length s) s) in *.
  destruct (trim_back_spec (String.length t) t) as (m & Ht & Hb); [lia|].
  set (u := trim_back (String.length t) t) in *.
  exists n, m. rewrite <- Ht. split; [done|]. split; [|done].
  destruct (decide (u = EmptyString)) as [->|Hu]; [done|].
  by rewrite <- (charAt0_app u (spaces m) Hu), <- Ht.
Qed.

(** [isValidIP] accepts exactly the dotted quads of one- to three-digit
    decimal octets (leading zeros allowed) whose first octet is not 0 and whose
    octets are all at most 255. *)
Theorem isValidIP_iff s :
  isValidIP s = true <->
  exists a b c d va vb vc vd,
    s = dotted a b c d /\ octet a va /\ octet b vb /\ octet c vc /\ octet d vd /\
    va <> 0 /\ va <= 255 /\ vb <= 255 /\ vc <= 255 /\ vd <= 255.
Proof.
  split.
  - intros H. destruct (re_ip s) eqn:E; [|unfold isValidIP in H; by rewrite E in H].
    apply re_ip_spec in E as (a & b & c & d & va & vb & vc & vd & -> & Ha & Hb & Hc & Hd).
    rewrite (isValidIP_dotted _ _ _ _ _ _ _ _ Ha Hb Hc Hd) in H.
    exists a, b, c, d, va, vb, vc, vd. bool_to_prop. auto 12.
  - intros (a & b & c & d & va & vb & vc & vd & -> & Ha & Hb & Hc & Hd & ? & ? & ? & ? & ?).
    rewrite (isValidIP_dotted _ _ _ _ _ _ _ _ Ha Hb Hc Hd). lia.
Qed.

(** [isValidPort] accepts exactly the non-empty strings of decimal digits
    whose value lies between 1 and 65535. *)
Theorem isValidPort_iff s :
  isValidPort s = true <->
  s <> EmptyString /\ exists v, digits_val 0 s = Some v /\ 1 <= v <= 65535.
Proof.
  unfold isValidPort. destruct (re_digits s) eqn:E; simpl.
  - apply re_digits_spec in E as [Hne [v Hv]]. rewrite (parseInt_digits s v Hne Hv).
    split.
    + intros H. split; [done|]. exists v. split; [done|].
      destruct (Z.ltb_spec v 1), (Z.ltb_spec 65535 v); try done; lia.
    + intros [_ (w & Hw & Hr)]. rewrite Hv in Hw. injection Hw as <-.
      destruct (Z.ltb_spec v 1), (Z.ltb_spec 65535 v); try done; lia.
  - split; [done|]. intros [Hne (v & Hv & _)].
    assert (re_digits s = true) by (apply re_digits_spec; eauto). congruence.
Qed.
