(* ===== verification/ProtocolGroup.v ===== *)
(** * Protocol group pages (protocolgroup.js)
    The two-list editor that moves applications between the available and the
    selected list, and the handlers that validate and submit the three forms.
    A [SELECT] is the list of its options; a field that a page may lack is an option. *)
From S2P Require Import Prelude JsString JsNum Ui Validation.
Open Scope Z_scope.

(** An [OPTION] element. *)
Record listoption := ListOption { text : string; value : string; selected : bool }.

#[export] Instance listoption_eq_dec : EqDecision listoption.
Proof. solve_decision. Defined.

(** ** movelistitems *)

(** [new Option(text, value, false, false)] *)
Definition new_option (o : listoption) : listoption := ListOption (text o) (value o) false.

(** One iteration at index [i]: a selected entry is copied to the end of [dst]
    and [src.options[i] = null] removes it. *)
Definition move_step (i : nat) (src dst : list listoption) : list listoption * list listoption :=
  match src !! i with
  | Some o => if selected o then (delete i src, dst ++ [new_option o]) else (src, dst)
  | None => (src, dst)
  end.

(** [for (i = src.length-1; i >= 0; i--)]: [n] indices are left. *)
Fixpoint move_loop (n : nat) (src dst : list listoption) : list listoption * list listoption :=
  match n with
  | O => (src, dst)
  | S i => let '(src, dst) := move_step i src dst in move_loop i src dst
  end.

(** The pair (availableapps, selectedapps) after the move. *)
Definition movelistitems (direction : string) (available selectedapps : list listoption)
  : list listoption * list listoption :=
  if String.eqb direction "right" then
    move_loop (length available) available selectedapps
  else
    let '(src, dst) := move_loop (length selectedapps) selectedapps available in (dst, src).

(** ** Submission handlers *)
Definition select_option (o : listoption) : listoption := ListOption (text o) (value o) true.

Record groupform := GroupForm {
  protocolgroupname : option string;
  availableapps : list listoption;
  selectedapps : list listoption
}.

(** [form.selectedapps[i].selected = true] for every [i]. *)
Definition select_all (l : list listoption) : list listoption := map select_option l.

Definition set_selectedapps (form : groupform) (l : list listoption) : groupform :=
  GroupForm (protocolgroupname form) (availableapps form) l.

Definition blank (field : option string) : bool :=
  match field with Some v => String.eqb (trim v) "" | None => false end.

Definition validateForm (form : groupform) : groupform * handler_result :=
  if blank (protocolgroupname form) then
    (form, rejects [Alert "Please Enter Protocol Group"; Focus "protocolgroupname"])
  else if (Z.of_nat (length (selectedapps form)) <=? 0) then
    (form, rejects [Alert "Please Enter Protocols"; Focus "availableapps"])
  else
    (set_selectedapps form (select_all (selectedapps form)),
     accepts [Submit "frmAddProtocolGroup"]).

Definition validateProtocolForm (applicationname : option string) : handler_result :=
  if blank applicationname then
    rejects [Alert "Please Enter Protocol Name"; Focus "applicationname"]
  else accepts [Submit "frmAddProtocol"].

Record identifierform := IdentifierForm {
  txtFrom : string;
  txtTo : string;
  rdoPort : bool;
  rdoPortRange : bool;
  txtTo_disabled : bool
}.

Definition set_txtTo_disabled (form : identifierform) (b : bool) : identifierform :=
  IdentifierForm (txtFrom form) (txtTo form) (rdoPort form) (rdoPortRange form) b.
Definition disableElement (form : identifierform) : identifierform := set_txtTo_disabled form true.
Definition enableElement (form : identifierform) : identifierform := set_txtTo_disabled form false.

Definition onChangePortType (form : identifierform) : identifierform :=
  if rdoPort form then disableElement form else enableElement form.

(** [parseInt(a) >= parseInt(b)] *)
Definition parse_ge (a b : string) : bool :=
  match parseInt a, parseInt b with Some x, Some y => y <=? x | _, _ => false end.

Definition validateIdentifierForm (form : identifierform) : handler_result :=
  let startPort := trim (txtFrom form) in
  let endPort := trim (txtTo form) in
  if negb (isValidPort startPort) then
    rejects [Alert "Please enter only numerice value in range 1-65535 for From Port"; Focus "txtFrom"]
  else if rdoPortRange form && negb (isValidPort endPort) then
    rejects [Alert "Please enter only numerice value in range 1-65535 for To Port"; Focus "txtTo"]
  else if rdoPortRange form && parse_ge startPort endPort then
    rejects [Alert "From port must be less than To Port"]
  else accepts [Submit "frmProtocolIdentifier"].

(** ** changeImg
    The page elements the function touches: the visible image, the hidden field
    holding the other image's name, and the section's [display] style. *)
Record imgsection := ImgSection { src : string; hidden_value : string; display : string }.

Definition changeImg (s : imgsection) : imgsection :=
  let tempImg := src s in
  ImgSection (hidden_value s) tempImg (if String.eqb (display s) "none" then "" else "none").

(** ** Lemmas *)
Lemma move_loop_spec n src dst :
  (n <= length src)%nat ->
  move_loop n src dst =
  (filter (fun o => selected o = false) (take n src) ++ drop n src,
   dst ++ rev (map new_option (filter (fun o => selected o = true) (take n src)))).
Proof.
  revert src dst. induction n as [|n IH]; intros src dst H; simpl.
  { by rewrite app_nil_r. }
  destruct (lookup_lt_is_Some_2 src n ltac:(lia)) as [o Ho].
  unfold move_step. rewrite Ho, (take_S_r _ _ _ Ho), !list.filter_app.
  destruct (selected o) eqn:Es.
  - rewrite IH by (rewrite length_delete by eauto; lia).
    rewrite delete_take_drop, take_app_length', drop_app_length' by (rewrite length_take; lia).
    rewrite !filter_cons, !filter_nil. rewrite decide_False, decide_True by congruence.
    rewrite map_app, rev_app_distr, app_nil_r, <- app_assoc. done.
  - rewrite IH by lia. rewrite !filter_cons, !filter_nil.
    rewrite decide_True, decide_False, app_nil_r by congruence.
    by rewrite <- app_assoc, (drop_S _ _ _ Ho).
Qed.

Lemma move_all_spec src dst :
  move_loop (length src) src dst =
  (filter (fun o => selected o = false) src,
   dst ++ rev (map new_option (filter (fun o => selected o = true) src))).
Proof. rewrite move_loop_spec by lia. by rewrite take_ge, drop_ge, app_nil_r by lia. Qed.

(** An entry's identity: its text and value. *)
Definition entry (o : listoption) : string * string := (text o, value o).

Lemma filter_entries_perm (l : list listoption) :
  map entry (filter (fun o => selected o = false) l)
  ++ rev (map entry (filter (fun o => selected o = true) l)) ≡ₚ map entry l.
Proof.
  rewrite <- Permutation_rev. induction l as [|o l IH]; [done|].
  rewrite !filter_cons. destruct (selected o) eqn:E.
  - rewrite decide_False, decide_True by congruence. simpl. by rewrite <- Permutation_middle, IH.
  - rewrite decide_True, decide_False by congruence. simpl. by rewrite IH.
Qed.

Lemma map_entry_new l : map entry (map new_option l) = map entry l.
Proof. rewrite map_map. by apply map_ext. Qed.

Lemma moved_perm (src dst : list listoption) :
  map entry (filter (fun o => selected o = false) src)
  ++ map entry (dst ++ rev (map new_option (filter (fun o => selected o = true) src)))
  ≡ₚ map entry src ++ map entry dst.
Proof.
  rewrite map_app, map_rev, map_entry_new.
  rewrite <- (filter_entries_perm src). solve_Permutation.
Qed.

Lemma valid_port_value s :
  isValidPort s = true -> exists v, parseInt s = Some v /\ digits_val 0 s = Some v.
Proof.
  intros H. apply isValidPort_iff_digits in H as [Hne [v Hv]].
  exists v. split; [by apply parseInt_digits|done].
Qed.

(** ** Properties *)

(** Moving entries between the two lists: the unselected entries of the
    source list stay in order, the selected ones go to the end of the other list in
    reverse order and deselected, and no entry is lost or duplicated. *)
Theorem movelistitems_spec direction available chosen :
  let '(available', chosen') := movelistitems direction available chosen in
  (if String.eqb direction "right" then
     available' = filter (fun o => selected o = false) available /\
     chosen' = chosen ++ rev (map new_option (filter (fun o => selected o = true) available))
   else
     chosen' = filter (fun o => selected o = false) chosen /\
     available' = available ++ rev (map new_option (filter (fun o => selected o = true) chosen)))
  /\ map entry available' ++ map entry chosen' ≡ₚ map entry available ++ map entry chosen.
Proof.
  unfold movelistitems. destruct (String.eqb direction "right"); rewrite move_all_spec.
  - split; [done|]. apply moved_perm.
  - split; [done|]. by rewrite Permutation_app_comm, moved_perm, Permutation_app_comm.
Qed.

(** The protocol group form is submitted exactly when the name field is absent
    or not blank and at least one application is chosen; on submission every chosen
    application is selected (so that the browser sends it), otherwise the form is
    left unchanged and the handler returns [false]. *)
Theorem validateForm_spec form :
  let '(form', r) := validateForm form in
  (submits "frmAddProtocolGroup" r = true <->
     blank (protocolgroupname form) = false /\ selectedapps form <> []) /\
  (if submits "frmAddProtocolGroup" r
   then Forall (fun o => selected o = true) (selectedapps form') /\
        map entry (selectedapps form') = map entry (selectedapps form) /\
        returned_false r = false
   else form' = form /\ returned_false r = true).
Proof.
  unfold validateForm. destruct (blank _) eqn:Eb.
  { autorewrite with js_rw. split; [|done]. split; [done|by intros []]. }
  destruct form as [name av [|o l]]; cbn [selectedapps length Z.of_nat].
  { autorewrite with js_rw. split; [|done]. split; [done|by intros []]. }
  replace (_ <=? 0) with false by (symmetry; apply Z.leb_gt; lia).
  autorewrite with js_rw. cbn [selectedapps set_selectedapps].
  split; [by split|]. split; [|split; [|done]].
  - apply Forall_map, Forall_true. done.
  - unfold select_all. rewrite map_map. by apply map_ext.
Qed.

(** A port identifier is submitted exactly when the trimmed From port is a
    valid port and, for a port range, the trimmed To port is valid as well and
    numerically greater. *)
Theorem validateIdentifierForm_iff form :
  submits "frmProtocolIdentifier" (validateIdentifierForm form) = true <->
  isValidPort (trim (txtFrom form)) = true /\
  (rdoPortRange form = true ->
   isValidPort (trim (txtTo form)) = true /\
   exists x y, digits_val 0 (trim (txtFrom form)) = Some x /\
               digits_val 0 (trim (txtTo form)) = Some y /\ x < y).
Proof.
  unfold validateIdentifierForm.
  destruct (isValidPort (trim (txtFrom form))) eqn:Ef; cbn [negb].
  2:{ autorewrite with js_rw. split; [done|by intros []]. }
  destruct (rdoPortRange form); cbn [andb]; [|by autorewrite with js_rw].
  destruct (isValidPort (trim (txtTo form))) eqn:Et; cbn [negb]; autorewrite with js_rw.
  2:{ split; [done|]. intros [_ H]. destruct (H eq_refl) as [H' _]. congruence. }
  destruct (valid_port_value _ Ef) as (x & Px & Dx), (valid_port_value _ Et) as (y & Py & Dy).
  unfold parse_ge. rewrite Px, Py, Dx, Dy. destruct (Z.leb_spec y x); autorewrite with js_rw.
  - split; [done|]. intros [_ H']. destruct (H' eq_refl) as (_ & x' & y' & [= <-] & [= <-] & ?). lia.
  - split; [|done]. intros _. split; [done|]. intros _. split; [done|]. eauto.
Qed.
