(* ===== verification/Ajax.v ===== *)
(** * The AJAX request queue (ajax.js)
    [ajax_object] serialises HTTP requests: calls are queued, one request is in
    flight at a time, and the completion handler starts the next one.  The object's
    fields are a record, every method a function on it, and the browser's network
    events the steps of a transition system. *)
From S2P Require Import Prelude JsString JsNum JsVal.
Open Scope Z_scope.

(** What the object relies on in the browser: which request constructors exist,
    which ActiveX versions can be created, whether [open] and [send] throw for a
    given request, and whether the browser calls itself Internet Explorer. *)
Class Host := {
  has_XMLHttpRequest : bool;
  has_ActiveXObject : bool;
  activex_ok : string -> bool;
  open_ok : string -> string -> bool;
  send_ok : option string -> bool;
  is_ie : bool
}.

(** A request object.  [x_id] is its identity: events of the network name it. *)
Record xhr := Xhr { x_id : nat; readyState : Z; responseXML : jsval }.

(** One entry of the queue, [new Array(in_url, ..., in_phase)]. *)
Record command := Command {
  c_url : jsval;
  c_callback : jsval;
  c_method : jsval;
  c_param : jsval;
  c_pcallback : jsval;
  c_param2 : jsval;
  c_phase : jsval
}.

(** What can be observed from outside. *)
Inductive event :=
| Sent (id : nat) (method url : string) (headers : list (string * string)) (body : option string)
| Called (callback response param param2 : jsval)
| CalledPartial (callback response param : jsval).

Record ajax_object := AjaxObject {
  _dm_xmlhttprequest_type : option string;
  _dm_xmlhttprequestobject : option xhr;
  _dm_callback_function : jsval;
  _dm_param : jsval;
  _dm_partialcallback_function : jsval;
  _dm_param2 : jsval;
  _dm_phase : jsval;
  _dm_queue : list command;
  _dm_queue_state : bool;
  _dm_committed : bool;
  _dm_pre_queue : command;
  (** the implicit global [ret] that [QueueInterrupt] assigns *)
  global_ret : option bool;
  (** identity of the next request object, and the trace so far *)
  next_id : nat;
  trace : list event
}.

Definition empty_pre_queue : command := Command Null Null Null Null Null Null (JNum 0).

(** [new ajax_object]: the prototype's values. *)
Definition new_ajax_object : ajax_object :=
  AjaxObject None None Null Null Null Null (JNum 0) [] true false empty_pre_queue None 0 [].

(** ** Field updates *)
Definition set_request (o : option xhr) (t : option string) (n : nat) (st : ajax_object) : ajax_object :=
  AjaxObject t o (_dm_callback_function st) (_dm_param st) (_dm_partialcallback_function st)
    (_dm_param2 st) (_dm_phase st) (_dm_queue st) (_dm_queue_state st) (_dm_committed st)
    (_dm_pre_queue st) (global_ret st) n (trace st).
Definition set_object (o : option xhr) (st : ajax_object) : ajax_object :=
  set_request o (_dm_xmlhttprequest_type st) (next_id st) st.
(** The five fields that route a response back to the caller. *)
Definition set_routing (cb param pcb param2 phase : jsval) (st : ajax_object) : ajax_object :=
  AjaxObject (_dm_xmlhttprequest_type st) (_dm_xmlhttprequestobject st) cb param pcb param2 phase
    (_dm_queue st) (_dm_queue_state st) (_dm_committed st) (_dm_pre_queue st) (global_ret st)
    (next_id st) (trace st).
Definition set_phase (phase : jsval) (st : ajax_object) : ajax_object :=
  set_routing (_dm_callback_function st) (_dm_param st) (_dm_partialcallback_function st)
    (_dm_param2 st) phase st.
Definition set_queue (q : list command) (st : ajax_object) : ajax_object :=
  AjaxObject (_dm_xmlhttprequest_type st) (_dm_xmlhttprequestobject st) (_dm_callback_function st)
    (_dm_param st) (_dm_partialcallback_function st) (_dm_param2 st) (_dm_phase st)
    q (_dm_queue_state st) (_dm_committed st) (_dm_pre_queue st) (global_ret st)
    (next_id st) (trace st).
Definition set_queue_state (b : bool) (st : ajax_object) : ajax_object :=
  AjaxObject (_dm_xmlhttprequest_type st) (_dm_xmlhttprequestobject st) (_dm_callback_function st)
    (_dm_param st) (_dm_partialcallback_function st) (_dm_param2 st) (_dm_phase st)
    (_dm_queue st) b (_dm_committed st) (_dm_pre_queue st) (global_ret st)
    (next_id st) (trace st).
Definition set_committed (b : bool) (st : ajax_object) : ajax_object :=
  AjaxObject (_dm_xmlhttprequest_type st) (_dm_xmlhttprequestobject st) (_dm_callback_function st)
    (_dm_param st) (_dm_partialcallback_function st) (_dm_param2 st) (_dm_phase st)
    (_dm_queue st) (_dm_queue_state st) b (_dm_pre_queue st) (global_ret st)
    (next_id st) (trace st).
Definition set_pre_queue (c : command) (st : ajax_object) : ajax_object :=
  AjaxObject (_dm_xmlhttprequest_type st) (_dm_xmlhttprequestobject st) (_dm_callback_function st)
    (_dm_param st) (_dm_partialcallback_function st) (_dm_param2 st) (_dm_phase st)
    (_dm_queue st) (_dm_queue_state st) (_dm_committed st) c (global_ret st)
    (next_id st) (trace st).
Definition set_ret (r : option bool) (st : ajax_object) : ajax_object :=
  AjaxObject (_dm_xmlhttprequest_type st) (_dm_xmlhttprequestobject st) (_dm_callback_function st)
    (_dm_param st) (_dm_partialcallback_function st) (_dm_param2 st) (_dm_phase st)
    (_dm_queue st) (_dm_queue_state st) (_dm_committed st) (_dm_pre_queue st) r
    (next_id st) (trace st).
Definition emit (e : event) (st : ajax_object) : ajax_object :=
  AjaxObject (_dm_xmlhttprequest_type st) (_dm_xmlhttprequestobject st) (_dm_callback_function st)
    (_dm_param st) (_dm_partialcallback_function st) (_dm_param2 st) (_dm_phase st)
    (_dm_queue st) (_dm_queue_state st) (_dm_committed st) (_dm_pre_queue st) (global_ret st)
    (next_id st) (trace st ++ [e]).

(** Calls that user code makes on the object. *)
Inductive api_call :=
| DoCall (c : command)
| DoPause
| DoResume
| DoFlush
| DoInject (c : command)
| DoInterrupt (c : command).

(** What a callback does to the object: the calls it makes, and whether it then
    throws instead of returning. *)
Record reaction := Reaction { r_calls : list api_call; r_throws : bool }.

Section ajax.
Context `{Host}.

(** ** Creating request objects *)
Definition versions : list string :=
  ["Msxml2.XMLHTTP.7.0"; "Msxml2.XMLHTTP.6.0"; "Msxml2.XMLHTTP.5.0"; "Msxml2.XMLHTTP.4.0";
   "MSXML2.XMLHTTP.3.0"; "MSXML2.XMLHTTP"; "Microsoft.XMLHTTP"].

Definition fresh_xhr (st : ajax_object) : xhr := Xhr (next_id st) 0 Null.

(** Stores a fresh request object and remembers the ActiveX version that made it. *)
Definition create (t : option string) (st : ajax_object) : ajax_object :=
  set_request (Some (fresh_xhr st)) t (S (next_id st)) st.

(** The [for] loop over [versions]: the first one that can be created. *)
Fixpoint try_versions (l : list string) (st : ajax_object) : ajax_object :=
  match l with
  | [] => st
  | v :: l => if activex_ok v then create (Some v) st else try_versions l st
  end.

(** [false] when [new ActiveXObject] of a remembered version throws. *)
Definition GetNewRequestObject (st : ajax_object) : ajax_object * bool :=
  if has_XMLHttpRequest then (create (_dm_xmlhttprequest_type st) st, true)
  else if has_ActiveXObject then
    match _dm_xmlhttprequest_type st with
    | Some t => if activex_ok t then (create (Some t) st, true) else (st, false)
    | None => (try_versions versions st, true)
    end
  else (st, true).

(** ** _CallXMLHTTPObject *)

Definition is_newline (c : Ascii.ascii) : bool :=
  (Ascii.eqb c (Ascii.ascii_of_nat 10) || Ascii.eqb c (Ascii.ascii_of_nat 13))%bool.

(** The regular expression that cuts the URL of a POST at its first question mark:
    the text before it and the text after it, which has no line terminator. *)
Definition split_query (in_url : string) : option (string * string) :=
  match index_of "?" in_url with
  | None => None
  | Some n =>
      let rest := sdrop (S n) in_url in
      if sall (fun c => negb (is_newline c)) rest then Some (stake n in_url, rest) else None
  end.

Definition post_headers (in_url : string) : list (string * string) :=
  [("Method", "POST " +++ in_url +++ " HTTP/1.1");
   ("Content-Type", "application/x-www-form-urlencoded")].

(** From [this._dm_committed = false] to the end of the [try] block. *)
Definition open_and_send (method url : string) (headers : list (string * string))
    (sVars : option string) (st : ajax_object) : ajax_object * bool :=
  let st := set_committed false st in
  let '(st, ok) := GetNewRequestObject st in
  if negb ok then (st, false)
  else match _dm_xmlhttprequestobject st with
       | None => (st, false)
       | Some x =>
           if negb (open_ok method url) then (st, false)
           else if negb (send_ok sVars) then (st, false)
           else (emit (Sent (x_id x) method url headers sVars) st, true)
       end.

Definition _CallXMLHTTPObject (in_url in_method : jsval) (st : ajax_object) : ajax_object * bool :=
  if eq_string in_method "POST" then
    match split_query (val_string in_url) with
    | None => (st, false)
    | Some (url, vars) => open_and_send "POST" url (post_headers url) (Some (unescape vars)) st
    end
  else open_and_send (val_string in_method) (val_string in_url) [] None st.

(** ** Dequeue and Enqueue *)

(** [for (counter = 1; counter < length; counter++) queue[counter-1] = queue[counter];]
    [n] iterations are left; the final value of [counter] is returned too. *)
Fixpoint shift_down (n counter : nat) (q : list command) : list command * nat :=
  match n with
  | O => (q, counter)
  | S n =>
      if (counter <? length q)%nat then
        match q !! counter with
        | Some c => shift_down n (S counter) (<[(counter - 1)%nat := c]> q)
        | None => (q, counter)
        end
      else (q, counter)
  end.

(** The loop, and [this._dm_queue.length = counter - 1]. *)
Definition queue_tail (q : list command) : list command :=
  let '(q', counter) := shift_down (length q) 1 q in take (counter - 1) q'.

Definition load (c : command) (st : ajax_object) : ajax_object :=
  set_routing (c_callback c) (c_param c) (c_pcallback c) (c_param2 c) (c_phase c) st.

Definition Dequeue (st : ajax_object) : ajax_object * bool :=
  let '(st, url, method) :=
    match _dm_queue st with
    | command :: _ =>
        if _dm_queue_state st then
          (set_queue (queue_tail (_dm_queue st)) (load command st), c_url command, c_method command)
        else (st, Undefined, Undefined)
    | [] => (st, Undefined, Undefined)
    end in
  if truthy url && truthy method then _CallXMLHTTPObject url method st else (st, false).

Definition Enqueue (st : ajax_object) : ajax_object :=
  let st := set_queue (_dm_queue st ++ [_dm_pre_queue st]) st in
  let st := set_pre_queue empty_pre_queue st in
  match _dm_xmlhttprequestobject st with
  | None => fst (Dequeue st)
  | Some _ => st
  end.

(** [in_phase], brought to 20 when it compares below 1 or above 20. *)
Definition normal_phase (in_phase : jsval) : jsval :=
  if num_ltb (val_num in_phase) (num_of_Z 1) || num_gtb (val_num in_phase) (num_of_Z 20)
  then JNum 20 else in_phase.

Definition normalise (c : command) : command :=
  Command (c_url c) (c_callback c) (c_method c) (c_param c) (c_pcallback c) (c_param2 c)
    (normal_phase (c_phase c)).

Definition CallXMLHTTPObject (c : command) (st : ajax_object) : ajax_object :=
  Enqueue (set_pre_queue (normalise c) st).

(** ** The wrappers: a missing argument is [undefined] *)
Definition CallXMLHTTPObjectGET (in_url in_callback : jsval) : ajax_object -> ajax_object :=
  CallXMLHTTPObject (Command in_url in_callback (JStr "GET") Null Null (JNum 0) Undefined).
Definition CallXMLHTTPObjectGETParam (in_url in_callback in_param : jsval) : ajax_object -> ajax_object :=
  CallXMLHTTPObject (Command in_url in_callback (JStr "GET") in_param Null (JNum 0) Undefined).
Definition CallXMLHTTPObjectGETParamPartial (in_url in_callback in_param in_pcallback in_param2 : jsval)
  : ajax_object -> ajax_object :=
  CallXMLHTTPObject (Command in_url in_callback (JStr "GET") in_param in_pcallback in_param2 (JNum 0)).
Definition CallXMLHTTPObjectGETParamPartialPhase
    (in_url in_callback in_param in_pcallback in_param2 in_phase : jsval) : ajax_object -> ajax_object :=
  CallXMLHTTPObject (Command in_url in_callback (JStr "GET") in_param in_pcallback in_param2 in_phase).
Definition CallXMLHTTPObjectPOST (in_url in_callback : jsval) : ajax_object -> ajax_object :=
  CallXMLHTTPObject (Command in_url in_callback (JStr "POST") Null Null (JNum 0) Undefined).
Definition CallXMLHTTPObjectPOSTParam (in_url in_callback in_param : jsval) : ajax_object -> ajax_object :=
  CallXMLHTTPObject (Command in_url in_callback (JStr "POST") in_param Null (JNum 0) Undefined).
Definition CallXMLHTTPObjectPOSTParamPartial (in_url in_callback in_param in_pcallback in_param2 : jsval)
  : ajax_object -> ajax_object :=
  CallXMLHTTPObject (Command in_url in_callback (JStr "POST") in_param in_pcallback in_param2 (JNum 0)).
Definition CallXMLHTTPObjectPOSTParamPartialPhase
    (in_url in_callback in_param in_pcallback in_param2 in_phase : jsval) : ajax_object -> ajax_object :=
  CallXMLHTTPObject (Command in_url in_callback (JStr "POST") in_param in_pcallback in_param2 in_phase).

(** ** Queue control *)
Definition QueueResume (st : ajax_object) : ajax_object := fst (Dequeue (set_queue_state true st)).
Definition QueueFlush (st : ajax_object) : ajax_object := QueueResume (set_queue [] st).
Definition QueuePause (st : ajax_object) : ajax_object := set_queue_state false st.

(** The second component is [None] when [return ret] raises a ReferenceError:
    [ret] is not declared in the function, so it is the global of that name. *)
Definition QueueInterrupt (c : command) (st : ajax_object) : ajax_object * option bool :=
  let st := load c st in
  if truthy (c_url c) && truthy (c_method c) then
    let '(st, ret) := _CallXMLHTTPObject (c_url c) (c_method c) st in
    (set_ret (Some ret) st, Some ret)
  else (st, global_ret st).

(** [for (counter = length; counter > 0; counter--) queue[counter] = queue[counter-1];] *)
Fixpoint shift_up (counter : nat) (q : list command) : list command :=
  match counter with
  | O => q
  | S n =>
      match q !! n with
      | Some c => shift_up n (if (S n <? length q)%nat then <[S n := c]> q else q ++ [c])
      | None => q
      end
  end.

(** [this._dm_queue[0] = c] *)
Definition set_first (c : command) (q : list command) : list command :=
  match q with [] => [c] | _ :: q => c :: q end.

Definition QueueInject (c : command) (st : ajax_object) : ajax_object :=
  let st := set_queue_state false st in
  let st := set_queue (set_first c (shift_up (length (_dm_queue st)) (_dm_queue st))) st in
  set_queue_state true st.

(** ** Handle_HTTP_Response *)

Definition do_call (a : api_call) (st : ajax_object) : ajax_object :=
  match a with
  | DoCall c => CallXMLHTTPObject c st
  | DoPause => QueuePause st
  | DoResume => QueueResume st
  | DoFlush => QueueFlush st
  | DoInject c => QueueInject c st
  | DoInterrupt c => fst (QueueInterrupt c st)
  end.
Definition do_calls (l : list api_call) (st : ajax_object) : ajax_object :=
  fold_left (fun st a => do_call a st) l st.

(** The client's callbacks, given their arguments. *)
Context (react : jsval -> jsval -> jsval -> jsval -> reaction).

(** [resp] of a partial callback: Internet Explorer never reads the response. *)
Definition partial_response (x : xhr) : jsval :=
  if negb is_ie && truthy (responseXML x) then responseXML x else Undefined.

(** The body shared by the branches for [readyState] 1, 2 and 3. *)
Definition call_partial (x : xhr) (st : ajax_object) : ajax_object :=
  if eq_number (_dm_phase st) (readyState x) then
    if truthy (_dm_partialcallback_function st) then
      let p := if truthy (_dm_param2 st) then _dm_param2 st else _dm_param st in
      do_calls (r_calls (react (_dm_partialcallback_function st) (partial_response x) p Undefined))
        (emit (CalledPartial (_dm_partialcallback_function st) (partial_response x) p) st)
    else st
  else st.

(** Completion: the callback, then the next request.  When the callback throws, or is
    not a function, the rest of the handler does not run. *)
Definition complete (x : xhr) (st : ajax_object) : ajax_object :=
  if is_function (_dm_callback_function st) then
    let '(cb, p, p2) := (_dm_callback_function st, _dm_param st, _dm_param2 st) in
    let r := react cb (responseXML x) p p2 in
    let st := do_calls (r_calls r) (emit (Called cb (responseXML x) p p2) st) in
    if r_throws r then st
    else
      let st := set_object None st in
      let st := set_committed false st in
      let st := set_phase (JNum 0) st in
      fst (Dequeue st)
  else st.

Definition Handle_HTTP_Response (st : ajax_object) : ajax_object :=
  match _dm_xmlhttprequestobject st with
  | None => st
  | Some x =>
      if readyState x =? 0 then st
      else if readyState x =? 1 then call_partial x st
      else if readyState x =? 2 then call_partial x st
      else if readyState x =? 3 then call_partial x (set_committed true st)
      else if readyState x =? 4 then complete x st
      else st
  end.

(** A [readystatechange] event of request object [id].  The object changes even
    when it is no longer the current one; the handler looks at the current one. *)
Definition network (id : nat) (state : Z) (response : jsval) (st : ajax_object) : ajax_object :=
  match _dm_xmlhttprequestobject st with
  | Some x =>
      if Nat.eqb (x_id x) id
      then Handle_HTTP_Response (set_object (Some (Xhr id state response)) st)
      else Handle_HTTP_Response st
  | None => Handle_HTTP_Response st
  end.

(** ** SupportsAjax and SimpleAJAXCall *)

(** A scratch object is used; [false] also when its creation throws. *)
Definition SupportsAjax : bool :=
  let '(test_obj, ok) := GetNewRequestObject new_ajax_object in
  if ok then match _dm_xmlhttprequestobject test_obj with Some _ => true | None => false end
  else false.

Definition simple_method (in_method : jsval) : jsval :=
  let in_method :=
    match in_method with
    | Undefined => JStr "GET"
    | _ => if negb (eq_string in_method "GET") && negb (eq_string in_method "POST")
           then JStr "GET" else in_method
    end in
  JStr (toUpperCase (val_string in_method)).

Definition SimpleAJAXCall (in_uri in_callback in_method in_param : jsval) (st : ajax_object)
  : ajax_object * bool :=
  let in_method := simple_method in_method in
  if SupportsAjax && truthy in_uri && is_function in_callback then
    if eq_string in_method "POST"
    then (CallXMLHTTPObjectPOSTParam in_uri in_callback in_param st, true)
    else (CallXMLHTTPObjectGETParam in_uri in_callback in_param st, true)
  else (st, false).
End ajax.

(** ** The array loops are list operations *)
Lemma take_snoc_insert {A} k (q : list A) c :
  (k <= length q)%nat -> (1 <= k)%nat -> take k (<[(k - 1)%nat := c]> q) = take (k - 1) q ++ [c].
Proof.
  intros Hk H1. destruct k as [|k]; [lia|]. replace (S k - 1)%nat with k by lia.
  rewrite (take_S_r _ _ c) by (apply list_lookup_insert_eq; lia).
  by rewrite take_insert_ge by lia.
Qed.

Lemma shift_down_spec n k (q : list command) :
  (1 <= k <= length q)%nat -> (length q - k <= n)%nat ->
  snd (shift_down n k q) = length q /\
  take (length q - 1) (fst (shift_down n k q)) = take (k - 1) q ++ drop k q.
Proof.
  revert k q. induction n as [|n IH]; intros k q Hk Hn; cbn [shift_down].
  - assert (k = length q) as -> by lia. cbn. rewrite drop_all, app_nil_r. split; [done|by f_equal].
  - destruct (Nat.ltb_spec k (length q)).
    + destruct (lookup_lt_is_Some_2 q k) as [c Hc]; [lia|]. rewrite Hc.
      destruct (IH (S k) (<[(k-1)%nat:=c]> q)) as [H1 H2]; [rewrite length_insert; lia..|].
      rewrite length_insert in H1, H2. split; [done|]. rewrite H2.
      replace (S k - 1)%nat with k by lia.
      rewrite take_snoc_insert, drop_insert_lt by lia.
      by rewrite <- app_assoc, (drop_S _ _ _ Hc).
    + assert (k = length q) as -> by lia. cbn. rewrite drop_all, app_nil_r. split; [done|by f_equal].
Qed.

Lemma queue_tail_cons c q : queue_tail (c :: q) = q.
Proof.
  unfold queue_tail. destruct (shift_down_spec (length (c :: q)) 1 (c :: q)) as [H1 H2]; [simpl; lia..|].
  destruct (shift_down (length (c :: q)) 1 (c :: q)) as [q' k]. simpl fst in *; simpl snd in *.
  by rewrite H1, H2.
Qed.

Lemma shift_up_spec n (q : list command) :
  (n < length q)%nat -> shift_up n (take (S n) q ++ drop n q) = take 1 q ++ q.
Proof.
  induction n as [|n IH]; intros Hn; [done|]. cbn [shift_up].
  destruct (lookup_lt_is_Some_2 q n) as [c Hc]; [lia|].
  rewrite lookup_app_l by (rewrite length_take; lia).
  rewrite lookup_take_lt, Hc by lia.
  destruct (Nat.ltb_spec (S n) (length (take (S (S n)) q ++ drop (S n) q))) as [_|Hl].
  2:{ rewrite length_app, length_take, length_drop in Hl. lia. }
  rewrite <- IH at 1 by lia. f_equal.
  destruct (lookup_lt_is_Some_2 q (S n)) as [d Hd]; [lia|].
  rewrite (take_S_r _ _ _ Hd), <- app_assoc.
  rewrite insert_app_r_alt by (rewrite length_take; lia).
  rewrite length_take, Nat.min_l, Nat.sub_diag by lia. cbn.
  by rewrite (drop_S _ _ _ Hc).
Qed.

Lemma inject_cons c q : set_first c (shift_up (length q) q) = c :: q.
Proof.
  destruct q as [|d q]; [done|]. set (l := d :: q).
  assert (exists e, l !! length q = Some e) as [e He] by (apply lookup_lt_is_Some_2; simpl; lia).
  assert (shift_up (length l) l = take 1 l ++ l) as ->; [|done].
  change (length l) with (S (length q)). cbn [shift_up]. rewrite He.
  rewrite (proj2 (Nat.ltb_ge _ _)) by (simpl; lia).
  rewrite <- (shift_up_spec (length q)) by (simpl; lia). f_equal.
  rewrite (take_ge l) by (simpl; lia). f_equal.
  rewrite (drop_S _ _ _ He). by rewrite drop_ge by (simpl; lia).
Qed.

(** ** Abstract specification: a first-in first-out server
    One command is being served, the others wait in order of arrival. *)
Record fifo := Fifo { served : list command; active : option command; waiting : list command }.

Definition fifo_init : fifo := Fifo [] None [].

Inductive fifo_step : fifo -> fifo -> Prop :=
| fifo_start c d : fifo_step (Fifo d None []) (Fifo d (Some c) [])
| fifo_enqueue c a d q : fifo_step (Fifo d (Some a) q) (Fifo d (Some a) (q ++ [c]))
| fifo_finish a d q : fifo_step (Fifo d (Some a) q) (Fifo (d ++ [a]) (head q) (tail q)).

Section refinement.
Context `{Hhost : Host}.
Context (react : jsval -> jsval -> jsval -> jsval -> reaction).

(** A command that the object can send: a non-empty URL, GET or POST, a query part
    when it is a POST, and a callback that is a function. *)
Definition sendable (c : command) : Prop :=
  (exists u, c_url c = JStr u /\ u <> EmptyString /\
     (c_method c = JStr "GET" \/
      (c_method c = JStr "POST" /\ exists p, split_query u = Some p))) /\
  exists f, c_callback c = JFun f.

(** The transport never fails. *)
Record host_ok : Prop := {
  wb_xhr : has_XMLHttpRequest = true;
  wb_open : forall m u, open_ok m u = true;
  wb_send : forall b, send_ok b = true
}.

(** A callback that only queues sendable commands, and returns. *)
Definition queues_only (r : reaction) : Prop :=
  Forall (fun a => exists c, a = DoCall c /\ sendable c) (r_calls r) /\ r_throws r = false.

Record well_behaved : Prop := {
  wb_host : host_ok;
  wb_react : forall cb r p p2, queues_only (react cb r p p2)
}.

(** The network event that the [n]-th request shows. *)
Definition sent_event (n : nat) (c : command) : event :=
  match c_url c with
  | JStr u =>
      if eq_string (c_method c) "POST" then
        match split_query u with
        | Some (url, vars) => Sent n "POST" url (post_headers url) (Some (unescape vars))
        | None => Sent n "" "" [] None
        end
      else Sent n (val_string (c_method c)) u [] None
  | _ => Sent n "" "" [] None
  end.

Definition is_sent (e : event) : bool := match e with Sent _ _ _ _ _ => true | _ => false end.
Definition sent_trace (st : ajax_object) : list event := filter (fun e => is_sent e = true) (trace st).

(** Completion callbacks in order, without the response. *)
Definition called_args (e : event) : option (jsval * jsval * jsval) :=
  match e with Called cb _ p p2 => Some (cb, p, p2) | _ => None end.
Definition called_trace (st : ajax_object) : list (jsval * jsval * jsval) :=
  omap called_args (trace st).
Definition call_args (c : command) : jsval * jsval * jsval := (c_callback c, c_param c, c_param2 c).

(** The refinement relation, [k] being the completion callbacks made so far. *)
Record refines_with (k : list (jsval * jsval * jsval)) (st : ajax_object) (sp : fifo) : Prop := {
  rf_queue : _dm_queue st = waiting sp;
  rf_state : _dm_queue_state st = true;
  rf_active :
    match active sp with
    | None => _dm_xmlhttprequestobject st = None /\ waiting sp = []
    | Some c =>
        (exists x, _dm_xmlhttprequestobject st = Some x /\ x_id x = length (served sp)) /\
        _dm_callback_function st = c_callback c /\ _dm_param st = c_param c /\
        _dm_partialcallback_function st = c_pcallback c /\ _dm_param2 st = c_param2 c /\
        _dm_phase st = c_phase c
    end;
  rf_next : next_id st = length (served sp ++ option_list (active sp));
  rf_sendable : Forall sendable (served sp ++ option_list (active sp) ++ waiting sp);
  rf_sent : sent_trace st = imap sent_event (served sp ++ option_list (active sp));
  rf_called : called_trace st = k
}.

(** Between events the callbacks made are those of the commands served. *)
Definition refines (st : ajax_object) (sp : fifo) : Prop :=
  refines_with (call_args <$> served sp) st sp.

Lemma sent_event_sent n c : is_sent (sent_event n c) = true.
Proof.
  unfold sent_event. destruct (c_url c); try done. destruct (eq_string _ _); [|done].
  by destruct (split_query s) as [[]|].
Qed.

Lemma sendable_truthy c : sendable c -> truthy (c_url c) && truthy (c_method c) = true.
Proof.
  intros [(u & -> & Hu & Hm) _]. cbn. destruct (String.eqb_spec u ""); [done|].
  by destruct Hm as [->|[-> _]].
Qed.

Lemma sendable_normalise c : sendable c -> sendable (normalise c).
Proof. by destruct c. Qed.

Section well_behaved.
Context (Hwb : host_ok).

(** What sending a sendable command does. *)
Lemma call_sendable c st :
  sendable c ->
  _CallXMLHTTPObject (c_url c) (c_method c) st =
  (emit (sent_event (next_id st) c) (create (_dm_xmlhttprequest_type st) (set_committed false st)), true).
Proof using Hwb.
  intros [(u & Hu & _ & Hm) _]. unfold _CallXMLHTTPObject, sent_event, open_and_send, GetNewRequestObject.
  rewrite Hu, (wb_xhr Hwb).
  destruct Hm as [->|[-> [[url vars] Hq]]]; cbn; rewrite ?Hq, (wb_open Hwb), (wb_send Hwb); done.
Qed.

Lemma Dequeue_cons c q st :
  _dm_queue st = c :: q -> _dm_queue_state st = true -> sendable c ->
  fst (Dequeue st) =
  emit (sent_event (next_id st) c)
    (create (_dm_xmlhttprequest_type st) (set_committed false (set_queue q (load c st)))).
Proof using Hwb.
  intros Hq Hs Hc. unfold Dequeue. rewrite Hq, Hs, queue_tail_cons, sendable_truthy by done.
  by rewrite call_sendable.
Qed.

Lemma Dequeue_nil st : _dm_queue st = [] -> fst (Dequeue st) = st.
Proof. intros Hq. unfold Dequeue. by rewrite Hq. Qed.

(** Starting a command from the idle state. *)
Lemma refines_start k st sp c q :
  active sp = None -> sendable c -> Forall sendable q -> Forall sendable (served sp) ->
  _dm_queue st = c :: q -> _dm_queue_state st = true ->
  next_id st = length (served sp) ->
  sent_trace st = imap sent_event (served sp) -> called_trace st = k ->
  refines_with k (fst (Dequeue st)) (Fifo (served sp) (Some c) q).
Proof using Hwb.
  intros Ha Hc Hfq Hfs Hq Hs Hn Ht Hct. rewrite (Dequeue_cons c q) by done.
  split; cbn.
  - done.
  - done.
  - split; [|done]. eexists. split; [done|]. cbn. done.
  - rewrite length_app, Hn. cbn. lia.
  - by apply Forall_app; split; [|by constructor].
  - unfold sent_trace in *. cbn. rewrite list.filter_app, Ht, imap_app. f_equal.
    rewrite Hn, filter_cons_True by apply sent_event_sent.
    cbn. by rewrite Nat.add_0_r.
  - unfold called_trace in *. cbn. rewrite omap_app, Hct. cbn.
    assert (called_args (sent_event (next_id st) c) = None) as ->; [|by rewrite app_nil_r].
    pose proof (sent_event_sent (next_id st) c). by destruct (sent_event _ _).
Qed.

Lemma CallXMLHTTPObject_refines k c st sp :
  sendable c -> refines_with k st sp ->
  exists sp', fifo_step sp sp' /\ refines_with k (CallXMLHTTPObject c st) sp' /\
    served sp' = served sp /\
    option_list (active sp') ++ waiting sp' = option_list (active sp) ++ waiting sp ++ [normalise c].
Proof using Hwb.
  intros Hc Hr. pose proof (sendable_normalise c Hc) as Hn.
  destruct sp as [d [a|] q], Hr as [Hq Hs Ha Hid Hf Ht Hct]; cbn in *.
  - destruct Ha as [(x & Hx & Hxi) Hrest]. exists (Fifo d (Some a) (q ++ [normalise c])).
    split; [constructor|]. split; [|done].
    unfold CallXMLHTTPObject, Enqueue. cbn. rewrite Hx.
    split; cbn; try done.
    + by rewrite Hq.
    + split; [by exists x|done].
    + rewrite app_comm_cons, app_assoc. by apply Forall_app; split; [|by constructor].
  - destruct Ha as [Hx ->]. exists (Fifo d (Some (normalise c)) []).
    split; [constructor|]. split; [|done].
    unfold CallXMLHTTPObject, Enqueue. cbn. rewrite Hx. rewrite !app_nil_r in *.
    apply (refines_start _ _ (Fifo d None [])); cbn; try done.
    by rewrite Hq.
Qed.

(** Commands queued by a callback while a request is in flight. *)
Lemma do_calls_refines k l st sp a :
  active sp = Some a ->
  Forall (fun x => exists c, x = DoCall c /\ sendable c) l -> refines_with k st sp ->
  exists cs, l = DoCall <$> cs /\
    rtc fifo_step sp (Fifo (served sp) (Some a) (waiting sp ++ (normalise <$> cs))) /\
    refines_with k (do_calls l st) (Fifo (served sp) (Some a) (waiting sp ++ (normalise <$> cs))).
Proof using Hwb.
  revert st sp. induction l as [|x l IH]; intros st sp Ha Hl Hr.
  - exists []. destruct sp; cbn in *; subst. rewrite app_nil_r.
    split; [done|]. split; [apply rtc_refl|done].
  - apply Forall_cons in Hl as [(c & -> & Hc) Hl].
    destruct (CallXMLHTTPObject_refines k c st sp Hc Hr) as (sp' & Hstep & Hr' & Hsv & Hq).
    assert (active sp' = Some a /\ waiting sp' = waiting sp ++ [normalise c]) as [Ha' Hw'].
    { destruct sp as [d ? q], sp' as [d' a' q']; cbn in *; subst. inversion Hstep; subst; cbn in *.
      - split; [done|]. by injection Hq.
      - match goal with H : _ ++ [_] = _ |- _ => apply (f_equal length) in H; rewrite length_app in H; cbn in H; lia end. }
    destruct (IH _ sp' Ha' Hl Hr') as (cs & -> & Hrtc & Hr'').
    exists (c :: cs). rewrite Hsv, Hw', <- app_assoc in *. cbn.
    split; [done|]. split; [|done]. by eapply rtc_l.
Qed.

Lemma refines_emit_other k st sp e :
  is_sent e = false -> called_args e = None -> refines_with k st sp -> refines_with k (emit e st) sp.
Proof.
  intros He1 He2 [Hq Hs Ha Hid Hf Ht Hct]. split; try done.
  - unfold sent_trace in *. cbn [emit trace]. rewrite list.filter_app, Ht, filter_cons_False by congruence.
    by rewrite app_nil_r.
  - unfold called_trace in *. cbn. rewrite omap_app, Hct. cbn. by rewrite He2, app_nil_r.
Qed.

Lemma refines_emit_called k st sp cb r p p2 :
  refines_with k st sp -> refines_with (k ++ [(cb, p, p2)]) (emit (Called cb r p p2) st) sp.
Proof.
  intros [Hq Hs Ha Hid Hf Ht Hct]. split; try done.
  - unfold sent_trace in *. cbn [emit trace]. rewrite list.filter_app, Ht, filter_cons_False by done.
    by rewrite app_nil_r.
  - unfold called_trace in *. cbn. by rewrite omap_app, Hct.
Qed.

Lemma refines_set_committed k b st sp : refines_with k st sp -> refines_with k (set_committed b st) sp.
Proof. by intros []. Qed.

Lemma refines_set_object k st sp x y :
  _dm_xmlhttprequestobject st = Some x -> x_id y = x_id x ->
  refines_with k st sp -> refines_with k (set_object (Some y) st) sp.
Proof.
  intros Hx Hy [Hq Hs Ha Hid Hf Ht Hct]. split; try done. cbn.
  destruct (active sp); [|by destruct Ha; congruence].
  destruct Ha as [(x' & Hx' & Hi) Hrest]. split; [|done]. exists y. split; [done|congruence].
Qed.

(** Completion of the request in flight: its own callback runs, with its own
    parameters; then the next waiting command is sent, if there is one. *)
Lemma complete_refines x st sp a :
  active sp = Some a -> queues_only (react (c_callback a) (responseXML x) (c_param a) (c_param2 a)) ->
  refines st sp ->
  exists cs q : list command,
    r_calls (react (c_callback a) (responseXML x) (c_param a) (c_param2 a)) = (DoCall <$> cs) /\
    q = waiting sp ++ (normalise <$> cs) /\
    rtc fifo_step sp (Fifo (served sp ++ [a]) (head q) (tail q)) /\
    refines (complete react x st) (Fifo (served sp ++ [a]) (head q) (tail q)).
Proof using Hwb.
  intros Ha [Hcalls Hret] Hr. pose proof Hr as Hr0. destruct Hr0 as [_ _ Hact _ Hf _ _].
  rewrite Ha in Hact. destruct Hact as (_ & Hcb & Hp & Hpc & Hp2 & Hph).
  assert (Hsa : sendable a).
  { rewrite Ha in Hf. apply Forall_app in Hf as [_ Hf]. by apply Forall_cons in Hf as [? _]. }
  destruct (proj2 Hsa) as [f Hfun].
  unfold complete. rewrite Hcb, Hp, Hp2. rewrite Hfun. cbn [is_function]. rewrite <- Hfun.
  pose proof (refines_emit_called _ _ _ (c_callback a) (responseXML x) (c_param a) (c_param2 a) Hr) as Hr'.
  cbn zeta. rewrite Hret.
  destruct (do_calls_refines _ _ _ _ a Ha Hcalls Hr')
    as (cs & Hcs & Hrtc & Hr'').
  set (st1 := do_calls _ _) in *. set (q := waiting sp ++ _) in *.
  exists cs, q. split; [done|]. split; [done|].
  split; [eapply rtc_r; [exact Hrtc|constructor]|].
  destruct Hr'' as [Hq Hs Hact Hid Hf' Ht Hct]. cbn in *.
  clearbody q. destruct q as [|c q'].
  - rewrite Dequeue_nil by done. unfold refines. split; cbn; try done.
    + by rewrite app_nil_r.
    + by rewrite app_nil_r in *.
    + by rewrite app_nil_r.
    + by rewrite fmap_app.
  - apply Forall_app in Hf' as [Hf1 Hf2]. rewrite !Forall_cons in Hf2. destruct Hf2 as (_ & Hc & Hfq).
    unfold refines. apply (refines_start _ _ (Fifo (served sp ++ [a]) None [])); cbn; try done.
    + by apply Forall_app; split; [|by constructor].
    + by rewrite fmap_app.
Qed.

End well_behaved.
End refinement.

(** ** Properties *)

(** A run: calls of the client and events of the network, in any order. *)
Inductive action :=
| UserCall (c : command)
| NetworkEvent (id : nat) (state : Z) (response : jsval).

Section properties.
Context `{Hhost : Host}.
Context (react : jsval -> jsval -> jsval -> jsval -> reaction).

Definition do_action (a : action) (st : ajax_object) : ajax_object :=
  match a with
  | UserCall c => CallXMLHTTPObject c st
  | NetworkEvent id s r => network react id s r st
  end.
Definition run (l : list action) (st : ajax_object) : ajax_object :=
  fold_left (fun st a => do_action a st) l st.

Definition action_ok (a : action) : Prop :=
  match a with UserCall c => sendable c | NetworkEvent _ _ _ => True end.

(** The completion event of whatever request is in flight, [n] times. *)
Fixpoint answer_all (n : nat) (response : jsval) (st : ajax_object) : ajax_object :=
  match n with
  | O => st
  | S n =>
      match _dm_xmlhttprequestobject st with
      | Some x => answer_all n response (network react (x_id x) 4 response st)
      | None => st
      end
  end.

Lemma refines_init : refines new_ajax_object fifo_init.
Proof. by split. Qed.

(** The callback of the request in flight only returns. *)
Definition silent : reaction := Reaction [] false.

(** [Dequeue] only sends. *)
Lemma Dequeue_trace st :
  exists l, trace (fst (Dequeue st)) = trace st ++ l /\ Forall (fun e => is_sent e = true) l.
Proof.
  assert (Hopen : forall m u h b st0, exists l, trace (fst (open_and_send m u h b st0)) = trace st0 ++ l /\
    Forall (fun e => is_sent e = true) l).
  { intros m u h b st0. unfold open_and_send.
    assert (Hnew : trace (fst (GetNewRequestObject (set_committed false st0))) = trace st0).
    { unfold GetNewRequestObject. destruct has_XMLHttpRequest; [done|]. destruct has_ActiveXObject; [|done].
      destruct (_dm_xmlhttprequest_type _); [by destruct (activex_ok s)|]. cbn [fst].
      generalize versions. intros vs. induction vs as [|v vs IH]; [done|]. cbn [try_versions]. by destruct (activex_ok v). }
    destruct (GetNewRequestObject _) as [st1 ok]. cbn [fst] in Hnew.
    destruct ok; cbn [negb]; [|by exists []; rewrite app_nil_r].
    destruct (_dm_xmlhttprequestobject st1); [|by exists []; rewrite app_nil_r].
    destruct (open_ok m u); cbn [negb]; [|by exists []; rewrite app_nil_r].
    destruct (send_ok b); cbn [negb]; [|by exists []; rewrite app_nil_r].
    eexists. cbn [fst emit trace]. rewrite Hnew. split; [done|by constructor]. }
  unfold Dequeue. destruct (_dm_queue st) as [|c q]; [by exists []; rewrite app_nil_r|].
  destruct (_dm_queue_state st); [|by exists []; rewrite app_nil_r].
  destruct (truthy _ && truthy _); [|by exists []; rewrite app_nil_r].
  change (trace st) with (trace (set_queue (queue_tail (c :: q)) (load c st))).
  unfold _CallXMLHTTPObject. destruct (eq_string _ _); [|apply Hopen].
  destruct (split_query _) as [[]|]; [apply Hopen|by exists []; rewrite app_nil_r].
Qed.

Lemma answer_refines (Hh : host_ok) st sp a response :
  active sp = Some a -> react (c_callback a) response (c_param a) (c_param2 a) = silent -> refines st sp ->
  exists x, _dm_xmlhttprequestobject st = Some x /\
    refines (network react (x_id x) 4 response st)
      (Fifo (served sp ++ [a]) (head (waiting sp)) (tail (waiting sp))) /\
    exists l, trace (network react (x_id x) 4 response st) =
      trace st ++ Called (c_callback a) response (c_param a) (c_param2 a) :: l /\
      Forall (fun e => is_sent e = true) l.
Proof.
  intros Ha Hno Hr. pose proof Hr as [_ _ Hact _ _ _ _]. rewrite Ha in Hact.
  destruct Hact as [(x & Hx & _) (Hcb & Hp & _ & Hp2 & _)]. exists x. split; [done|].
  unfold network. rewrite Hx, Nat.eqb_refl. unfold Handle_HTTP_Response. cbn [set_object set_request _dm_xmlhttprequestobject readyState].
  change (4 =? 0) with false. change (4 =? 1) with false. change (4 =? 2) with false.
  change (4 =? 3) with false. change (4 =? 4) with true. cbn iota.
  destruct (complete_refines react Hh (Xhr (x_id x) 4 response)
    (set_object (Some (Xhr (x_id x) 4 response)) st) sp a Ha) as (cs & q & Hcs & Hq & _ & H2).
  { cbn [responseXML]. by rewrite Hno. }
  { by eapply refines_set_object. }
  cbn [responseXML] in Hcs. rewrite Hno in Hcs. symmetry in Hcs. apply fmap_nil_inv in Hcs as ->.
  cbn in Hq. rewrite app_nil_r in Hq. rewrite <- Hq. split; [done|].
  assert (Hfun : is_function (c_callback a) = true).
  { destruct Hr as [_ _ _ _ Hf _ _]. rewrite Ha in Hf. apply Forall_app in Hf as [_ Hf].
    apply Forall_cons in Hf as [[_ [f ->]] _]. done. }
  unfold complete. cbn [set_object set_request _dm_callback_function _dm_param _dm_param2 responseXML].
  rewrite Hcb, Hp, Hp2, Hfun, Hno. cbn [r_calls r_throws silent do_calls fold_left].
  match goal with |- context [fst (Dequeue ?st')] => destruct (Dequeue_trace st') as (l & Hl & Hsent) end.
  exists l. split; [|done]. rewrite Hl. cbn. by rewrite <- app_assoc.
Qed.

Lemma answer_all_refines (Hh : host_ok) response :
  (forall cb r p p2, react cb r p p2 = silent) ->
  forall q d a st, refines st (Fifo d a q) -> (a = None -> q = []) ->
  refines (answer_all (length (option_list a ++ q)) response st) (Fifo (d ++ option_list a ++ q) None []).
Proof.
  intros Hno q. induction q as [|b q IH]; intros d [a|] st Hr Hn; cbn -[network].
  - destruct (answer_refines Hh st (Fifo d (Some a) []) a response eq_refl (Hno _ _ _ _) Hr) as (x & -> & H & _). exact H.
  - by rewrite app_nil_r.
  - destruct (answer_refines Hh st (Fifo d (Some a) (b :: q)) a response eq_refl (Hno _ _ _ _) Hr) as (x & -> & H & _).
    specialize (IH (d ++ [a]) (Some b) _ H ltac:(done)). cbn -[network] in IH.
    by rewrite <- app_assoc in IH.
  - by discriminate Hn.
Qed.
End properties.

(** C28. Every queued request is eventually served: while the calls are [sendable], the
    transport does not fail ([failed_send_stalls]), the network answers each request in flight and the callbacks
    return and make no further calls, then after as many
    completions as there were outstanding requests the queue is empty, no request
    is in flight, and the callbacks made are those of all the requests, in order. *)
Theorem ajax_drains `{Host} react response st d a q :
  host_ok -> (forall cb r p p2, react cb r p p2 = silent) ->
  refines st (Fifo d a q) ->
  let st' := answer_all react (length (option_list a ++ q)) response st in
  _dm_queue st' = [] /\ _dm_xmlhttprequestobject st' = None /\
  called_trace st' = call_args <$> (d ++ option_list a ++ q).
Proof.
  intros Hwb Hno Hr. cbn zeta.
  destruct (answer_all_refines react Hwb response Hno q d a st Hr) as [Hq _ Ha _ _ _ Hc].
  { intros ->. by destruct Hr as [_ _ [_ ?] _ _ _ _]. }
  cbn in Ha. by destruct Ha.
Qed.

(** [QueuePause] followed by [QueueResume] while request [x] is in flight sends
    the next queued request at once, overwriting the request object; the events of
    [x] are ignored from then on, so its callback is never called - although the
    comments promise that a request still out there is allowed to complete. *)
Theorem resume_drops_request_in_flight `{Host} react st x c q :
  host_ok ->
  _dm_xmlhttprequestobject st = Some x -> (x_id x < next_id st)%nat ->
  _dm_queue st = c :: q -> sendable c ->
  let st' := QueueResume (QueuePause st) in
  trace st' = trace st ++ [sent_event (next_id st) c] /\
  forall s response, network react (x_id x) s response st' = st'.
Proof.
  intros Hwb Hx Hid Hq Hc. cbn zeta. unfold QueueResume, QueuePause.
  rewrite (Dequeue_cons Hwb c q) by done. split; [done|].
  intros s response. unfold network. cbn.
  destruct (Nat.eqb_spec (next_id st) (x_id x)); [lia|done].
Qed.

(** While a request object is in place, calls only queue. *)
Lemma busy_only_queues (h : Host) cs : forall st x,
  _dm_xmlhttprequestobject st = Some x ->
  let st' := fold_left (fun st c => @CallXMLHTTPObject h c st) cs st in
  trace st' = trace st /\ _dm_queue st' = _dm_queue st ++ (normalise <$> cs) /\
  _dm_xmlhttprequestobject st' = Some x.
Proof.
  induction cs as [|d cs IH]; intros st x Hx; cbn; [by rewrite app_nil_r|].
  destruct (IH (@CallXMLHTTPObject h d st) x) as (IH1 & IH2 & IH3);
    unfold CallXMLHTTPObject, Enqueue in *; cbn in *; rewrite Hx in *; [done|].
  rewrite IH1, IH2, IH3. cbn. by rewrite <- app_assoc.
Qed.

(** When [open] or [send] throws, the request object stays in place although
    nothing is in flight: the failed request is lost, and no later call is ever
    sent, even if the transport works again. *)
Theorem failed_send_stalls (h1 h2 : Host) st c cs :
  @has_XMLHttpRequest h1 = true ->
  ((forall m u, @open_ok h1 m u = false) \/ (forall b, @send_ok h1 b = false)) ->
  sendable c -> _dm_xmlhttprequestobject st = None -> _dm_queue st = [] ->
  _dm_queue_state st = true ->
  let st' := fold_left (fun st c => @CallXMLHTTPObject h2 c st) cs (@CallXMLHTTPObject h1 c st) in
  trace st' = trace st /\ _dm_queue st' = normalise <$> cs.
Proof.
  intros Hxhr Hfail Hc Hx Hq Hs. cbn zeta.
  assert (exists x st1, @CallXMLHTTPObject h1 c st = st1 /\ _dm_xmlhttprequestobject st1 = Some x /\
    trace st1 = trace st /\ _dm_queue st1 = []) as (x & st1 & -> & Hx1 & Ht1 & Hq1).
  { unfold CallXMLHTTPObject, Enqueue. cbn. rewrite Hx. unfold Dequeue. cbn. rewrite Hq, Hs. cbn.
    pose proof (sendable_truthy c Hc) as Ht. rewrite Ht. destruct Hc as [(u & Hu & _ & Hm) _].
    unfold _CallXMLHTTPObject, open_and_send, GetNewRequestObject. rewrite Hu, Hxhr.
    destruct Hm as [->|[-> [[url vars] Hsq]]]; cbn; rewrite ?Hsq; cbn;
      destruct Hfail as [Hf|Hf]; rewrite Hf; try (destruct (open_ok _ _)); cbn; eauto 10. }
  destruct (busy_only_queues h2 cs st1 x Hx1) as (-> & -> & _). by rewrite Hq1.
Qed.

(** A callback that throws while its answer is handled leaves its request object in
    place, as if the request were still in flight: the requests that wait and all
    later ones stay in the queue. *)
Theorem throwing_callback_stalls `{Host} react st x cs :
  _dm_xmlhttprequestobject st = Some x -> readyState x = 4 ->
  is_function (_dm_callback_function st) = true ->
  react (_dm_callback_function st) (responseXML x) (_dm_param st) (_dm_param2 st) = Reaction [] true ->
  let st' := fold_left (fun st c => CallXMLHTTPObject c st) cs (Handle_HTTP_Response react st) in
  trace st' = trace st ++ [Called (_dm_callback_function st) (responseXML x) (_dm_param st) (_dm_param2 st)] /\
  _dm_queue st' = _dm_queue st ++ (normalise <$> cs).
Proof.
  intros Hx H4 Hf Hr. cbn zeta. unfold Handle_HTTP_Response. rewrite Hx, H4. cbn [Z.eqb Pos.eqb].
  unfold complete. rewrite Hf, Hr. cbn [r_calls r_throws do_calls fold_left].
  edestruct (busy_only_queues _ cs) as (-> & -> & _); [exact Hx|]. done.
Qed.

(** [SimpleAJAXCall] queues exactly one request when AJAX is supported, the
    address is not empty and the callback is a function, and reports whether it
    did; the method is POST only when it was given as exactly "POST", and GET
    otherwise - so "post" is sent as a GET, although the documentation calls the
    method case-insensitive. *)
Theorem SimpleAJAXCall_spec `{Host} u cb m p st :
  SimpleAJAXCall u cb m p st =
  if SupportsAjax && truthy u && is_function cb then
    (CallXMLHTTPObject
       (Command u cb (JStr (if eq_string m "POST" then "POST" else "GET")) p Null (JNum 0) Undefined) st,
     true)
  else (st, false).
Proof.
  unfold SimpleAJAXCall. destruct (SupportsAjax && truthy u && is_function cb); [|done].
  assert (simple_method m = JStr (if eq_string m "POST" then "POST" else "GET")) as ->.
  { unfold simple_method. destruct m as [| |s| | | |]; try done. cbn.
    destruct (String.eqb_spec s "GET") as [->|]; [done|].
    by destruct (String.eqb_spec s "POST") as [->|]. }
  by destruct (eq_string m "POST").
Qed.

(** The wrappers that take a partial callback but no phase never call it: their
    phase becomes 20, which no [readyState] reaches - although the documentation
    says that the callback is made when the request is interactive. *)
Theorem partial_callback_never_called `{Host} react u cb p pcb p2 method st x :
  let c := normalise (Command u cb method p pcb p2 (JNum 0)) in
  _dm_xmlhttprequestobject st = Some x -> 0 <= readyState x <= 3 ->
  trace (Handle_HTTP_Response react (load c st)) = trace st.
Proof.
  cbn zeta. intros Hx Hr. unfold Handle_HTTP_Response. cbn [load set_routing _dm_xmlhttprequestobject].
  rewrite Hx. unfold call_partial. cbn [set_committed _dm_phase load set_routing normalise c_phase].
  change (normal_phase (JNum 0)) with (JNum 20). cbn [eq_number val_num]. rewrite num_eqb_Z.
  destruct (Z.eqb_spec 20 (readyState x)); [lia|].
  repeat (case_if; [done|]). case_if; [|done]. bool_to_prop. lia.
Qed.

(** [QueueInject] puts the command in front of the queue, keeps the order of
    the others, unpauses the queue, and neither sends nor interrupts anything. *)
Theorem QueueInject_spec c st :
  QueueInject c st = set_queue (c :: _dm_queue st) (set_queue_state true st).
Proof. unfold QueueInject. cbn. by rewrite inject_cons. Qed.

(** ** Witnesses *)
Definition good_host : Host := Build_Host true false (fun _ => false) (fun _ _ => true) (fun _ => true) false.
Definition offline_host : Host := Build_Host true false (fun _ => false) (fun _ _ => false) (fun _ => true) false.

Definition get_report : command :=
  Command (JStr "/AjaxController?reportid=1") (JFun "ajaxRequest") (JStr "GET") (JNum 1) Null (JNum 0) Undefined.
Definition post_form : command :=
  Command (JStr "/save?name=a%20b") (JFun "saved") (JStr "POST") (JNum 2) Null (JNum 0) Undefined.

(** A page whose [saved] callback asks for the report again. *)
Definition page_callbacks (cb _ _ _ : jsval) : reaction :=
  if decide (cb = JFun "saved") then Reaction [DoCall get_report] false else silent.
Definition no_callbacks (_ _ _ _ : jsval) : reaction := silent.

Lemma get_report_sendable : sendable get_report.
Proof. split; [|by eexists]. eexists. split; [done|]. split; [done|by left]. Qed.

Lemma post_form_sendable : sendable post_form.
Proof.
  split; [|by eexists]. eexists. split; [done|]. split; [done|]. right. split; [done|].
  eexists. reflexivity.
Qed.

Lemma page_callbacks_ok : @well_behaved good_host page_callbacks.
Proof.
  split; [by split|]. intros cb r p p2. unfold page_callbacks. case_decide; [|done].
  split; [|done]. constructor; [|done]. eexists. split; [done|apply get_report_sendable].
Qed.

Lemma good_host_ok : @host_ok good_host.
Proof. by split. Qed.

Definition demo_run : list action :=
  [UserCall post_form; UserCall get_report; NetworkEvent 0 2 Null; NetworkEvent 0 4 (JObj "doc");
   NetworkEvent 1 4 (JObj "doc2")].

Definition busy : ajax_object :=
  @run good_host no_callbacks [UserCall post_form; UserCall get_report] new_ajax_object.

Lemma busy_refines :
  refines busy (Fifo [] (Some (normalise post_form)) [normalise get_report]).
Proof.
  split; try done; cbn.
  - split; [by eexists|done].
  - repeat constructor; apply sendable_normalise, post_form_sendable || apply sendable_normalise, get_report_sendable.
Qed.

Lemma ajax_drains_witness :
  let st' := @answer_all good_host no_callbacks 2 (JObj "doc") busy in
  _dm_queue st' = [] /\ _dm_xmlhttprequestobject st' = None /\
  called_trace st' = call_args <$> [normalise post_form; normalise get_report].
Proof.
  apply (@ajax_drains good_host no_callbacks (JObj "doc") busy [] (Some (normalise post_form))
           [normalise get_report]); [apply good_host_ok|done|apply busy_refines].
Defined.

Lemma resume_drops_request_in_flight_witness :
  let st' := @QueueResume good_host (QueuePause busy) in
  trace st' = trace busy ++ [sent_event 1 (normalise get_report)] /\
  forall s response, @network good_host no_callbacks 0 s response st' = st'.
Proof.
  apply (@resume_drops_request_in_flight good_host no_callbacks busy (Xhr 0 0 Null)
           (normalise get_report) []); [apply good_host_ok|done|vm_compute; lia|done|].
  apply sendable_normalise, get_report_sendable.
Defined.

Lemma failed_send_stalls_witness :
  let st' := fold_left (fun st c => @CallXMLHTTPObject good_host c st) [get_report; get_report]
               (@CallXMLHTTPObject offline_host get_report new_ajax_object) in
  trace st' = [] /\ _dm_queue st' = normalise <$> [get_report; get_report].
Proof.
  apply (failed_send_stalls offline_host good_host new_ajax_object get_report); try done.
  - by left.
  - apply get_report_sendable.
Defined.

Lemma partial_callback_never_called_witness :
  let st := set_object (Some (Xhr 0 3 (JObj "doc"))) new_ajax_object in
  trace (@Handle_HTTP_Response good_host no_callbacks
    (load (normalise (Command (JStr "/x") (JFun "f") (JStr "GET") Null (JFun "progress") Null (JNum 0))) st)) = [].
Proof.
  apply (@partial_callback_never_called good_host no_callbacks (JStr "/x") (JFun "f") Null
           (JFun "progress") Null (JStr "GET")
           (set_object (Some (Xhr 0 3 (JObj "doc"))) new_ajax_object) (Xhr 0 3 (JObj "doc")));
    [done|cbn; lia].
Defined.

(** ** The queue against a first-in first-out server
    The reference server keeps plain lists: the commands received, those answered with
    the response each was given, the one in flight and those that wait.  The queue - two
    array loops, seven routing fields, a request object that is replaced - shows exactly
    the same requests and the same callbacks, event for event. *)
Module Server.
(** The request in flight: its command, and what its object shows. *)
Record flight := Flight { f_command : command; f_state : Z; f_response : jsval }.

Record server := Server {
  received : list command;
  answered : list (command * jsval);
  current : option flight;
  pending : list command;
  shown : list event
}.

Definition idle : server := Server [] [] None [] [].

Section server.
Context `{Hhost : Host}.
Context (react : jsval -> jsval -> jsval -> jsval -> reaction).

(** Commands arrive at the end of the line. *)
Definition receive (cs : list command) (sv : server) : server :=
  Server (received sv ++ cs) (answered sv) (current sv) (pending sv ++ cs) (shown sv).

(** The first of the line is sent when nothing is in flight. *)
Definition start (sv : server) : server :=
  match current sv, pending sv with
  | None, c :: q =>
      Server (received sv) (answered sv) (Some (Flight c 0 Null)) q
        (shown sv ++ [sent_event (length (answered sv)) c])
  | _, _ => sv
  end.

(** The calls that a callback makes. *)
Definition calls_of (r : reaction) : list command :=
  omap (fun a => match a with DoCall c => Some (normalise c) | _ => None end) (r_calls r).

(** The answer to [f]: its own callback gets it, with its own parameters. *)
Definition finish (f : flight) (sv : server) : server :=
  let c := f_command f in
  let r := f_response f in
  start (receive (calls_of (react (c_callback c) r (c_param c) (c_param2 c)))
    (Server (received sv) (answered sv ++ [(c, r)]) None (pending sv)
       (shown sv ++ [Called (c_callback c) r (c_param c) (c_param2 c)]))).

(** What the partial callback of [f] is given. *)
Definition partial_of (f : flight) : jsval :=
  if negb is_ie && truthy (f_response f) then f_response f else Undefined.
Definition progress (f : flight) (sv : server) : server :=
  let c := f_command f in
  if eq_number (c_phase c) (f_state f) && truthy (c_pcallback c) then
    let p := if truthy (c_param2 c) then c_param2 c else c_param c in
    receive (calls_of (react (c_pcallback c) (partial_of f) p Undefined))
      (Server (received sv) (answered sv) (current sv) (pending sv)
         (shown sv ++ [CalledPartial (c_pcallback c) (partial_of f) p]))
  else sv.

Definition notice (sv : server) : server :=
  match current sv with
  | Some f =>
      if f_state f =? 4 then finish f sv
      else if (1 <=? f_state f) && (f_state f <=? 3) then progress f sv
      else sv
  | None => sv
  end.

(** An event of request [id]; the requests are numbered as they are sent. *)
Definition observe (id : nat) (state : Z) (response : jsval) (sv : server) : server :=
  Server (received sv) (answered sv)
    (match current sv with
     | Some f => Some (if Nat.eqb (length (answered sv)) id then Flight (f_command f) state response else f)
     | None => None
     end) (pending sv) (shown sv).

Definition serve (a : action) (sv : server) : server :=
  match a with
  | UserCall c => start (receive [normalise c] sv)
  | NetworkEvent id s r => notice (observe id s r sv)
  end.
Definition serve_all (l : list action) (sv : server) : server :=
  fold_left (fun sv a => serve a sv) l sv.

(** ** The relation between the queue and the server *)
Definition routed (c : command) (st : ajax_object) : Prop :=
  _dm_callback_function st = c_callback c /\ _dm_param st = c_param c /\
  _dm_partialcallback_function st = c_pcallback c /\ _dm_param2 st = c_param2 c /\
  _dm_phase st = c_phase c.
Definition in_flight (st : ajax_object) (n : nat) (f : option flight) : Prop :=
  match f with
  | None => _dm_xmlhttprequestobject st = None /\ next_id st = n
  | Some f =>
      _dm_xmlhttprequestobject st = Some (Xhr n (f_state f) (f_response f)) /\ next_id st = S n /\
      sendable (f_command f) /\ routed (f_command f) st
  end.
Record simulates (st : ajax_object) (sv : server) : Prop := {
  sm_queue : _dm_queue st = pending sv;
  sm_on : _dm_queue_state st = true;
  sm_flight : in_flight st (length (answered sv)) (current sv);
  sm_sendable : Forall sendable (pending sv);
  sm_trace : trace st = shown sv
}.

Context (Hwb : well_behaved react).

Lemma simulates_start st sv :
  current sv = None -> simulates st sv -> simulates (fst (Dequeue st)) (start sv).
Proof using Hwb.
  destruct sv as [rc an cu q sh]. cbn [current]. intros -> [Hq Hon [Hx Hn] Hs Ht]. cbn in *. destruct q as [|c q].
  - rewrite Dequeue_nil by done. done.
  - apply Forall_cons in Hs as [Hc Hs]. rewrite (Dequeue_cons (wb_host _ Hwb) c q) by done. split; try done; cbn.
    + unfold fresh_xhr. cbn. rewrite Hn. done.
    + by rewrite Hn, Ht.
Qed.

Lemma simulates_call_busy c st sv :
  is_Some (current sv) -> sendable c -> simulates st sv ->
  simulates (CallXMLHTTPObject c st) (receive [normalise c] sv).
Proof.
  intros [f Hf] Hc [Hq Hon Hx Hs Ht]. rewrite Hf in Hx. unfold CallXMLHTTPObject, Enqueue. cbn. rewrite (proj1 Hx).
  split; cbn; try done; [by rewrite Hq|by rewrite Hf|]. apply Forall_app; split; [done|]. constructor; [by apply sendable_normalise|done].
Qed.

Lemma receive_app a b sv : receive b (receive a sv) = receive (a ++ b) sv.
Proof. unfold receive. cbn. by rewrite <- !app_assoc. Qed.
Lemma receive_nil sv : receive [] sv = sv.
Proof. destruct sv. unfold receive. cbn. by rewrite !app_nil_r. Qed.

Lemma simulates_calls r : forall st sv,
  is_Some (current sv) -> queues_only r -> simulates st sv ->
  simulates (do_calls (r_calls r) st) (receive (calls_of r) sv).
Proof.
  destruct r as [l th]. unfold queues_only, calls_of. cbn [r_calls r_throws]. intros st sv Hf [Hl _]. revert st sv Hf.
  induction Hl as [|a l (c & -> & Hc) Hl IH]; intros st sv Hf Hs; cbn; [by rewrite receive_nil|].
  change (normalise c :: ?t) with ([normalise c] ++ t). rewrite <- receive_app. apply IH; [done|]. by apply simulates_call_busy.
Qed.

Lemma simulates_emit e st sv :
  simulates st sv ->
  simulates (emit e st) (Server (received sv) (answered sv) (current sv) (pending sv) (shown sv ++ [e])).
Proof. intros [Hq Hon Hx Hs Ht]. split; cbn; try done. by rewrite Ht. Qed.

Lemma simulates_committed b st sv : simulates st sv -> simulates (set_committed b st) sv.
Proof. by intros []. Qed.

Lemma simulates_progress f st sv :
  current sv = Some f -> simulates st sv ->
  simulates (call_partial react (Xhr (length (answered sv)) (f_state f) (f_response f)) st) (progress f sv).
Proof using Hwb.
  intros Hf Hs. pose proof (sm_flight _ _ Hs) as Hx. rewrite Hf in Hx. destruct Hx as (_ & _ & _ & _ & Hp & Hpc & Hp2 & Hph).
  unfold call_partial, progress, partial_response, partial_of. cbn [readyState responseXML]. rewrite Hp, Hpc, Hp2, Hph.
  destruct (eq_number _ _); [|done]. destruct (truthy (c_pcallback _)); [|done]. cbn [andb].
  apply simulates_calls; [by exists f|apply (wb_react _ Hwb)|]. by apply simulates_emit.
Qed.

(** The handler clears the request object, the flag and the phase. *)
Lemma simulates_cleared st sv n f an :
  current sv = Some f -> simulates st sv -> n = length (answered sv) -> length an = S n ->
  simulates (set_phase (JNum 0) (set_committed false (set_object None st)))
    (Server (received sv) an None (pending sv) (shown sv)).
Proof.
  intros Hf [Hq Hon Hx Hs Ht] -> Hl. rewrite Hf in Hx. destruct Hx as (_ & Hn & _). split; cbn; try done. by rewrite Hn, Hl.
Qed.

Lemma simulates_finish f st sv :
  current sv = Some f -> simulates st sv ->
  simulates (complete react (Xhr (length (answered sv)) (f_state f) (f_response f)) st) (finish f sv).
Proof using Hwb.
  intros Hf Hs. pose proof (sm_flight _ _ Hs) as Hx. rewrite Hf in Hx. destruct Hx as (_ & _ & Hc & Hcb & Hp & _ & Hp2 & _).
  unfold complete, finish. cbn [responseXML]. rewrite Hcb, Hp, Hp2. destruct Hc as [_ [g Hg]]. rewrite Hg. cbn [is_function]. rewrite <- Hg.
  set (r := react _ _ _ _). assert (Hr : queues_only r) by apply (wb_react _ Hwb). cbn zeta. rewrite (proj2 Hr).
  apply simulates_start; [done|].
  assert (Hd := simulates_emit (Called (c_callback (f_command f)) (f_response f) (c_param (f_command f)) (c_param2 (f_command f))) _ _ Hs).
  apply (simulates_calls r) in Hd; [|by exists f|done].
  eapply (simulates_cleared _ _ _ f (answered sv ++ [(f_command f, f_response f)])) in Hd; [exact Hd|done|done|]. rewrite length_app. cbn. lia.
Qed.

Lemma simulates_notice st sv :
  simulates st sv -> simulates (Handle_HTTP_Response react st) (notice sv).
Proof using Hwb.
  intros Hs. pose proof (sm_flight _ _ Hs) as Hx. unfold Handle_HTTP_Response, notice. destruct (current sv) as [f|] eqn:Hf.
  2: by rewrite (proj1 Hx).
  rewrite (proj1 Hx). cbn [readyState].
  destruct (Z.eqb_spec (f_state f) 0) as [->|]; [done|].
  destruct (Z.eqb_spec (f_state f) 1) as [E|]; [rewrite E; cbn [Z.eqb Z.leb Z.compare Pos.compare Pos.compare_cont andb Pos.eqb]; rewrite <- E; by apply simulates_progress|].
  destruct (Z.eqb_spec (f_state f) 2) as [E|]; [rewrite E; cbn [Z.eqb Z.leb Z.compare Pos.compare Pos.compare_cont andb Pos.eqb]; rewrite <- E; by apply simulates_progress|].
  destruct (Z.eqb_spec (f_state f) 3) as [E|]; [rewrite E; cbn [Z.eqb Z.leb Z.compare Pos.compare Pos.compare_cont andb Pos.eqb]; rewrite <- E; by apply simulates_progress, simulates_committed|].
  destruct (Z.eqb_spec (f_state f) 4) as [E|]; [by apply simulates_finish|].
  destruct (_ && _) eqn:E; [|done]. bool_to_prop. lia.
Qed.

Lemma simulates_event id s r st sv :
  simulates st sv -> simulates (network react id s r st) (notice (observe id s r sv)).
Proof using Hwb.
  intros Hs. unfold network. pose proof Hs as [Hq Hon Hx Hp Ht].
  destruct (current sv) as [f|] eqn:Hf.
  - destruct Hx as (Hx & Hn & Hc & Hr). rewrite Hx. cbn [x_id]. destruct (Nat.eqb_spec (length (answered sv)) id) as [E|E].
    + apply simulates_notice. split; cbn; try done. rewrite Hf. rewrite <- E, Nat.eqb_refl. done.
    + apply simulates_notice. split; cbn; try done. rewrite Hf. apply Nat.eqb_neq in E. rewrite E. done.
  - rewrite (proj1 Hx). apply simulates_notice. split; cbn; try done. by rewrite Hf.
Qed.

Lemma simulates_action a st sv : action_ok a -> simulates st sv -> simulates (do_action react a st) (serve a sv).
Proof using Hwb.
  destruct a as [c|id s r]; cbn [action_ok do_action serve]; [|by intros _; apply simulates_event].
  intros Hc Hs. pose proof Hs as [Hq Hon Hx Hp Ht]. destruct (current sv) as [f|] eqn:Hf.
  - assert (E : start (receive [normalise c] sv) = receive [normalise c] sv) by (unfold start; cbn; by rewrite Hf).
    rewrite E. apply simulates_call_busy; [by rewrite Hf|done|done].
  - unfold CallXMLHTTPObject, Enqueue. cbn. rewrite (proj1 Hx). apply simulates_start; [done|]. split; cbn; try done.
    + by rewrite Hq.
    + by rewrite Hf.
    + apply Forall_app; split; [done|]. constructor; [by apply sendable_normalise|done].
Qed.

Lemma simulates_run l : forall st sv, Forall action_ok l -> simulates st sv -> simulates (run react l st) (serve_all l sv).
Proof using Hwb.
  induction l as [|a l IH]; intros st sv Hl Hs; [done|]. apply Forall_cons in Hl as [Ha Hl]. apply IH; [done|]. by apply simulates_action.
Qed.
Lemma simulates_idle : simulates new_ajax_object idle.
Proof. by split. Qed.

(** ** What the server promises *)
Definition in_hand (sv : server) : list command := option_list (f_command <$> current sv).
Definition call_event (e : event) : option (jsval * jsval * jsval * jsval) :=
  match e with Called cb r p p2 => Some (cb, r, p, p2) | _ => None end.
Definition call_of (a : command * jsval) : jsval * jsval * jsval * jsval :=
  let '(c, r) := a in (c_callback c, r, c_param c, c_param2 c).
Record orderly (sv : server) : Prop := {
  od_queue : received sv = (fst <$> answered sv) ++ in_hand sv ++ pending sv;
  od_sent : filter (fun e => is_sent e = true) (shown sv) = imap sent_event ((fst <$> answered sv) ++ in_hand sv);
  od_called : omap call_event (shown sv) = call_of <$> answered sv
}.
Definition eager (sv : server) : Prop := current sv = None -> pending sv = [].

Lemma orderly_receive cs sv : orderly sv -> orderly (receive cs sv).
Proof. intros [H1 H2 H3]. split; cbn; [|done|done]. by rewrite H1, <- !app_assoc. Qed.
Lemma orderly_start sv : orderly sv -> orderly (start sv).
Proof.
  intros Ho. destruct sv as [rc an cu q sh]. destruct cu as [f|]; [done|]. destruct q as [|c q]; [done|]. destruct Ho as [H1 H2 H3]. unfold in_hand in *. cbn in *.
  split; unfold in_hand; cbn; [done| |].
  - rewrite list.filter_app, H2, app_nil_r, imap_app, length_fmap. f_equal. rewrite filter_cons_True by apply sent_event_sent. cbn. by rewrite Nat.add_0_r.
  - rewrite omap_app, H3. cbn. pose proof (sent_event_sent (length an) c). destruct (sent_event _ _); try done. cbn. by rewrite app_nil_r.
Qed.
Lemma eager_start sv : eager (start sv).
Proof. unfold eager, start. destruct sv as [rc an [f|] [|c q] sh]; cbn; by intros. Qed.
Lemma orderly_finish f sv : current sv = Some f -> orderly sv -> orderly (finish f sv).
Proof.
  intros Hf [H1 H2 H3]. apply orderly_start, orderly_receive. unfold in_hand in *. rewrite Hf in *. cbn in *. split; unfold in_hand; cbn.
  - by rewrite H1, fmap_app, <- app_assoc.
  - rewrite list.filter_app, H2, filter_cons_False by done. by rewrite fmap_app, !app_nil_r.
  - by rewrite omap_app, H3, fmap_app.
Qed.
Lemma orderly_progress f sv : orderly sv -> orderly (progress f sv).
Proof.
  intros Ho. unfold progress. destruct (_ && _); [|done]. apply orderly_receive. destruct Ho as [H1 H2 H3]. split; cbn; [done| |].
  - rewrite list.filter_app, H2, filter_cons_False by done. by rewrite app_nil_r.
  - by rewrite omap_app, H3, app_nil_r.
Qed.
Lemma progress_current f sv : current (progress f sv) = current sv.
Proof. unfold progress. by destruct (_ && _). Qed.
Lemma orderly_serve a sv : orderly sv /\ eager sv -> orderly (serve a sv) /\ eager (serve a sv).
Proof.
  intros [Ho He]. destruct a as [c|id s r]; cbn [serve].
  - split; [by apply orderly_start, orderly_receive|apply eager_start].
  - assert (Ho' : orderly (observe id s r sv)).
    { destruct sv as [rc an [f|] q sh]; [|done]. destruct Ho as [H1 H2 H3]. unfold observe, in_hand in *. cbn in *. by destruct (Nat.eqb _ _). }
    assert (He' : eager (observe id s r sv)) by (unfold eager in *; destruct sv as [rc an [f|] q sh]; cbn in *; [done|intros _; by apply He]).
    unfold notice. destruct (current (observe id s r sv)) as [f|] eqn:Hf; [|done].
    destruct (f_state f =? 4); [split; [by apply orderly_finish|apply eager_start]|].
    destruct (_ && _); [|done]. split; [by apply orderly_progress|]. unfold eager. by rewrite progress_current, Hf.
Qed.
Lemma orderly_run l : forall sv, orderly sv /\ eager sv -> orderly (serve_all l sv) /\ eager (serve_all l sv).
Proof. induction l as [|a l IH]; intros sv H; [done|]. apply IH. by apply orderly_serve. Qed.
Lemma orderly_idle : orderly idle /\ eager idle.
Proof. done. Qed.
End server.

(** C2. The queue implements a first-in first-out server: whatever calls the page makes
    and whatever events the network delivers, while the transport does not fail, callbacks
    return and only make further calls, and every call has an address, is a GET or a POST
    with a query part and has a function as its callback ([sendable]), the requests sent
    and the callbacks made are, event for event, those of the reference server, and so are the commands
    that wait.  In that server the commands received - the page's calls and those of the
    callbacks, in the order in which they were made - are those answered, the one in
    flight and those that wait, in that order; the requests sent are those of the
    answered ones and of the one in flight; each answered command's own callback was
    called once, with the response the network gave to its request and with its own
    parameters; and nothing waits while nothing is in flight. *)
Theorem ajax_refines_fifo `{Host} react l :
  well_behaved react -> Forall action_ok l ->
  let st := run react l new_ajax_object in
  let sv := serve_all react l idle in
  trace st = shown sv /\ _dm_queue st = pending sv /\
  (_dm_xmlhttprequestobject st = None <-> current sv = None) /\
  received sv = (fst <$> answered sv) ++ in_hand sv ++ pending sv /\
  sent_trace st = imap sent_event ((fst <$> answered sv) ++ in_hand sv) /\
  omap call_event (trace st) = call_of <$> answered sv /\
  (current sv = None -> pending sv = []).
Proof.
  intros Hwb Hl. cbn zeta. destruct (simulates_run react Hwb l _ _ Hl simulates_idle) as [Hq _ Hx _ Ht].
  destruct (orderly_run react l _ orderly_idle) as [[H1 H2 H3] H4]. unfold sent_trace. rewrite Ht.
  split; [done|]. split; [done|]. split; [|by repeat split].
  unfold in_flight in Hx. destruct (current _) as [f|]; [rewrite (proj1 Hx); by split|]. destruct Hx as [Hx _]. by rewrite Hx.
Qed.

Lemma ajax_refines_fifo_witness :
  let st := @run good_host page_callbacks demo_run new_ajax_object in
  let sv := @serve_all good_host page_callbacks demo_run idle in
  trace st = shown sv /\
  (answered sv = [(normalise post_form, JObj "doc"); (normalise get_report, JObj "doc2")] /\
   f_command <$> current sv = Some (normalise get_report) /\ pending sv = []).
Proof.
  split; [|vm_compute; repeat split; reflexivity].
  apply (@ajax_refines_fifo good_host page_callbacks demo_run); [apply page_callbacks_ok|].
  repeat constructor; apply post_form_sendable || apply get_report_sendable.
Defined.
End Server.
