(* ===== verification/JsDate.v ===== *)
(** * JavaScript Date objects
    A [Date] is its local time value: milliseconds since 1 January 1970, 00:00,
    counted on the local clock.  The calendar arithmetic is that of ECMAScript
    (proleptic Gregorian calendar, out-of-range fields carried over); the local
    clock is taken to run without daylight-saving shifts.  Months count from 0. *)
From S2P Require Import Prelude.
Open Scope Z_scope.

Definition msPerDay : Z := 86400000.

(** ** Days, months and years *)
Definition is_leap (y : Z) : bool :=
  (y mod 4 =? 0) && (negb (y mod 100 =? 0) || (y mod 400 =? 0)).

(** Day number of 1 January of year [y]. *)
Definition dayFromYear (y : Z) : Z :=
  365 * (y - 1970) + (y - 1969) / 4 - (y - 1901) / 100 + (y - 1601) / 400.

Definition leap_days (y : Z) : Z := if is_leap y then 1 else 0.

(** Day of the year on which month [m] starts. *)
Definition monthStart (y m : Z) : Z :=
  let l := leap_days y in
  match m with
  | 0 => 0 | 1 => 31 | 2 => 59 + l | 3 => 90 + l | 4 => 120 + l | 5 => 151 + l
  | 6 => 181 + l | 7 => 212 + l | 8 => 243 + l | 9 => 273 + l | 10 => 304 + l | 11 => 334 + l
  | _ => 365 + l
  end.

(** Number of days of month [m] of year [y], for [0 <= m < 12]. *)
Definition monthLength (y m : Z) : Z := monthStart y (m + 1) - monthStart y m.

(** ECMAScript's MakeDay: the month is carried into the year, the day into the month. *)
Definition makeDay (y m d : Z) : Z :=
  let y' := y + m / 12 in
  dayFromYear y' + monthStart y' (m mod 12) + (d - 1).

Definition yearFromDay (n : Z) : Z :=
  let y := 1970 + (400 * n) / 146097 in
  if n <? dayFromYear y then y - 1
  else if dayFromYear (y + 1) <=? n then y + 1 else y.

Definition monthFromDay (n : Z) : Z :=
  let y := yearFromDay n in
  let k := n - dayFromYear y in
  if k <? monthStart y 1 then 0 else if k <? monthStart y 2 then 1
  else if k <? monthStart y 3 then 2 else if k <? monthStart y 4 then 3
  else if k <? monthStart y 5 then 4 else if k <? monthStart y 6 then 5
  else if k <? monthStart y 7 then 6 else if k <? monthStart y 8 then 7
  else if k <? monthStart y 9 then 8 else if k <? monthStart y 10 then 9
  else if k <? monthStart y 11 then 10 else 11.

Definition dateFromDay (n : Z) : Z :=
  n - dayFromYear (yearFromDay n) - monthStart (yearFromDay n) (monthFromDay n) + 1.

(** ** Date objects *)
Definition date : Type := Z.

Definition dayOf (t : date) : Z := t / msPerDay.
Definition timeOf (t : date) : Z := t mod msPerDay.

Definition getFullYear (t : date) : Z := yearFromDay (dayOf t).
Definition getMonth (t : date) : Z := monthFromDay (dayOf t).
Definition getDate (t : date) : Z := dateFromDay (dayOf t).
Definition getDay (t : date) : Z := (dayOf t + 4) mod 7.
Definition getHours (t : date) : Z := timeOf t / 3600000.
Definition getMinutes (t : date) : Z := timeOf t / 60000 mod 60.
Definition getSeconds (t : date) : Z := timeOf t / 1000 mod 60.

Definition makeDate (day time : Z) : date := day * msPerDay + time.

(** [new Date(y, m, d, h, mi, s)]: a year from 0 to 99 counts from 1900. *)
Definition new_Date (y m d h mi s : Z) : date :=
  makeDate (makeDay (if (0 <=? y) && (y <=? 99) then 1900 + y else y) m d)
    (h * 3600000 + mi * 60000 + s * 1000).

Definition setDate (d : Z) (t : date) : date :=
  makeDate (makeDay (getFullYear t) (getMonth t) d) (timeOf t).
Definition setMonth (m : Z) (t : date) : date :=
  makeDate (makeDay (getFullYear t) m (getDate t)) (timeOf t).
(** The built-in [setFullYear]. *)
Definition oldSetFullYear (y : Z) (t : date) : date :=
  makeDate (makeDay y (getMonth t) (getDate t)) (timeOf t).
(** [setHours(h)] and [setMinutes(m)] keep the smaller fields. *)
Definition setHours1 (h : Z) (t : date) : date :=
  makeDate (dayOf t) (h * 3600000 + timeOf t mod 3600000).
Definition setHours3 (h m s : Z) (t : date) : date :=
  makeDate (dayOf t) (h * 3600000 + m * 60000 + s * 1000 + timeOf t mod 1000).
Definition setMinutes (m : Z) (t : date) : date :=
  makeDate (dayOf t) (getHours t * 3600000 + m * 60000 + timeOf t mod 60000).

(** ** Lemmas *)

(** A day that exists: year [y], month [m], day [d]. *)
Definition valid_ymd (y m d : Z) : Prop := 0 <= m < 12 /\ 1 <= d <= monthLength y m.

#[global] Arguments leap_days : simpl never.
#[global] Arguments dayFromYear : simpl never.
#[global] Arguments makeDay : simpl never.

Ltac zdiv := Z.to_euclidean_division_equations; lia.

Lemma dayFromYear_succ y : dayFromYear (y + 1) = dayFromYear y + 365 + leap_days y.
Proof.
  unfold dayFromYear, leap_days, is_leap.
  destruct (Z.eqb_spec (y mod 4) 0), (Z.eqb_spec (y mod 100) 0), (Z.eqb_spec (y mod 400) 0);
    cbn; zdiv.
Qed.

Lemma leap_days_range y : 0 <= leap_days y <= 1.
Proof. unfold leap_days. destruct (is_leap y); lia. Qed.

Lemma dayFromYear_mono y z : y < z -> dayFromYear y < dayFromYear z.
Proof. unfold dayFromYear. intros. zdiv. Qed.

Lemma yearFromDay_spec n : dayFromYear (yearFromDay n) <= n < dayFromYear (yearFromDay n + 1).
Proof.
  unfold yearFromDay. set (y := 1970 + 400 * n / 146097).
  assert (dayFromYear (y - 1) <= n < dayFromYear (y + 2)) by (unfold y, dayFromYear; zdiv).
  destruct (Z.ltb_spec n (dayFromYear y)); [replace (y - 1 + 1) with y by lia; lia|].
  destruct (Z.leb_spec (dayFromYear (y + 1)) n); [replace (y + 1 + 1) with (y + 2) by lia; lia|lia].
Qed.

Lemma yearFromDay_unique y n : dayFromYear y <= n < dayFromYear (y + 1) -> yearFromDay n = y.
Proof.
  intros H. pose proof (yearFromDay_spec n) as Hs. set (z := yearFromDay n) in *.
  destruct (Z.lt_trichotomy z y) as [Hz|[?|Hz]]; [|done|].
  - assert (dayFromYear (z + 1) <= dayFromYear y); [|lia].
    destruct (Z.eq_dec (z + 1) y) as [->|]; [lia|]. pose proof (dayFromYear_mono (z + 1) y). lia.
  - assert (dayFromYear (y + 1) <= dayFromYear z); [|lia].
    destruct (Z.eq_dec (y + 1) z) as [->|]; [lia|]. pose proof (dayFromYear_mono (y + 1) z). lia.
Qed.

(** Enumerates the twelve months. *)
Lemma month_cases (P : Z -> Prop) :
  P 0 -> P 1 -> P 2 -> P 3 -> P 4 -> P 5 -> P 6 -> P 7 -> P 8 -> P 9 -> P 10 -> P 11 ->
  forall m, 0 <= m < 12 -> P m.
Proof.
  intros. assert (m = 0 \/ m = 1 \/ m = 2 \/ m = 3 \/ m = 4 \/ m = 5 \/ m = 6 \/ m = 7 \/
    m = 8 \/ m = 9 \/ m = 10 \/ m = 11) by lia. by repeat destruct_or?; subst.
Qed.

(** Evaluates the month tables at numerals. *)
Ltac month_eval :=
  unfold monthLength in *;
  change (0 + 1) with 1 in *; change (1 + 1) with 2 in *; change (2 + 1) with 3 in *;
  change (3 + 1) with 4 in *; change (4 + 1) with 5 in *; change (5 + 1) with 6 in *;
  change (6 + 1) with 7 in *; change (7 + 1) with 8 in *; change (8 + 1) with 9 in *;
  change (9 + 1) with 10 in *; change (10 + 1) with 11 in *; change (11 + 1) with 12 in *;
  cbn [monthStart] in *.

Ltac month_split m := revert m; refine (month_cases _ _ _ _ _ _ _ _ _ _ _ _ _).

Lemma makeDay_ymd y m d : 0 <= m < 12 -> makeDay y m d = dayFromYear y + monthStart y m + (d - 1).
Proof.
  intros H. unfold makeDay. rewrite Z.div_small, Z.mod_small by lia. by rewrite Z.add_0_r.
Qed.

Lemma monthStart_bounds y m : 0 <= m < 12 -> 0 <= monthStart y m /\ monthStart y m + monthLength y m <= 365 + leap_days y.
Proof.
  pose proof (leap_days_range y). month_split m; month_eval; lia.
Qed.

Lemma monthLength_range y m : 0 <= m < 12 -> 28 <= monthLength y m <= 31.
Proof. pose proof (leap_days_range y). month_split m; month_eval; lia. Qed.

Lemma monthFromDay_aux y d m :
  0 <= m < 12 -> 1 <= d <= monthLength y m ->
  yearFromDay (dayFromYear y + monthStart y m + (d - 1)) = y ->
  monthFromDay (dayFromYear y + monthStart y m + (d - 1)) = m.
Proof.
  pose proof (leap_days_range y).
  month_split m; intros Hd Hy; unfold monthFromDay; rewrite Hy;
    match goal with |- context [?a + ?b + ?c - ?a] => replace (a + b + c - a) with (b + c) by lia end;
    month_eval;
    repeat (case_if; bool_to_prop; try lia).
Qed.

Section ymd.
Context (y m d : Z) (Hv : valid_ymd y m d).

Lemma yearFromDay_ymd : yearFromDay (makeDay y m d) = y.
Proof using Hv.
  destruct Hv as [Hm Hd]. rewrite makeDay_ymd by done. apply yearFromDay_unique.
  rewrite dayFromYear_succ. pose proof (monthStart_bounds y m Hm). lia.
Qed.

Lemma monthFromDay_ymd : monthFromDay (makeDay y m d) = m.
Proof using Hv.
  pose proof yearFromDay_ymd as Hy. destruct Hv as [Hm Hd].
  rewrite makeDay_ymd in * by done. by apply monthFromDay_aux.
Qed.

Lemma dateFromDay_ymd : dateFromDay (makeDay y m d) = d.
Proof using Hv.
  unfold dateFromDay. rewrite yearFromDay_ymd, monthFromDay_ymd.
  rewrite makeDay_ymd by apply Hv. lia.
Qed.
End ymd.

(** Every day number is a day of some month. *)
Lemma ymd_of_day n :
  valid_ymd (yearFromDay n) (monthFromDay n) (dateFromDay n) /\
  makeDay (yearFromDay n) (monthFromDay n) (dateFromDay n) = n.
Proof.
  unfold dateFromDay. pose proof (yearFromDay_spec n) as Hy. rewrite dayFromYear_succ in Hy.
  unfold monthFromDay. set (y := yearFromDay n) in *. pose proof (leap_days_range y).
  repeat (case_if; [bool_to_prop; split;
    [split; month_eval; lia|rewrite makeDay_ymd by lia; month_eval; lia]|bool_to_prop]).
  split; [split; month_eval; lia|rewrite makeDay_ymd by lia; month_eval; lia].
Qed.

(** A month index out of range is carried into the year. *)
Lemma makeDay_carry y m k d : makeDay y (m + 12 * k) d = makeDay (y + k) m d.
Proof.
  unfold makeDay. rewrite (Z.mul_comm 12 k), Z.div_add, Z.mod_add by lia.
  by rewrite (Z.add_comm (m / 12) k), Z.add_assoc.
Qed.

Lemma makeDay_day y m d k : makeDay y m (d + k) = makeDay y m d + k.
Proof. unfold makeDay. lia. Qed.

(** The first of the next month is [monthLength] days after the first of this one. *)
Lemma makeDay_next_month y m :
  0 <= m < 12 -> makeDay y (m + 1) 1 = makeDay y m 1 + monthLength y m.
Proof.
  intros Hm. destruct (Z.eq_dec m 11) as [E|].
  - subst m. change (11 + 1) with (0 + 12 * 1). rewrite makeDay_carry, !makeDay_ymd by lia.
    rewrite dayFromYear_succ. month_eval. lia.
  - rewrite !makeDay_ymd by lia. unfold monthLength. lia.
Qed.

Lemma dayOf_makeDate n t : 0 <= t < msPerDay -> dayOf (makeDate n t) = n.
Proof. unfold dayOf, makeDate, msPerDay. intros. zdiv. Qed.
Lemma timeOf_makeDate n t : 0 <= t < msPerDay -> timeOf (makeDate n t) = t.
Proof. unfold timeOf, makeDate, msPerDay. intros. zdiv. Qed.
Lemma timeOf_range t : 0 <= timeOf t < msPerDay.
Proof. apply Z.mod_pos_bound. done. Qed.
Lemma makeDate_eta t : makeDate (dayOf t) (timeOf t) = t.
Proof. unfold makeDate, dayOf, timeOf, msPerDay. zdiv. Qed.

Lemma date_valid t : valid_ymd (getFullYear t) (getMonth t) (getDate t).
Proof. apply ymd_of_day. Qed.
Lemma date_makeDay t : makeDay (getFullYear t) (getMonth t) (getDate t) = dayOf t.
Proof. apply ymd_of_day. Qed.

(** The fields of a date built from a valid day. *)
Section fields.
Context (y m d t : Z) (Hv : valid_ymd y m d) (Ht : 0 <= t < msPerDay).
Lemma getFullYear_makeDate : getFullYear (makeDate (makeDay y m d) t) = y.
Proof using Hv Ht. unfold getFullYear. rewrite dayOf_makeDate by done. by apply yearFromDay_ymd. Qed.
Lemma getMonth_makeDate : getMonth (makeDate (makeDay y m d) t) = m.
Proof using Hv Ht. unfold getMonth. rewrite dayOf_makeDate by done. by apply monthFromDay_ymd. Qed.
Lemma getDate_makeDate : getDate (makeDate (makeDay y m d) t) = d.
Proof using Hv Ht. unfold getDate. rewrite dayOf_makeDate by done. by apply dateFromDay_ymd. Qed.
End fields.

Lemma getMonth_range t : 0 <= getMonth t < 12.
Proof. apply date_valid. Qed.
Lemma getDate_range t : 1 <= getDate t <= monthLength (getFullYear t) (getMonth t).
Proof. apply date_valid. Qed.
Lemma getDay_range t : 0 <= getDay t < 7.
Proof. apply Z.mod_pos_bound. lia. Qed.

(** Adding days with [setDate]. *)
Lemma dayOf_setDate d t : dayOf (setDate d t) = dayOf t + (d - getDate t).
Proof.
  unfold setDate. rewrite dayOf_makeDate by apply timeOf_range.
  replace d with (getDate t + (d - getDate t)) at 1 by lia. by rewrite makeDay_day, date_makeDay.
Qed.
Lemma timeOf_setDate d t : timeOf (setDate d t) = timeOf t.
Proof. unfold setDate. by rewrite timeOf_makeDate by apply timeOf_range. Qed.
#[export] Hint Rewrite dayOf_setDate timeOf_setDate : js_rw.
