(* ===== verification/CalendarDate.v ===== *)
(** * Date patches of the calendar widget (calendar.js, calendar-en.js)
    The methods that calendar.js adds to [Date]: month lengths, day of the year,
    ISO week number, equality, the patched [setFullYear], printing by a format,
    and the calendar's [parseDate], which reads what [print] writes. *)
From S2P Require Import Prelude JsString JsNum JsVal JsDate.
Open Scope Z_scope.

(** ** English names (calendar-en.js) *)
Definition DN : list string :=
  ["Sunday"; "Monday"; "Tuesday"; "Wednesday"; "Thursday"; "Friday"; "Saturday"; "Sunday"].
Definition SDN : list string := ["Sun"; "Mon"; "Tue"; "Wed"; "Thu"; "Fri"; "Sat"; "Sun"].
Definition MN : list string :=
  ["January"; "February"; "March"; "April"; "May"; "June"; "July"; "August";
   "September"; "October"; "November"; "December"].
Definition SMN : list string :=
  ["Jan"; "Feb"; "Mar"; "Apr"; "May"; "Jun"; "Jul"; "Aug"; "Sep"; "Oct"; "Nov"; "Dec"].

(** [a[i]] on an array of strings. *)
Definition name_at (l : list string) (i : Z) : jsval :=
  if i <? 0 then Undefined
  else match l !! Z.to_nat i with Some s => JStr s | None => Undefined end.

(** ** Date methods *)
Definition MD : list Z := [31; 28; 31; 30; 31; 30; 31; 31; 30; 31; 30; 31].

(** [getMonthDays(month)]; [None] in the result is [undefined]. *)
Definition getMonthDays (month : option Z) (t : date) : option Z :=
  let year := getFullYear t in
  let month := match month with None => getMonth t | Some m => m end in
  if ((Z.rem year 4 =? 0) && (negb (Z.rem year 100 =? 0) || (Z.rem year 400 =? 0))) && (month =? 1)
  then Some 29
  else if month <? 0 then None else MD !! Z.to_nat month.

Definition getDayOfYear (t : date) : Z :=
  let now := new_Date (getFullYear t) (getMonth t) (getDate t) 0 0 0 in
  let start := new_Date (getFullYear t) 0 0 0 0 0 in
  (now - start) / msPerDay.

(** [Math.round(a / b)]: halves are rounded up. *)
Definition js_round (a b : Z) : Z := (2 * a + b) / (2 * b).

Definition getWeekNumber (t : date) : Z :=
  let d := new_Date (getFullYear t) (getMonth t) (getDate t) 0 0 0 in
  let DoW := getDay d in
  let d := setDate (getDate d - Z.rem (DoW + 6) 7 + 3) d in
  let ms := d in
  let d := setMonth 0 d in
  let d := setDate 4 d in
  js_round (ms - d) (7 * msPerDay) + 1.

Definition equalsTo (this other : date) : bool :=
  (getFullYear this =? getFullYear other) && (getMonth this =? getMonth other) &&
  (getDate this =? getDate other) && (getHours this =? getHours other) &&
  (getMinutes this =? getMinutes other).

(** The [setFullYear] that replaces the built-in one. *)
Definition setFullYear (y : Z) (this : date) : date :=
  let d := oldSetFullYear y this in
  let this := if negb (getMonth d =? getMonth this) then setDate 28 this else this in
  oldSetFullYear y this.

(** ** Printing *)
Definition pad2 (n : Z) : jsval := if n <? 10 then JStr ("0" +++ Z_to_string n) else JNum n.

(** The entries of [print]'s table [s], by the character after the percent sign. *)
Definition print_field (t : date) (c : ascii) : jsval :=
  let m := getMonth t in
  let d := getDate t in
  let y := getFullYear t in
  let wn := getWeekNumber t in
  let w := getDay t in
  let hr := getHours t in
  let pm := 12 <=? hr in
  let ir := if pm then hr - 12 else hr in
  let dy := getDayOfYear t in
  let ir := if ir =? 0 then 12 else ir in
  let min := getMinutes t in
  let sec := getSeconds t in
  match c with
  | "a"%char => name_at SDN w
  | "A"%char => name_at DN w
  | "b"%char => name_at SMN m
  | "B"%char => name_at MN m
  | "C"%char => JNum (1 + y / 100)
  | "d"%char => pad2 d
  | "e"%char => JNum d
  | "H"%char => pad2 hr
  | "I"%char => pad2 ir
  | "j"%char =>
      if dy <? 100
      then if dy <? 10 then JStr ("00" +++ Z_to_string dy) else JStr ("0" +++ Z_to_string dy)
      else JNum dy
  | "k"%char => JNum hr
  | "l"%char => JNum ir
  | "m"%char => if m <? 9 then JStr ("0" +++ Z_to_string (1 + m)) else JNum (1 + m)
  | "M"%char => pad2 min
  | "n"%char => JStr (String (ascii_of_nat 10) "")
  | "p"%char => JStr (if pm then "PM" else "AM")
  | "P"%char => JStr (if pm then "pm" else "am")
  | "s"%char => JNum (t / 1000)
  | "S"%char => pad2 sec
  | "t"%char => JStr (String (ascii_of_nat 9) "")
  | "U"%char | "W"%char | "V"%char => pad2 wn
  | "u"%char => JNum (w + 1)
  | "w"%char => JNum w
  | "y"%char => JStr (substr (Z_to_string y) 2 2)
  | "Y"%char => JNum y
  | "%"%char => JStr "%"
  | _ => Undefined
  end.

(** The regular expression's dot: any character that does not end a line. *)
Definition re_dot (c : ascii) : bool :=
  negb (Ascii.eqb c (ascii_of_nat 10) || Ascii.eqb c (ascii_of_nat 13)).

(** [str.replace(/%./g, function (par) { return s[par] || par; })] *)
Fixpoint print_go (s : ascii -> jsval) (str : string) : string :=
  match str with
  | EmptyString => EmptyString
  | String c rest =>
      if Ascii.eqb c "%" then
        match rest with
        | String d rest' =>
            if re_dot d then
              (if truthy (s d) then val_string (s d) else String c (String d "")) +++ print_go s rest'
            else String c (print_go s rest)
        | EmptyString => String c EmptyString
        end
      else String c (print_go s rest)
  end.
Definition print (str : string) (t : date) : string := print_go (print_field t) str.

(** [fmt.match(/%./g)]: the characters after the percent signs; [None] is [null]. *)
Fixpoint specs_go (fmt : string) : list ascii :=
  match fmt with
  | EmptyString => []
  | String c rest =>
      if Ascii.eqb c "%" then
        match rest with
        | String d rest' => if re_dot d then d :: specs_go rest' else specs_go rest
        | EmptyString => []
        end
      else specs_go rest
  end.
Definition fmt_specs (fmt : string) : option (list ascii) :=
  match specs_go fmt with [] => None | l => Some l end.

(** The branch of [print] for Internet Explorer 5, which replaces the matches one
    after the other, each everywhere; [None] is the exception on a format without
    matches ([a] is [null]). *)
Definition print_ie5 (str : string) (t : date) : option string :=
  a ← fmt_specs str;
  Some (fold_left (fun str c =>
    let tmp := print_field t c in
    if truthy tmp then join (val_string tmp) (js_split str (String "%" (String c "")))
    else str) a str).

(** ** Parsing *)
Definition is_word (c : ascii) : bool :=
  let n := nat_of_ascii c in
  is_digit c || (Nat.leb 65 n && Nat.leb n 90) || (Nat.leb 97 n && Nat.leb n 122) || Nat.eqb n 95.
Definition is_letter (c : ascii) : bool :=
  let n := nat_of_ascii c in
  (Nat.leb 65 n && Nat.leb n 90) || (Nat.leb 97 n && Nat.leb n 122).
Fixpoint sany (P : ascii -> bool) (s : string) : bool :=
  match s with EmptyString => false | String c s => P c || sany P s end.

(** [str.split(/\W+/)] *)
Fixpoint split_nonword_go (insep : bool) (s : string) : string * list string :=
  match s with
  | EmptyString => (EmptyString, [])
  | String c s' =>
      if is_word c then let '(h, t) := split_nonword_go false s' in (String c h, t)
      else if insep then split_nonword_go true s'
      else let '(h, t) := split_nonword_go true s' in (EmptyString, h :: t)
  end.
Definition split_nonword (s : string) : list string :=
  let '(h, t) := split_nonword_go false s in h :: t.

(** The variables [y, m, d, hr, min] of [parseDate]; [None] is [NaN]. *)
Record parsed := Parsed {
  p_y : option Z; p_m : option Z; p_d : option Z; p_hr : option Z; p_min : option Z
}.

(** [(y < 100) && (y += (y > 29) ? 1900 : 2000)] *)
Definition fix_year (y : option Z) : option Z :=
  match y with
  | Some y => Some (if y <? 100 then y + (if 29 <? y then 1900 else 2000) else y)
  | None => None
  end.

(** The month whose name starts with the token, whatever the case. *)
Fixpoint month_index (names : list string) (j : Z) (tok : string) : option Z :=
  match names with
  | [] => None
  | n :: names =>
      if String.eqb (toLowerCase (substr n 0 (slen tok))) (toLowerCase tok) then Some j
      else month_index names (j + 1) tok
  end.

Definition opt_lt (a : option Z) (b : Z) : bool := match a with Some a => a <? b | None => false end.

(** One iteration of the first loop: the token is read by its format character. *)
Definition parse_spec (b : ascii) (tok : string) (p : parsed) : parsed :=
  let '(Parsed y m d hr min) := p in
  match b with
  | "d"%char | "e"%char => Parsed y m (parseInt10 tok) hr min
  | "m"%char => Parsed y (Z.pred <$> parseInt10 tok) d hr min
  | "Y"%char | "y"%char => Parsed (fix_year (parseInt10 tok)) m d hr min
  | "b"%char | "B"%char =>
      match month_index MN 0 tok with Some j => Parsed y (Some j) d hr min | None => p end
  | "H"%char | "I"%char | "k"%char | "l"%char => Parsed y m d (parseInt10 tok) min
  | "P"%char | "p"%char =>
      if contains (toLowerCase tok) "pm" && opt_lt hr 12
      then Parsed y m d (Z.add 12 <$> hr) min else p
  | "M"%char => Parsed y m d hr (parseInt10 tok)
  | _ => p
  end.

Fixpoint parse_specs (a : list string) (b : list ascii) (p : parsed) : parsed :=
  match a, b with
  | tok :: a, c :: b => parse_specs a b (if String.eqb tok "" then p else parse_spec c tok p)
  | _, _ => p
  end.

Definition num_int (x : num) : option Z := match x with Fin q => Some (Qtrunc q) | _ => None end.

(** One iteration of the second loop: the token is read by what it looks like. *)
Definition parse_guess (p : parsed) (tok : string) : parsed :=
  let '(Parsed y m d hr min) := p in
  if sany is_letter tok then
    match month_index MN 0 tok with
    | Some t => Parsed y (Some t) (if bool_decide (m = Some (-1)) then d else Z.succ <$> m) hr min
    | None => p
    end
  else if match parseInt10 tok with Some k => k <=? 12 | None => false end
          && bool_decide (m = Some (-1))
  then Parsed y (num_int (num_sub (toNumber tok) (num_of_Z 1))) d hr min
  else if match parseInt10 tok with Some k => 31 <? k | None => false end
          && bool_decide (y = Some 0)
  then Parsed (fix_year (parseInt10 tok)) m d hr min
  else if bool_decide (d = Some 0) then Parsed y m (num_int (toNumber tok)) hr min
  else p.

(** [new Date(y, m, d, hr, min, 0)]; [None] is an invalid date. *)
Definition parsed_date (p : parsed) : option date :=
  y ← p_y p; m ← p_m p; d ← p_d p; hr ← p_hr p; min ← p_min p; Some (new_Date y m d hr min 0).

Inductive parse_result :=
| ParseThrows                     (** the format has no field, [b] is [null] *)
| ParseIgnored                    (** [setDate] is not called *)
| ParseSets (t : option date).    (** [this.setDate] is called with this date *)

(** [Calendar.prototype.parseDate(str, fmt)], up to its call of [setDate]. *)
Definition parseDate (today : date) (str fmt : string) : parse_result :=
  let a := split_nonword str in
  let p0 := Parsed (Some 0) (Some (-1)) (Some 0) (Some 0) (Some 0) in
  match fmt_specs fmt with
  | None =>
      if existsb (fun tok => negb (String.eqb tok "")) a then ParseThrows else
      ParseIgnored
  | Some b =>
      let p := parse_specs a b p0 in
      if negb (bool_decide (p_y p = Some 0)) && negb (bool_decide (p_m p = Some (-1))) &&
         negb (bool_decide (p_d p = Some 0))
      then ParseSets (parsed_date p)
      else
        let p := Parsed (Some 0) (Some (-1)) (Some 0) (p_hr p) (p_min p) in
        let p := fold_left parse_guess a p in
        let p := if bool_decide (p_y p = Some 0)
                 then Parsed (Some (getFullYear today)) (p_m p) (p_d p) (p_hr p) (p_min p) else p in
        if negb (bool_decide (p_m p = Some (-1))) && negb (bool_decide (p_d p = Some 0))
        then ParseSets (parsed_date p)
        else ParseIgnored
  end.

(** ** Lemmas on the date methods *)
Lemma rem_mod_eq0 y k : 0 < k -> (Z.rem y k =? 0) = (y mod k =? 0).
Proof.
  intros. apply eq_true_iff_eq. rewrite !Z.eqb_eq.
  rewrite Z.rem_divide, Z.mod_divide by lia. done.
Qed.

Lemma new_Date_year y m d :
  ~ 0 <= y <= 99 -> new_Date y m d 0 0 0 = makeDate (makeDay y m d) 0.
Proof.
  intros H. unfold new_Date. destruct (Z.leb_spec 0 y), (Z.leb_spec y 99); simpl; try done; lia.
Qed.

Lemma msPerDay_pos : 0 < msPerDay.
Proof. done. Qed.

(** Midnight of the day of [t]. *)
Lemma new_Date_day t :
  ~ 0 <= getFullYear t <= 99 ->
  new_Date (getFullYear t) (getMonth t) (getDate t) 0 0 0 = makeDate (dayOf t) 0.
Proof. intros H. by rewrite new_Date_year, date_makeDay. Qed.

Lemma setMonth_day m t : dayOf (setMonth m t) = makeDay (getFullYear t) m (getDate t).
Proof. unfold setMonth. by rewrite dayOf_makeDate by apply timeOf_range. Qed.
Lemma timeOf_setMonth m t : timeOf (setMonth m t) = timeOf t.
Proof. unfold setMonth. by rewrite timeOf_makeDate by apply timeOf_range. Qed.

Lemma monthLength_31 y m : m = 0 \/ m = 11 -> monthLength y m = 31.
Proof. intros [-> | ->]; month_eval; lia. Qed.

(** [setMonth(0)] followed by [setDate(4)] is 4 January of the same year. *)
Lemma jan4_day t : dayOf (setDate 4 (setMonth 0 t)) = dayFromYear (getFullYear t) + 3.
Proof.
  pose proof (getDate_range t). pose proof (monthLength_range (getFullYear t) (getMonth t) (getMonth_range t)).
  assert (Hv : valid_ymd (getFullYear t) 0 (getDate t)).
  { split; [lia|]. rewrite monthLength_31; lia. }
  rewrite dayOf_setDate. unfold setMonth at 2.
  rewrite getDate_makeDate by (done || apply timeOf_range).
  rewrite setMonth_day, makeDay_ymd by lia. month_eval. lia.
Qed.

Lemma date_days t : t = dayOf t * msPerDay + timeOf t.
Proof. symmetry. apply makeDate_eta. Qed.

(** ** ISO 8601 weeks
    A week runs from Monday to Sunday; week 1 of a year is the one with 4 January. *)
Definition mondayOf (n : Z) : Z := n - (n + 3) mod 7.
Definition iso_week1 (y : Z) : Z := mondayOf (dayFromYear y + 3).
Definition iso_week_of (n y w : Z) : Prop :=
  iso_week1 y + 7 * (w - 1) <= n < iso_week1 y + 7 * w /\ iso_week1 y <= n < iso_week1 (y + 1).

Lemma dayOf_getDay t : (getDay t + 6) mod 7 = (dayOf t + 3) mod 7.
Proof. unfold getDay. zdiv. Qed.

(** The week of a day is the number of its Thursday among the Thursdays of the year. *)
Lemma iso_week_thursday n :
  let th := n - (n + 3) mod 7 + 3 in
  let y := yearFromDay th in
  iso_week_of n y ((th - dayFromYear y) / 7 + 1).
Proof.
  intros th y. pose proof (yearFromDay_spec th) as Hy. fold y in Hy.
  pose proof (dayFromYear_succ y). pose proof (leap_days_range y).
  unfold iso_week_of, iso_week1, mondayOf. subst th.
  set (a := dayFromYear y) in *. set (b := dayFromYear (y + 1)) in *. clearbody a b. zdiv.
Qed.

Lemma js_round_week k : js_round ((k - 3) * msPerDay) (7 * msPerDay) = k / 7.
Proof.
  unfold js_round. replace (2 * ((k - 3) * msPerDay) + 7 * msPerDay) with ((2 * k + 1) * msPerDay) by lia.
  replace (2 * (7 * msPerDay)) with (14 * msPerDay) by lia.
  rewrite Z.div_mul_cancel_r by (unfold msPerDay; lia). zdiv.
Qed.

(** The last lines of [getWeekNumber], from the Thursday [d] at midnight. *)
Lemma week_of_thursday d :
  timeOf d = 0 ->
  js_round (d - setDate 4 (setMonth 0 d)) (7 * msPerDay) + 1
  = (dayOf d - dayFromYear (getFullYear d)) / 7 + 1.
Proof.
  intros Ht. pose proof (date_days d) as E1. pose proof (date_days (setDate 4 (setMonth 0 d))) as E2.
  rewrite jan4_day, timeOf_setDate, timeOf_setMonth in E2. rewrite Ht in E1, E2.
  rewrite <- js_round_week. f_equal. f_equal. lia.
Qed.

Lemma thursday_day t :
  dayOf (setDate (getDate t - Z.rem (getDay t + 6) 7 + 3) t) = dayOf t - (dayOf t + 3) mod 7 + 3.
Proof.
  rewrite Z.rem_mod_nonneg by (pose proof (getDay_range t); lia).
  rewrite dayOf_getDay, dayOf_setDate. lia.
Qed.

(** C38. [getWeekNumber] is the ISO 8601 week of the date: the week, counted from
    the one that contains 4 January, of a year whose weeks include the day (which
    is the next or the previous year for some days around New Year).  Years 0 to 99
    are left out: the constructor [Date] reads them as 1900 to 1999. *)
Theorem getWeekNumber_iso t :
  ~ 0 <= getFullYear t <= 99 -> exists y, iso_week_of (dayOf t) y (getWeekNumber t).
Proof.
  intros H. unfold getWeekNumber. rewrite (new_Date_day t H). cbv zeta.
  pose proof (dayOf_makeDate (dayOf t) 0 (conj (Z.le_refl 0) msPerDay_pos)) as Hd.
  pose proof (timeOf_makeDate (dayOf t) 0 (conj (Z.le_refl 0) msPerDay_pos)) as Ht.
  generalize dependent (makeDate (dayOf t) 0). intros d0 Hd Ht.
  rewrite week_of_thursday by (by rewrite timeOf_setDate). unfold getFullYear.
  rewrite thursday_day, Hd. eexists. apply iso_week_thursday.
Qed.

Lemma getWeekNumber_iso_witness :
  let t := new_Date 2009 11 31 10 0 0 in
  (~ 0 <= getFullYear t <= 99) /\ getWeekNumber t = 53 /\
  exists y, iso_week_of (dayOf t) y (getWeekNumber t).
Proof.
  assert (H : ~ 0 <= getFullYear (new_Date 2009 11 31 10 0 0) <= 99) by (vm_compute; intuition congruence).
  split; [exact H|split; [vm_compute; reflexivity|exact (getWeekNumber_iso _ H)]].
Defined.

(** A day is in one week of one ISO year only. *)
Lemma iso_week1_mono y z : y < z -> iso_week1 y < iso_week1 z.
Proof.
  intros H. unfold iso_week1, mondayOf.
  assert (dayFromYear y + 7 < dayFromYear z) by (unfold dayFromYear; zdiv). zdiv.
Qed.

Lemma iso_week_of_unique n y w y' w' : iso_week_of n y w -> iso_week_of n y' w' -> y = y' /\ w = w'.
Proof.
  intros [? Hy] [? Hy'].
  assert (y = y').
  { destruct (Z.lt_trichotomy y y') as [Hl|[?|Hl]]; [|done|].
    - destruct (Z.eq_dec (y + 1) y') as [<-|]; [lia|]. pose proof (iso_week1_mono (y + 1) y'). lia.
    - destruct (Z.eq_dec (y' + 1) y) as [<-|]; [lia|]. pose proof (iso_week1_mono (y' + 1) y). lia. }
  subst y'. split; [done|lia].
Qed.

(** [getMonthDays] gives the length of a month of the date's year, leap years
    of the Gregorian calendar included, and [undefined] outside January to December
    (without an argument it is the length of the date's own month). *)
Theorem getMonthDays_spec month t :
  getMonthDays month t =
  let m := default (getMonth t) month in
  if (0 <=? m) && (m <? 12) then Some (monthLength (getFullYear t) m) else None.
Proof.
  unfold getMonthDays. rewrite !rem_mod_eq0 by lia. fold (is_leap (getFullYear t)).
  change (match month with None => getMonth t | Some m => m end) with (default (getMonth t) month).
  set (m := default _ _). clearbody m. cbv zeta. set (y := getFullYear t).
  destruct (Z.leb_spec 0 m), (Z.ltb_spec m 12); cbn [andb].
  - assert (Hm : 0 <= m < 12) by lia. revert Hm. clear. generalize m. clear m.
    refine (month_cases _ _ _ _ _ _ _ _ _ _ _ _ _); month_eval; unfold leap_days;
      destruct (is_leap y); reflexivity.
  - destruct (Z.eqb_spec m 1), (Z.ltb_spec m 0); rewrite ?andb_false_r; try lia.
    apply lookup_ge_None. simpl. lia.
  - destruct (Z.eqb_spec m 1), (Z.ltb_spec m 0); rewrite ?andb_false_r; try lia. done.
  - lia.
Qed.

(** [getDayOfYear] counts the days of the year from 1: 1 January is day 1, and
    the last day of the year is day 365 or 366. *)
Theorem getDayOfYear_spec t :
  ~ 0 <= getFullYear t <= 99 ->
  getDayOfYear t = dayOf t - dayFromYear (getFullYear t) + 1 /\
  1 <= getDayOfYear t <= 365 + leap_days (getFullYear t).
Proof.
  intros H. pose proof (yearFromDay_spec (dayOf t)) as Hy. change (yearFromDay (dayOf t)) with (getFullYear t) in Hy.
  rewrite dayFromYear_succ in Hy.
  assert (getDayOfYear t = dayOf t - dayFromYear (getFullYear t) + 1) as ->; [|lia].
  unfold getDayOfYear. rewrite new_Date_day, new_Date_year, makeDay_ymd by (lia || done).
  unfold makeDate. replace (_ - _) with ((dayOf t - dayFromYear (getFullYear t) + 1) * msPerDay)
    by (month_eval; lia).
  by rewrite Z.div_mul.
Qed.

Lemma getDayOfYear_spec_witness :
  let t := new_Date 2008 11 31 10 0 0 in
  (~ 0 <= getFullYear t <= 99) /\ getDayOfYear t = 366 /\ getDayOfYear t = dayOf t - dayFromYear (getFullYear t) + 1.
Proof.
  assert (H : ~ 0 <= getFullYear (new_Date 2008 11 31 10 0 0) <= 99) by (vm_compute; intuition congruence).
  split; [exact H|split; [vm_compute; reflexivity|exact (proj1 (getDayOfYear_spec _ H))]].
Defined.

(** The built-in [setFullYear] on a day that exists in the new year. *)
Lemma oldSetFullYear_fields y u :
  getDate u <= monthLength y (getMonth u) ->
  getFullYear (oldSetFullYear y u) = y /\ getMonth (oldSetFullYear y u) = getMonth u /\
  getDate (oldSetFullYear y u) = getDate u /\ timeOf (oldSetFullYear y u) = timeOf u.
Proof.
  intros H. pose proof (getDate_range u). pose proof (timeOf_range u).
  assert (valid_ymd y (getMonth u) (getDate u)) by (split; [apply getMonth_range|lia]).
  unfold oldSetFullYear.
  by rewrite getFullYear_makeDate, getMonth_makeDate, getDate_makeDate, timeOf_makeDate by done.
Qed.

(** On 29 February it moves to March in a year without that day. *)
Lemma oldSetFullYear_month y t :
  monthLength y (getMonth t) < getDate t -> getMonth (oldSetFullYear y t) <> getMonth t.
Proof.
  intros Hlt. pose proof (getMonth_range t) as Hm. pose proof (getDate_range t) as Hd.
  pose proof (monthLength_range y _ Hm) as Hl. pose proof (monthLength_range (getFullYear t) _ Hm).
  pose proof (timeOf_range t).
  assert (makeDay y (getMonth t) (getDate t)
          = makeDay y (getMonth t + 1) (getDate t - monthLength y (getMonth t))) as E.
  { replace (getDate t) with (1 + (getDate t - 1)) at 1 by lia.
    replace (getDate t - monthLength y (getMonth t)) with (1 + (getDate t - monthLength y (getMonth t) - 1)) by lia.
    rewrite !makeDay_day, makeDay_next_month by done. lia. }
  unfold oldSetFullYear. rewrite E. destruct (Z.eq_dec (getMonth t) 11) as [Em|].
  - rewrite (monthLength_31 y) in Hlt by (by right). lia.
  - rewrite getMonth_makeDate; [lia| |done].
    split; [lia|]. pose proof (monthLength_range y (getMonth t + 1)). lia.
Qed.

Lemma setFullYear_fields y t :
  getFullYear (setFullYear y t) = y /\
  getMonth (setFullYear y t) = getMonth t /\
  getDate (setFullYear y t) = (if getDate t <=? monthLength y (getMonth t) then getDate t else 28) /\
  timeOf (setFullYear y t) = timeOf t.
Proof.
  unfold setFullYear. destruct (Z.leb_spec (getDate t) (monthLength y (getMonth t))) as [Hle|Hlt].
  - destruct (oldSetFullYear_fields y t Hle) as (H1 & H2 & H3 & H4). rewrite H2, Z.eqb_refl. done.
  - rewrite (proj2 (Z.eqb_neq _ _) (oldSetFullYear_month y t Hlt)). cbn [negb].
    pose proof (getMonth_range t) as Hm. pose proof (timeOf_range t).
    pose proof (monthLength_range y _ Hm). pose proof (monthLength_range (getFullYear t) _ Hm).
    assert (valid_ymd (getFullYear t) (getMonth t) 28) by (split; [done|lia]).
    assert (getMonth (setDate 28 t) = getMonth t) as E1 by (by apply getMonth_makeDate).
    assert (getDate (setDate 28 t) = 28) as E2 by (by apply getDate_makeDate).
    destruct (oldSetFullYear_fields y (setDate 28 t)) as (F1 & F2 & F3 & F4); [rewrite E1, E2; lia|].
    by rewrite F1, F2, F3, F4, E1, E2, timeOf_setDate.
Qed.

(** The patched [setFullYear] never leaves the month: the year becomes [y], the
    month and the time of day stay, and the day stays too unless the month is too
    short for it in the new year, where it becomes 28 (29 February only). *)
Theorem setFullYear_spec y t :
  getFullYear (setFullYear y t) = y /\
  getMonth (setFullYear y t) = getMonth t /\
  getDate (setFullYear y t) = (if getDate t <=? monthLength y (getMonth t) then getDate t else 28) /\
  timeOf (setFullYear y t) = timeOf t.
Proof. apply setFullYear_fields. Qed.

(** [equalsTo] compares year, month, day, hours and minutes: it holds exactly
    when both dates lie in the same minute. *)
Theorem equalsTo_iff a b : equalsTo a b = true <-> a / 60000 = b / 60000.
Proof.
  assert (Hmin : forall t, t / 60000 = dayOf t * 1440 + getHours t * 60 + getMinutes t /\
    0 <= getHours t < 24 /\ 0 <= getMinutes t < 60).
  { intros t. unfold getHours, getMinutes. pose proof (timeOf_range t) as H.
    rewrite (date_days t) at 1. unfold msPerDay in *. zdiv. }
  destruct (Hmin a) as (Ha & ? & ?), (Hmin b) as (Hb & ? & ?). rewrite Ha, Hb. clear Ha Hb Hmin.
  unfold equalsTo. rewrite !andb_true_iff, !Z.eqb_eq. split.
  - intros ((((Hy & Hm) & Hd) & ->) & ->).
    rewrite <- (date_makeDay a), <- (date_makeDay b), Hy, Hm, Hd. done.
  - intros H'. assert (dayOf a = dayOf b) as Hd by lia.
    unfold getFullYear, getMonth, getDate. rewrite Hd. repeat split; lia.
Qed.

(** ** Reading back what [print] wrote *)
Lemma split_nonword_go_word b w : sall is_word w = true -> split_nonword_go b w = (w, []).
Proof.
  revert b. induction w as [|d w IH]; intros b Hw; simpl in *; [done|].
  apply andb_true_iff in Hw as [-> Hw]. by rewrite (IH _ Hw).
Qed.
Lemma split_nonword_go_seps sep rest :
  sall (fun c => negb (is_word c)) sep = true -> split_nonword_go true (sep +++ rest) = split_nonword_go true rest.
Proof.
  induction sep as [|c sep IH]; intros H; [done|]. cbn [sall String.append split_nonword_go] in *.
  apply andb_true_iff in H as [Hc H]. rewrite (negb_true_iff _) in Hc. by rewrite Hc, IH.
Qed.
Lemma split_nonword_go_first w c rest :
  sall is_word w = true -> is_word c = false ->
  split_nonword_go false (w +++ String c rest) = (w, let '(h, t) := split_nonword_go true rest in h :: t).
Proof.
  intros Hw Hc. induction w as [|d w IH]; simpl in *.
  - rewrite Hc. by destruct (split_nonword_go true rest).
  - apply andb_true_iff in Hw as [-> Hw]. by rewrite (IH Hw).
Qed.
(** A word, separators, and what begins with a word. *)
Lemma split_nonword_cons w sep d v :
  sall is_word w = true -> sall (fun c => negb (is_word c)) sep = true -> sep <> "" -> is_word d = true ->
  split_nonword (w +++ sep +++ String d v) = w :: split_nonword (String d v).
Proof.
  intros Hw Hs Hne Hd. destruct sep as [|c sep]; [done|]. cbn [sall] in Hs. apply andb_true_iff in Hs as [Hc Hs]. apply negb_true_iff in Hc.
  unfold split_nonword. change (String c sep +++ ?r) with (String c (sep +++ r)).
  rewrite split_nonword_go_first, split_nonword_go_seps by done. cbn [split_nonword_go]. rewrite Hd. by destruct (split_nonword_go false v).
Qed.
(** A word, and perhaps separators at the end. *)
Lemma split_nonword_last w sep :
  sall is_word w = true -> sall (fun c => negb (is_word c)) sep = true ->
  split_nonword (w +++ sep) = w :: (if String.eqb sep "" then [] else [""]).
Proof.
  intros Hw Hs. unfold split_nonword. destruct sep as [|c sep]; [by rewrite sapp_nil_r, split_nonword_go_word|].
  cbn [sall] in Hs. apply andb_true_iff in Hs as [Hc Hs]. apply negb_true_iff in Hc.
  rewrite split_nonword_go_first by done. rewrite <- (sapp_nil_r sep), split_nonword_go_seps by done. done.
Qed.

Lemma digit_is_word c : is_digit c = true -> is_word c = true.
Proof. unfold is_word. by intros ->. Qed.

(** Membership in an explicit list. *)
Ltac in_list := repeat first [apply list_elem_of_here | apply list_elem_of_further].

(** What [print] writes for a number of two digits or more: digits that read back. *)
Definition reads_as (s : string) (n : Z) : Prop :=
  (exists d v, s = String d v) /\ sall is_digit s = true /\ parseInt10 s = Some n.

Lemma reads_as_digits s n : s <> "" -> digits_val 0 s = Some n -> reads_as s n.
Proof.
  intros Hs Hv. split; [destruct s; [done|by eexists _, _]|].
  split; [by eapply digits_val_all|by apply parseInt10_digits].
Qed.

Lemma reads_as_num n : 0 <= n -> reads_as (Z_to_string n) n.
Proof.
  intros H. rewrite Z_to_string_nonneg by done.
  apply reads_as_digits; [apply nat_digits_nonempty|by apply digits_val_nat_digits].
Qed.

Lemma reads_as_zero n : 0 <= n -> reads_as ("0" +++ Z_to_string n) n.
Proof.
  intros H. rewrite Z_to_string_nonneg by done.
  apply reads_as_digits; [done|]. simpl. by apply digits_val_nat_digits.
Qed.

Lemma reads_as_pad2 n : 0 <= n -> reads_as (val_string (pad2 n)) n /\ truthy (pad2 n) = true.
Proof.
  intros H. unfold pad2. destruct (Z.ltb_spec n 10); cbn [val_string truthy].
  - split; [by apply reads_as_zero|done].
  - split; [by apply reads_as_num|]. destruct (Z.eqb_spec n 0); [lia|done].
Qed.

Lemma reads_as_word s n : reads_as s n -> s <> "" /\ sall is_word s = true.
Proof.
  intros ((d & v & ->) & Hs & _). split; [done|]. eapply sall_impl; [apply digit_is_word|exact Hs].
Qed.
Lemma parseInt10_reads s n : reads_as s n -> parseInt10 s = Some n.
Proof. by intros (_ & _ & ?). Qed.
Lemma fix_year_100 y : 100 <= y -> fix_year (Some y) = Some y.
Proof. intros H. unfold fix_year. destruct (Z.ltb_spec y 100); [lia|done]. Qed.

(** *** Formats
    A format of fields with separators between them: characters that are neither
    part of a word nor a percent sign. *)
Definition plain_fields : list ascii := ["Y"; "m"; "d"; "e"; "b"; "B"; "H"; "M"; "S"; "a"; "A"]%char.
Fixpoint format_of (l : list (ascii * string)) : string :=
  match l with [] => "" | (c, sep) :: l => String "%" (String c (sep +++ format_of l)) end.
Definition gap (sep : string) : Prop := sall (fun c => negb (is_word c) && negb (Ascii.eqb c "%")) sep = true.
Inductive readable : list (ascii * string) -> Prop :=
| readable_last c sep : c ∈ plain_fields -> gap sep -> readable [(c, sep)]
| readable_cons c sep l : c ∈ plain_fields -> gap sep -> sep <> "" -> readable l -> readable ((c, sep) :: l).

Definition format_date : string := "%Y-%m-%d".
Definition format_time : string := "%Y-%m-%d %H:%M:%S".
Definition date_fields : list (ascii * string) := [("Y"%char, "-"); ("m"%char, "-"); ("d"%char, "")].
Definition time_fields : list (ascii * string) :=
  [("Y"%char, "-"); ("m"%char, "-"); ("d"%char, " "); ("H"%char, ":"); ("M"%char, ":"); ("S"%char, "")].
(** Names of days and months, and other separators. *)
Definition named_fields : list (ascii * string) :=
  [("A"%char, ", "); ("e"%char, ". "); ("B"%char, " "); ("Y"%char, " / "); ("H"%char, ":"); ("M"%char, "")].

Lemma gap_nonword sep : gap sep -> sall (fun c => negb (is_word c)) sep = true.
Proof. apply sall_impl. by intros c [? _]%andb_true_iff. Qed.
Lemma plain_field_dot c : c ∈ plain_fields -> re_dot c = true.
Proof. unfold plain_fields. intros H. repeat (apply elem_of_cons in H as [->|H]; [done|]). by apply elem_of_nil in H. Qed.
Lemma specs_go_sep sep r : gap sep -> specs_go (sep +++ r) = specs_go r.
Proof.
  induction sep as [|c sep IH]; intros H; [done|]. unfold gap in *. cbn [sall String.append specs_go] in *.
  apply andb_true_iff in H as [[_ Hc%negb_true_iff]%andb_true_iff H]. by rewrite Hc, IH.
Qed.
Lemma print_go_sep s sep r : gap sep -> print_go s (sep +++ r) = sep +++ print_go s r.
Proof.
  induction sep as [|c sep IH]; intros H; [done|]. unfold gap in *. cbn [sall String.append print_go] in *.
  apply andb_true_iff in H as [[_ Hc%negb_true_iff]%andb_true_iff H]. by rewrite Hc, IH.
Qed.
Lemma specs_format l : readable l -> fmt_specs (format_of l) = Some (map fst l).
Proof.
  intros Hl. assert (E : specs_go (format_of l) = map fst l).
  { induction Hl as [c sep Hc Hs|c sep l Hc Hs _ _ IH]; cbn [format_of specs_go map fst]; rewrite Ascii.eqb_refl, (plain_field_dot c Hc), specs_go_sep by done; [done|].
    by rewrite IH. }
  unfold fmt_specs. rewrite E. by destruct Hl.
Qed.

(** *** What is printed for a field, and what is read from it *)
Definition field_text (t : date) (c : ascii) : string := val_string (print_field t c).
Definition fill (t : date) (p : parsed) (c : ascii) : parsed :=
  let '(Parsed y m d h mi) := p in
  match c with
  | "Y"%char => Parsed (Some (getFullYear t)) m d h mi
  | "m"%char | "b"%char | "B"%char => Parsed y (Some (getMonth t)) d h mi
  | "d"%char | "e"%char => Parsed y m (Some (getDate t)) h mi
  | "H"%char => Parsed y m d (Some (getHours t)) mi
  | "M"%char => Parsed y m d h (Some (getMinutes t))
  | _ => p
  end.

(** A number that is printed, and read back by [f]. *)
Definition printed_number (v : jsval) (n : Z) : Prop := truthy v = true /\ reads_as (val_string v) n.
Lemma number_pad2 n : 0 <= n -> printed_number (pad2 n) n.
Proof. intros H. destruct (reads_as_pad2 n H). by split. Qed.
Lemma number_plain n : 1 <= n -> printed_number (JNum n) n.
Proof. intros H. split; [cbn; destruct (Z.eqb_spec n 0); [lia|done]|apply reads_as_num; lia]. Qed.
Lemma number_month m : 0 <= m -> printed_number (if m <? 9 then JStr ("0" +++ Z_to_string (1 + m)) else JNum (1 + m)) (m + 1).
Proof.
  intros H. rewrite (Z.add_comm 1). case_if; [split; [done|apply reads_as_zero; lia]|apply number_plain; lia].
Qed.
Lemma name_word l i : 0 <= i < Z.of_nat (length l) -> Forall (fun n => n <> "" /\ sall is_word n = true) l ->
  exists n, name_at l i = JStr n /\ n <> "" /\ sall is_word n = true.
Proof.
  intros Hi Hl. unfold name_at. destruct (Z.ltb_spec i 0); [lia|]. destruct (lookup_lt_is_Some_2 l (Z.to_nat i)) as [n Hn]; [lia|].
  rewrite Hn. exists n. split; [done|]. rewrite Forall_forall in Hl. by apply Hl, list_elem_of_lookup_2 with (Z.to_nat i).
Qed.
Lemma name_truthy s : s <> "" -> truthy (JStr s) = true.
Proof. intros H. cbn. by destruct (String.eqb_spec s ""). Qed.
Lemma month_read m : 0 <= m < 12 -> month_index MN 0 (val_string (name_at SMN m)) = Some m /\ month_index MN 0 (val_string (name_at MN m)) = Some m.
Proof. revert m. refine (month_cases _ _ _ _ _ _ _ _ _ _ _ _ _); split; vm_compute; reflexivity. Qed.

Lemma number_read c v n t p : printed_number v n ->
  (forall tok, parseInt10 tok = Some n -> parse_spec c tok p = fill t p c) ->
  parse_spec c (val_string v) p = fill t p c.
Proof. intros [_ Hr] H. by apply H, parseInt10_reads. Qed.
Lemma number_word v n : printed_number v n -> truthy v = true /\ val_string v <> "" /\ sall is_word (val_string v) = true.
Proof. intros [Hv Hr]. split; [done|]. by apply reads_as_word with n. Qed.
Lemma name_text l i : 0 <= i < Z.of_nat (length l) -> Forall (fun n => n <> "" /\ sall is_word n = true) l ->
  truthy (name_at l i) = true /\ val_string (name_at l i) <> "" /\ sall is_word (val_string (name_at l i)) = true.
Proof. intros Hi Hl. destruct (name_word l i Hi Hl) as (n & -> & Hne & Hnw). split; [by apply name_truthy|done]. Qed.
Lemma field_number t c : 100 <= getFullYear t -> c ∈ ["Y"; "m"; "d"; "e"; "H"; "M"; "S"]%char ->
  exists n, printed_number (print_field t c) n /\ forall tok p, parseInt10 tok = Some n -> parse_spec c tok p = fill t p c.
Proof.
  intros Hy Hc. pose proof (getMonth_range t). pose proof (getDate_range t). pose proof (timeOf_range t) as Ht. unfold msPerDay in Ht.
  repeat (apply elem_of_cons in Hc as [->|Hc]); [..|by apply elem_of_nil in Hc]; cbn [print_field parse_spec fill]; eexists;
    (split; [first [apply number_month; lia|apply number_pad2; unfold getHours, getMinutes, getSeconds; zdiv|apply number_plain; lia]|]);
    intros tok [] E; cbn [parse_spec fill]; rewrite ?E, ?fix_year_100 by done; try done.
  cbn. by replace (Z.pred (getMonth t + 1)) with (getMonth t) by lia.
Qed.
Lemma field_name t c : c ∈ ["b"; "B"; "a"; "A"]%char ->
  truthy (print_field t c) = true /\ field_text t c <> "" /\ sall is_word (field_text t c) = true /\
  forall p, parse_spec c (field_text t c) p = fill t p c.
Proof.
  intros Hc. pose proof (getMonth_range t) as Hm. pose proof (getDay_range t). destruct (month_read (getMonth t) Hm) as [Hb HB].
  unfold field_text. repeat (apply elem_of_cons in Hc as [->|Hc]); [..|by apply elem_of_nil in Hc]; cbn [print_field];
    (match goal with |- context [name_at ?l ?i] =>
      destruct (name_text l i) as (H1 & H2 & H3); [cbn; lia|repeat constructor; done|] end);
    (split_and!; [done..|]); intros []; cbn [parse_spec fill]; by rewrite ?Hb, ?HB.
Qed.
(** Every field is a word that reads back as what it stands for. *)
Lemma field_read t c : 100 <= getFullYear t -> c ∈ plain_fields ->
  truthy (print_field t c) = true /\ field_text t c <> "" /\ sall is_word (field_text t c) = true /\
  forall p, parse_spec c (field_text t c) p = fill t p c.
Proof.
  intros Hy Hc. assert (H : c ∈ ["Y"; "m"; "d"; "e"; "H"; "M"; "S"]%char \/ c ∈ ["b"; "B"; "a"; "A"]%char).
  { unfold plain_fields in Hc. repeat (apply elem_of_cons in Hc as [->|Hc]; [first [left; in_list; fail|right; in_list; fail]|]). by apply elem_of_nil in Hc. }
  destruct H as [H|H]; [|by apply field_name]. destruct (field_number t c Hy H) as (n & Hn & Hp).
  destruct (number_word _ _ Hn) as (H1 & H2 & H3). split_and!; [done..|]. intros p. apply number_read with n; [done|]. intros tok. apply Hp.
Qed.

(** The text of a date in a format. *)
Fixpoint printed (t : date) (l : list (ascii * string)) : string :=
  match l with [] => "" | (c, sep) :: l => field_text t c +++ sep +++ printed t l end.
Lemma print_format t l : 100 <= getFullYear t -> readable l -> print (format_of l) t = printed t l.
Proof.
  intros Hy Hl. unfold print.
  induction Hl as [c sep Hc Hs|c sep l Hc Hs _ _ IH]; cbn [format_of print_go printed];
    destruct (field_read t c Hy Hc) as (Ht & _); rewrite Ascii.eqb_refl, (plain_field_dot c Hc), Ht, print_go_sep by done; [done|].
  by rewrite IH.
Qed.
Lemma printed_start t l : 100 <= getFullYear t -> readable l -> exists d v, printed t l = String d v /\ is_word d = true.
Proof.
  intros Hy Hl. assert (H : forall c r, c ∈ plain_fields -> exists d v, field_text t c +++ r = String d v /\ is_word d = true).
  { intros c r Hc. destruct (field_read t c Hy Hc) as (_ & Hne & Hw & _). destruct (field_text t c) as [|d v]; [done|].
    exists d, (v +++ r). split; [done|]. cbn [sall] in Hw. by apply andb_true_iff in Hw as [? _]. }
  destruct Hl; by apply H.
Qed.
Lemma split_printed t l : 100 <= getFullYear t -> readable l ->
  exists r, split_nonword (printed t l) = map (field_text t) (map fst l) ++ r /\ (r = [] \/ r = [""]).
Proof.
  intros Hy Hl. induction Hl as [c sep Hc Hs|c sep l Hc Hs Hne Hl (r & IH & Hr)]; cbn [printed map fst];
    destruct (field_read t c Hy Hc) as (_ & _ & Hw & _).
  - rewrite sapp_nil_r, split_nonword_last by (done || by apply gap_nonword). eexists. split; [done|]. case_if; tauto.
  - destruct (printed_start t l Hy Hl) as (d & v & E & Hd). rewrite E in *.
    rewrite split_nonword_cons, IH by (done || by apply gap_nonword). by exists r.
Qed.
Lemma parse_specs_fields t cs r : 100 <= getFullYear t -> Forall (fun c => c ∈ plain_fields) cs -> r = [] \/ r = [""] ->
  forall p, parse_specs (map (field_text t) cs ++ r) cs p = fold_left (fill t) cs p.
Proof.
  intros Hy Hcs Hr. induction Hcs as [|c cs Hc Hcs IH]; intros p; [by destruct Hr as [-> | ->]|]. cbn [map app parse_specs fold_left].
  destruct (field_read t c Hy Hc) as (_ & Hne & _ & Hp). destruct (String.eqb_spec (field_text t c) ""); [done|]. by rewrite Hp, IH.
Qed.
Lemma readable_fields l : readable l -> Forall (fun c => c ∈ plain_fields) (map fst l).
Proof. induction 1; cbn; by constructor. Qed.

(** *** What a format tells *)
Definition has (cs : list ascii) (l : list (ascii * string)) : bool := existsb (fun '(c, _) => existsb (Ascii.eqb c) cs) l.
Lemma fill_one t p c : fill t p c =
  Parsed (if existsb (Ascii.eqb c) ["Y"%char] then Some (getFullYear t) else p_y p)
    (if existsb (Ascii.eqb c) ["m"; "b"; "B"]%char then Some (getMonth t) else p_m p)
    (if existsb (Ascii.eqb c) ["d"; "e"]%char then Some (getDate t) else p_d p)
    (if existsb (Ascii.eqb c) ["H"%char] then Some (getHours t) else p_hr p)
    (if existsb (Ascii.eqb c) ["M"%char] then Some (getMinutes t) else p_min p).
Proof. destruct p. by destruct c as [[] [] [] [] [] [] [] []]. Qed.
Lemma fill_all t l : forall p, fold_left (fill t) (map fst l) p =
  Parsed (if has ["Y"%char] l then Some (getFullYear t) else p_y p)
    (if has ["m"; "b"; "B"]%char l then Some (getMonth t) else p_m p)
    (if has ["d"; "e"]%char l then Some (getDate t) else p_d p)
    (if has ["H"%char] l then Some (getHours t) else p_hr p)
    (if has ["M"%char] l then Some (getMinutes t) else p_min p).
Proof.
  assert (Hif : forall (a b : bool) (x y : option Z), (if a then x else if b then x else y) = if b || a then x else y) by by intros [] [].
  induction l as [|[c sep] l IH]; intros p; [by destruct p|]. cbn [map fst fold_left]. rewrite IH, fill_one. cbn [p_y p_m p_d p_hr p_min].
  by rewrite !Hif.
Qed.
(** A date built from the fields of [t] is [t], cut to the minute or to the day. *)
Lemma new_Date_fields t h mi :
  ~ 0 <= getFullYear t <= 99 ->
  new_Date (getFullYear t) (getMonth t) (getDate t) h mi 0 = dayOf t * msPerDay + (h * 3600000 + mi * 60000).
Proof.
  intros H. unfold new_Date, makeDate.
  destruct (Z.leb_spec 0 (getFullYear t)), (Z.leb_spec (getFullYear t) 99); simpl; try lia;
    rewrite date_makeDay; lia.
Qed.

Lemma minute_floor t : dayOf t * msPerDay + (getHours t * 3600000 + getMinutes t * 60000) = t / 60000 * 60000.
Proof. unfold getHours, getMinutes, timeOf, dayOf, msPerDay. zdiv. Qed.

Lemma parseDate_format today t l : 100 <= getFullYear t -> readable l ->
  has ["Y"%char] l = true -> has ["m"; "b"; "B"]%char l = true -> has ["d"; "e"]%char l = true ->
  parseDate today (print (format_of l) t) (format_of l) =
  ParseSets (Some (dayOf t * msPerDay + (if has ["H"%char] l then getHours t * 3600000 else 0)
                                      + (if has ["M"%char] l then getMinutes t * 60000 else 0))).
Proof.
  intros Hy Hl Y m d. pose proof (getMonth_range t). pose proof (getDate_range t).
  unfold parseDate. rewrite (specs_format l Hl), (print_format t l Hy Hl).
  destruct (split_printed t l Hy Hl) as (r & -> & Hr). rewrite (parse_specs_fields t _ r Hy (readable_fields l Hl) Hr), fill_all, Y, m, d.
  cbn [p_y p_m p_d p_hr p_min]. rewrite !bool_decide_eq_false_2 by (intros [=]; lia). cbn [negb andb]. do 2 f_equal.
  unfold parsed_date. cbn [p_y p_m p_d p_hr p_min mbind option_bind].
  destruct (has ["H"%char] l), (has ["M"%char] l); cbn [mbind option_bind]; rewrite new_Date_fields by lia; f_equal; lia.
Qed.
Lemma date_readable : readable date_fields.
Proof. repeat constructor; try done; unfold plain_fields; in_list. Qed.
Lemma time_readable : readable time_fields.
Proof. repeat constructor; try done; unfold plain_fields; in_list. Qed.
Lemma named_readable : readable named_fields.
Proof. repeat constructor; try done; unfold plain_fields; in_list. Qed.
(** The formats of the application. *)
Lemma parseDate_print_core today t :
  100 <= getFullYear t ->
  parseDate today (print format_date t) format_date = ParseSets (Some (dayOf t * msPerDay)) /\
  parseDate today (print format_time t) format_time = ParseSets (Some (t / 60000 * 60000)).
Proof.
  intros Hy. split.
  - change format_date with (format_of date_fields). rewrite parseDate_format by (done || apply date_readable). cbn. do 2 f_equal. lia.
  - change format_time with (format_of time_fields). rewrite parseDate_format by (done || apply time_readable). cbn [has existsb time_fields Ascii.eqb Bool.eqb orb].
    rewrite <- minute_floor. do 2 f_equal. cbn. lia.
Qed.

(** C37. What [print] writes, [parseDate] reads back.  The format is any sequence of the
    fields for the year (%Y), the month (%m, %b, %B), the day (%d, %e), the hour (%H), the
    minute (%M), the second (%S) and the day of the week (%a, %A), in any order, each
    followed by characters that are neither letters, digits, underscores nor per cent
    signs - at least one, but for the last - and it has a year, a month and a day.  From
    the year 100 on, the calendar is set to the day of the date, to its hour when the
    format has the hour, to its minute when it has the minute, and to the full hour,
    minute or midnight otherwise.  In particular this holds of the application's formats
    of dates, and of dates with times. *)
Theorem parseDate_print today t l : 100 <= getFullYear t -> readable l ->
  has ["Y"%char] l = true -> has ["m"; "b"; "B"]%char l = true -> has ["d"; "e"]%char l = true ->
  parseDate today (print (format_of l) t) (format_of l) =
    ParseSets (Some (dayOf t * msPerDay + (if has ["H"%char] l then getHours t * 3600000 else 0)
                                        + (if has ["M"%char] l then getMinutes t * 60000 else 0))) /\
  parseDate today (print format_date t) format_date = ParseSets (Some (dayOf t * msPerDay)) /\
  parseDate today (print format_time t) format_time = ParseSets (Some (t / 60000 * 60000)).
Proof. intros Hy Hl Y m d. split; [by apply parseDate_format|by apply parseDate_print_core]. Qed.

Lemma parseDate_print_witness :
  let t := new_Date 2008 1 29 7 5 9 in
  100 <= getFullYear t /\ format_of named_fields = "%A, %e. %B %Y / %H:%M" /\
  print (format_of named_fields) t = "Friday, 29. February 2008 / 07:05" /\
  parseDate 0 (print (format_of named_fields) t) (format_of named_fields) = ParseSets (Some (new_Date 2008 1 29 7 5 0)).
Proof.
  assert (H : 100 <= getFullYear (new_Date 2008 1 29 7 5 9)) by (vm_compute; discriminate).
  split; [exact H|]. split; [reflexivity|]. split; [vm_compute; reflexivity|].
  exact (proj1 (parseDate_print 0 _ named_fields H named_readable eq_refl eq_refl eq_refl)).
Defined.

(** A field whose value is the number 0 is printed as the format character
    itself: the hour of [%k] at midnight and the weekday of [%w] on Sundays, since
    the replacement is [s[par] || par] and 0 counts as false. *)
Theorem print_zero_field t :
  print "%k" t = (if getHours t =? 0 then "%k" else Z_to_string (getHours t)) /\
  print "%w" t = (if getDay t =? 0 then "%w" else Z_to_string (getDay t)).
Proof.
  unfold print. cbn -[print_field]. cbn [print_field truthy val_string]. rewrite !sapp_nil_r.
  by destruct (getHours t =? 0), (getDay t =? 0).
Qed.
