(* ===== verification/CalendarGrid.v ===== *)
(** * The day grid of the calendar widget (calendar.js)
    The calendar object with its six rows of seven day cells, class names of
    elements, and [_init], which fills the grid for a date. *)
From S2P Require Import Prelude JsString JsNum JsVal JsDate CalendarDate.
Open Scope Z_scope.

(** ** Class names of elements *)

(** [Calendar.removeClass]: the classes that stay come out in reverse order. *)
Definition removeClass (className : string) (cls : string) : string :=
  if String.eqb cls "" then cls
  else join " " (reverse (base.filter (fun c => c <> className) (js_split cls " "))).

Definition addClass (className : string) (cls : string) : string :=
  removeClass className cls +++ " " +++ className.

(** ** Data *)

(** What [getDateStatus(date, year, month, day)] returns: [true], or a class name. *)
Definition status_handler : Type := date -> Z -> Z -> Z -> jsval.

(** A day cell ([td]) of the table. *)
Record cell := Cell {
  k_class : string;
  k_text : string;              (** [firstChild.data] *)
  k_other : bool;               (** [otherMonth] *)
  k_disabled : bool;
  k_caldate : option date;      (** [None] until the cell first shows a date *)
  k_ttip : string
}.

(** A row of the table body: its class, the week-number cell, the day cells. *)
Record row := Row {
  r_class : string;
  r_wn : option (string * string);   (** class and text, when week numbers are shown *)
  r_cells : list cell
}.

(** A day cell is named by its row and column. *)
Definition cell_ref : Type := nat * nat.

(** The options that the page sets on the object. *)
Record options := Options {
  o_minYear : Z;
  o_maxYear : Z;
  o_dateFormat : string;
  o_weekNumbers : bool;
  o_showsOtherMonths : bool;
  o_getDateStatus : option status_handler;
  o_timeFormatOnToday : Z;
  o_yearStep : Z;
  o_onSelected : bool;          (** a handler is registered *)
  o_onClose : bool
}.

(** The input fields of the time row, when [showsTime]. *)
Record timepart := TimePart { t_12 : bool; t_H : string; t_M : string; t_AP : string }.

(** Calls to the handlers of the page, in order. *)
Inductive cal_event :=
| Selected (s : string) (d : date) (clicked : bool)   (** [onSelected(cal, s)], with the
                              [date] and [dateClicked] of [cal] at the time of the call *)
| Closed                    (** [onClose(cal)] *)
| Callme (id : string)      (** [callme(id)], the page's tab switch *)
| Hidden.                   (** [cal.hide()] *)

Record calendar := Calendar {
  c_opts : options;
  c_date : date;
  c_fdow : Z;                       (** [firstDayOfWeek] *)
  c_rows : list row;
  c_ar_days : list cell_ref;
  c_current : option cell_ref;      (** [currentDateEl] *)
  c_title : string;
  c_time : option timepart;
  c_clicked : bool;                 (** [dateClicked] *)
  c_log : list cal_event
}.

(** ** Constructor and setters *)
Definition set_date (d : date) (c : calendar) : calendar :=
  Calendar (c_opts c) d (c_fdow c) (c_rows c) (c_ar_days c) (c_current c) (c_title c) (c_time c)
    (c_clicked c) (c_log c).
Definition set_current (r : option cell_ref) (c : calendar) : calendar :=
  Calendar (c_opts c) (c_date c) (c_fdow c) (c_rows c) (c_ar_days c) r (c_title c) (c_time c)
    (c_clicked c) (c_log c).
Definition set_rows (rs : list row) (c : calendar) : calendar :=
  Calendar (c_opts c) (c_date c) (c_fdow c) rs (c_ar_days c) (c_current c) (c_title c) (c_time c)
    (c_clicked c) (c_log c).
Definition set_time (t : option timepart) (c : calendar) : calendar :=
  Calendar (c_opts c) (c_date c) (c_fdow c) (c_rows c) (c_ar_days c) (c_current c) (c_title c) t
    (c_clicked c) (c_log c).
Definition set_clicked (b : bool) (c : calendar) : calendar :=
  Calendar (c_opts c) (c_date c) (c_fdow c) (c_rows c) (c_ar_days c) (c_current c) (c_title c)
    (c_time c) b (c_log c).
Definition add_event (e : cal_event) (c : calendar) : calendar :=
  Calendar (c_opts c) (c_date c) (c_fdow c) (c_rows c) (c_ar_days c) (c_current c) (c_title c)
    (c_time c) (c_clicked c) (c_log c ++ [e]).
Definition set_opts (o : options) (c : calendar) : calendar :=
  Calendar o (c_date c) (c_fdow c) (c_rows c) (c_ar_days c) (c_current c) (c_title c) (c_time c)
    (c_clicked c) (c_log c).

(** The options that the constructor gives to a new calendar. *)
Definition default_options (onSelected onClose : bool) : options :=
  Options 1970 2050 format_date true false None 0 2 onSelected onClose.

(** ** Day cells *)
Definition cell_at (rs : list row) (r : cell_ref) : option cell :=
  rw ← rs !! fst r; r_cells rw !! snd r.

Definition map_cell (f : cell -> cell) (r : cell_ref) (c : calendar) : calendar :=
  set_rows (alter (fun rw => Row (r_class rw) (r_wn rw) (alter f (snd r) (r_cells rw))) (fst r) (c_rows c)) c.

Definition cell_class (f : string -> string) (k : cell) : cell :=
  Cell (f (k_class k)) (k_text k) (k_other k) (k_disabled k) (k_caldate k) (k_ttip k).

Definition nbsp : string := String (ascii_of_nat 160) "".
Definition WEEKEND : string := "0,6".
Definition PART_TODAY : string := " (today)".

(** The body of the inner loop of [_init] on the cell that shows [d]. *)
Section init_cell.
Context (o : options) (now : date) (year month mday : Z).

Definition in_month (d : date) : bool := getMonth d =? month.

(** Class and [disabled] after the status handler was asked. *)
Definition cell_status (d : date) (cls : string) : string * bool :=
  match o_getDateStatus o with
  | None => (cls, false)
  | Some f =>
      let status := f d year month (getDate d) in
      if bool_decide (status = JBool true) then (cls +++ " disabled", true)
      else (cls +++ " " +++ val_string status, contains (toLowerCase (val_string status)) "disabled")
  end.

Definition same_day (d e : date) : bool :=
  (getFullYear d =? getFullYear e) && (getMonth d =? getMonth e) && (getDate d =? getDate e).

(** The cell stays empty: a day of another month that is not shown. *)
Definition hidden_day (d : date) : bool := negb (in_month d) && negb (o_showsOtherMonths o).

Definition is_selected (d : date) : bool := in_month d && (getDate d =? mday).

Definition init_cell (d : date) (k : cell) : cell :=
  if hidden_day d then Cell "emptycell" nbsp (k_other k) true (k_caldate k) (k_ttip k)
  else
    let cls := if in_month d then "day" else "day othermonth" in
    let other := negb (in_month d) in
    let '(cls, disabled) := cell_status d cls in
    let text := Z_to_string (getDate d) in
    if disabled then Cell cls text other true (k_caldate k) (k_ttip k)
    else
      let cls := if is_selected d then cls +++ " selected" else cls in
      let '(cls, ttip) :=
        if same_day d now then (cls +++ " today", "_" +++ PART_TODAY) else (cls, "_") in
      let cls := if contains WEEKEND (Z_to_string (getDay d))
                 then cls +++ (if other then " oweekend" else " weekend") else cls in
      Cell cls text other false (Some d) ttip.

(** The cell can be clicked: it enters [ar_days]. *)
Definition enabled_day (d : date) : bool :=
  negb (hidden_day d) && negb (snd (cell_status d "")).
End init_cell.

(** ** The loops of [_init] *)

(** What the loops carry: [date], [ar_days], [currentDateEl]. *)
Record init_acc := Acc { a_date : date; a_days : list cell_ref; a_current : option cell_ref }.

Section init_loops.
Context (o : options) (now : date) (year month mday : Z).

Definition next_day (d : date) : date := setDate (getDate d + 1) d.

Definition init_step (r : cell_ref) (a : init_acc) : init_acc :=
  let d := a_date a in
  let on := enabled_day o year month d in
  Acc (next_day d)
    (if on then a_days a ++ [r] else a_days a)
    (if on && is_selected month mday d then Some r else a_current a).

Fixpoint init_cells (i j : nat) (ks : list cell) (a : init_acc) : list cell * init_acc :=
  match ks with
  | [] => ([], a)
  | k :: ks =>
      let k' := init_cell o now year month mday (a_date a) k in
      let '(ks', a') := init_cells i (S j) ks (init_step (i, j) a) in
      (k' :: ks', a')
  end.

(** [hasdays]: some cell of the row shows a day of the month. *)
Fixpoint row_has_days (n : nat) (d : date) : bool :=
  match n with O => false | S n => in_month month d || row_has_days n (next_day d) end.

Fixpoint init_rows (i : nat) (rs : list row) (a : init_acc) : list row * init_acc :=
  match rs with
  | [] => ([], a)
  | r :: rs =>
      let wn := if o_weekNumbers o then Some ("day wn", Z_to_string (getWeekNumber (a_date a))) else r_wn r in
      let hasdays := row_has_days (length (r_cells r)) (a_date a) in
      let cls := if hasdays || o_showsOtherMonths o then "daysrow" else "emptyrow" in
      let '(ks, a1) := init_cells i 0 (r_cells r) a in
      let '(rs', a2) := init_rows (S i) rs a1 in
      (Row cls wn ks :: rs', a2)
  end.
End init_loops.

(** ** The time row *)
Definition pad_field (n : Z) : string := if n <? 10 then "0" +++ Z_to_string n else Z_to_string n.

(** [cal.onSetTime]: shows the time of the date; it does nothing without a time row. *)
Definition onSetTime (c : calendar) : calendar :=
  match c_time c with
  | None => c
  | Some tp =>
      let hrs := getHours (c_date c) in
      let mins := getMinutes (c_date c) in
      let pm := 12 <? hrs in
      let hrs := if pm && t_12 tp then hrs - 12 else hrs in
      set_time (Some (TimePart (t_12 tp) (pad_field hrs) (pad_field mins)
        (if t_12 tp then (if pm then "pm" else "am") else t_AP tp))) c
  end.

(** ** [_init] *)

(** The year brought into the range of the calendar. *)
Definition clamp_year (o : options) (d : date) : date :=
  let year := getFullYear d in
  if year <? o_minYear o then setFullYear (o_minYear o) d
  else if o_maxYear o <? year then setFullYear (o_maxYear o) d else d.

(** The first day displayed, "the calendar voodoo". *)
Definition first_cell (fdow : Z) (d : date) : date :=
  let d := setDate 1 d in
  let day1 := Z.rem (getDay d - fdow) 7 in
  let day1 := if day1 <? 0 then day1 + 7 else day1 in
  let d := setDate (- day1) d in
  setDate (getDate d + 1) d.

(** [_init(firstDayOfWeek, date)], [now] being the current date. *)
Definition init (now : date) (fdow : Z) (d : date) (c : calendar) : calendar :=
  let o := c_opts c in
  let d := clamp_year o d in
  let year := getFullYear d in
  let month := getMonth d in
  let mday := getDate d in
  let '(rs, a) := init_rows o now year month mday 0 (c_rows c) (Acc (first_cell fdow d) [] (c_current c)) in
  let title := val_string (name_at MN month) +++ ", " +++ Z_to_string year in
  onSetTime (Calendar o d fdow rs (a_days a) (a_current a) title (c_time c) (c_clicked c) (c_log c)).

(** [_init] works on the caller's [Date] object: the value it has afterwards. *)
Definition init_argument (fdow : Z) (d : date) (c : calendar) : date :=
  let d := clamp_year (c_opts c) d in
  a_date (snd (init_rows (c_opts c) 0 0 0 0 0 (c_rows c) (Acc (first_cell fdow d) [] None))).

(** ** [create] *)
Definition blank_cell : cell := Cell "" "" false false None "".

(** The table body that [create] builds. *)
Definition create_rows (weekNumbers : bool) : list row :=
  replicate 6 (Row "" (if weekNumbers then Some ("", "") else None) (replicate 7 blank_cell)).

(** The time row, when [showsTime]. *)
Definition create_time (time24 : bool) (d : date) : timepart :=
  let hrs := getHours d in
  let mins := getMinutes d in
  let t12 := negb time24 in
  let pm := 12 <? hrs in
  let hrs := if t12 && pm then hrs - 12 else hrs in
  TimePart t12 (Z_to_string hrs) (Z_to_string mins) (if pm then "pm" else "am").

(** [new Calendar(fdow, dateStr)] followed by [create()]; [time24] is [None] when
    the calendar does not show the time. *)
Definition create (now : date) (o : options) (fdow : Z) (dateStr : option date) (time24 : option bool)
  : calendar :=
  let d := default now dateStr in
  init now fdow d
    (Calendar o d fdow (create_rows (o_weekNumbers o)) [] None "" (flip create_time d <$> time24) false []).

(** ** Lemmas: class names *)

(** The element has class [c]: a word of its class name. *)
Definition has_class (c cls : string) : Prop := c ∈ js_split cls " ".
Definition no_space (s : string) : bool := sall (not_char " ") s.

Lemma js_split_join_classes l :
  Forall (fun s => no_space s = true) l -> l <> [] -> js_split (join " " l) " " = l.
Proof. apply js_split_join. Qed.

Lemma js_split_cons_char c s :
  js_split (String c s) " " =
  if Ascii.eqb " " c then "" :: js_split s " "
  else match js_split s " " with h :: t => String c h :: t | [] => [] end.
Proof.
  unfold js_split. cbn [js_split_go prefixb String.length Nat.sub].
  rewrite andb_true_r. destruct (Ascii.eqb " " c), (js_split_go " " 0 s); done.
Qed.

Lemma js_split_no_space s : Forall (fun t => no_space t = true) (js_split s " ").
Proof.
  induction s as [|c s IH]; [by repeat constructor|]. rewrite js_split_cons_char.
  destruct (Ascii.eqb " " c) eqn:Ec; [by constructor|].
  destruct (js_split s " ") as [|h t]; [done|]. inv IH. constructor; [|done].
  unfold no_space, not_char. cbn [sall]. by rewrite Ec.
Qed.

Lemma js_split_app s t : js_split (s +++ String " " t) " " = js_split s " " ++ js_split t " ".
Proof.
  induction s as [|c s IH]; simpl.
  - by rewrite js_split_cons_char.
  - rewrite !js_split_cons_char, IH. destruct (Ascii.eqb " " c); [done|].
    pose proof (js_split_no_space s). unfold js_split at 1 3.
    unfold js_split. by destruct (js_split_go " " 0 s).
Qed.

Lemma has_class_remove name cls c :
  c <> "" -> has_class c (removeClass name cls) <-> has_class c cls /\ c <> name.
Proof.
  intros Hc. unfold has_class, removeClass. destruct (String.eqb_spec cls "") as [->|].
  { cbn. rewrite !list_elem_of_singleton. split; [intros ->|]; tauto. }
  set (l := reverse _).
  assert (Hl : c ∈ l <-> c ∈ js_split cls " " /\ c <> name).
  { unfold l. rewrite elem_of_reverse, list_elem_of_filter. tauto. }
  assert (Hf : Forall (fun s => no_space s = true) l).
  { apply Forall_forall. intros x. unfold l. rewrite elem_of_reverse, list_elem_of_filter.
    intros [_ Hx]. pose proof (js_split_no_space cls) as H. rewrite Forall_forall in H. by apply H. }
  clearbody l. rewrite <- Hl. destruct l as [|s l]; [|by rewrite js_split_join_classes].
  cbn. rewrite list_elem_of_singleton, elem_of_nil. tauto.
Qed.

Lemma has_class_add name cls c :
  no_space name = true -> c <> "" -> has_class c (addClass name cls) <-> has_class c cls \/ c = name.
Proof.
  intros Hn Hc. unfold addClass. change (?x +++ " " +++ name) with (x +++ String " " name).
  unfold has_class at 1. rewrite js_split_app, elem_of_app.
  fold (has_class c (removeClass name cls)). rewrite has_class_remove by done.
  rewrite (js_split_char_none _ _ Hn), list_elem_of_singleton.
  destruct (decide (c = name)); tauto.
Qed.

(** [removeClass] and [addClass]: afterwards the element has exactly the
    classes it had, without (with) the given one, each occurrence removed.  The
    order may change, which class selectors do not distinguish. *)
Theorem class_ops_spec name cls c :
  no_space name = true -> c <> "" ->
  (has_class c (removeClass name cls) <-> has_class c cls /\ c <> name) /\
  (has_class c (addClass name cls) <-> has_class c cls \/ c = name).
Proof. intros. split; [by apply has_class_remove|by apply has_class_add]. Qed.

Lemma class_ops_spec_witness :
  removeClass "selected" "day selected weekend" = "weekend day" /\
  (has_class "day" (removeClass "selected" "day selected weekend")
   <-> has_class "day" "day selected weekend" /\ "day" <> "selected").
Proof.
  split; [reflexivity|].
  exact (proj1 (class_ops_spec "selected" "day selected weekend" "day" eq_refl ltac:(discriminate))).
Defined.

(** ** Lemmas: the loops of [_init] *)
Lemma next_day_add d : next_day d = d + msPerDay.
Proof.
  pose proof (date_days (next_day d)) as E1. pose proof (date_days d) as E2.
  assert (dayOf (next_day d) = dayOf d + 1) as Hd by (unfold next_day; rewrite dayOf_setDate; lia).
  assert (timeOf (next_day d) = timeOf d) as Ht by apply timeOf_setDate.
  rewrite Hd, Ht in E1. lia.
Qed.

Lemma init_cell_hidden o now year month mday d k :
  in_month month d = false -> o_showsOtherMonths o = false ->
  k_disabled (init_cell o now year month mday d k) = true.
Proof. intros H1 H2. unfold init_cell, hidden_day. by rewrite H1, H2. Qed.

(** The cells in reading order. *)
Definition ref (k : nat) : cell_ref := ((k / 7)%nat, (k mod 7)%nat).
Definition day_at (d : date) (k : nat) : date := d + Z.of_nat k * msPerDay.

Definition wf_rows (rs : list row) : Prop :=
  length rs = 6%nat /\ Forall (fun r => length (r_cells r) = 7%nat) rs.

Section loops.
Context (o : options) (now : date) (year month mday : Z).
Let step r := init_step o year month mday r.

Lemma init_cells_acc i : forall ks j a,
  snd (init_cells o now year month mday i j ks a)
  = foldl (fun a q => step (i, q) a) a (seq j (length ks)).
Proof.
  induction ks as [|k ks IH]; intros j a; [done|]. cbn [init_cells length seq foldl].
  specialize (IH (S j) (step (i, j) a)). unfold step in *. destruct (init_cells _ _ _ _ _ _ _ ks _) as [ks' a'].
  exact IH.
Qed.

Lemma init_cells_lookup i q : forall ks j a,
  fst (init_cells o now year month mday i j ks a) !! q
  = init_cell o now year month mday (day_at (a_date a) q) <$> ks !! q.
Proof.
  unfold day_at. intros ks. revert q. induction ks as [|k ks IH]; intros q j a; [done|].
  cbn [init_cells]. specialize (IH (pred q) (S j) (init_step o year month mday (i, j) a)).
  destruct (init_cells _ _ _ _ _ _ _ ks _) as [ks' a']. destruct q as [|q].
  - cbn. do 2 f_equal. lia.
  - cbn [fst Nat.pred a_date init_step] in IH. cbn [fst].
    change ((?x :: ks') !! S q) with (ks' !! q). change ((?x :: ks) !! S q) with (ks !! q).
    rewrite IH, next_day_add. do 2 f_equal. lia.
Qed.

Lemma init_cells_length i ks j a : length (fst (init_cells o now year month mday i j ks a)) = length ks.
Proof.
  revert j a. induction ks as [|k ks IH]; intros j a; [done|]. cbn [init_cells].
  specialize (IH (S j) (init_step o year month mday (i, j) a)).
  destruct (init_cells _ _ _ _ _ _ _ ks _). cbn in *. by rewrite IH.
Qed.

Lemma fold_date {B} (r : B -> cell_ref) : forall l a,
  a_date (foldl (fun a q => step (r q) a) a l) = day_at (a_date a) (length l).
Proof.
  unfold day_at. induction l as [|q l IH]; intros a; cbn [foldl length]; [lia|].
  rewrite IH. cbn. rewrite next_day_add. lia.
Qed.

Lemma seq_row i : map (fun q => (i, q)) (seq 0 7) = map ref (seq (7 * i) 7).
Proof.
  rewrite <- (Nat.add_0_r (7 * i)). rewrite (Nat.add_comm (7 * i)).
  apply list_eq. intros n. rewrite !list_lookup_fmap.
  destruct (decide (n < 7)%nat).
  - rewrite !lookup_seq_lt by lia. cbn [fmap option_fmap option_map]. unfold ref. f_equal.
    replace (0 + 7 * i + n)%nat with (n + i * 7)%nat by lia.
    rewrite Nat.div_add, Nat.Div0.mod_add by lia.
    by rewrite (Nat.div_small n), (Nat.mod_small n) by lia.
  - by rewrite !lookup_seq_ge by lia.
Qed.

Lemma foldl_map {A B C} (f : A -> B -> A) (g : C -> B) l a :
  foldl f a (map g l) = foldl (fun a c => f a (g c)) a l.
Proof. revert a. by induction l as [|c l IH]; intros a; cbn. Qed.

Lemma init_rows_acc : forall rs i a,
  Forall (fun r => length (r_cells r) = 7%nat) rs ->
  snd (init_rows o now year month mday i rs a)
  = foldl (fun a k => step (ref k) a) a (seq (7 * i) (7 * length rs)).
Proof.
  induction rs as [|r rs IH]; intros i a H; [by rewrite Nat.mul_0_r|].
  inv H as [|? ? Hr Hrs]. cbn [init_rows].
  pose proof (init_cells_acc i (r_cells r) 0 a) as Ha. rewrite Hr in Ha.
  destruct (init_cells _ _ _ _ _ _ _ _ _) as [ks a1]. cbn in Ha.
  specialize (IH (S i) a1 Hrs). destruct (init_rows _ _ _ _ _ (S i) rs a1) as [rs' a2].
  cbn [snd] in *. rewrite IH. cbn [length].
  replace (7 * S (length rs))%nat with (7 + 7 * length rs)%nat by lia.
  rewrite seq_app, foldl_app. f_equal; [|f_equal; lia].
  rewrite <- (foldl_map (fun a r => step r a) ref), <- seq_row, foldl_map. exact Ha.
Qed.

Lemma init_rows_lookup q : forall rs i a p r,
  Forall (fun r => length (r_cells r) = 7%nat) rs -> rs !! p = Some r ->
  exists r', fst (init_rows o now year month mday i rs a) !! p = Some r' /\
    length (r_cells r') = 7%nat /\
    r_cells r' !! q = init_cell o now year month mday (day_at (a_date a) (7 * p + q)) <$> r_cells r !! q.
Proof.
  induction rs as [|r0 rs IH]; intros i a p r H Hp; [done|]. inv H as [|? ? Hr Hrs].
  cbn [init_rows]. pose proof (init_cells_acc i (r_cells r0) 0 a) as Ha.
  pose proof (init_cells_lookup i q (r_cells r0) 0 a) as Hq.
  pose proof (init_cells_length i (r_cells r0) 0 a) as Hl.
  destruct (init_cells _ _ _ _ _ _ _ _ _) as [ks a1]. cbn [fst snd] in *.
  pose proof (IH (S i) a1) as IH'. destruct (init_rows _ _ _ _ _ (S i) rs a1) as [rs' a2].
  cbn [fst] in *. destruct p as [|p].
  - injection Hp as ->. eexists. split; [reflexivity|]. cbn [r_cells]. split; [congruence|exact Hq].
  - destruct (IH' p r Hrs Hp) as (r' & H1 & H2 & H3). exists r'. split; [done|]. split; [done|].
    rewrite H3. do 2 f_equal. subst a1. rewrite (fold_date (fun q => (i, q))), length_seq, Hr.
    unfold day_at. lia.
Qed.

Lemma init_rows_length rs i a : length (fst (init_rows o now year month mday i rs a)) = length rs.
Proof.
  revert i a. induction rs as [|r rs IH]; intros i a; [done|]. cbn [init_rows].
  destruct (init_cells _ _ _ _ _ _ _ _ _) as [ks a1]. specialize (IH (S i) a1).
  destruct (init_rows _ _ _ _ _ (S i) rs a1). cbn in *. by rewrite IH.
Qed.

Lemma init_rows_wf rs i a : wf_rows rs -> wf_rows (fst (init_rows o now year month mday i rs a)).
Proof.
  intros [Hl Hf]. split; [by rewrite init_rows_length|]. apply Forall_lookup. intros p r' Hp.
  assert (Hlt : (p < length rs)%nat) by (rewrite <- (init_rows_length rs i a); by eapply lookup_lt_Some).
  destruct (lookup_lt_is_Some_2 _ _ Hlt) as [r Hr].
  destruct (init_rows_lookup 0 rs i a p r Hf Hr) as (r'' & H1 & H2 & _). congruence.
Qed.
End loops.

(** The loops over the 42 cells, in closed form. *)
Section closed.
Context (o : options) (year month mday : Z) (d : date).
Definition on_at (k : nat) : Prop := enabled_day o year month (day_at d k) = true.
Definition sel_at (k : nat) : Prop := on_at k /\ is_selected month mday (day_at d k) = true.
#[export] Instance on_at_dec k : Decision (on_at k).
Proof. unfold on_at. apply _. Defined.
#[export] Instance sel_at_dec k : Decision (sel_at k).
Proof. unfold sel_at. apply _. Defined.

Lemma init_fold n cur :
  foldl (fun a k => init_step o year month mday (ref k) a) (Acc d [] cur) (seq 0 n)
  = Acc (day_at d n) (ref <$> filter on_at (seq 0 n))
      (match last (filter sel_at (seq 0 n)) with Some k => Some (ref k) | None => cur end).
Proof.
  induction n as [|n IH]; [unfold day_at; cbn; f_equal; lia|].
  rewrite seq_S, foldl_app, IH. cbn [foldl Nat.add]. unfold init_step. cbn [a_date a_days a_current].
  rewrite next_day_add, !list.filter_app, fmap_app, !filter_cons, !filter_nil. unfold sel_at at 2 3.
  f_equal.
  - unfold day_at. lia.
  - destruct (decide (on_at n)) as [Hon|Hon]; unfold on_at in Hon.
    + by rewrite Hon.
    + rewrite (not_true_is_false _ Hon). by rewrite app_nil_r.
  - destruct (decide (_ /\ _)) as [[Hon Hs]|Hs]; unfold on_at in *.
    + rewrite Hon, Hs, last_snoc. done.
    + rewrite app_nil_r. destruct (enabled_day _ _ _ _) eqn:E1, (is_selected _ _ _) eqn:E2; try done.
      by destruct Hs.
Qed.
End closed.

Lemma filter_interval (P : nat -> Prop) `{!forall k, Decision (P k)} a l : forall s n,
  (forall k, (s <= k < s + n)%nat -> P k <-> (a <= k < a + l)%nat) ->
  (s <= a)%nat -> (a + l <= s + n)%nat -> filter P (seq s n) = seq a l.
Proof.
  intros s n. revert s a l. induction n as [|n IH]; intros s a l HP Hs Hl; cbn [seq].
  - by replace l with 0%nat by lia.
  - rewrite filter_cons. pose proof (HP s ltac:(lia)) as H0.
    destruct (decide (P s)) as [Hp|Hp].
    + assert (a = s) by (apply H0 in Hp; lia). subst a. destruct l as [|l]; [apply H0 in Hp; lia|].
      cbn [seq]. f_equal. apply IH; [|lia..]. intros k Hk. rewrite HP by lia. lia.
    + destruct l as [|l].
      * rewrite (IH (S s) (S s) 0%nat); [done| |lia..]. intros k Hk. rewrite HP by lia. lia.
      * apply IH; [|rewrite H0 in Hp; lia..]. intros k Hk. rewrite HP by lia. lia.
Qed.

(** ** The first cell *)
Lemma setDate_succ d : setDate (getDate d + 1) d = d + msPerDay.
Proof. exact (next_day_add d). Qed.

Lemma getDate_first d : getDate (setDate 1 d) = 1.
Proof.
  unfold setDate. pose proof (getMonth_range d) as Hm.
  pose proof (monthLength_range (getFullYear d) _ Hm).
  apply getDate_makeDate; [split; lia|apply timeOf_range].
Qed.

(** Going back [k] days from the first of the month. *)
Lemma setDate_back k d : getDate d = 1 -> setDate (- k) d + msPerDay = d - k * msPerDay.
Proof.
  intros H1. pose proof (date_days (setDate (- k) d)) as E. pose proof (date_days d) as E'.
  rewrite dayOf_setDate, timeOf_setDate, H1 in E. lia.
Qed.

Lemma rem_to_mod x : (if Z.rem x 7 <? 0 then Z.rem x 7 + 7 else Z.rem x 7) = x mod 7.
Proof. destruct (Z.ltb_spec (Z.rem x 7) 0); zdiv. Qed.

Lemma first_cell_eq fdow d :
  first_cell fdow d = setDate 1 d - (getDay (setDate 1 d) - fdow) mod 7 * msPerDay.
Proof. unfold first_cell. rewrite rem_to_mod, setDate_succ. apply setDate_back, getDate_first. Qed.

Lemma dayOf_day_at d k : dayOf (day_at d k) = dayOf d + Z.of_nat k.
Proof. unfold dayOf, day_at. rewrite Z.div_add by done. done. Qed.
Lemma timeOf_day_at d k : timeOf (day_at d k) = timeOf d.
Proof. unfold timeOf, day_at. by rewrite Z_mod_plus_full. Qed.

Lemma dayOf_sub d k : dayOf (d - k * msPerDay) = dayOf d - k.
Proof. unfold dayOf. replace (d - k * msPerDay) with (d + (- k) * msPerDay) by lia. rewrite Z.div_add by done. lia. Qed.
Lemma timeOf_sub d k : timeOf (d - k * msPerDay) = timeOf d.
Proof. unfold timeOf. replace (d - k * msPerDay) with (d + (- k) * msPerDay) by lia. apply Z_mod_plus_full. Qed.

Lemma first_cell_day fdow d :
  getDay (first_cell fdow d) = fdow mod 7 /\
  timeOf (first_cell fdow d) = timeOf d /\
  makeDay (getFullYear d) (getMonth d) 1 - 7 < dayOf (first_cell fdow d) <= makeDay (getFullYear d) (getMonth d) 1.
Proof.
  rewrite first_cell_eq.
  assert (dayOf (setDate 1 d) = makeDay (getFullYear d) (getMonth d) 1) as Hd
    by (apply dayOf_makeDate, timeOf_range).
  pose proof (timeOf_setDate 1 d) as Ht. generalize dependent (setDate 1 d). intros one Hd Ht.
  unfold getDay. rewrite dayOf_sub, timeOf_sub, Hd.
  generalize (makeDay (getFullYear d) (getMonth d) 1). intros n. split; [|split; [done|]]; zdiv.
Qed.

(** Day [k] of the grid, with [off] cells before the first of the month. *)
Lemma grid_day y m off k :
  0 <= m < 12 -> let n := makeDay y m 1 - off + k in
  (monthFromDay n = m /\ yearFromDay n = y /\ dateFromDay n = k - off + 1 /\ 0 <= k - off < monthLength y m)
  \/ (k < off \/ off + monthLength y m <= k).
Proof.
  intros Hm n. destruct (Z_lt_dec k off); [by right; left|].
  destruct (Z_le_dec (off + monthLength y m) k); [by right; right|]. left.
  assert (valid_ymd y m (k - off + 1)) by (split; lia).
  replace n with (makeDay y m (k - off + 1)) by (unfold n; rewrite <- Z.add_1_r, !makeDay_day || idtac;
    replace (k - off + 1) with (1 + (k - off)) by lia; rewrite makeDay_day; lia).
  rewrite monthFromDay_ymd, yearFromDay_ymd, dateFromDay_ymd by done. repeat split; lia.
Qed.

Lemma grid_other_month y m off k :
  0 <= m < 12 -> 0 <= off < 7 -> 0 <= k < 42 -> (k < off \/ off + monthLength y m <= k) ->
  monthFromDay (makeDay y m 1 - off + k) <> m.
Proof.
  intros Hm Ho Hk [Hlt|Hge].
  - (* the last days of the previous month *)
    set (y' := if m =? 0 then y - 1 else y). set (m' := if m =? 0 then 11 else m - 1).
    assert (Hm' : 0 <= m' < 12) by (unfold m'; destruct (Z.eqb_spec m 0); lia).
    assert (makeDay y m 1 = makeDay y' m' 1 + monthLength y' m') as ->.
    { rewrite <- makeDay_next_month by done. unfold y', m'. destruct (Z.eqb_spec m 0) as [->|].
      - change (11 + 1) with (0 + 12 * 1). rewrite makeDay_carry. by replace (y - 1 + 1) with y by lia.
      - by replace (m - 1 + 1) with m by lia. }
    pose proof (monthLength_range y' m' Hm').
    replace (_ - off + k) with (makeDay y' m' (monthLength y' m' - off + k + 1))
      by (replace (monthLength y' m' - off + k + 1) with (1 + (monthLength y' m' - off + k)) by lia;
          rewrite makeDay_day; lia).
    rewrite monthFromDay_ymd by (split; lia). unfold m'. destruct (Z.eqb_spec m 0); lia.
  - (* the first days of the next month *)
    pose proof (monthLength_range y m Hm) as Hl.
    set (j := k - off - monthLength y m).
    assert (0 <= j < 14) as Hj by (unfold j; lia).
    replace (_ - off + k) with (makeDay y (m + 1) 1 + j) by (rewrite makeDay_next_month by done; unfold j; lia).
    rewrite <- makeDay_day. destruct (Z.eq_dec m 11) as [->|].
    + change (11 + 1) with (0 + 12 * 1). rewrite makeDay_carry.
      pose proof (monthLength_range (y + 1) 0). rewrite monthFromDay_ymd by (split; lia). lia.
    + pose proof (monthLength_range y (m + 1)). rewrite monthFromDay_ymd by (split; lia). lia.
Qed.

(** ** [_init] *)
Section init_eq.
Context (now : date) (fdow : Z) (d : date) (c : calendar).
Let o := c_opts c.
Let d' := clamp_year o d.
Let loops := init_rows o now (getFullYear d') (getMonth d') (getDate d') 0 (c_rows c)
               (Acc (first_cell fdow d') [] (c_current c)).

Lemma onSetTime_fields x :
  c_opts (onSetTime x) = c_opts x /\ c_date (onSetTime x) = c_date x /\ c_fdow (onSetTime x) = c_fdow x /\
  c_rows (onSetTime x) = c_rows x /\ c_ar_days (onSetTime x) = c_ar_days x /\
  c_current (onSetTime x) = c_current x /\ c_title (onSetTime x) = c_title x /\
  c_clicked (onSetTime x) = c_clicked x /\ c_log (onSetTime x) = c_log x.
Proof. unfold onSetTime. by destruct (c_time x). Qed.

Lemma init_fields :
  c_opts (init now fdow d c) = o /\ c_date (init now fdow d c) = d' /\ c_fdow (init now fdow d c) = fdow /\
  c_rows (init now fdow d c) = fst loops /\ c_ar_days (init now fdow d c) = a_days (snd loops) /\
  c_current (init now fdow d c) = a_current (snd loops) /\
  c_title (init now fdow d c) = val_string (name_at MN (getMonth d')) +++ ", " +++ Z_to_string (getFullYear d') /\
  c_clicked (init now fdow d c) = c_clicked c /\ c_log (init now fdow d c) = c_log c.
Proof.
  unfold init. cbv zeta. fold o. fold d'. fold loops. destruct loops as [rs a].
  destruct (onSetTime_fields (Calendar o d' fdow rs (a_days a) (a_current a)
    (val_string (name_at MN (getMonth d')) +++ ", " +++ Z_to_string (getFullYear d'))
    (c_time c) (c_clicked c) (c_log c))) as (H1 & H2 & H3 & H4 & H5 & H6 & H7 & H8 & H9).
  rewrite H1, H2, H3, H4, H5, H6, H7, H8, H9. by repeat split.
Qed.

Context (Hwf : wf_rows (c_rows c)).

Lemma init_acc_closed :
  snd loops = Acc (day_at (first_cell fdow d') 42)
    (ref <$> filter (on_at o (getFullYear d') (getMonth d') (first_cell fdow d')) (seq 0 42))
    (match last (filter (sel_at o (getFullYear d') (getMonth d') (getDate d') (first_cell fdow d')) (seq 0 42)) with
     | Some k => Some (ref k) | None => c_current c end).
Proof using Hwf.
  unfold loops. destruct Hwf as [Hl Hf]. rewrite init_rows_acc by done. rewrite Hl. apply init_fold.
Qed.

Lemma init_cell_at k :
  (k < 42)%nat ->
  exists old, cell_at (c_rows c) (ref k) = Some old /\
    cell_at (c_rows (init now fdow d c)) (ref k)
    = Some (init_cell o now (getFullYear d') (getMonth d') (getDate d') (day_at (first_cell fdow d') k) old).
Proof using Hwf.
  intros Hk. destruct Hwf as [Hl Hf]. unfold cell_at, ref. cbn [fst snd].
  assert (k / 7 < 6)%nat as Hp by (apply Nat.Div0.div_lt_upper_bound; lia).
  assert (k mod 7 < 7)%nat as Hq by (apply Nat.mod_upper_bound; lia).
  destruct (lookup_lt_is_Some_2 (c_rows c) (k / 7)) as [r Hr]; [lia|].
  pose proof (proj1 (Forall_lookup _ _) Hf _ _ Hr) as Hrl. cbn in Hrl.
  destruct (lookup_lt_is_Some_2 (r_cells r) (k mod 7)) as [old Hold]; [lia|].
  destruct init_fields as (_ & _ & _ & -> & _). unfold loops.
  destruct (init_rows_lookup o now (getFullYear d') (getMonth d') (getDate d') (k mod 7) (c_rows c) 0
    (Acc (first_cell fdow d') [] (c_current c)) (k / 7) r Hf Hr) as (r' & H1 & _ & H3).
  exists old. rewrite Hr, H1. cbn [mbind option_bind]. split; [done|].
  rewrite H3, Hold. cbn [fmap option_fmap option_map a_date]. by rewrite <- (Nat.div_mod_eq k 7).
Qed.
End init_eq.

Lemma init_wf now fdow d c : wf_rows (c_rows c) -> wf_rows (c_rows (init now fdow d c)).
Proof. intros H. destruct (init_fields now fdow d c) as (_ & _ & _ & -> & _). by apply init_rows_wf. Qed.

(** C31. The grid after [_init]: 42 consecutive days in reading order, the first in
    the column of the first day of the week and at most six days before the first
    of the month; every cell is filled for its day. *)
Theorem init_grid now fdow d c :
  wf_rows (c_rows c) ->
  let c' := init now fdow d c in
  let shown := c_date c' in
  let start := first_cell fdow shown in
  let first := makeDay (getFullYear shown) (getMonth shown) 1 in
  getDay start = fdow mod 7 /\ first - 7 < dayOf start <= first /\ timeOf start = timeOf shown /\
  forall k, (k < 42)%nat ->
    dayOf (day_at start k) = dayOf start + Z.of_nat k /\
    exists old, cell_at (c_rows c) (ref k) = Some old /\
      cell_at (c_rows c') (ref k)
      = Some (init_cell (c_opts c) now (getFullYear shown) (getMonth shown) (getDate shown) (day_at start k) old).
Proof.
  intros Hwf c' shown start first.
  destruct (init_fields now fdow d c) as (_ & Hd & _). fold c' shown in Hd.
  destruct (first_cell_day fdow shown) as (H1 & H2 & H3).
  split; [done|]. split; [done|]. split; [done|]. intros k Hk. split; [apply dayOf_day_at|].
  unfold start. rewrite Hd. by apply init_cell_at.
Qed.

(** The calendar shows days of its month only and asks no status handler. *)
Definition plain (o : options) : Prop := o_getDateStatus o = None /\ o_showsOtherMonths o = false.

Lemma enabled_plain o y m d : plain o -> enabled_day o y m d = in_month m d.
Proof.
  intros [H1 H2]. unfold enabled_day, hidden_day, cell_status. rewrite H1, H2. cbn.
  by destruct (in_month m d).
Qed.

Section month.
Context (now : date) (fdow : Z) (d : date) (c : calendar).
Context (Hwf : wf_rows (c_rows c)) (Hplain : plain (c_opts c)).
Let shown := clamp_year (c_opts c) d.
Let start := first_cell fdow shown.
Let off := makeDay (getFullYear shown) (getMonth shown) 1 - dayOf start.
Let L := monthLength (getFullYear shown) (getMonth shown).

Lemma off_range : 0 <= off < 7 /\ off + L <= 37 /\ 28 <= L.
Proof using.
  clear Hwf Hplain. destruct (first_cell_day fdow shown) as (_ & _ & H).
  pose proof (monthLength_range (getFullYear shown) _ (getMonth_range shown)).
  unfold off, L, start. lia.
Qed.

Lemma dayOf_start k : dayOf (day_at start k) = makeDay (getFullYear shown) (getMonth shown) 1 - off + Z.of_nat k.
Proof using. clear Hwf Hplain. rewrite dayOf_day_at. unfold off. lia. Qed.

Lemma month_at k :
  (k < 42)%nat ->
  in_month (getMonth shown) (day_at start k) = true <-> (Z.to_nat off <= k < Z.to_nat off + Z.to_nat L)%nat.
Proof using.
  clear Hwf Hplain. intros Hk. pose proof off_range. pose proof (getMonth_range shown) as Hm.
  unfold in_month, getMonth at 1. rewrite dayOf_start, Z.eqb_eq. split.
  - intros He. destruct (grid_day (getFullYear shown) (getMonth shown) off (Z.of_nat k) Hm) as [(_ & _ & _ & ?)|Hout].
    + unfold L. lia.
    + exfalso. revert He. apply grid_other_month; [lia..|exact Hout].
  - intros Hin. destruct (grid_day (getFullYear shown) (getMonth shown) off (Z.of_nat k) Hm) as [(? & _)|Hout]; [done|].
    fold L in Hout. lia.
Qed.

(** The enabled cells are those of the month, in order. *)
Lemma month_days : c_ar_days (init now fdow d c) = ref <$> seq (Z.to_nat off) (Z.to_nat L).
Proof using Hwf Hplain.
  destruct (init_fields now fdow d c) as (_ & _ & _ & _ & -> & _).
  rewrite init_acc_closed by done. cbn [a_days]. f_equal. pose proof off_range.
  apply filter_interval; [|lia..]. intros k Hk. unfold on_at. rewrite enabled_plain by done.
  apply month_at. lia.
Qed.

Lemma fields_at k :
  0 <= Z.of_nat k - off < L ->
  getFullYear (day_at start k) = getFullYear shown /\ getMonth (day_at start k) = getMonth shown /\
  getDate (day_at start k) = Z.of_nat k - off + 1.
Proof using.
  clear Hwf Hplain. intros Hk. pose proof (getMonth_range shown) as Hm. unfold getFullYear at 1, getMonth at 1, getDate.
  rewrite dayOf_start.
  destruct (grid_day (getFullYear shown) (getMonth shown) off (Z.of_nat k) Hm) as [(? & ? & ? & _)|Hout];
    [done|fold L in Hout; lia].
Qed.

Lemma month_current :
  c_current (init now fdow d c) = Some (ref (Z.to_nat (off + getDate shown - 1))).
Proof using Hwf Hplain.
  destruct (init_fields now fdow d c) as (_ & _ & _ & _ & _ & -> & _).
  rewrite init_acc_closed by done. cbn [a_current]. pose proof off_range. pose proof (getDate_range shown) as Hd.
  fold shown start. fold L in Hd.
  rewrite (filter_interval _ (Z.to_nat (off + getDate shown - 1)) 1); [done| |lia..].
  intros k Hk. unfold sel_at, on_at, is_selected. rewrite enabled_plain by done.
  rewrite !andb_true_iff, Z.eqb_eq, month_at by lia. split.
  - intros (_ & Hin & He). destruct (fields_at k) as (_ & _ & Hg); [lia|]. lia.
  - intros Hin. destruct (fields_at k) as (_ & _ & Hg); [lia|]. split; [lia|]. split; [lia|]. rewrite Hg. lia.
Qed.

Lemma month_cell n :
  1 <= n <= L ->
  let k := Z.to_nat (off + n - 1) in
  exists t x, cell_at (c_rows (init now fdow d c)) (ref k) = Some x /\ k_caldate x = Some t /\
    k_disabled x = false /\ k_other x = false /\
    getFullYear t = getFullYear shown /\ getMonth t = getMonth shown /\ getDate t = n /\ timeOf t = timeOf shown.
Proof using Hwf Hplain.
  intros Hn k. pose proof off_range. assert (Hk : Z.of_nat k = off + n - 1) by (unfold k; lia).
  destruct (init_cell_at now fdow d c Hwf k) as (old & _ & Hc); [lia|]. fold shown start in Hc.
  destruct (fields_at k) as (Hy & Hm & Hd); [lia|].
  exists (day_at start k). rewrite Hc. eexists. split; [reflexivity|].
  assert (in_month (getMonth shown) (day_at start k) = true) as Hin by (apply month_at; lia).
  assert (timeOf (day_at start k) = timeOf shown) as Ht
    by (rewrite timeOf_day_at; apply first_cell_day).
  rewrite Hy, Hm, Hd, Ht. assert (off + n - 1 - off + 1 = n) as Hn' by lia. rewrite Hk, Hn'.
  unfold init_cell, hidden_day, cell_status. destruct Hplain as [-> ->]. rewrite Hin. cbn -[is_selected same_day].
  destruct (same_day _ now); by repeat split.
Qed.

(** Cells outside the month are disabled, so the enabled ones are in [ar_days]. *)
Lemma month_enabled_at k x :
  (k < 42)%nat -> cell_at (c_rows (init now fdow d c)) (ref k) = Some x -> k_disabled x = false ->
  ref k ∈ c_ar_days (init now fdow d c).
Proof using Hwf Hplain.
  intros Hk Hc Hx. destruct (init_cell_at now fdow d c Hwf k Hk) as (old & _ & Hc').
  fold shown start in Hc'. rewrite Hc in Hc'. assert (x = init_cell (c_opts c) now (getFullYear shown)
    (getMonth shown) (getDate shown) (day_at start k) old) as Ex by congruence.
  destruct (in_month (getMonth shown) (day_at start k)) eqn:E.
  - rewrite month_days. apply list_elem_of_fmap. exists k. split; [done|].
    apply elem_of_seq. by apply month_at.
  - rewrite Ex, init_cell_hidden in Hx by (done || apply Hplain). done.
Qed.
End month.

Lemma cell_at_ref rs r x : wf_rows rs -> cell_at rs r = Some x -> exists k, (k < 42)%nat /\ r = ref k.
Proof.
  intros [Hl Hf] Hc. destruct r as [p q]. unfold cell_at in Hc. cbn [fst snd] in Hc.
  destruct (rs !! p) as [rw|] eqn:Hp; [|done]. cbn [mbind option_bind] in Hc.
  pose proof (proj1 (Forall_lookup _ _) Hf _ _ Hp) as Hrl. cbn in Hrl.
  apply lookup_lt_Some in Hp, Hc. exists (q + p * 7)%nat. split; [lia|]. unfold ref.
  by rewrite Nat.div_add, Nat.Div0.mod_add, Nat.div_small, Nat.mod_small by lia.
Qed.

Lemma month_enabled now fdow d c r x :
  wf_rows (c_rows c) -> plain (c_opts c) ->
  cell_at (c_rows (init now fdow d c)) r = Some x -> k_disabled x = false ->
  r ∈ c_ar_days (init now fdow d c).
Proof.
  intros Hwf Hp Hc Hx. destruct (cell_at_ref _ _ _ (init_wf now fdow d c Hwf) Hc) as (k & Hk & ->).
  by apply (month_enabled_at now fdow d c Hwf Hp k x).
Qed.

(** The invariant of the calendar's state between events, for a calendar that
    shows days of one month only and asks no status handler: the grid is complete,
    the year is in range, [ar_days] are the cells of the days of the month in order,
    and [currentDateEl] is the cell of the selected date. *)
Record cal_inv (c : calendar) : Prop := CalInv {
  ci_rows : wf_rows (c_rows c);
  ci_plain : plain (c_opts c);
  ci_year : o_minYear (c_opts c) <= getFullYear (c_date c) <= o_maxYear (c_opts c);
  ci_length : length (c_ar_days c) = Z.to_nat (monthLength (getFullYear (c_date c)) (getMonth (c_date c)));
  ci_days : forall n, 1 <= n <= monthLength (getFullYear (c_date c)) (getMonth (c_date c)) ->
    exists r x t, c_ar_days c !! Z.to_nat (n - 1) = Some r /\ cell_at (c_rows c) r = Some x /\
      k_caldate x = Some t /\ k_disabled x = false /\ k_other x = false /\
      getFullYear t = getFullYear (c_date c) /\ getMonth t = getMonth (c_date c) /\ getDate t = n;
  ci_enabled : forall r x, cell_at (c_rows c) r = Some x -> k_disabled x = false -> r ∈ c_ar_days c;
  ci_current : c_current c = c_ar_days c !! Z.to_nat (getDate (c_date c) - 1)
}.

Lemma clamp_year_spec o d :
  o_minYear o <= o_maxYear o ->
  getFullYear (clamp_year o d) = Z.max (o_minYear o) (Z.min (o_maxYear o) (getFullYear d)) /\
  getMonth (clamp_year o d) = getMonth d /\ timeOf (clamp_year o d) = timeOf d.
Proof.
  intros H. unfold clamp_year.
  destruct (Z.ltb_spec (getFullYear d) (o_minYear o)), (Z.ltb_spec (o_maxYear o) (getFullYear d));
    try destruct (setFullYear_fields (o_minYear o) d) as (-> & -> & _ & ->);
    try destruct (setFullYear_fields (o_maxYear o) d) as (-> & -> & _ & ->); repeat split; lia.
Qed.

Lemma clamp_year_id o d : o_minYear o <= getFullYear d <= o_maxYear o -> clamp_year o d = d.
Proof.
  intros H. unfold clamp_year.
  destruct (Z.ltb_spec (getFullYear d) (o_minYear o)), (Z.ltb_spec (o_maxYear o) (getFullYear d)); lia || done.
Qed.

Lemma init_establishes now fdow d c :
  wf_rows (c_rows c) -> plain (c_opts c) -> o_minYear (c_opts c) <= o_maxYear (c_opts c) ->
  cal_inv (init now fdow d c) /\ c_date (init now fdow d c) = clamp_year (c_opts c) d.
Proof.
  intros Hwf Hp Hr. destruct (init_fields now fdow d c) as (Ho & Hd & _). split; [|done].
  destruct (clamp_year_spec (c_opts c) d Hr) as (Hy & _ & _).
  pose proof (off_range fdow d c) as Hoff. set (off := makeDay _ _ _ - _) in Hoff.
  pose proof (getDate_range (clamp_year (c_opts c) d)) as Hdd.
  assert (Hlk : forall n, 1 <= n <= monthLength (getFullYear (clamp_year (c_opts c) d)) (getMonth (clamp_year (c_opts c) d)) ->
     c_ar_days (init now fdow d c) !! Z.to_nat (n - 1) = Some (ref (Z.to_nat (off + n - 1)))).
  { intros n Hn. rewrite month_days by done. fold off. rewrite list_lookup_fmap, lookup_seq_lt by lia.
    cbn. do 2 f_equal. lia. }
  constructor; rewrite ?Ho, ?Hd.
  - by apply init_wf.
  - done.
  - lia.
  - by rewrite month_days, length_fmap, length_seq by done.
  - intros n Hn. destruct (month_cell now fdow d c Hwf Hp n Hn) as (t & x & H1 & H2 & H3 & H4 & H5 & H6 & H7 & _).
    fold off in H1. exists (ref (Z.to_nat (off + n - 1))), x, t. rewrite Hlk by done. by repeat split.
  - intros r x. by apply month_enabled.
  - rewrite month_current by done. rewrite Hlk by done. done.
Qed.

(** [_init] establishes the calendar's invariant, whatever state the object was
    in and whatever date it is given: the date is brought into the allowed years
    with its month and time of day kept, [ar_days] lists the days of that month in
    order, each cell carrying its date, and the selected cell is that of the date. *)
Theorem init_inv now fdow d c :
  wf_rows (c_rows c) -> plain (c_opts c) -> o_minYear (c_opts c) <= o_maxYear (c_opts c) ->
  cal_inv (init now fdow d c) /\ c_date (init now fdow d c) = clamp_year (c_opts c) d.
Proof. apply init_establishes. Qed.

Lemma create_rows_wf b : wf_rows (create_rows b).
Proof. split; [done|]. by apply Forall_replicate. Qed.

Definition example_options : options := default_options true true.

Definition example_calendar : calendar :=
  Calendar example_options 0 0 (create_rows true) [] None "" None false [].

Lemma init_inv_witness :
  let c' := init 0 1 (new_Date 2008 1 29 10 0 0) example_calendar in
  length (c_ar_days c') = 29%nat /\ cal_inv c'.
Proof.
  split; [vm_compute; reflexivity|].
  refine (proj1 (init_inv 0 1 (new_Date 2008 1 29 10 0 0) example_calendar (create_rows_wf true) _ _)).
  - split; reflexivity.
  - vm_compute. discriminate.
Defined.

Lemma init_grid_witness :
  let c' := init 0 1 (new_Date 2008 1 29 10 0 0) example_calendar in
  c_title c' = "February, 2008" /\ getDay (first_cell 1 (c_date c')) = 1.
Proof.
  split; [vm_compute; reflexivity|].
  exact (proj1 (init_grid 0 1 (new_Date 2008 1 29 10 0 0) example_calendar (create_rows_wf true))).
Defined.
