(* ===== verification/Calendar.v ===== *)
(** * Events of the calendar widget (calendar.js)
    Clicks on day cells and navigation buttons, the keyboard, the time row, and
    the public operations that move the calendar. *)
From S2P Require Import Prelude JsString JsNum JsVal JsDate CalendarDate CalendarGrid.
Open Scope Z_scope.

(** ** Handlers and operations of the object *)
Definition callHandler (c : calendar) : calendar :=
  if o_onSelected (c_opts c) then add_event (Selected (print (o_dateFormat (c_opts c)) (c_date c)) (c_date c) (c_clicked c)) c else c.
Definition callCloseHandler (c : calendar) : calendar :=
  if o_onClose (c_opts c) then add_event Closed c else c.

(** [Calendar.prototype.setDate] ([setDate] of dates keeps its name in JsDate). *)
Definition cal_setDate (now d : date) (c : calendar) : calendar :=
  if negb (equalsTo d (c_date c)) then init now (c_fdow c) d c else c.
Definition refresh (now : date) (c : calendar) : calendar := init now (c_fdow c) (c_date c) c.
Definition setFirstDayOfWeek (now : date) (fdow : Z) (c : calendar) : calendar := init now fdow (c_date c) c.
Definition setRange (a z : Z) (c : calendar) : calendar :=
  let o := c_opts c in
  set_opts (Options a z (o_dateFormat o) (o_weekNumbers o) (o_showsOtherMonths o) (o_getDateStatus o)
    (o_timeFormatOnToday o) (o_yearStep o) (o_onSelected o) (o_onClose o)) c.
Definition setDateFormat (f : string) (c : calendar) : calendar :=
  let o := c_opts c in
  set_opts (Options (o_minYear o) (o_maxYear o) f (o_weekNumbers o) (o_showsOtherMonths o) (o_getDateStatus o)
    (o_timeFormatOnToday o) (o_yearStep o) (o_onSelected o) (o_onClose o)) c.
Definition setDateStatusHandler (f : option status_handler) (c : calendar) : calendar :=
  let o := c_opts c in
  set_opts (Options (o_minYear o) (o_maxYear o) (o_dateFormat o) (o_weekNumbers o) (o_showsOtherMonths o) f
    (o_timeFormatOnToday o) (o_yearStep o) (o_onSelected o) (o_onClose o)) c.

Definition DAY_FIRST : string := "Display %s first".

(** A header cell: class, text and, on all but the first, the tooltip and the day
    of the week that a click puts first. *)
Definition _displayWeekdays (fdow : Z) : list (string * string * option (string * Z)) :=
  (fun i =>
     let realday := Z.rem (i + fdow) 7 in
     (if contains WEEKEND (Z_to_string realday) then addClass "weekend" "day name" else "day name",
      val_string (name_at SDN realday),
      if i =? 0 then None
      else Some (replace_first "%s" (val_string (name_at DN realday)) DAY_FIRST, realday)))
  <$> range 0 7.

(** ** [cellClick] *)

(** What can be clicked: a day cell or a button with its [navtype]. *)
Inductive elem :=
| EDay (r : cell_ref)      (** [navtype] undefined *)
| ENav (n : Z)             (** [-2 .. 2]: years, months, today; others do nothing *)
| EClose                   (** 200 *)
| EInfo (id : string)      (** 400 *)
| EHeader (fdow : Z).      (** 100 *)

(** The local function [setMonth] of [cellClick]. *)
Definition nav_setMonth (m : Z) (d : date) : date :=
  let day := getDate d in
  let d := match getMonthDays (Some m) d with
           | Some max => if max <? day then JsDate.setDate max d else d
           | None => d
           end in
  setMonth m d.

(** The [switch] of [cellClick] on the buttons that move the date. *)
Definition nav_date (o : options) (n : Z) (d : date) : date :=
  let year := getFullYear d in
  let mon := getMonth d in
  match n with
  | -2 => if o_minYear o <? year then setFullYear (year - 1) d else d
  | -1 => if 0 <? mon then nav_setMonth (mon - 1) d
          else if o_minYear o <? year then nav_setMonth 11 (setFullYear (year - 1) d) else d
  | 1 => if mon <? 11 then nav_setMonth (mon + 1) d
         else if year <? o_maxYear o then nav_setMonth 0 (setFullYear (year + 1) d) else d
  | 2 => if year <? o_maxYear o then setFullYear (year + 1) d else d
  | _ => d
  end.

(** [case 0]: the current date, with the time the page asks for. *)
Definition today_date (o : options) (now : date) : date :=
  if o_timeFormatOnToday o =? 1 then setHours3 0 0 0 now
  else if o_timeFormatOnToday o =? 2 then setHours3 23 59 59 now else now.

(** [if (!date.equalsTo(cal.date)) { cal.setDate(date); newdate = true; }] and the
    call of the handler. *)
Definition move_to (now d : date) (c : calendar) : calendar :=
  if negb (equalsTo d (c_date c)) then callHandler (cal_setDate now d c) else c.

(** [None]: the cell has no date, the calendar's date would become invalid. *)
Definition cellClick (now : date) (el : elem) (c : calendar) : option calendar :=
  match el with
  | EDay r =>
      x ← cell_at (c_rows c) r;
      t ← k_caldate x;
      let c1 := match c_current c with Some cur => map_cell (cell_class (removeClass "selected")) cur c | None => c end in
      let c2 := map_cell (cell_class (addClass "selected")) r c1 in
      let closing := bool_decide (c_current c = Some r) in
      let c3 := if closing then c2 else set_current (Some r) c2 in
      let c4 := set_clicked (negb (k_other x)) (set_date t c3) in
      let c5 := if k_other x then init now (c_fdow c4) t c4 else c4 in
      let c6 := callHandler c5 in
      Some (if closing then callCloseHandler (map_cell (cell_class (removeClass "hilite")) r c6) else c6)
  | EClose => Some (callCloseHandler c)
  | EInfo id => Some (add_event (Callme id) (set_clicked false c))
  | EHeader fdow => Some (setFirstDayOfWeek now fdow (set_clicked false c))
  | ENav n =>
      let c := set_clicked false c in
      let o := c_opts c in
      if n =? 0 then
        let d := today_date o now in
        match o_getDateStatus o with
        | Some f =>
            if truthy (f d (getFullYear d) (getMonth d) (getDate d)) then Some c
            else Some (move_to now d c)
        | None => Some (move_to now d c)
        end
      else Some (move_to now (nav_date o n (c_date c)) c)
  end.

(** ** The keyboard *)

(** The four arrow keys of [_keyEvent] without control, when they act. *)
Inductive arrow := KLeft | KUp | KRight | KDown.
Definition arrow_prev (k : arrow) : bool := match k with KLeft | KUp => true | _ => false end.

(** [cal.ar_days[i]], guarded as the code guards it. *)
Definition arrow_target (k : arrow) (c : calendar) : option cell_ref :=
  let d := getDate (c_date c) - 1 in
  let at_ i := if (0 <=? i) && (i <? Z.of_nat (length (c_ar_days c)))
               then c_ar_days c !! Z.to_nat i else None in
  match k with
  | KLeft => if 0 <=? d - 1 then at_ (d - 1) else None
  | KUp => if 0 <=? d - 7 then at_ (d - 7) else None
  | KRight => if d + 1 <? Z.of_nat (length (c_ar_days c)) then at_ (d + 1) else None
  | KDown => if d + 7 <? Z.of_nat (length (c_ar_days c)) then at_ (d + 7) else None
  end.

(** [None]: [ne] is undefined (an exception), or its cell has no date. *)
Definition key_arrow (now : date) (k : arrow) (c : calendar) : option calendar :=
  c1_ne ← match arrow_target k c with
          | Some ne => Some (c, ne)
          | None =>
              c1 ← cellClick now (ENav (if arrow_prev k then -1 else 1)) c;
              d ← (if arrow_prev k then getMonthDays None (c_date c1) else Some 1);
              ne ← c_ar_days c1 !! Z.to_nat (d - 1);
              Some (c1, ne)
          end;
  let '(c1, ne) := c1_ne in
  x ← cell_at (c_rows c1) ne;
  t ← k_caldate x;
  let c2 := match c_current c1 with
            | Some el => map_cell (cell_class (removeClass "selected")) el c1 | None => c1 end in
  let c3 := map_cell (cell_class (addClass "selected")) ne c2 in
  Some (set_current (Some ne) (callHandler (set_date t c3))).

(** [_keyEvent] on the calendar of the page; the boolean is [act] (a key press, or
    Internet Explorer).  The outer [None] is [return false]: the key is not ours. *)
Definition _keyEvent (now : date) (act ctrl : bool) (keyCode : Z) (c : calendar) : option (option calendar) :=
  let when_act (r : option calendar) := Some (if act then r else Some c) in
  if ctrl then
    match keyCode with
    | 37 => when_act (cellClick now (ENav (-1)) c)
    | 38 => when_act (cellClick now (ENav (-2)) c)
    | 39 => when_act (cellClick now (ENav 1) c)
    | 40 => when_act (cellClick now (ENav 2) c)
    | _ => None
    end
  else
    match keyCode with
    | 32 => Some (cellClick now (ENav 0) c)
    | 27 => when_act (Some (callCloseHandler c))
    | 37 => when_act (key_arrow now KLeft c)
    | 38 => when_act (key_arrow now KUp c)
    | 39 => when_act (key_arrow now KRight c)
    | 40 => when_act (key_arrow now KDown c)
    | 13 => when_act (Some (add_event Hidden (callHandler c)))
    | _ => None
    end.

(** ** The time row *)

(** [cal.onUpdateTime]; [None]: a field is no number, the date becomes invalid. *)
Definition onUpdateTime (c : calendar) : option calendar :=
  match c_time c with
  | None => Some c
  | Some tp =>
      h ← parseInt10 (t_H tp);
      let h := if t_12 tp then
                 if contains (toLowerCase (t_AP tp)) "pm" && (h <? 12) then h + 12
                 else if contains (toLowerCase (t_AP tp)) "am" && (h =? 12) then 0 else h
               else h in
      mi ← parseInt10 (t_M tp);
      let dt := c_date c in
      let d := getDate dt in
      let m := getMonth dt in
      let y := getFullYear dt in
      let dt := setHours1 h dt in
      let dt := setMinutes mi dt in
      let dt := setFullYear y dt in
      let dt := setMonth m dt in
      let dt := JsDate.setDate d dt in
      Some (callHandler (set_clicked false (set_date dt c)))
  end.

(** [part.onkeyup] of a time field ([range_end] is 12, 23 or 59): the new value of
    the field and whether [onUpdateTime] is called. *)
Definition time_onkeyup (range_end : Z) (value : string) : string * bool :=
  match parseInt value with
  | None => ("", false)
  | Some _ => if num_gtb (toNumber value) (num_of_Z range_end) then ("", false) else (value, true)
  end.
Definition time_onblur (value : string) : string := if String.eqb value "" then "00" else value.

(** [_range]: the values a time part steps through. *)
Definition time_range (range_start range_end : Z) : list string :=
  (fun i => if (i <? 10) && (10 <=? range_end) then "0" +++ Z_to_string i else Z_to_string i)
    <$> range range_start (Z.to_nat (range_end - range_start + 1)).

Fixpoint last_match (l : list string) (current : string) (i : Z) : Z :=
  match l with
  | [] => -1
  | s :: l =>
      let r := last_match l current (i + 1) in
      if r =? -1 then (if String.eqb s current then i else -1) else r
  end.

(** [case 50] of [cellClick]: the next (with shift, the previous) value of the range. *)
Definition time_step (l : list string) (current : string) (shift : bool) : option string :=
  let i := last_match l current 0 in
  let len := Z.of_nat (length l) in
  let i := if shift then (if i - 1 <? 0 then len - 1 else i - 1)
           else (if len <=? i + 1 then 0 else i + 1) in
  l !! Z.to_nat i.

(** Typing into a time field: [onkeyup] of the field named by [hour]. *)
Definition time_type (hour : bool) (value : string) (c : calendar) : option calendar :=
  match c_time c with
  | None => Some c
  | Some tp =>
      let range_end := if hour then (if t_12 tp then 12 else 23) else 59 in
      let '(v, call) := time_onkeyup range_end value in
      let c := set_time (Some (if hour then TimePart (t_12 tp) v (t_M tp) (t_AP tp)
                               else TimePart (t_12 tp) (t_H tp) v (t_AP tp))) c in
      if call then onUpdateTime c else Some c
  end.

(** ** Navigation *)
Lemma getDate_setDate d t :
  1 <= d <= monthLength (getFullYear t) (getMonth t) ->
  getFullYear (JsDate.setDate d t) = getFullYear t /\ getMonth (JsDate.setDate d t) = getMonth t /\
  getDate (JsDate.setDate d t) = d.
Proof.
  intros H. assert (valid_ymd (getFullYear t) (getMonth t) d) by (split; [apply getMonth_range|done]).
  unfold JsDate.setDate. rewrite getFullYear_makeDate, getMonth_makeDate, getDate_makeDate
    by (done || apply timeOf_range). done.
Qed.

Lemma setMonth_fields m t :
  0 <= m < 12 -> getDate t <= monthLength (getFullYear t) m ->
  getFullYear (setMonth m t) = getFullYear t /\ getMonth (setMonth m t) = m /\
  getDate (setMonth m t) = getDate t.
Proof.
  intros Hm H. pose proof (getDate_range t).
  assert (valid_ymd (getFullYear t) m (getDate t)) by (split; [done|lia]).
  unfold setMonth. rewrite getFullYear_makeDate, getMonth_makeDate, getDate_makeDate
    by (done || apply timeOf_range). done.
Qed.

Lemma nav_setMonth_spec m t :
  0 <= m < 12 ->
  getFullYear (nav_setMonth m t) = getFullYear t /\ getMonth (nav_setMonth m t) = m /\
  getDate (nav_setMonth m t) = Z.min (getDate t) (monthLength (getFullYear t) m) /\
  timeOf (nav_setMonth m t) = timeOf t.
Proof.
  intros Hm. unfold nav_setMonth. rewrite getMonthDays_spec. cbv zeta. cbn [default from_option id].
  destruct (Z.leb_spec 0 m), (Z.ltb_spec m 12); try lia. cbn [andb].
  pose proof (monthLength_range (getFullYear t) m Hm). pose proof (getDate_range t) as Hd.
  destruct (Z.ltb_spec (monthLength (getFullYear t) m) (getDate t)) as [Hlt|Hle].
  - destruct (getDate_setDate (monthLength (getFullYear t) m) t) as (F1 & F2 & F3); [lia|].
    destruct (setMonth_fields m (JsDate.setDate (monthLength (getFullYear t) m) t)) as (F4 & F5 & F6);
      [done|rewrite F1, F3; lia|].
    rewrite F4, F5, F6, F1, F3, timeOf_setMonth, timeOf_setDate. repeat split; lia.
  - destruct (setMonth_fields m t) as (F4 & F5 & F6); [done|lia|].
    rewrite F4, F5, F6, timeOf_setMonth. repeat split; lia.
Qed.

Lemma setFullYear_min y t :
  getFullYear (setFullYear y t) = y /\ getMonth (setFullYear y t) = getMonth t /\
  getDate (setFullYear y t) = Z.min (getDate t) (monthLength y (getMonth t)) /\
  timeOf (setFullYear y t) = timeOf t.
Proof.
  destruct (setFullYear_fields y t) as (-> & -> & -> & ->). repeat split.
  pose proof (getMonth_range t) as Hm. pose proof (getDate_range t) as Hd.
  destruct (Z.leb_spec (getDate t) (monthLength y (getMonth t))); [lia|].
  assert (monthLength y (getMonth t) = 28); [|lia].
  revert H Hd. generalize (getDate t). revert Hm. generalize (getMonth t).
  refine (month_cases _ _ _ _ _ _ _ _ _ _ _ _ _); intros d; month_eval;
    pose proof (leap_days_range y); pose proof (leap_days_range (getFullYear t)); lia.
Qed.

(** Months counted from the year 0. *)
Definition month_index_of (t : date) : Z := 12 * getFullYear t + getMonth t.
Definition nav_months (n : Z) : Z :=
  match n with -2 => -12 | -1 => -1 | 1 => 1 | 2 => 12 | _ => 0 end.
Definition in_years (o : options) (i : Z) : bool :=
  (12 * o_minYear o <=? i) && (i <? 12 * (o_maxYear o + 1)).

Lemma month_index_inv t i :
  month_index_of t = i -> getFullYear t = i / 12 /\ getMonth t = i mod 12.
Proof. intros <-. unfold month_index_of. pose proof (getMonth_range t). split; zdiv. Qed.

(** A year and a month at once, as the months buttons do at the end of a year. *)
Lemma nav_year_month y m t :
  0 <= m < 12 -> monthLength y (getMonth t) = 31 ->
  let t' := nav_setMonth m (setFullYear y t) in
  getFullYear t' = y /\ getMonth t' = m /\ getDate t' = Z.min (getDate t) (monthLength y m) /\
  timeOf t' = timeOf t.
Proof.
  intros Hm H31 t'. destruct (setFullYear_min y t) as (Ey & Em & Ed & Et).
  destruct (nav_setMonth_spec m (setFullYear y t) Hm) as (F1 & F2 & F3 & F4).
  pose proof (getDate_range t). pose proof (monthLength_range (getFullYear t) _ (getMonth_range t)).
  unfold t'. rewrite F1, F2, F3, F4, Ey, Ed, Et, H31. repeat split. lia.
Qed.

Lemma in_years_true o i : 12 * o_minYear o <= i < 12 * (o_maxYear o + 1) -> in_years o i = true.
Proof. intros H. unfold in_years. apply andb_true_iff. split; [apply Z.leb_le|apply Z.ltb_lt]; lia. Qed.
Lemma in_years_false o i : i < 12 * o_minYear o \/ 12 * (o_maxYear o + 1) <= i -> in_years o i = false.
Proof.
  intros H. unfold in_years. apply andb_false_iff.
  destruct H; [left; apply Z.leb_gt|right; apply Z.ltb_ge]; lia.
Qed.

Lemma nav_date_fields o n t :
  o_minYear o <= getFullYear t <= o_maxYear o -> n ∈ [-2; -1; 1; 2] ->
  let i := month_index_of t + nav_months n in
  let t' := nav_date o n t in
  month_index_of t' = (if in_years o i then i else month_index_of t) /\
  getDate t' = Z.min (getDate t) (monthLength (getFullYear t') (getMonth t')) /\
  timeOf t' = timeOf t.
Proof.
  intros Hy Hn i t'. pose proof (getMonth_range t) as Hm. pose proof (getDate_range t) as Hd.
  assert (Hsame : i < 12 * o_minYear o \/ 12 * (o_maxYear o + 1) <= i -> t' = t ->
    month_index_of t' = (if in_years o i then i else month_index_of t) /\
    getDate t' = Z.min (getDate t) (monthLength (getFullYear t') (getMonth t')) /\ timeOf t' = timeOf t).
  { intros H ->. rewrite in_years_false by done. repeat split; lia. }
  assert (Hmove : forall y m, 12 * y + m = i -> 12 * o_minYear o <= i < 12 * (o_maxYear o + 1) ->
    getFullYear t' = y /\ getMonth t' = m /\ getDate t' = Z.min (getDate t) (monthLength y m) /\ timeOf t' = timeOf t ->
    month_index_of t' = (if in_years o i then i else month_index_of t) /\
    getDate t' = Z.min (getDate t) (monthLength (getFullYear t') (getMonth t')) /\ timeOf t' = timeOf t).
  { intros y m Hi Hin (E1 & E2 & E3 & E4). rewrite in_years_true by done.
    unfold month_index_of at 1. rewrite E1, E2. by repeat split. }
  assert (Hi : i = 12 * getFullYear t + getMonth t + nav_months n) by done.
  clearbody i. unfold t', nav_date in Hsame, Hmove |- *. clear t'.
  repeat (apply elem_of_cons in Hn as [->|Hn]); [..|by apply elem_of_nil in Hn];
    cbn [nav_months] in Hi, Hsame, Hmove |- *.
  - destruct (Z.ltb_spec (o_minYear o) (getFullYear t)); [|apply Hsame; [lia|done]].
    apply (Hmove (getFullYear t - 1) (getMonth t)); [lia|lia|]. apply setFullYear_min.
  - destruct (Z.ltb_spec 0 (getMonth t)).
    + apply (Hmove (getFullYear t) (getMonth t - 1)); [lia|lia|]. apply nav_setMonth_spec. lia.
    + destruct (Z.ltb_spec (o_minYear o) (getFullYear t)); [|apply Hsame; [lia|done]].
      apply (Hmove (getFullYear t - 1) 11); [lia|lia|]. apply nav_year_month; [lia|].
      apply monthLength_31. lia.
  - destruct (Z.ltb_spec (getMonth t) 11).
    + apply (Hmove (getFullYear t) (getMonth t + 1)); [lia|lia|]. apply nav_setMonth_spec. lia.
    + destruct (Z.ltb_spec (getFullYear t) (o_maxYear o)); [|apply Hsame; [lia|done]].
      apply (Hmove (getFullYear t + 1) 0); [lia|lia|]. apply nav_year_month; [lia|].
      apply monthLength_31. lia.
  - destruct (Z.ltb_spec (getFullYear t) (o_maxYear o)); [|apply Hsame; [lia|done]].
    apply (Hmove (getFullYear t + 1) (getMonth t)); [lia|lia|]. apply setFullYear_min.
Qed.

(** ** The invariant is kept *)

(** Two states that differ in class names, log and flags only. *)
Record same_core (c c' : calendar) : Prop := SameCore {
  sc_opts : c_opts c' = c_opts c;
  sc_date : c_date c' = c_date c;
  sc_fdow : c_fdow c' = c_fdow c;
  sc_days : c_ar_days c' = c_ar_days c;
  sc_wf : wf_rows (c_rows c) -> wf_rows (c_rows c');
  sc_cells : forall r, exists f, cell_at (c_rows c') r = cell_class f <$> cell_at (c_rows c) r
}.

Lemma cell_class_id k : cell_class (fun s => s) k = k.
Proof. by destruct k. Qed.

Lemma same_core_refl c : same_core c c.
Proof.
  constructor; try done. intros r. exists (fun s => s).
  destruct (cell_at (c_rows c) r); cbn; [by rewrite cell_class_id|done].
Qed.

Lemma same_core_trans a b c : same_core a b -> same_core b c -> same_core a c.
Proof.
  intros [H1 H2 H3 H4 H5 H6] [G1 G2 G3 G4 G5 G6]. constructor; try congruence; [by auto|].
  intros r. destruct (H6 r) as [f Hf], (G6 r) as [g Hg]. exists (fun s => g (f s)).
  rewrite Hg, Hf. by destruct (cell_at (c_rows a) r).
Qed.

Lemma same_core_rows c c' :
  c_opts c' = c_opts c -> c_date c' = c_date c -> c_fdow c' = c_fdow c ->
  c_ar_days c' = c_ar_days c -> c_rows c' = c_rows c -> same_core c c'.
Proof.
  intros ? ? ? ? E. constructor; try done; [by rewrite E|]. intros r. exists (fun s => s). rewrite E.
  destruct (cell_at (c_rows c) r); cbn; [by rewrite cell_class_id|done].
Qed.

Lemma map_cell_core f r c : same_core c (map_cell (cell_class f) r c).
Proof.
  constructor; try done.
  - intros [Hl Hf]. split; [cbn; by rewrite length_alter|]. apply Forall_alter; [done|].
    intros rw _ Hrw. cbn. by rewrite length_alter.
  - intros [p q]. cbn. unfold cell_at. cbn [fst snd].
    destruct r as [p' q']. cbn [fst snd]. destruct (decide (p = p')) as [->|Hp].
    + rewrite list_lookup_alter_eq.
      destruct (c_rows c !! p') as [rw|]; [|by exists f]. cbn [fmap option_fmap option_map mbind option_bind r_cells].
      destruct (decide (q = q')) as [->|Hq].
      * exists f. by rewrite list_lookup_alter_eq.
      * exists (fun s => s). rewrite list_lookup_alter_ne by congruence.
        destruct (r_cells rw !! q); cbn; [by rewrite cell_class_id|done].
    + exists (fun s => s). rewrite list_lookup_alter_ne by congruence.
      destruct (c_rows c !! p) as [rw|]; cbn; [|done].
      destruct (r_cells rw !! q); cbn; [by rewrite cell_class_id|done].
Qed.

Lemma callHandler_core c : same_core c (callHandler c).
Proof. unfold callHandler. case_if; [by apply same_core_rows|apply same_core_refl]. Qed.
Lemma callCloseHandler_core c : same_core c (callCloseHandler c).
Proof. unfold callCloseHandler. case_if; [by apply same_core_rows|apply same_core_refl]. Qed.
Lemma set_clicked_core b c : same_core c (set_clicked b c).
Proof. by apply same_core_rows. Qed.
#[export] Hint Resolve same_core_refl map_cell_core callHandler_core callCloseHandler_core set_clicked_core : js.

Lemma callHandler_current c : c_current (callHandler c) = c_current c.
Proof. unfold callHandler. by case_if. Qed.
Lemma callHandler_clicked c : c_clicked (callHandler c) = c_clicked c.
Proof. unfold callHandler. by destruct (o_onSelected (c_opts c)). Qed.
Lemma callCloseHandler_current c : c_current (callCloseHandler c) = c_current c.
Proof. unfold callCloseHandler. by case_if. Qed.

(** The invariant is about the core and the selected cell. *)
Lemma cal_inv_core c c' : same_core c c' -> c_current c' = c_current c -> cal_inv c -> cal_inv c'.
Proof.
  intros [Ho Hd Hf Ha Hw Hc] Hcur [I1 I2 I3 I4 I5 I6 I7].
  constructor; rewrite ?Ho, ?Hd, ?Ha, ?Hcur; auto.
  - intros n Hn. destruct (I5 n Hn) as (r & x & t & E1 & E2 & E3).
    destruct (Hc r) as [f Hr]. exists r, (cell_class f x), t. rewrite Hr, E2. done.
  - intros r x Hx Hdis. destruct (Hc r) as [f Hr]. rewrite Hr in Hx.
    destruct (cell_at (c_rows c) r) as [x0|] eqn:E; [|done]. injection Hx as <-. by apply (I6 r x0).
Qed.

(** Selecting a day of the displayed month. *)
Lemma cal_inv_day c c' n t :
  cal_inv c -> 1 <= n <= monthLength (getFullYear (c_date c)) (getMonth (c_date c)) ->
  same_core (set_date t c) c' -> c_current c' = c_ar_days c !! Z.to_nat (n - 1) ->
  getFullYear t = getFullYear (c_date c) -> getMonth t = getMonth (c_date c) -> getDate t = n ->
  cal_inv c'.
Proof.
  intros [I1 I2 I3 I4 I5 I6 I7] Hn Hc Hcur E1 E2 E3.
  assert (cal_inv (set_current (c_current c') (set_date t c))) as Hi.
  { by constructor; cbn; rewrite ?E1, ?E2, ?E3. }
  apply (cal_inv_core (set_current (c_current c') (set_date t c))); [|done|done].
  destruct Hc as [H1 H2 H3 H4 H5 H6]. by constructor.
Qed.

Lemma equalsTo_refl d : equalsTo d d = true.
Proof. unfold equalsTo. by rewrite !Z.eqb_refl. Qed.

Lemma cal_inv_init now fdow d c :
  cal_inv c -> cal_inv (init now fdow d c) /\ c_date (init now fdow d c) = clamp_year (c_opts c) d.
Proof. intros [? ? ? _ _ _ _]. apply init_establishes; [done|done|lia]. Qed.

Lemma move_to_spec now d c :
  cal_inv c -> o_minYear (c_opts c) <= getFullYear d <= o_maxYear (c_opts c) ->
  let c' := move_to now d c in
  cal_inv c' /\ c_opts c' = c_opts c /\ c_clicked c' = c_clicked c /\
  (if equalsTo d (c_date c) then c_date c' = c_date c /\ c_log c' = c_log c
   else c_date c' = d /\ c_log c' = c_log c ++
     (if o_onSelected (c_opts c) then [Selected (print (o_dateFormat (c_opts c)) d) d (c_clicked c)] else [])).
Proof.
  intros Hi Hy c'. unfold c', move_to, cal_setDate. destruct (equalsTo d (c_date c)); [done|]. cbn [negb].
  destruct (cal_inv_init now (c_fdow c) d c Hi) as [Hi' Hd].
  destruct (init_fields now (c_fdow c) d c) as (Ho & _ & _ & _ & _ & _ & _ & Hcl & Hlog).
  rewrite clamp_year_id in Hd by done. split.
  { eapply cal_inv_core; [apply callHandler_core|apply callHandler_current|done]. }
  unfold callHandler. rewrite Ho. destruct (o_onSelected (c_opts c)); cbn; rewrite ?Ho, Hcl, Hlog, Hd; [done|].
  by rewrite app_nil_r.
Qed.

(** The four navigation buttons. *)
Lemma cellClick_nav_core now n c :
  cal_inv c -> n ∈ [-2; -1; 1; 2] ->
  exists c', cellClick now (ENav n) c = Some c' /\ cal_inv c' /\ c_opts c' = c_opts c /\
    c_clicked c' = false /\
    let i := month_index_of (c_date c) + nav_months n in
    month_index_of (c_date c') = (if in_years (c_opts c) i then i else month_index_of (c_date c)) /\
    getDate (c_date c') = Z.min (getDate (c_date c)) (monthLength (getFullYear (c_date c')) (getMonth (c_date c'))) /\
    timeOf (c_date c') = timeOf (c_date c) /\
    c_log c' = c_log c ++ (if in_years (c_opts c) i && o_onSelected (c_opts c)
      then [Selected (print (o_dateFormat (c_opts c)) (c_date c')) (c_date c') false] else []).
Proof.
  intros Hi Hn. set (c1 := set_clicked false c).
  assert (Hi1 : cal_inv c1) by (eapply cal_inv_core; [apply set_clicked_core|done|done]).
  destruct (nav_date_fields (c_opts c) n (c_date c) (ci_year _ Hi) Hn) as (H1 & H2 & H3).
  set (i := month_index_of (c_date c) + nav_months n) in *. set (d := nav_date (c_opts c) n (c_date c)) in *.
  assert (Hy : o_minYear (c_opts c) <= getFullYear d <= o_maxYear (c_opts c)).
  { pose proof (ci_year _ Hi) as Hy. pose proof (getMonth_range d). pose proof (getMonth_range (c_date c)).
    unfold month_index_of in H1 at 1. destruct (in_years (c_opts c) i) eqn:E.
    - unfold in_years in E. bool_to_prop. lia.
    - unfold month_index_of in H1. lia. }
  exists (move_to now d c1). split.
  { cbn [cellClick]. assert ((n =? 0) = false) as ->; [|done].
    apply Z.eqb_neq. intros ->. by repeat (apply elem_of_cons in Hn as [Hn|Hn]; [done|]); apply elem_of_nil in Hn. }
  clearbody d. destruct (move_to_spec now d c1 Hi1 Hy) as (Hinv & Ho & Hcl & Hrest).
  split; [done|]. split; [done|]. split; [done|]. change (c_date c1) with (c_date c) in Hrest.
  change (c_log c1) with (c_log c) in Hrest. change (c_opts c1) with (c_opts c) in Hrest. cbv zeta.
  assert (Hne : equalsTo d (c_date c) = true -> month_index_of d = month_index_of (c_date c)).
  { unfold equalsTo, month_index_of. intros E. bool_to_prop. lia. }
  destruct (in_years (c_opts c) i) eqn:E.
  - assert (equalsTo d (c_date c) = false) as Hf.
    { apply not_true_is_false. intros E'. specialize (Hne E'). rewrite H1 in Hne. unfold i in Hne.
      repeat (apply elem_of_cons in Hn as [->|Hn]; [cbn in Hne; lia|]). by apply elem_of_nil in Hn. }
    rewrite Hf in Hrest. destruct Hrest as [-> ->]. by destruct (o_onSelected (c_opts c)).
  - assert (d = c_date c) as Hd; [|rewrite Hd in *; rewrite equalsTo_refl in Hrest;
      destruct Hrest as [-> ->]; by rewrite app_nil_r].
    rewrite (date_days d), (date_days (c_date c)), H3. f_equal. f_equal.
    apply month_index_inv in H1 as [Hy1 Hm1].
    destruct (month_index_inv (c_date c) _ eq_refl) as [Hy2 Hm2].
    rewrite <- (date_makeDay d), <- (date_makeDay (c_date c)). rewrite Hy1, Hm1, Hy2, Hm2. f_equal.
    rewrite H2, Hy1, Hm1, <- Hy2, <- Hm2. pose proof (getDate_range (c_date c)). lia.
Qed.

(** C27. The buttons for the previous and next month and year: the calendar moves by
    one or twelve months if that stays in the allowed years, and stays where it is
    otherwise; the day is kept unless the new month is shorter, where it is the last
    day of that month; the time of day is kept.  The selection handler is called
    with the new date exactly when the calendar moved, [dateClicked] is off (so a
    single-click calendar stays open), and the invariant holds again. *)
Theorem cellClick_nav now n c :
  cal_inv c -> n ∈ [-2; -1; 1; 2] ->
  exists c', cellClick now (ENav n) c = Some c' /\ cal_inv c' /\ c_opts c' = c_opts c /\
    c_clicked c' = false /\
    let i := month_index_of (c_date c) + nav_months n in
    month_index_of (c_date c') = (if in_years (c_opts c) i then i else month_index_of (c_date c)) /\
    getDate (c_date c') = Z.min (getDate (c_date c)) (monthLength (getFullYear (c_date c')) (getMonth (c_date c'))) /\
    timeOf (c_date c') = timeOf (c_date c) /\
    c_log c' = c_log c ++ (if in_years (c_opts c) i && o_onSelected (c_opts c)
      then [Selected (print (o_dateFormat (c_opts c)) (c_date c')) (c_date c') false] else []).
Proof. apply cellClick_nav_core. Qed.

Definition example : calendar :=
  create 0 (default_options true true) 1 (Some (new_Date 2008 0 31 13 5 9)) None.

Lemma create_inv now b1 b2 fdow d t24 : cal_inv (create now (default_options b1 b2) fdow d t24).
Proof. apply init_establishes; [apply create_rows_wf|by split|vm_compute; discriminate]. Qed.

Lemma cellClick_nav_witness :
  cal_inv example /\ 1 ∈ [-2; -1; 1; 2] /\
  exists c', cellClick 0 (ENav 1) example = Some c' /\ cal_inv c'.
Proof.
  assert (Hi : cal_inv example) by apply create_inv.
  assert (Hn : 1 ∈ [-2; -1; 1; 2]) by in_list.
  split; [exact Hi|split; [exact Hn|]].
  destruct (cellClick_nav 0 1 example Hi Hn) as (c' & H1 & H2 & _). exact (ex_intro _ c' (conj H1 H2)).
Defined.

(** ** The arrow keys *)
Definition arrow_days (k : arrow) : Z :=
  match k with KLeft => -1 | KUp => -7 | KRight => 1 | KDown => 7 end.

Lemma arrow_target_spec k c :
  cal_inv c ->
  let n := getDate (c_date c) + arrow_days k in
  arrow_target k c =
  if (1 <=? n) && (n <=? monthLength (getFullYear (c_date c)) (getMonth (c_date c)))
  then c_ar_days c !! Z.to_nat (n - 1) else None.
Proof.
  intros Hi n. pose proof (ci_length _ Hi) as Hl. pose proof (getDate_range (c_date c)) as Hd.
  unfold n, arrow_target. rewrite Hl. rewrite Z2Nat.id by lia.
  destruct k; cbn [arrow_days];
    repeat match goal with
    | |- context [?a <? ?b] => destruct (Z.ltb_spec a b)
    | |- context [?a <=? ?b] => destruct (Z.leb_spec a b)
    end; cbn [andb]; try lia; try done; f_equal; lia.
Qed.

(** Moving the selection to day [n] of the displayed month. *)
Lemma select_day c n ne :
  cal_inv c -> 1 <= n <= monthLength (getFullYear (c_date c)) (getMonth (c_date c)) ->
  c_ar_days c !! Z.to_nat (n - 1) = Some ne ->
  exists x t, cell_at (c_rows c) ne = Some x /\ k_caldate x = Some t /\
    getFullYear t = getFullYear (c_date c) /\ getMonth t = getMonth (c_date c) /\ getDate t = n /\
    forall c', same_core (set_date t c) c' -> c_current c' = Some ne -> cal_inv c'.
Proof.
  intros Hi Hn Hne. destruct (ci_days _ Hi n Hn) as (r & x & t & E1 & E2 & E3 & E4 & E5 & E6 & E7 & E8).
  assert (r = ne) as -> by congruence. exists x, t. do 5 (split; [done|]).
  intros c' Hc Hcur. eapply cal_inv_day; try done. by rewrite Hcur.
Qed.

(** The end of [key_arrow], from the cell [ne] of day [n]. *)
Lemma key_select n ne c :
  cal_inv c -> 1 <= n <= monthLength (getFullYear (c_date c)) (getMonth (c_date c)) ->
  c_ar_days c !! Z.to_nat (n - 1) = Some ne ->
  exists x t c', cell_at (c_rows c) ne = Some x /\ k_caldate x = Some t /\
    c' = set_current (Some ne) (callHandler (set_date t (map_cell (cell_class (addClass "selected")) ne
           match c_current c with
           | Some el => map_cell (cell_class (removeClass "selected")) el c | None => c end))) /\
    cal_inv c' /\ c_opts c' = c_opts c /\
    getFullYear (c_date c') = getFullYear (c_date c) /\ getMonth (c_date c') = getMonth (c_date c) /\
    getDate (c_date c') = n /\ c_clicked c' = c_clicked c /\
    c_log c' = c_log c ++
      (if o_onSelected (c_opts c) then [Selected (print (o_dateFormat (c_opts c)) (c_date c')) (c_date c') (c_clicked c')] else []).
Proof.
  intros Hi Hn Hne. destruct (select_day c n ne Hi Hn Hne) as (x & t & E1 & E2 & E3 & E4 & E5 & Hinv).
  eexists x, t, _. split; [done|]. split; [done|]. split; [reflexivity|].
  set (c2 := match c_current c with Some _ => _ | None => _ end).
  assert (H2 : same_core c c2) by (unfold c2; destruct (c_current c); auto with js).
  assert (Hlog : c_log c2 = c_log c /\ c_clicked c2 = c_clicked c) by (unfold c2; by destruct (c_current c)).
  pose proof (same_core_trans _ _ _ H2 (map_cell_core (addClass "selected") ne c2)) as H3.
  set (c3 := map_cell _ ne c2) in *. clearbody c2.
  assert (Hlog3 : c_log c3 = c_log c /\ c_clicked c3 = c_clicked c) by (unfold c3; done).
  destruct Hlog3 as [Hlog3 Hcl3]. clearbody c3.
  pose proof (callHandler_core (set_date t c3)) as H4. set (c4 := callHandler (set_date t c3)) in *.
  assert (Hlog4 : c_log c4 = c_log c ++
     (if o_onSelected (c_opts c) then [Selected (print (o_dateFormat (c_opts c)) t) t (c_clicked c)] else [])).
  { unfold c4, callHandler. cbn [c_opts set_date]. rewrite (sc_opts _ _ H3), <- Hlog3, <- Hcl3.
    destruct (o_onSelected (c_opts c)); [|by rewrite app_nil_r].
    done. }
  assert (Hcl4 : c_clicked c4 = c_clicked c)
    by (unfold c4; by rewrite callHandler_clicked).
  clearbody c4. cbn [c_date c_opts c_log c_clicked set_current].
  rewrite (sc_date _ _ H4), (sc_opts _ _ H4). cbn [c_date c_opts set_date]. rewrite (sc_opts _ _ H3).
  rewrite Hcl4. split; [|done]. apply Hinv; [|done].
  destruct H3 as [A1 A2 A3 A4 A5 A6], H4 as [B1 B2 B3 B4 B5 B6].
  constructor; cbn in *; try congruence; [by auto|].
  intros r. destruct (A6 r) as [f Hf], (B6 r) as [g Hg]. exists (fun s => g (f s)).
  rewrite Hg, Hf. by destruct (cell_at (c_rows c) r).
Qed.

Lemma key_arrow_core now k c :
  cal_inv c ->
  exists c', key_arrow now k c = Some c' /\ cal_inv c' /\ c_opts c' = c_opts c /\
    let L := monthLength (getFullYear (c_date c)) (getMonth (c_date c)) in
    let n := getDate (c_date c) + arrow_days k in
    let i := month_index_of (c_date c) + (if arrow_prev k then -1 else 1) in
    (if (1 <=? n) && (n <=? L)
     then month_index_of (c_date c') = month_index_of (c_date c) /\ getDate (c_date c') = n
     else month_index_of (c_date c') = (if in_years (c_opts c) i then i else month_index_of (c_date c)) /\
          getDate (c_date c') =
            (if arrow_prev k then monthLength (getFullYear (c_date c')) (getMonth (c_date c')) else 1)) /\
    (if o_onSelected (c_opts c)
     then last (c_log c') = Some (Selected (print (o_dateFormat (c_opts c)) (c_date c')) (c_date c') (c_clicked c')) else True).
Proof.
  intros Hi. unfold key_arrow. rewrite arrow_target_spec by done. cbv zeta.
  set (n := getDate (c_date c) + arrow_days k).
  destruct ((1 <=? n) && (n <=? monthLength (getFullYear (c_date c)) (getMonth (c_date c)))) eqn:En.
  - bool_to_prop. destruct (ci_days _ Hi n) as (ne & _ & _ & Hne & _); [done|]. rewrite Hne.
    destruct (key_select n ne c Hi) as (x & t & c' & Hx & Ht & Hc' & Hinv & Ho & Hy & Hm & Hd & Hcl & Hl); [done|done|].
    cbn [mbind option_bind]. rewrite Hx. cbn [mbind option_bind]. rewrite Ht. cbn [mbind option_bind].
    exists c'. split; [by rewrite Hc'|]. split; [done|]. split; [done|].
    unfold month_index_of. rewrite Hy, Hm, Hd, Hl, Hcl. destruct (o_onSelected (c_opts c)); [|done].
    by rewrite last_snoc.
  - destruct (cellClick_nav_core now (if arrow_prev k then -1 else 1) c Hi) as
      (c1 & -> & Hi1 & Ho1 & _ & Hmi & _); [destruct (arrow_prev k); in_list|].
    assert (nav_months (if arrow_prev k then -1 else 1) = if arrow_prev k then -1 else 1) as Hnm
      by (by destruct (arrow_prev k)).
    rewrite Hnm in Hmi. cbn [mbind option_bind].
    set (L1 := monthLength (getFullYear (c_date c1)) (getMonth (c_date c1))).
    assert (28 <= L1) by (apply monthLength_range, getMonth_range).
    set (m := if arrow_prev k then L1 else 1).
    assert ((if arrow_prev k then getMonthDays None (c_date c1) else Some 1) = Some m) as ->.
    { unfold m. destruct (arrow_prev k); [|done]. rewrite getMonthDays_spec. cbv zeta. cbn [default from_option id].
      pose proof (getMonth_range (c_date c1)).
      destruct (Z.leb_spec 0 (getMonth (c_date c1))), (Z.ltb_spec (getMonth (c_date c1)) 12); lia || done. }
    assert (Hm : 1 <= m <= L1) by (unfold m; destruct (arrow_prev k); lia).
    destruct (ci_days _ Hi1 m Hm) as (ne & _ & _ & Hne & _). cbn [mbind option_bind]. rewrite Hne.
    destruct (key_select m ne c1 Hi1 Hm Hne) as (x & t & c' & Hx & Ht & Hc' & Hinv & Ho & Hy & Hmo & Hd & Hcl & Hl).
    cbn [mbind option_bind]. rewrite Hx. cbn [mbind option_bind]. rewrite Ht. cbn [mbind option_bind].
    exists c'. split; [by rewrite Hc'|]. split; [done|]. split; [congruence|].
    rewrite Hy, Hmo, Hd. unfold month_index_of at 1. rewrite Hy, Hmo. split; [done|].
    rewrite Hl, Ho1, Hcl. destruct (o_onSelected (c_opts c)); [|done]. by rewrite last_snoc.
Qed.



(** ** Reachable states *)
Lemma move_to_inv now d c : cal_inv c -> cal_inv (move_to now d c).
Proof.
  intros Hi. unfold move_to, cal_setDate. destruct (equalsTo d (c_date c)); [done|]. cbn [negb].
  eapply cal_inv_core; [apply callHandler_core|apply callHandler_current|by apply cal_inv_init].
Qed.

(** A click on an enabled cell selects its day; nothing else of the core changes. *)
Lemma cellClick_day now r x c :
  cal_inv c -> cell_at (c_rows c) r = Some x -> k_disabled x = false ->
  exists t c', k_caldate x = Some t /\ cellClick now (EDay r) c = Some c' /\
    same_core (set_date t c) c' /\ c_current c' = Some r /\ c_clicked c' = true /\ cal_inv c'.
Proof.
  intros Hi Hx Hdis. pose proof (ci_enabled _ Hi r x Hx Hdis) as Hin.
  apply list_elem_of_lookup in Hin as [i Hr]. pose proof (lookup_lt_Some _ _ _ Hr) as Hlt.
  rewrite (ci_length _ Hi) in Hlt.
  destruct (ci_days _ Hi (Z.of_nat i + 1)) as (r' & x' & t & E1 & E2 & E3 & E4 & E5 & E6 & E7 & E8); [lia|].
  replace (Z.to_nat (Z.of_nat i + 1 - 1)) with i in E1 by lia.
  assert (r' = r) as -> by congruence. assert (x' = x) as -> by congruence.
  eexists t, _. split; [done|]. split.
  { cbn [cellClick]. rewrite Hx. cbn [mbind option_bind]. rewrite E3. cbn [mbind option_bind].
    rewrite E5. cbn [negb]. reflexivity. }
  set (c1 := match c_current c with Some cur => _ | None => c end).
  assert (H1 : same_core c c1 /\ c_current c1 = c_current c)
    by (unfold c1; destruct (c_current c) eqn:Ec; rewrite <- ?Ec; split; auto with js).
  destruct H1 as [H1 Hcur1]. clearbody c1.
  pose proof (same_core_trans _ _ _ H1 (map_cell_core (addClass "selected") r c1)) as H2.
  assert (Hcur2 : c_current (map_cell (cell_class (addClass "selected")) r c1) = c_current c) by done.
  set (c2 := map_cell _ r c1) in *. clearbody c2.
  set (c3 := if bool_decide (c_current c = Some r) then c2 else set_current (Some r) c2).
  assert (H3 : same_core c c3 /\ c_current c3 = Some r).
  { unfold c3. case_bool_decide as E; [split; [done|congruence]|]. split; [|done].
    eapply same_core_trans; [exact H2|]. by apply same_core_rows. }
  destruct H3 as [H3 Hcur3]. clearbody c3.
  set (c4 := callHandler (set_clicked true (set_date t c3))).
  assert (H4 : same_core (set_date t c) c4 /\ c_current c4 = Some r /\ c_clicked c4 = true).
  { split; [|by unfold c4, callHandler; case_if].
    apply (same_core_trans _ (set_clicked true (set_date t c3))); [|apply callHandler_core].
    destruct H3 as [A1 A2 A3 A4 A5 A6]. constructor; auto. }
  clearbody c4. destruct H4 as (H4 & Hcur4 & Hcl4).
  assert (H5 : forall c5, same_core c4 c5 -> c_current c5 = c_current c4 -> c_clicked c5 = true ->
    same_core (set_date t c) c5 /\ c_current c5 = Some r /\ c_clicked c5 = true /\ cal_inv c5).
  { intros c5 Hc5 Hcur5 Hcl5. assert (same_core (set_date t c) c5) as Hs by (eapply same_core_trans; done).
    split; [done|]. split; [congruence|]. split; [done|].
    eapply (cal_inv_day c c5 (Z.of_nat i + 1) t); try done; [lia|].
    rewrite Hcur5, Hcur4. replace (Z.to_nat (Z.of_nat i + 1 - 1)) with i by lia. done. }
  case_bool_decide; [|by apply H5; auto with js].
  apply H5; [eapply same_core_trans; [apply map_cell_core|apply callCloseHandler_core]| |].
  - by rewrite callCloseHandler_current.
  - unfold callCloseHandler. by case_if.
Qed.

(** The handlers that a click on a day calls. *)
Lemma cellClick_day_log now r x t c c' :
  cell_at (c_rows c) r = Some x -> k_caldate x = Some t -> k_other x = false ->
  cellClick now (EDay r) c = Some c' ->
  c_log c' = c_log c ++
    (if o_onSelected (c_opts c) then [Selected (print (o_dateFormat (c_opts c)) t) t true] else []) ++
    (if bool_decide (c_current c = Some r) && o_onClose (c_opts c) then [Closed] else []).
Proof.
  intros Hx Ht Ho. cbn [cellClick]. rewrite Hx. cbn [mbind option_bind]. rewrite Ht. cbn [mbind option_bind].
  rewrite Ho. cbn [negb]. intros [= <-]. unfold callHandler, callCloseHandler.
  destruct (c_current c) as [cur|]; case_bool_decide;
    cbn [c_opts c_log c_date c_clicked set_clicked set_date set_current map_cell set_rows];
    destruct (o_onSelected (c_opts c)); cbn [map_cell set_rows add_event c_opts c_log set_clicked set_date set_current andb];
    destruct (o_onClose (c_opts c));
    cbn [map_cell set_rows add_event c_opts c_log set_clicked set_date set_current app];
    by rewrite <- ?app_assoc, ?app_nil_r.
Qed.

(** The events of the page, for a fixed set of options; [now] is the current time of each. *)
Inductive cal_step : calendar -> calendar -> Prop :=
| step_day now r x c c' :
    cell_at (c_rows c) r = Some x -> k_disabled x = false ->   (* dayMouseDown's guard *)
    cellClick now (EDay r) c = Some c' -> cal_step c c'
| step_button now el c c' :
    (forall r, el <> EDay r) -> cellClick now el c = Some c' -> cal_step c c'
| step_key now act ctrl code c c' :
    _keyEvent now act ctrl code c = Some (Some c') -> cal_step c c'
| step_setDate now d c : cal_step c (cal_setDate now d c)
| step_refresh now c : cal_step c (refresh now c)
| step_fields tp c : cal_step c (set_time tp c)                (* typing into the time fields *)
| step_time tp h mi c c' :
    c_time c = Some tp -> t_12 tp = false ->
    parseInt10 (t_H tp) = Some h -> 0 <= h < 24 -> parseInt10 (t_M tp) = Some mi -> 0 <= mi < 60 ->
    onUpdateTime c = Some c' -> cal_step c c'.

(** [setHours] and [setMinutes] within the day. *)
Lemma setHours1_eq h t :
  0 <= h < 24 -> dayOf (setHours1 h t) = dayOf t /\ timeOf (setHours1 h t) = h * 3600000 + timeOf t mod 3600000.
Proof.
  intros H. unfold setHours1. pose proof (Z.mod_pos_bound (timeOf t) 3600000 ltac:(lia)).
  rewrite dayOf_makeDate, timeOf_makeDate by (unfold msPerDay; lia). done.
Qed.

Lemma setMinutes_eq m t :
  0 <= m < 60 -> dayOf (setMinutes m t) = dayOf t /\
  timeOf (setMinutes m t) = getHours t * 3600000 + m * 60000 + timeOf t mod 60000.
Proof.
  intros H. unfold setMinutes. pose proof (Z.mod_pos_bound (timeOf t) 60000 ltac:(lia)).
  assert (0 <= getHours t < 24) by (pose proof (timeOf_range t) as Ht; unfold getHours, msPerDay in *; zdiv).
  rewrite dayOf_makeDate, timeOf_makeDate by (unfold msPerDay; lia). done.
Qed.

Lemma same_fields_date t u :
  dayOf t = dayOf u -> getFullYear t = getFullYear u /\ getMonth t = getMonth u /\ getDate t = getDate u.
Proof. intros H. unfold getFullYear, getMonth, getDate. by rewrite H. Qed.

(** Setting the day of a date to its own year, month and day. *)
Lemma set_same_day t u :
  dayOf t = dayOf u ->
  JsDate.setDate (getDate u) (setMonth (getMonth u) (setFullYear (getFullYear u) t)) = t.
Proof.
  intros H. destruct (same_fields_date t u H) as (<- & <- & <-).
  pose proof (getDate_range t) as Hd. pose proof (getMonth_range t) as Hm.
  destruct (setFullYear_min (getFullYear t) t) as (F1 & F2 & F3 & F4).
  rewrite Z.min_l in F3 by lia.
  destruct (setMonth_fields (getMonth t) (setFullYear (getFullYear t) t)) as (G1 & G2 & G3);
    [done|rewrite F1, F3; lia|].
  set (v := setMonth _ _) in *. pose proof (date_days (JsDate.setDate (getDate t) v)) as E.
  rewrite dayOf_setDate, timeOf_setDate, G3, F3 in E.
  rewrite E. unfold v at 2. rewrite timeOf_setMonth, F4.
  assert (dayOf v = dayOf t) as ->; [|pose proof (date_days t); lia].
  rewrite <- (date_makeDay v), <- (date_makeDay t). congruence.
Qed.

(** The date that [onUpdateTime] makes from an hour and a minute in range. *)
Definition at_time (h mi : Z) (d : date) : date :=
  dayOf d * msPerDay + h * 3600000 + mi * 60000 + timeOf d mod 60000.

Lemma update_time_date h mi d :
  0 <= h < 24 -> 0 <= mi < 60 ->
  JsDate.setDate (getDate d) (setMonth (getMonth d) (setFullYear (getFullYear d)
    (setMinutes mi (setHours1 h d)))) = at_time h mi d.
Proof.
  intros Hh Hm. destruct (setHours1_eq h d Hh) as [H1 H2].
  destruct (setMinutes_eq mi (setHours1 h d) Hm) as [H3 H4].
  rewrite set_same_day by congruence.
  rewrite (date_days (setMinutes mi (setHours1 h d))), H3, H1, H4. unfold at_time, getHours.
  rewrite H2. pose proof (timeOf_range d). unfold msPerDay in *. zdiv.
Qed.

Lemma at_time_day h mi d : 0 <= h < 24 -> 0 <= mi < 60 -> dayOf (at_time h mi d) = dayOf d.
Proof. intros. unfold at_time, dayOf at 1. unfold dayOf, msPerDay. zdiv. Qed.

Lemma onUpdateTime_24 tp h mi c :
  c_time c = Some tp -> t_12 tp = false ->
  parseInt10 (t_H tp) = Some h -> 0 <= h < 24 -> parseInt10 (t_M tp) = Some mi -> 0 <= mi < 60 ->
  onUpdateTime c = Some (callHandler (set_clicked false (set_date (at_time h mi (c_date c)) c))).
Proof.
  intros Htp H12 Hh ? Hmi ?. unfold onUpdateTime. rewrite Htp, Hh. cbn [mbind option_bind].
  rewrite H12, Hmi. cbn [mbind option_bind]. by rewrite update_time_date.
Qed.

Lemma button_inv now el c c' :
  (forall r, el <> EDay r) -> cal_inv c -> cellClick now el c = Some c' -> cal_inv c'.
Proof.
  intros Hel Hi. destruct el as [r|n| |id|f]; cbn [cellClick].
  - by destruct (Hel r).
  - assert (Hi1 : cal_inv (set_clicked false c)) by (by eapply cal_inv_core; [apply set_clicked_core| |]).
    case_if; [|intros [= <-]; by apply move_to_inv].
    destruct (o_getDateStatus _) as [f|]; [case_if|]; intros [= <-]; [done|by apply move_to_inv..].
  - intros [= <-]. by eapply cal_inv_core; [apply callCloseHandler_core|apply callCloseHandler_current|].
  - intros [= <-]. apply (cal_inv_core c); [by apply same_core_rows|done|done].
  - intros [= <-]. apply cal_inv_init. by eapply cal_inv_core; [apply set_clicked_core| |].
Qed.

Lemma key_inv now act ctrl code c c' :
  cal_inv c -> _keyEvent now act ctrl code c = Some (Some c') -> cal_inv c'.
Proof.
  intros Hi.
  assert (Hact : forall (r : option calendar), (forall c1, r = Some c1 -> cal_inv c1) ->
            Some (if act then r else Some c) = Some (Some c') -> cal_inv c').
  { intros r Hr [= H]. destruct act; [by apply Hr|]. by injection H as <-. }
  assert (Hnav : forall n c1, cellClick now (ENav n) c = Some c1 -> cal_inv c1)
    by (intros n c1 H; by apply (button_inv now (ENav n) c)).
  assert (Harr : forall k c1, key_arrow now k c = Some c1 -> cal_inv c1).
  { intros k c1 H. destruct (key_arrow_core now k c Hi) as (c2 & H2 & Hi2 & _). congruence. }
  unfold _keyEvent. cbv zeta. destruct ctrl.
  - destruct code as [|p|p]; try done; repeat (destruct p as [p|p|]; try done); (refine (Hact _ _); intros ? ?; by eapply Hnav).
  - destruct code as [|p|p]; try done; repeat (destruct p as [p|p|]; try done); try (refine (Hact _ _); intros ? ?; by eapply Harr); try (intros Hk; apply (Hnav 0); congruence).
    all: refine (Hact _ _); intros c1 [= <-].
    all: first
      [ by eapply cal_inv_core; [apply callCloseHandler_core|apply callCloseHandler_current|]
      | apply (cal_inv_core c); [|by cbn; rewrite callHandler_current|done];
        eapply same_core_trans; [apply callHandler_core|by apply same_core_rows] ].
Qed.

Lemma cal_step_inv c c' : cal_inv c -> cal_step c c' -> cal_inv c'.
Proof.
  intros Hi Hs. inv Hs as [now r x ? ? Hx Hd Hc|now el ? ? Hel Hc|now act ctrl code ? ? Hk|now d|now|tp
    |tp h mi ? ? Htp H12 Hh Hh0 Hm Hm0 Hu].
  - destruct (cellClick_day now r x c Hi Hx Hd) as (t & c2 & _ & H2 & _ & _ & _ & Hi2). congruence.
  - by eapply button_inv.
  - by eapply key_inv.
  - unfold cal_setDate. case_if; [by apply cal_inv_init|done].
  - by apply cal_inv_init.
  - apply (cal_inv_core c); [by apply same_core_rows|done|done].
  - rewrite (onUpdateTime_24 tp h mi) in Hu by done. injection Hu as <-.
    destruct (same_fields_date _ _ (at_time_day h mi (c_date c) Hh0 Hm0)) as (Ey & Em & Ed).
    apply (cal_inv_day c _ (getDate (c_date c)) (at_time h mi (c_date c))); try done.
    + apply getDate_range.
    + eapply same_core_trans; [|apply callHandler_core]. by apply same_core_rows.
    + rewrite callHandler_current. apply (ci_current _ Hi).
Qed.

(** C3. Every state that the events of the page can reach from a new calendar
    satisfies the invariant: whatever is clicked or typed and however the calendar
    is moved, the grid shows the month of the selected date, the selected cell is
    its cell, the enabled cells are the days of the month in order, and the year
    stays in the allowed range. *)
Theorem cal_reachable_inv now b1 b2 fdow d t24 c :
  rtc cal_step (create now (default_options b1 b2) fdow d t24) c -> cal_inv c.
Proof.
  intros H. assert (Hi : cal_inv (create now (default_options b1 b2) fdow d t24)) by apply create_inv.
  revert Hi. induction H as [|x y z Hs _ IH]; [done|]. intros Hi. apply IH. by eapply cal_step_inv.
Qed.

Lemma cal_reachable_inv_witness :
  rtc cal_step example (refresh 5 (cal_setDate 7 (new_Date 1900 1 29 0 0 0) example)) /\
  getFullYear (c_date (refresh 5 (cal_setDate 7 (new_Date 1900 1 29 0 0 0) example))) = 1970 /\
  cal_inv (refresh 5 (cal_setDate 7 (new_Date 1900 1 29 0 0 0) example)).
Proof.
  assert (H : rtc cal_step example (refresh 5 (cal_setDate 7 (new_Date 1900 1 29 0 0 0) example))).
  { eapply rtc_l; [apply (step_setDate 7 (new_Date 1900 1 29 0 0 0))|].
    eapply rtc_l; [apply (step_refresh 5)|apply rtc_refl]. }
  split; [exact H|split; [vm_compute; reflexivity|]].
  exact (cal_reachable_inv 0 true true 1 (Some (new_Date 2008 0 31 13 5 9)) None _ H).
Defined.

(** ** The time row *)
Lemma parse_pad_field n : 0 <= n -> parseInt10 (pad_field n) = Some n.
Proof.
  intros H. unfold pad_field. case_if; apply parseInt10_reads; [by apply reads_as_zero|by apply reads_as_num].
Qed.

Lemma hours_minutes d : 0 <= getHours d < 24 /\ 0 <= getMinutes d < 60 /\
  at_time (getHours d) (getMinutes d) d = d.
Proof.
  pose proof (timeOf_range d) as H. pose proof (date_days d) as E.
  unfold at_time, getHours, getMinutes, msPerDay in *. repeat split; zdiv.
Qed.

(** The time fields of a 24-hour calendar: [onUpdateTime] after [onSetTime]
    leaves the date as it was, and any hour and minute in range typed into the
    fields become the time of the date, the day and the seconds kept. *)
Theorem onUpdateTime_spec h mi c tp :
  c_time c = Some tp -> t_12 tp = false -> 0 <= h < 24 -> 0 <= mi < 60 ->
  c_date <$> onUpdateTime (onSetTime c) = Some (c_date c) /\
  c_date <$> onUpdateTime (set_time (Some (TimePart false (pad_field h) (pad_field mi) "")) c)
  = Some (at_time h mi (c_date c)).
Proof.
  intros Htp H12 Hh Hm.
  assert (Hcb : forall c, c_date (callHandler c) = c_date c) by (intros x; apply callHandler_core).
  destruct (hours_minutes (c_date c)) as (Hr & Hr' & Hat). split.
  - unfold onSetTime. rewrite Htp, H12. rewrite andb_false_r.
    erewrite onUpdateTime_24; [|reflexivity|done|apply parse_pad_field; lia|done|apply parse_pad_field; lia|done].
    cbn. by rewrite Hcb, Hat.
  - erewrite onUpdateTime_24; [|reflexivity|done|apply parse_pad_field; lia|done|apply parse_pad_field; lia|done].
    cbn. by rewrite Hcb.
Qed.

Lemma onUpdateTime_spec_witness :
  let c := create 0 (default_options true true) 1 (Some (new_Date 2008 0 31 13 5 9)) (Some true) in
  c_time c = Some (TimePart false "13" "05" "pm") /\
  c_date <$> onUpdateTime (set_time (Some (TimePart false "07" "30" "")) c) = Some (new_Date 2008 0 31 7 30 9).
Proof.
  assert (H : c_time (create 0 (default_options true true) 1 (Some (new_Date 2008 0 31 13 5 9)) (Some true))
    = Some (TimePart false "13" "05" "pm")) by (vm_compute; reflexivity).
  split; [exact H|].
  refine (eq_trans (proj2 (onUpdateTime_spec 7 30 _ _ H eq_refl _ _)) _); [lia|lia|vm_compute; reflexivity].
Defined.

Definition example12 (h : Z) : calendar :=
  create 0 (default_options true true) 1 (Some (new_Date 2008 0 31 h 5 9)) (Some false).

(** A 12-hour calendar shows noon as 12 am ([pm] is [hrs > 12]): reading the
    unchanged fields back moves the time from noon to midnight of the day. *)
Theorem noon_becomes_midnight :
  c_time (example12 12) = Some (TimePart true "12" "05" "am") /\
  c_date <$> onUpdateTime (example12 12) = Some (new_Date 2008 0 31 0 5 9) /\
  c_date <$> onUpdateTime (example12 13) = Some (new_Date 2008 0 31 13 5 9).
Proof. by vm_compute. Qed.

(** A click on a day drops a time that was typed before: the date becomes the
    one stored in the cell when the month was drawn, with the time of then, while
    the fields go on showing the typed time. *)
Theorem day_click_drops_time :
  let c := create 0 (default_options true true) 1 (Some (new_Date 2008 0 31 13 5 9)) (Some true) in
  exists c1 c2, time_type true "20" c = Some c1 /\ c_date c1 = new_Date 2008 0 31 20 5 9 /\
    cellClick 0 (EDay (0, 1)%nat) c1 = Some c2 /\
    c_date c2 = new_Date 2008 0 1 13 5 9 /\ t_H <$> c_time c2 = Some "20".
Proof. eexists _, _. do 4 (split; [vm_compute; reflexivity|]). vm_compute. reflexivity. Qed.
