(* ===== verification/Dom.v ===== *)
(** * Documents and scripts
    A document is the set of its elements that have an [id], with the properties
    the scripts use; a script is a computation on the world (document, the script's
    global variables, log of effects) that can throw.  The browser, which parses
    the markup that scripts assign to [innerHTML], is the class [Browser]. *)
From Stdlib Require Import QArith.
From S2P Require Import Prelude JsString JsNum Ui.
Open Scope Z_scope.

(** ** Elements *)
Record elem := Elem {
  e_html : string;                  (** [innerHTML] *)
  e_value : string;
  e_class : string;                 (** [className] *)
  e_title : string;
  e_src : string;
  e_href : string;
  e_target : string;
  e_style : gmap string string;
  e_in : list string                (** the enclosing elements, innermost first *)
}.

Definition new_elem : elem := Elem "" "" "" "" "" "" "" ∅ [].

Definition with_html (s : string) (e : elem) : elem :=
  Elem s (e_value e) (e_class e) (e_title e) (e_src e) (e_href e) (e_target e) (e_style e) (e_in e).
Definition with_value (s : string) (e : elem) : elem :=
  Elem (e_html e) s (e_class e) (e_title e) (e_src e) (e_href e) (e_target e) (e_style e) (e_in e).
Definition with_class (s : string) (e : elem) : elem :=
  Elem (e_html e) (e_value e) s (e_title e) (e_src e) (e_href e) (e_target e) (e_style e) (e_in e).
Definition with_title (s : string) (e : elem) : elem :=
  Elem (e_html e) (e_value e) (e_class e) s (e_src e) (e_href e) (e_target e) (e_style e) (e_in e).
Definition with_src (s : string) (e : elem) : elem :=
  Elem (e_html e) (e_value e) (e_class e) (e_title e) s (e_href e) (e_target e) (e_style e) (e_in e).
Definition with_href (s : string) (e : elem) : elem :=
  Elem (e_html e) (e_value e) (e_class e) (e_title e) (e_src e) s (e_target e) (e_style e) (e_in e).
Definition with_target (s : string) (e : elem) : elem :=
  Elem (e_html e) (e_value e) (e_class e) (e_title e) (e_src e) (e_href e) s (e_style e) (e_in e).
Definition with_style (p s : string) (e : elem) : elem :=
  Elem (e_html e) (e_value e) (e_class e) (e_title e) (e_src e) (e_href e) (e_target e) (<[p := s]> (e_style e)) (e_in e).
Definition with_in (l : list string) (e : elem) : elem :=
  Elem (e_html e) (e_value e) (e_class e) (e_title e) (e_src e) (e_href e) (e_target e) (e_style e) l.

Abbreviation document := (gmap string elem).

(** ** The browser *)
Class Browser := {
  userAgent : string;
  (** the elements with an [id] that a piece of markup defines *)
  parse_html : string -> list (string * elem);
  (** the markup that [innerHTML] reads: from the markup the element was given last
      and the present state of the elements with an [id] inside it *)
  html_of : string -> gmap string elem -> string;
  (** the digits of a number that is not an integer *)
  frac_string : Q -> string
}.

(** What the scripts rely on: markup in which the text [id=] does not occur
    defines no element that [getElementById] could find. *)
Definition parses_plain `{Browser} : Prop := forall s, contains s "id=" = false -> parse_html s = [].

(** The enclosing elements up to [id]. *)
Fixpoint below (id : string) (l : list string) : list string :=
  match l with
  | [] => []
  | x :: l => if String.eqb x id then [] else x :: below id l
  end.

(** The elements inside [id], as they lie in it. *)
Definition inside (id : string) (d : document) : document :=
  (fun e => with_in (below id (e_in e)) e) <$> filter (fun ke : string * elem => id ∈ e_in ke.2) d.

(** Markup that was read from an element defines the elements that were in it. *)
Definition reads_back `{Browser} : Prop := forall s d, parse_html (html_of s d) ≡ₚ map_to_list d.

Section browser.
Context `{Browser}.

Definition is_msie : bool := contains userAgent "MSIE".
Definition str (x : num) : string := num_to_string frac_string x.

(** [document.getElementById(id).innerHTML = s] on an element that exists: what
    was inside goes, what the markup defines comes. *)
Definition write_html (id s : string) (d : document) : document :=
  match d !! id with
  | None => d
  | Some e =>
      let outside := filter (fun ke : string * elem => id ∉ e_in ke.2) d in
      fold_left (fun d ke => <[ke.1 := with_in (e_in ke.2 ++ id :: e_in e) ke.2]> d)
        (parse_html s) (<[id := with_html s e]> outside)
  end.
End browser.

(** ** Scripts *)
Record world (G : Type) := World { w_dom : document; w_glob : G; w_log : list effect }.
Arguments World {G} _ _ _.
Arguments w_dom {G} _.
Arguments w_glob {G} _.
Arguments w_log {G} _.

(** [None]: an exception was thrown; what was done before it stays done. *)
Definition M (G A : Type) : Type := world G -> option A * world G.

#[export] Instance M_ret {G} : MRet (M G) := fun A a w => (Some a, w).
#[export] Instance M_bind {G} : MBind (M G) := fun A B f m w =>
  match m w with
  | (Some a, w') => f a w'
  | (None, w') => (None, w')
  end.

Section scripts.
Context {G : Type} `{Browser}.

Definition throw {A} : M G A := fun w => (None, w).
Definition glob : M G G := fun w => (Some (w_glob w), w).
Definition set_glob (f : G -> G) : M G unit := fun w =>
  (Some tt, World (w_dom w) (f (w_glob w)) (w_log w)).
Definition emit (e : effect) : M G unit := fun w =>
  (Some tt, World (w_dom w) (w_glob w) (w_log w ++ [e])).

(** [document.getElementById(id)]; [None] is [null]. *)
Definition getElementById (id : string) : M G (option elem) := fun w => (Some (w_dom w !! id), w).
Definition exists_ (id : string) : M G bool := fun w => (Some (bool_decide (is_Some (w_dom w !! id))), w).

(** A property of [document.getElementById(id)], which must not be [null]. *)
Definition prop {A} (f : elem -> A) (id : string) : M G A := fun w =>
  match w_dom w !! id with Some e => (Some (f e), w) | None => (None, w) end.
Definition set_prop (f : elem -> elem) (id : string) : M G unit := fun w =>
  match w_dom w !! id with
  | Some e => (Some tt, World (<[id := f e]> (w_dom w)) (w_glob w) (w_log w))
  | None => (None, w)
  end.
Definition set_html (id s : string) : M G unit := fun w =>
  match w_dom w !! id with
  | Some _ => (Some tt, World (write_html id s (w_dom w)) (w_glob w) (w_log w))
  | None => (None, w)
  end.
(** [document.getElementById(id).innerHTML], where the elements inside matter. *)
Definition inner_html (id : string) : M G string := fun w =>
  match w_dom w !! id with
  | Some e => (Some (html_of (e_html e) (inside id (w_dom w))), w)
  | None => (None, w)
  end.
Definition when_ (b : bool) (m : M G unit) : M G unit := if b then m else mret tt.

(** [parent.appendChild(newdiv)] of a new element, then its markup is parsed. *)
Definition append_child (parent id : string) (e : elem) : M G unit := fun w =>
  match w_dom w !! parent with
  | Some p =>
      (Some tt, World (write_html id (e_html e) (<[id := with_in (parent :: e_in p) e]> (w_dom w)))
                  (w_glob w) (w_log w))
  | None => (None, w)
  end.
End scripts.

Notation "m ;;; k" := (mbind (fun _ => k) m) (at level 100, k at level 200, right associativity, only parsing) : js_scope.

(** ** Lemmas *)
Section lemmas.
Context `{Browser} {G : Type}.
Implicit Types (w : world G) (d : document).

Lemma add_all_notin (f : elem -> elem) l : forall d k,
  (forall e, (k, e) ∉ l) -> fold_left (fun d (ke : string * elem) => <[ke.1 := f ke.2]> d) l d !! k = d !! k.
Proof.
  induction l as [|[k' e'] l IH]; intros d k Hk; [done|]. cbn [fold_left fst snd]. rewrite IH.
  - rewrite lookup_insert_ne; [done|]. intros <-. apply (Hk e'). by left.
  - intros e He. apply (Hk e). by right.
Qed.

Lemma add_all_in (f : elem -> elem) l : forall d k e,
  NoDup l.*1 -> (k, e) ∈ l -> fold_left (fun d (ke : string * elem) => <[ke.1 := f ke.2]> d) l d !! k = Some (f e).
Proof.
  induction l as [|[k' e'] l IH]; intros d k e Hnd Hin; [by apply elem_of_nil in Hin|].
  cbn [fold_left fst snd]. apply NoDup_cons in Hnd as [Hk' Hnd].
  apply elem_of_cons in Hin as [[= -> ->]|Hin]; [|by apply IH].
  rewrite add_all_notin; [by rewrite lookup_insert_eq|].
  intros e0 He0. apply Hk'. by apply (list_elem_of_fmap_2 fst _ (k', e0)).
Qed.

(** Writing markup that does not define [k]. *)
Lemma write_html_lookup_ne id s d k e0 :
  (forall e, (k, e) ∉ parse_html s) -> d !! id = Some e0 -> k <> id ->
  (forall e, d !! k = Some e -> id ∉ e_in e) -> write_html id s d !! k = d !! k.
Proof.
  intros Hp He Hk Hin. unfold write_html. rewrite He.
  rewrite (add_all_notin (fun e => with_in (e_in e ++ id :: e_in e0) e)) by done.
  rewrite lookup_insert_ne by done. destruct (d !! k) as [e|] eqn:E.
  - apply map_lookup_filter_Some_2; [done|]. by apply Hin.
  - apply map_lookup_filter_None_2. by left.
Qed.

Lemma write_html_lookup id s d e :
  (forall e', (id, e') ∉ parse_html s) -> d !! id = Some e -> write_html id s d !! id = Some (with_html s e).
Proof.
  intros Hp He. unfold write_html. rewrite He.
  rewrite (add_all_notin (fun e' => with_in (e_in e' ++ id :: e_in e) e')) by done. by rewrite lookup_insert_eq.
Qed.

Lemma add_all_some (f : elem -> elem) l : forall d k,
  is_Some (d !! k) \/ k ∈ l.*1 -> is_Some (fold_left (fun d (ke : string * elem) => <[ke.1 := f ke.2]> d) l d !! k).
Proof.
  induction l as [|[k' e'] l IH]; intros d k Hk; cbn [fold_left fst snd].
  { destruct Hk as [|Hk]; [done|by apply elem_of_nil in Hk]. }
  apply IH. destruct (decide (k = k')) as [->|Hne]; [left; rewrite lookup_insert_eq; by eexists|].
  rewrite lookup_insert_ne by done. destruct Hk as [|Hk]; [by left|right].
  rewrite fmap_cons in Hk. by apply elem_of_cons in Hk as [|].
Qed.

(** What the markup defines is there afterwards. *)
Lemma write_html_defines id s d e k e' :
  d !! id = Some e -> (k, e') ∈ parse_html s -> is_Some (write_html id s d !! k).
Proof.
  intros He Hk. unfold write_html. rewrite He.
  apply (add_all_some (fun e' => with_in (e_in e' ++ id :: e_in e) e')). right.
  by apply (list_elem_of_fmap_2 fst _ (k, e')).
Qed.
End lemmas.

(** Identifiers made of different prefixes and the same number are different. *)
Lemma sapp_cancel_l a b c : a +++ b = a +++ c -> b = c.
Proof. induction a as [|x a IH]; simpl; [done|]. intros [= E]. by apply IH. Qed.

Ltac id_ne :=
  let E := fresh "E" in
  intros E;
  first [ discriminate E
        | apply (f_equal String.length) in E; rewrite ?sapp_length in E; cbn in E; lia
        | simpl in E; congruence ].

(** ** Scripts on a known set of elements
    [sim K D w]: in the document of [w] the element [K p] is [D p] for every name
    [p] of [names], none of them lies inside one of the elements of [boxes], whose
    markup the scripts replace, and what lies inside an element of [names] lies in
    what encloses it.  Scripts can then be run on [D] alone. *)
Lemma sapp_cancel_r a b c : a +++ c = b +++ c -> a = b.
Proof.
  revert b. induction a as [|x a IH]; intros [|y b] E; simpl in *; [done| | |].
  - apply (f_equal String.length) in E. cbn in E. rewrite sapp_length in E. lia.
  - apply (f_equal String.length) in E. cbn in E. rewrite sapp_length in E. lia.
  - injection E as -> E. by rewrite (IH b E).
Qed.

Definition upd (p : string) (f : elem -> elem) (D : string -> elem) : string -> elem :=
  fun q => if String.eqb q p then f (D q) else D q.

Lemma upd_eq p f D : upd p f D p = f (D p).
Proof. unfold upd. by rewrite String.eqb_refl. Qed.
Lemma upd_ne p q f D : q <> p -> upd p f D q = D q.
Proof. intros H. unfold upd. by rewrite (proj2 (String.eqb_neq q p) H). Qed.

Section sim.
Context `{Browser} {G : Type} (plain : parses_plain).
Context (K : string -> string) (names boxes : list string).
Context (K_inj : forall p q, p ∈ names -> q ∈ names -> K p = K q -> p = q).
Context (boxes_names : forall q, q ∈ boxes -> q ∈ names).
Implicit Types (w : world G) (D : string -> elem).

Definition sim D w : Prop :=
  forall p, p ∈ names -> w_dom w !! K p = Some (D p) /\ (forall q, q ∈ boxes -> K q ∉ e_in (D p)) /\
    forall q, q ∈ names -> K q ∈ e_in (D p) -> e_in (D p) = below (K q) (e_in (D p)) ++ K q :: e_in (D q).

(** The last part speaks of [e_in] only. *)
Lemma sim_update D f p w w' :
  sim D w -> p ∈ names -> (forall e, e_in (f e) = e_in e) ->
  (forall q, q ∈ names -> w_dom w' !! K q = Some (upd p f D q)) -> sim (upd p f D) w'.
Proof.
  intros Hs Hp Hf Hl q Hq. destruct (Hs q Hq) as (_ & H2 & H3).
  assert (Hin : forall r, e_in (upd p f D r) = e_in (D r)).
  { intros r. destruct (decide (r = p)) as [->|]; [by rewrite upd_eq|by rewrite upd_ne]. }
  split; [by apply Hl|]. setoid_rewrite Hin. done.
Qed.

Lemma sim_flat D w :
  (forall p, p ∈ names -> w_dom w !! K p = Some (D p)) -> (forall p, p ∈ names -> e_in (D p) = []) -> sim D w.
Proof.
  intros Hl Hin p Hp. rewrite (Hin p Hp). split; [by apply Hl|].
  split; intros q Hq; [apply not_elem_of_nil|by intros ?%elem_of_nil].
Qed.

Lemma run_bind {A B} (m : M G A) (k : A -> M G B) w a w' :
  m w = (Some a, w') -> (m ≫= k) w = k a w'.
Proof. unfold mbind, M_bind. by intros ->. Qed.

Lemma bind_inv {A B} (m : M G A) (k : A -> M G B) w b w' :
  (m ≫= k) w = (Some b, w') -> exists a w1, m w = (Some a, w1) /\ k a w1 = (Some b, w').
Proof. unfold mbind, M_bind. destruct (m w) as [[a|] w1]; [by exists a, w1|done]. Qed.

Lemma run_glob w : glob w = (Some (w_glob w), w).
Proof. done. Qed.

Context (D : string -> elem) (w : world G) (Hs : sim D w).

Lemma run_prop {A} (f : elem -> A) p : p ∈ names -> prop f (K p) w = (Some (f (D p)), w).
Proof using Hs. intros Hp. unfold prop. by rewrite (proj1 (Hs p Hp)). Qed.

Lemma run_getElementById p : p ∈ names -> getElementById (K p) w = (Some (Some (D p)), w).
Proof using Hs. intros Hp. unfold getElementById. by rewrite (proj1 (Hs p Hp)). Qed.

Lemma run_exists p : p ∈ names -> exists_ (K p) w = (Some true, w).
Proof using Hs.
  intros Hp. unfold exists_. rewrite (proj1 (Hs p Hp)). by rewrite bool_decide_eq_true_2.
Qed.

Lemma run_set_prop f p :
  p ∈ names -> (forall e, e_in (f e) = e_in e) ->
  exists w', set_prop f (K p) w = (Some tt, w') /\ sim (upd p f D) w' /\
    w_glob w' = w_glob w /\ w_log w' = w_log w.
Proof using Hs K_inj.
  intros Hp Hf. unfold set_prop. rewrite (proj1 (Hs p Hp)). eexists. split; [done|].
  split; [|done]. apply (sim_update D _ _ w); [done..|]. intros q Hq. cbn [w_dom].
  destruct (decide (q = p)) as [->|Hne].
  - by rewrite upd_eq, lookup_insert_eq.
  - rewrite upd_ne, lookup_insert_ne by (done || (intros E; apply Hne; symmetry; by apply K_inj)). by apply Hs.
Qed.

(** Markup that defines none of the elements [names]. *)
Definition foreign (s : string) : Prop := forall k e q, (k, e) ∈ parse_html s -> q ∈ names -> K q <> k.

Lemma run_set_foreign s p :
  p ∈ boxes -> foreign s ->
  exists w', set_html (K p) s w = (Some tt, w') /\ sim (upd p (with_html s) D) w' /\
    w_glob w' = w_glob w /\ w_log w' = w_log w /\
    forall k e, (k, e) ∈ parse_html s -> is_Some (w_dom w' !! k).
Proof using Hs K_inj boxes_names.
  intros Hp Hc. pose proof (boxes_names p Hp) as Hn. unfold set_html.
  destruct (Hs p Hn) as [Hl _]. rewrite Hl. eexists. split; [done|]. split; [|split; [done|split; [done|]]].
  2:{ intros k e Hk. eapply write_html_defines; [exact Hl|exact Hk]. }
  apply (sim_update D _ _ w); [done..|]. intros q Hq. destruct (Hs q Hq) as (H1 & H2 & _).
  cbn [w_dom]. destruct (decide (q = p)) as [->|Hne].
  - rewrite upd_eq. rewrite (write_html_lookup _ _ _ (D p)); [done| |done].
    intros e He. by eapply Hc.
  - rewrite upd_ne by done. erewrite write_html_lookup_ne; [done| |exact Hl| |].
    + intros e He. by eapply Hc.
    + intros E. apply Hne. by apply K_inj.
    + intros e He. rewrite H1 in He. injection He as <-. by apply H2.
Qed.

Lemma run_set_html s p :
  p ∈ boxes -> contains s "id=" = false ->
  exists w', set_html (K p) s w = (Some tt, w') /\ sim (upd p (with_html s) D) w' /\
    w_glob w' = w_glob w /\ w_log w' = w_log w.
Proof using Hs K_inj plain boxes_names.
  intros Hp Hc. destruct (run_set_foreign s p Hp) as (w' & E & H1 & H2 & H3 & _); [|by exists w'].
  intros k e q He. rewrite plain in He by done. by apply elem_of_nil in He.
Qed.

(** Writing back the markup that was just read: the elements inside are made again. *)
Lemma run_reread p :
  reads_back -> p ∈ names ->
  exists s w', inner_html (K p) w = (Some s, w) /\ set_html (K p) s w = (Some tt, w') /\
    sim (upd p (with_html s) D) w' /\ w_glob w' = w_glob w /\ w_log w' = w_log w.
Proof using Hs K_inj.
  intros Hrb Hp. destruct (Hs p Hp) as (Hl & _ & Hself). unfold inner_html, set_html. rewrite Hl.
  set (s := html_of _ _). exists s. eexists. split; [done|]. split; [done|]. split; [|done].
  assert (Hout : K p ∉ e_in (D p)).
  { intros Hin. specialize (Hself p Hp Hin). apply (f_equal length) in Hself.
    rewrite length_app in Hself. cbn in Hself. lia. }
  apply (sim_update D _ _ w); [done..|]. intros q Hq. cbn [w_dom]. unfold write_html. rewrite Hl.
  pose proof (Hrb (e_html (D p)) (inside (K p) (w_dom w))) as Hperm. fold s in Hperm.
  destruct (Hs q Hq) as (Hlq & _ & Hqin).
  destruct (decide (K p ∈ e_in (D q))) as [Hin|Hnin].
  - rewrite (add_all_in (fun e => with_in (e_in e ++ K p :: e_in (D p)) e) _ _ _ (with_in (below (K p) (e_in (D q))) (D q))).
    + rewrite upd_ne by congruence. cbn [with_in e_in]. rewrite <- Hqin by done. by destruct (D q).
    + rewrite Hperm. apply NoDup_fst_map_to_list.
    + rewrite Hperm. apply elem_of_map_to_list. unfold inside. rewrite lookup_fmap.
      by rewrite (map_lookup_filter_Some_2 _ _ _ (D q)).
  - rewrite (add_all_notin (fun e => with_in (e_in e ++ K p :: e_in (D p)) e)).
    + destruct (decide (q = p)) as [->|Hne]; [by rewrite upd_eq, lookup_insert_eq|].
      rewrite upd_ne, lookup_insert_ne by (done || (intros E; apply Hne; symmetry; by apply K_inj)).
      by apply map_lookup_filter_Some_2.
    + intros e. rewrite Hperm, elem_of_map_to_list. unfold inside. rewrite lookup_fmap.
      intros (e' & [He' Hin']%map_lookup_filter_Some & _)%fmap_Some. cbn in Hin'. congruence.
Qed.

Lemma run_emit e :
  exists w', emit e w = (Some tt, w') /\ sim D w' /\ w_glob w' = w_glob w /\ w_log w' = w_log w ++ [e].
Proof using Hs. eexists. done. Qed.
End sim.

(** Membership of a literal in a list of literals. *)
Ltac lit_in := repeat first [apply list_elem_of_here | apply list_elem_of_further].

(** A browser to try the theorems on. *)
#[export] Instance demo_browser : Browser := {
  userAgent := "Firefox";
  parse_html := fun s => if contains s "id=" then [("someid", new_elem)] else [];
  html_of := fun s _ => s;
  frac_string := fun _ => "0.5"
}.

Lemma demo_plain : parses_plain.
Proof. intros s Hs. cbn. by rewrite Hs. Qed.
