(* ===== verification/Container.v ===== *)
(** * Report containers: layout and paging (container.js)
    A container holds a header, a navigation bar, a graph and a table, and asks the
    server for the page of records to show.  This file has the globals of the
    script, the construction of a container, its paging and its visibility. *)
From Stdlib Require Import QArith.
From S2P Require Import Prelude JsString JsNum JsVal Ui Dom.
Open Scope Z_scope.

(** ** Global variables *)
Record cglobals := CGlobals {
  conPath : string;
  qString : string;
  lastorderby : string;
  lastordertype : string;
  isSortOnColumn : bool;
  isViewAllLink : bool;
  searchQuery : string;
  columnDataFormat : gmap nat jsval;
  DNSTimer : Z;
  critOptions : list string       (** values of the options of [searchreport.searchCritValue] *)
}.

Definition set_qString (s : string) (g : cglobals) : cglobals :=
  CGlobals (conPath g) s (lastorderby g) (lastordertype g) (isSortOnColumn g) (isViewAllLink g)
    (searchQuery g) (columnDataFormat g) (DNSTimer g) (critOptions g).
Definition set_searchQuery (s : string) (g : cglobals) : cglobals :=
  CGlobals (conPath g) (qString g) (lastorderby g) (lastordertype g) (isSortOnColumn g) (isViewAllLink g)
    s (columnDataFormat g) (DNSTimer g) (critOptions g).
Definition set_DNSTimer (n : Z) (g : cglobals) : cglobals :=
  CGlobals (conPath g) (qString g) (lastorderby g) (lastordertype g) (isSortOnColumn g) (isViewAllLink g)
    (searchQuery g) (columnDataFormat g) n (critOptions g).
Definition set_dataFormat (j : nat) (v : jsval) (g : cglobals) : cglobals :=
  CGlobals (conPath g) (qString g) (lastorderby g) (lastordertype g) (isSortOnColumn g) (isViewAllLink g)
    (searchQuery g) (<[j := v]> (columnDataFormat g)) (DNSTimer g) (critOptions g).
Definition set_order (by_ type_ : string) (g : cglobals) : cglobals :=
  CGlobals (conPath g) (qString g) by_ type_ (isSortOnColumn g) (isViewAllLink g)
    (searchQuery g) (columnDataFormat g) (DNSTimer g) (critOptions g).
Definition setViewAllLink (b : bool) (g : cglobals) : cglobals :=
  CGlobals (conPath g) (qString g) (lastorderby g) (lastordertype g) (isSortOnColumn g) b
    (searchQuery g) (columnDataFormat g) (DNSTimer g) (critOptions g).
Definition setSortOnColumn (b : bool) (g : cglobals) : cglobals :=
  CGlobals (conPath g) (qString g) (lastorderby g) (lastordertype g) b (isViewAllLink g)
    (searchQuery g) (columnDataFormat g) (DNSTimer g) (critOptions g).
Definition setContextPath (s : string) (g : cglobals) : cglobals :=
  CGlobals s (qString g) (lastorderby g) (lastordertype g) (isSortOnColumn g) (isViewAllLink g)
    (searchQuery g) (columnDataFormat g) (DNSTimer g) (critOptions g).

(** ** Strings *)

(** [while (str.indexOf(char1) != -1) str = str.replace(char1, char2)]; [None]: still
    running after [fuel] rounds. *)
Fixpoint replaceChar_go (fuel : nat) (s char1 char2 : string) : option string :=
  if contains s char1 then
    match fuel with
    | O => None
    | S fuel => replaceChar_go fuel (replace_first char1 char2 s) char1 char2
    end
  else Some s.
Definition replaceChar (s char1 char2 : string) : option string :=
  replaceChar_go (String.length s) s char1 char2.

Definition makeHTML (dataStr : string) : string :=
  let dataStr := replace_first ">" "&gt;" dataStr in
  let dataStr := replace_first "<" "&lt;" dataStr in
  replace_first (qq "`") "&quot;" dataStr.

Section container.
Context `{Browser}.
Abbreviation C := (M cglobals).

(** [SimpleAJAXCall(url, callback, "GET", id)] of ajax.js, seen from here. *)
Definition ajax_get (url callback id : string) : C unit := emit (Request url callback "GET" id).

(** ** Building a container *)
Definition setTooltip (id toolText : string) : C unit := set_prop (with_title toolText) ("Con_header" +++ id).

(** [document.createElement("div")] with class, id and markup, appended to [parent]. *)
Definition new_div (parent id cls html : string) : C unit :=
  append_child parent id (with_class cls (with_html html new_elem)).

Definition header_html (id strhead : string) : string :=
  strhead
  +++ qq "<div class='Min_button' ><IMG title=`Minimize` SRC='../images/min_button_up.gif' id='min_button"
  +++ id +++ "' onclick=minContainer('" +++ id +++ "') width='15px' height='15px' /></div>"
  +++ qq "<div class='Close_button' ><IMG title=`Close` SRC='../images/close.jpg' id='close_button"
  +++ id +++ "' onclick=closeContainer('" +++ id +++ "') width='15px' height='15px' /></div>".

Definition hidden_input (name id value : string) : string :=
  "<input type='hidden' id='" +++ name +++ id +++ "' value='" +++ value +++ "'>".

Definition hidden_html (id size : string) : string :=
  hidden_input "tablerow" id "1" +++ hidden_input "totalCol" id "1" +++ hidden_input "lastpage" id "1"
  +++ hidden_input "pageSize" id size +++ hidden_input "imgwidth" id "380"
  +++ hidden_input "imgheight" id "250" +++ hidden_input "totalNumOfDbRows" id "undefined"
  +++ hidden_input "isfiltered" id "false".

Definition setContainer (id strhead : string) (nevi graph table : Z) (size : string) : C unit :=
  when_ (negb (String.eqb strhead "")) (new_div id ("Con_header" +++ id) "Con_header" (header_html id strhead)) ;;;
  when_ (nevi =? 1) (new_div id ("Con_nevi" +++ id) "" "") ;;;
  when_ (graph =? 1) (new_div id ("Con_graph" +++ id) "Con_graph" "") ;;;
  when_ (table =? 1) (new_div id ("Con_table" +++ id) "Con_table" "") ;;;
  new_div id ("hiddenDiv" +++ id) "hidden" (hidden_html id size).

Definition setImageWidth (id width : string) : C unit := set_prop (with_value width) ("imgwidth" +++ id).
Definition setImageHeight (id height : string) : C unit := set_prop (with_value height) ("imgheight" +++ id).

(** ** The page-size combo *)
Definition setSelectedText (id text : string) : C unit := set_html ("Combo_select" +++ id) text.
Definition getSelectedText (id : string) : C string := prop e_html ("Combo_select" +++ id).

Definition px (n : num) : string := str n +++ "px".

Definition setComboContainer (id width mainid : string) : C unit :=
  set_prop (with_style "width" width) id ;;;
  let w := px (num_sub (of_parse (parseInt width)) (num_of_Z 20)) in
  append_child id ("Combo_select" +++ id)
    (with_style "width" w (with_class "Combo_select" (with_html "Select item" new_elem))) ;;;
  (* this div has no id in the page; the name only records the nesting *)
  append_child id ("Combo_button" +++ id)
    (with_style "left" w (with_class "Combo_button"
      (with_html (qq "<input type=`hidden` id=`comboFlag" +++ id +++ qq "` value=" +++ mainid +++ " />") new_elem))) ;;;
  append_child id ("Combo_body" +++ id) (with_class "hidden" new_elem).

Definition combo_item_id (id : string) (x : Z) : string := "Combo_item" +++ id +++ "_" +++ Z_to_string x.

Fixpoint insert_items (id : string) (x : Z) (arr : list string) : C unit :=
  match arr with
  | [] => mret tt
  | a :: arr =>
      append_child ("Combo_body" +++ id) (combo_item_id id x)
        (with_class "Combo_item_single" (with_html a new_elem)) ;;;
      insert_items id (x + 1) arr
  end.

(** [arr] is [None] for [null].  ([highlightdiv] registers hover effects only.) *)
Definition insertElements (id : string) (arr : option (list string)) : C unit :=
  prop e_value ("comboFlag" +++ id) ;;;
  match arr with
  | Some arr => insert_items id 0 arr ;;; prop e_html ("Combo_body" +++ id) ;;; mret tt
  | None => throw
  end.

Definition showComboBody (id : string) : C unit :=
  cls ← prop e_class ("Combo_body" +++ id);
  if negb (String.eqb cls "hidden") then set_prop (with_class "hidden") ("Combo_body" +++ id)
  else set_prop (with_class "Combo_body") ("Combo_body" +++ id) ;;;
       prop e_value ("comboFlag" +++ id) ;;; mret tt.

(** What an item's [onclick] reads from its own id. *)
Definition item_click (this_id : string) : string * string :=
  let index := lastIndexOf this_id "_" in
  (substring2 this_id 10 index, substring1 this_id (index + 1)).

(** ** Visibility *)
Definition hideNevi (id : string) : C unit :=
  cls ← prop e_class ("Con_nevi" +++ id);
  set_prop (with_class (if String.eqb cls "Con_nevi" then "hidden" else "Con_nevi")) ("Con_nevi" +++ id).

(** [if (ele1 != null) ele1.innerHTML = text] *)
Definition set_html_if (id text : string) : C unit :=
  b ← exists_ id; when_ b (set_html id text).

Definition hideTable (id : string) : C unit :=
  set_prop (with_class "hidden") ("Con_table" +++ id) ;;; set_html_if ("tableHide" +++ id) "[Show Table]".
Definition showTable (id : string) : C unit :=
  set_prop (with_class "Con_table") ("Con_table" +++ id) ;;; set_html_if ("tableHide" +++ id) "[Hide Table]".
Definition hideGraph (id : string) : C unit :=
  b ← exists_ ("Con_graph" +++ id);
  when_ b (set_prop (with_class "hidden") ("Con_graph" +++ id) ;;;
           set_html_if ("graphHide" +++ id) "[Show Graph]").
Definition showGraph (id : string) : C unit :=
  b ← exists_ ("Con_graph" +++ id);
  when_ b (set_prop (with_class "Con_graph") ("Con_graph" +++ id) ;;;
           set_html_if ("graphHide" +++ id) "[Hide Graph]").
Definition showHideTable (id : string) : C unit :=
  cls ← prop e_class ("Con_table" +++ id);
  if String.eqb cls "hidden" then showTable id else hideTable id.
Definition showHideGraph (id : string) : C unit :=
  cls ← prop e_class ("Con_graph" +++ id);
  if String.eqb cls "hidden" then showGraph id else hideGraph id.
Definition closeContainer (id : string) : C unit :=
  set_html id "" ;;; set_prop (with_class "hidden") id.

(** [x == null || cond(x.innerHTML)] *)
Definition null_or (id : string) (cond : string -> bool) : C bool :=
  o ← getElementById id;
  mret match o with None => true | Some e => cond (e_html e) end.

Definition toggle_class (shown id : string) : C unit :=
  cls ← prop e_class id; set_prop (with_class (if String.eqb cls shown then "hidden" else shown)) id.

Definition minContainer (id : string) : C unit :=
  nevi ← exists_ ("Con_nevi" +++ id);
  when_ nevi (hideNevi id) ;;;
  graph ← exists_ ("Con_graph" +++ id);
  when_ graph (
    b ← null_or ("graphHide" +++ id) (fun h => negb (String.eqb h "[Show Graph]") && negb (String.eqb h ""));
    when_ b (toggle_class "Con_graph" ("Con_graph" +++ id))) ;;;
  table ← exists_ ("Con_table" +++ id);
  when_ table (
    chk ← getElementById "chkall";
    match chk with
    | Some e => if String.eqb (e_value e) "on" then showTable id else hideTable id
    | None =>
        b ← null_or ("tableHide" +++ id) (fun h => negb (String.eqb h "[Show Table]"));
        when_ b (toggle_class "Con_table" ("Con_table" +++ id))
    end) ;;;
  src ← prop e_src ("min_button" +++ id);
  if bool_decide (last (js_split src "/") = Some "min_button_up.gif")
  then set_prop (with_title "Restore") ("min_button" +++ id) ;;;
       set_prop (with_src "../images/min_button_down.gif") ("min_button" +++ id)
  else set_prop (with_title "Minimize") ("min_button" +++ id) ;;;
       set_prop (with_src "../images/min_button_up.gif") ("min_button" +++ id).

Definition setConWidth (id width : string) : C unit := set_prop (with_style "width" width) id.

(** ** Asking for a page of records *)
Definition strprocess : string := qq "<center><br/><img src=`../images/progress.gif`/></center>".

(** [isNaN(v) || parseInt(v) < 1 || parseInt(v) > parseInt(total)] *)
Definition bad_page (pageValue total : string) : bool :=
  isNaN (toNumber pageValue) || num_ltb (of_parse (parseInt pageValue)) (num_of_Z 1)
  || num_gtb (of_parse (parseInt pageValue)) (of_parse (parseInt total)).

(** The [offset] of [setContPage]: the first record of the page, brought back when
    it lies beyond the [total] records of the database. *)
Definition page_offset (sizeValue pageValue total : string) : num :=
  let offset := num_mul (toNumber sizeValue) (num_sub (toNumber pageValue) (num_of_Z 1)) in
  if negb (String.eqb total "undefined") && num_gtb offset (toNumber total)
  then of_parse (parseInt_num (num_sub (toNumber total) (num_mod (toNumber total) (toNumber sizeValue))))
  else offset.

Definition bool_string (b : bool) : string := if b then "true" else "false".

(** The second part of [setContPage], once the page number is accepted. *)
Definition request_page (id qry pageValue : string) : C unit :=
  size ← exists_ ("size" +++ id);
  when_ size (t ← getSelectedText ("size" +++ id); set_prop (with_value t) ("pageSize" +++ id)) ;;;
  sizeValue ← prop e_value ("pageSize" +++ id);
  qry ← (if num_gtb (toNumber sizeValue) (num_of_Z 10) then
           hideGraph id ;;; set_html_if ("graphHide" +++ id) "" ;;; mret qry
         else
           showGraph id ;;; set_html_if ("graphHide" +++ id) "[Hide Graph]" ;;;
           o ← getElementById ("Con_graph" +++ id);
           match o with
           | Some e =>
               if negb (String.eqb (e_class e) "hidden")
               then set_prop (with_style "height" "15px") ("Con_graph" +++ id) ;;; mret (qry +++ "&graphdata=on")
               else mret qry
           | None => mret qry
           end);
  imgWidth ← prop e_value ("imgwidth" +++ id);
  imgHeight ← prop e_value ("imgheight" +++ id);
  table ← exists_ ("Con_table" +++ id);
  when_ table (set_html ("Con_table" +++ id) strprocess ;;;
               set_prop (with_style "height" "100px") ("Con_table" +++ id)) ;;;
  totalNumOfDbRows ← prop e_value ("totalNumOfDbRows" +++ id);
  let offset := page_offset sizeValue pageValue totalNumOfDbRows in
  g ← glob;
  let queryString := "?" +++ qString g +++ "&reportid=" +++ id +++ "&offset=" +++ str offset
    +++ "&limit=" +++ sizeValue +++ "&imgwidth=" +++ imgWidth +++ "&imgheight=" +++ imgHeight +++ qry
    +++ lastorderby g +++ lastordertype g +++ "&issort=" +++ bool_string (isSortOnColumn g) in
  ajax_get (conPath g +++ "/AjaxController" +++ queryString +++ searchQuery g) "ajaxRequest" id.

Definition setContPage (id : string) : C unit :=
  table ← getElementById ("Con_table" +++ id);
  let qry := match table with
             | Some e => if negb (String.eqb (e_class e) "hidden") then "&tabledata=on" else ""
             | None => "" end in
  graph ← exists_ ("Con_graph" +++ id);
  when_ graph (set_html ("Con_graph" +++ id) "") ;;;
  page ← getElementById ("page" +++ id);
  match page with
  | None => request_page id qry "1"
  | Some e =>
      (* the total is looked up only when the first two tests fail *)
      if isNaN (toNumber (e_html e)) || num_ltb (of_parse (parseInt (e_html e))) (num_of_Z 1)
      then emit (Alert "Enter valid page number.")
      else
        total ← prop e_value ("totalRecVal" +++ id);
        if bad_page (e_html e) total then emit (Alert "Enter valid page number.")
        else request_page id qry (e_html e)
  end.

(** ** Moving between pages *)
Definition nextPage (id : string) : C unit :=
  page ← prop e_html ("page" +++ id);
  total ← prop e_value ("totalRecVal" +++ id);
  if num_leb (of_parse (parseInt total)) (of_parse (parseInt page))
  then emit (Alert "You are at last page.")
  else set_html ("page" +++ id) (str (num_add (toNumber page) (num_of_Z 1))) ;;; setContPage id.

(** [page != 1] compares the text as a number. *)
Definition prevPage (id : string) : C unit :=
  page ← prop e_html ("page" +++ id);
  if negb (num_eqb (toNumber page) (num_of_Z 1))
  then set_html ("page" +++ id) (str (num_sub (toNumber page) (num_of_Z 1))) ;;; setContPage id
  else emit (Alert "You are at first page").

Definition firstPage (id : string) : C unit :=
  prop e_html ("page" +++ id) ;;; set_html ("page" +++ id) "1" ;;; setContPage id.

(** [page != total] compares two strings. *)
Definition lastPage (id : string) : C unit :=
  page ← prop e_html ("page" +++ id);
  total ← prop e_value ("totalRecVal" +++ id);
  if negb (String.eqb page total)
  then set_html ("page" +++ id) total ;;; setContPage id
  else emit (Alert "You are at last page").

Definition jumpToPage (id : string) : C unit :=
  pageValue ← prop e_value "gotopage";
  bad ← (if String.eqb pageValue "" || isNaN (toNumber pageValue)
            || num_ltb (of_parse (parseInt pageValue)) (num_of_Z 1) then mret true
         else total ← prop e_value ("totalRecVal" +++ id);
              mret (num_gtb (of_parse (parseInt pageValue)) (of_parse (parseInt total))));
  if (bad : bool) then
    emit (Alert "Enter valid page number.") ;;; set_prop (with_value "") "gotopage"
  else
    set_prop (with_value "") "gotopage" ;;; set_html ("page" +++ id) pageValue ;;; setContPage id.

(** Choosing a page size in the combo. *)
Definition selectCombo (id index : string) : C unit :=
  t ← prop e_html ("Combo_item" +++ id +++ "_" +++ index);
  set_html ("Combo_select" +++ id) t ;;;
  mainid ← prop e_value ("comboFlag" +++ id);
  setContPage mainid.

(** ** The navigation bar *)
Definition nav_left (id : string) : string :=
  qq "<td align=`left` width=`200px` class=`navigationfont`>"
  +++ qq "<span style=`float:left;margin-top:1px;`>Show</span>"
  +++ qq "<span style=`float:left;margin-top:1px;`><div id=`size" +++ id
  +++ qq "` class=`Combo_container` style=`margin-bottom:3px;`></div></span>"
  +++ qq "<span style=`float:left;margin-top:1px;`>records per page</span></td>".
Definition nav_right (id : string) : string :=
  qq "<td align=`right` class=`navigationfont`>"
  +++ qq "<span style=`float:right;margin-right:2px;`><input type=`button` class=`navibutton` value=`Go` onClick=`jumpToPage("
  +++ id +++ qq ")` ></span>"
  +++ qq "<span style=`float:right;`><input class=`navitext` id=`gotopage` size=`2` type=`text` style=`margin-left:5px;margin-right:5px;padding-left:4px;`></span>"
  +++ qq "<span style=`float:right;margin-top:2px;`>&nbsp;&nbsp;&nbsp;&nbsp;&nbsp;&nbsp;Go to page :</span>"
  +++ qq "<span style=`float:right;margin-top:2px;`>&nbsp;&nbsp;&nbsp;&nbsp;&nbsp;&nbsp;Page&nbsp;<span id=`page" +++ id
  +++ qq "`>1</span><span id=`totalRecSpan" +++ id +++ qq "`>&nbsp;of&nbsp;1&nbsp;&nbsp;</span><input id=`totalRecVal"
  +++ id +++ qq "` type=`hidden` value=`1` /></span>"
  +++ qq "<span style=`float:right`><img src=`../images/first.bmp` style=`cursor: pointer;` onClick=`firstPage("
  +++ id +++ qq ")` />"
  +++ qq "<img src=`../images/prev.bmp` style=`cursor: pointer;` onClick=`prevPage(" +++ id
  +++ qq ")` /><img src=`../images/next.bmp` style=`cursor: pointer;` onClick=`nextPage(" +++ id +++ qq ")` />"
  +++ qq "<img src=`../images/last.bmp` style=`cursor: pointer;` onClick=`lastPage(" +++ id +++ qq ")` /></span></td>".
Definition nav_hide (id what handler label : string) : string :=
  qq "<td align='right' width='70px' class=`navigationfont`><span id='" +++ what +++ id
  +++ "' class='mouseclick' onclick=" +++ handler +++ "('" +++ id
  +++ qq "') style=`float:left;font-weight:500;`>" +++ label +++ "</span></td>".

Definition setNevigation (id : string) (pageList : option (list Z)) (hide : Z) : C unit :=
  set_prop (with_class "Con_nevi") ("Con_nevi" +++ id) ;;;
  let bar := match pageList with Some (p :: _) => 0 <? p | _ => false end in
  graph ← exists_ ("Con_graph" +++ id);
  table ← exists_ ("Con_table" +++ id);
  let select := "<table width='100%' cellspacing='0' cellpadding='3'><tr>"
    +++ (if bar then nav_left id +++ nav_right id else "")
    +++ (if (hide =? 1) && graph then nav_hide id "graphHide" "showHideGraph" "[Hide Graph]" else "")
    +++ (if (hide =? 1) && table then nav_hide id "tableHide" "showHideTable" "[Hide Table]" else "")
    +++ "</tr></table>" in
  set_html ("Con_nevi" +++ id) select ;;;
  when_ (negb is_msie) (set_prop (with_style "width" "100%") ("Con_nevi" +++ id)) ;;;
  setComboContainer ("size" +++ id) "50px" id ;;;
  insertElements ("size" +++ id) (option_map (map Z_to_string) pageList) ;;;
  size ← prop e_value ("pageSize" +++ id);
  setSelectedText ("size" +++ id) size.
End container.

(** ** Strings *)
Lemma replaceChar_go_ok fuel s c1 c2 :
  (String.length c2 < String.length c1)%nat -> (String.length s <= fuel)%nat ->
  exists r, replaceChar_go fuel s c1 c2 = Some r /\ contains r c1 = false.
Proof.
  intros Hc. revert s. induction fuel as [|fuel IH]; intros s Hs; cbn [replaceChar_go];
    destruct (contains s c1) eqn:E; try (by exists s).
  - apply contains_spec in E as (a & b & ->). rewrite !sapp_length in Hs. lia.
  - apply IH. pose proof (replace_first_length c1 c2 s E). lia.
Qed.

(** [replaceChar] ends and leaves no occurrence, when the replacement is shorter
    than what it replaces (as in its one use, [&] for [&emp;]). *)
Theorem replaceChar_total s c1 c2 :
  (String.length c2 < String.length c1)%nat ->
  exists r, replaceChar s c1 c2 = Some r /\ contains r c1 = false.
Proof. intros H. by apply replaceChar_go_ok. Qed.

Lemma replaceChar_total_witness :
  replaceChar "a&emp;b&emp;c" "&emp;" "&" = Some "a&b&c" /\
  exists r, replaceChar "a&emp;b&emp;c" "&emp;" "&" = Some r /\ contains r "&emp;" = false.
Proof.
  split; [vm_compute; reflexivity|]. apply (replaceChar_total "a&emp;b&emp;c" "&emp;" "&"). vm_compute. lia.
Defined.

Lemma replace_first_contains s c1 c2 :
  contains s c1 = true -> contains c2 c1 = true -> contains (replace_first c1 c2 s) c1 = true.
Proof.
  unfold contains at 1. rewrite replace_first_index. destruct (index_of c1 s) as [n|]; [|done].
  intros _ (a & b & ->)%contains_spec. apply contains_spec.
  exists (stake n s +++ a), (b +++ sdrop (n + String.length c1) s). by rewrite !sapp_assoc.
Qed.

(** [replaceChar] never ends when the text has an occurrence and the
    replacement contains what it replaces: no number of rounds is enough. *)
Theorem replaceChar_diverges s c1 c2 fuel :
  contains s c1 = true -> contains c2 c1 = true -> replaceChar_go fuel s c1 c2 = None.
Proof.
  intros Hs Hc. revert s Hs. induction fuel as [|fuel IH]; intros s Hs; cbn [replaceChar_go]; rewrite Hs; [done|].
  apply IH. by apply replace_first_contains.
Qed.

Lemma replaceChar_diverges_witness :
  contains "a&b" "&" = true /\ replaceChar_go 100 "a&b" "&" "&amp;" = None.
Proof. split; [reflexivity|]. exact (replaceChar_diverges "a&b" "&" "&amp;" 100 eq_refl eq_refl). Defined.

(** [makeHTML] escapes the first occurrence of each character only: the rest of
    the text reaches the page as markup. *)
Theorem makeHTML_first_only a b :
  contains a ">" = false -> contains a "<" = false -> contains a (qq "`") = false ->
  makeHTML (a +++ "<br>" +++ b) =
  a +++ "&lt;br&gt;" +++ replace_first (qq "`") "&quot;" b.
Proof.
  intros H1 H2 H3. unfold makeHTML.
  assert (Hr : forall c r x t, contains x (String c "") = false ->
    replace_first (String c "") r (x +++ t) = x +++ replace_first (String c "") r t).
  { intros c r x t. induction x as [|d x IH]; [done|]. unfold contains. simpl.
    destruct (Ascii.eqb c d); [done|]. cbn [andb]. intros Hx. f_equal. apply IH. unfold contains.
    by destruct (index_of (String c "") x). }
  change (qq "`") with (String dquote "").
  rewrite (Hr ">"%char) by exact H1. rewrite (Hr "<"%char) by exact H2.
  rewrite (Hr dquote) by exact H3.
  reflexivity.
Qed.

Lemma makeHTML_first_only_witness :
  contains "a" ">" = false /\ contains "a" "<" = false /\ contains "a" (qq "`") = false /\
  makeHTML ("a" +++ "<br>" +++ "<b>") = "a" +++ "&lt;br&gt;" +++ "<b>".
Proof.
  do 3 (split; [reflexivity|]). exact (makeHTML_first_only "a" "<b>" eq_refl eq_refl eq_refl).
Defined.

(** A combo item's [onclick] recovers from the item's id the combo and the
    index it was made from, whatever the combo's id is. *)
Theorem item_click_roundtrip id x :
  0 <= x -> item_click (combo_item_id id x) = (id, Z_to_string x).
Proof.
  intros Hx. unfold item_click, combo_item_id.
  assert (Hd : sall (not_char "_"%char) (Z_to_string x) = true).
  { rewrite Z_to_string_nonneg by done. apply digits_not_char; [done|by apply nat_digits_digits]. }
  destruct (split_item_id "_" "Combo_item" id _ Hd) as [E1 E2]. by apply f_equal2.
Qed.

Lemma item_click_roundtrip_witness :
  0 <= 12 /\ item_click (combo_item_id "size4_2" 12) = ("size4_2", Z_to_string 12).
Proof. split; [lia|]. apply (item_click_roundtrip "size4_2" 12). lia. Defined.

(** ** The offset of a page *)
Lemma page_offset_Z s p n :
  0 < s -> 0 <= p -> 0 <= n ->
  page_offset (Z_to_string s) (Z_to_string p) (Z_to_string n)
  = num_of_Z (if n <? s * (p - 1) then n - n mod s else s * (p - 1)).
Proof.
  intros Hs Hp Hn. unfold page_offset. autorewrite with js_rw.
  assert (String.eqb (Z_to_string n) "undefined" = false) as ->.
  { apply String.eqb_neq. intros E. apply (f_equal toNumber) in E. by rewrite toNumber_Z_to_string in E. }
  cbn [negb andb]. destruct (n <? s * (p - 1)); [|done].
  rewrite num_mod_Z, num_sub_Z, parseInt_num_Z by lia. done.
Qed.

(** The first record that is asked for lies in the database unless the database
    is empty or the number of records is a multiple of the page size: then a page
    beyond the end is brought back to an offset at which there is no record. *)
Theorem page_offset_bounds s p n :
  0 < s -> 1 <= p -> 0 <= n ->
  exists o, page_offset (Z_to_string s) (Z_to_string p) (Z_to_string n) = num_of_Z o /\
    0 <= o <= n /\ o mod s = 0 /\
    (o = n <-> n mod s = 0 /\ n <= s * (p - 1)).
Proof.
  intros Hs Hp Hn. rewrite page_offset_Z by lia. eexists. split; [reflexivity|].
  pose proof (Z.div_mod n s ltac:(lia)). pose proof (Z.mod_pos_bound n s Hs).
  pose proof (Z.mod_le n s Hn Hs).
  destruct (Z.ltb_spec n (s * (p - 1))).
  - split; [lia|]. split; [|lia].
    replace (n - n mod s) with (n / s * s) by lia. apply Z.mod_mul. lia.
  - split; [nia|]. split; [rewrite Z.mul_comm; apply Z.mod_mul; lia|]. split; [|lia].
    intros E. split; [|lia]. rewrite <- E, Z.mul_comm. apply Z.mod_mul. lia.
Qed.

Lemma page_offset_bounds_witness :
  0 < 10 /\ 1 <= 9 /\ 0 <= 40 /\ page_offset "10" "9" "40" = num_of_Z 40 /\
  exists o, page_offset (Z_to_string 10) (Z_to_string 9) (Z_to_string 40) = num_of_Z o /\ 0 <= o <= 40.
Proof.
  do 3 (split; [lia|]). split; [vm_compute; reflexivity|].
  destruct (page_offset_bounds 10 9 40) as (o & H1 & H2 & _); [lia|lia|lia|]. exact (ex_intro _ o (conj H1 H2)).
Defined.

(** ** Running the paging operations *)
Definition ckey (id p : string) : string := if String.eqb p "gotopage" then p else p +++ id.
Definition cnames : list string :=
  ["page"; "totalRecVal"; "pageSize"; "size"; "Combo_selectsize"; "totalNumOfDbRows"; "imgwidth";
   "imgheight"; "Con_table"; "Con_graph"; "graphHide"; "totalRecSpan"; "gotopage";
   ""; "totalCol"; "isfiltered"; "hiddenDiv"; "comboFlagsize"].
Definition cboxes : list string :=
  ["page"; "Con_table"; "Con_graph"; "graphHide"; "totalRecSpan"; "Combo_selectsize"].

Lemma ckey_inj id (Hid : id <> "gotopage") p q : p ∈ cnames -> q ∈ cnames -> ckey id p = ckey id q -> p = q.
Proof.
  intros Hp Hq. unfold ckey.
  destruct (String.eqb_spec p "gotopage") as [->|Hp'], (String.eqb_spec q "gotopage") as [->|Hq']; [done| | |].
  - repeat (apply elem_of_cons in Hq as [->|Hq]; [done || (intros E; first [discriminate E | by destruct Hid])|]). by apply elem_of_nil in Hq.
  - repeat (apply elem_of_cons in Hp as [->|Hp]; [done || (intros E; first [discriminate E | by destruct Hid])|]). by apply elem_of_nil in Hp.
  - apply sapp_cancel_r.
Qed.

Lemma cboxes_names q : q ∈ cboxes -> q ∈ cnames.
Proof.
  intros H. repeat (apply elem_of_cons in H as [->|H]; [lit_in|]). by apply elem_of_nil in H.
Qed.

Lemma digits_plain s : sall is_digit s = true -> contains s "id=" = false.
Proof.
  unfold contains. induction s as [|c s IH]; [done|]. cbn [sall].
  intros [Hc Hs]%andb_true_iff.
  cbn [index_of prefixb]. destruct (Ascii.eqb_spec "i" c) as [<-|]; [discriminate|]. cbn [andb].
  specialize (IH Hs). by destruct (index_of "id=" s).
Qed.

Lemma Z_to_string_plain n : 0 <= n -> contains (Z_to_string n) "id=" = false.
Proof. intros H. apply digits_plain. rewrite Z_to_string_nonneg by done. by apply nat_digits_digits. Qed.

Section paging.
Context `{Browser} (plain : parses_plain) (id : string) (Hid : id <> "gotopage").
Abbreviation csim := (sim (ckey id) cnames cboxes).
Implicit Types (w : world cglobals) (D : string -> elem).

(** What the page shows of a container: page, number of pages, page size, number of
    records (unknown at first), and whether the table is hidden. *)
Record shows (D : string -> elem) (p total s : Z) (rows : option Z) : Prop := Shows {
  sh_page : e_html (D "page") = Z_to_string p;
  sh_total : e_value (D "totalRecVal") = Z_to_string total;
  sh_size : e_html (D "Combo_selectsize") = Z_to_string s;
  sh_rows : e_value (D "totalNumOfDbRows") = match rows with Some n => Z_to_string n | None => "undefined" end
}.

Definition shown_offset (p s : Z) (rows : option Z) : Z :=
  match rows with
  | Some n => if n <? s * (p - 1) then n - n mod s else s * (p - 1)
  | None => s * (p - 1)
  end.

(** The request for page [p]. *)
Definition page_url (g : cglobals) (D : string -> elem) (p s : Z) (rows : option Z) : string :=
  conPath g +++ "/AjaxController" +++ ("?" +++ qString g +++ "&reportid=" +++ id
    +++ "&offset=" +++ Z_to_string (shown_offset p s rows)
    +++ "&limit=" +++ Z_to_string s +++ "&imgwidth=" +++ e_value (D "imgwidth")
    +++ "&imgheight=" +++ e_value (D "imgheight")
    +++ ((if negb (String.eqb (e_class (D "Con_table")) "hidden") then "&tabledata=on" else "")
         +++ (if s <=? 10 then "&graphdata=on" else ""))
    +++ lastorderby g +++ lastordertype g +++ "&issort=" +++ bool_string (isSortOnColumn g))
  +++ searchQuery g.

(** What else the address of a request depends on. *)
Definition same_url (D D' : string -> elem) : Prop :=
  e_class (D' "Con_table") = e_class (D "Con_table") /\ e_value (D' "imgwidth") = e_value (D "imgwidth") /\
  e_value (D' "imgheight") = e_value (D "imgheight").

Lemma same_url_refl D : same_url D D.
Proof. done. Qed.
Lemma same_url_trans D1 D2 D3 : same_url D1 D2 -> same_url D2 D3 -> same_url D1 D3.
Proof. unfold same_url. intuition congruence. Qed.
Lemma same_url_page g D D' p s rows : same_url D D' -> page_url g D' p s rows = page_url g D p s rows.
Proof. intros (E1 & E2 & E3). unfold page_url. by rewrite E1, E2, E3. Qed.

(** [D'] differs from [D] in parts that [shows] and the address do not look at. *)
Definition same_view (D D' : string -> elem) : Prop :=
  e_html (D' "page") = e_html (D "page") /\ e_value (D' "totalRecVal") = e_value (D "totalRecVal") /\
  e_html (D' "Combo_selectsize") = e_html (D "Combo_selectsize") /\
  e_value (D' "totalNumOfDbRows") = e_value (D "totalNumOfDbRows") /\ same_url D D'.

Lemma same_view_shows D D' p total s rows : same_view D D' -> shows D p total s rows -> shows D' p total s rows.
Proof. intros (E1 & E2 & E3 & E4 & _) [H1 H2 H3 H4]. constructor; congruence. Qed.

Lemma run_set_html_if D w q s :
  csim D w -> q ∈ cboxes -> contains s "id=" = false ->
  exists w', set_html_if (ckey id q) s w = (Some tt, w') /\ csim (upd q (with_html s) D) w' /\
    w_glob w' = w_glob w /\ w_log w' = w_log w.
Proof.
  intros Hs Hq Hp. unfold set_html_if.
  rewrite (run_bind _ _ _ _ _ (run_exists _ _ _ D w Hs q (cboxes_names _ Hq))). cbn [when_].
  eapply run_set_html; eauto using ckey_inj, cboxes_names.
Qed.

(** One step of a script whose effect on [D] is known. *)
Ltac rstep lem :=
  let w2 := fresh "w" in let E := fresh "E" in let Hs := fresh "Hs" in
  let Hg := fresh "Hg" in let Hl := fresh "Hl" in
  destruct lem as (w2 & E & Hs & Hg & Hl); rewrite (run_bind _ _ _ _ _ E); clear E.
Ltac rend lem :=
  let w2 := fresh "w" in let E := fresh "E" in let Hs := fresh "Hs" in
  let Hg := fresh "Hg" in let Hl := fresh "Hl" in
  destruct lem as (w2 & E & Hs & Hg & Hl); exists w2; split; [exact E|].

Lemma run_graph_class D w cls text q :
  csim D w -> q = text -> contains text "id=" = false ->
  exists w', (b ← exists_ ("Con_graph" +++ id);
     when_ b (set_prop (with_class cls) ("Con_graph" +++ id) ;;;
              set_html_if ("graphHide" +++ id) text)) w = (Some tt, w') /\
    csim (upd "graphHide" (with_html q) (upd "Con_graph" (with_class cls) D)) w' /\
    w_glob w' = w_glob w /\ w_log w' = w_log w.
Proof.
  intros Hs -> Hp. change ("Con_graph" +++ id) with (ckey id "Con_graph").
  change ("graphHide" +++ id) with (ckey id "graphHide").
  rewrite (run_bind _ _ _ _ _ (run_exists _ _ _ D w Hs "Con_graph" ltac:(lit_in))). cbn [when_].
  rstep (run_set_prop _ cnames cboxes (ckey_inj id Hid) D w Hs (with_class cls) "Con_graph" ltac:(lit_in) (fun _ => eq_refl)).
  rend (run_set_html_if _ _ "graphHide" text Hs0 ltac:(lit_in) Hp). split; [done|]. split; congruence.
Qed.

(** The graph part of [request_page], with what is added to the query. *)
Lemma run_graph_part D w s qry :
  csim D w -> 0 <= s ->
  exists D' w',
    (if num_gtb (toNumber (Z_to_string s)) (num_of_Z 10) then
       hideGraph id ;;; set_html_if ("graphHide" +++ id) "" ;;; mret qry
     else
       showGraph id ;;; set_html_if ("graphHide" +++ id) "[Hide Graph]" ;;;
       o ← getElementById ("Con_graph" +++ id);
       match o with
       | Some e =>
           if negb (String.eqb (e_class e) "hidden")
           then set_prop (with_style "height" "15px") ("Con_graph" +++ id) ;;; mret (qry +++ "&graphdata=on")
           else mret qry
       | None => mret qry
       end) w = (Some (qry +++ (if s <=? 10 then "&graphdata=on" else "")), w') /\
    csim D' w' /\ w_glob w' = w_glob w /\ w_log w' = w_log w /\
    (forall p, p <> "Con_graph" -> p <> "graphHide" -> D' p = D p).
Proof.
  intros Hs Hs0. autorewrite with js_rw. rewrite (Z.leb_antisym 10 s).
  change ("graphHide" +++ id) with (ckey id "graphHide").
  assert (Hframe : forall f g h p, p <> "Con_graph" -> p <> "graphHide" ->
    upd "Con_graph" f (upd "graphHide" g (upd "graphHide" h D)) p = D p)
    by (intros; by rewrite !upd_ne).
  destruct (Z.ltb_spec 10 s); cbn [negb].
  - unfold hideGraph.
    rstep (run_graph_class D w "hidden" "[Show Graph]" _ Hs eq_refl eq_refl).
    rstep (run_set_html_if _ _ "graphHide" "" Hs1 ltac:(lit_in) eq_refl).
    rewrite sapp_nil_r. eexists _, _. split; [reflexivity|]. split; [exact Hs2|].
    split; [congruence|]. split; [congruence|]. intros p ? ?. by rewrite !upd_ne.
  - unfold showGraph.
    rstep (run_graph_class D w "Con_graph" "[Hide Graph]" _ Hs eq_refl eq_refl).
    rstep (run_set_html_if _ _ "graphHide" "[Hide Graph]" Hs1 ltac:(lit_in) eq_refl).
    change ("Con_graph" +++ id) with (ckey id "Con_graph").
    rewrite (run_bind _ _ _ _ _ (run_getElementById _ _ _ _ _ Hs2 "Con_graph" ltac:(lit_in))).
    cbn [upd with_class with_html e_class String.eqb Ascii.eqb Bool.eqb negb].
    rstep (run_set_prop _ cnames cboxes (ckey_inj id Hid) _ _ Hs2 (with_style "height" "15px") "Con_graph"
      ltac:(lit_in) (fun _ => eq_refl)).
    eexists _, _. split; [reflexivity|]. split; [exact Hs3|].
    split; [congruence|]. split; [congruence|]. intros p ? ?. by rewrite !upd_ne.
Qed.

(** The page size is read from the combo. *)
Lemma run_read_size D w :
  csim D w ->
  exists w', (size ← exists_ ("size" +++ id);
    when_ size (t ← getSelectedText ("size" +++ id); set_prop (with_value t) ("pageSize" +++ id))) w
    = (Some tt, w') /\
    csim (upd "pageSize" (with_value (e_html (D "Combo_selectsize"))) D) w' /\
    w_glob w' = w_glob w /\ w_log w' = w_log w.
Proof.
  intros Hs. change ("size" +++ id) with (ckey id "size").
  rewrite (run_bind _ _ _ _ _ (run_exists _ _ _ D w Hs "size" ltac:(lit_in))). cbn [when_].
  unfold getSelectedText. change ("Combo_select" +++ ckey id "size") with (ckey id "Combo_selectsize").
  rewrite (run_bind _ _ _ _ _ (run_prop _ _ _ D w Hs e_html "Combo_selectsize" ltac:(lit_in))).
  exact (run_set_prop _ cnames cboxes (ckey_inj id Hid) D w Hs
    (with_value (e_html (D "Combo_selectsize"))) "pageSize" ltac:(lit_in) (fun _ => eq_refl)).
Qed.

(** The table shows that the request is under way. *)
Lemma run_progress D w :
  csim D w ->
  exists w', (table ← exists_ ("Con_table" +++ id);
    when_ table (set_html ("Con_table" +++ id) strprocess ;;;
                 set_prop (with_style "height" "100px") ("Con_table" +++ id))) w = (Some tt, w') /\
    csim (upd "Con_table" (with_style "height" "100px") (upd "Con_table" (with_html strprocess) D)) w' /\
    w_glob w' = w_glob w /\ w_log w' = w_log w.
Proof.
  intros Hs. change ("Con_table" +++ id) with (ckey id "Con_table").
  rewrite (run_bind _ _ _ _ _ (run_exists _ _ _ D w Hs "Con_table" ltac:(lit_in))). cbn [when_].
  rstep (run_set_html plain _ cnames cboxes (ckey_inj id Hid) cboxes_names D w Hs strprocess "Con_table"
    ltac:(lit_in) eq_refl).
  rend (run_set_prop _ cnames cboxes (ckey_inj id Hid) _ _ Hs0 (with_style "height" "100px") "Con_table"
    ltac:(lit_in) (fun _ => eq_refl)). split; [done|]. split; congruence.
Qed.

(** Sequencing is associative, so a block can be run as one step. *)
Lemma bind_assoc {A B E} (m : M cglobals A) (f : A -> M cglobals B) (k : B -> M cglobals E) w :
  ((m ≫= f) ≫= k) w = (m ≫= (fun a => f a ≫= k)) w.
Proof. unfold mbind, M_bind. by destruct (m w) as [[a|] w']. Qed.

Lemma run_bind2 {A B E} (m : M cglobals A) (f : A -> M cglobals B) (k : B -> M cglobals E) w b w' :
  (m ≫= f) w = (Some b, w') -> (m ≫= (fun a => f a ≫= k)) w = k b w'.
Proof. intros Hm. rewrite <- bind_assoc. by apply run_bind. Qed.

Lemma run_request_page D w p total s rows :
  csim D w -> shows D p total s rows -> 1 <= p -> 0 < s -> match rows with Some n => 0 <= n | None => True end ->
  exists D' w',
    request_page id (if negb (String.eqb (e_class (D "Con_table")) "hidden") then "&tabledata=on" else "")
      (Z_to_string p) w = (Some tt, w') /\
    csim D' w' /\ same_view D D' /\ e_html (D' "Con_table") = strprocess /\ w_glob w' = w_glob w /\
    w_log w' = w_log w ++ [Request (page_url (w_glob w) D p s rows) "ajaxRequest" "GET" id].
Proof.
  intros Hs Hsh Hp Hs0 Hrows. unfold request_page.
  destruct (run_read_size D w Hs) as (w1 & E1 & Hs1 & Hg1 & Hl1). rewrite (run_bind2 _ _ _ _ _ _ E1). clear E1.
  rewrite (sh_size _ _ _ _ _ Hsh) in Hs1.
  change ("pageSize" +++ id) with (ckey id "pageSize").
  rewrite (run_bind _ _ _ _ _ (run_prop _ _ _ _ _ Hs1 e_value "pageSize" ltac:(lit_in))).
  rewrite upd_eq. cbn [with_value e_value].
  destruct (run_graph_part _ _ s (if negb (String.eqb (e_class (D "Con_table")) "hidden") then "&tabledata=on" else "")
    Hs1 ltac:(lia)) as (D2 & w2 & E2 & Hs2 & Hg2 & Hl2 & Hf2).
  rewrite (run_bind _ _ _ _ _ E2). clear E2.
  change ("imgwidth" +++ id) with (ckey id "imgwidth"). change ("imgheight" +++ id) with (ckey id "imgheight").
  rewrite (run_bind _ _ _ _ _ (run_prop _ _ _ _ _ Hs2 e_value "imgwidth" ltac:(lit_in))).
  rewrite (run_bind _ _ _ _ _ (run_prop _ _ _ _ _ Hs2 e_value "imgheight" ltac:(lit_in))).
  destruct (run_progress D2 w2 Hs2) as (w3 & E3 & Hs3 & Hg3 & Hl3). rewrite (run_bind2 _ _ _ _ _ _ E3). clear E3.
  change ("totalNumOfDbRows" +++ id) with (ckey id "totalNumOfDbRows").
  rewrite (run_bind _ _ _ _ _ (run_prop _ _ _ _ _ Hs3 e_value "totalNumOfDbRows" ltac:(lit_in))).
  rewrite (run_bind _ _ _ _ _ (run_glob w3)).
  rewrite !upd_ne by discriminate. rewrite !Hf2 by discriminate. rewrite !upd_ne by discriminate.
  rewrite (sh_rows _ _ _ _ _ Hsh).
  unfold ajax_get, emit. eexists _, _. split; [reflexivity|]. cbn [w_glob w_log].
  split; [exact Hs3|]. split.
  { unfold same_view, same_url. rewrite !upd_eq. cbn [with_style with_html e_class].
    rewrite !upd_ne by discriminate. rewrite !Hf2 by discriminate. by rewrite !upd_ne by discriminate. }
  split; [by rewrite upd_eq; cbn [with_style e_html]; rewrite upd_eq|].
  split; [congruence|]. rewrite Hl3, Hl2, Hl1, Hg3, Hg2, Hg1. do 3 f_equal.
  unfold page_url, shown_offset, str. destruct rows as [n|].
  - by rewrite page_offset_Z, num_to_string_Z by lia.
  - unfold page_offset. cbn [String.eqb Ascii.eqb Bool.eqb negb andb]. by autorewrite with js_rw.
Qed.

Lemma run_setContPage D w p total s rows :
  csim D w -> shows D p total s rows -> 1 <= p <= total -> 0 < s ->
  match rows with Some n => 0 <= n | None => True end ->
  exists D' w', setContPage id w = (Some tt, w') /\ csim D' w' /\ same_view D D' /\
    e_html (D' "Con_table") = strprocess /\ w_glob w' = w_glob w /\
    w_log w' = w_log w ++ [Request (page_url (w_glob w) D p s rows) "ajaxRequest" "GET" id].
Proof.
  intros Hs Hsh Hp Hs0 Hrows. unfold setContPage.
  change ("Con_table" +++ id) with (ckey id "Con_table").
  rewrite (run_bind _ _ _ _ _ (run_getElementById _ _ _ D w Hs "Con_table" ltac:(lit_in))).
  change ("Con_graph" +++ id) with (ckey id "Con_graph").
  rewrite (run_bind _ _ _ _ _ (run_exists _ _ _ D w Hs "Con_graph" ltac:(lit_in))). cbn [when_].
  destruct (run_set_html plain _ cnames cboxes (ckey_inj id Hid) cboxes_names D w Hs "" "Con_graph"
    ltac:(lit_in) eq_refl) as (w1 & E1 & Hs1 & Hg1 & Hl1). rewrite (run_bind _ _ _ _ _ E1). clear E1.
  change ("page" +++ id) with (ckey id "page").
  rewrite (run_bind _ _ _ _ _ (run_getElementById _ _ _ _ w1 Hs1 "page" ltac:(lit_in))).
  rewrite upd_ne by discriminate. rewrite (sh_page _ _ _ _ _ Hsh).
  rewrite toNumber_Z_to_string, parseInt_Z_to_string by lia. cbn [of_parse isNaN num_of_Z orb].
  change (Fin (inject_Z p)) with (num_of_Z p). rewrite num_ltb_Z.
  destruct (Z.ltb_spec p 1); [lia|].
  change ("totalRecVal" +++ id) with (ckey id "totalRecVal").
  rewrite (run_bind _ _ _ _ _ (run_prop _ _ _ _ _ Hs1 e_value "totalRecVal" ltac:(lit_in))).
  rewrite upd_ne by discriminate. rewrite (sh_total _ _ _ _ _ Hsh).
  assert (bad_page (Z_to_string p) (Z_to_string total) = false) as ->.
  { unfold bad_page. rewrite toNumber_Z_to_string, !parseInt_Z_to_string by lia. cbn [of_parse].
    rewrite num_ltb_Z, num_gtb_Z. cbn [isNaN num_of_Z orb].
    destruct (Z.ltb_spec p 1), (Z.ltb_spec total p); lia || done. }
  destruct (run_request_page (upd "Con_graph" (with_html "") D) w1 p total s rows Hs1) as
    (D' & w' & E & Hs' & Hv & Ht & Hg & Hl); [|lia|done|done|].
  { eapply same_view_shows; [|exact Hsh]. unfold same_view, same_url. by rewrite !upd_ne by discriminate. }
  rewrite upd_ne in E by discriminate. exists D', w'. split; [exact E|]. split; [done|].
  split; [|split; [done|split; [congruence|]]].
  - unfold same_view, same_url in *. by rewrite !upd_ne in Hv by discriminate.
  - rewrite Hl, Hl1, Hg1. unfold page_url. by rewrite !upd_ne by discriminate.
Qed.

(** Writing the page number, then asking for that page. *)
Lemma run_goto D w p p' total s rows :
  csim D w -> shows D p total s rows -> 1 <= p' <= total -> 0 < s ->
  match rows with Some n => 0 <= n | None => True end ->
  exists D' w', (set_html ("page" +++ id) (Z_to_string p') ;;; setContPage id) w = (Some tt, w') /\
    csim D' w' /\ shows D' p' total s rows /\ same_url D D' /\
    e_html (D' "Con_table") = strprocess /\ w_glob w' = w_glob w /\
    w_log w' = w_log w ++ [Request (page_url (w_glob w) D p' s rows) "ajaxRequest" "GET" id].
Proof.
  intros Hs Hsh Hp Hs0 Hrows. change ("page" +++ id) with (ckey id "page").
  destruct (run_set_html plain _ cnames cboxes (ckey_inj id Hid) cboxes_names D w Hs (Z_to_string p') "page"
    ltac:(lit_in) (Z_to_string_plain p' ltac:(lia))) as (w1 & E1 & Hs1 & Hg1 & Hl1).
  rewrite (run_bind _ _ _ _ _ E1). clear E1.
  assert (Hsh1 : shows (upd "page" (with_html (Z_to_string p')) D) p' total s rows).
  { destruct Hsh. constructor; rewrite ?upd_eq, ?upd_ne by discriminate; done. }
  destruct (run_setContPage _ w1 p' total s rows Hs1 Hsh1 Hp Hs0 Hrows) as (D' & w' & E & Hs' & Hv & Ht & Hg & Hl).
  exists D', w'. split; [exact E|]. split; [done|]. split; [by eapply same_view_shows|].
  split; [destruct Hv as (_ & _ & _ & _ & Hu); unfold same_url in *; by rewrite !upd_ne in Hu by discriminate|].
  split; [done|]. split; [congruence|]. rewrite Hl, Hl1, Hg1. unfold page_url. by rewrite !upd_ne by discriminate.
Qed.

(** The five ways to move; a jump reads the number from the field [gotopage]. *)
Inductive page_move := MNext | MPrev | MFirst | MLast | MJump (q : Z).

Definition run_move (m : page_move) : M cglobals unit :=
  match m with
  | MNext => nextPage id | MPrev => prevPage id | MFirst => firstPage id
  | MLast => lastPage id | MJump _ => jumpToPage id
  end.

(** The page a move leads to; [None]: it is refused. *)
Definition move_target (m : page_move) (p total : Z) : option Z :=
  match m with
  | MNext => if total <=? p then None else Some (p + 1)
  | MPrev => if p =? 1 then None else Some (p - 1)
  | MFirst => Some 1
  | MLast => if p =? total then None else Some total
  | MJump q => if (1 <=? q) && (q <=? total) then Some q else None
  end.

Lemma Z_to_string_eqb a b : 0 <= a -> 0 <= b -> String.eqb (Z_to_string a) (Z_to_string b) = (a =? b).
Proof.
  intros Ha Hb. destruct (Z.eqb_spec a b) as [->|Hne]; [apply String.eqb_refl|].
  apply String.eqb_neq. intros E. by apply Hne, Z_to_string_inj.
Qed.

Lemma run_alert D w msg :
  csim D w -> exists w', emit (Alert msg) w = (Some tt, w') /\ csim D w' /\ w_glob w' = w_glob w /\
    w_log w' = w_log w ++ [Alert msg].
Proof. intros Hs. by eexists. Qed.

Definition move_post (D : string -> elem) (w : world cglobals) (p total s : Z) (rows : option Z)
  (target : option Z) (D' : string -> elem) (w' : world cglobals) : Prop :=
  csim D' w' /\ w_glob w' = w_glob w /\ same_url D D' /\
  e_html (D' "Con_table") = match target with Some _ => strprocess | None => e_html (D "Con_table") end /\
  match target with
  | Some p' => shows D' p' total s rows /\
      w_log w' = w_log w ++ [Request (page_url (w_glob w) D p' s rows) "ajaxRequest" "GET" id]
  | None => shows D' p total s rows /\ exists msg, w_log w' = w_log w ++ [Alert msg]
  end.

Section move.
Context (D : string -> elem) (w : world cglobals) (p total s : Z) (rows : option Z).
Context (Hs : csim D w) (Hsh : shows D p total s rows) (Hp : 1 <= p <= total) (Hs0 : 0 < s).
Context (Hrows : match rows with Some n => 0 <= n | None => True end).

Lemma refused msg :
  exists D' w', emit (Alert msg) w = (Some tt, w') /\ move_post D w p total s rows None D' w'.
Proof using Hs Hsh Hid.
  destruct (run_alert D w msg Hs) as (w' & E & Hs' & Hg & Hl). exists D, w'. split; [done|].
  split; [done|]. split; [done|]. split; [done|]. split; [done|]. split; [done|by eexists].
Qed.

Lemma accepted p' :
  1 <= p' <= total ->
  exists D' w', (set_html ("page" +++ id) (Z_to_string p') ;;; setContPage id) w = (Some tt, w') /\
    move_post D w p total s rows (Some p') D' w'.
Proof using plain Hs Hsh Hs0 Hrows Hid.
  intros Hp'. destruct (run_goto D w p p' total s rows Hs Hsh Hp' Hs0 Hrows) as (D' & w' & E & H1 & H2 & H3 & H4 & H5 & H6).
  exists D', w'. split; [done|]. unfold move_post. done.
Qed.

Lemma run_page {A} (k : string -> M cglobals A) :
  (prop e_html ("page" +++ id) ≫= k) w = k (Z_to_string p) w.
Proof using Hs Hsh Hid.
  change ("page" +++ id) with (ckey id "page").
  rewrite (run_bind _ _ _ _ _ (run_prop _ _ _ D w Hs e_html "page" ltac:(lit_in))).
  by rewrite (sh_page _ _ _ _ _ Hsh).
Qed.

Lemma run_total {A} (k : string -> M cglobals A) :
  (prop e_value ("totalRecVal" +++ id) ≫= k) w = k (Z_to_string total) w.
Proof using Hs Hsh Hid.
  change ("totalRecVal" +++ id) with (ckey id "totalRecVal").
  rewrite (run_bind _ _ _ _ _ (run_prop _ _ _ D w Hs e_value "totalRecVal" ltac:(lit_in))).
  by rewrite (sh_total _ _ _ _ _ Hsh).
Qed.

Lemma run_next : exists D' w', nextPage id w = (Some tt, w') /\
  move_post D w p total s rows (move_target MNext p total) D' w'.
Proof using plain Hs Hsh Hp Hs0 Hrows Hid.
  unfold nextPage. rewrite run_page, run_total. unfold str.
  rewrite !parseInt_Z_to_string, toNumber_Z_to_string by lia. cbn [of_parse].
  rewrite num_leb_Z, num_add_Z, num_to_string_Z.
  cbn [move_target]. destruct (Z.leb_spec total p); [apply refused|apply accepted; lia].
Qed.

Lemma run_prev : exists D' w', prevPage id w = (Some tt, w') /\
  move_post D w p total s rows (move_target MPrev p total) D' w'.
Proof using plain Hs Hsh Hp Hs0 Hrows Hid.
  unfold prevPage. rewrite run_page. rewrite toNumber_Z_to_string, num_eqb_Z, num_sub_Z by lia.
  unfold str. rewrite num_to_string_Z. cbn [move_target].
  destruct (Z.eqb_spec p 1); cbn [negb]; [apply refused|apply accepted; lia].
Qed.

Lemma run_first : exists D' w', firstPage id w = (Some tt, w') /\
  move_post D w p total s rows (move_target MFirst p total) D' w'.
Proof using plain Hs Hsh Hp Hs0 Hrows Hid.
  unfold firstPage. rewrite run_page. change "1" with (Z_to_string 1). apply accepted. lia.
Qed.

Lemma run_last : exists D' w', lastPage id w = (Some tt, w') /\
  move_post D w p total s rows (move_target MLast p total) D' w'.
Proof using plain Hs Hsh Hp Hs0 Hrows Hid.
  unfold lastPage. rewrite run_page, run_total, Z_to_string_eqb by lia. cbn [move_target].
  destruct (Z.eqb_spec p total); cbn [negb]; [apply refused|apply accepted; lia].
Qed.

(** Clearing the input field. *)
Lemma run_clear : exists w', set_prop (with_value "") "gotopage" w = (Some tt, w') /\
  csim (upd "gotopage" (with_value "") D) w' /\ w_glob w' = w_glob w /\ w_log w' = w_log w.
Proof using Hs Hid.
  change "gotopage" with (ckey id "gotopage") at 1.
  exact (run_set_prop _ cnames cboxes (ckey_inj id Hid) D w Hs (with_value "") "gotopage" ltac:(lit_in) (fun _ => eq_refl)).
Qed.
End move.

Lemma run_jump D w p total s rows q :
  csim D w -> shows D p total s rows -> 1 <= p <= total -> 0 < s ->
  match rows with Some n => 0 <= n | None => True end ->
  0 <= q -> e_value (D "gotopage") = Z_to_string q ->
  exists D' w', jumpToPage id w = (Some tt, w') /\
    move_post D w p total s rows (move_target (MJump q) p total) D' w'.
Proof.
  intros Hs Hsh Hp Hs0 Hrows Hq Hgo. unfold jumpToPage.
  change (prop e_value "gotopage") with (prop (G:=cglobals) e_value (ckey id "gotopage")).
  rewrite (run_bind _ _ _ _ _ (run_prop _ _ _ D w Hs e_value "gotopage" ltac:(lit_in))). rewrite Hgo.
  rewrite toNumber_Z_to_string, parseInt_Z_to_string by lia. cbn [of_parse isNaN num_of_Z].
  change (Fin (inject_Z q)) with (num_of_Z q). rewrite num_ltb_Z.
  assert (String.eqb (Z_to_string q) "" = false) as ->.
  { apply String.eqb_neq. rewrite Z_to_string_nonneg by done. apply nat_digits_nonempty. }
  cbn [orb].
  assert (Hbad : (if q <? 1 then mret true
     else total0 ← prop e_value ("totalRecVal" +++ id);
          mret (num_gtb (num_of_Z q) (of_parse (parseInt total0)))) w
     = (Some (negb ((1 <=? q) && (q <=? total))), w)).
  { destruct (Z.ltb_spec q 1).
    - destruct (Z.leb_spec 1 q); [lia|done].
    - rewrite (run_total D w p total s rows Hs Hsh). rewrite parseInt_Z_to_string by lia. cbn [of_parse].
      rewrite num_gtb_Z. destruct (Z.leb_spec 1 q); [|lia]. cbn [andb].
      by rewrite Z.leb_antisym, negb_involutive. }
  rewrite (run_bind _ _ _ _ _ Hbad). clear Hbad. cbn [move_target].
  destruct ((1 <=? q) && (q <=? total)) eqn:E; cbn [negb].
  - destruct (run_clear D w Hs) as (w1 & E1 & Hs1 & Hg1 & Hl1). rewrite (run_bind _ _ _ _ _ E1). clear E1.
    bool_to_prop.
    destruct (accepted (upd "gotopage" (with_value "") D) w1 p total s rows Hs1) with (p' := q)
      as (D' & w' & E2 & Hs2 & Hg2 & Hu2 & Ht2 & Hsh2 & Hl2); [|done|done|done|].
    { destruct Hsh. constructor; by rewrite upd_ne by discriminate. }
    exists D', w'. split; [exact E2|]. split; [done|]. split; [congruence|].
    split; [unfold same_url in *; by rewrite !upd_ne in Hu2 by discriminate|]. split; [done|]. split; [done|].
    rewrite Hl2, Hl1, Hg1. unfold page_url. by rewrite !upd_ne by discriminate.
  - destruct (run_alert D w "Enter valid page number." Hs) as (w1 & E1 & Hs1 & Hg1 & Hl1).
    rewrite (run_bind _ _ _ _ _ E1). clear E1.
    destruct (run_clear D w1 Hs1) as (w2 & E2 & Hs2 & Hg2 & Hl2).
    eexists _, w2. split; [exact E2|]. split; [exact Hs2|]. split; [congruence|].
    split; [unfold same_url; by rewrite !upd_ne by discriminate|].
    split; [by rewrite upd_ne by discriminate|]. split.
    + destruct Hsh. constructor; by rewrite upd_ne by discriminate.
    + exists "Enter valid page number.". congruence.
Qed.

(** Each control, whatever the move. *)
Lemma run_move_post D w m p total s rows :
  csim D w -> shows D p total s rows -> 1 <= p <= total -> 0 < s ->
  match rows with Some n => 0 <= n | None => True end ->
  match m with MJump q => 0 <= q | _ => True end ->
  match m with MJump q => e_value (D "gotopage") = Z_to_string q | _ => True end ->
  exists D' w', run_move m w = (Some tt, w') /\
    move_post D w p total s rows (move_target m p total) D' w'.
Proof.
  intros Hs Hsh Hp Hs0 Hrows Hq Hgo. destruct m as [| | | |q]; cbn [run_move].
  - by apply run_next.
  - by apply run_prev.
  - by apply run_first.
  - by apply run_last.
  - by apply run_jump.
Qed.

Lemma target_bounds m p total : 1 <= p <= total ->
  match move_target m p total with Some q => 1 <= q <= total | None => True end.
Proof. intros Hp. destruct m; cbn [move_target]; repeat case_if; bool_to_prop; lia || done. Qed.

(** C15. Paging.  On a container that shows page [p] of [total] each of the five
    controls either moves to its target page, and then exactly one request is made,
    for the records from the page's offset on, with the page size as limit, the
    table unless it is hidden and the graph up to ten records; or it is refused with
    a message and no request.  In both cases a page from 1 to [total] is shown. *)
Theorem paging_spec m D w p total s rows :
  csim D w -> shows D p total s rows -> 1 <= p <= total -> 0 < s ->
  match rows with Some n => 0 <= n | None => True end ->
  match m with MJump q => 0 <= q /\ e_value (D "gotopage") = Z_to_string q | _ => True end ->
  exists D' w', run_move m w = (Some tt, w') /\
    move_post D w p total s rows (move_target m p total) D' w' /\
    match move_target m p total with Some p' => 1 <= p' <= total | None => True end.
Proof.
  intros Hs Hsh Hp Hs0 Hrows Hm.
  destruct (run_move_post D w m p total s rows) as (D' & w' & E & Hpost); try done.
  { by destruct m; try destruct Hm. }
  { by destruct m; try destruct Hm. }
  exists D', w'. split; [done|]. split; [done|by apply target_bounds].
Qed.

(** Choosing the page size [s'] in the combo: the page shown stays, however many pages
    there are with the new size. *)
Lemma run_selectCombo D w index e p total s s' rows :
  csim D w -> w_dom w !! ("Combo_itemsize" +++ id +++ "_" +++ index) = Some e -> e_html e = Z_to_string s' ->
  e_value (D "comboFlagsize") = id -> shows D p total s rows -> 1 <= p <= total -> 0 < s' ->
  match rows with Some n => 0 <= n | None => True end ->
  exists D' w', selectCombo ("size" +++ id) index w = (Some tt, w') /\ csim D' w' /\ shows D' p total s' rows /\
    same_url D D' /\ w_glob w' = w_glob w /\
    w_log w' = w_log w ++ [Request (page_url (w_glob w) D p s' rows) "ajaxRequest" "GET" id].
Proof.
  intros Hs He Htext Hflag Hsh Hp Hs0 Hrows. unfold selectCombo.
  change ("Combo_item" +++ ("size" +++ id) +++ "_" +++ index) with ("Combo_itemsize" +++ id +++ "_" +++ index).
  rewrite (run_bind _ _ w (e_html e) w) by (unfold prop; by rewrite He). rewrite Htext.
  change ("Combo_select" +++ ("size" +++ id)) with (ckey id "Combo_selectsize").
  destruct (run_set_html plain _ cnames cboxes (ckey_inj id Hid) cboxes_names D w Hs (Z_to_string s') "Combo_selectsize"
    ltac:(lit_in) (Z_to_string_plain s' ltac:(lia))) as (w1 & E1 & Hs1 & Hg1 & Hl1).
  rewrite (run_bind _ _ _ _ _ E1). change ("comboFlag" +++ ("size" +++ id)) with (ckey id "comboFlagsize").
  rewrite (run_bind _ _ _ _ _ (run_prop _ _ _ _ w1 Hs1 e_value "comboFlagsize" ltac:(lit_in))).
  rewrite upd_ne by discriminate. rewrite Hflag.
  destruct (run_setContPage _ w1 p total s' rows Hs1) as (D' & w' & E & Hs' & Hv & _ & Hg & Hl); [|done|done|done|].
  { destruct Hsh. constructor; rewrite ?upd_eq, ?upd_ne by discriminate; done. }
  exists D', w'. split; [exact E|]. split; [done|].
  split.
  { eapply same_view_shows; [exact Hv|]. destruct Hsh. constructor; rewrite ?upd_eq, ?upd_ne by discriminate; done. }
  split; [destruct Hv as (_ & _ & _ & _ & Hu); unfold same_url in *; by rewrite !upd_ne in Hu by discriminate|].
  split; [congruence|]. rewrite Hl, Hl1, Hg1. unfold page_url. by rewrite !upd_ne by discriminate.
Qed.

(** A jump to a blank text passes the checks ([Number(" ")] is 0, [parseInt(" ")]
    is no number): the request asks for the records from a negative offset on. *)
Theorem jump_blank_negative_offset D w total s :
  csim D w -> shows D 1 total s None -> 1 <= total -> 0 < s ->
  e_value (D "gotopage") = " " ->
  bad_page " " (Z_to_string total) = false /\
  page_offset (Z_to_string s) " " "undefined" = num_of_Z (- s) /\
  exists D' w1, (set_prop (with_value "") "gotopage" ;;; set_html ("page" +++ id) " ") w = (Some tt, w1) /\
    jumpToPage id w = setContPage id w1 /\ csim D' w1 /\ e_html (D' "page") = " ".
Proof.
  intros Hs Hsh Ht Hs0 Hgo. split.
  { unfold bad_page. rewrite parseInt_Z_to_string by lia. done. }
  split.
  { unfold page_offset. autorewrite with js_rw. cbn [String.eqb Ascii.eqb Bool.eqb negb andb].
    change (toNumber " ") with (num_of_Z 0). rewrite num_sub_Z, num_mul_Z. f_equal. lia. }
  destruct (run_clear D w Hs) as (w1 & E1 & Hs1 & _).
  destruct (run_set_html plain _ cnames cboxes (ckey_inj id Hid) cboxes_names _ w1 Hs1 " " "page"
    ltac:(lit_in) eq_refl) as (w2 & E2 & Hs2 & _).
  eexists _, w2. split; [by rewrite (run_bind _ _ _ _ _ E1)|]. split; [|split; [exact Hs2|by rewrite upd_eq]].
  unfold jumpToPage. change (prop e_value "gotopage") with (prop (G:=cglobals) e_value (ckey id "gotopage")).
  rewrite (run_bind _ _ _ _ _ (run_prop _ _ _ D w Hs e_value "gotopage" ltac:(lit_in))). rewrite Hgo.
  assert (Hbad : (if String.eqb " " "" || isNaN (toNumber " ") || num_ltb (of_parse (parseInt " ")) (num_of_Z 1)
     then mret true
     else total0 ← prop e_value ("totalRecVal" +++ id);
          mret (num_gtb (of_parse (parseInt " ")) (of_parse (parseInt total0)))) w = (Some false, w)).
  { change (String.eqb " " "" || _ || _) with false. cbv iota.
    rewrite (run_total D w 1 total s None Hs Hsh), parseInt_Z_to_string by lia. reflexivity. }
  rewrite (run_bind _ _ _ _ _ Hbad). rewrite (run_bind _ _ _ _ _ E1). rewrite (run_bind _ _ _ _ _ E2). done.
Qed.
End paging.

(** ** A container to try the theorems on *)
Lemma seven : "7" <> "gotopage".
Proof. done. Qed.

Definition demo_D (page go : string) (p : string) : elem :=
  if String.eqb p "page" then with_html page new_elem
  else if String.eqb p "totalRecVal" then with_value "5" new_elem
  else if String.eqb p "Combo_selectsize" then with_html "10" new_elem
  else if String.eqb p "totalNumOfDbRows" then with_value "undefined" new_elem
  else if String.eqb p "gotopage" then with_value go new_elem
  else if String.eqb p "comboFlagsize" then with_value "7" new_elem
  else new_elem.

Definition demo_globals : cglobals := CGlobals "" "days=7" "" "" true false "" ∅ 0 ["="; "!="; "like"; "not like"].

Definition demo_world (page go : string) : world cglobals :=
  World (list_to_map (map (fun p => (ckey "7" p, demo_D page go p)) cnames)) demo_globals [].

Lemma demo_sim page go : sim (ckey "7") cnames cboxes (demo_D page go) (demo_world page go).
Proof.
  apply sim_flat; intros p Hp;
    repeat (apply elem_of_cons in Hp as [->|Hp]; [reflexivity|]); by apply elem_of_nil in Hp.
Qed.

Lemma demo_shows p go : 0 <= p -> shows (demo_D (Z_to_string p) go) p 5 10 None.
Proof. intros H. by constructor. Qed.

Lemma paging_spec_witness :
  exists D' w', run_move "7" MNext (demo_world "2" "") = (Some tt, w') /\
    move_post "7" (demo_D "2" "") (demo_world "2" "") 2 5 10 None (Some 3) D' w'.
Proof.
  destruct (paging_spec demo_plain "7" seven MNext (demo_D "2" "") (demo_world "2" "") 2 5 10 None
    (demo_sim "2" "") (demo_shows 2 "" ltac:(lia))) as (D' & w' & H1 & H2 & _); [lia|lia|done|done|].
  exact (ex_intro _ D' (ex_intro _ w' (conj H1 H2))).
Defined.

Lemma jump_blank_negative_offset_witness :
  page_offset (Z_to_string 10) " " "undefined" = num_of_Z (- 10).
Proof.
  exact (proj1 (proj2 (jump_blank_negative_offset demo_plain "7" seven (demo_D "1" " ") (demo_world "1" " ") 5 10
    (demo_sim "1" " ") (demo_shows 1 " " ltac:(lia)) ltac:(lia) ltac:(lia) eq_refl))).
Defined.
