(* ===== verification/ContainerData.v ===== *)
(** * Report containers: showing the server's answers (container.js)
    The XML answer of the server becomes a table with sortable and filterable
    columns, a graph, and the number of pages; [addTableRecord] builds the same kind
    of table from an array. *)
From Stdlib Require Import QArith.
From S2P Require Import Prelude JsString JsNum JsVal Ui Dom Container.
Open Scope Z_scope.

(** ** The answer *)
#[warnings="-register-all"]
Inductive xml :=
| XElem (attrs : list (string * string)) (kids : list xml)
| XText (data : string).

Definition kids (x : xml) : list xml := match x with XElem _ l => l | XText _ => [] end.

Fixpoint assoc (l : list (string * string)) (k : string) : option string :=
  match l with
  | [] => None
  | (a, v) :: l => if String.eqb a k then Some v else assoc l k
  end.
Definition getAttribute (x : xml) (k : string) : option string :=
  match x with XElem attrs _ => assoc attrs k | XText _ => None end.

(** [col.childNodes.item(0).data]; [None] is an exception ([data] of an element is
    undefined, and the callers go on to [split] it). *)
Definition text_of (x : xml) : option string :=
  match kids x with XText d :: _ => Some d | _ => None end.

(** [rec[i]] of a record [text.split("||")]. *)
Definition rec_at (r : list string) (i : nat) : jsval :=
  match r !! i with Some s => JStr s | None => Undefined end.
Definition rec_str (r : list string) (i : nat) : string := val_string (rec_at r i).
Definition attr_val (o : option string) : jsval := match o with Some s => JStr s | None => Null end.

(** Alignment of a header cell and of a data cell by the type code [rec[1]]. *)
Definition head_align (r : list string) : string :=
  if eq_number (rec_at r 1) 3 then "center"
  else if eq_number (rec_at r 1) 1 || eq_number (rec_at r 1) 0 then "left" else "right".
Definition data_align (r : list string) : string :=
  if eq_number (rec_at r 1) 3 then "center"
  else if eq_number (rec_at r 1) 2 then "right" else "left".

Section data.
Context `{Browser} (replaceQueryString : string -> string -> string -> string)
  (serialize : xml -> string).
Abbreviation C := (M cglobals).

Definition is_chrome : bool := contains userAgent "Chrome".

(** [throw] unless the value is there. *)
Definition need {A} (o : option A) : C A := match o with Some a => mret a | None => throw end.

(** ** The number of pages *)
Definition total_pages (totalRecord size : string) : num :=
  let totalRec := num_ceil (num_div (of_parse (parseInt totalRecord)) (of_parse (parseInt size))) in
  if num_eqb totalRec (num_of_Z 0) then num_of_Z 1 else totalRec.

Definition ajax_total (id : string) (root : xml) : C unit :=
  span ← exists_ ("totalRecSpan" +++ id);
  match getAttribute root "totalRecord" with
  | Some totalRecord =>
      when_ span (
        set_prop (with_value totalRecord) ("totalNumOfDbRows" +++ id) ;;;
        size ← prop e_html ("Combo_selectsize" +++ id);
        let totalRec := total_pages totalRecord size in
        set_html ("totalRecSpan" +++ id) ("&nbsp;of&nbsp;" +++ str totalRec +++ "&nbsp;&nbsp;") ;;;
        set_prop (with_value (str totalRec)) ("totalRecVal" +++ id) ;;;
        page ← prop e_html ("page" +++ id);
        when_ (num_gtb (of_parse (parseInt page)) totalRec) (set_html ("page" +++ id) (str totalRec)))
  | None => mret tt
  end.

(** ** The table header *)
Definition cell_name (what id : string) (j : nat) : string :=
  what +++ "_" +++ id +++ "_" +++ Z_to_string (Z.of_nat j).

Definition search_input (what id : string) (j : nat) (value : string) : string :=
  qq "<input type=`hidden` id=`" +++ cell_name what id j +++ qq "` name=`" +++ cell_name what id j
  +++ qq "` value=`" +++ value +++ qq "` />".

Definition search_variables (id : string) (j : nat) (dataformat : jsval) (r : list string) : string :=
  search_input "dataformatid" id j (val_string dataformat)
  +++ search_input "searchColName" id j (rec_str r 3)
  +++ search_input "searchCrit" id j "2"
  +++ search_input "searchValue" id j ""
  +++ search_input "filterImg" id j "filtered.png".

Definition crit_name (searchCrit : string) : string :=
  if num_eqb (toNumber searchCrit) (num_of_Z 0) then "is"
  else if num_eqb (toNumber searchCrit) (num_of_Z 1) then "is not"
  else if num_eqb (toNumber searchCrit) (num_of_Z 2) then "contains"
  else "does not contain".

(** The filter icon of a searchable column; [filter] is its image, criterion and
    value, when the column's hidden fields exist. *)
Definition search_control (id : string) (j : nat) (dataformat : jsval) (r : list string)
  (filter : option (string * string * string)) : string :=
  let style := if is_chrome then "float:right;cursor:pointer;" else "float:right;margin-top:-15px;cursor:pointer;" in
  let args := id +++ "," +++ Z_to_string (Z.of_nat j) +++ "," +++ qq "`" +++ rec_str r 0 +++ qq "`,`"
              +++ rec_str r 3 +++ qq "`," +++ val_string dataformat in
  let img path := qq "<img id=`" +++ cell_name "filter" id j +++ qq "` SRC='" +++ path
                  +++ "' height='15' widht='15' style='" +++ style +++ "' onclick='" in
  match filter with
  | Some (image, crit, value) =>
      img ("../images/" +++ image) +++ "hideToolTip();showSearch(" +++ args +++ ");'"
      +++ qq " onmouseover=`showToolTip(event,'&nbsp;&nbsp;&nbsp; " +++ rec_str r 0 +++ " " +++ crit_name crit
      +++ " " +++ value +++ qq "')` onmouseout=`hideToolTip()` />"
  | None => img "../images/filtered.png" +++ "showSearch(" +++ args +++ ");' />"
  end.

(** [ordertype] and [imagetag] of a header cell, by the current order [rec[2]]. *)
Definition order_next (r : list string) : string * string :=
  let t := if eq_number (rec_at r 2) 0 then ("&ordertype=asc", "") else ("", "") in
  let t := if eq_number (rec_at r 2) 1
           then ("&ordertype=desc", "&nbsp;<IMG SRC='../images/arrowup.jpg' height='10' widht='9'>") else t in
  if eq_number (rec_at r 2) 2
  then ("&ordertype=asc", "&nbsp;<IMG SRC='../images/arrowdown.jpg' height='10' widht='9'>") else t.

(** The identifier uses the row number, which is 0 for every header cell. *)
Definition header_cell (id : string) (sortable : bool) (r : list string) (searchControl : string) : string :=
  if sortable then
    let '(ordertype, imagetag) := order_next r in
    "<td align='" +++ head_align r +++ qq "' class='tdhead'><span onclick='javascript:lastordertype=`" +++ ordertype
    +++ qq "`; lastorderby=`" +++ "&orderby=" +++ rec_str r 3 +++ qq "`;firstPage(" +++ id +++ ")' id='thead" +++ id
    +++ "_0' style='cursor:pointer;'>" +++ rec_str r 0 +++ "</span>" +++ imagetag +++ searchControl +++ "</td>"
  else "<td id='thead" +++ id +++ "_0' align='" +++ head_align r +++ "' class='tdhead'>" +++ rec_str r 0
       +++ searchControl +++ "</td>".

(** The hidden fields of column [j], when they exist. *)
Definition column_filter (id : string) (j : nat) : C (option (string * string * string)) :=
  b ← exists_ (cell_name "filterImg" id j);
  if (b : bool) then
    image ← prop e_value (cell_name "filterImg" id j);
    value ← prop e_value (cell_name "searchValue" id j);
    crit ← prop e_value (cell_name "searchCrit" id j);
    mret (Some (image, crit, value))
  else mret None.

(** The header cells from column [j] on: their markup and the hidden search fields. *)
Fixpoint header_cells (id : string) (j : nat) (cols : list xml) : C (string * string) :=
  match cols with
  | [] => mret ("", "")
  | col :: cols =>
      data ← need (text_of col);
      let r := js_split data "||" in
      let dataformat := attr_val (getAttribute col "dataformat") in
      set_glob (set_dataFormat j dataformat) ;;;
      let searchable := bool_decide (getAttribute col "issearchable" = Some "1") in
      filtered ← (if searchable then prop e_value ("isfiltered" +++ id) else mret "");
      filter ← (if searchable then column_filter id j else mret None);
      let control := if searchable then search_control id j dataformat r filter else "" in
      let variables := if String.eqb filtered "false" then search_variables id j dataformat r else "" in
      g ← glob;
      rest ← header_cells id (S j) cols;
      mret (header_cell id (isSortOnColumn g) r control +++ fst rest, variables +++ snd rest)
  end.

(** The row of column heads; [only_row]: no records follow. *)
Definition header_row (id : string) (row : xml) (only_row : bool) : C string :=
  set_prop (with_value (Z_to_string (Z.of_nat (length (kids row))))) ("totalCol" +++ id) ;;;
  cells ← header_cells id 0 (kids row);
  filtered ← prop e_value ("isfiltered" +++ id);
  when_ (String.eqb filtered "false") (
    set_prop (with_value "true") ("isfiltered" +++ id) ;;;
    hidden ← inner_html ("hiddenDiv" +++ id);
    set_html ("hiddenDiv" +++ id) (hidden +++ snd cells)) ;;;
  mret ("<tr>" +++ fst cells +++
    (if only_row then qq "<tr class=`trdark`><td class=`tddata` colspan=7 align=`center` >No Record Found</td></tr>"
     else "")).

(** ** The data rows *)
Definition resolve_icon (id : string) (r : list string) : string :=
  "&nbsp;<img SRC='../images/info.png' height='10' "
  +++ qq "style=`cursor:pointer` widht='10' onclick='resolveDNS(event," +++ id +++ qq ",`" +++ rec_str r 0
  +++ qq "`);' onmouseout=`hideToolTip()`/> ".

(** A data cell; [limit] is the width at which Internet Explorer's texts are cut.
    [None]: the record has no fourth part, which [replaceChar] cannot read. *)
Definition data_cell (dataformat : string) (cut : num) (r : list string) : option string :=
  link ← r !! 3%nat;
  link ← replaceChar link "&emp;" "&";
  let long := (75 <=? slen (rec_str r 0)) && is_msie in
  let text := if long then substring2 (rec_str r 0) 0 75 +++ "..." else rec_str r 0 in
  let style := if is_msie then "" else " style='max-width:" +++ str cut +++ ";'" in
  let title := match rec_at r 2 with JStr s => Some (makeHTML s) | _ => None end in
  title ← title;
  Some ("<td class='tddata' title=" +++ qq "`" +++ title +++ qq "`" +++ style +++ " align='" +++ data_align r +++ "'>"
    +++ (if negb (String.eqb link "") then "<a href=" +++ link +++ ">" +++ makeHTML text +++ "</a>"
         else makeHTML text)
    +++ dataformat +++ "</td>").

Fixpoint data_cells (id : string) (cut : num) (j : nat) (cols : list xml) : C string :=
  match cols with
  | [] => mret ""
  | col :: cols =>
      data ← need (text_of col);
      let r := js_split data "||" in
      g ← glob;
      let fmt := default Undefined (columnDataFormat g !! j) in
      let icon := if eq_number fmt 5 then resolve_icon id r else "" in
      cell ← need (data_cell icon cut r);
      rest ← data_cells id cut (S j) cols;
      mret (cell +++ rest)
  end.

(** The rows from number [i] on, [i >= 1]. *)
Fixpoint data_rows (id : string) (conLenght : num) (i : Z) (rows : list xml) : C string :=
  match rows with
  | [] => mret ""
  | row :: rows =>
      let cut := num_div conLenght (num_of_Z (Z.of_nat (length (kids row)) - 1)) in
      cells ← data_cells id cut 0 (kids row);
      rest ← data_rows id conLenght (i + 1) rows;
      mret ((if i =? 1 then "<tbody id='tbody" +++ id +++ "'>" else "")
        +++ (if Z.rem i 2 =? 0 then "<tr class='trdark'>" else "<tr class='trlight'>")
        +++ cells +++ "</tr>" +++ rest)
  end.

(** ** The table *)
Definition setTableHeight (id : string) : C unit :=
  row ← prop e_value ("pageSize" +++ id);
  let val := num_add (num_mul (toNumber row) (num_of_Z 18)) (num_of_Z 7) in
  set_prop (with_style "height" (str val +++ "px")) ("Con_table" +++ id).

(** [highlighttable] registers hover effects on the rows of the table, which must exist. *)
Definition highlighttable (tablename : string) : C unit := prop e_html tablename ;;; mret tt.

(** The markup of the table, and whether it ends with the link to all records. *)
Definition table_markup (id : string) (node : xml) : C (string * bool) :=
  width ← prop (fun e => default "" (e_style e !! "width")) id;
  let conLenght := of_parse (parseInt width) in
  tbl ← (match kids node with
         | [] => mret ""
         | head :: rows =>
             h ← header_row id head (match rows with [] => true | _ => false end);
             t ← data_rows id conLenght 1 rows;
             mret (h +++ t)
         end);
  g ← glob;
  let viewall := isViewAllLink g && (6 <=? Z.of_nat (length (kids node))) in
  foot ← (if (viewall : bool) then
            set_glob (fun g => set_qString (replace_first "others=true&" "" (qString g)) g) ;;;
            row ← need (last (kids node));
            g ← glob;
            mret ("<tr><td colspan='" +++ Z_to_string (Z.of_nat (length (kids row))) +++ "'><a href='"
              +++ replaceQueryString (conPath g +++ "/webpages/singlereport.jsp?" +++ qString g) "reportid" id
              +++ "'><b>View All</b></a></td></tr>")
          else mret "");
  mret ("<table cellspacing='0' class='TableData' id='tableData" +++ id +++ "' width='100%'>"
        +++ tbl +++ foot +++ "</table>", viewall).

Definition ajax_table (id : string) (node : xml) : C unit :=
  r ← table_markup id node;
  let '(markup, viewall) := (r : string * bool) in
  let len := Z.of_nat (length (kids node)) in
  let len := if len =? 1 then len + 1 else len in
  set_html ("Con_table" +++ id) markup ;;;
  set_prop (with_value (Z_to_string (if viewall then len + 1 else len))) ("pageSize" +++ id) ;;;
  setTableHeight id ;;;
  highlighttable ("tableData" +++ id).

(** ** The graph *)
Definition item_text (row : xml) (i : nat) : option string := x ← kids row !! i; text_of x.

Definition graph_html (map : xml) (filename graphURL width height : string) : string :=
  serialize map +++ qq " <img src=`" +++ graphURL +++ qq "` width=" +++ width +++ " height=" +++ height
  +++ qq " border=0 usemap=`#" +++ filename +++ qq "`> ".

Definition ajax_graph (id : string) (node : xml) : C unit :=
  row ← need (kids node !! 0%nat);
  match kids row with
  | [] => mret tt
  | map :: _ =>
      filename ← need (item_text row 1);
      graphURL ← need (item_text row 2);
      width ← need (item_text row 3);
      height ← need (item_text row 4);
      set_html ("Con_graph" +++ id) (graph_html map filename graphURL width height) ;;;
      set_prop (with_style "height" (height +++ "px")) ("Con_graph" +++ id)
  end.

Definition no_data (id msg : string) : C unit :=
  set_html ("Con_table" +++ id) (qq "<center><font class=`processdesc`>" +++ msg +++ "</font></center>") ;;;
  set_prop (with_style "height" "40px") ("Con_table" +++ id).

(** The element exists and is not hidden. *)
Definition visible (id : string) : C bool :=
  o ← getElementById id;
  mret match o with Some e => negb (String.eqb (e_class e) "hidden") | None => false end.

(** The callback of the report requests: no answer, an answer without [root], or
    an answer with its root element. *)
Definition ajaxRequest (xmlreq : option (option xml)) (id : string) : C unit :=
  match xmlreq with
  | None => no_data id " Data is not available for this report"
  | Some None => no_data id "Data is not available."
  | Some (Some root) =>
      ajax_total id root ;;;
      table ← visible ("Con_table" +++ id);
      (if (table : bool) then need (kids root !! 0%nat) ≫= ajax_table id else mret tt) ;;;
      graph ← visible ("Con_graph" +++ id);
      match (if (graph : bool) then kids root !! (if (table : bool) then 1%nat else 0%nat) else None) with
      | Some node => ajax_graph id node
      | None => mret tt
      end
  end.

(** ** Tables from arrays *)
Definition setGraph (id : string) (graphURL : option string) (filename imgwd imght : string) : C unit :=
  prop e_html ("Con_graph" +++ id) ;;;
  match graphURL with
  | Some url =>
      set_html ("Con_graph" +++ id)
        (qq "<img src=`" +++ url +++ qq "` width=" +++ imgwd +++ " height=" +++ imght
         +++ qq " border=0 usemap=`#" +++ filename +++ qq "`>") ;;;
      set_prop (with_style "height" (imght +++ "px")) ("Con_graph" +++ id)
  | None => mret tt
  end.

Fixpoint array_head (id : string) (i : Z) (cells : list string) : string :=
  match cells with
  | [] => ""
  | c :: cells =>
      let r := js_split c "||" in
      "<td  id='thead" +++ id +++ "_" +++ Z_to_string i +++ "' align='" +++ head_align r +++ "' class='tdhead'>"
      +++ rec_str r 0 +++ "</td>" +++ array_head id (i + 1) cells
  end.

(** A cell of [addTableRecord]; [None]: [replaceChar] does not end, which the proofs exclude. *)
Definition array_cell (cut : num) (c : string) : option string :=
  let r := js_split c "||" in
  link ← match r !! 3%nat with
         | Some l => JStr <$> replaceChar l "&emp;" "&"
         | None => Some Undefined
         end;
  let long := (40 <=? slen (rec_str r 0)) && is_msie in
  let text := if long then substring2 (rec_str r 0) 0 40 +++ "..." else rec_str r 0 in
  let shown := if negb (eq_string link "") then "<a href=" +++ val_string link +++ ">" +++ text +++ "</a>" else text in
  Some (if is_msie
        then "<td align='" +++ data_align r +++ "' class='tddata' title='" +++ text +++ "'>" +++ shown +++ "</td>"
        else "<td class='tddata' title='" +++ text +++ "' style='max-width:" +++ str cut +++ ";' align='"
             +++ data_align r +++ "'>" +++ shown +++ "</td>").

Fixpoint concat_options (l : list (option string)) : option string :=
  match l with
  | [] => Some ""
  | o :: l => s ← o; t ← concat_options l; Some (s +++ t)
  end.

Definition array_row (cut : num) (len1 : nat) (row : Z) (cells : list string) : option string :=
  if (length cells <? len1)%nat then None     (* [record[row][col]] is undefined *)
  else
    s ← concat_options (map (array_cell cut) (take len1 cells));
    Some ((if Z.rem row 2 =? 0 then "<tr class='trdark'>" else "<tr class='trlight'>") +++ s +++ "</tr>").

Fixpoint array_rows (cut : num) (len1 : nat) (row : Z) (rows : list (list string)) : option string :=
  match rows with
  | [] => Some ""
  | r :: rows => s ← array_row cut len1 row r; t ← array_rows cut len1 (row + 1) rows; Some (s +++ t)
  end.

Definition addTableRecord (id : string) (record : list (list string)) (url : option string) : C unit :=
  width ← prop (fun e => default "" (e_style e !! "width")) id;
  let conLenght := of_parse (parseInt width) in
  head ← need (record !! 0%nat);
  first ← need (record !! 1%nat);
  let len := if is_msie then (length record - 1)%nat else length record in
  let len1 := if is_msie then (length head - 1)%nat else length head in
  let viewall := match url with Some _ => (6 <=? len)%nat | None => false end in
  body ← (if (length first <? len1)%nat || (len1 <=? 1)%nat then
            set_prop (with_value "2") ("pageSize" +++ id) ;;;
            c ← need (first !! 0%nat);
            let r := js_split c "||" in
            mret ("<tr class='trdark'><td colspan=7 align=" +++ head_align r +++ ">" +++ rec_str r 0 +++ "</td></tr>")
          else
            set_prop (with_value (Z_to_string (Z.of_nat (if viewall then len + 1 else len)))) ("pageSize" +++ id) ;;;
            need (array_rows (num_div conLenght (num_of_Z (Z.of_nat len1 - 1))) len1 1 (drop 1 (take len record))));
  let foot := match url with
              | Some u =>
                  if (len1 <=? length first)%nat && (6 <=? len)%nat
                  then "<tr><td colspan=" +++ Z_to_string (Z.of_nat len1) +++ " align=left >&nbsp;<a href=" +++ u
                       +++ "><b>View All</b></a></td></tr>"
                  else ""
              | None => "" end in
  set_html ("Con_table" +++ id)
    ("<table cellspacing='0' class='TableData' id='tableData" +++ id +++ "' width='100%'><tr>"
     +++ array_head id 0 (take len1 head) +++ "</tr>" +++ body +++ foot +++ "</table>") ;;;
  highlighttable ("tableData" +++ id).

Definition setTable (id : string) (bodyList : list (list string)) (url : option string) : C unit :=
  addTableRecord id bodyList url ;;; setTableHeight id.
End data.

(** ** The number of pages *)
Section pages.
Context `{Browser} (plain : parses_plain) (id : string) (Hid : id <> "gotopage").
Abbreviation csim := (sim (ckey id) cnames cboxes).

(** [Math.ceil(n / s)], one for an empty report. *)
Definition pages (n s : Z) : Z := Z.max 1 (- ((- n) / s)).

Lemma total_pages_Z n s :
  0 <= n -> 0 < s -> total_pages (Z_to_string n) (Z_to_string s) = num_of_Z (pages n s).
Proof.
  intros Hn Hs. unfold total_pages, pages. rewrite !parseInt_Z_to_string by lia. cbn [of_parse].
  rewrite num_ceil_div, num_eqb_Z by done.
  assert (0 <= - (- n / s)) by (pose proof (Z.div_mod (- n) s ltac:(lia)); pose proof (Z.mod_pos_bound (- n) s Hs); nia).
  destruct (Z.eqb_spec (- (- n / s)) 0); f_equal; lia.
Qed.

Lemma pages_spec n s :
  0 <= n -> 0 < s -> 1 <= pages n s /\ n <= s * pages n s /\ (0 < n -> s * (pages n s - 1) < n).
Proof.
  intros Hn Hs. unfold pages. pose proof (Z.div_mod (- n) s ltac:(lia)).
  pose proof (Z.mod_pos_bound (- n) s Hs). nia.
Qed.

Lemma no_eq_plain s : sall (fun c => negb (Ascii.eqb "=" c)) s = true -> contains s "id=" = false.
Proof.
  unfold contains. induction s as [|c s IH]; [done|]. cbn [sall]. intros [Hc Hs]%andb_true_iff.
  specialize (IH Hs). cbn [index_of]. destruct (prefixb "id=" (String c s)) eqn:E.
  - apply prefixb_spec in E as [t [= -> ->]]. cbn [sall String.append] in Hs. by rewrite andb_false_r in Hs.
  - by destruct (index_of "id=" s).
Qed.

Lemma digits_no_eq s : sall is_digit s = true -> sall (fun c => negb (Ascii.eqb "=" c)) s = true.
Proof. apply sall_impl. intros c Hc. destruct (Ascii.eqb_spec "=" c) as [<-|]; done. Qed.

(** When an answer with the number of records arrives, the container shows the
    number of pages this makes (at least one), and a page number that has become too
    large is brought back to the last page: afterwards the page is in range again. *)
Theorem ajax_total_shows D w root p total s rows n :
  csim D w -> shows D p total s rows -> 1 <= p -> 0 < s -> 0 <= n ->
  getAttribute root "totalRecord" = Some (Z_to_string n) ->
  exists D' w', ajax_total id root w = (Some tt, w') /\ csim D' w' /\
    w_glob w' = w_glob w /\ w_log w' = w_log w /\ same_url D D' /\
    shows D' (Z.min p (pages n s)) (pages n s) s (Some n) /\
    1 <= Z.min p (pages n s) <= pages n s.
Proof.
  intros Hs Hsh Hp Hs0 Hn Hattr. destruct (pages_spec n s Hn Hs0) as (Hpg & _ & _).
  unfold ajax_total. change ("totalRecSpan" +++ id) with (ckey id "totalRecSpan").
  rewrite (run_bind _ _ _ _ _ (run_exists _ _ _ D w Hs "totalRecSpan" ltac:(lit_in))).
  rewrite Hattr. cbn [when_]. change ("totalNumOfDbRows" +++ id) with (ckey id "totalNumOfDbRows").
  destruct (run_set_prop _ cnames cboxes (ckey_inj id Hid) D w Hs (with_value (Z_to_string n)) "totalNumOfDbRows"
    ltac:(lit_in) (fun _ => eq_refl)) as (w1 & E1 & Hs1 & Hg1 & Hl1). rewrite (run_bind _ _ _ _ _ E1). clear E1.
  change ("Combo_selectsize" +++ id) with (ckey id "Combo_selectsize").
  rewrite (run_bind _ _ _ _ _ (run_prop _ _ _ _ w1 Hs1 e_html "Combo_selectsize" ltac:(lit_in))).
  rewrite upd_ne, (sh_size _ _ _ _ _ Hsh), total_pages_Z by (done || discriminate). unfold str. rewrite num_to_string_Z.
  assert (Hpl : contains ("&nbsp;of&nbsp;" +++ Z_to_string (pages n s) +++ "&nbsp;&nbsp;") "id=" = false).
  { apply no_eq_plain. rewrite !sall_app. rewrite (digits_no_eq (Z_to_string (pages n s))); [done|].
    rewrite Z_to_string_nonneg by lia. apply nat_digits_digits. lia. }
  destruct (run_set_html plain _ cnames cboxes (ckey_inj id Hid) cboxes_names _ w1 Hs1 _ "totalRecSpan"
    ltac:(lit_in) Hpl) as (w2 & E2 & Hs2 & Hg2 & Hl2). rewrite (run_bind _ _ _ _ _ E2). clear E2.
  change ("totalRecVal" +++ id) with (ckey id "totalRecVal").
  destruct (run_set_prop _ cnames cboxes (ckey_inj id Hid) _ w2 Hs2 (with_value (Z_to_string (pages n s))) "totalRecVal"
    ltac:(lit_in) (fun _ => eq_refl)) as (w3 & E3 & Hs3 & Hg3 & Hl3). rewrite (run_bind _ _ _ _ _ E3). clear E3.
  change ("page" +++ id) with (ckey id "page").
  rewrite (run_bind _ _ _ _ _ (run_prop _ _ _ _ w3 Hs3 e_html "page" ltac:(lit_in))).
  rewrite !upd_ne, (sh_page _ _ _ _ _ Hsh), parseInt_Z_to_string by (discriminate || lia). cbn [of_parse].
  rewrite num_gtb_Z. destruct (Z.ltb_spec (pages n s) p); cbn [when_].
  - destruct (run_set_html plain _ cnames cboxes (ckey_inj id Hid) cboxes_names _ w3 Hs3 (Z_to_string (pages n s)) "page"
      ltac:(lit_in) (Z_to_string_plain (pages n s) ltac:(lia))) as (w4 & E4 & Hs4 & Hg4 & Hl4).
    eexists _, w4. split; [exact E4|]. split; [exact Hs4|]. split; [congruence|]. split; [congruence|].
    split; [by unfold same_url; rewrite !upd_ne by discriminate|].
    split; [|lia]. rewrite Z.min_r by lia. destruct Hsh.
    by constructor; rewrite ?upd_eq, ?upd_ne, ?upd_eq, ?upd_ne, ?upd_eq by discriminate.
  - eexists _, w3. split; [reflexivity|]. split; [exact Hs3|]. split; [congruence|]. split; [congruence|].
    split; [by unfold same_url; rewrite !upd_ne by discriminate|].
    split; [|lia]. rewrite Z.min_l by lia. destruct Hsh.
    by constructor; rewrite ?upd_eq, ?upd_ne, ?upd_eq, ?upd_ne, ?upd_eq by discriminate.
Qed.

(** A data record is displayed exactly when it has its four parts (text, type,
    title, link): a shorter one raises an exception, a longer one is fine, and the
    unescaping of the link always ends. *)
Theorem data_cell_defined fmt cut r : is_Some (data_cell fmt cut r) <-> (4 <= length r)%nat.
Proof.
  unfold data_cell. split.
  - intros [s Hs]. destruct (r !! 3%nat) as [l|] eqn:E; [|done]. apply lookup_lt_Some in E. lia.
  - intros Hl. destruct (lookup_lt_is_Some_2 r 3%nat) as [l ->]; [lia|].
    destruct (lookup_lt_is_Some_2 r 2%nat) as [t Ht]; [lia|]. cbn [mbind option_bind].
    unfold rec_at at 1. rewrite Ht.
    destruct (replaceChar_go_ok (String.length l) l "&emp;" "&") as (l' & Hl' & _); [cbn; lia|lia|].
    unfold replaceChar. rewrite Hl'. cbn [mbind option_bind]. by eexists.
Qed.
End pages.

Lemma ajax_total_shows_witness :
  exists D' w', ajax_total "7" (XElem [("totalRecord", Z_to_string 21)] []) (demo_world "5" "") = (Some tt, w') /\
    shows D' 3 3 10 (Some 21).
Proof.
  destruct (ajax_total_shows demo_plain "7" seven (demo_D (Z_to_string 5) "") (demo_world "5" "")
    (XElem [("totalRecord", Z_to_string 21)] []) 5 5 10 None 21 (demo_sim "5" "") (demo_shows 5 "" ltac:(lia)))
    as (D' & w' & H1 & _ & _ & _ & _ & H2 & _); [lia|lia|lia|reflexivity|].
  exact (ex_intro _ D' (ex_intro _ w' (conj H1 H2))).
Defined.
