(* ===== verification/PopupForm.v ===== *)
(** * Pop-up forms (popupform.js)
    A pop-up is a box of the page whose contents are fetched from the server: opening
    it shows the overlay and asks for the contents, closing it empties the box. *)
From Stdlib Require Import QArith.
From S2P Require Import Prelude JsString JsNum JsVal Ui Dom.
Open Scope Z_scope.

(** The browser's window: its size, the size of elements, and the value that a
    length property has after a text is assigned to it ([assign_length old text]:
    texts that are no length leave the old value). *)
Class Window := {
  winWidth : num;
  winHeight : num;
  offsetWidth : string -> num;
  offsetHeight : string -> num;
  assign_length : string -> string -> string;
  appName : string
}.

Section popupform.
Context `{Browser} `{Window} {G : Type}.
Abbreviation C := (M G).

Definition style_of (p : string) (e : elem) : string := default "" (e_style e !! p).

Definition set_length (p text id : string) : C unit :=
  old ← prop (style_of p) id; set_prop (with_style p (assign_length old text)) id.

Definition half (x : num) : num := num_div x (num_of_Z 2).

(** [getWinSize(container)]: the box is placed in the window. *)
Definition getWinSize (container : string) : C unit :=
  b ← exists_ container;
  when_ b (
    set_length "left" (str (half (num_sub winWidth (offsetWidth container)))) container ;;;
    left ← prop (style_of "left") container;
    when_ (num_gtb (of_parse (parseInt left)) (num_of_Z 232) || num_ltb (of_parse (parseInt left)) (num_of_Z 200))
      (set_prop (with_style "left" "232px") container) ;;;
    top ← prop (style_of "top") container;
    when_ (String.eqb top "")
      (set_length "top" (str (num_sub (half (num_sub winHeight (num_of_Z 50))) (offsetHeight container))) container) ;;;
    top ← prop (style_of "top") container;
    when_ (num_ltb (of_parse (parseInt top)) (num_of_Z 0)) (set_length "top" "50" container)) ;;;
  when_ (String.eqb appName "Microsoft Internet Explorer") (
    left ← prop (style_of "left") container;
    set_length "right" (str (num_add (of_parse (parseInt left)) (offsetWidth container)) +++ "px") container).

(** [submitPopupForm(container)]: the request for the page's global [URL] ... *)
Definition submitPopupForm (URL container : string) : C unit :=
  emit (Request URL "onreadystatechange" "GET" container).

(** ... and its [onreadystatechange] when the answer is complete.  The function
    [init<container>] of the page, if there is one, is called last. *)
Definition popup_answer (container : string) (status : Z) (responseText : string) (has_init : bool) : C unit :=
  if status =? 200 then
    set_html container responseText ;;;
    emit (Timer ("getWinSize('" +++ container +++ "');") 1) ;;;
    when_ has_init (emit (Call ("init" +++ container +++ "()")))
  else
    set_html container ("Error in request.<br> Error Code : " +++ Z_to_string status) ;;;
    emit (Timer ("getWinSize('" +++ container +++ "');") 1).

Definition handleThickBox (URL : string) (op : Z) (container : string) (width top : option string) : C unit :=
  prop e_html "TB_overlay" ;;;
  match top with Some t => set_length "top" t container | None => mret tt end ;;;
  match width with Some w => set_length "width" w container | None => mret tt end ;;;
  if op =? 1 then
    set_prop (with_style "display" "") "TB_overlay" ;;;
    submitPopupForm URL container ;;;
    set_prop (with_style "display" "block") container
  else
    set_prop (with_style "display" "none") "TB_overlay" ;;;
    set_prop (with_style "display" "none") container ;;;
    set_html container "".
End popupform.

(** ** Opening and closing *)

(** ** Opening and closing *)
Section props.
Context `{Browser} `{Window} {G : Type} (plain : parses_plain).
Implicit Types (w : world G).

(** The two elements of a pop-up. *)
Definition pkey (container p : string) : string := if String.eqb p "box" then container else p.
Definition pnames : list string := ["box"; "TB_overlay"].
Definition pboxes : list string := ["box"].

Lemma pkey_inj container p q :
  container <> "TB_overlay" -> p ∈ pnames -> q ∈ pnames -> pkey container p = pkey container q -> p = q.
Proof.
  intros Hc Hp Hq. repeat (apply elem_of_cons in Hp as [->|Hp]); [| |by apply elem_of_nil in Hp];
  repeat (apply elem_of_cons in Hq as [->|Hq]); try (by apply elem_of_nil in Hq); cbn; congruence.
Qed.
Lemma pboxes_names q : q ∈ pboxes -> q ∈ pnames.
Proof. intros Hq. apply elem_of_cons in Hq as [->|Hq]; [lit_in|by apply elem_of_nil in Hq]. Qed.

Lemma style_of_with p s e : style_of p (with_style p s e) = s.
Proof. unfold style_of. cbn [with_style e_style]. by rewrite lookup_insert_eq. Qed.

Section box.
Context (container : string) (Hc : container <> "TB_overlay").
Abbreviation psim := (sim (pkey container) pnames pboxes).

Lemma run_open D w URL :
  psim D w -> exists w', handleThickBox URL 1 container None None w = (Some tt, w') /\
    psim (upd "box" (with_style "display" "block") (upd "TB_overlay" (with_style "display" "") D)) w' /\
    w_log w' = w_log w ++ [Request URL "onreadystatechange" "GET" container].
Proof using Hc.
  intros Hs. unfold handleThickBox.
  change (prop e_html "TB_overlay") with (prop (G:=G) e_html (pkey container "TB_overlay")).
  rewrite (run_bind _ _ _ _ _ (run_prop _ _ _ D w Hs e_html "TB_overlay" ltac:(lit_in))). cbn [Z.eqb Pos.eqb].
  destruct (run_set_prop _ _ _ (fun p q => pkey_inj container p q Hc) D w Hs (with_style "display" "") "TB_overlay"
    ltac:(lit_in) (fun _ => eq_refl)) as (w1 & E1 & Hs1 & _ & Hl1).
  destruct (run_emit _ _ _ _ w1 Hs1 (Request URL "onreadystatechange" "GET" container)) as (w2 & E2 & Hs2 & _ & Hl2).
  destruct (run_set_prop _ _ _ (fun p q => pkey_inj container p q Hc) _ w2 Hs2 (with_style "display" "block") "box"
    ltac:(lit_in) (fun _ => eq_refl)) as (w3 & E3 & Hs3 & _ & Hl3).
  exists w3. split; [|split; [exact Hs3|congruence]].
  rewrite !(run_bind (mret tt) _ w tt w eq_refl).
  rewrite (run_bind _ _ _ _ _ E1). unfold submitPopupForm. rewrite (run_bind _ _ _ _ _ E2). exact E3.
Qed.

Lemma run_close D w URL :
  psim D w -> exists w', handleThickBox URL 0 container None None w = (Some tt, w') /\
    psim (upd "box" (with_html "") (upd "box" (with_style "display" "none")
            (upd "TB_overlay" (with_style "display" "none") D))) w' /\
    w_log w' = w_log w.
Proof using Hc plain.
  intros Hs. unfold handleThickBox.
  change (prop e_html "TB_overlay") with (prop (G:=G) e_html (pkey container "TB_overlay")).
  rewrite (run_bind _ _ _ _ _ (run_prop _ _ _ D w Hs e_html "TB_overlay" ltac:(lit_in))). cbn [Z.eqb].
  destruct (run_set_prop _ _ _ (fun p q => pkey_inj container p q Hc) D w Hs (with_style "display" "none") "TB_overlay"
    ltac:(lit_in) (fun _ => eq_refl)) as (w1 & E1 & Hs1 & _ & Hl1).
  destruct (run_set_prop _ _ _ (fun p q => pkey_inj container p q Hc) _ w1 Hs1 (with_style "display" "none") "box"
    ltac:(lit_in) (fun _ => eq_refl)) as (w2 & E2 & Hs2 & _ & Hl2).
  destruct (run_set_html plain _ _ _ (fun p q => pkey_inj container p q Hc) pboxes_names _ w2 Hs2 "" "box"
    ltac:(lit_in) eq_refl) as (w3 & E3 & Hs3 & _ & Hl3).
  exists w3. split; [|split; [exact Hs3|congruence]].
  rewrite !(run_bind (mret tt) _ w tt w eq_refl).
  rewrite (run_bind _ _ _ _ _ E1), (run_bind _ _ _ _ _ E2). exact E3.
Qed.

Lemma run_answer D w text :
  psim D w -> contains text "id=" = false ->
  exists w', popup_answer container 200 text false w = (Some tt, w') /\
    psim (upd "box" (with_html text) D) w' /\
    w_log w' = w_log w ++ [Timer ("getWinSize('" +++ container +++ "');") 1].
Proof using Hc plain.
  intros Hs Ht. unfold popup_answer. cbn [Z.eqb Pos.eqb].
  destruct (run_set_html plain _ _ _ (fun p q => pkey_inj container p q Hc) pboxes_names _ w Hs text "box"
    ltac:(lit_in) Ht) as (w1 & E1 & Hs1 & _ & Hl1).
  destruct (run_emit _ _ _ _ w1 Hs1 (Timer ("getWinSize('" +++ container +++ "');") 1)) as (w2 & E2 & Hs2 & _ & Hl2).
  exists w2. split; [|split; [exact Hs2|congruence]].
  rewrite (run_bind _ _ _ _ _ E1), (run_bind _ _ _ _ _ E2). done.
Qed.

(** Opening a pop-up shows overlay and box and asks once for the contents; the
    answer becomes the contents of the box; closing it hides both and empties the
    box, with no further request. *)
Theorem thickbox_open_close D w URL text :
  psim D w -> contains text "id=" = false ->
  exists w1 w2 w3 D1 D2 D3,
    handleThickBox URL 1 container None None w = (Some tt, w1) /\ psim D1 w1 /\
    w_log w1 = w_log w ++ [Request URL "onreadystatechange" "GET" container] /\
    style_of "display" (D1 "box") = "block" /\ style_of "display" (D1 "TB_overlay") = "" /\
    popup_answer container 200 text false w1 = (Some tt, w2) /\ psim D2 w2 /\ e_html (D2 "box") = text /\
    handleThickBox URL 0 container None None w2 = (Some tt, w3) /\ psim D3 w3 /\
    style_of "display" (D3 "box") = "none" /\ style_of "display" (D3 "TB_overlay") = "none" /\
    e_html (D3 "box") = "" /\ w_log w3 = w_log w2.
Proof using Hc plain.
  intros Hs Ht.
  destruct (run_open D w URL Hs) as (w1 & E1 & Hs1 & Hl1).
  destruct (run_answer _ w1 text Hs1 Ht) as (w2 & E2 & Hs2 & _).
  destruct (run_close _ w2 URL Hs2) as (w3 & E3 & Hs3 & Hl3).
  exists w1, w2, w3. do 3 eexists. split; [exact E1|]. split; [exact Hs1|]. split; [exact Hl1|].
  split; [by rewrite upd_eq, style_of_with|].
  split; [by rewrite upd_ne, upd_eq, style_of_with by discriminate|].
  split; [exact E2|]. split; [exact Hs2|]. split; [by rewrite upd_eq|].
  split; [exact E3|]. split; [exact Hs3|].
  split; [rewrite !upd_eq; exact (style_of_with "display" "none" _)|].
  split; [rewrite upd_ne, upd_ne, upd_eq by discriminate; apply style_of_with|].
  split; [by rewrite upd_eq|done].
Qed.
End box.
End props.

#[export] Instance demo_window : Window := {
  winWidth := num_of_Z 1024; winHeight := num_of_Z 768;
  offsetWidth := fun _ => num_of_Z 560; offsetHeight := fun _ => num_of_Z 200;
  assign_length := fun old text => if contains text "px" then text else old;
  appName := "Netscape"
}.

Definition demo_popup : world unit :=
  World {["TB_overlay" := new_elem; "form" := new_elem]} tt [].

Lemma demo_popup_sim : sim (pkey "form") pnames pboxes (fun _ => new_elem) demo_popup.
Proof.
  apply sim_flat; intros p Hp; [|done].
  repeat (apply elem_of_cons in Hp as [->|Hp]; [reflexivity|]). by apply elem_of_nil in Hp.
Qed.

Lemma thickbox_open_close_witness :
  exists w1 w2 w3,
    handleThickBox "edit.jsp" 1 "form" None None demo_popup = (Some tt, w1) /\
    popup_answer "form" 200 "<b>Edit</b>" false w1 = (Some tt, w2) /\
    handleThickBox "edit.jsp" 0 "form" None None w2 = (Some tt, w3) /\ w_log w3 = w_log w2.
Proof.
  destruct (thickbox_open_close demo_plain "form" ltac:(discriminate) (fun _ => new_elem) demo_popup "edit.jsp"
    "<b>Edit</b>" demo_popup_sim eq_refl)
    as (w1 & w2 & w3 & D1 & D2 & D3 & H1 & _ & _ & _ & _ & H2 & _ & _ & H3 & _ & _ & _ & _ & H4).
  exact (ex_intro _ w1 (ex_intro _ w2 (ex_intro _ w3 (conj H1 (conj H2 (conj H3 H4)))))).
Defined.
