(* ===== verification/ContainerSearch.v ===== *)
(** * Report containers: filters, tool tips, downloads (container.js)
    The filter form writes a condition on the columns into [searchQuery], which the
    requests carry; the other functions resolve names, build the download links and
    check the bookmark form.  The named fields of the page's form [searchreport] are
    elements ["searchreport.<name>"]. *)
From Stdlib Require Import QArith.
From S2P Require Import Prelude JsString JsNum JsVal Ui Dom Container ContainerData PopupForm.
Open Scope Z_scope.

Section search.
Context `{Browser} `{Window}.
Abbreviation C := (M cglobals).

Definition field (name id columnid : string) : string := name +++ "_" +++ id +++ "_" +++ columnid.

(** ** The filter form *)
Definition showSearch (id columnid colName : string) : C unit :=
  searchVal ← prop e_value (field "searchValue" id columnid);
  crit ← prop e_value (field "searchCrit" id columnid);
  set_prop (with_value id) "reportid" ;;;
  set_prop (with_value columnid) "columnid" ;;;
  g ← glob;
  match parseInt crit with
  | Some i =>
      if (0 <=? i) && (i <? Z.of_nat (length (critOptions g)))
      then set_prop (with_value (Z_to_string i)) "searchreport.searchCritValue"   (* the selected index *)
      else throw
  | None => throw
  end ;;;
  set_prop (with_style "display" "") "searchreport.confirm" ;;;
  set_prop (with_style "display" "") "searchreport.searchCritValue" ;;;
  set_prop (with_style "display" "block") "searchDiv" ;;;
  set_prop (with_style "display" "block") "TB_overlay" ;;;
  set_html "searchLabel" colName ;;;
  set_html "searchHead" ("Filter by " +++ colName) ;;;
  set_html "searchLabeltxt" (qq "<input type=`text` value=`" +++ searchVal
    +++ qq "` maxlength=`50` style=`width: 180px;` class=`datafield` name=`txtsearchrep` id=`name=`txtsearchrep` autocomplete=off />") ;;;
  getWinSize "searchDiv" ;;;
  prop e_value "searchreport.txtsearchrep" ;;;
  emit (Focus "txtsearchrep").

Definition hideSearch : C unit :=
  set_prop (with_style "display" "none") "searchDiv" ;;;
  set_prop (with_style "display" "none") "TB_overlay".

Definition clearSearch : C unit :=
  set_prop (with_value "") "searchreport.txtsearchrep" ;;; emit (Focus "txtsearchrep").

(** ** The condition *)

(** The value as it is compared: a pattern for the two kinds of [like]. *)
Definition like_value (condition colValue : string) : string :=
  if String.eqb condition "like" || String.eqb condition "not like"
  then "%25" +++ colValue +++ "%25" else colValue.

Definition ip_clause (col condition value : string) : string :=
  "INET_NTOA(" +++ col +++ ") " +++ condition +++ " '" +++ value +++ "'".
Definition text_clause (col condition value : string) : string :=
  "lower(" +++ col +++ ") " +++ condition +++ " lower('" +++ value +++ "')".

(** The condition of the column that the form was opened for. *)
Definition first_query (is_ip : bool) (col condition value : string) : string :=
  "&searchquery=" +++ (if is_ip then ip_clause else text_clause) col condition (like_value condition value).

(** What a filter of another column adds to the query [q]. *)
Definition other_query (q : string) (is_ip : bool) (col condition value : string) : string :=
  let value := like_value condition value in
  if is_ip then
    if String.eqb q "" then q +++ "&searchquery=" +++ ip_clause col condition value
    else q +++ " and " +++ ip_clause col condition value
  else
    if String.eqb q "" then q +++ "&searchquery=" +++ ip_clause col condition value
    else q +++ " and " +++ text_clause col condition value.

(** [options[i].value] of the criterion list, [i] a property name. *)
Definition crit_option (i : string) : C string :=
  g ← glob;
  match toNumber i with
  | Fin q =>
      if (Pos.eqb (Qden q) 1) && (0 <=? Qnum q) && String.eqb i (Z_to_string (Qnum q))
      then need (critOptions g !! Z.to_nat (Qnum q)) else throw
  | _ => throw
  end.

(** [document.getElementById("dataformatid_...").value == 5] *)
Definition is_ip_column (id columnid : string) : C bool :=
  v ← prop e_value (field "dataformatid" id columnid);
  mret (num_eqb (toNumber v) (num_of_Z 5)).

(** The loop over the other columns, from number [i] on. *)
Fixpoint other_filters (id columnid : string) (n : nat) (i : Z) : C unit :=
  match n with
  | O => mret tt
  | S n =>
      let c := Z_to_string i in
      there ← exists_ (field "searchValue" id c);
      when_ (there && negb (num_eqb (num_of_Z i) (toNumber columnid))) (
        value ← prop e_value (field "searchValue" id c);
        when_ (negb (String.eqb value "")) (
          crit ← prop e_value (field "searchCrit" id c);
          condition ← crit_option crit;
          is_ip ← is_ip_column id c;
          col ← prop e_value (field "searchColName" id c);
          set_glob (fun g => set_searchQuery (other_query (searchQuery g) is_ip col condition value) g))) ;;;
      other_filters id columnid n (i + 1)
  end.

(** The number of rounds of [for (i = 0; i < totalCol; i++)]. *)
Definition loop_count (totalCol : string) : nat :=
  match toNumber totalCol with Fin q => Z.to_nat (Qround.Qceiling q) | _ => 0%nat end.

Definition progress_html : string := qq "<center><br><img src=`../images/progress.gif`/></center>".

Definition show_progress (what height id html : string) : C unit :=
  b ← exists_ (what +++ id);
  when_ b (set_html (what +++ id) html ;;; set_prop (with_style "height" height) (what +++ id)).

Definition getSearchResult : C unit :=
  id ← prop e_value "reportid";                 (* document.searchreport.reportid *)
  i ← prop e_value "searchreport.searchCritValue";
  condition ← crit_option i;
  columnid ← prop e_value "columnid";
  colName ← getElementById (field "searchColName" id columnid);
  colValue ← prop e_value "searchreport.txtsearchrep";
  set_prop (with_value colValue) (field "searchValue" id columnid) ;;;
  set_prop (with_value i) (field "searchCrit" id columnid) ;;;
  (if String.eqb colValue "" then
     set_glob (set_searchQuery "") ;;;
     set_prop (with_value "2") (field "searchCrit" id columnid) ;;;
     set_prop (with_value "filtered.png") (field "filterImg" id columnid)
   else
     set_prop (with_value "filter.png") (field "filterImg" id columnid) ;;;
     is_ip ← is_ip_column id columnid;
     colName ← need colName;
     set_glob (set_searchQuery (first_query is_ip (e_value colName) condition colValue))) ;;;
  totalCol ← prop e_value ("totalCol" +++ id);
  other_filters id columnid (loop_count totalCol) 0 ;;;
  show_progress "Con_graph" "20px" id "" ;;;
  show_progress "Con_table" "120px" id progress_html ;;;
  imgWidth ← prop e_value ("imgwidth" +++ id);
  imgHeight ← prop e_value ("imgheight" +++ id);
  combo ← getElementById ("Combo_selectsize" +++ id);
  let limit := match combo with Some e => e_html e | None => "5" end in
  g ← glob;
  ajax_get (conPath g +++ "/AjaxController?" +++ qString g +++ "&tabledata=on&graphdata=on&reportid=" +++ id
    +++ "&offset=0&limit=" +++ limit +++ "&imgwidth=" +++ imgWidth +++ "&imgheight=" +++ imgHeight
    +++ searchQuery g) "ajaxRequest" id ;;;
  hideSearch.

(** ** Tool tips and name resolution *)

(** [showToolTip(e, text)]: [e] is the position of the mouse, [None] for [null];
    [st] is how far the page is scrolled. *)
Definition showToolTip (st : num) (e : option (num * num)) (text : string) : C unit :=
  match e with
  | None => mret tt
  | Some (clientX, clientY) =>
      prop e_html "bubble_tooltip" ;;;
      set_html "bubble_tooltip_content" text ;;;
      set_prop (with_style "display" "block") "bubble_tooltip" ;;;
      let leftPos := num_sub clientX (num_of_Z 50) in
      let leftPos := if num_ltb leftPos (num_of_Z 0) then num_of_Z 0 else leftPos in
      set_length "left" (str leftPos +++ "px") "bubble_tooltip" ;;;
      set_length "top" (str (num_add (num_sub clientY (offsetHeight "bubble_tooltip")) st) +++ "px") "bubble_tooltip"
  end.
Definition hideToolTip : C unit := set_prop (with_style "display" "none") "bubble_tooltip".

(** The request does not carry the event: [SimpleAJAXCall] takes four arguments. *)
Definition resolveDNS (st : num) (e : num * num) (id colName : string) : C unit :=
  g ← glob;
  when_ (negb (DNSTimer g =? 1)) (
    set_glob (set_DNSTimer 1) ;;;
    showToolTip st (Some e) (qq "<img src=`../images/loader.gif` />Resolving DNS...") ;;;
    g ← glob;
    ajax_get (conPath g +++ "/AjaxController?resolvedns=true&ip=" +++ colName) "handleResolveDNS" id).

Definition handleResolveDNS (st : num) (xmlreq : option (option xml)) (e : option (num * num)) : C unit :=
  match xmlreq with
  | None => mret tt
  | Some root =>
      set_glob (set_DNSTimer 0) ;;;
      match root with
      | None =>
          set_html "searchLabel" "" ;;;
          set_html "searchLabeltxt" "&nbsp;&nbsp;&nbsp;Error while resolving DNS."
      | Some root =>
          set_html "searchLabel" "" ;;;
          ip ← need (item_text root 0);
          name ← need (item_text root 1);
          if String.eqb ip name
          then showToolTip st e "&nbsp;&nbsp;&nbsp;Can not resolve DNS "
          else showToolTip st e ("<b>&nbsp;&nbsp;&nbsp;" +++ name +++ "</b>")
      end
  end.

(** ** Download links *)

(** The link, the query that says what is downloaded, and the page size. *)
Definition pick_link (single group qs qg : string) (size : string) : C (string * string * string) :=
  b ← exists_ single;
  mret (if (b : bool) then (single, qs, size) else (group, qg, "10")).

Definition page_text (id : string) : C string :=
  o ← getElementById ("page" +++ id);
  mret match o with Some e => e_html e | None => "1" end.

(** [if (qString == "") qString = ...] *)
Definition default_query (id grpid : string) : C unit :=
  set_glob (fun g => if String.eqb (qString g) ""
                     then set_qString ("reportid=" +++ id +++ "&reportgroupid=" +++ grpid) g else g).

Definition set_link (id url : string) : C unit := set_prop (with_target "blank") id ;;; set_prop (with_href url) id.

Definition row_offset (size page : string) : num :=
  num_mul (toNumber size) (num_sub (toNumber page) (num_of_Z 1)).

Definition getPDF (id grpid : string) : C unit :=
  combo ← getElementById ("Combo_selectsize" +++ id);
  let size := match combo with Some e => e_html e | None => "5" end in
  link ← pick_link "pdfLinkForSingle" "pdfLinkForGroup" "pdfdata=single&" "pdfdata=group&" size;
  let '(aTag, qry, sizeValue) := link in
  pageValue ← page_text id;
  default_query id grpid ;;;
  imgWidth ← prop e_value ("imgwidth" +++ id);
  imgHeight ← prop e_value ("imgheight" +++ id);
  g ← glob;
  set_link aTag (conPath g +++ "/iview.pdf?" +++ qry +++ qString g +++ "&offset="
    +++ str (row_offset sizeValue pageValue) +++ "&limit=" +++ sizeValue +++ "&imgwidth=" +++ imgWidth
    +++ "&imgheight=" +++ imgHeight +++ lastorderby g +++ lastordertype g +++ searchQuery g).

Definition getXLS (id grpid : string) : C unit :=
  pageSize ← prop e_value ("pageSize" +++ id);
  link ← pick_link "xlsLinkForSingle" "xlsLinkForGroup" "xlsdata=single&" "xlsdata=group&"
           (str (num_sub (toNumber pageSize) (num_of_Z 1)));
  let '(aTag, qry, sizeValue) := link in
  pageValue ← page_text id;
  default_query id grpid ;;;
  imgWidth ← prop e_value ("imgwidth" +++ id);
  imgHeight ← prop e_value ("imgheight" +++ id);
  g ← glob;
  set_link aTag (conPath g +++ "/iview.xls?" +++ qry +++ qString g +++ "&offset="
    +++ str (row_offset sizeValue pageValue) +++ "&limit=1000&imgwidth=" +++ imgWidth
    +++ "&imgheight=" +++ imgHeight +++ lastorderby g +++ lastordertype g +++ searchQuery g).

Definition getXLSFile (offset tblname s indexCriteria : string) : C unit :=
  g ← glob;
  set_link "xlsLinkForArchive" (conPath g +++ "/iview.xls?archive=1&limit=1000&offset=" +++ offset
    +++ "&strCriteria=" +++ s +++ "&tblname=" +++ tblname +++ "&indexCriteria=" +++ indexCriteria).

(** ** Bookmarks *)

(** [decodeURIComponent] is the browser's; the result is what the form returns. *)
Definition checkBlankBookmark (decodeURIComponent : string -> string) (url : string) : C bool :=
  set_prop (with_value (decodeURIComponent (join " " (js_split url "+")))) "url" ;;;
  name ← prop e_value "bm_name";
  if String.eqb name "" then emit (Alert "Please Enter Bookmark Name") ;;; mret false
  else
    o ← getElementById "newbkgroup";
    match o with
    | Some e => if String.eqb (e_value e) "" then emit (Alert "Please Enter Bookmark Group Name") ;;; mret false
                else mret true
    | None => mret true
    end.

(** [gpvalue] is the value of the selected option of [bm_group]. *)
Definition addnewgroup (gpvalue : string) : C unit :=
  prop e_html "bm_group" ;;;
  set_html "newgroup"
    (if num_eqb (toNumber gpvalue) (num_of_Z 0)
     then "<input type='text'id='newbkgroup' name='newbkgroup' maxlength='20'>" else "").
End search.

(** ** The condition that is sent *)
Record filter_on := FilterOn { f_ip : bool; f_col : string; f_cond : string; f_value : string }.

Definition clause (f : filter_on) : string :=
  (if f_ip f then ip_clause else text_clause) (f_col f) (f_cond f) (like_value (f_cond f) (f_value f)).
Definition add_filter (q : string) (f : filter_on) : string :=
  other_query q (f_ip f) (f_col f) (f_cond f) (f_value f).

(** The filter of column [i] as the document has it; outer [None]: an exception. *)
Definition value_of (d : document) (id : string) : option string := e_value <$> d !! id.
Definition column_filter_state (d : document) (g : cglobals) (id columnid : string) (i : Z)
  : option (option filter_on) :=
  let c := Z_to_string i in
  match value_of d (field "searchValue" id c) with
  | None => Some None
  | Some value =>
      if num_eqb (num_of_Z i) (toNumber columnid) || String.eqb value "" then Some None
      else
        crit ← value_of d (field "searchCrit" id c);
        condition ← fst (crit_option crit (World d g []));
        fmt ← value_of d (field "dataformatid" id c);
        col ← value_of d (field "searchColName" id c);
        Some (Some (FilterOn (num_eqb (toNumber fmt) (num_of_Z 5)) col condition value))
  end.

Create HintDb keeps.
Section props.
Context `{Browser} `{Window}.
Abbreviation C := (M cglobals).

Lemma crit_option_world crit d g l g' :
  critOptions g' = critOptions g ->
  crit_option crit (World d g' l) = (fst (crit_option crit (World d g [])), World d g' l).
Proof.
  intros Hg. unfold crit_option, glob, mbind, M_bind. cbn [w_glob]. rewrite Hg.
  destruct (toNumber crit) as [| |q]; try done.
  destruct (_ && _ && _); [|done]. unfold need. by destruct (critOptions g !! _).
Qed.

Lemma prop_world {A} (f : elem -> A) k d (g : cglobals) l :
  prop f k (World d g l) = (f <$> d !! k, World d g l).
Proof. unfold prop. cbn [w_dom]. by destruct (d !! k). Qed.

Lemma is_ip_world d (g : cglobals) l id c e :
  d !! field "dataformatid" id c = Some e ->
  is_ip_column id c (World d g l) = (Some (num_eqb (toNumber (e_value e)) (num_of_Z 5)), World d g l).
Proof. intros E. unfold is_ip_column. by erewrite run_bind by (rewrite prop_world, E; reflexivity). Qed.

Lemma run_filter d g l id columnid i o :
  column_filter_state d g id columnid i = Some o ->
  forall n,
  other_filters id columnid (S n) i (World d g l)
  = other_filters id columnid n (i + 1)
      (World d (match o with Some f => set_searchQuery (add_filter (searchQuery g) f) g | None => g end) l).
Proof.
  intros Ho n. cbn [other_filters]. unfold column_filter_state, value_of in Ho.
  rewrite (run_bind _ _ _ (bool_decide (is_Some (d !! field "searchValue" id (Z_to_string i)))) (World d g l)) by done.
  destruct (d !! field "searchValue" id (Z_to_string i)) as [e|] eqn:E; cbn [fmap option_fmap option_map] in Ho.
  2: { rewrite bool_decide_eq_false_2 by (by intros [? ?]). cbn [andb when_]. by injection Ho as <-. }
  rewrite bool_decide_eq_true_2 by done. cbn [andb].
  destruct (num_eqb (num_of_Z i) (toNumber columnid)); cbn [orb negb when_] in *; [by injection Ho as <-|].
  assert (Hv : prop e_value (field "searchValue" id (Z_to_string i)) (World d g l) = (Some (e_value e), World d g l))
    by (rewrite prop_world, E; done).
  destruct (String.eqb (e_value e) "") eqn:Ev.
  { injection Ho as <-. erewrite run_bind; [reflexivity|].
    rewrite (run_bind _ _ _ _ _ Hv), Ev. done. }
  destruct (d !! field "searchCrit" id (Z_to_string i)) as [ec|] eqn:Ec; [|done].
  cbn [fmap option_fmap option_map mbind option_bind] in Ho.
  destruct (fst (crit_option (e_value ec) (World d g []))) as [condition|] eqn:Econd; [|done].
  cbn [mbind option_bind] in Ho.
  destruct (d !! field "dataformatid" id (Z_to_string i)) as [ef|] eqn:Ef; [|done].
  cbn [fmap option_fmap option_map mbind option_bind] in Ho.
  destruct (d !! field "searchColName" id (Z_to_string i)) as [en|] eqn:En; [|done].
  cbn [fmap option_fmap option_map mbind option_bind] in Ho. injection Ho as <-.
  erewrite run_bind; [reflexivity|]. rewrite (run_bind _ _ _ _ _ Hv), Ev. cbn [negb when_].
  erewrite run_bind by (rewrite prop_world, Ec; reflexivity).
  erewrite run_bind by (rewrite (crit_option_world _ d g l g) by done; rewrite Econd; reflexivity).
  erewrite run_bind by (apply is_ip_world; exact Ef).
  erewrite run_bind by (rewrite prop_world, En; reflexivity). done.
Qed.
Lemma column_filter_state_query d g q id columnid i :
  column_filter_state d (set_searchQuery q g) id columnid i = column_filter_state d g id columnid i.
Proof.
  unfold column_filter_state. destruct (value_of d (field "searchValue" id (Z_to_string i))); [|done].
  destruct (_ || _); [done|]. destruct (value_of d (field "searchCrit" id (Z_to_string i))); [|done].
  cbn [mbind option_bind]. by rewrite (crit_option_world _ d g [] (set_searchQuery q g)).
Qed.

(** The state of [n] columns, from number [i] on. *)
Fixpoint column_states d g id columnid (n : nat) (i : Z) : option (list (option filter_on)) :=
  match n with
  | O => Some []
  | S n =>
      o ← column_filter_state d g id columnid i;
      l ← column_states d g id columnid n (i + 1);
      Some (o :: l)
  end.

Definition actives (l : list (option filter_on)) : list filter_on := omap id l.

Lemma set_searchQuery_twice q q' g : set_searchQuery q (set_searchQuery q' g) = set_searchQuery q g.
Proof. done. Qed.
Lemma set_searchQuery_id g : set_searchQuery (searchQuery g) g = g.
Proof. by destruct g. Qed.

Lemma run_other_filters d g l id columnid n : forall i fs q,
  column_states d g id columnid n i = Some fs ->
  other_filters id columnid n i (World d (set_searchQuery q g) l)
  = (Some tt, World d (set_searchQuery (foldl add_filter q (actives fs)) g) l).
Proof.
  induction n as [|n IH]; intros i fs q Hfs; cbn [column_states] in Hfs; [by injection Hfs as <-|].
  destruct (column_filter_state d g id columnid i) as [o|] eqn:Eo; [|done]. cbn [mbind option_bind] in Hfs.
  destruct (column_states d g id columnid n (i + 1)) as [fs'|] eqn:Efs; [|done].
  cbn [mbind option_bind] in Hfs. injection Hfs as <-.
  rewrite (run_filter d (set_searchQuery q g) l id columnid i o)
    by (by rewrite column_filter_state_query).
  destruct o as [f|]; cbn [searchQuery set_searchQuery actives omap list_omap]; [|by apply IH].
  rewrite set_searchQuery_twice. by apply (IH (i + 1) fs' (add_filter q f)).
Qed.

Definition nonempty (q : string) : bool := negb (String.eqb q "").

Lemma sapp_nonempty a b : nonempty a = true -> nonempty (a +++ b) = true.
Proof. by destruct a. Qed.

Lemma add_filter_ne q f : nonempty q = true -> add_filter q f = q +++ " and " +++ clause f.
Proof.
  unfold nonempty, add_filter, other_query, clause. intros ->%negb_true_iff. by destruct (f_ip f).
Qed.

Lemma join_cons sep s l : join sep (s :: l) = s +++ (if decide (l = []) then "" else sep +++ join sep l).
Proof. destruct l; cbn [join]; [by rewrite sapp_nil_r|done]. Qed.

Lemma add_filters_ne fs : forall q c, nonempty c = true ->
  foldl add_filter (q +++ c) fs = q +++ join " and " (c :: map clause fs).
Proof.
  induction fs as [|f fs IH]; intros q c Hc; [done|]. cbn [foldl map].
  rewrite add_filter_ne by (destruct q; [exact Hc|done]).
  rewrite sapp_assoc, IH by (by apply sapp_nonempty).
  cbn [map]. rewrite (join_cons _ (c +++ _)), (join_cons _ c (_ :: _)), (join_cons _ (clause f)).
  rewrite (decide_False (P := _ :: _ = [])) by done. by rewrite !sapp_assoc.
Qed.

Lemma clause_ne f : nonempty (clause f) = true.
Proof. unfold clause. by destruct (f_ip f). Qed.

(** The query of a filter form: after the condition of the column that the form
    was opened for, the loop adds every other column that has a value, in the order
    of the columns, and what is sent is the conjunction of all the conditions; the
    document and the log stay as they were. *)
Theorem search_query_conjunction d g l id columnid n f0 fs :
  column_states d g id columnid n 0 = Some fs ->
  searchQuery g = first_query (f_ip f0) (f_col f0) (f_cond f0) (f_value f0) ->
  other_filters id columnid n 0 (World d g l)
  = (Some tt, World d (set_searchQuery ("&searchquery=" +++ join " and " (map clause (f0 :: actives fs))) g) l).
Proof.
  intros Hfs Hq. rewrite <- (set_searchQuery_id g) at 1. rewrite (run_other_filters d g l _ _ _ 0 fs) by done.
  rewrite Hq. change (first_query (f_ip f0) (f_col f0) (f_cond f0) (f_value f0)) with ("&searchquery=" +++ clause f0).
  by rewrite (add_filters_ne _ _ _ (clause_ne f0)).
Qed.

(** When the form's own value is empty, the condition of the next column that
    has one is always written for an IP address: a text column is compared through
    [INET_NTOA], whatever its format; only the conditions after it are right. *)
Theorem search_first_other_is_ip d g l id columnid n f fs :
  column_states d g id columnid n 0 = Some fs ->
  searchQuery g = "" -> head (actives fs) = Some f ->
  other_filters id columnid n 0 (World d g l)
  = (Some tt, World d (set_searchQuery ("&searchquery=" +++ join " and "
       (ip_clause (f_col f) (f_cond f) (like_value (f_cond f) (f_value f)) :: map clause (tail (actives fs)))) g) l).
Proof.
  intros Hfs Hq Hf. rewrite <- (set_searchQuery_id g) at 1. rewrite (run_other_filters d g l _ _ _ 0 fs) by done.
  rewrite Hq. destruct (actives fs) as [|f' fs'] eqn:E; [done|]. injection Hf as ->. cbn [foldl tail].
  assert (add_filter "" f = "&searchquery=" +++ ip_clause (f_col f) (f_cond f) (like_value (f_cond f) (f_value f))) as ->
    by (unfold add_filter, other_query; by destruct (f_ip f)).
  by rewrite add_filters_ne.
Qed.

(** Steps that do not touch the globals of the script. *)
Definition keeps_glob {A} (m : C A) : Prop := forall w o w', m w = (o, w') -> w_glob w' = w_glob w.

Lemma glob_keeps_bind {A B} (m : C A) (k : A -> C B) :
  keeps_glob m -> (forall a, keeps_glob (k a)) -> keeps_glob (m ≫= k).
Proof.
  intros Hm Hk w o w' E. unfold mbind, M_bind in E. destruct (m w) as [[a|] w1] eqn:E1.
  - rewrite (Hk a _ _ _ E). by apply (Hm _ _ _ E1).
  - injection E as <- <-. by apply (Hm _ _ _ E1).
Qed.
Lemma keeps_prop {A} (f : elem -> A) k : keeps_glob (prop f k).
Proof. intros w o w'. unfold prop. destruct (_ !! _); by intros [= _ <-]. Qed.
Lemma keeps_set_prop f k : keeps_glob (set_prop f k).
Proof. intros w o w'. unfold set_prop. destruct (_ !! _); by intros [= _ <-]. Qed.
Lemma keeps_set_html k s : keeps_glob (set_html k s).
Proof. intros w o w'. unfold set_html. destruct (_ !! _); by intros [= _ <-]. Qed.
Lemma keeps_emit e : keeps_glob (emit e).
Proof. by intros w o w' [= _ <-]. Qed.
Lemma glob_keeps_ret {A} (a : A) : keeps_glob (mret a).
Proof. by intros w o w' [= _ <-]. Qed.

#[local] Hint Resolve glob_keeps_bind keeps_prop keeps_set_prop keeps_set_html keeps_emit glob_keeps_ret : keeps.

Lemma keeps_showToolTip st e text : keeps_glob (showToolTip st e text).
Proof. destruct e as [[x y]|]; unfold showToolTip, set_length; eauto 20 with keeps. Qed.

Lemma resolveDNS_timer st e id name w w' :
  resolveDNS st e id name w = (Some tt, w') -> DNSTimer (w_glob w') = 1.
Proof.
  unfold resolveDNS. rewrite (run_bind glob _ w _ w) by done.
  destruct (Z.eqb_spec (DNSTimer (w_glob w)) 1) as [E|_]; cbn [negb when_]; [by intros [= <-]|].
  rewrite (run_bind (set_glob (set_DNSTimer 1)) _ w tt (World (w_dom w) (set_DNSTimer 1 (w_glob w)) (w_log w))) by done.
  intros F. set (txt := qq _) in F. set (w0 := World _ _ _) in F.
  destruct (showToolTip st (Some e) txt w0) as [[[]|] w1] eqn:E1;
    [rewrite (run_bind _ _ _ _ _ E1) in F|by (unfold mbind, M_bind in F; rewrite E1 in F)].
  apply keeps_showToolTip in E1. rewrite (run_bind glob _ w1 _ w1) in F by done.
  apply keeps_emit in F. rewrite F, E1. done.
Qed.

(** Once a name has been asked for, an answer that fails leaves the resolver
    waiting: the failed answer changes nothing and every later request for a name,
    at any place and for any column, does nothing. *)
Theorem failed_dns_blocks st e id name w w' :
  resolveDNS st e id name w = (Some tt, w') ->
  (forall st e', handleResolveDNS st None e' w' = (Some tt, w')) /\
  (forall st e id name, resolveDNS st e id name w' = (Some tt, w')).
Proof.
  intros E%resolveDNS_timer. split; [done|]. intros. unfold resolveDNS.
  rewrite (run_bind glob _ w' _ w') by done. by rewrite E.
Qed.
End props.

(** A report with an own column 0, a text column 1 and an address column 2. *)
Definition demo_filters (own : string) : document :=
  list_to_map [
    ("searchValue_7_0", with_value own new_elem);
    ("searchValue_7_1", with_value "bob" new_elem); ("searchCrit_7_1", with_value "1" new_elem);
    ("dataformatid_7_1", with_value "0" new_elem); ("searchColName_7_1", with_value "user" new_elem);
    ("searchValue_7_2", with_value "10.1.1.1" new_elem); ("searchCrit_7_2", with_value "0" new_elem);
    ("dataformatid_7_2", with_value "5" new_elem); ("searchColName_7_2", with_value "srcip" new_elem)].
Definition demo_query (q : string) : cglobals := CGlobals "/iview" "" "" "" true true q ∅ 0 ["="; "like"].
Definition demo_columns : list (option filter_on) :=
  [None; Some (FilterOn false "user" "like" "bob"); Some (FilterOn true "srcip" "=" "10.1.1.1")].

Lemma search_query_conjunction_witness :
  let q0 := "&searchquery=lower(host) = lower('a')" in
  other_filters "7" "0" 3 0 (World (demo_filters "a") (demo_query q0) [])
  = (Some tt, World (demo_filters "a") (demo_query
      "&searchquery=lower(host) = lower('a') and lower(user) like lower('%25bob%25') and INET_NTOA(srcip) = '10.1.1.1'") []).
Proof.
  exact (search_query_conjunction (demo_filters "a") (demo_query "&searchquery=lower(host) = lower('a')") [] "7" "0" 3
    (FilterOn false "host" "=" "a") demo_columns ltac:(vm_compute; reflexivity) eq_refl).
Defined.

Lemma search_first_other_is_ip_witness :
  other_filters "7" "0" 3 0 (World (demo_filters "") (demo_query "") [])
  = (Some tt, World (demo_filters "") (demo_query
      "&searchquery=INET_NTOA(user) like '%25bob%25' and INET_NTOA(srcip) = '10.1.1.1'") []).
Proof.
  exact (search_first_other_is_ip (demo_filters "") (demo_query "") [] "7" "0" 3
    (FilterOn false "user" "like" "bob") demo_columns ltac:(vm_compute; reflexivity) eq_refl eq_refl).
Defined.

Definition demo_tooltip : world cglobals :=
  World (list_to_map [("bubble_tooltip", new_elem); ("bubble_tooltip_content", new_elem)]) (demo_query "") [].
Lemma failed_dns_blocks_witness :
  let w := snd (resolveDNS (num_of_Z 0) (num_of_Z 5, num_of_Z 5) "7" "10.1.1.1" demo_tooltip) in
  length (w_log w) = 1%nat /\
  resolveDNS (num_of_Z 0) (num_of_Z 5, num_of_Z 5) "7" "10.9.9.9" w = (Some tt, w).
Proof.
  split; [vm_compute; reflexivity|].
  refine (proj2 (failed_dns_blocks (num_of_Z 0) (num_of_Z 5, num_of_Z 5) "7" "10.1.1.1" demo_tooltip _ _) _ _ _ _).
  vm_compute. reflexivity.
Defined.
