(* ===== verification/Report.v ===== *)
(** * A report page: its container and the request queue (container.js, ajax.js)
    The controls of a container ask for a page of records with [SimpleAJAXCall], which
    puts the request on the queue [g_ajax_obj] that the whole page shares.  This file
    joins the two models: every request that a container makes is a call on the queue.
    Its theorem follows any sequence of clicks down to the callbacks. *)
From S2P Require Import Prelude JsString JsNum JsVal Ui Ajax Dom Container.
Open Scope Z_scope.

(** The page of one report: what it shows, and the queue. *)
Record client := Client { on_page : world cglobals; g_ajax_obj : ajax_object }.

Section report.
Context `{Browser} `{Host}.

(** [SimpleAJAXCall(url, ajaxRequest, "GET", id)]; its result is not looked at. *)
Definition issue (st : ajax_object) (fx : effect) : ajax_object :=
  match fx with
  | Request url callback method param =>
      fst (SimpleAJAXCall (JStr url) (JFun callback) (JStr method) (JStr param) st)
  | _ => st
  end.

(** A handler of the container: what it does to the page, and its requests. *)
Definition on_client {A} (m : M cglobals A) (c : client) : client :=
  let w := snd (m (on_page c)) in
  Client w (fold_left issue (drop (length (w_log (on_page c))) (w_log w)) (g_ajax_obj c)).

(** The user enters a number in the field [gotopage]. *)
Definition enter (m : page_move) : M cglobals unit :=
  match m with MJump q => set_prop (with_value (Z_to_string q)) "gotopage" | _ => mret tt end.

Definition browse_one (id : string) (c : client) (m : page_move) : client :=
  on_client (enter m ;;; run_move id m) c.
Definition browse (id : string) (ms : list page_move) (c : client) : client :=
  fold_left (browse_one id) ms c.

(** A click on the head of a column: the script in its markup sets the order and shows
    the first page ([header_cell] of [ContainerData]). *)
Definition sort_by (id : string) (c : client) (orderby ordertype : string) : client :=
  on_client (set_glob (set_order orderby ordertype) ;;; firstPage id) c.
End report.

(** The pages that a sequence of clicks leads to, refused clicks left out. *)
Fixpoint visited (ms : list page_move) (p total : Z) : list Z :=
  match ms with
  | [] => []
  | m :: ms =>
      match move_target m p total with
      | Some q => q :: visited ms q total
      | None => visited ms p total
      end
  end.

Definition entered_ok (m : page_move) : Prop := match m with MJump q => 0 <= q | _ => True end.

Section browse.
Context `{Browser} `{Hhost : Host} (plain : parses_plain) (id : string) (Hid : id <> "gotopage").
Context (Hwb : host_ok).
Abbreviation csim := (sim (ckey id) cnames cboxes).

(** The queue's entry for page [p]. *)
Definition page_command (g : cglobals) (D : string -> elem) (s : Z) (rows : option Z) (p : Z) : command :=
  Command (JStr (page_url id g D p s rows)) (JFun "ajaxRequest") (JStr "GET") (JStr id) Null (JNum 0) Undefined.

Lemma page_url_nonempty g D p s rows : page_url id g D p s rows <> "".
Proof. unfold page_url. by destruct (conPath g). Qed.

Lemma page_command_sendable g D s rows p : sendable (page_command g D s rows p).
Proof.
  split; [|by eexists]. eexists. split; [done|]. split; [apply page_url_nonempty|by left].
Qed.

Lemma supports_ajax : SupportsAjax = true.
Proof using Hwb. unfold SupportsAjax, GetNewRequestObject. by rewrite (wb_xhr Hwb). Qed.

(** A request of a container is one call on the queue. *)
Lemma issue_page g D p s rows st :
  issue st (Request (page_url id g D p s rows) "ajaxRequest" "GET" id)
  = CallXMLHTTPObject (page_command g D s rows p) st.
Proof using Hwb.
  unfold issue, SimpleAJAXCall. rewrite supports_ajax. cbn [truthy is_function andb].
  rewrite (proj2 (String.eqb_neq _ _) (page_url_nonempty g D p s rows)). done.
Qed.

Lemma enter_spec D w m p total s rows :
  csim D w -> shows D p total s rows ->
  exists D' w', enter m w = (Some tt, w') /\ csim D' w' /\ shows D' p total s rows /\ same_url D D' /\
    e_html (D' "Con_table") = e_html (D "Con_table") /\ w_glob w' = w_glob w /\ w_log w' = w_log w /\
    match m with MJump q => e_value (D' "gotopage") = Z_to_string q | _ => True end.
Proof.
  intros Hs Hsh. destruct m as [| | | |q]; cbn [enter]; try by exists D, w.
  change "gotopage" with (ckey id "gotopage") at 1.
  destruct (run_set_prop _ cnames cboxes (ckey_inj id Hid) D w Hs (with_value (Z_to_string q)) "gotopage"
    ltac:(lit_in) (fun _ => eq_refl)) as (w' & E & Hs' & Hg & Hl).
  eexists _, w'. split; [exact E|]. split; [exact Hs'|]. split.
  { destruct Hsh. constructor; by rewrite upd_ne by discriminate. }
  split; [unfold same_url; by rewrite !upd_ne by discriminate|].
  split; [by rewrite upd_ne by discriminate|]. split; [done|]. split; [done|]. by rewrite upd_eq.
Qed.

(** One click: at most one call on the queue. *)
Lemma click_spec D w st m p total s rows :
  csim D w -> shows D p total s rows -> 1 <= p <= total -> 0 < s ->
  match rows with Some n => 0 <= n | None => True end -> entered_ok m ->
  exists D' w', csim D' w' /\ w_glob w' = w_glob w /\ same_url D D' /\
    browse_one id (Client w st) m = Client w'
      (match move_target m p total with
       | Some q => CallXMLHTTPObject (page_command (w_glob w) D s rows q) st
       | None => st
       end) /\
    e_html (D' "Con_table") =
      match move_target m p total with Some _ => strprocess | None => e_html (D "Con_table") end /\
    shows D' (default p (move_target m p total)) total s rows.
Proof using plain Hwb Hid.
  intros Hs Hsh Hp Hs0 Hrows Hm.
  destruct (enter_spec D w m p total s rows Hs Hsh) as (D1 & w1 & E1 & Hs1 & Hsh1 & Hu1 & Ht1 & Hg1 & Hl1 & Hgo).
  destruct (run_move_post plain id Hid D1 w1 m p total s rows) as (D2 & w2 & E2 & Hs2 & Hg2 & Hu2 & Ht2 & Hpost); try done.
  exists D2, w2. split; [done|]. split; [congruence|]. split; [by eapply same_url_trans|].
  unfold browse_one, on_client. cbn [on_page g_ajax_obj]. rewrite (run_bind _ _ _ _ _ E1), E2. cbn [snd].
  rewrite <- Hl1. destruct (move_target m p total) as [q|]; cbn [default from_option].
  - destruct Hpost as [Hsh2 ->]. split; [|done]. rewrite drop_app_length. cbn [fold_left].
    rewrite (same_url_page _ _ _ _ _ _ _ Hu1), Hg1. by rewrite issue_page.
  - destruct Hpost as [Hsh2 [msg ->]]. split; [|split; [congruence|done]]. by rewrite drop_app_length.
Qed.

(** A click on the head of a column: one call on the queue. *)
Lemma sort_spec D w st p total s rows orderby ordertype :
  csim D w -> shows D p total s rows -> 1 <= p <= total -> 0 < s ->
  match rows with Some n => 0 <= n | None => True end ->
  exists D' w', csim D' w' /\ w_glob w' = set_order orderby ordertype (w_glob w) /\ same_url D D' /\
    sort_by id (Client w st) orderby ordertype = Client w'
      (CallXMLHTTPObject (page_command (set_order orderby ordertype (w_glob w)) D s rows 1) st) /\
    shows D' 1 total s rows.
Proof using plain Hwb Hid.
  intros Hs Hsh Hp Hs0 Hrows. set (w1 := World (w_dom w) (set_order orderby ordertype (w_glob w)) (w_log w)).
  destruct (run_first plain id Hid D w1 p total s rows Hs Hsh Hp Hs0 Hrows)
    as (D2 & w2 & E2 & Hs2 & Hg2 & Hu2 & _ & Hsh2 & Hl2).
  exists D2, w2. split; [done|]. split; [done|]. split; [done|]. split; [|done].
  unfold sort_by, on_client. cbn [on_page g_ajax_obj]. rewrite (run_bind _ _ _ tt w1) by done. rewrite E2. cbn [snd].
  change (w_log w) with (w_log w1). rewrite Hl2, drop_app_length. cbn [fold_left]. by rewrite issue_page.
Qed.

(** Any number of clicks. *)
Lemma clicks_spec total s rows ms : forall D w st p sp,
  csim D w -> shows D p total s rows -> 1 <= p <= total -> 0 < s ->
  match rows with Some n => 0 <= n | None => True end -> Forall entered_ok ms -> refines st sp ->
  exists D' w' st' sp', browse id ms (Client w st) = Client w' st' /\ csim D' w' /\
    shows D' (default p (last (visited ms p total))) total s rows /\
    refines st' sp' /\ rtc fifo_step sp sp' /\ served sp' = served sp /\
    option_list (active sp') ++ waiting sp' =
      option_list (active sp) ++ waiting sp ++
      (page_command (w_glob w) D s rows <$> visited ms p total).
Proof using plain Hwb Hid.
  induction ms as [|m ms IH]; intros D w st p sp Hs Hsh Hp Hs0 Hrows Hms Hr.
  { exists D, w, st, sp. cbn. rewrite app_nil_r. split_and!; try done. }
  apply Forall_cons in Hms as [Hm Hms].
  destruct (click_spec D w st m p total s rows) as (D1 & w1 & Hs1 & Hg1 & Hu1 & E1 & _ & Hsh1); try done.
  pose proof (target_bounds m p total Hp) as Hb.
  unfold browse in *. cbn [fold_left visited]. rewrite E1. clear E1.
  assert (Heq : forall l : list Z, page_command (w_glob w1) D1 s rows <$> l
                = page_command (w_glob w) D s rows <$> l).
  { intros l. apply list_fmap_ext. intros _ q _. unfold page_command.
    by rewrite Hg1, (same_url_page _ _ _ _ _ _ _ Hu1). }
  destruct (move_target m p total) as [q|]; cbn [default from_option] in Hsh1.
  - destruct (CallXMLHTTPObject_refines Hwb _ (page_command (w_glob w) D s rows q) st sp
      (page_command_sendable _ _ _ _ _) Hr) as (sp1 & Hst & Hr1 & Hsv & Hq).
    destruct (IH D1 w1 (CallXMLHTTPObject (page_command (w_glob w) D s rows q) st) q sp1)
      as (D2 & w2 & st2 & sp2 & E2 & Hs2 & Hsh2 & Hr2 & Hrtc & Hsv2 & Hq2); try done.
    { unfold refines. by rewrite Hsv. }
    exists D2, w2, st2, sp2. split; [done|]. split; [done|]. split.
    { rewrite last_cons. by destruct (last (visited ms q total)). }
    split; [done|]. split; [by eapply rtc_l|]. split; [congruence|].
    rewrite Hq2, app_assoc, Hq, Heq. cbn. by rewrite <- !app_assoc.
  - destruct (IH D1 w1 st p sp) as (D2 & w2 & st2 & sp2 & E2 & Hs2 & Hsh2 & Hr2 & Hrtc & Hsv2 & Hq2); try done.
    exists D2, w2, st2, sp2. rewrite Heq in Hq2. done.
Qed.
End browse.

(** Clicking faster than the server answers.  From any state of the queue, with
    page [p] shown, make any sequence of moves between pages before the next answer
    arrives.  The requests of the moves that are accepted wait behind those that were
    already queued, in the order of the clicks, each for the records of the page its
    click led to.  When the server has answered them, nothing is queued or in flight,
    every request was sent once, in that order, and every answer went to its own
    callback with its own parameter - so the last answer drawn is that of the page
    the container shows. *)
Theorem quick_clicks `{Browser} `{Host} (plain : parses_plain) id react response D w st d a q p total s rows ms :
  id <> "gotopage" -> host_ok -> (forall cb r x y, react cb r x y = silent) ->
  sim (ckey id) cnames cboxes D w -> shows D p total s rows -> 1 <= p <= total -> 0 < s ->
  match rows with Some n => 0 <= n | None => True end -> Forall entered_ok ms ->
  refines st (Fifo d a q) ->
  exists D' w' st', browse id ms (Client w st) = Client w' st' /\
    shows D' (default p (last (visited ms p total))) total s rows /\
    let cs := d ++ option_list a ++ q ++ (page_command id (w_glob w) D s rows <$> visited ms p total) in
    let st2 := answer_all react (length cs - length d) response st' in
    _dm_queue st2 = [] /\ _dm_xmlhttprequestobject st2 = None /\
    sent_trace st2 = imap sent_event cs /\ called_trace st2 = call_args <$> cs.
Proof.
  intros Hid Hwb Hno Hs Hsh Hp Hs0 Hrows Hms Hr.
  destruct (clicks_spec plain id Hid Hwb total s rows ms D w st p _ Hs Hsh Hp Hs0 Hrows Hms Hr)
    as (D' & w' & st' & [d' a' q'] & E & _ & Hsh' & Hr' & _ & Hd & Hq). cbn in Hd, Hq. subst d'.
  exists D', w', st'. split; [done|]. split; [done|]. cbn zeta. rewrite <- Hq.
  rewrite length_app, Nat.add_comm, Nat.add_sub.
  destruct (answer_all_refines react Hwb response Hno q' d a' st' Hr') as [? _ Ha _ _ Hsent Hc].
  { intros ->. by destruct Hr' as [_ _ [_ ?] _ _ _ _]. }
  cbn in *. destruct Ha. by rewrite app_nil_r in Hsent.
Qed.

(** ** Five clicks while the page is still busy with two other requests *)
Definition impatient : list page_move := [MNext; MNext; MLast; MJump 1; MPrev].

Lemma impatient_ok : Forall entered_ok impatient.
Proof. by repeat constructor. Qed.

Lemma quick_clicks_witness :
  visited impatient 2 5 = [3; 4; 5; 1] /\
  exists D' w' st', browse (H0 := good_host) "7" impatient (Client (demo_world "2" "") busy) = Client w' st' /\
    shows D' 1 5 10 None /\
    called_trace (@answer_all good_host no_callbacks 6 (JObj "doc") st') =
      [(JFun "saved", JNum 2, JNum 0); (JFun "ajaxRequest", JNum 1, JNum 0);
       (JFun "ajaxRequest", JStr "7", JNum 0); (JFun "ajaxRequest", JStr "7", JNum 0);
       (JFun "ajaxRequest", JStr "7", JNum 0); (JFun "ajaxRequest", JStr "7", JNum 0)].
Proof.
  split; [reflexivity|].
  destruct (quick_clicks (H0 := good_host) demo_plain "7" no_callbacks (JObj "doc") (demo_D "2" "") (demo_world "2" "")
    busy [] (Some (normalise post_form)) [normalise get_report] 2 5 10 None impatient
    seven good_host_ok (fun _ _ _ _ => eq_refl) (demo_sim "2" "") (demo_shows 2 "" ltac:(lia)) ltac:(lia) ltac:(lia) I
    impatient_ok busy_refines) as (D' & w' & st' & E & Hsh & _ & _ & _ & Hc).
  exact (ex_intro _ D' (ex_intro _ w' (ex_intro _ st' (conj E (conj Hsh Hc))))).
Defined.
