(* ===== verification/ReportAnswer.v ===== *)
(** * An answer of the server on the page (container.js)
    What [ajaxRequest] does with a complete answer: the number of pages, the table
    and the graph are drawn, the parts of the container stay where they are, and no
    request is made.  [Report] uses this to follow clicks and answers. *)
From S2P Require Import Prelude JsString JsNum JsVal Ui Dom Container ContainerData.
Open Scope Z_scope.

(** ** Answers that can be drawn *)

(** A head of a column that is not searchable. *)
Definition plain_head (col : xml) : Prop :=
  is_Some (text_of col) /\ getAttribute col "issearchable" <> Some "1".
(** A record with its four parts. *)
Definition record_ok (col : xml) : Prop :=
  exists d, text_of col = Some d /\ (4 <= length (js_split d "||"))%nat.
Definition table_ok (node : xml) : Prop :=
  match kids node with
  | [] => True
  | head :: rows => Forall plain_head (kids head) /\ Forall (fun row => Forall record_ok (kids row)) rows
  end.
(** The graph: nothing, or the map and its four texts. *)
Definition graph_ok (node : xml) : Prop :=
  match kids node with
  | [] => False
  | row :: _ => kids row = [] \/ forall i, (1 <= i <= 4)%nat -> is_Some (item_text row i)
  end.

(** The globals but for the formats of the columns. *)
Definition same_but_formats (g g' : cglobals) : Prop :=
  g' = CGlobals (conPath g) (qString g) (lastorderby g) (lastordertype g) (isSortOnColumn g) (isViewAllLink g)
         (searchQuery g) (columnDataFormat g') (DNSTimer g) (critOptions g).

Lemma same_but_formats_refl g : same_but_formats g g.
Proof. by destruct g. Qed.
Lemma same_but_formats_trans g1 g2 g3 :
  same_but_formats g1 g2 -> same_but_formats g2 g3 -> same_but_formats g1 g3.
Proof. unfold same_but_formats. intros E1 E2. rewrite E2, E1. done. Qed.

(** ** Scripts that only compute
    [computes m w Q]: on [w] the script returns a value in [Q] and leaves the document
    and the log alone. *)
Definition computes {A} (m : M cglobals A) (w : world cglobals) (Q : A -> Prop) : Prop :=
  exists a w', m w = (Some a, w') /\ Q a /\ w_dom w' = w_dom w /\ w_log w' = w_log w /\
    same_but_formats (w_glob w) (w_glob w').

Section computes.
Context `{Browser}.

Lemma computes_ret {A} (a : A) w (Q : A -> Prop) : Q a -> computes (mret a) w Q.
Proof. intros HQ. exists a, w. split; [done|]. split; [done|]. by destruct (w_glob w). Qed.

Lemma computes_bind {A B} (m : M cglobals A) (k : A -> M cglobals B) w (P : A -> Prop) (Q : B -> Prop) :
  computes m w P ->
  (forall a w', P a -> w_dom w' = w_dom w -> computes (k a) w' Q) -> computes (m ≫= k) w Q.
Proof.
  intros (a & w1 & E1 & HP & Hd1 & Hl1 & Hg1) Hk.
  destruct (Hk a w1 HP Hd1) as (b & w2 & E2 & HQ & Hd2 & Hl2 & Hg2).
  exists b, w2. rewrite (run_bind _ _ _ _ _ E1). split; [done|]. split; [done|].
  split; [congruence|]. split; [congruence|]. eapply same_but_formats_trans; [exact Hg1|exact Hg2].
Qed.

Lemma computes_glob {B} (k : cglobals -> M cglobals B) w (Q : B -> Prop) :
  (forall g, computes (k g) w Q) -> computes (glob ≫= k) w Q.
Proof. intros Hk. destruct (Hk (w_glob w)) as (b & w2 & E2 & Hr). by exists b, w2. Qed.

Lemma computes_need {A B} (o : option A) a (k : A -> M cglobals B) w (Q : B -> Prop) :
  o = Some a -> computes (k a) w Q -> computes (need o ≫= k) w Q.
Proof. by intros ->. Qed.

Lemma computes_format {B} j v (k : M cglobals B) w (Q : B -> Prop) :
  (forall w', w_dom w' = w_dom w -> computes k w' Q) ->
  computes (set_glob (set_dataFormat j v) ;;; k) w Q.
Proof.
  intros Hk. apply (computes_bind _ _ _ (fun _ => True)); [|intros; by apply Hk].
  exists tt. eexists. split; [reflexivity|]. split; [done|]. split; [done|]. split; [done|].
  cbn [w_glob]. by destruct (w_glob w).
Qed.

Lemma computes_weaken {A} (m : M cglobals A) w (P Q : A -> Prop) :
  (forall a, P a -> Q a) -> computes m w P -> computes m w Q.
Proof. intros HPQ (a & w' & E & HP & Hr). exists a, w'. split; [done|]. split; [by apply HPQ|done]. Qed.

(** The header: no column is searchable, so that no search field is made. *)
Lemma header_cells_computes id cols : forall j w,
  Forall plain_head cols -> computes (header_cells id j cols) w (fun r => snd r = "").
Proof.
  induction cols as [|col cols IH]; intros j w Hc; cbn [header_cells]; [by apply computes_ret|].
  apply Forall_cons in Hc as [[[d Hd] Hns] Hc].
  apply (computes_need _ d); [done|]. apply computes_format. intros w1 _.
  rewrite bool_decide_eq_false_2 by done.
  apply (computes_bind _ _ _ (fun s => s = "")); [by apply computes_ret|]. intros ? w2 -> _.
  apply (computes_bind _ _ _ (fun _ => True)); [by apply computes_ret|]. intros f w3 _ _.
  apply computes_glob. intros g. eapply computes_bind; [by apply IH|].
  intros r w4 Hr _. apply computes_ret. done.
Qed.

Lemma data_cells_computes id cut cols : forall j w,
  Forall record_ok cols -> computes (data_cells id cut j cols) w (fun _ => True).
Proof.
  induction cols as [|col cols IH]; intros j w Hc; cbn [data_cells]; [by apply computes_ret|].
  apply Forall_cons in Hc as [(d & Hd & Hlen) Hc].
  apply (computes_need _ d); [done|]. apply computes_glob. intros g.
  match goal with |- computes (need (data_cell ?a ?b ?c) ≫= _) _ _ =>
    destruct (proj2 (data_cell_defined a b c) Hlen) as [s Hs] end.
  apply (computes_need _ s); [done|]. eapply computes_bind; [by apply IH|].
  intros r w1 _ _. by apply computes_ret.
Qed.

Lemma data_rows_computes id len rows : forall i w,
  Forall (fun row => Forall record_ok (kids row)) rows -> computes (data_rows id len i rows) w (fun _ => True).
Proof.
  induction rows as [|row rows IH]; intros i w Hr; cbn [data_rows]; [by apply computes_ret|].
  apply Forall_cons in Hr as [Hrow Hr]. eapply computes_bind; [by apply data_cells_computes|].
  intros c w1 _ _. eapply computes_bind; [by apply IH|]. intros t w2 _ _. by apply computes_ret.
Qed.
End computes.

(** ** Drawing an answer *)
Section draw.
Context `{Browser} (plain : parses_plain) (rereads : reads_back) (id : string) (Hid : id <> "gotopage").
Context (replaceQueryString : string -> string -> string -> string) (serialize : xml -> string).
Abbreviation csim := (sim (ckey id) cnames cboxes).

Lemma sim_dom D (w w' : world cglobals) : csim D w -> w_dom w' = w_dom w -> csim D w'.
Proof. intros Hs E p Hp. rewrite E. by apply Hs. Qed.

(** A step that keeps what the paging of the container looks at, and makes no request. *)
Record keeps (D : string -> elem) (w : world cglobals) (D' : string -> elem) (w' : world cglobals) : Prop := Keeps {
  kp_sim : csim D' w';
  kp_view : same_view D D';
  kp_log : w_log w' = w_log w;
  kp_glob : same_but_formats (w_glob w) (w_glob w')
}.

Lemma keeps_refl D w : csim D w -> keeps D w D w.
Proof. intros Hs. by constructor; [| | |apply same_but_formats_refl]. Qed.

Lemma keeps_trans D1 w1 D2 w2 D3 w3 : keeps D1 w1 D2 w2 -> keeps D2 w2 D3 w3 -> keeps D1 w1 D3 w3.
Proof.
  intros [S1 V1 L1 G1] [S2 V2 L2 G2]. constructor; [done| |congruence|].
  - destruct V1 as (? & ? & ? & ? & ? & ? & ?), V2 as (? & ? & ? & ? & ? & ? & ?). repeat split; congruence.
  - eapply same_but_formats_trans; [exact G1|exact G2].
Qed.

Lemma keeps_computes {A} (m : M cglobals A) D w Q :
  csim D w -> computes m w Q -> exists a w', m w = (Some a, w') /\ Q a /\ keeps D w D w'.
Proof.
  intros Hs (a & w' & E & HQ & Hd & Hl & Hg). exists a, w'. split; [done|]. split; [done|].
  constructor; [by eapply sim_dom|done|done|done].
Qed.

(** Changing a value that paging does not look at. *)
Lemma keeps_value D w v p :
  csim D w -> p ∈ cnames -> ~ (p ∈ ["totalRecVal"; "totalNumOfDbRows"; "imgwidth"; "imgheight"]) ->
  exists w', set_prop (with_value v) (ckey id p) w = (Some tt, w') /\ keeps D w (upd p (with_value v) D) w'.
Proof using Hid.
  intros Hs Hp Hnot.
  destruct (run_set_prop _ cnames cboxes (ckey_inj id Hid) D w Hs (with_value v) p Hp (fun _ => eq_refl))
    as (w' & E & Hs' & Hg & Hl).
  exists w'. split; [done|]. constructor; [done| |done|rewrite Hg; apply same_but_formats_refl].
  rewrite !not_elem_of_cons in Hnot. destruct Hnot as (N1 & N2 & N3 & N4 & _).
  unfold same_view, same_url. rewrite (upd_ne _ "totalRecVal"), (upd_ne _ "totalNumOfDbRows"),
      (upd_ne _ "imgwidth"), (upd_ne _ "imgheight") by congruence.
  unfold upd. repeat split; by destruct (String.eqb _ _).
Qed.

Lemma keeps_hidden D w :
  csim D w -> exists s w', inner_html ("hiddenDiv" +++ id) w = (Some s, w) /\
    set_html ("hiddenDiv" +++ id) s w = (Some tt, w') /\
    keeps D w (upd "hiddenDiv" (with_html s) D) w'.
Proof using Hid rereads.
  intros Hs. change ("hiddenDiv" +++ id) with (ckey id "hiddenDiv").
  destruct (run_reread _ cnames cboxes (ckey_inj id Hid) D w Hs "hiddenDiv" rereads ltac:(lit_in))
    as (s & w' & E1 & E2 & Hs' & Hg & Hl).
  exists s, w'. split; [done|]. split; [done|].
  constructor; [done|by unfold same_view, same_url; rewrite !upd_ne by discriminate|done|].
  rewrite Hg. apply same_but_formats_refl.
Qed.

Lemma run_header_row D w head only :
  csim D w -> Forall plain_head (kids head) ->
  exists t D' w', header_row id head only w = (Some t, w') /\ keeps D w D' w'.
Proof using Hid rereads.
  intros Hs Hh. unfold header_row. change ("totalCol" +++ id) with (ckey id "totalCol").
  match goal with |- context [set_prop (with_value ?v) (ckey id "totalCol")] =>
    destruct (keeps_value D w v "totalCol" Hs) as (w1 & E1 & K1); [lit_in|rewrite !elem_of_cons, elem_of_nil; by intros [?|[?|[?|[?|[]]]]]|] end.
  rewrite (run_bind _ _ _ _ _ E1). clear E1.
  destruct (keeps_computes _ _ w1 _ (kp_sim _ _ _ _ K1) (header_cells_computes id (kids head) 0 w1 Hh))
    as (r & w2 & E2 & Hr & K2).
  rewrite (run_bind _ _ _ _ _ E2). clear E2. pose proof (keeps_trans _ _ _ _ _ _ K1 K2) as K.
  change ("isfiltered" +++ id) with (ckey id "isfiltered").
  rewrite (run_bind _ _ _ _ _ (run_prop _ _ _ _ w2 (kp_sim _ _ _ _ K) e_value "isfiltered" ltac:(lit_in))).
  destruct (String.eqb _ _); cbn [when_].
  - destruct (keeps_value _ w2 "true" "isfiltered" (kp_sim _ _ _ _ K)) as (w3 & E3 & K3);
      [lit_in|rewrite !elem_of_cons, elem_of_nil; by intros [?|[?|[?|[?|[]]]]]|].
    destruct (keeps_hidden _ w3 (kp_sim _ _ _ _ K3)) as (s & w4 & E4 & E5 & K4).
    assert (E : (set_prop (with_value "true") (ckey id "isfiltered") ;;;
      hidden ← inner_html ("hiddenDiv" +++ id); set_html ("hiddenDiv" +++ id) (hidden +++ snd r)) w2 = (Some tt, w4)).
    { rewrite (run_bind _ _ _ _ _ E3), (run_bind _ _ _ _ _ E4), Hr, sapp_nil_r. exact E5. }
    rewrite (run_bind _ _ _ _ _ E). eexists _, _, w4. split; [reflexivity|]. exact (keeps_trans _ _ _ _ _ _ K (keeps_trans _ _ _ _ _ _ K3 K4)).
  - eexists _, _, w2. split; [reflexivity|]. exact K.
Qed.
(** ** The table *)

(** Markup that defines the table and no part of the container. *)
Definition drawable (t : string) : Prop :=
  foreign (ckey id) cnames t /\ exists e, ("tableData" +++ id, e) ∈ parse_html t.

(** [t] is the markup of the table of [node], as some state of the page makes it. *)
Definition table_of (node : xml) (t : string) : Prop :=
  exists D w b w', csim D w /\ table_markup replaceQueryString id node w = (Some (t, b), w').

Lemma run_table_markup D w node :
  csim D w -> table_ok node -> isViewAllLink (w_glob w) = false ->
  exists t D' w', table_markup replaceQueryString id node w = (Some (t, false), w') /\ keeps D w D' w'.
Proof using Hid rereads.
  intros Hs Hok Hv. unfold table_markup.
  change (prop (fun e => default "" (e_style e !! "width")) id) with
    (prop (G:=cglobals) (fun e => default "" (e_style e !! "width")) (ckey id "")).
  rewrite (run_bind _ _ _ _ _ (run_prop _ _ _ D w Hs _ "" ltac:(lit_in))).
  assert (exists tbl D' w', (match kids node with
         | [] => mret ""
         | head :: rows =>
             h ← header_row id head (match rows with [] => true | _ => false end);
             t ← data_rows id (of_parse (parseInt (default "" (e_style (D "") !! "width")))) 1 rows;
             mret (h +++ t)
         end) w = (Some tbl, w') /\ keeps D w D' w') as (tbl & D' & w' & E & K).
  { unfold table_ok in Hok. destruct (kids node) as [|head rows]; [by eexists _, _, _; split; [|apply keeps_refl]|].
    destruct Hok as [Hh Hr].
    destruct (run_header_row D w head (match rows with [] => true | _ => false end) Hs Hh) as (h & D1 & w1 & E1 & K1).
    rewrite (run_bind _ _ _ _ _ E1).
    destruct (keeps_computes _ D1 w1 _ (kp_sim _ _ _ _ K1)
      (data_rows_computes id (of_parse (parseInt (default "" (e_style (D "") !! "width")))) rows 1 w1 Hr))
      as (t & w2 & E2 & _ & K2).
    rewrite (run_bind _ _ _ _ _ E2). eexists _, _, w2. split; [reflexivity|].
    exact (keeps_trans _ _ _ _ _ _ K1 K2). }
  rewrite (run_bind _ _ _ _ _ E). rewrite (run_bind _ _ _ _ _ (run_glob w')).
  assert (isViewAllLink (w_glob w') = false) as Hv'.
  { pose proof (kp_glob _ _ _ _ K) as Hg. by rewrite Hg. }
  rewrite Hv'. cbn [andb]. eexists _, D', w'. split; [reflexivity|exact K].
Qed.
Lemma set_prop_defined f k x (w w' : world cglobals) :
  set_prop f k w = (Some tt, w') -> is_Some (w_dom w !! x) -> is_Some (w_dom w' !! x).
Proof.
  unfold set_prop. destruct (w_dom w !! k); [|done]. intros [= <-]. cbn [w_dom].
  destruct (decide (x = k)) as [->|]; [rewrite lookup_insert_eq; by eexists|by rewrite lookup_insert_ne].
Qed.

(** A change of the style of [Con_table] or [Con_graph]. *)
Lemma keeps_style D w a v p :
  csim D w -> p ∈ cnames ->
  exists w', set_prop (with_style a v) (ckey id p) w = (Some tt, w') /\ keeps D w (upd p (with_style a v) D) w'.
Proof using Hid.
  intros Hs Hp.
  destruct (run_set_prop _ cnames cboxes (ckey_inj id Hid) D w Hs (with_style a v) p Hp (fun _ => eq_refl))
    as (w' & E & Hs' & Hg & Hl).
  exists w'. split; [done|]. constructor; [done| |done|rewrite Hg; apply same_but_formats_refl].
  unfold same_view, same_url, upd. repeat split; by destruct (String.eqb _ _).
Qed.

(** The height of the table from the number of its rows. *)
Lemma run_setTableHeight D w :
  csim D w -> exists v w', setTableHeight id w = (Some tt, w') /\ keeps D w (upd "Con_table" (with_style "height" v) D) w' /\
    forall x, is_Some (w_dom w !! x) -> is_Some (w_dom w' !! x).
Proof using Hid.
  intros Hs. unfold setTableHeight. change ("pageSize" +++ id) with (ckey id "pageSize").
  rewrite (run_bind _ _ _ _ _ (run_prop _ _ _ D w Hs e_value "pageSize" ltac:(lit_in))).
  change ("Con_table" +++ id) with (ckey id "Con_table").
  match goal with |- context [with_style "height" ?v] => destruct (keeps_style D w "height" v "Con_table" Hs) as (w' & E & K); [lit_in|] end.
  eexists _, w'. split; [exact E|]. split; [exact K|]. intros x. by apply (set_prop_defined _ _ x _ _ E).
Qed.

Lemma keeps_foreign D w t p :
  csim D w -> p ∈ ["Con_table"; "Con_graph"] -> foreign (ckey id) cnames t ->
  exists w', set_html (ckey id p) t w = (Some tt, w') /\ keeps D w (upd p (with_html t) D) w' /\
    forall k e, (k, e) ∈ parse_html t -> is_Some (w_dom w' !! k).
Proof using Hid.
  intros Hs Hp Hf. rewrite !elem_of_cons, elem_of_nil in Hp.
  destruct (run_set_foreign _ cnames cboxes (ckey_inj id Hid) cboxes_names D w Hs t p)
    as (w' & E & Hs' & Hg & Hl & Hd); [destruct Hp as [->|[->|[]]]; lit_in|done|].
  exists w'. split; [done|]. split; [|done]. constructor; [done| |done|rewrite Hg; apply same_but_formats_refl].
  unfold same_view, same_url.
  destruct Hp as [->|[->|[]]]; cbn; repeat split; (rewrite upd_ne by discriminate || unfold upd); done.
Qed.

Lemma run_ajax_table D w node :
  csim D w -> table_ok node -> isViewAllLink (w_glob w) = false -> (forall t, table_of node t -> drawable t) ->
  exists t D' w', ajax_table replaceQueryString id node w = (Some tt, w') /\ keeps D w D' w' /\
    table_of node t /\ e_html (D' "Con_table") = t.
Proof using Hid rereads.
  intros Hs Hok Hv Hdraw. unfold ajax_table.
  destruct (run_table_markup D w node Hs Hok Hv) as (t & D1 & w1 & E1 & K1).
  assert (table_of node t) as Ht by by exists D, w, false, w1.
  destruct (Hdraw t Ht) as [Hf [e He]]. rewrite (run_bind _ _ _ _ _ E1). cbn beta iota.
  change ("Con_table" +++ id) with (ckey id "Con_table").
  destruct (keeps_foreign D1 w1 t "Con_table" (kp_sim _ _ _ _ K1)) as (w2 & E2 & K2 & Hd2); [by left|done|].
  rewrite (run_bind _ _ _ _ _ E2). change ("pageSize" +++ id) with (ckey id "pageSize").
  match goal with |- context [with_value ?v] =>
    destruct (keeps_value _ w2 v "pageSize" (kp_sim _ _ _ _ K2)) as (w3 & E3 & K3);
      [lit_in|rewrite !elem_of_cons, elem_of_nil; by intros [?|[?|[?|[?|[]]]]]|] end.
  rewrite (run_bind _ _ _ _ _ E3).
  destruct (run_setTableHeight _ w3 (kp_sim _ _ _ _ K3)) as (v & w4 & E4 & K4 & Hd4).
  rewrite (run_bind _ _ _ _ _ E4).
  destruct (Hd4 _ (set_prop_defined _ _ _ _ _ E3 (Hd2 _ _ He))) as [e4 He4].
  unfold highlighttable. rewrite (run_bind _ (fun _ => mret tt) w4 (e_html e4) w4) by (unfold prop; by rewrite He4).
  exists t. eexists _, w4. split; [reflexivity|]. split.
  - exact (keeps_trans _ _ _ _ _ _ K1 (keeps_trans _ _ _ _ _ _ K2 (keeps_trans _ _ _ _ _ _ K3 K4))).
  - split; [done|]. rewrite upd_eq. cbn [with_style e_html]. rewrite upd_ne by discriminate. by rewrite upd_eq.
Qed.
(** ** The graph, and the whole answer *)
Definition graph_of (node : xml) (t : string) : Prop :=
  exists map f u wd h, t = graph_html serialize map f u wd h /\
    exists row rest, kids node = row :: rest /\ head (kids row) = Some map /\
      item_text row 1 = Some f /\ item_text row 2 = Some u /\ item_text row 3 = Some wd /\ item_text row 4 = Some h.

Lemma run_ajax_graph D w node :
  csim D w -> graph_ok node -> (forall t, graph_of node t -> foreign (ckey id) cnames t) ->
  exists D' w', ajax_graph serialize id node w = (Some tt, w') /\ keeps D w D' w' /\ D' "Con_table" = D "Con_table".
Proof using Hid.
  intros Hs Hok Hdraw. unfold ajax_graph, graph_ok in *. destruct (kids node) as [|row rest] eqn:En; [done|].
  cbn [lookup list_lookup need]. rewrite (run_bind _ _ w row w) by done.
  destruct (kids row) as [|map items] eqn:Er; [by exists D, w; split; [|split; [apply keeps_refl|]]|].
  destruct Hok as [|Hok]; [done|].
  destruct (Hok 1%nat ltac:(lia)) as [f Hf], (Hok 2%nat ltac:(lia)) as [u Hu],
    (Hok 3%nat ltac:(lia)) as [wd Hwd], (Hok 4%nat ltac:(lia)) as [h Hh].
  rewrite Hf, Hu, Hwd, Hh. cbn [need]. rewrite (run_bind _ _ w f w), (run_bind _ _ w u w), (run_bind _ _ w wd w),
    (run_bind _ _ w h w) by done.
  change ("Con_graph" +++ id) with (ckey id "Con_graph").
  destruct (keeps_foreign D w (graph_html serialize map f u wd h) "Con_graph" Hs) as (w1 & E1 & K1 & _).
  { right. by left. }
  { apply Hdraw. exists map, f, u, wd, h. split; [done|]. exists row, rest. by rewrite Er. }
  rewrite (run_bind _ _ _ _ _ E1).
  destruct (keeps_style _ w1 "height" (h +++ "px") "Con_graph" (kp_sim _ _ _ _ K1)) as (w2 & E2 & K2); [lit_in|].
  eexists _, w2. split; [exact E2|]. split; [exact (keeps_trans _ _ _ _ _ _ K1 K2)|].
  by rewrite !upd_ne by discriminate.
Qed.

(** A complete answer: the number of records, a table, and perhaps a graph. *)
Record answer_ok (n : Z) (root node : xml) : Prop := AnswerOk {
  ak_total : getAttribute root "totalRecord" = Some (Z_to_string n);
  ak_node : kids root !! 0%nat = Some node;
  ak_table : table_ok node;
  ak_drawable : forall t, table_of node t -> drawable t;
  ak_graph : forall g, kids root !! 1%nat = Some g -> graph_ok g /\ forall t, graph_of g t -> foreign (ckey id) cnames t
}.

Lemma run_visible D w p : csim D w -> p ∈ cnames ->
  visible (ckey id p) w = (Some (negb (String.eqb (e_class (D p)) "hidden")), w).
Proof. intros Hs Hp. unfold visible. by rewrite (run_bind _ _ _ _ _ (run_getElementById _ _ _ D w Hs p Hp)). Qed.

(** An answer without its table: the callback throws. *)
Lemma run_ajaxRequest_throws D w root p total s rows n :
  csim D w -> shows D p total s rows -> 1 <= p -> 0 < s -> 0 <= n ->
  getAttribute root "totalRecord" = Some (Z_to_string n) -> kids root = [] -> e_class (D "Con_table") <> "hidden" ->
  exists D' w', ajaxRequest replaceQueryString serialize (Some (Some root)) id w = (None, w') /\
    csim D' w' /\ shows D' (Z.min p (pages n s)) (pages n s) s (Some n) /\ 1 <= Z.min p (pages n s) <= pages n s.
Proof using Hid plain.
  intros Hs Hsh Hp Hs0 Hn Htot Hkids Hcls. unfold ajaxRequest.
  destruct (ajax_total_shows plain id Hid D w root p total s rows n Hs Hsh Hp Hs0 Hn Htot)
    as (D1 & w1 & E1 & Hs1 & _ & _ & [Hc1 _] & Hsh1 & Hp1).
  rewrite (run_bind _ _ _ _ _ E1). change ("Con_table" +++ id) with (ckey id "Con_table").
  rewrite (run_bind _ _ _ _ _ (run_visible D1 w1 "Con_table" Hs1 ltac:(lit_in))).
  rewrite Hc1, (proj2 (String.eqb_neq _ _) Hcls), Hkids. cbn [negb lookup list_lookup].
  by exists D1, w1.
Qed.

(** A complete answer is drawn. *)
Lemma run_ajaxRequest D w root node p total s rows n :
  csim D w -> shows D p total s rows -> 1 <= p -> 0 < s -> 0 <= n -> answer_ok n root node ->
  isViewAllLink (w_glob w) = false -> e_class (D "Con_table") <> "hidden" ->
  exists t D' w', ajaxRequest replaceQueryString serialize (Some (Some root)) id w = (Some tt, w') /\
    csim D' w' /\ shows D' (Z.min p (pages n s)) (pages n s) s (Some n) /\ same_url D D' /\
    w_log w' = w_log w /\ same_but_formats (w_glob w) (w_glob w') /\
    table_of node t /\ e_html (D' "Con_table") = t.
Proof using Hid rereads plain.
  intros Hs Hsh Hp Hs0 Hn [Htot Hnode Hok Hdraw Hgraph] Hv Hcls. unfold ajaxRequest.
  destruct (ajax_total_shows plain id Hid D w root p total s rows n Hs Hsh Hp Hs0 Hn Htot)
    as (D1 & w1 & E1 & Hs1 & Hg1 & Hl1 & Hu1 & Hsh1 & _).
  rewrite (run_bind _ _ _ _ _ E1). change ("Con_table" +++ id) with (ckey id "Con_table").
  rewrite (run_bind _ _ _ _ _ (run_visible D1 w1 "Con_table" Hs1 ltac:(lit_in))).
  destruct Hu1 as (Hc1 & Hu1). rewrite Hc1. rewrite (proj2 (String.eqb_neq _ _) Hcls). cbn [negb].
  rewrite Hnode. cbn [need].
  destruct (run_ajax_table D1 w1 node Hs1 Hok ltac:(by rewrite Hg1) Hdraw) as (t & D2 & w2 & E2 & K2 & Ht & Hd).
  rewrite (run_bind (mret node ≫= ajax_table replaceQueryString id) _ w1 tt w2) by exact E2.
  change ("Con_graph" +++ id) with (ckey id "Con_graph").
  rewrite (run_bind _ _ _ _ _ (run_visible D2 w2 "Con_graph" (kp_sim _ _ _ _ K2) ltac:(lit_in))).
  assert (exists D3 w3, match (if negb (String.eqb (e_class (D2 "Con_graph")) "hidden") then kids root !! 1%nat else None) with
      | Some node => ajax_graph serialize id node | None => mret tt end w2 = (Some tt, w3) /\
      keeps D2 w2 D3 w3 /\ D3 "Con_table" = D2 "Con_table") as (D3 & w3 & E3 & K3 & Hd3).
  { destruct (negb _); [destruct (kids root !! 1%nat) as [g|] eqn:Eg|].
    - destruct (Hgraph g eq_refl) as [Hgo Hgd]. by apply run_ajax_graph; [apply K2| |].
    - exists D2, w2. split; [done|]. split; [apply keeps_refl, K2|done].
    - exists D2, w2. split; [done|]. split; [apply keeps_refl, K2|done]. }
  pose proof (keeps_trans _ _ _ _ _ _ K2 K3) as [HS HV HL HG].
  exists t, D3, w3. split; [exact E3|]. split; [done|]. split; [by eapply same_view_shows|].
  split; [eapply same_url_trans; [split; [exact Hc1|exact Hu1]|by apply HV]|].
  split; [congruence|]. split; [by rewrite <- Hg1|]. split; [done|]. by rewrite Hd3.
Qed.
End draw.

(** ** Changing the page size *)

(** The offset asked for, and the page that the answer leaves. *)
Lemma resize_offset n s p :
  0 < s -> 0 <= n -> 1 <= p ->
  (shown_offset p s (Some n) = s * (Z.min p (pages n s) - 1) <-> ~ (0 < n /\ n mod s = 0 /\ n <= s * (p - 1))).
Proof.
  intros Hs Hn Hp. destruct (pages_spec n s Hn Hs) as (H1 & H2 & H3). cbn [shown_offset].
  pose proof (Z.div_mod n s ltac:(lia)) as Hdm. pose proof (Z.mod_pos_bound n s Hs) as Hmod.
  assert (H0 : n = 0 -> pages n s = 1) by (intros ->; reflexivity).
  assert (Hrm : n = s * (p - 1) -> n mod s = 0) by (intros ->; rewrite Z.mul_comm; apply Z.mod_mul; lia).
  assert (Hr0 : n = 0 -> n mod s = 0) by (intros ->; by apply Z.mod_0_l; lia).
  set (k := pages n s) in *. clearbody k. set (r := n mod s) in *. clearbody r. set (d := n / s) in *. clearbody d.
  destruct (Z.eq_dec n 0) as [->|Hn0].
  { rewrite (H0 eq_refl), (Hr0 eq_refl). rewrite Z.min_r by lia.
    destruct (Z.ltb_spec 0 (s * (p - 1))); [split; [lia|nia]|]. split; [lia|]. intros _. nia. }
  specialize (H3 ltac:(lia)). destruct (Z.ltb_spec n (s * (p - 1))).
  - rewrite Z.min_r by nia. split; [|].
    + intros E (_ & -> & _). nia.
    + intros Hno. assert (r <> 0) by (intros ->; apply Hno; lia). assert (k = d + 1) by nia. subst k. nia.
  - destruct (Z.leb_spec p k).
    + rewrite Z.min_l by lia. split; [|done]. intros _ (_ & _ & Hle). nia.
    + assert (Hnp : n = s * (p - 1)) by nia. assert (k = p - 1) as -> by nia. rewrite Z.min_r by lia.
      split; [nia|]. intros Hno. exfalso. apply Hno. split; [lia|]. split; [by apply Hrm|lia].
Qed.

(** Choosing another page size keeps the page number in the request, and the
    answer brings it back into the report.  Afterwards the records on the screen are
    those of the page shown, unless the number of records is a multiple of the new
    size and the old page number lies beyond the new last page: then the request asks
    for the records after the last one. *)
Theorem resize_shows `{Browser} rq ser id D w index e p s s' n root node :
  parses_plain -> reads_back -> id <> "gotopage" ->
  sim (ckey id) cnames cboxes D w -> w_dom w !! ("Combo_itemsize" +++ id +++ "_" +++ index) = Some e ->
  e_html e = Z_to_string s' -> e_value (D "comboFlagsize") = id ->
  shows D p (pages n s) s (Some n) -> 1 <= p <= pages n s -> 0 < s' -> 0 <= n ->
  answer_ok id rq ser n root node -> isViewAllLink (w_glob w) = false -> e_class (D "Con_table") <> "hidden" ->
  let p' := Z.min p (pages n s') in
  exists w1 D2 w2 offset u1 u2,
    selectCombo ("size" +++ id) index w = (Some tt, w1) /\
    w_log w1 = w_log w ++ [Request (u1 +++ "&offset=" +++ Z_to_string offset +++ u2) "ajaxRequest" "GET" id] /\
    ajaxRequest rq ser (Some (Some root)) id w1 = (Some tt, w2) /\
    shows D2 p' (pages n s') s' (Some n) /\ table_of id rq node (e_html (D2 "Con_table")) /\
    (offset = s' * (p' - 1) <-> ~ (0 < n /\ n mod s' = 0 /\ n <= s' * (p - 1))).
Proof.
  intros plain rereads Hid Hs He Htext Hflag Hsh Hp Hs0 Hn Hok Hall Hvis. cbn zeta.
  destruct (run_selectCombo plain id Hid D w index e p _ s s' (Some n) Hs He Htext Hflag Hsh Hp Hs0 Hn)
    as (D1 & w1 & E1 & Hs1 & Hsh1 & Hu1 & Hg1 & Hl1).
  destruct (run_ajaxRequest plain rereads id Hid rq ser D1 w1 root node p _ s' (Some n) n Hs1 Hsh1)
    as (t & D2 & w2 & E2 & _ & Hsh2 & _ & _ & _ & Ht & Hhtml); [lia|done|done|done|by rewrite Hg1|by rewrite (proj1 Hu1)|].
  exists w1, D2, w2, (shown_offset p s' (Some n)).
  eexists (conPath (w_glob w) +++ "/AjaxController" +++ "?" +++ qString (w_glob w) +++ "&reportid=" +++ id), _.
  split; [exact E1|]. split.
  { rewrite Hl1. unfold page_url. rewrite !sapp_assoc. reflexivity. }
  split; [exact E2|]. split; [exact Hsh2|]. split; [by rewrite Hhtml|]. apply resize_offset; lia.
Qed.

(** ** A browser and a server to try the theorems on *)
#[export] Instance elem_eq_dec : EqDecision elem.
Proof. solve_decision. Defined.
#[export] Instance elem_countable : Countable elem.
Proof.
  apply (inj_countable' (fun e => (e_html e, e_value e, e_class e, e_title e, e_src e, e_href e, e_target e, e_style e, e_in e))
    (fun '(h, v, c, t, s, r, g, y, i) => Elem h v c t s r g y i)). by intros [].
Defined.

Fixpoint bits (p : positive) : string :=
  match p with xH => "" | xO p => String "0" (bits p) | xI p => String "1" (bits p) end.
Fixpoint unbits (s : string) : positive :=
  match s with EmptyString => xH | String c s => if Ascii.eqb c "1" then xI (unbits s) else xO (unbits s) end.
Lemma unbits_bits p : unbits (bits p) = p.
Proof. induction p; cbn; congruence. Qed.

(** A browser that knows the tables of container 7, and the markup it made itself. *)
Definition table_tag : string := "<table cellspacing='0' class='TableData' id='tableData7' width='100%'>".
#[local] Instance report_browser : Browser := {
  userAgent := "Firefox";
  parse_html := fun s =>
    if prefixb table_tag s then [("tableData7", new_elem)]
    else if prefixb "id=" s then
      match decode (A := gmap string elem) (unbits (sdrop 3 s)) with Some d => map_to_list d | None => [] end
    else [];
  html_of := fun _ d => "id=" +++ bits (encode d);
  frac_string := fun _ => "0.5"
}.

Lemma prefixb_contains a s b : prefixb a s = true -> contains a b = true -> contains s b = true.
Proof.
  intros [t ->]%prefixb_spec (x & y & ->)%contains_spec. apply contains_spec.
  exists x, (y +++ t). by rewrite !sapp_assoc.
Qed.

Lemma report_plain : parses_plain.
Proof.
  intros s Hs. cbn [parse_html report_browser]. destruct (prefixb table_tag s) eqn:E1.
  { by rewrite (prefixb_contains _ _ "id=" E1 eq_refl) in Hs. }
  destruct (prefixb "id=" s) eqn:E2; [|done]. by rewrite (prefixb_contains _ _ "id=" E2 eq_refl) in Hs.
Qed.

Lemma report_rereads : reads_back.
Proof. intros s d. cbn [html_of parse_html report_browser]. cbn -[encode decode bits unbits]. by rewrite unbits_bits, decode_encode. Qed.

(** The table of every answer starts with the tag of the table. *)
Lemma table_markup_starts `{Browser} rq id node w t b w' :
  table_markup rq id node w = (Some (t, b), w') ->
  exists r, t = "<table cellspacing='0' class='TableData' id='tableData" +++ id +++ "' width='100%'>" +++ r.
Proof.
  unfold table_markup. intros (width & w1 & _ & E1)%bind_inv.
  apply bind_inv in E1 as (tbl & w2 & _ & E2). apply bind_inv in E2 as (g & w3 & _ & E3).
  apply bind_inv in E3 as (foot & w4 & _ & E4). injection E4 as <- _ _. by eexists.
Qed.

(** An answer with a head and one row, of a report of [n] records. *)
Definition demo_node : xml :=
  let cell d := XElem [] [XText d] in
  XElem [] [XElem [] [cell "User||1||0||username"; cell "Hits||2||0||hits"];
            XElem [] [cell "root||1||user||"; cell "12||2||12||"]].
Definition demo_root (n : string) : xml := XElem [("totalRecord", n)] [demo_node].
Lemma demo_answer rq ser n : answer_ok "7" rq ser n (demo_root (Z_to_string n)) demo_node.
Proof.
  constructor; [reflexivity|reflexivity| | |done].
  - split; repeat constructor; try (by eexists); try done; eexists; (split; [reflexivity|cbn; lia]).
  - intros t (D & w & b & w' & _ & E). apply table_markup_starts in E as [r ->]. split.
    + intros k e q Hk Hq. cbn [parse_html report_browser] in Hk.
      rewrite (proj2 (prefixb_spec _ _)) in Hk by (by eexists). apply list_elem_of_singleton in Hk as [= -> ->].
      repeat (apply elem_of_cons in Hq as [->|Hq]; [discriminate|]). by apply elem_of_nil in Hq.
    + exists new_elem. cbn [parse_html report_browser].
      rewrite (proj2 (prefixb_spec _ _)) by (by eexists). by left.
Qed.

(** Page 5 of a report of 50 records, ten on a page; the second entry of the combo is 25. *)
Definition demo_full : string -> elem := upd "totalNumOfDbRows" (with_value "50") (demo_D "5" "").
Definition demo_sized : world cglobals :=
  World (<["Combo_itemsize7_1" := with_html "25" new_elem]>
    (list_to_map (map (fun p => (ckey "7" p, demo_full p)) cnames))) demo_globals [].

Lemma demo_sized_sim : sim (ckey "7") cnames cboxes demo_full demo_sized.
Proof.
  apply sim_flat; intros p Hp;
    repeat (apply elem_of_cons in Hp as [->|Hp]; [reflexivity|]); by apply elem_of_nil in Hp.
Qed.

Lemma demo_item : w_dom demo_sized !! ("Combo_itemsize" +++ "7" +++ "_" +++ "1") = Some (with_html "25" new_elem).
Proof. by apply lookup_insert_eq. Qed.
Lemma demo_full_shows : shows demo_full 5 (pages 50 10) 10 (Some 50).
Proof. by constructor. Qed.
Lemma demo_full_range : 1 <= 5 <= pages 50 10.
Proof. by vm_compute. Qed.

(** Page 2 of 2 is shown, but the records after the 50th were asked for. *)
Lemma resize_shows_witness :
  exists w1 D2 w2 offset u1 u2, selectCombo ("size" +++ "7") "1" demo_sized = (Some tt, w1) /\
    w_log w1 = w_log demo_sized ++ [Request (u1 +++ "&offset=" +++ Z_to_string offset +++ u2) "ajaxRequest" "GET" "7"] /\
    ajaxRequest (fun s _ _ => s) (fun _ => "<map/>") (Some (Some (demo_root "50"))) "7" w1 = (Some tt, w2) /\
    shows D2 (Z.min 5 (pages 50 25)) (pages 50 25) 25 (Some 50) /\ offset <> 25 * (Z.min 5 (pages 50 25) - 1).
Proof.
  destruct (resize_shows (fun s _ _ => s) (fun _ => "<map/>") "7" demo_full demo_sized "1" (with_html "25" new_elem)
    5 10 25 50 (demo_root "50") demo_node report_plain report_rereads seven demo_sized_sim demo_item eq_refl eq_refl
    demo_full_shows demo_full_range eq_refl ltac:(lia) (demo_answer _ _ 50) eq_refl ltac:(discriminate))
    as (w1 & D2 & w2 & offset & u1 & u2 & E1 & Hl & E2 & Hsh & _ & Hiff).
  exists w1, D2, w2, offset, u1, u2. split; [exact E1|]. split; [exact Hl|]. split; [exact E2|]. split; [exact Hsh|].
  intros ->. apply (proj1 Hiff); [reflexivity|]. split; [lia|]. split; [reflexivity|lia].
Defined.
