(* ===== verification/ReportClient.v ===== *)
(** * A report page from the first click to the last answer (container.js, ajax.js)
    Clicks on the controls of a container and answers of the server, in any order.  An
    answer goes through [Handle_HTTP_Response] to the callback, which changes the page.
    The page refines a small machine ([view]): the page number, the requests that are
    outstanding, and the records that the table shows. *)
From S2P Require Import Prelude JsString JsNum JsVal Ui Ajax Dom Container ContainerData Report ReportAnswer.
Open Scope Z_scope.

(** ** Answers *)

(** The address of request [n], read from what was sent. *)
Definition request_url (n : nat) (t : list event) : option string :=
  last (omap (fun e => match e with Sent m _ url _ _ => if Nat.eqb m n then Some url else None | _ => None end) t).

Section client.
Context `{Browser} `{Host} (replaceQueryString : string -> string -> string -> string) (serialize : xml -> string).
(** The server: the root element, if any, of the document that it returns for an address. *)
Context (fetch : string -> option xml).
(** The callbacks of the page other than [ajaxRequest]. *)
Context (other : string -> jsval -> jsval -> jsval -> M cglobals unit).

(** What a callback does to the page.  The response is the document of an address. *)
Definition callback (cb response param param2 : jsval) : M cglobals unit :=
  match cb with
  | JFun f =>
      if String.eqb f "ajaxRequest" then
        ajaxRequest replaceQueryString serialize
          (match response with JObj url => Some (fetch url) | _ => None end) (val_string param)
      else other f response param param2
  | _ => throw
  end.

(** Seen from the queue: the callbacks of a container make no requests, but can throw. *)
Definition page_reaction (w : world cglobals) (cb response param param2 : jsval) : reaction :=
  Reaction [] (match fst (callback cb response param param2 w) with Some _ => false | None => true end).

(** The effect of an event of the queue on the page. *)
Definition show_event (w : world cglobals) (e : event) : world cglobals :=
  match e with Called cb response param param2 => snd (callback cb response param param2 w) | _ => w end.

(** The request in flight is answered. *)
Definition answer (c : client) : client :=
  let st := g_ajax_obj c in
  match _dm_xmlhttprequestobject st with
  | Some x =>
      match request_url (x_id x) (trace st) with
      | Some url =>
          let st' := network (page_reaction (on_page c)) (x_id x) 4 (JObj url) st in
          Client (fold_left show_event (drop (length (trace st)) (trace st')) (on_page c)) st'
      | None => c
      end
  | None => c
  end.

Inductive client_step := Click (m : page_move) | Sort (orderby ordertype : string) | Answered.

Definition do_step (id : string) (c : client) (a : client_step) : client :=
  match a with
  | Click m => browse_one id c m
  | Sort orderby ordertype => sort_by id c orderby ordertype
  | Answered => answer c
  end.
Definition run_client (id : string) (l : list client_step) (c : client) : client := fold_left (do_step id) l c.
End client.

Definition steps_ok (l : list client_step) : Prop :=
  Forall (fun a => match a with Click m => entered_ok m | _ => True end) l.

(** ** The machine *)
Abbreviation order := (string * string)%type.   (** [lastorderby], [lastordertype] *)

Record view := View {
  v_page : Z;                      (** the number shown *)
  v_total : Z;                     (** of so many pages *)
  v_known : bool;                  (** an answer has told the number of records *)
  v_order : order;
  v_waiting : list (order * Z);    (** the pages asked for, the oldest first *)
  v_drawn : option (order * Z)     (** the page whose records were drawn last *)
}.

(** Asking for page [q] in the order [o]. *)
Definition view_ask (o : order) (q : Z) (v : view) : view :=
  View q (v_total v) (v_known v) o (v_waiting v ++ [(o, q)]) (v_drawn v).
Definition view_click (m : page_move) (v : view) : view :=
  match move_target m (v_page v) (v_total v) with
  | Some q => view_ask (v_order v) q v
  | None => v
  end.
Definition view_answer (total : Z) (v : view) : view :=
  match v_waiting v with
  | r :: l => View (Z.min (v_page v) total) total true (v_order v) l (Some r)
  | [] => v
  end.
Definition view_step (total : Z) (v : view) (a : client_step) : view :=
  match a with
  | Click m => view_click m v
  | Sort orderby ordertype => view_ask (orderby, ordertype) 1 v
  | Answered => view_answer total v
  end.
Definition view_run (total : Z) (l : list client_step) (v : view) : view := fold_left (view_step total) l v.

(** The number shown is in range; it is the page asked for last, or else drawn last,
    and in the order chosen last. *)
Record view_ok (total : Z) (v : view) : Prop := ViewOk {
  vo_range : 1 <= v_page v <= v_total v;
  vo_total : v_total v <= total;
  vo_waiting : Forall (fun r => 1 <= r.2 <= total) (v_waiting v);
  vo_last : match last (v_waiting v) with
            | Some r => r = (v_order v, v_page v)
            | None => match v_drawn v with Some r => r = (v_order v, v_page v) | None => True end
            end
}.

Lemma view_ask_ok total o q v : 1 <= q <= v_total v -> view_ok total v -> view_ok total (view_ask o q v).
Proof.
  intros Hq [H1 H2 H3 H4]. constructor; cbn; [done|done| |].
  - apply Forall_app. split; [done|]. constructor; [cbn; lia|done].
  - by rewrite last_snoc.
Qed.

Lemma view_step_ok total v a : view_ok total v -> view_ok total (view_step total v a).
Proof.
  intros Hv. pose proof Hv as [H1 H2 H3 H4]. destruct a as [m|ob ot|]; cbn [view_step].
  - unfold view_click. pose proof (target_bounds m (v_page v) (v_total v) H1) as Hb.
    destruct (move_target m _ _) as [q|]; [|done]. by apply view_ask_ok.
  - apply view_ask_ok; [lia|done].
  - unfold view_answer. destruct (v_waiting v) as [|r l] eqn:El; [by constructor; rewrite ?El|].
    apply Forall_cons in H3 as [Hq Hl]. rewrite last_cons in H4.
    constructor; cbn; [lia|lia|done|]. rewrite Z.min_l by lia.
    by destruct (last l).
Qed.

Lemma view_run_ok total l : forall v, view_ok total v -> view_ok total (view_run total l v).
Proof. induction l as [|a l IH]; intros v Hv; [done|]. cbn. by apply IH, view_step_ok. Qed.

(** Once a page was asked for, there is something to wait for or something drawn. *)
Lemma view_run_busy total l : forall v,
  (v_waiting v = [] -> v_drawn v <> None) ->
  v_waiting (view_run total l v) = [] -> v_drawn (view_run total l v) <> None.
Proof.
  induction l as [|a l IH]; intros v Hv; [done|]. cbn. apply IH. destruct a as [m|ob ot|]; cbn [view_step].
  - unfold view_click. destruct (move_target _ _ _); [|done]. cbn. intros E. by apply app_nil in E as [_ ?].
  - cbn. intros E. by apply app_nil in E as [_ ?].
  - unfold view_answer. destruct (v_waiting v) eqn:E; [intros _; by apply Hv|done].
Qed.

(** As many answers as there are requests outstanding, or more. *)
Lemma view_answers total n : forall v, (length (v_waiting v) <= n)%nat ->
  v_waiting (view_run total (replicate n Answered) v) = [].
Proof.
  induction n as [|n IH]; intros v Hn; [apply nil_length_inv; cbn; lia|]. cbn.
  apply IH. unfold view_answer. destruct (v_waiting v) eqn:E; [rewrite E; cbn; lia|]. cbn in *. lia.
Qed.

Lemma view_answers_all total l n v : (length (v_waiting (view_run total l v)) <= n)%nat ->
  v_waiting (view_run total (l ++ replicate n Answered) v) = [].
Proof. intros Hn. unfold view_run. rewrite fold_left_app. by apply view_answers. Qed.

(** The address of the request in flight is found again. *)
Lemma request_url_active `{Host} st d c u l :
  refines st (Fifo d (Some c) l) -> c_url c = JStr u -> c_method c = JStr "GET" ->
  request_url (length d) (trace st) = Some u.
Proof.
  intros [_ _ _ _ _ Hsent _] Hu Hm. cbn in Hsent. unfold request_url.
  set (f := fun e => match e with Sent _ _ _ _ _ => _ | _ => None end).
  assert (forall t, omap f t = omap f (filter (fun e => is_sent e = true) t)) as ->.
  { induction t as [|e t IH]; [done|]. destruct e; cbn [omap list_omap].
    - rewrite filter_cons_True by done. cbn [omap list_omap]. by rewrite <- IH.
    - by rewrite filter_cons_False.
    - by rewrite filter_cons_False. }
  unfold sent_trace in Hsent. rewrite Hsent, imap_app, omap_app. cbn [imap]. unfold sent_event at 2.
  rewrite Hu, Hm. cbn [eq_string String.eqb Ascii.eqb Bool.eqb val_string omap list_omap f].
  rewrite Nat.add_0_r, Nat.eqb_refl. by rewrite last_snoc.
Qed.

Lemma same_order g : same_but_formats (set_order (lastorderby g) (lastordertype g) g) g.
Proof. by destruct g. Qed.

(** ** The page refines the machine *)
Section refinement.
Context `{Browser} `{Hhost : Host} (plain : parses_plain) (rereads : reads_back) (Hwb : host_ok).
Context (id : string) (Hid : id <> "gotopage").
Context (replaceQueryString : string -> string -> string -> string) (serialize : xml -> string).
Context (fetch : string -> option xml) (other : string -> jsval -> jsval -> jsval -> M cglobals unit).
(** The globals and the container at the start, the page size and the number of records. *)
Context (g0 : cglobals) (D0 : string -> elem) (s n : Z) (Hs0 : 0 < s) (Hn : 0 <= n).
Context (Hall : isViewAllLink g0 = false) (Hvisible : e_class (D0 "Con_table") <> "hidden").
Abbreviation csim := (sim (ckey id) cnames cboxes).
Abbreviation answer := (answer replaceQueryString serialize fetch other).

Definition ordered (o : order) : cglobals := set_order o.1 o.2 g0.

(** The address of a page of records. *)
Definition url (r : order * Z) : string := page_url id (ordered r.1) D0 r.2 s None.
Definition command_of (r : order * Z) : command := page_command id (ordered r.1) D0 s None r.2.

(** The server answers every page of the report completely. *)
Definition serves : Prop := forall r, 1 <= r.2 <= pages n s ->
  exists root node, fetch (url r) = Some root /\ answer_ok id replaceQueryString serialize n root node.
Context (Hserve : serves).

(** [t] is the table of the answer for that order and page. *)
Definition table_of_page (r : order * Z) (t : string) : Prop :=
  exists root node, fetch (url r) = Some root /\ kids root !! 0%nat = Some node /\
    table_of id replaceQueryString node t.

Definition rows_of (v : view) : option Z := if v_known v then Some n else None.

Definition rel (v : view) (c : client) : Prop :=
  exists D sp, csim D (on_page c) /\ shows D (v_page v) (v_total v) s (rows_of v) /\
    same_but_formats (ordered (v_order v)) (w_glob (on_page c)) /\ same_url D0 D /\ refines (g_ajax_obj c) sp /\
    option_list (active sp) ++ waiting sp = command_of <$> v_waiting v /\
    (v_waiting v = [] -> forall r, v_drawn v = Some r -> table_of_page r (e_html (D "Con_table"))).

Lemma rows_of_nonneg v : match rows_of v with Some n => 0 <= n | None => True end.
Proof using Hn. unfold rows_of. by destruct (v_known v). Qed.

(** Inside the report the address does not depend on what is known of its size. *)
Lemma page_url_known g D v o q :
  same_but_formats (ordered o) g -> same_url D0 D -> 1 <= q <= pages n s ->
  page_url id g D q s (rows_of v) = url (o, q).
Proof using Hs0 Hn.
  intros Hg Hu Hq. destruct (pages_spec n s Hn Hs0) as (_ & _ & Hlast).
  assert (shown_offset q s (rows_of v) = shown_offset q s None) as Eo.
  { unfold rows_of, shown_offset. destruct (v_known v); [|done].
    destruct (Z.ltb_spec n (s * (q - 1))); [|done]. destruct (decide (n = 0)) as [->|]; [|nia].
    assert (pages 0 s = 1) as E1 by done. rewrite E1 in Hq. nia. }
  unfold url. rewrite (same_url_page id g D0 D q s (rows_of v) Hu). unfold page_url. cbn [fst snd]. rewrite Eo.
  by rewrite Hg.
Qed.

(** A request of the page joins those that wait. *)
Lemma rel_ask v o q D' w' st sp :
  csim D' w' -> shows D' q (v_total v) s (rows_of v) -> same_but_formats (ordered o) (w_glob w') -> same_url D0 D' ->
  refines st sp -> option_list (active sp) ++ waiting sp = command_of <$> v_waiting v ->
  rel (view_ask o q v) (Client w' (CallXMLHTTPObject (command_of (o, q)) st)).
Proof using Hwb.
  intros Hs Hsh Hg Hu Href Hq.
  destruct (CallXMLHTTPObject_refines Hwb _ (command_of (o, q)) st sp (page_command_sendable _ _ _ _ _ _) Href)
    as (sp1 & _ & Hr1 & Hsv & Hq1).
  exists D', sp1. cbn. split; [done|]. split; [done|]. split; [done|]. split; [done|].
  split; [unfold refines; by rewrite Hsv|].
  split; [by rewrite Hq1, app_assoc, Hq, fmap_app|]. intros E. by apply app_nil in E as [_ ?].
Qed.

Lemma rel_click v c m :
  view_ok (pages n s) v -> rel v c -> entered_ok m -> rel (view_click m v) (browse_one id c m).
Proof using plain Hwb Hid Hs0 Hn.
  intros [Hr Ht _ _] (D & sp & Hs & Hsh & Hg & Hu & Href & Hq & Hd) Hm. destruct c as [w st]. cbn in *.
  destruct (click_spec plain id Hid Hwb D w st m _ _ s _ Hs Hsh Hr Hs0 (rows_of_nonneg v) Hm)
    as (D' & w' & Hs' & Hg' & Hu' & -> & Htab & Hsh').
  pose proof (target_bounds m _ _ Hr) as Hb. unfold view_click.
  destruct (move_target m (v_page v) (v_total v)) as [q|]; cbn [default from_option] in Hsh'.
  - assert (page_command id (w_glob w) D s (rows_of v) q = command_of (v_order v, q)) as ->.
    { unfold command_of, page_command. by rewrite (page_url_known _ _ _ (v_order v)) by (done || lia). }
    apply (rel_ask _ _ _ D' _ _ sp); [done|done|by rewrite Hg'|by eapply same_url_trans|done|done].
  - exists D', sp. cbn. split; [done|]. split; [done|]. split; [by rewrite Hg'|].
    split; [by eapply same_url_trans|]. split; [done|]. split; [done|]. by rewrite Htab.
Qed.

Lemma rel_sort v c ob ot :
  view_ok (pages n s) v -> rel v c -> rel (view_ask (ob, ot) 1 v) (sort_by id c ob ot).
Proof using plain Hwb Hid Hs0 Hn.
  intros [Hr Ht _ _] (D & sp & Hs & Hsh & Hg & Hu & Href & Hq & Hd). destruct c as [w st]. cbn in *.
  destruct (sort_spec plain id Hid Hwb D w st _ _ s _ ob ot Hs Hsh Hr Hs0 (rows_of_nonneg v))
    as (D' & w' & Hs' & Hg' & Hu' & -> & Hsh').
  assert (Hso : same_but_formats (ordered (ob, ot)) (set_order ob ot (w_glob w))).
  { unfold same_but_formats, ordered in *. rewrite Hg. done. }
  assert (page_command id (set_order ob ot (w_glob w)) D s (rows_of v) 1 = command_of (ob, ot, 1)) as ->.
  { unfold command_of, page_command. by rewrite (page_url_known _ _ _ (ob, ot)) by (done || lia). }
  apply (rel_ask _ _ _ D' _ _ sp); [done|done|by rewrite Hg'|by eapply same_url_trans|done|done].
Qed.

(** What is sent does not touch the page. *)
Lemma show_sent l : forall w,
  Forall (fun e => is_sent e = true) l ->
  fold_left (show_event replaceQueryString serialize fetch other) l w = w.
Proof. induction l as [|e l IH]; intros w Hl; [done|]. apply Forall_cons in Hl as [He Hl]. cbn. destruct e; [by apply IH|done|done]. Qed.

Lemma rel_answer v c : view_ok (pages n s) v -> rel v c -> rel (view_answer (pages n s) v) (answer c).
Proof using plain rereads Hwb Hid Hs0 Hn Hall Hvisible Hserve.
  intros [Hr Ht Hw _] (D & [d a l] & Hs & Hsh & Hg & Hu & Href & Hq & Hd). pose proof Href as [_ _ Hact _ _ _ _]. cbn in Hact, Hq.
  unfold view_answer. destruct (v_waiting v) as [|q vs] eqn:Ev.
  { assert (a = None) as -> by (by destruct a). destruct Hact as [Hx _].
    unfold answer. rewrite Hx. exists D, (Fifo d None l). by rewrite Ev. }
  assert (exists c0, a = Some c0) as [c0 ->].
  { destruct a as [c0|]; [by eexists|]. destruct Hact as [_ ->]. done. }
  cbn in Hq. injection Hq as -> ->. apply Forall_cons in Hw as [Hq Hw].
  destruct Hact as [(x & Hx & Hxi) _]. unfold answer. rewrite Hx, Hxi, (request_url_active _ _ _ (url q) _ Href) by done.
  destruct (Hserve q Hq) as (root & node & Hroot & Hok).
  destruct (run_ajaxRequest plain rereads id Hid replaceQueryString serialize D (on_page c) root node
    (v_page v) (v_total v) s (rows_of v) n Hs Hsh) as (t & D' & w' & E & Hs' & Hsh' & Hu' & _ & Hg' & Htab & Hhtml);
    [lia|done|done|done|by rewrite Hg|by rewrite (proj1 Hu)|].
  assert (Hcb : callback replaceQueryString serialize fetch other (JFun "ajaxRequest") (JObj (url q)) (JStr id) (JNum 0)
    (on_page c) = (Some tt, w')) by (unfold callback; by rewrite String.eqb_refl, Hroot).
  destruct (answer_refines (page_reaction replaceQueryString serialize fetch other (on_page c)) Hwb (g_ajax_obj c)
    (Fifo d (Some (command_of q)) (command_of <$> vs)) _ (JObj (url q)) eq_refl) as (x' & Hx' & Href' & sent & Htr & Hsent); [|exact Href|].
  { unfold page_reaction. cbn [command_of page_command c_callback c_param c_param2]. by rewrite Hcb. }
  rewrite Hx in Hx'. injection Hx' as <-. rewrite <- Hxi, Htr, drop_app_length.
  cbn [fold_left show_event command_of page_command c_callback c_param c_param2]. rewrite Hcb. cbn [snd]. rewrite show_sent by done.
  rewrite Hxi in Href' |- *. cbn [head tail served waiting active] in Href'.
  exists D'. eexists. cbn [on_page g_ajax_obj v_page v_total v_waiting v_drawn].
  split; [exact Hs'|]. split; [exact Hsh'|]. split; [eapply same_but_formats_trans; [exact Hg|exact Hg']|].
  split; [by eapply same_url_trans|]. split; [exact Href'|]. cbn [active waiting].
  split; [by destruct vs|]. intros _ q' [= <-]. exists root, node. rewrite Hhtml.
  split; [done|]. split; [apply Hok|done].
Qed.

(** The page at the start: nothing in flight, one page shown. *)
Definition starts (p total : Z) (known : bool) (c : client) : Prop :=
  csim D0 (on_page c) /\ shows D0 p total s (if known then Some n else None) /\ g0 = w_glob (on_page c) /\
  1 <= p <= total /\ total <= pages n s /\ exists d, refines (g_ajax_obj c) (Fifo d None []).

Lemma starts_rel p total known c :
  starts p total known c ->
  let v := View p total known (lastorderby g0, lastordertype g0) [] None in
  view_ok (pages n s) v /\ rel v c.
Proof.
  intros (Hs & Hsh & Hg & Hp & Ht & d & Href). split; [by constructor|].
  exists D0, (Fifo d None []). split; [done|]. split; [done|]. split; [|done]. rewrite <- Hg. apply same_order.
Qed.

Lemma rel_idle v c : rel v c -> _dm_xmlhttprequestobject (g_ajax_obj c) = None -> v_waiting v = [].
Proof.
  intros (D & [d [a|] l] & _ & _ & _ & _ & [_ _ Hact _ _ _ _] & Hq & _) Hx; cbn in *.
  - destruct Hact as [(x & Hx' & _) _]. congruence.
  - destruct Hact as [_ ->]. cbn in Hq. symmetry in Hq. by apply fmap_nil_inv in Hq.
Qed.

Lemma rel_run l : forall v c,
  view_ok (pages n s) v -> rel v c -> steps_ok l ->
  rel (view_run (pages n s) l v) (run_client replaceQueryString serialize fetch other id l c).
Proof using plain rereads Hwb Hid Hs0 Hn Hall Hvisible Hserve.
  induction l as [|a l IH]; intros v c Hv Hr Hl; [done|]. apply Forall_cons in Hl as [Ha Hl].
  cbn. apply IH; [by apply view_step_ok| |done]. destruct a; [by apply rel_click|by apply rel_sort|by apply rel_answer].
Qed.
End refinement.

(** The step asks for a page. *)
Definition asks (p total : Z) (a : client_step) : Prop :=
  match a with Click m => move_target m p total <> None | Sort _ _ => True | Answered => False end.

(** C1. Whatever the user clicks and whenever the answers come, once a page was asked
    for: the page number shown stays within the report, and while no request is in
    flight the table is the one the server sent for the page whose number is shown, in
    the order chosen last. *)
Theorem report_consistent `{Browser} `{Host} rq ser fetch other id D0 s n p total known c a l :
  parses_plain -> reads_back -> host_ok -> id <> "gotopage" -> 0 < s -> 0 <= n ->
  starts id (w_glob (on_page c)) D0 s n p total known c ->
  isViewAllLink (w_glob (on_page c)) = false -> e_class (D0 "Con_table") <> "hidden" ->
  serves id rq ser fetch (w_glob (on_page c)) D0 s n ->
  steps_ok (a :: l) -> asks p total a ->
  let c' := run_client rq ser fetch other id (a :: l) c in
  let g' := w_glob (on_page c') in
  exists D' p' total' rows', sim (ckey id) cnames cboxes D' (on_page c') /\ shows D' p' total' s rows' /\
    1 <= p' <= total' /\ total' <= pages n s /\
    (_dm_xmlhttprequestobject (g_ajax_obj c') = None ->
     _dm_queue (g_ajax_obj c') = [] /\
     table_of_page id rq fetch (w_glob (on_page c)) D0 s (lastorderby g', lastordertype g', p')
       (e_html (D' "Con_table"))).
Proof.
  intros plain rereads Hwb Hid Hs0 Hn Hstart Hall Hvis Hserve Hl Hm. cbn zeta.
  destruct (starts_rel id rq fetch _ D0 s n p total known c Hstart) as [Hv Hr]. set (v0 := View _ _ _ _ _ _) in *.
  pose proof (rel_run plain rereads Hwb id Hid rq ser fetch other _ D0 s n Hs0 Hn Hall Hvis Hserve _ _ c Hv Hr Hl) as Hr'.
  pose proof (view_run_ok (pages n s) (a :: l) _ Hv) as [Ho1 Ho2 _ Ho4].
  pose proof (view_run_busy (pages n s) l (view_step (pages n s) v0 a)) as Hbusy.
  set (v := view_run (pages n s) (a :: l) v0) in *.
  change (view_run _ l _) with v in Hbusy. clearbody v. set (c' := run_client _ _ _ _ _ _ _) in *.
  pose proof Hr' as (D' & sp & Hs' & Hsh' & Hg' & _ & Href' & _ & Hd).
  exists D', (v_page v), (v_total v). eexists. split; [exact Hs'|]. split; [exact Hsh'|]. split; [done|]. split; [done|].
  intros Hx. pose proof (rel_idle id rq fetch _ D0 s n _ _ Hr' Hx) as Hw. split.
  { destruct Href' as [Hq _ Hact _ _ _ _]. rewrite Hq. destruct (active sp); [|by destruct Hact].
    destruct Hact as [(x & Hx' & _) _]. congruence. }
  apply Hd; [done|]. rewrite Hw in Ho4. cbn in Ho4. rewrite Hg'. cbn [ordered set_order lastorderby lastordertype].
  destruct (v_drawn v) as [r|]; [rewrite Ho4; by destruct (v_order v)|].
  exfalso. apply Hbusy; [|done|done]. destruct a as [m| |]; [|done|done]. unfold view_step, view_click.
  cbn in Hm |- *. by destruct (move_target m p total).
Qed.

Definition is_request (a : client_step) : bool := match a with Answered => false | _ => true end.

Lemma view_waiting_clicks total l : forall v,
  (length (v_waiting (view_run total l v)) <= length (v_waiting v) + length (List.filter is_request l))%nat.
Proof.
  induction l as [|a l IH]; intros v; cbn; [lia|]. etrans; [apply IH|]. destruct a as [m|ob ot|]; cbn.
  - unfold view_click. destruct (move_target _ _ _); cbn; rewrite ?length_app; cbn; lia.
  - rewrite length_app. cbn. lia.
  - unfold view_answer. destruct (v_waiting v) eqn:E; cbn; rewrite ?E; cbn; lia.
Qed.

(** C17. Whatever was clicked and answered so far, the page comes to rest: after at most
    as many further answers as there were clicks nothing is queued or in flight. *)
Theorem report_settles `{Browser} `{Host} rq ser fetch other id D0 s n p total known c l :
  parses_plain -> reads_back -> host_ok -> id <> "gotopage" -> 0 < s -> 0 <= n ->
  starts id (w_glob (on_page c)) D0 s n p total known c ->
  isViewAllLink (w_glob (on_page c)) = false -> e_class (D0 "Con_table") <> "hidden" ->
  serves id rq ser fetch (w_glob (on_page c)) D0 s n ->
  steps_ok l ->
  let c' := run_client rq ser fetch other id (l ++ replicate (length (List.filter is_request l)) Answered) c in
  _dm_queue (g_ajax_obj c') = [] /\ _dm_xmlhttprequestobject (g_ajax_obj c') = None.
Proof.
  intros plain rereads Hwb Hid Hs0 Hn Hstart Hall Hvis Hserve Hl. cbn zeta.
  destruct (starts_rel id rq fetch _ D0 s n p total known c Hstart) as [Hv Hr].
  assert (Hl' : steps_ok (l ++ replicate (length (List.filter is_request l)) Answered)).
  { apply Forall_app. split; [done|]. apply Forall_replicate. done. }
  pose proof (rel_run plain rereads Hwb id Hid rq ser fetch other _ D0 s n Hs0 Hn Hall Hvis Hserve _ _ c Hv Hr Hl')
    as (D' & [d a q] & _ & _ & _ & _ & [Hq _ Hact _ _ _ _] & Hw & _).
  rewrite (view_answers_all (pages n s) l) in Hw by (etrans; [apply view_waiting_clicks|cbn; lia]).
  cbn in Hw, Hact, Hq. destruct a; [done|]. destruct Hact. by rewrite Hq.
Qed.

(** Clicks while a request object stays in place. *)
Lemma stalled_clicks `{Browser} `{Host} (plain : parses_plain) (Hwb : host_ok) id (Hid : id <> "gotopage")
    rq ser fetch other s rows total x ms : 0 < s -> match rows with Some n => 0 <= n | None => True end ->
  forall D w st p,
  sim (ckey id) cnames cboxes D w -> shows D p total s rows -> 1 <= p <= total -> Forall entered_ok ms ->
  _dm_xmlhttprequestobject st = Some x ->
  exists w' st' cs, run_client rq ser fetch other id (map Click ms) (Client w st) = Client w' st' /\
    trace st' = trace st /\ _dm_queue st' = _dm_queue st ++ cs /\ length cs = length (visited ms p total).
Proof.
  intros Hs0 Hrows. induction ms as [|m ms IH]; intros D w st p Hs Hsh Hp Hms Hx.
  { exists w, st, []. by rewrite app_nil_r. }
  apply Forall_cons in Hms as [Hm Hms]. cbn [map run_client fold_left do_step visited].
  destruct (click_spec plain id Hid Hwb D w st m p total s rows Hs Hsh Hp Hs0 Hrows Hm)
    as (D1 & w1 & Hs1 & _ & _ & -> & _ & Hsh1).
  pose proof (target_bounds m p total Hp) as Hb. destruct (move_target m p total) as [q|]; cbn [default from_option] in Hsh1.
  - set (cmd := page_command _ _ _ _ _ _).
    destruct (busy_only_queues _ [cmd] st x Hx) as (Ht & Hq & Hx1). cbn [fold_left] in Ht, Hq, Hx1.
    destruct (IH D1 w1 _ q Hs1 Hsh1 Hb Hms Hx1) as (w' & st' & cs & E & Ht' & Hq' & Hlen).
    exists w', st', (normalise cmd :: cs). split; [exact E|]. split; [congruence|].
    split; [by rewrite Hq', Hq, <- app_assoc|cbn; lia].
  - destruct (IH D1 w1 st p Hs1 Hsh1 Hp Hms Hx) as (w' & st' & cs & E & Hr). by exists w', st', cs.
Qed.

(** C40. An answer without its table: [ajaxRequest] throws, the request object stays, and
    no click on the page makes a request from then on. *)
Theorem bad_answer_blocks_report `{Browser} `{Host} rq ser fetch other id D c p total s rows n root u d q ms :
  parses_plain -> host_ok -> id <> "gotopage" ->
  sim (ckey id) cnames cboxes D (on_page c) -> shows D p total s rows -> 1 <= p -> 0 < s -> 0 <= n ->
  e_class (D "Con_table") <> "hidden" ->
  refines (g_ajax_obj c) (Fifo d (Some (Command (JStr u) (JFun "ajaxRequest") (JStr "GET") (JStr id) Null (JNum 0) Undefined)) q) ->
  fetch u = Some root -> getAttribute root "totalRecord" = Some (Z_to_string n) -> kids root = [] ->
  Forall entered_ok ms ->
  let c' := run_client rq ser fetch other id (Answered :: map Click ms) c in
  sent_trace (g_ajax_obj c') = sent_trace (g_ajax_obj c) /\
  exists cs, _dm_queue (g_ajax_obj c') = _dm_queue (g_ajax_obj c) ++ cs /\
    length cs = length (visited ms (Z.min p (pages n s)) (pages n s)).
Proof.
  intros plain Hwb Hid Hs Hsh Hp Hs0 Hn Hcls Href Hroot Htot Hkids Hms. cbn zeta. destruct c as [w st]. cbn in Hs, Href.
  destruct (run_ajaxRequest_throws plain id Hid rq ser D w root p total s rows n Hs Hsh Hp Hs0 Hn Htot Hkids Hcls)
    as (D' & w' & E & Hs' & Hsh' & Hp').
  pose proof Href as [_ _ [(x & Hx & Hxi) (Hcb & Hpar & _ & Hp2 & _)] _ _ _ _]. cbn in Hcb, Hpar, Hp2, Hxi.
  set (st1 := Ajax.emit (Called (JFun "ajaxRequest") (JObj u) (JStr id) (JNum 0)) (set_object (Some (Xhr (x_id x) 4 (JObj u))) st)).
  assert (Hans : do_step rq ser fetch other id (Client w st) Answered = Client w' st1).
  { cbn [do_step]. unfold answer. cbn [g_ajax_obj on_page]. rewrite Hx, Hxi, (request_url_active _ _ _ u _ Href) by done.
    rewrite <- Hxi. unfold network. rewrite Hx, Nat.eqb_refl. unfold Handle_HTTP_Response, complete.
    cbn [set_object set_request _dm_xmlhttprequestobject readyState _dm_callback_function _dm_param _dm_param2 responseXML].
    cbn [Z.eqb Pos.eqb]. rewrite Hcb, Hpar, Hp2. cbn [is_function].
    assert (callback rq ser fetch other (JFun "ajaxRequest") (JObj u) (JStr id) (JNum 0) w = (None, w')) as Hc
      by (unfold callback; cbn; by rewrite Hroot).
    unfold page_reaction. rewrite Hc. cbn [fst r_calls r_throws do_calls fold_left].
    cbn [trace Ajax.emit set_object set_request]. rewrite drop_app_length. cbn [fold_left show_event]. rewrite Hc. done. }
  unfold run_client. cbn [fold_left]. rewrite Hans.
  destruct (stalled_clicks plain Hwb id Hid rq ser fetch other s (Some n) (pages n s) (Xhr (x_id x) 4 (JObj u)) ms
    Hs0 Hn D' w' st1 _ Hs' Hsh' Hp' Hms eq_refl) as (w2 & st2 & cs & E2 & Ht & Hq & Hlen).
  unfold run_client in E2. rewrite E2. cbn [g_ajax_obj]. split; [|exists cs; by rewrite Hq].
  unfold sent_trace. rewrite Ht. cbn [trace st1 Ajax.emit set_object set_request]. rewrite list.filter_app.
  rewrite filter_cons_False by done. by rewrite app_nil_r.
Qed.

(** ** A page to try the theorems on *)
#[local] Existing Instance report_browser.
Definition demo_fetch (u : string) : option xml := Some (demo_root (Z_to_string 45)).

Definition demo_client : client := Client (demo_world "2" "") new_ajax_object.
Definition demo_other (f : string) (r p p2 : jsval) : M cglobals unit := mret tt.
Definition demo_steps : list client_step :=
  [Click MNext; Answered; Click MNext; Sort "&orderby=hits" "&ordertype=desc"; Answered; Click (MJump 4)].

Lemma demo_steps_ok m : entered_ok m -> steps_ok (Click m :: demo_steps).
Proof. intros Hm. by repeat constructor. Qed.

Lemma demo_starts : starts "7" demo_globals (demo_D "2" "") 10 45 2 5 false demo_client.
Proof.
  split; [apply demo_sim|]. split; [by apply (demo_shows 2)|]. split; [done|]. split; [lia|].
  split; [by vm_compute|]. exists []. by split.
Qed.

Lemma demo_serves rq ser : serves "7" rq ser demo_fetch demo_globals (demo_D "2" "") 10 45.
Proof. intros q _. exists (demo_root (Z_to_string 45)), demo_node. split; [done|apply (demo_answer rq ser 45)]. Qed.

Lemma report_consistent_witness :
  let c' := run_client (H0 := good_host) (fun s _ _ => s) (fun _ => "<map/>") demo_fetch demo_other "7"
              (Click MPrev :: demo_steps) demo_client in
  let g' := w_glob (on_page c') in
  exists D' p' total' rows', shows D' p' total' 10 rows' /\ 1 <= p' <= total' /\
    (_dm_xmlhttprequestobject (g_ajax_obj c') = None ->
     table_of_page "7" (fun s _ _ => s) demo_fetch demo_globals (demo_D "2" "") 10
       (lastorderby g', lastordertype g', p') (e_html (D' "Con_table"))).
Proof.
  destruct (report_consistent (H0 := good_host) (fun s _ _ => s) (fun _ => "<map/>") demo_fetch demo_other "7" (demo_D "2" "")
    10 45 2 5 false demo_client (Click MPrev) demo_steps report_plain report_rereads good_host_ok seven eq_refl ltac:(lia)
    demo_starts eq_refl ltac:(discriminate) (demo_serves _ _) (demo_steps_ok MPrev I) ltac:(discriminate))
    as (D' & p' & total' & rows' & _ & Hsh & Hp & _ & Hd).
  exact (ex_intro _ D' (ex_intro _ p' (ex_intro _ total' (ex_intro _ rows' (conj Hsh (conj Hp (fun Hx => proj2 (Hd Hx)))))))).
Defined.

Lemma report_settles_witness :
  let c' := run_client (H0 := good_host) (fun s _ _ => s) (fun _ => "<map/>") demo_fetch demo_other "7"
              ((Click MPrev :: demo_steps) ++ replicate 5 Answered) demo_client in
  _dm_queue (g_ajax_obj c') = [] /\ _dm_xmlhttprequestobject (g_ajax_obj c') = None.
Proof.
  apply (report_settles (H0 := good_host) (fun s _ _ => s) (fun _ => "<map/>") demo_fetch demo_other "7" (demo_D "2" "")
    10 45 2 5 false demo_client (Click MPrev :: demo_steps) report_plain report_rereads good_host_ok seven eq_refl ltac:(lia)
    demo_starts eq_refl ltac:(discriminate) (demo_serves _ _) (demo_steps_ok MPrev I)).
Defined.

(** The server answers with the number of records only. *)
Definition short_fetch (u : string) : option xml := Some (XElem [("totalRecord", "45")] []).
Definition demo_waiting : client :=
  Client (demo_world "2" "") (@CallXMLHTTPObject good_host (page_command "7" demo_globals (demo_D "2" "") 10 None 2) new_ajax_object).

Lemma demo_waiting_refines :
  refines (g_ajax_obj demo_waiting) (Fifo [] (Some (page_command "7" demo_globals (demo_D "2" "") 10 None 2)) []).
Proof.
  destruct (CallXMLHTTPObject_refines good_host_ok [] (page_command "7" demo_globals (demo_D "2" "") 10 None 2) new_ajax_object fifo_init
    (page_command_sendable _ _ _ _ _ _) refines_init) as ([d a q] & _ & Hr & Hd & Hq).
  cbn in Hd, Hq. subst d. destruct a as [a|].
  - injection Hq as -> ->. exact Hr.
  - by destruct Hr as [_ _ [Hx _] _ _ _ _].
Qed.

Lemma bad_answer_blocks_report_witness :
  let c' := run_client (H0 := good_host) (fun s _ _ => s) (fun _ => "<map/>") short_fetch demo_other "7"
              (Answered :: map Click impatient) demo_waiting in
  sent_trace (g_ajax_obj c') = sent_trace (g_ajax_obj demo_waiting).
Proof.
  exact (proj1 (bad_answer_blocks_report (H0 := good_host) (fun s _ _ => s) (fun _ => "<map/>") short_fetch demo_other "7"
    (demo_D "2" "") demo_waiting 2 5 10 None 45 _ _ [] [] impatient report_plain good_host_ok seven (demo_sim "2" "")
    (demo_shows 2 "" ltac:(lia)) ltac:(lia) eq_refl ltac:(lia) ltac:(discriminate) demo_waiting_refines eq_refl eq_refl eq_refl
    impatient_ok)).
Defined.
