(* ===== verification/CalendarMouse.v ===== *)
(** * The mouse on the calendar widget (calendar.js)
    Pressing, holding, dragging and releasing: the button that is pressed becomes
    active, a held month or year button opens a combo box after a quarter of a
    second, the release clicks the button or takes the choice of the combo, and the
    title drags a pop-up calendar. *)
From S2P Require Import Prelude JsString JsNum JsVal JsDate CalendarDate CalendarGrid Calendar.
Open Scope Z_scope.

(** ** State *)

(** What the mouse can press: a cell or button, or one of the inactive cells of the
    title and the foot ([navtype] 300).  The fields of the time row (50) have no mouse
    handlers: their registration is commented out in [makeTimePart]. *)
Inductive melem := MEl (el : elem) | MTitle.
#[export] Instance elem_eq_dec : EqDecision elem.
Proof. solve_decision. Defined.
#[export] Instance melem_eq_dec : EqDecision melem.
Proof. solve_decision. Defined.

Definition navtype (m : melem) : option Z :=
  match m with
  | MEl (EDay _) => None
  | MEl (ENav n) => Some n
  | MEl EClose => Some 200
  | MEl (EInfo _) => Some 400
  | MEl (EHeader _) => Some 100
  | MTitle => Some 300
  end.

(** What the mouse is over: an element (or its text), an item of a combo box, or
    something else. *)
Inductive target := TIn (m : melem) | TMonth (k : nat) | TYear (k : nat) | TOut.

#[export] Instance target_eq_dec : EqDecision target.
Proof. solve_decision. Defined.

(** An item ([div]) of a combo box; a year item has its [year] once it was shown. *)
Record item := Item { i_class : string; i_text : string; i_year : option Z; i_display : string }.
Record combo := Combo { b_display : string; b_left : string; b_top : string; b_items : list item }.
Definition show_combo (l t : string) (b : combo) : combo := Combo "block" l t (b_items b).
Definition hide_combo (b : combo) : combo := Combo "none" (b_left b) (b_top b) (b_items b).
Definition map_item (f : string -> string) (k : nat) (b : combo) : combo :=
  Combo (b_display b) (b_left b) (b_top b)
    (alter (fun i => Item (f (i_class i)) (i_text i) (i_year i) (i_display i)) k (b_items b)).

Record combos := Combos {
  monthsCombo : combo;
  yearsCombo : combo;
  activeMonth : option nat;
  hilitedMonth : option nat;
  hilitedYear : option nat
}.
Definition with_months (f : combo -> combo) (k : combos) : combos :=
  Combos (f (monthsCombo k)) (yearsCombo k) (activeMonth k) (hilitedMonth k) (hilitedYear k).
Definition with_years (f : combo -> combo) (k : combos) : combos :=
  Combos (monthsCombo k) (f (yearsCombo k)) (activeMonth k) (hilitedMonth k) (hilitedYear k).

(** The timers that [setTimeout] starts, and the listeners of the document. *)
Inductive timer := TMonths | TYears (fwd : bool).
Inductive listener := OnUp | OnOver | OnMove | DragMove | DragUp.
#[export] Instance listener_eq_dec : EqDecision listener.
Proof. solve_decision. Defined.

(** The gesture: [Calendar._C] is this calendar or [null]. *)
Record gesture := Gesture {
  _C : bool;
  activeDiv : option melem;
  timeout : option nat;               (** [cal.timeout], the number of a timer *)
  pending : list (nat * timer);       (** timers that have neither fired nor been cleared *)
  next_timer : nat;
  listeners : list listener           (** in the order of registration *)
}.

(** Dragging; [None] is [NaN]. *)
Record drag := Drag { dragging : bool; xOffs : option Z; yOffs : option Z; left_ : string; top_ : string }.

Record gui := Gui { g_cal : calendar; g_ges : gesture; g_combos : combos; g_drag : drag; g_tooltip : string }.
Definition set_gcal (c : calendar) (g : gui) : gui := Gui c (g_ges g) (g_combos g) (g_drag g) (g_tooltip g).
Definition set_ges (s : gesture) (g : gui) : gui := Gui (g_cal g) s (g_combos g) (g_drag g) (g_tooltip g).
Definition set_combos (k : combos) (g : gui) : gui := Gui (g_cal g) (g_ges g) k (g_drag g) (g_tooltip g).
Definition set_drag (d : drag) (g : gui) : gui := Gui (g_cal g) (g_ges g) (g_combos g) d (g_tooltip g).
Definition set_tooltip (s : string) (g : gui) : gui := Gui (g_cal g) (g_ges g) (g_combos g) (g_drag g) s.

Definition addEvent (l : listener) (s : gesture) : gesture :=
  Gesture (_C s) (activeDiv s) (timeout s) (pending s) (next_timer s)
    (if bool_decide (l ∈ listeners s) then listeners s else listeners s ++ [l]).
Definition removeEvent (l : listener) (s : gesture) : gesture :=
  Gesture (_C s) (activeDiv s) (timeout s) (pending s) (next_timer s)
    (base.filter (fun l' => l' <> l) (listeners s)).
Definition setTimeout (t : timer) (s : gesture) : gesture :=
  Gesture (_C s) (activeDiv s) (Some (next_timer s)) (pending s ++ [(next_timer s, t)]) (S (next_timer s))
    (listeners s).
(** [if (cal.timeout) clearTimeout(cal.timeout)] *)
Definition clear_timeout (s : gesture) : gesture :=
  match timeout s with
  | Some n => Gesture (_C s) (activeDiv s) (timeout s) (base.filter (fun nt => nt.1 <> n) (pending s)) (next_timer s)
                (listeners s)
  | None => s
  end.
Definition no_timeout (s : gesture) : gesture :=
  Gesture (_C s) (activeDiv s) None (pending s) (next_timer s) (listeners s).
Definition set_C (b : bool) (s : gesture) : gesture :=
  Gesture b (activeDiv s) (timeout s) (pending s) (next_timer s) (listeners s).
Definition set_active (m : melem) (s : gesture) : gesture :=
  Gesture (_C s) (Some m) (timeout s) (pending s) (next_timer s) (listeners s).

(** ** Combo boxes *)

(** Positions and sizes of the elements on the screen. *)
Class Layout := {
  offsetLeft_of : melem -> Z;
  offsetTop_of : melem -> Z;
  offsetWidth_of : melem -> Z;
  offsetHeight_of : melem -> Z;
  months_width : option Z;             (** [None] is [undefined] *)
  years_width : option Z
}.

Definition px (n : Z) : string := Z_to_string n +++ "px".

Section mouse.
Context `{Layout}.

(** Left and top of a combo box under the element [cd]. *)
Definition combo_pos (cd : melem) (width : option Z) : string * string :=
  (if match navtype cd with Some n => n <? 0 | None => false end
   then px (offsetLeft_of cd)
   else px (offsetLeft_of cd + offsetWidth_of cd - default 50 width),
   px (offsetTop_of cd + offsetHeight_of cd)).

(** [removeClass] of an item that may not be there. *)
Definition unmark (name : string) (k : option nat) (b : combo) : combo :=
  match k with Some k => map_item (removeClass name) k b | None => b end.

(** [Calendar.showMonthsCombo()] *)
Definition showMonthsCombo (g : gui) : gui :=
  if negb (_C (g_ges g)) then g else
  match activeDiv (g_ges g) with
  | None => g
  | Some cd =>
      let k := g_combos g in
      let mon := Z.to_nat (getMonth (c_date (g_cal g))) in
      let mc := unmark "active" (activeMonth k) (unmark "hilite" (hilitedMonth k) (monthsCombo k)) in
      let '(l, t) := combo_pos cd months_width in
      set_combos (Combos (show_combo l t (map_item (addClass "active") mon mc)) (yearsCombo k) (Some mon)
                    (hilitedMonth k) (hilitedYear k)) g
  end.

(** The loop of [showYearsCombo] from the item [yr] on; also whether one was shown. *)
Fixpoint fill_years (o : options) (step Y : Z) (yrs : list item) : list item * bool :=
  match yrs with
  | [] => ([], false)
  | i :: yrs =>
      let ok := (o_minYear o <=? Y) && (Y <=? o_maxYear o) in
      let '(yrs, show) := fill_years o step (Y + step) yrs in
      ((if ok then Item (i_class i) (Z_to_string Y) (Some Y) "block"
        else Item (i_class i) (i_text i) (i_year i) "none") :: yrs, ok || show)
  end.

(** [Calendar.showYearsCombo(fwd)] *)
Definition showYearsCombo (fwd : bool) (g : gui) : gui :=
  if negb (_C (g_ges g)) then g else
  match activeDiv (g_ges g) with
  | None => g
  | Some cd =>
      let k := g_combos g in
      let o := c_opts (g_cal g) in
      let yc := unmark "hilite" (hilitedYear k) (yearsCombo k) in
      let Y := getFullYear (c_date (g_cal g)) + (if fwd then 1 else -1) in
      let '(yrs, show) := fill_years o (if fwd then o_yearStep o else - o_yearStep o) Y (b_items yc) in
      let yc := Combo (b_display yc) (b_left yc) (b_top yc) yrs in
      let '(l, t) := combo_pos cd years_width in
      set_combos (Combos (monthsCombo k) (if show then show_combo l t yc else yc) (activeMonth k)
                    (hilitedMonth k) (hilitedYear k)) g
  end.

Definition run_timer (t : timer) (g : gui) : gui :=
  match t with TMonths => showMonthsCombo g | TYears fwd => showYearsCombo fwd g end.

(** [_hideCombos()] *)
Definition _hideCombos (k : combos) : combos := with_years hide_combo (with_months hide_combo k).

(** ** Class names of cells and rows *)

(** Only those of day cells and their rows are kept. *)
Definition el_class (f : string -> string) (m : melem) (c : calendar) : calendar :=
  match m with MEl (EDay r) => map_cell (cell_class f) r c | _ => c end.
Definition row_class (f : string -> string) (m : melem) (c : calendar) : calendar :=
  match m with
  | MEl (EDay r) => set_rows (alter (fun rw => Row (f (r_class rw)) (r_wn rw) (r_cells rw)) (fst r) (c_rows c)) c
  | _ => c
  end.

Definition disabled (m : melem) (c : calendar) : bool :=
  match m with
  | MEl (EDay r) => match cell_at (c_rows c) r with Some x => k_disabled x | None => false end
  | _ => false
  end.

(** ** Releasing the button *)

(** A choice in a combo box: the new date is set and the handler called. *)
Definition choose (now d : date) (c : calendar) : calendar :=
  callHandler (set_clicked false (cal_setDate now d c)).

(** The second half of [tableMouseUp], on the [target] of the event. *)
Definition combo_choice (now : date) (t : target) (k : combos) (c : calendar) : calendar :=
  match t with
  | TMonth m =>
      if Z.of_nat m =? getMonth (c_date c) then c
      else choose now (setMonth (Z.of_nat m) (c_date c)) c
  | TYear y =>
      match b_items (yearsCombo k) !! y with
      | Some (Item _ _ (Some year) _) =>
          if year =? getFullYear (c_date c) then c else choose now (setFullYear year (c_date c)) c
      | _ => c
      end
  | _ => c
  end.

Definition click (now : date) (m : melem) (c : calendar) : option calendar :=
  cellClick now (match m with MEl el => el | MTitle => ENav 300 end) c.

(** [Calendar.dayMouseDblClick(ev)], which Internet Explorer calls instead of a second
    press. *)
Definition dayMouseDblClick (now : date) (m : melem) (g : gui) : option gui :=
  c ← click now m (g_cal g); Some (set_gcal c g).

(** [Calendar.tableMouseUp(ev)]; [None] is an exception. *)
Definition tableMouseUp (now : date) (t : target) (g : gui) : option gui :=
  if negb (_C (g_ges g)) then Some g else
  let g := set_ges (clear_timeout (g_ges g)) g in
  match activeDiv (g_ges g) with
  | None => Some g
  | Some el =>
      let c := el_class (removeClass "active") el (g_cal g) in
      c ← (if bool_decide (t = TIn el) then click now el c else Some c);
      let c := combo_choice now t (g_combos g) c in
      let s := removeEvent OnMove (removeEvent OnOver (removeEvent OnUp (g_ges g))) in
      Some (Gui c (set_C false s) (_hideCombos (g_combos g)) (g_drag g) (g_tooltip g))
  end.

(** ** Pressing and dragging *)

(** [_dragStart(ev)] with the mouse at the position [x], [y] of the page. *)
Definition _dragStart (x y : Z) (g : gui) : gui :=
  let d := g_drag g in
  if dragging d then g else
  set_ges (addEvent DragUp (addEvent DragMove (g_ges g)))
    (set_drag (Drag true (Z.sub x <$> parseInt (left_ d)) (Z.sub y <$> parseInt (top_ d)) (left_ d) (top_ d)) g).

(** [st.left = (posX - cal.xOffs) + "px"]; ["NaNpx"] is no length and is ignored. *)
Definition moved (pos : Z) (offs : option Z) (old : string) : string :=
  match offs with Some o => px (pos - o) | None => old end.

(** [Calendar.calDragIt(ev)] *)
Definition calDragIt (x y : Z) (g : gui) : gui :=
  let d := g_drag g in
  if negb (_C (g_ges g) && dragging d) then g else
  set_drag (Drag (dragging d) (xOffs d) (yOffs d) (moved x (xOffs d) (left_ d)) (moved y (yOffs d) (top_ d))) g.

(** [Calendar.calDragEnd(ev)] *)
Definition calDragEnd (now : date) (t : target) (g : gui) : option gui :=
  if negb (_C (g_ges g)) then Some g else
  let d := g_drag g in
  let g := set_drag (Drag false (xOffs d) (yOffs d) (left_ d) (top_ d)) g in
  let g := set_ges (removeEvent DragUp (removeEvent DragMove (g_ges g))) g in
  tableMouseUp now t g.

(** [Calendar.dayMouseDown(ev)] on the element [m]. *)
Definition dayMouseDown (is_ie5 isPopup : bool) (m : melem) (x y : Z) (g : gui) : gui :=
  if disabled m (g_cal g) then g else
  let g := set_ges (set_C true (set_active m (g_ges g))) g in
  let nav := navtype m in
  let g :=
    if bool_decide (nav = Some 300) then (if isPopup then _dragStart x y g else g)
    else
      let s := addEvent OnUp (addEvent (if is_ie5 then OnMove else OnOver) (g_ges g)) in
      set_gcal (el_class (addClass "hilite active") m (g_cal g)) (set_ges s g) in
  let s := g_ges g in
  let s :=
    if bool_decide (nav = Some (-1)) || bool_decide (nav = Some 1) then setTimeout TMonths (clear_timeout s)
    else if bool_decide (nav = Some (-2)) || bool_decide (nav = Some 2)
    then setTimeout (TYears (match nav with Some n => 0 <? n | None => false end)) (clear_timeout s)
    else no_timeout s in
  set_ges s g.

(** ** Moving over the calendar *)

(** [Calendar.tableMouseOver(ev)] *)
Definition hover_month (m : nat) (c : calendar) (k : combos) : combos :=
  if negb (Z.of_nat m =? getMonth (c_date c)) then
    Combos (map_item (addClass "hilite") m (unmark "hilite" (hilitedMonth k) (monthsCombo k))) (yearsCombo k)
      (activeMonth k) (Some m) (hilitedYear k)
  else with_months (unmark "hilite" (hilitedMonth k)) k.
Definition hover_year (y : nat) (year : Z) (c : calendar) (k : combos) : combos :=
  if negb (year =? getFullYear (c_date c)) then
    Combos (monthsCombo k) (map_item (addClass "hilite") y (unmark "hilite" (hilitedYear k) (yearsCombo k)))
      (activeMonth k) (hilitedMonth k) (Some y)
  else with_years (unmark "hilite" (hilitedYear k)) k.
Definition hover_combos (t : target) (c : calendar) (k : combos) : combos :=
  match t with
  | TMonth m => hover_month m c k
  | _ =>
      let k := with_months (unmark "hilite" (hilitedMonth k)) k in
      match t with
      | TYear y =>
          match b_items (yearsCombo k) !! y with
          | Some (Item _ _ (Some year) _) => hover_year y year c k
          | _ => with_years (unmark "hilite" (hilitedYear k)) k
          end
      | _ => with_years (unmark "hilite" (hilitedYear k)) k
      end
  end.

(** [typeof el.navtype == "undefined" || ...]: does the button lose its pressed look? *)
Definition loses_active (m : melem) : bool :=
  match navtype m with
  | None => true
  | Some n => negb (n =? 50) && ((n =? 0) || (2 <? Z.abs n))
  end.

Definition tableMouseOver (t : target) (g : gui) : option gui :=
  if negb (_C (g_ges g)) then Some g else
  el ← activeDiv (g_ges g);
  let c := g_cal g in
  let c :=
    if bool_decide (t = TIn el) then row_class (addClass "rowhilite") el (el_class (addClass "hilite active") el c)
    else
      let c := if loses_active el then el_class (removeClass "active") el c else c in
      row_class (removeClass "rowhilite") el (el_class (removeClass "hilite") el c) in
  Some (set_combos (hover_combos t c (g_combos g)) (set_gcal c g)).

Definition SEL_DATE : string := "Select date".
Definition ttDateFormat : string := "%a, %b %e".

(** The tool tip of a day cell, which is completed when it is first shown. *)
Definition full_ttip (x : cell) : option string :=
  if String.eqb (k_ttip x) "" then None
  else if String.eqb (stake 1 (k_ttip x)) "_"
  then d ← k_caldate x; Some (print ttDateFormat d +++ sdrop 1 (k_ttip x))
  else Some (k_ttip x).

(** [Calendar.dayMouseOver(ev)] on a day cell. *)
Definition dayMouseOver (r : cell_ref) (g : gui) : gui :=
  match cell_at (c_rows (g_cal g)) r with
  | None => g
  | Some x =>
      if _C (g_ges g) || k_disabled x then g else
      let g := match full_ttip x with
               | Some s => set_tooltip s (set_gcal (map_cell (fun k =>
                   Cell (k_class k) (k_text k) (k_other k) (k_disabled k) (k_caldate k) s) r (g_cal g)) g)
               | None => g
               end in
      let c := el_class (addClass "hilite") (MEl (EDay r)) (g_cal g) in
      set_gcal (match k_caldate x with Some _ => row_class (addClass "rowhilite") (MEl (EDay r)) c | None => c end) g
  end.

(** [Calendar.dayMouseOut(ev)] on a day cell. *)
Definition dayMouseOut (r : cell_ref) (g : gui) : gui :=
  match cell_at (c_rows (g_cal g)) r with
  | None => g
  | Some x =>
      if _C (g_ges g) || k_disabled x then g else
      let c := el_class (removeClass "hilite") (MEl (EDay r)) (g_cal g) in
      set_tooltip SEL_DATE
        (set_gcal (match k_caldate x with Some _ => row_class (removeClass "rowhilite") (MEl (EDay r)) c | None => c end) g)
  end.

(** ** The events of the document *)

(** One listener, if it is still registered. *)
Definition on_up (now : date) (t : target) (l : listener) (g : gui) : option gui :=
  if bool_decide (l ∈ listeners (g_ges g)) then
    match l with
    | OnUp => tableMouseUp now t g
    | DragUp => calDragEnd now t g
    | _ => Some g
    end
  else Some g.
Definition mouseup (now : date) (t : target) (g : gui) : option gui :=
  foldl (fun o l => g ← o; on_up now t l g) (Some g) (listeners (g_ges g)).

Definition mousemove (t : target) (x y : Z) (g : gui) : option gui :=
  foldl (fun o l => g ← o;
    if bool_decide (l ∈ listeners (g_ges g)) then
      match l with OnMove => tableMouseOver t g | DragMove => Some (calDragIt x y g) | _ => Some g end
    else Some g) (Some g) (listeners (g_ges g)).
Definition mouseover (t : target) (g : gui) : option gui :=
  if bool_decide (OnOver ∈ listeners (g_ges g)) then tableMouseOver t g else Some g.

(** The timer with number [n] fires. *)
Definition fire_timer (n : nat) (t : timer) (g : gui) : gui :=
  let s := g_ges g in
  run_timer t (set_ges (Gesture (_C s) (activeDiv s) (timeout s) (base.filter (fun nt => nt.1 <> n) (pending s))
                          (next_timer s) (listeners s)) g).

(** The combo boxes that [create] builds. *)
Definition create_combos (is_ie : bool) : combos :=
  let cls := if is_ie then "label-IEfix" else "label" in
  Combos (Combo "" "" "" ((fun s => Item cls s None "") <$> SMN))
         (Combo "" "" "" (replicate 12 (Item cls "" None ""))) None None None.
Definition no_gesture : gesture := Gesture false None None [] 0 [].
Definition new_gui (is_ie : bool) (c : calendar) : gui :=
  Gui c no_gesture (create_combos is_ie) (Drag false None None "" "") SEL_DATE.
End mouse.

(** ** Class names and the calendar's invariant *)
Lemma cell_at_map f r r' c :
  cell_at (c_rows (map_cell f r c)) r' = (if decide (r' = r) then f else fun x => x) <$> cell_at (c_rows c) r'.
Proof.
  destruct r as [p q], r' as [p' q']. unfold cell_at, map_cell. cbn [c_rows set_rows fst snd].
  destruct (decide (p' = p)) as [->|Hp].
  - rewrite list_lookup_alter_eq. destruct (c_rows c !! p) as [rw|]; [|done].
    cbn [fmap option_fmap option_map mbind option_bind r_cells]. destruct (decide (q' = q)) as [->|Hq].
    + by rewrite list_lookup_alter_eq, decide_True.
    + rewrite list_lookup_alter_ne, decide_False by congruence. by destruct (r_cells rw !! q').
  - rewrite list_lookup_alter_ne, decide_False by congruence.
    destruct (c_rows c !! p') as [rw|]; [|done]. cbn. by destruct (r_cells rw !! q').
Qed.

(** A change of cells that keeps their dates. *)
Definition keeps_day (f : cell -> cell) : Prop :=
  forall k, k_caldate (f k) = k_caldate k /\ k_disabled (f k) = k_disabled k /\ k_other (f k) = k_other k.

Lemma map_cell_inv f r c : keeps_day f -> cal_inv c -> cal_inv (map_cell f r c).
Proof.
  intros Hf [I1 I2 I3 I4 I5 I6 I7].
  assert (Hcell : forall r', exists g, keeps_day g /\ cell_at (c_rows (map_cell f r c)) r' = g <$> cell_at (c_rows c) r').
  { intros r'. rewrite cell_at_map. destruct (decide (r' = r)); [by exists f|by exists (fun x => x)]. }
  constructor; try done.
  - destruct I1 as [Hl Hc]. split; [cbn; by rewrite length_alter|]. apply Forall_alter; [done|].
    intros rw _ Hrw. cbn. by rewrite length_alter.
  - intros n Hn. destruct (I5 n Hn) as (r' & x & t & E1 & E2 & E3 & E4 & E5 & E6).
    destruct (Hcell r') as (g & Hg & Hx). destruct (Hg x) as (G1 & G2 & G3).
    exists r', (g x), t. rewrite Hx, E2, G1, G2, G3. done.
  - intros r' x Hx Hdis. destruct (Hcell r') as (g & Hg & Hx'). rewrite Hx' in Hx.
    destruct (cell_at (c_rows c) r') as [x0|] eqn:E; [|done]. injection Hx as <-.
    destruct (Hg x0) as (G1 & G2 & G3). apply (I6 r' x0); [done|congruence].
Qed.

Lemma el_class_core f m c : same_core c (el_class f m c).
Proof. destruct m as [[]|]; cbn [el_class]; auto with js. Qed.
Lemma el_class_current f m c : c_current (el_class f m c) = c_current c.
Proof. by destruct m as [[]|]. Qed.

Lemma row_class_core f m c : same_core c (row_class f m c).
Proof.
  destruct m as [[r| | | |]|]; cbn [row_class]; auto with js. constructor; try done.
  - intros [Hl Hc]. split; [cbn; by rewrite length_alter|]. by apply Forall_alter.
  - intros [p q]. exists (fun s => s). unfold cell_at. cbn [c_rows set_rows fst snd].
    destruct (decide (p = fst r)) as [->|Hp].
    + rewrite list_lookup_alter_eq. destruct (c_rows c !! fst r) as [rw|]; [|done].
      cbn. destruct (r_cells rw !! q); cbn; [by rewrite cell_class_id|done].
    + rewrite list_lookup_alter_ne by congruence. destruct (c_rows c !! p) as [rw|]; [|done].
      cbn. destruct (r_cells rw !! q); cbn; [by rewrite cell_class_id|done].
Qed.
Lemma row_class_current f m c : c_current (row_class f m c) = c_current c.
Proof. by destruct m as [[]|]. Qed.
#[export] Hint Resolve el_class_core row_class_core : js.

(** The element can be clicked. *)
Definition enabled (m : melem) (c : calendar) : Prop :=
  match m with MEl (EDay r) => exists x, cell_at (c_rows c) r = Some x /\ k_disabled x = false | _ => True end.

Lemma enabled_core m c c' : same_core c c' -> enabled m c -> enabled m c'.
Proof.
  intros Hc. destruct m as [[r| | | |]|]; try done. intros (x & Hx & Hd).
  destruct (sc_cells _ _ Hc r) as [f Hf]. exists (cell_class f x). by rewrite Hf, Hx.
Qed.

Lemma cal_inv_class f m c : cal_inv c -> cal_inv (el_class f m c).
Proof. apply cal_inv_core; [apply el_class_core|apply el_class_current]. Qed.
Lemma cal_inv_row f m c : cal_inv c -> cal_inv (row_class f m c).
Proof. apply cal_inv_core; [apply row_class_core|apply row_class_current]. Qed.

Lemma choose_inv now d c : cal_inv c -> cal_inv (choose now d c).
Proof.
  intros Hi. unfold choose.
  apply (cal_inv_core (cal_setDate now d c)).
  - eapply same_core_trans; [apply set_clicked_core|apply callHandler_core].
  - by rewrite callHandler_current.
  - unfold cal_setDate. destruct (equalsTo d (c_date c)); [done|]. cbn [negb]. by apply cal_inv_init.
Qed.

Lemma combo_choice_inv now t k c : cal_inv c -> cal_inv (combo_choice now t k c).
Proof.
  intros Hi. unfold combo_choice. destruct t as [|m|y|]; try done.
  - case_match; [done|by apply choose_inv].
  - case_match; [|done]. case_match. case_match; [|done]. case_match; [done|by apply choose_inv].
Qed.

(** A click on an element that is enabled succeeds. *)
Lemma click_inv now m c :
  cal_inv c -> enabled m c -> exists c', click now m c = Some c' /\ cal_inv c'.
Proof.
  intros Hi He. unfold click. destruct m as [[r|n| |id|f]|]; cbn [enabled] in He.
  - destruct He as (x & Hx & Hd). destruct (cellClick_day now r x c Hi Hx Hd) as (t & c' & _ & H1 & _ & _ & _ & H2).
    by exists c'.
  - destruct (cellClick now (ENav n) c) as [c'|] eqn:E; [|exfalso].
    + exists c'. split; [done|]. by apply (button_inv now (ENav n) c).
    + cbn [cellClick] in E. case_match; [|done]. case_match; [|done]. by case_match.
  - eexists. split; [reflexivity|]. by apply (button_inv now EClose c).
  - eexists. split; [reflexivity|]. by apply (button_inv now (EInfo id) c).
  - eexists. split; [reflexivity|]. by apply (button_inv now (EHeader f) c).
  - eexists. split; [reflexivity|]. by apply (button_inv now (ENav 300) c).
Qed.

(** ** The invariant of a gesture *)
Definition shown (b : combo) : bool := String.eqb (b_display b) "block".

Record gui_inv (g : gui) : Prop := GuiInv {
  gi_cal : cal_inv (g_cal g);
  gi_active : _C (g_ges g) = true ->
    exists m, activeDiv (g_ges g) = Some m /\ enabled m (g_cal g);
  gi_combos : _C (g_ges g) = false ->
    shown (monthsCombo (g_combos g)) = false /\ shown (yearsCombo (g_combos g)) = false;
  gi_drag : dragging (g_drag g) = true -> DragUp ∈ listeners (g_ges g)
}.

Lemma addEvent_in l l' s : l ∈ listeners s -> l ∈ listeners (addEvent l' s).
Proof. intros Hl. cbn. case_bool_decide; [done|]. apply elem_of_app. by left. Qed.
Lemma removeEvent_in l l' s : l <> l' -> l ∈ listeners s -> l ∈ listeners (removeEvent l' s).
Proof. intros Hne Hl. cbn. by apply list_elem_of_filter. Qed.
Lemma addEvent_here l s : l ∈ listeners (addEvent l s).
Proof. cbn. case_bool_decide; [done|]. apply elem_of_app. right. by constructor. Qed.
#[export] Hint Resolve addEvent_in removeEvent_in addEvent_here : js.

Lemma clear_timeout_fields s :
  _C (clear_timeout s) = _C s /\ activeDiv (clear_timeout s) = activeDiv s /\ listeners (clear_timeout s) = listeners s.
Proof. unfold clear_timeout. by destruct (timeout s). Qed.

Lemma tableMouseUp_inv now t g :
  gui_inv g -> exists g', tableMouseUp now t g = Some g' /\ gui_inv g' /\ _C (g_ges g') = false.
Proof.
  intros [Hc Ha Hk Hd]. unfold tableMouseUp. destruct (_C (g_ges g)) eqn:EC; cbn [negb].
  2: { exists g. split; [done|]. split; [by constructor; rewrite ?EC|done]. }
  destruct (Ha eq_refl) as (m & Hm & Hen). cbn [g_ges set_ges].
  destruct (clear_timeout_fields (g_ges g)) as (_ & -> & Hl). rewrite Hm. cbn [g_cal set_ges g_combos g_drag g_tooltip].
  set (c := el_class (removeClass "active") m (g_cal g)).
  assert (Hc1 : cal_inv c) by by apply cal_inv_class.
  assert (Hen1 : enabled m c) by (eapply enabled_core; [apply el_class_core|done]).
  assert (exists c', (if bool_decide (t = TIn m) then click now m c else Some c) = Some c' /\ cal_inv c') as (c' & -> & Hc').
  { case_bool_decide; [by apply click_inv|by exists c]. }
  cbn [mbind option_bind]. eexists. split; [reflexivity|]. split; [|done].
  constructor; cbn [g_cal g_ges g_combos g_drag set_C _C].
  - by apply combo_choice_inv.
  - done.
  - done.
  - intros E. specialize (Hd E). cbn [listeners set_C].
    repeat (apply removeEvent_in; [done|]). by rewrite Hl.
Qed.

Lemma calDragEnd_inv now t g :
  gui_inv g -> exists g', calDragEnd now t g = Some g' /\ gui_inv g' /\ _C (g_ges g') = false.
Proof.
  intros Hi. unfold calDragEnd. destruct (_C (g_ges g)) eqn:EC; cbn [negb].
  2: { by exists g. }
  apply tableMouseUp_inv. destruct Hi as [Hc Ha Hk Hd]. constructor; cbn; auto. done.
Qed.

(** The listeners run one after the other. *)
Lemma foldl_inv (f : listener -> gui -> option gui) (Q : gui -> Prop) l g :
  (forall l g, Q g -> exists g', f l g = Some g' /\ Q g') -> Q g ->
  exists g', foldl (fun o l => g ← o; f l g) (Some g) l = Some g' /\ Q g'.
Proof.
  intros Hf. revert g. induction l as [|x l IH]; intros g Hg; cbn [foldl]; [by exists g|].
  cbn [mbind option_bind]. destruct (Hf x g Hg) as (g' & -> & Hg'). by apply IH.
Qed.

Lemma mouseup_inv now t g : gui_inv g -> exists g', mouseup now t g = Some g' /\ gui_inv g'.
Proof.
  intros Hi. apply (foldl_inv (on_up now t) gui_inv); [|done]. clear. intros l g Hi. unfold on_up.
  case_bool_decide; [|by exists g]. destruct l; try (by exists g).
  - destruct (tableMouseUp_inv now t g Hi) as (g' & ? & ? & _). by exists g'.
  - destruct (calDragEnd_inv now t g Hi) as (g' & ? & ? & _). by exists g'.
Qed.

Lemma tableMouseOver_inv t g : gui_inv g -> exists g', tableMouseOver t g = Some g' /\ gui_inv g'.
Proof.
  intros [Hc Ha Hk Hd]. unfold tableMouseOver. destruct (_C (g_ges g)) eqn:EC; cbn [negb].
  2: { exists g. split; [done|]. by constructor; rewrite ?EC. }
  destruct (Ha eq_refl) as (m & Hm & Hen). rewrite Hm. cbn [mbind option_bind]. eexists. split; [reflexivity|].
  set (c := if bool_decide (t = TIn m) then _ else _).
  assert (Hcore : same_core (g_cal g) c /\ c_current c = c_current (g_cal g)).
  { unfold c. case_bool_decide; [|destruct (loses_active m)];
      (split; [repeat (eapply same_core_trans; [|apply row_class_core]);
               repeat (eapply same_core_trans; [|apply el_class_core]); apply same_core_refl
              |by rewrite ?row_class_current, ?el_class_current]). }
  destruct Hcore as [Hcore Hcur]. constructor; cbn [g_cal g_ges g_drag set_combos set_gcal]; try done.
  - by eapply cal_inv_core.
  - intros _. exists m. split; [done|by eapply enabled_core].
  - by rewrite EC.
Qed.

Lemma calDragIt_inv x y g : gui_inv g -> gui_inv (calDragIt x y g).
Proof. intros Hi. unfold calDragIt. case_match; [done|]. by destruct Hi. Qed.

Lemma mousemove_inv t x y g : gui_inv g -> exists g', mousemove t x y g = Some g' /\ gui_inv g'.
Proof.
  intros Hi. unfold mousemove.
  apply (foldl_inv (fun l g => if bool_decide (l ∈ listeners (g_ges g)) then
    match l with OnMove => tableMouseOver t g | DragMove => Some (calDragIt x y g) | _ => Some g end else Some g)
    gui_inv); [|done].
  clear. intros l g Hi. case_bool_decide; [|by exists g]. destruct l; try (by exists g).
  - by apply tableMouseOver_inv.
  - eexists. split; [reflexivity|]. by apply calDragIt_inv.
Qed.

(** A gesture state that only differs in its timers. *)
Definition same_gesture (s s' : gesture) : Prop :=
  _C s' = _C s /\ activeDiv s' = activeDiv s /\ listeners s' = listeners s.

Lemma gui_inv_timers g s : same_gesture (g_ges g) s -> gui_inv g -> gui_inv (set_ges s g).
Proof. intros (E1 & E2 & E3) [Hc Ha Hk Hd]. constructor; cbn [g_ges set_ges]; rewrite ?E1, ?E2, ?E3; done. Qed.

Lemma setTimeout_same t s : same_gesture s (setTimeout t (clear_timeout s)).
Proof. unfold same_gesture. cbn. apply clear_timeout_fields. Qed.

Lemma dayMouseDown_inv ie5 popup m x y g :
  (forall r, m = MEl (EDay r) -> is_Some (cell_at (c_rows (g_cal g)) r)) ->
  gui_inv g -> gui_inv (dayMouseDown ie5 popup m x y g).
Proof.
  intros Hm [Hc Ha Hk Hd]. unfold dayMouseDown. destruct (disabled m (g_cal g)) eqn:Edis; [done|].
  assert (Hen : enabled m (g_cal g)).
  { destruct m as [[r| | | |]|]; try done. destruct (Hm r eq_refl) as [k Hk']. cbn in Edis. rewrite Hk' in Edis. by exists k. }
  set (g1 := set_ges (set_C true (set_active m (g_ges g))) g).
  set (g2 := if bool_decide (navtype m = Some 300) then _ else _).
  assert (Hg2 : gui_inv g2).
  { unfold g2. case_bool_decide as E.
    - assert (Hg1 : gui_inv g1) by (constructor; cbn; try done; intros _; by exists m).
      destruct popup; [|done]. unfold _dragStart. destruct (dragging (g_drag g1)) eqn:Ed; [done|].
      destruct Hg1 as [I1 I2 I3 I4]. constructor; cbn [g_cal g_ges g_combos g_drag set_ges set_drag]; try done.
      intros _. apply addEvent_here.
    - constructor; cbn [g_cal g_ges g_combos g_drag set_ges set_gcal].
      + by apply cal_inv_class.
      + intros _. exists m. split; [done|]. eapply enabled_core; [apply el_class_core|done].
      + done.
      + intros Ed. apply addEvent_in, addEvent_in. by apply Hd. }
  clearbody g2. apply gui_inv_timers; [|done].
  repeat case_match; [apply setTimeout_same..|done].
Qed.

Lemma set_tooltip_inv s g : gui_inv g -> gui_inv (set_tooltip s g).
Proof. by intros []. Qed.

Lemma idle_cal_inv c g : _C (g_ges g) = false -> cal_inv c -> gui_inv g -> gui_inv (set_gcal c g).
Proof. intros E Hc [I1 I2 I3 I4]. constructor; cbn [g_cal g_ges g_combos g_drag set_gcal]; try done. by rewrite E. Qed.

Lemma dayMouseOver_inv r g : gui_inv g -> gui_inv (dayMouseOver r g).
Proof.
  intros Hi. unfold dayMouseOver. destruct (cell_at _ r) as [x|]; [|done].
  destruct (_C (g_ges g)) eqn:EC; [done|]. cbn [orb]. destruct (k_disabled x); [done|].
  set (g1 := match full_ttip x with Some _ => _ | None => g end).
  assert (Hg1 : gui_inv g1 /\ _C (g_ges g1) = false).
  { unfold g1. destruct (full_ttip x); [|done]. split; [|done]. apply set_tooltip_inv, idle_cal_inv; [done| |done].
    apply map_cell_inv; [by intros []|apply Hi]. }
  clearbody g1. destruct Hg1 as [Hg1 E1]. apply idle_cal_inv; [done| |done].
  destruct (k_caldate x); [apply cal_inv_row|]; apply cal_inv_class, Hg1.
Qed.

Lemma dayMouseOut_inv r g : gui_inv g -> gui_inv (dayMouseOut r g).
Proof.
  intros Hi. unfold dayMouseOut. destruct (cell_at _ r) as [x|]; [|done].
  destruct (_C (g_ges g)) eqn:EC; [done|]. cbn [orb]. destruct (k_disabled x); [done|].
  apply set_tooltip_inv, idle_cal_inv; [done| |done].
  destruct (k_caldate x); [apply cal_inv_row|]; apply cal_inv_class, Hi.
Qed.

Section gui_steps.
Context `{Layout} (is_ie5 isPopup : bool).

Lemma combos_timer t g :
  _C (g_ges (run_timer t g)) = _C (g_ges g) /\ g_cal (run_timer t g) = g_cal g /\
  g_ges (run_timer t g) = g_ges g /\ g_drag (run_timer t g) = g_drag g /\
  (_C (g_ges g) = false -> run_timer t g = g).
Proof.
  destruct t as [|fwd]; cbn [run_timer].
  - unfold showMonthsCombo. destruct (_C (g_ges g)) eqn:E; cbn [negb]; [|done].
    destruct (activeDiv (g_ges g)); [|done]. by destruct (combo_pos _ _).
  - unfold showYearsCombo. destruct (_C (g_ges g)) eqn:E; cbn [negb]; [|done].
    destruct (activeDiv (g_ges g)); [|done]. destruct (fill_years _ _ _ _). by destruct (combo_pos _ _).
Qed.

Lemma run_timer_inv t g : gui_inv g -> gui_inv (run_timer t g).
Proof.
  intros [I1 I2 I3 I4]. destruct (combos_timer t g) as (E1 & E2 & E3 & E4 & E5).
  constructor; rewrite ?E1, ?E2, ?E3, ?E4; try done. intros E. rewrite (E5 E). by apply I3.
Qed.

Lemma fire_timer_inv n t g : gui_inv g -> gui_inv (fire_timer n t g).
Proof. intros Hi. unfold fire_timer. apply run_timer_inv. by apply gui_inv_timers. Qed.

(** The events of the mouse; the keyboard and the page act between two gestures. *)
Inductive gui_step : gui -> gui -> Prop :=
| gs_down m x y g :
    (forall r, m = MEl (EDay r) -> is_Some (cell_at (c_rows (g_cal g)) r)) ->
    gui_step g (dayMouseDown is_ie5 isPopup m x y g)
| gs_up now t g g' : mouseup now t g = Some g' -> gui_step g g'
| gs_move t x y g g' : mousemove t x y g = Some g' -> gui_step g g'
| gs_mouseover t g g' : mouseover t g = Some g' -> gui_step g g'
| gs_timer n t g : (n, t) ∈ pending (g_ges g) -> gui_step g (fire_timer n t g)
| gs_over r g : gui_step g (dayMouseOver r g)
| gs_out r g : gui_step g (dayMouseOut r g)
| gs_cal c g : _C (g_ges g) = false -> cal_step (g_cal g) c -> gui_step g (set_gcal c g).

Lemma mouseover_inv t g : gui_inv g -> exists g', mouseover t g = Some g' /\ gui_inv g'.
Proof. intros Hi. unfold mouseover. case_bool_decide; [by apply tableMouseOver_inv|by exists g]. Qed.

Lemma gui_step_inv g g' : gui_inv g -> gui_step g g' -> gui_inv g'.
Proof.
  intros Hi Hs. destruct Hs as [m x y g Hm|now t g g' E|t x y g g' E|t g g' E|n t g|r g|r g|c g EC Hc].
  - by apply dayMouseDown_inv.
  - destruct (mouseup_inv now t g Hi) as (g2 & E2 & ?). congruence.
  - destruct (mousemove_inv t x y g Hi) as (g2 & E2 & ?). congruence.
  - destruct (mouseover_inv t g Hi) as (g2 & E2 & ?). congruence.
  - by apply fire_timer_inv.
  - by apply dayMouseOver_inv.
  - by apply dayMouseOut_inv.
  - apply idle_cal_inv; [done| |done]. eapply cal_step_inv; [apply Hi|done].
Qed.

Definition release (l : listener) : bool := match l with OnUp | DragUp => true | _ => false end.

Lemma on_up_idle now t l g : _C (g_ges g) = false -> on_up now t l g = Some g.
Proof.
  intros E. unfold on_up. case_bool_decide; [|done].
  destruct l; try done; [unfold tableMouseUp|unfold calDragEnd]; by rewrite E.
Qed.

Lemma on_up_ends now t l g :
  gui_inv g -> release l = true -> l ∈ listeners (g_ges g) ->
  exists g', on_up now t l g = Some g' /\ gui_inv g' /\ _C (g_ges g') = false.
Proof.
  intros Hi Hl Hin. unfold on_up. rewrite bool_decide_eq_true_2 by done.
  destruct l; try done; [by apply tableMouseUp_inv|by apply calDragEnd_inv].
Qed.

Lemma mouseup_loop now t l : forall g, gui_inv g ->
  (_C (g_ges g) = false \/ exists x, release x = true /\ x ∈ l /\ x ∈ listeners (g_ges g)) ->
  exists g', foldl (fun o l => g ← o; on_up now t l g) (Some g) l = Some g' /\ _C (g_ges g') = false.
Proof.
  induction l as [|y l IH]; intros g Hi Hg; cbn [foldl mbind option_bind].
  - exists g. split; [done|]. destruct Hg as [?|(x & _ & Hx & _)]; [done|by apply elem_of_nil in Hx].
  - destruct Hg as [E|(x & Hx & Hin & Hreg)]; [rewrite on_up_idle by done; apply IH; auto|].
    destruct (decide (release y = true /\ y ∈ listeners (g_ges g))) as [[Hy Hyin]|Hn].
    + destruct (on_up_ends now t y g Hi Hy Hyin) as (g' & -> & Hi' & E). apply IH; auto.
    + assert (on_up now t y g = Some g) as ->.
      { unfold on_up. case_bool_decide; [|done]. destruct y; try done; by destruct Hn. }
      apply IH; [done|]. right. exists x. apply elem_of_cons in Hin as [->|Hin]; [by destruct Hn|done].
Qed.

Lemma new_gui_inv is_ie c : cal_inv c -> gui_inv (new_gui is_ie c).
Proof. intros Hc. by constructor. Qed.

(** C10. The mouse on a calendar, for every sequence of presses, releases, moves,
    timers and, between gestures, keys and calls of the page: the calendar's
    invariant holds; while a gesture is in progress the pressed element is known and
    enabled; outside a gesture no combo box is open; a calendar that is being dragged
    listens for the release.  No release or move ever fails, and a release with the
    button's listener registered ends the gesture. *)
Theorem gui_reachable_inv is_ie c g :
  cal_inv c -> rtc gui_step (new_gui is_ie c) g ->
  gui_inv g /\
  (forall now t, exists g', mouseup now t g = Some g' /\ gui_inv g' /\
     (OnUp ∈ listeners (g_ges g) \/ DragUp ∈ listeners (g_ges g) -> _C (g_ges g') = false)) /\
  (forall t x y, is_Some (mousemove t x y g)) /\ (forall t, is_Some (mouseover t g)).
Proof.
  intros Hc Hr. assert (Hi : gui_inv g).
  { pose proof (new_gui_inv is_ie c Hc) as H0. revert H0. induction Hr as [|g1 g2 g3 Hs _ IH]; [done|].
    intros H0. apply IH. by eapply gui_step_inv. }
  split; [done|]. split; [|split].
  - intros now t. destruct (mouseup_inv now t g Hi) as (g' & E & Hi'). exists g'. split; [done|]. split; [done|].
    intros Hl. destruct (mouseup_loop now t (listeners (g_ges g)) g Hi) as (g2 & E2 & HC).
    { right. destruct Hl; [by exists OnUp|by exists DragUp]. }
    unfold mouseup in E. congruence.
  - intros t x y. destruct (mousemove_inv t x y g Hi) as (g' & -> & _). by eexists.
  - intros t. destruct (mouseover_inv t g Hi) as (g' & -> & _). by eexists.
Qed.
End gui_steps.

(** ** Choosing from a combo box *)
Lemma choose_spec now d c :
  cal_inv c -> equalsTo d (c_date c) = false -> o_minYear (c_opts c) <= getFullYear d <= o_maxYear (c_opts c) ->
  cal_inv (choose now d c) /\ c_date (choose now d c) = d /\ c_clicked (choose now d c) = false /\
  c_log (choose now d c) = c_log c ++
    (if o_onSelected (c_opts c) then [Selected (print (o_dateFormat (c_opts c)) d) d false] else []).
Proof.
  intros Hi Hne Hy. split; [by apply choose_inv|]. unfold choose, cal_setDate. rewrite Hne. cbn [negb].
  destruct (cal_inv_init now (c_fdow c) d c Hi) as [_ Hd]. rewrite clamp_year_id in Hd by done.
  destruct (init_fields now (c_fdow c) d c) as (Ho & _ & _ & _ & _ & _ & _ & _ & Hl).
  set (c1 := init now (c_fdow c) d c) in *. clearbody c1.
  split; [by rewrite (sc_date _ _ (callHandler_core _))|].
  split; [by rewrite callHandler_clicked|]. unfold callHandler. cbn [c_opts set_clicked]. rewrite Ho.
  destruct (o_onSelected (c_opts c)); cbn [c_log c_date c_clicked set_clicked add_event];
    [by rewrite Hl, Hd|by rewrite Hl, app_nil_r].
Qed.

Lemma equalsTo_month d e : getMonth d <> getMonth e -> equalsTo d e = false.
Proof. intros Hne. apply not_true_is_false. unfold equalsTo. intros E. bool_to_prop. congruence. Qed.
Lemma equalsTo_year d e : getFullYear d <> getFullYear e -> equalsTo d e = false.
Proof. intros Hne. apply not_true_is_false. unfold equalsTo. intros E. bool_to_prop. congruence. Qed.

(** [setMonth] of a date whose day the month does not have. *)
Lemma setMonth_overflow m t :
  0 <= m < 11 -> monthLength (getFullYear t) m < getDate t ->
  getFullYear (setMonth m t) = getFullYear t /\ getMonth (setMonth m t) = m + 1 /\
  getDate (setMonth m t) = getDate t - monthLength (getFullYear t) m.
Proof.
  intros Hm Hd. unfold setMonth. set (y := getFullYear t) in *. set (L := monthLength y m) in *.
  pose proof (getDate_range t) as Hr. pose proof (monthLength_range (getFullYear t) _ (getMonth_range t)) as Hl.
  pose proof (monthLength_range y m ltac:(lia)) as HL. fold L in HL.
  pose proof (monthLength_range y (m + 1) ltac:(lia)).
  assert (makeDay y m (getDate t) = makeDay y (m + 1) (getDate t - L)) as ->.
  { pose proof (makeDay_next_month y m ltac:(lia)) as Hn. fold L in Hn.
    pose proof (makeDay_day y m 1 (getDate t - 1)) as E1. pose proof (makeDay_day y (m + 1) 1 (getDate t - L - 1)) as E2.
    replace (1 + (getDate t - 1)) with (getDate t) in E1 by lia.
    replace (1 + (getDate t - L - 1)) with (getDate t - L) in E2 by lia. lia. }
  assert (valid_ymd y (m + 1) (getDate t - L)) by (split; lia).
  rewrite getFullYear_makeDate, getMonth_makeDate, getDate_makeDate by (done || apply timeOf_range). done.
Qed.

(** A choice that is released over an item of a combo box. *)
Lemma tableMouseUp_choice now t g m :
  _C (g_ges g) = true -> activeDiv (g_ges g) = Some m -> (forall m', t <> TIn m') ->
  exists g', tableMouseUp now t g = Some g' /\ _C (g_ges g') = false /\
    g_cal g' = combo_choice now t (g_combos g) (el_class (removeClass "active") m (g_cal g)).
Proof.
  intros HC Hm Ht. unfold tableMouseUp. rewrite HC. cbn [negb g_ges set_ges].
  destruct (clear_timeout_fields (g_ges g)) as (_ & -> & _). rewrite Hm.
  rewrite bool_decide_eq_false_2 by (apply Ht). cbn [mbind option_bind]. by eexists.
Qed.

Definition selected_log (c : calendar) (d : date) : list cal_event :=
  c_log c ++ (if o_onSelected (c_opts c) then [Selected (print (o_dateFormat (c_opts c)) d) d false] else []).

(** What a choice keeps of the calendar before the pressed look was taken away. *)
Lemma choice_before f m c d :
  cal_inv c -> equalsTo d (c_date c) = false -> o_minYear (c_opts c) <= getFullYear d <= o_maxYear (c_opts c) ->
  forall now, let c' := choose now d (el_class f m c) in
  cal_inv c' /\ c_date c' = d /\ c_log c' = selected_log c d.
Proof.
  intros Hi Hne Hy now c'. pose proof (el_class_core f m c) as Hs.
  destruct (choose_spec now d (el_class f m c)) as (H1 & H2 & _ & H3).
  - by apply cal_inv_class.
  - by rewrite (sc_date _ _ Hs).
  - by rewrite (sc_opts _ _ Hs).
  - split; [done|]. split; [done|]. unfold c'. rewrite H3, (sc_opts _ _ Hs). unfold selected_log. f_equal.
    by destruct m as [[]|].
Qed.

(** Choosing a month in the combo box does not clamp the day as the buttons do:
    the calendar moves to that month when it has the selected day, and otherwise to
    the first days of the month after it (from January 31, choosing February shows
    March).  The handler is called with the new date and the gesture is over. *)
Theorem month_combo now g el m :
  gui_inv g -> _C (g_ges g) = true -> activeDiv (g_ges g) = Some el -> (m < 12)%nat ->
  let c := g_cal g in let d := c_date c in let M := Z.of_nat m in
  let L := monthLength (getFullYear d) M in
  M <> getMonth d ->
  exists g' d', tableMouseUp now (TMonth m) g = Some g' /\ _C (g_ges g') = false /\ cal_inv (g_cal g') /\
    c_date (g_cal g') = d' /\ c_log (g_cal g') = selected_log c d' /\
    getFullYear d' = getFullYear d /\ timeOf d' = timeOf d /\
    if getDate d <=? L then getMonth d' = M /\ getDate d' = getDate d
    else getMonth d' = M + 1 /\ getDate d' = getDate d - L.
Proof.
  intros Hi HC Hel Hm c d M L Hne. pose proof (gi_cal _ Hi) as Hc.
  destruct (tableMouseUp_choice now (TMonth m) g el HC Hel) as (g' & E & HC' & Hcal); [done|].
  exists g', (setMonth M d). split; [done|]. split; [done|]. rewrite Hcal. unfold combo_choice. fold M c.
  rewrite (sc_date _ _ (el_class_core (removeClass "active") el c)). fold d.
  destruct (Z.eqb_spec M (getMonth d)) as [?|_]; [done|].
  assert (HM : M <> 11 \/ getDate d <= L).
  { destruct (Z.eq_dec M 11) as [E11|]; [right|by left]. unfold L. rewrite E11, monthLength_31 by auto.
    pose proof (getDate_range d). pose proof (monthLength_range (getFullYear d) _ (getMonth_range d)). lia. }
  assert (HF : getFullYear (setMonth M d) = getFullYear d /\
    (if getDate d <=? L then getMonth (setMonth M d) = M /\ getDate (setMonth M d) = getDate d
     else getMonth (setMonth M d) = M + 1 /\ getDate (setMonth M d) = getDate d - L)).
  { destruct (Z.leb_spec (getDate d) L).
    - destruct (setMonth_fields M d) as (? & ? & ?); [lia|done|]. done.
    - destruct (setMonth_overflow M d) as (? & ? & ?); [lia|done|]. done. }
  destruct HF as [Hy HF].
  assert (Heq : equalsTo (setMonth M d) (c_date c) = false).
  { fold d. destruct (Z.leb_spec (getDate d) L); destruct HF as [HF1 HF2].
    - apply equalsTo_month. congruence.
    - apply not_true_is_false. unfold equalsTo. intros Ee. bool_to_prop. pose proof (getDate_range d).
      pose proof (monthLength_range (getFullYear d) M ltac:(lia)). lia. }
  destruct (choice_before (removeClass "active") el c (setMonth M d) Hc Heq) with (now := now) as (H1 & H2 & H3).
  { rewrite Hy. apply (ci_year _ Hc). }
  split; [done|]. split; [done|]. split; [done|]. split; [done|]. split; [apply timeOf_setMonth|done].
Qed.

(** The years that the loop offers. *)
Lemma fill_years_spec o step yrs : forall Y k i,
  yrs !! k = Some i ->
  let y := Y + step * Z.of_nat k in
  let ok := (o_minYear o <=? y) && (y <=? o_maxYear o) in
  fst (fill_years o step Y yrs) !! k =
    Some (if ok then Item (i_class i) (Z_to_string y) (Some y) "block" else Item (i_class i) (i_text i) (i_year i) "none").
Proof.
  induction yrs as [|j yrs IH]; intros Y k i Hk; [done|]. cbn [fill_years].
  destruct (fill_years o step (Y + step) yrs) as [yrs' show'] eqn:E. cbn [fst]. destruct k as [|k].
  - injection Hk as ->. cbv zeta. by replace (Y + step * Z.of_nat 0) with Y by lia.
  - cbn [lookup list_lookup] in Hk |- *. cbv zeta. replace (Y + step * Z.of_nat (S k)) with (Y + step + step * Z.of_nat k) by lia.
    pose proof (IH (Y + step) k i Hk) as H. rewrite E in H. exact H.
Qed.

(** The combo box of the years: when it opens, item [k] shows the year [k] steps
    after the next (or before the previous) one if the calendar allows that year,
    and is hidden otherwise.  Releasing over an item that is shown moves the calendar
    to that year, with the month and the time kept and the 29th of February clamped
    to the 28th, calls the handler and ends the gesture. *)
Theorem year_combo `{Layout} now (fwd : bool) (g : gui) el k i :
  gui_inv g -> _C (g_ges g) = true -> activeDiv (g_ges g) = Some el ->
  b_items (yearsCombo (g_combos g)) !! k = Some i ->
  o_yearStep (c_opts (g_cal g)) > 0 ->
  let c := g_cal g in let d := c_date c in
  let s := if fwd then 1 else -1 in
  let y := getFullYear d + s + s * o_yearStep (c_opts c) * Z.of_nat k in
  let g1 := showYearsCombo fwd g in
  exists i1, b_items (yearsCombo (g_combos g1)) !! k = Some i1 /\
  if (o_minYear (c_opts c) <=? y) && (y <=? o_maxYear (c_opts c))
  then i_display i1 = "block" /\ i_text i1 = Z_to_string y /\
    exists g2 d', tableMouseUp now (TYear k) g1 = Some g2 /\ _C (g_ges g2) = false /\ cal_inv (g_cal g2) /\
      c_date (g_cal g2) = d' /\ c_log (g_cal g2) = selected_log c d' /\
      getFullYear d' = y /\ getMonth d' = getMonth d /\ timeOf d' = timeOf d /\
      getDate d' = Z.min (getDate d) (monthLength y (getMonth d))
  else i_display i1 = "none".
Proof.
  intros Hi HC Hel Hk Hstep c d s y g1.
  assert (Hg1 : exists yrs, b_items (yearsCombo (g_combos g1)) = yrs /\
    (exists cls, yrs !! k = Some (if (o_minYear (c_opts c) <=? y) && (y <=? o_maxYear (c_opts c))
       then Item cls (Z_to_string y) (Some y) "block" else Item cls (i_text i) (i_year i) "none")) /\
    g_ges g1 = g_ges g /\ g_cal g1 = g_cal g).
  { unfold g1, showYearsCombo. rewrite HC, Hel. cbn [negb].
    set (yc := unmark "hilite" _ _).
    assert (exists i', b_items yc !! k = Some i' /\ i_text i' = i_text i /\ i_year i' = i_year i) as (i' & Hi' & Et & Ey).
    { unfold yc, unmark. destruct (hilitedYear (g_combos g)) as [q|]; [|by exists i]. cbn [map_item b_items].
      destruct (decide (q = k)) as [->|]; [rewrite list_lookup_alter_eq, Hk; by eexists|].
      rewrite list_lookup_alter_ne by done. by exists i. }
    clearbody yc. pose proof (fill_years_spec (c_opts c) (if fwd then o_yearStep (c_opts c) else - o_yearStep (c_opts c))
      (b_items yc) (getFullYear d + (if fwd then 1 else -1)) k i' Hi') as Hf.
    fold c d. destruct (fill_years _ _ _ _) as [yrs show]. destruct (combo_pos _ _) as [l t].
    exists yrs. split; [by destruct show|]. split; [|done]. exists (i_class i'). cbn [fst] in Hf. rewrite Hf, Et, Ey.
    replace (getFullYear d + (if fwd then 1 else -1) + (if fwd then o_yearStep (c_opts c) else - o_yearStep (c_opts c)) * Z.of_nat k)
      with y by (unfold y, s; destruct fwd; lia). done. }
  destruct Hg1 as (yrs & Hyrs & (cls & Hlk) & Eges & Ecal). rewrite Hyrs. eexists. split; [exact Hlk|].
  destruct ((o_minYear (c_opts c) <=? y) && (y <=? o_maxYear (c_opts c))) eqn:Eok; [|done].
  split; [done|]. split; [done|]. pose proof (gi_cal _ Hi) as Hc.
  destruct (tableMouseUp_choice now (TYear k) g1 el) as (g2 & E2 & HC2 & Hcal); [by rewrite Eges|by rewrite Eges|done|].
  exists g2, (setFullYear y d). split; [done|]. split; [done|].
  rewrite Hcal. unfold combo_choice. rewrite Hyrs, Hlk, Ecal. fold c.
  rewrite (sc_date _ _ (el_class_core (removeClass "active") el c)). fold d.
  assert (Hne : y <> getFullYear d).
  { pose proof (Z.mul_nonneg_nonneg (o_yearStep (c_opts c)) (Z.of_nat k) ltac:(unfold c; lia) ltac:(lia)) as Hk0.
    unfold y, s. destruct fwd; lia. }
  destruct (Z.eqb_spec y (getFullYear d)) as [?|_]; [done|].
  destruct (setFullYear_min y d) as (Fy & Fm & Fd & Ft).
  destruct (choice_before (removeClass "active") el c (setFullYear y d) Hc) with (now := now) as (H1 & H2 & H3).
  { apply equalsTo_year. fold d. by rewrite Fy. }
  { rewrite Fy. bool_to_prop. lia. }
  by split_and!.
Qed.

(** Dragging: when the button goes down on the title of a pop-up calendar that
    stands at [l], [t] and was not being dragged, every later move puts the calendar
    where it was, displaced as far as the mouse has moved, until the release, after
    which moves are ignored. *)
Theorem drag_follows ie5 now x0 y0 g l t :
  gui_inv g -> dragging (g_drag g) = false ->
  parseInt (left_ (g_drag g)) = Some l -> parseInt (top_ (g_drag g)) = Some t ->
  let g1 := dayMouseDown ie5 true MTitle x0 y0 g in
  (forall x y, left_ (g_drag (calDragIt x y g1)) = px (l + (x - x0)) /\
               top_ (g_drag (calDragIt x y g1)) = px (t + (y - y0)) /\
               (forall x' y', g_drag (calDragIt x' y' (calDragIt x y g1)) = g_drag (calDragIt x' y' g1))) /\
  (forall x y tg, exists g3, calDragEnd now tg (calDragIt x y g1) = Some g3 /\
     left_ (g_drag g3) = px (l + (x - x0)) /\ top_ (g_drag g3) = px (t + (y - y0)) /\
     (DragMove ∉ listeners (g_ges g3)) /\ (forall x' y', calDragIt x' y' g3 = g3)).
Proof.
  intros Hi Hd Hl Ht g1.
  assert (E1 : g_drag g1 = Drag true (Some (x0 - l)) (Some (y0 - t)) (left_ (g_drag g)) (top_ (g_drag g)) /\
    _C (g_ges g1) = true).
  { unfold g1, dayMouseDown. cbn [disabled navtype]. rewrite (bool_decide_eq_true_2 (Some 300 = Some 300)) by done.
    rewrite !bool_decide_eq_false_2 by done. cbn [orb]. unfold _dragStart. cbn [g_drag set_ges]. rewrite Hd.
    cbn [g_drag set_ges set_drag]. rewrite Hl, Ht. done. }
  assert (Hi1 : gui_inv g1) by by apply dayMouseDown_inv.
  destruct E1 as [Ed EC]. clearbody g1.
  assert (Em : forall x y, calDragIt x y g1 = set_drag (Drag true (Some (x0 - l)) (Some (y0 - t)) (px (l + (x - x0))) (px (t + (y - y0)))) g1).
  { intros x y. unfold calDragIt. rewrite EC, Ed. cbn [andb negb dragging xOffs yOffs left_ top_ moved].
    do 2 f_equal; f_equal; lia. }
  split.
  - intros x y. rewrite Em. split; [done|]. split; [done|]. intros x' y'. rewrite Em.
    unfold calDragIt. cbn [g_ges g_drag set_drag dragging]. rewrite EC.
    cbn [andb negb xOffs yOffs moved g_drag set_drag]. f_equal; f_equal; lia.
  - intros x y tg. pose proof (calDragIt_inv x y g1 Hi1) as Hi2. rewrite Em in *.
    destruct (calDragEnd_inv now tg _ Hi2) as (g3 & E3 & _ & HC3). exists g3. split; [done|].
    unfold calDragEnd in E3. cbn [g_ges g_drag set_drag] in E3. rewrite EC in E3. cbn [negb xOffs yOffs left_ top_] in E3.
    unfold tableMouseUp in E3. cbn [g_ges set_ges set_drag removeEvent _C] in E3. rewrite EC in E3. cbn [negb] in E3.
    destruct (activeDiv _) as [m|] eqn:Em'.
    + destruct (if bool_decide (tg = TIn m) then _ else _) as [c|]; [|done]. cbn [mbind option_bind] in E3.
      injection E3 as <-. split; [done|]. split; [done|]. split; [|done].
      cbn [g_ges listeners set_C removeEvent].
      intros Hin. do 3 (apply list_elem_of_filter in Hin as [_ Hin]).
      match type of Hin with context [clear_timeout ?s] => destruct (clear_timeout_fields s) as (_ & _ & El) end.
      rewrite El in Hin. cbn [listeners removeEvent] in Hin.
      apply list_elem_of_filter in Hin as [_ Hin]. apply list_elem_of_filter in Hin as [Hin _]. done.
    + exfalso. destruct (gi_active _ Hi1 EC) as (m & Hm & _).
      unfold clear_timeout in Em'. cbn in Em'. destruct (timeout (g_ges g1)); cbn in Em'; congruence.
Qed.

(** ** Examples *)
#[export] Instance demo_layout : Layout := {
  offsetLeft_of := fun _ => 10; offsetTop_of := fun _ => 20; offsetWidth_of := fun _ => 30;
  offsetHeight_of := fun _ => 15; months_width := Some 40; years_width := None
}.
Definition demo_gui : gui := new_gui false example.
(** The next-month button is held, or the next-year button. *)
Definition demo_held (n : Z) : gui := dayMouseDown false true (MEl (ENav n)) 0 0 demo_gui.

Lemma demo_gui_inv : gui_inv demo_gui.
Proof. apply new_gui_inv, create_inv. Qed.
Lemma demo_held_inv n : gui_inv (demo_held n).
Proof. apply dayMouseDown_inv; [done|apply demo_gui_inv]. Qed.

Lemma gui_reachable_inv_witness :
  rtc (gui_step false true) (new_gui false example) (demo_held 1) /\
  exists g', mouseup 0 (TMonth 1) (demo_held 1) = Some g' /\ _C (g_ges g') = false.
Proof.
  assert (Hr : rtc (gui_step false true) (new_gui false example) (demo_held 1))
    by (apply rtc_once; apply gs_down; discriminate).
  split; [exact Hr|].
  destruct (gui_reachable_inv false true false example (demo_held 1) (create_inv _ _ _ _ _ _) Hr) as (_ & Hu & _).
  destruct (Hu 0 (TMonth 1)) as (g' & H1 & _ & H2). exists g'. split; [exact H1|]. apply H2.
  left. vm_compute. apply list_elem_of_further, list_elem_of_here.
Defined.

Lemma month_combo_witness :
  getDate (c_date (g_cal (demo_held 1))) = 31 /\
  exists g', tableMouseUp 0 (TMonth 1) (demo_held 1) = Some g' /\
    getMonth (c_date (g_cal g')) = 2 /\ getDate (c_date (g_cal g')) = 2.
Proof.
  split; [vm_compute; reflexivity|].
  destruct (month_combo 0 (demo_held 1) (MEl (ENav 1)) 1 (demo_held_inv 1) eq_refl eq_refl
    ltac:(lia) ltac:(vm_compute; discriminate)) as (g' & d' & H1 & _ & _ & H2 & _ & _ & _ & H3).
  exists g'. split; [exact H1|]. rewrite H2. revert H3.
  assert (E1 : (getDate (c_date (g_cal (demo_held 1))) <=?
    monthLength (getFullYear (c_date (g_cal (demo_held 1)))) (Z.of_nat 1)) = false) by (vm_compute; reflexivity).
  assert (E2 : getDate (c_date (g_cal (demo_held 1))) -
    monthLength (getFullYear (c_date (g_cal (demo_held 1)))) (Z.of_nat 1) = 2) by (vm_compute; reflexivity).
  rewrite E1, E2. intros H3. exact H3.
Defined.

Lemma year_combo_witness :
  exists i1 g2, b_items (yearsCombo (g_combos (showYearsCombo true (demo_held 2)))) !! 1%nat = Some i1 /\
    i_text i1 = "2011" /\ tableMouseUp 0 (TYear 1) (showYearsCombo true (demo_held 2)) = Some g2 /\
    cal_inv (g_cal g2).
Proof.
  destruct (year_combo 0 true (demo_held 2) (MEl (ENav 2)) 1 (Item "label" "" None "") (demo_held_inv 2) eq_refl eq_refl
    eq_refl ltac:(vm_compute; reflexivity)) as (i1 & H1 & H2).
  revert H2.
  match goal with |- (if ?b then _ else _) -> _ => assert (E1 : b = true) by (vm_compute; reflexivity) end.
  rewrite E1. intros (_ & H2 & g2 & d' & H3 & _ & H4 & _). exists i1, g2.
  split; [exact H1|]. split; [rewrite H2; vm_compute; reflexivity|]. split; [exact H3|exact H4].
Defined.

Definition demo_placed : gui := set_drag (Drag false None None "100px" "50px") demo_gui.
Lemma drag_follows_witness :
  left_ (g_drag (calDragIt 17 9 (dayMouseDown false true MTitle 7 4 demo_placed))) = "110px".
Proof.
  assert (Hi : gui_inv demo_placed) by (destruct demo_gui_inv; constructor; done).
  destruct (drag_follows false 0 7 4 demo_placed 100 50 Hi eq_refl eq_refl eq_refl) as (H1 & _).
  exact (proj1 (H1 17 9)).
Defined.
