(* ===== verification/CalendarSetup.v ===== *)
(** * Calendars of a page (calendar-setup.js)
    [Calendar.setup] completes its parameters, connects a field, a display area and
    a button with a calendar, and opens it: pop-up calendars live in
    [window.calendar], flat ones in their parent element.  The handlers that the
    calendar calls write the chosen date back to the page. *)
From S2P Require Import Prelude JsString JsNum JsVal Ui JsDate CalendarDate CalendarGrid Calendar Dom.
Open Scope Z_scope.

(** ** Parameters *)

(** An element, as the caller gives it: nothing ([null] or [undefined]), the string
    of an [id], or the element with that [id]. *)
Inductive elem_arg := ENone | EId (id : string) | EElem (id : string).

(** The object that the caller passes; [None] is a property that is not defined.
    Functions of the page are named by a string. *)
Record given := Given {
  g_inputField : elem_arg;
  g_displayArea : elem_arg;
  g_button : elem_arg;
  g_eventName : option string;
  g_ifFormat : option string;
  g_daFormat : option string;
  g_singleClick : option bool;
  g_disableFunc : option (option status_handler);
  g_dateStatusFunc : option (option status_handler);
  g_firstDay : option Z;
  g_range : option (Z * Z);
  g_weekNumbers : option bool;
  g_flat : elem_arg;
  g_flatCallback : option string;
  g_onSelect : option string;
  g_onClose : option string;
  g_onUpdate : option string;
  g_date : option date;
  g_showsTime : option bool;
  g_timeFormat : option string;
  g_electric : option bool;
  g_step : option Z;
  g_cache : option bool;
  g_showOthers : option bool;
  g_timeFormatOnToday : option Z
}.

(** The parameters after the defaults; the elements are found already. *)
Record params := Params {
  p_inputField : option string;
  p_displayArea : option string;
  p_button : option string;
  p_eventName : string;
  p_ifFormat : string;
  p_daFormat : string;
  p_singleClick : bool;
  p_dateStatusFunc : option status_handler;
  p_firstDay : Z;
  p_range : Z * Z;
  p_weekNumbers : bool;
  p_flat : elem_arg;                     (** looked up only later *)
  p_flatCallback : option string;
  p_onSelect : option string;
  p_onClose : option string;
  p_onUpdate : option string;
  p_date : option date;
  p_showsTime : bool;
  p_timeFormat : string;
  p_electric : bool;
  p_step : Z;
  p_cache : bool;
  p_showOthers : bool;
  p_timeFormatOnToday : Z
}.

(** [if (typeof params[tmp[i]] == "string") ... getElementById ...] *)
Definition resolve (d : document) (a : elem_arg) : option string :=
  match a with
  | ENone => None
  | EId id => match d !! id with Some _ => Some id | None => None end
  | EElem id => Some id
  end.

(** The calls of [param_default], in their order: [dateStatusFunc] falls back on
    [disableFunc], which has its own default by then. *)
Definition param_defaults (d : document) (g : given) : params :=
  Params
    (resolve d (g_inputField g)) (resolve d (g_displayArea g)) (resolve d (g_button g))
    (default "click" (g_eventName g))
    (default "%Y-%m-%d" (g_ifFormat g)) (default "%Y-%m-%d" (g_daFormat g))
    (default true (g_singleClick g))
    (default (default None (g_disableFunc g)) (g_dateStatusFunc g))
    (default 0 (g_firstDay g)) (default (1900, 2999) (g_range g)) (default true (g_weekNumbers g))
    (g_flat g) (g_flatCallback g) (g_onSelect g) (g_onClose g) (g_onUpdate g) (g_date g)
    (default false (g_showsTime g)) (default "24" (g_timeFormat g)) (default true (g_electric g))
    (default 2 (g_step g)) (default false (g_cache g)) (default false (g_showOthers g))
    (default 0 (g_timeFormatOnToday g)).

(** ** Calendars on the page *)

(** A calendar object with what [setup] attaches to it: its parameters, the handlers
    ([None] is the local function of [setup]), and whether it is hidden. *)
Record widget := Widget {
  w_cal : calendar;
  w_params : params;
  w_onSelected : option string;
  w_onClose : option string;
  w_hidden : bool
}.
Definition set_cal (c : calendar) (wd : widget) : widget :=
  Widget c (w_params wd) (w_onSelected wd) (w_onClose wd) (w_hidden wd).
Definition set_hidden (b : bool) (wd : widget) : widget :=
  Widget (w_cal wd) (w_params wd) (w_onSelected wd) (w_onClose wd) b.
Definition set_params (p : params) (wd : widget) : widget :=
  Widget (w_cal wd) p (w_onSelected wd) (w_onClose wd) (w_hidden wd).
Definition clear_log (c : calendar) : calendar :=
  Calendar (c_opts c) (c_date c) (c_fdow c) (c_rows c) (c_ar_days c) (c_current c) (c_title c) (c_time c)
    (c_clicked c) [].

(** [window.calendar], the flat calendars by their parent element, and the elements
    that run a calendar on an event. *)
Record page := Page {
  window_calendar : option widget;
  flat_calendars : gmap string widget;
  triggers : gmap (string * string) params       (** by element and event *)
}.
Definition set_window (wd : option widget) (g : page) : page := Page wd (flat_calendars g) (triggers g).

(** Which calendar an event is for. *)
Inductive place := PPopup | PFlat (parent : string).
Definition widget_at (pl : place) (g : page) : option widget :=
  match pl with PPopup => window_calendar g | PFlat id => flat_calendars g !! id end.
Definition set_widget (pl : place) (wd : widget) (g : page) : page :=
  match pl with
  | PPopup => set_window (Some wd) g
  | PFlat id => Page (window_calendar g) (<[id := wd]> (flat_calendars g)) (triggers g)
  end.

Section setup.
Context `{Browser}.
(** Which elements have an [onchange] handler of the page. *)
Context (has_onchange : string -> bool).
Abbreviation P := (M page).

(** [None]: an exception, or the date of the calendar becomes invalid. *)
Definition get_widget (pl : place) : P widget :=
  g ← glob; match widget_at pl g with Some wd => mret wd | None => throw end.
Definition put_widget (pl : place) (wd : widget) : P unit := set_glob (set_widget pl wd).

(** ** The handlers *)
Definition hide (pl : place) : P unit := wd ← get_widget pl; put_widget pl (set_hidden true wd).

(** [cal.onClose] of a calendar: the page's function, or [cal.hide()]. *)
Definition run_close (pl : place) : P unit :=
  wd ← get_widget pl;
  match w_onClose wd with Some f => emit (Call f) | None => hide pl end.

(** [cal.callCloseHandler()] from inside a handler. *)
Definition close_from_handler (pl : place) : P unit :=
  wd ← get_widget pl; when_ (o_onClose (c_opts (w_cal wd))) (run_close pl).

(** The local function [onSelect(cal)] of [setup], the calendar having the date [d]
    and [dateClicked] the value [clicked]. *)
Definition onSelect (pl : place) (d : date) (clicked : bool) : P unit :=
  wd ← get_widget pl;
  let p := w_params wd in
  let update := clicked || p_electric p in
  if update && negb (match p_flat p with ENone => true | _ => false end) then
    match p_flatCallback p with
    | Some f => emit (Call f)
    | None => emit (Alert "No flatCallback given -- doing nothing.")
    end
  else
    when_ update (
      match p_inputField p with
      | Some id =>
          set_prop (with_value (print (p_ifFormat p) d)) id ;;;
          when_ (has_onchange id) (emit (Call ("onchange " +++ id)))
      | None => mret tt
      end) ;;;
    when_ update (match p_displayArea p with Some id => set_html id (print (p_daFormat p) d) | None => mret tt end) ;;;
    when_ (update && p_singleClick p && clicked) (close_from_handler pl) ;;;
    when_ update (match p_onUpdate p with Some f => emit (Call f) | None => mret tt end).

(** What the page does on a call that the calendar makes. *)
Definition run_event (pl : place) (e : cal_event) : P unit :=
  match e with
  | Selected _ d clicked =>
      wd ← get_widget pl;
      match w_onSelected wd with Some f => emit (Call f) | None => onSelect pl d clicked end
  | Closed => run_close pl
  | Callme id => emit (Call ("callme " +++ id))
  | Hidden => hide pl
  end.

Fixpoint run_events (pl : place) (l : list cal_event) : P unit :=
  match l with [] => mret tt | e :: l => run_event pl e ;;; run_events pl l end.

(** An event of the calendar: its new state, then the calls it has made.  The
    handlers of [setup] change nothing of the calendar that the rest of the event
    looks at, so that they may run after it. *)
Definition perform (pl : place) (f : calendar -> option calendar) : P unit :=
  wd ← get_widget pl;
  match f (w_cal wd) with
  | None => throw
  | Some c =>
      put_widget pl (set_cal (clear_log c) wd) ;;; run_events pl (c_log c)
  end.

(** ** Opening *)

(** The options that both branches set, [timeFormatOnToday] apart. *)
Definition setup_options (p : params) (fmt : string) (o : options) : options :=
  Options (fst (p_range p)) (snd (p_range p)) fmt (o_weekNumbers o) (p_showOthers p) (p_dateStatusFunc p)
    (o_timeFormatOnToday o) (p_step p) (o_onSelected o) (o_onClose o).
Definition set_onToday (n : Z) (c : calendar) : calendar :=
  let o := c_opts c in
  set_opts (Options (o_minYear o) (o_maxYear o) (o_dateFormat o) (o_weekNumbers o) (o_showsOtherMonths o)
    (o_getDateStatus o) n (o_yearStep o) (o_onSelected o) (o_onClose o)) c.

(** [new Calendar(...)] and [create()], the options being set in between. *)
Definition new_calendar (now : date) (p : params) (o : options) : calendar :=
  create now o (p_firstDay p) (p_date p) (if p_showsTime p then Some (String.eqb (p_timeFormat p) "24") else None).
Definition new_options (p : params) (close : bool) : options :=
  let o := default_options true close in
  Options (o_minYear o) (o_maxYear o) (o_dateFormat o) (p_weekNumbers p) (o_showsOtherMonths o)
    (o_getDateStatus o) (o_timeFormatOnToday o) (o_yearStep o) (o_onSelected o) (o_onClose o).
(** The options of a flat calendar. *)
Definition flat_options (p : params) : options :=
  let o := new_options p false in
  Options (fst (p_range p)) (snd (p_range p)) (o_dateFormat o) (o_weekNumbers o) (o_showsOtherMonths o)
    (p_dateStatusFunc p) (o_timeFormatOnToday o) (o_yearStep o) (o_onSelected o) (o_onClose o).

(** [cal.parseDate(str)], which sets the date of the calendar. *)
Definition cal_parseDate (now : date) (str : string) (c : calendar) : option calendar :=
  match parseDate now str (o_dateFormat (c_opts c)) with
  | ParseThrows | ParseSets None => None
  | ParseIgnored => Some c
  | ParseSets (Some d) => Some (cal_setDate now d c)
  end.

(** [params.button || params.displayArea || params.inputField] *)
Definition trigger_elem (p : params) : option string :=
  match p_button p, p_displayArea p, p_inputField p with
  | Some e, _, _ => Some e | None, Some e, _ => Some e | None, None, e => e
  end.

(** The calendar to open, made or found, up to [setDateFormat] and [create]. *)
Definition open_calendar (now : date) (p : params) (fmt : string) (old : option widget) : widget :=
  match (if p_cache p then old else None) with
  | Some wd =>
      let c := w_cal wd in
      let c := match p_date p with Some d => cal_setDate now d c | None => c end in
      set_params p (set_cal (set_opts (setup_options p fmt (c_opts c)) c) (set_hidden true wd))
  | None => Widget (new_calendar now p (setup_options p fmt (new_options p true))) p (p_onSelect p) (p_onClose p) false
  end.

(** The function that the event of the trigger element runs. *)
Definition trigger (now : date) (p : params) : P unit :=
  let dateEl := match p_inputField p with Some e => Some e | None => p_displayArea p end in
  let dateFmt := match p_inputField p with Some _ => p_ifFormat p | None => p_daFormat p end in
  g ← glob;
  let wd := open_calendar now p dateFmt (window_calendar g) in
  put_widget PPopup wd ;;;
  el ← (match dateEl with Some e => mret e | None => throw end);      (* null.value *)
  value ← prop e_value el;
  html ← prop e_html el;
  match cal_parseDate now (if String.eqb value "" then html else value) (w_cal wd) with
  | None => throw
  | Some c =>
      put_widget PPopup (set_hidden false (set_cal (refresh now (set_onToday (p_timeFormatOnToday p) c)) wd))
  end.

(** The event [ev] of the element [el]. *)
Definition fire (now : date) (el ev : string) : P unit :=
  g ← glob; match triggers g !! (el, ev) with Some p => trigger now p | None => mret tt end.

Definition flat_given (a : elem_arg) : bool :=
  match a with ENone => false | EId id => negb (String.eqb id "") | EElem _ => true end.
Definition is_some {A} (o : option A) : bool := match o with Some _ => true | None => false end.

(** [Calendar.setup(params)] *)
Definition setup (now : date) (g : given) : P unit := fun w =>
  let p := param_defaults (w_dom w) g in
  (if negb (flat_given (p_flat p) || is_some (p_inputField p) || is_some (p_displayArea p) || is_some (p_button p))
   then emit (Alert "Calendar.setup: Nothing to setup (no fields found).  Please check your code")
   else
     match p_flat p with
     | ENone =>
         match trigger_elem p with
         | Some e => set_glob (fun g => Page (window_calendar g) (flat_calendars g)
                                         (<[(e, p_eventName p) := p]> (triggers g)))
         | None => throw
         end
     | a =>
         match resolve (w_dom w) a with
         | None => emit (Alert "Calendar.setup: Flat specified but can't find parent.")
         | Some id => put_widget (PFlat id) (Widget (new_calendar now p (flat_options p)) p (p_onSelect p) None false)
         end
     end) w.
End setup.

(** ** Opening and choosing *)
Section props.
Context `{Browser} (has_onchange : string -> bool).

(** A calendar for one input field, with the ISO format of days, that closes when a
    day is chosen; no other field and no function of the page takes part. *)
Record day_field (p : params) (id : string) : Prop := DayField {
  df_input : p_inputField p = Some id;
  df_area : p_displayArea p = None;
  df_format : p_ifFormat p = format_date;
  df_single : p_singleClick p = true;
  df_status : p_dateStatusFunc p = None;
  df_flat : p_flat p = ENone;
  df_select : p_onSelect p = None;
  df_close : p_onClose p = None;
  df_update : p_onUpdate p = None;
  df_others : p_showOthers p = false;
  df_range : 100 <= fst (p_range p) <= snd (p_range p)
}.

(** A calendar that such a field may reuse. *)
Record reusable (wd : widget) : Prop := Reusable {
  re_rows : wf_rows (c_rows (w_cal wd));
  re_selected : o_onSelected (c_opts (w_cal wd)) = true;
  re_close : o_onClose (c_opts (w_cal wd)) = true;
  re_on : w_onSelected wd = None;
  re_off : w_onClose wd = None;
  re_log : c_log (w_cal wd) = []
}.
Definition page_ok (p : params) (g : page) : Prop :=
  p_cache p = true -> forall wd, window_calendar g = Some wd -> reusable wd.

(** The calendar of [wd] is open on the day of [t]. *)
Record open_on (p : params) (wd : widget) (t : date) : Prop := OpenOn {
  oo_ready : reusable wd;
  oo_params : w_params wd = p;
  oo_inv : cal_inv (w_cal wd);
  oo_shown : w_hidden wd = false;
  oo_day : dayOf (c_date (w_cal wd)) = dayOf t
}.

Lemma reusable_cal wd c :
  reusable wd -> wf_rows (c_rows c) -> o_onSelected (c_opts c) = true -> o_onClose (c_opts c) = true ->
  c_log c = [] -> forall b p, reusable (set_params p (set_cal c (set_hidden b wd))).
Proof. intros [? ? ? ? ? ?]. by constructor. Qed.

Lemma cal_setDate_fields now d c :
  wf_rows (c_rows c) ->
  wf_rows (c_rows (cal_setDate now d c)) /\ c_opts (cal_setDate now d c) = c_opts c /\
  c_log (cal_setDate now d c) = c_log c /\
  (c_date (cal_setDate now d c) = clamp_year (c_opts c) d \/
   c_date (cal_setDate now d c) = c_date c /\ equalsTo d (c_date c) = true).
Proof.
  intros Hwf. unfold cal_setDate. destruct (equalsTo d (c_date c)) eqn:E; cbn [negb].
  - split; [done|]. split; [done|]. split; [done|]. by right.
  - destruct (init_fields now (c_fdow c) d c) as (H1 & H2 & _ & _ & _ & _ & _ & _ & H3).
    split; [by apply init_wf|]. split; [done|]. split; [done|]. by left.
Qed.

Lemma new_calendar_fields now p o :
  wf_rows (c_rows (new_calendar now p o)) /\ c_opts (new_calendar now p o) = o /\ c_log (new_calendar now p o) = [].
Proof.
  unfold new_calendar, create. split; [apply init_wf, create_rows_wf|].
  match goal with |- context [init ?n ?f ?d ?c] => destruct (init_fields n f d c) as (H1 & _ & _ & _ & _ & _ & _ & _ & H2) end.
  by rewrite H1, H2.
Qed.

Lemma open_calendar_ready now p id fmt old :
  day_field p id -> (p_cache p = true -> forall wd, old = Some wd -> reusable wd) ->
  let wd := open_calendar now p fmt old in
  reusable wd /\ w_params wd = p /\ plain (c_opts (w_cal wd)) /\ o_dateFormat (c_opts (w_cal wd)) = fmt /\
  o_minYear (c_opts (w_cal wd)) = fst (p_range p) /\ o_maxYear (c_opts (w_cal wd)) = snd (p_range p).
Proof.
  intros Hp Hold wd. unfold wd, open_calendar.
  set (new := Widget (new_calendar now p (setup_options p fmt (new_options p true))) p (p_onSelect p) (p_onClose p) false).
  assert (Hnew : reusable new /\ w_params new = p /\ plain (c_opts (w_cal new)) /\
    o_dateFormat (c_opts (w_cal new)) = fmt /\
    o_minYear (c_opts (w_cal new)) = fst (p_range p) /\ o_maxYear (c_opts (w_cal new)) = snd (p_range p)).
  { destruct (new_calendar_fields now p (setup_options p fmt (new_options p true))) as (Hw & Ho & Hl), Hp.
    unfold plain. cbn [w_cal w_params new]. rewrite Ho.
    split; [constructor; cbn [w_cal w_onSelected w_onClose new]; rewrite ?Ho; done|]. by split_and!. }
  clearbody new. destruct (p_cache p) eqn:Ec; [destruct old as [wd0|]|].
  - specialize (Hold eq_refl wd0 eq_refl).
    set (c := match p_date p with Some d => cal_setDate now d (w_cal wd0) | None => w_cal wd0 end).
    assert (Hc : wf_rows (c_rows c) /\ c_opts c = c_opts (w_cal wd0) /\ c_log c = []).
    { destruct Hold. unfold c. destruct (p_date p) as [d|]; [|done].
      destruct (cal_setDate_fields now d (w_cal wd0)) as (? & ? & ? & _); [done|]. by split_and!; try congruence. }
    clearbody c. destruct Hc as (Hw & Ho & Hl). destruct Hold as [? H1 H2 H3 H4 ?], Hp.
    split; [constructor; cbn; congruence || done|]. by split_and!; try (split; cbn).
  - by apply Hnew.
  - by apply Hnew.
Qed.
Lemma equalsTo_day d e : equalsTo d e = true -> dayOf d = dayOf e.
Proof.
  unfold equalsTo. intros E. bool_to_prop. rewrite <- (date_makeDay d), <- (date_makeDay e). congruence.
Qed.

Lemma same_day_year d e : dayOf d = dayOf e -> getFullYear d = getFullYear e.
Proof. unfold getFullYear. congruence. Qed.

(** The date that a field shows is the date of the calendar that opens. *)
Lemma parse_opens now t c :
  wf_rows (c_rows c) -> o_dateFormat (c_opts c) = format_date -> 100 <= getFullYear t ->
  o_minYear (c_opts c) <= getFullYear t <= o_maxYear (c_opts c) ->
  exists c', cal_parseDate now (print format_date t) c = Some c' /\ wf_rows (c_rows c') /\
    c_opts c' = c_opts c /\ c_log c' = c_log c /\ dayOf (c_date c') = dayOf t.
Proof.
  intros Hwf Hf H100 Hy. unfold cal_parseDate. rewrite Hf.
  rewrite (proj1 (parseDate_print_core now t H100)).
  set (d := dayOf t * msPerDay). assert (Hd : dayOf d = dayOf t).
  { unfold d. generalize (dayOf t). intros n. apply Z.div_mul. pose proof msPerDay_pos. lia. }
  destruct (cal_setDate_fields now d c Hwf) as (H1 & H2 & H3 & H4).
  eexists. split; [done|]. split; [done|]. split; [done|]. split; [done|]. destruct H4 as [->|[-> E]].
  - rewrite clamp_year_id by (rewrite (same_day_year d t Hd); lia). done.
  - rewrite <- Hd. by apply equalsTo_day in E.
Qed.

Lemma print_day_nonempty t : 100 <= getFullYear t -> String.eqb (print format_date t) "" = false.
Proof.
  intros H1. destruct (String.eqb_spec (print format_date t) "") as [E|]; [|done].
  pose proof (proj1 (parseDate_print_core 0 t H1)) as Hp. rewrite E in Hp.
  assert (parseDate 0 "" format_date = ParseIgnored) as E0 by (vm_compute; reflexivity).
  rewrite E0 in Hp. discriminate Hp.
Qed.

Lemma refresh_opens now c t :
  wf_rows (c_rows c) -> plain (c_opts c) -> dayOf (c_date c) = dayOf t ->
  o_minYear (c_opts c) <= getFullYear t <= o_maxYear (c_opts c) ->
  cal_inv (refresh now c) /\ c_opts (refresh now c) = c_opts c /\ c_log (refresh now c) = c_log c /\
  dayOf (c_date (refresh now c)) = dayOf t.
Proof.
  intros Hw Hp Hd Hy. unfold refresh.
  destruct (init_establishes now (c_fdow c) (c_date c) c Hw Hp) as [Hi E]; [lia|].
  destruct (init_fields now (c_fdow c) (c_date c) c) as (H1 & _ & _ & _ & _ & _ & _ & _ & H2).
  rewrite E, H1, H2. rewrite clamp_year_id by (rewrite (same_day_year _ _ Hd); lia). done.
Qed.

Lemma trigger_opens now p id w e t :
  day_field p id -> page_ok p (w_glob w) -> w_dom w !! id = Some e ->
  e_value e = print format_date t -> fst (p_range p) <= getFullYear t <= snd (p_range p) ->
  exists wd, trigger now p w = (Some tt, World (w_dom w) (set_window (Some wd) (w_glob w)) (w_log w)) /\
    open_on p wd t.
Proof.
  intros Hp Hok He Hv Hy. pose proof (df_range _ _ Hp).
  unfold trigger. rewrite (df_input _ _ Hp), (df_format _ _ Hp).
  rewrite (run_bind glob _ w (w_glob w) w) by done.
  destruct (open_calendar_ready now p id format_date (window_calendar (w_glob w)) Hp Hok)
    as (Hr & Hpar & Hpl & Hf & Hmin & Hmax).
  set (wd := open_calendar now p format_date (window_calendar (w_glob w))) in *. clearbody wd.
  set (w1 := World (w_dom w) (set_window (Some wd) (w_glob w)) (w_log w)).
  rewrite (run_bind (put_widget PPopup wd) _ w tt w1) by done.
  rewrite (run_bind (mret id) _ w1 id w1) by done.
  rewrite (run_bind (prop e_value id) _ w1 (print format_date t) w1)
    by (unfold prop; cbn [w1 w_dom]; by rewrite He, Hv).
  rewrite (run_bind (prop e_html id) _ w1 (e_html e) w1)
    by (unfold prop; cbn [w1 w_dom]; by rewrite He).
  rewrite print_day_nonempty by lia.
  destruct (parse_opens now t (w_cal wd)) as (c & -> & Hw & Ho & Hl & Hd); [by destruct Hr|done|lia|lia|].
  set (c' := set_onToday (p_timeFormatOnToday p) c).
  destruct (refresh_opens now c' t) as (Hi & Ho' & Hl' & Hd'); [done| |done| |].
  { destruct Hpl. unfold plain. cbn. by rewrite Ho. }
  { cbn. rewrite Ho. lia. }
  eexists. split; [reflexivity|]. destruct Hr as [R1 R2 R3 R4 R5 R6].
  constructor; cbn [set_hidden set_cal w_cal w_params w_hidden]; try done.
  constructor; cbn [set_hidden set_cal w_cal w_onSelected CalendarSetup.w_onClose]; try done.
  - by destruct Hi.
  - rewrite Ho'. cbn. by rewrite Ho.
  - rewrite Ho'. cbn. by rewrite Ho.
  - rewrite Hl'. change (c_log c') with (c_log c). congruence.
Qed.
Definition onchange_calls (id : string) : list effect := if has_onchange id then [Call ("onchange " +++ id)] else [].

Lemma hide_popup (w : world page) wd :
  window_calendar (w_glob w) = Some wd ->
  hide PPopup w = (Some tt, World (w_dom w) (set_window (Some (set_hidden true wd)) (w_glob w)) (w_log w)).
Proof.
  intros E. unfold hide. rewrite (run_bind (get_widget PPopup) _ w wd w); [done|].
  unfold get_widget. rewrite (run_bind glob _ w (w_glob w) w) by done. cbn [widget_at]. by rewrite E.
Qed.

Lemma get_popup (w : world page) wd :
  window_calendar (w_glob w) = Some wd -> get_widget PPopup w = (Some wd, w).
Proof.
  intros E. unfold get_widget. rewrite (run_bind glob _ w (w_glob w) w) by done. cbn [widget_at]. by rewrite E.
Qed.

(** The handler of a day field writes the day and hides the calendar. *)
Lemma onSelect_day p id w wd e d :
  day_field p id -> window_calendar (w_glob w) = Some wd -> w_params wd = p ->
  o_onClose (c_opts (w_cal wd)) = true -> CalendarSetup.w_onClose wd = None -> w_dom w !! id = Some e ->
  onSelect has_onchange PPopup d true w =
  (Some tt, World (<[id := with_value (print format_date d) e]> (w_dom w))
              (set_window (Some (set_hidden true wd)) (w_glob w)) (w_log w ++ onchange_calls id)).
Proof.
  intros Hp Hw Hpar Hcl Hoff He. unfold onSelect. rewrite (run_bind _ _ _ _ _ (get_popup w wd Hw)), Hpar.
  rewrite (df_flat _ _ Hp), (df_input _ _ Hp), (df_area _ _ Hp), (df_single _ _ Hp), (df_update _ _ Hp), (df_format _ _ Hp).
  cbn [orb andb negb when_].
  set (w1 := World (<[id := with_value (print format_date d) e]> (w_dom w)) (w_glob w) (w_log w ++ onchange_calls id)).
  rewrite (run_bind _ _ _ tt w1).
  2: { rewrite (run_bind (set_prop _ id) _ w tt (World (<[id := with_value (print format_date d) e]> (w_dom w)) (w_glob w) (w_log w)))
         by (unfold set_prop; by rewrite He).
       unfold w1, onchange_calls, when_. destruct (has_onchange id); [done|]. by rewrite app_nil_r. }
  rewrite (run_bind (mret tt) _ w1 tt w1) by done.
  assert (Hw1 : window_calendar (w_glob w1) = Some wd) by done.
  erewrite run_bind; [reflexivity|].
  unfold close_from_handler. rewrite (run_bind _ _ _ _ _ (get_popup w1 wd Hw1)), Hcl. cbn [when_].
  unfold run_close. rewrite (run_bind _ _ _ _ _ (get_popup w1 wd Hw1)), Hoff. by rewrite (hide_popup w1 wd Hw1).
Qed.

Lemma click_writes p id wd t w e n now :
  day_field p id -> open_on p wd t -> window_calendar (w_glob w) = Some wd -> w_dom w !! id = Some e ->
  1 <= n <= monthLength (getFullYear t) (getMonth t) ->
  exists r t2 wd2,
    c_ar_days (w_cal wd) !! Z.to_nat (n - 1) = Some r /\
    getFullYear t2 = getFullYear t /\ getMonth t2 = getMonth t /\ getDate t2 = n /\
    perform has_onchange PPopup (cellClick now (EDay r)) w =
      (Some tt, World (<[id := with_value (print format_date t2) e]> (w_dom w))
                  (set_window (Some wd2) (w_glob w)) (w_log w ++ onchange_calls id)) /\
    w_hidden wd2 = true /\ w_params wd2 = p /\ reusable wd2 /\ c_date (w_cal wd2) = t2.
Proof.
  intros Hp [[R1 R2 R3 R4 R5 R6] Hpar Hi Hsh Hday] Hw He Hn.
  assert (Ey : getFullYear (c_date (w_cal wd)) = getFullYear t) by (unfold getFullYear; congruence).
  assert (Em : getMonth (c_date (w_cal wd)) = getMonth t) by (unfold getMonth; congruence).
  destruct (ci_days _ Hi n) as (r & x & t2 & E1 & E2 & E3 & E4 & E5 & E6 & E7 & E8); [by rewrite Ey, Em|].
  destruct (cellClick_day now r x (w_cal wd) Hi E2 E4) as (t2' & c' & E9 & Hc & Hs & _ & _ & Hi').
  assert (t2' = t2) as -> by congruence.
  pose proof (cellClick_day_log now r x t2 (w_cal wd) c' E2 E3 E5 Hc) as Hlog. rewrite R2, R3, R6 in Hlog.
  set (wd1 := set_cal (clear_log c') wd).
  assert (Ho : c_opts c' = c_opts (w_cal wd)) by apply (sc_opts _ _ Hs).
  exists r, t2, (set_hidden true wd1).
  split; [done|]. split; [congruence|]. split; [congruence|]. split; [done|]. split.
  { unfold perform. rewrite (run_bind _ _ _ _ _ (get_popup w wd Hw)), Hc.
    set (w1 := World (w_dom w) (set_window (Some wd1) (w_glob w)) (w_log w)).
    rewrite (run_bind (put_widget PPopup wd1) _ w tt w1) by done. rewrite Hlog. cbn [app run_events].
    set (w2 := World (<[id := with_value (print format_date t2) e]> (w_dom w))
                 (set_window (Some (set_hidden true wd1)) (w_glob w)) (w_log w ++ onchange_calls id)).
    assert (Hw1 : window_calendar (w_glob w1) = Some wd1) by done.
    rewrite (run_bind _ _ w1 tt w2).
    2: { cbn [run_event]. rewrite (run_bind _ _ _ _ _ (get_popup w1 wd1 Hw1)).
         change (w_onSelected wd1) with (w_onSelected wd). rewrite R4.
         rewrite (onSelect_day p id w1 wd1 e t2 Hp Hw1); [reflexivity|exact Hpar| |exact R5|exact He].
         change (c_opts (w_cal wd1)) with (c_opts c'). congruence. }
    rewrite andb_true_r. case_bool_decide as Hcur; [|reflexivity]. cbn [run_events run_event].
    assert (Hw2 : window_calendar (w_glob w2) = Some (set_hidden true wd1)) by done.
    rewrite (run_bind _ _ w2 tt w2); [reflexivity|].
    unfold run_close. rewrite (run_bind _ _ _ _ _ (get_popup w2 _ Hw2)).
    change (CalendarSetup.w_onClose (set_hidden true wd1)) with (CalendarSetup.w_onClose wd). rewrite R5.
    by rewrite (hide_popup w2 _ Hw2). }
  split; [done|]. split; [done|]. split; [|exact (sc_date _ _ Hs)].
  constructor; try done.
  - apply Hi'.
  - change (c_opts (w_cal (set_hidden true wd1))) with (c_opts c'). congruence.
  - change (c_opts (w_cal (set_hidden true wd1))) with (c_opts c'). congruence.
Qed.

(** C4. A date field and its calendar agree.  When the field shows a day [t] in the
    allowed years, the event of the trigger opens the calendar on that day, and
    nothing else of the page changes.  A click on the cell of day [n] of the month
    writes that day into the field, in the same format, runs the field's [onchange]
    handler and hides the calendar; opening it again (a new object or the cached
    one) shows the chosen day. *)
Theorem calendar_picks_day now now1 now2 p id w e t n :
  day_field p id -> page_ok p (w_glob w) -> w_dom w !! id = Some e ->
  e_value e = print format_date t -> fst (p_range p) <= getFullYear t <= snd (p_range p) ->
  1 <= n <= monthLength (getFullYear t) (getMonth t) ->
  exists wd w1, trigger now p w = (Some tt, w1) /\ window_calendar (w_glob w1) = Some wd /\
    w_dom w1 = w_dom w /\ w_log w1 = w_log w /\ open_on p wd t /\
  exists r t2 w2 wd2, c_ar_days (w_cal wd) !! Z.to_nat (n - 1) = Some r /\
    getFullYear t2 = getFullYear t /\ getMonth t2 = getMonth t /\ getDate t2 = n /\
    perform has_onchange PPopup (cellClick now1 (EDay r)) w1 = (Some tt, w2) /\
    w_dom w2 = <[id := with_value (print format_date t2) e]> (w_dom w) /\
    w_log w2 = w_log w ++ onchange_calls id /\
    window_calendar (w_glob w2) = Some wd2 /\ w_hidden wd2 = true /\
  exists wd3 w3, trigger now2 p w2 = (Some tt, w3) /\ window_calendar (w_glob w3) = Some wd3 /\
    w_dom w3 = w_dom w2 /\ open_on p wd3 t2.
Proof.
  intros Hp Hok He Hv Hy Hn.
  destruct (trigger_opens now p id w e t Hp Hok He Hv Hy) as (wd & H1 & Ho).
  eexists wd, _. split; [exact H1|]. do 3 (split; [done|]). split; [done|].
  set (w1 := World _ _ _).
  destruct (click_writes p id wd t w1 e n now1 Hp Ho eq_refl He Hn) as
    (r & t2 & wd2 & Hr & E1 & E2 & E3 & Hc & Hh & Hpar & Hre & Hd).
  eexists r, t2, _, wd2. split; [done|]. do 3 (split; [done|]). split; [exact Hc|].
  do 4 (split; [done|]). set (w2 := World _ _ _).
  destruct (trigger_opens now2 p id w2 (with_value (print format_date t2) e) t2 Hp) as (wd3 & H3 & Ho3).
  - intros _ wd' [= <-]. done.
  - cbn [w_dom w2 w1]. by rewrite lookup_insert_eq.
  - done.
  - by rewrite E1.
  - eexists wd3, _. split; [exact H3|]. by split.
Qed.
(** The handler on a move that is not a choice: the field follows an electric
    calendar, and the calendar stays open. *)
Lemma onSelect_move p id w wd e d :
  day_field p id -> window_calendar (w_glob w) = Some wd -> w_params wd = p -> w_dom w !! id = Some e ->
  onSelect has_onchange PPopup d false w =
  (Some tt, if p_electric p
            then World (<[id := with_value (print format_date d) e]> (w_dom w)) (w_glob w) (w_log w ++ onchange_calls id)
            else w).
Proof.
  intros Hp Hw Hpar He. unfold onSelect. rewrite (run_bind _ _ _ _ _ (get_popup w wd Hw)), Hpar.
  rewrite (df_flat _ _ Hp), (df_input _ _ Hp), (df_area _ _ Hp), (df_single _ _ Hp), (df_update _ _ Hp), (df_format _ _ Hp).
  cbn [orb]. rewrite andb_false_r, andb_false_r. destruct (p_electric p); [|reflexivity]. cbn [when_].
  erewrite run_bind; [reflexivity|].
  rewrite (run_bind (set_prop _ id) _ w tt (World (<[id := with_value (print format_date d) e]> (w_dom w)) (w_glob w) (w_log w)))
    by (unfold set_prop; by rewrite He).
  unfold onchange_calls, when_. destruct (has_onchange id); [done|]. by rewrite app_nil_r.
Qed.

Definition follows (p : params) (id : string) (e : elem) (moved : bool) (d : date) (g : page) (w : world page) : world page :=
  if moved && p_electric p
  then World (<[id := with_value (print format_date d) e]> (w_dom w)) g (w_log w ++ onchange_calls id)
  else World (w_dom w) g (w_log w).

(** The month and year buttons of an open calendar: the calendar moves as
    [cellClick_nav] says and stays open; the field shows the new date at once when
    the calendar is electric and it did move, and is not touched otherwise.  Closing
    the calendar then hides it and writes nothing, so that a calendar that is not
    electric never writes the date it was moved to. *)
Theorem nav_follows now p id wd t w e n :
  day_field p id -> open_on p wd t -> window_calendar (w_glob w) = Some wd -> w_dom w !! id = Some e ->
  n ∈ [-2; -1; 1; 2] ->
  let i := month_index_of (c_date (w_cal wd)) + nav_months n in
  exists wd2 w2, perform has_onchange PPopup (cellClick now (ENav n)) w = (Some tt, w2) /\
    w2 = follows p id e (in_years (c_opts (w_cal wd)) i) (c_date (w_cal wd2)) (set_window (Some wd2) (w_glob w)) w /\
    cal_inv (w_cal wd2) /\ w_hidden wd2 = false /\
    month_index_of (c_date (w_cal wd2)) =
      (if in_years (c_opts (w_cal wd)) i then i else month_index_of (c_date (w_cal wd))) /\
    perform has_onchange PPopup (cellClick now EClose) w2 =
      (Some tt, World (w_dom w2) (set_window (Some (set_hidden true wd2)) (w_glob w)) (w_log w2)).
Proof.
  intros Hp [[R1 R2 R3 R4 R5 R6] Hpar Hi Hsh Hday] Hw He Hn i.
  destruct (cellClick_nav_core now n (w_cal wd) Hi Hn) as (c' & Hc & Hi' & Ho & _ & Hm & _ & _ & Hlog).
  fold i in Hm, Hlog. rewrite R2, R6, andb_true_r in Hlog. cbn [app] in Hlog.
  set (moved := in_years (c_opts (w_cal wd)) i) in *. clearbody moved.
  set (wd2 := set_cal (clear_log c') wd). exists wd2.
  set (w2 := follows p id e moved (c_date c') (set_window (Some wd2) (w_glob w)) w). exists w2.
  assert (Hperf : perform has_onchange PPopup (cellClick now (ENav n)) w = (Some tt, w2)).
  { unfold perform. rewrite (run_bind _ _ _ _ _ (get_popup w wd Hw)), Hc.
    set (w1 := World (w_dom w) (set_window (Some wd2) (w_glob w)) (w_log w)).
    rewrite (run_bind (put_widget PPopup wd2) _ w tt w1) by done. rewrite Hlog.
    assert (Hw1 : window_calendar (w_glob w1) = Some wd2) by done.
    destruct moved; [|reflexivity]. cbn [run_events run_event].
    rewrite (run_bind _ _ w1 tt w2); [reflexivity|].
    rewrite (run_bind _ _ _ _ _ (get_popup w1 wd2 Hw1)).
    change (w_onSelected wd2) with (w_onSelected wd). rewrite R4.
    rewrite (onSelect_move p id w1 wd2 e (c_date c') Hp Hw1 Hpar He).
    unfold w2, follows. cbn [andb]. by destruct (p_electric p). }
  split; [exact Hperf|]. split; [done|]. split; [by destruct Hi'|]. split; [done|]. split; [done|].
  assert (Hg : w_glob w2 = set_window (Some wd2) (w_glob w)) by (unfold w2, follows; by destruct (_ && _)).
  assert (Hw2 : window_calendar (w_glob w2) = Some wd2) by by rewrite Hg.
  unfold perform. rewrite (run_bind _ _ _ _ _ (get_popup w2 wd2 Hw2)). cbn [cellClick].
  unfold callCloseHandler. change (c_opts (w_cal wd2)) with (c_opts c'). rewrite Ho, R3.
  set (w3 := World (w_dom w2) (set_window (Some wd2) (w_glob w)) (w_log w2)).
  assert (Hw3 : window_calendar (w_glob w3) = Some wd2) by done.
  rewrite (run_bind (put_widget PPopup _) _ w2 tt w3) by (unfold put_widget, set_glob; by rewrite Hg).
  cbn [c_log add_event w_cal wd2 set_cal clear_log app run_events run_event].
  erewrite run_bind; [reflexivity|]. unfold run_close. rewrite (run_bind _ _ _ _ _ (get_popup w3 wd2 Hw3)).
  change (CalendarSetup.w_onClose wd2) with (CalendarSetup.w_onClose wd). rewrite R5.
  by rewrite (hide_popup w3 wd2 Hw3).
Qed.

(** A calendar that is set up with a button alone is accepted, but the event of
    the button fails: there is no field to read the date from, and the calendar that
    has been created is never shown. *)
Theorem button_only_fails now p b w :
  p_button p = Some b -> p_inputField p = None -> p_displayArea p = None ->
  trigger_elem p = Some b /\
  exists wd, trigger now p w = (None, World (w_dom w) (set_window (Some wd) (w_glob w)) (w_log w)).
Proof.
  intros Hb Hi Hd. split; [unfold trigger_elem; by rewrite Hb|]. unfold trigger. rewrite Hi, Hd.
  rewrite (run_bind glob _ w (w_glob w) w) by done. eexists.
  by erewrite run_bind by reflexivity.
Qed.
(** [setup] of a pop-up calendar registers it on the event of the button, else of
    the display area, else of the field, over what was registered there before, and
    does nothing else; the event then runs the calendar with the completed
    parameters.  Without any element there is a message and nothing is registered. *)
Theorem setup_connects now now' g w :
  g_flat g = ENone ->
  let p := param_defaults (w_dom w) g in
  match trigger_elem p with
  | Some el => exists w1, setup now g w = (Some tt, w1) /\ w_dom w1 = w_dom w /\ w_log w1 = w_log w /\
      window_calendar (w_glob w1) = window_calendar (w_glob w) /\
      (forall k, k <> (el, p_eventName p) -> triggers (w_glob w1) !! k = triggers (w_glob w) !! k) /\
      fire now' el (p_eventName p) w1 = trigger now' p w1
  | None => exists msg, setup now g w = (Some tt, World (w_dom w) (w_glob w) (w_log w ++ [Alert msg]))
  end.
Proof.
  intros Hf p. unfold setup. fold p. assert (p_flat p = ENone) as -> by done. cbn [flat_given orb].
  unfold trigger_elem. destruct (p_button p) as [b|], (p_displayArea p) as [a|], (p_inputField p) as [f|];
    cbn [is_some orb negb]; try (by eexists);
    (eexists; split; [reflexivity|]; do 3 (split; [done|]); split;
     [intros k Hk; cbn; by rewrite lookup_insert_ne
     |unfold fire; rewrite (run_bind glob _ _ _ _ eq_refl); cbn [w_glob triggers]; by rewrite lookup_insert_eq]).
Qed.
End props.

(** ** A page with one date field *)
Definition demo_given : given :=
  Given (EId "date") ENone (EId "btn") None None None None None None None (Some (2000, 2020)) None ENone None None
    None None None None None None None None None None.
Definition demo_doc : document :=
  list_to_map [("date", with_value "2008-02-29" new_elem); ("btn", new_elem)].
Definition demo_day : date := new_Date 2008 1 29 0 0 0.
Definition demo_page : world page := World demo_doc (Page None ∅ ∅) [].
Definition demo_params : params := param_defaults demo_doc demo_given.
Definition no_onchange (id : string) : bool := false.

Lemma demo_day_field : day_field demo_params "date".
Proof. constructor; try reflexivity. vm_compute. split; discriminate. Qed.
Lemma demo_page_ok : page_ok demo_params (w_glob demo_page).
Proof. intros _ wd E. discriminate E. Qed.
Lemma demo_years : fst (p_range demo_params) <= getFullYear demo_day <= snd (p_range demo_params).
Proof. vm_compute. split; discriminate. Qed.

Lemma calendar_picks_day_witness :
  exists wd w1, trigger 0 demo_params demo_page = (Some tt, w1) /\ window_calendar (w_glob w1) = Some wd /\
    open_on demo_params wd demo_day.
Proof.
  destruct (calendar_picks_day no_onchange 0 0 0 demo_params "date" demo_page (with_value "2008-02-29" new_elem) demo_day 17
    demo_day_field demo_page_ok eq_refl ltac:(vm_compute; reflexivity) demo_years
    ltac:(vm_compute; split; discriminate)) as (wd & w1 & H1 & H2 & _ & _ & H3 & _).
  exact (ex_intro _ wd (ex_intro _ w1 (conj H1 (conj H2 H3)))).
Defined.

Lemma demo_opens : exists wd, window_calendar (w_glob (snd (trigger 0 demo_params demo_page))) = Some wd /\
  w_dom (snd (trigger 0 demo_params demo_page)) = demo_doc /\ open_on demo_params wd demo_day.
Proof.
  destruct (trigger_opens 0 demo_params "date" demo_page (with_value "2008-02-29" new_elem) demo_day
    demo_day_field demo_page_ok eq_refl ltac:(vm_compute; reflexivity) demo_years) as (wd & E & Ho).
  exists wd. by rewrite E.
Qed.

Lemma nav_follows_witness :
  exists w wd wd2, window_calendar (w_glob w) = Some wd /\
    exists w2, perform no_onchange PPopup (cellClick 0 (ENav 1)) w = (Some tt, w2) /\ cal_inv (w_cal wd2).
Proof.
  destruct demo_opens as (wd & Hw & Hd & Ho).
  destruct (nav_follows no_onchange 0 demo_params "date" wd demo_day (snd (trigger 0 demo_params demo_page))
    (with_value "2008-02-29" new_elem) 1 demo_day_field Ho Hw ltac:(rewrite Hd; reflexivity) ltac:(in_list))
    as (wd2 & w2 & H1 & _ & H2 & _).
  exact (ex_intro _ _ (ex_intro _ wd (ex_intro _ wd2 (conj Hw (ex_intro _ w2 (conj H1 H2)))))).
Defined.

Lemma button_only_fails_witness :
  fst (trigger 0 (param_defaults demo_doc
    (Given ENone ENone (EId "btn") None None None None None None None None None ENone None None
      None None None None None None None None None None)) demo_page) = None.
Proof.
  destruct (button_only_fails 0 (param_defaults demo_doc
    (Given ENone ENone (EId "btn") None None None None None None None None None ENone None None
      None None None None None None None None None None)) "btn" demo_page eq_refl eq_refl eq_refl) as [_ [wd E]].
  exact (f_equal fst E).
Defined.

Lemma setup_connects_witness :
  exists w1, setup 0 demo_given demo_page = (Some tt, w1) /\
    fire 0 "btn" "click" w1 = trigger 0 demo_params w1.
Proof.
  destruct (setup_connects 0 0 demo_given demo_page eq_refl) as (w1 & H1 & _ & _ & _ & _ & H2).
  exact (ex_intro _ w1 (conj H1 H2)).
Defined.
