(* ===== verification/CalendarPlace.v ===== *)
(** * The calendar on the screen (calendar.js)
    Where a calendar is shown and what that does to the page: positions, the box kept
    inside the window, applets and frames that would shine through the calendar
    ([hideShowCovered]), the listeners of a pop-up calendar, presses outside it, and
    the detour over a timer that KHTML browsers take. *)
From Stdlib Require Import QArith Qabs Lqa.
From S2P Require Import Prelude JsString JsNum JsVal JsDate CalendarDate CalendarGrid Dom.
Open Scope Z_scope.

(** ** Layout, as the browser gives it *)

(** An element among its offset parents. *)
Record shape := Shape { y_div : bool; y_scrollLeft : Z; y_scrollTop : Z; y_offsetLeft : Z; y_offsetTop : Z }.
(** An element: its own shape, then those of its offset parents; its width and height. *)
Record area := Area { a_shapes : list shape; a_width : Z; a_height : Z }.

(** The browser: its kind, the object that knows computed styles, the area of the
    calendar when it is displayed at a left and top, the corner of the window (an
    element at right and bottom 0) and how far the page is scrolled, according to
    [document.body] and to [window]. *)
Inductive style_api := ComputedStyle | CurrentStyle | NoStyle.
Class Screen := {
  is_ie : bool;
  is_khtml : bool;
  api : style_api;
  cal_area : string -> string -> area;
  corner : area;
  body_scroll : Z * Z;
  window_scroll : Z * Z
}.

(** [Calendar.getAbsolutePos(el)] *)
Fixpoint getAbsolutePos (l : list shape) : Z * Z :=
  match l with
  | [] => (0, 0)
  | y :: l =>
      let SL := if y_div y && negb (y_scrollLeft y =? 0) then y_scrollLeft y else 0 in
      let ST := if y_div y && negb (y_scrollTop y =? 0) then y_scrollTop y else 0 in
      let tmp := getAbsolutePos l in
      (y_offsetLeft y - SL + fst tmp, y_offsetTop y - ST + snd tmp)
  end.

(** Left, right, top and bottom of an area. *)
Record rect := Rect { X1 : Z; X2 : Z; Y1 : Z; Y2 : Z }.
Definition rect_of (a : area) : rect :=
  let p := getAbsolutePos (a_shapes a) in
  Rect (fst p) (a_width a + fst p) (snd p) (a_height a + snd p).

(** ** State *)

(** An element that a calendar may cover: its tag and area, the visibility that its
    style gives and that the browser computes when the style gives none, and
    [__msh_save_visibility] (empty when it is not set). *)
Record overlay := Overlay {
  v_tag : string;
  v_area : area;
  v_computed : string;
  v_style : string;
  v_saved : string
}.

(** The listeners that a calendar adds to the document. *)
Inductive doc_listener := OnKeydown | OnKeypress | OnMousedown | OtherListener (name : string).
#[export] Instance doc_listener_eq_dec : EqDecision doc_listener.
Proof. solve_decision. Defined.

(** [Calendar.continuation_for_the_khtml_browser] *)
Inductive continuation := CPlace (p : Z * Z) (size : Z * Z) (opts : string) | CCover.

(** What [onClose] is: nothing, a function that hides the calendar, or one of the page. *)
Inductive close_handler := NoHandler | CallsHide | CallsPage (f : string).

Record screen := Scr {
  s_popup : bool;                  (** [isPopup] *)
  s_parent : option string;        (** the parent of [element] *)
  s_display : string;
  s_left : string;
  s_top : string;
  s_hidden : bool;
  s_months : string;               (** [monthsCombo.style.display] *)
  s_rows : list row;
  s_window : bool;                 (** [window.calendar] is this calendar *)
  s_listeners : list doc_listener;
  s_over : list overlay;
  s_cont : option continuation;
  s_timers : nat;                  (** timers that will call the continuation *)
  s_calls : list string            (** calls of the page's [onClose] *)
}.

Definition set_box (d l t : string) (h : bool) (s : screen) : screen :=
  Scr (s_popup s) (s_parent s) d l t h (s_months s) (s_rows s) (s_window s) (s_listeners s) (s_over s)
    (s_cont s) (s_timers s) (s_calls s).
Definition set_display (d : string) (s : screen) : screen := set_box d (s_left s) (s_top s) (s_hidden s) s.
Definition set_shown (d : string) (h : bool) (s : screen) : screen := set_box d (s_left s) (s_top s) h s.
Definition set_pos (l t : string) (s : screen) : screen := set_box (s_display s) l t (s_hidden s) s.
Definition set_inside (m : string) (rs : list row) (s : screen) : screen :=
  Scr (s_popup s) (s_parent s) (s_display s) (s_left s) (s_top s) (s_hidden s) m rs (s_window s) (s_listeners s)
    (s_over s) (s_cont s) (s_timers s) (s_calls s).
Definition set_document (w : bool) (ls : list doc_listener) (s : screen) : screen :=
  Scr (s_popup s) (s_parent s) (s_display s) (s_left s) (s_top s) (s_hidden s) (s_months s) (s_rows s) w ls
    (s_over s) (s_cont s) (s_timers s) (s_calls s).
Definition set_over (o : list overlay) (s : screen) : screen :=
  Scr (s_popup s) (s_parent s) (s_display s) (s_left s) (s_top s) (s_hidden s) (s_months s) (s_rows s) (s_window s)
    (s_listeners s) o (s_cont s) (s_timers s) (s_calls s).
Definition set_later (k : option continuation) (n : nat) (s : screen) : screen :=
  Scr (s_popup s) (s_parent s) (s_display s) (s_left s) (s_top s) (s_hidden s) (s_months s) (s_rows s) (s_window s)
    (s_listeners s) (s_over s) k n (s_calls s).
Definition set_parent (p : option string) (s : screen) : screen :=
  Scr (s_popup s) p (s_display s) (s_left s) (s_top s) (s_hidden s) (s_months s) (s_rows s) (s_window s)
    (s_listeners s) (s_over s) (s_cont s) (s_timers s) (s_calls s).
Definition add_call (f : string) (s : screen) : screen :=
  Scr (s_popup s) (s_parent s) (s_display s) (s_left s) (s_top s) (s_hidden s) (s_months s) (s_rows s) (s_window s)
    (s_listeners s) (s_over s) (s_cont s) (s_timers s) (s_calls s ++ [f]).

Definition listen (l : doc_listener) (ls : list doc_listener) : list doc_listener :=
  if bool_decide (l ∈ ls) then ls else ls ++ [l].
Definition unlisten (l : doc_listener) (ls : list doc_listener) : list doc_listener :=
  base.filter (fun l' => l' <> l) ls.

Section place.
Context `{Browser} `{Screen} (onClose : close_handler).

(** ** Elements under the calendar *)

(** The local function [getVisib(obj)]. *)
Definition getVisib (v : overlay) : string :=
  if String.eqb (v_style v) "" then
    match api with
    | ComputedStyle => if is_khtml then "" else v_computed v
    | CurrentStyle => v_computed v
    | NoStyle => ""
    end
  else v_style v.

Definition apart (e c : rect) : bool :=
  (X2 e <? X1 c) || (X2 c <? X1 e) || (Y2 e <? Y1 c) || (Y2 c <? Y1 e).

(** One round of the loop. *)
Definition cover_one (hidden : bool) (e : rect) (v : overlay) : overlay :=
  let saved := if String.eqb (v_saved v) "" then getVisib v else v_saved v in
  Overlay (v_tag v) (v_area v) (v_computed v)
    (if hidden || apart e (rect_of (v_area v)) then saved else "hidden") saved.

Definition cover_tags : list string := ["applet"; "iframe"].

(** The area of the calendar: nothing while it is not displayed. *)
Definition own_area (s : screen) : area :=
  if String.eqb (s_display s) "none" then Area [] 0 0 else cal_area (s_left s) (s_top s).

(** The continuation that [hideShowCovered] sets. *)
Definition cover_now (s : screen) : screen :=
  set_over (map (fun v => if bool_decide (v_tag v ∈ cover_tags)
                          then cover_one (s_hidden s) (rect_of (own_area s)) v else v) (s_over s)) s.

Definition hideShowCovered (s : screen) : screen :=
  if is_khtml then set_later (Some CCover) (S (s_timers s)) s
  else cover_now (set_later (Some CCover) (s_timers s) s).

(** ** Showing and hiding *)

(** [show] takes the marks of the mouse away: all rows and cells of the table; kept
    are those of the days. *)
Definition clear_row (r : row) : row :=
  Row (removeClass "rowhilite" (r_class r))
    ((fun wn => (removeClass "active" (removeClass "hilite" (fst wn)), snd wn)) <$> r_wn r)
    (map (fun k => cell_class (removeClass "active") (cell_class (removeClass "hilite") k)) (r_cells r)).

Definition show (s : screen) : screen :=
  let s := set_inside (s_months s) (map clear_row (s_rows s)) s in
  let s := set_shown "block" false s in
  let s := if s_popup s
           then set_document true (listen OnMousedown (listen OnKeypress (listen OnKeydown (s_listeners s)))) s
           else s in
  hideShowCovered s.

Definition hide (s : screen) : screen :=
  let s := if s_popup s
           then set_document (s_window s)
                  (unlisten OnMousedown (unlisten OnKeypress (unlisten OnKeydown (s_listeners s)))) s
           else s in
  hideShowCovered (set_shown "none" true s).

Definition pxq (q : Q) : string := str (fin q) +++ "px".

Definition showAt (x y : Q) (s : screen) : screen := show (set_pos (pxq x) (pxq y) s).

(** ** At an element *)
Definition Qpos (q : Q) : bool := negb (Qle_bool q 0).

(** One direction of [fixPosition]: not before 0, then not behind the corner. *)
Definition fix_axis (br pos size : Q) : Q :=
  let pos := if Qpos (- pos) then 0%Q else pos in
  let tmp := (pos + size - br)%Q in
  if Qpos tmp then (pos - tmp)%Q else pos.

Definition corner_pos : Z * Z :=
  let page_scroll := if is_ie then body_scroll else window_scroll in
  let br := getAbsolutePos (a_shapes corner) in (fst br + fst page_scroll, snd br + snd page_scroll).

Definition fixPosition (x y : Q) (w h : Z) : Q * Q :=
  (fix_axis (inject_Z (fst corner_pos)) x (inject_Z w), fix_axis (inject_Z (snd corner_pos)) y (inject_Z h)).

Definition half (z : Z) : Q := (inject_Z z / 2)%Q.

Definition align_y (valign : string) (y elh h : Z) : Q :=
  if String.eqb valign "T" then inject_Z (y - h)
  else if String.eqb valign "B" then inject_Z (y + elh)
  else if String.eqb valign "C" then (inject_Z y + half (elh - h))%Q
  else if String.eqb valign "t" then inject_Z (y + (elh - h))
  else inject_Z y.
Definition align_x (halign : string) (x elw w : Z) : Q :=
  if String.eqb halign "L" then inject_Z (x - w)
  else if String.eqb halign "R" then inject_Z (x + elw)
  else if String.eqb halign "C" then (inject_Z x + half (elw - w))%Q
  else if String.eqb halign "r" then inject_Z (x + (elw - w))
  else inject_Z x.

Definition halign_of (opts : string) : string := if 1 <? slen opts then substr opts 1 1 else "l".
Definition valign_of (opts : string) : string := substr opts 0 1.

(** The continuation that [showAtElement] sets, for an element at [p] of size [el]. *)
Definition place (p el : Z * Z) (opts : string) (s : screen) : screen :=
  let w := a_width (own_area s) in
  let h := a_height (own_area s) in
  let s := set_display "none" s in
  let s := set_inside "none" (s_rows s) s in
  let '(x, y) := fixPosition (align_x (halign_of opts) (fst p) (fst el) w)
                   (align_y (valign_of opts) (snd p) (snd el) h) w (h + 40) in
  showAt x y s.

Definition run_continuation (k : continuation) (s : screen) : screen :=
  match k with CPlace p el opts => place p el opts s | CCover => cover_now s end.

(** [Calendar.showAtElement(el, opts)] *)
Definition showAtElement (el : area) (opts : option string) (s : screen) : screen :=
  let p := getAbsolutePos (a_shapes el) in
  match opts with
  | Some o =>
      if String.eqb o "" then showAt (inject_Z (fst p)) (inject_Z (snd p + a_height el)) s
      else
        let s := set_display "block" s in
        let k := CPlace p (a_width el, a_height el) o in
        if is_khtml then set_later (Some k) (S (s_timers s)) s
        else place p (a_width el, a_height el) o (set_later (Some k) (s_timers s) s)
  | None => showAt (inject_Z (fst p)) (inject_Z (snd p + a_height el)) s
  end.

(** A timer fires. *)
Definition tick (s : screen) : screen :=
  match s_timers s with
  | O => s
  | S n =>
      match s_cont s with
      | Some k => run_continuation k (set_later (s_cont s) n s)
      | None => set_later None n s
      end
  end.

(** ** Presses and keys that close *)
Definition callCloseHandler (s : screen) : screen :=
  hideShowCovered (match onClose with
                   | NoHandler => s
                   | CallsHide => hide s
                   | CallsPage f => add_call f s
                   end).

(** An element of the page, and the loop up its parents. *)
Inductive node := TheCalendar | Node (name : string).
Fixpoint in_calendar (path : list node) : bool :=
  match path with
  | [] => false
  | TheCalendar :: _ => true
  | Node _ :: path => in_calendar path
  end.

(** [Calendar._checkCalendar(ev)] for a target with these parents; also whether the
    event is stopped. *)
Definition _checkCalendar (path : list node) (s : screen) : bool * screen :=
  if negb (s_window s) then (false, s)
  else if in_calendar path then (false, s)
  else (true, callCloseHandler s).

(** The button is pressed somewhere in the document. *)
Definition press (path : list node) (s : screen) : screen :=
  if bool_decide (OnMousedown ∈ s_listeners s) then snd (_checkCalendar path s) else s.

(** ** Dragging, as far as it covers *)
Definition drag_to (l t : string) (s : screen) : screen := set_pos l t (hideShowCovered s).

(** ** In the document; [None] is an exception
    [destroy] also sets [Calendar._C] to [null], which is part of CalendarMouse. *)
Definition destroy (s : screen) : option screen :=
  _ ← s_parent s; Some (set_document false (s_listeners s) (set_parent None s)).
Definition reparent (new_parent : string) (s : screen) : option screen :=
  _ ← s_parent s; Some (set_parent (Some new_parent) s).

(** The calendar that [create(par)] makes, on a page with these listeners and elements. *)
Definition new_screen (par : option string) (rows : list row) (ls : list doc_listener) (over : list overlay) : screen :=
  let popup := match par with None => true | Some _ => false end in
  Scr popup (Some (default "body" par)) (if popup then "none" else "") "" "" false "" rows false ls over None O [].
End place.

(** ** Everything that can happen to the calendar on the screen *)
Inductive scr_step `{Browser} `{Screen} (onClose : close_handler) : screen -> screen -> Prop :=
| st_showAt x y s : scr_step onClose s (showAt x y s)
| st_showAtElement el o s : scr_step onClose s (showAtElement el o s)
| st_hide s : scr_step onClose s (hide s)
| st_press path s : scr_step onClose s (press onClose path s)
| st_close s : scr_step onClose s (callCloseHandler onClose s)
| st_drag l t s : scr_step onClose s (drag_to l t s)
| st_drag_end s : scr_step onClose s (hideShowCovered s)
| st_tick s : scr_step onClose s (tick s).

(** ** Lemmas: the box in the window *)

(** [q] is the place nearest to [pos] at which [size] fits before [br]; a size that
    does not fit ends at [br]. *)
Record nearest (br pos size q : Q) : Prop := Nearest {
  nr_end : (q + size <= br)%Q;
  nr_start : (size <= br)%Q -> (0 <= q)%Q;
  nr_fits : (0 <= pos)%Q -> (pos + size <= br)%Q -> q = pos;
  nr_best : forall q', (0 <= q')%Q -> (q' + size <= br)%Q -> (Qabs (q - pos) <= Qabs (q' - pos))%Q
}.

Lemma Qpos_true q : Qpos q = true -> (0 < q)%Q.
Proof. unfold Qpos. rewrite negb_true_iff. intros E. apply Qnot_le_lt. intros Hle. apply Qle_bool_iff in Hle. congruence. Qed.
Lemma Qpos_false q : Qpos q = false -> (q <= 0)%Q.
Proof. unfold Qpos. rewrite negb_false_iff. apply Qle_bool_iff. Qed.

Lemma fix_axis_nearest br pos size : nearest br pos size (fix_axis br pos size).
Proof.
  unfold fix_axis. destruct (Qpos (- pos)) eqn:E1; [apply Qpos_true in E1|apply Qpos_false in E1];
    destruct (Qpos (_ + size - br)) eqn:E2; [apply Qpos_true in E2|apply Qpos_false in E2|apply Qpos_true in E2|apply Qpos_false in E2];
    constructor; try done; try (intros; exfalso; lra); try (intros; lra);
    intros q' H1 H2; apply Qabs_case; intros; apply Qabs_case; intros; lra.
Qed.

(** The edges that an alignment brings together: of the calendar (size [n], placed at
    [q]) and of an element of size [m] at [p]. *)
Inductive align := Before | After | Centre | End | Start.
Definition edges (a : align) (p m n : Z) (q : Q) : Prop :=
  match a with
  | Before => (q + inject_Z n == inject_Z p)%Q
  | After => (q == inject_Z (p + m))%Q
  | Centre => (2 * q + inject_Z n == 2 * inject_Z p + inject_Z m)%Q
  | End => (q + inject_Z n == inject_Z (p + m))%Q
  | Start => (q == inject_Z p)%Q
  end.
Definition align_of (before after end_ s : string) : align :=
  if String.eqb s before then Before else if String.eqb s after then After
  else if String.eqb s "C" then Centre else if String.eqb s end_ then End else Start.

Lemma half_double z : (2 * half z == inject_Z z)%Q.
Proof. unfold half. field. Qed.

Lemma align_y_edges o y elh h : edges (align_of "T" "B" "t" o) y elh h (align_y o y elh h).
Proof.
  unfold align_of, align_y. repeat case_if; cbn; pose proof (half_double (elh - h)) as Hh;
    unfold Z.sub in *; rewrite ?inject_Z_plus, ?inject_Z_opp in *; lra.
Qed.
Lemma align_x_edges o x elw w : edges (align_of "L" "R" "r" o) x elw w (align_x o x elw w).
Proof.
  unfold align_of, align_x. repeat case_if; cbn; pose proof (half_double (elw - w)) as Hh;
    unfold Z.sub in *; rewrite ?inject_Z_plus, ?inject_Z_opp in *; lra.
Qed.

Section props.
Context `{Browser} `{Screen} (onClose : close_handler).

(** What [show], and so every way to open the calendar, leaves. *)
Record shown_at (l t : string) (s s' : screen) : Prop := ShownAt {
  sa_left : s_left s' = l;
  sa_top : s_top s' = t;
  sa_display : s_display s' = "block";
  sa_hidden : s_hidden s' = false;
  sa_rows : s_rows s' = map clear_row (s_rows s);
  sa_popup : s_popup s' = s_popup s;
  sa_window : s_popup s = true -> s_window s' = true;
  sa_listeners : s_popup s = true ->
    s_listeners s' = listen OnMousedown (listen OnKeypress (listen OnKeydown (s_listeners s)))
}.

Lemma hideShowCovered_core s :
  let s' := hideShowCovered s in
  s_left s' = s_left s /\ s_top s' = s_top s /\ s_display s' = s_display s /\ s_hidden s' = s_hidden s /\
  s_rows s' = s_rows s /\ s_popup s' = s_popup s /\ s_window s' = s_window s /\ s_listeners s' = s_listeners s /\
  s_parent s' = s_parent s /\ s_months s' = s_months s.
Proof. unfold hideShowCovered. case_if; done. Qed.

Lemma showAt_shown x y s : shown_at (pxq x) (pxq y) s (showAt x y s).
Proof.
  unfold showAt, show. destruct (hideShowCovered_core
    (let s0 := set_shown "block" false (set_inside (s_months (set_pos (pxq x) (pxq y) s))
                 (map clear_row (s_rows (set_pos (pxq x) (pxq y) s))) (set_pos (pxq x) (pxq y) s)) in
     if s_popup s0 then set_document true (listen OnMousedown (listen OnKeypress (listen OnKeydown (s_listeners s0)))) s0 else s0))
    as (E1 & E2 & E3 & E4 & E5 & E6 & E7 & E8 & _).
  cbv zeta in *. destruct (s_popup s) eqn:Ep; cbn in *; rewrite Ep in *; cbn in *;
    constructor; rewrite ?E1, ?E2, ?E3, ?E4, ?E5, ?E6, ?E7, ?E8; try done; intros; congruence.
Qed.

(** The calendar shown at an element: the edges that the alignment names come together
    if the box then lies in the window, and else as near to that as the window allows. *)
Definition placed_at (el : area) (o : string) (w h : Z) (l t : string) : Prop :=
  exists ax ay x y, l = pxq x /\ t = pxq y /\
    edges (align_of "L" "R" "r" (halign_of o)) (fst (getAbsolutePos (a_shapes el))) (a_width el) w ax /\
    edges (align_of "T" "B" "t" (valign_of o)) (snd (getAbsolutePos (a_shapes el))) (a_height el) h ay /\
    nearest (inject_Z (fst corner_pos)) ax (inject_Z w) x /\
    nearest (inject_Z (snd corner_pos)) ay (inject_Z (h + 40)) y.

Lemma place_shown el o s :
  s_display s = "block" ->
  let a := cal_area (s_left s) (s_top s) in
  exists l t, shown_at l t s (place (getAbsolutePos (a_shapes el)) (a_width el, a_height el) o s) /\
    placed_at el o (a_width a) (a_height a) l t /\
    s_months (place (getAbsolutePos (a_shapes el)) (a_width el, a_height el) o s) = "none".
Proof.
  intros Hd a. unfold place, own_area. rewrite Hd. change (String.eqb "block" "none") with false. cbv iota. fold a.
  unfold fixPosition. cbv beta iota zeta. set (x := fix_axis _ _ _). set (y := fix_axis _ _ _).
  exists (pxq x), (pxq y). split; [|split].
  - destruct (showAt_shown x y (set_inside "none" (s_rows (set_display "none" s)) (set_display "none" s)))
      as [E1 E2 E3 E4 E5 E6 E7 E8]. by constructor.
  - exists (align_x (halign_of o) (fst (getAbsolutePos (a_shapes el))) (a_width el) (a_width a)),
      (align_y (valign_of o) (snd (getAbsolutePos (a_shapes el))) (a_height el) (a_height a)), x, y.
    split; [done|]. split; [done|]. split; [apply align_x_edges|]. split; [apply align_y_edges|].
    split; apply fix_axis_nearest.
  - unfold showAt, show. cbv zeta. rewrite (proj2 (proj2 (proj2 (proj2 (proj2 (proj2 (proj2 (proj2 (proj2 (hideShowCovered_core _)))))))))).
    by case_if.
Qed.

(** C36. In a browser other than Konqueror (KHTML), [showAtElement] shows the calendar with the edges of the alignment on those of
    the element when that lies inside the window, and otherwise at the nearest place
    that does; a calendar larger than the window ends at its corner.  Without an
    alignment it comes under the element. *)
Theorem showAtElement_place el opts s :
  is_khtml = false ->
  let a := cal_area (s_left s) (s_top s) in
  exists l t, shown_at l t s (showAtElement el opts s) /\
    match opts with
    | None | Some "" =>
        l = pxq (inject_Z (fst (getAbsolutePos (a_shapes el)))) /\
        t = pxq (inject_Z (snd (getAbsolutePos (a_shapes el)) + a_height el))
    | Some o => placed_at el o (a_width a) (a_height a) l t
    end.
Proof.
  intros Hk a. unfold showAtElement. rewrite Hk.
  assert (Hno : exists l t, shown_at l t s (showAt (inject_Z (fst (getAbsolutePos (a_shapes el))))
      (inject_Z (snd (getAbsolutePos (a_shapes el)) + a_height el)) s) /\
    l = pxq (inject_Z (fst (getAbsolutePos (a_shapes el)))) /\
    t = pxq (inject_Z (snd (getAbsolutePos (a_shapes el)) + a_height el)))
    by (do 2 eexists; split; [apply showAt_shown|done]).
  destruct opts as [o|]; [|done]. destruct (String.eqb_spec o "") as [->|Ho]; [done|].
  destruct (place_shown el o (set_later (Some (CPlace (getAbsolutePos (a_shapes el)) (a_width el, a_height el) o))
      (s_timers (set_display "block" s)) (set_display "block" s)) eq_refl) as (l & t & Hs & Hp & _).
  exists l, t. split; [destruct Hs; by constructor|]. by destruct o.
Qed.

(** ** Lemmas: elements under the calendar *)

(** An element as the page has it before any calendar was shown. *)
Definition untouched (v : overlay) : Prop := v_saved v = "" /\ getVisib v <> "".

(** An element of the page now: as it was, or with its visibility saved and then
    restored or, while the calendar is not hidden, hidden. *)
Record over_ok (hid : bool) (v0 v : overlay) : Prop := OverOk {
  ov_tag : v_tag v = v_tag v0;
  ov_area : v_area v = v_area v0;
  ov_state : v = v0 \/
    v_tag v0 ∈ cover_tags /\ v_saved v = getVisib v0 /\
      (v_style v = getVisib v0 \/ v_style v = "hidden" /\ hid = false)
}.

Lemma over_ok_init hid v : over_ok hid v v.
Proof. constructor; auto. Qed.

Lemma over_ok_shown hid v0 v : over_ok hid v0 v -> over_ok false v0 v.
Proof. intros [H1 H2 H3]. constructor; [done|done|]. destruct H3 as [?|(?&?&[?|[? _]])]; auto 6. Qed.

Lemma cover_one_ok hid hid' e v0 v :
  untouched v0 -> v_tag v0 ∈ cover_tags -> over_ok hid v0 v ->
  over_ok hid' v0 (cover_one hid' e v) /\
  v_style (cover_one hid' e v) = if hid' || apart e (rect_of (v_area v0)) then getVisib v0 else "hidden".
Proof.
  intros [Hs Hv] Ht [H1 H2 H3].
  assert (Hsaved : (if String.eqb (v_saved v) "" then getVisib v else v_saved v) = getVisib v0).
  { destruct H3 as [->|(_ & -> & _)]; [by rewrite Hs|]. by rewrite (proj2 (String.eqb_neq _ _) Hv). }
  unfold cover_one. rewrite Hsaved, H2. split; [|done]. constructor; cbn; [done|done|]. right.
  split; [done|]. split; [done|]. destruct (hid' || _) eqn:E; [by left|]. right. split; [done|].
  by apply orb_false_iff in E as [-> _].
Qed.

Definition screen_ok (over : list overlay) (s : screen) : Prop := Forall2 (over_ok (s_hidden s)) over (s_over s).

(** Every applet and frame is hidden where the calendar is over it, and has its own
    visibility elsewhere. *)
Definition covers_exactly (over : list overlay) (s : screen) : Prop :=
  Forall2 (fun v0 v => v_tag v0 ∈ cover_tags ->
    v_style v = if s_hidden s || apart (rect_of (own_area s)) (rect_of (v_area v0)) then getVisib v0 else "hidden")
    over (s_over s).

Section covers.
Context (no_khtml : is_khtml = false) (over : list overlay) (fresh : Forall untouched over).

Lemma Forall2_with_fresh hid l :
  Forall2 (over_ok hid) over l -> Forall2 (fun v0 v => untouched v0 /\ over_ok hid v0 v) over l.
Proof using fresh. intros Hl. induction Hl; inv fresh; constructor; auto. Qed.

Lemma cover_now_ok hid s :
  Forall2 (over_ok hid) over (s_over s) ->
  screen_ok over (cover_now s) /\ covers_exactly over (cover_now s).
Proof using fresh.
  intros Hs. apply (Forall2_with_fresh hid) in Hs. unfold screen_ok, covers_exactly.
  cbn [s_over cover_now set_over s_hidden]. change (own_area (cover_now s)) with (own_area s).
  rewrite !Forall2_fmap_r.
  split; (eapply Forall2_impl; [exact Hs|]); intros v0 v [Hv0 Hv]; pose proof (ov_tag _ _ _ Hv) as Et;
    unfold compose; cbv beta.
  - case_bool_decide as Ht; [apply (cover_one_ok hid); [done|by rewrite <- Et|done]|].
    destruct Hv as [H1 H2 [->|(H3 & _)]]; [apply over_ok_init|]. by rewrite <- Et in H3.
  - intros Ht. rewrite Et, bool_decide_eq_true_2 by done. by apply (cover_one_ok hid).
Qed.

Lemma hideShowCovered_ok hid s :
  Forall2 (over_ok hid) over (s_over s) ->
  screen_ok over (hideShowCovered s) /\ covers_exactly over (hideShowCovered s).
Proof using no_khtml fresh. intros Hs. unfold hideShowCovered. rewrite no_khtml. by apply (cover_now_ok hid). Qed.

Lemma showAt_ok hid x y s :
  Forall2 (over_ok hid) over (s_over s) ->
  screen_ok over (showAt x y s) /\ covers_exactly over (showAt x y s).
Proof using no_khtml fresh.
  intros Hs. unfold showAt, show. cbv zeta. apply (hideShowCovered_ok hid). by case_if.
Qed.

Lemma hide_ok hid s :
  Forall2 (over_ok hid) over (s_over s) -> screen_ok over (hide s) /\ covers_exactly over (hide s).
Proof using no_khtml fresh. intros Hs. unfold hide. cbv zeta. apply (hideShowCovered_ok hid). by case_if. Qed.

Lemma place_ok hid p el o s :
  Forall2 (over_ok hid) over (s_over s) -> screen_ok over (place p el o s).
Proof using no_khtml fresh. intros Hs. unfold place, fixPosition. by apply (showAt_ok hid). Qed.

Lemma callCloseHandler_ok s : screen_ok over s -> screen_ok over (callCloseHandler onClose s).
Proof using no_khtml fresh.
  intros Hs. unfold callCloseHandler. destruct onClose.
  - by apply (hideShowCovered_ok (s_hidden s)).
  - eapply hideShowCovered_ok. by apply (hide_ok (s_hidden s)).
  - by apply (hideShowCovered_ok (s_hidden s)).
Qed.

Lemma scr_step_ok s s' : scr_step onClose s s' -> screen_ok over s -> screen_ok over s'.
Proof using no_khtml fresh.
  destruct 1 as [x y s|el o s|s|path s|s|l t s|s|s]; intros Hs.
  - by apply (showAt_ok (s_hidden s)).
  - unfold showAtElement. rewrite no_khtml. destruct o as [o|]; [case_if|];
      [by apply (showAt_ok (s_hidden s))|by apply (place_ok (s_hidden s))|by apply (showAt_ok (s_hidden s))].
  - by apply (hide_ok (s_hidden s)).
  - unfold press, _checkCalendar. repeat case_if; cbn [snd]; try done. by apply callCloseHandler_ok.
  - by apply callCloseHandler_ok.
  - unfold drag_to. by apply (hideShowCovered_ok (s_hidden s)).
  - by apply (hideShowCovered_ok (s_hidden s)).
  - unfold tick. destruct (s_timers s); [done|]. destruct (s_cont s) as [[p el o|]|]; [| |done].
    + by apply (place_ok (s_hidden s)).
    + by apply (cover_now_ok (s_hidden s)).
Qed.

(** C26. In a browser other than Konqueror (KHTML, where [khtml_stays_hidden]), on a page whose
    elements have a visibility and were not touched by a calendar yet: whatever was done
    with a calendar before, once it is shown every applet and
    frame of the page that it touches is hidden and every other one has the visibility
    that the page gave it; once it is hidden all of them have it.  Other elements are
    never changed, and no element ever has a third visibility. *)
Theorem covers_reachable par rows ls s :
  rtc (scr_step onClose) (new_screen par rows ls over) s ->
  (forall x y, covers_exactly over (showAt x y s)) /\ covers_exactly over (hide s) /\
  Forall2 (fun v0 v => v = v0 \/ v_tag v0 ∈ cover_tags /\
             (v_style v = getVisib v0 \/ v_style v = "hidden" /\ s_hidden s = false)) over (s_over s).
Proof using no_khtml fresh.
  intros Hr. assert (Hs : screen_ok over s).
  { assert (Hn : screen_ok over (new_screen par rows ls over)).
    { apply Forall2_same_length_lookup_2; [done|]. intros i v0 v E1 E2. cbn in E2. rewrite E1 in E2.
      injection E2 as <-. apply over_ok_init. }
    induction Hr as [s|s1 s2 s3 H1 _ IH]; [done|]. apply IH. by eapply scr_step_ok. }
  split; [intros x y; by apply (showAt_ok (s_hidden s))|]. split; [by apply (hide_ok (s_hidden s))|].
  eapply Forall2_impl; [exact Hs|]. intros v0 v [_ _ [?|(?&_&?)]]; auto.
Qed.
End covers.

(** ** Showing, pressing outside, hiding *)

Lemma unlisten_not l ls : l ∉ ls -> unlisten l ls = ls.
Proof.
  intros Hl. unfold unlisten. induction ls as [|l' ls IH]; [done|]. rewrite filter_cons_True by set_solver.
  rewrite IH by set_solver. done.
Qed.
Lemma unlisten_app l ls ks : unlisten l (ls ++ ks) = unlisten l ls ++ unlisten l ks.
Proof. apply filter_app. Qed.

Lemma unlisten_listen ls :
  OnMousedown ∉ ls -> OnKeypress ∉ ls -> OnKeydown ∉ ls ->
  unlisten OnMousedown (unlisten OnKeypress (unlisten OnKeydown
    (listen OnMousedown (listen OnKeypress (listen OnKeydown ls))))) = ls.
Proof.
  intros H1 H2 H3. unfold listen.
  rewrite (bool_decide_eq_false_2 (OnKeydown ∈ ls)) by done.
  rewrite (bool_decide_eq_false_2 (OnKeypress ∈ (ls ++ _))) by (rewrite elem_of_app, list_elem_of_singleton; intros [?|?]; done).
  rewrite (bool_decide_eq_false_2 (OnMousedown ∈ (ls ++ _) ++ _))
    by (rewrite !elem_of_app, !list_elem_of_singleton; intros [[?|?]|?]; done).
  rewrite !unlisten_app, !(unlisten_not _ ls) by done. cbn. by rewrite !app_nil_r.
Qed.

Definition no_calendar_listener (ls : list doc_listener) : Prop :=
  (OnMousedown ∉ ls) /\ (OnKeypress ∉ ls) /\ (OnKeydown ∉ ls).

(** A pop-up calendar that closes by hiding: while it is shown, a press inside it
    changes nothing; a press anywhere else hides it and takes its listeners from the
    document, after which presses do nothing any more. *)
Theorem press_outside x y s :
  onClose = CallsHide -> s_popup s = true -> no_calendar_listener (s_listeners s) ->
  let s1 := showAt x y s in
  s_display s1 = "block" /\
  (forall path, in_calendar path = true -> press onClose path s1 = s1) /\
  (forall path, in_calendar path = false ->
     let s2 := press onClose path s1 in
     s_display s2 = "none" /\ s_hidden s2 = true /\ s_listeners s2 = s_listeners s /\
     forall path', press onClose path' s2 = s2).
Proof.
  intros Hc Hp (L1 & L2 & L3) s1. destruct (showAt_shown x y s) as [_ _ E3 _ _ E6 E7 E8]. fold s1 in E3, E6, E7, E8.
  rewrite Hp in *. specialize (E7 eq_refl). specialize (E8 eq_refl).
  assert (Hl : OnMousedown ∈ s_listeners s1).
  { rewrite E8. unfold listen at 1. case_bool_decide; [done|]. apply elem_of_app. right. by left. }
  split; [done|]. unfold press. rewrite bool_decide_eq_true_2 by done. unfold _checkCalendar. rewrite E7.
  split; intros path Hin; rewrite Hin; cbn [negb snd]; [done|].
  unfold callCloseHandler. rewrite Hc. set (s2 := hideShowCovered _).
  assert (Hs2 : s_display s2 = "none" /\ s_hidden s2 = true /\ s_listeners s2 = s_listeners s).
  { unfold s2, hide. rewrite E6. cbv zeta.
    destruct (hideShowCovered_core (hideShowCovered (set_shown "none" true (set_document (s_window s1)
      (unlisten OnMousedown (unlisten OnKeypress (unlisten OnKeydown (s_listeners s1)))) s1))))
      as (_ & _ & -> & -> & _ & _ & _ & -> & _).
    destruct (hideShowCovered_core (set_shown "none" true (set_document (s_window s1)
      (unlisten OnMousedown (unlisten OnKeypress (unlisten OnKeydown (s_listeners s1)))) s1)))
      as (_ & _ & -> & -> & _ & _ & _ & -> & _).
    cbn. rewrite E8. by rewrite unlisten_listen. }
  destruct Hs2 as (H1 & H2 & H3). repeat (split; [done|]). intros path'.
  rewrite H3. by rewrite bool_decide_eq_false_2.
Qed.

(** [show] takes the marks of the mouse from rows and cells, and only those. *)
Lemma show_clears s i r :
  s_rows s !! i = Some r ->
  exists r', s_rows (show s) !! i = Some r' /\
    (forall c, c <> "" -> has_class c (r_class r') <-> has_class c (r_class r) /\ c <> "rowhilite") /\
    forall j k, r_cells r !! j = Some k ->
      exists k', r_cells r' !! j = Some k' /\ k_text k' = k_text k /\ k_caldate k' = k_caldate k /\
        k_disabled k' = k_disabled k /\
        forall c, c <> "" -> has_class c (k_class k') <-> has_class c (k_class k) /\ c <> "hilite" /\ c <> "active".
Proof.
  intros Hr. exists (clear_row r). split; [|split].
  - destruct (showAt_shown 0 0 s) as [_ _ _ _ E5 _ _ _]. unfold showAt in E5.
    unfold show in *. cbv zeta in *.
    destruct (hideShowCovered_core (let s0 := set_shown "block" false (set_inside (s_months s) (map clear_row (s_rows s)) s) in
       if s_popup s0 then set_document true (listen OnMousedown (listen OnKeypress (listen OnKeydown (s_listeners s0)))) s0 else s0))
      as (_ & _ & _ & _ & E & _).
    cbv zeta in E. rewrite E. case_if; cbn; rewrite list_lookup_fmap, Hr; done.
  - intros c Hc. by apply has_class_remove.
  - intros j k Hk. exists (cell_class (removeClass "active") (cell_class (removeClass "hilite") k)).
    cbn. rewrite list_lookup_fmap, Hk. do 4 (split; [done|]). intros c Hc. rewrite !has_class_remove by done. tauto.
Qed.

(** ** KHTML *)

Lemma iter_S {A} (f : A -> A) n a : Nat.iter (S n) f a = Nat.iter n f (f a).
Proof. induction n as [|n IH]; [done|]. cbn in *. by rewrite IH. Qed.

Lemma cover_ticks n : forall s, s_cont s = Some CCover -> s_timers s = n ->
  let s' := Nat.iter n tick s in
  s_timers s' = O /\ s_left s' = s_left s /\ s_top s' = s_top s /\ s_display s' = s_display s /\
  s_hidden s' = s_hidden s /\ s_rows s' = s_rows s /\ s_popup s' = s_popup s /\ s_window s' = s_window s /\
  s_listeners s' = s_listeners s.
Proof.
  induction n as [|n IH]; intros s Hc Hn; [done|]. cbv zeta. rewrite iter_S.
  assert (E : tick s = cover_now (set_later (s_cont s) n s)) by (unfold tick; by rewrite Hn, Hc).
  specialize (IH (tick s)). rewrite E in *. by apply IH.
Qed.

(** In a KHTML browser the calendar is shown with a delay, by a timer that other
    timers of the widget may overtake; when all of them have fired it is where another
    browser shows it at once. *)
Theorem khtml_catches_up el o s :
  is_khtml = true -> o <> "" ->
  let s' := Nat.iter (s_timers s + 2) tick (showAtElement el (Some o) s) in
  let a := cal_area (s_left s) (s_top s) in
  s_timers s' = O /\ exists l t, shown_at l t s s' /\ placed_at el o (a_width a) (a_height a) l t.
Proof.
  intros Hk Ho. cbv zeta. unfold showAtElement. rewrite Hk, (proj2 (String.eqb_neq _ _) Ho).
  set (p := getAbsolutePos (a_shapes el)). set (k := CPlace p (a_width el, a_height el) o).
  replace (s_timers s + 2)%nat with (S (S (s_timers s))) by lia. rewrite iter_S.
  set (s1 := set_later (Some k) (s_timers s) (set_display "block" s)).
  replace (tick _) with (place p (a_width el, a_height el) o s1) by done.
  destruct (place_shown el o s1 eq_refl) as (l & t & Hs & Hp & _). fold p in Hs.
  set (s2 := place p (a_width el, a_height el) o s1) in *.
  assert (H2 : s_cont s2 = Some CCover /\ s_timers s2 = S (s_timers s)).
  { unfold s2, place, showAt, show, hideShowCovered. rewrite Hk. destruct (fixPosition _ _ _ _). cbn.
    by destruct (s_popup s). }
  destruct H2 as [Hc Hn]. destruct (cover_ticks _ s2 Hc Hn) as (E0 & E1 & E2 & E3 & E4 & E5 & E6 & E7 & E8).
  split; [done|]. exists l, t. split; [|done]. destruct Hs as [S1 S2 S3 S4 S5 S6 S7 S8].
  constructor; rewrite ?E1, ?E2, ?E3, ?E4, ?E5, ?E6, ?E7, ?E8; done.
Qed.
End props.

(** ** Witnesses and flaws *)
Definition demo_area (l t : string) : area :=
  Area [Shape true 0 0 (default 0 (parseInt l)) (default 0 (parseInt t))] 200 150.
Definition demo_screen (khtml : bool) : Screen :=
  {| is_ie := false; is_khtml := khtml; api := ComputedStyle; cal_area := demo_area;
     corner := Area [Shape true 0 0 800 600] 0 0; body_scroll := (0, 0); window_scroll := (0, 100) |}.
(** A button in a scrolled box; a frame beside it, one below it, and an image. *)
Definition demo_button : area := Area [Shape false 0 0 10 20; Shape true 0 30 300 400] 60 22.
Definition demo_over : list overlay :=
  [Overlay "iframe" (Area [Shape false 0 0 0 0] 100 100) "visible" "" "";
   Overlay "iframe" (Area [Shape false 0 0 250 350] 100 100) "visible" "" "";
   Overlay "img" (Area [Shape false 0 0 250 350] 100 100) "visible" "" ""].
Definition demo_new : screen := new_screen None (create_rows true) [OtherListener "page"] demo_over.

Lemma showAtElement_place_witness :
  exists l t, shown_at l t demo_new (showAtElement (H0 := demo_screen false) demo_button (Some "Br") demo_new) /\
    placed_at (H0 := demo_screen false) demo_button "Br" 200 150 l t /\ l = "170px" /\ t = "412px".
Proof.
  destruct (showAtElement_place (H0 := demo_screen false) demo_button (Some "Br") demo_new eq_refl) as (l & t & H1 & H2).
  exists l, t. split; [exact H1|]. split; [exact H2|].
  split; [rewrite <- (sa_left _ _ _ _ H1)|rewrite <- (sa_top _ _ _ _ H1)]; vm_compute; reflexivity.
Defined.

Lemma demo_over_untouched : Forall (untouched (H0 := demo_screen false)) demo_over.
Proof. repeat constructor; discriminate. Qed.

Lemma covers_reachable_witness :
  covers_exactly (H0 := demo_screen false) demo_over (showAt (H0 := demo_screen false) 170 412 demo_new) /\
  map v_style (s_over (showAt (H0 := demo_screen false) 170 412 demo_new)) = ["visible"; "hidden"; ""] /\
  map v_style (s_over (hide (H0 := demo_screen false) (showAt (H0 := demo_screen false) 170 412 demo_new)))
    = ["visible"; "visible"; ""].
Proof.
  split; [|split; vm_compute; reflexivity].
  exact (proj1 (covers_reachable (H0 := demo_screen false) CallsHide eq_refl demo_over demo_over_untouched
    None (create_rows true) [OtherListener "page"] demo_new (rtc_refl _ _)) 170%Q 412%Q).
Defined.

Lemma press_outside_witness :
  let s1 := showAt (H0 := demo_screen false) 5 5 demo_new in
  press (H0 := demo_screen false) CallsHide [Node "td"; TheCalendar; Node "body"] s1 = s1 /\
  s_listeners (press (H0 := demo_screen false) CallsHide [Node "td"; Node "body"] s1) = [OtherListener "page"].
Proof.
  assert (Hl : no_calendar_listener (s_listeners demo_new))
    by (repeat split; intros Hin; by apply list_elem_of_singleton in Hin).
  destruct (press_outside (H0 := demo_screen false) CallsHide 5 5 demo_new eq_refl eq_refl Hl) as (_ & H1 & H2).
  split; [exact (H1 [Node "td"; TheCalendar; Node "body"] eq_refl)|].
  exact (proj1 (proj2 (proj2 (H2 [Node "td"; Node "body"] eq_refl)))).
Defined.

Lemma khtml_catches_up_witness :
  s_timers (Nat.iter 2 (tick (H0 := demo_screen true)) (showAtElement (H0 := demo_screen true) demo_button (Some "Br") demo_new)) = O.
Proof. exact (proj1 (khtml_catches_up (H0 := demo_screen true) demo_button "Br" demo_new eq_refl ltac:(discriminate))). Defined.

(** In a KHTML browser [getVisib] finds no visibility, and what it saves is taken for
    not saved: at the next change it saves [hidden], and the frame stays hidden. *)
Lemma khtml_stays_hidden :
  let s1 := Nat.iter 2 (tick (H0 := demo_screen true)) (showAtElement (H0 := demo_screen true) demo_button (Some "Br") demo_new) in
  let s2 := Nat.iter 1 (tick (H0 := demo_screen true)) (hide (H0 := demo_screen true) s1) in
  s_hidden s2 = true /\ s_timers s2 = O /\ map v_style (s_over s2) = [""; "hidden"; ""].
Proof. vm_compute. done. Qed.

(** While it is dragged the calendar covers what was under it before the last move. *)
Lemma drag_covers_late :
  map v_style (s_over (drag_to (H0 := demo_screen false) "170px" "412px"
    (showAt (H0 := demo_screen false) 700 500 demo_new))) = ["visible"; "visible"; ""].
Proof. vm_compute. done. Qed.

(** [destroy] leaves the listeners in the document. *)
Lemma destroy_keeps_listeners :
  exists s, destroy (showAt (H0 := demo_screen false) 5 5 demo_new) = Some s /\
    s_window s = false /\ OnMousedown ∈ s_listeners s /\ destroy s = None.
Proof.
  eexists. split; [reflexivity|]. split; [done|]. split; [|done]. change (OnMousedown ∈ [OtherListener "page"; OnKeydown; OnKeypress; OnMousedown]).
  set_solver.
Qed.
