(* ===== verification/CalendarTable.v ===== *)
(** * The table of the calendar (calendar.js, calendar-en.js)
    What [create] builds: the rows of the head with the title, the buttons and the
    names of the days, the rows of days and of the time, the row of tool tips; which
    cells take part in which columns and which of them can be pressed.  [create] of
    [CalendarGrid] is the object behind the same call. *)
From S2P Require Import Prelude JsString JsNum JsVal JsDate CalendarDate CalendarGrid Calendar CalendarMouse.
Open Scope Z_scope.

(** ** Texts *)
Definition TT_INFO : string := "About the calendar".
Definition TT_PREV_YEAR : string := "Prev. year (hold for menu)".
Definition TT_PREV_MONTH : string := "Prev. month (hold for menu)".
Definition TT_GO_TODAY : string := "Go Today".
Definition TT_NEXT_MONTH : string := "Next month (hold for menu)".
Definition TT_NEXT_YEAR : string := "Next year (hold for menu)".
Definition TT_DRAG_TO_MOVE : string := "Drag to move".
Definition TT_CLOSE : string := "Close".
Definition TT_TODAY : string := "Today".
Definition TT_WK : string := "wk".
Definition TT_TIME : string := "Time:".

(** The names that are made when a language file has no short ones: the first [len]
    characters, 3 when it does not say. *)
Definition short_names (given : option (list string)) (len : option Z) (names : list string) : list string :=
  match given with
  | Some l => l
  | None => map (fun n => substr n 0 (default 3 len)) names
  end.

(** ** Cells *)
Record mcell := MCell {
  m_class : string;
  m_span : Z;
  m_nav : option Z;            (** [navtype] *)
  m_text : string;
  m_ttip : string;
  m_id : string;
  m_events : list string       (** the events that have a handler *)
}.
Record mrow := MRow { mr_class : string; mr_cells : list mcell }.
Record mtable := MTable { mt_head : list mrow; mt_body : list mrow; mt_foot : list mrow }.

Definition with_ttip (s : string) (c : mcell) : mcell :=
  MCell (m_class c) (m_span c) (m_nav c) (m_text c) s (m_id c) (m_events c).
Definition with_mclass (s : string) (c : mcell) : mcell :=
  MCell s (m_span c) (m_nav c) (m_text c) (m_ttip c) (m_id c) (m_events c).
Definition with_id (s : string) (c : mcell) : mcell :=
  MCell (m_class c) (m_span c) (m_nav c) (m_text c) (m_ttip c) s (m_events c).

(** A cell without [navtype] and handlers. *)
Definition plain_cell (cls text : string) (span : Z) : mcell := MCell cls span None text "" "" [].

Section table.
(** The browser, and the options that [create] looks at. *)
Context (is_ie : bool) (isPopup weekNumbers mytab : bool) (fdow : Z).

(** [Calendar._add_evs(el)] and [Calendar.myeve(el)] *)
Definition _add_evs : list string :=
  ["mouseover"; "mousedown"; "mouseout"] ++ (if is_ie then ["dblclick"] else []).
Definition myeve : list string := ["mousedown"].

(** The local function [hh(text, cs, navtype, img)]: a text that begins with an entity
    is not shown, its class shows a picture. *)
Definition hh_class (text : string) (nav : Z) : string :=
  "button" +++
  (if negb (nav =? 0) && (Z.abs nav <=? 2) then " nav" else "") +++
  (if String.eqb text "&#x00d7;" then " close" else "") +++
  (if String.eqb text "&#x00ab;" then " nav_prv_year" else "") +++
  (if String.eqb text "&#x2039;" then " nav_prv_month" else "") +++
  (if String.eqb text "&#x203a;" then " nav_next_month" else "") +++
  (if String.eqb text "&#x00bb;" then " nav_next_year" else "") +++
  (if String.eqb text "Today" then " nav_today" else "").
Definition hh (text : string) (cs nav : Z) : mcell :=
  MCell (hh_class text nav) cs (Some nav) (if String.eqb (substr text 0 1) "&" then "" else text) "" "" _add_evs.
Definition myhh (text : string) (cs nav : Z) : mcell := MCell "" cs (Some nav) text "" "" myeve.

(** ** Rows *)
Definition title_length : Z := 7 - (if isPopup then 1 else 0) + (if weekNumbers then 1 else 0).

Definition info_cell (img id cls title : string) : mcell :=
  with_mclass cls (with_id id (with_ttip TT_INFO (myhh
    ("&#160<img src='./images/" +++ img +++ ".gif' onclick='callme(" +++ qq "`" +++ id +++ qq "`" +++ ")' border=0 title='" +++ title +++ "'>") 1 400))).

Definition title_row : mrow :=
  let title := if mytab then hh "Choose Date" (title_length - 1) 300 else hh "" title_length 300 in
  MRow "" (
    (if mytab then [info_cell "calendar_single" "c" "calTabON" "Single Calendar Day";
                    info_cell "calendar_range" "r" "calTabOFF" "Range of Days"] else []) ++
    [with_mclass "title" (if isPopup then with_ttip TT_DRAG_TO_MOVE title else title)] ++
    (if isPopup then [with_ttip TT_CLOSE (hh "&#x00d7;" 1 200)] else [])).

Definition separator : mrow := MRow "sap" [hh "" 7 300].

Definition button_row : mrow :=
  MRow "headrow" [
    with_ttip TT_PREV_YEAR (hh "&#x00ab;" 1 (-2));
    with_ttip TT_PREV_MONTH (hh "&#x2039;" 1 (-1));
    with_ttip TT_GO_TODAY (hh TT_TODAY (if weekNumbers then 4 else 3) 0);
    with_ttip TT_NEXT_MONTH (hh "&#x203a;" 1 1);
    with_ttip TT_NEXT_YEAR (hh "&#x00bb;" 1 2)].

Definition name_cell (d : string * string * option (string * Z)) : mcell :=
  MCell (fst (fst d)) 1 ((fun _ => 100) <$> snd d) (snd (fst d)) (default "" (fst <$> snd d)) ""
    (match snd d with Some _ => _add_evs | None => [] end).

(** The loop that makes the cells never gives them handlers ([if (!i)] with [i > 0]);
    [_displayWeekdays] does, to all but the first. *)
Definition day_name_row : mrow :=
  MRow "daynames" (
    (if weekNumbers then [plain_cell "name wn" TT_WK 1] else []) ++
    map name_cell
        (_displayWeekdays fdow)).

Definition day_cell : mcell := MCell "" 1 None "" "" "" _add_evs.
Definition day_row : mrow :=
  MRow "" ((if weekNumbers then [plain_cell "" "" 1] else []) ++ replicate 7 day_cell).

(** The time row; the fields themselves are those of [create_time].  Its last cell
    gets the class [time] only behind the row, by an assignment meant for the foot. *)
Definition time_row (t12 : bool) : mrow :=
  MRow "time" [plain_cell "time" TT_TIME 2; plain_cell "time" "" (if weekNumbers then 4 else 3);
               plain_cell "time" (if t12 then "" else "&nbsp;") 2].

Definition foot_row : mrow :=
  let cell := with_mclass "ttip" (hh SEL_DATE (if weekNumbers then 8 else 7) 300) in
  MRow "footrow" [if isPopup then with_ttip TT_DRAG_TO_MOVE cell else cell].

(** [time]: [None] without the time row, else whether it has 12 hours.  Without it the
    class [time] goes to the last day cell, until [_init] gives it its own. *)
Definition set_last_class (cls : string) (r : mrow) : mrow :=
  MRow (mr_class r) (alter (with_mclass cls) (pred (length (mr_cells r))) (mr_cells r)).
Definition body_rows (time : option bool) : list mrow :=
  match time with
  | Some t12 => replicate 6 day_row ++ [time_row t12]
  | None => replicate 5 day_row ++ [set_last_class "time" day_row]
  end.

Definition create_table (time : option bool) : mtable :=
  MTable [title_row; separator; button_row; separator; day_name_row] (body_rows time) [foot_row].

(** ** Columns *)
Definition row_span (r : mrow) : Z := foldr (fun c n => m_span c + n) 0 (mr_cells r).
Definition rows (t : mtable) : list mrow := mt_head t ++ mt_body t ++ mt_foot t.
Definition columns : Z := if weekNumbers then 8 else 7.
Definition switch (b : bool) : Z := if b then 1 else 0.

(** The cells that react to a press, with what they are. *)
Definition hit (c : mcell) : bool := bool_decide ("mousedown" ∈ m_events c).
Definition row_press (r : mrow) : list (option Z) := map m_nav (List.filter hit (mr_cells r)).
Definition pressable (t : mtable) : list (option Z) := concat (map row_press (rows t)).
End table.

Lemma day_names_span is_ie l : foldr (fun c n => m_span c + n) 0 (map (name_cell is_ie) l) = Z.of_nat (length l).
Proof. induction l as [|d l IH]; [done|]. cbn [map foldr]. rewrite IH. cbn [length m_span name_cell]. lia. Qed.

(** All rows of the table span the same columns, the seven days and the week number
    when it is shown, but for two: the separators are always seven wide, and the title
    with the two tabs is one column too wide. *)
Theorem table_columns is_ie isPopup weekNumbers mytab fdow time :
  let columns := columns weekNumbers in
  map row_span (rows (create_table is_ie isPopup weekNumbers mytab fdow time)) =
  [columns + switch mytab; 7; columns; 7; columns] ++ replicate 6 columns ++
  (match time with Some _ => [columns] | None => [] end) ++ [columns].
Proof.
  cbv zeta. assert (Hn : row_span (day_name_row is_ie weekNumbers fdow) = columns weekNumbers).
  { unfold row_span, day_name_row. cbn [mr_cells]. rewrite foldr_app, day_names_span.
    unfold _displayWeekdays. rewrite length_fmap. by destruct weekNumbers. }
  unfold create_table, rows. cbn [mt_head mt_body mt_foot app map]. rewrite Hn.
  destruct time as [[]|], is_ie, isPopup, weekNumbers, mytab; vm_compute; reflexivity.
Qed.

(** ** Buttons *)

Lemma hit_add_evs is_ie cls cs nav text ttip id : hit (MCell cls cs nav text ttip id (_add_evs is_ie)) = true.
Proof. apply bool_decide_eq_true_2. unfold _add_evs. set_solver. Qed.

Lemma names_press is_ie l :
  map m_nav (List.filter hit (map (name_cell is_ie) l)) = omap (fun d => (fun _ => Some 100) <$> snd d) l.
Proof.
  induction l as [|[d [x|]] l IH]; [done| |]; cbn [map List.filter omap list_omap snd fmap option_fmap option_map];
    unfold name_cell at 1; cbn [snd].
  - rewrite hit_add_evs. cbn [map m_nav]. by rewrite IH.
  - done.
Qed.

Lemma omap_map {A B C} (f : B -> option C) (g : A -> B) (l : list A) : omap f (g <$> l) = omap (fun a => f (g a)) l.
Proof. induction l as [|a l IH]; [done|]. cbn in *. by rewrite IH. Qed.

Lemma weekdays_press fdow : omap (fun d => (fun _ => Some 100) <$> snd d) (_displayWeekdays fdow) = replicate 6 (Some 100).
Proof.
  unfold _displayWeekdays. rewrite omap_map. change (replicate 6 (Some 100)) with
    (omap (fun i => if i =? 0 then None else Some (Some 100)) (range 0 7)).
  apply list_omap_ext, Forall_Forall2_diag, Forall_forall. intros i _. cbn [snd]. by case_if.
Qed.

Lemma press_day_names is_ie weekNumbers fdow : row_press (day_name_row is_ie weekNumbers fdow) = replicate 6 (Some 100).
Proof.
  unfold row_press, day_name_row. cbn [mr_cells]. rewrite List.filter_app, map_app, names_press, weekdays_press.
  by destruct weekNumbers.
Qed.

(** What can be pressed in the table, in reading order: the tabs, the title and the
    close button of a pop-up calendar, the five navigation buttons, the names of the
    days but the first, the 42 days, the foot; separators react like the title. *)
Theorem table_pressable is_ie isPopup weekNumbers mytab fdow time :
  pressable (create_table is_ie isPopup weekNumbers mytab fdow time) =
  (if mytab then [Some 400; Some 400] else []) ++ [Some 300] ++ (if isPopup then [Some 200] else []) ++ [Some 300] ++
  [Some (-2); Some (-1); Some 0; Some 1; Some 2] ++ [Some 300] ++ replicate 6 (Some 100) ++
  replicate 42 None ++ [Some 300].
Proof.
  unfold pressable, create_table, rows. cbn [mt_head mt_body mt_foot app map]. rewrite press_day_names.
  destruct time as [[]|], is_ie, isPopup, weekNumbers, mytab; vm_compute; reflexivity.
Qed.

(** ** The names of the language file *)
Lemma short_names_given : short_names None None DN = SDN /\ short_names None None MN = SMN.
Proof. split; vm_compute; reflexivity. Qed.
