(* ===== verification/Menu.v ===== *)
(** * The menu of the console (menu.js)
    The menu is given as a flat list of entries whose level is the number of bars in
    front of the text; [createNewMenu] writes it as nested lists, and the handlers
    open and close them.  A link has no [id]: the model keeps the first link of an
    item as the element [link_key] of the item's id. *)
From S2P Require Import Prelude JsString JsNum Ui Dom PopupForm.
Open Scope Z_scope.

Class MenuDom := {
  (** [document.getElementById(id).getElementsByTagName('li')] *)
  li_in : document -> string -> list string
}.
Definition link_key (id : string) : string := id +++ " a".

Section menu.
Context `{Browser} `{Window} `{MenuDom}.

(** The global of the script: [lstChanged]. *)
Abbreviation Mn := (M string).

(** ** Building the menu *)

(** An entry of the array: text and address. *)
Definition entry : Type := string * string.

Definition getCount (str charCount : string) : Z := Z.of_nat (length (js_split (toLowerCase str) charCount)).

(** The variables of the loop. *)
Record counters := Counters { level1 : Z; level2 : Z; level3 : Z; lastLevel : Z }.

(** [url] with the parameter that will name the menu entry. *)
Definition menu_url (url : string) : string :=
  if String.eqb url "" then url
  else if indexOf url "?" =? -1 then url +++ "?empty=" else url +++ "&empty=".

Definition li_html (path cls url str : string) : string :=
  qq "<li id=`menu" +++ path +++ qq "` class=`" +++ cls +++ qq "` onclick=`displayList(this);`>"
  +++ (if String.eqb url "" then str
       else qq "<a class=`menuitem` href=`" +++ url +++ path +++ qq "`>" +++ str +++ "</a>")
  +++ "</li>".
Definition ul_html (path cls style : string) : string :=
  qq "<ul id=`menu" +++ path +++ qq "` class=`" +++ cls +++ qq "`" +++ style +++ ">".
Definition hidden2 : string := qq " style=`display:none` ".
Definition hidden3 : string := qq " style=`display:none`".

Definition path1 (c : counters) : string := Z_to_string (level1 c).
Definition path2 (c : counters) : string := path1 c +++ "_" +++ Z_to_string (level2 c).
Definition path3 (c : counters) : string := path2 c +++ "_" +++ Z_to_string (level3 c).

(** [selMenuList[k] == n] *)
Definition sel_is (sel : list string) (k : nat) (n : Z) : bool :=
  match sel !! k with Some s => num_eqb (toNumber s) (num_of_Z n) | None => false end.

(** One round of the loop; [prev] is [arr[i-1]], [None]: an exception. *)
Definition menu_step (sel : list string) (prev : option entry) (e : entry) (c : counters)
  : option (counters * string) :=
  let level := getCount (fst e) "|" in
  let str := substring2 (fst e) (level - 1) (slen (fst e)) in
  let url := menu_url (snd e) in
  if level =? 1 then
    let c' := Counters (level1 c + 1) 0 (level3 c) 1 in
    Some (c', (if level <? lastLevel c then (if lastLevel c =? 3 then "</ul>" else "") +++ "</ul>" else "")
              +++ li_html (path1 c') "level1unSel" url str)
  else if level =? 2 then
    let c' := Counters (level1 c) (level2 c + 1) 0 2 in
    Some (c', (if lastLevel c <? level then ul_html (path1 c' +++ "_0") "level2" hidden2
               else if level <? lastLevel c then "</ul>" else "")
              +++ li_html (path2 c') "level2unselCol" url str)
  else if level =? 3 then
    let c' := Counters (level1 c) (level2 c) (level3 c + 1) 3 in
    open ← (if lastLevel c <? level then
              p ← prev;
              Some (ul_html (path2 c' +++ "_0") "level3"
                (if negb (String.eqb (snd p) "") && sel_is sel 0 (level1 c) && sel_is sel 1 (level2 c)
                 then "" else hidden3))
            else Some (if level <? lastLevel c then "</ul>" else ""));
    Some (c', open +++ li_html (path3 c') "level3" url str)
  else Some (c, "").

Fixpoint menu_items (sel : list string) (prev : option entry) (arr : list entry) (c : counters) : option string :=
  match arr with
  | [] => Some ""
  | e :: arr =>
      cs ← menu_step sel prev e c;
      rest ← menu_items sel (Some e) arr (fst cs);
      Some (snd cs +++ rest)
  end.

Definition menu_html (arr : list entry) (lastAccess : string) : option string :=
  items ← menu_items (js_split lastAccess "_") None arr (Counters 0 0 0 0);
  Some (qq "<ul id=`menu0` class=`level1`>" +++ items +++ "</ul>").

(** ** The selected entry *)
Fixpoint for_items (f : string -> Mn unit) (ids : list string) : Mn unit :=
  match ids with [] => mret tt | id :: ids => f id ;;; for_items f ids end.

Definition items_in (id : string) : Mn (list string) := fun w =>
  match w_dom w !! id with Some _ => (Some (li_in (w_dom w) id), w) | None => (None, w) end.

Definition set_style (p v id : string) : Mn unit := set_prop (with_style p v) id.

(** The items of the level-2 list get the sign for "can be opened". *)
Definition mark_expandable (sub : string) : Mn unit :=
  l ← items_in sub;
  for_items (fun id =>
    cls ← prop e_class id;
    when_ (String.eqb cls "level2unselCol") (set_style "backgroundImage" "url(../images/inactiveexpand.gif)" id)) l.

Definition setDefaultMenu (lastAccess : string) : Mn unit :=
  let lastAccess := if String.eqb lastAccess "" then "1_1_1" else lastAccess in
  set_glob (fun _ => lastAccess) ;;;
  match js_split lastAccess "_" with
  | [a; b] =>
      set_prop (with_class "level1Sel") ("menu" +++ a) ;;;
      set_style "display" "" ("menu" +++ a +++ "_0") ;;;
      set_style "background" "#FFFFFF" ("menu" +++ a +++ "_0") ;;;
      mark_expandable ("menu" +++ a +++ "_0") ;;;
      set_style "color" "#E47440" (link_key ("menu" +++ a +++ "_" +++ b)) ;;;
      set_style "backgroundImage" "url(../images/collapse.gif)" ("menu" +++ a +++ "_" +++ b)
  | [a; b; d] =>
      set_prop (with_class "level1Sel") ("menu" +++ a) ;;;
      set_style "display" "" ("menu" +++ a +++ "_0") ;;;
      set_style "background" "#FFFFFF" ("menu" +++ a +++ "_0") ;;;
      set_style "display" "" ("menu" +++ a +++ "_" +++ b +++ "_0") ;;;
      mark_expandable ("menu" +++ a +++ "_0") ;;;
      set_prop (with_class "level2selExp") ("menu" +++ a +++ "_" +++ b) ;;;
      set_style "backgroundImage" "url(../images/collapse.gif)" ("menu" +++ a +++ "_" +++ b) ;;;
      l ← items_in ("menu" +++ a +++ "_" +++ b +++ "_0");
      for_items (fun id => set_style "color" "#2388C7" (link_key id)) l ;;;
      set_style "color" "#E47440" (link_key ("menu" +++ a +++ "_" +++ b +++ "_" +++ d))
  | _ => mret tt
  end.

Definition createNewMenu (arr : list entry) (lastAccess : string) : Mn unit :=
  let arr := if String.eqb appName "Microsoft Internet Explorer" then take (length arr - 1) arr else arr in
  match menu_html arr lastAccess with
  | None => throw
  | Some html => set_html "menu_data" html ;;; setDefaultMenu lastAccess
  end.

(** ** Clicks *)
Definition is_open (id : string) : Mn bool := s ← prop (style_of "display") id; mret (String.eqb s "").

(** [displayList(ele)]: [id] is the id of the clicked item. *)
Definition displayList (id : string) : Mn unit :=
  let currMenu := replace_first "menu" "" id in
  last ← glob;
  let old := js_split last "_" in
  match js_split currMenu "_" with
  | [a] =>
      (match old with
       | o :: _ =>
           when_ (negb (String.eqb a o)) (
             set_style "display" "none" ("menu" +++ o +++ "_0") ;;;
             set_prop (with_class "level1unSel") ("menu" +++ o))
       | [] => mret tt
       end) ;;;
      b ← is_open ("menu" +++ a +++ "_0");
      (if (b : bool) then
         set_style "display" "none" ("menu" +++ a +++ "_0") ;;;
         set_prop (with_class "level1unSel") ("menu" +++ a)
       else
         set_style "display" "" ("menu" +++ a +++ "_0") ;;;
         set_prop (with_class "level1Sel") ("menu" +++ a))
  | [a; b] =>
      has_link ← exists_ (link_key id);
      has_list ← exists_ ("menu" +++ currMenu +++ "_0");
      when_ (negb (has_link && has_list)) (
        (match old with
         | o1 :: o2 :: _ =>
             when_ (negb (String.eqb b o2)) (
               there ← exists_ ("menu" +++ o1 +++ "_" +++ o2 +++ "_0");
               when_ there (set_style "display" "none" ("menu" +++ o1 +++ "_" +++ o2 +++ "_0")))
         | _ => mret tt
         end) ;;;
        there ← exists_ ("menu" +++ a +++ "_" +++ b +++ "_0");
        when_ there (
          open ← is_open ("menu" +++ a +++ "_" +++ b +++ "_0");
          (if (open : bool) then
             set_style "display" "none" ("menu" +++ a +++ "_" +++ b +++ "_0") ;;;
             set_style "backgroundImage" "url(../images/inactiveexpand.gif)" ("menu" +++ a +++ "_" +++ b)
           else set_style "display" "" ("menu" +++ a +++ "_" +++ b +++ "_0"))))
  | _ => mret tt
  end ;;;
  set_glob (fun _ => currMenu).
End menu.

(** ** The structure of the menu *)

(** What the loop writes, one piece at a time. *)
Inductive piece :=
| POpen (path : list Z) (visible : bool)                 (* <ul> below the item [path] *)
| PClose                                                 (* </ul> *)
| PItem (path : list Z) (url str : string).              (* <li> *)

Definition path_string (p : list Z) : string := join "_" (Z_to_string <$> p).

Definition item_class (p : list Z) : string :=
  match length p with 1%nat => "level1unSel" | 2%nat => "level2unselCol" | _ => "level3" end.

Definition piece_html (p : piece) : string :=
  match p with
  | POpen q visible =>
      if Nat.eqb (length q) 1 then ul_html (path_string q +++ "_0") "level2" hidden2
      else ul_html (path_string q +++ "_0") "level3" (if visible then "" else hidden3)
  | PClose => "</ul>"
  | PItem q url str => li_html (path_string q) (item_class q) url str
  end.
Definition pieces_html (l : list piece) : string := foldr (fun p s => piece_html p +++ s) "" l.

Definition level_of (e : entry) : Z := getCount (fst e) "|".
Definition item_of (p : list Z) (e : entry) : piece :=
  PItem p (menu_url (snd e)) (substring2 (fst e) (level_of e - 1) (slen (fst e))).

(** The reference: the menu as pieces; [last] is the path of the item before. *)
Definition go_up (from to : Z) : list piece :=
  if to <? from then replicate (Z.to_nat (from - to)) PClose else [].

Definition next_counters (e : entry) (c : counters) : counters :=
  match level_of e with
  | 1 => Counters (level1 c + 1) 0 (level3 c) 1
  | 2 => Counters (level1 c) (level2 c + 1) 0 2
  | 3 => Counters (level1 c) (level2 c) (level3 c + 1) 3
  | _ => c
  end.
Definition path_of (c : counters) : list Z :=
  take (Z.to_nat (lastLevel c)) [level1 c; level2 c; level3 c].

Definition entry_pieces (sel : list string) (prev : option entry) (e : entry) (c : counters) : list piece :=
  let c' := next_counters e c in
  let p := path_of c' in
  (if lastLevel c <? level_of e then
     if level_of e =? 1 then []
     else [POpen (removelast p) (match prev with
             | Some q => negb (String.eqb (snd q) "") && sel_is sel 0 (level1 c) && sel_is sel 1 (level2 c)
             | None => false end)]
   else go_up (lastLevel c) (level_of e))
  ++ [item_of p e].

Fixpoint menu_pieces (sel : list string) (prev : option entry) (arr : list entry) (c : counters) : list piece :=
  match arr with
  | [] => []
  | e :: arr => entry_pieces sel prev e c ++ menu_pieces sel (Some e) arr (next_counters e c)
  end.

(** Every entry has one of the three levels, the first is of level 1, and no level is
    entered past the one above it. *)
Fixpoint well_nested (last : Z) (arr : list entry) : Prop :=
  match arr with
  | [] => True
  | e :: arr => 1 <= level_of e <= Z.min 3 (last + 1) /\ well_nested (level_of e) arr
  end.

Lemma pieces_html_app a b : pieces_html (a ++ b) = pieces_html a +++ pieces_html b.
Proof. unfold pieces_html. induction a as [|p a IH]; [done|]. cbn. by rewrite IH, sapp_assoc. Qed.

Lemma path_string1 a : path_string [a] = Z_to_string a.
Proof. done. Qed.
Lemma path_string2 a b : path_string [a; b] = Z_to_string a +++ "_" +++ Z_to_string b.
Proof. done. Qed.
Lemma path_string3 a b d : path_string [a; b; d] = Z_to_string a +++ "_" +++ Z_to_string b +++ "_" +++ Z_to_string d.
Proof. done. Qed.

Ltac level_cases H :=
  let E := fresh "E" in
  match type of H with
  | 1 <= ?l <= _ => assert (E : l = 1 \/ l = 2 \/ l = 3) by lia; destruct E as [E|[E|E]]
  end.

Lemma menu_step_pieces sel prev e c :
  1 <= level_of e <= Z.min 3 (lastLevel c + 1) -> 0 <= lastLevel c <= 3 ->
  (lastLevel c = 0 <-> prev = None) ->
  menu_step sel prev e c = Some (next_counters e c, pieces_html (entry_pieces sel prev e c)).
Proof.
  intros Hl Hc Hp. unfold menu_step, entry_pieces, next_counters, item_of. fold (level_of e).
  assert (Hlast : lastLevel c = 0 \/ lastLevel c = 1 \/ lastLevel c = 2 \/ lastLevel c = 3) by lia.
  destruct c as [a b d l]; cbn [lastLevel level1 level2 level3] in *.
  level_cases Hl; rewrite E in *;
    destruct Hlast as [->|[->|[->| ->]]]; try lia;
    (destruct prev as [q|]; [|try (exfalso; lia); try (exfalso; by apply Hp)]); try (exfalso; by destruct Hp as [_ Hp]; discriminate (Hp eq_refl)).
  all: unfold go_up, path_of, pieces_html, path3, path2, path1; cbn [lastLevel level1 level2 level3 Z.ltb Z.compare Z.eqb Pos.compare Pos.compare_cont Pos.eqb];
    change (Z.to_nat 1) with 1%nat; change (Z.to_nat 2) with 2%nat; change (Z.to_nat 3) with 3%nat;
    change (Z.to_nat (2 - 1)) with 1%nat; change (Z.to_nat (3 - 1)) with 2%nat; change (Z.to_nat (3 - 2)) with 1%nat;
    cbn -[li_html ul_html menu_url substring2 Z_to_string hidden2 hidden3 String.append].
  all: rewrite ?sapp_nil_r, ?sapp_assoc; try done.
Qed.

Lemma next_counters_level e c : 1 <= level_of e <= 3 -> lastLevel (next_counters e c) = level_of e.
Proof. intros Hl. unfold next_counters. assert (level_of e = 1 \/ level_of e = 2 \/ level_of e = 3) as [->|[->| ->]] by lia; done. Qed.

Lemma menu_items_pieces sel arr : forall prev c,
  well_nested (lastLevel c) arr -> 0 <= lastLevel c <= 3 -> (lastLevel c = 0 <-> prev = None) ->
  menu_items sel prev arr c = Some (pieces_html (menu_pieces sel prev arr c)).
Proof.
  induction arr as [|e arr IH]; intros prev c Hw Hc Hp; [done|]. destruct Hw as [He Hw].
  cbn [menu_items menu_pieces]. rewrite menu_step_pieces by done. cbn [mbind option_bind fst snd].
  pose proof (next_counters_level e c ltac:(lia)) as Hn.
  rewrite IH; [by rewrite pieces_html_app|by rewrite Hn|lia|]. rewrite Hn. split; [lia|done].
Qed.

(** Depth of the open lists after a piece. *)
Definition depth (p : piece) : Z := match p with POpen _ _ => 1 | PClose => -1 | PItem _ _ _ => 0 end.
Definition depths (l : list piece) : Z := foldr (fun p n => depth p + n) 0 l.
Definition item_paths (l : list piece) : list (list Z) :=
  omap (fun p => match p with PItem q _ _ => Some q | _ => None end) l.

Lemma depths_app a b : depths (a ++ b) = depths a + depths b.
Proof. unfold depths. induction a as [|p a IH]; cbn; [done|]. rewrite IH. lia. Qed.
Lemma depths_close n : depths (replicate n PClose) = - Z.of_nat n.
Proof. unfold depths. induction n as [|n IH]; [done|]. cbn [replicate foldr depth]. rewrite IH. lia. Qed.

(** The level of the last entry. *)
Fixpoint last_level (last : Z) (arr : list entry) : Z :=
  match arr with [] => last | e :: arr => last_level (level_of e) arr end.

Lemma menu_depth sel arr : forall prev c,
  well_nested (lastLevel c) arr -> 1 <= lastLevel c <= 3 ->
  depths (menu_pieces sel prev arr c) = last_level (lastLevel c) arr - lastLevel c.
Proof.
  induction arr as [|e arr IH]; intros prev c Hw Hc; [cbn; lia|]. destruct Hw as [He Hw]. cbn [menu_pieces last_level].
  pose proof (next_counters_level e c ltac:(lia)) as Hn.
  rewrite depths_app, IH by (rewrite Hn; done || lia). rewrite Hn.
  unfold entry_pieces. rewrite depths_app. cbn [depths foldr depth item_of].
  destruct (Z.ltb_spec (lastLevel c) (level_of e)).
  - destruct (Z.eqb_spec (level_of e) 1); [lia|]. cbn [depths foldr depth]. lia.
  - unfold go_up. destruct (Z.ltb_spec (level_of e) (lastLevel c)); [rewrite depths_close; lia|cbn; lia].
Qed.

(** ** The numbers of the entries *)
Definition key3 : Type := Z * Z * Z.
Definition pad (q : list Z) : key3 := (nth 0 q 0, nth 1 q 0, nth 2 q 0).
Definition lt3 (p q : key3) : Prop :=
  let '(a, b, d) := p in let '(x, y, z) := q in a < x \/ a = x /\ (b < y \/ b = y /\ d < z).
Lemma lt3_irrefl p : ~ lt3 p p.
Proof. destruct p as [[a b] d]. cbn. lia. Qed.
Lemma lt3_trans p q r : lt3 p q -> lt3 q r -> lt3 p r.
Proof. destruct p as [[a b] d], q as [[x y] z], r as [[u v] w]. cbn. lia. Qed.

Record counters_ok (c : counters) : Prop := CountersOk {
  co_last : 0 <= lastLevel c <= 3;
  co_pos : 0 <= level1 c /\ 0 <= level2 c /\ 0 <= level3 c;
  co_1 : lastLevel c <= 1 -> level2 c = 0;
  co_2 : lastLevel c = 2 -> level3 c = 0
}.

Lemma path_of_1 a b d : path_of (Counters a b d 1) = [a].
Proof. done. Qed.
Lemma path_of_2 a b d : path_of (Counters a b d 2) = [a; b].
Proof. done. Qed.
Lemma path_of_3 a b d : path_of (Counters a b d 3) = [a; b; d].
Proof. done. Qed.
Lemma path_of_0 a b d : path_of (Counters a b d 0) = [].
Proof. done. Qed.

Lemma next_counters_above e c :
  counters_ok c -> 1 <= level_of e <= Z.min 3 (lastLevel c + 1) -> 
  counters_ok (next_counters e c) /\ lt3 (pad (path_of c)) (pad (path_of (next_counters e c))) /\
  length (path_of (next_counters e c)) = Z.to_nat (level_of e) /\
  Forall (Z.le 0) (path_of (next_counters e c)).
Proof.
  intros [H1 H2 H3 H4] He. destruct c as [a b d l]. cbn [lastLevel level1 level2 level3] in *.
  unfold next_counters. cbn [lastLevel level1 level2 level3].
  assert (Hl : l = 0 \/ l = 1 \/ l = 2 \/ l = 3) by lia.
  level_cases He; rewrite E in *; destruct Hl as [->|[->|[->| ->]]]; try lia;
    rewrite ?path_of_0, ?path_of_1, ?path_of_2, ?path_of_3;
    (split; [constructor; cbn; lia|]); (split; [cbn; lia|]); (split; [done|]);
    repeat (constructor; [lia|]); constructor.
Qed.

Lemma entry_paths sel prev e c : item_paths (entry_pieces sel prev e c) = [path_of (next_counters e c)].
Proof.
  unfold entry_pieces, item_paths. rewrite omap_app. cbn [omap list_omap item_of].
  assert (forall n, omap (fun p => match p with PItem q _ _ => Some q | _ => None end) (replicate n PClose) = []) as Hc
    by (induction n as [|n IH]; [done|exact IH]).
  destruct (lastLevel c <? level_of e); [by destruct (level_of e =? 1)|].
  unfold go_up. destruct (level_of e <? lastLevel c); [by rewrite Hc|done].
Qed.

Lemma menu_paths sel arr : forall prev c,
  counters_ok c -> well_nested (lastLevel c) arr ->
  length <$> item_paths (menu_pieces sel prev arr c) = (fun e => Z.to_nat (level_of e)) <$> arr /\
  Forall (fun q => lt3 (pad (path_of c)) (pad q) /\ Forall (Z.le 0) q /\ q <> []) (item_paths (menu_pieces sel prev arr c)) /\
  NoDup (item_paths (menu_pieces sel prev arr c)).
Proof.
  induction arr as [|e arr IH]; intros prev c Hc Hw; [split; [done|split; constructor]|]. destruct Hw as [He Hw].
  cbn [menu_pieces]. unfold item_paths. rewrite omap_app. fold (item_paths (entry_pieces sel prev e c)).
  rewrite entry_paths. fold (item_paths (menu_pieces sel (Some e) arr (next_counters e c))).
  destruct (next_counters_above e c Hc He) as (Hc' & Hlt & Hlen & Hpos).
  destruct (IH (Some e) (next_counters e c) Hc') as (H1 & H2 & H3).
  { by rewrite next_counters_level by lia. }
  cbn [app fmap list_fmap]. split; [by rewrite Hlen, <- H1|]. split.
  - constructor.
    + split; [done|]. split; [done|]. intros E0. rewrite E0 in Hlen. cbn in Hlen. lia.
    + eapply Forall_impl; [exact H2|]. intros q (Hq & ?). split; [by eapply lt3_trans|done].
  - constructor; [|done]. intros Hin. rewrite Forall_forall in H2. destruct (H2 _ Hin) as (Hq & _).
    by apply lt3_irrefl in Hq.
Qed.

Lemma path_string_inj p q :
  Forall (Z.le 0) p -> Forall (Z.le 0) q -> p <> [] -> q <> [] -> path_string p = path_string q -> p = q.
Proof.
  intros Hp Hq Np Nq E. unfold path_string in E. apply (f_equal (fun s => js_split s "_")) in E.
  assert (Hs : forall l, Forall (Z.le 0) l -> Forall (fun s => sall (not_char "_") s = true) (Z_to_string <$> l)).
  { intros l Hl. apply Forall_fmap. eapply Forall_impl; [exact Hl|]. intros z Hz. cbn.
    rewrite Z_to_string_nonneg by done. apply digits_not_char; [done|by apply nat_digits_digits]. }
  rewrite !(js_split_join "_") in E by (by apply Hs || by intros E'%fmap_nil_inv).
  clear Np Nq. revert q Hq E. induction Hp as [|a p Ha Hp IH]; intros q Hq E; destruct Hq as [|b q Hb Hq]; try done.
  cbn in E. injection E as E1 E2. f_equal; [by apply Z_to_string_inj|by apply IH].
Qed.

(** C39. The menu as [createNewMenu] writes it, for entries that never skip a level:
    it is the reference nesting, one list item per entry in their order, numbered by
    its place at each of its levels; all the ids are different.  The lists opened and
    closed balance only if the last entry is of level 1: an entry of level [l] at the
    end leaves [l - 1] lists open. *)
Theorem menu_structure arr lastAccess :
  well_nested 0 arr -> arr <> [] ->
  let L := menu_pieces (js_split lastAccess "_") None arr (Counters 0 0 0 0) in
  menu_html arr lastAccess = Some (qq "<ul id=`menu0` class=`level1`>" +++ pieces_html L +++ "</ul>") /\
  length <$> item_paths L = (fun e => Z.to_nat (level_of e)) <$> arr /\
  NoDup (path_string <$> item_paths L) /\
  depths L = last_level 0 arr - 1.
Proof.
  intros Hw Hne L. assert (Hok : counters_ok (Counters 0 0 0 0)) by (constructor; cbn; lia).
  destruct (menu_paths (js_split lastAccess "_") arr None _ Hok Hw) as (H1 & H2 & H3).
  split; [unfold menu_html; by rewrite menu_items_pieces|]. split; [done|]. split.
  - apply NoDup_fmap_2_strong; [|done]. rewrite Forall_forall in H2. intros p q Hp Hq.
    destruct (H2 p Hp) as (_ & ? & ?), (H2 q Hq) as (_ & ? & ?). by apply path_string_inj.
  - unfold L. destruct arr as [|e arr]; [done|]. destruct Hw as [He Hw]. cbn [menu_pieces last_level].
    cbn [lastLevel] in He. assert (He1 : level_of e = 1) by lia.
    rewrite depths_app, menu_depth; rewrite ?(next_counters_level e _ ltac:(lia)); [|done|lia].
    unfold entry_pieces. cbn [lastLevel]. rewrite He1. cbn. lia.
Qed.

Lemma menu_structure_witness :
  let arr := [("Home", "/home"); ("|Web", ""); ("||Top", "/top"); ("|Mail", "/mail")] in
  menu_html arr "1_1_1" <> None /\
  path_string <$> item_paths (menu_pieces ["1"; "1"; "1"] None arr (Counters 0 0 0 0)) = ["1"; "1_1"; "1_1_1"; "1_2"] /\
  depths (menu_pieces ["1"; "1"; "1"] None arr (Counters 0 0 0 0)) = 1.
Proof.
  destruct (menu_structure [("Home", "/home"); ("|Web", ""); ("||Top", "/top"); ("|Mail", "/mail")] "1_1_1"
    ltac:(cbn; repeat split; discriminate) ltac:(discriminate)) as (H1 & _ & _ & H2).
  split; [rewrite H1; discriminate|]. split; [vm_compute; reflexivity|exact H2].
Defined.

(** ** Opening one list closes the other *)
Section clicks.
Context `{Browser} `{Window}.
Implicit Types (w : world string).

Definition head_id (n : string) : string := "menu" +++ n.
Definition list_id (n : string) : string := "menu" +++ n +++ "_0".
Definition display_of (id : string) w : option string := style_of "display" <$> w_dom w !! id.

(** The entries of level 1 [tops] have their items and lists in the document. *)
Definition menu_there (tops : list string) w : Prop :=
  forall n, n ∈ tops -> sall (not_char "_") n = true /\ is_Some (w_dom w !! head_id n) /\ is_Some (w_dom w !! list_id n).
(** The current entry of level 1. *)
Definition current w : string := default "" (head (js_split (w_glob w) "_")).
(** The lists of all other entries are closed. *)
Definition others_closed (tops : list string) w : Prop :=
  forall n, n ∈ tops -> n <> current w -> display_of (list_id n) w <> Some "".

Lemma no_bar_ne a b c : sall (not_char c) a = true -> a <> b +++ String c "0".
Proof.
  intros Ha ->. rewrite sall_app in Ha. apply andb_true_iff in Ha as [_ Ha]. cbn in Ha.
  unfold not_char in Ha. by rewrite Ascii.eqb_refl in Ha.
Qed.
Lemma head_list_ne a b : sall (not_char "_") a = true -> head_id a <> list_id b.
Proof. intros Ha E. unfold head_id, list_id in E. apply sapp_cancel_l in E. by apply (no_bar_ne a b "_") in E. Qed.
Lemma list_id_inj a b : list_id a = list_id b -> a = b.
Proof. unfold list_id. intros E%sapp_cancel_l. by apply sapp_cancel_r in E. Qed.
Lemma head_id_inj a b : head_id a = head_id b -> a = b.
Proof. apply sapp_cancel_l. Qed.

(** Setting one property of one element. *)
Definition put (id : string) (f : elem -> elem) w : world string :=
  World (alter f id (w_dom w)) (w_glob w) (w_log w).
Lemma run_put f id w : is_Some (w_dom w !! id) -> set_prop f id w = (Some tt, put id f w).
Proof.
  intros [e He]. unfold set_prop, put. rewrite He. do 2 f_equal. apply map_eq. intros k.
  destruct (decide (k = id)) as [->|]; [by rewrite lookup_insert_eq, lookup_alter_eq, He|].
  by rewrite lookup_insert_ne, lookup_alter_ne.
Qed.
Lemma put_there f id k w : is_Some (w_dom w !! k) -> is_Some (w_dom (put id f w) !! k).
Proof.
  cbn. destruct (decide (k = id)) as [->|]; [rewrite lookup_alter_eq|by rewrite lookup_alter_ne].
  intros [e ->]. by eexists.
Qed.
Lemma menu_there_put tops id f w : menu_there tops w -> menu_there tops (put id f w).
Proof. intros Hm n Hn. destruct (Hm n Hn) as (? & ? & ?). split; [done|]. by split; apply put_there. Qed.

Lemma display_put_ne id k f w : k <> id -> display_of k (put id f w) = display_of k w.
Proof. intros Hk. unfold display_of. cbn. by rewrite lookup_alter_ne. Qed.
Lemma display_put_style id v w :
  is_Some (w_dom w !! id) -> display_of id (put id (with_style "display" v) w) = Some v.
Proof. intros [e He]. unfold display_of. cbn. rewrite lookup_alter_eq, He. cbn. unfold style_of. cbn. by rewrite lookup_insert_eq. Qed.
Lemma display_put_class id k s w : display_of k (put id (with_class s) w) = display_of k w.
Proof.
  destruct (decide (k = id)) as [->|]; [|by apply display_put_ne]. unfold display_of. cbn. rewrite lookup_alter_eq.
  by destruct (w_dom w !! id).
Qed.

(** The click: what was current is closed, the list clicked is switched. *)
Definition close_old (o : string) w : world string :=
  put (head_id o) (with_class "level1unSel") (put (list_id o) (with_style "display" "none") w).
Definition switch (a : string) (open : bool) w : world string :=
  if open then put (head_id a) (with_class "level1unSel") (put (list_id a) (with_style "display" "none") w)
  else put (head_id a) (with_class "level1Sel") (put (list_id a) (with_style "display" "") w).

Lemma run_two f g id id' w :
  is_Some (w_dom w !! id) -> is_Some (w_dom w !! id') ->
  (set_prop f id ;;; set_prop g id') w = (Some tt, put id' g (put id f w)).
Proof. intros H1 H2. rewrite (run_bind _ _ _ _ _ (run_put f id w H1)). apply run_put. by apply put_there. Qed.

Lemma run_switch tops a w :
  menu_there tops w -> a ∈ tops ->
  (b ← is_open (list_id a);
   if (b : bool) then set_style "display" "none" (list_id a) ;;; set_prop (with_class "level1unSel") (head_id a)
   else set_style "display" "" (list_id a) ;;; set_prop (with_class "level1Sel") (head_id a)) w
  = (Some tt, switch a (bool_decide (display_of (list_id a) w = Some "")) w).
Proof.
  intros Hm Ha. destruct (Hm a Ha) as (_ & Hh & Hl). destruct Hl as [e He].
  rewrite (run_bind (is_open (list_id a)) _ w (bool_decide (display_of (list_id a) w = Some "")) w).
  2: { unfold is_open. rewrite (run_bind (prop (style_of "display") (list_id a)) _ w (style_of "display" e) w) by (unfold prop; by rewrite He).
       unfold mret, M_ret. do 2 f_equal. unfold display_of. rewrite He. cbn.
       destruct (String.eqb_spec (style_of "display" e) "") as [E|E];
         [rewrite bool_decide_eq_true_2 by (by rewrite E)|rewrite bool_decide_eq_false_2 by congruence]; done. }
  destruct (bool_decide _); apply run_two; by rewrite ?He || done.
Qed.

(** A click on an entry of level 1: the list of the entry that was current before,
    if it is another one, is closed and the list of the clicked entry is opened or,
    if it was open, closed; it becomes the current entry, so that at any time at most
    one list of level 1 is open. *)
Theorem click_top tops a w :
  menu_there tops w -> others_closed tops w -> a ∈ tops -> current w ∈ tops ->
  exists w', displayList (head_id a) w = (Some tt, w') /\ menu_there tops w' /\ others_closed tops w' /\
    current w' = a /\
    (display_of (list_id a) w' = Some "" <-> display_of (list_id a) w <> Some "").
Proof.
  intros Hm Ho Ha Hc. destruct (Hm a Ha) as (Hbar & Hh & Hl).
  set (o := current w) in *.
  set (w1 := if String.eqb a o then w else close_old o w).
  set (b := bool_decide (display_of (list_id a) w1 = Some "")).
  set (w2 := switch a b w1). exists (World (w_dom w2) a (w_log w2)).
  assert (Hm1 : menu_there tops w1) by (unfold w1, close_old; destruct (String.eqb a o); [done|by do 2 apply menu_there_put]).
  assert (Hm2 : menu_there tops w2) by (unfold w2, switch; destruct b; by do 2 apply menu_there_put).
  assert (Hd1 : forall n, n ∈ tops -> display_of (list_id n) w1 =
    if String.eqb a o then display_of (list_id n) w else if String.eqb n o then Some "none" else display_of (list_id n) w).
  { intros n Hn. unfold w1. destruct (String.eqb_spec a o); [done|]. unfold close_old. rewrite display_put_class.
    destruct (String.eqb_spec n o) as [->|Hno]; [apply display_put_style; by apply Hm|].
    apply display_put_ne. by intros E%list_id_inj. }
  assert (Hd2 : forall n, n ∈ tops -> display_of (list_id n) w2 =
    if String.eqb n a then Some (if b then "none" else "") else display_of (list_id n) w1).
  { intros n Hn. unfold w2, switch. destruct (String.eqb_spec n a) as [->|Hna].
    - destruct b; rewrite display_put_class; apply display_put_style; by apply Hm1.
    - destruct b; rewrite display_put_class; apply display_put_ne; by intros E%list_id_inj. }
  assert (Hb : b = bool_decide (display_of (list_id a) w = Some "")).
  { unfold b. rewrite (Hd1 a Ha). by destruct (String.eqb a o). }
  split; [|split; [done|split; [|split]]].
  - unfold displayList. change (replace_first "menu" "" (head_id a)) with a.
    rewrite (run_bind glob _ w (w_glob w) w) by done. rewrite (js_split_char_none "_" a Hbar). cbv zeta.
    rewrite (run_bind _ _ w tt w2); [done|].
    assert (Ho' : exists t, js_split (w_glob w) "_" = o :: t).
    { unfold o, current. pose proof (js_split_nonempty (w_glob w) "_"). destruct (js_split (w_glob w) "_"); [done|by eexists]. }
    destruct Ho' as [t ->]. rewrite (run_bind _ _ w tt w1); [by apply (run_switch tops a w1)|].
    unfold w1, close_old. destruct (String.eqb a o); cbn [negb when_]; [done|].
    destruct (Hm o Hc) as (_ & ? & ?). by apply run_two.
  - intros n Hn Hne. unfold current in Hne. cbn [w_glob] in Hne. rewrite (js_split_char_none "_" a Hbar) in Hne.
    cbn in Hne. change (display_of (list_id n) (World (w_dom w2) a (w_log w2))) with (display_of (list_id n) w2).
    rewrite (Hd2 n Hn), (Hd1 n Hn), (proj2 (String.eqb_neq n a) Hne).
    destruct (String.eqb_spec n o) as [->|Hno].
    + by destruct (String.eqb_spec a o) as [->|].
    + destruct (String.eqb a o); by apply Ho.
  - unfold current. cbn [w_glob]. by rewrite (js_split_char_none "_" a Hbar).
  - change (display_of (list_id a) (World (w_dom w2) a (w_log w2))) with (display_of (list_id a) w2).
    rewrite (Hd2 a Ha), String.eqb_refl, Hb. case_bool_decide as E; split; done || congruence.
Qed.
End clicks.

Definition demo_menu : world string :=
  World (list_to_map [("menu1", new_elem); ("menu1_0", with_style "display" "" new_elem);
                      ("menu2", new_elem); ("menu2_0", with_style "display" "none" new_elem)]) "1_2_1" [].

Lemma click_top_witness :
  exists w', displayList (head_id "2") demo_menu = (Some tt, w') /\ display_of (list_id "2") w' = Some "" /\
    display_of (list_id "1") w' <> Some "".
Proof.
  assert (Hm : menu_there ["1"; "2"] demo_menu).
  { intros n Hn. repeat (apply elem_of_cons in Hn as [->|Hn]; [split; [reflexivity|split; eexists; reflexivity]|]).
    by apply elem_of_nil in Hn. }
  assert (Ho : others_closed ["1"; "2"] demo_menu).
  { intros n Hn Hc. apply elem_of_cons in Hn as [->|Hn]; [by destruct Hc|].
    apply elem_of_cons in Hn as [->|Hn]; [vm_compute; discriminate|by apply elem_of_nil in Hn]. }
  destruct (click_top ["1"; "2"] "2" demo_menu Hm Ho ltac:(lit_in) ltac:(lit_in)) as (w' & H1 & _ & H2 & H3 & H4).
  exists w'. split; [exact H1|]. split; [apply H4; vm_compute; discriminate|].
  apply (H2 "1"); [lit_in|]. rewrite H3. discriminate.
Defined.
