(* ===== verification/SearchData.v ===== *)
(** * The criteria of a search form (SearchData.js)
    The rows of the table [container], each with a check box, a list of fields, a
    list of criteria and a value; rows are added at the end, and the checked ones
    are removed.  The elements of a row are found by the number of the row. *)
From S2P Require Import Prelude JsString JsVal Ui.
Open Scope Z_scope.

(** ** State *)

(** An option of a list: [value] and text (also its [name]). *)
Record soption := SOption { so_value : jsval; so_name : string }.

(** A row: the number in its ids ([row3], [checkbox3], ...) and its inputs. *)
Record crow := CRow {
  cr_number : Z;
  cr_checked : bool;
  cr_fields : list soption;
  cr_criteria : list soption;
  cr_value : string
}.

(** [Search.rowcount], the rows of [container] in order, and the dialogs shown. *)
Record search := Search { rowcount : Z; rows : list crow; s_log : list effect }.

(** The arrays of the page. *)
Record arrays := Arrays {
  fieldArray : list string;
  tablefieldArray : list string;
  criteriaArray : list string;
  criteriaValueArray : list string
}.

(** ** Operations *)

(** [Search.createOption]: the options that are appended to the list. *)
Definition createOption (valueArray tablefieldarray : list string) : list soption :=
  imap (fun i name => SOption (match tablefieldarray !! i with Some v => JStr v | None => Undefined end) name) valueArray.

(** [Search.addCriteria] *)
Definition addCriteria (a : arrays) (s : search) : search :=
  let n := rowcount s + 1 in
  Search n
    (rows s ++ [CRow n false (createOption (fieldArray a) (tablefieldArray a))
                  (createOption (criteriaArray a) (criteriaValueArray a)) ""])
    (s_log s).

(** [document.getElementById('checkbox' + i)], the first in the document. *)
Definition find_row (i : Z) (l : list crow) : option nat := fst <$> list_find (fun r => cr_number r = i) l.

(** One round of the loop of [removeCriteria]: the rows, and [atleastOneRowFound]. *)
Definition remove_step (i : Z) (acc : list crow * bool) : list crow * bool :=
  let '(l, found) := acc in
  match find_row i l with
  | Some k =>
      match l !! k with
      | Some r => if cr_checked r then (delete k l, true) else (l, found)
      | None => (l, found)
      end
  | None => (l, found)
  end.

(** [Search.removeCriteria] *)
Definition removeCriteria (s : search) : search :=
  let '(l, found) := foldl (fun acc i => remove_step i acc) (rows s, false) (range 2 (Z.to_nat (rowcount s - 1))) in
  Search (rowcount s) l
    (if found then s_log s else s_log s ++ [Alert " Please select the criteria to removed."]).

(** [Search.changeIndex], on the elements of the page as pairs of id and name; both
    branches for the browsers do the same.  Nothing calls it. *)
Fixpoint changeIndex (objPrefix prevId newId : string) (els : list (string * string)) : list (string * string) :=
  match els with
  | [] => []
  | e :: els =>
      if String.eqb (fst e) (objPrefix +++ prevId)
      then (objPrefix +++ newId, if indexOf objPrefix "div" <? 0 then objPrefix +++ newId else snd e) :: els
      else e :: changeIndex objPrefix prevId newId els
  end.

(** What the user does in between. *)
Definition edit_row (f : crow -> crow) (k : nat) (s : search) : search :=
  Search (rowcount s) (alter f k (rows s)) (s_log s).

(** ** Row numbers *)

(** The numbers are different, and from 1 (the row of the page itself) to [rowcount]. *)
Record rows_ok (s : search) : Prop := RowsOk {
  ro_nodup : NoDup (cr_number <$> rows s);
  ro_range : Forall (fun r => 1 <= cr_number r <= rowcount s) (rows s)
}.

Definition drops (i : Z) (r : crow) : Prop := cr_number r = i /\ cr_checked r = true.
#[export] Instance drops_dec i r : Decision (drops i r).
Proof. unfold drops. apply _. Defined.

Lemma filter_all {A} (P : A -> Prop) `{forall a, Decision (P a)} (l : list A) :
  (forall a, a ∈ l -> P a) -> base.filter P l = l.
Proof.
  induction l as [|a l IH]; intros Hl; [done|].
  rewrite filter_cons_True by (apply Hl; by constructor). f_equal. apply IH. intros b Hb. apply Hl. by constructor.
Qed.

Lemma filter_ext_in {A} (P Q : A -> Prop) `{forall a, Decision (P a)} `{forall a, Decision (Q a)} (l : list A) :
  (forall a, a ∈ l -> P a <-> Q a) -> base.filter P l = base.filter Q l.
Proof.
  induction l as [|a l IH]; intros Hl; [done|].
  assert (Ha : P a <-> Q a) by (apply Hl; by constructor).
  assert (Hl' : base.filter P l = base.filter Q l) by (apply IH; intros b Hb; apply Hl; by constructor).
  destruct (decide (P a)) as [Hp|Hp].
  - rewrite (filter_cons_True P), (filter_cons_True Q) by tauto. by rewrite Hl'.
  - by rewrite (filter_cons_False P), (filter_cons_False Q) by tauto.
Qed.

Lemma find_row_cons i r l :
  find_row i (r :: l) = if decide (cr_number r = i) then Some 0%nat else S <$> find_row i l.
Proof.
  unfold find_row. cbn [list_find]. destruct (decide (cr_number r = i)); [done|].
  by destruct (list_find _ l) as [[k r']|].
Qed.

(** Removing row [i] from the rows, when it is checked. *)
Lemma remove_step_spec i l found :
  NoDup (cr_number <$> l) ->
  remove_step i (l, found) =
  (base.filter (fun r => ~ drops i r) l, found || bool_decide (Exists (drops i) l)).
Proof.
  intros Hnd. unfold remove_step.
  induction l as [|r l IH].
  { rewrite bool_decide_eq_false_2, orb_false_r by (intros Hx; inv Hx). done. }
  cbn [fmap list_fmap] in Hnd. apply NoDup_cons in Hnd as [Hr Hnd]. rewrite find_row_cons.
  destruct (decide (cr_number r = i)) as [E|E].
  - assert (Hrest : forall r', r' ∈ l -> ~ drops i r').
    { intros r' Hr' [E' _]. apply Hr. apply list_elem_of_fmap. exists r'. split; [congruence|done]. }
    cbn [lookup list_lookup]. destruct (cr_checked r) eqn:Ec.
    + rewrite filter_cons_False by (intros Hx; by apply Hx). rewrite filter_all by done.
      rewrite bool_decide_eq_true_2 by (left; done). by rewrite orb_true_r.
    + rewrite filter_cons_True by (intros [_ Hx]; congruence). rewrite filter_all by done.
      rewrite bool_decide_eq_false_2, orb_false_r; [done|]. intros Hx. apply Exists_cons in Hx as [[_ Hx']|Hx']; [congruence|].
      apply Exists_exists in Hx' as (r' & Hr' & Hd). by apply (Hrest r').
  - specialize (IH Hnd). rewrite filter_cons_True by (intros [Hx _]; congruence).
    assert (bool_decide (Exists (drops i) (r :: l)) = bool_decide (Exists (drops i) l)) as ->.
    { apply bool_decide_ext. split; [intros [[Hx' _]|Hx']%Exists_cons; [congruence|done]|by right]. }
    destruct (find_row i l) as [k|]; cbn [fmap option_fmap option_map].
    + change ((r :: l) !! S k) with (l !! k). destruct (l !! k) as [r'|]; [destruct (cr_checked r')|];
        cbn [delete list_delete]; injection IH as IH1 IH2; by rewrite <- IH1, <- IH2.
    + injection IH as IH1 IH2. by rewrite <- IH1, <- IH2.
Qed.

(** The rows that the loop over [ns] takes away. *)
Definition dropped (ns : list Z) (r : crow) : Prop := cr_number r ∈ ns /\ cr_checked r = true.
#[export] Instance dropped_dec ns r : Decision (dropped ns r).
Proof. unfold dropped. apply _. Defined.

Lemma NoDup_filter_numbers (P : crow -> Prop) `{forall r, Decision (P r)} l :
  NoDup (cr_number <$> l) -> NoDup (cr_number <$> base.filter P l).
Proof.
  induction l as [|r l IH]; intros Hnd; [done|]. cbn [fmap list_fmap] in Hnd. apply NoDup_cons in Hnd as [Hr Hnd].
  destruct (decide (P r)) as [Hp|Hp]; [rewrite filter_cons_True by done|rewrite filter_cons_False by done; by apply IH].
  cbn [fmap list_fmap]. apply NoDup_cons. split; [|by apply IH]. intros Hin. apply Hr.
  apply list_elem_of_fmap in Hin as (r' & E & Hin). apply list_elem_of_filter in Hin as [_ Hin].
  apply list_elem_of_fmap. by exists r'.
Qed.

Lemma remove_loop ns : forall l found,
  NoDup (cr_number <$> l) ->
  foldl (fun acc i => remove_step i acc) (l, found) ns =
  (base.filter (fun r => ~ dropped ns r) l, found || bool_decide (Exists (dropped ns) l)).
Proof.
  induction ns as [|i ns IH]; intros l found Hnd; cbn [foldl].
  - rewrite filter_all by (intros r _ [Hx _]; by apply elem_of_nil in Hx).
    rewrite bool_decide_eq_false_2, orb_false_r; [done|]. intros Hx. apply Exists_exists in Hx as (r & _ & Hx & _).
    by apply elem_of_nil in Hx.
  - rewrite remove_step_spec by done. rewrite IH by by apply NoDup_filter_numbers. f_equal.
    + rewrite list_filter_filter. apply list_filter_iff. intros r. unfold dropped, drops. rewrite elem_of_cons. tauto.
    + rewrite <- orb_assoc. f_equal. apply Bool.eq_iff_eq_true.
      rewrite orb_true_iff, !bool_decide_eq_true, !Exists_exists. unfold dropped, drops.
      setoid_rewrite list_elem_of_filter. setoid_rewrite elem_of_cons.
      split.
      * intros [(r & ? & ? & ?)|(r & [? ?] & ? & ?)]; exists r; tauto.
      * intros (r & Hr & [E|Hin] & Hc); [left; by exists r|].
        destruct (decide (cr_number r = i)); [left; by exists r|right; exists r; tauto].
Qed.

(** ** Properties *)

(** [removeCriteria] removes exactly the checked rows, except the row of the page
    itself, and keeps the order of the others; it shows a message exactly when there
    was nothing to remove, and never changes [rowcount], so that the numbers of
    removed rows are not used again. *)
Theorem removeCriteria_spec s :
  rows_ok s ->
  let gone := fun r => 2 <= cr_number r /\ cr_checked r = true in
  rows (removeCriteria s) = base.filter (fun r => ~ gone r) (rows s) /\
  rowcount (removeCriteria s) = rowcount s /\ rows_ok (removeCriteria s) /\
  ((exists r, r ∈ rows s /\ gone r) -> s_log (removeCriteria s) = s_log s) /\
  (~ (exists r, r ∈ rows s /\ gone r) ->
   rows (removeCriteria s) = rows s /\
   s_log (removeCriteria s) = s_log s ++ [Alert " Please select the criteria to removed."]).
Proof.
  intros [Hnd Hr] gone.
  assert (Hext : forall r, r ∈ rows s -> dropped (range 2 (Z.to_nat (rowcount s - 1))) r <-> gone r).
  { intros r Hin. rewrite Forall_forall in Hr. specialize (Hr r Hin). unfold dropped, gone. rewrite range_in. intuition lia. }
  set (found := bool_decide (Exists (dropped (range 2 (Z.to_nat (rowcount s - 1)))) (rows s))).
  assert (E : removeCriteria s = Search (rowcount s) (base.filter (fun r => ~ gone r) (rows s))
     (if found then s_log s else s_log s ++ [Alert " Please select the criteria to removed."])).
  { unfold removeCriteria. rewrite remove_loop by done. cbn [orb]. f_equal. apply filter_ext_in.
    intros r Hin. by rewrite Hext. }
  assert (Hf : found = true <-> exists r, r ∈ rows s /\ gone r).
  { unfold found. rewrite bool_decide_eq_true, Exists_exists.
    split; intros (r & Hin & Hg); exists r; (split; [done|]); by apply Hext. }
  rewrite E. cbn [rows rowcount s_log]. split; [done|]. split; [done|]. split.
  { constructor; cbn [rows rowcount]; [by apply NoDup_filter_numbers|].
    rewrite Forall_forall in Hr |- *. intros r [_ Hin]%list_elem_of_filter. by apply Hr. }
  split; [by intros ->%Hf|]. intros Hn. split.
  - apply filter_all. intros r Hin Hg. apply Hn. by exists r.
  - destruct found; [|done]. by destruct Hn; apply Hf.
Qed.

(** Adding a row keeps the numbers different: the new row is the last one, has the
    next number, is not checked and offers, option by option, the fields and the
    criteria of the page. *)
Theorem addCriteria_spec a s :
  rows_ok s -> 0 <= rowcount s ->
  exists r, rows (addCriteria a s) = rows s ++ [r] /\ cr_number r = rowcount s + 1 /\ cr_checked r = false /\
    rowcount (addCriteria a s) = rowcount s + 1 /\ rows_ok (addCriteria a s) /\
    (forall i f v, fieldArray a !! i = Some f -> tablefieldArray a !! i = Some v ->
       cr_fields r !! i = Some (SOption (JStr v) f)).
Proof.
  intros [Hnd Hr] Hc. eexists. split; [reflexivity|]. do 3 (split; [done|]). split.
  - constructor; cbn [rows rowcount addCriteria].
    + rewrite fmap_app. apply NoDup_app. split; [done|]. split; [|by apply NoDup_singleton].
      intros n Hn [E|E]%elem_of_cons; [|by apply elem_of_nil in E].
      apply list_elem_of_fmap in Hn as (r & E' & Hin). rewrite Forall_forall in Hr. specialize (Hr r Hin). cbn in E. lia.
    + apply Forall_app. split; [eapply Forall_impl; [exact Hr|intros r; cbn; lia]|].
      constructor; [cbn; lia|constructor].
  - intros i f v Hf Hv. cbn. unfold createOption. rewrite list_lookup_imap, Hf. cbn. by rewrite Hv.
Qed.

Definition demo_search : search :=
  Search 4 [CRow 1 true [] [] ""; CRow 3 true [] [] "a"; CRow 4 false [] [] "b"] [].
Lemma demo_rows_ok : rows_ok demo_search.
Proof. constructor; [apply (bool_decide_unpack _); vm_compute; exact I|repeat (constructor; [cbn; lia|]); constructor]. Qed.

Lemma removeCriteria_spec_witness :
  rows (removeCriteria demo_search) = [CRow 1 true [] [] ""; CRow 4 false [] [] "b"] /\
  rowcount (removeCriteria demo_search) = 4.
Proof.
  split; [vm_compute; reflexivity|]. exact (proj1 (proj2 (removeCriteria_spec demo_search demo_rows_ok))).
Defined.
Lemma addCriteria_spec_witness :
  rows_ok (addCriteria (Arrays ["User"] ["username"] ["is"] ["="]) demo_search).
Proof.
  destruct (addCriteria_spec (Arrays ["User"] ["username"] ["is"] ["="]) demo_search demo_rows_ok ltac:(cbn; lia))
    as (r & _ & _ & _ & _ & H & _). exact H.
Defined.
