(* ===== verification/Script.v ===== *)
(** * Scripts over the state of one component
    The scripts of table.js, combo.js and popup.js work on the elements of one
    widget.  A widget is a record; a handler is a function of the monad [Sc S]: it
    ends with a value, throws, or does not end within its fuel.  What it did
    before it threw stays done, as in the language. *)
From Stdlib Require Import QArith.
From S2P Require Import Prelude JsString JsNum JsVal.
Open Scope Z_scope.

Inductive outcome (A : Type) :=
| Done (a : A)
| Threw            (** an exception *)
| OutOfFuel.       (** the fuel was not enough *)
Arguments Done {A} _.
Arguments Threw {A}.
Arguments OutOfFuel {A}.

Definition Sc (S A : Type) : Type := S -> outcome A * S.

#[export] Instance Sc_ret {S} : MRet (Sc S) := fun A a s => (Done a, s).
#[export] Instance Sc_bind {S} : MBind (Sc S) := fun A B f m s =>
  match m s with
  | (Done a, s') => f a s'
  | (Threw, s') => (Threw, s')
  | (OutOfFuel, s') => (OutOfFuel, s')
  end.

Section scripts.
Context {S : Type}.

Definition raise {A} : Sc S A := fun s => (Threw, s).
Definition no_fuel {A} : Sc S A := fun s => (OutOfFuel, s).
Definition get : Sc S S := fun s => (Done s, s).
Definition reads {A} (f : S -> A) : Sc S A := fun s => (Done (f s), s).
Definition modify (f : S -> S) : Sc S unit := fun s => (Done tt, f s).
(** A property of a value that must not be [null] or [undefined]. *)
Definition needed {A} (o : option A) : Sc S A := match o with Some a => mret a | None => raise end.
Definition cond (b : bool) (m : Sc S unit) : Sc S unit := if b then m else mret tt.

(** [for (x of l) f(x)] *)
Fixpoint for_each {A} (f : A -> Sc S unit) (l : list A) : Sc S unit :=
  match l with [] => mret tt | a :: l => mbind (fun _ => for_each f l) (f a) end.

Lemma bind_done {A B} (m : Sc S A) (k : A -> Sc S B) s a s' :
  m s = (Done a, s') -> (m ≫= k) s = k a s'.
Proof. unfold mbind, Sc_bind. by intros ->. Qed.

Lemma bind_threw {A B} (m : Sc S A) (k : A -> Sc S B) s s' :
  m s = (Threw, s') -> (m ≫= k) s = (Threw, s').
Proof. unfold mbind, Sc_bind. by intros ->. Qed.

Lemma bind_no_fuel {A B} (m : Sc S A) (k : A -> Sc S B) s s' :
  m s = (OutOfFuel, s') -> (m ≫= k) s = (OutOfFuel, s').
Proof. unfold mbind, Sc_bind. by intros ->. Qed.

Lemma bind_reads {A B} (f : S -> A) (k : A -> Sc S B) s : (reads f ≫= k) s = k (f s) s.
Proof. done. Qed.

Lemma bind_modify {B} f (k : unit -> Sc S B) s : (modify f ≫= k) s = k tt (f s).
Proof. done. Qed.

Lemma bind_needed {A B} (a : A) (k : A -> Sc S B) s : (needed (Some a) ≫= k) s = k a s.
Proof. done. Qed.

Lemma bind_ret {A B} (a : A) (k : A -> Sc S B) s : ((mret a : Sc S A) ≫= k) s = k a s.
Proof. done. Qed.

(** A loop whose rounds all keep [P] and end ends and keeps [P]. *)
Lemma for_each_inv {A} (P : S -> Prop) (f : A -> Sc S unit) l s :
  (forall a s, a ∈ l -> P s -> exists s', f a s = (Done tt, s') /\ P s') ->
  P s -> exists s', for_each f l s = (Done tt, s') /\ P s'.
Proof.
  revert s. induction l as [|a l IH]; intros s Hf Hs; [by exists s|]. cbn [for_each].
  destruct (Hf a s) as (s1 & E & H1); [by left|done|]. rewrite (bind_done _ _ _ _ _ E).
  apply IH; [|done]. intros a' s' Ha'. apply Hf. by right.
Qed.
End scripts.

(** ** Invariants
    [keeps I m]: the script keeps [I], however it ends. *)
Definition keeps {S A} (I : S -> Prop) (m : Sc S A) : Prop := forall s, I s -> I (snd (m s)).

Section keeps.
Context {S : Type} (I : S -> Prop).

Lemma keeps_bind {A B} (m : Sc S A) (k : A -> Sc S B) :
  keeps I m -> (forall a, keeps I (k a)) -> keeps I (m ≫= k).
Proof.
  intros Hm Hk s Hs. unfold mbind, Sc_bind. specialize (Hm s Hs). destruct (m s) as [[a| |] s']; cbn in *; [|done|done].
  by apply Hk.
Qed.

Lemma keeps_ret {A} (a : A) : keeps I (mret a).
Proof. by intros s Hs. Qed.
Lemma keeps_raise {A} : keeps I (@raise S A).
Proof. by intros s Hs. Qed.
Lemma keeps_no_fuel {A} : keeps I (@no_fuel S A).
Proof. by intros s Hs. Qed.
Lemma keeps_get : keeps I get.
Proof. by intros s Hs. Qed.
Lemma keeps_reads {A} (f : S -> A) : keeps I (reads f).
Proof. by intros s Hs. Qed.
Lemma keeps_needed {A} (o : option A) : keeps I (needed o).
Proof. destruct o; by intros s Hs. Qed.
Lemma keeps_modify f : (forall s, I s -> I (f s)) -> keeps I (modify f).
Proof. intros Hf s Hs. by apply Hf. Qed.
Lemma keeps_cond b m : keeps I m -> keeps I (cond b m).
Proof. destruct b; [done|]. intros _. apply keeps_ret. Qed.
Lemma keeps_if {A} (b : bool) (m1 m2 : Sc S A) : keeps I m1 -> keeps I m2 -> keeps I (if b then m1 else m2).
Proof. by destruct b. Qed.
End keeps.
#[export] Hint Resolve keeps_bind keeps_ret keeps_raise keeps_no_fuel keeps_get keeps_reads keeps_needed keeps_modify
  keeps_cond keeps_if : js.

(** Goes through the commands of a script. *)
Ltac keeps_script :=
  repeat first
    [ apply keeps_ret | apply keeps_raise | apply keeps_no_fuel | apply keeps_get | apply keeps_reads
    | apply keeps_needed | solve [auto with js] | apply keeps_bind; [|intros ?] | apply keeps_cond | apply keeps_if
    | match goal with |- keeps _ (match ?x with _ => _ end) => destruct x end ].

(** Runs the first command of a script whose outcome is known. *)
Ltac sc_step :=
  first [ rewrite bind_reads | rewrite bind_modify | rewrite bind_needed | rewrite bind_ret
        | erewrite bind_done by (cbn; reflexivity) ].

(** Runs the commands of a script on a state whose parts are known. *)
Ltac sc_run :=
  cbv beta iota zeta delta [mbind Sc_bind mret Sc_ret modify get reads needed raise no_fuel cond negb].

(** A part of an array of strings as a number and as a text; [None] is [undefined]. *)
Definition field_num (o : option string) : num := match o with Some s => toNumber s | None => NaN end.
Definition field_text (o : option string) : string := default "undefined" o.

(** ** Drop-down lists *)
Record select := Select { options : list string; selectedIndex : Z }.

(** The value of the list is that of the selected option. *)
Definition sel_value (s : select) : string :=
  if selectedIndex s <? 0 then "" else default "" (options s !! Z.to_nat (selectedIndex s)).
(** [s.options[s.selectedIndex]]; [None] is [undefined]. *)
Definition sel_option (s : select) : option string :=
  if selectedIndex s <? 0 then None else options s !! Z.to_nat (selectedIndex s).
(** [s.options.add(opt)]: the first option of a drop-down list becomes the selected one. *)
Definition add_option (o : string) (s : select) : select :=
  match options s with
  | [] => Select [o] 0
  | _ => Select (options s ++ [o]) (selectedIndex s)
  end.
(** [s.remove(0)] *)
Definition remove_first (s : select) : select :=
  match options s with
  | [] => s
  | _ :: l => Select l (match l with [] => -1 | _ => Z.max 0 (selectedIndex s - 1) end)
  end.
(** The page's [<select>] with these options. *)
Definition new_select (l : list string) : select :=
  Select l (match l with [] => -1 | _ => 0 end).

Lemma sel_option_value s o : sel_option s = Some o -> sel_value s = o.
Proof. unfold sel_option, sel_value. case_if; [done|]. by intros ->. Qed.

Lemma add_options l s :
  options s <> [] -> fold_left (fun s o => add_option o s) l s = Select (options s ++ l) (selectedIndex s).
Proof.
  revert s. induction l as [|o l IH]; intros [[|a k] i] H; cbn; [done| |done|].
  - by rewrite app_nil_r.
  - rewrite IH by done. cbn. by rewrite <- app_assoc.
Qed.

Lemma add_options_new l : fold_left (fun s o => add_option o s) l (Select [] (-1)) = new_select l.
Proof. destruct l as [|o l]; [done|]. cbn [fold_left add_option options]. by rewrite add_options. Qed.
