(* ===== verification/Table.v ===== *)
(** * The report table (table.js)
    One table [id] of a page: its rows, the lists of page sizes and of pages, and the
    hidden fields of its markup.  The rows are those of the table's head and body; an
    element is found by its id, so what a script compares with an element is the
    position of the first row with that id. *)
From Stdlib Require Import QArith.
From S2P Require Import Prelude JsString JsNum JsVal Ui Dom PopupForm Script.
Open Scope Z_scope.

Record tcell := TCell { c_html : string; c_title : string; c_align : string; c_class : string; c_span : option string }.
Record trow := TRow { r_id : string; r_class : string; r_cells : list tcell }.
Record heading := Heading { h_align : string; h_html : string }.

Record table := Table {
  t_nevi : bool;                 (** the element of class TableNevi was made *)
  t_tablerow : option string;    (** [tablerow<id>]: number of lines *)
  t_size : option select;        (** [size<id>] *)
  t_page : option select;        (** [page<id>] *)
  t_hide : option string;        (** text of [tableHide<id>] *)
  t_totalCol : string;
  t_lastpage : string;
  t_pageSize : string;
  t_thead : list heading;        (** [thead<id>_<n>] *)
  t_head : list trow;             (** rows of the head *)
  t_body : list trow;             (** rows of the body *)
  t_visibility : string;
  t_position : string;
  t_height : string;
  t_body_height : string;
  t_width : string;
  t_scroll : num;
  t_body_scroll : num;
  t_alerts : list string
}.

Abbreviation T := (Sc table).

Definition set_nevi tr sz pg hd (t : table) : table :=
  Table (t_nevi t) tr sz pg hd (t_totalCol t) (t_lastpage t) (t_pageSize t) (t_thead t) (t_head t) (t_body t)
    (t_visibility t) (t_position t) (t_height t) (t_body_height t) (t_width t) (t_scroll t) (t_body_scroll t) (t_alerts t).
Definition set_page (p : option select) (t : table) : table :=
  set_nevi (t_tablerow t) (t_size t) p (t_hide t) t.
Definition set_hide (h : string) (t : table) : table :=
  set_nevi (t_tablerow t) (t_size t) (t_page t) (Some h) t.
Definition set_fields tot last psize (t : table) : table :=
  Table (t_nevi t) (t_tablerow t) (t_size t) (t_page t) (t_hide t) tot last psize (t_thead t) (t_head t) (t_body t)
    (t_visibility t) (t_position t) (t_height t) (t_body_height t) (t_width t) (t_scroll t) (t_body_scroll t) (t_alerts t).
Definition set_trows (h b : list trow) (t : table) : table :=
  Table (t_nevi t) (t_tablerow t) (t_size t) (t_page t) (t_hide t) (t_totalCol t) (t_lastpage t) (t_pageSize t) (t_thead t) h b
    (t_visibility t) (t_position t) (t_height t) (t_body_height t) (t_width t) (t_scroll t) (t_body_scroll t) (t_alerts t).
Definition set_shown (v p : string) (t : table) : table :=
  Table (t_nevi t) (t_tablerow t) (t_size t) (t_page t) (t_hide t) (t_totalCol t) (t_lastpage t) (t_pageSize t) (t_thead t) (t_head t) (t_body t)
    v p (t_height t) (t_body_height t) (t_width t) (t_scroll t) (t_body_scroll t) (t_alerts t).
Definition set_sizes (h bh w : string) (t : table) : table :=
  Table (t_nevi t) (t_tablerow t) (t_size t) (t_page t) (t_hide t) (t_totalCol t) (t_lastpage t) (t_pageSize t) (t_thead t) (t_head t) (t_body t)
    (t_visibility t) (t_position t) h bh w (t_scroll t) (t_body_scroll t) (t_alerts t).
Definition set_scrolls (s bs : num) (t : table) : table :=
  Table (t_nevi t) (t_tablerow t) (t_size t) (t_page t) (t_hide t) (t_totalCol t) (t_lastpage t) (t_pageSize t) (t_thead t) (t_head t) (t_body t)
    (t_visibility t) (t_position t) (t_height t) (t_body_height t) (t_width t) s bs (t_alerts t).
Definition say (m : string) (t : table) : table :=
  Table (t_nevi t) (t_tablerow t) (t_size t) (t_page t) (t_hide t) (t_totalCol t) (t_lastpage t) (t_pageSize t) (t_thead t) (t_head t) (t_body t)
    (t_visibility t) (t_position t) (t_height t) (t_body_height t) (t_width t) (t_scroll t) (t_body_scroll t) (t_alerts t ++ [m]).

(** ** Rows *)
Definition all_rows (t : table) : list trow := t_head t ++ t_body t.

(** Position of the first row with this id; the number of rows when there is none. *)
Fixpoint row_pos (i : string) (l : list trow) : nat :=
  match l with
  | [] => O
  | r :: l => if String.eqb (r_id r) i then O else S (row_pos i l)
  end.
Definition has_row (i : string) (t : table) : bool := existsb (fun r => String.eqb (r_id r) i) (all_rows t).

(** [table.insertRow(n)]: the new row comes before row [n], in the same part of the
    table; at the end it joins the last row.  Throws when there are fewer rows. *)
Definition insertRow (n : Z) (r : trow) : T unit := fun t =>
  let nh := length (t_head t) in
  if (n <? 0) || (Z.of_nat (length (all_rows t)) <? n) then (Threw, t)
  else
    let k := Z.to_nat n in
    if (k <? nh)%nat || ((k =? nh)%nat && bool_decide (t_body t = []))
    then (Done tt, set_trows (take k (t_head t) ++ r :: drop k (t_head t)) (t_body t) t)
    else (Done tt, set_trows (t_head t) (take (k - nh) (t_body t) ++ r :: drop (k - nh) (t_body t)) t).

(** [table.deleteRow(n)] *)
Definition deleteRow (n : Z) : T unit := fun t =>
  let nh := length (t_head t) in
  if (n <? 0) || (Z.of_nat (length (all_rows t)) <=? n) then (Threw, t)
  else
    let k := Z.to_nat n in
    if (k <? nh)%nat then (Done tt, set_trows (take k (t_head t) ++ drop (S k) (t_head t)) (t_body t) t)
    else (Done tt, set_trows (t_head t) (take (k - nh) (t_body t) ++ drop (S (k - nh)) (t_body t)) t).

(** Changes the row with this id. *)
Fixpoint on_row (i : string) (f : trow -> trow) (l : list trow) : list trow :=
  match l with
  | [] => []
  | r :: l => if String.eqb (r_id r) i then f r :: l else r :: on_row i f l
  end.

Definition empty_row : trow := TRow "" "" [].

(** The fields of a record: text, alignment, title. *)
Definition fields (s : string) : list string := js_split s "||".

Section table.
Context `{Browser} `{Window}.
(** The table's id, and the page's function that fetches the records of a page
    ([None]: it returned 0). *)
Context (id : string) (getRecord : string -> string -> option (list (list string))).

Definition uses (name : string) : bool := contains userAgent name.
Definition line_id (n : num) : string := "Line" +++ id +++ "_" +++ str n.
Definition headRow_id : string := "headRow" +++ id.

(** ** The bar above the table *)

(** [for(i=1; i<line/size; i++)] writes one option per round; afterwards [i]. *)
Fixpoint page_loop (fuel : nat) (i : Z) (bound : num) : option (list string * Z) :=
  if num_ltb (num_of_Z i) bound then
    match fuel with
    | O => None
    | S fuel =>
        r ← page_loop fuel (i + 1) bound; Some (Z_to_string i :: fst r, snd r)
    end
  else Some ([], i).

(** The numbers in the list of pages: those of the loop, and one more when the last
    page is not full. *)
Definition page_numbers (fuel : nat) (line size : num) : option (list string) :=
  r ← page_loop fuel 1 (num_div line size);
  Some (if num_eqb (num_mod line size) (num_of_Z 0) then fst r else fst r ++ [Z_to_string (snd r)]).

Definition setTableNevi (fuel : nat) (pageList : option (list Z)) (line : Z) (hide : bool) : T unit :=
  t ← get;
  cond (t_nevi t) (
    lists ← match pageList with
            | Some (p :: l) =>
                if 0 <? p then
                  match page_numbers fuel (num_of_Z line) (num_of_Z p) with
                  | Some pages => mret (Some (new_select (map Z_to_string (p :: l))), Some (new_select pages))
                  | None => no_fuel
                  end
                else mret (None, None)
            | _ => mret (None, None)
            end;
    modify (set_nevi (Some (Z_to_string line)) (fst lists) (snd lists) (if hide then Some "[Hide]" else None))) ;;;
  cond (negb (uses "MSIE") && negb (t_nevi t)) raise.

Definition hideTable : T unit :=
  t ← get;
  if String.eqb (t_position t) "relative" then
    modify (set_shown "hidden" "absolute") ;;;
    _ ← needed (t_hide t);
    modify (set_hide "[Hide]")
  else
    modify (set_shown "" "relative") ;;;
    _ ← needed (t_hide t);
    modify (set_hide "[Show]").

(** ** Headings *)
Definition align_of (rec : list string) : string :=
  if num_eqb (field_num (rec !! 1%nat)) (num_of_Z 0) then "center"
  else if num_eqb (field_num (rec !! 1%nat)) (num_of_Z 1) then "left" else "right".

(** Internet Explorer counts one element more in an array literal that ends in a comma. *)
Definition array_length {A} (l : list A) : Z :=
  if uses "MSIE" then Z.of_nat (length l) - 1 else Z.of_nat (length l).

Definition heading_of (s : string) : heading :=
  Heading (align_of (fields s)) (field_text (fields s !! 0%nat)).

Definition setTableHeader (headList : list string) : T unit := modify (fun t =>
  let heads := map heading_of (take (Z.to_nat (array_length headList)) headList) in
  Table true (t_tablerow t) (t_size t) (t_page t) (t_hide t)
    (Z_to_string (Z.of_nat (length headList))) "1" "" heads
    [TRow "" "" (map (fun h => TCell (h_html h) "" (h_align h) "" None) heads)] [empty_row]
    (t_visibility t) "relative" (t_height t) (t_body_height t) (t_width t) (t_scroll t) (t_body_scroll t) (t_alerts t)).

(** ** Sizes *)
Definition setTableHeight (height : num) : T unit :=
  modify (fun t => set_sizes (str height +++ "px") (t_body_height t) (t_width t) t) ;;;
  cond (negb (String.eqb appName "Microsoft Internet Explorer"))
    (modify (fun t => set_sizes (t_height t) (str (num_sub height (num_of_Z 40)) +++ "px") (t_width t) t)).

Definition setTableWidth (width : num) : T unit :=
  modify (fun t => set_sizes (t_height t) (t_body_height t) (str width +++ "px") t).

Definition height_of (row : num) : num :=
  if uses "Chrome" || uses "Safari" then num_add (num_mul row (num_of_Z 19)) (num_of_Z 22)
  else if uses "MSIE" then num_add (num_mul row (num_of_Z 18)) (num_of_Z 22)
  else num_add (num_mul row (num_of_Z 19)) (num_of_Z 41).

(** [for(; page.options.length > 0;) page.remove(page.options[0].index)] *)
Fixpoint clear_options (fuel : nat) (s : select) : option select :=
  match options s with
  | [] => Some s
  | _ => match fuel with O => None | S fuel => clear_options fuel (remove_first s) end
  end.

Definition setTableHeightByPage (fuel : nat) (row : num) : T unit :=
  setTableHeight (height_of row) ;;;
  modify (fun t => set_fields (t_totalCol t) (t_lastpage t) (str row) t) ;;;
  t ← get;
  match t_page t with
  | None => mret tt
  | Some page =>
      match clear_options (length (options page)) page with
      | None => no_fuel
      | Some page0 =>
          modify (set_page (Some page0)) ;;;
          trow ← needed (t_tablerow t);
          match page_numbers fuel (toNumber trow) row with
          | None => no_fuel
          | Some pages => modify (set_page (Some (fold_left (fun s o => add_option o s) pages page0)))
          end
      end
  end.

(** ** Paging *)

(** The value of the list of pages, [1] without the list; throws when no page is selected. *)
Definition page_value : T string :=
  t ← get;
  match t_page t with None => mret "1" | Some page => needed (sel_option page) end.

Definition is_one (v : string) : bool := num_eqb (toNumber v) (num_of_Z 1).

(** Chrome shows the headings again in front of a page. *)
Definition removeHeader : T unit :=
  t ← get;
  cond (negb (is_one (t_lastpage t))) (deleteRow (Z.of_nat (row_pos headRow_id (all_rows t)))).

(** [for(j=0; j<totalCol; j++)]: a copy of the headings; throws when one is missing. *)
Fixpoint heading_cells (n : num) (j : Z) (l : list heading) : option (list tcell) :=
  if num_ltb (num_of_Z j) n then
    match l with
    | [] => None
    | h :: l => r ← heading_cells n (j + 1) l; Some (TCell (h_html h) "" "" "tdhead" None :: r)
    end
  else Some [].

Definition scroll_of (row : Z) : Z :=
  if uses "MSIE" then (row - 1) * 18
  else if uses "Chrome" then row * 19 + 5
  else (row - 1) * 19.

Definition goTablePage (record_no : num) : T unit :=
  pageValue ← page_value;
  t ← get;
  let row := Z.of_nat (row_pos (line_id record_no) (all_rows t)) in
  cond (uses "Chrome" && negb (is_one pageValue)) (
    insertRow row (TRow headRow_id "" []) ;;;
    match heading_cells (toNumber (t_totalCol t)) 0 (t_thead t) with
    | None => raise
    | Some cells =>
        modify (fun t => set_trows (on_row headRow_id (fun r => TRow (r_id r) (r_class r) cells) (t_head t))
                                  (on_row headRow_id (fun r => TRow (r_id r) (r_class r) cells) (t_body t)) t)
    end) ;;;
  modify (fun t => if uses "Firefox" then set_scrolls (t_scroll t) (num_of_Z (scroll_of row)) t
                   else set_scrolls (num_of_Z (scroll_of row)) (t_body_scroll t) t).

(** [for(i=rowid; i>0; i=i-sizeValue) if(...) break;] *)
Fixpoint find_line (fuel : nat) (t : table) (i step : num) : option num :=
  if num_gtb i (num_of_Z 0) then
    if has_row (line_id i) t then Some i
    else match fuel with O => None | S fuel => find_line fuel t (num_sub i step) step end
  else Some i.

Definition cell_of (s : string) : tcell :=
  let rec := fields s in
  let a := field_num (rec !! 1%nat) in
  TCell (field_text (rec !! 0%nat)) (field_text (rec !! 2%nat))
    (if num_eqb a (num_of_Z 1) then "left" else if num_eqb a (num_of_Z 0) then "center" else "right")
    "tddata" None.

Definition record_cells (totCol : string) (r : list string) : list tcell :=
  let len := array_length r in
  if len =? 1 then
    [TCell (field_text (r !! 0%nat)) "" "center" "" (Some totCol)]
  else map cell_of (take (Z.to_nat len) r).

(** [for(i=0; i<sizeValue; i++)]: a row is inserted, then record [i] is read; the
    loop throws when there is no record [i], and leaves the empty row. *)
Fixpoint insert_records (size : num) (totCol : string) (at_ : option Z) (rowid : num) (i : Z)
    (record : list (list string)) : T unit :=
  if num_ltb (num_of_Z i) size then
    let pos := match at_ with Some n => n + i | None => 0 end in
    let cls := if Z.even i then "trdark" else "trlight" in
    match record with
    | [] => insertRow pos (TRow (line_id rowid) cls []) ;;; raise
    | r :: rest =>
        insertRow pos (TRow (line_id rowid) cls (record_cells totCol r)) ;;;
        insert_records size totCol at_ (num_add rowid (num_of_Z 1)) (i + 1) rest
    end
  else mret tt.

(** [data == 0] for an array is a comparison of its text with 0. *)
Definition equals_zero (data : list (list string)) : bool :=
  num_eqb (toNumber (join "," (map (join ",") data))) (num_of_Z 0).

Definition size_value (t : table) : T string :=
  match t_size t with Some size => needed (sel_option size) | None => mret (t_pageSize t) end.

(** [again] is the call of [findTableRecord] at the end. *)
Definition addTableRecord (fuel : nat) (again : T unit) (rowid : num) (record : list (list string)) : T unit :=
  pageValue ← page_value;
  t ← get;
  sizeValue ← size_value t;
  match find_line fuel t rowid (toNumber sizeValue) with
  | None => no_fuel
  | Some i =>
      let row := Z.of_nat (row_pos (line_id i) (all_rows t)) in
      let at_ := if negb (row =? 2) then n ← parseInt sizeValue; Some (row + n) else Some 1 in
      insert_records (toNumber sizeValue) (t_totalCol t) at_ rowid 0 record ;;;
      again
  end.

Fixpoint findTableRecord (fuel : nat) : T unit :=
  match fuel with
  | O => no_fuel
  | S fuel =>
      t ← get;
      record_no ← match t_size t with
                  | Some size =>
                      page ← needed (t_page t);
                      mret (num_mul (of_parse (parseInt (sel_value size)))
                                    (num_sub (of_parse (parseInt (sel_value page))) (num_of_Z 1)))
                  | None => mret (num_of_Z 1)
                  end;
      (if has_row (line_id record_no) t then
         cond (uses "Chrome") removeHeader ;;;
         goTablePage record_no
       else
         data ← match t_size t with
                | Some size => page ← needed (t_page t); mret (getRecord (sel_value size) (sel_value page))
                | None => mret (getRecord (t_pageSize t) "1")
                end;
         match data with
         | Some record =>
             if equals_zero record then modify (say "page not Found")
             else addTableRecord fuel (findTableRecord fuel) record_no record
         | None => modify (say "page not Found")
         end) ;;;
      t' ← get;
      match t_size t with
      | Some _ =>
          page ← needed (t_page t');
          modify (fun t => set_fields (t_totalCol t) (sel_value page) (t_pageSize t) t)
      | None => mret tt
      end
  end.

(** [for(; row > 0; row--) elTable.deleteRow(1)] *)
Fixpoint delete_rows (n : nat) : T unit :=
  match n with O => mret tt | S n => deleteRow 1 ;;; delete_rows n end.

Definition setTableSize (fuel : nat) : T unit :=
  t ← get;
  obj ← needed (t_size t);
  v ← needed (sel_option obj);
  setTableHeightByPage fuel (of_parse (parseInt v)) ;;;
  (if uses "Firefox" then modify (fun t => set_trows (t_head t) [empty_row] t)
   else
     t ← get;
     delete_rows (length (all_rows t) - 2)) ;;;
  findTableRecord fuel.

(** The user chooses the [k]-th page of the list, whose handler is [findTableRecord]. *)
Definition choose_page (fuel : nat) (k : nat) : T unit :=
  modify (fun t => match t_page t with
                   | Some p => set_page (Some (Select (options p) (Z.of_nat k))) t
                   | None => t
                   end) ;;;
  findTableRecord fuel.
End table.

(** ** The list of pages *)
Section page_list.
Context `{Browser} `{Window}.

Lemma num_ltb_div j l s : 0 < s -> num_ltb (num_of_Z j) (num_div (num_of_Z l) (num_of_Z s)) = (j * s <? l).
Proof.
  intros Hs. unfold num_div, num_of_Z, num_ltb.
  replace (Q_is0 (inject_Z s)) with false by (unfold Q_is0; cbn; destruct s; done || lia).
  unfold fin, num_ltb. destruct (Qle_bool (Qred (inject_Z l / inject_Z s)) (inject_Z j)) eqn:E; symmetry; cbn [negb].
  - apply Z.ltb_ge. apply Qle_bool_iff in E. rewrite Qred_correct in E.
    apply (Qmult_le_compat_r _ _ (inject_Z s)) in E; [|apply (Qle_trans _ (inject_Z 0)); [done|rewrite <- Zle_Qle; lia]].
    rewrite Qmult_comm, Qmult_div_r in E by (unfold Qeq; cbn; lia).
    rewrite <- inject_Z_mult, <- Zle_Qle in E. lia.
  - apply Z.ltb_lt. apply not_true_iff_false in E. rewrite Qle_bool_iff, Qred_correct in E.
    apply Qnot_le_lt in E. apply (Qmult_lt_compat_r _ _ (inject_Z s)) in E;
      [|change 0%Q with (inject_Z 0); rewrite <- Zlt_Qlt; lia].
    rewrite (Qmult_comm (_ / _)), Qmult_div_r in E by (unfold Qeq; cbn; lia).
    rewrite <- inject_Z_mult, <- Zlt_Qlt in E. lia.
Qed.

Lemma page_loop_spec l s : 0 < s -> forall fuel i, 0 < i ->
  (Z.to_nat ((l - 1) / s + 1 - i) <= fuel)%nat ->
  page_loop fuel i (num_div (num_of_Z l) (num_of_Z s)) =
  Some (map Z_to_string (range i (Z.to_nat ((l - 1) / s + 1 - i))), i + Z.of_nat (Z.to_nat ((l - 1) / s + 1 - i))).
Proof.
  intros Hs. assert (Hdiv : forall i, (i * s <? l) = (i <? (l - 1) / s + 1)).
  { intros i. apply eq_true_iff_eq. rewrite !Z.ltb_lt. split; intros Hi.
    - assert (i <= (l - 1) / s) by (apply Z.div_le_lower_bound; lia). lia.
    - assert (i <= (l - 1) / s) as Hi' by lia. pose proof (Z.mul_div_le (l - 1) s Hs). nia. }
  induction fuel as [|fuel IH]; intros i Hi Hf; cbn [page_loop]; rewrite num_ltb_div, Hdiv by done.
  - replace (i <? (l - 1) / s + 1) with false by lia.
    replace (Z.to_nat ((l - 1) / s + 1 - i)) with O by lia. cbn. by rewrite Z.add_0_r.
  - destruct (i <? (l - 1) / s + 1) eqn:E; bool_to_prop.
    + rewrite IH by lia. cbn [mbind option_bind fst snd].
      replace (Z.to_nat ((l - 1) / s + 1 - i)) with (S (Z.to_nat ((l - 1) / s + 1 - (i + 1)))) by lia.
      cbn [range map]. do 2 f_equal. lia.
    + replace (Z.to_nat ((l - 1) / s + 1 - i)) with O by lia. cbn. by rewrite Z.add_0_r.
Qed.

(** How many pages the list offers for [l] lines: one more than the quotient, but one
    less when the pages are all full. *)
Definition page_count (l s : Z) : Z := if l mod s =? 0 then l / s - 1 else l / s + 1.

Lemma page_numbers_spec l s fuel :
  0 <= l -> 0 < s -> (Z.to_nat l <= fuel)%nat ->
  page_numbers fuel (num_of_Z l) (num_of_Z s) = Some (map Z_to_string (range 1 (Z.to_nat (page_count l s)))).
Proof.
  intros Hl Hs Hf. unfold page_numbers, page_count.
  assert (Hq : (l - 1) / s = if l mod s =? 0 then l / s - 1 else l / s).
  { pose proof (Z.div_mod l s ltac:(lia)) as E. pose proof (Z.mod_pos_bound l s Hs) as B.
    case_if; bool_to_prop; symmetry; [apply (Z.div_unique _ _ _ (s - 1))|apply (Z.div_unique _ _ _ (l mod s - 1))]; lia. }
  assert (Hb : (l - 1) / s <= l) by (apply Z.div_le_upper_bound; nia).
  rewrite page_loop_spec by (lia || nia). cbn [mbind option_bind fst snd]. rewrite num_mod_Z, num_eqb_Z by lia.
  rewrite Hq. destruct (l mod s =? 0) eqn:E.
  - f_equal. f_equal. f_equal. lia.
  - assert (0 <= l / s) by (apply Z.div_pos; lia).
    replace (Z.to_nat (l / s + 1)) with (Z.to_nat (l / s + 1 - 1) + 1)%nat by lia.
    by rewrite range_app, map_app.
Qed.

Lemma clear_options_spec s : clear_options (length (options s)) s = Some (match options s with [] => s | _ => Select [] (-1) end).
Proof.
  destruct s as [l i]. cbn [options]. revert i. induction l as [|o l IH]; intros i; [done|].
  cbn [clear_options options length remove_first]. rewrite IH. by destruct l.
Qed.

(** The list has an option unless no page is selected in it: how a browser keeps it. *)
Definition select_ok (s : select) : Prop := options s = [] -> selectedIndex s = -1.

Lemma clear_options_ok s : select_ok s -> clear_options (length (options s)) s = Some (Select [] (-1)).
Proof.
  intros Hs. rewrite clear_options_spec. destruct s as [[|o l] i]; [|done].
  unfold select_ok in Hs. cbn in *. by rewrite Hs.
Qed.

(** State after the sizes were set and the list of pages was filled again. *)
Definition resized (size : num) (pages : list string) (t : table) : table :=
  set_page (Some (new_select pages)) (set_fields (t_totalCol t) (t_lastpage t) (str size)
    (set_sizes (str (height_of size) +++ "px")
       (if String.eqb appName "Microsoft Internet Explorer" then t_body_height t
        else str (num_sub (height_of size) (num_of_Z 40)) +++ "px") (t_width t) t)).

Lemma setTableHeightByPage_core fuel line size t page :
  t_page t = Some page -> select_ok page -> t_tablerow t = Some line ->
  exists t1, setTableHeightByPage fuel size t =
    match page_numbers fuel (toNumber line) size with
    | Some pages => (Done tt, resized size pages t)
    | None => (OutOfFuel, t1)
    end.
Proof.
  intros Hp Hok Hl. unfold setTableHeightByPage, setTableHeight, cond, resized.
  exists (set_page (Some (Select [] (-1))) (resized size [] t)). unfold resized.
  destruct (String.eqb appName _); sc_run; cbn [t_page set_fields set_sizes t_tablerow set_page set_nevi];
    rewrite Hp, clear_options_ok, Hl by done; sc_run; cbn [t_page set_fields set_sizes t_tablerow set_page set_nevi];
    (destruct (page_numbers _ _ _); [sc_run; by rewrite add_options_new|done]).
Qed.

Lemma page_loop_stop fuel i b : num_ltb (num_of_Z i) b = false -> page_loop fuel i b = Some ([], i).
Proof. intros E. destruct fuel; cbn [page_loop]; by rewrite E. Qed.

Lemma page_loop_inf fuel i : page_loop fuel i (Inf false) = None.
Proof. revert i. induction fuel as [|fuel IH]; intros i; cbn [page_loop num_ltb num_of_Z negb]; [done|by rewrite IH]. Qed.

(** A size that is not positive: no round at all, unless the division is by 0. *)
Lemma page_numbers_nonpos fuel l s :
  0 <= l -> s <= 0 ->
  page_numbers fuel (num_of_Z l) (num_of_Z s) = None <-> s = 0 /\ 0 < l.
Proof.
  intros Hl Hs. unfold page_numbers. destruct (decide (s = 0)) as [->|Hne].
  - destruct (decide (l = 0)) as [->|Hl0].
    + rewrite page_loop_stop by done. split; [done|lia].
    + replace (num_div (num_of_Z l) (num_of_Z 0)) with (Inf false) by (destruct l; done || lia).
      rewrite page_loop_inf. split; [lia|done].
  - rewrite page_loop_stop; [by split; [|lia]|]. unfold num_div, num_of_Z.
    replace (Q_is0 (inject_Z s)) with false by (unfold Q_is0; cbn; destruct s; done || lia).
    cbn [num_ltb]. unfold fin, num_ltb. apply negb_false_iff, Qle_bool_iff. rewrite Qred_correct.
    destruct s as [|p|p]; [lia..|]. destruct l as [|q|q]; [by vm_compute| |lia].
    unfold Qle, Qdiv, Qmult, Qinv, inject_Z. cbn. lia.
Qed.

(** Choosing a page size gives the list of pages its numbers: 1, 2, ... up to the
    number of pages when the last one is not full, and up to one less when it is. *)
Theorem setTableHeightByPage_pages fuel l s t page :
  0 <= l -> 0 < s -> (Z.to_nat l <= fuel)%nat ->
  t_page t = Some page -> select_ok page -> t_tablerow t = Some (Z_to_string l) ->
  exists t', setTableHeightByPage fuel (num_of_Z s) t = (Done tt, t') /\
    t_page t' = Some (new_select (map Z_to_string (range 1 (Z.to_nat (page_count l s))))) /\
    t_pageSize t' = Z_to_string s /\ t_height t' = str (height_of (num_of_Z s)) +++ "px" /\
    all_rows t' = all_rows t.
Proof.
  intros Hl Hs Hf Hp Hok Hr. destruct (setTableHeightByPage_core fuel _ (num_of_Z s) _ _ Hp Hok Hr) as [t1 ->].
  rewrite toNumber_Z_to_string, page_numbers_spec by done. eexists. split; [done|].
  cbn. split; [done|]. split; [apply num_to_string_Z|done].
Qed.

(** C33. The loop that fills the list of pages ends if and only if the page size is not
    0 or the table has no lines. *)
Theorem setTableHeightByPage_ends l s t page :
  0 <= l -> t_page t = Some page -> select_ok page -> t_tablerow t = Some (Z_to_string l) ->
  (exists fuel t', setTableHeightByPage fuel (num_of_Z s) t = (Done tt, t')) <-> s <> 0 \/ l = 0.
Proof.
  intros Hl Hp Hok Hr. assert (Hn : toNumber (Z_to_string l) = num_of_Z l) by (by apply toNumber_Z_to_string).
  split.
  - intros (fuel & t' & E). destruct (decide (s = 0 /\ 0 < l)) as [Hd|Hd]; [|lia]. exfalso.
    destruct (setTableHeightByPage_core fuel _ (num_of_Z s) _ _ Hp Hok Hr) as [t1 E1]. rewrite Hn in E1.
    rewrite (proj2 (page_numbers_nonpos fuel l s Hl ltac:(lia))) in E1 by done. congruence.
  - intros Hd. exists (Z.to_nat l). destruct (setTableHeightByPage_core (Z.to_nat l) _ (num_of_Z s) _ _ Hp Hok Hr) as [t1 E].
    rewrite Hn in E. destruct (decide (0 < s)).
    + rewrite page_numbers_spec in E by done. eauto.
    + destruct (page_numbers _ _ _) eqn:En; [eauto|].
      apply page_numbers_nonpos in En; lia.
Qed.
End page_list.

Definition demo_table : table :=
  Table true (Some "25") (Some (new_select ["10"; "5"])) (Some (new_select ["1"; "2"; "3"])) None "2" "1" "" [] [empty_row] [empty_row]
    "" "relative" "" "" "" (num_of_Z 0) (num_of_Z 0) [].

Lemma setTableHeightByPage_pages_witness :
  exists t', setTableHeightByPage 25 (num_of_Z 10) demo_table = (Done tt, t') /\
    t_page t' = Some (new_select ["1"; "2"; "3"]).
Proof.
  destruct (setTableHeightByPage_pages 25 25 10 demo_table (new_select ["1"; "2"; "3"])
    ltac:(lia) ltac:(lia) ltac:(lia) eq_refl ltac:(done) eq_refl) as (t' & H1 & H2 & _).
  exact (ex_intro _ t' (conj H1 H2)).
Defined.

Lemma setTableHeightByPage_ends_witness :
  (exists fuel t', setTableHeightByPage fuel (num_of_Z 0) demo_table = (Done tt, t')) <-> 0 <> 0 \/ 25 = 0.
Proof.
  exact (setTableHeightByPage_ends 25 0 demo_table (new_select ["1"; "2"; "3"])
    ltac:(lia) eq_refl ltac:(done) eq_refl).
Defined.
