(* ===== verification/TablePages.v ===== *)
(** * The pages of the report table
    Specification of table.js: the table shows the pages that were loaded, in
    ascending order, each with all its records; choosing a page loads it if needed
    and scrolls to it.  [choose_page] and [setTableSize] implement it. *)
From Stdlib Require Import QArith Sorting.Sorted.
From S2P Require Import Prelude JsString JsNum JsVal Ui Dom PopupForm Script Table.
Open Scope Z_scope.

(** ** The specification *)

(** A set of pages as an ascending list. *)
Fixpoint add_page (p : Z) (ps : list Z) : list Z :=
  match ps with
  | [] => [p]
  | q :: l => if p <? q then p :: ps else if p =? q then ps else q :: add_page p l
  end.

Section pages.
Context `{Browser} `{Window} (id : string) (tot : string).
(** [s] records per page; [data p] are those of page [p]. *)
Context (s : Z) (data : Z -> list (list string)).

(** The rows of the records from line [n] on. *)
Fixpoint record_rows (n i : Z) (recs : list (list string)) : list trow :=
  match recs with
  | [] => []
  | r :: l => TRow (line_id id (num_of_Z n)) (if Z.even i then "trdark" else "trlight") (record_cells tot r)
              :: record_rows (n + 1) (i + 1) l
  end.

Definition page_rows (p : Z) : list trow := record_rows (s * (p - 1)) 0 (data p).
Definition rows_of (ps : list Z) : list trow := concat (map page_rows ps).

(** The table shows the pages [ps]. *)
Record shows (ps : list Z) (t : table) : Prop := {
  sh_head : exists h, t_head t = [h] /\ r_id h = "";
  sh_body : t_body t = rows_of ps ++ [empty_row];
  sh_size : exists z, t_size t = Some z /\ sel_option z = Some (Z_to_string s);
  sh_page : is_Some (t_page t);
  sh_col : t_totalCol t = tot
}.

(** ** Sets of pages *)
Lemma add_page_in p q ps : q ∈ add_page p ps <-> q = p \/ q ∈ ps.
Proof.
  induction ps as [|x l IH]; cbn [add_page]; [rewrite !elem_of_cons; intuition|].
  repeat case_if; bool_to_prop; rewrite ?elem_of_cons; [intuition|subst; rewrite ?elem_of_cons; intuition|].
  rewrite IH. intuition.
Qed.

Lemma add_page_sorted p ps : StronglySorted Z.lt ps -> StronglySorted Z.lt (add_page p ps).
Proof.
  induction 1 as [|x l Hl IH Hx]; cbn [add_page]; [by repeat constructor|].
  repeat case_if; bool_to_prop.
  - constructor; [by constructor|]. constructor; [done|].
    eapply Forall_impl; [exact Hx|]. cbn. lia.
  - by constructor.
  - constructor; [done|]. apply Forall_forall. intros y Hy. apply add_page_in in Hy as [->|Hy]; [lia|].
    rewrite Forall_forall in Hx. by apply Hx.
Qed.

Lemma add_page_present p ps : StronglySorted Z.lt ps -> p ∈ ps -> add_page p ps = ps.
Proof.
  induction 1 as [|x l Hl IH Hx]; intros Hp; cbn [add_page]; [by apply elem_of_nil in Hp|].
  rewrite Forall_forall in Hx. apply elem_of_cons in Hp as [->|Hp].
  - by rewrite Z.ltb_irrefl, Z.eqb_refl.
  - pose proof (Hx p Hp). rewrite (proj2 (Z.ltb_ge p x)), (proj2 (Z.eqb_neq p x)), IH by (done || lia). done.
Qed.

(** Where a page that is not shown yet belongs: behind the last page before it. *)
Lemma add_page_split p ps x :
  StronglySorted Z.lt ps -> x ∈ ps -> x < p -> p ∉ ps ->
  exists l1 q l2, ps = l1 ++ q :: l2 /\ add_page p ps = l1 ++ q :: p :: l2 /\ x <= q < p /\
    (forall y, q < y <= p -> y ∉ ps).
Proof.
  intros Hs. revert x. induction Hs as [|a l Hl IH Ha]; intros x Hx Hlt Hp; [by apply elem_of_nil in Hx|].
  rewrite Forall_forall in Ha. rewrite not_elem_of_cons in Hp. destruct Hp as [Hpa Hpl].
  assert (Hap : a < p). { apply elem_of_cons in Hx as [->|Hx]; [done|]. pose proof (Ha x Hx). lia. }
  cbn [add_page]. rewrite (proj2 (Z.ltb_ge p a)), (proj2 (Z.eqb_neq p a)) by lia.
  destruct l as [|b l'] eqn:El.
  - exists [], a, []. split; [done|]. split; [done|]. apply list_elem_of_singleton in Hx as ->.
    split; [lia|]. intros y Hy. rewrite list_elem_of_singleton. lia.
  - destruct (decide (b < p)) as [Hb|Hb].
    + destruct (IH b ltac:(by left) Hb Hpl) as (l1 & q & l2 & E1 & E2 & Hq & Hgap).
      exists (a :: l1), q, l2. rewrite E1 in *. cbn [app]. rewrite E2. split; [done|]. split; [done|].
      pose proof (Ha b ltac:(rewrite <- E1; by left)). split.
      * apply elem_of_cons in Hx as [->|Hx]; [lia|]. assert (x <= q); [|lia].
        destruct (decide (x <= q)); [done|]. exfalso. exact (Hgap x ltac:(lia) Hx).
      * intros y Hy. rewrite not_elem_of_cons. split; [lia|]. by apply Hgap.
    + exists [], a, (b :: l'). split; [done|]. cbn [app add_page].
      assert (b <> p) by (intros ->; apply Hpl; by left). rewrite (proj2 (Z.ltb_lt p b)) by lia.
      split; [done|]. assert (Hall : forall y, y ∈ b :: l' -> p < y).
      { intros y Hy. apply StronglySorted_inv in Hl as [_ Hb']. rewrite Forall_forall in Hb'.
        apply elem_of_cons in Hy as [->|Hy]; [lia|]. pose proof (Hb' y Hy). lia. }
      split.
      * apply elem_of_cons in Hx as [->|Hx]; [lia|]. pose proof (Hall x Hx). lia.
      * intros y Hy. rewrite not_elem_of_cons. split; [lia|]. intros Hy'. pose proof (Hall y Hy'). lia.
Qed.

(** ** Finding rows *)
Abbreviation has i l := (existsb (fun r => String.eqb (r_id r) i) l).

Lemma row_pos_app i l k : row_pos i (l ++ k) = if has i l then row_pos i l else (length l + row_pos i k)%nat.
Proof.
  induction l as [|r l IH]; [done|]. cbn [app row_pos existsb length]. destruct (String.eqb (r_id r) i); [done|].
  cbn [orb]. rewrite IH. by destruct (has i l).
Qed.

Lemma row_pos_none i l : has i l = false -> row_pos i l = length l.
Proof. induction l as [|r l IH]; [done|]. cbn. destruct (String.eqb (r_id r) i); [done|]. cbn. intros E. by rewrite IH. Qed.

Lemma line_id_inj a b :
  0 <= a -> 0 <= b -> line_id id (num_of_Z a) = line_id id (num_of_Z b) -> a = b.
Proof.
  intros Ha Hb E. unfold line_id, str in E. rewrite !num_to_string_Z in E.
  do 3 apply sapp_cancel_l in E. by apply Z_to_string_inj.
Qed.

Lemma line_id_eqb a b :
  0 <= a -> 0 <= b -> String.eqb (line_id id (num_of_Z a)) (line_id id (num_of_Z b)) = (a =? b).
Proof.
  intros Ha Hb. apply eq_true_iff_eq. rewrite String.eqb_eq, Z.eqb_eq. split; [by apply line_id_inj|by intros ->].
Qed.

Lemma record_rows_length n i recs : length (record_rows n i recs) = length recs.
Proof. revert n i. induction recs as [|r l IH]; intros n i; cbn; [done|by rewrite IH]. Qed.

Lemma record_rows_has n i m recs :
  0 <= n -> 0 <= m ->
  has (line_id id (num_of_Z m)) (record_rows n i recs) = (n <=? m) && (m <? n + Z.of_nat (length recs)).
Proof.
  intros Hn Hm. revert n i Hn. induction recs as [|r l IH]; intros n i Hn; cbn [record_rows existsb length].
  - symmetry. apply andb_false_iff. rewrite Z.leb_gt, Z.ltb_ge. lia.
  - cbn [r_id]. rewrite line_id_eqb, IH by lia. apply eq_true_iff_eq.
    rewrite orb_true_iff, !andb_true_iff, Z.eqb_eq, !Z.leb_le, !Z.ltb_lt. lia.
Qed.

Context (Hs : 2 <= s).
Definition good (p : Z) : Prop := 1 <= p /\ Z.of_nat (length (data p)) = s.

Lemma page_rows_has p q :
  good p -> 1 <= q -> has (line_id id (num_of_Z (s * (q - 1)))) (page_rows p) = (p =? q).
Proof using Hs.
  intros [Hp Hd] Hq. unfold page_rows. rewrite record_rows_has, Hd by nia.
  destruct (p =? q) eqn:E; bool_to_prop; [subst; lia|]. apply andb_false_iff.
  destruct (decide (p < q)); [right|left]; nia.
Qed.

Lemma rows_of_has ps q :
  Forall good ps -> 1 <= q -> has (line_id id (num_of_Z (s * (q - 1)))) (rows_of ps) = bool_decide (q ∈ ps).
Proof using Hs.
  intros Hg Hq. induction Hg as [|p ps Hp _ IH]; [done|]. unfold rows_of in *. cbn [map concat].
  rewrite existsb_app, page_rows_has, IH by done. apply eq_true_iff_eq.
  rewrite orb_true_iff, !bool_decide_eq_true, Z.eqb_eq, elem_of_cons. intuition.
Qed.

Lemma rows_of_length ps : Forall good ps -> Z.of_nat (length (rows_of ps)) = s * Z.of_nat (length ps).
Proof.
  induction 1 as [|p ps [_ Hp] _ IH]; [cbn; lia|]. unfold rows_of in *. cbn [map concat length].
  rewrite length_app. unfold page_rows at 1. rewrite record_rows_length. lia.
Qed.

Lemma rows_of_app ps qs : rows_of (ps ++ qs) = rows_of ps ++ rows_of qs.
Proof. unfold rows_of. by rewrite map_app, concat_app. Qed.

Lemma page_rows_pos q : good q -> row_pos (line_id id (num_of_Z (s * (q - 1)))) (page_rows q) = O.
Proof using Hs.
  intros [Hq Hd]. unfold page_rows. destruct (data q) as [|r l]; [cbn in Hd; lia|].
  cbn [record_rows row_pos r_id]. by rewrite String.eqb_refl.
Qed.

Lemma rows_of_pos l1 q l2 :
  Forall good (l1 ++ q :: l2) -> q ∉ l1 ->
  row_pos (line_id id (num_of_Z (s * (q - 1)))) (rows_of (l1 ++ q :: l2)) = length (rows_of l1).
Proof using Hs.
  intros Hg Hq. apply Forall_app in Hg as [H1 H2]. apply Forall_cons in H2 as [Hgq H2].
  rewrite rows_of_app, row_pos_app, rows_of_has, bool_decide_eq_false_2 by (done || apply Hgq).
  unfold rows_of at 2. cbn [map concat]. rewrite row_pos_app, page_rows_has, Z.eqb_refl by (done || apply Hgq).
  rewrite page_rows_pos by done. lia.
Qed.

(** The position of the first line of a page among all rows. *)
Lemma shows_has ps t q :
  shows ps t -> Forall good ps -> 1 <= q ->
  has_row (line_id id (num_of_Z (s * (q - 1)))) t = bool_decide (q ∈ ps).
Proof using Hs.
  intros Hsh Hg Hq. destruct (sh_head _ _ Hsh) as (h & Eh & Hh). unfold has_row, all_rows.
  rewrite Eh, (sh_body _ _ Hsh), !existsb_app, rows_of_has by done. cbn [existsb r_id empty_row]. rewrite Hh.
  change (String.eqb "" (line_id id (num_of_Z (s * (q - 1))))) with false. cbn [orb]. by rewrite orb_false_r.
Qed.

Lemma shows_pos t l1 q l2 :
  shows (l1 ++ q :: l2) t -> Forall good (l1 ++ q :: l2) -> q ∉ l1 ->
  Z.of_nat (row_pos (line_id id (num_of_Z (s * (q - 1)))) (all_rows t)) = 1 + s * Z.of_nat (length l1).
Proof using Hs.
  intros Hsh Hg Hq. destruct (sh_head _ _ Hsh) as (h & Eh & Hh). unfold all_rows.
  rewrite Eh, (sh_body _ _ Hsh). cbn [app row_pos]. rewrite Hh.
  change (String.eqb "" (line_id id (num_of_Z (s * (q - 1))))) with false. cbv iota.
  assert (good q). { apply Forall_app in Hg as [_ Hg]. by apply Forall_cons in Hg as [? _]. }
  assert (Forall good l1) by (by apply Forall_app in Hg as [? _]).
  rewrite row_pos_app, rows_of_has, bool_decide_eq_true_2 by (done || (apply elem_of_app; right; left) || apply H1).
  rewrite rows_of_pos by done. rewrite Nat2Z.inj_succ, rows_of_length by done. lia.
Qed.

(** ** Loading a page *)
Lemma find_line_spec t ps p q fuel :
  shows ps t -> Forall good ps -> q ∈ ps -> 1 <= q <= p -> (forall y, q < y <= p -> y ∉ ps) ->
  (Z.to_nat (p - q) <= fuel)%nat ->
  find_line id fuel t (num_of_Z (s * (p - 1))) (num_of_Z s) = Some (num_of_Z (s * (q - 1))).
Proof using Hs.
  intros Hsh Hg Hq. revert p. induction fuel as [|fuel IH]; intros p Hp Hgap Hf; cbn [find_line];
    rewrite num_gtb_Z, (shows_has ps) by (done || lia).
  - replace p with q by lia. rewrite (bool_decide_eq_true_2 (q ∈ ps)) by done. by case_if.
  - destruct (decide (p = q)) as [->|Hne].
    + rewrite (bool_decide_eq_true_2 (q ∈ ps)) by done. by case_if.
    + rewrite (proj2 (Z.ltb_lt _ _)) by nia.
      rewrite bool_decide_eq_false_2 by (apply Hgap; lia). rewrite num_sub_Z.
      replace (s * (p - 1) - s) with (s * (p - 1 - 1)) by lia. apply IH; [lia| |lia].
      intros y Hy. apply Hgap. lia.
Qed.

Lemma insertRow_body h a b r t :
  t_head t = [h] -> t_body t = a ++ b -> b <> [] ->
  insertRow (1 + Z.of_nat (length a)) r t = (Done tt, set_trows (t_head t) (a ++ r :: b) t).
Proof.
  intros Eh Eb Hb. unfold insertRow, all_rows. rewrite Eh, Eb. cbn [length app].
  rewrite length_app. rewrite (proj2 (orb_false_iff _ _)) by (rewrite !Z.ltb_ge; lia).
  replace (Z.to_nat (1 + Z.of_nat (length a))) with (S (length a)) by lia.
  rewrite bool_decide_eq_false_2 by (by destruct a, b). rewrite andb_false_r, orb_false_r.
  replace (S (length a) <? 1)%nat with false by done. replace (S (length a) - 1)%nat with (length a) by lia.
  by rewrite take_app_length, drop_app_length.
Qed.

Lemma insert_records_spec h recs : forall i n a m b t,
  t_head t = [h] -> t_body t = a ++ m ++ b -> b <> [] -> Z.of_nat (length m) = i -> i + Z.of_nat (length recs) = s ->
  insert_records id (num_of_Z s) tot (Some (1 + Z.of_nat (length a))) (num_of_Z n) i recs t =
    (Done tt, set_trows (t_head t) (a ++ m ++ record_rows n i recs ++ b) t).
Proof.
  induction recs as [|r l IH]; intros i n a m b t Eh Eb Hb Hm Hi; cbn [insert_records length record_rows app] in *;
    rewrite num_ltb_Z.
  - rewrite (proj2 (Z.ltb_ge i s)) by lia. rewrite <- Eb. by destruct t.
  - rewrite (proj2 (Z.ltb_lt i s)) by lia.
    replace (1 + Z.of_nat (length a) + i) with (1 + Z.of_nat (length (a ++ m))) by (rewrite length_app; lia).
    erewrite bind_done by (apply (insertRow_body h (a ++ m) b); [done|by rewrite Eb, app_assoc|done]).
    rewrite num_add_Z.
    set (x := TRow _ _ _). rewrite (IH (i + 1) (n + 1) a (m ++ [x]) b); cbn [t_head t_body set_trows].
    + by rewrite <- !app_assoc.
    + done.
    + by rewrite <- !app_assoc.
    + done.
    + rewrite length_app. cbn [length]. lia.
    + lia.
Qed.

(** What stays when the rows change. *)
Lemma shows_set_rows ps qs t :
  shows ps t -> shows qs (set_trows (t_head t) (rows_of qs ++ [empty_row]) t).
Proof. intros [H1 H2 H3 H4 H5]. by split. Qed.

Lemma sorted_before (l1 : list Z) q l2 : StronglySorted Z.lt (l1 ++ q :: l2) -> q ∉ l1.
Proof.
  induction l1 as [|a l1 IH]; intros Hst; [apply not_elem_of_nil|]. apply StronglySorted_inv in Hst as [Hst Ha].
  rewrite Forall_forall in Ha. apply not_elem_of_cons. split; [|by apply IH].
  intros ->. pose proof (Ha a ltac:(apply elem_of_app; right; left)). lia.
Qed.

Lemma addTableRecord_spec fuel again t ps p pg :
  shows ps t -> Forall good ps -> StronglySorted Z.lt ps -> good p -> p ∉ ps -> (1 ∈ ps \/ ps = [] /\ p = 1) ->
  t_page t = Some pg -> is_Some (sel_option pg) -> (Z.to_nat p <= fuel)%nat ->
  addTableRecord id fuel again (num_of_Z (s * (p - 1))) (data p) t =
    again (set_trows (t_head t) (rows_of (add_page p ps) ++ [empty_row]) t).
Proof using Hs.
  intros Hsh Hg Hst Hp Hnp H1 Hpg [v Hv] Hf. pose proof Hsh as [(h & Eh & Hh) Eb (z & Ez & Hz) _ Ec].
  unfold addTableRecord, page_value, size_value. sc_run. rewrite Hpg, Hv, Ez, Hz, Ec.
  rewrite toNumber_Z_to_string, parseInt_Z_to_string by lia. cbv beta iota.
  destruct H1 as [H1|[-> ->]].
  - assert (Hne : p <> 1) by (by intros ->). destruct Hp as [Hp Hd].
    destruct (add_page_split p ps 1 Hst H1 ltac:(lia) Hnp) as (l1 & q & l2 & E1 & E2 & Hq & Hgap).
    subst ps. assert (Hql : q ∉ l1) by exact (sorted_before l1 q l2 Hst).
    assert (Hg1 : Forall good (l1 ++ [q])).
    { rewrite Forall_app, Forall_cons in Hg. rewrite Forall_app, Forall_singleton. intuition. }
    rewrite (find_line_spec t (l1 ++ q :: l2) p q) by (done || lia || (apply elem_of_app; right; left)).
    assert (Hn2 : 1 + s * Z.of_nat (length l1) <> 2) by (destruct (length l1); [cbn; lia|nia]).
    rewrite (shows_pos t l1 q l2), (proj2 (Z.eqb_neq _ 2)) by done. cbn [negb mbind option_bind].
    replace (1 + s * Z.of_nat (length l1) + s) with (1 + Z.of_nat (length (rows_of (l1 ++ [q])))).
    2: { rewrite rows_of_length, length_app, Nat2Z.inj_add by done. cbn [length]. lia. }
    rewrite (insert_records_spec h (data p) 0 _ (rows_of (l1 ++ [q])) [] (rows_of l2 ++ [empty_row]));
      [|done|by rewrite Eb, (cons_middle q), app_assoc, (rows_of_app (l1 ++ [q])), <- app_assoc
       |by destruct (rows_of l2)|done|lia].
    rewrite E2. replace (l1 ++ q :: p :: l2) with ((l1 ++ [q]) ++ [p] ++ l2) by by rewrite <- app_assoc.
    rewrite !(rows_of_app (l1 ++ [q])), (rows_of_app [p]), <- !app_assoc.
    replace (rows_of [p]) with (page_rows p) by (symmetry; apply app_nil_r). done.
  - replace (s * (1 - 1)) with 0 by lia.
    replace (find_line id fuel t (num_of_Z 0) (num_of_Z s)) with (Some (num_of_Z 0)) by (by destruct fuel).
    unfold all_rows. rewrite Eh, Eb. cbn [app rows_of map concat row_pos r_id empty_row]. rewrite Hh.
    change (String.eqb "" (line_id id (num_of_Z 0))) with false. cbn [Z.of_nat Pos.of_succ_nat Pos.succ Z.eqb Pos.eqb negb].
    rewrite (insert_records_spec h (data 1) 0 0 [] [] [empty_row]); [|done|done|done|done|destruct Hp; lia].
    cbn [add_page]. unfold rows_of. cbn [map concat app]. unfold page_rows. rewrite app_nil_r.
    rewrite Eh. by replace (s * (1 - 1)) with 0 by lia.
Qed.

(** ** Choosing pages *)
Context (getRecord : string -> string -> option (list (list string))).
Context (no_chrome : uses "Chrome" = false).
Context (answers : forall p, good p ->
  getRecord (Z_to_string s) (Z_to_string p) = Some (data p) /\ equals_zero (data p) = false).

(** The table stands at page [p]. *)
Definition at_page (ps : list Z) (p : Z) (t : table) : Prop :=
  t_lastpage t = Z_to_string p /\
  exists l1 l2, ps = l1 ++ p :: l2 /\
    (if uses "Firefox" then t_body_scroll t else t_scroll t) = num_of_Z (scroll_of (1 + s * Z.of_nat (length l1))).

Definition page_is (p : Z) (t : table) : Prop :=
  exists pg, t_page t = Some pg /\ sel_option pg = Some (Z_to_string p).

Lemma shows_scrolled ps a b t : shows ps t -> shows ps (set_scrolls a b t).
Proof. intros [H1 H2 H3 H4 H5]. by split. Qed.
Lemma shows_last ps v t : shows ps t -> shows ps (set_fields (t_totalCol t) v (t_pageSize t) t).
Proof. intros [H1 H2 H3 H4 H5]. by split. Qed.

Lemma goTablePage_spec t ps p l1 l2 :
  shows ps t -> Forall good ps -> StronglySorted Z.lt ps -> page_is p t -> ps = l1 ++ p :: l2 ->
  goTablePage id (num_of_Z (s * (p - 1))) t =
    (Done tt, let c := num_of_Z (scroll_of (1 + s * Z.of_nat (length l1))) in
              if uses "Firefox" then set_scrolls (t_scroll t) c t else set_scrolls c (t_body_scroll t) t).
Proof using Hs no_chrome.
  intros Hsh Hg Hst (pg & Epg & Ev) ->. unfold goTablePage, page_value. sc_run. rewrite Epg, Ev.
  rewrite no_chrome. cbn [andb]. rewrite (shows_pos t l1 p l2 Hsh Hg (sorted_before _ _ _ Hst)).
  sc_run. by destruct (uses "Firefox").
Qed.

Lemma record_no_spec z pg p :
  0 < p -> sel_option z = Some (Z_to_string s) -> sel_option pg = Some (Z_to_string p) ->
  num_mul (of_parse (parseInt (sel_value z))) (num_sub (of_parse (parseInt (sel_value pg))) (num_of_Z 1))
  = num_of_Z (s * (p - 1)).
Proof using Hs.
  intros Hp Hz Hpg. rewrite (sel_option_value _ _ Hz), (sel_option_value _ _ Hpg).
  rewrite !parseInt_Z_to_string by lia. unfold of_parse. by rewrite num_sub_Z, num_mul_Z.
Qed.

Lemma findTableRecord_present fuel t ps p :
  shows ps t -> Forall good ps -> StronglySorted Z.lt ps -> page_is p t -> p ∈ ps ->
  exists t', findTableRecord id getRecord (S fuel) t = (Done tt, t') /\ shows ps t' /\ at_page ps p t' /\
    t_page t' = t_page t.
Proof using Hs no_chrome.
  intros Hsh Hg Hst (pg & Epg & Ev) Hp. pose proof Hsh as [_ _ (z & Ez & Hz) _ _].
  assert (Hp1 : 1 <= p) by (rewrite Forall_forall in Hg; apply (Hg p Hp)).
  apply list_elem_of_split in Hp as (l1 & l2 & El). cbn [findTableRecord]. sc_run. rewrite Ez, Epg.
  rewrite (record_no_spec z pg p), (shows_has ps) by (done || lia).
  rewrite bool_decide_eq_true_2 by (rewrite El; apply elem_of_app; right; left). rewrite no_chrome.
  rewrite (goTablePage_spec t ps p l1 l2) by (done || by exists pg).
  destruct (uses "Firefox") eqn:Ef; cbn zeta; cbn [t_page set_scrolls]; rewrite Epg, (sel_option_value _ _ Ev);
    (eexists; split; [reflexivity|]; split; [by apply shows_last, shows_scrolled|]; split; [|done]);
    split; try done; exists l1, l2; by rewrite Ef.
Qed.

Lemma findTableRecord_spec fuel t ps p :
  shows ps t -> Forall good ps -> StronglySorted Z.lt ps -> page_is p t -> good p -> (1 ∈ ps \/ ps = [] /\ p = 1) ->
  (Z.to_nat p < fuel)%nat ->
  exists t', findTableRecord id getRecord fuel t = (Done tt, t') /\ shows (add_page p ps) t' /\
    at_page (add_page p ps) p t' /\ t_page t' = t_page t.
Proof using Hs no_chrome answers.
  intros Hsh Hg Hst Hpage Hp H1 Hf. destruct fuel as [|fuel]; [lia|].
  destruct (decide (p ∈ ps)) as [Hin|Hin].
  { rewrite add_page_present by done. by apply findTableRecord_present. }
  pose proof Hsh as [_ _ (z & Ez & Hz) _ _]. pose proof Hpage as (pg & Epg & Ev).
  destruct (answers p Hp) as [Ea Eq]. destruct fuel as [|fuel]; [destruct Hp; lia|].
  destruct (findTableRecord_present fuel (set_trows (t_head t) (rows_of (add_page p ps) ++ [empty_row]) t) (add_page p ps) p)
    as (t1 & E1 & Hsh1 & (_ & Hat) & Epg1).
  { by apply (shows_set_rows ps). }
  { apply Forall_forall. intros q Hq. apply add_page_in in Hq as [->|Hq]; [done|]. by eapply Forall_forall in Hg. }
  { by apply add_page_sorted. }
  { by exists pg. }
  { apply add_page_in. by left. }
  remember (S fuel) as fuel1. cbn [findTableRecord]. sc_run. rewrite Ez, Epg.
  rewrite (record_no_spec z pg p), (shows_has ps), bool_decide_eq_false_2 by (done || apply Hp || (destruct Hp; lia)).
  rewrite (sel_option_value _ _ Hz), (sel_option_value _ _ Ev), Ea, Eq.
  rewrite (addTableRecord_spec _ _ t ps p pg) by (done || (eexists; done) || lia). rewrite E1. cbn [t_page set_trows].
  cbn [t_page set_trows set_nevi] in Epg1. rewrite Epg1, Epg, (sel_option_value _ _ Ev).
  eexists. split; [reflexivity|]. split; [by apply shows_last|]. split; [|cbn; by rewrite Epg1, Epg].
  split; [done|]. exact Hat.
Qed.

(** ** A new size, then any pages *)
Lemma delete_rows_spec h x : forall b t,
  t_head t = [h] -> t_body t = b ++ [x] -> delete_rows (length b) t = (Done tt, set_trows (t_head t) [x] t).
Proof.
  induction b as [|r b IH]; intros t Eh Eb; cbn [delete_rows length].
  - cbn [app] in Eb. rewrite <- Eb. by destruct t.
  - erewrite bind_done.
    2: { unfold deleteRow, all_rows. rewrite Eh, Eb. cbn [length app].
         rewrite (proj2 (orb_false_iff _ _)) by (rewrite Z.ltb_ge, Z.leb_gt; lia). reflexivity. }
    rewrite Eh. exact (IH (set_trows [h] (b ++ [x]) t) eq_refl eq_refl).
Qed.

Definition table_ready (l n : Z) (t : table) : Prop :=
  (exists h, t_head t = [h] /\ r_id h = "") /\ (exists b, t_body t = b ++ [empty_row]) /\
  (exists z, t_size t = Some z /\ sel_option z = Some (Z_to_string s)) /\
  (exists pg, t_page t = Some pg /\ select_ok pg) /\ t_tablerow t = Some (Z_to_string l) /\ t_totalCol t = tot /\
  0 <= l /\ n = page_count l s /\ 1 <= n /\ forall p, 1 <= p <= n -> good p.

Lemma range_good l n t : table_ready l n t -> forall p, 1 <= p <= n -> good p.
Proof. intros H'. apply H'. Qed.

Lemma setTableSize_spec fuel l n t :
  table_ready l n t -> (Z.to_nat l <= fuel)%nat -> (2 <= fuel)%nat ->
  exists t', setTableSize id getRecord fuel t = (Done tt, t') /\ shows [1] t' /\ at_page [1] 1 t' /\
    t_page t' = Some (new_select (map Z_to_string (range 1 (Z.to_nat n)))).
Proof using Hs no_chrome answers.
  intros ((h & Eh & Hh) & (b & Eb) & (z & Ez & Hz) & (pg & Epg & Hok) & El & Ec & Hl & Hn & Hn1 & Hg) Hf Hf2.
  destruct (setTableHeightByPage_core fuel _ (num_of_Z s) _ _ Epg Hok El) as [t1 E1].
  rewrite toNumber_Z_to_string, page_numbers_spec, <- Hn in E1 by (done || lia).
  set (pages := map Z_to_string (range 1 (Z.to_nat n))) in *.
  set (t2 := set_trows (t_head t) [empty_row] (resized (num_of_Z s) pages t)).
  destruct (findTableRecord_spec fuel t2 [] 1) as (t3 & E3 & Hsh & Hat & Epg3).
  { split; cbn; [by exists h|done|by exists z|done|done]. }
  { done. } { constructor. }
  { exists (new_select pages). split; [done|]. unfold pages. destruct (Z.to_nat n) eqn:En; [lia|done]. }
  { apply Hg. lia. } { by right. } { lia. }
  exists t3. split; [|by rewrite Epg3]. unfold setTableSize. sc_run. rewrite Ez, Hz.
  rewrite parseInt_Z_to_string by lia. unfold of_parse. rewrite E1. destruct (uses "Firefox") eqn:Ef.
  - exact E3.
  - replace (length (all_rows (resized (num_of_Z s) pages t)) - 2)%nat with (length b).
    2: { unfold all_rows. cbn. rewrite Eh, Eb. cbn. rewrite length_app. cbn. lia. }
    rewrite (delete_rows_spec h empty_row b) by done. exact E3.
Qed.

Lemma choose_page_spec fuel ps n k t :
  shows ps t -> Forall good ps -> StronglySorted Z.lt ps -> 1 ∈ ps ->
  (exists i, t_page t = Some (Select (map Z_to_string (range 1 n)) i)) -> (k < n)%nat -> good (Z.of_nat k + 1) ->
  (S k < fuel)%nat ->
  exists t', choose_page id getRecord fuel k t = (Done tt, t') /\ shows (add_page (Z.of_nat k + 1) ps) t' /\
    at_page (add_page (Z.of_nat k + 1) ps) (Z.of_nat k + 1) t' /\
    exists i, t_page t' = Some (Select (map Z_to_string (range 1 n)) i).
Proof using Hs no_chrome answers.
  intros Hsh Hg Hst H1 [i Ep] Hk Hgk Hf. unfold choose_page. sc_run. rewrite Ep. cbn [options].
  destruct (findTableRecord_spec fuel (set_page (Some (Select (map Z_to_string (range 1 n)) (Z.of_nat k))) t) ps
    (Z.of_nat k + 1)) as (t' & E & Hsh' & Hat & Epg); [| |done| |done|by left|lia|].
  - destruct Hsh as [S1 S2 S3 S4 S5]. by split.
  - done.
  - eexists. split; [done|]. unfold sel_option. cbn [selectedIndex options].
    rewrite (proj2 (Z.ltb_ge _ _)) by lia. rewrite Nat2Z.id, list_lookup_fmap, range_lookup by done. cbn. f_equal. f_equal. lia.
  - exists t'. split; [done|]. split; [done|]. split; [done|]. rewrite Epg. by eexists.
Qed.

Lemma last_default {A} (a d e : A) l : List.last (a :: l) d = List.last (a :: l) e.
Proof. revert a. induction l as [|b l IH]; intros a; [done|]. exact (IH b). Qed.

(** The pages that a sequence of choices has loaded. *)
Definition loaded (ks : list nat) : list Z := fold_left (fun ps k => add_page (Z.of_nat k + 1) ps) ks [1].

Lemma choices_spec fuel n ks : forall ps p t,
  shows ps t -> Forall good ps -> StronglySorted Z.lt ps -> 1 ∈ ps -> at_page ps p t ->
  (exists i, t_page t = Some (Select (map Z_to_string (range 1 n)) i)) ->
  Forall (fun k => (k < n)%nat /\ good (Z.of_nat k + 1)) ks -> (n < fuel)%nat ->
  let ps' := fold_left (fun ps k => add_page (Z.of_nat k + 1) ps) ks ps in
  exists t', for_each (choose_page id getRecord fuel) ks t = (Done tt, t') /\ shows ps' t' /\
    at_page ps' (List.last (map (fun k => Z.of_nat k + 1) ks) p) t'.
Proof using Hs no_chrome answers.
  induction ks as [|k ks IH]; intros ps p t Hsh Hg Hst H1 Hat Hi Hks Hf; [by exists t|].
  apply Forall_cons in Hks as [[Hk Hgk] Hks]. cbn [for_each fold_left].
  destruct (choose_page_spec fuel ps n k t) as (t1 & E1 & Hsh1 & Hat1 & Hi1); [done..|lia|].
  rewrite (bind_done _ _ _ _ _ E1).
  destruct (IH (add_page (Z.of_nat k + 1) ps) (Z.of_nat k + 1) t1) as (t2 & E2 & Hsh2 & Hat2); [done| | | |done..|].
  - apply Forall_forall. intros q Hq. apply add_page_in in Hq as [->|Hq]; [done|]. by eapply Forall_forall in Hg.
  - by apply add_page_sorted.
  - apply add_page_in. by right.
  - exists t2. split; [done|]. split; [done|]. destruct ks as [|k' ks']; [done|].
    change (List.last (map (fun k => Z.of_nat k + 1) (k :: k' :: ks')) p)
      with (List.last (map (fun k => Z.of_nat k + 1) (k' :: ks')) p).
    cbn [map] in Hat2 |- *. by rewrite (last_default _ p (Z.of_nat k + 1)).
Qed.

Lemma loaded_spec ks : forall ps, StronglySorted Z.lt ps ->
  let ps' := fold_left (fun ps k => add_page (Z.of_nat k + 1) ps) ks ps in
  StronglySorted Z.lt ps' /\ (forall p, p ∈ ps' <-> p ∈ ps \/ exists k, k ∈ ks /\ p = Z.of_nat k + 1).
Proof.
  induction ks as [|k ks IH]; intros ps Hst; cbn [fold_left].
  - split; [done|]. intros p. split; [by left|]. intros [?|(k & Hk & _)]; [done|]. by apply elem_of_nil in Hk.
  - destruct (IH _ (add_page_sorted (Z.of_nat k + 1) ps Hst)) as [H1 H2]. split; [done|]. intros p.
    rewrite H2, add_page_in. split.
    + intros [[->|?]|(k' & Hk & ->)]; [right; exists k; split; [by left|done]|by left|].
      right. exists k'. split; [by right|done].
    + intros [?|(k' & Hk & ->)]; [tauto|]. apply elem_of_cons in Hk as [->|Hk]; [tauto|]. right. by exists k'.
Qed.

(** C11. In a browser other than Chrome, with a page size of two or more and every page of
    the list full and answered by the server, after the size of the page was chosen, and any pages of the list in any
    order, the table shows the first page and the chosen ones, each once and complete, in
    ascending order, and stands at the page chosen last.  Each of the conditions is needed:
    [chrome_size_change_throws], [size_one_out_of_order], [short_page_throws]. *)
Theorem pages_in_order fuel l n ks t :
  table_ready l n t -> Forall (fun k => Z.of_nat k < n) ks -> (Z.to_nat l + 2 <= fuel)%nat ->
  exists t', (setTableSize id getRecord fuel ;;; for_each (choose_page id getRecord fuel) ks) t = (Done tt, t') /\
    shows (loaded ks) t' /\ at_page (loaded ks) (List.last (map (fun k => Z.of_nat k + 1) ks) 1) t' /\
    StronglySorted Z.lt (loaded ks) /\ (forall p, p ∈ loaded ks <-> p = 1 \/ exists k, k ∈ ks /\ p = Z.of_nat k + 1).
Proof using Hs no_chrome answers.
  intros Hr Hks Hf. destruct (setTableSize_spec fuel l n t Hr ltac:(lia) ltac:(lia)) as (t1 & E1 & Hsh1 & Hat1 & Ep1).
  pose proof (range_good _ _ _ Hr) as Hg. destruct Hr as (_ & _ & _ & _ & _ & _ & Hl & Hn & Hn1 & _).
  assert (Hnl : n <= l + 1).
  { subst n. unfold page_count. pose proof (Z.div_le_upper_bound l s l ltac:(lia) ltac:(nia)). case_if; lia. }
  destruct (choices_spec fuel (Z.to_nat n) ks [1] 1 t1) as (t2 & E2 & Hsh2 & Hat2); [done| |repeat constructor|by left|done| | |lia|].
  - apply Forall_singleton, Hg. lia.
  - rewrite Ep1. by eexists.
  - eapply Forall_impl; [exact Hks|]. intros k Hk. cbn in Hk. split; [lia|]. apply Hg. lia.
  - exists t2. rewrite (bind_done _ _ _ _ _ E1). split; [done|]. split; [done|]. split; [done|].
    destruct (loaded_spec ks [1]) as [H1 H2]; [by repeat constructor|]. split; [done|].
    intros p. unfold loaded. rewrite H2, list_elem_of_singleton. done.
Qed.

(** ** Building the table *)

(** A table built with its headings and its lists is ready to be paged: one row of
    headings, an empty body, the first size chosen, the pages of [page_count]. *)
Theorem table_built fuel heads sizes l hide t :
  0 <= l -> (Z.to_nat l <= fuel)%nat -> tot = Z_to_string (Z.of_nat (length heads)) ->
  1 <= page_count l s -> (forall p, 1 <= p <= page_count l s -> good p) ->
  exists t', (setTableHeader heads ;;; setTableNevi fuel (Some (s :: sizes)) l hide) t = (Done tt, t') /\
    table_ready l (page_count l s) t' /\
    t_page t' = Some (new_select (map Z_to_string (range 1 (Z.to_nat (page_count l s))))) /\
    t_hide t' = (if hide then Some "[Hide]" else None) /\ t_position t' = "relative" /\
    map h_html (t_thead t') = map (fun h => h_html (heading_of h)) (take (Z.to_nat (array_length heads)) heads).
Proof using Hs.
  intros Hl Hf Ht Hn Hg. unfold setTableHeader, setTableNevi. sc_run. cbn [t_nevi].
  rewrite (proj2 (Z.ltb_lt 0 s)) by lia. rewrite page_numbers_spec by (done || lia). sc_run.
  set (pages := map Z_to_string (range 1 (Z.to_nat (page_count l s)))).
  replace (if negb (uses "MSIE") && negb true then raise else mret tt) with (mret tt : Sc table unit)
    by (by rewrite andb_false_r).
  rewrite andb_false_r. eexists. split; [reflexivity|].
  split; [|split; [done|]; split; [done|]; split; [done|]; cbn; by rewrite map_map].
  split; [by eexists|]. split; [by exists []|]. split; [by eexists|]. split; [|by subst tot].
  exists (new_select pages). split; [done|]. unfold select_ok. cbn. by destruct pages.
Qed.

(** ** Where the paging fails *)
Lemma insert_records_short h recs : forall i n a m b t,
  t_head t = [h] -> t_body t = a ++ m ++ b -> b <> [] -> Z.of_nat (length m) = i -> i + Z.of_nat (length recs) < s ->
  exists cls, insert_records id (num_of_Z s) tot (Some (1 + Z.of_nat (length a))) (num_of_Z n) i recs t =
    (Threw, set_trows (t_head t) (a ++ m ++ record_rows n i recs ++
              TRow (line_id id (num_of_Z (n + Z.of_nat (length recs)))) cls [] :: b) t).
Proof.
  induction recs as [|r l IH]; intros i n a m b t Eh Eb Hb Hm Hi; cbn [insert_records length record_rows app] in *;
    rewrite num_ltb_Z, (proj2 (Z.ltb_lt i s)) by lia;
    replace (1 + Z.of_nat (length a) + i) with (1 + Z.of_nat (length (a ++ m))) by (rewrite length_app; lia);
    erewrite bind_done by (apply (insertRow_body h (a ++ m) b); [done|by rewrite Eb, app_assoc|done]).
  - exists (if Z.even i then "trdark" else "trlight"). by rewrite Z.add_0_r, <- app_assoc.
  - rewrite num_add_Z. set (x := TRow _ _ _).
    destruct (IH (i + 1) (n + 1) a (m ++ [x]) b (set_trows (t_head t) ((a ++ m) ++ x :: b) t)) as [cls E];
      cbn [t_head t_body set_trows]; [done|by rewrite <- !app_assoc|done|rewrite length_app; cbn [length]; lia|lia|].
    exists cls. rewrite E. replace (n + Z.of_nat (S (length l))) with (n + 1 + Z.of_nat (length l)) by lia.
    by rewrite <- !app_assoc.
Qed.

(** When the server has fewer records than the page has lines, the page is shown
    with an empty line behind its records, and the handler throws before it notes
    where the table stands. *)
Theorem short_page_throws fuel pg recs t :
  shows [] t -> page_is 1 t -> t_page t = Some pg -> getRecord (Z_to_string s) "1" = Some recs ->
  equals_zero recs = false -> Z.of_nat (length recs) < s -> (0 < fuel)%nat ->
  exists t' cls, findTableRecord id getRecord fuel t = (Threw, t') /\ t_lastpage t' = t_lastpage t /\
    t_body t' = record_rows 0 0 recs ++ [TRow (line_id id (num_of_Z (Z.of_nat (length recs)))) cls []; empty_row].
Proof using Hs.
  intros Hsh (pg' & Epg & Ev) Epg' Ea Eq Hlen Hf. rewrite Epg in Epg'. injection Epg' as <-.
  pose proof Hsh as [(h & Eh & Hh) Eb (z & Ez & Hz) _ Ec]. destruct fuel as [|fuel]; [lia|].
  cbn [findTableRecord]. sc_run. rewrite Ez, Epg. rewrite (record_no_spec z pg' 1), (shows_has []) by (done || lia).
  rewrite bool_decide_eq_false_2 by apply not_elem_of_nil.
  rewrite (sel_option_value _ _ Hz), (sel_option_value _ _ Ev). change (Z_to_string 1) with "1" in *. rewrite Ea, Eq.
  unfold addTableRecord, page_value, size_value. sc_run. rewrite Epg, Ev, Ez, Hz, Ec.
  rewrite toNumber_Z_to_string, parseInt_Z_to_string by lia. cbv beta iota.
  replace (s * (1 - 1)) with 0 by lia.
  replace (find_line id fuel t (num_of_Z 0) (num_of_Z s)) with (Some (num_of_Z 0)) by (by destruct fuel).
  unfold all_rows. rewrite Eh, Eb. cbn [app rows_of map concat row_pos r_id empty_row]. rewrite Hh.
  change (String.eqb "" (line_id id (num_of_Z 0))) with false. cbn [Z.of_nat Pos.of_succ_nat Pos.succ Z.eqb Pos.eqb negb].
  destruct (insert_records_short h recs 0 0 [] [] [empty_row] t) as [cls E]; [done|done|done|done|lia|].
  change (1 + Z.of_nat (length (@nil trow))) with 1 in E. change (Z.of_nat 2 =? 2) with true. cbv iota. rewrite E. exists (set_trows (t_head t) ([] ++ [] ++ record_rows 0 0 recs ++
    [TRow (line_id id (num_of_Z (0 + Z.of_nat (length recs)))) cls []; empty_row]) t), cls. done.
Qed.
End pages.

(** ** Witnesses *)
Definition two_records : list (list string) := [["a||0||t"; "b||1||u"]; ["c||0||v"; "d||2||w"]].
Definition demo_records (size page : string) : option (list (list string)) := Some two_records.

Lemma demo_answers p : good 2 (fun _ => two_records) p ->
  demo_records (Z_to_string 2) (Z_to_string p) = Some two_records /\ equals_zero two_records = false.
Proof. intros _. split; [done|by vm_compute]. Qed.

Definition paged_table : table :=
  Table true (Some "5") (Some (new_select ["2"; "5"])) (Some (new_select ["1"])) None "2" "1" "" []
    [empty_row] [empty_row] "" "relative" "" "" "" (num_of_Z 0) (num_of_Z 0) [].

Lemma paged_table_ready : table_ready "2" 2 (fun _ => two_records) 5 3 paged_table.
Proof.
  split; [by exists empty_row|]. split; [by exists []|]. split; [by exists (new_select ["2"; "5"])|].
  split; [by exists (new_select ["1"])|]. do 3 (split; [done|]). split; [done|]. split; [lia|].
  intros p Hp. split; [lia|done].
Qed.

Lemma pages_in_order_witness :
  exists t', (setTableSize "X" demo_records 10 ;;; for_each (choose_page "X" demo_records 10) [2; 1; 2]%nat) paged_table
    = (Done tt, t') /\ shows "X" "2" 2 (fun _ => two_records) [1; 2; 3] t'.
Proof.
  destruct (pages_in_order "X" "2" 2 (fun _ => two_records) ltac:(lia) demo_records (eq_refl : uses (H := demo_browser) "Chrome" = false) demo_answers 10 5 3
    [2; 1; 2]%nat paged_table paged_table_ready ltac:(repeat constructor) ltac:(lia)) as (t' & H1 & H2 & _).
  exact (ex_intro _ t' (conj H1 H2)).
Defined.

Lemma table_built_witness :
  exists t', (setTableHeader ["Host||0"; "Hits||1"] ;;; setTableNevi 5 (Some [2; 5]) 5 true) paged_table = (Done tt, t') /\
    table_ready "2" 2 (fun _ => two_records) 5 3 t'.
Proof.
  destruct (table_built "2" 2 (fun _ => two_records) ltac:(lia) 5 ["Host||0"; "Hits||1"] [5] 5 true paged_table
    ltac:(lia) ltac:(lia) eq_refl ltac:(vm_compute; discriminate) ltac:(intros p Hp; split; [lia|done]))
    as (t' & H1 & H2 & _).
  exact (ex_intro _ t' (conj H1 H2)).
Defined.

Definition one_record (size page : string) : option (list (list string)) := Some [["a||0||t"; "b||1||u"]].
Definition paged_empty : table :=
  Table true (Some "5") (Some (new_select ["2"; "5"])) (Some (new_select ["1"; "2"; "3"])) None "2" "3" "2" []
    [empty_row] [empty_row] "" "relative" "" "" "" (num_of_Z 0) (num_of_Z 0) [].

Lemma short_page_throws_witness :
  exists t' cls, findTableRecord "X" one_record 4 paged_empty = (Threw, t') /\ t_lastpage t' = "3" /\
    length (t_body t') = 3%nat /\ r_cells <$> t_body t' !! 1%nat = Some [] /\ cls = "trlight".
Proof.
  destruct (short_page_throws "X" "2" 2 (fun _ => two_records) ltac:(lia) one_record 4 (new_select ["1"; "2"; "3"])
    [["a||0||t"; "b||1||u"]] paged_empty) as (t' & cls & H1 & H2 & H3).
  - split; [by exists empty_row|done|by exists (new_select ["2"; "5"])|done|done].
  - by exists (new_select ["1"; "2"; "3"]).
  - done.
  - done.
  - by vm_compute.
  - done.
  - lia.
  - exists t', "trlight". rewrite H1, H3. done.
Defined.

(** ** Flaws of the paging *)

(** Pages of one line: the third page is put in front of the first. *)
Lemma size_one_out_of_order :
  map r_id (t_body (snd ((setTableSize "X" one_record 10 ;;; for_each (choose_page "X" one_record 10) [1; 2]%nat)
    (Table true (Some "5") (Some (new_select ["1"; "2"])) (Some (new_select ["1"])) None "2" "1" "" []
      [empty_row] [empty_row] "" "relative" "" "" "" (num_of_Z 0) (num_of_Z 0) [])))) =
  ["LineX_2"; "LineX_0"; "LineX_1"; ""].
Proof. by vm_compute. Qed.

(** Chrome, page 2, a new size: the line of headings is gone with the old rows, but
    [lastpage] still says that it is there, and the handler throws. *)
Definition chrome : Browser := {| userAgent := "Chrome"; parse_html := fun _ => []; html_of := fun s _ => s; frac_string := fun _ => "" |}.
Definition chrome_table : table :=
  Table true (Some "5") (Some (new_select ["2"; "5"])) (Some (new_select ["1"])) None "1" "1" ""
    [Heading "" "Host"] [empty_row] [empty_row] "" "relative" "" "" "" (num_of_Z 0) (num_of_Z 0) [].

Lemma chrome_size_change_throws :
  fst ((setTableSize (H := chrome) "X" demo_records 10 ;;; choose_page (H := chrome) "X" demo_records 10 1) chrome_table)
    = Done tt /\
  fst ((setTableSize (H := chrome) "X" demo_records 10 ;;; choose_page (H := chrome) "X" demo_records 10 1 ;;;
        setTableSize (H := chrome) "X" demo_records 10) chrome_table) = Threw.
Proof. split; by vm_compute. Qed.

Section flaws.
Context `{Browser} `{Window} (id : string) (getRecord : string -> string -> option (list (list string))).

Lemma find_line_no_step fuel t i :
  num_gtb i (num_of_Z 0) = true -> has_row (line_id id i) t = false -> num_sub i (num_of_Z 0) = i ->
  find_line id fuel t i (num_of_Z 0) = None.
Proof.
  intros Hi Hr Hz. induction fuel as [|fuel IH]; cbn [find_line]; rewrite Hi, Hr; [done|]. by rewrite Hz.
Qed.

(** Without a list of sizes, and before a size was set, [pageSize] is empty, and
    the search for the line to insert behind never ends. *)
Theorem no_size_diverges fuel t record :
  t_size t = None -> t_pageSize t = "" -> t_page t = None ->
  has_row (line_id id (num_of_Z 1)) t = false ->
  getRecord "" "1" = Some record -> equals_zero record = false ->
  findTableRecord id getRecord fuel t = (OutOfFuel, t).
Proof.
  intros Hz Hs Hp Hr Hg Hq. destruct fuel as [|fuel]; [done|]. cbn [findTableRecord]. sc_run.
  rewrite Hz, Hr, Hs, Hg, Hq. unfold addTableRecord, page_value, size_value. sc_run. rewrite Hp, Hz, Hs.
  change (toNumber "") with (num_of_Z 0). by rewrite (find_line_no_step fuel t (num_of_Z 1)).
Qed.

(** [hideTable] switches the table on and off; the text it sets is that of the state
    it leaves, not of what the next click does. *)
Lemma hideTable_spec t lbl :
  t_hide t = Some lbl -> t_position t = "relative" ->
  exists t1 t2, hideTable t = (Done tt, t1) /\ t_visibility t1 = "hidden" /\ t_hide t1 = Some "[Hide]" /\
    hideTable t1 = (Done tt, t2) /\ t_visibility t2 = "" /\ t_position t2 = "relative" /\ t_hide t2 = Some "[Show]".
Proof.
  intros Hh Hp. do 2 eexists. split; [unfold hideTable; sc_run; rewrite Hp; cbn; rewrite Hh; reflexivity|].
  do 2 (split; [done|]). split; [unfold hideTable; sc_run; cbn; reflexivity|]. done.
Qed.
End flaws.

Definition sizeless_table : table :=
  Table true None None None None "2" "1" "" [] [empty_row] [empty_row]
    "" "relative" "" "" "" (num_of_Z 0) (num_of_Z 0) [].

Lemma no_size_diverges_witness :
  findTableRecord "X" demo_records 7 sizeless_table = (OutOfFuel, sizeless_table).
Proof. exact (no_size_diverges "X" demo_records 7 sizeless_table two_records eq_refl eq_refl eq_refl eq_refl eq_refl eq_refl). Defined.
