(* ===== verification/Desk.v ===== *)
(** * Pages with combo boxes and pop-up lists
    The state that combo.js and popup.js share: the widgets of the page by the id of
    their main element, the global variables [currentEle] and [popupForm], the timers
    that are pending, and what the scripts did outside (dialogs, focus, calls). *)
From stdpp Require Import gmap.
From S2P Require Import Prelude JsString JsNum JsVal Ui Dom PopupForm Script.
Open Scope Z_scope.

(** ** Combo boxes *)

(** An item of the list.  [i_nodes] are the text of its first child and the markup of
    its second one, where it has them. *)
Record item := Item {
  i_id : string;
  i_class : string;
  i_html : string;             (** [innerHTML] *)
  i_text : option string;      (** [childNodes[0].nodeValue] *)
  i_value : option string;     (** [childNodes[1].innerHTML] *)
  i_border : string;           (** [style.borderBottom] *)
  i_hover : bool               (** has the handlers of [highlightdiv] *)
}.

(** [Combo_body<id>] *)
Record clist := CList { l_class : string; l_width : string; l_items : list item }.

Record combo := Combo {
  co_flag : string;            (** [comboFlag<id>] *)
  co_onselect : option string; (** [comboOnSelect<id>] *)
  co_select : string;          (** [Combo_select<id>.innerHTML] *)
  co_select_class : string;
  co_button_class : string;
  co_list : option clist;
  co_title : string;
  co_width : string
}.

(** [show_combo_body] *)
Record shelf := Shelf { s_visibility : string; s_top : string; s_left : string; s_height : string; s_width : string }.

(** ** Pop-up lists *)

(** A check box of the list: value, state, the id kept beside it ([None] for [Any]),
    the text shown, the picture in front of it. *)
Record checkbox := CheckBox {
  k_value : string; k_checked : bool; k_id : option string; k_text : string; k_image : option string
}.

(** [value<name>]: text, title and look of the field that opens the list. *)
Record label := Label {
  lb_text : option string; lb_title : string; lb_background : string; lb_height : string; lb_visibility : string
}.

(** The content of [popupbody<name>]. *)
Record boxes := Boxes {
  bx_all : option bool;          (** [popupselectAll<name>] *)
  bx_list : list checkbox;       (** [popupselect<name>_<i>] *)
  bx_none : bool                 (** shows "Record not Available" *)
}.

(** [frame<name>]: only in Internet Explorer 6 *)
Record frame := Frame { f_height : string; f_width : string; f_display : string }.
(** [popup<name>] on the screen *)
Record spot := Spot { sp_visibility : string; sp_top : string; sp_left : string; sp_width : string; sp_frame : option frame }.

Record popup := Popup {
  p_radios : list (string * bool);  (** [popupratio<name>_<i>]: value and state *)
  p_single : option string;         (** [popupratio<name>]: the only group *)
  p_label : label;
  p_selectedCat : string;
  p_selectedItems : string;
  p_disable : string;
  p_newele : string;
  p_height : string;                (** [mypopupheight<name>] *)
  p_search : string;                (** [searchpopup<name>] *)
  p_all : string;                   (** [allelements<name>] *)
  p_boxes : boxes;
  p_spot : spot
}.

(** ** The page *)
Inductive timer :=
| SetOpen (id component : string)   (** [setOpenComponent(id, component)] *)
| FocusOn (element : string).
#[export] Instance timer_eq_dec : EqDecision timer.
Proof. solve_decision. Defined.

Record page := Page {
  pg_ids : gset string;             (** the elements of the page's own markup *)
  pg_current : string;              (** [currentEle] *)
  pg_popupForm : Z;
  pg_timers : list (timer * Z);     (** what to do, and after how many milliseconds *)
  pg_combos : gmap string combo;
  pg_popups : gmap string popup;
  pg_shelf : option shelf;
  pg_log : list effect
}.

Abbreviation P := (Sc page).

Definition set_current (c : string) (p : page) : page :=
  Page (pg_ids p) c (pg_popupForm p) (pg_timers p) (pg_combos p) (pg_popups p) (pg_shelf p) (pg_log p).
Definition set_timers (l : list (timer * Z)) (p : page) : page :=
  Page (pg_ids p) (pg_current p) (pg_popupForm p) l (pg_combos p) (pg_popups p) (pg_shelf p) (pg_log p).
Definition set_combos (m : gmap string combo) (p : page) : page :=
  Page (pg_ids p) (pg_current p) (pg_popupForm p) (pg_timers p) m (pg_popups p) (pg_shelf p) (pg_log p).
Definition set_popups (m : gmap string popup) (p : page) : page :=
  Page (pg_ids p) (pg_current p) (pg_popupForm p) (pg_timers p) (pg_combos p) m (pg_shelf p) (pg_log p).
Definition set_shelf (s : option shelf) (p : page) : page :=
  Page (pg_ids p) (pg_current p) (pg_popupForm p) (pg_timers p) (pg_combos p) (pg_popups p) s (pg_log p).
Definition add_log (e : effect) (p : page) : page :=
  Page (pg_ids p) (pg_current p) (pg_popupForm p) (pg_timers p) (pg_combos p) (pg_popups p) (pg_shelf p) (pg_log p ++ [e]).

Definition setTimeout (t : timer) (ms : Z) : P unit := modify (fun p => set_timers (pg_timers p ++ [(t, ms)]) p).

Definition setOpenComponent (id component : string) : P unit := modify (set_current (id +++ "|" +++ component)).

(** An element of the page's own markup; throws when it is missing. *)
Definition main_element (id : string) : P unit :=
  p ← get; if bool_decide (id ∈ pg_ids p) then mret tt else raise.

Lemma main_element_in id p : id ∈ pg_ids p -> main_element id p = (Done tt, p).
Proof. intros Hid. unfold main_element. sc_run. by rewrite bool_decide_eq_true_2. Qed.

(** A timer runs out. *)
Definition fire (t : timer) : P unit :=
  match t with
  | SetOpen id component => setOpenComponent id component
  | FocusOn e => modify (add_log (Focus e))
  end.

(** ** Places on the screen *)
Class Place := {
  offLeft : string -> Z;
  offTop : string -> Z;
  offWidth : string -> Z;
  offHeight : string -> Z;
  (** the elements around an element, innermost first, the document left out:
      tag, [offsetLeft], [offsetTop] *)
  ancestors : string -> list (string * Z * Z);
  appVersion : string
}.

(** [ele.innerHTML] of an item made of a text and a hidden element with a value. *)
Class Serialize := { item_html : string -> string -> string -> string }.

Definition msie `{Window} : bool := String.eqb appName "Microsoft Internet Explorer".

(** A page to try the theorems on. *)
#[export] Instance demo_place : Place := {
  offLeft := fun _ => 100; offTop := fun _ => 50; offWidth := fun _ => 200; offHeight := fun _ => 120;
  ancestors := fun _ => [("TD", 7, 9); ("TR", 1, 2); ("DIV", 10, 20)];
  appVersion := "5.0 (X11)"
}.
#[export] Instance demo_serialize : Serialize := {
  item_html := fun text id value => text +++ "<div>" +++ value +++ "</div>"
}.
Definition demo_page : page :=
  Page {["cat"; "host"]} "" 0 [] ∅ ∅ (Some (Shelf "hidden" "" "" "20px" "")) [].
