(* ===== verification/Combo.v ===== *)
(** * Combo boxes (combo.js)
    Each function of the file as a script over the page.  The markup of an item that
    is made of a text and a hidden value is the class [Serialize]; lengths are read by
    the browser ([assign_length]). *)
From stdpp Require Import gmap.
From S2P Require Import Prelude JsString JsNum JsVal Ui Dom PopupForm Script Desk.
Open Scope Z_scope.

Section combo.
Context `{Browser} `{Window} `{Place} `{Serialize}.

(** ** Access to the elements of a combo box *)
Definition combo_of (id : string) : P combo := p ← get; needed (pg_combos p !! id).
Definition list_of (id : string) : P clist := c ← combo_of id; needed (co_list c).
Definition shelf_of : P shelf := p ← get; needed (pg_shelf p).

Definition on_combo (id : string) (f : combo -> combo) : P unit :=
  modify (fun p => set_combos (alter f id (pg_combos p)) p).
Definition with_list (f : clist -> clist) (c : combo) : combo :=
  Combo (co_flag c) (co_onselect c) (co_select c) (co_select_class c) (co_button_class c) (f <$> co_list c)
    (co_title c) (co_width c).
Definition with_select (s : string) (c : combo) : combo :=
  Combo (co_flag c) (co_onselect c) s (co_select_class c) (co_button_class c) (co_list c) (co_title c) (co_width c).
Definition with_title (s : string) (c : combo) : combo :=
  Combo (co_flag c) (co_onselect c) (co_select c) (co_select_class c) (co_button_class c) (co_list c) s (co_width c).
Definition with_items (f : list item -> list item) : combo -> combo :=
  with_list (fun l => CList (l_class l) (l_width l) (f (l_items l))).
Definition with_list_class (s : string) : combo -> combo :=
  with_list (fun l => CList s (l_width l) (l_items l)).
Definition with_list_width (s : string) : combo -> combo :=
  with_list (fun l => CList (l_class l) s (l_items l)).
Definition item_class (s : string) (i : item) : item :=
  Item (i_id i) s (i_html i) (i_text i) (i_value i) (i_border i) (i_hover i).
Definition item_border (s : string) (i : item) : item :=
  Item (i_id i) (i_class i) (i_html i) (i_text i) (i_value i) s (i_hover i).
Definition item_hover (i : item) : item :=
  Item (i_id i) (i_class i) (i_html i) (i_text i) (i_value i) (i_border i) true.

(** The first element with this id. *)
Fixpoint find_item (i : string) (l : list item) : option item :=
  match l with [] => None | x :: l => if String.eqb (i_id x) i then Some x else find_item i l end.
Fixpoint map_item (i : string) (f : item -> item) (l : list item) : list item :=
  match l with [] => [] | x :: l => if String.eqb (i_id x) i then f x :: l else x :: map_item i f l end.

Definition combo_item_id (id index : string) : string := "Combo_item" +++ id +++ "_" +++ index.
Definition item_of (id i : string) : P item := l ← list_of id; needed (find_item i (l_items l)).
(** [document.getElementById(i).className = f(className)] *)
Definition change_class (id i : string) (f : string -> string) : P unit :=
  x ← item_of id i; on_combo id (with_items (map_item i (item_class (f (i_class x))))).

(** ** Mouse over an item *)
Definition highlightdiv (id : string) : P unit :=
  _ ← list_of id;
  on_combo id (with_items (map (fun x => if contains (i_class x) "Combo_item" then item_hover x else x))).

Definition item_over (x : item) : item := if i_hover x then item_class (i_class x +++ "_hilite") x else x.
Definition item_out (x : item) : item := if i_hover x then item_class (replace_first "_hilite" "" (i_class x)) x else x.

(** ** Opening and closing *)
Definition showCombo (id : string) : P unit :=
  s ← shelf_of;
  modify (set_shelf (Some (Shelf "" (s_top s) (s_left s) (s_height s) (s_width s)))) ;;;
  main_element id ;;;
  modify (set_shelf (Some (Shelf "" (assign_length (s_top s) (Z_to_string (offTop id + 44)))
    (let l := assign_length (s_left s) (Z_to_string (offLeft id + 2)) in
     if msie then assign_length l (Z_to_string (offLeft id + 4)) else l)
    (s_height s) (s_width s)))) ;;;
  setTimeout (SetOpen id "combo") 1.

Definition realyHideCombo (id : string) : P unit :=
  setTimeout (SetOpen "" "") 1 ;;;
  _ ← list_of id;
  on_combo id (with_list_class "hidden").

(** Offsets of an element in the page: its own and those around it, rows and forms
    left out. *)
Definition page_offset (id : string) : Z * Z :=
  fold_left (fun xy a => match a with
    | (tag, l, t) => if negb (String.eqb tag "TR") && negb (String.eqb tag "FORM")
                     then (fst xy + l, snd xy + t) else xy end)
    (ancestors id) (offLeft id, offTop id).

Definition in_rectangle (x1 y1 x2 y2 X Y : Z) : bool := (x1 <? X) && (X <? x2) && (y1 <? Y) && (Y <? y2).

Definition hideCombo (id : string) (X Y : Z) : P unit :=
  main_element id ;;;
  _ ← list_of id;
  let '(x1, y1) := page_offset id in
  let x2 := x1 + offWidth ("Combo_body" +++ id) in
  let y2 := y1 + offHeight ("Combo_body" +++ id) + 40 in
  if in_rectangle x1 y1 x2 y2 X Y then mret tt else realyHideCombo id.

Definition showComboBody (id : string) : P unit :=
  main_element id ;;;
  l ← list_of id;
  if negb (String.eqb (l_class l) "hidden") then
    on_combo id (with_list_class "hidden") ;;; setOpenComponent "" ""
  else
    on_combo id (with_list_class "Combo_body") ;;; setTimeout (SetOpen id "combo") 5.

(** ** Building *)

(** The elements found by id are the first ones: a second box with the same id
    changes nothing but the main element. *)
Definition add_combo (id : string) (c : combo) : P unit :=
  modify (fun p => set_combos (partial_alter (fun o => Some (default c o)) id (pg_combos p)) p).
Definition set_width (id w : string) : P unit :=
  on_combo id (fun c => Combo (co_flag c) (co_onselect c) (co_select c) (co_select_class c) (co_button_class c)
                          (co_list c) (co_title c) w).

Definition less (w : string) (n : Z) : string := str (num_sub (of_parse (parseInt w)) (num_of_Z n)) +++ "px".

Definition setComboMainContainer (id width selection : string) : P unit :=
  main_element id ;;;
  let two := num_eqb (toNumber selection) (num_of_Z 2) in
  let w := assign_length "" width in
  add_combo id (Combo selection None "" (if two then "Main_Combo_select" else "Combo_select")
                  (if two then "hidden" else "Combo_button") None "" w) ;;;
  set_width id w ;;;
  s ← shelf_of;
  modify (set_shelf (Some (Shelf (s_visibility s) (s_top s) (s_left s) (assign_length (s_height s) "20px") (s_width s)))) ;;;
  on_combo id (fun c => Combo (co_flag c) (co_onselect c) (co_select c) (co_select_class c) (co_button_class c)
    (Some (default (CList "" (assign_length "" (less w (if msie then 2 else 22))) []) (co_list c))) (co_title c) (co_width c)) ;;;
  setTimeout (SetOpen "" "") 1 ;;;
  showCombo id ;;;
  realyHideCombo id.

Definition setComboBox (id width mainid onselect : string) : P unit :=
  main_element id ;;;
  let w := assign_length "" width in
  add_combo id (Combo mainid (Some onselect) "Select item" "Combo_select" "Combo_button"
                  (Some (CList "hidden" "" [])) "" w) ;;;
  set_width id w.

Definition setSelectedText (id text : string) : P unit := _ ← combo_of id; on_combo id (with_select text).
Definition getSelectedText (id : string) : P string := c ← combo_of id; mret (co_select c).

(** ** Items *)

(** [for(x of arr)]: the items of insertElements, whose text is their markup. *)
Definition plain_item (id : string) (x : Z) (text : string) : item :=
  Item (combo_item_id id (Z_to_string x)) "Combo_item_single" text (Some text) None "" false.

Fixpoint items_from (f : Z -> string -> item) (x : Z) (arr : list string) : list item :=
  match arr with [] => [] | a :: arr => f x a :: items_from f (x + 1) arr end.

Definition insertElements (id : string) (arr : list string) : P unit :=
  _ ← combo_of id;
  _ ← list_of id;
  on_combo id (with_items (fun l => l ++ items_from (plain_item id) 0 arr)) ;;;
  highlightdiv id.

(** An item of insertElement and insertAllElements: text, value, selected. *)
Definition data_class (flag : string) (arrData : list string) : string :=
  match arrData !! 2%nat with
  | Some s => if negb (String.eqb s "") && num_eqb (toNumber s) (num_of_Z 1) then "Combo_item_select"
              else if num_eqb (toNumber flag) (num_of_Z 2) then "Combo_item" else "Combo_item_single"
  | None => if num_eqb (toNumber flag) (num_of_Z 2) then "Combo_item" else "Combo_item_single"
  end.

Definition data_item (flag id border : string) (x : Z) (s : string) : item :=
  let arrData := js_split s "|" in
  let text := default "" (arrData !! 0%nat) in
  let value := default text (arrData !! 1%nat) in
  let n := Z_to_string x in
  Item (combo_item_id id n) (data_class flag arrData)
    (item_html text ("Combo_item_value" +++ id +++ "_" +++ n) value) (Some text) (Some value) border false.

Definition is_selected (x : item) : bool := contains (i_class x) "_select".

Definition getSelectedItem (id : string) : P string :=
  c ← combo_of id; mret (if String.eqb (co_select c) "Select item" then "" else co_select c).

(** Values of the selected items; one with the value -1 stands for all. *)
Fixpoint selected_values (l : list item) : option (string + list string) :=
  match l with
  | [] => Some (inr [])
  | x :: l =>
      if is_selected x then
        v ← i_value x;
        if String.eqb v "-1" then Some (inl "-1")
        else r ← selected_values l; Some (match r with inl s => inl s | inr vs => inr (v :: vs) end)
      else selected_values l
  end.
Definition getSelectedItems (id : string) : P (string + list string) :=
  l ← list_of id; needed (selected_values (l_items l)).

Fixpoint selected_texts (l : list item) : option (list string) :=
  match l with
  | [] => Some []
  | x :: l => if is_selected x then t ← i_text x; r ← selected_texts l; Some (t :: r) else selected_texts l
  end.
Definition getSelectedItemsValue (id : string) : P (list string) :=
  l ← list_of id; needed (selected_texts (l_items l)).

Fixpoint selected_positions (i : nat) (l : list item) : list nat :=
  match l with
  | [] => []
  | x :: l => if is_selected x then i :: selected_positions (S i) l else selected_positions (S i) l
  end.
Definition getSelectedIndex (id : string) : P (list nat) :=
  l ← list_of id; mret (selected_positions 0 (l_items l)).

(** [combo.title = getSelectedItemsValue(id)] *)
Definition set_title (id : string) : P unit :=
  main_element id ;;;
  v ← getSelectedItemsValue id;
  on_combo id (with_title (join "," v)).

Definition insertElement (id it : string) : P unit :=
  l ← list_of id;
  c ← combo_of id;
  main_element id ;;;
  let n := Z.of_nat (length (l_items l)) in
  cond (0 <? n) (
    let prev := combo_item_id id (Z_to_string (n - 1)) in
    _ ← item_of id prev;
    on_combo id (with_items (map_item prev (item_border "0px solid #9AA5AB")))) ;;;
  s ← shelf_of;
  modify (set_shelf (Some (Shelf (s_visibility s) (s_top s) (s_left s)
    (assign_length (s_height s) (str (num_add (of_parse (parseInt (s_height s))) (num_of_Z 21)) +++ "px"))
    (assign_length (s_width s) (co_width c))))) ;;;
  on_combo id (with_items (fun l => l ++ [data_item (co_flag c) id "1px solid #9AA5AB" n it])) ;;;
  set_title id ;;;
  highlightdiv id.

Definition insertAllElements (id : string) (arr : list string) : P unit :=
  c ← combo_of id;
  _ ← list_of id;
  main_element id ;;;
  on_combo id (with_list (fun l => CList (l_class l) (assign_length (l_width l) (co_width c)) (l_items l))) ;;;
  on_combo id (with_items (fun l => l ++ items_from (data_item (co_flag c) id "") 0 arr)) ;;;
  set_title id ;;;
  highlightdiv id.

(** ** Looking for items *)

(** [childNodes[x].childNodes[1].innerHTML == value]; [None]: a child without second node. *)
Fixpoint index_from (value : string) (x : Z) (l : list item) : option Z :=
  match l with
  | [] => Some (-1)
  | i :: l => v ← i_value i; if String.eqb v value then Some x else index_from value (x + 1) l
  end.
Definition getElementIndex (id value : string) : P Z := l ← list_of id; needed (index_from value 0 (l_items l)).
Definition getAllEle (id : string) : P (list string) := l ← list_of id; mret (map i_html (l_items l)).
Definition getItemByIndex (id index : string) : P string :=
  x ← item_of id (combo_item_id id index); needed (i_value x).

(** ** Selecting *)

(** [for(i=1; i<childNodes.length; i++)]: the others lose their mark while the clicked
    item has one. *)
Fixpoint clear_others (id index : string) (i : Z) (n : nat) : P unit :=
  match n with
  | O => mret tt
  | S n =>
      _ ← item_of id (combo_item_id id (Z_to_string i));
      ele ← item_of id (combo_item_id id index);
      cond (is_selected ele)
        (change_class id (combo_item_id id (Z_to_string i)) (replace_first "_select" "")) ;;;
      clear_others id index (i + 1) n
  end.

Definition toggle_class (cls : string) : string :=
  if contains cls "_select" then replace_first "_select" "" (replace_first "_hilite" "" cls)
  else replace_first "_hilite" "" cls +++ "_select".

Definition selectComboItem (id index : string) (selectionFlag : bool) : P unit :=
  let eid := combo_item_id id index in
  c ← combo_of id;
  (if num_eqb (toNumber (co_flag c)) (num_of_Z 2) then
     change_class id eid toggle_class ;;;
     v ← getItemByIndex id index;
     (if String.eqb v "-1" then
        l ← list_of id;
        clear_others id index 1 (length (l_items l) - 1)
      else change_class id (combo_item_id id "0") (replace_first "_select" "")) ;;;
     showCombo id
   else
     ele ← item_of id eid;
     on_combo id (with_select (i_html ele))) ;;;
  c ← combo_of id;
  func ← needed (co_onselect c);
  cond (negb (String.eqb func "undefined") && selectionFlag) (
    ele ← item_of id eid;
    v ← needed (i_value ele);
    modify (add_log (Call (func +++ "('" +++ v +++ "')")))).

(** The handler of an item: the box and the position are read from the item's id.
    [insertElement] passes the event, [insertAllElements] passes 1. *)
Definition item_click (str : string) : P unit :=
  let index := lastIndexOf str "_" in
  let myid := substring2 str 10 index in
  let pos := substring1 str (index + 1) in
  selectComboItem myid pos true.

(** The handler of the items of [insertElements]: the page's own [selectCombo]. *)
Definition plain_click (str : string) : P unit :=
  let index := lastIndexOf str "_" in
  let myid := substring2 str 10 index in
  let pos := substring1 str (index + 1) in
  modify (add_log (Call ("selectCombo('" +++ myid +++ "','" +++ pos +++ "')"))).
End combo.
