(* ===== verification/ComboSpec.v ===== *)
(** * What the combo boxes do
    The classes of the items as a type ([classes_ok], kept by every script), the
    selection of a list with several choices as a set of positions, single choice,
    and the handler of an item. *)
From stdpp Require Import gmap.
From S2P Require Import Prelude JsString JsNum JsVal Ui Dom PopupForm Script Desk Combo.
Open Scope Z_scope.

(** ** Classes of items *)

(** The class of an item: single or multiple choice, selected, under the mouse. *)
Definition cls (single sel hil : bool) : string :=
  "Combo_item" +++ (if single then "_single" else "") +++ (if sel then "_select" else "") +++ (if hil then "_hilite" else "").

Lemma cls_selected b s h : contains (cls b s h) "_select" = s.
Proof. by destruct b, s, h. Qed.
Lemma cls_item b s h : contains (cls b s h) "Combo_item" = true.
Proof. by destruct b, s, h. Qed.
Lemma cls_toggle b s h : toggle_class (cls b s h) = cls b (negb s) false.
Proof. by destruct b, s, h. Qed.
Lemma cls_unselect b s h : replace_first "_select" "" (cls b s h) = cls b false h.
Proof. by destruct b, s, h. Qed.
Lemma cls_over b s : cls b s false +++ "_hilite" = cls b s true.
Proof. by destruct b, s. Qed.
Lemma cls_out b s h : replace_first "_hilite" "" (cls b s h) = cls b s false.
Proof. by destruct b, s, h. Qed.

Section spec.
Context `{Browser} `{Window} `{Place} `{Serialize}.

Lemma data_class_ok flag arr : exists b s, data_class flag arr = cls b s false.
Proof.
  unfold data_class. destruct (arr !! 2%nat); repeat case_if;
    first [by exists false, true | by exists false, false | by exists true, false].
Qed.

(** Only the item under the mouse (at [hov]) is highlighted. *)
Definition classes_ok (hov : option nat) (l : list item) : Prop :=
  forall j x, l !! j = Some x -> exists b s h, i_class x = cls b s h /\ (h = true -> hov = Some j /\ i_hover x = true).

(** ** Items by id *)
Lemma map_item_lookup i f l j y :
  map_item i f l !! j = Some y ->
  l !! j = Some y \/ exists x, l !! j = Some x /\ find_item i l = Some x /\ y = f x.
Proof.
  revert j. induction l as [|x l IH]; intros j Hy; [done|]. cbn [map_item find_item] in *.
  destruct (String.eqb (i_id x) i) eqn:E.
  - destruct j as [|j]; cbn in *; [injection Hy as <-; right; by exists x|by left].
  - destruct j as [|j]; cbn in *; [by left|]. by apply IH.
Qed.

Lemma find_item_lookup i l x : find_item i l = Some x -> exists j, l !! j = Some x /\ i_id x = i.
Proof.
  induction l as [|y l IH]; [done|]. cbn [find_item]. destruct (String.eqb (i_id y) i) eqn:E; bool_to_prop.
  - intros [= <-]. by exists O.
  - intros Hf. destruct (IH Hf) as (j & Hj & Hi). by exists (S j).
Qed.

(** A change of classes that at most takes the highlight away. *)
Definition keeps_class (f : string -> string) : Prop :=
  forall b s h, exists s' h', f (cls b s h) = cls b s' h' /\ (h' = true -> h = true).

Lemma keeps_toggle : keeps_class toggle_class.
Proof. intros b s h. exists (negb s), false. by rewrite cls_toggle. Qed.
Lemma keeps_unselect : keeps_class (replace_first "_select" "").
Proof. intros b s h. exists false, h. by rewrite cls_unselect. Qed.

Lemma classes_ok_map_item hov i f x l :
  find_item i l = Some x -> keeps_class f -> classes_ok hov l ->
  classes_ok hov (map_item i (item_class (f (i_class x))) l).
Proof.
  intros Hx Hf Hl j y Hy. apply map_item_lookup in Hy as [Hy|(x' & Hj & Hx' & ->)]; [by apply Hl|].
  rewrite Hx in Hx'. injection Hx' as <-. destruct (Hl j x Hj) as (b & s & h & Ex & Hh).
  destruct (Hf b s h) as (s' & h' & E' & Hh'). exists b, s', h'. cbn. rewrite Ex. auto.
Qed.

Lemma classes_ok_same hov f l :
  (forall x, i_class (f x) = i_class x /\ (i_hover x = true -> i_hover (f x) = true)) -> classes_ok hov l -> classes_ok hov (map f l).
Proof.
  intros Hf Hl j y Hy. rewrite list_lookup_fmap in Hy. destruct (l !! j) as [x|] eqn:E; [|done].
  injection Hy as <-. destruct (Hl j x E) as (b & s & h & Ex & Hh). destruct (Hf x) as [E1 E2].
  exists b, s, h. rewrite E1. split; [done|]. intros Eh. destruct (Hh Eh). auto.
Qed.

Lemma classes_ok_same_item hov i f l :
  (forall x, i_class (f x) = i_class x /\ (i_hover x = true -> i_hover (f x) = true)) -> classes_ok hov l -> classes_ok hov (map_item i f l).
Proof.
  intros Hf Hl j y Hy. apply map_item_lookup in Hy as [Hy|(x & Hj & _ & ->)]; [by apply Hl|].
  destruct (Hl j x Hj) as (b & s & h & Ex & Hh). destruct (Hf x) as [E1 E2].
  exists b, s, h. rewrite E1. split; [done|]. intros Eh. destruct (Hh Eh). auto.
Qed.

Lemma classes_ok_app hov l k :
  classes_ok hov l -> Forall (fun x => exists b s, i_class x = cls b s false) k -> classes_ok hov (l ++ k).
Proof.
  intros Hl Hk j x Hx. apply lookup_app_Some in Hx as [Hx|[_ Hx]]; [by apply Hl|].
  rewrite Forall_lookup in Hk. destruct (Hk _ _ Hx) as (b & s & E). by exists b, s, false.
Qed.

Lemma items_from_Forall (Q : item -> Prop) f x arr :
  (forall x a, Q (f x a)) -> Forall Q (items_from f x arr).
Proof. intros Hf. revert x. induction arr as [|a arr IH]; intros x; cbn; by constructor. Qed.

(** ** The classes are kept *)

Definition items_of (c : combo) : list item := match co_list c with Some l => l_items l | None => [] end.

(** The item under the mouse: box and position. *)
Definition hov_in (hov : option (string * nat)) (id : string) : option nat :=
  match hov with Some (i, j) => if String.eqb i id then Some j else None | None => None end.

Definition classes_inv (hov : option (string * nat)) (p : page) : Prop :=
  forall id c, pg_combos p !! id = Some c -> classes_ok (hov_in hov id) (items_of c).

Section keeps.
Context (hov : option (string * nat)).
Abbreviation K m := (keeps (classes_inv hov) m).

Lemma keeps_on_combo id f :
  (forall c, classes_ok (hov_in hov id) (items_of c) -> classes_ok (hov_in hov id) (items_of (f c))) ->
  K (on_combo id f).
Proof.
  intros Hf. apply keeps_modify. intros p Hp id' c Hc. cbn in Hc.
  destruct (decide (id' = id)) as [->|Hne].
  - rewrite lookup_alter_eq in Hc. destruct (pg_combos p !! id) as [c0|] eqn:E; [|done]. injection Hc as <-.
    by apply Hf, Hp.
  - rewrite lookup_alter_ne in Hc by done. by apply Hp.
Qed.

Lemma keeps_items id f :
  (forall l, classes_ok (hov_in hov id) l -> classes_ok (hov_in hov id) (f l)) -> K (on_combo id (with_items f)).
Proof.
  intros Hf. apply keeps_on_combo. intros c Hc. unfold items_of, with_items, with_list in *. cbn.
  destruct (co_list c); [by apply Hf|done].
Qed.

Lemma keeps_same_items id f : (forall c, items_of (f c) = items_of c) -> K (on_combo id f).
Proof. intros Hf. apply keeps_on_combo. intros c. by rewrite Hf. Qed.

Lemma keeps_list id f : (forall l, l_items (f l) = l_items l) -> K (on_combo id (with_list f)).
Proof. intros Hf. apply keeps_same_items. intros c. unfold items_of, with_list. cbn. destruct (co_list c); [apply Hf|done]. Qed.

Lemma keeps_same_combos f : (forall p, pg_combos (f p) = pg_combos p) -> K (modify f).
Proof. intros Hf. apply keeps_modify. intros p Hp id c. rewrite Hf. apply Hp. Qed.

Lemma keeps_change_class id i f : keeps_class f -> K (change_class id i f).
Proof.
  intros Hf p Hp. unfold change_class, item_of, list_of, combo_of. sc_run.
  destruct (pg_combos p !! id) as [c|] eqn:Ec; [|done]. destruct (co_list c) as [l|] eqn:El; [|done].
  destruct (find_item i (l_items l)) as [x|] eqn:Ex; [|done]. cbn.
  intros id' c' Hc'. cbn in Hc'. destruct (decide (id' = id)) as [->|Hne].
  - rewrite lookup_alter_eq, Ec in Hc'. injection Hc' as <-. unfold items_of. cbn. rewrite El. cbn.
    apply classes_ok_map_item; [done|done|]. specialize (Hp id c Ec). unfold items_of in Hp. by rewrite El in Hp.
  - rewrite lookup_alter_ne in Hc' by done. by apply Hp.
Qed.

Lemma keeps_add_combo id c : items_of c = [] -> K (add_combo id c).
Proof.
  intros Hc. apply keeps_modify. intros p Hp id' c' Hc'. cbn in Hc'. destruct (decide (id' = id)) as [->|Hne].
  - rewrite lookup_partial_alter_eq in Hc'. injection Hc' as <-. destruct (pg_combos p !! id) as [c0|] eqn:E; cbn.
    + by apply Hp.
    + rewrite Hc. intros j x Hx. done.
  - rewrite lookup_partial_alter_ne in Hc' by done. by apply Hp.
Qed.

#[local] Hint Resolve keeps_change_class keeps_toggle keeps_unselect : js.
#[local] Hint Extern 1 (keeps (classes_inv hov) (modify _)) => apply keeps_same_combos; intros ?; reflexivity : js.
#[local] Hint Extern 1 (keeps (classes_inv hov) (on_combo _ (with_list_class _))) => apply keeps_list; intros ?; reflexivity : js.
#[local] Hint Extern 1 (keeps (classes_inv hov) (on_combo _ (with_list _))) => apply keeps_list; intros ?; reflexivity : js.
#[local] Hint Extern 2 (keeps (classes_inv hov) (on_combo _ _)) => apply keeps_same_items; intros ?; reflexivity : js.
#[local] Hint Extern 2 (keeps (classes_inv hov) (add_combo _ _)) => apply keeps_add_combo; reflexivity : js.

Lemma keeps_setTimeout t ms : K (setTimeout t ms).
Proof. unfold setTimeout. auto with js. Qed.
Lemma keeps_main_element id : K (main_element id).
Proof. unfold main_element. keeps_script. Qed.
Lemma keeps_combo_of id : K (combo_of id).
Proof. unfold combo_of. keeps_script. Qed.
#[local] Hint Resolve keeps_setTimeout keeps_main_element keeps_combo_of : js.
Lemma keeps_list_of id : K (list_of id).
Proof. unfold list_of. keeps_script. Qed.
Lemma keeps_shelf_of : K shelf_of.
Proof. unfold shelf_of. keeps_script. Qed.
#[local] Hint Resolve keeps_list_of keeps_shelf_of : js.
Lemma keeps_item_of id i : K (item_of id i).
Proof. unfold item_of. keeps_script. Qed.
Lemma keeps_showCombo id : K (showCombo id).
Proof. unfold showCombo. keeps_script. Qed.
Lemma keeps_realyHideCombo id : K (realyHideCombo id).
Proof. unfold realyHideCombo. keeps_script. Qed.
#[local] Hint Resolve keeps_item_of keeps_showCombo keeps_realyHideCombo : js.
Lemma keeps_hideCombo id X Y : K (hideCombo id X Y).
Proof. unfold hideCombo. keeps_script. Qed.
Lemma keeps_showComboBody id : K (showComboBody id).
Proof. unfold showComboBody, setOpenComponent. keeps_script. Qed.

Lemma keeps_highlightdiv id : K (highlightdiv id).
Proof.
  unfold highlightdiv. keeps_script. apply keeps_items. intros l Hl. apply classes_ok_same; [|done].
  intros x. by case_if.
Qed.
#[local] Hint Resolve keeps_highlightdiv : js.

Lemma keeps_set_width id w : K (set_width id w).
Proof. unfold set_width. auto with js. Qed.
#[local] Hint Resolve keeps_set_width : js.
Lemma keeps_setComboBox id w m o : K (setComboBox id w m o).
Proof. unfold setComboBox. keeps_script. Qed.
Lemma keeps_setComboMainContainer id w sel : K (setComboMainContainer id w sel).
Proof.
  unfold setComboMainContainer. keeps_script. apply keeps_on_combo. intros c Hc. unfold items_of in *. cbn.
  destruct (co_list c); [done|]. intros j x Hx. done.
Qed.

Lemma keeps_append id new :
  Forall (fun x => exists b s, i_class x = cls b s false) new -> K (on_combo id (with_items (fun l => l ++ new))).
Proof. intros Hn. apply keeps_items. intros l Hl. by apply classes_ok_app. Qed.

Lemma keeps_set_title id : K (set_title id).
Proof. unfold set_title, getSelectedItemsValue. keeps_script. Qed.
#[local] Hint Resolve keeps_set_title : js.

Lemma keeps_insertElements id arr : K (insertElements id arr).
Proof.
  unfold insertElements. keeps_script. apply keeps_append, items_from_Forall. intros ? ?. by exists true, false.
Qed.
Lemma keeps_insertElement id it : K (insertElement id it).
Proof.
  unfold insertElement. keeps_script.
  - apply keeps_items. intros l Hl. by apply classes_ok_same_item.
  - apply keeps_append. constructor; [|done]. apply data_class_ok.
Qed.
Lemma keeps_insertAllElements id arr : K (insertAllElements id arr).
Proof.
  unfold insertAllElements. keeps_script. apply keeps_append, items_from_Forall. intros ? ?. apply data_class_ok.
Qed.

Lemma keeps_clear_others id index i n : K (clear_others id index i n).
Proof. revert i. induction n as [|n IH]; intros i; cbn [clear_others]; keeps_script. Qed.
#[local] Hint Resolve keeps_clear_others : js.
Lemma keeps_selectComboItem id index fl : K (selectComboItem id index fl).
Proof. unfold selectComboItem, getItemByIndex. keeps_script. Qed.
End keeps.

(** ** Everything that can happen to the boxes *)
Inductive combo_script : P unit -> Prop :=
| cs_select id index fl : combo_script (selectComboItem id index fl)
| cs_click s : combo_script (item_click s)
| cs_plain_click s : combo_script (plain_click s)
| cs_insert id it : combo_script (insertElement id it)
| cs_insert_plain id arr : combo_script (insertElements id arr)
| cs_insert_all id arr : combo_script (insertAllElements id arr)
| cs_box id w m o : combo_script (setComboBox id w m o)
| cs_main id w sel : combo_script (setComboMainContainer id w sel)
| cs_body id : combo_script (showComboBody id)
| cs_show id : combo_script (showCombo id)
| cs_hide id X Y : combo_script (hideCombo id X Y)
| cs_ok id : combo_script (realyHideCombo id)
| cs_text id s : combo_script (setSelectedText id s)
| cs_timer t : combo_script (fire t).

(** A script runs, or the mouse comes over an item or leaves it. *)
Inductive combo_step : page * option (string * nat) -> page * option (string * nat) -> Prop :=
| step_script m p hov : combo_script m -> combo_step (p, hov) (snd (m p), hov)
| step_over id j p : combo_step (p, None) (snd (on_combo id (with_items (alter item_over j)) p), Some (id, j))
| step_out id j p : combo_step (p, Some (id, j)) (snd (on_combo id (with_items (alter item_out j)) p), None).

Lemma combo_script_keeps hov m : combo_script m -> keeps (classes_inv hov) m.
Proof.
  destruct 1; try by (apply keeps_selectComboItem || apply keeps_insertElement || apply keeps_insertElements
    || apply keeps_insertAllElements || apply keeps_setComboBox || apply keeps_setComboMainContainer
    || apply keeps_showComboBody || apply keeps_showCombo || apply keeps_hideCombo || apply keeps_realyHideCombo).
  - by apply keeps_same_combos.
  - unfold setSelectedText. apply keeps_bind; [apply keeps_combo_of|intros _]. by apply keeps_same_items.
  - destruct t; by apply keeps_same_combos.
Qed.

Lemma alter_classes hov hov' j f l :
  classes_ok hov l ->
  (forall x b s h, i_class x = cls b s h -> (h = true -> hov = Some j /\ i_hover x = true) ->
     exists s' h', i_class (f x) = cls b s' h' /\ (h' = true -> hov' = Some j /\ i_hover (f x) = true)) ->
  (forall k, k <> j -> hov = Some k -> hov' = Some k) ->
  classes_ok hov' (alter f j l).
Proof.
  intros Hl Hf Hk k y Hy. destruct (decide (k = j)) as [->|Hne].
  - rewrite list_lookup_alter_eq in Hy. destruct (l !! j) as [x|] eqn:E; [|done]. injection Hy as <-.
    destruct (Hl j x E) as (b & s & h & Ex & Hh). destruct (Hf x b s h Ex Hh) as (s' & h' & ? & ?). by exists b, s', h'.
  - rewrite list_lookup_alter_ne in Hy by done. destruct (Hl k y Hy) as (b & s & h & Ex & Hh).
    exists b, s, h. split; [done|]. intros Eh. destruct (Hh Eh). auto.
Qed.

Lemma mouse_keeps hov hov' id j f p :
  classes_inv hov p ->
  (forall x b s h, i_class x = cls b s h -> (h = true -> hov_in hov id = Some j /\ i_hover x = true) ->
     exists s' h', i_class (f x) = cls b s' h' /\ (h' = true -> hov_in hov' id = Some j /\ i_hover (f x) = true)) ->
  (forall i k, i <> id \/ k <> j -> hov_in hov i = Some k -> hov_in hov' i = Some k) ->
  classes_inv hov' (snd (on_combo id (with_items (alter f j)) p)).
Proof.
  intros Hp Hf Hk i c Hc. cbn in Hc. destruct (decide (i = id)) as [->|Hne].
  - rewrite lookup_alter_eq in Hc. destruct (pg_combos p !! id) as [c0|] eqn:E; [|done]. injection Hc as <-.
    specialize (Hp id c0 E). unfold items_of in *. cbn. destruct (co_list c0) as [l|]; cbn in *; [|intros k x Hx; done].
    eapply alter_classes; [exact Hp|exact Hf|]. intros k Hkj. apply Hk. by right.
  - rewrite lookup_alter_ne in Hc by done. intros k x Hx. destruct (Hp i c Hc k x Hx) as (b & s & h & Ex & Hh).
    exists b, s, h. split; [done|]. intros Eh. destruct (Hh Eh). split; [|done]. apply Hk; [by left|done].
Qed.

Lemma combo_step_inv st st' : combo_step st st' -> classes_inv (snd st) (fst st) -> classes_inv (snd st') (fst st').
Proof.
  destruct 1 as [m p hov Hm|id j p|id j p]; cbn; intros Hp.
  - by apply combo_script_keeps.
  - eapply mouse_keeps; [exact Hp| |done]. intros x b s h Ex Hh.
    destruct h; [by destruct (Hh eq_refl)|]. cbn. rewrite String.eqb_refl. unfold item_over.
    destruct (i_hover x) eqn:Eo; [exists s, true; cbn; by rewrite Ex, cls_over|exists s, false; by rewrite Ex].
  - eapply mouse_keeps; [exact Hp| |].
    + intros x b s h Ex Hh. exists s, false. split; [|done]. unfold item_out.
      destruct (i_hover x) eqn:Eo; cbn; rewrite Ex; [by rewrite cls_out|].
      destruct h; [by destruct (Hh eq_refl)|done].
    + cbn. intros i k Hi E. destruct (String.eqb_spec id i) as [->|]; [|done]. injection E as <-. tauto.
Qed.

(** The page before any box is built. *)
Definition no_boxes (p : page) : Prop := pg_combos p = ∅.

(** C25. Whatever scripts run and wherever the mouse goes, the class of every item of
    every box is one of the eight the style sheet knows: single or multiple, selected or
    not, highlighted or not; and at most the item under the mouse is highlighted. *)
Theorem classes_reachable p0 st :
  no_boxes p0 -> rtc combo_step (p0, None) st -> classes_inv (snd st) (fst st).
Proof.
  intros Hno Hr. assert (Hi : classes_inv None p0) by (intros id c Hc; rewrite Hno in Hc; done).
  change (classes_inv (snd (p0, @None (string * nat))) (fst (p0, @None (string * nat)))) in Hi.
  induction Hr as [st|st1 st2 st3 Hs _ IH]; [done|]. apply IH. by eapply combo_step_inv.
Qed.

(** ** Choosing several items *)

(** The items of a box carry their positions in their ids. *)
Definition ids_ok (id : string) (l : list item) : Prop :=
  forall j x, l !! j = Some x -> i_id x = combo_item_id id (Z_to_string (Z.of_nat j)).

Definition pos_id (id : string) (k : nat) : string := combo_item_id id (Z_to_string (Z.of_nat k)).

#[local] Arguments pos_id : simpl never.

Lemma pos_id_inj id j k : pos_id id j = pos_id id k -> j = k.
Proof.
  unfold pos_id, combo_item_id. intros E. do 3 apply sapp_cancel_l in E.
  apply Z_to_string_inj in E; lia.
Qed.

Lemma ids_ok_cons id x l (n : nat) :
  (forall j y, (x :: l) !! j = Some y -> i_id y = pos_id id (n + j)) ->
  i_id x = pos_id id n /\ (forall j y, l !! j = Some y -> i_id y = pos_id id (S n + j)).
Proof.
  intros Hi. split; [rewrite (Hi O x eq_refl); f_equal; lia|].
  intros j y Hy. rewrite (Hi (S j) y Hy). f_equal. lia.
Qed.

Lemma map_item_pos id f l : forall (n k : nat),
  (forall j y, l !! j = Some y -> i_id y = pos_id id (n + j)) ->
  map_item (pos_id id (n + k)) f l = alter f k l /\ find_item (pos_id id (n + k)) l = l !! k.
Proof.
  induction l as [|x l IH]; intros n k Hi; [done|]. apply ids_ok_cons in Hi as [Hx Hi]. cbn [map_item find_item].
  rewrite Hx. destruct k as [|k].
  - rewrite Nat.add_0_r, String.eqb_refl. done.
  - rewrite (proj2 (String.eqb_neq _ _)) by (intros E; apply pos_id_inj in E; lia).
    replace (n + S k)%nat with (S n + k)%nat by lia. destruct (IH (S n) k Hi) as [-> ->]. done.
Qed.

Lemma map_item_at id f l k : ids_ok id l -> map_item (pos_id id k) f l = alter f k l.
Proof. intros Hi. by apply (map_item_pos id f l 0 k). Qed.
Lemma find_item_at id l k : ids_ok id l -> find_item (pos_id id k) l = l !! k.
Proof. intros Hi. by apply (map_item_pos id (fun x => x) l 0 k). Qed.

Lemma ids_ok_alter id s k l : ids_ok id l -> ids_ok id (alter (item_class s) k l).
Proof.
  intros Hi j y Hy. destruct (decide (j = k)) as [->|Hne].
  - rewrite list_lookup_alter_eq in Hy. destruct (l !! k) as [i|] eqn:E; [|done]. injection Hy as <-. exact (Hi k i E).
  - rewrite list_lookup_alter_ne in Hy by done. by apply Hi.
Qed.

(** The selection: which positions are selected. *)
Definition selection (l : list item) : list bool := map is_selected l.

Lemma selection_alter s k l : selection (alter (item_class s) k l) = alter (fun _ => contains s "_select") k (selection l).
Proof.
  revert k. induction l as [|x l IH]; intros [|k]; try done.
  change (is_selected x :: selection (alter (item_class s) k l)
    = is_selected x :: alter (fun _ => contains s "_select") k (selection l)). by rewrite IH.
Qed.

(** The page when the items of the box become [l]. *)
Definition put (id : string) (c : combo) (l : list item) (p : page) : page :=
  set_combos (<[id := with_items (fun _ => l) c]> (pg_combos p)) p.
Definition has_items (id : string) (c : combo) (l : list item) (p : page) : Prop :=
  pg_combos p !! id = Some (with_items (fun _ => l) c) /\ is_Some (co_list c).

Lemma has_items_put id c l l' p : has_items id c l p -> has_items id c l' (put id c l' p).
Proof. intros [_ Hc]. split; [|done]. cbn. by rewrite lookup_insert_eq. Qed.

Lemma put_put id c l l' p : put id c l' (put id c l p) = put id c l' p.
Proof. unfold put. cbn. by rewrite insert_insert_eq. Qed.

Lemma put_self id c l p : has_items id c l p -> put id c l p = p.
Proof. intros [Hc _]. unfold put. rewrite insert_id by done. by destruct p. Qed.

Lemma run_list_of id c l p : has_items id c l p -> exists cl, list_of id p = (Done cl, p) /\ l_items cl = l.
Proof.
  intros [Hc [cl Hl]]. unfold list_of, combo_of. sc_run. rewrite Hc. unfold with_items, with_list. cbn.
  rewrite Hl. by eexists.
Qed.

Lemma run_item_of id c l p k x :
  has_items id c l p -> ids_ok id l -> l !! k = Some x -> item_of id (pos_id id k) p = (Done x, p).
Proof.
  intros Hb Hi Hx. destruct (run_list_of _ _ _ _ Hb) as (cl & E & El). unfold item_of.
  rewrite (bind_done _ _ _ _ _ E). rewrite El, find_item_at, Hx by done. done.
Qed.

Lemma run_change_class id c l p k x f :
  has_items id c l p -> ids_ok id l -> l !! k = Some x ->
  change_class id (pos_id id k) f p = (Done tt, put id c (alter (item_class (f (i_class x))) k l) p).
Proof.
  intros Hb Hi Hx. unfold change_class. rewrite (bind_done _ _ _ _ _ (run_item_of _ _ _ _ _ _ Hb Hi Hx)).
  unfold on_combo, modify, put. do 2 f_equal. destruct Hb as [Hc [cl Hl]]. apply map_eq. intros i.
  destruct (decide (i = id)) as [->|Hne].
  - rewrite lookup_alter_eq, lookup_insert_eq, Hc. cbn. unfold with_items, with_list. cbn. rewrite Hl. cbn.
    by rewrite map_item_at.
  - by rewrite lookup_alter_ne, lookup_insert_ne by done.
Qed.

Lemma classes_ok_change hov f k l x :
  l !! k = Some x -> keeps_class f -> classes_ok hov l -> classes_ok hov (alter (item_class (f (i_class x))) k l).
Proof.
  intros Hx Hf Hl j y Hy. destruct (decide (j = k)) as [->|Hne].
  - rewrite list_lookup_alter_eq, Hx in Hy. injection Hy as <-. destruct (Hl k x Hx) as (b & s & h & Ex & Hh).
    destruct (Hf b s h) as (s' & h' & E' & Hh'). exists b, s', h'. cbn. rewrite Ex. auto.
  - rewrite list_lookup_alter_ne in Hy by done. by apply Hl.
Qed.

Lemma values_alter s k l : map i_value (alter (item_class s) k l) = map i_value l.
Proof.
  revert k. induction l as [|x l IH]; intros [|k]; try done.
  change (i_value x :: map i_value (alter (item_class s) k l) = i_value x :: map i_value l). by rewrite IH.
Qed.

(** What a change of class leaves. *)
Record same_list (id : string) (hov : option nat) (l l' : list item) : Prop := {
  sl_ids : ids_ok id l';
  sl_classes : classes_ok hov l';
  sl_values : map i_value l' = map i_value l
}.

Lemma same_list_trans id hov l1 l2 l3 : same_list id hov l1 l2 -> same_list id hov l2 l3 -> same_list id hov l1 l3.
Proof. intros [_ _ E1] [H1' H2' E2]. split; [done..|congruence]. Qed.

Lemma same_list_change id hov f k l x :
  ids_ok id l -> classes_ok hov l -> l !! k = Some x -> keeps_class f ->
  same_list id hov l (alter (item_class (f (i_class x))) k l).
Proof.
  intros Hi Hc Hx Hf. split; [by apply ids_ok_alter|by apply classes_ok_change|apply values_alter].
Qed.

Lemma take_alter_replicate (b : list bool) i n :
  (i < length b)%nat ->
  take (S i) (alter (fun _ => false) i b) ++ replicate n false = take i b ++ replicate (S n) false.
Proof.
  revert i. induction b as [|a b IH]; intros [|i] Hi; cbn in *; [lia|lia|done|]. f_equal. apply IH. lia.
Qed.

Lemma run_clear_others id hov c x0 : forall n i l p,
  has_items id c l p -> ids_ok id l -> classes_ok hov l -> length l = (i + n)%nat -> (0 < i)%nat -> l !! 0%nat = Some x0 ->
  exists l', clear_others id "0" (Z.of_nat i) n p = (Done tt, put id c l' p) /\ same_list id hov l l' /\
    selection l' = if is_selected x0 then take i (selection l) ++ replicate n false else selection l.
Proof.
  induction n as [|n IH]; intros i l p Hb Hi Hc Hlen Hpos Hx0; cbn [clear_others].
  - exists l. rewrite (put_self _ _ _ _ Hb). split; [done|]. split; [by split|]. case_if; [|done].
    rewrite app_nil_r, take_ge; [done|]. unfold selection. rewrite length_map. lia.
  - destruct (lookup_lt_is_Some_2 l i) as [x Hx]; [lia|].
    rewrite (bind_done _ _ _ _ _ (run_item_of id c l p i x Hb Hi Hx)).
    change (combo_item_id id "0") with (pos_id id 0).
    rewrite (bind_done _ _ _ _ _ (run_item_of id c l p 0 x0 Hb Hi Hx0)).
    destruct (is_selected x0) eqn:E0.
    + change (combo_item_id id (Z_to_string (Z.of_nat i))) with (pos_id id i). cbn [cond].
      rewrite (bind_done _ _ _ _ _ (run_change_class id c l p i x _ Hb Hi Hx)).
      pose proof (same_list_change id hov _ i l x Hi Hc Hx keeps_unselect) as Hsame.
      destruct (Hc i x Hx) as (b & s & h & Ex & _).
      set (l1 := alter (item_class (replace_first "_select" "" (i_class x))) i l) in *.
      destruct (IH (S i) l1 (put id c l1 p)) as (l' & E & Hs' & Hsel).
      * by apply (has_items_put id c l).
      * apply Hsame.
      * apply Hsame.
      * unfold l1. rewrite length_alter. lia.
      * lia.
      * unfold l1. by rewrite list_lookup_alter_ne by lia.
      * exists l'. replace (Z.of_nat i + 1) with (Z.of_nat (S i)) by lia. rewrite E, put_put. split; [done|].
        split; [by eapply same_list_trans|]. rewrite Hsel. unfold l1. rewrite selection_alter, Ex, cls_unselect, cls_selected.
        apply take_alter_replicate. unfold selection. rewrite length_map. lia.
    + cbn [cond]. rewrite bind_ret. replace (Z.of_nat i + 1) with (Z.of_nat (S i)) by lia.
      destruct (IH (S i) l p Hb Hi Hc ltac:(lia) ltac:(lia) Hx0) as (l' & E & Hs & Hsel).
      exists l'. by rewrite E.
Qed.

(** The specification of a click on position [k] of a list with several choices: the
    position changes; the first item, when it stands for all, excludes the others. *)
Definition click (all : bool) (k : nat) (b : list bool) : list bool :=
  if all then
    let b' := alter negb k b in
    if default false (b' !! k) then take 1 b' ++ replicate (length b - 1) false else b'
  else alter (fun _ => false) 0%nat (alter negb k b).

(** The page after the list of [id] was shown again. *)
Definition shown (id : string) (s : shelf) (p : page) : page :=
  set_timers (pg_timers p ++ [(SetOpen id "combo", 1)])
    (set_shelf (Some (Shelf "" (assign_length (s_top s) (Z_to_string (offTop id + 44)))
      (let l := assign_length (s_left s) (Z_to_string (offLeft id + 2)) in
       if msie then assign_length l (Z_to_string (offLeft id + 4)) else l)
      (s_height s) (s_width s))) p).

Lemma run_showCombo id s p :
  pg_shelf p = Some s -> id ∈ pg_ids p -> showCombo id p = (Done tt, shown id s p).
Proof.
  intros Hs Hid. unfold showCombo, shelf_of, main_element. sc_run. rewrite Hs. cbn.
  rewrite bool_decide_eq_true_2 by done. done.
Qed.

(** A box with several choices: its ids, its values, -1 only first. *)
Record multi (id : string) (c : combo) (hov : option nat) (l : list item) : Prop := {
  mu_flag : num_eqb (toNumber (co_flag c)) (num_of_Z 2) = true;
  mu_ids : ids_ok id l;
  mu_classes : classes_ok hov l;
  mu_values : forall j x, l !! j = Some x -> exists v, i_value x = Some v /\ (v = "-1" -> j = O)
}.

Lemma multi_same id c hov l l' : multi id c hov l -> same_list id hov l l' -> multi id c hov l'.
Proof.
  intros [Hf _ _ Hv] [Hi Hc He]. split; [done..|]. intros j x Hx.
  assert (Hj : map i_value l !! j = Some (i_value x)) by (rewrite <- He; by rewrite list_lookup_fmap, Hx).
  rewrite list_lookup_fmap in Hj. destruct (l !! j) as [y|] eqn:E; [|done]. injection Hj as Hj.
  destruct (Hv j y E) as (v & Ev & Hv'). exists v. by rewrite <- Hj.
Qed.

Definition stands_for_all (l : list item) (k : nat) : bool :=
  match l !! k with Some x => bool_decide (i_value x = Some "-1") | None => false end.

Lemma selection_lookup l k : selection l !! k = is_selected <$> l !! k.
Proof. unfold selection. by rewrite list_lookup_fmap. Qed.

Lemma alter_const {A} (f : A -> A) k (l : list A) x : l !! k = Some x -> alter (fun _ => f x) k l = alter f k l.
Proof.
  revert k. induction l as [|y l IH]; intros [|k] Hx; try done.
  - injection Hx as ->. done.
  - change (y :: alter (fun _ => f x) k l = y :: alter f k l). by rewrite IH.
Qed.

(** The classes after the click, up to showing the list. *)
Lemma multi_click_items id c hov l p k x v :
  multi id c hov l -> has_items id c l p -> l !! k = Some x -> i_value x = Some v ->
  exists l', (forall m : P unit, (change_class id (pos_id id k) toggle_class ;;;
      v ← getItemByIndex id (Z_to_string (Z.of_nat k));
      (if String.eqb v "-1" then
         l ← list_of id; clear_others id (Z_to_string (Z.of_nat k)) 1 (length (l_items l) - 1)
       else change_class id (combo_item_id id "0") (replace_first "_select" "")) ;;;
      m) p = m (put id c l' p)) /\ same_list id hov l l' /\
    selection l' = click (stands_for_all l k) k (selection l).
Proof.
  intros [_ Hi Hc Hv] Hb Hx Ev. pose proof (run_change_class id c l p k x toggle_class Hb Hi Hx) as E1.
  pose proof (same_list_change id hov _ k l x Hi Hc Hx keeps_toggle) as Hsame.
  destruct (Hc k x Hx) as (b & s & h & Ex & _).
  assert (Hs1 : selection (alter (item_class (toggle_class (i_class x))) k l) = alter negb k (selection l)).
  { rewrite selection_alter, Ex, cls_toggle, cls_selected. apply (alter_const negb).
    rewrite selection_lookup, Hx. cbn. unfold is_selected. by rewrite Ex, cls_selected. }
  set (l1 := alter (item_class (toggle_class (i_class x))) k l) in *.
  assert (Hb1 : has_items id c l1 (put id c l1 p)) by by apply (has_items_put id c l).
  assert (Hx1 : l1 !! k = Some (item_class (toggle_class (i_class x)) x)).
  { unfold l1. rewrite list_lookup_alter_eq, Hx. done. }
  assert (Hlen1 : length l1 = length l) by (unfold l1; apply length_alter).
  pose proof (lookup_lt_Some _ _ _ Hx) as Hk.
  assert (Eget : getItemByIndex id (Z_to_string (Z.of_nat k)) (put id c l1 p) = (Done v, put id c l1 p)).
  { unfold getItemByIndex. change (combo_item_id id (Z_to_string (Z.of_nat k))) with (pos_id id k).
    rewrite (bind_done _ _ _ _ _ (run_item_of _ _ _ _ _ _ Hb1 (sl_ids _ _ _ _ Hsame) Hx1)). cbn. by rewrite Ev. }
  unfold stands_for_all, click. rewrite Hx.
  destruct (Hv k x Hx) as (v' & Ev' & Hv0). rewrite Ev in Ev'. injection Ev' as <-.
  destruct (String.eqb_spec v "-1") as [->|Hne].
  - rewrite bool_decide_eq_true_2 by done. clearbody l1. pose proof (Hv0 eq_refl) as E0. subst k. clear Hv0.
    destruct (run_list_of _ _ _ _ Hb1) as (cl & El & Ecl). change (Z_to_string (Z.of_nat 0)) with "0" in *.
    destruct (run_clear_others id hov c _ (length l1 - 1) 1 l1 (put id c l1 p) Hb1 (sl_ids _ _ _ _ Hsame)
      (sl_classes _ _ _ _ Hsame) ltac:(lia) ltac:(lia) Hx1) as (l' & E & Hs' & Hsel).
    exists l'. change (Z.of_nat 1) with 1 in E. rewrite put_put in E. split.
    { intros m. rewrite (bind_done _ _ _ _ _ E1), (bind_done _ _ _ _ _ Eget). cbv beta.
      erewrite bind_done; [reflexivity|]. cbn [String.eqb Ascii.eqb Bool.eqb]. rewrite (bind_done _ _ _ _ _ El), Ecl. exact E. }
    split; [by eapply same_list_trans|]. rewrite Hsel, Hs1.
    replace (is_selected _) with (default false (alter negb 0%nat (selection l) !! 0%nat)).
    + by rewrite Hlen1, <- (length_map is_selected l).
    + rewrite <- Hs1, selection_lookup, Hx1. done.
  - rewrite bool_decide_eq_false_2 by (rewrite Ev; congruence).
    destruct (lookup_lt_is_Some_2 l1 0) as [x0 Hx0]; [lia|].
    change (combo_item_id id "0") with (pos_id id 0).
    pose proof (run_change_class id c l1 _ 0 x0 (replace_first "_select" "") Hb1 (sl_ids _ _ _ _ Hsame) Hx0) as E.
    rewrite put_put in E. eexists. split.
    { intros m. rewrite (bind_done _ _ _ _ _ E1), (bind_done _ _ _ _ _ Eget).
      rewrite (proj2 (String.eqb_neq v "-1") Hne). erewrite bind_done; [reflexivity|]. exact E. }
    split.
    + eapply same_list_trans; [exact Hsame|]. apply same_list_change; [apply Hsame|apply Hsame|done|apply keeps_unselect].
    + destruct (sl_classes _ _ _ _ Hsame 0%nat x0 Hx0) as (b0 & s0 & h0 & Ex0 & _).
      rewrite selection_alter, Hs1, Ex0, cls_unselect, cls_selected. done.
Qed.

(** The call of the page's function after a selection. *)
Definition call_of (func v : string) (fl : bool) : list effect :=
  if negb (String.eqb func "undefined") && fl then [Call (func +++ "('" +++ v +++ "')")] else [].

Lemma multi_click id c hov l p s k x v fl :
  multi id c hov l -> has_items id c l p -> l !! k = Some x -> i_value x = Some v ->
  pg_shelf p = Some s -> id ∈ pg_ids p ->
  exists l' p', selectComboItem id (Z_to_string (Z.of_nat k)) fl p
      = (match co_onselect c with Some _ => Done tt | None => Threw end, p') /\
    has_items id c l' p' /\ same_list id hov l l' /\ selection l' = click (stands_for_all l k) k (selection l) /\
    is_Some (pg_shelf p') /\ pg_ids p' = pg_ids p /\
    pg_log p' = pg_log p ++ match co_onselect c with Some f => call_of f v fl | None => [] end.
Proof.
  intros Hm Hb Hx Ev Hs Hid. destruct (multi_click_items id c hov l p k x v Hm Hb Hx Ev) as (l' & E & Hsame & Hsel).
  set (p1 := put id c l' p) in *. assert (Hb1 : has_items id c l' p1) by by apply (has_items_put id c l).
  set (p2 := shown id s p1). assert (Hb2 : has_items id c l' p2) by exact Hb1.
  assert (Hx' : exists x', l' !! k = Some x' /\ i_value x' = Some v).
  { pose proof (sl_values _ _ _ _ Hsame) as Hv. assert (Hk : map i_value l' !! k = Some (Some v)).
    { rewrite Hv, list_lookup_fmap, Hx. cbn. by rewrite Ev. }
    rewrite list_lookup_fmap in Hk. destruct (l' !! k) as [x'|]; [|done]. injection Hk as Hk. by exists x'. }
  destruct Hx' as (x' & Hx' & Ev').
  assert (Hc1 : combo_of id p2 = (Done (with_items (fun _ => l') c), p2)).
  { unfold combo_of. sc_run. by rewrite (proj1 Hb2). }
  assert (Esel : selectComboItem id (Z_to_string (Z.of_nat k)) fl p = (c0 ← combo_of id;
    func ← needed (co_onselect c0);
    cond (negb (String.eqb func "undefined") && fl) (
      ele ← item_of id (pos_id id k); v ← needed (i_value ele);
      modify (add_log (Call (func +++ "('" +++ v +++ "')"))))) p2).
  { unfold selectComboItem. erewrite bind_done by (unfold combo_of; sc_run; by rewrite (proj1 Hb)).
    cbn [co_flag with_items with_list]. rewrite (mu_flag _ _ _ _ Hm). cbv iota.
    erewrite bind_done; [reflexivity|]. change (combo_item_id id (Z_to_string (Z.of_nat k))) with (pos_id id k).
    rewrite E. apply run_showCombo; [exact Hs|exact Hid]. }
  rewrite Esel, (bind_done _ _ _ _ _ Hc1). cbn [co_onselect with_items with_list].
  destruct (co_onselect c) as [func|] eqn:Eo.
  - rewrite bind_needed. unfold call_of. destruct (negb (String.eqb func "undefined") && fl); cbn [cond].
    + rewrite (bind_done _ _ _ _ _ (run_item_of id c l' p2 k x' Hb2 (sl_ids _ _ _ _ Hsame) Hx')), Ev', bind_needed.
      exists l', (add_log (Call (func +++ "('" +++ v +++ "')")) p2). do 3 (split; [done|]). split; [done|].
      split; [by eexists|]. done.
    + exists l', p2. do 4 (split; [done|]). split; [by eexists|]. split; [done|]. by rewrite app_nil_r.
  - exists l', p2. do 4 (split; [done|]). split; [by eexists|]. split; [done|]. by rewrite app_nil_r.
Qed.

(** ** Any number of clicks *)
Definition clicks (all : bool) (ks : list nat) (b : list bool) : list bool :=
  fold_left (fun b k => click (all && (k =? 0)%nat) k b) ks b.

(** The entry for all excludes the others. *)
Definition exclusive (b : list bool) : Prop := b !! 0%nat = Some true -> forall j, (0 < j)%nat -> b !! j <> Some true.

Lemma click_length all k b : length (click all k b) = length b.
Proof.
  unfold click. destruct all; rewrite ?length_alter; [|done]. case_if; rewrite ?length_alter; [|done].
  rewrite length_app, length_take, length_replicate, length_alter. destruct b; [|cbn; lia].
  by destruct k.
Qed.

Lemma click_exclusive all k b : (k < length b)%nat -> (all = true -> k = O) -> exclusive (click all k b).
Proof.
  intros Hk Hall H0' j Hj Hb. unfold click in *. destruct all.
  - rewrite (Hall eq_refl) in *. destruct (default false (alter negb 0%nat b !! 0%nat)) eqn:E.
    + destruct b as [|x b]; [cbn in Hk; lia|]. destruct j as [|j]; [lia|]. cbn in Hb.
      rewrite Nat.sub_0_r in Hb. apply lookup_replicate in Hb as [Hb _]. done.
    + by rewrite H0' in E.
  - rewrite list_lookup_alter_eq in H0'. by destruct (alter negb k b !! 0%nat).
Qed.

(** C18. Clicks on the items of a list with several choices, in any order: the
    selection is that of the specification, the entry for all excludes every other
    one, and the classes and ids stay what they are. *)
Theorem multi_clicks id c hov l p func fl ks :
  multi id c hov l -> has_items id c l p -> is_Some (pg_shelf p) -> id ∈ pg_ids p -> co_onselect c = Some func ->
  Forall (fun k => (k < length l)%nat) ks -> exclusive (selection l) ->
  exists l' p', for_each (fun k => selectComboItem id (Z_to_string (Z.of_nat k)) fl) ks p = (Done tt, p') /\
    has_items id c l' p' /\ multi id c hov l' /\
    selection l' = clicks (stands_for_all l 0) ks (selection l) /\ exclusive (selection l').
Proof.
  intros Hm Hb Hs Hid Hf Hks Hex. revert l p Hm Hb Hs Hid Hks Hex.
  induction ks as [|k ks IH]; intros l p Hm Hb [s Hs] Hid Hks Hex; cbn [for_each]; [by exists l, p|].
  apply Forall_cons in Hks as [Hk Hks]. destruct (lookup_lt_is_Some_2 l k Hk) as [x Hx].
  destruct (mu_values _ _ _ _ Hm k x Hx) as (v & Ev & Hv0).
  destruct (multi_click id c hov l p s k x v fl Hm Hb Hx Ev Hs Hid) as (l1 & p1 & E & Hb1 & Hsame & Hsel & Hs1 & Hid1 & _).
  rewrite Hf in E. rewrite (bind_done _ _ _ _ _ E).
  assert (Hlen : length l1 = length l).
  { pose proof (f_equal length (sl_values _ _ _ _ Hsame)) as Hl. by rewrite !length_map in Hl. }
  assert (Hall : stands_for_all l1 0 = stands_for_all l 0).
  { unfold stands_for_all. pose proof (f_equal (fun m => m !! 0%nat) (sl_values _ _ _ _ Hsame)) as H0'. cbn in H0'.
    rewrite !list_lookup_fmap in H0'. destruct (l1 !! 0%nat), (l !! 0%nat); cbn in H0'; [|done..]. injection H0' as E1. by rewrite E1. }
  assert (Hk0 : stands_for_all l k = stands_for_all l 0 && (k =? 0)%nat).
  { destruct k as [|k]; [by rewrite andb_true_r|]. rewrite andb_false_r. unfold stands_for_all. rewrite Hx.
    apply bool_decide_eq_false_2. rewrite Ev. intros E1. injection E1 as E1. specialize (Hv0 E1). lia. }
  destruct (IH l1 p1) as (l' & p' & E' & Hb' & Hm' & Hsel' & Hex'); [|done|done|by rewrite Hid1| | |].
  - by eapply multi_same.
  - by rewrite Hlen.
  - rewrite Hsel, Hk0. apply click_exclusive.
    + unfold selection. by rewrite length_map.
    + intros Ha. apply andb_true_iff in Ha as [_ Ha]. by apply Nat.eqb_eq in Ha.
  - exists l', p'. do 3 (split; [done|]). split; [|done]. rewrite Hsel', Hall, Hsel, Hk0. done.
Qed.

(** A box made by [setComboMainContainer] has no [comboOnSelect] field: a click
    selects, and then the handler throws. *)
Lemma multi_click_throws id c hov l p s k x v fl :
  multi id c hov l -> has_items id c l p -> l !! k = Some x -> i_value x = Some v ->
  pg_shelf p = Some s -> id ∈ pg_ids p -> co_onselect c = None ->
  fst (selectComboItem id (Z_to_string (Z.of_nat k)) fl p) = Threw.
Proof.
  intros Hm Hb Hx Ev Hs Hid Ho.
  destruct (multi_click id c hov l p s k x v fl Hm Hb Hx Ev Hs Hid) as (l1 & p1 & E & _). by rewrite E, Ho.
Qed.

(** Without an entry for all, the first item cannot be selected. *)
Lemma first_item_never_selected b : default false (click false 0 b !! 0%nat) = false.
Proof. destruct b; done. Qed.

(** ** The handler of an item *)

(** The handler that [insertElement] and [insertAllElements] give to an item works
    on the box and the position the item was made for, whatever the id of the box. *)
Theorem item_handler id n : 0 <= n -> item_click (combo_item_id id (Z_to_string n)) = selectComboItem id (Z_to_string n) true.
Proof.
  intros Hn. unfold item_click. assert (Hd : sall (not_char "_"%char) (Z_to_string n) = true).
  { rewrite Z_to_string_nonneg by done. apply digits_not_char; [done|by apply nat_digits_digits]. }
  destruct (split_item_id "_" "Combo_item" id _ Hd) as [E1 E2].
  unfold combo_item_id. change ("_" +++ Z_to_string n) with (String "_" (Z_to_string n)).
  change 10 with (slen "Combo_item"). by rewrite E1, E2.
Qed.

(** ** A list to choose one entry from *)
Definition entry (nv : string * string) : string := fst nv +++ "|" +++ snd nv.
Definition no_bar (nv : string * string) : Prop :=
  sall (not_char "|"%char) (fst nv) = true /\ sall (not_char "|"%char) (snd nv) = true.

(** The item of an entry at position [x]. *)
Definition entry_item (id : string) (x : Z) (nv : string * string) : item :=
  Item (combo_item_id id (Z_to_string x)) "Combo_item_single"
    (item_html (fst nv) ("Combo_item_value" +++ id +++ "_" +++ Z_to_string x) (snd nv))
    (Some (fst nv)) (Some (snd nv)) "" true.

Lemma data_item_entry id x nv :
  no_bar nv -> item_hover (data_item "1" id "" x (entry nv)) = entry_item id x nv.
Proof.
  intros [Hn Hv]. unfold data_item, entry. change ("|" +++ snd nv) with (String "|" (snd nv)).
  rewrite js_split_char_cons, js_split_char_none by done. done.
Qed.

Fixpoint entry_items (id : string) (x : Z) (nvs : list (string * string)) : list item :=
  match nvs with [] => [] | nv :: nvs => entry_item id x nv :: entry_items id (x + 1) nvs end.

Lemma items_from_entries id nvs : forall x,
  Forall no_bar nvs -> map item_hover (items_from (data_item "1" id "") x (map entry nvs)) = entry_items id x nvs.
Proof.
  induction nvs as [|nv nvs IH]; intros x Hn; [done|]. apply Forall_cons in Hn as [Hn Hns].
  cbn [map items_from entry_items]. by rewrite data_item_entry, IH.
Qed.

Lemma entry_items_lookup id nvs : forall x k,
  entry_items id x nvs !! k = entry_item id (x + Z.of_nat k) <$> nvs !! k.
Proof.
  induction nvs as [|nv nvs IH]; intros x [|k]; cbn [entry_items]; try done.
  - cbn. by rewrite Z.add_0_r.
  - change (entry_items id (x + 1) nvs !! k = entry_item id (x + Z.of_nat (S k)) <$> nvs !! k).
    rewrite IH. do 2 f_equal. lia.
Qed.

Lemma entry_items_ids id nvs : ids_ok id (entry_items id 0 nvs).
Proof.
  intros k x Hx. rewrite entry_items_lookup in Hx. destruct (nvs !! k); [|done]. injection Hx as <-. done.
Qed.

(** Position of the first entry with this value. *)
Fixpoint value_pos (v : string) (nvs : list (string * string)) : option nat :=
  match nvs with [] => None | nv :: nvs => if String.eqb (snd nv) v then Some O else S <$> value_pos v nvs end.

Lemma index_from_entries id v nvs : forall x,
  index_from v x (entry_items id x nvs) = Some (match value_pos v nvs with Some k => x + Z.of_nat k | None => -1 end).
Proof.
  induction nvs as [|nv nvs IH]; intros x; cbn [entry_items index_from value_pos entry_item i_value mbind option_bind]; [done|].
  destruct (String.eqb (snd nv) v); [by rewrite Z.add_0_r|]. rewrite IH. destruct (value_pos v nvs); cbn; [|done]. f_equal. lia.
Qed.

Lemma value_pos_lookup v nvs k : value_pos v nvs = Some k -> exists n, nvs !! k = Some (n, v).
Proof.
  revert k. induction nvs as [|[n w] nvs IH]; intros k; cbn [value_pos snd]; [done|].
  destruct (String.eqb_spec w v) as [->|]; [intros [= <-]; by exists n|].
  destruct (value_pos v nvs) as [j|]; [|done]. intros [= <-]. apply (IH j eq_refl).
Qed.

(** The box that [setComboBox] makes. *)
Definition single_box (w func : string) (l : list item) : combo :=
  Combo "1" (Some func) "Select item" "Combo_select" "Combo_button"
    (Some (CList "hidden" (assign_length "" (assign_length "" w)) l)) "" (assign_length "" w).

Lemma entry_items_unselected id nvs x : selected_texts (entry_items id x nvs) = Some [].
Proof. revert x. induction nvs as [|nv nvs IH]; intros x; [done|]. cbn. apply IH. Qed.

(** The page with the box [id] in the state [c]. *)
Definition box (id : string) (c : combo) (p : page) : page := set_combos (<[id := c]> (pg_combos p)) p.

Lemma add_combo_box id c p : pg_combos p !! id = None -> add_combo id c p = (Done tt, box id c p).
Proof.
  intros Hn. unfold add_combo, modify, box. do 3 f_equal. apply map_eq. intros i. destruct (decide (i = id)) as [->|Hne].
  - by rewrite lookup_partial_alter_eq, Hn, lookup_insert_eq.
  - by rewrite lookup_partial_alter_ne, lookup_insert_ne by done.
Qed.

Lemma on_combo_box id f c p : on_combo id f (box id c p) = (Done tt, box id (f c) p).
Proof.
  unfold on_combo, modify. f_equal. unfold box, set_combos. cbn. f_equal. apply map_eq. intros i.
  destruct (decide (i = id)) as [->|Hne].
  - by rewrite lookup_alter_eq, !lookup_insert_eq.
  - by rewrite lookup_alter_ne, !lookup_insert_ne by done.
Qed.

Lemma combo_of_box id c p : combo_of id (box id c p) = (Done c, box id c p).
Proof. unfold combo_of. sc_run. cbn. by rewrite lookup_insert_eq. Qed.

Lemma list_of_box id c l p : co_list c = Some l -> list_of id (box id c p) = (Done l, box id c p).
Proof. intros Hl. unfold list_of. rewrite (bind_done _ _ _ _ _ (combo_of_box id c p)). by rewrite Hl. Qed.

Lemma box_built id w func nvs p :
  pg_combos p !! id = None -> id ∈ pg_ids p -> Forall no_bar nvs ->
  (setComboBox id w "1" func ;;; insertAllElements id (map entry nvs)) p =
    (Done tt, box id (single_box w func (entry_items id 0 nvs)) p).
Proof.
  intros Hn Hid Hbar. set (W := assign_length "" w).
  rewrite (bind_done _ _ _ tt (box id (Combo "1" (Some func) "Select item" "Combo_select" "Combo_button"
    (Some (CList "hidden" "" [])) "" W) p)).
  2: { unfold setComboBox. rewrite (bind_done _ _ _ _ _ (main_element_in id p Hid)).
       rewrite (bind_done _ _ _ _ _ (add_combo_box _ _ _ Hn)). apply on_combo_box. }
  unfold insertAllElements. rewrite (bind_done _ _ _ _ _ (combo_of_box _ _ _)).
  erewrite bind_done by (by apply list_of_box).
  erewrite bind_done by (by apply main_element_in).
  rewrite (bind_done _ _ _ _ _ (on_combo_box _ _ _ _)), (bind_done _ _ _ _ _ (on_combo_box _ _ _ _)).
  cbn [with_list with_items co_list fmap option_fmap option_map l_class l_width l_items app co_flag co_onselect co_select
    co_select_class co_button_class co_title co_width]. fold W.
  set (raw := items_from (data_item "1" id "") 0 (map entry nvs)).
  assert (Hraw : map item_hover raw = entry_items id 0 nvs) by by apply items_from_entries.
  assert (Htexts : selected_texts raw = Some []).
  { rewrite <- (entry_items_unselected id nvs 0), <- Hraw. clear. induction raw as [|x l IH]; [done|].
    cbn [map selected_texts]. change (is_selected (item_hover x)) with (is_selected x). by rewrite IH. }
  assert (Hall : map (fun x => if contains (i_class x) "Combo_item" then item_hover x else x) raw = entry_items id 0 nvs).
  { rewrite <- Hraw. apply map_ext_in. intros x Hx. unfold raw in Hx.
    assert (Hcls : Forall (fun x => exists b s, i_class x = cls b s false) raw).
    { apply items_from_Forall. intros ? ?. apply data_class_ok. }
    rewrite Forall_forall in Hcls. destruct (Hcls x) as (b & s & E); [by apply list_elem_of_In|].
    by rewrite E, cls_item. }
  rewrite (bind_done _ _ _ tt (box id (Combo "1" (Some func) "Select item" "Combo_select" "Combo_button"
    (Some (CList "hidden" (assign_length "" W) raw)) "" W) p)).
  2: { unfold set_title. erewrite bind_done by (by apply main_element_in). unfold getSelectedItemsValue.
       erewrite bind_done.
       2: { erewrite bind_done by (by apply list_of_box). cbn [l_items]. change ([] ++ raw) with raw. rewrite Htexts. reflexivity. }
       apply on_combo_box. }
  unfold highlightdiv. erewrite bind_done by (by apply list_of_box). rewrite on_combo_box.
  unfold with_items, with_list. cbn [fmap option_fmap option_map co_list l_class l_width l_items co_flag co_onselect co_select
    co_select_class co_button_class co_title co_width]. by rewrite Hall.
Qed.

Lemma find_entry id nvs k nv : nvs !! k = Some nv ->
  find_item (combo_item_id id (Z_to_string (Z.of_nat k))) (entry_items id 0 nvs) = Some (entry_item id (Z.of_nat k) nv).
Proof.
  intros Hk. change (combo_item_id id (Z_to_string (Z.of_nat k))) with (pos_id id k).
  rewrite find_item_at by apply entry_items_ids. rewrite entry_items_lookup, Hk. done.
Qed.

Lemma find_entry_none id nvs : find_item (combo_item_id id (Z_to_string (-1))) (entry_items id 0 nvs) = None.
Proof.
  destruct (find_item _ _) as [x|] eqn:E; [|done]. exfalso.
  apply find_item_lookup in E as (j & Hj & Hid). rewrite entry_items_lookup in Hj.
  destruct (nvs !! j); [|done]. injection Hj as <-. cbn [entry_item i_id] in Hid. unfold combo_item_id in Hid.
  do 3 apply sapp_cancel_l in Hid. assert (Hd : sall is_digit (Z_to_string (0 + Z.of_nat j)) = true).
  { rewrite Z_to_string_nonneg by lia. apply nat_digits_digits. lia. }
  by rewrite Hid in Hd.
Qed.

Section single.
Context (id func : string) (nvs : list (string * string)) (p : page).

(** A box with one choice among the entries. *)
Record single (c : combo) : Prop := {
  si_flag : co_flag c = "1";
  si_call : co_onselect c = Some func;
  si_items : exists l, co_list c = Some l /\ l_items l = entry_items id 0 nvs
}.

Lemma single_getElementIndex c v : single c ->
  getElementIndex id v (box id c p) =
    (Done (match value_pos v nvs with Some k => Z.of_nat k | None => -1 end), box id c p).
Proof.
  intros [_ _ (l & Hl & Hi)]. unfold getElementIndex. erewrite bind_done by (by apply list_of_box).
  rewrite Hi, index_from_entries. by destruct (value_pos v nvs).
Qed.

Lemma single_item c k nv : single c -> nvs !! k = Some nv ->
  item_of id (combo_item_id id (Z_to_string (Z.of_nat k))) (box id c p) = (Done (entry_item id (Z.of_nat k) nv), box id c p).
Proof.
  intros [_ _ (l & Hl & Hi)] Hk. unfold item_of. erewrite bind_done by (by apply list_of_box).
  by rewrite Hi, (find_entry id nvs k nv).
Qed.

(** What is left of [selectComboItem] in a box with one choice. *)
Lemma single_script c i fl : single c ->
  selectComboItem id (Z_to_string i) fl (box id c p) =
    (ele ← item_of id (combo_item_id id (Z_to_string i));
     on_combo id (with_select (i_html ele)) ;;;
     c ← combo_of id;
     func ← needed (co_onselect c);
     cond (negb (String.eqb func "undefined") && fl) (
       ele ← item_of id (combo_item_id id (Z_to_string i)); v ← needed (i_value ele);
       modify (add_log (Call (func +++ "('" +++ v +++ "')"))))) (box id c p).
Proof.
  intros [Hc _ _]. unfold selectComboItem. rewrite (bind_done _ _ _ _ _ (combo_of_box _ _ _)), Hc.
  change (num_eqb (toNumber "1") (num_of_Z 2)) with false. cbv iota. unfold mbind, Sc_bind.
  by destruct (item_of id (combo_item_id id (Z_to_string i)) (box id c p)) as [[x| |] q].
Qed.

Lemma single_select c k n u fl : single c -> nvs !! k = Some (n, u) ->
  let c' := with_select (i_html (entry_item id (Z.of_nat k) (n, u))) c in
  single c' /\ selectComboItem id (Z_to_string (Z.of_nat k)) fl (box id c p) =
    (Done tt, snd (for_each (fun e => modify (add_log e)) (call_of func u fl) (box id c' p))).
Proof.
  intros Hs Hk c'. assert (Hs' : single c') by (destruct Hs; by split). split; [done|].
  rewrite single_script by done. rewrite (bind_done _ _ _ _ _ (single_item c k _ Hs Hk)).
  rewrite (bind_done _ _ _ _ _ (on_combo_box _ _ _ _)), (bind_done _ _ _ _ _ (combo_of_box _ _ _)).
  fold c'. rewrite (si_call _ Hs'), bind_needed. unfold call_of.
  destruct (negb (String.eqb func "undefined") && fl); [|done]. cbn [cond].
  by rewrite (bind_done _ _ _ _ _ (single_item c' k _ Hs' Hk)).
Qed.

Lemma single_absent c fl : single c -> fst (selectComboItem id (Z_to_string (-1)) fl (box id c p)) = Threw.
Proof.
  intros Hs. rewrite single_script by done. destruct Hs as [_ _ (l & Hl & Hi)]. unfold item_of.
  erewrite bind_threw; [reflexivity|]. erewrite bind_done by (by apply list_of_box). by rewrite Hi, find_entry_none.
Qed.
End single.

(** The category list of the menu: the box is built, filled with entries
    [name|value], and the entry with the current value is selected.  The box then
    shows that entry, and a click on an entry calls the page's function with its value;
    but when no entry has the value, the page's script throws. *)
Theorem select_by_value id w func nvs v p :
  pg_combos p !! id = None -> id ∈ pg_ids p -> Forall no_bar nvs ->
  let out := (setComboBox id w "1" func ;;; insertAllElements id (map entry nvs) ;;;
              i ← getElementIndex id v; selectComboItem id (Z_to_string i) false) p in
  match value_pos v nvs with
  | Some k =>
      exists c n, out = (Done tt, box id c p) /\ nvs !! k = Some (n, v) /\
        co_select c = item_html n ("Combo_item_value" +++ id +++ "_" +++ Z_to_string (Z.of_nat k)) v /\
        (forall j m u, nvs !! j = Some (m, u) ->
           exists c', selectComboItem id (Z_to_string (Z.of_nat j)) true (box id c p) =
             (Done tt, snd (for_each (fun e => modify (add_log e)) (call_of func u true) (box id c' p))) /\
             co_select c' = item_html m ("Combo_item_value" +++ id +++ "_" +++ Z_to_string (Z.of_nat j)) u)
  | None => fst out = Threw
  end.
Proof.
  intros Hn Hid Hbar. pose proof (box_built id w func nvs p Hn Hid Hbar) as Hb.
  set (B := single_box w func (entry_items id 0 nvs)) in *.
  assert (HB : single id func nvs B) by (split; [done|done|by eexists]).
  assert (Hout : (setComboBox id w "1" func ;;; insertAllElements id (map entry nvs) ;;;
      i ← getElementIndex id v; selectComboItem id (Z_to_string i) false) p =
    selectComboItem id (Z_to_string (match value_pos v nvs with Some k => Z.of_nat k | None => -1 end)) false (box id B p)).
  { unfold mbind, Sc_bind in Hb |- *. destruct (setComboBox id w "1" func p) as [[[]| |] q]; [|done..].
    destruct (insertAllElements id (map entry nvs) q) as [[[]| |] q']; [|done..]. injection Hb as ->.
    by rewrite (single_getElementIndex id func nvs). }
  cbv zeta. rewrite Hout. destruct (value_pos v nvs) as [k|] eqn:Ek; [|by eapply single_absent].
  destruct (value_pos_lookup _ _ _ Ek) as [n Hk].
  destruct (single_select id func nvs p B k n v false HB Hk) as [HB' E]. rewrite E.
  exists (with_select (i_html (entry_item id (Z.of_nat k) (n, v))) B), n.
  split; [unfold call_of; by rewrite andb_false_r|]. split; [done|]. split; [done|].
  intros j m u Hj. destruct (single_select id func nvs p _ j m u true HB' Hj) as [_ E']. rewrite E'. by eexists.
Qed.
End spec.

(** ** Witnesses *)
Lemma classes_reachable_witness :
  rtc combo_step (demo_page, None) (snd (setComboBox "cat" "198" "1" "f" demo_page), None) /\
  classes_inv None (snd (setComboBox "cat" "198" "1" "f" demo_page)).
Proof.
  assert (Hr : rtc combo_step (demo_page, None) (snd (setComboBox "cat" "198" "1" "f" demo_page), None)).
  { eapply rtc_l; [apply step_script, cs_box|apply rtc_refl]. }
  split; [exact Hr|]. exact (classes_reachable demo_page _ eq_refl Hr).
Defined.

Definition three_items : list item :=
  [Item "Combo_itemhost_0" "Combo_item" "" (Some "All") (Some "-1") "" true;
   Item "Combo_itemhost_1" "Combo_item_select" "" (Some "a") (Some "1") "" true;
   Item "Combo_itemhost_2" "Combo_item_hilite" "" (Some "b") (Some "2") "" true].
Definition host_box : combo :=
  Combo "2" (Some "undefined") "" "Main_Combo_select" "hidden" (Some (CList "" "" [])) "" "".
Definition host_page : page := set_combos {["host" := with_items (fun _ => three_items) host_box]} demo_page.

Lemma three_items_multi : multi "host" host_box (Some 2%nat) three_items.
Proof.
  split; [done| | |].
  - intros [|[|[|j]]] x Hx; try discriminate Hx; injection Hx as <-; done.
  - intros [|[|[|j]]] x Hx; try discriminate Hx; injection Hx as <-;
      [exists false, false, false|exists false, true, false|exists false, false, true]; done.
  - intros [|[|[|j]]] x Hx; try discriminate Hx; injection Hx as <-; eexists; done.
Qed.

Lemma multi_clicks_witness :
  exists l' p', for_each (fun k => selectComboItem "host" (Z_to_string (Z.of_nat k)) true) [2; 0; 1]%nat host_page = (Done tt, p') /\
    has_items "host" host_box l' p' /\ selection l' = [false; true; false].
Proof.
  destruct (multi_clicks "host" host_box (Some 2%nat) three_items host_page "undefined" true [2; 0; 1]%nat three_items_multi
    (conj eq_refl (ex_intro _ _ eq_refl)) (ex_intro _ _ eq_refl)
    ltac:(cbn; set_solver) eq_refl ltac:(repeat constructor) ltac:(discriminate))
    as (l' & p' & H1 & H2 & _ & H3 & _).
  exact (ex_intro _ l' (ex_intro _ p' (conj H1 (conj H2 H3)))).
Defined.

Lemma item_handler_witness :
  item_click (combo_item_id "size_4" (Z_to_string 12)) = selectComboItem "size_4" (Z_to_string 12) true.
Proof. exact (item_handler "size_4" 12 ltac:(lia)). Defined.

Lemma select_by_value_witness :
  exists c, (setComboBox "cat" "198" "1" "f" ;;; insertAllElements "cat" (map entry [("Web", "3"); ("Mail", "5")]) ;;;
             i ← getElementIndex "cat" "5"; selectComboItem "cat" (Z_to_string i) false) demo_page = (Done tt, box "cat" c demo_page) /\
    co_select c = "Mail<div>5</div>".
Proof.
  destruct (select_by_value "cat" "198" "f" [("Web", "3"); ("Mail", "5")] "5" demo_page eq_refl
    ltac:(cbn; set_solver) ltac:(repeat constructor)) as (c & n & H1 & H2 & H3 & _).
  injection H2 as <-. exact (ex_intro _ c (conj H1 H3)).
Defined.
