(* ===== verification/PopupList.v ===== *)
(** * Pop-up lists of check boxes (popup.js)
    A field that opens a list of check boxes, grouped by radio buttons, with a search
    field.  Each function of the file is a script over the page; the names of the
    records of a group come from the page's function [getRecord]. *)
From Stdlib Require Import QArith.
From stdpp Require Import gmap.
From S2P Require Import Prelude JsString JsNum JsVal Ui Dom PopupForm Script Desk Combo.
Open Scope Z_scope.

(** ** Parts of the state *)
Definition set_radios (r : list (string * bool)) (p : popup) : popup :=
  Popup r (p_single p) (p_label p) (p_selectedCat p) (p_selectedItems p) (p_disable p) (p_newele p) (p_height p)
    (p_search p) (p_all p) (p_boxes p) (p_spot p).
Definition set_label (l : label) (p : popup) : popup :=
  Popup (p_radios p) (p_single p) l (p_selectedCat p) (p_selectedItems p) (p_disable p) (p_newele p) (p_height p)
    (p_search p) (p_all p) (p_boxes p) (p_spot p).
Definition set_selected (cat items : string) (p : popup) : popup :=
  Popup (p_radios p) (p_single p) (p_label p) cat items (p_disable p) (p_newele p) (p_height p)
    (p_search p) (p_all p) (p_boxes p) (p_spot p).
Definition set_disable (s : string) (p : popup) : popup :=
  Popup (p_radios p) (p_single p) (p_label p) (p_selectedCat p) (p_selectedItems p) s (p_newele p) (p_height p)
    (p_search p) (p_all p) (p_boxes p) (p_spot p).
Definition set_newele (s : string) (p : popup) : popup :=
  Popup (p_radios p) (p_single p) (p_label p) (p_selectedCat p) (p_selectedItems p) (p_disable p) s (p_height p)
    (p_search p) (p_all p) (p_boxes p) (p_spot p).
Definition set_height (s : string) (p : popup) : popup :=
  Popup (p_radios p) (p_single p) (p_label p) (p_selectedCat p) (p_selectedItems p) (p_disable p) (p_newele p) s
    (p_search p) (p_all p) (p_boxes p) (p_spot p).
Definition set_search (s : string) (p : popup) : popup :=
  Popup (p_radios p) (p_single p) (p_label p) (p_selectedCat p) (p_selectedItems p) (p_disable p) (p_newele p) (p_height p)
    s (p_all p) (p_boxes p) (p_spot p).
Definition set_all (s : string) (p : popup) : popup :=
  Popup (p_radios p) (p_single p) (p_label p) (p_selectedCat p) (p_selectedItems p) (p_disable p) (p_newele p) (p_height p)
    (p_search p) s (p_boxes p) (p_spot p).
Definition set_boxes (b : boxes) (p : popup) : popup :=
  Popup (p_radios p) (p_single p) (p_label p) (p_selectedCat p) (p_selectedItems p) (p_disable p) (p_newele p) (p_height p)
    (p_search p) (p_all p) b (p_spot p).
Definition set_spot (s : spot) (p : popup) : popup :=
  Popup (p_radios p) (p_single p) (p_label p) (p_selectedCat p) (p_selectedItems p) (p_disable p) (p_newele p) (p_height p)
    (p_search p) (p_all p) (p_boxes p) s.

Definition label_text (t : option string) (l : label) : label :=
  Label t (lb_title l) (lb_background l) (lb_height l) (lb_visibility l).
Definition label_title (t : string) (l : label) : label :=
  Label (lb_text l) t (lb_background l) (lb_height l) (lb_visibility l).
Definition label_background (t : string) (l : label) : label :=
  Label (lb_text l) (lb_title l) t (lb_height l) (lb_visibility l).
Definition on_label (f : label -> label) (p : popup) : popup := set_label (f (p_label p)) p.

(** The body without its content. *)
Definition no_content : boxes := Boxes None [] false.

(** ** Strings and arrays *)

(** [findIdx(item, arr)]; an [undefined] item is found nowhere. *)
Fixpoint findIdx_from (i : Z) (it : string) (arr : list string) : Z :=
  match arr with [] => -1 | a :: arr => if String.eqb it a then i else findIdx_from (i + 1) it arr end.
Definition findIdx (it : option string) (arr : list string) : Z :=
  match it with Some s => findIdx_from 0 s arr | None => -1 end.
Definition found (it : option string) (arr : list string) : bool := negb (findIdx it arr =? -1).

(** [while (str.indexOf(str1) > -1) str = str.replace(str1, str2)] *)
Fixpoint replaceAll (fuel : nat) (str str1 str2 : string) : option string :=
  if -1 <? indexOf str str1 then
    match fuel with O => None | S fuel => replaceAll fuel (replace_first str1 str2 str) str1 str2 end
  else Some str.

(** [stringToTrim.replace(/^\s+|\s+$/g, '')] *)
Fixpoint trim_end (s : string) : string :=
  match s with
  | EmptyString => EmptyString
  | String c s' =>
      let t := trim_end s' in
      match t with EmptyString => if is_space c then EmptyString else String c EmptyString | _ => String c t end
  end.
Definition popup_trim (s : string) : string := trim_end (skip_space s).

(** A text cut to [n] characters with dots behind, when it is longer than [m]. *)
Definition shorten (m n : Z) (s : string) : string :=
  if m <? slen s then substring2 s 0 n +++ "..." else s.

(** ** Reading the check boxes *)

(** How many boxes are read: at least 10. *)
Definition radioLength (all : string) : nat := Nat.max 10 (length (js_split all ",")).

Definition checked (l : list (string * bool)) : list string := map fst (List.filter snd l).

Definition box_states (p : popup) : list (string * bool) := map (fun k => (k_value k, k_checked k)) (bx_list (p_boxes p)).

(** [getCheckedValues(name, 'popupratio'+name)] *)
Definition checked_group (p : popup) : list string :=
  match p_radios p with
  | [] => match p_single p with Some v => [v] | None => [] end
  | l => checked (take (radioLength (p_all p)) l)
  end.
(** [getCheckedValues(name, 'popupselect'+name)] *)
Definition checked_boxes (p : popup) : list string := checked (take (radioLength (p_all p)) (box_states p)).

(** [maingroup.toString().split('|')] *)
Definition record_conf (p : popup) : list string := js_split (join "," (checked_group p)) "|".
Definition conf_0 (p : popup) : string := default "" (record_conf p !! 0%nat).

(** [getCheckedIds(name)]; [None]: a checked box has no id beside it. *)
Fixpoint checked_ids (l : list checkbox) : option (list string) :=
  match l with
  | [] => Some []
  | k :: l => if k_checked k then i ← k_id k; r ← checked_ids l; Some (i :: r) else checked_ids l
  end.

(** [getCheckedValue(radioObj)] *)
Inductive radio_object :=
| NoRadio
| OneRadio (value : string) (state : bool)
| Radios (l : list (string * bool)).
Definition getCheckedValue (r : radio_object) : string :=
  match r with
  | NoRadio => ""
  | OneRadio v c => if c then v else ""
  | Radios l => default "" (first_some (map (fun vb : string * bool => if snd vb then Some (fst vb) else None) l))
  end.

Section popup.
Context `{Browser} `{Window} `{Place}.
Context (getRecord : string -> option (list string)).

Definition popup_of (name : string) : P popup := p ← get; needed (pg_popups p !! name).
Definition on_popup (name : string) (f : popup -> popup) : P unit :=
  modify (fun p => set_popups (alter f name (pg_popups p)) p).

Definition getCheckedIds (name : string) : P (list string) :=
  p ← popup_of name; needed (checked_ids (take (radioLength (p_all p)) (bx_list (p_boxes p)))).

(** ** Opening and closing *)
Definition with_frame (f : frame -> frame) (s : spot) : spot :=
  Spot (sp_visibility s) (sp_top s) (sp_left s) (sp_width s) (f <$> sp_frame s).

Definition reallyHideMe (name : string) : P unit :=
  _ ← popup_of name;
  on_popup name (fun p => set_spot (with_frame (fun f => Frame "0" "0" (f_display f))
    (Spot "hidden" (sp_top (p_spot p)) (sp_left (p_spot p)) (sp_width (p_spot p)) (sp_frame (p_spot p)))) p) ;;;
  setOpenComponent "" "" ;;;
  on_popup name (fun p => on_label (label_background "url(../images/header.jpg) 2px") (set_disable "1" p)).

Definition showMe (name : string) : P unit :=
  p ← popup_of name;
  cond (String.eqb (p_disable p) "1") (
    main_element name ;;;
    on_popup name (fun p => set_spot (with_frame (fun f => Frame (f_height f) (f_width f) "none")
      (Spot "" (assign_length (sp_top (p_spot p))
                  (str (num_add (num_of_Z (offTop name)) (of_parse (parseInt (p_height p)))) +++ "px"))
         (assign_length (sp_left (p_spot p)) (Z_to_string (offLeft name))) (sp_width (p_spot p)) (sp_frame (p_spot p)))) p) ;;;
    modify (add_log (Focus ("searchpopup" +++ name))) ;;;
    setOpenComponent "" "" ;;;
    setTimeout (SetOpen name "popup") 10 ;;;
    on_popup name (fun p => on_label (label_background "#D4D0C8") (set_disable "0" p))).

(** The offsets of [hideMe]: those of the elements around the field up to the
    outermost one, without rows, forms and table bodies; of nested [DIV]s with the same
    offset only the first counts. *)
Definition hide_step (acc : Z * Z * Z) (a : string * Z * Z) : Z * Z * Z :=
  let '(x, y, lastsize) := acc in
  let '(tag, l, t) := a in
  if String.eqb tag "TR" || String.eqb tag "FORM" || String.eqb tag "TBODY" then acc
  else if String.eqb tag "DIV" then (if lastsize =? t then acc else (x + l, y + t, t))
  else (x + l, y + t, lastsize).
Definition hide_offset (name : string) (y1 : Z) : Z * Z :=
  let a := ancestors name in
  let '(x, y, _) := fold_left hide_step (take (length a - 1) a) (0, y1, 0) in (x, y).

Definition hideMe (name : string) (X Y : Z) : P unit :=
  main_element name ;;;
  p ← popup_of name;
  match parseInt (p_height p) with
  | None => reallyHideMe name
  | Some h =>
      let '(x1, y1) := hide_offset name (if h <=? 20 then 20 else h) in
      let x2 := x1 + offWidth ("popup" +++ name) in
      let y2 := y1 + offHeight ("popup" +++ name) in
      if in_rectangle x1 y1 x2 y2 X Y then mret tt else reallyHideMe name
  end.

(** [document.onclick]: a click at ([X], [Y]). *)
Definition closeElements (X Y : Z) : P unit :=
  p ← get;
  cond (negb (String.eqb (pg_current p) "") && (pg_popupForm p =? 0)) (
    let eles := js_split (pg_current p) "|" in
    let id := default "" (eles !! 0%nat) in
    match eles !! 1%nat with
    | Some component =>
        if String.eqb component "dragedList" then modify (add_log (Call ("hidedragedList('" +++ id +++ "')")))
        else if String.eqb component "popup" then hideMe id X Y
        else cond (String.eqb component "combo") (hideCombo id X Y)
    | None => mret tt
    end).

Definition disablePopup (name : string) : P unit :=
  on_popup name (fun p => on_label (label_background "#D4D0C8") (set_disable "0" p)).
Definition enablePopup (name : string) : P unit :=
  on_popup name (fun p => on_label (label_background "#FFFFFF") (set_disable "1" p)).

Definition getSelectedValue (name : string) : P string := p ← popup_of name; needed (lb_text (p_label p)).

Definition myDashbordPopup (id : string) (height : Z) : P unit :=
  main_element id ;;;
  _ ← popup_of id;
  let h := if msie then height - 3 else height in
  on_popup id (fun p => on_label (fun l => Label (lb_text l) (lb_title l) (lb_background l)
    (assign_length (lb_height l) (Z_to_string h +++ "px")) "hidden") (set_height (Z_to_string height) p)).

Definition openNewPopupForm (id : string) : P unit :=
  p ← popup_of id;
  modify (add_log (Call ("openPopupForm('" +++ default "undefined" (record_conf p !! 2%nat) +++ "','" +++ id +++ "',1)"))).

(** ** The list of check boxes *)

(** [allmyeles[i].split('|')]: the name and the number of a record. *)
Definition name_of (e : string) : option string := js_split e "|" !! 0%nat.
Definition number_of (e : string) : option string := js_split e "|" !! 1%nat.
(** The record is named in [arr], by its name or by its number. *)
Definition named_in (arr : list string) (e : string) : bool := found (name_of e) arr || found (number_of e) arr.

Definition push_new (l : list string) (e : string) : list string := if found (Some e) l then l else l ++ [e].

(** What [generateCheckBox] makes of the state: the records that count as selected. *)
Definition selected_records (p : popup) (sflag : bool) : list string :=
  let rc0 := conf_0 p in
  let arr1 := js_split (p_selectedItems p) "," in
  let allmyeles := js_split (p_all p) "," in
  let arr := (if found (Some "Any") arr1 then ["Any"] else []) ++ List.filter (named_in arr1) allmyeles in
  let eleselected := checked_boxes p in
  let eleselected := if found (Some "-1") arr1 && String.eqb (p_selectedCat p) rc0 && negb sflag then arr1 else eleselected in
  let eleselected :=
    if (0 <? Z.of_nat (length eleselected)) then
      List.filter (fun e => found (Some "-1") eleselected || named_in eleselected e) allmyeles
    else eleselected in
  let eleselected := if String.eqb (p_newele p) "" then eleselected else eleselected ++ [p_newele p] in
  if String.eqb (p_selectedCat p) rc0 then fold_left push_new arr eleselected else eleselected.

(** The selected records that the search would not show anyway, then those to show. *)
Definition shown_records (p : popup) (selected myeles : list string) : list string :=
  let neweles := List.filter (fun e => negb (indexOf e (p_search p) =? 0) || String.eqb (p_search p) "") selected in
  let neweles := match neweles with "" :: _ => [] | _ => neweles end in
  fold_left push_new myeles neweles.

Definition conf_is (conf : option string) (n : Z) : bool := num_eqb (field_num conf) (num_of_Z n).

(** One check box. *)
Definition make_box (image : bool) (selected : list string) (e : string) : checkbox :=
  let value := default "" (name_of e) in
  let number := match number_of e with Some s => if String.eqb s "" then value else s | None => value end in
  let text := shorten 20 20 value in
  CheckBox value (found (Some e) selected) (Some number) (if image then shorten 15 15 text else text)
    (if image then (fun s => "url(images/" +++ s +++ ".gif)") <$> replaceAll (String.length value) value " " "" else None).

Definition generateCheckBox (name : string) (myeles : option (list string)) (sflag : bool) : P unit :=
  p ← popup_of name;
  on_popup name (set_boxes no_content) ;;;
  myeles ← needed myeles;
  let conf := record_conf p !! 1%nat in
  let image := match record_conf p !! 3%nat with Some s => negb (String.eqb s "") && conf_is (Some s) 1 | None => false end in
  let allSelected := (length (checked_boxes p) =? length myeles)%nat in
  let eleselected := selected_records p sflag in
  on_popup name (fun p => if String.eqb (p_newele p) "" then p else set_newele "" p) ;;;
  let list0 := shown_records p eleselected myeles in
  let has_conf := num_gtb (field_num conf) (num_of_Z 0) in
  let with_all := has_conf && (conf_is conf 1 || conf_is conf 3) in
  let with_any := has_conf && (conf_is conf 2 || conf_is conf 3) in
  let list1 := if with_any && negb (found (Some "Any") list0)
               then (if (0 <? Z.of_nat (length list0)) then js_split ("Any," +++ join "," list0) "," else js_split "Any" ",")
               else list0 in
  let any := if with_any then [CheckBox "Any" (match list1 with e :: _ => found (Some e) eleselected | [] => false end) None "Any" None]
             else [] in
  let items := map (make_box image eleselected) (if with_any then drop 1 list1 else list1) in
  let full := (length list1 =? length eleselected)%nat in
  let none := (length list1 =? 0)%nat in
  on_popup name (fun p => set_boxes
    (if none then Boxes None [] true
     else Boxes (if with_all then Some (allSelected || full) else None) (any ++ items) false) p) ;;;
  on_popup name (fun p => let s := p_spot p in
    set_spot (Spot (sp_visibility s) (sp_top s) (sp_left s) (if (100 <? length list1)%nat then "450px" else "330px") (sp_frame s)) p) ;;;
  modify (set_current "") ;;;
  setTimeout (SetOpen name "popup") 10 ;;;
  cond (full && negb with_all) raise.

Definition setRecord (name : string) (flag : bool) : P unit :=
  _ ← popup_of name;
  on_popup name (on_label (label_text (Some ""))) ;;;
  on_popup name (fun p => if flag then set_search "" p else p) ;;;
  p ← popup_of name;
  let myeles := getRecord (conf_0 p) in
  on_popup name (set_all (match myeles with Some l => join "," l | None => "undefined" end)) ;;;
  on_popup name (set_boxes no_content) ;;;
  generateCheckBox name myeles false ;;;
  p ← popup_of name;
  cond (negb (String.eqb (sp_visibility (p_spot p)) "hidden")) (setTimeout (FocusOn ("searchpopup" +++ name)) 1) ;;;
  on_popup name (fun p => set_spot (with_frame (fun f =>
    Frame (assign_length (f_height f) (Z_to_string (offHeight ("popup" +++ name))))
          (assign_length (f_width f) (Z_to_string (offWidth ("popup" +++ name)))) (f_display f)) (p_spot p)) p).

(** The records one of whose parts between dashes begins with the text. *)
Definition matches (innerSearch e : string) : bool :=
  existsb (fun d => indexOf (toLowerCase (popup_trim d)) innerSearch =? 0) (js_split e "-").
Definition searchRecord (name : string) : P unit :=
  p ← popup_of name;
  generateCheckBox name (Some (List.filter (matches (toLowerCase (p_search p))) (js_split (p_all p) ","))) true.

(** ** Ticking *)
Definition set_check (b : bool) (k : checkbox) : checkbox := CheckBox (k_value k) b (k_id k) (k_text k) (k_image k).

Definition selectAllCheckPop (name : string) : P unit :=
  p ← popup_of name;
  let n := S (length (js_split (p_all p) ",")) in
  match bx_list (p_boxes p) with
  | [] => mret tt
  | l =>
      b ← needed (bx_all (p_boxes p));
      on_popup name (set_boxes (Boxes (Some b) (map (set_check b) (take n l) ++ drop n l) (bx_none (p_boxes p))))
  end.

Definition selectCheckPop (name : string) : P unit :=
  p ← popup_of name;
  b ← needed (bx_all (p_boxes p));
  let all := (length (checked_boxes p) =? length (js_split (p_all p) ","))%nat in
  on_popup name (set_boxes (Boxes (Some all) (bx_list (p_boxes p)) (bx_none (p_boxes p)))).

(** The user ticks a box, or the box for all; the browser changes it first. *)
Definition click_box (name : string) (i : nat) : P unit :=
  on_popup name (fun p => set_boxes (Boxes (bx_all (p_boxes p))
    (alter (fun k => set_check (negb (k_checked k)) k) i (bx_list (p_boxes p))) (bx_none (p_boxes p))) p) ;;;
  p ← popup_of name;
  match k_id <$> bx_list (p_boxes p) !! i with
  | Some (Some _) => selectCheckPop name
  | _ => mret tt
  end.
Definition click_all (name : string) : P unit :=
  on_popup name (fun p => set_boxes (Boxes (negb <$> bx_all (p_boxes p)) (bx_list (p_boxes p)) (bx_none (p_boxes p))) p) ;;;
  selectAllCheckPop name.
(** The user chooses a group. *)
Definition check_radio (i : nat) (l : list (string * bool)) : list (string * bool) :=
  imap (fun j vb => (fst vb, (j =? i)%nat)) l.
Definition click_radio (name : string) (i : nat) : P unit :=
  on_popup name (fun p => set_radios (check_radio i (p_radios p)) p) ;;;
  setRecord name true.

(** ** OK and Cancel *)
Definition popupOk (name : string) : P unit :=
  p ← popup_of name;
  let elements := checked_boxes p in
  let recordConf := record_conf p in
  match elements with
  | [] => modify (add_log (Alert ("Please select a " +++ default "" (recordConf !! 0%nat))))
  | _ =>
      (match bx_all (p_boxes p) with
       | Some true =>
           on_popup name (on_label (fun l => label_title ("All " +++ conf_0 p +++ "s") (label_text (Some ("All " +++ conf_0 p)) l)))
       | _ =>
           let str := join "," elements in
           on_popup name (on_label (fun l => label_title str (label_text (Some (shorten 25 22 str)) l)))
       end) ;;;
      match recordConf with
      | [_; _; _; _; code] => modify (add_log (Call code))
      | _ => mret tt
      end ;;;
      reallyHideMe name
  end.

Definition cancelMe (id : string) : P unit :=
  p ← popup_of id;
  on_popup id (on_label (label_text None)) ;;;
  cond (negb (String.eqb (p_selectedItems p) "undefined")) (
    let arr1 := js_split (p_selectedItems p) "," in
    let cat := default "" (name_of (p_selectedCat p)) in
    allmyeles ← needed (getRecord cat);
    let arr :=
      if (length arr1 =? length allmyeles)%nat then ["All " +++ cat]
      else (if found (Some "Any") arr1 then ["Any"] else []) ++
           map (fun e => default "" (name_of e)) (List.filter (named_in arr1) allmyeles) in
    let str := join "," arr in
    cond (negb (String.eqb str "undefined"))
      (on_popup id (on_label (fun l => label_title str (label_text (Some (shorten 25 25 str)) l))))) ;;;
  reallyHideMe id.

(** ** Building *)

(** Checks the radio buttons whose group has this name, one after the other. *)
Fixpoint check_named (category : string) (i : nat) (n : nat) (l : list (string * bool)) : list (string * bool) :=
  match n with
  | O => l
  | S n =>
      check_named category (S i) n
        (match l !! i with
         | Some vb => if String.eqb category (default "" (name_of (fst vb))) then check_radio i l else l
         | None => l
         end)
  end.

Definition setPopupValue (name category items : string) : P unit :=
  p ← get;
  cond (bool_decide (is_Some (pg_popups p !! name))) (
    on_popup name (fun p => set_radios (check_named category 0 15 (p_radios p)) (set_selected category items p)) ;;;
    setRecord name false ;;;
    popupOk name).

(** Internet Explorer 6 and before: [parseInt(appVersion.split(';')[1].substring(6)) <= 6]. *)
Definition old_msie : bool :=
  msie && match js_split appVersion ";" !! 1%nat with
          | Some s => match parseInt (substring1 s 6) with Some n => n <=? 6 | None => false end
          | None => false
          end.

(** The first radio button is checked, then those of the groups named [category], in turn. *)
Definition first_radios (arr : list string) (category : option string) (l : list (string * bool)) : list (string * bool) :=
  match category with
  | Some c => check_named c 0 (length arr) (check_radio 0 l)
  | None => check_radio 0 l
  end.

Definition new_popup (name : string) (arr : list string) (category items : option string) : popup :=
  Popup (match arr with [_] => [] | _ => map (fun a => (a, false)) arr end)
    (match arr with [a] => Some a | _ => None end)
    (Label None "" "" "" "")
    (field_text category) (field_text items) "1" "" "20" "" "" no_content
    (Spot "hidden" (assign_length "" (Z_to_string (offTop name + 20) +++ "px")) (assign_length "" (Z_to_string (offLeft name))) ""
      (if old_msie then Some (Frame "0" "" "none") else None)).

Definition createPopUp (name : string) (arr : list string) (category items : option string) : P unit :=
  main_element name ;;;
  modify (fun p => set_popups (partial_alter (fun o => Some (default (new_popup name arr category items) o)) name (pg_popups p)) p) ;;;
  on_popup name (fun p => set_radios (first_radios arr category (p_radios p)) p) ;;;
  setRecord name false ;;;
  cond (match category with Some c => negb (String.eqb c "") | None => false end) (popupOk name) ;;;
  setTimeout (SetOpen "" "") 1.
End popup.
