(* ===== verification/PopupSpec.v ===== *)
(** * What the pop-up lists do
    The list of boxes after a group was chosen, the box for all, OK, and clicks
    outside. *)
From stdpp Require Import gmap.
From S2P Require Import Prelude JsString JsNum JsVal Ui Dom PopupForm Script Desk Combo PopupList.
Open Scope Z_scope.

(** ** Arrays *)
Lemma findIdx_from_spec i s arr : 0 <= i -> findIdx_from i s arr <> -1 <-> s ∈ arr.
Proof.
  revert i. induction arr as [|a arr IH]; intros i Hi; cbn [findIdx_from]; [rewrite elem_of_nil; lia|].
  rewrite elem_of_cons. destruct (String.eqb_spec s a) as [->|Hne]; [|rewrite IH by lia; intuition].
  split; [by left|lia].
Qed.

Lemma found_spec s arr : found (Some s) arr = bool_decide (s ∈ arr).
Proof.
  unfold found, findIdx. apply eq_true_iff_eq. rewrite negb_true_iff, Z.eqb_neq, bool_decide_eq_true.
  by apply findIdx_from_spec.
Qed.



Lemma filter_all_or_none {A} (f : A -> bool) l : (forall x, x ∈ l -> f x = false) -> List.filter f l = [].
Proof.
  induction l as [|x l IH]; intros Hf; [done|]. cbn. rewrite (Hf x) by by left. apply IH. intros y Hy. apply Hf. by right.
Qed.

Lemma filter_in {A} (f : A -> bool) l x : x ∈ List.filter f l <-> x ∈ l /\ f x = true.
Proof. rewrite !list_elem_of_In. apply filter_In. Qed.

Lemma filter_NoDup {A} (f : A -> bool) (l : list A) : NoDup l -> NoDup (List.filter f l).
Proof.
  induction 1 as [|x l Hx Hl IH]; cbn; [constructor|]. case_if; [|done]. constructor; [|done].
  rewrite filter_in. tauto.
Qed.



(** ** The records of a group *)

(** Records as the server sends them: not empty, without commas, all different. *)
Definition records_ok (l : list string) : Prop :=
  l <> [] /\ NoDup l /\ Forall (fun e => e <> "" /\ sall (not_char ","%char) e = true) l.

Lemma split_records l : records_ok l -> js_split (join "," l) "," = l.
Proof.
  intros (Hne & _ & Hl). apply js_split_join; [|done]. eapply Forall_impl; [exact Hl|]. by intros e [_ He].
Qed.


Section spec.
Context `{Browser} `{Window} `{Place}.
Context (getRecord : string -> option (list string)).

(** ** Running scripts on one pop-up list *)

(** The page with the list [name] in the state [q]. *)
Definition pbox (name : string) (q : popup) (p : page) : page := set_popups (<[name := q]> (pg_popups p)) p.

Lemma on_popup_box name f q p : on_popup name f (pbox name q p) = (Done tt, pbox name (f q) p).
Proof.
  unfold on_popup, modify. f_equal. unfold pbox, set_popups. cbn. f_equal. apply map_eq. intros i.
  destruct (decide (i = name)) as [->|Hne].
  - by rewrite lookup_alter_eq, !lookup_insert_eq.
  - by rewrite lookup_alter_ne, !lookup_insert_ne by done.
Qed.

Lemma popup_of_box name q p : popup_of name (pbox name q p) = (Done q, pbox name q p).
Proof. unfold popup_of. sc_run. cbn. by rewrite lookup_insert_eq. Qed.


Lemma pbox_eta name q p : pg_popups p !! name = Some q -> pbox name q p = p.
Proof. intros Hq. unfold pbox. rewrite insert_id by done. by destruct p. Qed.

(** The page after the list was filled: closing is switched on in 10 ms. *)
Definition refilled (name : string) (p : page) : page :=
  set_timers (pg_timers p ++ [(SetOpen name "popup", 10)]) (set_current "" p).

Ltac pstep :=
  first [ rewrite (bind_done _ _ _ _ _ (on_popup_box _ _ _ _)) | rewrite (bind_done _ _ _ _ _ (popup_of_box _ _ _))
        | rewrite bind_needed | rewrite bind_modify | rewrite bind_ret ].

(** The checked group depends on the radio buttons alone while there are at most 10. *)
Lemma record_conf_ext p q :
  p_radios p = p_radios q -> p_single p = p_single q -> (length (p_radios q) <= 10)%nat -> record_conf p = record_conf q.
Proof.
  intros Hr Hs Hl. unfold record_conf, checked_group. rewrite Hr, Hs. destruct (p_radios q) as [|r l] eqn:E; [done|].
  rewrite !take_ge by (unfold radioLength; lia). done.
Qed.

(** The group [cat], with a box for all records and none for any. *)
Record group (cat : string) (q : popup) : Prop := {
  gr_radios : (length (p_radios q) <= 10)%nat;
  gr_cat : record_conf q !! 0%nat = Some cat;
  gr_conf : record_conf q !! 1%nat = Some "1"
}.

Lemma group_ext cat p q :
  p_radios p = p_radios q -> p_single p = p_single q -> group cat q -> group cat p.
Proof. intros Hr Hs [H1' H2' H3']. split; rewrite ?(record_conf_ext p q), ?Hr by done; done. Qed.




(** [generateCheckBox] in a group with a box for all records. *)
Definition image_of (q : popup) : bool :=
  match record_conf q !! 3%nat with Some s => negb (String.eqb s "") && conf_is (Some s) 1 | None => false end.

Lemma generate_all name q p l (sflag : bool) cat :
  group cat q -> p_newele q = "" ->
  let sel := selected_records q sflag in
  let list0 := shown_records q sel l in
  exists w, generateCheckBox name (Some l) sflag (pbox name q p) =
    (Done tt, pbox name
      (set_spot (Spot (sp_visibility (p_spot q)) (sp_top (p_spot q)) (sp_left (p_spot q)) w (sp_frame (p_spot q)))
        (set_boxes (if (length list0 =? 0)%nat then Boxes None [] true
                    else Boxes (Some ((length (checked_boxes q) =? length l)%nat || (length list0 =? length sel)%nat))
                           (map (make_box (image_of q) sel) list0) false) q))
      (refilled name p)).
Proof.
  intros Hg Hn sel list0. unfold generateCheckBox. do 3 pstep.
  rewrite (gr_conf _ _ Hg). fold (image_of q). pstep.
  change (p_newele (set_boxes no_content q)) with (p_newele q). rewrite Hn. cbn [String.eqb].
  change (num_gtb (field_num (Some "1")) (num_of_Z 0)) with true.
  change (conf_is (Some "1") 1) with true. change (conf_is (Some "1") 2) with false. change (conf_is (Some "1") 3) with false.
  cbn [andb orb negb]. fold sel. fold list0. do 2 pstep. rewrite bind_modify.
  eexists. unfold setTimeout. rewrite bind_modify. rewrite andb_false_r. cbn [cond app]. reflexivity.
Qed.










(** ** OK *)

(** The text of the field: all records, or their names, cut to 22 characters. *)
Definition ok_text (cat : string) (all : bool) (names : list string) : string :=
  if all then "All " +++ cat else shorten 25 22 (join "," names).
Definition ok_title (cat : string) (all : bool) (names : list string) : string :=
  if all then "All " +++ cat +++ "s" else join "," names.

(** The list is closed and can be opened again. *)
Definition closed (q : popup) : popup :=
  on_label (label_background "url(../images/header.jpg) 2px") (set_disable "1"
    (set_spot (with_frame (fun f => Frame "0" "0" (f_display f))
      (Spot "hidden" (sp_top (p_spot q)) (sp_left (p_spot q)) (sp_width (p_spot q)) (sp_frame (p_spot q)))) q)).

Lemma reallyHideMe_run name q p :
  reallyHideMe name (pbox name q p) = (Done tt, pbox name (closed q) (set_current "|" p)).
Proof.
  unfold reallyHideMe, setOpenComponent. do 2 pstep. rewrite bind_modify.
  match goal with |- on_popup _ _ (set_current ?c (pbox _ ?x _)) = _ =>
    change (set_current c (pbox name x p)) with (pbox name x (set_current c p)) end.
  by rewrite on_popup_box.
Qed.

Lemma popupOk_core name q p cat :
  record_conf q !! 0%nat = Some cat -> length (record_conf q) <> 5%nat ->
  popupOk name (pbox name q p) =
    match checked_boxes q with
    | [] => (Done tt, add_log (Alert ("Please select a " +++ cat)) (pbox name q p))
    | names =>
        let all := bool_decide (bx_all (p_boxes q) = Some true) in
        (Done tt, pbox name (closed (on_label (fun l => label_title (ok_title cat all names)
           (label_text (Some (ok_text cat all names)) l)) q)) (set_current "|" p))
    end.
Proof.
  intros Hc H5. unfold popupOk. pstep. unfold conf_0. rewrite Hc. cbn [default]. unfold from_option, id.
  destruct (checked_boxes q) as [|n names]; [done|]. set (ns := n :: names).
  assert (Htail : forall m : P unit,
    (match record_conf q with [_; _; _; _; code] => modify (add_log (Call code)) | _ => mret tt end ;;; m) = (mret tt ;;; m)).
  { intros m. by destruct (record_conf q) as [|? [|? [|? [|? [|? [|? ?]]]]]]. }
  destruct (bx_all (p_boxes q)) as [[|]|] eqn:Eb; cbv zeta; pstep; rewrite Htail, bind_ret, reallyHideMe_run; done.
Qed.

(** OK on a list without a tick: a message, and the list stays as it is.  With a
    tick: the list closes, can be opened again, and the field shows the group when all
    are ticked, and otherwise the names, cut when they are longer than 25 characters. *)
Theorem popupOk_spec name q p cat :
  pg_popups p !! name = Some q -> record_conf q !! 0%nat = Some cat -> length (record_conf q) <> 5%nat ->
  exists p', popupOk name p = (Done tt, p') /\
    match checked_boxes q with
    | [] => p' = add_log (Alert ("Please select a " +++ cat)) p
    | names => exists q', pg_popups p' !! name = Some q' /\ pg_current p' = "|" /\ pg_log p' = pg_log p /\
        p_disable q' = "1" /\ sp_visibility (p_spot q') = "hidden" /\ p_boxes q' = p_boxes q /\
        lb_text (p_label q') = Some (if bool_decide (bx_all (p_boxes q) = Some true) then "All " +++ cat
                                     else shorten 25 22 (join "," names))
    end.
Proof.
  intros Hq Hc H5. assert (E : popupOk name p = popupOk name (pbox name q p)) by by rewrite pbox_eta.
  rewrite E, (popupOk_core name q p cat) by done.
  destruct (checked_boxes q) as [|n names]; [eexists; split; [reflexivity|by rewrite pbox_eta]|].
  eexists. split; [reflexivity|]. cbv zeta.
  match goal with |- context [pbox name ?x _] => exists x end.
  split; [cbn; by rewrite lookup_insert_eq|]. done.
Qed.



















(** ** Opening, and clicks on the page *)

(** The click is on the list. *)
Definition on_list (name : string) (h X Y : Z) : bool :=
  let '(x1, y1) := hide_offset name (if h <=? 20 then 20 else h) in
  in_rectangle x1 y1 (x1 + offWidth ("popup" +++ name)) (y1 + offHeight ("popup" +++ name)) X Y.

Lemma hideMe_run name q p h X Y :
  name ∈ pg_ids p -> parseInt (p_height q) = Some h ->
  hideMe name X Y (pbox name q p) =
    (Done tt, if on_list name h X Y then pbox name q p else pbox name (closed q) (set_current "|" p)).
Proof.
  intros Hid Hh. unfold hideMe, on_list. erewrite bind_done by (by apply main_element_in). pstep. rewrite Hh.
  destruct (hide_offset name _) as [x1 y1]. destruct (in_rectangle _ _ _ _ X Y); [done|]. apply reallyHideMe_run.
Qed.

Lemma open_name name : sall (not_char "|"%char) name = true -> js_split (name +++ "|" +++ "popup") "|" = [name; "popup"].
Proof. intros Hn. change ("|" +++ "popup") with (String "|" "popup"). by rewrite js_split_char_cons. Qed.

(** The list after [showMe]. *)
Definition opened (name : string) (q : popup) : popup :=
  on_label (label_background "#D4D0C8") (set_disable "0"
    (set_spot (with_frame (fun f => Frame (f_height f) (f_width f) "none")
      (Spot "" (assign_length (sp_top (p_spot q))
                  (str (num_add (num_of_Z (offTop name)) (of_parse (parseInt (p_height q)))) +++ "px"))
         (assign_length (sp_left (p_spot q)) (Z_to_string (offLeft name))) (sp_width (p_spot q)) (sp_frame (p_spot q)))) q)).

Lemma showMe_run name q p :
  name ∈ pg_ids p -> p_disable q = "1" ->
  showMe name (pbox name q p) = (Done tt, pbox name (opened name q)
    (set_timers (pg_timers p ++ [(SetOpen name "popup", 10)]) (set_current "|" (add_log (Focus ("searchpopup" +++ name)) p)))).
Proof.
  intros Hid Hd. unfold showMe. pstep. rewrite Hd. cbn [String.eqb Ascii.eqb Bool.eqb cond].
  erewrite bind_done by (by apply main_element_in). pstep. rewrite bind_modify. unfold setOpenComponent.
  rewrite bind_modify. unfold setTimeout. rewrite bind_modify.
  match goal with |- on_popup _ _ ?st = _ => change st with (pbox name (set_spot (with_frame (fun f => Frame (f_height f) (f_width f) "none")
      (Spot "" (assign_length (sp_top (p_spot q))
                  (str (num_add (num_of_Z (offTop name)) (of_parse (parseInt (p_height q)))) +++ "px"))
         (assign_length (sp_left (p_spot q)) (Z_to_string (offLeft name))) (sp_width (p_spot q)) (sp_frame (p_spot q)))) q)
    (set_timers (pg_timers p ++ [(SetOpen name "popup", 10)]) (set_current "|" (add_log (Focus ("searchpopup" +++ name)) p)))) end.
  by rewrite on_popup_box.
Qed.

(** A closed list opens with a click on its field.  Ten milliseconds later clicks
    on the page are watched: a click on the list leaves it open, and the field does not
    open it again; a click elsewhere closes it, and later clicks change nothing. *)
Theorem popup_lifecycle name q p h X Y :
  pg_popups p !! name = Some q -> name ∈ pg_ids p -> p_disable q = "1" -> pg_popupForm p = 0 ->
  sall (not_char "|"%char) name = true -> parseInt (p_height q) = Some h ->
  exists p' q', (showMe name ;;; fire (SetOpen name "popup") ;;; closeElements X Y) p = (Done tt, p') /\
    pg_popups p' !! name = Some q' /\ p_boxes q' = p_boxes q /\
    if on_list name h X Y
    then sp_visibility (p_spot q') = "" /\ p_disable q' = "0" /\ pg_current p' = name +++ "|popup" /\
         showMe name p' = (Done tt, p')
    else sp_visibility (p_spot q') = "hidden" /\ p_disable q' = "1" /\ pg_current p' = "|" /\
         (forall X' Y', closeElements X' Y' p' = (Done tt, p')).
Proof.
  intros Hq Hid Hd Hf Hn Hh. assert (Ep : pbox name q p = p) by by apply pbox_eta. rewrite <- Ep.
  rewrite (bind_done _ _ _ _ _ (showMe_run name q p Hid Hd)).
  set (p1 := set_timers _ _). assert (Hid1 : name ∈ pg_ids p1) by exact Hid.
  assert (Hf1 : pg_popupForm p1 = 0) by exact Hf. clearbody p1. cbn [fire]. unfold setOpenComponent. rewrite bind_modify.
  set (p2 := set_current (name +++ "|" +++ "popup") p1).
  change (set_current (name +++ "|" +++ "popup") (pbox name (opened name q) p1)) with (pbox name (opened name q) p2).
  assert (Hc : closeElements X Y (pbox name (opened name q) p2) = hideMe name X Y (pbox name (opened name q) p2)).
  { unfold closeElements. unfold get at 1. erewrite bind_done by reflexivity.
    change (pg_current (pbox name (opened name q) p2)) with (name +++ "|" +++ "popup").
    change (pg_popupForm (pbox name (opened name q) p2)) with (pg_popupForm p1). rewrite Hf1, open_name by done.
    assert (Hne : String.eqb (name +++ "|" +++ "popup") "" = false) by by destruct name.
    rewrite Hne. done. }
  rewrite Hc, (hideMe_run name (opened name q) p2 h X Y Hid1 Hh). destruct (on_list name h X Y).
  - exists (pbox name (opened name q) p2), (opened name q). split; [done|]. split; [cbn; by rewrite lookup_insert_eq|].
    split; [done|]. split; [done|]. split; [done|]. split; [done|]. unfold showMe. by rewrite (bind_done _ _ _ _ _ (popup_of_box _ _ _)).
  - eexists _, _. split; [reflexivity|]. split; [cbn; by rewrite lookup_insert_eq|]. split; [done|]. split; [done|].
    split; [done|]. split; [done|]. intros X' Y'. unfold closeElements. unfold get at 1. erewrite bind_done by reflexivity.
    change (pg_popupForm _) with (pg_popupForm p1). rewrite Hf1. done.
Qed.

(** ** Searching *)

(** A record counts as selected in a search: it is ticked, or was chosen from outside. *)
Definition counts (cat : string) (q : popup) (e : string) : bool :=
  found (Some "-1") (checked_boxes q) || named_in (checked_boxes q) e ||
  (String.eqb (p_selectedCat q) cat && named_in (js_split (p_selectedItems q) ",") e).

Lemma push_new_NoDup l : forall acc, NoDup acc -> NoDup (fold_left push_new l acc).
Proof.
  induction l as [|e l IH]; intros acc Ha; [done|]. apply IH. unfold push_new. rewrite found_spec. case_bool_decide; [done|].
  apply NoDup_app. split; [done|]. split; [|apply NoDup_singleton]. intros x Hx. rewrite list_elem_of_singleton. by intros ->.
Qed.

Lemma push_new_in l x : forall acc, x ∈ fold_left push_new l acc <-> x ∈ acc \/ x ∈ l.
Proof.
  clear getRecord. induction l as [|e l IH]; intros acc; cbn [fold_left]; [rewrite elem_of_nil; tauto|].
  rewrite IH, elem_of_cons. unfold push_new. rewrite found_spec. case_bool_decide as Hd; [|rewrite elem_of_app, list_elem_of_singleton; tauto].
  split; [tauto|]. intros [?|[->|?]]; tauto.
Qed.

Lemma selected_records_search cat q l :
  group cat q -> p_newele q = "" -> p_all q = join "," l -> records_ok l ->
  found (Some "Any") (js_split (p_selectedItems q) ",") = false ->
  NoDup (selected_records q true) /\ forall e, e ∈ selected_records q true <-> e ∈ l /\ counts cat q e = true.
Proof.
  clear getRecord. intros Hg Hn Ha Hl Hany. unfold selected_records, conf_0, counts.
  rewrite (gr_cat _ _ Hg), Ha, split_records, Hany, Hn by done. cbn [default negb String.eqb app from_option id].
  rewrite andb_false_r. set (arr1 := js_split (p_selectedItems q) ","). set (names := checked_boxes q).
  set (e1 := if 0 <? Z.of_nat (length names) then _ else names).
  assert (He1 : e1 = List.filter (fun e => found (Some "-1") names || named_in names e) l).
  { unfold e1. destruct names as [|n ns]; [|done]. symmetry. apply filter_all_or_none. intros x _.
    unfold named_in, found, findIdx. by destruct (name_of x), (number_of x). }
  assert (Hnd : NoDup e1) by (rewrite He1; apply filter_NoDup, Hl).
  destruct (String.eqb (p_selectedCat q) cat); cbn [andb].
  - split; [by apply push_new_NoDup|]. intros e. rewrite push_new_in, He1, !filter_in, !orb_true_iff. tauto.
  - split; [done|]. intros e. by rewrite He1, filter_in, orb_false_r.
Qed.

(** The search field.  The list shows, once each, the records one of whose parts
    begins with the text, and the selected records that do not begin with it; the ticks
    are those of the selected records.  Without any record to show the list says so. *)
Theorem searchRecord_spec name q p cat l :
  pg_popups p !! name = Some q -> group cat q -> p_newele q = "" -> p_all q = join "," l -> records_ok l ->
  found (Some "Any") (js_split (p_selectedItems q) ",") = false ->
  exists q' p' recs sel, searchRecord name p = (Done tt, p') /\ pg_popups p' !! name = Some q' /\
    NoDup recs /\ (forall e, e ∈ sel <-> e ∈ l /\ counts cat q e = true) /\
    (forall e, e ∈ recs <-> e ∈ l /\ (matches (toLowerCase (p_search q)) e = true \/
       counts cat q e = true /\ (indexOf e (p_search q) <> 0 \/ p_search q = ""))) /\
    (recs = [] -> bx_none (p_boxes q') = true /\ bx_list (p_boxes q') = []) /\
    (recs <> [] -> bx_none (p_boxes q') = false /\ bx_list (p_boxes q') = map (make_box (image_of q) sel) recs).
Proof.
  clear getRecord. intros Hq Hg Hn Ha Hl Hany. destruct (selected_records_search cat q l Hg Hn Ha Hl Hany) as [Hsn Hsel].
  set (sel := selected_records q true) in *. set (my := List.filter (matches (toLowerCase (p_search q))) l).
  destruct (generate_all name q p my true cat Hg Hn) as [w E]. fold sel in E.
  assert (Er : searchRecord name p = generateCheckBox name (Some my) true (pbox name q p)).
  { rewrite <- (pbox_eta name q p Hq) at 1. unfold searchRecord. pstep. by rewrite Ha, split_records. }
  set (keep := fun e => negb (indexOf e (p_search q) =? 0) || String.eqb (p_search q) "").
  assert (Hm : match List.filter keep sel with "" :: _ => [] | _ => List.filter keep sel end = List.filter keep sel).
  { destruct (List.filter keep sel) as [|[|c e] k] eqn:Ef; try done. exfalso.
    assert (Hin : "" ∈ List.filter keep sel) by (rewrite Ef; by left). apply filter_in in Hin as [Hin _].
    apply Hsel in Hin as [Hin _]. destruct Hl as (_ & _ & Hl). rewrite Forall_forall in Hl. by destruct (Hl "" Hin). }
  set (recs := shown_records q sel my) in *.
  assert (Hrecs : recs = fold_left push_new my (List.filter keep sel)).
  { unfold recs, shown_records. fold keep. by rewrite Hm. }
  rewrite E in Er. eexists _, _, recs, sel. split; [exact Er|]. split; [cbn; by rewrite lookup_insert_eq|].
  split; [rewrite Hrecs; apply push_new_NoDup; by apply filter_NoDup|]. split; [exact Hsel|]. split.
  - intros e. rewrite Hrecs, push_new_in. unfold my. rewrite !filter_in, Hsel. unfold keep. rewrite orb_true_iff, negb_true_iff, Z.eqb_neq, String.eqb_eq. tauto.
  - cbn [p_boxes set_spot set_boxes]. destruct recs; cbn; split; intros Hr; try done.
Qed.
End spec.

(** ** Witnesses *)
Definition devices : list string := ["fw-east|1"; "fw-west|2"; "core|3"].
Definition demo_getRecord (g : string) : option (list string) :=
  if String.eqb g "Device" then Some devices else if String.eqb g "Group" then Some ["all|9"] else None.
Definition demo_list : popup :=
  Popup [("Device|1|0", true); ("Group|1|0", false)] None (Label None "" "" "" "") "undefined" "undefined" "1" "" "20" "" "" no_content
    (Spot "hidden" "" "" "" None).
Definition list_page (q : popup) : page := set_popups {["host" := q]} demo_page.

Lemma devices_ok : records_ok devices.
Proof. split; [done|]. split; [by apply (bool_decide_unpack _), I|]. repeat constructor; done. Qed.

Lemma demo_group q : p_radios q = p_radios demo_list -> p_single q = None -> group "Device" q.
Proof. intros Hr Hs. apply (group_ext "Device" q demo_list Hr Hs). split; [cbn; lia|done|done]. Qed.


Lemma popupOk_spec_witness :
  exists p', popupOk "host" (list_page demo_list) = (Done tt, p') /\
    p' = add_log (Alert "Please select a Device") (list_page demo_list).
Proof.
  destruct (popupOk_spec "host" demo_list (list_page demo_list) "Device" eq_refl ltac:(vm_compute; reflexivity)
    ltac:(vm_compute; discriminate)) as (p' & H1 & H2).
  exists p'. split; [exact H1|exact H2].
Defined.


Lemma popup_lifecycle_witness :
  exists p' q', (showMe "host" ;;; fire (SetOpen "host" "popup") ;;; closeElements 5 5) (list_page demo_list) = (Done tt, p') /\
    pg_popups p' !! "host" = Some q' /\ sp_visibility (p_spot q') = "hidden".
Proof.
  destruct (popup_lifecycle "host" demo_list (list_page demo_list) 20 5 5 eq_refl ltac:(cbn; set_solver) eq_refl eq_refl
    ltac:(vm_compute; reflexivity) ltac:(vm_compute; reflexivity)) as (p' & q' & H1 & H2 & _ & H3 & _).
  exact (ex_intro _ p' (ex_intro _ q' (conj H1 (conj H2 H3)))).
Defined.

Definition search_list : popup := set_search "WE" (set_all (join "," devices) demo_list).
Lemma searchRecord_spec_witness :
  exists q' p' recs sel, searchRecord "host" (list_page search_list) = (Done tt, p') /\ pg_popups p' !! "host" = Some q' /\
    (recs <> [] -> bx_list (p_boxes q') = map (make_box false sel) recs).
Proof.
  destruct (searchRecord_spec "host" search_list (list_page search_list) "Device" devices eq_refl
    (demo_group search_list eq_refl eq_refl) eq_refl eq_refl devices_ok ltac:(vm_compute; reflexivity))
    as (q' & p' & recs & sel & H1 & H2 & _ & _ & _ & _ & H3).
  exact (ex_intro _ q' (ex_intro _ p' (ex_intro _ recs (ex_intro _ sel (conj H1 (conj H2 (fun h => proj2 (H3 h)))))))).
Defined.

(** ** Pictures *)
Lemma replaceAll_total a b : (String.length b < String.length a)%nat -> forall fuel s, (String.length s <= fuel)%nat ->
  exists r, replaceAll fuel s a b = Some r /\ contains r a = false.
Proof.
  intros Hab. assert (Hc : forall s, (-1 <? indexOf s a) = contains s a).
  { intros s. unfold indexOf, contains. destruct (index_of a s); [|done]. apply Z.ltb_lt. lia. }
  induction fuel as [|fuel IH]; intros s Hs; cbn [replaceAll]; rewrite Hc; destruct (contains s a) eqn:E; try (by exists s).
  - destruct s; [|cbn in Hs; lia]. pose proof (replace_first_length a b "" E). cbn in *. lia.
  - pose proof (replace_first_length a b s E). apply IH. lia.
Qed.

(** The picture of a box always has a name, without spaces. *)
Lemma picture_total sel e : exists s, k_image (make_box true sel e) = Some ("url(images/" +++ s +++ ".gif)") /\ contains s " " = false.
Proof.
  destruct (replaceAll_total " " "" ltac:(cbn; lia) _ (default "" (name_of e)) (Nat.le_refl _)) as (r & E & Hr).
  exists r. split; [|done]. unfold make_box. cbn [k_image]. by rewrite E.
Qed.

(** ** Flaws *)

(** A group with a box for any: with ten records there are eleven boxes, and the last
    one is never read. *)
Definition ten_records : list string := ["a"; "b"; "c"; "d"; "e"; "f"; "g"; "h"; "i"; "j"].
Lemma last_box_not_read :
  let q := set_all (join "," ten_records) (set_boxes (Boxes None
    (CheckBox "Any" false None "Any" None :: map (fun e => CheckBox e (String.eqb e "j") (Some e) e None) ten_records) false) demo_list) in
  checked (box_states q) = ["j"] /\ checked_boxes q = [].
Proof. split; vm_compute; reflexivity. Qed.

(** A box of a record that was chosen from outside, unticked by the user, is ticked
    again by the next search. *)
Lemma search_ticks_again :
  let p1 := snd ((setPopupValue demo_getRecord "host" "Device" "core,1" ;;; click_box "host" 0) (list_page demo_list)) in
  let p2 := snd (searchRecord "host" p1) in
  (checked_boxes <$> pg_popups p1 !! "host") = Some ["core"] /\
  (checked_boxes <$> pg_popups p2 !! "host") = Some ["core"; "fw-east"].
Proof. split; vm_compute; reflexivity. Qed.

(** In a group without a box for all records, the list cannot be filled with every
    record selected: the handler throws at its last line. *)
Lemma no_all_box_throws :
  fst (setPopupValue (fun _ => Some ["a"; "b"]) "host" "Port" "a,b"
    (list_page (set_radios [("Port|0|0", true)] demo_list))) = Threw.
Proof. vm_compute. reflexivity. Qed.

(** The box for any has no id beside it: [getCheckedIds] throws when it is ticked. *)
Lemma any_has_no_id :
  fst (getCheckedIds "host" (list_page (set_boxes (Boxes None [CheckBox "Any" true None "Any" None] false) demo_list))) = Threw.
Proof. vm_compute. reflexivity. Qed.
