(* ===== verification/HelpString.v ===== *)
(** * String utilities of the online help (wwhelp/wwhimpl/common/scripts/strutils.js)
    Replacing and escaping, the patterns made of search words, the buffer that
    pages of the help viewer are written to, and the parser that takes a search
    text apart into words and quoted phrases. *)
From S2P Require Import Prelude JsString JsNum.
Open Scope Z_scope.

(** ** Language *)

(** [s.indexOf(p, i)] *)
Definition indexOf_from (s p : string) (i : Z) : Z :=
  let i := Z.to_nat (clamp 0 (slen s) i) in
  match index_of p (sdrop i s) with Some n => Z.of_nat (i + n) | None => -1 end.

(** The text of the characters of [s], each replaced by a text. *)
Fixpoint sflat (f : Ascii.ascii -> string) (s : string) : string :=
  match s with
  | EmptyString => EmptyString
  | String c s => f c +++ sflat f s
  end.

(** ** Replacing *)

(** The loop of [WWHStringUtilities_SearchReplace], from position [i]. *)
Fixpoint replace_loop (fuel : nat) (p r s : string) (i : Z) : option string :=
  match fuel with
  | O => None
  | S fuel =>
      let i := indexOf_from s p i in
      if i =? -1 then Some s
      else replace_loop fuel p r
             (substring2 s 0 i +++ r +++ substring2 s (i + slen p) (slen s)) (i + slen r)
  end.
Definition SearchReplace (s p r : string) : string :=
  if (0 <? slen p) && (0 <? slen s)
  then default s (replace_loop (S (String.length s)) p r s 0) else s.

(** [WWHStringUtilities_FormatMessage]; an argument that is left out is [None]. *)
Fixpoint format_loop (fuel : nat) (args : list (option string)) (s : string) (i : Z) : option string :=
  match fuel with
  | O => None
  | S fuel =>
      let i := indexOf_from s "%s" i in
      if i =? -1 then Some s
      else match head args with
           | Some (Some r) =>
               format_loop fuel (tail args)
                 (substring2 s 0 i +++ r +++ substring2 s (i + 2) (slen s)) (i + slen r)
           | _ => format_loop fuel (tail args) s (i + 2)
           end
  end.
Definition FormatMessage (msg : string) (args : list (option string)) : string :=
  if 0 <? slen msg then default msg (format_loop (S (String.length msg)) (take 4 args) msg 0) else msg.

Definition nl : string := String (Ascii.ascii_of_nat 10) "".
Definition cr : string := String (Ascii.ascii_of_nat 13) "".

(** A chain of replacements, the first one innermost. *)
Definition replace_all (l : list (string * string)) (s : string) : string :=
  fold_left (fun s '(p, r) => SearchReplace s p r) l s.

Definition EscapeHTML : string -> string :=
  replace_all [("&", "&amp;"); ("<", "&lt;"); (">", "&gt;"); (qq "`", "&quot;")].

Definition EscapeURLForJavaScriptAnchor : string -> string :=
  replace_all [("\", "\\"); (qq "`", "\u0022"); ("'", "\u0027"); ("<", "\u003c"); (">", "\u003e")].

Definition EscapeForJavaScript : string -> string :=
  replace_all [("\", "\\"); (qq "`", "\u0022"); ("'", "\u0027"); (nl, "\u000a"); (cr, "\u000d")].

Definition EscapeRegExp : string -> string :=
  replace_all [("\", "\\"); (".", "\."); ("?", "\?"); ("+", "\+"); ("|", "\|"); ("^", "\^"); ("$", "\$");
               ("(", "\("); (")", "\)"); ("{", "\{"); ("}", "\}"); ("[", "\["); ("]", "\]");
               ("/", "[/]"); ("*", ".*")].

Definition WordToRegExpPattern (word : string) : string := "^" +++ EscapeRegExp word +++ "$".
Definition WordToRegExpWithSpacePattern (word : string) : string := "^" +++ EscapeRegExp word +++ " *$".

(** ** Numbers and addresses *)
Definition HexDigit (d : Z) : string :=
  let m := Z.land d 15 in
  if m =? 10 then "a" else if m =? 11 then "b" else if m =? 12 then "c"
  else if m =? 13 then "d" else if m =? 14 then "e" else if m =? 15 then "f"
  else Z_to_string m.
Definition DecimalToHex (n : Z) : string :=
  HexDigit (Z.shiftr n 12) +++ HexDigit (Z.shiftr n 8) +++ HexDigit (Z.shiftr n 4) +++ HexDigit (Z.shiftr n 0).

Definition GetURLFilePathOnly (url : string) : string :=
  let i := indexOf url "?" in
  let url := if negb (i =? -1) then substring2 url 0 i else url in
  let i := indexOf url "#" in
  if negb (i =? -1) then substring2 url 0 i else url.

(** The parts of a split, of which there is always one. *)
Definition first_part (s sep : string) : string := default s (head (js_split s sep)).

(** The assignment of the trimmed address is overwritten at once. *)
Definition GetBaseURL (url : string) : string :=
  let base := substring2 url 0 (lastIndexOf url "/") in
  let part := first_part base "/wwhelp/wwhimpl/common/html" in
  let part := if String.eqb part base then first_part base "/wwhelp/wwhimpl/js/html" else part in
  part +++ "/".

Definition ExtractStyleAttribute (attr style : string) : string :=
  let i := indexOf_from style attr 0 in
  if i =? -1 then ""
  else
    let a := indexOf_from style ":" i in
    if a =? -1 then ""
    else
      let a := a + 1 in
      let e := indexOf_from style ";" a in
      let e := if e =? -1 then slen style else e in
      substring2 style (a + 1) e.

(** ** The buffer of a page ([WWHStringBuffer_Object]) *)
Record buffer := Buffer { mStringList : list string; mStringListEntries : nat; mSize : Z }.
Definition new_buffer : buffer := Buffer [] 0 0.

Definition fSize (b : buffer) : Z := mSize b.
Definition fReset (b : buffer) : buffer := Buffer (mStringList b) 0 0.
(** [mStringList[mStringListEntries] = s]: an assignment at the end of an array
    extends it. *)
Definition fAppend (s : string) (b : buffer) : buffer :=
  let n := mStringListEntries b in
  Buffer (if (n <? length (mStringList b))%nat then <[n := s]> (mStringList b) else mStringList b ++ [s])
         (S n) (mSize b + slen s).
(** The array is cut to its used part and joined. *)
Definition fGetBuffer (b : buffer) : string * buffer :=
  let l := take (mStringListEntries b) (mStringList b) in
  (join "" l, Buffer l (mStringListEntries b) (mSize b)).

(** ** Words and phrases *)
Fixpoint strip_leading (s : string) : string :=
  match s with
  | String c s' => if Ascii.eqb c dquote then strip_leading s' else s
  | EmptyString => EmptyString
  end.
Fixpoint strip_trailing (s : string) : string :=
  match s with
  | EmptyString => EmptyString
  | String c s' =>
      let t := strip_trailing s' in
      if Ascii.eqb c dquote && String.eqb t "" then "" else String c t
  end.

Definition is_quote (s : string) : bool := String.eqb s (qq "`").
Definition opens (word : string) : bool := is_quote (charAt word 0).
Definition closes (word : string) : bool := is_quote (charAt word (slen word - 1)).

(** The variables of [WWHStringUtilities_ParseWordsAndPhrases]. *)
Record parse := Parse { p_Results : list string; p_CurrentPhrase : string; p_StartQuotes : bool }.

(** One word of the text between two spaces. *)
Definition parse_word (p : parse) (word : string) : parse :=
  let '(Parse results phrase quotes) := p in
  if slen word =? 0 then p
  else if opens word then
    let rest := strip_leading word in
    if quotes then
      Parse (results ++ [substring2 phrase 0 (slen phrase - 1)])
            (if 0 <? slen rest then rest +++ " " else "") true
    else if 0 <? slen rest then
      if closes rest then Parse (results ++ [strip_trailing rest]) phrase false
      else Parse results (phrase +++ rest +++ " ") true
    else Parse results phrase true
  else if closes word then
    let rest := strip_trailing word in
    if 0 <? slen rest then
      if quotes then Parse (results ++ [phrase +++ rest]) "" false
      else Parse (results ++ [rest]) phrase false
    else p
  else if quotes then Parse results (phrase +++ word +++ " ") true
  else Parse (results ++ [word]) phrase false.

Definition parse_run (words : list string) (p : parse) : parse := fold_left parse_word words p.
Definition ParseWordsAndPhrases (input : string) : list string :=
  if 0 <? slen input
  then p_Results (parse_run (js_split input " ") (Parse [] "" false)) else [].

(** ** Replacing is splitting and joining *)
Lemma js_split_skip sep k s : js_split_go sep k s = js_split_go sep 0 (sdrop k s).
Proof. revert k. induction s as [|c s IH]; intros [|k]; try done. apply IH. Qed.

Lemma js_split_index sep s :
  (0 < String.length sep)%nat ->
  js_split s sep =
  match index_of sep s with
  | Some n => stake n s :: js_split (sdrop (n + String.length sep) s) sep
  | None => [s]
  end.
Proof.
  intros Hsep. unfold js_split. induction s as [|c s IH].
  - destruct sep; [simpl in Hsep; lia|done].
  - cbn [js_split_go index_of]. destruct (prefixb sep (String c s)) eqn:E.
    + rewrite js_split_skip. destruct (String.length sep) as [|k] eqn:Ek; [lia|].
      rewrite Nat.sub_succ, Nat.sub_0_r. cbn [Nat.add sdrop stake]. destruct (js_split_go sep 0 (sdrop k s)) as [h t]. reflexivity.
    + destruct (js_split_go sep 0 s) as [h t]. destruct (index_of sep s) as [n|]; injection IH as -> ->; done.
Qed.

Lemma join_head r u l : l <> [] -> join r (u :: l) = u +++ r +++ join r l.
Proof. by destruct l. Qed.

Lemma sdrop_full s : sdrop (String.length s) s = "".
Proof. by induction s. Qed.
Lemma substring2_prefix a t : substring2 (a +++ t) 0 (slen a) = a.
Proof.
  unfold substring2, clamp, slen. rewrite sapp_length, Nat2Z.inj_add.
  replace (Z.to_nat (Z.min _ _)) with O by lia.
  replace (Z.to_nat (Z.max _ _ - _)) with (String.length a) by lia. apply stake_app.
Qed.
Lemma substring2_suffix a t : substring2 (a +++ t) (slen a) (slen (a +++ t)) = t.
Proof.
  unfold substring2, clamp, slen. rewrite sapp_length, Nat2Z.inj_add.
  replace (Z.to_nat (Z.min _ _)) with (String.length a) by lia.
  rewrite sdrop_app. apply stake_all. lia.
Qed.
Lemma indexOf_from_app a t p :
  indexOf_from (a +++ t) p (slen a) =
  match index_of p t with Some n => slen a + Z.of_nat n | None => -1 end.
Proof.
  unfold indexOf_from, clamp. replace (Z.to_nat _) with (String.length a).
  - rewrite sdrop_app. destruct (index_of p t); [|done]. unfold slen. lia.
  - unfold slen. rewrite sapp_length. lia.
Qed.

Lemma slen_app a b : slen (a +++ b) = slen a + slen b.
Proof. unfold slen. rewrite sapp_length. lia. Qed.

Lemma replace_loop_spec p r : (0 < String.length p)%nat ->
  forall fuel a t, (String.length t < fuel)%nat ->
  replace_loop fuel p r (a +++ t) (slen a) = Some (a +++ join r (js_split t p)).
Proof.
  intros Hp. induction fuel as [|fuel IH]; intros a t Hf; [lia|].
  cbn [replace_loop]. rewrite indexOf_from_app, js_split_index by done.
  destruct (index_of p t) as [n|] eqn:E; [|done].
  apply index_of_Some in E as (u & v & -> & <-). rewrite !sapp_length in Hf.
  case_if; bool_to_prop; [pose proof (slen_nonneg a); lia|].
  change (Z.of_nat (String.length u)) with (slen u).
  rewrite <- slen_app, <- (sapp_assoc a u), substring2_prefix, <- (slen_app (a +++ u)).
  rewrite <- (sapp_assoc (a +++ u) p), substring2_suffix, <- (sapp_assoc (a +++ u) r), <- slen_app.
  rewrite IH by lia. rewrite stake_app. rewrite join_head by apply js_split_nonempty.
  rewrite <- (sapp_length u p), <- (sapp_assoc u p), sdrop_app. by rewrite !sapp_assoc.
Qed.

(** The loop ends, and replaces every occurrence, from the left and without overlap. *)
Lemma SearchReplace_join s p r : p <> "" -> SearchReplace s p r = join r (js_split s p).
Proof.
  intros Hp. unfold SearchReplace. assert (0 < String.length p)%nat by (destruct p; [done|simpl; lia]).
  destruct s as [|c s].
  - rewrite andb_false_r. by destruct p.
  - replace (_ && _) with true by (unfold slen; symmetry; simpl String.length; apply andb_true_iff; split; apply Z.ltb_lt; lia).
    change (String c s) with ("" +++ String c s) at 3. change 0 with (slen "") at 1.
    by rewrite replace_loop_spec by (simpl; lia).
Qed.

Lemma sflat_app f a b : sflat f (a +++ b) = sflat f a +++ sflat f b.
Proof. induction a as [|c a IH]; [done|]. cbn. by rewrite IH, sapp_assoc. Qed.
Lemma sflat_sflat f g s : sflat g (sflat f s) = sflat (fun c => sflat g (f c)) s.
Proof. induction s as [|c s IH]; [done|]. cbn. by rewrite sflat_app, IH. Qed.
Lemma sflat_ext f g s : (forall c, f c = g c) -> sflat f s = sflat g s.
Proof. intros H. induction s as [|c s IH]; [done|]. cbn. by rewrite H, IH. Qed.
Lemma sflat_id s : sflat (fun c => String c "") s = s.
Proof. induction s as [|c s IH]; [done|]. cbn. by rewrite IH. Qed.

(** Replacing one character. *)
Lemma SearchReplace_char s d r :
  SearchReplace s (String d "") r = sflat (fun c => if Ascii.eqb c d then r else String c "") s.
Proof.
  rewrite SearchReplace_join by done. unfold js_split.
  induction s as [|c s IH]; [done|]. cbn [js_split_go sflat prefixb].
  rewrite andb_true_r, Ascii.eqb_sym. destruct (Ascii.eqb c d).
  - cbn [String.length Nat.sub]. destruct (js_split_go (String d "") 0 s) as [h t] eqn:E.
    by rewrite <- IH.
  - destruct (js_split_go (String d "") 0 s) as [h t]. rewrite <- IH. by destruct t.
Qed.

(** A chain of replacements of characters replaces each character on its own. *)
Definition replace_chars (l : list (Ascii.ascii * string)) (c : Ascii.ascii) : string :=
  fold_left (fun s '(d, r) => sflat (fun c => if Ascii.eqb c d then r else String c "") s) l (String c "").
Lemma replace_chars_all l s :
  replace_all (map (fun '(d, r) => (String d "", r)) l) s = sflat (replace_chars l) s.
Proof.
  unfold replace_all, replace_chars.
  enough (H : forall f, fold_left (fun s '(p, r) => SearchReplace s p r) (map (fun '(d, r) => (String d "", r)) l) (sflat f s)
    = sflat (fun c => fold_left (fun s '(d, r) => sflat (fun c => if Ascii.eqb c d then r else String c "") s) l (f c)) s).
  { rewrite <- H. by rewrite sflat_id. }
  induction l as [|[d r] l IH]; intros f; [done|]. cbn [map fold_left].
  rewrite SearchReplace_char, sflat_sflat. apply (IH (fun c => sflat _ (f c))).
Qed.

(** ** Escaping *)
Definition escape_html_char (c : Ascii.ascii) : string :=
  if Ascii.eqb c "&" then "&amp;" else if Ascii.eqb c "<" then "&lt;"
  else if Ascii.eqb c ">" then "&gt;" else if Ascii.eqb c dquote then "&quot;" else String c "".

(** Each character is escaped on its own: the ampersands that the later replacements
    write are not escaped again. *)
Lemma EscapeHTML_chars s : EscapeHTML s = sflat escape_html_char s.
Proof.
  transitivity (sflat (replace_chars [("&"%char, "&amp;"); ("<"%char, "&lt;"); (">"%char, "&gt;"); (dquote, "&quot;")]) s).
  - by rewrite <- replace_chars_all.
  - apply sflat_ext. intros c. unfold replace_chars, escape_html_char. cbn [fold_left sflat].
    by destruct c as [[] [] [] [] [] [] [] []].
Qed.

(** ** The buffer holds what was written since it was reset *)
Definition holds (b : buffer) (s : string) : Prop :=
  (mStringListEntries b <= length (mStringList b))%nat /\
  join "" (take (mStringListEntries b) (mStringList b)) = s /\ mSize b = slen s.

Lemma join_snoc l s : join "" (l ++ [s]) = join "" l +++ s.
Proof.
  induction l as [|u l IH]; [done|]. destruct l as [|v l]; [done|].
  cbn [app] in *. rewrite (join_head "" u (v :: l ++ [s])) by done. rewrite IH.
  rewrite (join_head "" u (v :: l)) by done. cbn [String.append]. by rewrite sapp_assoc.
Qed.

Lemma holds_new : holds new_buffer "".
Proof. done. Qed.
Lemma holds_reset b s : holds b s -> holds (fReset b) "".
Proof. intros _. split; [cbn; lia|done]. Qed.
Lemma holds_append b s t : holds b s -> holds (fAppend t b) (s +++ t).
Proof.
  destruct b as [l n z]. intros (Hn & Hs & Hz). unfold holds, fAppend. cbn [mStringList mStringListEntries mSize] in *. subst s z.
  rewrite slen_app. destruct (Nat.ltb_spec n (length l)) as [Hl|Hl].
  - rewrite length_insert. split; [lia|]. split; [|done].
    erewrite take_S_r by (apply list_lookup_insert_eq; lia). rewrite take_insert_ge by lia. apply join_snoc.
  - assert (n = length l) as -> by lia. rewrite length_app. split; [cbn; lia|]. split; [|done].
    rewrite (take_ge l) by lia. rewrite take_ge by (rewrite length_app; cbn; lia). apply join_snoc.
Qed.
Lemma holds_size b s : holds b s -> fSize b = slen s.
Proof. by intros (_ & _ & H). Qed.
Lemma holds_get b s : holds b s -> fst (fGetBuffer b) = s /\ holds (snd (fGetBuffer b)) s.
Proof.
  destruct b as [l n z]. intros (Hn & Hs & Hz). cbn in *. split; [done|]. unfold holds. cbn.
  rewrite length_take, take_take, Nat.min_id. split; [lia|done].
Qed.
#[export] Hint Resolve holds_new holds_reset holds_append holds_size : js.

(** ** Parsing what is written *)

(** A word of a search text has no spaces and no double quotes. *)
Definition word_char (c : Ascii.ascii) : bool := negb (Ascii.eqb c " ") && negb (Ascii.eqb c dquote).
Definition plain_word (w : string) : bool := sall word_char w && negb (String.eqb w "").

Inductive item := Word (w : string) | Phrase (w : string) (ws : list string).
Definition item_ok (i : item) : bool :=
  match i with Word w => plain_word w | Phrase w ws => forallb plain_word (w :: ws) end.
(** How it is typed, and what it stands for. *)
Definition typed (i : item) : string :=
  match i with Word w => w | Phrase w ws => qq "`" +++ join " " (w :: ws) +++ qq "`" end.
Definition item_text (i : item) : string :=
  match i with Word w => w | Phrase w ws => join " " (w :: ws) end.

(** The words between spaces of a typed item. *)
Fixpoint close_last (w : string) (ws : list string) : list string :=
  match ws with [] => [w +++ qq "`"] | v :: ws => w :: close_last v ws end.
Definition item_words (i : item) : list string :=
  match i with
  | Word w => [w]
  | Phrase w ws => close_last (qq "`" +++ w) ws
  end.

Lemma plain_word_inv w : plain_word w = true -> sall word_char w = true /\ 0 < slen w.
Proof.
  unfold plain_word. intros H. bool_to_prop. split; [done|]. destruct w; [done|].
  unfold slen. cbn. lia.
Qed.

Lemma charAt_end w c : charAt (w +++ String c "") (slen (w +++ String c "") - 1) = String c "".
Proof.
  assert (E : slen (w +++ String c "") - 1 = Z.of_nat (String.length w)) by (unfold slen; rewrite sapp_length; cbn; lia).
  rewrite E. unfold charAt. case_if; bool_to_prop; [lia|]. by rewrite Nat2Z.id, sdrop_app.
Qed.

Lemma last_char w : 0 < slen w -> exists u c, w = u +++ String c "".
Proof.
  induction w as [|c w IH]; [unfold slen; cbn; lia|]. intros _. destruct w as [|d w].
  - by exists "", c.
  - destruct IH as (u & e & ->); [unfold slen; cbn; lia|]. by exists (String c u), e.
Qed.

Lemma is_quote_char c : is_quote (String c "") = Ascii.eqb c dquote.
Proof. unfold is_quote. change (qq "`") with (String dquote ""). cbn [String.eqb]. by destruct (Ascii.eqb c dquote). Qed.
Lemma word_char_inv c : word_char c = true -> Ascii.eqb c " " = false /\ Ascii.eqb c dquote = false.
Proof. unfold word_char. intros H. by bool_to_prop. Qed.

Lemma plain_opens w t : plain_word w = true -> opens (w +++ t) = false.
Proof.
  intros [H Hl]%plain_word_inv. destruct w as [|c w]; [unfold slen in Hl; cbn in Hl; lia|].
  cbn [sall] in H. bool_to_prop. change (is_quote (String c "") = false). rewrite is_quote_char.
  by apply word_char_inv.
Qed.
Lemma plain_closes w : plain_word w = true -> closes w = false.
Proof.
  intros [H Hl]%plain_word_inv. destruct (last_char w Hl) as (u & c & ->).
  unfold closes. rewrite charAt_end, is_quote_char. rewrite sall_app in H. cbn [sall] in *. bool_to_prop.
  by apply word_char_inv.
Qed.
Lemma opens_quoted w : opens (qq "`" +++ w) = true.
Proof. done. Qed.
Lemma closes_quoted w : closes (w +++ qq "`") = true.
Proof. unfold closes. change (qq "`") with (String dquote ""). by rewrite charAt_end. Qed.

Lemma plain_leading w : plain_word w = true -> forall t, strip_leading (w +++ t) = w +++ t.
Proof.
  intros [H Hl]%plain_word_inv t. destruct w as [|c w]; [unfold slen in Hl; cbn in Hl; lia|].
  cbn [sall] in H. bool_to_prop. cbn [String.append strip_leading].
  by rewrite (proj2 (word_char_inv c ltac:(done))).
Qed.
Lemma plain_trailing w : plain_word w = true -> strip_trailing (w +++ qq "`") = w.
Proof.
  intros [H _]%plain_word_inv. induction w as [|c w IH]; [done|]. cbn [sall] in H. bool_to_prop.
  cbn [String.append strip_trailing]. rewrite IH by done.
  by rewrite (proj2 (word_char_inv c ltac:(done))).
Qed.

Lemma parse_plain w r ph q : plain_word w = true ->
  parse_word (Parse r ph q) w = if q then Parse r (ph +++ w +++ " ") true else Parse (r ++ [w]) ph false.
Proof.
  intros Hw. pose proof (plain_opens w "" Hw) as Ho. rewrite sapp_nil_r in Ho.
  unfold parse_word. rewrite Ho, plain_closes by done.
  case_if; [|done]. apply plain_word_inv in Hw as [_ Hl]. bool_to_prop. lia.
Qed.

(** The words of a phrase after its opening one. *)
Lemma parse_quoted ws : forall v r ph,
  forallb plain_word (v :: ws) = true ->
  parse_run (close_last v ws) (Parse r ph true) = Parse (r ++ [ph +++ join " " (v :: ws)]) "" false.
Proof.
  induction ws as [|w ws IH]; intros v r ph H; cbn [forallb] in H; bool_to_prop; cbn [close_last].
  - pose proof (plain_word_inv v ltac:(done)) as [_ Hl].
    cbn [parse_run fold_left parse_word]. rewrite plain_opens, closes_quoted, plain_trailing by done.
    rewrite slen_app. change (slen (qq "`")) with 1.
    case_if; bool_to_prop; [lia|]. case_if; bool_to_prop; [done|lia].
  - unfold parse_run. cbn [fold_left]. rewrite parse_plain by done. fold (parse_run (close_last w ws)).
    change (fold_left parse_word (close_last w ws)) with (parse_run (close_last w ws)).
    rewrite IH by (cbn [forallb]; by rewrite !andb_true_iff). rewrite (join_head " " v) by done.
    by rewrite !sapp_assoc.
Qed.

Lemma parse_item i r : item_ok i = true ->
  parse_run (item_words i) (Parse r "" false) = Parse (r ++ [item_text i]) "" false.
Proof.
  destruct i as [w|w ws]; cbn [item_ok item_words item_text]; intros H.
  - cbn [parse_run fold_left]. by rewrite parse_plain.
  - assert (Hw : plain_word w = true) by (cbn [forallb] in H; by bool_to_prop).
    assert (E : forall t, strip_leading (qq "`" +++ w +++ t) = w +++ t).
    { intros t. change (strip_leading (w +++ t) = w +++ t). by apply plain_leading. }
    pose proof (plain_word_inv w Hw) as [_ Hl].
    destruct ws as [|v ws]; cbn [close_last].
    + unfold parse_run. cbn [fold_left parse_word]. rewrite sapp_assoc, opens_quoted, E.
      rewrite !slen_app. change (slen (qq "`")) with 1.
      case_if; bool_to_prop; [lia|]. case_if; bool_to_prop; [|lia].
      by rewrite closes_quoted, plain_trailing.
    + unfold parse_run. cbn [fold_left]. change (fold_left parse_word (close_last v ws)) with (parse_run (close_last v ws)).
      specialize (E ""). rewrite !sapp_nil_r in E.
      unfold parse_word. rewrite opens_quoted, E, slen_app, plain_closes by done. change (slen (qq "`")) with 1.
      case_if; bool_to_prop; [lia|]. case_if; bool_to_prop; [|lia].
      rewrite parse_quoted by (cbn [forallb] in H; bool_to_prop; cbn [forallb]; by rewrite !andb_true_iff).
      cbn [String.append]. by rewrite (join_head " " w) by done; rewrite sapp_assoc.
Qed.

Lemma Parse_split input :
  ParseWordsAndPhrases input = p_Results (parse_run (js_split input " ") (Parse [] "" false)).
Proof. unfold ParseWordsAndPhrases. by destruct input. Qed.

Lemma join_app sep a b : a <> [] -> b <> [] -> join sep (a ++ b) = join sep a +++ sep +++ join sep b.
Proof.
  intros Ha Hb. induction a as [|u a IH]; [done|]. destruct a as [|v a]; [by apply join_head|].
  change ((u :: v :: a) ++ b) with (u :: (v :: a) ++ b).
  rewrite !join_head by done. rewrite IH by done. by rewrite !sapp_assoc.
Qed.
Lemma join_flat {A} sep (g : A -> list string) l :
  (forall x, g x <> []) -> join sep (flat_map g l) = join sep (map (fun x => join sep (g x)) l).
Proof.
  intros Hg. induction l as [|x l IH]; [done|]. cbn [flat_map map]. destruct l as [|y l].
  - cbn [flat_map map]. by rewrite app_nil_r.
  - rewrite join_app, IH; [by rewrite (join_head sep (join sep (g x))) by done|done|].
    cbn [flat_map]. intros [H _]%app_eq_nil. by apply (Hg y).
Qed.

Lemma close_last_nonempty w ws : close_last w ws <> [].
Proof. by destruct ws. Qed.
Lemma typed_words i : typed i = join " " (item_words i).
Proof.
  destruct i as [w|w ws]; [done|]. cbn [typed item_words].
  transitivity (join " " ((qq "`" +++ w) :: ws) +++ qq "`").
  - destruct ws; cbn [join]; by rewrite !sapp_assoc.
  - generalize (qq "`" +++ w). induction ws as [|v ws IH]; intros u; [done|]. cbn [close_last].
    rewrite (join_head " " u (v :: ws)), (join_head " " u (close_last v ws)) by (done || apply close_last_nonempty).
    by rewrite <- IH, !sapp_assoc.
Qed.
Lemma item_words_no_space i : item_ok i = true ->
  Forall (fun s => sall (not_char " ") s = true) (item_words i).
Proof.
  assert (Hp : forall w, plain_word w = true -> sall (not_char " ") w = true).
  { intros w [H _]%plain_word_inv. revert H. apply sall_impl. intros c [Hc _]%word_char_inv.
    unfold not_char. rewrite Ascii.eqb_sym. by rewrite Hc. }
  destruct i as [w|w ws]; cbn [item_ok item_words forallb]; intros H; [by constructor; [apply Hp|]|].
  bool_to_prop. assert (Hu : sall (not_char " ") (qq "`" +++ w) = true) by (rewrite sall_app; apply andb_true_intro; split; [done|auto]).
  revert Hu. generalize (qq "`" +++ w). clear dependent w.
  induction ws as [|v ws IH]; intros u Hu; cbn [close_last].
  - constructor; [|done]. rewrite sall_app. by rewrite Hu.
  - cbn [forallb] in *. bool_to_prop. constructor; [done|]. apply IH; auto.
Qed.

(** The words that stand between spaces in a typed text. *)
Lemma typed_split items : Forall (fun i => item_ok i = true) items -> items <> [] ->
  js_split (join " " (map typed items)) " " = flat_map item_words items.
Proof.
  intros H Hne. rewrite (map_ext typed (fun i => join " " (item_words i))) by apply typed_words.
  assert (Hw : forall i, item_words i <> []) by (intros [|]; [done|apply close_last_nonempty]).
  rewrite <- join_flat by done. apply (js_split_join " "%char).
  - induction H as [|i items Hi _ IH]; [constructor|]. cbn [flat_map]. apply Forall_app. split.
    + by apply item_words_no_space.
    + destruct items; [constructor|]. by apply IH.
  - destruct items as [|i items]; [done|]. cbn [flat_map]. intros [E _]%app_eq_nil. by apply (Hw i).
Qed.

Lemma parse_items items : Forall (fun i => item_ok i = true) items -> forall r,
  parse_run (flat_map item_words items) (Parse r "" false) = Parse (r ++ map item_text items) "" false.
Proof.
  induction 1 as [|i items Hi _ IH]; intros r; cbn [flat_map map]; [by rewrite app_nil_r|].
  unfold parse_run. rewrite fold_left_app. change (parse_run (flat_map item_words items) (parse_run (item_words i) (Parse r "" false)) = Parse (r ++ item_text i :: map item_text items) "" false).
  rewrite parse_item, IH by done. by rewrite <- app_assoc.
Qed.

Lemma Parse_typed items :
  Forall (fun i => item_ok i = true) items ->
  ParseWordsAndPhrases (join " " (map typed items)) = map item_text items.
Proof.
  intros H. rewrite Parse_split. destruct items as [|i items]; [done|].
  rewrite typed_split, parse_items by done. done.
Qed.
Lemma Parse_words ws : forallb plain_word ws = true -> ParseWordsAndPhrases (join " " ws) = ws.
Proof.
  intros H. pose proof (Parse_typed (map Word ws)) as E. rewrite !map_map in E. cbn [typed item_text] in E.
  rewrite map_id in E. apply E. apply Forall_map. rewrite forallb_forall in H. apply Forall_forall. intros w Hw.
  by apply H, list_elem_of_In.
Qed.
Lemma plain_no_space ws : forallb plain_word ws = true -> Forall (fun s => sall (not_char " ") s = true) ws.
Proof.
  rewrite forallb_forall. intros H. apply Forall_forall. intros w Hw%list_elem_of_In%H.
  pose proof (item_words_no_space (Word w) Hw) as Hf. by inversion Hf.
Qed.

(** C21. A search text typed as words and quoted phrases with single spaces between
    them is read back as those words and phrases, in order. *)
Theorem words_and_phrases_roundtrip items :
  Forall (fun i => item_ok i = true) items ->
  ParseWordsAndPhrases (join " " (map typed items)) = map item_text items.
Proof. apply Parse_typed. Qed.
Example words_and_phrases_witness :
  ParseWordsAndPhrases (qq "report `top five hosts` mail") = ["report"; "top five hosts"; "mail"].
Proof.
  apply (words_and_phrases_roundtrip [Word "report"; Phrase "top" ["five"; "hosts"]; Word "mail"]).
  by repeat constructor.
Defined.

Lemma parse_run_app a b p : parse_run (a ++ b) p = parse_run b (parse_run a p).
Proof. apply fold_left_app. Qed.
Lemma parse_open ws : forall r ph, forallb plain_word ws = true ->
  parse_run ws (Parse r ph true) = Parse r (ph +++ join "" (map (fun w => w +++ " ") ws)) true.
Proof.
  induction ws as [|w ws IH]; intros r ph H; cbn [forallb] in H; [by rewrite sapp_nil_r|].
  bool_to_prop. unfold parse_run. cbn [fold_left]. rewrite parse_plain by done.
  change (fold_left parse_word ws) with (parse_run ws). rewrite IH by done. f_equal. cbn [map].
  destruct ws as [|v ws]; [by rewrite sapp_nil_r|]. rewrite join_head by done. by rewrite sapp_assoc.
Qed.

(** A text with a phrase that is not closed: the words from the quote on are lost. *)
Lemma unclosed_phrase_is_lost items w ws :
  Forall (fun i => item_ok i = true) items -> forallb plain_word (w :: ws) = true ->
  ParseWordsAndPhrases (join " " (map typed items ++ (qq "`" +++ w) :: ws)) = map item_text items.
Proof.
  intros H Hw. rewrite Parse_split. cbn [forallb] in Hw. apply andb_true_iff in Hw as [Hw Hws].
  assert (Hns : forall v, plain_word v = true -> sall (not_char " ") v = true).
  { intros v Hv. pose proof (item_words_no_space (Word v) Hv) as Hf. by inversion Hf. }
  assert (E : js_split (join " " (map typed items ++ (qq "`" +++ w) :: ws)) " "
              = flat_map item_words items ++ (qq "`" +++ w) :: ws).
  { rewrite (map_ext typed (fun i => join " " (item_words i))) by apply typed_words.
    transitivity (js_split (join " " (flat_map item_words items ++ (qq "`" +++ w) :: ws)) " ").
    - f_equal. destruct items as [|i items]; [done|].
      assert (Hne : forall j, item_words j <> []) by (intros [|]; [done|apply close_last_nonempty]).
      rewrite !join_app; [by rewrite join_flat|cbn; intros [E _]%app_eq_nil; by apply (Hne i)|done|done|done].
    - apply (js_split_join " "%char); [|by destruct (flat_map _ _)]. apply Forall_app. split.
      + clear -H. induction H as [|i items Hi _ IH]; cbn [flat_map]; [constructor|].
        apply Forall_app. split; [by apply item_words_no_space|done].
      + constructor; [rewrite sall_app; apply andb_true_intro; split; [done|auto]|].
        rewrite forallb_forall in Hws. apply Forall_forall. intros v Hv. apply Hns, Hws. by apply list_elem_of_In. }
  rewrite E, parse_run_app, parse_items by done. unfold parse_run at 1. cbn [fold_left app].
  change (fold_left parse_word ws) with (parse_run ws).
  assert (Hop : parse_word (Parse (map item_text items) "" false) (qq "`" +++ w) = Parse (map item_text items) (w +++ " ") true).
  { unfold parse_word. rewrite opens_quoted, slen_app. change (slen (qq "`")) with 1.
    pose proof (plain_word_inv w Hw) as [_ Hl]. pose proof (plain_leading w Hw "") as Hs. rewrite sapp_nil_r in Hs.
    change (strip_leading (qq "`" +++ w)) with (strip_leading w). rewrite Hs, plain_closes by done.
    case_if; bool_to_prop; [lia|]. case_if; bool_to_prop; [done|lia]. }
  by rewrite Hop, parse_open.
Qed.

(** A quote that stands alone ends the phrase but not the quoting: the word after it
    starts a phrase that is never added. *)
Example lone_quote : ParseWordsAndPhrases (qq "`top hosts ` mail") = ["top hosts"].
Proof. vm_compute. reflexivity. Qed.

(** ** Hexadecimal *)
Lemma take_hex_digit d : forall a n t,
  take_hex a n (HexDigit d +++ t) = take_hex (16 * a + d mod 16) (S n) t.
Proof.
  intros a n t. unfold HexDigit. change 15 with (Z.ones 4). rewrite Z.land_ones by lia. change (2 ^ 4) with 16.
  pose proof (Z.mod_pos_bound d 16 ltac:(lia)) as Hb. remember (d mod 16) as m eqn:Em. clear Em.
  assert (Hm : m = 0 \/ m = 1 \/ m = 2 \/ m = 3 \/ m = 4 \/ m = 5 \/ m = 6 \/ m = 7 \/ m = 8 \/ m = 9 \/
    m = 10 \/ m = 11 \/ m = 12 \/ m = 13 \/ m = 14 \/ m = 15) by lia.
  by repeat destruct Hm as [->|Hm]; try subst m.
Qed.

(** The four digits of the last sixteen bits. *)
Lemma DecimalToHex_value n : parseInt ("0x" +++ DecimalToHex n) = Some (n mod 65536).
Proof.
  change (parseInt ("0x" +++ DecimalToHex n)) with
    (let '(v, k, _) := take_hex 0 0 (DecimalToHex n) in
     match k with O => None | _ => Some v end).
  unfold DecimalToHex. rewrite !take_hex_digit.
  rewrite <- (sapp_nil_r (HexDigit (Z.shiftr n 0))), take_hex_digit. cbn [take_hex].
  rewrite !Z.shiftr_div_pow2 by lia. f_equal. change (2 ^ 12) with 4096. change (2 ^ 8) with 256.
  change (2 ^ 4) with 16. change (2 ^ 0) with 1. Z.to_euclidean_division_equations. lia.
Qed.
