(* ===== verification/HelpPattern.v ===== *)
(** * Patterns of search words
    The regular expressions that the help viewer builds from search words
    ([WordToRegExpPattern] of strutils.js) and matches with
    [new RegExp(pattern, "i").test]: the part of the language's syntax that these
    patterns use, its meaning, and the theorem that a pattern matches the terms
    that the word describes with [*] for any text. *)
From S2P Require Import Prelude JsString HelpString.
Open Scope Z_scope.

(** ** Regular expressions of the language *)
Inductive atom := AChar (c : Ascii.ascii) | ADot.
Inductive token := TBegin | TEnd | TAtom (a : atom) | TStar.
Inductive piece := Begin | End | One (a : atom) | Many (a : atom).

Definition char_in (c : Ascii.ascii) (s : string) : bool := contains s (String c "").
Definition is_syntax (c : Ascii.ascii) : bool := char_in c "^$\.*+?()[]{}|/".

(** The tokens of a source text; [None]: outside the fragment (alternatives, groups,
    counted repetition, classes of more than one character, escapes of letters). *)
Fixpoint re_tokens (s : string) : option (list token) :=
  match s with
  | EmptyString => Some []
  | String c s =>
      if Ascii.eqb c "^"%char then cons TBegin <$> re_tokens s
      else if Ascii.eqb c "$"%char then cons TEnd <$> re_tokens s
      else if Ascii.eqb c "."%char then cons (TAtom ADot) <$> re_tokens s
      else if Ascii.eqb c "*"%char then cons TStar <$> re_tokens s
      else if Ascii.eqb c "\"%char then
        match s with
        | String d s => if is_syntax d then cons (TAtom (AChar d)) <$> re_tokens s else None
        | EmptyString => None
        end
      else if Ascii.eqb c "["%char then
        match s with
        | String d (String e s) =>
            if Ascii.eqb e "]"%char && negb (char_in d "]^\")
            then cons (TAtom (AChar d)) <$> re_tokens s else None
        | _ => None
        end
      else if is_syntax c then None else cons (TAtom (AChar c)) <$> re_tokens s
  end.

(** A star belongs to the atom before it. *)
Fixpoint re_pieces (l : list token) : option (list piece) :=
  match l with
  | [] => Some []
  | TBegin :: l => cons Begin <$> re_pieces l
  | TEnd :: l => cons End <$> re_pieces l
  | TAtom a :: TStar :: l => cons (Many a) <$> re_pieces l
  | TAtom a :: l => cons (One a) <$> re_pieces l
  | TStar :: _ => None
  end.

(** [new RegExp(source, "i")]; [None]: a syntax error (or outside the fragment). *)
Definition regexp : Type := list piece.
Definition new_RegExp (source : string) : option regexp := re_tokens source ≫= re_pieces.

(** Comparison without case: both sides are turned into capitals, of ASCII and of
    Latin-1 (the capitals of the two letters [255] and [181] have no 8-bit code and
    equal no other 8-bit character's). *)
Definition canonicalize (c : Ascii.ascii) : Ascii.ascii :=
  let n := Ascii.nat_of_ascii c in
  if (Nat.leb 97 n && Nat.leb n 122 || Nat.leb 224 n && Nat.leb n 254 && negb (Nat.eqb n 247))%bool
  then Ascii.ascii_of_nat (n - 32) else c.
Definition line_end (c : Ascii.ascii) : bool :=
  let n := Ascii.nat_of_ascii c in (Nat.eqb n 10 || Nat.eqb n 13)%bool.
Definition atom_ok (a : atom) (c : Ascii.ascii) : bool :=
  match a with
  | AChar d => Ascii.eqb (canonicalize d) (canonicalize c)
  | ADot => negb (line_end c)
  end.

(** Does the expression match some text that starts here?  [at0]: here is the start
    of the whole text. *)
Fixpoint re_here (l : regexp) : bool -> string -> bool :=
  match l with
  | [] => fun _ _ => true
  | Begin :: l => fun at0 s => at0 && re_here l at0 s
  | End :: l => fun at0 s => String.eqb s "" && re_here l at0 s
  | One a :: l => fun _ s =>
      match s with String c s => atom_ok a c && re_here l false s | EmptyString => false end
  | Many a :: l => fix many at0 s :=
      re_here l at0 s ||
      match s with String c s => atom_ok a c && many false s | EmptyString => false end
  end.
(** [re.test(s)]: somewhere in the text. *)
Fixpoint re_from (re : regexp) (at0 : bool) (s : string) : bool :=
  re_here re at0 s || match s with String _ s => re_from re false s | EmptyString => false end.
Definition re_test (re : regexp) (s : string) : bool := re_from re true s.

(** ** What a search word describes *)
Definition same_letter (c d : Ascii.ascii) : Prop := canonicalize c = canonicalize d.
Definition one_line (s : string) : Prop := sall (fun c => negb (line_end c)) s = true.

(** A star stands for any text of one line, any other character for itself. *)
Inductive describes : string -> string -> Prop :=
| describes_nil : describes "" ""
| describes_char c d w s :
    c <> "*"%char -> same_letter c d -> describes w s -> describes (String c w) (String d s)
| describes_star u w s : one_line u -> describes w s -> describes (String "*" w) (u +++ s).
#[export] Hint Constructors describes : js.

(** ** Patterns of words *)
Definition word_token (c : Ascii.ascii) : list token :=
  if Ascii.eqb c "*"%char then [TAtom ADot; TStar] else [TAtom (AChar c)].
Definition word_piece (c : Ascii.ascii) : piece :=
  if Ascii.eqb c "*"%char then Many ADot else One (AChar c).

Definition escapes : list (Ascii.ascii * string) :=
  [("\"%char, "\\"); ("."%char, "\."); ("?"%char, "\?"); ("+"%char, "\+"); ("|"%char, "\|"); ("^"%char, "\^");
   ("$"%char, "\$"); ("("%char, "\("); (")"%char, "\)"); ("{"%char, "\{"); ("}"%char, "\}"); ("["%char, "\[");
   ("]"%char, "\]"); ("/"%char, "[/]"); ("*"%char, ".*")].

Lemma EscapeRegExp_chars w : EscapeRegExp w = sflat (replace_chars escapes) w.
Proof. by rewrite <- (replace_chars_all escapes). Qed.

Lemma tokens_char c rest :
  re_tokens (replace_chars escapes c +++ rest) = app (word_token c) <$> re_tokens rest.
Proof. by destruct c as [[] [] [] [] [] [] [] []]; cbn; destruct (re_tokens rest). Qed.

Lemma tokens_word w rest :
  re_tokens (EscapeRegExp w +++ rest) = app (flat_map word_token (String.list_ascii_of_string w)) <$> re_tokens rest.
Proof.
  rewrite EscapeRegExp_chars. induction w as [|c w IH]; cbn [sflat String.list_ascii_of_string flat_map].
  - cbn. by destruct (re_tokens rest).
  - rewrite sapp_assoc, tokens_char, IH. destruct (re_tokens rest); cbn; [|done]. by rewrite app_assoc.
Qed.

Lemma pieces_word w l : head l <> Some TStar ->
  re_pieces (flat_map word_token w ++ l) = app (map word_piece w) <$> re_pieces l.
Proof.
  intros Hl. induction w as [|c w IH]; cbn [flat_map map app]; [by destruct (re_pieces l)|].
  rewrite <- app_assoc. unfold word_token at 1, word_piece at 1. destruct (Ascii.eqb c "*"); cbn [app re_pieces].
  - rewrite IH. by destruct (re_pieces l).
  - assert (Hh : forall (T : Type) (a b : T), match flat_map word_token w ++ l with TStar :: _ => a | _ => b end = b).
    { intros T a b. destruct w as [|d w]; cbn.
      - destruct l as [|[]]; done.
      - unfold word_token. by destruct (Ascii.eqb d "*"). }
    transitivity (cons (One (AChar c)) <$> re_pieces (flat_map word_token w ++ l)).
    { specialize (Hh (option (list piece))).
      destruct (flat_map word_token w ++ l) as [|[]]; try done; by specialize (Hh None (Some [])). }
    rewrite IH. by destruct (re_pieces l).
Qed.

(** Every word gives a correct pattern. *)
Lemma word_regexp w :
  new_RegExp (WordToRegExpPattern w)
  = Some (Begin :: map word_piece (String.list_ascii_of_string w) ++ [End]).
Proof.
  unfold new_RegExp, WordToRegExpPattern.
  assert (H : forall t, re_tokens ("^" +++ t) = cons TBegin <$> re_tokens t) by done.
  rewrite H, tokens_word. change (re_tokens "$") with (Some [TEnd]). cbn [fmap option_fmap option_map mbind option_bind].
  cbn [re_pieces]. by rewrite pieces_word.
Qed.

Lemma re_here_word w at0 s :
  re_here (map word_piece (String.list_ascii_of_string w) ++ [End]) at0 s = true <-> describes w s.
Proof.
  revert at0 s. induction w as [|c w IH]; intros at0 s; cbn [String.list_ascii_of_string map app].
  - cbn. rewrite andb_true_r, String.eqb_eq. split; [intros ->; auto with js|by inversion 1].
  - unfold word_piece at 1. destruct (Ascii.eqb_spec c "*"%char) as [->|Hc]; cbn [re_here].
    + revert at0. induction s as [|d s IHs]; intros at0.
      * rewrite orb_false_r, IH. split.
        -- intros H. by apply (describes_star "").
        -- intros H. inversion H as [| |u]; subst. by destruct u; simplify_eq/=.
      * rewrite orb_true_iff, andb_true_iff, IH, IHs. split.
        -- intros [H|[Hd H]]; [by apply (describes_star "")|].
           inversion H; subst; [done|]. apply (describes_star (String d u)); [|done].
           unfold one_line in *. cbn [sall]. by apply andb_true_intro.
        -- intros H. inversion H; subst; [done|]. destruct u as [|e u]; simplify_eq/=; [by left|].
           unfold one_line in *. cbn [sall] in *. bool_to_prop. right. split; [by apply negb_true_iff|].
           by apply describes_star.
    + destruct s as [|d s].
      * split; [done|]. intros H. inversion H; subst. done.
      * rewrite andb_true_iff, IH. cbn [atom_ok]. rewrite Ascii.eqb_eq. split.
        -- intros [??]. by apply describes_char.
        -- intros H. inversion H; subst; [done|]. done.
Qed.

Lemma re_from_begin l at0 s : re_from (Begin :: l) at0 s = at0 && re_here l at0 s.
Proof.
  revert at0. induction s as [|c s IH]; intros at0; cbn [re_from re_here]; [by rewrite orb_false_r|].
  rewrite IH. cbn. by rewrite orb_false_r.
Qed.

(** C22. A search word becomes a correct expression, and that expression matches
    exactly the terms the word describes: a star is any text of one line, every other
    character (those with a meaning in expressions too) is itself, whatever its case. *)
Theorem pattern_describes w :
  exists re, new_RegExp (WordToRegExpPattern w) = Some re /\
    forall s, re_test re s = true <-> describes w s.
Proof.
  eexists. split; [apply word_regexp|]. intros s.
  unfold re_test. rewrite re_from_begin. apply re_here_word.
Qed.

(** A word without star describes itself. *)
Lemma describes_plain w s : sall (not_char "*") w = true ->
  describes w s <-> smap canonicalize w = smap canonicalize s.
Proof.
  revert s. induction w as [|c w IH]; intros s Hw.
  - split; [by inversion 1|]. destruct s; [constructor|done].
  - cbn [sall] in Hw. bool_to_prop. unfold not_char in *. bool_to_prop.
    assert (Hc : c <> "*"%char) by (intros ->; done). destruct s as [|d s].
    + split; [|done]. intros Hd. inversion Hd; subst; done.
    + cbn [smap]. split.
      * intros Hd. inversion Hd; subst; [|done]. f_equal; [done|]. by apply IH.
      * intros [= ? ?]. apply describes_char; [done|done|]. by apply IH.
Qed.
