(* ===== verification/HelpUnicode.v ===== *)
(** * Word boundaries of the online help
    (wwhelp/wwhimpl/common/scripts/unidata.js and unibreak.js)
    The classes of characters, as the tables of the code, and the rule that says
    whether a word ends between two characters.  Characters are 16-bit code units;
    [ApplyWordBreaks] of search.js applies the rule to the text of a search. *)
From S2P Require Import Prelude JsString HelpString.
Open Scope Z_scope.

(** ** Tables
    A literal of the code is a list of code units: five hexadecimal digits after
    [\u] are the unit of the first four and the character of the fifth. *)
Definition literal : Type := list Z.
Definition char_range : Type := literal * literal.

(** The comparison [a <= b] of strings. *)
Fixpoint lit_leb (a b : literal) : bool :=
  match a, b with
  | [], _ => true
  | _, [] => false
  | x :: a, y :: b => (x <? y) || ((x =? y) && lit_leb a b)
  end.
(** The conditions [(lo <= c) && (c <= hi)] of a class, one after the other; a
    condition [c == x] is the range from [x] to [x]. *)
Definition in_ranges (l : list char_range) (c : Z) : bool :=
  existsb (fun '(lo, hi) => lit_leb lo [c] && lit_leb [c] hi) l.
(** [data[c]] for an object with [true] at its keys. *)
Definition in_keys (l : list Z) (c : Z) : bool := existsb (Z.eqb c) l.

Definition Alphabetic_1 : list char_range :=
  [
   ([0x0041], [0x005a]); ([0x0061], [0x007a]); ([0x00aa], [0x00aa]); ([0x00b5], [0x00b5]);
   ([0x00ba], [0x00ba]); ([0x00c0], [0x00d6]); ([0x00d8], [0x00f6]); ([0x00f8], [0x01ba]);
   ([0x01bb], [0x01bb]); ([0x01bc], [0x01bf]); ([0x01c0], [0x01c3]); ([0x01c4], [0x0236]);
   ([0x0250], [0x02af]); ([0x02b0], [0x02c1]); ([0x02c6], [0x02d1]); ([0x02e0], [0x02e4]);
   ([0x02ee], [0x02ee]); ([0x0345], [0x0345]); ([0x037a], [0x037a]); ([0x0386], [0x0386]);
   ([0x0388], [0x038a]); ([0x038c], [0x038c]); ([0x038e], [0x03a1]); ([0x03a3], [0x03ce]);
   ([0x03d0], [0x03f5]); ([0x03f7], [0x03fb]); ([0x0400], [0x0481]); ([0x048a], [0x04ce]);
   ([0x04d0], [0x04f5]); ([0x04f8], [0x04f9]); ([0x0500], [0x050f]); ([0x0531], [0x0556]);
   ([0x0559], [0x0559]); ([0x0561], [0x0587]); ([0x05b0], [0x05b9]); ([0x05bb], [0x05bd]);
   ([0x05bf], [0x05bf]); ([0x05c1], [0x05c2]); ([0x05c4], [0x05c4]); ([0x05d0], [0x05ea]);
   ([0x05f0], [0x05f2]); ([0x0610], [0x0615]); ([0x0621], [0x063a]); ([0x0640], [0x0640]);
   ([0x0641], [0x064a]); ([0x064b], [0x0657]); ([0x066e], [0x066f]); ([0x0670], [0x0670]);
   ([0x0671], [0x06d3]); ([0x06d5], [0x06d5]); ([0x06d6], [0x06dc]); ([0x06e1], [0x06e4]);
   ([0x06e5], [0x06e6]); ([0x06e7], [0x06e8]); ([0x06ed], [0x06ed]); ([0x06ee], [0x06ef]);
   ([0x06fa], [0x06fc]); ([0x06ff], [0x06ff]); ([0x0710], [0x0710]); ([0x0711], [0x0711]);
   ([0x0712], [0x072f]); ([0x0730], [0x073f]); ([0x074d], [0x074f]); ([0x0780], [0x07a5]);
   ([0x07a6], [0x07b0]); ([0x07b1], [0x07b1]); ([0x0901], [0x0902]); ([0x0903], [0x0903]);
   ([0x0904], [0x0939]); ([0x093d], [0x093d]); ([0x093e], [0x0940]); ([0x0941], [0x0948]);
   ([0x0949], [0x094c]); ([0x0950], [0x0950]); ([0x0958], [0x0961]); ([0x0962], [0x0963]);
   ([0x0981], [0x0981]); ([0x0982], [0x0983]); ([0x0985], [0x098c]); ([0x098f], [0x0990]);
   ([0x0993], [0x09a8]); ([0x09aa], [0x09b0]); ([0x09b2], [0x09b2]); ([0x09b6], [0x09b9]);
   ([0x09bd], [0x09bd]); ([0x09be], [0x09c0]); ([0x09c1], [0x09c4]); ([0x09c7], [0x09c8]);
   ([0x09cb], [0x09cc]); ([0x09d7], [0x09d7]); ([0x09dc], [0x09dd]); ([0x09df], [0x09e1]);
   ([0x09e2], [0x09e3]); ([0x09f0], [0x09f1]); ([0x0a01], [0x0a02]); ([0x0a03], [0x0a03]);
   ([0x0a05], [0x0a0a]); ([0x0a0f], [0x0a10]); ([0x0a13], [0x0a28]); ([0x0a2a], [0x0a30]);
   ([0x0a32], [0x0a33]); ([0x0a35], [0x0a36]); ([0x0a38], [0x0a39]); ([0x0a3e], [0x0a40]);
   ([0x0a41], [0x0a42]); ([0x0a47], [0x0a48]); ([0x0a4b], [0x0a4c]); ([0x0a59], [0x0a5c]);
   ([0x0a5e], [0x0a5e]); ([0x0a70], [0x0a71]); ([0x0a72], [0x0a74]); ([0x0a81], [0x0a82]);
   ([0x0a83], [0x0a83]); ([0x0a85], [0x0a8d]); ([0x0a8f], [0x0a91]); ([0x0a93], [0x0aa8]);
   ([0x0aaa], [0x0ab0]); ([0x0ab2], [0x0ab3]); ([0x0ab5], [0x0ab9]); ([0x0abd], [0x0abd]);
   ([0x0abe], [0x0ac0]); ([0x0ac1], [0x0ac5]); ([0x0ac7], [0x0ac8]); ([0x0ac9], [0x0ac9]);
   ([0x0acb], [0x0acc]); ([0x0ad0], [0x0ad0]); ([0x0ae0], [0x0ae1]); ([0x0ae2], [0x0ae3]);
   ([0x0b01], [0x0b01]); ([0x0b02], [0x0b03]); ([0x0b05], [0x0b0c]); ([0x0b0f], [0x0b10]);
   ([0x0b13], [0x0b28]); ([0x0b2a], [0x0b30]); ([0x0b32], [0x0b33]); ([0x0b35], [0x0b39]);
   ([0x0b3d], [0x0b3d]); ([0x0b3e], [0x0b3e]); ([0x0b3f], [0x0b3f]); ([0x0b40], [0x0b40]);
   ([0x0b41], [0x0b43]); ([0x0b47], [0x0b48]); ([0x0b4b], [0x0b4c]); ([0x0b56], [0x0b56]);
   ([0x0b57], [0x0b57]); ([0x0b5c], [0x0b5d]); ([0x0b5f], [0x0b61]); ([0x0b71], [0x0b71]);
   ([0x0b82], [0x0b82]); ([0x0b83], [0x0b83])].
Definition Alphabetic_2 : list char_range :=
  [
   ([0x0b85], [0x0b8a]); ([0x0b8e], [0x0b90]); ([0x0b92], [0x0b95]); ([0x0b99], [0x0b9a]);
   ([0x0b9c], [0x0b9c]); ([0x0b9e], [0x0b9f]); ([0x0ba3], [0x0ba4]); ([0x0ba8], [0x0baa]);
   ([0x0bae], [0x0bb5]); ([0x0bb7], [0x0bb9]); ([0x0bbe], [0x0bbf]); ([0x0bc0], [0x0bc0]);
   ([0x0bc1], [0x0bc2]); ([0x0bc6], [0x0bc8]); ([0x0bca], [0x0bcc]); ([0x0bd7], [0x0bd7]);
   ([0x0c01], [0x0c03]); ([0x0c05], [0x0c0c]); ([0x0c0e], [0x0c10]); ([0x0c12], [0x0c28]);
   ([0x0c2a], [0x0c33]); ([0x0c35], [0x0c39]); ([0x0c3e], [0x0c40]); ([0x0c41], [0x0c44]);
   ([0x0c46], [0x0c48]); ([0x0c4a], [0x0c4c]); ([0x0c55], [0x0c56]); ([0x0c60], [0x0c61]);
   ([0x0c82], [0x0c83]); ([0x0c85], [0x0c8c]); ([0x0c8e], [0x0c90]); ([0x0c92], [0x0ca8]);
   ([0x0caa], [0x0cb3]); ([0x0cb5], [0x0cb9]); ([0x0cbd], [0x0cbd]); ([0x0cbe], [0x0cbe]);
   ([0x0cbf], [0x0cbf]); ([0x0cc0], [0x0cc4]); ([0x0cc6], [0x0cc6]); ([0x0cc7], [0x0cc8]);
   ([0x0cca], [0x0ccb]); ([0x0ccc], [0x0ccc]); ([0x0cd5], [0x0cd6]); ([0x0cde], [0x0cde]);
   ([0x0ce0], [0x0ce1]); ([0x0d02], [0x0d03]); ([0x0d05], [0x0d0c]); ([0x0d0e], [0x0d10]);
   ([0x0d12], [0x0d28]); ([0x0d2a], [0x0d39]); ([0x0d3e], [0x0d40]); ([0x0d41], [0x0d43]);
   ([0x0d46], [0x0d48]); ([0x0d4a], [0x0d4c]); ([0x0d57], [0x0d57]); ([0x0d60], [0x0d61]);
   ([0x0d82], [0x0d83]); ([0x0d85], [0x0d96]); ([0x0d9a], [0x0db1]); ([0x0db3], [0x0dbb]);
   ([0x0dbd], [0x0dbd]); ([0x0dc0], [0x0dc6]); ([0x0dcf], [0x0dd1]); ([0x0dd2], [0x0dd4]);
   ([0x0dd6], [0x0dd6]); ([0x0dd8], [0x0ddf]); ([0x0df2], [0x0df3]); ([0x0e01], [0x0e30]);
   ([0x0e31], [0x0e31]); ([0x0e32], [0x0e33]); ([0x0e34], [0x0e3a]); ([0x0e40], [0x0e45]);
   ([0x0e46], [0x0e46]); ([0x0e4d], [0x0e4d]); ([0x0e81], [0x0e82]); ([0x0e84], [0x0e84]);
   ([0x0e87], [0x0e88]); ([0x0e8a], [0x0e8a]); ([0x0e8d], [0x0e8d]); ([0x0e94], [0x0e97]);
   ([0x0e99], [0x0e9f]); ([0x0ea1], [0x0ea3]); ([0x0ea5], [0x0ea5]); ([0x0ea7], [0x0ea7]);
   ([0x0eaa], [0x0eab]); ([0x0ead], [0x0eb0]); ([0x0eb1], [0x0eb1]); ([0x0eb2], [0x0eb3]);
   ([0x0eb4], [0x0eb9]); ([0x0ebb], [0x0ebc]); ([0x0ebd], [0x0ebd]); ([0x0ec0], [0x0ec4]);
   ([0x0ec6], [0x0ec6]); ([0x0ecd], [0x0ecd]); ([0x0edc], [0x0edd]); ([0x0f00], [0x0f00]);
   ([0x0f40], [0x0f47]); ([0x0f49], [0x0f6a]); ([0x0f71], [0x0f7e]); ([0x0f7f], [0x0f7f]);
   ([0x0f80], [0x0f81]); ([0x0f88], [0x0f8b]); ([0x0f90], [0x0f97]); ([0x0f99], [0x0fbc]);
   ([0x1000], [0x1021]); ([0x1023], [0x1027]); ([0x1029], [0x102a]); ([0x102c], [0x102c]);
   ([0x102d], [0x1030]); ([0x1031], [0x1031]); ([0x1032], [0x1032]); ([0x1036], [0x1036]);
   ([0x1038], [0x1038]); ([0x1050], [0x1055]); ([0x1056], [0x1057]); ([0x1058], [0x1059]);
   ([0x10a0], [0x10c5]); ([0x10d0], [0x10f8]); ([0x1100], [0x1159]); ([0x115f], [0x11a2]);
   ([0x11a8], [0x11f9]); ([0x1200], [0x1206]); ([0x1208], [0x1246]); ([0x1248], [0x1248]);
   ([0x124a], [0x124d]); ([0x1250], [0x1256]); ([0x1258], [0x1258]); ([0x125a], [0x125d]);
   ([0x1260], [0x1286]); ([0x1288], [0x1288]); ([0x128a], [0x128d]); ([0x1290], [0x12ae]);
   ([0x12b0], [0x12b0]); ([0x12b2], [0x12b5]); ([0x12b8], [0x12be]); ([0x12c0], [0x12c0]);
   ([0x12c2], [0x12c5]); ([0x12c8], [0x12ce]); ([0x12d0], [0x12d6]); ([0x12d8], [0x12ee]);
   ([0x12f0], [0x130e]); ([0x1310], [0x1310]); ([0x1312], [0x1315]); ([0x1318], [0x131e]);
   ([0x1320], [0x1346]); ([0x1348], [0x135a]); ([0x13a0], [0x13f4]); ([0x1401], [0x166c]);
   ([0x166f], [0x1676]); ([0x1681], [0x169a])].
Definition Alphabetic_3 : list char_range :=
  [
   ([0x16a0], [0x16ea]); ([0x16ee], [0x16f0]); ([0x1700], [0x170c]); ([0x170e], [0x1711]);
   ([0x1712], [0x1713]); ([0x1720], [0x1731]); ([0x1732], [0x1733]); ([0x1740], [0x1751]);
   ([0x1752], [0x1753]); ([0x1760], [0x176c]); ([0x176e], [0x1770]); ([0x1772], [0x1773]);
   ([0x1780], [0x17b3]); ([0x17b6], [0x17b6]); ([0x17b7], [0x17bd]); ([0x17be], [0x17c5]);
   ([0x17c6], [0x17c6]); ([0x17c7], [0x17c8]); ([0x17d7], [0x17d7]); ([0x17dc], [0x17dc]);
   ([0x1820], [0x1842]); ([0x1843], [0x1843]); ([0x1844], [0x1877]); ([0x1880], [0x18a8]);
   ([0x18a9], [0x18a9]); ([0x1900], [0x191c]); ([0x1920], [0x1922]); ([0x1923], [0x1926]);
   ([0x1927], [0x1928]); ([0x1929], [0x192b]); ([0x1930], [0x1931]); ([0x1932], [0x1932]);
   ([0x1933], [0x1938]); ([0x1950], [0x196d]); ([0x1970], [0x1974]); ([0x1d00], [0x1d2b]);
   ([0x1d2c], [0x1d61]); ([0x1d62], [0x1d6b]); ([0x1e00], [0x1e9b]); ([0x1ea0], [0x1ef9]);
   ([0x1f00], [0x1f15]); ([0x1f18], [0x1f1d]); ([0x1f20], [0x1f45]); ([0x1f48], [0x1f4d]);
   ([0x1f50], [0x1f57]); ([0x1f59], [0x1f59]); ([0x1f5b], [0x1f5b]); ([0x1f5d], [0x1f5d]);
   ([0x1f5f], [0x1f7d]); ([0x1f80], [0x1fb4]); ([0x1fb6], [0x1fbc]); ([0x1fbe], [0x1fbe]);
   ([0x1fc2], [0x1fc4]); ([0x1fc6], [0x1fcc]); ([0x1fd0], [0x1fd3]); ([0x1fd6], [0x1fdb]);
   ([0x1fe0], [0x1fec]); ([0x1ff2], [0x1ff4]); ([0x1ff6], [0x1ffc]); ([0x2071], [0x2071]);
   ([0x207f], [0x207f]); ([0x2102], [0x2102]); ([0x2107], [0x2107]); ([0x210a], [0x2113]);
   ([0x2115], [0x2115]); ([0x2119], [0x211d]); ([0x2124], [0x2124]); ([0x2126], [0x2126]);
   ([0x2128], [0x2128]); ([0x212a], [0x212d]); ([0x212f], [0x2131]); ([0x2133], [0x2134]);
   ([0x2135], [0x2138]); ([0x2139], [0x2139]); ([0x213d], [0x213f]); ([0x2145], [0x2149]);
   ([0x2160], [0x2183]); ([0x3005], [0x3005]); ([0x3006], [0x3006]); ([0x3007], [0x3007]);
   ([0x3021], [0x3029]); ([0x3031], [0x3035]); ([0x3038], [0x303a]); ([0x303b], [0x303b]);
   ([0x303c], [0x303c]); ([0x3041], [0x3096]); ([0x309d], [0x309e]); ([0x309f], [0x309f]);
   ([0x30a1], [0x30fa]); ([0x30fc], [0x30fe]); ([0x30ff], [0x30ff]); ([0x3105], [0x312c]);
   ([0x3131], [0x318e]); ([0x31a0], [0x31b7]); ([0x31f0], [0x31ff]); ([0x3400], [0x4db5]);
   ([0x4e00], [0x9fa5]); ([0xa000], [0xa48c]); ([0xac00], [0xd7a3]); ([0xf900], [0xfa2d]);
   ([0xfa30], [0xfa6a]); ([0xfb00], [0xfb06]); ([0xfb13], [0xfb17]); ([0xfb1d], [0xfb1d]);
   ([0xfb1e], [0xfb1e]); ([0xfb1f], [0xfb28]); ([0xfb2a], [0xfb36]); ([0xfb38], [0xfb3c]);
   ([0xfb3e], [0xfb3e]); ([0xfb40], [0xfb41]); ([0xfb43], [0xfb44]); ([0xfb46], [0xfbb1]);
   ([0xfbd3], [0xfd3d]); ([0xfd50], [0xfd8f]); ([0xfd92], [0xfdc7]); ([0xfdf0], [0xfdfb]);
   ([0xfe70], [0xfe74]); ([0xfe76], [0xfefc]); ([0xff21], [0xff3a]); ([0xff41], [0xff5a]);
   ([0xff66], [0xff6f]); ([0xff70], [0xff70]); ([0xff71], [0xff9d]); ([0xff9e], [0xff9f]);
   ([0xffa0], [0xffbe]); ([0xffc2], [0xffc7]); ([0xffca], [0xffcf]); ([0xffd2], [0xffd7]);
   ([0xffda], [0xffdc]); ([0x1000; 0x30], [0x1000; 0x42]); ([0x1000; 0x44], [0x1002; 0x36]);
   ([0x1002; 0x38], [0x1003; 0x41]); ([0x1003; 0x43], [0x1003; 0x44]); ([0x1003; 0x46], [0x1004;
   0x44]); ([0x1005; 0x30], [0x1005; 0x44]); ([0x1008; 0x30], [0x100f; 0x41]); ([0x1030; 0x30],
   [0x1031; 0x45]); ([0x1033; 0x30], [0x1034; 0x39]); ([0x1034; 0x41], [0x1034; 0x41]); ([0x1038;
   0x30], [0x1039; 0x44]); ([0x1040; 0x30], [0x1044; 0x46]); ([0x1045; 0x30], [0x1049; 0x44]);
   ([0x1080; 0x30], [0x1080; 0x35]); ([0x1080; 0x38], [0x1080; 0x38]); ([0x1080; 0x41], [0x1083;
   0x35]); ([0x1083; 0x37], [0x1083; 0x38]); ([0x1083; 0x43], [0x1083; 0x43]); ([0x1083; 0x46],
   [0x1083; 0x46]); ([0x1d40; 0x30], [0x1d45; 0x34]); ([0x1d45; 0x36], [0x1d49; 0x43])].
Definition Alphabetic_4 : list char_range :=
  [
   ([0x1d49; 0x45], [0x1d49; 0x46]); ([0x1d4a; 0x32], [0x1d4a; 0x32]); ([0x1d4a; 0x35], [0x1d4a;
   0x36]); ([0x1d4a; 0x39], [0x1d4a; 0x43]); ([0x1d4a; 0x45], [0x1d4b; 0x39]); ([0x1d4b; 0x42],
   [0x1d4b; 0x42]); ([0x1d4b; 0x44], [0x1d4c; 0x33]); ([0x1d4c; 0x35], [0x1d50; 0x35]); ([0x1d50;
   0x37], [0x1d50; 0x41]); ([0x1d50; 0x44], [0x1d51; 0x34]); ([0x1d51; 0x36], [0x1d51; 0x43]);
   ([0x1d51; 0x45], [0x1d53; 0x39]); ([0x1d53; 0x42], [0x1d53; 0x45]); ([0x1d54; 0x30], [0x1d54;
   0x34]); ([0x1d54; 0x36], [0x1d54; 0x36]); ([0x1d54; 0x41], [0x1d55; 0x30]); ([0x1d55; 0x32],
   [0x1d6a; 0x33]); ([0x1d6a; 0x38], [0x1d6c; 0x30]); ([0x1d6c; 0x32], [0x1d6d; 0x41]); ([0x1d6d;
   0x43], [0x1d6f; 0x41]); ([0x1d6f; 0x43], [0x1d71; 0x34]); ([0x1d71; 0x36], [0x1d73; 0x34]);
   ([0x1d73; 0x36], [0x1d74; 0x45]); ([0x1d75; 0x30], [0x1d76; 0x45]); ([0x1d77; 0x30], [0x1d78;
   0x38]); ([0x1d78; 0x41], [0x1d7a; 0x38]); ([0x1d7a; 0x41], [0x1d7c; 0x32]); ([0x1d7c; 0x34],
   [0x1d7c; 0x39]); ([0x2000; 0x30], [0x2a6d; 0x36]); ([0x2f80; 0x30], [0x2fa1; 0x44])].
Definition Grapheme_Extend_data : list char_range :=
  [
   ([0x0300], [0x0357]); ([0x035d], [0x036f]); ([0x0483], [0x0486]); ([0x0488], [0x0489]);
   ([0x0591], [0x05a1]); ([0x05a3], [0x05b9]); ([0x05bb], [0x05bd]); ([0x05bf], [0x05bf]);
   ([0x05c1], [0x05c2]); ([0x05c4], [0x05c4]); ([0x0610], [0x0615]); ([0x064b], [0x0658]);
   ([0x0670], [0x0670]); ([0x06d6], [0x06dc]); ([0x06de], [0x06de]); ([0x06df], [0x06e4]);
   ([0x06e7], [0x06e8]); ([0x06ea], [0x06ed]); ([0x0711], [0x0711]); ([0x0730], [0x074a]);
   ([0x07a6], [0x07b0]); ([0x0901], [0x0902]); ([0x093c], [0x093c]); ([0x0941], [0x0948]);
   ([0x094d], [0x094d]); ([0x0951], [0x0954]); ([0x0962], [0x0963]); ([0x0981], [0x0981]);
   ([0x09bc], [0x09bc]); ([0x09be], [0x09be]); ([0x09c1], [0x09c4]); ([0x09cd], [0x09cd]);
   ([0x09d7], [0x09d7]); ([0x09e2], [0x09e3]); ([0x0a01], [0x0a02]); ([0x0a3c], [0x0a3c]);
   ([0x0a41], [0x0a42]); ([0x0a47], [0x0a48]); ([0x0a4b], [0x0a4d]); ([0x0a70], [0x0a71]);
   ([0x0a81], [0x0a82]); ([0x0abc], [0x0abc]); ([0x0ac1], [0x0ac5]); ([0x0ac7], [0x0ac8]);
   ([0x0acd], [0x0acd]); ([0x0ae2], [0x0ae3]); ([0x0b01], [0x0b01]); ([0x0b3c], [0x0b3c]);
   ([0x0b3e], [0x0b3e]); ([0x0b3f], [0x0b3f]); ([0x0b41], [0x0b43]); ([0x0b4d], [0x0b4d]);
   ([0x0b56], [0x0b56]); ([0x0b57], [0x0b57]); ([0x0b82], [0x0b82]); ([0x0bbe], [0x0bbe]);
   ([0x0bc0], [0x0bc0]); ([0x0bcd], [0x0bcd]); ([0x0bd7], [0x0bd7]); ([0x0c3e], [0x0c40]);
   ([0x0c46], [0x0c48]); ([0x0c4a], [0x0c4d]); ([0x0c55], [0x0c56]); ([0x0cbc], [0x0cbc]);
   ([0x0cbf], [0x0cbf]); ([0x0cc2], [0x0cc2]); ([0x0cc6], [0x0cc6]); ([0x0ccc], [0x0ccd]);
   ([0x0cd5], [0x0cd6]); ([0x0d3e], [0x0d3e]); ([0x0d41], [0x0d43]); ([0x0d4d], [0x0d4d]);
   ([0x0d57], [0x0d57]); ([0x0dca], [0x0dca]); ([0x0dcf], [0x0dcf]); ([0x0dd2], [0x0dd4]);
   ([0x0dd6], [0x0dd6]); ([0x0ddf], [0x0ddf]); ([0x0e31], [0x0e31]); ([0x0e34], [0x0e3a]);
   ([0x0e47], [0x0e4e]); ([0x0eb1], [0x0eb1]); ([0x0eb4], [0x0eb9]); ([0x0ebb], [0x0ebc]);
   ([0x0ec8], [0x0ecd]); ([0x0f18], [0x0f19]); ([0x0f35], [0x0f35]); ([0x0f37], [0x0f37]);
   ([0x0f39], [0x0f39]); ([0x0f71], [0x0f7e]); ([0x0f80], [0x0f84]); ([0x0f86], [0x0f87]);
   ([0x0f90], [0x0f97]); ([0x0f99], [0x0fbc]); ([0x0fc6], [0x0fc6]); ([0x102d], [0x1030]);
   ([0x1032], [0x1032]); ([0x1036], [0x1037]); ([0x1039], [0x1039]); ([0x1058], [0x1059]);
   ([0x1712], [0x1714]); ([0x1732], [0x1734]); ([0x1752], [0x1753]); ([0x1772], [0x1773]);
   ([0x17b7], [0x17bd]); ([0x17c6], [0x17c6]); ([0x17c9], [0x17d3]); ([0x17dd], [0x17dd]);
   ([0x180b], [0x180d]); ([0x18a9], [0x18a9]); ([0x1920], [0x1922]); ([0x1927], [0x1928]);
   ([0x1932], [0x1932]); ([0x1939], [0x193b]); ([0x200c], [0x200d]); ([0x20d0], [0x20dc]);
   ([0x20dd], [0x20e0]); ([0x20e1], [0x20e1]); ([0x20e2], [0x20e4]); ([0x20e5], [0x20ea]);
   ([0x302a], [0x302f]); ([0x3099], [0x309a]); ([0xfb1e], [0xfb1e]); ([0xfe00], [0xfe0f]);
   ([0xfe20], [0xfe23]); ([0x1d16; 0x35], [0x1d16; 0x35]); ([0x1d16; 0x37], [0x1d16; 0x39]);
   ([0x1d16; 0x45], [0x1d16; 0x46]); ([0x1d17; 0x42], [0x1d18; 0x32]); ([0x1d18; 0x35], [0x1d18;
   0x42]); ([0x1d1a; 0x41], [0x1d1a; 0x44]); ([0xe010; 0x30], [0xe01e; 0x46])].
Definition Hiragana_data : list char_range :=
  [
   ([0x3040], [0x309f])].
Definition Katakana_data : list char_range :=
  [
   ([0x30a0], [0x30ff]); ([0x30fc], [0x30fc]); ([0xff70], [0xff70]); ([0xff9e], [0xff9e]);
   ([0xff9f], [0xff9f])].
Definition Ideographic_data : list char_range :=
  [
   ([0x1100], [0x1159]); ([0x115f], [0x115f]); ([0x2e80], [0x2e99]); ([0x2e9b], [0x2ef3]);
   ([0x2f00], [0x2fd5]); ([0x2ff0], [0x2ffb]); ([0x3000], [0x3000]); ([0x3003], [0x3004]);
   ([0x3006], [0x3007]); ([0x3012], [0x3013]); ([0x3020], [0x3029]); ([0x3030], [0x303a]);
   ([0x303d], [0x303f]); ([0x3042], [0x3042]); ([0x3044], [0x3044]); ([0x3046], [0x3046]);
   ([0x3048], [0x3048]); ([0x304a], [0x3062]); ([0x3064], [0x3082]); ([0x3084], [0x3084]);
   ([0x3086], [0x3086]); ([0x3088], [0x308d]); ([0x308f], [0x3094]); ([0x309f], [0x309f]);
   ([0x30a2], [0x30a2]); ([0x30a4], [0x30a4]); ([0x30a6], [0x30a6]); ([0x30a8], [0x30a8]);
   ([0x30aa], [0x30c2]); ([0x30c4], [0x30e2]); ([0x30e4], [0x30e4]); ([0x30e6], [0x30e6]);
   ([0x30e8], [0x30ed]); ([0x30ef], [0x30f4]); ([0x30f7], [0x30fa]); ([0x30fc], [0x30fc]);
   ([0x30fe], [0x30ff]); ([0x3105], [0x312c]); ([0x3131], [0x318e]); ([0x3190], [0x31b7]);
   ([0x3200], [0x321c]); ([0x3220], [0x3243]); ([0x3251], [0x327b]); ([0x327f], [0x32cb]);
   ([0x32d0], [0x32fe]); ([0x3300], [0x3376]); ([0x337b], [0x33dd]); ([0x33e0], [0x33fe]);
   ([0x3400], [0x4db5]); ([0x4e00], [0x9fa5]); ([0xa000], [0xa48c]); ([0xa490], [0xa4c6]);
   ([0xac00], [0xd7a3]); ([0xf900], [0xfa2d]); ([0xfa30], [0xfa6a]); ([0xfe30], [0xfe34]);
   ([0xfe45], [0xfe46]); ([0xfe49], [0xfe4f]); ([0xfe51], [0xfe51]); ([0xfe58], [0xfe58]);
   ([0xfe5f], [0xfe66]); ([0xfe68], [0xfe68]); ([0xfe6b], [0xfe6b]); ([0xff02], [0xff03]);
   ([0xff06], [0xff07]); ([0xff0a], [0xff0b]); ([0xff0d], [0xff0d]); ([0xff0f], [0xff19]);
   ([0xff1c], [0xff1e]); ([0xff20], [0xff3a]); ([0xff3c], [0xff3c]); ([0xff3e], [0xff5a]);
   ([0xff5c], [0xff5c]); ([0xff5e], [0xff5e]); ([0xffe2], [0xffe4])].
Definition MidLetter_data : list char_range :=
  [
   ([0x0027], [0x0027]); ([0x00b7], [0x00b7]); ([0x05f4], [0x05f4]); ([0x2019], [0x2019]);
   ([0x2027], [0x2027])].
Definition MidNumLet_data : list char_range :=
  [
   ([0x002e], [0x002e]); ([0x003a], [0x003a])].
Definition MidNum_data : list char_range :=
  [
   ([0x002c], [0x002c]); ([0x002e], [0x002e]); ([0x003a], [0x003a]); ([0x003b], [0x003b]);
   ([0x0589], [0x0589])].
Definition Numeric_data : list char_range :=
  [
   ([0x0030], [0x0039]); ([0x0660], [0x0669]); ([0x066b], [0x066c]); ([0x06f0], [0x06f9]);
   ([0x07c0], [0x07c9]); ([0x0966], [0x096f]); ([0x09e6], [0x09ef]); ([0x0a66], [0x0a6f]);
   ([0x0ae6], [0x0aef]); ([0x0b66], [0x0b6f]); ([0x0be6], [0x0bef]); ([0x0c66], [0x0c6f]);
   ([0x0ce6], [0x0cef]); ([0x0d66], [0x0d6f]); ([0x0e50], [0x0e59]); ([0x0ed0], [0x0ed9]);
   ([0x0f20], [0x0f29]); ([0x1040], [0x1049]); ([0x17e0], [0x17e9]); ([0x1810], [0x1819]);
   ([0x1946], [0x194f]); ([0x19d0], [0x19d9]); ([0x1b50], [0x1b59]); ([0x104a; 0x30], [0x104a;
   0x39]); ([0x1d7c; 0x45], [0x1d7f; 0x46])].
Definition Korean_LV_Data : list Z :=
  [
   0xac00; 0xac1c; 0xac38; 0xac54; 0xac70; 0xac8c; 0xaca8; 0xacc4; 0xace0; 0xacfc; 0xad18; 0xad34;
   0xad50; 0xad6c; 0xad88; 0xada4; 0xadc0; 0xaddc; 0xadf8; 0xae14; 0xae30; 0xae4c; 0xae68; 0xae84;
   0xaea0; 0xaebc; 0xaed8; 0xaef4; 0xaf10; 0xaf2c; 0xaf48; 0xaf64; 0xaf80; 0xaf9c; 0xafb8; 0xafd4;
   0xaff0; 0xb00c; 0xb028; 0xb044; 0xb060; 0xb07c; 0xb098; 0xb0b4; 0xb0d0; 0xb0ec; 0xb108; 0xb124;
   0xb140; 0xb15c; 0xb178; 0xb194; 0xb1b0; 0xb1cc; 0xb1e8; 0xb204; 0xb220; 0xb23c; 0xb258; 0xb274;
   0xb290; 0xb2ac; 0xb2c8; 0xb2e4; 0xb300; 0xb31c; 0xb338; 0xb354; 0xb370; 0xb38c; 0xb3a8; 0xb3c4;
   0xb3e0; 0xb3fc; 0xb418; 0xb434; 0xb450; 0xb46c; 0xb488; 0xb4a4; 0xb4c0; 0xb4dc; 0xb4f8; 0xb514;
   0xb530; 0xb54c; 0xb568; 0xb584; 0xb5a0; 0xb5bc; 0xb5d8; 0xb5f4; 0xb610; 0xb62c; 0xb648; 0xb664;
   0xb680; 0xb69c; 0xb6b8; 0xb6d4; 0xb6f0; 0xb70c; 0xb728; 0xb744; 0xb760; 0xb77c; 0xb798; 0xb7b4;
   0xb7d0; 0xb7ec; 0xb808; 0xb824; 0xb840; 0xb85c; 0xb878; 0xb894; 0xb8b0; 0xb8cc; 0xb8e8; 0xb904;
   0xb920; 0xb93c; 0xb958; 0xb974; 0xb990; 0xb9ac; 0xb9c8; 0xb9e4; 0xba00; 0xba1c; 0xba38; 0xba54;
   0xba70; 0xba8c; 0xbaa8; 0xbac4; 0xbae0; 0xbafc; 0xbb18; 0xbb34; 0xbb50; 0xbb6c; 0xbb88; 0xbba4;
   0xbbc0; 0xbbdc; 0xbbf8; 0xbc14; 0xbc30; 0xbc4c; 0xbc68; 0xbc84; 0xbca0; 0xbcbc; 0xbcd8; 0xbcf4;
   0xbd10; 0xbd2c; 0xbd48; 0xbd64; 0xbd80; 0xbd9c; 0xbdb8; 0xbdd4; 0xbdf0; 0xbe0c; 0xbe28; 0xbe44;
   0xbe60; 0xbe7c; 0xbe98; 0xbeb4; 0xbed0; 0xbeec; 0xbf08; 0xbf24; 0xbf40; 0xbf5c; 0xbf78; 0xbf94;
   0xbfb0; 0xbfcc; 0xbfe8; 0xc004; 0xc020; 0xc03c; 0xc058; 0xc074; 0xc090; 0xc0ac; 0xc0c8; 0xc0e4;
   0xc100; 0xc11c; 0xc138; 0xc154; 0xc170; 0xc18c; 0xc1a8; 0xc1c4; 0xc1e0; 0xc1fc; 0xc218; 0xc234;
   0xc250; 0xc26c; 0xc288; 0xc2a4; 0xc2c0; 0xc2dc; 0xc2f8; 0xc314; 0xc330; 0xc34c; 0xc368; 0xc384;
   0xc3a0; 0xc3bc; 0xc3d8; 0xc3f4; 0xc410; 0xc42c; 0xc448; 0xc464; 0xc480; 0xc49c; 0xc4b8; 0xc4d4;
   0xc4f0; 0xc50c; 0xc528; 0xc544; 0xc560; 0xc57c; 0xc598; 0xc5b4; 0xc5d0; 0xc5ec; 0xc608; 0xc624;
   0xc640; 0xc65c; 0xc678; 0xc694; 0xc6b0; 0xc6cc; 0xc6e8; 0xc704; 0xc720; 0xc73c; 0xc758; 0xc774;
   0xc790; 0xc7ac; 0xc7c8; 0xc7e4; 0xc800; 0xc81c; 0xc838; 0xc854; 0xc870; 0xc88c; 0xc8a8; 0xc8c4;
   0xc8e0; 0xc8fc; 0xc918; 0xc934; 0xc950; 0xc96c; 0xc988; 0xc9a4; 0xc9c0; 0xc9dc; 0xc9f8; 0xca14;
   0xca30; 0xca4c; 0xca68; 0xca84; 0xcaa0; 0xcabc; 0xcad8; 0xcaf4; 0xcb10; 0xcb2c; 0xcb48; 0xcb64;
   0xcb80; 0xcb9c; 0xcbb8; 0xcbd4; 0xcbf0; 0xcc0c; 0xcc28; 0xcc44; 0xcc60; 0xcc7c; 0xcc98; 0xccb4;
   0xccd0; 0xccec; 0xcd08; 0xcd24; 0xcd40; 0xcd5c; 0xcd78; 0xcd94; 0xcdb0; 0xcdcc; 0xcde8; 0xce04;
   0xce20; 0xce3c; 0xce58; 0xce74; 0xce90; 0xceac; 0xcec8; 0xcee4; 0xcf00; 0xcf1c; 0xcf38; 0xcf54;
   0xcf70; 0xcf8c; 0xcfa8; 0xcfc4; 0xcfe0; 0xcffc; 0xd018; 0xd034; 0xd050; 0xd06c; 0xd088; 0xd0a4;
   0xd0c0; 0xd0dc; 0xd0f8; 0xd114; 0xd130; 0xd14c; 0xd168; 0xd184; 0xd1a0; 0xd1bc; 0xd1d8; 0xd1f4;
   0xd210; 0xd22c; 0xd248; 0xd264; 0xd280; 0xd29c; 0xd2b8; 0xd2d4; 0xd2f0; 0xd30c; 0xd328; 0xd344;
   0xd360; 0xd37c; 0xd398; 0xd3b4; 0xd3d0; 0xd3ec; 0xd408; 0xd424; 0xd440; 0xd45c; 0xd478; 0xd494;
   0xd4b0; 0xd4cc; 0xd4e8; 0xd504; 0xd520; 0xd53c; 0xd558; 0xd574; 0xd590; 0xd5ac; 0xd5c8; 0xd5e4;
   0xd600; 0xd61c; 0xd638; 0xd654; 0xd670; 0xd68c; 0xd6a8; 0xd6c4; 0xd6e0; 0xd6fc; 0xd718; 0xd734;
   0xd750; 0xd76c; 0xd788].
Definition WWNoBreak_Data : list Z := [0x2027; 0x00ad; 0x2011; 0x2010; 0x2043; 0x002d; 0x005f; 0x0332; 0x002a; 0x002f; 0x005c; 0x0040; 0x0026; 0x003d; 0x0024].
Definition WWOpenBracket_Data : list Z := [0x0028; 0x005b; 0x007b; 0x003c].
Definition WWCloseBracket_Data : list Z := [0x0029; 0x005d; 0x007d; 0x003e].

(** ** Classes *)
Definition Alphabetic (c : Z) : bool :=
  in_ranges (Alphabetic_1 ++ Alphabetic_2 ++ Alphabetic_3 ++ Alphabetic_4) c.
Definition Grapheme_Extend (c : Z) : bool := in_ranges Grapheme_Extend_data c.
Definition Extend (c : Z) : bool := Grapheme_Extend c.
Definition Hiragana (c : Z) : bool := in_ranges Hiragana_data c.
Definition Katakana (c : Z) : bool := in_ranges Katakana_data c.
Definition Ideographic (c : Z) : bool := in_ranges Ideographic_data c.
Definition ALetter (c : Z) : bool :=
  if c =? 0x05f3 then true
  else if Ideographic c then false
  else if Katakana c then false
  else Alphabetic c.
Definition ABaseLetter (c : Z) : bool := if Grapheme_Extend c then false else ALetter c.
Definition ACMLetter (c : Z) : bool := if Grapheme_Extend c then ALetter c else false.
Definition MidLetter (c : Z) : bool := in_ranges MidLetter_data c.
Definition MidNumLet (c : Z) : bool := in_ranges MidNumLet_data c.
Definition MidNum (c : Z) : bool := in_ranges MidNum_data c.
Definition Numeric (c : Z) : bool := in_ranges Numeric_data c.
Definition Korean_L (c : Z) : bool := in_ranges [([0x1100], [0x115f]); ([0xac00], [0xd7a3])] c.
Definition Korean_V (c : Z) : bool := in_ranges [([0x1160], [0x11a2])] c.
Definition Korean_T (c : Z) : bool := in_ranges [([0x11a8], [0x11f9])] c.
Definition Korean_LV (c : Z) : bool := in_keys Korean_LV_Data c.
Definition Korean_LVT (c : Z) : bool :=
  if negb (Korean_LV c) then in_ranges [([0xac00], [0xd7a3])] c else false.
Definition WWNoBreak (c : Z) : bool := in_keys WWNoBreak_Data c.
Definition WWOpenBracket (c : Z) : bool := in_keys WWOpenBracket_Data c.
Definition WWCloseBracket (c : Z) : bool := in_keys WWCloseBracket_Data c.

(** ** The rule: does a word end between [p] and [c]? *)
(** The second half of the chain: letters, numbers, ideographs and brackets. *)
Definition CheckBreak_letters (p c : Z) : bool :=
  if (ALetter p || Extend p) && ALetter c then false
  else if Katakana p && Katakana c then false
  else if (Numeric p || MidNumLet p || MidLetter p || Extend p) && (ABaseLetter c || ACMLetter c) then false
  else if (ALetter p || ABaseLetter p || ACMLetter p || Extend p) && (MidNumLet c || MidLetter c) then false
  else if (ABaseLetter p || ACMLetter p || MidNum p || MidNumLet p || Numeric p || Extend p) && Numeric c then false
  else if (Numeric p || Extend p) && (MidNum c || MidNumLet c) then false
  else if Hiragana c || Ideographic c then true
  else if WWCloseBracket c then false
  else if WWOpenBracket p then false
  else true.
Definition CheckBreak_Sequence (p c : Z) : bool :=
  if p =? 0x20 then false
  else if WWNoBreak c then false
  else if WWNoBreak p then false
  else if Korean_L p && Korean_L c then false
  else if (Korean_L p || Korean_LV p) && Korean_LV c then false
  else if (Korean_L p || Korean_LV p) && Korean_V c then false
  else if Korean_L p && Korean_LVT c then false
  else if (Korean_L p || Korean_LV p || Korean_V p || Korean_LVT p || Korean_T p) && Korean_T c then false
  else if (ALetter p || ABaseLetter p || ACMLetter p || Numeric p || MidNum p || MidNumLet p || MidLetter p
           || Katakana p || Hiragana p || Ideographic p || Korean_L p || Korean_LV p || Korean_V p
           || Korean_LVT p || Korean_T p || Extend p) && Extend c then false
  else CheckBreak_letters p c.

Definition code (c : Ascii.ascii) : Z := Z.of_nat (Ascii.nat_of_ascii c).
(** The code of [s.charAt(i)] within the text. *)
Definition code_at (s : string) (i : Z) : Z :=
  match charAt s i with String c _ => code c | EmptyString => 0 end.

Definition CheckBreakAtIndex (s : string) (i : Z) : bool :=
  if i <? slen s then
    if slen s =? 1 then false
    else if 1 <? slen s then
      if i =? 0 then false else CheckBreak_Sequence (code_at s (i - 1)) (code_at s i)
    else false
  else false.

(** [WWHSearch_ApplyWordBreaks] (search.js). *)
Definition break_step (s r : string) (i : Z) : string :=
  if CheckBreakAtIndex s i then r +++ " " +++ charAt s i else r +++ charAt s i.
Definition ApplyWordBreaks (s : string) : string :=
  fold_left (break_step s) (range 0 (String.length s)) "".

(** ** The rule on ASCII *)
Definition letter (c : Z) : bool := ((65 <=? c) && (c <=? 90)) || ((97 <=? c) && (c <=? 122)).
Definition digit (c : Z) : bool := (48 <=? c) && (c <=? 57).
Definition alnum (c : Z) : bool := letter c || digit c.
Definition one_of (l : string) (c : Z) : bool := existsb (fun d => code d =? c) (String.list_ascii_of_string l).

(** Letters, digits and the signs inside of numbers and words hold together. *)
Definition ascii_joined (p c : Z) : bool :=
  if letter p then alnum c || one_of ".:'" c
  else if digit p then alnum c || one_of ".:,;" c
  else if one_of ".:" p then alnum c
  else if one_of "'" p then letter c
  else if one_of ",;" p then digit c
  else false.
Definition ascii_break (p c : Z) : bool :=
  negb (one_of " -_*/\@&=$" p || one_of "-_*/\@&=$" c || one_of "([{<" p || one_of ")]}>" c
        || ascii_joined p c).

(** The classes of ASCII characters. *)
Record ascii_class (c : Z) : Prop := {
  cl_letter : ALetter c = letter c;
  cl_base : ABaseLetter c = letter c;
  cl_cm : ACMLetter c = false;
  cl_extend : Extend c = false;
  cl_kana : Hiragana c = false /\ Katakana c = false /\ Ideographic c = false;
  cl_korean : Korean_L c = false /\ Korean_V c = false /\ Korean_T c = false
              /\ Korean_LV c = false /\ Korean_LVT c = false;
  cl_numeric : Numeric c = digit c;
  cl_midlet : MidLetter c = one_of "'" c;
  cl_midnumlet : MidNumLet c = one_of ".:" c;
  cl_midnum : MidNum c = one_of ",.:;" c;
  cl_nobreak : WWNoBreak c = one_of "-_*/\@&=$" c;
  cl_open : WWOpenBracket c = one_of "([{<" c;
  cl_close : WWCloseBracket c = one_of ")]}>" c
}.
Definition ascii_codes : list Z := range 0 128.
Lemma ascii_code c : 0 <= c < 128 -> c ∈ ascii_codes.
Proof. intros H. apply range_in. lia. Qed.
Lemma ascii_classes c : 0 <= c < 128 -> ascii_class c.
Proof.
  intros H%ascii_code. revert c H. apply Forall_forall. unfold ascii_codes.
  repeat (apply Forall_cons; split; [constructor; vm_compute; tauto|]). apply Forall_nil_2.
Qed.

(** The rule with the classes of ASCII. *)
Definition ascii_rule (p c : Z) : bool :=
  if p =? 0x20 then false
  else if one_of "-_*/\@&=$" c then false
  else if one_of "-_*/\@&=$" p then false
  else if letter p && letter c then false
  else if (digit p || one_of ".:" p || one_of "'" p) && letter c then false
  else if letter p && (one_of ".:" c || one_of "'" c) then false
  else if (letter p || one_of ",.:;" p || one_of ".:" p || digit p) && digit c then false
  else if digit p && (one_of ",.:;" c || one_of ".:" c) then false
  else if one_of ")]}>" c then false
  else negb (one_of "([{<" p).
Lemma rule_ascii p c : 0 <= p < 128 -> 0 <= c < 128 -> CheckBreak_Sequence p c = ascii_rule p c.
Proof.
  intros Hp%ascii_classes Hc%ascii_classes. unfold CheckBreak_Sequence, CheckBreak_letters, ascii_rule.
  destruct Hp, Hc. destruct_and!.
  repeat match goal with H : ?f ?x = _ |- context [?f ?x] => rewrite H; clear H end.
  cbn [orb andb]. rewrite !andb_false_r, !orb_false_r, !orb_diag.
  repeat (case_if; [done|]). done.
Qed.
Lemma break_table :
  forallb (fun p => forallb (fun c => eqb (ascii_rule p c) (ascii_break p c)) ascii_codes) ascii_codes = true.
Proof. vm_compute. reflexivity. Qed.

(** Between two ASCII characters the forty-odd conditions come to this: no boundary
    after a space, beside a sign that never breaks, inside brackets or within a word
    or number; a boundary everywhere else. *)
Theorem break_ascii p c : 0 <= p < 128 -> 0 <= c < 128 -> CheckBreak_Sequence p c = ascii_break p c.
Proof.
  intros Hp Hc. rewrite rule_ascii by done. pose proof break_table as H. rewrite forallb_forall in H.
  specialize (H p). rewrite forallb_forall in H. apply eqb_prop, H; by apply list_elem_of_In, ascii_code.
Qed.
Example break_ascii_witness : CheckBreak_Sequence 97 43 = true.
Proof. rewrite (break_ascii 97 43) by lia. vm_compute. reflexivity. Defined.

Lemma one_of_alnum l x : alnum x = true ->
  sall (fun d => negb (alnum (code d))) l = true -> one_of l x = false.
Proof.
  intros Hx. unfold one_of. induction l as [|d l IH]; [done|]. cbn [sall String.list_ascii_of_string existsb].
  intros [Hd Hl]%andb_true_iff. rewrite IH by done.
  destruct (Z.eqb_spec (code d) x) as [E|]; [by rewrite E, Hx in Hd|done].
Qed.
Lemma break_alnum p c : alnum p = true -> alnum c = true -> CheckBreak_Sequence p c = false.
Proof.
  intros Hp Hc.
  assert (Hr : forall x, alnum x = true -> 0 <= x < 128) by (intros x Hx; unfold alnum, letter, digit in Hx; lia).
  rewrite rule_ascii by auto. unfold ascii_rule. rewrite !(one_of_alnum _ c), !(one_of_alnum _ p) by done.
  unfold alnum in *.
  apply orb_true_iff in Hp as [Hp|Hp]; apply orb_true_iff in Hc as [Hc|Hc]; rewrite Hp, Hc, ?orb_true_r; cbn [orb andb];
    repeat (case_if; [done|]); rewrite ?orb_true_r in *; done.
Qed.

(** The five-digit literals make letters of a whole block of signs: the dash U+2014
    and the quotation marks among them. *)
Lemma symbols_are_letters c : 0x2001 <= c <= 0x2a6d -> Alphabetic c = true.
Proof.
  intros Hc. unfold Alphabetic, in_ranges. apply existsb_exists.
  exists ([0x2000; 0x30], [0x2a6d; 0x36]). split; [|].
  - rewrite !in_app_iff. do 3 right. vm_compute. tauto.
  - cbn [lit_leb]. apply andb_true_intro. split.
    + apply orb_true_iff. left. lia.
    + destruct (Z.eqb_spec c 0x2a6d) as [->|]; [done|]. apply orb_true_iff. left. lia.
Qed.
Example dash_does_not_break : CheckBreak_Sequence 97 0x2014 = false.
Proof. vm_compute. reflexivity. Qed.

(** ** Applying the rule to a text *)

(** The text behind a character, with a space at each boundary. *)
Fixpoint broken (p : Ascii.ascii) (s : string) : string :=
  match s with
  | EmptyString => EmptyString
  | String c s => (if CheckBreak_Sequence (code p) (code c) then String " " (String c "") else String c "") +++ broken c s
  end.

Lemma charAt_app u c s : charAt (u +++ String c s) (slen u) = String c "".
Proof.
  unfold charAt. case_if; bool_to_prop; [pose proof (slen_nonneg u); lia|].
  unfold slen. rewrite Nat2Z.id, sdrop_app. done.
Qed.
Lemma charAt_app_1 u p c s : charAt (u +++ String p (String c s)) (slen u + 1) = String c "".
Proof.
  change (u +++ String p (String c s)) with (u +++ (String p "" +++ String c s)).
  rewrite <- sapp_assoc. replace (slen u + 1) with (slen (u +++ String p "")); [apply charAt_app|].
  by rewrite slen_app.
Qed.
Lemma break_at u p c s :
  CheckBreakAtIndex (u +++ String p (String c s)) (slen u + 1) = CheckBreak_Sequence (code p) (code c).
Proof.
  unfold CheckBreakAtIndex. rewrite slen_app. pose proof (slen_nonneg u). pose proof (slen_nonneg s).
  assert (E : slen (String p (String c s)) = 2 + slen s) by (unfold slen; cbn [String.length]; lia). rewrite E.
  case_if; bool_to_prop; [|lia]. case_if; bool_to_prop; [lia|]. case_if; bool_to_prop; [|lia].
  case_if; bool_to_prop; [lia|]. unfold code_at. replace (slen u + 1 - 1) with (slen u) by lia.
  by rewrite charAt_app, charAt_app_1.
Qed.

Lemma breaks_loop s : forall u p r,
  fold_left (break_step (u +++ String p s)) (range (slen u + 1) (String.length s)) r = r +++ broken p s.
Proof.
  induction s as [|c s IH]; intros u p r; [by rewrite sapp_nil_r|]. cbn [String.length range fold_left broken].
  unfold break_step at 2. rewrite break_at, charAt_app_1.
  specialize (IH (u +++ String p "") c). rewrite slen_app, sapp_assoc in IH.
  change (String p "" +++ String c s) with (String p (String c s)) in IH. change (slen (String p "")) with 1 in IH.
  rewrite IH. destruct (CheckBreak_Sequence (code p) (code c)); by rewrite !sapp_assoc.
Qed.
Lemma ApplyWordBreaks_broken c s : ApplyWordBreaks (String c s) = String c (broken c s).
Proof.
  unfold ApplyWordBreaks. cbn [String.length range fold_left].
  assert (E : break_step (String c s) "" 0 = String c "").
  { unfold break_step, CheckBreakAtIndex. change (0 =? 0) with true. by repeat case_if. }
  rewrite E. apply (breaks_loop s "" c).
Qed.

(** Words of letters and digits are not broken; a space between two of them becomes
    two spaces. *)
Definition alnum_word (w : string) : bool := sall (fun c => alnum (code c)) w && negb (String.eqb w "").

Fixpoint last_of (p : Ascii.ascii) (s : string) : Ascii.ascii :=
  match s with String c s => last_of c s | EmptyString => p end.
Lemma broken_app s : forall p t, broken p (s +++ t) = broken p s +++ broken (last_of p s) t.
Proof.
  induction s as [|c s IH]; intros p t; [done|]. cbn [String.append broken last_of].
  by rewrite IH, sapp_assoc.
Qed.
Lemma broken_alnum s : forall p, alnum (code p) = true -> sall (fun c => alnum (code c)) s = true ->
  broken p s = s /\ alnum (code (last_of p s)) = true.
Proof.
  induction s as [|c s IH]; intros p Hp Hs; [done|]. cbn [sall] in Hs. bool_to_prop.
  cbn [broken last_of]. rewrite break_alnum by done. by destruct (IH c) as [-> Hl].
Qed.

Lemma alnum_range x : alnum x = true -> 0 <= x < 128.
Proof. unfold alnum, letter, digit. lia. Qed.
Lemma break_space p c : alnum (code p) = true -> alnum (code c) = true ->
  CheckBreak_Sequence (code p) (code " ") = true /\ CheckBreak_Sequence (code " ") (code c) = false.
Proof.
  intros Hp Hc. split; [|done]. change (code " ") with 32. rewrite rule_ascii by (lia || by apply alnum_range).
  unfold ascii_rule. destruct (Z.eqb_spec (code p) 32) as [E|_]; [by rewrite E in Hp|].
  rewrite !(one_of_alnum _ (code p)) by done. unfold alnum in Hp. by destruct (letter (code p)), (digit (code p)).
Qed.

Lemma broken_words ws : forall w p,
  Forall (fun w => alnum_word w = true) ws -> alnum (code p) = true -> sall (fun c => alnum (code c)) w = true ->
  broken p (join " " (w :: ws)) = join "  " (w :: ws).
Proof.
  induction ws as [|v ws IH]; intros w p Hws Hp Hw.
  - by apply broken_alnum.
  - rewrite !(join_head _ w) by done. rewrite broken_app. destruct (broken_alnum w p) as [-> Hl]; [done|done|]. f_equal.
    inv Hws as [|? ? Hv Hws']. unfold alnum_word in Hv. bool_to_prop. destruct v as [|c v]; [done|].
    cbn [sall] in *. bool_to_prop.
    assert (E : forall l, join l (String c v :: ws) = String c (join l (v :: ws))) by (by destruct ws).
    rewrite !E. cbn [String.append broken].
    destruct (break_space (last_of p w) c) as [-> ->]; [done|done|]. cbn [String.append]. by rewrite IH.
Qed.
Lemma ApplyWordBreaks_words w ws : Forall (fun w => alnum_word w = true) (w :: ws) ->
  ApplyWordBreaks (join " " (w :: ws)) = join "  " (w :: ws).
Proof.
  intros H. inv H as [|? ? Hw Hws]. unfold alnum_word in Hw. bool_to_prop. destruct w as [|c w]; [done|].
  cbn [sall] in *. bool_to_prop.
  assert (E : forall l, join l (String c w :: ws) = String c (join l (w :: ws))) by (by destruct ws).
  by rewrite !E, ApplyWordBreaks_broken, broken_words.
Qed.

(** Empty pieces between spaces change nothing. *)
Lemma parse_skip l : forall p, parse_run (flat_map (fun w => [""; w]) l) p = parse_run l p.
Proof.
  induction l as [|w l IH]; intros p; [done|]. unfold parse_run in *. cbn [flat_map app fold_left].
  assert (E : parse_word p "" = p) by (by destruct p). by rewrite E, IH.
Qed.
Lemma alnum_plain w : alnum_word w = true -> plain_word w = true.
Proof.
  unfold alnum_word, plain_word. intros H. bool_to_prop. apply andb_true_intro. split; [|by apply negb_true_iff, String.eqb_neq].
  revert H. apply sall_impl. intros c Hc. unfold word_char.
  destruct (Ascii.eqb_spec c " ") as [->|]; [done|]. by destruct (Ascii.eqb_spec c dquote) as [->|].
Qed.

(** The words of an entry that holds only letters, digits and single spaces. *)
Lemma entry_words w ws : Forall (fun w => alnum_word w = true) (w :: ws) ->
  ParseWordsAndPhrases (ApplyWordBreaks (join " " (w :: ws))) = w :: ws.
Proof.
  intros H. rewrite ApplyWordBreaks_words by done. rewrite Parse_split.
  assert (E : join "  " (w :: ws) = join " " (w :: flat_map (fun w => [""; w]) ws)).
  { clear H. revert w. induction ws as [|v ws IH]; intros w; [done|]. cbn [flat_map app].
    rewrite !(join_head _ w) by done. rewrite IH. by rewrite (join_head " " "") by done. }
  assert (Hns : Forall (fun s => sall (not_char " ") s = true) (w :: ws)).
  { apply (Forall_impl _ _ _ H). intros v Hv%alnum_plain. pose proof (item_words_no_space (Word v) Hv) as Hf. by inversion Hf. }
  assert (Hns' : Forall (fun s => sall (not_char " ") s = true) (w :: flat_map (fun w => [""; w]) ws)).
  { inv Hns as [|? ? Hw Hws]. constructor; [done|]. clear -Hws. induction Hws; cbn [flat_map app]; by repeat constructor. }
  rewrite E, (js_split_join " "%char) by done.
  change (p_Results (parse_run (flat_map (fun w => [""; w]) ws) (parse_word (Parse [] "" false) w)) = w :: ws).
  rewrite parse_skip. change (p_Results (parse_run (w :: ws) (Parse [] "" false)) = w :: ws).
  assert (Hp : Forall (fun i => item_ok i = true) (map Word (w :: ws))).
  { apply Forall_map. apply (Forall_impl _ _ _ H). apply alnum_plain. }
  pose proof (parse_items _ Hp []) as Hr. rewrite flat_map_concat_map, !map_map in Hr. cbn [item_words item_text] in Hr.
  rewrite map_id in Hr. replace (concat (map (fun x => [x]) (w :: ws))) with (w :: ws) in Hr; [by rewrite Hr|].
  clear. generalize (w :: ws). intros l. induction l; cbn; congruence.
Qed.
