(* ===== verification/HelpBooks.v ===== *)
(** * The books of the online help
    (filelist.js, booklist.js and bookgrps.js of wwhelp/wwhimpl/common/scripts)
    The files of a book with the hash from addresses to positions, the list of books,
    the tree of groups and books, and the pages before and after a page.  A [throw]
    of the language (a property of [undefined]) is [None]. *)
From S2P Require Import Prelude JsString JsNum JsVal HelpString.
Open Scope Z_scope.

(** [l[i]] for an index that need not be in the list. *)
Definition at_index {A} (l : list A) (i : Z) : option A :=
  if i <? 0 then None else l !! Z.to_nat i.

(** ** filelist.js *)
Record file := File { f_mTitle : string; f_mHREF : string }.
Record file_list := FileList { mFileList : list file; mFileHash : gmap string Z }.
Definition new_file_list : file_list := FileList [] ∅.

Definition fEntries (fl : file_list) : Z := Z.of_nat (length (mFileList fl)).
Definition AddFile (title href : string) (fl : file_list) : file_list :=
  FileList (mFileList fl ++ [File title href])
           (<[unescape href +++ "~" := fEntries fl]> (mFileHash fl)).
Definition HREFToIndex (fl : file_list) (href : string) : Z :=
  default (-1) (mFileHash fl !! (unescape href +++ "~")).
Definition FileIndexToHREF (fl : file_list) (i : Z) : option string := f_mHREF <$> at_index (mFileList fl) i.
Definition FileIndexToTitle (fl : file_list) (i : Z) : option string := f_mTitle <$> at_index (mFileList fl) i.
Definition HREFToTitle (fl : file_list) (href : string) : option string :=
  let i := HREFToIndex fl href in
  if negb (i =? -1) then FileIndexToTitle fl i else Some (EscapeHTML href).

(** ** booklist.js *)
Record book := Book { mDirectory : string; mTitle : option string; mContext : option string; mFiles : file_list }.
Definition new_book (dir : string) : book :=
  Book (if String.eqb dir "." then "" else dir +++ "/") None None new_file_list.
(** [fInit]; the file function of a book adds its files one after the other.  (What
    the function for the associative links does is left out.) *)
Definition book_init (title context : string) (files : list (string * string)) (b : book) : book :=
  Book (mDirectory b) (Some title) (Some context)
       (fold_left (fun fl '(t, h) => AddFile t h fl) files (mFiles b)).

Record book_list := BookList {
  mInitIndex : Z; mBookList : list book; mBookContextToIndex : gmap string Z
}.
Definition new_book_list : book_list := BookList 0 [] ∅.

Definition Init_AddBookDir (dir : string) (bl : book_list) : book_list :=
  BookList (mInitIndex bl) (mBookList bl ++ [new_book dir]) (mBookContextToIndex bl).
Definition Init_AddBook (title context : string) (files : list (string * string)) (bl : book_list) : option book_list :=
  b ← at_index (mBookList bl) (mInitIndex bl);
  Some (BookList (mInitIndex bl)
          (<[Z.to_nat (mInitIndex bl) := book_init title context files b]> (mBookList bl))
          (<[context +++ "~" := mInitIndex bl]> (mBookContextToIndex bl))).
Definition Init_IncrementIndex (bl : book_list) : book_list :=
  BookList (mInitIndex bl + 1) (mBookList bl) (mBookContextToIndex bl).

Definition GetBook (bl : book_list) (i : Z) : option book := at_index (mBookList bl) i.
(** The title is [null] until the book's data are loaded. *)
Definition GetBookTitle (bl : book_list) (i : Z) : option (option string) := mTitle <$> GetBook bl i.
Definition BookHREFToFileIndex (bl : book_list) (i : Z) (href : string) : option Z :=
  b ← GetBook bl i; Some (HREFToIndex (mFiles b) href).
Definition BookHREFToTitle (bl : book_list) (i : Z) (href : string) : option string :=
  b ← GetBook bl i; HREFToTitle (mFiles b) href.
Definition BookIndexFileIndexToTitle (bl : book_list) (i k : Z) : option string :=
  b ← GetBook bl i; FileIndexToTitle (mFiles b) k.

(** The loop that looks for the longest directory in front of an address. *)
Fixpoint longest_dir (books : list book) (href : string) (i : Z) (best : option (Z * string)) : option (Z * string) :=
  match books with
  | [] => best
  | b :: books =>
      let d := mDirectory b in
      longest_dir books href (i + 1)
        (if indexOf href d =? 0 then
           match best with
           | None => Some (i, d)
           | Some (_, e) => if slen e <? slen d then Some (i, d) else best
           end
         else best)
  end.
(** Position of the book and address within it; [(-1, null)] when there is none. *)
Definition GetBookIndexFileHREF (bl : book_list) (href : string) : Z * option string :=
  match longest_dir (mBookList bl) href 0 None with
  | Some (i, d) => (i, Some (if 0 <? slen d then substring2 href (slen d) (slen href) else href))
  | None => (-1, None)
  end.
Definition BookFileIndiciesToHREF (bl : book_list) (i k : Z) : option string :=
  b ← GetBook bl i; h ← FileIndexToHREF (mFiles b) k; Some (mDirectory b +++ h).

Definition HREFToBookIndexFileIndexAnchor (bl : book_list) (href : string) : option (Z * Z * string) :=
  let parts := js_split href "#" in
  let trimmed := default "" (head parts) in
  let anchor := match tail parts with a :: _ => if 0 <? slen a then a else "" | [] => "" end in
  match GetBookIndexFileHREF bl trimmed with
  | (i, Some h) =>
      if 0 <=? i then
        k ← BookHREFToFileIndex bl i h;
        Some (if 0 <=? k then (i, k, anchor) else (-1, -1, ""))
      else Some (-1, -1, "")
  | _ => Some (-1, -1, "")
  end.

(** Whether the page is known, the page before it and the page after it. *)
Definition file_count (b : book) : Z := fEntries (mFiles b).
Definition GetSyncPrevNext (bl : book_list) (href : string)
  : option (option string * option string * option string) :=
  '(i, k, _) ← HREFToBookIndexFileIndexAnchor bl href;
  if (0 <=? i) && (0 <=? k) then
    prev ← (if 0 <? k then Some <$> BookFileIndiciesToHREF bl i (k - 1)
            else if 0 <? i then
              b ← GetBook bl (i - 1);
              Some <$> BookFileIndiciesToHREF bl (i - 1) (file_count b - 1)
            else Some None);
    b ← GetBook bl i;
    next ← (if k + 1 <? file_count b then Some <$> BookFileIndiciesToHREF bl i (k + 1)
            else if i + 1 <? Z.of_nat (length (mBookList bl)) then
              c ← GetBook bl (i + 1);
              if 0 <? file_count c then Some <$> BookFileIndiciesToHREF bl (i + 1) 0 else Some None
            else Some None);
    Some (Some href, prev, next)
  else Some (None, None, None).

Definition GetContextIndex (bl : book_list) (context : string) : Z :=
  default (-1) (mBookContextToIndex bl !! (context +++ "~")).
(** The last book with the context. *)
Definition GetContextBook (bl : book_list) (context : string) : option book :=
  fold_left (fun r b => if decide (mContext b = Some context) then Some b else r) (mBookList bl) None.

(** ** bookgrps.js *)
#[local] Set Warnings "-register-all".
Inductive node :=
| Group (title : string) (expand : bool) (icon openicon : option jsval) (children : list node)
| Directory (dir : string) (show expand : bool) (icon openicon : option jsval).

(** The calls that build the tree ([fAddGrouping], [fAddDirectory] of the top object or
    of a group); the calls on the group that [fAddGrouping] returns are [inside].  A
    flag that is [undefined] or [null] is [None]. *)
Inductive add :=
| AddGrouping (title : string) (expand : option bool) (icon openicon : jsval) (inside : list add)
| AddDirectory (dir : string) (show expand : option bool) (icon openicon : jsval).

Definition defined (v : jsval) : option jsval := if decide (v = Undefined) then None else Some v.
Definition is_true (b : option bool) : bool := match b with Some true => true | _ => false end.

Section groups.
(** [mbShowBooks] and [mbExpandAllAtTop] of the top object. *)
Context (mbShowBooks mbExpandAllAtTop : bool).

(** [top]: a call on the top object, which may expand everything. *)
Definition expand_param (top : bool) (expand : option bool) : option bool :=
  if top then Some (if is_true expand then true else mbExpandAllAtTop) else expand.

Definition new_directory (top : bool) (dir : string) (show expand : option bool) (icon openicon : jsval)
    (bl : book_list) : node * book_list :=
  (Directory dir (match show with None => mbShowBooks | Some b => b end)
     (is_true (expand_param top expand)) (defined icon) (defined openicon),
   Init_AddBookDir dir bl).

Fixpoint run_add (top : bool) (a : add) (bl : book_list) : node * book_list :=
  match a with
  | AddDirectory dir show expand icon openicon => new_directory top dir show expand icon openicon bl
  | AddGrouping title expand icon openicon inside =>
      let '(children, bl) :=
        (fix adds (l : list add) (bl : book_list) : list node * book_list :=
           match l with
           | [] => ([], bl)
           | a :: l =>
               let '(n, bl) := run_add false a bl in
               let '(ns, bl) := adds l bl in (n :: ns, bl)
           end) inside bl in
      (Group title (is_true (expand_param top expand)) (defined icon) (defined openicon) children, bl)
  end.
Fixpoint run_adds (top : bool) (l : list add) (bl : book_list) : list node * book_list :=
  match l with
  | [] => ([], bl)
  | a :: l =>
      let '(n, bl) := run_add top a bl in
      let '(ns, bl) := run_adds top l bl in (n :: ns, bl)
  end.
End groups.

(** ** The scopes of a search ([WWHSearchScope_Object], search.js) *)
Record scope_entry := ScopeEntry {
  mLevel : Z; s_mTitle : option string; mStartBookIndex : Z; mEndBookIndex : Z
}.
(** The group stack holds entries of [mEntries], by their positions. *)
Record scope := Scope { s_mEntries : list scope_entry; mGroupStack : list nat; mBookIndex : Z }.
Definition new_scope : scope := Scope [] [] 0.

Definition level (sc : scope) : Z := Z.of_nat (length (mGroupStack sc)).
Definition include_book (b : Z) (e : scope_entry) : scope_entry :=
  ScopeEntry (mLevel e) (s_mTitle e) (if mStartBookIndex e =? -1 then b else mStartBookIndex e) b.
Definition push_scope (e : scope_entry) (sc : scope) : scope :=
  Scope (s_mEntries sc ++ [e]) (mGroupStack sc) (mBookIndex sc).
Definition push_group (sc : scope) : scope :=
  Scope (s_mEntries sc) (mGroupStack sc ++ [length (s_mEntries sc) - 1])%nat (mBookIndex sc).
Definition pop_group (sc : scope) : scope :=
  Scope (s_mEntries sc) (removelast (mGroupStack sc)) (mBookIndex sc).

(** A book: its own entry, then the entries of the groups it is in. *)
Definition scope_book (bl : book_list) (sc : scope) : option scope :=
  title ← GetBookTitle bl (mBookIndex sc);
  let b := mBookIndex sc in
  let sc := push_scope (ScopeEntry (level sc) title b b) sc in
  Some (Scope (fold_left (fun es i => alter (include_book b) i es) (mGroupStack sc) (s_mEntries sc))
              (mGroupStack sc) (b + 1)).

Section add_scope.
Context (bl : book_list).
Fixpoint add_scope_node (n : node) (sc : scope) : option scope :=
  match n with
  | Directory _ _ _ _ _ => scope_book bl sc
  | Group title _ _ _ children =>
      let sc := push_group (push_scope (ScopeEntry (level sc) (Some title) (-1) (-1)) sc) in
      sc ← (fix nodes (l : list node) (sc : scope) : option scope :=
              match l with [] => Some sc | n :: l => sc ← add_scope_node n sc; nodes l sc end) children sc;
      Some (pop_group sc)
  end.
(** [WWHSearchScope_AddScopeEntries] *)
Fixpoint AddScopeEntries (l : list node) (sc : scope) : option scope :=
  match l with [] => Some sc | n :: l => sc ← add_scope_node n sc; AddScopeEntries l sc end.
End add_scope.

(** ** What the scopes are *)
Section node_ind.
Context (P : node -> Prop)
  (Hdir : forall d s e i o, P (Directory d s e i o))
  (Hgroup : forall t e i o children, Forall P children -> P (Group t e i o children)).
Fixpoint node_induction (n : node) : P n :=
  match n with
  | Directory d s e i o => Hdir d s e i o
  | Group t e i o children =>
      Hgroup t e i o children
        ((fix all l : Forall P l :=
            match l with [] => Forall_nil_2 P | n :: l => Forall_cons_2 P n l (node_induction n) (all l) end) children)
  end.
End node_ind.

(** The books below a node, in the order in which they are added. *)
Fixpoint books_in (n : node) : Z :=
  match n with
  | Directory _ _ _ _ _ => 1
  | Group _ _ _ _ children => foldr Z.add 0 (map books_in children)
  end.
Definition books_of (l : list node) : Z := foldr Z.add 0 (map books_in l).

Section scope_spec.
(** The titles of the books by their positions. *)
Context (title_of : Z -> option string).
(** Each group comes before what it contains and spans the positions of its books. *)
Fixpoint node_scopes (lvl b : Z) (n : node) : list scope_entry :=
  match n with
  | Directory _ _ _ _ _ => [ScopeEntry lvl (title_of b) b b]
  | Group t _ _ _ children =>
      let k := books_of children in
      ScopeEntry lvl (Some t) (if k =? 0 then -1 else b) (if k =? 0 then -1 else b + k - 1)
      :: (fix scopes (b : Z) (l : list node) : list scope_entry :=
            match l with [] => [] | n :: l => node_scopes (lvl + 1) b n ++ scopes (b + books_in n) l end) b children
  end.
Fixpoint forest_scopes (lvl b : Z) (l : list node) : list scope_entry :=
  match l with [] => [] | n :: l => node_scopes lvl b n ++ forest_scopes lvl (b + books_in n) l end.
Lemma node_scopes_group lvl b t e i o children :
  node_scopes lvl b (Group t e i o children) =
  ScopeEntry lvl (Some t) (if books_of children =? 0 then -1 else b)
    (if books_of children =? 0 then -1 else b + books_of children - 1)
  :: forest_scopes (lvl + 1) b children.
Proof.
  cbn [node_scopes]. f_equal. revert b. induction children as [|n l IH]; intros b; [done|].
  cbn [forest_scopes]. by rewrite IH.
Qed.
End scope_spec.

Lemma books_in_nonneg n : 0 <= books_in n.
Proof.
  induction n as [|t e i o children IH] using node_induction; cbn [books_in]; [lia|].
  induction IH; cbn [map foldr]; lia.
Qed.
Lemma books_of_nonneg l : 0 <= books_of l.
Proof. unfold books_of. induction l as [|n l IH]; cbn [map foldr]; [lia|]. pose proof (books_in_nonneg n). lia. Qed.

(** ** The code builds them *)

(** What [k] books from [b] on make of the entry of a group they are in. *)
Definition cover_entry (b k : Z) (e : scope_entry) : scope_entry :=
  if k =? 0 then e
  else ScopeEntry (mLevel e) (s_mTitle e) (if mStartBookIndex e =? -1 then b else mStartBookIndex e) (b + k - 1).
Definition cover (stack : list nat) (b k : Z) (es : list scope_entry) : list scope_entry :=
  imap (fun i e => if decide (i ∈ stack) then cover_entry b k e else e) es.

Lemma alter_each {A} (f : A -> A) stack : NoDup stack -> forall l,
  fold_left (fun l i => alter f i l) stack l = imap (fun i e => if decide (i ∈ stack) then f e else e) l.
Proof.
  induction 1 as [|i stack Hi _ IH]; intros l; cbn [fold_left].
  - apply list_eq. intros j. rewrite list_lookup_imap. by destruct (l !! j).
  - rewrite IH. apply list_eq. intros j. rewrite !list_lookup_imap.
    destruct (decide (j = i)) as [->|Hj].
    + rewrite list_lookup_alter_eq. destruct (l !! i); cbn; [|done]. f_equal.
      by rewrite decide_False, decide_True by (done || set_solver).
    + rewrite list_lookup_alter_ne by done. destruct (l !! j); cbn; [|done]. f_equal.
      apply decide_ext. rewrite elem_of_cons. tauto.
Qed.

Lemma length_cover stack b k es : length (cover stack b k es) = length es.
Proof. apply length_imap. Qed.
Lemma cover_0 stack b es : cover stack b 0 es = es.
Proof.
  apply list_eq. intros i. unfold cover. rewrite list_lookup_imap. destruct (es !! i); cbn; [|done].
  by case_decide.
Qed.
Lemma cover_app stack b k es fs : Forall (fun i => (i < length es)%nat) stack ->
  cover stack b k (es ++ fs) = cover stack b k es ++ fs.
Proof.
  intros H. unfold cover. rewrite imap_app. f_equal. apply list_eq. intros i. rewrite list_lookup_imap.
  destruct (fs !! i); cbn; [|done]. rewrite decide_False; [done|]. intros Hi.
  rewrite Forall_forall in H. specialize (H _ Hi). lia.
Qed.
Lemma cover_cover stack b j k es : 0 <= b -> 0 <= j -> 0 <= k ->
  cover stack (b + j) k (cover stack b j es) = cover stack b (j + k) es.
Proof.
  intros Hb Hj Hk. apply list_eq. intros i. unfold cover. rewrite !list_lookup_imap.
  destruct (es !! i) as [e|]; cbn; [|done]. f_equal. case_decide; [|done].
  destruct e as [l t s en]. unfold cover_entry. cbn [mLevel s_mTitle mStartBookIndex].
  destruct (Z.eqb_spec k 0) as [->|]; [by rewrite Z.add_0_r|].
  destruct (Z.eqb_spec j 0) as [->|]; cbn [mLevel s_mTitle mStartBookIndex].
  - rewrite Z.add_0_r, Z.add_0_l. by destruct (Z.eqb_spec k 0).
  - destruct (Z.eqb_spec (j + k) 0); [lia|]. f_equal; [|lia].
    destruct (Z.eqb_spec s (-1)); destruct (Z.eqb_spec b (-1)); try lia; by destruct (Z.eqb_spec s (-1)); try lia.
Qed.

Section scopes.
Context (bl : book_list).
Definition title_at (i : Z) : option string := GetBookTitle bl i ≫= id.
Abbreviation book_count := (Z.of_nat (length (mBookList bl))).

Definition stack_ok (stack : list nat) (es : list scope_entry) : Prop :=
  NoDup stack /\ Forall (fun i => (i < length es)%nat) stack.
Lemma stack_ok_app stack es fs : stack_ok stack es -> stack_ok stack (es ++ fs).
Proof.
  intros [Hn Hf]. split; [done|]. apply (Forall_impl _ _ _ Hf). intros i. rewrite length_app. lia.
Qed.
Lemma stack_ok_cover stack b k es fs : stack_ok stack es -> stack_ok stack (cover stack b k es ++ fs).
Proof.
  intros [Hn Hf]. apply stack_ok_app. split; [done|]. by rewrite length_cover.
Qed.

Definition node_ok (n : node) : Prop := forall es stack b,
  stack_ok stack es -> 0 <= b -> b + books_in n <= book_count ->
  add_scope_node bl n (Scope es stack b)
  = Some (Scope (cover stack b (books_in n) es ++ node_scopes title_at (Z.of_nat (length stack)) b n)
                stack (b + books_in n)).

Lemma add_forest l : Forall node_ok l -> forall es stack b,
  stack_ok stack es -> 0 <= b -> b + books_of l <= book_count ->
  AddScopeEntries bl l (Scope es stack b)
  = Some (Scope (cover stack b (books_of l) es ++ forest_scopes title_at (Z.of_nat (length stack)) b l)
                stack (b + books_of l)).
Proof.
  induction 1 as [|n l Hn _ IH]; intros es stack b Hs Hb Hc.
  - cbn. by rewrite cover_0, app_nil_r, Z.add_0_r.
  - cbn [AddScopeEntries forest_scopes].
    assert (E : books_of (n :: l) = books_in n + books_of l) by done. rewrite E in *.
    pose proof (books_in_nonneg n). pose proof (books_of_nonneg l).
    rewrite Hn by (done || lia). cbn [mbind option_bind].
    rewrite IH by (lia || by apply stack_ok_cover). do 2 f_equal; [|lia].
    destruct Hs as [Hnd Hf].
    rewrite cover_app by (by rewrite length_cover). by rewrite cover_cover, <- app_assoc.
Qed.

Lemma scope_book_spec es stack b : stack_ok stack es -> 0 <= b < book_count ->
  scope_book bl (Scope es stack b)
  = Some (Scope (cover stack b 1 es ++ [ScopeEntry (Z.of_nat (length stack)) (title_at b) b b]) stack (b + 1)).
Proof.
  intros [Hnd Hf] Hb. unfold scope_book, title_at, GetBookTitle, GetBook, at_index, mBookIndex, mGroupStack.
  case_if; bool_to_prop; [lia|].
  destruct (lookup_lt_is_Some_2 (mBookList bl) (Z.to_nat b)) as [bk Hbk]; [lia|]. rewrite Hbk.
  cbn [fmap option_fmap option_map mbind option_bind push_scope s_mEntries]. do 2 f_equal.
  rewrite alter_each by done.
  rewrite <- cover_app by done. unfold cover. apply imap_ext. intros i e _. cbn [mGroupStack]. case_decide; [|done].
  unfold include_book, cover_entry. cbn. f_equal. lia.
Qed.

Lemma node_ok_all n : node_ok n.
Proof.
  induction n as [d s e i o|t e i o children IH] using node_induction; intros es stack b Hs Hb Hc.
  - cbn [add_scope_node books_in node_scopes] in *. rewrite scope_book_spec by (done || lia). done.
  - set (e0 := ScopeEntry (Z.of_nat (length stack)) (Some t) (-1) (-1)).
    assert (E : add_scope_node bl (Group t e i o children) (Scope es stack b)
      = (sc ← AddScopeEntries bl children (Scope (es ++ [e0]) (stack ++ [length es]) b); Some (pop_group sc))).
    { cbn [add_scope_node]. unfold push_group, push_scope, level. cbn [s_mEntries mGroupStack mBookIndex].
      rewrite length_app. cbn [length]. replace (length es + 1 - 1)%nat with (length es) by lia. fold e0.
      f_equal. }
    destruct Hs as [Hnd Hf]. cbn [books_in] in *. change (foldr Z.add 0 (map books_in children)) with (books_of children) in *.
    rewrite E, add_forest; [|done| |done|done].
    + cbn [mbind option_bind]. unfold pop_group. cbn [s_mEntries mGroupStack mBookIndex].
      rewrite removelast_last, node_scopes_group. do 2 f_equal.
      assert (Hcov : cover (stack ++ [length es]) b (books_of children) (es ++ [e0])
        = cover stack b (books_of children) es ++ [cover_entry b (books_of children) e0]).
      { unfold cover. rewrite imap_app. cbn [imap]. rewrite Nat.add_0_r. f_equal.
        - apply imap_ext. intros j x Hj. apply lookup_lt_Some in Hj. apply decide_ext.
          rewrite elem_of_app, list_elem_of_singleton. intuition lia.
        - by rewrite decide_True by set_solver. }
      rewrite Hcov, <- app_assoc. cbn [app]. rewrite length_app. cbn [length].
      do 2 f_equal; [|f_equal; lia].
      unfold cover_entry, e0. cbn. by destruct (books_of children =? 0).
    + split; [|].
      * apply NoDup_app. split_and!; [done| |by apply NoDup_singleton].
        intros j Hj Hl%list_elem_of_singleton. rewrite Forall_forall in Hf. specialize (Hf _ Hj). lia.
      * apply Forall_app. rewrite length_app. cbn. split; [apply (Forall_impl _ _ _ Hf); intros; lia|].
        constructor; [lia|done].
Qed.

(** C35. The scopes offered for a search are the groups and books of the tree, outermost
    first, each with its depth, its title and the positions of the first and the last
    book in it; a group without books gets the positions -1. *)
Theorem search_scopes_spec l :
  books_of l <= book_count ->
  AddScopeEntries bl l new_scope = Some (Scope (forest_scopes title_at 0 0 l) [] (books_of l)).
Proof.
  intros H. unfold new_scope. rewrite add_forest.
  - done.
  - apply Forall_forall. intros n _. apply node_ok_all.
  - split; constructor.
  - done.
  - done.
Qed.
End scopes.

Example search_scopes_witness :
  let lst := BookList 0 [Book "" (Some "Guide") None new_file_list; Book "b/" (Some "Reports") None new_file_list] ∅ in
  AddScopeEntries lst
    [Group "Manuals" false None None [Directory "." true false None None; Directory "b" true false None None]] new_scope
  = Some (Scope [ScopeEntry 0 (Some "Manuals") 0 1; ScopeEntry 1 (Some "Guide") 0 0; ScopeEntry 1 (Some "Reports") 1 1] [] 2).
Proof. intros lst. rewrite (search_scopes_spec lst) by (vm_compute; congruence). vm_compute. reflexivity. Defined.

(** ** Groups and the list of books *)
Fixpoint dirs_in (n : node) : list string :=
  match n with
  | Directory d _ _ _ _ => [d]
  | Group _ _ _ _ children => concat (map dirs_in children)
  end.
Section add_ind.
Context (P : add -> Prop)
  (Hdir : forall d s e i o, P (AddDirectory d s e i o))
  (Hgroup : forall t e i o inside, Forall P inside -> P (AddGrouping t e i o inside)).
Fixpoint add_induction (a : add) : P a :=
  match a with
  | AddDirectory d s e i o => Hdir d s e i o
  | AddGrouping t e i o inside =>
      Hgroup t e i o inside
        ((fix all l : Forall P l :=
            match l with [] => Forall_nil_2 P | a :: l => Forall_cons_2 P a l (add_induction a) (all l) end) inside)
  end.
End add_ind.

Definition with_dirs (dirs : list string) (bl : book_list) : book_list :=
  BookList (mInitIndex bl) (mBookList bl ++ map new_book dirs) (mBookContextToIndex bl).
Lemma with_dirs_app d e bl : with_dirs (d ++ e) bl = with_dirs e (with_dirs d bl).
Proof. unfold with_dirs. cbn. by rewrite map_app, app_assoc. Qed.
Lemma with_dirs_nil bl : with_dirs [] bl = bl.
Proof. destruct bl. unfold with_dirs. cbn. by rewrite app_nil_r. Qed.

Lemma run_adds_group sb ea l : forall bl,
  (fix adds (l : list add) (bl : book_list) : list node * book_list :=
     match l with
     | [] => ([], bl)
     | a :: l => let '(n, bl) := run_add sb ea false a bl in let '(ns, bl) := adds l bl in (n :: ns, bl)
     end) l bl = run_adds sb ea false l bl.
Proof. induction l as [|a l IH]; intros bl; [done|]. cbn [run_adds]. destruct (run_add sb ea false a bl). by rewrite IH. Qed.

(** The books of the list are those of the tree, in the order of the tree: positions
    in the one are positions in the other. *)
Lemma run_add_dirs sb ea a : forall top bl,
  let '(n, bl') := run_add sb ea top a bl in bl' = with_dirs (dirs_in n) bl.
Proof.
  induction a as [d s e i o|t e i o inside IH] using add_induction; intros top bl; [done|].
  cbn [run_add]. rewrite run_adds_group.
  assert (H : let '(ns, bl') := run_adds sb ea false inside bl in bl' = with_dirs (concat (map dirs_in ns)) bl).
  { revert bl. induction IH as [|a l Ha _ IHl]; intros bl; cbn [run_adds]; [by rewrite with_dirs_nil|].
    specialize (Ha false bl). destruct (run_add sb ea false a bl) as [n bl1]. specialize (IHl bl1).
    destruct (run_adds sb ea false l bl1) as [ns bl2]. cbn [map concat]. by rewrite with_dirs_app, <- Ha. }
  by destruct (run_adds sb ea false inside bl) as [ns bl1].
Qed.
Lemma run_adds_dirs sb ea top l : forall bl,
  let '(ns, bl') := run_adds sb ea top l bl in bl' = with_dirs (concat (map dirs_in ns)) bl.
Proof.
  induction l as [|a l IH]; intros bl; cbn [run_adds]; [by rewrite with_dirs_nil|].
  pose proof (run_add_dirs sb ea a top bl) as Ha. destruct (run_add sb ea top a bl) as [n bl1]. specialize (IH bl1).
  destruct (run_adds sb ea top l bl1) as [ns bl2]. cbn [map concat]. by rewrite with_dirs_app, <- Ha.
Qed.
Lemma books_in_dirs n : books_in n = Z.of_nat (length (dirs_in n)).
Proof.
  induction n as [|t e i o children IH] using node_induction; [done|]. cbn [books_in dirs_in].
  induction IH as [|n l Hn _ IHl]; [done|]. cbn [map foldr concat]. rewrite Hn, IHl, length_app. lia.
Qed.
