(* ===== verification/HelpPages.v ===== *)
(** * Addresses of help pages, and the pages before and after a page
    What booklist.js does with addresses: an address leads back to its book and its
    position, and the neighbours of a page are those in the sequence of all pages. *)
From S2P Require Import Prelude JsString JsNum JsVal HelpString HelpBooks.
Open Scope Z_scope.

(** ** From an address to a page and back *)

Lemma append_inj a b c : a +++ c = b +++ c -> a = b.
Proof.
  revert b. induction a as [|x a IH]; intros [|y b] H; cbn in H; try done.
  - apply (f_equal String.length) in H. cbn in H. rewrite sapp_length in H. lia.
  - apply (f_equal String.length) in H. cbn in H. rewrite sapp_length in H. lia.
  - injection H as -> H. f_equal. auto.
Qed.

(** The hash finds every file of the list, if no two addresses are the same. *)
Definition hash_ok (fl : file_list) : Prop :=
  NoDup (map (fun f => unescape (f_mHREF f)) (mFileList fl)) /\
  forall k f, mFileList fl !! k = Some f -> HREFToIndex fl (f_mHREF f) = Z.of_nat k.

Lemma hash_ok_new : hash_ok new_file_list.
Proof. split; [constructor|]. intros k f. cbn. by rewrite lookup_nil. Qed.
Lemma hash_ok_add fl t h :
  hash_ok fl -> unescape h ∉ map (fun f => unescape (f_mHREF f)) (mFileList fl) -> hash_ok (AddFile t h fl).
Proof.
  intros [Hn Hk] Hh. split.
  - cbn. rewrite map_app. apply NoDup_app. split_and!; [done| |by apply NoDup_singleton].
    intros x Hx Hin. cbn in Hin. apply list_elem_of_singleton in Hin as ->. done.
  - intros k f Hf. cbn in Hf. unfold HREFToIndex. cbn [AddFile mFileHash].
    apply lookup_app_Some in Hf as [Hf|[Hk' Hf]].
    + rewrite lookup_insert_ne; [by apply Hk|]. intros E%append_inj. apply Hh.
      apply list_elem_of_fmap. exists f. split; [done|]. by eapply list_elem_of_lookup_2.
    + apply list_lookup_singleton_Some in Hf as [Hk0 <-]. cbn [f_mHREF]. rewrite lookup_insert_eq. cbn.
      unfold fEntries. lia.
Qed.
(** The files that a book's data add. *)
Lemma hash_ok_files files : NoDup (map (fun '(_, h) => unescape h) files) ->
  hash_ok (fold_left (fun fl '(t, h) => AddFile t h fl) files new_file_list) /\
  mFileList (fold_left (fun fl '(t, h) => AddFile t h fl) files new_file_list) = map (fun '(t, h) => File t h) files.
Proof.
  intros H.
  enough (E : forall fl, hash_ok fl -> (forall t h, (t, h) ∈ files -> unescape h ∉ map (fun f => unescape (f_mHREF f)) (mFileList fl)) ->
    hash_ok (fold_left (fun fl '(t, h) => AddFile t h fl) files fl) /\
    mFileList (fold_left (fun fl '(t, h) => AddFile t h fl) files fl) = mFileList fl ++ map (fun '(t, h) => File t h) files).
  { apply E; [apply hash_ok_new|]. intros t h _. cbn. set_solver. }
  induction files as [|[t h] files IH]; intros fl Hok Hnew; cbn [fold_left map].
  - by rewrite app_nil_r.
  - cbn [map] in H. inv H as [|? ? Hh Hd]. destruct (IH Hd (AddFile t h fl)) as [H1 H2].
    + apply hash_ok_add; [done|]. apply (Hnew t), list_elem_of_here.
    + intros t' h' Hin. cbn. rewrite map_app. cbn. intros [Hi|Hi]%elem_of_app.
      * by apply (Hnew t' h' (list_elem_of_further _ _ _ Hin)).
      * apply list_elem_of_singleton in Hi. apply Hh. rewrite <- Hi. apply list_elem_of_fmap. by exists (t', h').
    + split; [done|]. rewrite H2. cbn. by rewrite <- app_assoc.
Qed.

Section addresses.
Context (bl : book_list).
Abbreviation books := (mBookList bl).

Definition page_of (b : book) (f : file) : string := mDirectory b +++ f_mHREF f.
(** The pages of all books, in order. *)
Definition book_pages (b : book) : list string := map (page_of b) (mFileList (mFiles b)).
Definition all_pages : list string := concat (map book_pages books).

(** Each book's hash is in order, addresses have no anchors, and of the directories that
    a page's address starts with the one of its book is the longest. *)
Record well_filed : Prop := {
  wf_hash b : b ∈ books -> hash_ok (mFiles b);
  wf_anchor h : h ∈ all_pages -> sall (not_char "#") h = true;
  wf_owner i b f j c : books !! i = Some b -> f ∈ mFileList (mFiles b) -> books !! j = Some c -> j <> i ->
    prefixb (mDirectory c) (page_of b f) = true -> slen (mDirectory c) < slen (mDirectory b)
}.

Lemma indexOf_prefix p s : (indexOf s p =? 0) = prefixb p s.
Proof.
  unfold indexOf. destruct s as [|c s]; cbn [index_of]; destruct (prefixb p _) eqn:E; try done.
  destruct (index_of p s) as [n|]; cbn; [|done]. apply Z.eqb_neq. lia.
Qed.

(** The directories of [l] in front of [h] are shorter than [d]. *)
Definition shorter_dirs (l : list book) (h d : string) : Prop :=
  Forall (fun c => prefixb (mDirectory c) h = true -> slen (mDirectory c) < slen d) l.

(** The loop keeps the first of the longest directories. *)
Lemma longest_dir_below l h d : shorter_dirs l h d -> forall i best,
  best = None \/ (exists j e, best = Some (j, e) /\ slen e < slen d) ->
  longest_dir l h i best = None \/ (exists j e, longest_dir l h i best = Some (j, e) /\ slen e < slen d).
Proof.
  induction 1 as [|c l Hc _ IH]; intros i best Hb; cbn [longest_dir]; [done|].
  apply IH. rewrite indexOf_prefix. case_if; [|done]. specialize (Hc eq_refl).
  destruct Hb as [->|(j & e & -> & He)]; [right; eauto|]. case_if; right; eauto.
Qed.
Lemma longest_dir_keeps l h d j : shorter_dirs l h d -> forall i,
  longest_dir l h i (Some (j, d)) = Some (j, d).
Proof.
  induction 1 as [|c l Hc _ IH]; intros i; cbn [longest_dir]; [done|].
  rewrite indexOf_prefix. destruct (prefixb (mDirectory c) h); [|apply IH]. specialize (Hc eq_refl).
  case_if; bool_to_prop; [lia|]. apply IH.
Qed.
Lemma longest_dir_app l k h : forall i best,
  longest_dir (l ++ k) h i best = longest_dir k h (i + Z.of_nat (length l)) (longest_dir l h i best).
Proof.
  induction l as [|c l IH]; intros i best; cbn [app length longest_dir]; [by rewrite Z.add_0_r|].
  rewrite IH. f_equal. lia.
Qed.
Lemma longest_dir_found pre b post h :
  prefixb (mDirectory b) h = true -> shorter_dirs pre h (mDirectory b) -> shorter_dirs post h (mDirectory b) ->
  longest_dir (pre ++ b :: post) h 0 None = Some (Z.of_nat (length pre), mDirectory b).
Proof.
  intros Hb Hpre Hpost. rewrite longest_dir_app. cbn [longest_dir]. rewrite indexOf_prefix, Hb.
  destruct (longest_dir_below _ _ _ Hpre 0 None (or_introl eq_refl)) as [->|(j & e & -> & He)].
  - by apply longest_dir_keeps.
  - case_if; bool_to_prop; [|lia]. by apply longest_dir_keeps.
Qed.

Hypothesis Hwf : well_filed.

Lemma page_in pre b post f : books = pre ++ b :: post -> f ∈ mFileList (mFiles b) -> page_of b f ∈ all_pages.
Proof using.
  intros E Hf. unfold all_pages. rewrite E, map_app, concat_app. cbn [map concat].
  apply elem_of_app. right. apply elem_of_app. left. by apply list_elem_of_fmap_2.
Qed.

Lemma page_owner pre b post f : books = pre ++ b :: post -> f ∈ mFileList (mFiles b) ->
  longest_dir books (page_of b f) 0 None = Some (Z.of_nat (length pre), mDirectory b).
Proof.
  intros E Hf. rewrite E. apply longest_dir_found; [apply prefixb_app| |]; apply Forall_lookup; intros j c Hc Hp.
  - apply (wf_owner Hwf (length pre) b f j c); [by rewrite E, list_lookup_middle|done| | |done].
    + rewrite E. by apply lookup_app_l_Some.
    + apply lookup_lt_Some in Hc. lia.
  - apply (wf_owner Hwf (length pre) b f (length pre + S j) c); [by rewrite E, list_lookup_middle|done| |lia|done].
    rewrite E. by rewrite lookup_app_r, Nat.add_comm, Nat.add_sub by lia.
Qed.

(** The address of a page leads back to its book and its position. *)
Lemma address_roundtrip pre b post k f :
  books = pre ++ b :: post -> mFileList (mFiles b) !! k = Some f ->
  HREFToBookIndexFileIndexAnchor bl (page_of b f) = Some (Z.of_nat (length pre), Z.of_nat k, "").
Proof.
  intros E Hf. assert (Hin : f ∈ mFileList (mFiles b)) by by eapply list_elem_of_lookup_2.
  assert (Hb : b ∈ books) by (rewrite E; set_solver).
  unfold HREFToBookIndexFileIndexAnchor.
  rewrite js_split_char_none by (apply (wf_anchor Hwf); by eapply page_in). cbn [head tail from_option id].
  unfold GetBookIndexFileHREF. rewrite (page_owner pre b post f) by done.
  assert (Es : (if 0 <? slen (mDirectory b) then substring2 (page_of b f) (slen (mDirectory b)) (slen (page_of b f)) else page_of b f) = f_mHREF f).
  { unfold page_of. case_if; bool_to_prop; [by rewrite substring2_suffix|].
    destruct (mDirectory b); [done|]. unfold slen in *. cbn in *. lia. }
  rewrite Es. case_if; bool_to_prop; [|lia].
  unfold BookHREFToFileIndex, GetBook, at_index. case_if; bool_to_prop; [lia|].
  rewrite Nat2Z.id, E, list_lookup_middle by done. cbn [mbind option_bind].
  rewrite (proj2 (wf_hash Hwf b Hb) k f Hf). case_if; bool_to_prop; [done|lia].
Qed.

(** ** The pages before and after *)
Lemma file_at pre b post k :
  books = pre ++ b :: post -> (k < length (mFileList (mFiles b)))%nat ->
  BookFileIndiciesToHREF bl (Z.of_nat (length pre)) (Z.of_nat k) = book_pages b !! k.
Proof using.
  intros E Hk. unfold BookFileIndiciesToHREF, GetBook, at_index. case_if; bool_to_prop; [lia|].
  rewrite Nat2Z.id, E, list_lookup_middle by done. cbn [mbind option_bind].
  unfold FileIndexToHREF, at_index. case_if; bool_to_prop; [lia|]. rewrite Nat2Z.id.
  destruct (lookup_lt_is_Some_2 (mFileList (mFiles b)) k Hk) as [f Hf]. unfold book_pages. rewrite list_lookup_fmap, Hf. done.
Qed.
Lemma book_at pre b post : books = pre ++ b :: post -> GetBook bl (Z.of_nat (length pre)) = Some b.
Proof using.
  intros E. unfold GetBook, at_index. case_if; bool_to_prop; [lia|].
  by rewrite Nat2Z.id, E, list_lookup_middle.
Qed.
Lemma length_pages b : length (book_pages b) = length (mFileList (mFiles b)).
Proof using. unfold book_pages. by rewrite length_map. Qed.

Hypothesis Hfull : Forall (fun b => mFileList (mFiles b) <> []) books.

Lemma pages_full b : b ∈ books -> (0 < length (mFileList (mFiles b)))%nat.
Proof using Hfull.
  rewrite Forall_forall in Hfull. intros Hb%Hfull. destruct (mFileList (mFiles b)); [done|cbn; lia].
Qed.

(** Position [p] of all pages is position [k] of one book. *)
Lemma page_position p h : all_pages !! p = Some h ->
  exists pre b post k f, books = pre ++ b :: post /\ mFileList (mFiles b) !! k = Some f /\ h = page_of b f /\
    p = (length (concat (map book_pages pre)) + k)%nat.
Proof using.
  unfold all_pages. generalize books as l. intros l. revert p. induction l as [|b l IH]; intros p H; [done|].
  cbn [map concat] in H. apply lookup_app_Some in H as [H|[Hl H]].
  - apply list_lookup_fmap_Some in H as (f & -> & Hf). by exists [], b, l, p, f.
  - apply IH in H as (pre & c & post & k & f & -> & Hf & -> & Hp). exists (b :: pre), c, post, k, f.
    split_and!; [done|done|done|]. cbn [map concat]. rewrite length_app. lia.
Qed.

Lemma pages_split pre b post : books = pre ++ b :: post ->
  all_pages = concat (map book_pages pre) ++ book_pages b ++ concat (map book_pages post).
Proof using. intros E. unfold all_pages. by rewrite E, map_app, concat_app. Qed.

Lemma next_page pre b post k : books = pre ++ b :: post -> (k < length (mFileList (mFiles b)))%nat ->
  (if Z.of_nat k + 1 <? file_count b then Some <$> BookFileIndiciesToHREF bl (Z.of_nat (length pre)) (Z.of_nat k + 1)
   else if Z.of_nat (length pre) + 1 <? Z.of_nat (length books) then
     c ← GetBook bl (Z.of_nat (length pre) + 1);
     if 0 <? file_count c then Some <$> BookFileIndiciesToHREF bl (Z.of_nat (length pre) + 1) 0 else Some None
   else Some None)
  = Some (all_pages !! (length (concat (map book_pages pre)) + S k)%nat).
Proof using Hfull.
  intros E Hk. rewrite (pages_split pre b post E), lookup_app_r, Nat.add_comm, Nat.add_sub by lia.
  unfold file_count, fEntries. case_if; bool_to_prop.
  - replace (Z.of_nat k + 1) with (Z.of_nat (S k)) by lia. rewrite (file_at pre b post (S k)) by (done || lia).
    rewrite lookup_app_l by (rewrite length_pages; lia).
    destruct (lookup_lt_is_Some_2 (book_pages b) (S k)) as [x ->]; [rewrite length_pages; lia|done].
  - rewrite lookup_app_r by (rewrite length_pages; lia).
    replace (S k - length (book_pages b))%nat with O by (rewrite length_pages; lia).
    case_if; bool_to_prop; rewrite E, length_app in E1; cbn [length] in E1.
    + destruct post as [|c post]; [cbn in E1; lia|].
      assert (E' : books = (pre ++ [b]) ++ c :: post) by (by rewrite <- app_assoc).
      replace (Z.of_nat (length pre) + 1) with (Z.of_nat (length (pre ++ [b]))) by (rewrite length_app; cbn; lia).
      rewrite (book_at _ c post E'). cbn [mbind option_bind].
      assert (Hc : (0 < length (mFileList (mFiles c)))%nat) by (apply pages_full; rewrite E'; apply elem_of_app; right; apply list_elem_of_here).
      case_if; bool_to_prop; [|lia]. change 0 with (Z.of_nat 0). rewrite (file_at _ c post 0 E' Hc).
      cbn [map concat]. rewrite lookup_app_l by (rewrite length_pages; lia).
      destruct (lookup_lt_is_Some_2 (book_pages c) 0) as [x ->]; [rewrite length_pages; lia|done].
    + destruct post as [|c post]; [done|cbn in E1; lia].
Qed.

Lemma prev_page pre b post k : books = pre ++ b :: post -> (k < length (mFileList (mFiles b)))%nat ->
  (if 0 <? Z.of_nat k then Some <$> BookFileIndiciesToHREF bl (Z.of_nat (length pre)) (Z.of_nat k - 1)
   else if 0 <? Z.of_nat (length pre) then
     c ← GetBook bl (Z.of_nat (length pre) - 1);
     Some <$> BookFileIndiciesToHREF bl (Z.of_nat (length pre) - 1) (file_count c - 1)
   else Some None)
  = Some (match (length (concat (map book_pages pre)) + k)%nat with O => None | S p => all_pages !! p end).
Proof using Hfull.
  intros E Hk. rewrite (pages_split pre b post E). case_if; bool_to_prop.
  - destruct k as [|k]; [lia|]. rewrite Nat.add_succ_r.
    replace (Z.of_nat (S k) - 1) with (Z.of_nat k) by lia. rewrite (file_at pre b post k) by (done || lia).
    rewrite lookup_app_r, Nat.add_comm, Nat.add_sub, lookup_app_l by (rewrite ?length_pages; lia).
    destruct (lookup_lt_is_Some_2 (book_pages b) k) as [x ->]; [rewrite length_pages; lia|done].
  - destruct k as [|k]; [|lia]. rewrite Nat.add_0_r.
    destruct pre as [|c pre' _] using rev_ind; [done|]. case_if; bool_to_prop; rewrite length_app in E1; cbn [length] in E1; [|lia].
    assert (E' : books = pre' ++ c :: b :: post) by (by rewrite E, <- app_assoc).
    rewrite length_app. cbn [length]. replace (Z.of_nat (length pre' + 1) - 1) with (Z.of_nat (length pre')) by lia.
    rewrite (book_at pre' c _ E'). cbn [mbind option_bind].
    assert (Hc : (0 < length (mFileList (mFiles c)))%nat).
    { apply pages_full. rewrite E'. apply elem_of_app. right. apply list_elem_of_here. }
    unfold file_count, fEntries. destruct (length (mFileList (mFiles c))) as [|n] eqn:En; [lia|].
    replace (Z.of_nat (S n) - 1) with (Z.of_nat n) by lia. rewrite (file_at pre' c _ n E') by lia.
    rewrite map_app, concat_app. cbn [map concat]. rewrite app_nil_r, length_app, length_pages, En.
    rewrite Nat.add_succ_r. rewrite lookup_app_l by (rewrite length_app, length_pages, En; lia).
    rewrite lookup_app_r, Nat.add_comm, Nat.add_sub by lia.
    destruct (lookup_lt_is_Some_2 (book_pages c) n) as [x ->]; [rewrite length_pages; lia|done].
Qed.

(** C24. The page before and the page after a page are its neighbours in the sequence of
    all pages of all books; the first has none before it and the last none after. *)
Theorem sync_prev_next p h :
  all_pages !! p = Some h ->
  GetSyncPrevNext bl h =
    Some (Some h, match p with O => None | S p => all_pages !! p end, all_pages !! S p).
Proof using Hfull Hwf.
  intros H. destruct (page_position p h H) as (pre & b & post & k & f & E & Hf & -> & ->).
  unfold GetSyncPrevNext. rewrite (address_roundtrip pre b post k f E Hf). cbn [mbind option_bind].
  apply lookup_lt_Some in Hf.
  replace ((0 <=? Z.of_nat (length pre)) && (0 <=? Z.of_nat k)) with true by (symmetry; apply andb_true_intro; split; apply Z.leb_le; lia).
  rewrite (prev_page pre b post k E Hf). cbn [mbind option_bind].
  rewrite (book_at pre b post E). cbn [mbind option_bind].
  rewrite (next_page pre b post k E Hf). cbn [mbind option_bind]. by rewrite Nat.add_succ_r.
Qed.
End addresses.

(** Two books, one in the top directory. *)
Definition guide : list (string * string) := [("Home", "home.html"); ("Reports", "reports.html")].
Definition manual : list (string * string) := [("Search", "search.html")].
Definition two_books : book_list :=
  BookList 2 [book_init "Guide" "guide" guide (new_book "."); book_init "Manual" "manual" manual (new_book "m")] ∅.
Lemma two_books_filed : well_filed two_books.
Proof.
  split.
  - intros b Hb. cbn in Hb. rewrite !elem_of_cons in Hb.
    destruct Hb as [->|[->|Hb]]; [| |by apply elem_of_nil in Hb].
    + apply (hash_ok_files guide). apply (bool_decide_unpack _). vm_compute. done.
    + apply (hash_ok_files manual). apply (bool_decide_unpack _). vm_compute. done.
  - intros h. unfold all_pages. cbn. rewrite !elem_of_cons. intros [->|[->|[->|Hh]]]; try done. by apply elem_of_nil in Hh.
  - intros i b f j c Hi Hf Hj Hne. cbn in Hi, Hj.
    destruct i as [|[|[|i]]]; destruct j as [|[|[|j]]]; try done; simplify_eq/=; cbn in Hf; rewrite !elem_of_cons in Hf;
      destruct_or!; subst; try (by apply elem_of_nil in Hf); try done.
Qed.
Example sync_prev_next_witness :
  GetSyncPrevNext two_books "reports.html" = Some (Some "reports.html", Some "home.html", Some "m/search.html").
Proof.
  rewrite (sync_prev_next two_books two_books_filed ltac:(by repeat constructor) 1 "reports.html") by done. done.
Defined.

(** A book without files: the page after it looks for the last file of that book. *)
Example empty_book_throws :
  GetSyncPrevNext (BookList 2 [book_init "Empty" "empty" [] (new_book "e"); book_init "Manual" "manual" manual (new_book "m")] ∅)
    "m/search.html" = None.
Proof. vm_compute. reflexivity. Qed.
