(* ===== verification/HelpPhrase.v ===== *)
(** * Phrases of a search (pairs.js, phrase.js and mltphrs.js of wwhelp/wwhimpl/js/scripts)
    For every page the help has the list of its pairs of neighbouring words; a phrase
    is found in a page when each pair of neighbouring words of the phrase is in that
    list.  What a book says about its search data is here too
    ([WWHBookSearchInfo_Object] of search.js). *)
From S2P Require Import Prelude JsString HelpString.
Open Scope Z_scope.
#[local] Set Warnings "-clear-no-such-hyp".

(** ** Search data of a book *)
Record info := Info { mSearchFileCount : Z; mMinimumWordLength : Z; mSkipWords : gset string }.
Definition new_info (count min : Z) : info := Info count min ∅.
Definition AddSkipWord (w : string) (bi : info) : info :=
  if 0 <? slen w then Info (mSearchFileCount bi) (mMinimumWordLength bi) ({[ w +++ "~" ]} ∪ mSkipWords bi) else bi.
Definition ValidSearchWord (bi : info) (w : string) : bool :=
  negb ((slen w <? mMinimumWordLength bi) || bool_decide (w +++ "~" ∈ mSkipWords bi)).

(** ** pairs.js: from a word to its next words to the number of times they were seen *)
Abbreviation pairs := (gmap string (gmap string Z)).

(** The rounds of [Pairs_CreateHash] after the first; [last] is [lastWord]. *)
Fixpoint pairs_loop (words : list string) (last : string) (h : pairs) : pairs :=
  match words with
  | [] => h
  | w :: words =>
      let current := "~" +++ w in
      let h := match h !! last with
               | Some inner =>
                   match inner !! current with
                   | Some _ => h
                   | None => <[last := <[current := 0]> inner]> h
                   end
               | None => <[last := {[ current := 0 ]}]> h
               end in
      pairs_loop words current h
  end.
Definition CreateHash (words : list string) : pairs :=
  match words with [] => ∅ | w :: words => pairs_loop words ("~" +++ w) ∅ end.
Definition ResetPairs (h : pairs) : pairs := fmap (M := gmap string) (fmap (M := gmap string) (fun _ => 0)) h.
Definition TestPair (a b : string) (h : pairs) : pairs :=
  match h !! ("~" +++ a) with
  | Some inner =>
      match inner !! ("~" +++ b) with
      | Some n => <["~" +++ a := <["~" +++ b := n + 1]> inner]> h
      | None => h
      end
  | None => h
  end.
(** The loops stop at the first value that is not positive. *)
Definition PairsMatch (h : pairs) : bool :=
  forallb (fun '(_, inner) => forallb (fun '(_, n) => negb (n <=? 0)) (map_to_list (inner : gmap string Z))) (map_to_list h).

(** ** phrase.js *)
Record phrase := Phrase_ { mPhrase : string; mWords : list string; mPairs : option pairs }.
Definition non_empty (s : string) : bool := 0 <? slen s.
(** [new Phrase_Object(text)] and [fParse]. *)
Definition parsed_phrase (text : string) : phrase :=
  let words := List.filter non_empty (js_split text " ") in
  Phrase_ text words (match words with [] => None | _ => Some (CreateHash words) end).
Definition IsValidPhrase (p : phrase) : bool := match mPairs p with Some _ => true | None => false end.
Definition with_pairs (f : pairs -> pairs) (p : phrase) : option phrase :=
  h ← mPairs p; Some (Phrase_ (mPhrase p) (mWords p) (Some (f h))).
Definition TestPhrase (a b : string) : phrase -> option phrase := with_pairs (TestPair a b).
Definition ResetPhrase : phrase -> option phrase := with_pairs ResetPairs.
Definition PhraseIsMatch (p : phrase) : option bool := PairsMatch <$> mPairs p.

(** ** mltphrs.js *)
Record multi := Multi { mp_mWords : list string; mPhrases : list string; mPhraseObjects : list phrase }.

(** One round of the loop of [MultiPhrase_Parse]. *)
Definition multi_entry (bi : info) (m : multi) (entry : string) : multi :=
  match ParseWordsAndPhrases entry with
  | [] => m
  | [w] => if ValidSearchWord bi w then Multi (mp_mWords m ++ [w]) (mPhrases m) (mPhraseObjects m) else m
  | words =>
      let text := join "" (map (fun w => w +++ " ") (List.filter (ValidSearchWord bi) words)) in
      Multi (mp_mWords m) (mPhrases m ++ [entry])
        (if 0 <? slen text then mPhraseObjects m ++ [parsed_phrase (substring2 text 0 (slen text - 1))]
         else mPhraseObjects m)
  end.
(** [new MultiPhrase_Object(text, info)] and [fParse]. *)
Definition parsed_multi (text : string) (bi : info) : multi :=
  fold_left (multi_entry bi) (ParseWordsAndPhrases text) (Multi [] [] []).

Definition PhraseCount (m : multi) : Z := Z.of_nat (length (mPhraseObjects m)).
Definition with_phrases (f : phrase -> option phrase) (m : multi) : option multi :=
  l ← mapM f (mPhraseObjects m); Some (Multi (mp_mWords m) (mPhrases m) l).
Definition MultiTest (a b : string) : multi -> option multi := with_phrases (TestPhrase a b).
Definition ResetMatches : multi -> option multi := with_phrases ResetPhrase.
Definition GetMatchingPhrases (m : multi) : option (list phrase) :=
  l ← mapM (fun p => (fun b : bool => (p, b)) <$> PhraseIsMatch p) (mPhraseObjects m);
  Some (map fst (List.filter snd l)).
Definition CheckForMatch (m : multi) : option bool :=
  l ← GetMatchingPhrases m;
  Some ((0 <? PhraseCount m) && (0 <? Z.of_nat (length l)) && (Z.of_nat (length l) =? PhraseCount m)).

(** ** What the hash of a phrase counts *)
Definition count (h : pairs) (x y : string) : option Z := h !! x ≫= lookup y.

(** Neighbours in a list of words. *)
Definition adjacent {A} (a b : A) (l : list A) : Prop := exists u v, l = u ++ a :: b :: v.
Definition in_hash (words : list string) (x y : string) : Prop :=
  exists a b, adjacent a b words /\ x = "~" +++ a /\ y = "~" +++ b.

Lemma adjacent_nil {A} (a b : A) : ~ adjacent a b [].
Proof. intros (u & v & H). by destruct u. Qed.
Lemma adjacent_cons {A} (a b c : A) l : adjacent a b (c :: l) <-> (c = a /\ head l = Some b) \/ adjacent a b l.
Proof.
  split.
  - intros (u & v & H). destruct u as [|d u]; cbn in H; injection H as -> ->; [by left|]. right. by exists u, v.
  - intros [[-> H]|(u & v & ->)]; [|by exists (c :: u), v]. destruct l as [|d l]; [done|]. injection H as ->. by exists [], l.
Qed.
Lemma in_hash_cons w words x y :
  in_hash (w :: words) x y <-> (x = "~" +++ w /\ Some y = (String.append "~" <$> head words)) \/ in_hash words x y.
Proof.
  unfold in_hash. split.
  - intros (a & b & H & -> & ->). apply adjacent_cons in H as [[-> Hb]|H]; [left; by rewrite Hb|right; eauto].
  - intros [[-> Hy]|(a & b & H & -> & ->)].
    + destruct words as [|b words]; [done|]. injection Hy as ->. exists w, b.
      split_and!; [apply adjacent_cons; by left|done|done].
    + exists a, b. split_and!; [apply adjacent_cons; by right|done|done].
Qed.

Lemma count_insert h x y n x' y' :
  count (<[x := <[y := n]> (default ∅ (h !! x))]> h) x' y'
  = if decide (x = x' /\ y = y') then Some n else count h x' y'.
Proof.
  unfold count. destruct (decide (x = x')) as [<-|Hx].
  - rewrite lookup_insert_eq. cbn. destruct (decide (y = y')) as [<-|Hy].
    + rewrite lookup_insert_eq. by rewrite decide_True.
    + rewrite lookup_insert_ne by done. rewrite decide_False by tauto. destruct (h !! x); [done|]. cbn. apply lookup_empty.
  - rewrite lookup_insert_ne by done. by rewrite decide_False by tauto.
Qed.

(** A round of the loop adds a pair with count 0 unless it is there. *)
Lemma pairs_round h last current :
  match h !! last with
  | Some inner => match inner !! current with Some _ => h | None => <[last := <[current := 0]> inner]> h end
  | None => <[last := {[ current := 0 ]}]> h
  end = match count h last current with
        | Some _ => h
        | None => <[last := <[current := 0]> (default ∅ (h !! last))]> h
        end.
Proof.
  unfold count. destruct (h !! last) as [inner|]; cbn; [by destruct (inner !! current)|]. done.
Qed.
Lemma pairs_loop_count words : forall w h x y,
  (forall x y n, count h x y = Some n -> n = 0) ->
  (forall n, count (pairs_loop words ("~" +++ w) h) x y = Some n -> n = 0) /\
  (is_Some (count (pairs_loop words ("~" +++ w) h) x y) <-> is_Some (count h x y) \/ in_hash (w :: words) x y).
Proof.
  induction words as [|v words IH]; intros w h x y H0; cbn [pairs_loop].
  - split; [apply H0|]. rewrite in_hash_cons. cbn. split; [by left|]. intros [H|[[_ H]|(a & b & H & _)]]; [done|done|].
    by apply adjacent_nil in H.
  - rewrite pairs_round. destruct (count h ("~" +++ w) ("~" +++ v)) as [n|] eqn:E.
    + destruct (IH v h x y H0) as [H1 H2]. split; [done|]. rewrite H2, (in_hash_cons w). cbn [head fmap option_fmap option_map].
      split; [tauto|]. intros [H|[[-> Hy]|H]]; [by left| |by right]. assert (y = "~" +++ v) as -> by congruence. left. rewrite E. eauto.
    + destruct (IH v (<["~" +++ w := <["~" +++ v := 0]> (default ∅ (h !! ("~" +++ w)))]> h) x y) as [H1 H2].
      { intros x' y' n. rewrite count_insert. case_decide; [congruence|apply H0]. }
      split; [done|]. rewrite H2, (in_hash_cons w), count_insert. cbn [head fmap option_fmap option_map].
      case_decide as Hd; [destruct Hd as [<- <-]|]; [split; intros _; [by right; left|left; eauto]|].
      split; [tauto|]. intros [H|[[-> Hy]|H]]; [tauto| |tauto].
      destruct Hd. split; congruence.
Qed.
Lemma CreateHash_count words x y : is_Some (count (CreateHash words) x y) <-> in_hash words x y.
Proof.
  destruct words as [|w words]; cbn.
  - unfold count. rewrite lookup_empty. split; [by intros [? ?]|]. intros (a & b & H & _). by apply adjacent_nil in H.
  - destruct (pairs_loop_count words w ∅ x y) as [_ H]; [intros ???; unfold count; by rewrite lookup_empty|].
    rewrite H. split; [|by right]. intros [[n Hn]|H']; [|done]. unfold count in Hn. by rewrite lookup_empty in Hn.
Qed.

Lemma count_reset h x y : count (ResetPairs h) x y = (fun _ => 0) <$> count h x y.
Proof.
  unfold count, ResetPairs. rewrite lookup_fmap. destruct (h !! x); cbn; [|done]. apply lookup_fmap.
Qed.
Lemma count_test a b h x y :
  count (TestPair a b h) x y
  = if decide (x = "~" +++ a /\ y = "~" +++ b) then (fun n => n + 1) <$> count h x y else count h x y.
Proof.
  assert (E : TestPair a b h = match count h ("~" +++ a) ("~" +++ b) with
    | Some n => <["~" +++ a := <["~" +++ b := n + 1]> (default ∅ (h !! ("~" +++ a)))]> h | None => h end).
  { unfold TestPair, count. destruct (h !! ("~" +++ a)) as [inner|]; cbn; [by destruct (inner !! _)|done]. }
  rewrite E. destruct (count h ("~" +++ a) ("~" +++ b)) as [n|] eqn:En.
  - rewrite count_insert. case_decide as H1; case_decide as H2; try (exfalso; naive_solver); [|done].
    destruct H1 as [<- <-]. by rewrite En.
  - case_decide as H; [|done]. destruct H as [-> ->]. by rewrite En.
Qed.

Definition tests (T : list (string * string)) (h : pairs) : pairs := fold_left (fun h '(a, b) => TestPair a b h) T h.
(** How often a pair is in the list of a page. *)
Definition occurrences (T : list (string * string)) (x y : string) : Z :=
  Z.of_nat (length (List.filter (fun '(a, b) => String.eqb ("~" +++ a) x && String.eqb ("~" +++ b) y) T)).
Lemma count_tests T : forall h x y, count (tests T h) x y = Z.add (occurrences T x y) <$> count h x y.
Proof.
  induction T as [|[a b] T IH]; intros h x y; unfold tests, occurrences; cbn [fold_left List.filter].
  - by destruct (count h x y).
  - change (fold_left _ T (TestPair a b h)) with (tests T (TestPair a b h)). rewrite IH, count_test.
    destruct (String.eqb_spec ("~" +++ a) x) as [<-|]; destruct (String.eqb_spec ("~" +++ b) y) as [<-|]; cbn [andb];
      case_decide as H; try (exfalso; naive_solver); destruct (count h _ _); cbn [fmap option_fmap option_map]; try done.
    f_equal. unfold occurrences. cbn [length]. lia.
Qed.

Lemma PairsMatch_iff h : PairsMatch h = true <-> forall x y n, count h x y = Some n -> 0 < n.
Proof.
  unfold PairsMatch. rewrite forallb_forall. split.
  - intros H x y n Hn. unfold count in Hn. destruct (h !! x) as [inner|] eqn:E; [|done]. cbn in Hn.
    specialize (H (x, inner)). cbn in H. rewrite forallb_forall in H.
    assert (Hl : negb (n <=? 0) = true); [|by apply negb_true_iff, Z.leb_gt in Hl].
    apply (H ltac:(apply list_elem_of_In, elem_of_map_to_list; done) (y, n)). by apply list_elem_of_In, elem_of_map_to_list.
  - intros H [x inner] Hx. apply list_elem_of_In, elem_of_map_to_list in Hx. apply forallb_forall. intros [y n] Hn.
    apply list_elem_of_In, elem_of_map_to_list in Hn. assert (0 < n); [|apply negb_true_iff, Z.leb_gt; lia].
    apply (H x y). unfold count. rewrite Hx. done.
Qed.

(** ** Finding phrases in a page *)

(** A phrase as [fParse] leaves it and the tests change it: its hash has the
    neighbours of its words. *)
Definition phrase_ok (p : phrase) : Prop :=
  exists h, mPairs p = Some h /\ forall x y, is_Some (count h x y) <-> in_hash (mWords p) x y.

Lemma parsed_phrase_ok text : IsValidPhrase (parsed_phrase text) = true -> phrase_ok (parsed_phrase text).
Proof.
  unfold IsValidPhrase, phrase_ok, parsed_phrase. cbn [mPairs mWords].
  destruct (List.filter non_empty (js_split text " ")) as [|w words]; [done|]. intros _.
  eexists. split; [done|]. apply CreateHash_count.
Qed.

(** What a page's list of pairs makes of a phrase. *)
Definition page_tests (T : list (string * string)) (h : pairs) : pairs := tests T (ResetPairs h).
Lemma page_tests_match T p h :
  mPairs p = Some h -> phrase_ok p ->
  PairsMatch (page_tests T h) = true <-> forall a b, adjacent a b (mWords p) -> (a, b) ∈ T.
Proof.
  intros Hp (h' & Hp' & Hh). rewrite Hp in Hp'. injection Hp' as <-.
  rewrite PairsMatch_iff. unfold page_tests. split.
  - intros H a b Hab.
    destruct (proj2 (Hh ("~" +++ a) ("~" +++ b))) as [n Hn]; [by exists a, b|].
    specialize (H ("~" +++ a) ("~" +++ b) (occurrences T ("~" +++ a) ("~" +++ b) + 0)).
    rewrite count_tests, count_reset, Hn in H. specialize (H eq_refl). unfold occurrences in H.
    destruct (List.filter _ T) as [|[c d] l] eqn:E; [cbn in H; lia|].
    assert (Hin : In (c, d) ((c, d) :: l)) by (by left). rewrite <- E in Hin. apply filter_In in Hin as [Hin Hcd].
    bool_to_prop. cbn in *. simplify_eq. by apply list_elem_of_In.
  - intros H x y n Hn. rewrite count_tests, count_reset in Hn.
    destruct (count h x y) as [m|] eqn:Em; [|done]. injection Hn as <-.
    destruct (proj1 (Hh x y) (ltac:(eauto))) as (a & b & Hab & -> & ->).
    apply H, list_elem_of_In in Hab. unfold occurrences.
    assert (Hin : In (a, b) (List.filter (fun '(c, d) => String.eqb ("~" +++ c) ("~" +++ a) && String.eqb ("~" +++ d) ("~" +++ b)) T)).
    { apply filter_In. split; [done|]. by rewrite !String.eqb_refl. }
    destruct (List.filter _ T); [done|]. cbn. lia.
Qed.

(** The tests of a page on all phrases: [f.call(x)] of a page's file is a list of calls
    [x.t(a, b)]. *)
Definition run_pairs (T : list (string * string)) (m : multi) : option multi :=
  fold_left (fun m '(a, b) => m ≫= MultiTest a b) T (Some m).
Definition phrases_ok (m : multi) : Prop := Forall phrase_ok (mPhraseObjects m).
Definition phrase_found (T : list (string * string)) (p : phrase) : Prop :=
  forall a b, adjacent a b (mWords p) -> (a, b) ∈ T.
#[global] Instance phrase_found_dec T p : Decision (phrase_found T p).
Proof.
  unfold phrase_found. generalize (mWords p). intros l.
  cut (Decision (Forall (fun '(a, b) => (a, b) ∈ T) (zip l (tail l)))).
  { intros [H|H]; [left|right].
    - intros a b (u & v & ->). rewrite Forall_lookup in H.
      apply (H (length u) (a, b)). apply lookup_zip_with_Some. exists a, b. split_and!; [done|by rewrite list_lookup_middle|].
      rewrite lookup_tail, lookup_app_r by lia. by replace (S (length u) - length u)%nat with 1%nat by lia.
    - intros H'. apply H. clear H. apply Forall_lookup. intros i [a b] Hi.
      apply lookup_zip_with_Some in Hi as (a' & b' & [= <- <-] & Ha & Hb). apply H'.
      rewrite <- (take_drop_middle l i a Ha). rewrite lookup_tail in Hb. exists (take i l), (drop (S (S i)) l).
      do 2 f_equal. by apply drop_S. }
  apply Forall_dec. intros [a b]. apply _.
Defined.

Lemma with_phrases_ok (f : phrase -> option phrase) (g : pairs -> pairs) m :
  (forall p, f p = with_pairs g p) -> phrases_ok m ->
  (forall h x y, is_Some (count (g h) x y) <-> is_Some (count h x y)) ->
  exists m', with_phrases f m = Some m' /\ phrases_ok m' /\
    Forall2 (fun p q => mWords q = mWords p /\ forall h, mPairs p = Some h -> mPairs q = Some (g h))
      (mPhraseObjects m) (mPhraseObjects m').
Proof.
  intros Hf Hok Hg. unfold with_phrases, phrases_ok in *.
  assert (H : exists l, mapM f (mPhraseObjects m) = Some l /\ Forall phrase_ok l /\
    Forall2 (fun p q => mWords q = mWords p /\ forall h, mPairs p = Some h -> mPairs q = Some (g h)) (mPhraseObjects m) l).
  { induction Hok as [|p l (h & Hp & Hh) _ IH]; [by exists []|].
    destruct IH as (l' & Hl & Hok' & H2). exists (Phrase_ (mPhrase p) (mWords p) (Some (g h)) :: l').
    cbn [mapM]. rewrite Hf. unfold with_pairs at 1. rewrite Hp. cbn [mbind option_bind]. rewrite Hl. cbn [mbind option_bind]. split_and!.
    - done.
    - constructor; [|done]. exists (g h). split; [done|]. intros x y. by rewrite Hg, Hh.
    - constructor; [|done]. split; [done|]. intros h' Hp'. by simplify_eq. }
  destruct H as (l & -> & H1 & H2). by eexists.
Qed.

Lemma run_pairs_spec T : forall m, phrases_ok m ->
  exists m', run_pairs T m = Some m' /\ phrases_ok m' /\
    Forall2 (fun p q => mWords q = mWords p /\ forall h, mPairs p = Some h -> mPairs q = Some (tests T h))
      (mPhraseObjects m) (mPhraseObjects m').
Proof.
  unfold run_pairs. induction T as [|[a b] T IH]; intros m Hok; cbn [fold_left].
  - exists m. split_and!; [done|done|]. induction (mPhraseObjects m); by constructor.
  - destruct (with_phrases_ok (TestPhrase a b) (TestPair a b) m) as (m1 & E1 & Hok1 & H1); [done|done| |].
    { intros h x y. rewrite count_test. case_decide; [|done]. apply fmap_is_Some. }
    cbn [mbind option_bind]. unfold MultiTest. rewrite E1. destruct (IH m1 Hok1) as (m2 & E2 & Hok2 & H2).
    exists m2. split_and!; [done|done|]. clear -H1 H2. revert H2. generalize (mPhraseObjects m2) as l2.
    induction H1 as [|p q l l1 [Hw Hp] _ IHl]; intros l2 H2; inv H2 as [|? r ? l2' [Hw' Hp'] H2']; constructor.
    + split; [congruence|]. intros h Hh. by apply Hp', Hp.
    + by apply IHl.
Qed.

Lemma match_all l (f : phrase -> bool) :
  Forall (fun p => PhraseIsMatch p = Some (f p)) l ->
  mapM (fun p => (fun b : bool => (p, b)) <$> PhraseIsMatch p) l = Some (map (fun p => (p, f p)) l).
Proof. induction 1 as [|p l Hp _ IH]; [done|]. cbn [mapM map]. rewrite Hp. cbn. by rewrite IH. Qed.

Lemma filter_full {A} (f : A -> bool) l : (length (List.filter f l) <= length l)%nat /\
  (length (List.filter f l) = length l <-> forallb f l = true).
Proof.
  induction l as [|x l [IH1 IH2]]; [done|]. cbn. destruct (f x); cbn; [rewrite <- IH2; lia|].
  split; [lia|]. split; [lia|done].
Qed.

(** After the tests of a page, [fCheckForMatch] says whether every phrase is in it. *)
Lemma phrases_in_page T m :
  phrases_ok m -> 0 < PhraseCount m ->
  exists m1 m2, ResetMatches m = Some m1 /\ run_pairs T m1 = Some m2 /\ phrases_ok m2 /\
    map mWords (mPhraseObjects m2) = map mWords (mPhraseObjects m) /\
    CheckForMatch m2 = Some (bool_decide (Forall (phrase_found T) (mPhraseObjects m))).
Proof.
  intros Hok Hn.
  destruct (with_phrases_ok ResetPhrase ResetPairs m) as (m1 & E1 & Hok1 & H1); [done|done| |].
  { intros h x y. rewrite count_reset. apply fmap_is_Some. }
  destruct (run_pairs_spec T m1 Hok1) as (m2 & E2 & Hok2 & H2).
  assert (H : Forall2 (fun p r => mWords r = mWords p /\ PhraseIsMatch r = Some (bool_decide (phrase_found T p)))
    (mPhraseObjects m) (mPhraseObjects m2)).
  { unfold phrases_ok in Hok. clear -Hok H1 H2. revert H2. generalize (mPhraseObjects m2) as l2.
    induction H1 as [|p q l l1 [Hw Hp] _ IH]; intros l2 H2; inv H2 as [|? r ? l2' [Hw' Hp'] H2']; [constructor|].
    inv Hok as [|? ? Hpo Hok']. constructor; [|by apply IH]. split; [congruence|].
    destruct Hpo as (h & Hh & Hc). unfold PhraseIsMatch. rewrite (Hp' _ (Hp _ Hh)). cbn. f_equal.
    apply eq_bool_prop_intro. rewrite bool_decide_spec. 
    pose proof (page_tests_match T p h Hh ltac:(by exists h)) as Hm. unfold page_tests, phrase_found in *.
    rewrite <- Hm. by destruct (PairsMatch _). }
  exists m1, m2. split_and!; [done|done|done| |].
  - clear -H. induction H as [|p r l l2 [Hw _] _ IH]; [done|]. cbn. by rewrite Hw, IH.
  - unfold CheckForMatch, GetMatchingPhrases.
    set (f := fun r => match PhraseIsMatch r with Some b => b | None => false end).
    rewrite (match_all _ f); [|clear -H; induction H as [|p r l l2 [_ Hr] _ IH]; constructor; [unfold f; by rewrite Hr|done]].
    cbn [mbind option_bind]. f_equal. unfold PhraseCount in *. rewrite length_map.
    assert (Hlen : length (mPhraseObjects m2) = length (mPhraseObjects m)) by (symmetry; by eapply Forall2_length).
    assert (Hall : length (List.filter snd (map (fun p => (p, f p)) (mPhraseObjects m2))) = length (mPhraseObjects m2)
      <-> Forall (phrase_found T) (mPhraseObjects m)).
    { rewrite <- (length_map (fun p => (p, f p)) (mPhraseObjects m2)). rewrite (proj2 (filter_full _ _)).
      clear -H. induction H as [|p r l l2 [_ Hr] _ IH]; [by split|]. cbn. rewrite andb_true_iff, IH, Forall_cons.
      unfold f at 1. rewrite Hr. rewrite bool_decide_eq_true. done. }
    apply eq_bool_prop_intro. rewrite bool_decide_spec, <- Hall, Is_true_true, !andb_true_iff, !Z.ltb_lt, Z.eqb_eq.
    split; [lia|]. intros E. split_and!; lia.
Qed.

(** ** The phrases of a typed text *)
Definition valid_words (bi : info) (ws : list string) : list string := List.filter (ValidSearchWord bi) ws.
(** The words of a quoted phrase that the book's search takes into account; a phrase of
    one word is a word, and one without such words is not looked for. *)
Definition phrase_words (bi : info) (i : item) : list (list string) :=
  match i with
  | Phrase w (v :: ws) => match valid_words bi (w :: v :: ws) with [] => [] | l => [l] end
  | _ => []
  end.

Lemma join_words l : forallb plain_word l = true -> l <> [] ->
  join "" (map (fun w => w +++ " ") l) = join " " l +++ " ".
Proof.
  intros H Hne. induction l as [|w l IH]; [done|]. cbn [forallb] in H. bool_to_prop.
  destruct l as [|v l]; [done|].
  change (map (fun w => w +++ " ") (w :: v :: l)) with ((w +++ " ") :: map (fun w => w +++ " ") (v :: l)).
  rewrite join_head, (join_head " " w), IH by done. by rewrite !sapp_assoc.
Qed.
Lemma filter_plain f l : forallb plain_word l = true -> forallb plain_word (List.filter f l) = true.
Proof. rewrite !forallb_forall. intros H x [Hx _]%filter_In. auto. Qed.

Lemma parsed_phrase_words l : forallb plain_word l = true -> l <> [] ->
  let text := join "" (map (fun w => w +++ " ") l) in
  0 < slen text /\ mWords (parsed_phrase (substring2 text 0 (slen text - 1))) = l /\
  IsValidPhrase (parsed_phrase (substring2 text 0 (slen text - 1))) = true.
Proof.
  intros H Hne text. subst text. rewrite join_words by done. rewrite slen_app. change (slen " ") with 1.
  replace (slen (join " " l) + 1 - 1) with (slen (join " " l)) by lia. rewrite substring2_prefix.
  assert (E : List.filter non_empty (js_split (join " " l) " ") = l).
  { rewrite (js_split_join " "%char); [|by apply plain_no_space|done].
    clear Hne. induction l as [|w l IH]; [done|]. cbn [forallb] in H. bool_to_prop. cbn [List.filter]. unfold non_empty at 1.
    destruct (plain_word_inv w) as [_ Hl]; [done|]. case_if; bool_to_prop; [by rewrite IH|lia]. }
  unfold IsValidPhrase, parsed_phrase. cbn [mPairs mWords]. rewrite E. split; [pose proof (slen_nonneg (join " " l)); lia|].
  split; [done|]. by destruct l.
Qed.

Lemma multi_item bi m i : item_ok i = true ->
  let m' := multi_entry bi m (item_text i) in
  map mWords (mPhraseObjects m') = map mWords (mPhraseObjects m) ++ phrase_words bi i /\
  (phrases_ok m -> phrases_ok m').
Proof.
  intros Hi. unfold multi_entry. destruct i as [w|w [|v ws]]; cbn [item_ok item_text phrase_words] in *.
  1, 2: cbn [forallb join] in *; assert (E : ParseWordsAndPhrases w = [w])
    by (apply (Parse_words [w]); cbn [forallb]; by rewrite ?andb_true_r in *);
    rewrite E; destruct (ValidSearchWord bi w); cbn [mPhraseObjects]; by rewrite app_nil_r.
  rewrite Parse_words by done. fold (valid_words bi (w :: v :: ws)).
  pose proof (filter_plain (ValidSearchWord bi) _ Hi) as Hp. fold (valid_words bi (w :: v :: ws)) in Hp.
  destruct (valid_words bi (w :: v :: ws)) as [|x l] eqn:El; cbn [mPhraseObjects].
  - rewrite app_nil_r. done.
  - destruct (parsed_phrase_words (x :: l) Hp) as (Hl & Hw & Hv); [done|]. case_if; bool_to_prop; [|lia].
    rewrite map_app, map_cons, Hw. split; [done|]. intros Hok.
    apply Forall_app. split; [done|]. constructor; [by apply parsed_phrase_ok|done].
Qed.

(** The phrases that are looked for are the quoted phrases of the text, with the words
    that the book does not take into account left out. *)
Lemma parsed_multi_phrases bi items : Forall (fun i => item_ok i = true) items ->
  let m := parsed_multi (join " " (map typed items)) bi in
  map mWords (mPhraseObjects m) = concat (map (phrase_words bi) items) /\ phrases_ok m.
Proof.
  intros H. unfold parsed_multi. rewrite Parse_typed by done.
  enough (E : forall m, let m' := fold_left (multi_entry bi) (map item_text items) m in
    map mWords (mPhraseObjects m') = map mWords (mPhraseObjects m) ++ concat (map (phrase_words bi) items) /\ (phrases_ok m -> phrases_ok m')).
  { destruct (E (Multi [] [] [])) as [E1 E2]. split; [done|]. apply E2. constructor. }
  induction H as [|i items Hi _ IH]; intros m; cbn [map fold_left concat]; [by rewrite app_nil_r|].
  destruct (multi_item bi m i Hi) as [Hm1 Hm2]. destruct (IH (multi_entry bi m (item_text i))) as [IH1 IH2].
  rewrite IH1, Hm1. split; [by rewrite app_assoc|auto].
Qed.
