(* ===== verification/HelpScore.v ===== *)
(** * Matches, scores and results of a search (wwhelp/wwhimpl/js/scripts/search.js)
    [WWHSearchBookMatches_Object] collects, for each word of a search, the files of one
    book in which the word occurs with their scores, and joins them;
    [WWHSearchResults_Object] is the list that is shown, with its orders. *)
From Stdlib Require Import Sorted.
From S2P Require Import Prelude JsString JsNum HelpString HelpPattern HelpBooks.
Open Scope Z_scope.

(** ** Objects as tables
    The keys of these objects are not numerals, so that [for (k in o)] visits them in
    the order in which they were added. *)
Definition table (A : Type) : Type := list (string * A).
Definition get {A} (k : string) (o : table A) : option A := snd <$> List.find (fun '(j, _) => String.eqb j k) o.
Fixpoint put {A} (k : string) (v : A) (o : table A) : table A :=
  match o with
  | [] => [(k, v)]
  | (j, w) :: o => if String.eqb j k then (k, v) :: o else (j, w) :: put k v o
  end.

(** ** [WWHSearchBookMatches_Object] *)
Definition file_scores : Type := table num.
Record matches := Matches {
  mFirstMatchedWordIndex : Z; mMatchedWordIndex : Z;
  mWordFileScores : list file_scores; mFileScores : file_scores
}.
Definition new_matches : matches := Matches (-1) (-1) [] [].
Definition ClearMatches (m : matches) : matches := Matches (-1) (-1) [] [].
Definition SetMatchedWordIndex (i : Z) (m : matches) : matches :=
  Matches (mFirstMatchedWordIndex m) i
    (if i =? Z.of_nat (length (mWordFileScores m)) then mWordFileScores m ++ [[]] else mWordFileScores m)
    (mFileScores m).

(** The loop over the list [file,score,file,score,...]: [parseInt(undefined)] is [NaN]. *)
Fixpoint add_matches (l : list string) (o : file_scores) : file_scores :=
  match l with
  | f :: s :: l => add_matches l (put ("i" +++ f) (of_parse (parseInt s)) o)
  | [f] => put ("i" +++ f) NaN o
  | [] => o
  end.
Definition AddMatches (text : string) (m : matches) : option matches :=
  o ← at_index (mWordFileScores m) (mMatchedWordIndex m);
  Some (Matches (mFirstMatchedWordIndex m) (mMatchedWordIndex m)
          (<[Z.to_nat (mMatchedWordIndex m) := add_matches (js_split text ",") o]> (mWordFileScores m))
          (mFileScores m)).

(** One word more: the files that have it too, with the sum of the scores; the object is
    changed while [for (FileID in o)] visits its keys. *)
Definition join_scores (o w : file_scores) : file_scores :=
  omap (fun '(k, v) => (fun s => (k, num_add v s)) <$> get k w) o.
(** The first word's object becomes the result, and stays in the list of the words. *)
Definition JoinFileScores (m : matches) : matches :=
  match mWordFileScores m with
  | [] => Matches (mFirstMatchedWordIndex m) (mMatchedWordIndex m) [] []
  | o :: ws =>
      let r := fold_left join_scores ws o in
      Matches (mFirstMatchedWordIndex m) (mMatchedWordIndex m) (r :: ws) r
  end.

(** ** [WWHSearchResults_Object] *)
Record entry := Entry { e_mBookIndex : Z; e_mFileIndex : Z; e_mScore : num; e_mTitle : string }.
(** An entry of a page without the phrases becomes [null]. *)
Record results := Results {
  mSortedBy : option Z; mEntries : list (option entry); mMaxScore : num;
  mDisplayIndex : Z; mByBookDetect : Z; mHTMLSegment : buffer
}.
Definition new_results : results := Results None [] (num_of_Z 0) 0 (-1) new_buffer.
Definition ClearResults (r : results) : results :=
  Results None [] (num_of_Z 0) (mDisplayIndex r) (mByBookDetect r) (mHTMLSegment r).
Definition AddEntry (e : entry) (r : results) : results :=
  Results (mSortedBy r) (mEntries r ++ [Some e])
    (if num_gtb (e_mScore e) (mMaxScore r) then e_mScore e else mMaxScore r)
    (mDisplayIndex r) (mByBookDetect r) (mHTMLSegment r).
Definition set_entries (l : list (option entry)) (r : results) : results :=
  Results (mSortedBy r) l (mMaxScore r) (mDisplayIndex r) (mByBookDetect r) (mHTMLSegment r).
Definition set_sorted (k : Z) (r : results) : results :=
  Results (Some k) (mEntries r) (mMaxScore r) (mDisplayIndex r) (mByBookDetect r) (mHTMLSegment r).

(** ** Orders *)
Definition CompareByScore (a b : entry) : Z :=
  if num_ltb (e_mScore a) (e_mScore b) then 1
  else if num_gtb (e_mScore a) (e_mScore b) then -1 else 0.
Definition CompareByBookIndex (a b : entry) : Z :=
  if e_mBookIndex a <? e_mBookIndex b then -1 else if e_mBookIndex b <? e_mBookIndex a then 1 else 0.
(** [a < b] for strings. *)
Definition compare_strings (a b : string) : Z :=
  match String.compare a b with Lt => -1 | Gt => 1 | Eq => 0 end.

Section orders.
(** The address of the page of an entry. *)
Context (url : entry -> string).
Definition CompareByTitleFileIndexURL (a b : entry) : Z :=
  let c := compare_strings (e_mTitle a) (e_mTitle b) in
  if negb (c =? 0) then c
  else if e_mFileIndex a <? e_mFileIndex b then -1
  else if e_mFileIndex b <? e_mFileIndex a then 1
  else compare_strings (url a) (url b).
Definition ByScoreByBookIndexByTitleFileIndexURL (a b : entry) : Z :=
  let c := CompareByScore a b in
  let c := if c =? 0 then CompareByBookIndex a b else c in
  if c =? 0 then CompareByTitleFileIndexURL a b else c.
Definition ByBookIndexByScoreByTitleFileIndexURL (a b : entry) : Z :=
  let c := CompareByBookIndex a b in
  let c := if c =? 0 then CompareByScore a b else c in
  if c =? 0 then CompareByTitleFileIndexURL a b else c.

(** [a.sort(compare)], a stable sort. *)
Fixpoint sort_insert {A} (cmp : A -> A -> Z) (x : A) (l : list A) : list A :=
  match l with
  | [] => [x]
  | y :: l => if cmp x y <=? 0 then x :: y :: l else y :: sort_insert cmp x l
  end.
Definition js_sort {A} (cmp : A -> A -> Z) (l : list A) : list A := foldr (sort_insert cmp) [] l.
Definition sort_entries (cmp : entry -> entry -> Z) (r : results) : results :=
  set_entries (map Some (js_sort cmp (omap id (mEntries r)))) r.
Definition SortByScore (r : results) : results := sort_entries ByScoreByBookIndexByTitleFileIndexURL (set_sorted 1 r).
Definition SortByBookIndex (r : results) : results := sort_entries ByBookIndexByScoreByTitleFileIndexURL (set_sorted 2 r).
End orders.

(** ** Tables of scores
    A table of scores is the list of its files and their scores, printed into keys and
    numbers. *)
Definition hits : Type := list (Z * Z).
Definition key (f : Z) : string := "i" +++ Z_to_string f.
Definition conc (l : hits) : file_scores := map (fun '(f, s) => (key f, num_of_Z s)) l.
Definition natural (l : hits) : Prop := Forall (fun '(f, s) => 0 <= f /\ 0 <= s) l.
#[global] Hint Unfold natural : js.

Definition hget (f : Z) (l : hits) : option Z := snd <$> List.find (fun '(g, _) => g =? f) l.
Fixpoint hput (f s : Z) (l : hits) : hits :=
  match l with
  | [] => [(f, s)]
  | (g, t) :: l => if g =? f then (f, s) :: l else (g, t) :: hput f s l
  end.
Definition hjoin (l k : hits) : hits := omap (fun '(f, s) => (fun t => (f, s + t)) <$> hget f k) l.

Lemma key_eqb f g : 0 <= f -> 0 <= g -> String.eqb (key f) (key g) = (f =? g).
Proof.
  intros Hf Hg. destruct (Z.eqb_spec f g) as [->|Hne]; [apply String.eqb_refl|].
  apply String.eqb_neq. intros [= E]. by apply Z_to_string_inj in E.
Qed.
Lemma key_number f : 0 <= f -> parseInt (substring2 (key f) 1 (slen (key f))) = Some f.
Proof.
  intros Hf. unfold key. change 1 with (slen "i"). rewrite substring2_suffix. by apply parseInt_Z_to_string.
Qed.

Lemma get_conc f l : 0 <= f -> natural l -> get (key f) (conc l) = num_of_Z <$> hget f l.
Proof.
  intros Hf. unfold get, hget, conc, natural. induction 1 as [|[g s] l [Hg Hs] _ IH]; [done|].
  cbn [map List.find]. rewrite key_eqb by done. by destruct (g =? f).
Qed.
Lemma put_conc f s l : 0 <= f -> natural l -> put (key f) (num_of_Z s) (conc l) = conc (hput f s l).
Proof.
  intros Hf. unfold conc, natural. induction 1 as [|[g t] l [Hg Ht] _ IH]; [done|].
  cbn [map put hput]. rewrite key_eqb by done. destruct (g =? f); [done|]. cbn [map]. by rewrite IH.
Qed.
Lemma natural_put f s l : 0 <= f -> 0 <= s -> natural l -> natural (hput f s l).
Proof.
  intros Hf Hs. unfold natural. induction 1 as [|[g t] l Hg Hl IH]; cbn [hput]; [by repeat constructor|].
  case_if; by constructor.
Qed.
Lemma join_conc l k : natural l -> natural k -> join_scores (conc l) (conc k) = conc (hjoin l k).
Proof.
  intros Hl Hk. unfold join_scores, hjoin. unfold natural in Hl.
  induction Hl as [|[f s] l [Hf Hs] _ IH]; [done|].
  change (conc ((f, s) :: l)) with ((key f, num_of_Z s) :: conc l). cbn [omap list_omap]. rewrite get_conc by done.
  destruct (hget f k) as [t|]; cbn [fmap option_fmap option_map]; [|apply IH].
  rewrite num_add_Z. by rewrite IH.
Qed.
Lemma hget_natural f l s : natural l -> hget f l = Some s -> 0 <= s.
Proof.
  unfold natural, hget. induction 1 as [|[g t] l [Hg Ht] _ IH]; [done|]. cbn [List.find].
  case_if; [|done]. by intros [= <-].
Qed.
Lemma natural_join l k : natural l -> natural k -> natural (hjoin l k).
Proof.
  intros Hl Hk. unfold natural, hjoin in *. induction Hl as [|[f s] l [Hf Hs] _ IH]; [constructor|].
  cbn [omap list_omap]. destruct (hget f k) as [t|] eqn:E; cbn [fmap option_fmap option_map]; [|done].
  constructor; [|done]. split; [done|]. apply hget_natural in E; [lia|done].
Qed.

(** ** What the tables say *)
Lemma hget_put f s l g : hget g (hput f s l) = if f =? g then Some s else hget g l.
Proof.
  unfold hget. induction l as [|[h t] l IH]; cbn [hput List.find]; [by destruct (f =? g)|].
  destruct (Z.eqb_spec h f) as [->|Hne]; cbn [List.find].
  - by destruct (f =? g).
  - destruct (Z.eqb_spec h g) as [->|]; [|done]. by destruct (Z.eqb_spec f g); [congruence|].
Qed.
Definition distinct (l : hits) : Prop := NoDup (map fst l).
Lemma hput_keys f s l g : g ∈ map fst (hput f s l) <-> g = f \/ g ∈ map fst l.
Proof.
  induction l as [|[h t] l IH]; cbn [hput map fst]; [rewrite elem_of_cons; tauto|].
  destruct (Z.eqb_spec h f) as [->|]; cbn [map fst]; rewrite !elem_of_cons; [tauto|]. rewrite IH. tauto.
Qed.
Lemma distinct_put f s l : distinct l -> distinct (hput f s l).
Proof.
  unfold distinct. induction l as [|[h t] l IH]; cbn [hput map fst]; intros H; [by apply NoDup_singleton|].
  inv H as [|? ? Hh Hd]. destruct (Z.eqb_spec h f) as [->|Hne]; cbn [map fst]; constructor; auto.
  rewrite hput_keys. intros [->|Hi]; done.
Qed.
Lemma hget_in l f s : distinct l -> hget f l = Some s <-> (f, s) ∈ l.
Proof.
  unfold distinct, hget. induction l as [|[h t] l IH]; cbn [map fst List.find]; intros H.
  - rewrite elem_of_nil. done.
  - inv H as [|? ? Hh Hd]. rewrite elem_of_cons. destruct (Z.eqb_spec h f) as [->|Hne].
    + cbn. split; [intros [= ->]; by left|]. intros [[= <-]|Hin]; [done|].
      destruct Hh. apply list_elem_of_fmap. by exists (f, s).
    + rewrite IH by done. split; [by right|]. by intros [[= -> _]|].
Qed.
Lemma hjoin_keys l k g : g ∈ map fst (hjoin l k) -> g ∈ map fst l.
Proof.
  unfold hjoin. induction l as [|[f s] l IH]; [done|]. cbn [omap list_omap map fst]. rewrite elem_of_cons.
  destruct (hget f k); cbn [fmap option_fmap option_map map fst]; [|auto]. rewrite elem_of_cons. tauto.
Qed.
Lemma distinct_join l k : distinct l -> distinct (hjoin l k).
Proof.
  unfold distinct. induction l as [|[f s] l IH]; [done|]. cbn [map fst]. intros H. inv H as [|? ? Hf Hd].
  unfold hjoin. cbn [omap list_omap]. destruct (hget f k); cbn [fmap option_fmap option_map map fst]; [|auto].
  constructor; [|by apply IH]. intros Hin. by apply hjoin_keys in Hin.
Qed.
Lemma natural_cons f s l : natural ((f, s) :: l) <-> (0 <= f /\ 0 <= s) /\ natural l.
Proof. unfold natural. by rewrite Forall_cons. Qed.
Lemma hget_cons g s l f : hget f ((g, s) :: l) = if g =? f then Some s else hget f l.
Proof. unfold hget. cbn [List.find]. by case_if. Qed.
Lemma hjoin_cons g s l k :
  hjoin ((g, s) :: l) k = match hget g k with Some t => (g, s + t) :: hjoin l k | None => hjoin l k end.
Proof. unfold hjoin. cbn [omap list_omap]. by destruct (hget g k). Qed.
Lemma hget_join l k f : hget f (hjoin l k) = (s ← hget f l; (fun t => s + t) <$> hget f k).
Proof.
  induction l as [|[g s] l IH]; [done|]. rewrite hjoin_cons, hget_cons. destruct (Z.eqb_spec g f) as [->|Hne].
  - destruct (hget f k) as [t|] eqn:E; [by rewrite hget_cons, Z.eqb_refl|].
    rewrite IH. by destruct (hget f l).
  - destruct (hget g k); [|done]. rewrite hget_cons. by destruct (Z.eqb_spec g f).
Qed.

(** ** The text of the search data *)
Definition match_parts (l : hits) : list string := flat_map (fun '(f, s) => [Z_to_string f; Z_to_string s]) l.
Definition match_text (l : hits) : string := join "," (match_parts l).
Definition hputs (l o : hits) : hits := fold_left (fun o '(f, s) => hput f s o) l o.

Lemma natural_puts l : forall o, natural l -> natural o -> natural (hputs l o).
Proof.
  unfold hputs. induction l as [|[f s] l IH]; intros o Hl Ho; [done|]. cbn [fold_left].
  apply natural_cons in Hl as [[Hf Hs] Hl']. apply IH; [done|]. by apply natural_put.
Qed.
Lemma distinct_puts l : forall o, distinct o -> distinct (hputs l o).
Proof.
  unfold hputs. induction l as [|[f s] l IH]; intros o Ho; [done|]. cbn [fold_left]. apply IH. by apply distinct_put.
Qed.
Lemma add_matches_parts l : forall o, natural l -> natural o ->
  add_matches (match_parts l) (conc o) = conc (hputs l o).
Proof.
  unfold hputs. induction l as [|[f s] l IH]; intros o Hl Ho; [done|]. apply natural_cons in Hl as [[Hf Hs] Hl'].
  cbn [match_parts flat_map app add_matches fold_left]. rewrite parseInt_Z_to_string by done.
  change (put ("i" +++ Z_to_string f) (of_parse (Some s)) (conc o)) with (put (key f) (num_of_Z s) (conc o)).
  rewrite put_conc by done. apply IH; [done|]. by apply natural_put.
Qed.
Lemma add_matches_text l o : l <> [] -> natural l -> natural o ->
  add_matches (js_split (match_text l) ",") (conc o) = conc (hputs l o).
Proof.
  intros Hne Hl Ho. unfold match_text. rewrite (js_split_join ","%char).
  - by apply add_matches_parts.
  - clear -Hl. unfold match_parts, natural in *. induction Hl as [|[f s] l [Hf Hs] _ IH]; cbn [flat_map app]; [constructor|].
    repeat constructor; try done; apply digits_not_char; try done; rewrite Z_to_string_nonneg by done; by apply nat_digits_digits.
  - destruct l as [|[f s] l]; done.
Qed.

(** The score of a file in a list of hits: the last one counts. *)
Fixpoint last_hit (f : Z) (l : hits) : option Z :=
  match l with
  | [] => None
  | (g, s) :: l => match last_hit f l with Some t => Some t | None => if g =? f then Some s else None end
  end.
Lemma hget_puts l : forall o f, hget f (hputs l o) = match last_hit f l with Some s => Some s | None => hget f o end.
Proof.
  unfold hputs. induction l as [|[g s] l IH]; intros o f; cbn [fold_left last_hit]; [done|].
  rewrite IH, hget_put. destruct (last_hit f l); [done|]. by case_if.
Qed.
Lemma last_hit_some f l s : last_hit f l = Some s -> (f, s) ∈ l.
Proof.
  induction l as [|[g t] l IH]; cbn [last_hit]; [done|]. rewrite elem_of_cons.
  destruct (last_hit f l) as [u|]; [intros [= ->]; right; by apply IH|].
  destruct (Z.eqb_spec g f) as [->|]; [|done]. intros [= ->]. by left.
Qed.

(** ** Sorting *)

(** A comparison that is an order on the values of [P]: changing sides changes the sign,
    and not being above is transitive. *)
Record compares {A} (P : A -> Prop) (c : A -> A -> Z) : Prop := {
  cmp_swap a b : P a -> P b -> c b a = - c a b;
  cmp_trans a b d : P a -> P b -> P d -> c a b <= 0 -> c b d <= 0 -> c a d <= 0
}.
Definition then_by {A} (c d : A -> A -> Z) (a b : A) : Z := if c a b =? 0 then d a b else c a b.

Lemma compares_then {A} (P : A -> Prop) (c d : A -> A -> Z) :
  compares P c -> compares P d -> compares P (then_by c d).
Proof.
  intros [Hcs Hct] [Hds Hdt]. unfold then_by. split.
  - intros a b Ha Hb. rewrite (Hcs a b Ha Hb). destruct (Z.eqb_spec (c a b) 0) as [->|]; [by apply Hds|].
    by destruct (Z.eqb_spec (- c a b) 0); [lia|].
  - intros a b e Ha Hb He. pose proof (Hct a b e Ha Hb He). pose proof (Hct b e a Hb He Ha). pose proof (Hct e a b He Ha Hb).
    pose proof (Hcs a e Ha He). pose proof (Hcs a b Ha Hb). pose proof (Hcs b e Hb He).
    destruct (Z.eqb_spec (c a b) 0); destruct (Z.eqb_spec (c b e) 0); destruct (Z.eqb_spec (c a e) 0); try lia.
    by apply Hdt.
Qed.
Lemma compares_on {A B} (P : A -> Prop) (Q : B -> Prop) (f : A -> B) c :
  (forall a, P a -> Q (f a)) -> compares Q c -> compares P (fun a b => c (f a) (f b)).
Proof. intros Hf [Hs Ht]. split; intros; [apply Hs|eapply (Ht (f a) (f b))]; auto. Qed.
Lemma compares_ext {A} (P : A -> Prop) (c d : A -> A -> Z) :
  (forall a b, P a -> P b -> c a b = d a b) -> compares P d -> compares P c.
Proof.
  intros E [Hs Ht]. split.
  - intros a b Ha Hb. rewrite !E by done. by apply Hs.
  - intros a b e Ha Hb He. rewrite !E by done. by apply Ht.
Qed.

Definition all_values {A} (_ : A) : Prop := True.
Definition compare_Z (a b : Z) : Z := if a <? b then -1 else if b <? a then 1 else 0.
Lemma compares_Z : compares all_values compare_Z.
Proof.
  unfold compare_Z. split.
  - intros a b _ _. destruct (Z.ltb_spec a b), (Z.ltb_spec b a); lia.
  - intros a b e _ _ _. destruct (Z.ltb_spec a b), (Z.ltb_spec b a), (Z.ltb_spec b e), (Z.ltb_spec e b),
      (Z.ltb_spec a e), (Z.ltb_spec e a); lia.
Qed.
Lemma compare_strings_cons x a y b :
  compare_strings (String x a) (String y b)
  = then_by (fun c d => compare_Z (Z.of_N (Ascii.N_of_ascii (fst c))) (Z.of_N (Ascii.N_of_ascii (fst d))))
      (fun c d => compare_strings (snd c) (snd d)) (x, a) (y, b).
Proof.
  unfold compare_strings, then_by, compare_Z. cbn [fst snd String.compare]. unfold Ascii.compare.
  destruct (N.compare_spec (Ascii.N_of_ascii x) (Ascii.N_of_ascii y)) as [->|H|H].
  - by rewrite Z.ltb_irrefl.
  - apply N2Z.inj_lt, Z.ltb_lt in H. by rewrite H.
  - apply N2Z.inj_lt in H. destruct (Z.ltb_spec (Z.of_N (Ascii.N_of_ascii x)) (Z.of_N (Ascii.N_of_ascii y))); [lia|].
    apply Z.ltb_lt in H. by rewrite H.
Qed.
Lemma compares_strings : compares all_values compare_strings.
Proof.
  assert (Hn : forall n, compares (fun s => (String.length s <= n)%nat) compare_strings).
  { induction n as [|n IH].
    - split; [intros [|] [|]|intros [|] [|] [|]]; cbn; try lia; done.
    - pose proof (compares_then (fun c : Ascii.ascii * string => (String.length (snd c) <= n)%nat) _ _
        (compares_on _ _ (fun c => Z.of_N (Ascii.N_of_ascii (fst c))) _ (fun _ _ => I) compares_Z)
        (compares_on _ _ snd _ (fun _ H => H) IH)) as [Hs Ht].
      split.
      + intros [|x a] [|y b]; try done. cbn [String.length]. intros Ha Hb. rewrite !compare_strings_cons. apply Hs; cbn; lia.
      + intros [|x a] [|y b] [|z e]; try done. cbn [String.length]. intros Ha Hb He. rewrite !compare_strings_cons.
        apply Ht; cbn; lia. }
  split; [intros a b _ _|intros a b e _ _ _].
  - apply (Hn (String.length a + String.length b)%nat); lia.
  - apply (Hn (String.length a + String.length b + String.length e)%nat); lia.
Qed.

Lemma sort_insert_Permutation {A} (cmp : A -> A -> Z) x l : sort_insert cmp x l ≡ₚ x :: l.
Proof. induction l as [|y l IH]; cbn [sort_insert]; [done|]. case_if; [done|]. rewrite IH. apply perm_swap. Qed.
Lemma js_sort_Permutation {A} (cmp : A -> A -> Z) l : js_sort cmp l ≡ₚ l.
Proof. induction l as [|x l IH]; [done|]. cbn. rewrite sort_insert_Permutation. by rewrite IH. Qed.
Lemma js_sort_sorted {A} (P : A -> Prop) cmp l : compares P cmp -> Forall P l ->
  StronglySorted (fun a b => cmp a b <= 0) (js_sort cmp l).
Proof.
  intros [Hs Ht] H. induction H as [|x l Hx Hl IH]; [constructor|]. cbn [js_sort foldr]. fold (js_sort cmp l).
  assert (Hp : Forall P (js_sort cmp l)) by (by rewrite js_sort_Permutation).
  revert IH Hp. generalize (js_sort cmp l) as k. clear Hl l. induction k as [|y k IH]; intros Hk Hp; cbn [sort_insert].
  - by repeat constructor.
  - inv Hk as [|? ? Hsk Hyk]. inv Hp as [|? ? Hy Hpk]. case_if; bool_to_prop.
    + constructor; [by constructor|]. constructor; [done|]. rewrite Forall_forall in Hyk, Hpk |- *.
      intros z Hz. apply (Ht x y z); auto.
    + constructor; [by apply IH|]. rewrite sort_insert_Permutation. constructor; [rewrite (Hs x y); auto; lia|done].
Qed.

(** The orders of the results, for scores that are numbers. *)
Definition scored (e : entry) : Prop := exists n, e_mScore e = num_of_Z n.
Lemma compares_score : compares scored CompareByScore.
Proof.
  assert (E : forall a b n m, e_mScore a = num_of_Z n -> e_mScore b = num_of_Z m -> CompareByScore a b = compare_Z m n).
  { intros a b n m Ha Hb. unfold CompareByScore, compare_Z. rewrite Ha, Hb, num_ltb_Z, num_gtb_Z.
    destruct (Z.ltb_spec n m), (Z.ltb_spec m n); lia. }
  destruct compares_Z as [Hs Ht]. split.
  - intros a b [n Ha] [m Hb]. rewrite (E a b n m), (E b a m n) by done. by apply Hs.
  - intros a b e [n Ha] [m Hb] [k He]. rewrite (E a b n m), (E b e m k), (E a e n k) by done. intros H1 H2. by apply (Ht k m n).
Qed.
Lemma compares_rank url : compares scored (ByScoreByBookIndexByTitleFileIndexURL url) /\
  compares scored (ByBookIndexByScoreByTitleFileIndexURL url).
Proof.
  assert (Hb : compares scored CompareByBookIndex).
  { apply (compares_on _ all_values e_mBookIndex compare_Z); [done|apply compares_Z]. }
  assert (Hu : compares scored (CompareByTitleFileIndexURL url)).
  { apply (compares_ext _ _ (then_by (fun a b => compare_strings (e_mTitle a) (e_mTitle b))
      (then_by (fun a b => compare_Z (e_mFileIndex a) (e_mFileIndex b)) (fun a b => compare_strings (url a) (url b))))).
    - intros a b _ _. unfold CompareByTitleFileIndexURL, then_by, compare_Z.
      destruct (compare_strings (e_mTitle a) (e_mTitle b) =? 0); [|done]. cbn [negb].
      by destruct (e_mFileIndex a <? e_mFileIndex b), (e_mFileIndex b <? e_mFileIndex a).
    - apply compares_then; [|apply compares_then].
      + apply (compares_on _ all_values e_mTitle); [done|apply compares_strings].
      + apply (compares_on _ all_values e_mFileIndex); [done|apply compares_Z].
      + apply (compares_on _ all_values url); [done|apply compares_strings]. }
  pose proof compares_score as Hsc.
  split; eapply compares_ext;
    [|apply (compares_then _ _ _ (compares_then _ _ _ Hsc Hb) Hu)| |apply (compares_then _ _ _ (compares_then _ _ _ Hb Hsc) Hu)]; done.
Qed.
