(* ===== verification/HelpSearch.v ===== *)
(** * The search panel (wwhelp/wwhimpl/js/scripts/search.js, search1s.js to search7s.js)
    A search goes through two pages of scripts: [words] loads the search data of the
    books and matches the words, [pairs] loads the neighbouring words of the pages found
    and drops those without the phrases; then the results are shown.  The scripts that
    the browser runs are the ones that [StartHTMLSegments] writes into the page, in
    order.  An exception of the language is [None]: what a page does after one is not
    followed. *)
From S2P Require Import Prelude JsString JsNum JsVal HelpString HelpPattern HelpUnicode HelpBooks HelpPhrase HelpScore.
Open Scope Z_scope.

(** ** The object [WWHSearch] *)
Inductive search_state := StateWords | StatePairs.
#[export] Instance search_state_eq_dec : EqDecision search_state.
Proof. solve_decision. Defined.

Record search := Search {
  mbPanelInitialized : bool; mSearchInitIndex : Z;
  mBookSearchInfoList : list info; mMultiPhraseList : list multi;
  mSearchState : option search_state; mSearchScopeInfo : list scope_entry;
  mSavedSearchWords : string; mSavedSearchScope : Z;
  mSearchWordList : list string; mSearchWordRegExpList : list regexp;
  mSearchBookIndex : Z; mBookMatchesList : list matches;
  mCombinedResults : results; mCombinedResultsIndex : Z
}.
Definition new_search : search :=
  Search false 0 [] [] None [] "" 0 [] [] 0 [] new_results 0.

Definition set_state (st : option search_state) (w : search) : search :=
  Search (mbPanelInitialized w) (mSearchInitIndex w) (mBookSearchInfoList w) (mMultiPhraseList w) st
    (mSearchScopeInfo w) (mSavedSearchWords w) (mSavedSearchScope w) (mSearchWordList w)
    (mSearchWordRegExpList w) (mSearchBookIndex w) (mBookMatchesList w) (mCombinedResults w) (mCombinedResultsIndex w).
Definition set_form (words : string) (scope : Z) (st : option search_state) (w : search) : search :=
  Search (mbPanelInitialized w) (mSearchInitIndex w) (mBookSearchInfoList w) (mMultiPhraseList w) st
    (mSearchScopeInfo w) words scope (mSearchWordList w)
    (mSearchWordRegExpList w) (mSearchBookIndex w) (mBookMatchesList w) (mCombinedResults w) (mCombinedResultsIndex w).
Definition set_words (words : list string) (res : list regexp) (ms : list multi) (w : search) : search :=
  Search (mbPanelInitialized w) (mSearchInitIndex w) (mBookSearchInfoList w) ms (mSearchState w)
    (mSearchScopeInfo w) (mSavedSearchWords w) (mSavedSearchScope w) words res
    (mSearchBookIndex w) (mBookMatchesList w) (mCombinedResults w) (mCombinedResultsIndex w).
Definition set_multis (ms : list multi) (w : search) : search :=
  set_words (mSearchWordList w) (mSearchWordRegExpList w) ms w.
Definition set_book (b : Z) (w : search) : search :=
  Search (mbPanelInitialized w) (mSearchInitIndex w) (mBookSearchInfoList w) (mMultiPhraseList w) (mSearchState w)
    (mSearchScopeInfo w) (mSavedSearchWords w) (mSavedSearchScope w) (mSearchWordList w)
    (mSearchWordRegExpList w) b (mBookMatchesList w) (mCombinedResults w) (mCombinedResultsIndex w).
Definition set_matches (ms : list matches) (w : search) : search :=
  Search (mbPanelInitialized w) (mSearchInitIndex w) (mBookSearchInfoList w) (mMultiPhraseList w) (mSearchState w)
    (mSearchScopeInfo w) (mSavedSearchWords w) (mSavedSearchScope w) (mSearchWordList w)
    (mSearchWordRegExpList w) (mSearchBookIndex w) ms (mCombinedResults w) (mCombinedResultsIndex w).
Definition set_results (r : results) (w : search) : search :=
  Search (mbPanelInitialized w) (mSearchInitIndex w) (mBookSearchInfoList w) (mMultiPhraseList w) (mSearchState w)
    (mSearchScopeInfo w) (mSavedSearchWords w) (mSavedSearchScope w) (mSearchWordList w)
    (mSearchWordRegExpList w) (mSearchBookIndex w) (mBookMatchesList w) r (mCombinedResultsIndex w).
Definition set_index (i : Z) (w : search) : search :=
  Search (mbPanelInitialized w) (mSearchInitIndex w) (mBookSearchInfoList w) (mMultiPhraseList w) (mSearchState w)
    (mSearchScopeInfo w) (mSavedSearchWords w) (mSavedSearchScope w) (mSearchWordList w)
    (mSearchWordRegExpList w) (mSearchBookIndex w) (mBookMatchesList w) (mCombinedResults w) i.

Section search.
(** [WWHHelp.mBooks], [mBaseURL] and the setting [mbResultsByBook]. *)
Context (books : book_list) (base_url : string) (mbResultsByBook : bool).
Abbreviation book_count := (Z.of_nat (length (mBookList books))).

(** ** Setting up *)

(** [WWHSearch_InitHeadHTML]: the scopes of the search. *)
Definition InitHeadHTML (groups : list node) (w : search) : option search :=
  sc ← AddScopeEntries books groups new_scope;
  Some (Search (mbPanelInitialized w) (mSearchInitIndex w) (mBookSearchInfoList w) (mMultiPhraseList w) (mSearchState w)
    (s_mEntries sc) (mSavedSearchWords w) (mSavedSearchScope w) (mSearchWordList w)
    (mSearchWordRegExpList w) (mSearchBookIndex w) (mBookMatchesList w) (mCombinedResults w) (mCombinedResultsIndex w)).
(** [WWHSearch_InitBodyHTML] starts the loading of the books' search data. *)
Definition InitBodyHTML (w : search) : search :=
  Search (mbPanelInitialized w) 0 (mBookSearchInfoList w) (mMultiPhraseList w) (mSearchState w)
    (mSearchScopeInfo w) (mSavedSearchWords w) (mSavedSearchScope w) (mSearchWordList w)
    (mSearchWordRegExpList w) (mSearchBookIndex w) (mBookMatchesList w) (mCombinedResults w) (mCombinedResultsIndex w).
(** [search1s.js] after the data of the next book: the skip words are added one by one.
    Loading the panel again writes over the data but adds another match object. *)
Definition InitLoadBookSearchInfo (count min : Z) (skip : list string) (w : search) : search :=
  let i := mSearchInitIndex w in
  let bi := fold_left (fun bi s => AddSkipWord s bi) skip (new_info count min) in
  let l := mBookSearchInfoList w in
  Search (if i + 1 =? book_count then true else mbPanelInitialized w) (i + 1)
    (if i <? Z.of_nat (length l) then <[Z.to_nat i := bi]> l else l ++ [bi])
    (mMultiPhraseList w) (mSearchState w)
    (mSearchScopeInfo w) (mSavedSearchWords w) (mSavedSearchScope w) (mSearchWordList w)
    (mSearchWordRegExpList w) (mSearchBookIndex w) (mBookMatchesList w ++ [new_matches])
    (mCombinedResults w) (mCombinedResultsIndex w).

(** ** The words of a search *)
Definition search_words (text : string) : list string :=
  List.filter non_empty
    (flat_map (fun e => ParseWordsAndPhrases (ApplyWordBreaks e)) (ParseWordsAndPhrases text)).
Definition SetSearchWords (text : string) (w : search) : option search :=
  let words := search_words text in
  res ← mapM (fun s => new_RegExp (WordToRegExpPattern s)) words;
  Some (set_words words res (map (parsed_multi (toLowerCase text)) (mBookSearchInfoList w)) w).

(** [WWHSearch_Submit]: the form's text and the index of the chosen scope (a form for
    one book has no scopes).  The value says whether a search starts. *)
Definition Submit (ready : bool) (text : string) (selectedIndex : Z) (w : search) : option (bool * search) :=
  w ← (if ready && bool_decide (mSearchState w = None) then
         let w := if negb (String.eqb text (mSavedSearchWords w))
                  then set_form text (mSavedSearchScope w) (Some StateWords) w else w in
         let w := if (1 <? book_count) && negb (selectedIndex =? mSavedSearchScope w)
                  then set_form (mSavedSearchWords w) selectedIndex (Some StateWords) w else w in
         if bool_decide (mSearchState w = Some StateWords) && (0 <? slen (mSavedSearchWords w)) then
           let w := set_matches (map ClearMatches (mBookMatchesList w)) w in
           let w := set_results (ClearResults (mCombinedResults w)) w in
           SetSearchWords (mSavedSearchWords w) w
         else Some w
       else Some w);
  Some (bool_decide (mSearchState w = Some StateWords), w).

(** ** The scripts of a page *)
Inductive script :=
| SearchFile (book file : Z)   (* <book>wwhdata/js/search/search<file>.js *)
| Search2s                     (* fCheckForMatch(BookData_Search) *)
| Search3s                     (* mBookIndex++ *)
| Search4s                     (* fSearchWordsComplete() *)
| PairFile (book file : Z)     (* <book>wwhdata/js/search/pairs/pair<file>.js *)
| Search5s                     (* fCheckForPhraseMatch(FileData_Pairs) *)
| Search6s                     (* mCombinedResultsIndex++ *)
| Search7s.                    (* fSearchPairsComplete() *)

(** The entry of the chosen scope; [None] also for an index out of the list. *)
Definition scope_chosen (w : search) : option scope_entry := at_index (mSearchScopeInfo w) (mSavedSearchScope w - 1).

(** The books that are searched: the first and one past the last. *)
Definition scope_books (w : search) : option (Z * Z) :=
  if 0 <? mSavedSearchScope w then
    e ← scope_chosen w; Some (mStartBookIndex e, mEndBookIndex e + 1)
  else Some (0, book_count).

(** The scripts for one book; its directory is read first. *)
Definition book_scripts (w : search) (b : Z) : option (list script) :=
  _ ← GetBook books b;
  bi ← at_index (mBookSearchInfoList w) b;
  Some (flat_map (fun i => [SearchFile b i; Search2s]) (range 0 (Z.to_nat (mSearchFileCount bi))) ++ [Search3s]).
Definition words_scripts (w : search) : option (list script * search) :=
  '(first, past) ← scope_books w;
  l ← mapM (book_scripts w) (range first (Z.to_nat (past - first)));
  Some (concat l ++ [Search4s], set_book first w).

(** The scripts for one result. *)
Definition entry_scripts (w : search) (o : option entry) : option (list script) :=
  e ← o;
  m ← at_index (mMultiPhraseList w) (e_mBookIndex e);
  if 0 <? PhraseCount m then
    _ ← GetBook books (e_mBookIndex e);
    Some [PairFile (e_mBookIndex e) (e_mFileIndex e); Search5s; Search6s]
  else Some [Search6s].
Definition pairs_scripts (w : search) : option (list script) :=
  l ← mapM (entry_scripts w) (mEntries (mCombinedResults w));
  Some (concat l ++ [Search7s]).

(** ** What the scripts do *)

(** A search file is a list of [if(x.t(term))y.f(matches);]. *)
Definition search_data : Type := list (string * string).
Definition match_word (re : regexp) (count : Z) (data : search_data) (m : matches) : option matches :=
  fold_left (fun m '(term, text) => m ← m; if re_test re term then AddMatches text m else Some m)
    data (Some (SetMatchedWordIndex count m)).

(** [WWHSearch_CheckForMatch] *)
Fixpoint match_words (bi : info) (words : list string) (res : list regexp) (count : Z)
    (data : search_data) (m : matches) : option matches :=
  match words, res with
  | s :: words, re :: res =>
      if ValidSearchWord bi s then
        m ← match_word re count data m; match_words bi words res (count + 1) data m
      else match_words bi words res count data m
  | _, _ => Some m
  end.
Definition CheckForWordMatch (data : search_data) (w : search) : option search :=
  let b := mSearchBookIndex w in
  match mSearchWordList w with
  | [] => Some w
  | _ =>
      bi ← at_index (mBookSearchInfoList w) b;
      m ← at_index (mBookMatchesList w) b;
      m ← match_words bi (mSearchWordList w) (mSearchWordRegExpList w) 0 data m;
      Some (set_matches (<[Z.to_nat b := m]> (mBookMatchesList w)) w)
  end.

(** [WWHSearch_CombineResults]: the files of the books, in the order of their keys. *)
Definition book_entries (b : Z) (m : matches) : option (list entry) :=
  mapM (fun '(k, s) =>
          f ← parseInt (substring2 k 1 (slen k));
          bk ← GetBook books b;
          t ← FileIndexToTitle (mFiles bk) f;
          Some (Entry b f s t)) (mFileScores m).
Definition CombineResults (w : search) : option search :=
  let ms := map JoinFileScores (mBookMatchesList w) in
  l ← mapM (fun '(b, m) => book_entries (Z.of_nat b) m) (imap pair ms);
  Some (set_results (fold_left (fun r e => AddEntry e r) (concat l) (ClearResults (mCombinedResults w)))
          (set_matches ms w)).
Definition SearchWordsComplete (w : search) : option search := set_index 0 <$> CombineResults w.

(** [WWHSearch_CheckForPhraseMatch] on a page's list of neighbouring words. *)
Definition CheckForPhraseMatch (data : list (string * string)) (w : search) : option search :=
  let r := mCombinedResults w in
  o ← at_index (mEntries r) (mCombinedResultsIndex w);
  e ← o;
  m ← at_index (mMultiPhraseList w) (e_mBookIndex e);
  m ← ResetMatches m;
  m ← run_pairs data m;
  found ← CheckForMatch m;
  let w := set_multis (<[Z.to_nat (e_mBookIndex e) := m]> (mMultiPhraseList w)) w in
  Some (if found : bool then w
        else set_results (set_entries (<[Z.to_nat (mCombinedResultsIndex w) := None]> (mEntries r)) r) w).

(** The address of the page of an entry. *)
Definition entry_url (e : entry) : string :=
  base_url +++ default "" (BookFileIndiciesToHREF books (e_mBookIndex e) (e_mFileIndex e)).
(** One book is searched. *)
Definition single_book (w : search) : option bool :=
  if book_count =? 1 then Some true
  else if 0 <? mSavedSearchScope w then
    e ← scope_chosen w; Some (mStartBookIndex e =? mEndBookIndex e)
  else Some false.
Definition SearchPairsComplete (w : search) : option search :=
  let r := set_entries (List.filter (fun o => bool_decide (o <> None)) (mEntries (mCombinedResults w))) (mCombinedResults w) in
  one ← (if mbResultsByBook then Some true else single_book w);
  Some (set_results (if one : bool then SortByBookIndex entry_url r else SortByScore entry_url r) w).

(** ** Running the scripts *)

(** The object and the two functions that the data files define. *)
Record panel := Panel {
  p_search : search; BookData_Search : option search_data; FileData_Pairs : option (list (string * string))
}.
Definition on_search (f : search -> option search) (p : panel) : option panel :=
  w ← f (p_search p); Some (Panel w (BookData_Search p) (FileData_Pairs p)).

(** The data files of the server; of a file that does not load nothing is known, and the
    function of the file before is still there. *)
Context (load_search : Z -> Z -> option search_data) (load_pairs : Z -> Z -> option (list (string * string))).

Definition run_script (s : script) (p : panel) : option panel :=
  match s with
  | SearchFile b i =>
      Some (Panel (p_search p) (match load_search b i with Some d => Some d | None => BookData_Search p end) (FileData_Pairs p))
  | Search2s => d ← BookData_Search p; on_search (CheckForWordMatch d) p
  | Search3s => on_search (fun w => Some (set_book (mSearchBookIndex w + 1) w)) p
  | Search4s => on_search SearchWordsComplete p
  | PairFile b f =>
      Some (Panel (p_search p) (BookData_Search p) (match load_pairs b f with Some d => Some d | None => FileData_Pairs p end))
  | Search5s => d ← FileData_Pairs p; on_search (CheckForPhraseMatch d) p
  | Search6s => on_search (fun w => Some (set_index (mCombinedResultsIndex w + 1) w)) p
  | Search7s => on_search SearchPairsComplete p
  end.
Definition run_scripts (l : list script) (p : panel) : option panel :=
  fold_left (fun p s => p ≫= run_script s) l (Some p).

(** [WWHSearch_PanelViewLoaded] *)
Definition PanelViewLoaded (w : search) : search :=
  match mSearchState w with
  | Some StateWords => set_state (Some StatePairs) w
  | Some StatePairs => set_state None w
  | None => w
  end.

(** The page of the view in a state with something to do: its scripts are generated and
    run, and [onload] goes on to the next state.  (What the page shows is in
    [StartHTMLSegments].) *)
Definition view_page (p : panel) : option panel :=
  if mbPanelInitialized (p_search p) then
    match mSearchState (p_search p) with
    | Some StateWords =>
        '(l, w) ← words_scripts (p_search p);
        p ← run_scripts l (Panel w (BookData_Search p) (FileData_Pairs p));
        Some (Panel (PanelViewLoaded (p_search p)) (BookData_Search p) (FileData_Pairs p))
    | Some StatePairs =>
        l ← pairs_scripts (p_search p);
        p ← run_scripts l p;
        Some (Panel (PanelViewLoaded (p_search p)) (BookData_Search p) (FileData_Pairs p))
    | None => Some p
    end
  else Some p.
(** Reloading until there is nothing to do. *)
Definition view_pages (p : panel) : option panel := p ← view_page p; view_page p.
End search.
