(* ===== verification/HelpFind.v ===== *)
(** * What a search finds
    The scripts of the two pages of a search, run on the search data of the books, find
    exactly the pages that have every word and every phrase of the text, with the sum of
    the scores of the words, best first. *)
From Stdlib Require Import Sorted.
From S2P Require Import Prelude JsString JsNum JsVal HelpString HelpPattern HelpUnicode HelpBooks HelpPhrase HelpScore HelpSearch.
Open Scope Z_scope.
#[local] Set Warnings "-clear-no-such-hyp".

(** ** The search data *)

(** A search file: terms with the pages they are in. *)
Definition index_file : Type := list (string * hits).
Definition printed (d : index_file) : search_data := map (fun '(t, l) => (t, match_text l)) d.
Definition index_ok (d : index_file) : Prop := Forall (fun '(_, l) => l <> [] /\ natural l) d.

(** The expression of a word, and what it finds in a file. *)
Definition word_re (s : string) : regexp := Begin :: map word_piece (String.list_ascii_of_string s) ++ [End].
Definition term_hits (s : string) (d : index_file) : hits :=
  concat (map snd (List.filter (fun '(t, _) => re_test (word_re s) t) d)).
Definition word_hits (s : string) (files : list index_file) : hits := concat (map (term_hits s) files).

Lemma regexps_of_words words :
  mapM (fun s => new_RegExp (WordToRegExpPattern s)) words = Some (map word_re words).
Proof. induction words as [|s words IH]; [done|]. cbn [mapM map]. rewrite word_regexp. cbn [mbind option_bind]. by rewrite IH. Qed.

(** A page is a hit of a word when some term that the word describes lists it. *)
Lemma word_hits_iff s files f n :
  (f, n) ∈ word_hits s files <-> exists d t l, d ∈ files /\ (t, l) ∈ d /\ describes s t /\ (f, n) ∈ l.
Proof.
  assert (Hre : forall t, re_test (word_re s) t = true <-> describes s t).
  { intros t. unfold re_test, word_re. rewrite re_from_begin. apply re_here_word. }
  unfold word_hits, term_hits. rewrite list_elem_of_In, in_concat. split.
  - intros (h & Hh & Hin). apply in_map_iff in Hh as (d & <- & Hd). apply in_concat in Hin as (l & Hl & Hin).
    apply in_map_iff in Hl as ([t l'] & <- & Hl). apply filter_In in Hl as [Hl Ht].
    exists d, t, l'. split_and!; try (by apply list_elem_of_In). by apply Hre.
  - intros (d & t & l & Hd%list_elem_of_In & Hl%list_elem_of_In & Ht & Hin%list_elem_of_In). exists (concat (map snd (List.filter (fun '(t, _) => re_test (word_re s) t) d))).
    split; [apply in_map_iff; by exists d|]. apply in_concat. exists l. split; [|done].
    apply in_map_iff. exists (t, l). split; [done|]. apply filter_In. split; [done|]. by apply Hre.
Qed.

Lemma term_hits_natural s d : index_ok d -> natural (term_hits s d).
Proof.
  unfold index_ok, term_hits. induction 1 as [|[t l] d [_ Hl] _ IH]; [constructor|]. cbn [List.filter].
  case_if; cbn [map concat snd]; [|done]. by apply Forall_app.
Qed.
Lemma word_hits_natural s files : Forall index_ok files -> natural (word_hits s files).
Proof.
  unfold word_hits. induction 1 as [|d files Hd _ IH]; [constructor|]. cbn [map concat].
  apply Forall_app. split; [by apply term_hits_natural|done].
Qed.
Lemma hputs_app a b o : hputs (a ++ b) o = hputs b (hputs a o).
Proof. apply fold_left_app. Qed.

(** ** Matching a word in a file *)
Lemma AddMatches_at l m A o B :
  l <> [] -> natural l -> natural o -> mWordFileScores m = A ++ conc o :: B -> mMatchedWordIndex m = Z.of_nat (length A) ->
  AddMatches (match_text l) m
  = Some (Matches (mFirstMatchedWordIndex m) (mMatchedWordIndex m) (A ++ conc (hputs l o) :: B) (mFileScores m)).
Proof.
  intros Hne Hl Ho Hw Hi. unfold AddMatches, at_index. rewrite Hi. case_if; bool_to_prop; [lia|].
  rewrite Nat2Z.id, Hw, list_lookup_middle by done. cbn [mbind option_bind].
  rewrite add_matches_text by done. do 2 f_equal. rewrite insert_app_r_alt, Nat.sub_diag by lia. done.
Qed.

Lemma match_terms s d : forall m A o B,
  index_ok d -> natural o -> mWordFileScores m = A ++ conc o :: B -> mMatchedWordIndex m = Z.of_nat (length A) ->
  exists m', fold_left (fun m '(term, text) => m ← m; if re_test (word_re s) term then AddMatches text m else Some m)
      (printed d) (Some m) = Some m' /\
    mWordFileScores m' = A ++ conc (hputs (term_hits s d) o) :: B /\ mMatchedWordIndex m' = mMatchedWordIndex m.
Proof.
  induction d as [|[t l] d IH]; intros m A o B Hd Ho Hw Hi; [by exists m|].
  unfold index_ok in Hd. apply Forall_cons in Hd as [[Hne Hl] Hd]. cbn [printed map fold_left]. cbn [mbind option_bind].
  destruct (re_test (word_re s) t) eqn:E.
  - rewrite (AddMatches_at l m A o B) by done.
    destruct (IH (Matches (mFirstMatchedWordIndex m) (mMatchedWordIndex m) (A ++ conc (hputs l o) :: B) (mFileScores m)) A (hputs l o) B)
      as (m' & E1 & E2 & E3); [done|by apply natural_puts|done|done|].
    exists m'. split_and!; [done| |done]. rewrite E2. unfold term_hits. cbn [List.filter]. rewrite E. cbn [map concat snd].
    by rewrite hputs_app.
  - destruct (IH m A o B) as (m' & E1 & E2 & E3); [done..|]. exists m'. split_and!; [done| |done].
    rewrite E2. unfold term_hits. cbn [List.filter]. by rewrite E.
Qed.

(** The tables of the valid words of a book: made when the first file is matched. *)
Definition tables (W : list file_scores) (O : list hits) : Prop :=
  Forall natural O /\ (W = map conc O \/ (W = [] /\ O = replicate (length O) [])).

Lemma match_word_tables s d m A O : forall k,
  index_ok d -> natural k -> tables (skipn (length A) (mWordFileScores m)) (k :: O) ->
  mWordFileScores m = A ++ skipn (length A) (mWordFileScores m) ->
  exists m', match_word (word_re s) (Z.of_nat (length A)) (printed d) m = Some m' /\
    mWordFileScores m' = (A ++ [conc (hputs (term_hits s d) k)]) ++ skipn (S (length A)) (mWordFileScores m) /\
    tables (skipn (S (length A)) (mWordFileScores m)) O.
Proof.
  intros k Hd Hk [Hnat HW] HA. unfold match_word. inv Hnat as [|? ? _ HO].
  set (m1 := SetMatchedWordIndex (Z.of_nat (length A)) m).
  assert (H : exists B, mWordFileScores m1 = A ++ conc k :: B /\ B = skipn (S (length A)) (mWordFileScores m)).
  { unfold m1, SetMatchedWordIndex. cbn [mWordFileScores].
    destruct HW as [HW|[HW HO']]; rewrite HW in HA.
    - rewrite HA. cbn [map]. case_if; bool_to_prop.
      + rewrite length_app in E. cbn in E. lia.
      + eexists. split; [done|]. rewrite skipn_app. rewrite (skipn_all2 A) by lia.
        replace (S (length A) - length A)%nat with 1%nat by lia. done.
    - rewrite app_nil_r in HA. rewrite HA, Z.eqb_refl. cbn in HO'. injection HO' as -> HO'.
      exists []. split; [done|]. by rewrite skipn_all2 by lia. }
  destruct H as (B & HB & ->).
  destruct (match_terms s d m1 A k _ Hd Hk HB eq_refl) as (m' & E1 & E2 & E3).
  exists m'. split; [done|]. split; [by rewrite E2, <- app_assoc|]. split; [done|].
  destruct HW as [HW|[HW HO']]; rewrite HW in HA.
  - left. rewrite HA. cbn [map]. rewrite skipn_app, (skipn_all2 A) by lia.
    by replace (S (length A) - length A)%nat with 1%nat by lia.
  - right. rewrite app_nil_r in HA. split; [by rewrite HA, skipn_all2 by lia|]. cbn in HO'. by injection HO'.
Qed.

Definition new_tables (valid : list string) (files : list index_file) : list hits :=
  map (fun s => hputs (word_hits s files) []) valid.
Lemma new_tables_more valid files d :
  new_tables valid (files ++ [d]) = zip_with (fun s o => hputs (term_hits s d) o) valid (new_tables valid files).
Proof.
  unfold new_tables. induction valid as [|s valid IH]; [done|]. cbn [map zip_with]. rewrite <- IH. f_equal.
  unfold word_hits. rewrite map_app, concat_app. cbn [map concat]. by rewrite app_nil_r, hputs_app.
Qed.
Lemma new_tables_natural valid files : Forall index_ok files -> Forall natural (new_tables valid files).
Proof.
  intros H. unfold new_tables. apply Forall_map, Forall_forall. intros s _.
  apply natural_puts; [by apply word_hits_natural|constructor].
Qed.
Lemma new_tables_empty valid : tables [] (new_tables valid []).
Proof.
  assert (E : new_tables valid [] = replicate (length (new_tables valid [])) []).
  { unfold new_tables. rewrite length_map. induction valid as [|s valid IH]; [done|]. cbn. by rewrite <- IH. }
  split; [apply new_tables_natural; constructor|]. right. done.
Qed.

Lemma match_words_tables bi d words : index_ok d -> forall m A O,
  tables (skipn (length A) (mWordFileScores m)) O ->
  mWordFileScores m = A ++ skipn (length A) (mWordFileScores m) -> length O = length (valid_words bi words) ->
  exists m', match_words bi words (map word_re words) (Z.of_nat (length A)) (printed d) m = Some m' /\
    mWordFileScores m' = A ++ map conc (zip_with (fun s o => hputs (term_hits s d) o) (valid_words bi words) O).
Proof.
  intros Hd. unfold valid_words. induction words as [|s words IH]; intros m A O HT HA HO; cbn [map match_words List.filter] in *.
  - exists m. destruct O; [|done]. split; [done|]. rewrite HA at 1. f_equal. by destruct HT as [_ [HT|[HT _]]].
  - destruct (ValidSearchWord bi s); [|by apply IH].
    destruct O as [|k O]; [done|]. cbn [length] in HO.
    assert (Hk : natural k) by (destruct HT as [Hn _]; by inv Hn).
    destruct (match_word_tables s d m A O k Hd Hk HT HA) as (m1 & E1 & E2 & HT1). rewrite E1. cbn [mbind option_bind].
    set (A1 := A ++ [conc (hputs (term_hits s d) k)]) in *.
    assert (HL : length A1 = S (length A)) by (unfold A1; rewrite length_app; cbn; lia).
    assert (Hs : skipn (length A1) (mWordFileScores m1) = skipn (S (length A)) (mWordFileScores m)).
    { rewrite E2, skipn_app, skipn_all2 by lia. by rewrite Nat.sub_diag. }
    destruct (IH m1 A1 O) as (m' & E3 & E4); [by rewrite Hs|by rewrite Hs|lia|].
    exists m'. replace (Z.of_nat (length A) + 1) with (Z.of_nat (length A1)) by lia. split; [done|].
    rewrite E4. unfold A1. cbn [zip_with map]. by rewrite <- app_assoc.
Qed.

(** ** The first page: the words *)
Section first_page.
Context (books : book_list) (base_url : string) (mbResultsByBook : bool).
Context (index : Z -> list index_file) (page_pairs : Z -> Z -> list (string * string)).
Abbreviation book_count := (Z.of_nat (length (mBookList books))).

(** The files of the server. *)
Definition load_search (b i : Z) : option search_data := printed <$> at_index (index b) i.
Definition load_pairs (b f : Z) : option (list (string * string)) := Some (page_pairs b f).
Abbreviation run_ := (run_script books base_url mbResultsByBook load_search load_pairs).
Abbreviation runs := (run_scripts books base_url mbResultsByBook load_search load_pairs).

Lemma run_scripts_app l k p : runs (l ++ k) p = (p ← runs l p; runs k p).
Proof using.
  unfold run_scripts. rewrite fold_left_app. destruct (fold_left _ l (Some p)) as [q|]; cbn; [done|].
  induction k; cbn; auto.
Qed.
Lemma run_scripts_cons s l p : runs (s :: l) p = (p ← run_ s p; runs l p).
Proof using. apply (run_scripts_app [s]). Qed.
Lemma run_scripts_nil p : runs [] p = Some p.
Proof using. done. Qed.

Hypothesis Hindex : forall b, Forall index_ok (index b).

(** What the panel knows before the first page. *)
Context (w0 : search).
Definition info_at (b : Z) : option info := at_index (mBookSearchInfoList w0) b.
Definition valid_at (b : Z) : list string :=
  match info_at b with Some bi => valid_words bi (mSearchWordList w0) | None => [] end.
Hypothesis Hres : mSearchWordRegExpList w0 = map word_re (mSearchWordList w0).

(** The object during the first page. *)
Definition words_at (j : Z) (ms : list matches) : search := set_book j (set_matches ms w0).

(** Match objects: those of [ns] as in [ns], that of [b] with the tables of [files]. *)
Definition others (b : Z) (ms ns : list matches) : Prop :=
  length ms = length ns /\ forall i, i <> Z.to_nat b -> ms !! i = ns !! i.
Definition has_tables (b : Z) (files : list index_file) (ms : list matches) : Prop :=
  exists m, ms !! Z.to_nat b = Some m /\ tables (mWordFileScores m) (new_tables (valid_at b) files).

Lemma search2s_step b bi d files ms fp :
  0 <= b -> info_at b = Some bi -> index_ok d -> Forall index_ok files -> has_tables b files ms ->
  exists ms', run_ Search2s (Panel (words_at b ms) (Some (printed d)) fp)
    = Some (Panel (words_at b ms') (Some (printed d)) fp) /\ has_tables b (files ++ [d]) ms' /\ others b ms' ms.
Proof using Hres.
  intros Hb Hbi Hd Hfs (m & Hm & HT).
  cbn [run_script BookData_Search mbind option_bind]. unfold on_search. cbn [p_search]. unfold CheckForWordMatch.
  change (mSearchWordList (words_at b ms)) with (mSearchWordList w0).
  change (mSearchBookIndex (words_at b ms)) with b.
  change (mBookSearchInfoList (words_at b ms)) with (mBookSearchInfoList w0).
  change (mBookMatchesList (words_at b ms)) with ms.
  change (mSearchWordRegExpList (words_at b ms)) with (mSearchWordRegExpList w0). rewrite Hres.
  fold (info_at b). rewrite Hbi.
  assert (Hv : valid_at b = valid_words bi (mSearchWordList w0)) by (unfold valid_at; by rewrite Hbi).
  destruct (mSearchWordList w0) as [|s words] eqn:Ew.
  - exists ms. split; [done|]. split; [|done]. exists m. split; [done|]. by rewrite Hv in *.
  - cbn [mbind option_bind]. unfold at_index. case_if; bool_to_prop; [lia|]. rewrite Hm. cbn [mbind option_bind].
    destruct (match_words_tables bi d (s :: words) Hd m [] (new_tables (valid_at b) files)) as (m' & E1 & E2).
    + done.
    + done.
    + unfold new_tables. by rewrite length_map, Hv.
    + cbn [length] in E1. change (Z.of_nat 0) with 0 in E1. rewrite E1. cbn [mbind option_bind].
      exists (<[Z.to_nat b := m']> ms). split; [done|]. split.
      * exists m'. split; [apply list_lookup_insert_eq; by eapply lookup_lt_Some|].
        split; [apply new_tables_natural, Forall_app; by repeat constructor|]. left.
        by rewrite E2, new_tables_more, Hv.
      * split; [by rewrite length_insert|]. intros i Hi. by apply list_lookup_insert_ne.
Qed.

Lemma others_trans b ms ns ps : others b ms ns -> others b ns ps -> others b ms ps.
Proof using. intros [L1 H1] [L2 H2]. split; [congruence|]. intros i Hi. by rewrite H1, H2. Qed.
Lemma others_refl b ms : others b ms ms.
Proof using. done. Qed.

Lemma search_files_run b bi : 0 <= b -> info_at b = Some bi -> forall suf pre ms f0 fp,
  index b = pre ++ suf -> has_tables b pre ms ->
  exists ms' f', runs (flat_map (fun i => [SearchFile b i; Search2s]) (range (Z.of_nat (length pre)) (length suf)))
      (Panel (words_at b ms) f0 fp) = Some (Panel (words_at b ms') f' fp) /\
    has_tables b (index b) ms' /\ others b ms' ms.
Proof using Hindex Hres.
  intros Hb Hbi. induction suf as [|d suf IH]; intros pre ms f0 fp E HT.
  - exists ms, f0. cbn [length range flat_map]. rewrite app_nil_r in E. rewrite E. by split_and!.
  - cbn [length range flat_map app]. rewrite !run_scripts_cons. cbn [run_script].
    assert (Hl : load_search b (Z.of_nat (length pre)) = Some (printed d)).
    { unfold load_search, at_index. case_if; bool_to_prop; [lia|]. by rewrite Nat2Z.id, E, list_lookup_middle. }
    rewrite Hl. cbn [mbind option_bind p_search FileData_Pairs].
    assert (Hok : Forall index_ok (index b)) by apply Hindex. rewrite E in Hok. apply Forall_app in Hok as [Hpre Hsuf].
    inv Hsuf as [|? ? Hd Hsuf'].
    destruct (search2s_step b bi d pre ms fp Hb Hbi Hd Hpre HT) as (ms1 & E1 & HT1 & Ho1).
    rewrite run_scripts_cons, E1. cbn [mbind option_bind].
    assert (E' : index b = (pre ++ [d]) ++ suf) by (by rewrite <- app_assoc).
    destruct (IH (pre ++ [d]) ms1 (Some (printed d)) fp E' HT1) as (ms' & f' & E2 & HT2 & Ho2).
    exists ms', f'. replace (Z.of_nat (length pre) + 1) with (Z.of_nat (length (pre ++ [d]))) by (rewrite length_app; cbn; lia).
    split_and!; [done|done|]. by eapply others_trans.
Qed.

(** The data of every book are complete. *)
Hypothesis Hinfo : forall b, 0 <= b < book_count -> exists bi, info_at b = Some bi /\ mSearchFileCount bi = Z.of_nat (length (index b)).

Lemma get_book b : 0 <= b < book_count -> exists bk, GetBook books b = Some bk.
Proof using.
  intros Hb. unfold GetBook, at_index. case_if; bool_to_prop; [lia|]. apply lookup_lt_is_Some_2. lia.
Qed.

Lemma book_run b ms f0 fp : 0 <= b < book_count -> has_tables b [] ms ->
  exists l ms' f', book_scripts books w0 b = Some l /\
    runs l (Panel (words_at b ms) f0 fp) = Some (Panel (words_at (b + 1) ms') f' fp) /\
    has_tables b (index b) ms' /\ others b ms' ms.
Proof using Hindex Hinfo Hres.
  intros Hb HT. destruct (Hinfo b Hb) as (bi & Hbi & Hc). destruct (get_book b Hb) as [bk Hbk].
  destruct (search_files_run b bi (proj1 Hb) Hbi (index b) [] ms f0 fp eq_refl HT) as (ms' & f' & E & HT' & Ho).
  unfold book_scripts. rewrite Hbk. cbn [mbind option_bind]. unfold info_at in Hbi. rewrite Hbi. cbn [mbind option_bind].
  rewrite Hc, Nat2Z.id. eexists _, ms', f'. split; [done|]. split; [|by split].
  rewrite run_scripts_app. cbn [length] in E. change (Z.of_nat 0) with 0 in E. rewrite E. cbn [mbind option_bind].
  by rewrite run_scripts_cons.
Qed.

(** After the books from [first] to [past] the tables of these are made. *)
Definition matched (first past : Z) (ms : list matches) : Prop :=
  forall b, 0 <= b < book_count -> has_tables b (if (first <=? b) && (b <? past) then index b else []) ms.

Lemma has_tables_others b c files ms ns : others b ms ns -> 0 <= b -> 0 <= c -> c <> b -> has_tables c files ns -> has_tables c files ms.
Proof using. intros [_ Ho] Hb Hc Hne (m & Hm & HT). exists m. split; [rewrite Ho; [done|lia]|done]. Qed.

Lemma books_run first k : 0 <= first -> forall done ms f0 fp,
  first + Z.of_nat done + Z.of_nat k <= book_count -> matched first (first + Z.of_nat done) ms ->
  exists l ms' f', mapM (book_scripts books w0) (range (first + Z.of_nat done) k) = Some l /\
    runs (concat l) (Panel (words_at (first + Z.of_nat done) ms) f0 fp)
      = Some (Panel (words_at (first + Z.of_nat done + Z.of_nat k) ms') f' fp) /\
    matched first (first + Z.of_nat done + Z.of_nat k) ms' /\ length ms' = length ms.
Proof using Hindex Hinfo Hres.
  intros Hf. induction k as [|k IH]; intros done ms f0 fp Hk HM.
  - exists [], ms, f0. cbn [range mapM concat]. rewrite !Z.add_0_r. by split_and!.
  - set (b := first + Z.of_nat done) in *. assert (Hb : 0 <= b < book_count) by (unfold b; lia).
    destruct (book_run b ms f0 fp Hb) as (l & ms1 & f1 & El & E1 & HT1 & Ho1).
    { specialize (HM b Hb). destruct (Z.leb_spec first b), (Z.ltb_spec b b); try lia; done. }
    destruct (IH (S done) ms1 f1 fp) as (ls & ms' & f' & Els & E2 & HM' & Hlen).
    + unfold b in *. lia.
    + intros c Hc. destruct (Z.eq_dec c b) as [->|Hne].
      * replace ((first <=? b) && (b <? _)) with true; [done|].
        symmetry. apply andb_true_intro. unfold b. split; [apply Z.leb_le|apply Z.ltb_lt]; lia.
      * apply (has_tables_others b c _ ms1 ms Ho1); [lia|lia|done|].
        replace ((first <=? c) && (c <? first + Z.of_nat (S done))) with ((first <=? c) && (c <? b)); [by apply HM|].
        f_equal. unfold b in *. apply eq_bool_prop_intro. rewrite !Is_true_true, !Z.ltb_lt. lia.
    + replace (first + Z.of_nat (S done)) with (b + 1) in * by (unfold b; lia).
      exists (l :: ls), ms', f'. cbn [range mapM]. rewrite El. cbn [mbind option_bind].
      assert (Eb : b + Z.of_nat (S k) = b + 1 + Z.of_nat k) by lia. rewrite Eb.
      split; [|split; [|split]].
      * change (mapM (book_scripts books w0) (range (b + 1) k)) with (mapM (book_scripts books w0) (range (b + 1) k)).
        rewrite Els. done.
      * cbn [concat]. rewrite run_scripts_app, E1. done.
      * done.
      * rewrite Hlen. apply Ho1.
Qed.
End first_page.

(** ** Joining the words of a book *)
Definition joined (O : list hits) : hits := match O with [] => [] | o :: os => fold_left hjoin os o end.
(** The sum of the scores of a page in the hits of the words, if each of them has it. *)
Definition total_score (f : Z) (hs : list hits) : option Z :=
  match hs with
  | [] => None
  | h :: hs => fold_left (fun a h => s ← a; (fun t => s + t) <$> last_hit f h) hs (last_hit f h)
  end.

Lemma total_score_none hs f : fold_left (fun a h => s ← a; (fun t => s + t) <$> last_hit f h) hs None = None.
Proof. by induction hs. Qed.
Lemma joined_get valid files f :
  hget f (joined (new_tables valid files)) = total_score f (map (fun s => word_hits s files) valid).
Proof.
  unfold joined, new_tables, total_score. destruct valid as [|s valid]; [done|]. cbn [map].
  assert (E : forall a h, a = hget f h ->
    hget f (fold_left hjoin (map (fun s => hputs (word_hits s files) []) valid) h)
    = fold_left (fun a h => s ← a; (fun t => s + t) <$> last_hit f h) (map (fun s => word_hits s files) valid) a).
  { induction valid as [|t valid IH]; intros a h ->; [done|]. cbn [map fold_left]. apply IH.
    rewrite hget_join, hget_puts. change (hget f []) with (@None Z).
    by destruct (last_hit f (word_hits t files)). }
  apply E. rewrite hget_puts. by destruct (last_hit f (word_hits s files)).
Qed.
Lemma joined_natural O : Forall natural O -> natural (joined O).
Proof.
  destruct O as [|o os]; [constructor|]. cbn [joined]. intros H. inv H as [|? ? Ho Hos]. revert o Ho.
  induction Hos as [|k os Hk _ IH]; intros o Ho; [done|]. cbn [fold_left]. apply IH. by apply natural_join.
Qed.
Lemma joined_distinct O : Forall distinct O -> distinct (joined O).
Proof.
  destruct O as [|o os]; [constructor|]. cbn [joined]. intros H. inv H as [|? ? Ho Hos]. revert o Ho.
  induction os as [|k os IH]; intros o Ho; [done|]. inv Hos. cbn [fold_left]. apply IH; [done|]. by apply distinct_join.
Qed.
Lemma new_tables_distinct valid files : Forall distinct (new_tables valid files).
Proof. apply Forall_map, Forall_forall. intros s _. apply distinct_puts. constructor. Qed.
Lemma joined_empty n : joined (replicate n []) = [].
Proof.
  destruct n as [|n]; [done|]. cbn [replicate joined]. induction n as [|n IH]; [done|]. cbn [replicate fold_left]. apply IH.
Qed.

Lemma JoinFileScores_tables m O : tables (mWordFileScores m) O -> mFileScores (JoinFileScores m) = conc (joined O).
Proof.
  intros [Hn HW]. unfold JoinFileScores. destruct HW as [HW|[HW HO]]; rewrite HW.
  - destruct O as [|o os]; [done|]. cbn [map mFileScores joined]. clear HW. inv Hn as [|? ? Ho Hos]. revert o Ho.
    induction Hos as [|k os Hk _ IH]; intros o Ho; [done|]. cbn [map fold_left]. rewrite join_conc by done.
    apply IH. by apply natural_join.
  - rewrite HO, joined_empty. done.
Qed.

(** A file of the result is one that some word lists. *)
Lemma joined_listed valid files f s : (f, s) ∈ joined (new_tables valid files) ->
  exists w n, w ∈ valid /\ (f, n) ∈ word_hits w files.
Proof.
  intros H%hget_in; [|apply joined_distinct, new_tables_distinct]. rewrite joined_get in H.
  destruct valid as [|w valid]; [done|]. exists w. cbn [map total_score] in H.
  destruct (last_hit f (word_hits w files)) as [n|] eqn:E; [|by rewrite total_score_none in H].
  exists n. split; [by left|]. by apply last_hit_some.
Qed.

(** ** The results of the first page *)
Section results.
Context (books : book_list) (index : Z -> list index_file).
Abbreviation book_count := (Z.of_nat (length (mBookList books))).
(** Every page that the data list is a file of its book. *)
Hypothesis Hlisted : forall b bk d t l f n, GetBook books b = Some bk ->
  d ∈ index b -> (t, l) ∈ d -> (f, n) ∈ l -> is_Some (FileIndexToTitle (mFiles bk) f).

Definition title_of (b f : Z) : string :=
  default "" (bk ← GetBook books b; FileIndexToTitle (mFiles bk) f).
Definition entry_of (b : Z) (h : Z * Z) : entry := Entry b (fst h) (num_of_Z (snd h)) (title_of b (fst h)).

Lemma book_entries_conc b h bk : GetBook books b = Some bk -> natural h ->
  Forall (fun '(f, _) => is_Some (FileIndexToTitle (mFiles bk) f)) h ->
  forall m, mFileScores m = conc h -> book_entries books b m = Some (map (entry_of b) h).
Proof using.
  intros Hbk Hn Hl m Hm. unfold book_entries. rewrite Hm. clear Hm m.
  induction h as [|[f s] h IH]; [done|]. apply natural_cons in Hn as [[Hf Hs] Hn]. apply Forall_cons in Hl as [[t Ht] Hl'].
  change (conc ((f, s) :: h)) with ((key f, num_of_Z s) :: conc h). cbn [mapM].
  rewrite IH, key_number by done. cbn [mbind option_bind]. rewrite Hbk. cbn [mbind option_bind]. rewrite Ht.
  cbn [mbind option_bind mret option_ret map]. unfold entry_of at 2, title_of. cbn [fst snd].
  rewrite Hbk. cbn [mbind option_bind]. by rewrite Ht.
Qed.
Lemma book_entries_none b m : mFileScores m = [] -> book_entries books b m = Some [].
Proof using. intros E. unfold book_entries. by rewrite E. Qed.

Lemma word_hits_in s files f n : (f, n) ∈ word_hits s files -> exists d t l, d ∈ files /\ (t, l) ∈ d /\ (f, n) ∈ l.
Proof using. rewrite word_hits_iff. intros (d & t & l & ? & ? & _ & ?). by exists d, t, l. Qed.

Lemma joined_in_book b bk files valid : GetBook books b = Some bk -> files ⊆ index b ->
  Forall (fun '(f, _) => is_Some (FileIndexToTitle (mFiles bk) f)) (joined (new_tables valid files)).
Proof using Hlisted.
  intros Hbk Hsub. apply Forall_forall. intros [f s] Hin. apply joined_listed in Hin as (w & n & _ & Hin).
  apply word_hits_in in Hin as (d & t & l & Hd & Hl & Hin). by eapply (Hlisted b); [|apply Hsub| |].
Qed.

Lemma AddEntry_all l : forall r, mEntries (fold_left (fun r e => AddEntry e r) l r) = mEntries r ++ map Some l.
Proof using.
  induction l as [|e l IH]; intros r; cbn [fold_left map]; [by rewrite app_nil_r|].
  rewrite IH. cbn. by rewrite <- app_assoc.
Qed.

(** The match objects, one for each book, give the entries book by book. *)
Lemma entries_of_books (tabs : Z -> hits) ms : forall j,
  0 <= j -> j + Z.of_nat (length ms) <= book_count ->
  (forall b bk, j <= b < book_count -> GetBook books b = Some bk ->
     natural (tabs b) /\ Forall (fun '(f, _) => is_Some (FileIndexToTitle (mFiles bk) f)) (tabs b)) ->
  (forall i m, ms !! i = Some m -> mFileScores m = conc (tabs (j + Z.of_nat i))) ->
  mapM (fun '(b, m) => book_entries books (Z.of_nat b) m) (imap (fun i m => ((Z.to_nat j + i)%nat, m)) ms)
  = Some (map (fun b => map (entry_of b) (tabs b)) (range j (length ms))).
Proof using.
  induction ms as [|m ms IH]; intros j Hj Hlen Htabs Hms; [done|]. cbn [length] in Hlen.
  cbn [imap length range map mapM]. rewrite Nat.add_0_r, Z2Nat.id by done.
  destruct (get_book books j) as [bk Hbk]; [lia|]. destruct (Htabs j bk ltac:(lia) Hbk) as [Hn Hl].
  rewrite (book_entries_conc j (tabs j) bk Hbk Hn Hl m); [|rewrite (Hms O m eq_refl); do 2 f_equal; lia].
  cbn [mbind option_bind].
  assert (E : imap ((λ i m, ((Z.to_nat j + i)%nat, m)) ∘ S) ms = imap (fun i m => ((Z.to_nat (j + 1) + i)%nat, m)) ms).
  { apply imap_ext. intros i x _. cbn. f_equal. lia. }
  rewrite E, (IH (j + 1)); [done|lia|lia| |].
  - intros b bk' Hb. apply Htabs. lia.
  - intros i x Hx. rewrite (Hms (S i) x Hx). do 2 f_equal. lia.
Qed.
End results.
