(* ===== verification/HelpFound.v ===== *)
(** * A search from the form to the results
    The second page of a search drops the pages without the phrases and sorts the rest;
    with the first page ([HelpFind]) and [WWHSearch_Submit] this gives what a search of
    the help finds. *)
From Stdlib Require Import Sorted.
From S2P Require Import Prelude JsString JsNum JsVal HelpString HelpPattern HelpUnicode HelpBooks HelpPages HelpPhrase HelpScore HelpSearch HelpFind.
Open Scope Z_scope.
#[local] Set Warnings "-clear-no-such-hyp".

(** ** The second page: the phrases *)
Lemma at_index_nat {A} (l : list A) i : at_index l (Z.of_nat i) = l !! i.
Proof. unfold at_index. case_if; bool_to_prop; [lia|]. by rewrite Nat2Z.id. Qed.

Lemma same_object w :
  set_index (mCombinedResultsIndex w)
    (set_results (set_entries (mEntries (mCombinedResults w)) (mCombinedResults w)) (set_multis (mMultiPhraseList w) w)) = w.
Proof. by destruct w as [? ? ? ? ? ? ? ? ? ? ? ? [] ?]. Qed.

Section second_page.
Context (books : book_list) (base_url : string) (mbResultsByBook : bool).
Context (index : Z -> list index_file) (page_pairs : Z -> Z -> list (string * string)).
Abbreviation book_count := (Z.of_nat (length (mBookList books))).
Abbreviation run_ := (run_script books base_url mbResultsByBook (load_search index) (load_pairs page_pairs)).
Abbreviation runs := (run_scripts books base_url mbResultsByBook (load_search index) (load_pairs page_pairs)).

(** What the object knows before the second page: the words of the phrases by books. *)
Context (w1 : search) (phrases : Z -> list (list string)).
Definition multis_ok (ms : list multi) : Prop :=
  forall b, 0 <= b < book_count ->
    exists m, at_index ms b = Some m /\ phrases_ok m /\ map mWords (mPhraseObjects m) = phrases b.
Hypothesis Hmultis : multis_ok (mMultiPhraseList w1).

Definition words_found (T : list (string * string)) (ws : list string) : Prop :=
  forall a b, adjacent a b ws -> (a, b) ∈ T.
(** The page of an entry has every phrase. *)
Definition in_page (e : entry) : Prop :=
  Forall (words_found (page_pairs (e_mBookIndex e) (e_mFileIndex e))) (phrases (e_mBookIndex e)).
#[global] Instance in_page_dec e : Decision (in_page e).
Proof.
  apply Forall_dec. intros ws. apply (phrase_found_dec _ (Phrase_ "" ws None)).
Defined.

Lemma phrases_found_iff m b T : map mWords (mPhraseObjects m) = phrases b ->
  Forall (phrase_found T) (mPhraseObjects m) <-> Forall (words_found T) (phrases b).
Proof using. intros <-. by rewrite Forall_map. Qed.

(** The object during the second page. *)
Definition pairs_at (i : Z) (ms : list multi) (es : list (option entry)) : search :=
  set_index i (set_results (set_entries es (mCombinedResults w1)) (set_multis ms w1)).

Definition kept (e : entry) : option entry := if bool_decide (in_page e) then Some e else None.

Lemma phrase_step e pre post ms bf fp :
  0 <= e_mBookIndex e < book_count -> multis_ok ms ->
  exists l ms' fp', entry_scripts books w1 (Some e) = Some l /\
    runs l (Panel (pairs_at (Z.of_nat (length pre)) ms (pre ++ Some e :: post)) bf fp)
      = Some (Panel (pairs_at (Z.of_nat (length pre) + 1) ms' (pre ++ kept e :: post)) bf fp') /\ multis_ok ms'.
Proof using Hmultis.
  intros Hb Hms. set (b := e_mBookIndex e) in *. set (f := e_mFileIndex e).
  destruct (Hmultis b Hb) as (m1 & Em1 & _ & Hw1). destruct (Hms b Hb) as (m & Em & Hok & Hw).
  destruct (get_book books b Hb) as [bk Hbk]. unfold entry_scripts. cbn [mbind option_bind]. fold b f. rewrite Em1. cbn [mbind option_bind].
  assert (Hcount : PhraseCount m1 = PhraseCount m).
  { unfold PhraseCount. rewrite <- (length_map mWords), Hw1, <- Hw. by rewrite length_map. }
  rewrite Hcount. destruct (Z.ltb_spec 0 (PhraseCount m)) as [Hc|Hc].
  - rewrite Hbk. cbn [mbind option_bind]. eexists. 
    destruct (phrases_in_page (page_pairs b f) m Hok Hc) as (m2 & m3 & E2 & E3 & Hok3 & Hw3 & Ec).
    exists (<[Z.to_nat b := m3]> ms), (Some (page_pairs b f)). split; [done|]. split.
    + rewrite run_scripts_cons. cbn [run_script load_pairs mbind option_bind p_search BookData_Search].
      rewrite run_scripts_cons. cbn [run_script FileData_Pairs mbind option_bind]. unfold on_search at 1. cbn [p_search].
      unfold CheckForPhraseMatch.
      change (mEntries (mCombinedResults (pairs_at (Z.of_nat (length pre)) ms (pre ++ Some e :: post)))) with (pre ++ Some e :: post).
      change (mCombinedResultsIndex (pairs_at (Z.of_nat (length pre)) ms (pre ++ Some e :: post))) with (Z.of_nat (length pre)).
      change (mMultiPhraseList (pairs_at (Z.of_nat (length pre)) ms (pre ++ Some e :: post))) with ms.
      rewrite at_index_nat, list_lookup_middle by done. cbn [mbind option_bind].
      fold b. rewrite Em. cbn [mbind option_bind]. rewrite E2. cbn [mbind option_bind]. rewrite E3. cbn [mbind option_bind].
      rewrite Ec. cbn [mbind option_bind BookData_Search FileData_Pairs]. rewrite run_scripts_cons. unfold kept.
      assert (Hkeep : bool_decide (Forall (phrase_found (page_pairs b f)) (mPhraseObjects m)) = bool_decide (in_page e)).
      { apply bool_decide_ext. unfold in_page. fold b f. by apply phrases_found_iff. }
      rewrite Hkeep. destruct (bool_decide (in_page e)); [done|]. cbn [run_script mbind option_bind]. unfold on_search. cbn [p_search mbind option_bind].
      rewrite run_scripts_nil. do 2 f_equal. unfold pairs_at. cbn [mCombinedResultsIndex set_index set_multis set_results set_words].
      rewrite Nat2Z.id, insert_app_r_alt, Nat.sub_diag by lia. done.
    + intros c Hcb. destruct (Z.eq_dec c b) as [->|Hne].
      * exists m3. split; [|split; [done|by rewrite Hw3]]. unfold at_index in *. case_if; [done|].
        apply list_lookup_insert_eq. by eapply lookup_lt_Some.
      * destruct (Hms c Hcb) as (mc & Emc & Hc1 & Hc2). exists mc. split; [|done]. unfold at_index in *. case_if; [done|].
        bool_to_prop. rewrite list_lookup_insert_ne by lia. done.
  - exists [Search6s], ms, fp. split; [done|]. split; [|done]. rewrite run_scripts_cons. cbn [run_script]. unfold on_search. cbn [p_search mbind option_bind].
    rewrite run_scripts_nil. unfold kept. rewrite bool_decide_true; [done|]. unfold in_page. fold b f. rewrite <- Hw.
    assert (E : mPhraseObjects m = []) by (apply length_zero_iff_nil; unfold PhraseCount in Hc; lia). by rewrite E.
Qed.

Lemma phrase_steps L : forall pre ms bf fp,
  Forall (fun e => 0 <= e_mBookIndex e < book_count) L -> multis_ok ms ->
  exists l ms' fp', mapM (entry_scripts books w1) (map Some L) = Some l /\
    runs (concat l) (Panel (pairs_at (Z.of_nat (length pre)) ms (pre ++ map Some L)) bf fp)
      = Some (Panel (pairs_at (Z.of_nat (length pre + length L)) ms' (pre ++ map kept L)) bf fp') /\ multis_ok ms'.
Proof using Hmultis.
  induction L as [|e L IH]; intros pre ms bf fp HL Hms.
  - exists [], ms, fp. cbn [map mapM concat length]. by rewrite Nat.add_0_r.
  - inv HL as [|? ? He HL']. cbn [map].
    destruct (phrase_step e pre (map Some L) ms bf fp He Hms) as (l & ms1 & fp1 & El & E1 & Hms1).
    destruct (IH (pre ++ [kept e]) ms1 bf fp1 HL' Hms1) as (ls & ms' & fp' & Els & E2 & Hms').
    exists (l :: ls), ms', fp'. cbn [mapM]. rewrite El. cbn [mbind option_bind].
    split; [by rewrite Els|]. split; [|done]. cbn [concat]. rewrite run_scripts_app, E1. cbn [mbind option_bind].
    rewrite length_app in E2. cbn [length] in E2. rewrite <- !app_assoc in E2.
    replace (Z.of_nat (length pre) + 1) with (Z.of_nat (length pre + 1)) by lia. cbn [app] in E2. rewrite E2. cbn [length].
    do 4 f_equal. lia.
Qed.

Lemma filter_kept L : omap id (List.filter (fun o => bool_decide (o <> None)) (map kept L)) = List.filter (fun e => bool_decide (in_page e)) L.
Proof using.
  induction L as [|e L IH]; [done|]. cbn [map List.filter]. destruct (decide (in_page e)) as [H|H].
  - assert (kept e = Some e) as -> by (unfold kept; by rewrite bool_decide_true).
    rewrite !bool_decide_true by done. cbn. f_equal. apply IH.
  - assert (kept e = None) as -> by (unfold kept; by rewrite bool_decide_false).
    rewrite !bool_decide_false by (done || intros Hn; by apply Hn). apply IH.
Qed.

(** The order that the results are put into. *)
Definition rank (one : bool) : entry -> entry -> Z :=
  (if one then ByBookIndexByScoreByTitleFileIndexURL else ByScoreByBookIndexByTitleFileIndexURL) (entry_url books base_url).

Lemma second_page L one bf fp :
  mEntries (mCombinedResults w1) = map Some L -> mCombinedResultsIndex w1 = 0 ->
  Forall (fun e => 0 <= e_mBookIndex e < book_count) L ->
  (if mbResultsByBook then Some true else single_book books w1) = Some one ->
  exists l w2 fp', pairs_scripts books w1 = Some l /\
    runs l (Panel w1 bf fp) = Some (Panel w2 bf fp') /\
    (exists i ms r, w2 = set_index i (set_results r (set_multis ms w1))) /\
    mSortedBy (mCombinedResults w2) = Some (if one then 2 else 1) /\
    mEntries (mCombinedResults w2) = map Some (js_sort (rank one) (List.filter (fun e => bool_decide (in_page e)) L)).
Proof using Hmultis.
  intros HE HI HL Hone.
  destruct (phrase_steps L [] (mMultiPhraseList w1) bf fp HL Hmultis) as (l & ms & fp' & El & E & _).
  unfold pairs_scripts. rewrite HE, El. cbn [mbind option_bind]. eexists. 
  assert (E0 : pairs_at 0 (mMultiPhraseList w1) (map Some L) = w1).
  { unfold pairs_at. rewrite <- HE, <- HI at 1. apply same_object. }
  cbn [length app] in E. change (Z.of_nat 0) with 0 in E. rewrite E0 in E.
  eexists _, fp'. split; [done|]. rewrite run_scripts_app, E. cbn [mbind option_bind]. rewrite run_scripts_cons. cbn [run_script]. unfold on_search. cbn [p_search].
  unfold SearchPairsComplete.
  change (single_book books (pairs_at (Z.of_nat (0 + length L)) ms (map kept L))) with (single_book books w1). rewrite Hone. cbn [mbind option_bind].
  rewrite run_scripts_nil. split; [done|]. split; [by eexists _, _, _|]. split; [by destruct one|].
  rewrite <- filter_kept; unfold rank; by destruct one.
Qed.
End second_page.

Lemma NoDup_range a n : NoDup (range a n).
Proof.
  revert a. induction n as [|n IH]; intros a; cbn [range]; constructor; [|done]. rewrite range_in. lia.
Qed.
Lemma NoDup_map_filter {A B} (g : A -> B) f (l : list A) : NoDup (map g l) -> NoDup (map g (List.filter f l)).
Proof.
  induction l as [|x l IH]; [done|]. cbn [map List.filter]. intros H. inv H as [|? ? Hx Hd].
  destruct (f x); [|by apply IH]. cbn [map]. constructor; [|by apply IH]. intros Hin. apply Hx.
  apply list_elem_of_In, in_map_iff in Hin as (y & <- & Hy). apply filter_In in Hy as [Hy _].
  by apply list_elem_of_In, in_map.
Qed.

(** ** A search from the form to the results *)
Section whole_search.
Context (books : book_list) (base_url : string) (mbResultsByBook : bool).
Context (index : Z -> list index_file) (page_pairs : Z -> Z -> list (string * string)).
Abbreviation book_count := (Z.of_nat (length (mBookList books))).
Abbreviation view := (view_pages books base_url mbResultsByBook (load_search index) (load_pairs page_pairs)).

(** The data of the help are complete and name pages that exist. *)
Record data_ok : Prop := {
  data_index b : Forall index_ok (index b);
  data_listed b bk d t l f n : GetBook books b = Some bk ->
    d ∈ index b -> (t, l) ∈ d -> (f, n) ∈ l -> is_Some (FileIndexToTitle (mFiles bk) f)
}.
Hypothesis Hdata : data_ok.

(** The panel is loaded and no search is under way. *)
Record panel_ready (w : search) : Prop := {
  ready_init : mbPanelInitialized w = true;
  ready_idle : mSearchState w = None;
  ready_matches : length (mBookMatchesList w) = length (mBookList books);
  ready_infos : length (mBookSearchInfoList w) = length (mBookList books);
  ready_counts b bi : mBookSearchInfoList w !! b = Some bi -> mSearchFileCount bi = Z.of_nat (length (index (Z.of_nat b)))
}.

(** The words of a text in a book. *)
Definition book_words (bi : info) (text : string) : list string := valid_words bi (search_words text).

(** The entry [e] is a page of one of the books searched that every word of the text
    finds, with the sum of the scores, and that has every quoted phrase. *)
Definition found (w : search) (text : string) (items : list item) (first past : Z) (e : entry) : Prop :=
  let b := e_mBookIndex e in let f := e_mFileIndex e in
  first <= b < past /\ exists bi s,
    at_index (mBookSearchInfoList w) b = Some bi /\
    total_score f (map (fun s => word_hits s (index b)) (book_words bi text)) = Some s /\
    Forall (words_found (page_pairs b f)) (concat (map (phrase_words bi) items)) /\
    e = entry_of books b (f, s).

Definition page_key (e : entry) : Z * Z := (e_mBookIndex e, e_mFileIndex e).

(** The object when the pages are loaded after [Submit]. *)
Definition submitted (text : string) (w w' : search) : Prop :=
  mbPanelInitialized w' = true /\ mSearchState w' = Some StateWords /\
  mBookSearchInfoList w' = mBookSearchInfoList w /\ mSearchWordList w' = search_words text /\
  mSearchWordRegExpList w' = map word_re (search_words text) /\
  mMultiPhraseList w' = map (parsed_multi (toLowerCase text)) (mBookSearchInfoList w) /\
  mBookMatchesList w' = map ClearMatches (mBookMatchesList w) /\ mSearchScopeInfo w' = mSearchScopeInfo w /\ mSavedSearchWords w' = text.

Lemma SetSearchWords_spec text w : SetSearchWords text w =
  Some (set_words (search_words text) (map word_re (search_words text))
          (map (parsed_multi (toLowerCase text)) (mBookSearchInfoList w)) w).
Proof using. unfold SetSearchWords. by rewrite regexps_of_words. Qed.

(** A new text starts a search. *)
Lemma Submit_new text sel w : panel_ready w -> text <> mSavedSearchWords w -> text <> "" ->
  exists w', Submit books true text sel w = Some (true, w') /\ submitted text w w' /\
    mSavedSearchScope w' = if 1 <? book_count then sel else mSavedSearchScope w.
Proof using.
  intros [Hi Hs Hm Hn Hc] Hne Ht. unfold Submit. rewrite Hs, bool_decide_true by done. cbn [andb].
  rewrite (proj2 (String.eqb_neq _ _) Hne). cbn [negb].
  assert (Hl : (0 <? slen text) = true) by (apply Z.ltb_lt; destruct text; [done|unfold slen; cbn; lia]).
  destruct (1 <? book_count); cbn [andb mSavedSearchScope set_form].
  - destruct (Z.eqb_spec sel (mSavedSearchScope w)) as [->|]; cbn [negb mSearchState mSavedSearchWords set_form];
      rewrite bool_decide_true, Hl by done; cbn [andb]; rewrite SetSearchWords_spec; cbn [mbind option_bind];
      rewrite bool_decide_true by done; (eexists; split; [done|]; by split_and!).
  - cbn [mSearchState mSavedSearchWords set_form]. rewrite bool_decide_true, Hl by done. cbn [andb].
    rewrite SetSearchWords_spec. cbn [mbind option_bind]. rewrite bool_decide_true by done.
    eexists. split; [done|]. by split_and!.
Qed.

Lemma same_matches w : set_book (mSearchBookIndex w) (set_matches (mBookMatchesList w) w) = w.
Proof using. by destruct w. Qed.

(** The tables that the first page leaves. *)
Definition scoped_hits (w : search) (first past b : Z) : hits :=
  joined (new_tables (valid_at w b) (if (first <=? b) && (b <? past) then index b else [])).
Definition first_results (w : search) (first past : Z) : list entry :=
  concat (map (fun b => map (entry_of books b) (scoped_hits w first past b)) (range 0 (length (mBookList books)))).

Lemma SearchWordsComplete_spec w first past ms :
  matched books index w first past ms -> length ms = length (mBookList books) ->
  exists r, SearchWordsComplete books (words_at w past ms)
    = Some (set_index 0 (set_results r (set_matches (map JoinFileScores ms) (words_at w past ms)))) /\
    mEntries r = map Some (first_results w first past).
Proof using Hdata.
  intros HM Hlen. unfold SearchWordsComplete, CombineResults.
  change (mBookMatchesList (words_at w past ms)) with ms.
  pose proof (entries_of_books books (scoped_hits w first past) (map JoinFileScores ms) 0 ltac:(done)) as H.
  rewrite length_map in H. rewrite Hlen in H.
  change (imap (λ i m, ((Z.to_nat 0 + i)%nat, m)) (map JoinFileScores ms)) with (imap pair (map JoinFileScores ms)) in H.
  rewrite H; clear H.
  - cbn [mbind option_bind fmap option_fmap option_map]. eexists. split; [done|].
    rewrite AddEntry_all. done.
  - lia.
  - intros b bk Hb Hbk. unfold scoped_hits. split.
    + apply joined_natural, new_tables_natural. case_if; [apply Hdata|constructor].
    + apply (joined_in_book books index (data_listed Hdata) b bk); [done|]. case_if; set_solver.
  - intros i m Hm. apply list_lookup_fmap_Some in Hm as (m' & -> & Hm).
    assert (Hi : 0 <= 0 + Z.of_nat i < book_count) by (apply lookup_lt_Some in Hm; lia).
    destruct (HM _ Hi) as (m'' & Hm' & HT). rewrite Z.add_0_l, Nat2Z.id in Hm'. rewrite Hm in Hm'. injection Hm' as <-.
    by apply JoinFileScores_tables.
Qed.

(** ** The two pages together *)
Lemma scoped_hits_in w first past b f s : (f, s) ∈ scoped_hits w first past b <->
  first <= b < past /\ total_score f (map (fun s => word_hits s (index b)) (valid_at w b)) = Some s.
Proof using.
  unfold scoped_hits. rewrite <- hget_in by apply joined_distinct, new_tables_distinct. rewrite joined_get.
  destruct (Z.leb_spec first b), (Z.ltb_spec b past); cbn [andb].
  2-4: split; [|lia]; intros H'; exfalso; revert H'; destruct (valid_at w b) as [|v l]; [done|];
    cbn [map total_score word_hits concat]; unfold word_hits; cbn [map concat last_hit]; by rewrite total_score_none.
  split; [intros E; split; [lia|exact E]|intros [_ E]; exact E].
Qed.
Lemma first_results_in w first past e : 0 <= first -> past <= book_count ->
  e ∈ first_results w first past <->
  first <= e_mBookIndex e < past /\ exists s,
    total_score (e_mFileIndex e) (map (fun s => word_hits s (index (e_mBookIndex e))) (valid_at w (e_mBookIndex e))) = Some s /\
    e = entry_of books (e_mBookIndex e) (e_mFileIndex e, s).
Proof using.
  intros Hf Hp. unfold first_results. rewrite list_elem_of_In, in_concat. split.
  - intros (l & Hl & He). apply in_map_iff in Hl as (b & <- & Hb). apply in_map_iff in He as ([f s] & <- & Hin).
    apply list_elem_of_In, scoped_hits_in in Hin as [Hb' Hs]. cbn [entry_of e_mBookIndex e_mFileIndex fst].
    split; [done|]. by exists s.
  - intros (Hb & s & Hs & He). eexists. split.
    + apply in_map_iff. exists (e_mBookIndex e). split; [done|]. apply list_elem_of_In, range_in. lia.
    + rewrite He at 1. apply in_map, list_elem_of_In, scoped_hits_in. by split.
Qed.
Lemma first_results_NoDup w first past : NoDup (map page_key (first_results w first past)).
Proof using.
  unfold first_results. generalize (NoDup_range 0 (length (mBookList books))).
  generalize (range 0 (length (mBookList books))) as bs. induction bs as [|b bs IH]; intros H; [constructor|].
  inv H as [|? ? Hb Hd]. cbn [map concat]. rewrite map_app. apply NoDup_app. split_and!; [| |by apply IH].
  - rewrite map_map. unfold page_key. cbn [e_mBookIndex e_mFileIndex entry_of].
    assert (Hj : distinct (scoped_hits w first past b)) by apply joined_distinct, new_tables_distinct.
    unfold distinct in Hj. rewrite <- (map_map fst (pair b)). apply NoDup_fmap_2; [by intros ?? [= ->]|done].
  - intros k Hk Hk'. apply list_elem_of_In, in_map_iff in Hk as (e & <- & He). apply in_map_iff in He as (h & <- & _).
    apply list_elem_of_In, in_map_iff in Hk' as (e' & E & He'). apply in_concat in He' as (l & Hl & He').
    apply in_map_iff in Hl as (c & <- & Hc). apply in_map_iff in He' as (h' & <- & _).
    unfold page_key in E. cbn in E. injection E as -> _. by apply Hb, list_elem_of_In.
Qed.
Lemma first_results_scored w first past : Forall scored (first_results w first past).
Proof using.
  unfold first_results. apply Forall_concat, Forall_map, Forall_forall. intros b _.
  apply Forall_map, Forall_forall. intros [f s] _. by exists s.
Qed.

Lemma ready_info w b : panel_ready w -> 0 <= b < book_count ->
  exists bi, at_index (mBookSearchInfoList w) b = Some bi /\ mSearchFileCount bi = Z.of_nat (length (index b)).
Proof using.
  intros [_ _ _ Hn Hc] Hb. unfold at_index. case_if; bool_to_prop; [lia|].
  destruct (lookup_lt_is_Some_2 (mBookSearchInfoList w) (Z.to_nat b)) as [bi Hbi]; [lia|].
  exists bi. split; [done|]. rewrite (Hc _ _ Hbi). by rewrite Z2Nat.id by lia.
Qed.

(** The first page. *)
Lemma first_page_view text w w' first past bf fp :
  panel_ready w -> submitted text w w' -> scope_books books w' = Some (first, past) ->
  0 <= first <= past -> past <= book_count ->
  exists ms r bf', view_page books base_url mbResultsByBook (load_search index) (load_pairs page_pairs) (Panel w' bf fp)
    = Some (Panel (set_state (Some StatePairs) (set_index 0 (set_results r (set_matches ms (set_book past w'))))) bf' fp) /\
    length ms = length (mBookList books) /\ mEntries r = map Some (first_results w' first past).
Proof using Hdata.
  intros Hw (Hi & Hst & Hin & Hwl & Hre & Hmu & Hml & _) Hsc Hf Hp.
  unfold view_page. cbn [p_search]. rewrite Hi, Hst. unfold words_scripts. rewrite Hsc. cbn [mbind option_bind].
  assert (Hlen : length (mBookMatchesList w') = length (mBookList books)) by (rewrite Hml, length_map; apply Hw).
  destruct (books_run books base_url mbResultsByBook index page_pairs (data_index Hdata) w') with
    (first := first) (k := Z.to_nat (past - first)) (done := O) (ms := mBookMatchesList w') (f0 := bf) (fp := fp)
    as (l & ms & bf' & El & E & HM & HL).
  - by rewrite Hwl, Hre.
  - intros b Hb. unfold info_at. rewrite Hin. by apply ready_info.
  - lia.
  - lia.
  - intros b Hb. replace ((first <=? b) && (b <? first + Z.of_nat 0)) with false.
    2: { destruct (Z.leb_spec first b), (Z.ltb_spec b (first + Z.of_nat 0)); try done. lia. }
    destruct (lookup_lt_is_Some_2 (mBookMatchesList w') (Z.to_nat b)) as [m Hm]; [lia|].
    exists m. split; [done|]. rewrite Hml in Hm. apply list_lookup_fmap_Some in Hm as (m0 & -> & _). apply new_tables_empty.
  - rewrite Z.add_0_r in El, E. rewrite El. cbn [mbind option_bind]. rewrite run_scripts_app.
    assert (E0 : words_at w' first (mBookMatchesList w') = set_book first w') by (unfold words_at; by destruct w').
    rewrite E0 in E. cbn [BookData_Search FileData_Pairs]. rewrite E. cbn [mbind option_bind].
    replace (first + Z.of_nat (Z.to_nat (past - first))) with past in * by lia.
    rewrite run_scripts_cons. cbn [run_script]. unfold on_search. cbn [p_search].
    destruct (SearchWordsComplete_spec w' first past ms) as (r & Er & Hr).
    { replace past with (first + Z.of_nat 0 + Z.of_nat (Z.to_nat (past - first))) by lia. done. }
    { lia. }
    rewrite Er. cbn [mbind option_bind]. rewrite run_scripts_nil. cbn [mbind option_bind p_search BookData_Search FileData_Pairs].
    exists (map JoinFileScores ms), r, bf'. split; [|by rewrite length_map, HL].
    do 2 f_equal. unfold PanelViewLoaded, words_at. cbn. by rewrite Hst.
Qed.

Lemma single_book_form text w w' sel : submitted text w w' ->
  mSavedSearchScope w' = sel -> single_book books w' = single_book books (set_form text sel None w) /\
  scope_books books w' = scope_books books (set_form text sel None w).
Proof using.
  intros (_ & _ & _ & _ & _ & _ & _ & Hs & _) Hsel. unfold single_book, scope_books, scope_chosen. by rewrite Hs, Hsel.
Qed.

(** The phrases that each book looks for. *)
Lemma multis_of_items text items w w' : panel_ready w -> submitted text w w' ->
  toLowerCase text = join " " (map typed items) -> Forall (fun i => item_ok i = true) items ->
  forall b, 0 <= b < book_count -> exists m bi, at_index (mMultiPhraseList w') b = Some m /\ phrases_ok m /\
    at_index (mBookSearchInfoList w) b = Some bi /\ map mWords (mPhraseObjects m) = concat (map (phrase_words bi) items).
Proof using.
  intros Hw (_ & _ & _ & _ & _ & Hmu & _) Ht Hi b Hb. destruct (ready_info w b Hw Hb) as (bi & Hbi & _).
  destruct (parsed_multi_phrases bi items Hi) as [Hp Hok]. rewrite <- Ht in Hp, Hok.
  exists (parsed_multi (toLowerCase text) bi), bi. rewrite Hmu. split_and!; [|done..].
  unfold at_index in *. case_if; [done|]. rewrite list_lookup_fmap. by rewrite Hbi.
Qed.

(** The panel after the second page. *)
Lemma second_page_ready w w' ms r i mu :
  panel_ready w -> mbPanelInitialized w' = true -> mBookSearchInfoList w' = mBookSearchInfoList w ->
  length ms = length (mBookList books) ->
  panel_ready (set_state None (set_index i (set_results r (set_multis mu (set_matches ms w'))))).
Proof using.
  intros [_ _ _ Hn Hc] Hi Hinf Hms. split; cbn; try done; rewrite Hinf; done.
Qed.

Lemma search_run text items sel w first past one bf fp :
  panel_ready w -> text <> mSavedSearchWords w -> text <> "" ->
  toLowerCase text = join " " (map typed items) -> Forall (fun i => item_ok i = true) items ->
  let form := set_form text (if 1 <? book_count then sel else mSavedSearchScope w) None w in
  scope_books books form = Some (first, past) -> 0 <= first <= past -> past <= book_count ->
  (if mbResultsByBook then Some true else single_book books form) = Some one ->
  exists w' p' L, Submit books true text sel w = Some (true, w') /\ view (Panel w' bf fp) = Some p' /\
    panel_ready (p_search p') /\
    (mSavedSearchWords (p_search p') = text /\ mSavedSearchScope (p_search p') = mSavedSearchScope form /\
     mSearchScopeInfo (p_search p') = mSearchScopeInfo w /\ mSortedBy (mCombinedResults (p_search p')) = Some (if one then 2 else 1)) /\
    mEntries (mCombinedResults (p_search p')) = map Some L /\ NoDup (map page_key L) /\
    (forall e, e ∈ L <-> found w text items first past e) /\
    StronglySorted (fun a b => rank books base_url one a b <= 0) L.
Proof using Hdata.
  intros Hw Hne Ht Hlow Hit form Hsc Hf Hp Hone.
  destruct (Submit_new text sel w Hw Hne Ht) as (w' & Esub & Hsub & Hsel).
  destruct (single_book_form text w w' _ Hsub Hsel) as [Hsb Hscb]. fold form in Hsb, Hscb. rewrite <- Hscb in Hsc. rewrite <- Hsb in Hone.
  destruct (first_page_view text w w' first past bf fp Hw Hsub Hsc Hf Hp) as (ms & r & bf' & E1 & Hms & Hr).
  set (w1 := set_state _ _) in E1.
  set (phrases b := match at_index (mBookSearchInfoList w) b with Some bi => concat (map (phrase_words bi) items) | None => [] end).
  destruct (second_page books base_url mbResultsByBook index page_pairs w1 phrases) with
    (L := first_results w' first past) (one := one) (bf := bf') (fp := fp) as (l & w2 & fp' & El & E2 & (i & mu & r2 & Hw2) & Hsort & HE).
  - intros b Hb. destruct (multis_of_items text items w w' Hw Hsub Hlow Hit b Hb) as (m & bi & Hm & Hok & Hbi & Hph).
    exists m. split; [done|]. split; [done|]. unfold phrases. by rewrite Hbi.
  - done.
  - done.
  - apply Forall_forall. intros e He. apply first_results_in in He as [He _]; lia.
  - done.
  - destruct Hsub as (Hi & _ & Hin & Hwl & _ & _ & _ & Hinfo & Htext).
    set (L := js_sort (rank books base_url one) (List.filter (fun e => bool_decide (in_page page_pairs phrases e)) (first_results w' first past))) in HE.
    exists w', (Panel (set_state None w2) bf' fp'), L. split; [done|]. split; [|split; [|split; [|split; [done|split; [|split]]]]].
    + unfold view_pages. rewrite E1. cbn [mbind option_bind]. unfold view_page. cbn [p_search].
      change (mbPanelInitialized w1) with (mbPanelInitialized w'). rewrite Hi.
      change (mSearchState w1) with (Some StatePairs). rewrite El. cbn [mbind option_bind]. rewrite E2.
      cbn [mbind option_bind p_search BookData_Search FileData_Pairs]. unfold PanelViewLoaded. by rewrite Hw2.
    + cbn [p_search]. rewrite Hw2. apply (second_page_ready w (set_book past w') ms r2 i mu); done.
    + cbn [p_search mSortedBy]. split; [|split; [|split; [|exact Hsort]]]; rewrite Hw2; [exact Htext|exact Hsel|exact Hinfo].
    + unfold L. rewrite js_sort_Permutation. apply NoDup_map_filter, first_results_NoDup.
    + intros e. unfold L. rewrite js_sort_Permutation, list_elem_of_In, filter_In, bool_decide_eq_true, <- list_elem_of_In.
      rewrite first_results_in by lia. unfold found, in_page, phrases, valid_at, info_at, book_words. rewrite Hin, Hwl.
      split.
      * intros [[Hb (s & Hs & He)] Hph]. split; [done|]. destruct (ready_info w (e_mBookIndex e) Hw) as (bi & Hbi & _); [lia|].
        rewrite Hbi in *. by exists bi, s.
      * intros (Hb & bi & s & Hbi & Hs & Hph & He). rewrite Hbi. split; [|done]. split; [done|]. by exists s.
    + unfold L. eapply js_sort_sorted; [unfold rank; destruct one; apply compares_rank|].
      apply Forall_forall. intros e He%list_elem_of_In. apply filter_In in He as [He%list_elem_of_In _].
      pose proof (first_results_scored w' first past) as H. rewrite Forall_forall in H. by apply H.
Qed.

(** C8. A search from the form to the results.  When the help's data are complete and no
    search is under way, a new text of words and quoted phrases starts a search, the two
    pages of scripts run without an exception, the panel is ready for the next search,
    and the results are exactly the pages of the books of the scope that every word finds
    and that have every phrase: each page once, with the sum of the scores of the words,
    in the order of the scores (of the books first, when there is one book or the results
    are shown by books). *)
Theorem search_finds text items sel w first past one bf fp :
  panel_ready w -> text <> mSavedSearchWords w -> text <> "" ->
  toLowerCase text = join " " (map typed items) -> Forall (fun i => item_ok i = true) items ->
  let form := set_form text (if 1 <? book_count then sel else mSavedSearchScope w) None w in
  scope_books books form = Some (first, past) -> 0 <= first <= past -> past <= book_count ->
  (if mbResultsByBook then Some true else single_book books form) = Some one ->
  exists w' p' L, Submit books true text sel w = Some (true, w') /\ view (Panel w' bf fp) = Some p' /\
    panel_ready (p_search p') /\
    mEntries (mCombinedResults (p_search p')) = map Some L /\ NoDup (map page_key L) /\
    (forall e, e ∈ L <-> found w text items first past e) /\
    StronglySorted (fun a b => rank books base_url one a b <= 0) L.
Proof using Hdata.
  intros Hw Hne Ht Hlow Hit form Hsc Hf Hp Hone.
  destruct (search_run text items sel w first past one bf fp) as (w' & p' & L & H1 & H2 & H3 & _ & H4); try done.
  by exists w', p', L.
Qed.
End whole_search.

(** A search of two books for a word and a phrase; a second page of the first book has the
    word but not the phrase. *)
Definition example_index (b : Z) : list index_file :=
  if b =? 0 then [[("report", [(0, 10); (1, 20)]); ("top", [(0, 3); (1, 5)])]; [("hosts", [(0, 2); (1, 7)])]]
  else if b =? 1 then [[("report", [(0, 40)])]] else [].
Definition example_pairs (b f : Z) : list (string * string) :=
  if (b =? 0) && (f =? 1) then [("the", "top"); ("top", "hosts")] else [].
Definition example_panel : search :=
  InitLoadBookSearchInfo two_books 1 2 ["the"]
    (InitLoadBookSearchInfo two_books 2 2 ["the"; "of"] (InitBodyHTML new_search)).
Definition example_text : string := qq "Report `top hosts`".
Lemma example_data : data_ok two_books example_index.
Proof.
  split.
  - intros b. unfold example_index. unfold index_ok, natural. repeat case_if; repeat first [apply Forall_nil_2 | apply Forall_cons_2 | split]; done.
  - intros b bk d t l f n Hb Hd Hl Hf. unfold example_index in Hd.
    destruct (Z.eqb_spec b 0) as [->|]; [|destruct (Z.eqb_spec b 1) as [->|]; [|by apply elem_of_nil in Hd]];
      injection Hb as <-; set_unfold in Hd; destruct_or!; subst; set_unfold in Hl; destruct_or!; simplify_eq;
      set_unfold in Hf; destruct_or!; simplify_eq; vm_compute; eauto.
Qed.
Lemma example_ready : panel_ready two_books example_index example_panel.
Proof. split; try done. intros [|[|b]] bi H; vm_compute in H; by simplify_eq. Qed.

Lemma search_finds_witness : exists w' p' L,
  Submit two_books true example_text 0 example_panel = Some (true, w') /\
  view_pages two_books "" false (load_search example_index) (load_pairs example_pairs) (Panel w' None None) = Some p' /\
  panel_ready two_books example_index (p_search p') /\
  mEntries (mCombinedResults (p_search p')) = map Some L /\ NoDup (map page_key L) /\
  (forall e, e ∈ L <-> found two_books example_index example_pairs example_panel example_text [Word "report"; Phrase "top" ["hosts"]] 0 2 e) /\
  StronglySorted (fun a b => rank two_books "" false a b <= 0) L.
Proof.
  apply (search_finds two_books "" false example_index example_pairs example_data); try done.
  - apply example_ready.
  - by repeat constructor.
Defined.
Example example_results :
  (p ← Submit two_books true example_text 0 example_panel;
   p ← view_pages two_books "" false (load_search example_index) (load_pairs example_pairs) (Panel (snd p) None None);
   Some (mEntries (mCombinedResults (p_search p)))) = Some [Some (Entry 0 1 (num_of_Z 32) "Reports")].
Proof. vm_compute. reflexivity. Qed.
