(* ===== verification/HelpResults.v ===== *)
(** * How search results are shown (search.js, js/html/panelvie.htm)
    [WWHSearchResults_DisplayAdvance] writes the list of results in segments of a
    limited size, which the page of the view asks for until there is none left.  The
    segments together are the list written at once, whatever the limit: each result is
    shown once, in the order of the list, under the book it belongs to. *)
From Stdlib Require Import SpecFloat.
From S2P Require Import Prelude JsString JsNum HelpString HelpPattern HelpUnicode HelpBooks HelpPhrase HelpScore HelpSearch HelpFind HelpFound.
Open Scope Z_scope.

(** ** Ranks
    [Math.floor((score / max) * 100)] in the language's arithmetic of 53 bits. *)
Definition double_of_Z (z : Z) : spec_float := binary_normalize 53 1024 z 0 false.
Definition to_double (x : num) : spec_float :=
  match x with
  | NaN => S754_nan
  | Inf b => S754_infinity b
  | Fin q => SFdiv 53 1024 (double_of_Z (QArith_base.Qnum q)) (double_of_Z (Zpos (QArith_base.Qden q)))
  end.
Definition floor_double (x : spec_float) : num :=
  match x with
  | S754_zero _ => num_of_Z 0
  | S754_infinity b => Inf b
  | S754_nan => NaN
  | S754_finite b m e => num_of_Z (Z.shiftl (if b then Zneg m else Zpos m) e)
  end.
Definition percent (score max : num) : num :=
  floor_double (SFmul 53 1024 (SFdiv 53 1024 (to_double score) (to_double max)) (double_of_Z 100)).
(** Some browsers do not allow the value 0. *)
Definition rank_value (score max : num) : num :=
  let p := percent score max in if num_ltb p (num_of_Z 1) then num_of_Z 1 else p.
(** The text of a whole number. *)
Definition whole_text (x : num) : string := num_to_string (fun _ => "") x.

(** ** Settings and messages *)
Record display := Display {
  mbShowRank : bool; mbHoverEnabled : bool; mbAccessible : bool; mEventString : string;
  mSearchRankLabel : string; mSearchTitleLabel : string; mSearchBookLabel : string;
  mAccessibilityListSeparator : string
}.

Section display.
Context (books : book_list) (st : display) (MaxHTMLSegmentSize : Z).
Abbreviation book_count := (Z.of_nat (length (mBookList books))).

(** [BookList[b].mTitle] in a text; [None]: no such book. *)
Definition title_text (b : Z) : option string := default "null" <$> GetBookTitle books b.

(** [WWHSearchResults_GetPopupAction] *)
Definition GetPopupAction (i : Z) : string :=
  if mbHoverEnabled st then
    qq " onmouseover=`fS('" +++ Z_to_string i +++ "', " +++ mEventString st +++ qq ");`" +++ qq " onmouseout=`fH();`"
  else "".

(** ** [WWHSearchResults_DisplayReset] and [WWHSearchResults_DisplayAdvance] *)
Definition DisplayReset (titles : bool) (r : results) : results :=
  Results (mSortedBy r) (mEntries r) (mMaxScore r) 0 (if titles then -1 else -2) (mHTMLSegment r).

Definition by_score (r : results) : bool := (1 <? book_count) && bool_decide (mSortedBy r = Some 1).
Definition by_book (r : results) : bool := (1 <? book_count) && bool_decide (mSortedBy r = Some 2).

Definition list_head (r : results) : string :=
  "<p><nobr><b>" +++ (if mbShowRank st then mSearchRankLabel st +++ " " else "") +++ mSearchTitleLabel st
  +++ (if by_score r then ", " +++ mSearchBookLabel st else "") +++ "</b></nobr></p>" +++ nl +++ "<ol>" +++ nl.

(** The title of another book, and the new [mByBookDetect]. *)
Definition book_head (r : results) (detect i : Z) (e : entry) : option (string * Z) :=
  if by_book r && negb (detect =? -2) && negb (detect =? e_mBookIndex e) then
    t ← title_text (e_mBookIndex e);
    Some ((if 0 <? i then "</ol>" +++ nl else "") +++ "<p><nobr>&nbsp;</nobr></p>"
          +++ qq "<p class=`BookTitle`><nobr>" +++ t +++ "</nobr></p>" +++ "<ol>" +++ nl, e_mBookIndex e)
  else Some ("", detect).

Definition access_title (r : results) (e : entry) : option string :=
  if mbAccessible st then
    b ← (if 1 <? book_count then
           t ← title_text (e_mBookIndex e);
           Some (EscapeHTML (mAccessibilityListSeparator st +++ " " +++ mSearchBookLabel st +++ " " +++ t))
         else Some "");
    Some (qq " title=`"
      +++ (if mbShowRank st then EscapeHTML (mSearchRankLabel st +++ " " +++ whole_text (rank_value (e_mScore e) (mMaxScore r)) +++ ", ") else "")
      +++ EscapeHTML (mSearchTitleLabel st +++ " " +++ e_mTitle e) +++ b +++ qq "`")
  else Some "".

Definition entry_line (r : results) (i : Z) (e : entry) : option string :=
  a ← access_title r e;
  b ← (if by_score r then t ← title_text (e_mBookIndex e); Some (", " +++ t) else Some "");
  Some ((if mbShowRank st then qq "<li value=`" +++ whole_text (rank_value (e_mScore e) (mMaxScore r)) +++ qq "`>" else "<li>")
    +++ qq "<a href=`javascript:fC(" +++ Z_to_string i +++ qq ");`" +++ GetPopupAction i +++ a +++ ">"
    +++ e_mTitle e +++ "</a>" +++ b +++ "</li>" +++ nl).

Definition set_segment (b : buffer) (r : results) : results :=
  Results (mSortedBy r) (mEntries r) (mMaxScore r) (mDisplayIndex r) (mByBookDetect r) b.
Definition set_detect (d : Z) (r : results) : results :=
  Results (mSortedBy r) (mEntries r) (mMaxScore r) (mDisplayIndex r) d (mHTMLSegment r).
Definition set_display (i : Z) (r : results) : results :=
  Results (mSortedBy r) (mEntries r) (mMaxScore r) i (mByBookDetect r) (mHTMLSegment r).

(** The loop over the entries from [i] on, which are [l]. *)
Fixpoint display_loop (l : list (option entry)) (i : Z) (r : results) : option (Z * results) :=
  match l with
  | [] => Some (i, r)
  | o :: l =>
      if fSize (mHTMLSegment r) <? MaxHTMLSegmentSize then
        e ← o;
        '(h, d) ← book_head r (mByBookDetect r) i e;
        t ← entry_line r i e;
        display_loop l (i + 1) (set_segment (fAppend (h +++ t) (mHTMLSegment r)) (set_detect d r))
      else Some (i, r)
  end.

Definition DisplayAdvance (r : results) : option (bool * results) :=
  match mSortedBy r, mEntries r with
  | Some _, _ :: _ =>
      let r := set_segment (fReset (mHTMLSegment r)) r in
      let r := if mDisplayIndex r =? 0 then set_segment (fAppend (list_head r) (mHTMLSegment r)) r else r in
      '(i, r) ← display_loop (drop (Z.to_nat (mDisplayIndex r)) (mEntries r)) (mDisplayIndex r) r;
      let r := set_display i r in
      let created := 0 <? fSize (mHTMLSegment r) in
      Some (created,
        if mDisplayIndex r =? Z.of_nat (length (mEntries r)) then set_segment (fAppend ("</ol>" +++ nl) (mHTMLSegment r)) r else r)
  | _, _ => Some (false, r)
  end.

(** The loop of panelvie.htm, [while (fAdvanceHTMLSegment()) writeln(fGetHTMLSegment())]:
    the segments that are written. *)
Fixpoint segments (fuel : nat) (r : results) : option (list string * results) :=
  match fuel with
  | O => None
  | S fuel =>
      '(more, r) ← DisplayAdvance r;
      if more : bool then
        let '(s, b) := fGetBuffer (mHTMLSegment r) in
        '(l, r) ← segments fuel (set_segment b r);
        Some (s :: l, r)
      else Some ([], r)
  end.
End display.

Example rank_of_29 : percent (num_of_Z 29) (num_of_Z 100) = num_of_Z 28.
Proof. vm_compute. reflexivity. Qed.

(** ** The list written at once *)
Section rows.
Context (books : book_list) (st : display).

(** A title stands before each result whose book is not that of the result before. *)
Definition other_book (prev : option entry) (e : entry) : bool :=
  match prev with Some p => negb (e_mBookIndex p =? e_mBookIndex e) | None => true end.
Definition row (r : results) (titles : bool) (prev : option entry) (i : Z) (e : entry) : string :=
  (if by_book books r && titles && other_book prev e then
     (match prev with Some _ => "</ol>" +++ nl | None => "" end) +++ "<p><nobr>&nbsp;</nobr></p>"
     +++ qq "<p class=`BookTitle`><nobr>" +++ default "" (title_text books (e_mBookIndex e)) +++ "</nobr></p>" +++ "<ol>" +++ nl
   else "") +++ default "" (entry_line books st r i e).
Fixpoint rows (r : results) (titles : bool) (prev : option entry) (i : Z) (l : list entry) : string :=
  match l with
  | [] => ""
  | e :: l => row r titles prev i e +++ rows r titles (Some e) (i + 1) l
  end.
Definition results_text (r : results) (titles : bool) (l : list entry) : string :=
  list_head books st r +++ rows r titles None 0 l +++ "</ol>" +++ nl.
End rows.

(** ** The segments together are the list *)
Section segments_spec.
Context (books : book_list) (st : display) (max : Z).

(** What stays the same while the results are shown. *)
Record same_results (r q : results) : Prop := {
  same_sorted : mSortedBy q = mSortedBy r; same_entries : mEntries q = mEntries r; same_max : mMaxScore q = mMaxScore r
}.
Definition in_books (e : entry) : Prop := is_Some (title_text books (e_mBookIndex e)).

Lemma in_books_nonneg e : in_books e -> 0 <= e_mBookIndex e.
Proof using.
  unfold in_books, title_text, GetBookTitle, GetBook, at_index. destruct (Z.ltb_spec (e_mBookIndex e) 0); [|done].
  by intros [? ?].
Qed.
Lemma entry_line_some r i e : in_books e -> exists t, entry_line books st r i e = Some t /\ 0 < slen t.
Proof using.
  intros [t Ht]. unfold entry_line, access_title. rewrite Ht.
  destruct (mbAccessible st), (1 <? Z.of_nat (length (mBookList books))), (by_score books r); cbn [mbind option_bind];
    (eexists; split; [reflexivity|]; destruct (mbShowRank st); unfold slen; cbn; lia).
Qed.
Lemma entry_line_same r q i e : same_results r q -> entry_line books st q i e = entry_line books st r i e.
Proof using. intros [H1 H2 H3]. unfold entry_line, access_title, by_score. by rewrite H1, H3. Qed.
Lemma list_head_same r q : same_results r q -> list_head books st q = list_head books st r.
Proof using. intros [H1 H2 H3]. unfold list_head, by_score. by rewrite H1. Qed.
Lemma row_same r q titles prev i e : same_results r q -> row books st q titles prev i e = row books st r titles prev i e.
Proof using. intros H. unfold row. rewrite (entry_line_same r q) by done. destruct H as [H1 _ _]. unfold by_book. by rewrite H1. Qed.

Lemma rows_same r q titles : same_results r q -> forall l prev i, rows books st q titles prev i l = rows books st r titles prev i l.
Proof using. intros H. induction l as [|e l IH]; intros prev i; [done|]. cbn [rows]. by rewrite (row_same r q), IH. Qed.

(** What [mByBookDetect] is after the result [prev]. *)
Definition detect_ok (r : results) (titles : bool) (prev : option entry) : Prop :=
  mByBookDetect r = if titles then match prev with
                                   | Some e => if by_book books r then e_mBookIndex e else -1
                                   | None => -1 end
                    else -2.

Lemma row_shown r titles prev i e : in_books e -> detect_ok r titles prev -> (0 <? i) = bool_decide (prev <> None) ->
  (forall p, prev = Some p -> 0 <= e_mBookIndex p) ->
  exists h d t, book_head books r (mByBookDetect r) i e = Some (h, d) /\ entry_line books st r i e = Some t /\
    h +++ t = row books st r titles prev i e /\ detect_ok (set_detect d r) titles (Some e) /\ 0 < slen t.
Proof using.
  intros He Hd Hi Hp. pose proof (in_books_nonneg e He) as Hb. destruct (entry_line_some r i e He) as (t & Et & Ht).
  destruct He as [u Hu]. unfold detect_ok in *. unfold book_head, row. rewrite Et, Hd, Hu, Hi.
  destruct (by_book books r) eqn:Eb; cbn [andb].
  - destruct titles; cbn [andb].
    + destruct prev as [p|]; cbn [other_book].
      * specialize (Hp p eq_refl). destruct (Z.eqb_spec (e_mBookIndex p) (-2)); [lia|]. cbn [negb andb].
        rewrite (Z.eqb_sym (e_mBookIndex p) (e_mBookIndex e)).
        destruct (Z.eqb_spec (e_mBookIndex e) (e_mBookIndex p)) as [E|E]; cbn [negb].
        -- exists "", (e_mBookIndex p), t. split_and!; try done. cbn. change (by_book books (set_detect (e_mBookIndex p) r)) with (by_book books r). by rewrite Eb.
        -- eexists _, _, t. split_and!; try done. cbn. change (by_book books (set_detect (e_mBookIndex e) r)) with (by_book books r). by rewrite Eb.
      * destruct (Z.eqb_spec (-1) (e_mBookIndex e)) as [E|E]; [lia|]. cbn [negb andb].
        eexists _, _, t. split_and!; try done. cbn. change (by_book books (set_detect (e_mBookIndex e) r)) with (by_book books r). by rewrite Eb.
    + exists "", (-2), t. split_and!; try done.
  - eexists "", _, t. split_and!; try done. cbn. change (by_book books (set_detect _ r)) with (by_book books r). rewrite Eb.
    destruct titles; [|done]. by destruct prev.
Qed.

(** Splits the conjunctions that are written, not those of definitions. *)
Ltac conjs := repeat match goal with |- _ /\ _ => split end.

Lemma reset_holds b : holds (fReset b) "".
Proof using. split; [cbn; lia|done]. Qed.

(** A segment: the results from [i] on, as many as there is room for. *)
Lemma display_run l : forall r titles prev i s,
  Forall in_books l -> detect_ok r titles prev -> (0 <? i) = bool_decide (prev <> None) -> 0 <= i ->
  (forall p, prev = Some p -> 0 <= e_mBookIndex p) -> holds (mHTMLSegment r) s ->
  exists u v r' prev' t, l = u ++ v /\ display_loop books st max (map Some l) i r = Some (i + Z.of_nat (length u), r') /\
    same_results r r' /\ mDisplayIndex r' = mDisplayIndex r /\ holds (mHTMLSegment r') (s +++ t) /\
    detect_ok r' titles prev' /\ (forall p, prev' = Some p -> 0 <= e_mBookIndex p) /\
    (u <> [] -> prev' <> None) /\ (u = [] -> prev' = prev) /\
    rows books st r titles prev i l = t +++ rows books st r titles prev' (i + Z.of_nat (length u)) v /\
    (u = [] -> t = "") /\ (u <> [] -> 0 < slen t) /\ (l <> [] -> slen s < max -> u <> []).
Proof using.
  induction l as [|e l IH]; intros r titles prev i s Hl Hd Hi Hi0 Hp Hs.
  - exists [], [], r, prev, "". cbn. rewrite Z.add_0_r, sapp_nil_r. conjs; done.
  - inv Hl as [|? ? He Hl']. cbn [map display_loop]. rewrite (holds_size _ _ Hs).
    destruct (Z.ltb_spec (slen s) max) as [Hlt|Hge].
    2: { exists [], (e :: l), r, prev, "". cbn [length]. rewrite Z.add_0_r, sapp_nil_r. conjs; try done. lia. }
    destruct (row_shown r titles prev i e He Hd Hi Hp) as (h & d & t & Eh & Et & Er & Hd' & Ht).
    cbn [mbind option_bind]. rewrite Eh. cbn [mbind option_bind]. rewrite Et. cbn [mbind option_bind].
    set (r1 := set_segment _ _).
    assert (Hsame : same_results r r1) by done.
    destruct (IH r1 titles (Some e) (i + 1) (s +++ (h +++ t))) as (u & v & r' & prev' & t' & El & E & H1 & H2 & H3 & H4 & H5 & H6 & H7 & H8 & H9 & H10 & _).
    + done.
    + done.
    + rewrite bool_decide_true by done. apply Z.ltb_lt. lia.
    + lia.
    + intros p [= <-]. by apply in_books_nonneg.
    + unfold r1. cbn [mHTMLSegment set_segment]. by apply holds_append.
    + exists (e :: u), v, r', prev', ((h +++ t) +++ t'). cbn [length].
      replace (i + Z.of_nat (S (length u))) with (i + 1 + Z.of_nat (length u)) by lia.
      conjs; try done.
      * by rewrite El.
      * destruct H1 as [A1 A2 A3]. by split.
      * by rewrite <- sapp_assoc.
      * intros _. destruct u; [by rewrite H7|by apply H6].
      * cbn [rows]. rewrite Er, sapp_assoc. rewrite !(rows_same r r1) in H8 by done. by rewrite H8.
      * intros _. rewrite !slen_app. pose proof (slen_nonneg h). pose proof (slen_nonneg t'). lia.
Qed.

(** The object between two segments: the results before [l] are shown. *)
Record showing (r : results) (titles : bool) (pre l : list entry) (prev : option entry) : Prop := {
  show_sorted : mSortedBy r <> None;
  show_entries : mEntries r = map Some (pre ++ l);
  show_some : pre ++ l <> [];
  show_index : mDisplayIndex r = Z.of_nat (length pre);
  show_books : Forall in_books l;
  show_detect : detect_ok r titles prev;
  show_prev : prev <> None <-> pre <> [];
  show_nonneg p : prev = Some p -> 0 <= e_mBookIndex p
}.
Definition head_at (r : results) (pre : list entry) : string := if decide (pre = []) then list_head books st r else "".
Definition foot : string := "</ol>" +++ nl.

Lemma advance_step r titles pre l prev :
  showing r titles pre l prev -> slen (list_head books st r) < max -> 0 < max -> l <> [] ->
  exists u v r' prev' t, l = u ++ v /\ u <> [] /\ DisplayAdvance books st max r = Some (true, r') /\
    same_results r r' /\ showing r' titles (pre ++ u) v prev' /\
    holds (mHTMLSegment r') (head_at r pre +++ t +++ (if decide (v = []) then foot else "")) /\
    rows books st r titles prev (Z.of_nat (length pre)) l
      = t +++ rows books st r titles prev' (Z.of_nat (length (pre ++ u))) v.
Proof using.
  intros [Hs He Hne Hi Hb Hd Hp Hp0] Hhead Hmax Hl. unfold DisplayAdvance.
  destruct (mSortedBy r) as [k|] eqn:Ek; [|done]. destruct (mEntries r) as [|o os] eqn:Eo; [by destruct pre, l|].
  set (r1 := if _ =? 0 then _ else _).
  assert (Hsame : same_results r r1) by (unfold r1; case_if; by split).
  assert (H1 : mDisplayIndex r1 = Z.of_nat (length pre) /\ holds (mHTMLSegment r1) (head_at r pre) /\ detect_ok r1 titles prev).
  { unfold r1. cbn [mDisplayIndex set_segment]. rewrite Hi. unfold head_at.
    destruct pre as [|e pre]; cbn [length]; [rewrite Z.eqb_refl, decide_True by done|rewrite decide_False by done].
    - conjs; [done| |done]. cbn [mHTMLSegment set_segment]. apply (holds_append _ ""), reset_holds.
    - destruct (Z.eqb_spec (Z.of_nat (S (length pre))) 0); [lia|]. conjs; [done|apply reset_holds|done]. }
  destruct H1 as (Hi1 & Hh1 & Hd1). destruct Hsame as [A1 A2 A3]. rewrite Hi1, A2, Eo, He, Nat2Z.id, map_app, drop_app_length' by (by rewrite length_map).
  destruct (display_run l r1 titles prev (Z.of_nat (length pre)) (head_at r pre)) as
    (u & v & r2 & prev' & t & El & E & [B1 B2 B3] & Bi & Bh & Bd & Bp & Bn & _ & Br & _ & Bt & Bu).
  - done.
  - done.
  - destruct prev, pre; cbn [length]; rewrite ?bool_decide_true, ?bool_decide_false by (done || (intros H; by apply H));
      try done; exfalso; [by apply (proj1 Hp)|by apply (proj2 Hp)].
  - lia.
  - done.
  - done.
  - assert (Hu : u <> []).
    { apply Bu; [done|]. unfold head_at. case_decide; [done|]. unfold slen; cbn; lia. }
    rewrite E. cbn [mbind option_bind].
    assert (Hsz : (0 <? fSize (mHTMLSegment (set_display (Z.of_nat (length pre) + Z.of_nat (length u)) r2))) = true).
    { cbn [mHTMLSegment set_display]. rewrite (holds_size _ _ Bh), slen_app. apply Z.ltb_lt.
      specialize (Bt Hu). pose proof (slen_nonneg (head_at r pre)). lia. }
    rewrite Hsz.
    assert (Hlen : (mDisplayIndex (set_display (Z.of_nat (length pre) + Z.of_nat (length u)) r2)
        =? Z.of_nat (length (mEntries (set_display (Z.of_nat (length pre) + Z.of_nat (length u)) r2)))) = bool_decide (v = [])).
    { cbn [mDisplayIndex mEntries set_display]. rewrite B2, A2, Eo, He, length_map, El, !length_app.
      destruct v; cbn [length]; [rewrite bool_decide_true by done; apply Z.eqb_eq; lia|].
      rewrite bool_decide_false by done. apply Z.eqb_neq. lia. }
    rewrite Hlen. eexists u, v, _, prev', t. conjs; [done|done|reflexivity| | | |].
    + case_bool_decide; split; cbn; congruence.
    + assert (Hsh : showing (set_display (Z.of_nat (length pre) + Z.of_nat (length u)) r2) titles (pre ++ u) v prev').
      { split; cbn [mSortedBy mEntries mDisplayIndex set_display].
        - congruence.
        - rewrite B2, A2, Eo, He. by rewrite El, app_assoc.
        - rewrite <- app_assoc, <- El. done.
        - rewrite length_app. lia.
        - rewrite El in Hb. by apply Forall_app in Hb as [_ Hb].
        - done.
        - split; [intros _; destruct pre; [done|done]|]. intros _. by apply Bn.
        - done. }
      case_bool_decide; [|done]. destruct Hsh. by split.
    + case_bool_decide; [rewrite decide_True by done|rewrite decide_False by done; rewrite sapp_nil_r; exact Bh].
      cbn [mHTMLSegment set_segment set_display]. rewrite <- sapp_assoc. by apply holds_append.
    + rewrite !(rows_same r r1) in Br by (by split). rewrite length_app, Nat2Z.inj_add. exact Br.
Qed.

Lemma advance_end r titles pre prev : showing r titles pre [] prev ->
  exists r', DisplayAdvance books st max r = Some (false, r') /\ same_results r r'.
Proof using.
  intros [Hs He Hne Hi _ _ _ _]. rewrite app_nil_r in *. unfold DisplayAdvance.
  destruct (mSortedBy r) as [k|] eqn:Ek; [|done]. destruct (mEntries r) as [|o os] eqn:Eo; [by destruct pre|].
  assert (Hi' : (mDisplayIndex r =? 0) = false) by (apply Z.eqb_neq; rewrite Hi; destruct pre; cbn; [done|lia]).
  cbn [mDisplayIndex set_segment]. rewrite Hi'. cbn [mDisplayIndex mEntries set_segment].
  rewrite Hi, Nat2Z.id, Eo, He. rewrite <- (length_map Some pre), drop_all. cbn [display_loop mbind option_bind].
  cbn [mHTMLSegment set_display set_segment mDisplayIndex mEntries]. rewrite (holds_size _ _ (reset_holds (mHTMLSegment r))).
  change (0 <? slen "") with false. rewrite Eo, He, Z.eqb_refl. eexists. split; [done|]. by split.
Qed.

Lemma segments_run l : forall r titles pre prev n,
  showing r titles pre l prev -> slen (list_head books st r) < max -> 0 < max -> (length l <= n)%nat ->
  exists segs r', segments books st max (S n) r = Some (segs, r') /\ same_results r r' /\
    join "" segs = (if decide (l = []) then "" else head_at r pre +++ rows books st r titles prev (Z.of_nat (length pre)) l +++ foot).
Proof using.
  induction l as [l IH] using (induction_ltof1 _ (@length _)); intros r titles pre prev n Hsh Hhead Hmax Hn.
  cbn [segments]. case_decide as Hl.
  - subst l. destruct (advance_end r titles pre prev Hsh) as (r' & E & Hsame). rewrite E. by exists [], r'.
  - destruct (advance_step r titles pre l prev Hsh Hhead Hmax Hl) as (u & v & r1 & prev1 & t & El & Hu & E & Hsame & Hsh1 & Hh & Er).
    rewrite E. cbn [mbind option_bind]. destruct (holds_get _ _ Hh) as [Hg Hc].
    destruct (fGetBuffer (mHTMLSegment r1)) as [s b]. cbn [fst snd] in Hg, Hc. subst s.
    assert (Hlen : (length v < length l)%nat) by (rewrite El, length_app; destruct u; [done|cbn; lia]).
    destruct n as [|n]; [lia|].
    assert (Hsame' : same_results r (set_segment b r1)) by (destruct Hsame; by split).
    assert (Hsh2 : showing (set_segment b r1) titles (pre ++ u) v prev1) by (destruct Hsh1; by split).
    destruct (IH v Hlen (set_segment b r1) titles (pre ++ u) prev1 n Hsh2) as (segs & r' & E' & Hs' & Ej).
    { by rewrite (list_head_same r). } { done. } { lia. }
    rewrite E'. cbn [mbind option_bind]. eexists _, r'. split; [done|]. split; [destruct Hs', Hsame'; split; congruence|].
    rewrite Er. rewrite (rows_same r) in Ej by done.
    assert (Hj : join "" ((head_at r pre +++ t +++ (if decide (v = []) then foot else "")) :: segs)
      = (head_at r pre +++ t +++ (if decide (v = []) then foot else "")) +++ join "" segs).
    { destruct segs; [by rewrite sapp_nil_r|done]. }
    rewrite Hj, Ej. case_decide; [subst v; cbn [rows]; by rewrite !sapp_nil_r, sapp_nil_l || by rewrite !sapp_nil_r|].
    unfold head_at at 2. rewrite decide_False by (intros [_ Hu']%app_eq_nil; done). rewrite sapp_nil_r. cbn [String.append].
    by rewrite !sapp_assoc.
Qed.

(** The whole list, whatever the limit of a segment, when the head fits into one. *)
Lemma shown_at_once r titles l : mSortedBy r <> None -> mEntries r = map Some l -> l <> [] -> Forall in_books l ->
  slen (list_head books st r) < max ->
  exists segs r', segments books st max (S (length l)) (DisplayReset titles r) = Some (segs, r') /\ same_results r r' /\
    join "" segs = results_text books st r titles l.
Proof using.
  intros Hs He Hl Hb Hhead.
  assert (Hsame : same_results r (DisplayReset titles r)) by (by split).
  destruct (segments_run l (DisplayReset titles r) titles [] None (length l)) as (segs & r' & E & Hs' & Ej).
  - by split.
  - by rewrite (list_head_same r).
  - pose proof (slen_nonneg (list_head books st r)). lia.
  - lia.
  - exists segs, r'. split; [done|]. split; [destruct Hsame, Hs'; split; congruence|].
    rewrite Ej, decide_False by done. unfold results_text, head_at, foot. rewrite decide_True by done.
    rewrite (list_head_same r), (rows_same r) by done. done.
Qed.
End segments_spec.
