(* ===== verification/HelpView.v ===== *)
(** * The pages of the search panel (search.js, js/html/panelvie.htm, panelnav.htm)
    The form, the page of the view in each state of a search, the texts shown beside a
    result under the mouse.  A search from the form to the page that shows its results. *)
From Stdlib Require Import Sorted.
From S2P Require Import Prelude JsString JsNum HelpString HelpPattern HelpUnicode HelpBooks HelpPages HelpPhrase HelpScore HelpSearch HelpFind HelpFound HelpResults.
Open Scope Z_scope.

(** ** Messages and settings *)
Record messages := Messages {
  mInitializingMessage : string; mSearchSearchingMessage : string; mSearchDefaultMessage : string;
  mSearchNothingFoundMessage : string; mSearchButtonLabel : string; mSearchScopeAllLabel : string
}.
Record styles := Styles {
  mHighlightColor : string; mEnabledColor : string; mFontStyle : string;
  h_mFontStyle : string; h_mForegroundColor : string; h_mBackgroundColor : string; h_mBorderColor : string
}.

Section view.
Context (books : book_list) (base_url : string) (mbResultsByBook : bool).
Context (st : display) (ms : messages) (sty : styles) (MaxHTMLSegmentSize : Z).
(** [mHelpURLPrefix]; the time that Safari's pages add to the addresses (or nothing). *)
Context (mHelpURLPrefix VarParameters : string) (mbMacIE50 : bool).
Abbreviation book_count := (Z.of_nat (length (mBookList books))).

(** ** The scripts of a page as text *)
Definition script_tag (src : string) : string :=
  qq "<script type=`text/javascript` language=`JavaScript1.2` src=`" +++ mHelpURLPrefix +++ src +++ VarParameters
  +++ qq "`></script>" +++ nl.
Definition step_tag (name : string) : string := script_tag ("wwhelp/wwhimpl/js/scripts/" +++ name).
Definition script_text (s : script) : option string :=
  match s with
  | SearchFile b i =>
      bk ← GetBook books b; Some (script_tag (mDirectory bk +++ "wwhdata/js/search/search" +++ Z_to_string i +++ ".js"))
  | Search2s => Some (step_tag "search2s.js")
  | Search3s => Some (step_tag "search3s.js")
  | Search4s => Some (step_tag "search4s.js")
  | PairFile b f =>
      bk ← GetBook books b; Some (script_tag (mDirectory bk +++ "wwhdata/js/search/pairs/pair" +++ Z_to_string f +++ ".js"))
  | Search5s => Some (step_tag "search5s.js")
  | Search6s => Some (step_tag "search6s.js")
  | Search7s => Some (step_tag "search7s.js")
  end.

(** ** [WWHSearch_StartHTMLSegments] *)
Definition line (s : string) : string := s +++ nl.
Definition accessor_functions : string :=
  line (qq "<script type=`text/javascript` language=`JavaScript1.2`>") +++ line " <!--"
  +++ line "  function  fC(ParamEntryID)" +++ line "  {" +++ line "    WWHFrame.WWHSearch.fShowEntry(ParamEntryID);"
  +++ line "  }" +++ nl
  +++ line "  function  fS(ParamEntryID," +++ line "               ParamEvent)" +++ line "  {"
  +++ line "    WWHFrame.WWHJavaScript.mPanels.mPopup.fShow(ParamEntryID, ParamEvent);" +++ line "  }" +++ nl
  +++ line "  function  fH()" +++ line "  {" +++ line "    WWHFrame.WWHJavaScript.mPanels.mPopup.fHide();" +++ line "  }"
  +++ line " // -->" +++ line "</script>".

Definition StartHTMLSegments (w : search) : option (string * search) :=
  if mbPanelInitialized w then
    match mSearchState w with
    | Some StateWords =>
        '(l, w) ← words_scripts books w;
        t ← mapM script_text l;
        Some ("<h2>" +++ mSearchSearchingMessage ms +++ line "</h2>" +++ join "" t, w)
    | Some StatePairs =>
        l ← pairs_scripts books w;
        t ← mapM script_text l;
        Some ("<h2>" +++ mSearchSearchingMessage ms +++ line "</h2>" +++ join "" t, w)
    | None =>
        if slen (mSavedSearchWords w) =? 0 then
          Some (accessor_functions +++ "<h3>" +++ mSearchDefaultMessage ms +++ line "</h3>", w)
        else if (0 <? length (mEntries (mCombinedResults w)))%nat then
          one ← single_book books w;
          Some (accessor_functions, set_results (DisplayReset (negb one) (mCombinedResults w)) w)
        else Some (accessor_functions +++ "<h3>" +++ mSearchNothingFoundMessage ms +++ line "</h3>", w)
    end
  else Some ("", w).

(** [WWHSearch_AdvanceHTMLSegment], [WWHSearch_GetHTMLSegment], [WWHSearch_EndHTMLSegments] *)
Definition AdvanceHTMLSegment (w : search) : option (bool * search) :=
  if mbPanelInitialized w && bool_decide (mSearchState w = None) then
    '(more, r) ← DisplayAdvance books st MaxHTMLSegmentSize (mCombinedResults w);
    Some (more, set_results r w)
  else Some (false, w).
Definition GetHTMLSegment (w : search) : string * search :=
  let r := mCombinedResults w in
  let '(s, b) := fGetBuffer (mHTMLSegment r) in (s, set_results (set_segment b r) w).
Definition EndHTMLSegments : string := "".

(** The body of panelvie.htm: what is written before the results, the segments, and what
    is written after them. *)
Fixpoint write_segments (fuel : nat) (w : search) : option (list string * search) :=
  match fuel with
  | O => None
  | S fuel =>
      '(more, w) ← AdvanceHTMLSegment w;
      if more : bool then
        let '(s, w) := GetHTMLSegment w in
        '(l, w) ← write_segments fuel w; Some (s :: l, w)
      else Some ([], w)
  end.
Definition view_body (fuel : nat) (w : search) : option (string * list string * string * search) :=
  '(head, w) ← StartHTMLSegments w;
  '(l, w) ← write_segments fuel w;
  Some (head, l, EndHTMLSegments, w).

(** ** Other texts of the panel *)

(** [WWHSearch_InitBodyHTML]: the scripts that load the search data of the books. *)
Definition InitBodyText : string :=
  "<h2>" +++ mInitializingMessage ms +++ line "</h2>"
  +++ join "" (map (fun bk => qq "<script language=`JavaScript1.2` src=`" +++ mHelpURLPrefix +++ mDirectory bk
                       +++ "wwhdata/js/search.js" +++ VarParameters +++ qq "`></script>" +++ nl
                     +++ qq "<script language=`JavaScript1.2` src=`" +++ mHelpURLPrefix
                       +++ "wwhelp/wwhimpl/js/scripts/search1s.js" +++ VarParameters +++ qq "`></script>" +++ nl)
                (mBookList books)).

(** [WWHBookList_Init_BookData_Script] (booklist.js): the scripts with the data of the books. *)
Definition Init_BookData_Script (bl : book_list) : string * book_list :=
  (join "" (map (fun bk =>
     script_tag (mDirectory bk +++ "wwhdata/common/title.js") +++ script_tag (mDirectory bk +++ "wwhdata/common/context.js")
     +++ script_tag (mDirectory bk +++ "wwhdata/common/files.js") +++ script_tag (mDirectory bk +++ "wwhdata/common/alinks.js")
     +++ script_tag "wwhelp/wwhimpl/common/scripts/bklist1s.js") (mBookList bl)),
   BookList 0 (mBookList bl) (mBookContextToIndex bl)).

(** [WWHSearch_DisplaySearchForm]; the loop over [Level] writes a mark for each level. *)
Definition scope_option (selected : bool) (e : scope_entry) : string :=
  (if selected then "<option selected>" else "<option>")
  +++ join "" (repeat "- " (Z.to_nat (mLevel e))) +++ default "null" (s_mTitle e) +++ line "</option>".
Definition DisplaySearchForm (w : search) : string :=
  line (qq "<form name=`WWHSearchForm` onsubmit=`WWHFrame.WWHSearch.fSubmit();`>") +++ line "<nobr>"
  +++ qq "<input type=`text` name=`WWHSearchWordsText` size=`20` value=`" +++ EscapeHTML (mSavedSearchWords w)
  +++ line (qq "` onkeydown=`WWHFrame.WWHHelp.fIgnoreNextKeyPress((document.all||document.getElementById||document.layers)?event:null);`>")
  +++ qq "<input type=`submit` value=`" +++ mSearchButtonLabel ms +++ line (qq "`>") +++ line "</nobr>"
  +++ (if 1 <? book_count then
         line "<br>" +++ line (qq "<select name=`WWHSearchScope`>")
         +++ "<option>" +++ mSearchScopeAllLabel ms +++ line "</option>"
         +++ join "" (imap (fun i e => scope_option (Z.of_nat i =? mSavedSearchScope w - 1) e) (mSearchScopeInfo w))
         +++ line "</select>"
       else "")
  +++ line "</form>".
Definition NavigationHeadHTML : string := "".
Definition NavigationBodyHTML : search -> string := DisplaySearchForm.

(** [WWHSearch_HeadHTML] *)
Definition HeadHTML : string :=
  line (qq "<style type=`text/css`>") +++ line " <!--"
  +++ line "  a:active" +++ line "  {" +++ line "    text-decoration: none;"
  +++ line ("    background-color: " +++ mHighlightColor sty +++ ";") +++ line "  }"
  +++ line "  a:hover" +++ line "  {" +++ line "    text-decoration: underline;"
  +++ line ("    color: " +++ mEnabledColor sty +++ ";") +++ line "  }"
  +++ line "  a" +++ line "  {" +++ line "    text-decoration: none;"
  +++ line ("    color: " +++ mEnabledColor sty +++ ";") +++ line "  }"
  +++ line "  p" +++ line "  {" +++ line "    margin-top: 1pt;" +++ line "    margin-bottom: 1pt;"
  +++ line ("    " +++ mFontStyle sty +++ ";") +++ line "  }"
  +++ line "  p.BookTitle" +++ line "  {" +++ line "    margin-top: 1pt;" +++ line "    margin-bottom: 1pt;"
  +++ line "    font-weight: bold;" +++ line ("    " +++ mFontStyle sty +++ ";") +++ line "  }"
  +++ line "  ol" +++ line "  {" +++ line "    margin-top: 1pt;" +++ line "    margin-bottom: 1pt;"
  +++ (if mbShowRank st then line ("    " +++ mFontStyle sty +++ ";") else line "    list-style: none;") +++ line "  }"
  +++ line "  li" +++ line "  {" +++ line "    margin-top: 2pt;" +++ line "    margin-bottom: 0pt;"
  +++ line ("    " +++ mFontStyle sty +++ ";") +++ line "  }"
  +++ line " -->" +++ line "</style>".

(** [WWHSearch_HoverTextTranslate]; [None]: there is no such result. *)
Definition hover_row (label text : string) : string :=
  let Format := qq " align=`left` valign=`top`><span style=`" +++ h_mFontStyle sty +++ qq "`>" in
  "<tr>" +++ qq "<th style=`white-space: nowrap;`" +++ Format +++ label +++ "</span></th>"
  +++ "<td" +++ Format +++ text +++ "</span></td>" +++ "</tr>".
Definition HoverTextTranslate (i : Z) (w : search) : option string :=
  let r := mCombinedResults w in
  o ← at_index (mEntries r) i;
  e ← o;
  let rank := if mbShowRank st then whole_text (percent (e_mScore e) (mMaxScore r)) +++ "%" else "" in
  book ← (if by_score books r then title_text books (e_mBookIndex e) else Some "");
  Some (if (slen rank =? 0) && (slen book =? 0) then e_mTitle e
        else qq "<table width=`100%` border=`0` cellpadding=`4` cellspacing=`0`>"
          +++ (if 0 <? slen rank then hover_row (mSearchRankLabel st) rank else "")
          +++ hover_row (mSearchTitleLabel st) (e_mTitle e)
          +++ (if 0 <? slen book then hover_row (mSearchBookLabel st) book else "")
          +++ "</table>" +++ (if mbMacIE50 then "<table><tr><td></td></tr></table>" else "")).

(** [WWHSearch_HoverTextFormat] *)
Definition spacer (name width height : string) : string :=
  qq "<img src=`" +++ mHelpURLPrefix +++ "wwhelp/wwhimpl/common/images" +++ "/" +++ name +++ qq "` width=" +++ width
  +++ " height=" +++ height +++ qq " alt=``>".
Definition HoverTextFormat (ParamWidth ParamTextID ParamText : string) : string :=
  let spc1w2h := spacer "spc1w2h.gif" "1" "2" in
  let spc2w1h := spacer "spc2w1h.gif" "2" "1" in
  let spc1w7h := spacer "spc1w7h.gif" "1" "7" in
  let spc5w1h := spacer "spc5w1h.gif" "5" "1" in
  let StyleAttribute := qq " style=`font-size: 1px; line-height: 1px;`" in
  let border := qq "bgcolor=`" +++ h_mBorderColor sty +++ qq "`>" in
  let edge := " <tr>" +++ "  <td" +++ StyleAttribute +++ " height=2 colspan=5 " +++ border +++ spc1w2h +++ "</td>" +++ " </tr>" in
  let side := "  <td" +++ StyleAttribute +++ " height=7 " +++ border +++ spc2w1h +++ "</td>" in
  let margin := " <tr>" +++ side +++ "  <td" +++ StyleAttribute +++ " height=7 colspan=3>" +++ spc1w7h +++ "</td>" +++ side +++ " </tr>" in
  qq "<table width=`" +++ ParamWidth +++ qq "` border=0 cellspacing=0 cellpadding=0 bgcolor=`" +++ h_mBackgroundColor sty +++ qq "`>"
  +++ edge +++ margin
  +++ " <tr>" +++ "  <td " +++ border +++ spc2w1h +++ "</td>" +++ "  <td>" +++ spc5w1h +++ "</td>"
  +++ qq "  <td width=`100%` id=`" +++ ParamTextID +++ qq "` style=`color: " +++ h_mForegroundColor sty +++ " ; "
  +++ h_mFontStyle sty +++ qq "`>" +++ ParamText +++ "</td>"
  +++ "  <td>" +++ spc5w1h +++ "</td>" +++ "  <td " +++ border +++ spc2w1h +++ "</td>" +++ " </tr>"
  +++ margin +++ edge +++ "</table>".
End view.

(** ** From the form to the page of the results *)
Section search_page.
Context (books : book_list) (base_url : string) (mbResultsByBook : bool).
Context (index : Z -> list index_file) (page_pairs : Z -> Z -> list (string * string)).
Context (st : display) (ms : messages) (MaxHTMLSegmentSize : Z) (mHelpURLPrefix VarParameters : string).
Abbreviation book_count := (Z.of_nat (length (mBookList books))).
Abbreviation view := (view_pages books base_url mbResultsByBook (load_search index) (load_pairs page_pairs)).
Abbreviation body := (view_body books st ms MaxHTMLSegmentSize mHelpURLPrefix VarParameters).

(** The segments of the page are those of the results. *)
Lemma write_segments_results n : forall w, mbPanelInitialized w = true -> mSearchState w = None ->
  write_segments books st MaxHTMLSegmentSize n w
  = ('(l, r) ← segments books st MaxHTMLSegmentSize n (mCombinedResults w); Some (l, set_results r w)).
Proof using.
  induction n as [|n IH]; intros w Hi Hs; [done|]. cbn [write_segments segments]. unfold AdvanceHTMLSegment.
  rewrite Hi, bool_decide_true by done. cbn [andb].
  destruct (DisplayAdvance books st MaxHTMLSegmentSize (mCombinedResults w)) as [[more r]|]; [|done].
  cbn [mbind option_bind]. destruct more; [|done]. unfold GetHTMLSegment. cbn [mCombinedResults set_results].
  destruct (fGetBuffer (mHTMLSegment r)) as [s b]. rewrite IH by done. cbn [mCombinedResults set_results].
  by destruct (segments books st MaxHTMLSegmentSize n (set_segment b r)) as [[l r']|].
Qed.

Lemma in_books_range e : 0 <= e_mBookIndex e < book_count -> in_books books e.
Proof using.
  intros H. unfold in_books, title_text, GetBookTitle. destruct (get_book books (e_mBookIndex e) H) as [bk ->]. by eexists.
Qed.

(** The page that shows the results of the search of [w]. *)
Lemma results_page w l single :
  mbPanelInitialized w = true -> mSearchState w = None -> mSavedSearchWords w <> "" -> single_book books w = Some single ->
  mEntries (mCombinedResults w) = map Some l -> mSortedBy (mCombinedResults w) <> None ->
  Forall (in_books books) l -> slen (list_head books st (mCombinedResults w)) < MaxHTMLSegmentSize ->
  exists head segs w', body (S (length l)) w = Some (head, segs, "", w') /\
    (if decide (l = []) then head = accessor_functions +++ "<h3>" +++ mSearchNothingFoundMessage ms +++ line "</h3>" /\ segs = []
     else head = accessor_functions /\ join "" segs = results_text books st (mCombinedResults w) (negb single) l).
Proof using.
  intros Hi Hs Hw Hone He Hsort Hb Hhead. unfold view_body, StartHTMLSegments. rewrite Hi, Hs.
  assert (Hl : (slen (mSavedSearchWords w) =? 0) = false).
  { apply Z.eqb_neq. destruct (mSavedSearchWords w); [done|]. unfold slen. cbn. lia. }
  rewrite Hl, He, length_map. destruct l as [|e l].
  - cbn [length Nat.ltb Nat.leb mbind option_bind]. rewrite write_segments_results by done. cbn [segments].
    unfold DisplayAdvance. rewrite He. destruct (mSortedBy (mCombinedResults w)); [|done]. cbn [map mbind option_bind].
    eexists _, _, _. split; [done|]. by rewrite decide_True.
  - change ((0 <? length (e :: l))%nat) with true. rewrite Hone. cbn [mbind option_bind].
    rewrite write_segments_results by done. cbn [mCombinedResults set_results].
    destruct (shown_at_once books st MaxHTMLSegmentSize (mCombinedResults w) (negb single) (e :: l)) as (segs & r & E & _ & Ej); try done.
    rewrite E. cbn [mbind option_bind]. eexists _, segs, _. split; [done|]. by rewrite decide_False.
Qed.

(** C7. A search from the form to the page of its results: after [WWHSearch_Submit] of a new
    text and the two pages of scripts, the page of the view shows the pages found, each
    once, with the best first, in segments that together are the list written at once;
    titles of books stand before the results of each book unless one book is searched;
    the message that nothing was found is shown exactly when no page has every word and
    every phrase. *)
Theorem search_shows text items sel w first past single bf fp :
  data_ok books index -> panel_ready books index w -> text <> mSavedSearchWords w -> text <> "" ->
  toLowerCase text = join " " (map typed items) -> Forall (fun i => item_ok i = true) items ->
  let form := set_form text (if 1 <? book_count then sel else mSavedSearchScope w) None w in
  scope_books books form = Some (first, past) -> 0 <= first <= past -> past <= book_count ->
  single_book books form = Some single ->
  (forall r, slen (list_head books st r) < MaxHTMLSegmentSize) ->
  let one := mbResultsByBook || single in
  exists w' p' l head segs w'', Submit books true text sel w = Some (true, w') /\ view (Panel w' bf fp) = Some p' /\
    (forall e, e ∈ l <-> found books index page_pairs w text items first past e) /\
    NoDup (map page_key l) /\ StronglySorted (fun a b => rank books base_url one a b <= 0) l /\
    body (S (length l)) (p_search p') = Some (head, segs, "", w'') /\
    (if decide (l = []) then head = accessor_functions +++ "<h3>" +++ mSearchNothingFoundMessage ms +++ line "</h3>" /\ segs = []
     else head = accessor_functions /\ join "" segs = results_text books st (mCombinedResults (p_search p')) (negb single) l).
Proof using.
  intros Hd Hw Hne Ht Hlow Hit form Hsc Hf Hp Hone Hhead one.
  destruct (search_run books base_url mbResultsByBook index page_pairs Hd text items sel w first past one bf fp)
    as (w' & p' & l & E1 & E2 & Hr & (Htext & Hscope & Hinfo & Hsort) & He & Hnd & Hin & Hss); try done.
  { fold form. rewrite Hone. unfold one. by destruct mbResultsByBook. }
  assert (Hone' : single_book books (p_search p') = Some single).
  { unfold single_book, scope_chosen in *. by rewrite Hscope, Hinfo. }
  destruct (results_page (p_search p') l single) as (head & segs & w'' & E & Hshow); try done.
  - apply Hr.
  - apply Hr.
  - by rewrite Htext.
  - by rewrite Hsort.
  - apply Forall_forall. intros e Hl. apply Hin in Hl as [Hb _]. apply in_books_range. lia.
  - by exists w', p', l, head, segs, w''.
Qed.
End search_page.

Definition example_display : display := Display true false false "event" "Rank" "Title" "Book" ";".
Definition example_messages : messages := Messages "Loading" "Searching" "Type words" "Nothing found" "Go" "All".
Lemma search_shows_witness : exists w' p' l head segs w'',
  Submit two_books true example_text 0 example_panel = Some (true, w') /\
  view_pages two_books "" false (load_search example_index) (load_pairs example_pairs) (Panel w' None None) = Some p' /\
  (forall e, e ∈ l <-> found two_books example_index example_pairs example_panel example_text [Word "report"; Phrase "top" ["hosts"]] 0 2 e) /\
  NoDup (map page_key l) /\ StronglySorted (fun a b => rank two_books "" false a b <= 0) l /\
  view_body two_books example_display example_messages 60 "" "" (S (length l)) (p_search p') = Some (head, segs, "", w'') /\
  (if decide (l = []) then head = accessor_functions +++ "<h3>" +++ "Nothing found" +++ line "</h3>" /\ segs = []
   else head = accessor_functions /\ join "" segs = results_text two_books example_display (mCombinedResults (p_search p')) true l).
Proof.
  apply (search_shows two_books "" false example_index example_pairs example_display example_messages 60 "" ""
    example_text [Word "report"; Phrase "top" ["hosts"]] 0 example_panel 0 2 false None None); try done.
  - apply example_data.
  - apply example_ready.
  - by repeat constructor.
  - intros r. unfold list_head. destruct (by_score two_books r); done.
Defined.
(** The page. *)
Example example_page :
  (p ← Submit two_books true example_text 0 example_panel;
   p ← view_pages two_books "" false (load_search example_index) (load_pairs example_pairs) (Panel (snd p) None None);
   '(_, segs, _, _) ← view_body two_books example_display example_messages 60 "" "" 3 (p_search p); Some segs)
  = Some ["<p><nobr><b>Rank Title, Book</b></nobr></p>" +++ nl +++ "<ol>" +++ nl
          +++ qq "<li value=`100`><a href=`javascript:fC(0);`>Reports</a>, Guide</li>" +++ nl +++ "</ol>" +++ nl].
Proof. vm_compute. reflexivity. Qed.

(** Shown by books, the list that the head opens is never closed: three lists are opened
    for the results of two books and two are closed. *)
Example by_book_list_stays_open :
  (p ← Submit two_books true "report" 0 example_panel;
   p ← view_pages two_books "" true (load_search example_index) (load_pairs example_pairs) (Panel (snd p) None None);
   '(_, segs, _, _) ← view_body two_books example_display example_messages 8192 "" "" 4 (p_search p);
   Some (map (fun s => (length (js_split s "<ol>"), length (js_split s "</ol>"))) segs))
  = Some [(4, 3)]%nat.
Proof. vm_compute. reflexivity. Qed.
