(* ===== verification/HelpTree.v ===== *)
(** * Walking the table of contents (outline.js, WWHOutlineIterator)
    The entries of the contents are objects with a parent and children; [s] maps their
    numbers to them.  The iterator goes to the next entry with a stack of positions and
    tells an observer when it opens, closes or stays on a level.  Walking from an entry
    visits what is below it in the order of the tree, each entry once, and ends. *)
From S2P Require Import Prelude JsString.
Open Scope Z_scope.
#[local] Set Warnings "-register-all".

(** ** Entries *)
Record entry := Entry {
  mParent : option Z; mbShow : bool; mText : option string; mURL : string; mLevel : Z;
  mbExpanded : bool; mChildren : option (list Z); mIcon : option string; mOpenIcon : option string;
  mBookIndex : option Z
}.
(** The title of a book may be [null].  [mEntryHash] with the top entry, whose number
    is -1. *)
Abbreviation store := (gmap Z entry).

Definition set_expanded (b : bool) (e : entry) : entry :=
  Entry (mParent e) (mbShow e) (mText e) (mURL e) (mLevel e) b (mChildren e) (mIcon e) (mOpenIcon e) (mBookIndex e).

(** ** [WWHOutlineIterator_Object] *)
Inductive level := OpenLevel | SameLevel | CloseLevel (complete : bool).
(** The top of the stack comes first. *)
Record iterator := Iterator {
  mbVisibleOnly : bool; mIteratorScope : Z; mEntry : option Z; mStack : list nat
}.
Definition Reset (id : Z) (it : iterator) : iterator := Iterator (mbVisibleOnly it) id (Some id) [].

Section iterator.
Context (s : store).

(** The loop that looks for the next child of a parent, going up while there is none;
    [None]: an exception (the stack's length becomes -1, or a parent has no children). *)
Fixpoint climb (scope : Z) (stack : list nat) (parent : option Z) : option (option Z * list nat * list level) :=
  match parent with
  | None => Some (None, stack, [])
  | Some p =>
      match stack with
      | [] => None
      | i :: rest =>
          e ← s !! p;
          kids ← mChildren e;
          match kids !! S i with
          | Some k => Some (Some k, S i :: rest, [])
          | None =>
              let up := if p =? scope then None else mParent e in
              '(r, st, ev) ← climb scope rest up;
              Some (r, st, CloseLevel (bool_decide (up = None)) :: ev)
          end
      end
  end.

(** [WWHOutlineIterator_Advance]: whether there is an entry, and what the observer is told. *)
Definition Advance (it : iterator) : option (bool * iterator * list level) :=
  match mEntry it with
  | None => Some (false, it, [])
  | Some id =>
      e ← s !! id;
      match (if negb (mbVisibleOnly it) || mbExpanded e then mChildren e else None) with
      | Some kids =>
          Some (bool_decide (head kids <> None),
                Iterator (mbVisibleOnly it) (mIteratorScope it) (head kids) (O :: mStack it), [OpenLevel])
      | None =>
          if id =? mIteratorScope it then
            Some (false, Iterator (mbVisibleOnly it) (mIteratorScope it) None (mStack it), [])
          else
            '(r, st, ev) ← climb (mIteratorScope it) (mStack it) (mParent e);
            Some (bool_decide (r <> None), Iterator (mbVisibleOnly it) (mIteratorScope it) r st,
                  match ev with [] => [SameLevel] | _ => ev end)
      end
  end.

(** What happens in a walk: levels and entries. *)
Inductive act := Level (l : level) | Visit (id : Z).

(** [while (fAdvance(observer))] *)
Fixpoint walk (fuel : nat) (it : iterator) : option (list act) :=
  match fuel with
  | O => None
  | S fuel =>
      '(more, it, ev) ← Advance it;
      match more, mEntry it with
      | true, Some id => l ← walk fuel it; Some (map Level ev ++ Visit id :: l)
      | _, _ => Some (map Level ev)
      end
  end.
End iterator.

(** ** The tree of the entries *)
Inductive tree := Tree (id : Z) (kids : list tree).
Definition root (t : tree) : Z := let '(Tree id _) := t in id.
Definition kids_of (t : tree) : list tree := let '(Tree _ kids) := t in kids.

Section tree_ind.
Context (P : tree -> Prop) (Hnode : forall id kids, Forall P kids -> P (Tree id kids)).
Fixpoint tree_induction (t : tree) : P t :=
  match t with
  | Tree id kids =>
      Hnode id kids
        ((fix all (l : list tree) : Forall P l :=
            match l with [] => Forall_nil_2 P | t :: l => Forall_cons_2 P t l (tree_induction t) (all l) end) kids)
  end.
End tree_ind.

Lemma elem_flat_map {A B} (f : A -> list B) l y : y ∈ flat_map f l <-> exists x, x ∈ l /\ y ∈ f x.
Proof. rewrite list_elem_of_In, in_flat_map. by setoid_rewrite list_elem_of_In. Qed.
(** All entries of a tree, in its order. *)
Fixpoint ids (t : tree) : list Z := let '(Tree id kids) := t in id :: flat_map ids kids.
Abbreviation ids_of := (flat_map ids).

Section representation.
Context (s : store).
Definition links (parent : option Z) (t : tree) : Prop :=
  exists e, s !! root t = Some e /\ mParent e = parent /\
    mChildren e = match kids_of t with [] => None | kids => Some (map root kids) end.
(** The objects with these numbers are linked like the tree. *)
Fixpoint rep (parent : option Z) (t : tree) : Prop :=
  let '(Tree id kids) := t in
  links parent (Tree id kids) /\
  (fix all (l : list tree) : Prop := match l with [] => True | t :: l => rep (Some id) t /\ all l end) kids.

Lemma rep_node parent id kids :
  rep parent (Tree id kids) <-> links parent (Tree id kids) /\ Forall (rep (Some id)) kids.
Proof.
  cbn [rep]. apply and_iff_compat_l. induction kids as [|t l IH]; [by split|]. rewrite Forall_cons, IH. done.
Qed.
Lemma rep_links parent t : rep parent t -> links parent t.
Proof. destruct t. by intros [H _]%rep_node. Qed.

(** ** The walk of the tree *)
Context (visible_only : bool).
(** The children of an entry are visited. *)
Definition open (id : Z) : bool := negb visible_only || match s !! id with Some e => mbExpanded e | None => false end.
Definition leaf (t : tree) : bool := negb (open (root t)) || match kids_of t with [] => true | _ => false end.

(** What is below an entry; [c]: the walk is complete after this level. *)
Fixpoint below (c : bool) (t : tree) : list act :=
  let '(Tree id kids) := t in
  if leaf (Tree id kids) then []
  else Level OpenLevel ::
    (fix on_level (l : list tree) : list act :=
       match l with
       | [] => []
       | t :: l =>
           Visit (root t) :: below false t ++
             match l with
             | [] => [Level (CloseLevel c)]
             | _ => (if leaf t then [Level SameLevel] else []) ++ on_level l
             end
       end) kids.
Fixpoint on_level (c : bool) (l : list tree) : list act :=
  match l with
  | [] => []
  | t :: l =>
      Visit (root t) :: below false t ++
        match l with
        | [] => [Level (CloseLevel c)]
        | _ => (if leaf t then [Level SameLevel] else []) ++ on_level c l
        end
  end.
Lemma below_node c id kids :
  below c (Tree id kids) = if leaf (Tree id kids) then [] else Level OpenLevel :: on_level c kids.
Proof.
  cbn [below]. case_if; [done|]. f_equal. induction kids as [|t l IH]; [done|]. cbn [on_level]. do 2 f_equal.
  destruct l; [done|]. by rewrite IH.
Qed.
(** The rest of a level after its first entry was visited. *)
Definition rest_level (c : bool) (t : tree) (l : list tree) : list act :=
  below false t ++ match l with
                   | [] => [Level (CloseLevel c)]
                   | _ => (if leaf t then [Level SameLevel] else []) ++ on_level c l
                   end.
Lemma on_level_cons c t l : on_level c (t :: l) = Visit (root t) :: rest_level c t l.
Proof. done. Qed.

Definition is_visit (a : act) : bool := match a with Visit _ => true | _ => false end.
Definition visits (l : list act) : nat := length (List.filter is_visit l).
Lemma visits_app l k : visits (l ++ k) = (visits l + visits k)%nat.
Proof. unfold visits. rewrite List.filter_app. apply length_app. Qed.

(** ** The iterator walks the tree *)
Section walking.
Context (scope : Z).
Definition at_ (id : Z) (st : list nat) : iterator := Iterator visible_only scope (Some id) st.
(** The walk goes on from the parent [p] of a level; [same]: nothing was closed yet. *)
Definition resume (n : nat) (same : bool) (st : list nat) (p : option Z) : option (list act) :=
  '(r, st, ev) ← climb s scope st p;
  let ev := if same then match ev with [] => [SameLevel] | _ => ev end else ev in
  match r with
  | Some k => l ← walk s n (at_ k st); Some (map Level ev ++ Visit k :: l)
  | None => Some (map Level ev)
  end.
Definition after (l : list act) (o : option (list act)) : option (list act) := app l <$> o.
Lemma after_app l k o : after (l ++ k) o = after l (after k o).
Proof. destruct o; [|done]. cbn. by rewrite <- app_assoc. Qed.
Lemma after_nil o : after [] o = o.
Proof. by destruct o. Qed.

(** The entry above a level, unless the level belongs to the scope. *)
Definition up_from (p : Z) : option Z := if p =? scope then None else s !! p ≫= mParent.
Definition complete (p : Z) : bool := bool_decide (up_from p = None).

Lemma leaf_children t parent e : links parent t -> s !! root t = Some e ->
  (if negb visible_only || mbExpanded e then mChildren e else None) = if leaf t then None else Some (map root (kids_of t)).
Proof.
  intros (e' & He & _ & Hk) E. rewrite He in E. injection E as <-. unfold leaf, open. rewrite He.
  destruct (negb visible_only || mbExpanded e'); cbn [negb orb]; [|done]. rewrite Hk. by destruct (kids_of t).
Qed.
Lemma leaf_step t p st n : links (Some p) t -> leaf t = true -> root t <> scope ->
  walk s (S n) (at_ (root t) st) = resume n true st (Some p).
Proof.
  intros Hl Hleaf Hne. pose proof Hl as (e & He & Hp & Hk). cbn [walk]. unfold Advance. cbn [mEntry at_].
  rewrite He. cbn [mbind option_bind mbVisibleOnly at_]. rewrite (leaf_children t (Some p) e) by done. rewrite Hleaf.
  cbn [mIteratorScope at_]. destruct (Z.eqb_spec (root t) scope); [done|]. cbn [mStack at_]. rewrite Hp. unfold resume.
  destruct (climb s scope st (Some p)) as [[[r st'] ev]|]; [|done]. cbn [mbind option_bind mEntry].
  destruct r as [k|]; [rewrite bool_decide_true by done|rewrite bool_decide_false by (intros H; by apply H)]; done.
Qed.
Lemma open_step t parent st n k l : links parent t -> leaf t = false -> kids_of t = k :: l ->
  walk s (S n) (at_ (root t) st) = after [Level OpenLevel; Visit (root k)] (walk s n (at_ (root k) (O :: st))).
Proof.
  intros Hl Hleaf Hk. pose proof Hl as (e & He & Hp & Hkids). cbn [walk]. unfold Advance. cbn [mEntry at_].
  rewrite He. cbn [mbind option_bind mbVisibleOnly at_]. rewrite (leaf_children t parent e) by done. rewrite Hleaf, Hk.
  cbn [map head mbind option_bind mEntry mStack mIteratorScope at_]. rewrite bool_decide_true by done.
  by destruct (walk s n _).
Qed.

(** From the entry [t] on a level below [p], with [l] behind it, to the end of the level. *)
Definition level_walk (t : tree) : Prop :=
  forall p st n, rep (Some p) t -> scope ∉ ids t ->
    walk s (S (visits (below false t) + n)) (at_ (root t) st)
    = after (below false t) (resume n (leaf t) st (Some p)).

Lemma resume_next p q pre t u l st n same :
  links q (Tree p (pre ++ t :: u :: l)) ->
  resume n same (length pre :: st) (Some p)
  = after (if same then [Level SameLevel] else []) (after [Visit (root u)] (walk s n (at_ (root u) (length (pre ++ [t]) :: st)))).
Proof.
  intros (e & He & _ & Hk). cbn [root kids_of] in He, Hk. unfold resume. cbn [climb]. rewrite He. cbn [mbind option_bind].
  assert (Hk' : mChildren e = Some (map root (pre ++ t :: u :: l))) by (rewrite Hk; by destruct pre). rewrite Hk'. cbn [mbind option_bind].
  assert (Hn : map root (pre ++ t :: u :: l) !! S (length pre) = Some (root u)).
  { rewrite list_lookup_fmap. replace (pre ++ t :: u :: l) with ((pre ++ [t]) ++ u :: l) by (by rewrite <- app_assoc).
    replace (S (length pre)) with (length (pre ++ [t])) by (rewrite length_app; cbn; lia). by rewrite list_lookup_middle. }
  rewrite Hn. replace (S (length pre)) with (length (pre ++ [t])) by (rewrite length_app; cbn; lia).
  cbn [mbind option_bind]. destruct same; by destruct (walk s n _).
Qed.
Lemma resume_last p pre t st n same q : links q (Tree p (pre ++ [t])) ->
  resume n same (length pre :: st) (Some p)
  = after [Level (CloseLevel (complete p))] (resume n false st (up_from p)).
Proof.
  intros (e & He & _ & Hk). cbn [root kids_of] in He, Hk. unfold resume. cbn [climb]. rewrite He. cbn [mbind option_bind].
  assert (Hk' : mChildren e = Some (map root (pre ++ [t]))) by (rewrite Hk; by destruct pre). rewrite Hk'. cbn [mbind option_bind].
  assert (Hn : map root (pre ++ [t]) !! S (length pre) = None).
  { apply lookup_ge_None. rewrite length_map, length_app. cbn. lia. }
  rewrite Hn. unfold complete, up_from. rewrite He. cbn [mbind option_bind].
  destruct (climb s scope st _) as [[[r st'] ev]|]; [|done]. cbn [mbind option_bind].
  destruct same; (destruct r; [|done]); by destruct (walk s n _).
Qed.

Lemma level_run p q l : Forall level_walk l -> forall pre st n,
  links q (Tree p (pre ++ l)) -> Forall (rep (Some p)) l -> scope ∉ ids_of l ->
  forall t k, l = t :: k ->
    walk s (S (visits (rest_level (complete p) t k) + n)) (at_ (root t) (length pre :: st))
    = after (rest_level (complete p) t k) (resume n false st (up_from p)).
Proof.
  induction 1 as [|t l Ht _ IH]; intros pre st n Hq Hrep Hsc t' k' [= <- <-].
  inv Hrep as [|? ? Hrt Hrl]. cbn [flat_map] in Hsc. apply not_elem_of_app in Hsc as [Hst Hsl]. unfold rest_level.
  destruct l as [|u l].
  - rewrite visits_app. cbn [visits List.filter is_visit length]. rewrite Nat.add_0_r.
    rewrite (Ht p) by done. rewrite after_app. f_equal. exact (resume_last p pre t st n (leaf t) q Hq).
  - rewrite on_level_cons, !visits_app.
    assert (Ev : visits (if leaf t then [Level SameLevel] else []) = O) by (by destruct (leaf t)).
    change (visits (Visit (root u) :: rest_level (complete p) u l)) with (S (visits (rest_level (complete p) u l))).
    rewrite Ev. replace (S (visits (below false t) + (0 + S (visits (rest_level (complete p) u l))) + n))
      with (S (visits (below false t) + (S (visits (rest_level (complete p) u l) + n)))) by lia.
    rewrite (Ht p) by done. rewrite after_app. f_equal.
    rewrite (resume_next p q pre t u l) by done. rewrite after_app. f_equal.
    change (Visit (root u) :: rest_level (complete p) u l) with ([Visit (root u)] ++ rest_level (complete p) u l). rewrite after_app. f_equal.
    apply (IH (pre ++ [t]) st n); [by rewrite <- app_assoc|done|done|done].
Qed.

Lemma walk_below t : level_walk t.
Proof.
  induction t as [id kids IH] using tree_induction. intros p st n Hrep Hsc.
  assert (Hl := rep_links _ _ Hrep). apply rep_node in Hrep as [_ Hkids]. cbn [ids] in Hsc. apply not_elem_of_cons in Hsc as [Hne Hsc].
  rewrite below_node. destruct (leaf (Tree id kids)) eqn:Eleaf.
  - rewrite after_nil. by apply leaf_step.
  - assert (Hup : up_from id = Some p).
    { unfold up_from. cbn [root] in *. destruct (Z.eqb_spec id scope); [congruence|]. destruct Hl as (e & He & Hp & _). cbn [root] in He. by rewrite He. }
    assert (Hc : complete id = false) by (unfold complete; rewrite Hup; by rewrite bool_decide_false).
    destruct kids as [|k l]; [unfold leaf in Eleaf; cbn in Eleaf; by rewrite orb_true_r in Eleaf|].
    rewrite on_level_cons. change (visits (Level OpenLevel :: Visit (root k) :: rest_level false k l)) with (S (visits (rest_level false k l))).
    rewrite (open_step (Tree id (k :: l)) (Some p) st _ k l) by done.
    change (Level OpenLevel :: Visit (root k) :: rest_level false k l) with ([Level OpenLevel; Visit (root k)] ++ rest_level false k l).
    rewrite after_app. f_equal. rewrite <- Hup. rewrite <- Hc at 1 2.
    exact (level_run id (Some p) (k :: l) IH [] st n Hl Hkids Hsc k l eq_refl).
Qed.
End walking.

(** From [fReset(scope)] the iterator visits what is below the scope, in order, and ends. *)
Theorem walk_scope parent t n : rep parent t -> NoDup (ids t) ->
  walk s (S (visits (below true t) + n)) (Reset (root t) (Iterator visible_only 0 None [])) = Some (below true t).
Proof.
  intros Hrep Hnd. change (Reset (root t) (Iterator visible_only 0 None [])) with (at_ (root t) (root t) []).
  assert (Hl := rep_links _ _ Hrep). destruct t as [id kids]. apply rep_node in Hrep as [_ Hkids].
  cbn [ids] in Hnd. inv Hnd as [|? ? Hid _]. rewrite below_node.
  assert (Hup : up_from id id = None) by (unfold up_from; by rewrite Z.eqb_refl).
  assert (Hc : complete id id = true) by (unfold complete; rewrite Hup; by rewrite bool_decide_true).
  destruct (leaf (Tree id kids)) eqn:Eleaf.
  - cbn [visits List.filter length Nat.add walk root]. unfold Advance. cbn [mEntry at_ mbVisibleOnly mIteratorScope].
    pose proof Hl as (e & He & Hp & Hk). cbn [root] in He. rewrite He. cbn [mbind option_bind].
    rewrite (leaf_children (Tree id kids) parent e) by done. rewrite Eleaf, Z.eqb_refl. done.
  - destruct kids as [|k l]; [unfold leaf in Eleaf; cbn in Eleaf; by rewrite orb_true_r in Eleaf|].
    rewrite on_level_cons. change (visits (Level OpenLevel :: Visit (root k) :: rest_level true k l)) with (S (visits (rest_level true k l))).
    replace (S (S (visits (rest_level true k l)) + n)) with (S (S (visits (rest_level true k l) + n))) by lia.
    rewrite (open_step id (Tree id (k :: l)) parent [] _ k l) by done.
    rewrite <- Hc.
    assert (R := level_run id id parent (k :: l) (Forall_true _ _ (walk_below id)) [] [] n Hl Hkids Hid k l eq_refl).
    cbn [length] in R. rewrite R. unfold resume. rewrite Hup. cbn. by rewrite app_nil_r.
Qed.

(** ** How many entries are visited *)
Lemma ids_in_store t : forall parent, rep parent t -> Forall (fun i => is_Some (s !! i)) (ids t).
Proof.
  induction t as [id kids IH] using tree_induction. intros parent [(e & He & _) Hk]%rep_node. cbn [ids].
  constructor; [by eexists|]. induction IH as [|k kids Hi _ IH]; [done|]. inv Hk. apply Forall_app. split; [by eapply Hi|by apply IH].
Qed.
Lemma ids_size parent t : rep parent t -> NoDup (ids t) -> (length (ids t) <= size s)%nat.
Proof.
  intros Hr Hn. rewrite <- length_map_to_list, <- (length_fmap fst). apply submseteq_length, NoDup_submseteq; [done|].
  intros i Hi. assert (H := ids_in_store _ _ Hr). rewrite Forall_forall in H. destruct (H i Hi) as [e He].
  apply list_elem_of_fmap. exists (i, e). split; [done|]. by apply elem_of_map_to_list.
Qed.
Lemma visits_below t : forall c, (visits (below c t) <= length (ids_of (kids_of t)))%nat.
Proof.
  induction t as [id kids IH] using tree_induction. intros c. rewrite below_node. cbn [kids_of].
  destruct (leaf (Tree id kids)); [cbn; lia|]. change (visits (Level OpenLevel :: ?l)) with (visits l).
  induction IH as [|k kids Hk _ IH]; [cbn; lia|]. rewrite on_level_cons. unfold rest_level.
  change (visits (Visit ?i :: ?l)) with (S (visits l)). rewrite visits_app. specialize (Hk false).
  destruct k as [i ks]. cbn [kids_of] in Hk. cbn [flat_map ids]. rewrite length_app. cbn [length].
  destruct kids as [|k2 kids]; [cbn [visits List.filter is_visit length flat_map] in *; lia|].
  rewrite visits_app. destruct (leaf (Tree i ks)); cbn [visits List.filter is_visit length] in *; unfold visits in *; lia.
Qed.
End representation.
