(* ===== verification/HelpOutline.v ===== *)
(** * The table of contents of the online help
    (outline.js, outlfast.js and outlsafe.js of wwhelp/wwhimpl/js/scripts)
    The entries that groups, books and their contents become; what a click on an entry
    does; finding the entry of a page; the text of the page that shows the contents, and
    of the part of it that is written again when an entry is opened or closed. *)
From S2P Require Import Prelude JsString JsNum JsVal HelpString HelpBooks HelpTree.
Open Scope Z_scope.
#[local] Set Warnings "-register-all".

(** ** Settings, messages, the browser *)
Record viewer := Viewer {
  mBrowser : Z; mPlatform : Z; mbAccessible : bool; mbExpandAllAtTop : bool;
  mBaseURL : string; mHelpURLPrefix : string; VarParameters : string; mMaxHTMLSegmentSize : Z;
  mbHoverEnabled : bool; mIndent : Z; mHighlightColor : string; mEnabledColor : string; mFontStyle : string;
  mInitializingMessage : string; mAccessibilityTOCBookExpanded : string; mAccessibilityTOCBookCollapsed : string;
  mAccessibilityTOCTopic : string; mAccessibilityTOCOneOfTotal : string; mTOCFileNotFoundMessage : string
}.

(** What the outline does outside itself. *)
Inductive effect :=
| HidePopup | WriteElement (id html : string) | ReloadView | JumpToAnchor | Focus (anchor : string)
| SetDocumentHREF (url : string) | SetCollapsing | AlertLater (message : string).

(** The object that draws the outline, chosen by the browser. *)
Inductive imaging := Safe | Fast (mbUseList : bool).

Record outline := Outline {
  mEntryHash : store; mNextEntryID : Z; mMaxLevel : Z; mBookEntryArray : list Z; mInitIndex : Z;
  mbPanelInitialized : bool; mSyncBookIndex : option Z; mSyncFileIndex : option Z; mSyncAnchor : option string;
  mPanelAnchor : option string; mIterator : iterator; mHTMLSegment : buffer
}.
Definition set_store (s : store) (o : outline) : outline :=
  Outline s (mNextEntryID o) (mMaxLevel o) (mBookEntryArray o) (mInitIndex o) (mbPanelInitialized o)
    (mSyncBookIndex o) (mSyncFileIndex o) (mSyncAnchor o) (mPanelAnchor o) (mIterator o) (mHTMLSegment o).
Definition on_entry (f : entry -> entry) (id : Z) (o : outline) : outline := set_store (alter f id (mEntryHash o)) o.
Definition set_books (l : list Z) (i : Z) (ready : bool) (o : outline) : outline :=
  Outline (mEntryHash o) (mNextEntryID o) (mMaxLevel o) l i ready
    (mSyncBookIndex o) (mSyncFileIndex o) (mSyncAnchor o) (mPanelAnchor o) (mIterator o) (mHTMLSegment o).
Definition set_sync (b f : option Z) (a : option string) (o : outline) : outline :=
  Outline (mEntryHash o) (mNextEntryID o) (mMaxLevel o) (mBookEntryArray o) (mInitIndex o) (mbPanelInitialized o)
    b f a (mPanelAnchor o) (mIterator o) (mHTMLSegment o).
Definition set_anchor (a : option string) (o : outline) : outline :=
  Outline (mEntryHash o) (mNextEntryID o) (mMaxLevel o) (mBookEntryArray o) (mInitIndex o) (mbPanelInitialized o)
    (mSyncBookIndex o) (mSyncFileIndex o) (mSyncAnchor o) a (mIterator o) (mHTMLSegment o).
Definition set_page (it : iterator) (b : buffer) (o : outline) : outline :=
  Outline (mEntryHash o) (mNextEntryID o) (mMaxLevel o) (mBookEntryArray o) (mInitIndex o) (mbPanelInitialized o)
    (mSyncBookIndex o) (mSyncFileIndex o) (mSyncAnchor o) (mPanelAnchor o) it b.

(** ** Entries *)

(** A parameter that is used when it is a string. *)
Definition as_string (v : jsval) : option string := match v with JStr s => Some s | _ => None end.

Definition top_id : Z := -1.
Definition top_entry : entry := Entry None false (Some "Top Level") "" (-1) true None None None None.
Definition new_outline : outline :=
  Outline {[top_id := top_entry]} 0 0 [] 0 false None None None None (Iterator true top_id None []) new_buffer.

Definition add_child (id : Z) (e : entry) : entry :=
  Entry (mParent e) (mbShow e) (mText e) (mURL e) (mLevel e) (mbExpanded e)
    (Some (match mChildren e with None => [id] | Some l => l ++ [id] end)) (mIcon e) (mOpenIcon e) (mBookIndex e).
Definition set_shown (show : bool) (level : Z) (e : entry) : entry :=
  Entry (mParent e) show (mText e) (mURL e) level (mbExpanded e) (mChildren e) (mIcon e) (mOpenIcon e) (mBookIndex e).
Definition set_url (url : string) (e : entry) : entry :=
  Entry (mParent e) (mbShow e) (mText e) url (mLevel e) (mbExpanded e) (mChildren e) (mIcon e) (mOpenIcon e) (mBookIndex e).
Definition set_book_index (i : Z) (e : entry) : entry :=
  Entry (mParent e) (mbShow e) (mText e) (mURL e) (mLevel e) (mbExpanded e) (mChildren e) (mIcon e) (mOpenIcon e) (Some i).

(** What a file toc.js is: the calls of [fN] on the book or on the entries made before,
    an entry's calls after its own. *)
Inductive toc := Toc (text : string) (url icon openicon : jsval) (inside : list toc).

Section outline.
Context (books : book_list) (v : viewer).

(** [new WWHOutlineEntry_Object] *)
Definition new_entry (parent : Z) (p : entry) (text : option string) (url icon openicon : jsval) : entry :=
  Entry (Some parent) true text (default "" (as_string url)) (mLevel p + 1) false None
    (as_string icon) (as_string openicon) None.
(** [WWHOutlineEntry_NewChild] on the entry [parent]. *)
Definition NewChild (parent : Z) (text : option string) (url icon openicon : jsval) (o : outline) : option (Z * outline) :=
  p ← mEntryHash o !! parent;
  let id := mNextEntryID o in
  let e := new_entry parent p text url icon openicon in
  let e := if (mLevel e =? 0) && mbExpandAllAtTop v then set_expanded true e else e in
  Some (id, Outline (<[parent := add_child id p]> (<[id := e]> (mEntryHash o))) (id + 1)
              (if mMaxLevel o <? mLevel e then mLevel e else mMaxLevel o) (mBookEntryArray o) (mInitIndex o)
              (mbPanelInitialized o) (mSyncBookIndex o) (mSyncFileIndex o) (mSyncAnchor o) (mPanelAnchor o)
              (mIterator o) (mHTMLSegment o)).

(** [WWHOutline_InitGroupings]: a group, then what is in it; a book, whose entry is
    remembered. *)
Fixpoint group_entry (parent : Z) (n : node) (o : outline) : option outline :=
  match n with
  | Group title expand icon openicon children =>
      '(id, o) ← NewChild parent (Some title) (JStr "") (default Undefined icon) (default Undefined openicon) o;
      (fix entries (l : list node) (o : outline) : option outline :=
         match l with [] => Some o | n :: l => o ← group_entry id n o; entries l o end)
        children (on_entry (set_expanded expand) id o)
  | Directory _ show expand icon openicon =>
      title ← GetBookTitle books (Z.of_nat (length (mBookEntryArray o)));
      '(id, o) ← NewChild parent title (JStr "") (default Undefined icon) (default Undefined openicon) o;
      p ← mEntryHash o !! parent;
      let f e := if show then set_expanded expand (set_shown true (mLevel e) e)
                 else set_expanded true (set_shown false (mLevel p) e) in
      Some (set_books (mBookEntryArray o ++ [id]) (mInitIndex o) (mbPanelInitialized o) (on_entry f id o))
  end.
Fixpoint InitGroupings (parent : Z) (l : list node) (o : outline) : option outline :=
  match l with [] => Some o | n :: l => o ← group_entry parent n o; InitGroupings parent l o end.

Fixpoint add_toc (parent : Z) (t : toc) (o : outline) : option outline :=
  match t with
  | Toc text url icon openicon inside =>
      '(id, o) ← NewChild parent (Some text) url icon openicon o;
      (fix entries (l : list toc) (o : outline) : option outline :=
         match l with [] => Some o | t :: l => o ← add_toc id t o; entries l o end) inside o
  end.
(** [WWHBookData_AddTOCEntries] of a book. *)
Fixpoint AddTOCEntries (parent : Z) (l : list toc) (o : outline) : option outline :=
  match l with [] => Some o | t :: l => o ← add_toc parent t o; AddTOCEntries parent l o end.

(** [WWHOutline_InitBodyHTML]: the entries of groups and books, and the scripts that
    load the contents of the books. *)
Definition line (s : string) : string := s +++ nl.
Definition toc_script (src : string) : string :=
  qq "<script language=`JavaScript1.2` src=`" +++ mHelpURLPrefix v +++ src +++ VarParameters v +++ qq "`></script>" +++ nl.
Definition InitBodyHTML (groups : list node) (o : outline) : option (string * outline) :=
  o ← InitGroupings top_id groups o;
  Some ("<h2>" +++ mInitializingMessage v +++ line "</h2>"
        +++ join "" (map (fun b => toc_script (mDirectory b +++ "wwhdata/js/toc.js")
                                     +++ toc_script "wwhelp/wwhimpl/js/scripts/outlin1s.js") (mBookList books)),
        set_books (mBookEntryArray o) 0 (mbPanelInitialized o) o).

(** [WWHOutline_InitLoadBookTOC].  The flag tells that the end of it throws: when the
    last book is loaded and a page waits for its entry to be shown, the condition calls
    the value of [(this.mSyncFileIndex != null)] as a function. *)
Definition InitLoadBookTOC (l : list toc) (o : outline) : option (outline * bool) :=
  b ← at_index (mBookEntryArray o) (mInitIndex o);
  let o := on_entry (set_book_index (mInitIndex o)) b o in
  o ← AddTOCEntries b l o;
  e ← mEntryHash o !! b;
  o ← (if mbShow e then
         bk ← GetBook books (mInitIndex o);
         Some (if 0 <? fEntries (mFiles bk) then on_entry (set_url "0") b o else o)
       else Some o);
  let i := mInitIndex o + 1 in
  if i =? Z.of_nat (length (mBookList books)) then
    Some (set_books (mBookEntryArray o) i true o, bool_decide (mSyncBookIndex o <> None))
  else Some (set_books (mBookEntryArray o) i (mbPanelInitialized o) o, false).

(** ** The text of an entry *)
Definition ImageSrcDir : string :=
  if (mBrowser v =? 2) && (mPlatform v =? 2) then mHelpURLPrefix v +++ "wwhelp/" else "../../../".
Definition EventString : string :=
  if (mBrowser v =? 1) || (mBrowser v =? 2) || (mBrowser v =? 4) || (mBrowser v =? 5) then "event" else "null".

Definition icon_or (icon : option string) (default : string) : string :=
  ImageSrcDir +++ match icon with Some i => "images/" +++ i | None => default end.
Definition GetIconURL (e : entry) : string :=
  match mChildren e with
  | Some _ =>
      if mbExpanded e then
        icon_or (match mOpenIcon e with Some i => Some i | None => mIcon e end) "wwhimpl/common/images/fo.gif"
      else icon_or (mIcon e) "wwhimpl/common/images/fc.gif"
  | None => icon_or (mIcon e) "wwhimpl/common/images/doc.gif"
  end.
Definition GetPopupAction (id : Z) : string :=
  if mbHoverEnabled v then
    qq " onmouseover=`fS(" +++ Z_to_string id +++ ", " +++ EventString +++ qq ");`" +++ qq " onmouseout=`fH();`"
  else "".

(** [WWHStringUtilities_FormatMessage] with numbers: a number has no [length], so the next
    search starts at the front again. *)
Fixpoint format_numbers (args : list Z) (s : string) : string :=
  match args with
  | [] => s
  | n :: args =>
      match index_of "%s" s with
      | Some i => format_numbers args (stake i s +++ Z_to_string n +++ sdrop (i + 2) s)
      | None => s
      end
  end.
(** The position among the children of the parent. *)
Definition position_text (s : store) (id : Z) (e : entry) : option string :=
  match mParent e with
  | None => Some ""
  | Some p =>
      pe ← s !! p;
      kids ← mChildren pe;
      Some (match list_find (fun k => k = id) kids with
            | Some (i, _) => " " +++ format_numbers [Z.of_nat i + 1; Z.of_nat (length kids)] (mAccessibilityTOCOneOfTotal v)
            | None => ""
            end)
  end.
Definition access_title (s : store) (id : Z) (e : entry) : option string :=
  if mbAccessible v then
    let m := match mChildren e with
             | Some _ => if mbExpanded e then mAccessibilityTOCBookExpanded v else mAccessibilityTOCBookCollapsed v
             | None => mAccessibilityTOCTopic v
             end in
    p ← position_text s id e;
    Some (qq " title=`" +++ EscapeHTML (FormatMessage m [mText e] +++ p) +++ qq "`")
  else Some "".
Definition link_action (e : entry) (for_icon : bool) : string :=
  if negb (mbAccessible v) && for_icon && bool_decide (mChildren e <> None) then
    if mbExpanded e then "fC" else "fE"
  else "fD".
Definition GetLink (s : store) (id : Z) (e : entry) (for_icon : bool) : option string :=
  t ← access_title s id e;
  Some (if (0 <? slen (mURL e)) || bool_decide (mChildren e <> None) then
          qq "<a name=`" +++ (if for_icon then "tb" else "t") +++ Z_to_string id +++ qq "` href=`javascript:"
          +++ link_action e for_icon +++ "(" +++ Z_to_string id +++ qq ");`" +++ t +++ GetPopupAction id +++ ">"
        else "").

Definition indent_cell (level : Z) : string :=
  if 0 <? level then
    qq "<td width=`" +++ Z_to_string (mIndent v * level) +++ qq "`>"
    +++ qq "<img width=`" +++ Z_to_string (mIndent v * level) +++ qq "` height=`2` border=`0` src=`" +++ ImageSrcDir
    +++ qq "wwhimpl/common/images/spc1w2h.gif` alt=``>" +++ "</td>"
  else "".
Definition end_link (link : string) (b : bool) : string := if (0 <? slen link) && b then "</a>" else "".
Definition GetEntryHTML (s : store) (id : Z) (e : entry) : option string :=
  icon ← GetLink s id e true;
  link ← GetLink s id e false;
  Some (qq "<table border=`0` cellspacing=`0` cellpadding=`0`>" +++ "<tr>" +++ indent_cell (mLevel e)
    +++ qq "<td width=`19`>" +++ "<nobr>" +++ icon
    +++ qq "<img width=`17` height=`17` border=`0` src=`" +++ GetIconURL e +++ qq "` alt=``>"
    +++ end_link icon (negb (mbAccessible v))
    +++ qq "<img width=`2` height=`1` border=`0` src=`" +++ ImageSrcDir +++ qq "wwhimpl/common/images/spc2w1h.gif` alt=``>"
    +++ end_link icon (mbAccessible v)
    +++ "</nobr>" +++ "</td>" +++ "<td>" +++ "<nobr>" +++ link +++ default "null" (mText e) +++ end_link link true
    +++ "</nobr>" +++ "</td>" +++ "</tr>" +++ "</table>").
End outline.
