(* ===== verification/HelpContents.v ===== *)
(** * Drawing the table of contents, and clicks on it
    (outline.js, outlfast.js, outlsafe.js; the page that they write is js/html/panelvie.htm)
    The two objects that draw the contents, the part that is written again when an entry
    is opened or closed, the clicks on entries, and the entry of a page ([fSync]).  [None]
    is an exception, or a loop that has not ended within the fuel (the number of entries
    and two rounds). *)
From S2P Require Import Prelude JsString JsNum JsVal HelpString HelpBooks HelpTree HelpOutline.
Open Scope Z_scope.
#[local] Set Warnings "-register-all".

Section contents.
Context (books : book_list) (v : viewer).

(** ** [WWHOutlineImagingFast_Object] and [WWHOutlineImagingSafe_Object] *)
Definition mImagingObject : imaging :=
  if (mBrowser v =? 2) || (mBrowser v =? 3) || (mBrowser v =? 4) || (mBrowser v =? 5) then
    Fast (negb ((mBrowser v =? 2) && (mPlatform v =? 1)))
  else Safe.

(** What is written when a level is opened or closed, or when the next entry is on the
    same level. *)
Definition Fast_OpenLevel (useList : bool) : list string := if useList then [line "<ul>"] else [].
Definition Fast_CloseLevel (useList complete : bool) : list string :=
  if useList then [line "</li>"; line "</ul>"] ++ (if complete then [] else [line "</li>"])
  else if complete then [] else [line "</div>"].
Definition Fast_SameLevel (useList : bool) : list string := if useList then [line "</li>"] else [].
Definition level_text (im : imaging) (l : level) : list string :=
  match im with
  | Safe => []
  | Fast useList =>
      match l with
      | OpenLevel => Fast_OpenLevel useList
      | CloseLevel c => Fast_CloseLevel useList c
      | SameLevel => Fast_SameLevel useList
      end
  end.

(** [fDisplayEntry] *)
Definition DisplayEntry (im : imaging) (s : store) (id : Z) (e : entry) : option string :=
  h ← GetEntryHTML v s id e;
  Some (match im with
        | Safe | Fast true => h +++ nl
        | Fast false => "<div id=i" +++ Z_to_string id +++ ">" +++ h +++ line "</div>"
        end).
(** What the loop of [fAdvance] writes for an entry. *)
Definition entry_text (im : imaging) (s : store) (id : Z) (e : entry) : option (list string) :=
  if mbShow e then
    d ← DisplayEntry im s id e;
    Some (match im with
          | Safe => [d]
          | Fast true => ["<li id=i" +++ Z_to_string id +++ ">"; d]
          | Fast false =>
              match mChildren e with
              | Some _ => [qq "<div class=`list` id=l" +++ Z_to_string id +++ line ">"; d]
                          ++ (if mbExpanded e then [] else [line "</div>"])
              | None => [d]
              end
          end)
  else Some [].

Definition append_all (l : list string) (b : buffer) : buffer := fold_left (fun b s => fAppend s b) l b.
Definition room (max : Z) (b : buffer) : bool := (max =? -1) || (fSize b <? max).
Fixpoint advance_loop (fuel : nat) (im : imaging) (max : Z) (s : store) (it : iterator) (b : buffer)
  : option (iterator * buffer) :=
  match fuel with
  | O => None
  | S fuel =>
      if room max b then
        '(more, it, ev) ← Advance s it;
        let b := append_all (flat_map (level_text im) ev) b in
        match more, mEntry it with
        | true, Some id =>
            e ← s !! id;
            t ← entry_text im s id e;
            advance_loop fuel im max s it (append_all t b)
        | _, _ => Some (it, b)
        end
      else Some (it, b)
  end.
(** [fAdvance]: whether there is a segment, which is in the buffer. *)
Definition enough (s : store) : nat := S (S (size s)).
Definition Imaging_Advance (max : Z) (o : outline) : option (bool * outline) :=
  let s := mEntryHash o in
  '(it, b) ← advance_loop (enough s) mImagingObject max s (mIterator o) (fReset (mHTMLSegment o));
  Some (0 <? fSize b, set_page it b o).
Definition Imaging_Reset (o : outline) : outline := set_page (Reset top_id (mIterator o)) (mHTMLSegment o) o.

(** [fUpdateEntry] writes the element of the entry again, or loads the page again.  The
    assignment to the element is an effect of its own: it throws when the page has no such
    element, as for an entry with nothing below it in the form without lists. *)
Definition element_id (useList : bool) (id : Z) : string := (if useList then "i" else "l") +++ Z_to_string id.
Definition Fast_UpdateEntry (useList : bool) (id : Z) (o : outline) : option (outline * list effect) :=
  e ← mEntryHash o !! id;
  d ← DisplayEntry (Fast useList) (mEntryHash o) id e;
  '(_, o) ← Imaging_Advance (-1) (set_page (Reset id (mIterator o)) (mHTMLSegment o) o);
  let '(t, b) := fGetBuffer (mHTMLSegment o) in
  Some (set_page (mIterator o) b o, [HidePopup; WriteElement (element_id useList id) (d +++ t)]).
Definition UpdateEntry (id : Z) (o : outline) : option (outline * list effect) :=
  match mImagingObject with
  | Safe => Some (o, [ReloadView])
  | Fast useList => Fast_UpdateEntry useList id o
  end.

(** The loop that opens the entries around an entry; the last entry that was closed. *)
Fixpoint open_parents (fuel : nat) (parent : option Z) (last : option Z) (s : store) : option (option Z * store) :=
  match parent with
  | None => Some (last, s)
  | Some p =>
      match fuel with
      | O => None
      | S fuel =>
          e ← s !! p;
          if mbExpanded e then open_parents fuel (mParent e) last s
          else open_parents fuel (mParent e) (Some p) (<[p := set_expanded true e]> s)
      end
  end.
(** [fRevealEntry] *)
Definition reveal (id : Z) (o : outline) : option (option Z * outline) :=
  e ← mEntryHash o !! id;
  '(last, s) ← open_parents (enough (mEntryHash o)) (mParent e) None (mEntryHash o);
  Some (last, set_anchor (Some ("t" +++ Z_to_string id)) (set_store s o)).
Definition Fast_RevealEntry (id : Z) (visible : bool) (o : outline) : option (outline * list effect) :=
  '(last, o) ← reveal id o;
  if visible then
    '(o, ef) ← (match last with Some p => UpdateEntry p o | None => Some (o, []) end);
    Some (o, ef ++ [JumpToAnchor])
  else Some (o, []).
Definition Safe_RevealEntry (id : Z) (visible : bool) (o : outline) : option (outline * list effect) :=
  '(last, o) ← reveal id o;
  if visible then
    match last with Some _ => UpdateEntry id o | None => Some (o, [JumpToAnchor]) end
  else Some (o, []).
Definition RevealEntry (id : Z) (visible : bool) (o : outline) : option (outline * list effect) :=
  match mImagingObject with Fast _ => Fast_RevealEntry id visible o | Safe => Safe_RevealEntry id visible o end.

(** ** The page of the contents *)
Definition accessor (name body : string) : string :=
  line ("  function  " +++ name) +++ line "  {" +++ line ("    " +++ body) +++ line "  }".
Definition StartHTMLSegments (o : outline) : string * outline :=
  (line (qq "<script type=`text/javascript` language=`JavaScript1.2`>") +++ line " <!--"
   +++ accessor "fE(ParamEntryID)" "WWHFrame.WWHOutline.fClickedExpand(ParamEntryID);" +++ nl
   +++ accessor "fC(ParamEntryID)" "WWHFrame.WWHOutline.fClickedCollapse(ParamEntryID);" +++ nl
   +++ accessor "fD(ParamEntryID)" "WWHFrame.WWHOutline.fClickedDisplayDoc(ParamEntryID);" +++ nl
   +++ accessor ("fS(ParamEntryID," +++ nl +++ "               ParamEvent)")
         "WWHFrame.WWHJavaScript.mPanels.mPopup.fShow(ParamEntryID, ParamEvent);" +++ nl
   +++ accessor "fH()" "WWHFrame.WWHJavaScript.mPanels.mPopup.fHide();"
   +++ line " // -->" +++ line "</script>", Imaging_Reset o).
Definition AdvanceHTMLSegment (o : outline) : option (bool * outline) := Imaging_Advance (mMaxHTMLSegmentSize v) o.
Definition GetHTMLSegment (o : outline) : string * outline :=
  let '(t, b) := fGetBuffer (mHTMLSegment o) in (t, set_page (mIterator o) b o).
Definition EndHTMLSegments : string := "".

(** The segments that panelvie.htm writes. *)
Fixpoint write_segments (fuel : nat) (o : outline) : option (list string * outline) :=
  match fuel with
  | O => None
  | S fuel =>
      '(more, o) ← AdvanceHTMLSegment o;
      if more : bool then
        let '(t, o) := GetHTMLSegment o in
        '(l, o) ← write_segments fuel o; Some (t :: l, o)
      else Some ([], o)
  end.

Definition td_style : string :=
  line "  td" +++ line "  {" +++ line "    margin-top: 0pt;" +++ line "    margin-bottom: 0pt;"
  +++ line "    margin-left: 0pt;" +++ line "    margin-right: 0pt;" +++ line "    text-align: left;"
  +++ line "    vertical-align: middle;" +++ line ("    " +++ mFontStyle v +++ ";") +++ line "  }".
Definition zero_margins : string :=
  line "    margin-top: 0pt;" +++ line "    margin-bottom: 0pt;" +++ line "    margin-left: 0pt;"
  +++ line "    margin-right: 0pt;".
Definition link_style (selector decoration : string) (color : string) : string :=
  line ("  " +++ selector) +++ line "  {" +++ line ("    text-decoration: " +++ decoration +++ ";")
  +++ line ("    " +++ color +++ ";") +++ line ("    " +++ mFontStyle v +++ ";") +++ line "  }".
Definition common_styles : string :=
  line (qq "<style type=`text/css`>") +++ line " <!--"
  +++ link_style "a:active" "none" ("background-color: " +++ mHighlightColor v)
  +++ link_style "a:hover" "underline" ("color: " +++ mEnabledColor v)
  +++ link_style "a" "none" ("color: " +++ mEnabledColor v)
  +++ td_style.
(** [fGenerateStyles] *)
Definition Safe_GenerateStyles : string := common_styles +++ line " -->" +++ line "</style>".
Definition Fast_GenerateStyles (useList : bool) : string :=
  common_styles
  +++ (if useList then
         line "  ul" +++ line "  {" +++ line "    list-style-type: none;" +++ line "    padding-left: 0pt;"
         +++ line "    padding-right: 0pt;" +++ zero_margins +++ line "  }"
         +++ line "  li" +++ line "  {" +++ zero_margins +++ line "  }"
       else line "  div.list" +++ line "  {" +++ zero_margins +++ line "  }")
  +++ line " -->" +++ line "</style>".
Definition HeadHTML : string :=
  match mImagingObject with Safe => Safe_GenerateStyles | Fast useList => Fast_GenerateStyles useList end.
Definition HoverTextTranslate (id : Z) (o : outline) : option (option string) :=
  if id =? top_id then None else mText <$> mEntryHash o !! id.

(** ** Clicks *)

(** The entries of [mEntryHash] do not include the top entry. *)
Definition Expand (id : Z) (o : outline) : option (outline * list effect) :=
  if id =? top_id then None
  else _ ← mEntryHash o !! id; UpdateEntry id (on_entry (set_expanded true) id o).
Definition Collapse (id : Z) (o : outline) : option (outline * list effect) :=
  if id =? top_id then None
  else _ ← mEntryHash o !! id; UpdateEntry id (on_entry (set_expanded false) id o).
Definition focus_prefix : string := if mbAccessible v then "t" else "tb".
Definition ClickedExpand (id : Z) (o : outline) : option (outline * list effect) :=
  '(o, ef) ← Expand id o; Some (o, ef ++ [Focus (focus_prefix +++ Z_to_string id)]).
Definition ClickedCollapse (id : Z) (o : outline) : option (outline * list effect) :=
  '(o, ef) ← Collapse id o; Some (o, ef ++ [Focus (focus_prefix +++ Z_to_string id)]).

(** [WWHHelp_GetBookIndexFileIndexURL] of help.js; a file that is not a number is [NaN]. *)
Definition GetBookIndexFileIndexURL (b : Z) (f : option Z) (anchor : option string) : option string :=
  match f with
  | Some f =>
      if (0 <=? b) && (0 <=? f) then
        bk ← GetBook books b;
        h ← FileIndexToHREF (mFiles bk) f;
        Some (mBaseURL v +++ mDirectory bk +++ h
              +++ match anchor with Some a => if 0 <? slen a then "#" +++ a else "" | None => "" end)
      else Some ""
  | None => Some ""
  end.

(** The book of an entry: the number of the nearest entry above it (or itself) that has
    one. *)
Fixpoint book_above (fuel : nat) (s : store) (id : Z) : option (option Z) :=
  match fuel with
  | O => None
  | S fuel =>
      e ← s !! id;
      match mBookIndex e, mParent e with
      | None, Some p => book_above fuel s p
      | b, _ => Some b
      end
  end.
(** The file and the anchor of an entry's address. *)
Definition link_parts (url : string) : option Z * option string :=
  let parts := js_split url "#" in
  (parseInt (default "" (head parts)),
   match tail parts with a :: _ => if 0 <? slen a then Some a else None | [] => None end).
Definition DisplayDoc (id : Z) (o : outline) : option (outline * list effect) :=
  if id =? top_id then None
  else
    e ← mEntryHash o !! id;
    book ← book_above (enough (mEntryHash o)) (mEntryHash o) id;
    url ← (match book with
           | Some b =>
               if 0 <? slen (mURL e) then
                 let '(f, a) := link_parts (mURL e) in Some <$> GetBookIndexFileIndexURL b f a
               else Some None
           | None => Some None
           end);
    let shown := match url with Some u => [SetDocumentHREF u] | None => [] end in
    if mbExpanded e then
      if mbAccessible v then
        '(o, ef) ← Collapse id o;
        Some (o, HidePopup :: shown ++ (match url with Some _ => [SetCollapsing] | None => [] end) ++ ef
                 ++ [Focus ("t" +++ Z_to_string id)])
      else Some (o, HidePopup :: shown)
    else
      match mChildren e with
      | Some _ => '(o, ef) ← Expand id o; Some (o, HidePopup :: shown ++ ef ++ [Focus ("t" +++ Z_to_string id)])
      | None => Some (o, HidePopup :: shown)
      end.

(** ** The entry of a page *)

(** The last entry of [mBookEntryArray] with the book's number. *)
Fixpoint book_entry (l : list Z) (b : Z) (s : store) (found : option Z) : option (option Z) :=
  match l with
  | [] => Some found
  | id :: l => e ← s !! id; book_entry l b s (if bool_decide (mBookIndex e = Some b) then Some id else found)
  end.
(** [while ((MatchedEntry == null) && (Iterator.fAdvance(null)))] *)
Fixpoint search_loop (fuel : nat) (P : string -> bool) (s : store) (it : iterator) : option (option Z) :=
  match fuel with
  | O => None
  | S fuel =>
      '(more, it, _) ← Advance s it;
      match more, mEntry it with
      | true, Some id => e ← s !! id; if P (mURL e) then Some (Some id) else search_loop fuel P s it
      | _, _ => Some None
      end
  end.
Definition without_anchor (url : string) : string :=
  if indexOf url "#" =? -1 then url else substring2 url 0 (indexOf url "#").
Definition search_below (P : string -> bool) (s : store) (book : Z) : option (option Z) :=
  search_loop (enough s) P s (Reset book (Iterator false top_id None [])).
(** The three searches, each when those before found nothing. *)
Definition matched_entry (s : store) (book f : Z) (anchor : string) : option (option Z) :=
  be ← s !! book;
  m ← (if 0 <? slen anchor then search_below (fun u => String.eqb u (Z_to_string f +++ anchor)) s book else Some None);
  m ← (match m with
       | Some _ => Some m
       | None => search_below (fun u => String.eqb (without_anchor u) (Z_to_string f)) s book
       end);
  Some (match m with
        | Some _ => m
        | None => if mbShow be && String.eqb (Z_to_string f) (mURL be) then Some book else None
        end).
Definition Sync (b f : Z) (anchor : string) (visible report : bool) (o : outline) : option (outline * list effect) :=
  if mbPanelInitialized o then
    let s := mEntryHash o in
    book ← book_entry (mBookEntryArray o) b s None;
    m ← (match book with
         | Some id => if f =? -1 then Some None else matched_entry s id f anchor
         | None => Some None
         end);
    '(o, ef) ← (match m with Some id => RevealEntry id visible o | None => Some (o, []) end);
    Some (o, ef ++ match m with
                   | None => if report then [AlertLater (mTOCFileNotFoundMessage v)] else []
                   | Some _ => []
                   end)
  else Some (set_sync (Some b) (Some f) (Some anchor) o, []).
End contents.
