(* ===== verification/HelpContentsPage.v ===== *)
(** * The page of the table of contents
    The segments that are written are, one after the other, the text of a walk of the tree
    of entries; that text is a nested list.  Opening or closing an entry writes the same
    text into the entry's element as a new page would have there. *)
From S2P Require Import Prelude JsString JsNum JsVal HelpString HelpBooks HelpTree HelpOutline HelpContents.
Open Scope Z_scope.

(** ** The segments are the text of a walk *)
Section segments.
Context (v : viewer) (s : store).
Abbreviation im := (mImagingObject v).

Definition visit_text (id : Z) : option (list string) := e ← s !! id; entry_text v im s id e.
Definition act_text (a : act) : list string :=
  match a with Level l => level_text im l | Visit id => default [] (visit_text id) end.
Definition text (l : list act) : string := join "" (flat_map act_text l).
Definition drawable (l : list act) : Prop := forall id, Visit id ∈ l -> is_Some (visit_text id).

Lemma join_concat l k : join "" (l ++ k) = join "" l +++ join "" k.
Proof.
  induction k as [|x k IH] using rev_ind; [by rewrite app_nil_r, sapp_nil_r|]. by rewrite app_assoc, !join_snoc, IH, sapp_assoc.
Qed.
Lemma text_app l k : text (l ++ k) = text l +++ text k.
Proof. unfold text. by rewrite flat_map_app, join_concat. Qed.
Lemma text_levels ev : text (map Level ev) = join "" (flat_map (level_text im) ev).
Proof. unfold text. f_equal. induction ev as [|l ev IH]; [done|]. cbn. by rewrite IH. Qed.
Lemma holds_append_all l : forall b t, holds b t -> holds (append_all l b) (t +++ join "" l).
Proof.
  induction l as [|x l IH]; intros b t H; [by rewrite sapp_nil_r|]. cbn [append_all fold_left].
  change (x :: l) with ([x] ++ l). rewrite join_concat, <- sapp_assoc. apply IH. cbn [join]. by apply holds_append.
Qed.

(** One call of [fAdvance] on the drawing object: it writes the next part of the walk, all
    of it or enough to fill the segment. *)
Lemma loop_writes fuel : forall n max it b t acts, (n <= fuel)%nat -> holds b t ->
  walk s n it = Some acts -> drawable acts ->
  exists pre post it' b',
    acts = pre ++ post /\ advance_loop v fuel im max s it b = Some (it', b') /\
    holds b' (t +++ text pre) /\
    ((post = [] /\ mEntry it' = None) \/
     (room max b' = false /\ exists k, (k <= n)%nat /\ (pre <> [] -> (k < n)%nat) /\ walk s k it' = Some post)).
Proof.
  induction fuel as [|fuel IH]; intros n max it b t acts Hn Hb Hw Hd; [by destruct n; [|lia]|].
  destruct n as [|n]; [done|]. cbn [advance_loop]. destruct (room max b) eqn:Er.
  - cbn [walk] in Hw. destruct (Advance s it) as [[[more it1] ev]|] eqn:EA; [|done]. cbn [mbind option_bind] in Hw |- *.
    assert (Hb1 : holds (append_all (flat_map (level_text im) ev) b) (t +++ text (map Level ev)))
      by (rewrite text_levels; by apply holds_append_all).
    assert (Hend : acts = map Level ev -> mEntry it1 = None -> exists pre post it' b',
      acts = pre ++ post /\ Some (it1, append_all (flat_map (level_text im) ev) b) = Some (it', b') /\
      holds b' (t +++ text pre) /\
      (post = [] /\ mEntry it' = None \/ room max b' = false /\
        exists k, (k <= S n)%nat /\ (pre <> [] -> (k < S n)%nat) /\ walk s k it' = Some post)).
    { intros -> He. exists (map Level ev), [], it1, (append_all (flat_map (level_text im) ev) b). rewrite app_nil_r. tauto. }
    assert (Hmore : more = bool_decide (mEntry it1 <> None)).
    { unfold Advance in EA. destruct (mEntry it) as [i|] eqn:Ei; [|injection EA as <- <- <-; by rewrite Ei].
      destruct (s !! i) as [e|]; [|done]. cbn [mbind option_bind] in EA.
      destruct (if negb (mbVisibleOnly it) || mbExpanded e then mChildren e else None); [by injection EA as <- <- <-|].
      destruct (i =? mIteratorScope it); [by injection EA as <- <- <-|].
      destruct (climb s _ _ _) as [[[r st] ev']|]; [|done]. by injection EA as <- <- <-. }
    destruct more.
    + symmetry in Hmore. apply bool_decide_eq_true in Hmore. destruct (mEntry it1) as [id|] eqn:Ei; [|done].
      destruct (walk s n it1) as [l|] eqn:Ew; [|done]. cbn [mbind option_bind] in Hw. injection Hw as <-.
      destruct (Hd id) as [d Hid]; [set_solver|]. pose proof Hid as Hid'. unfold visit_text in Hid'.
      destruct (s !! id) as [e|] eqn:Ee; [|done]. cbn [mbind option_bind] in Hid' |- *. rewrite Hid'. cbn [mbind option_bind].
      destruct (IH n max it1 (append_all d (append_all (flat_map (level_text im) ev) b))
        ((t +++ text (map Level ev)) +++ text [Visit id]) l) as (pre & post & it' & b' & -> & HL & Hh & Hr); [lia| |done| |].
      * unfold text at 2. cbn [flat_map act_text]. rewrite Hid. cbn [default]. rewrite app_nil_r. by apply holds_append_all.
      * intros j Hj. apply Hd. set_solver.
      * exists (map Level ev ++ Visit id :: pre), post, it', b'.
        split; [by rewrite <- app_assoc|]. split; [done|]. split.
        { change (Visit id :: pre) with ([Visit id] ++ pre). by rewrite !text_app, <- !sapp_assoc. }
        destruct Hr as [Hr|(Hr & k & Hk & _ & Hk')]; [by left|]. right. split; [done|]. exists k. split; [lia|]. split; [lia|done].
    + symmetry in Hmore. apply bool_decide_eq_false in Hmore. injection Hw as <-. destruct (mEntry it1) as [id|] eqn:Ei; [by destruct Hmore|].
      by apply Hend.
  - exists [], acts, it, b. cbn. rewrite sapp_nil_r. split; [done|]. split; [done|]. split; [done|]. right. split; [done|].
    exists (S n). done.
Qed.

Context (Hmax : mMaxHTMLSegmentSize v = -1 \/ 1 <= mMaxHTMLSegmentSize v).
Lemma new_room b : room (mMaxHTMLSegmentSize v) (fReset b) = true.
Proof. unfold room, fReset, fSize. cbn. destruct Hmax as [->|H]; [done|]. apply orb_true_iff. right. apply Z.ltb_lt. lia. Qed.
Lemma walk_done it k : mEntry it = None -> walk s (S k) it = Some [].
Proof. intros H. cbn. unfold Advance. by rewrite H. Qed.

Lemma empty_room b : fSize b <= 0 -> room (mMaxHTMLSegmentSize v) b = true.
Proof. unfold room. intros H. destruct Hmax as [->|H']; [done|]. apply orb_true_iff. right. apply Z.ltb_lt. lia. Qed.
Lemma segments_done fuel o : mEntryHash o = s -> mEntry (mIterator o) = None ->
  write_segments v (S fuel) o = Some ([], set_page (mIterator o) (fReset (mHTMLSegment o)) o).
Proof.
  intros Hs He. cbn [write_segments]. unfold AdvanceHTMLSegment, Imaging_Advance. rewrite Hs. cbn [enough advance_loop].
  rewrite new_room. unfold Advance. rewrite He. cbn [mbind option_bind flat_map append_all fold_left]. done.
Qed.

(** All segments, from any point of the walk. *)
Lemma segments_text fuel : forall n o acts, (n < fuel)%nat -> (n <= enough s)%nat -> mEntryHash o = s ->
  (exists t, holds (mHTMLSegment o) t) -> walk s n (mIterator o) = Some acts -> drawable acts ->
  exists l it b, write_segments v fuel o = Some (l, set_page it b o) /\ join "" l = text acts /\ (exists t, holds b t).
Proof.
  induction fuel as [|fuel IH]; intros n o acts Hn He Hs [t0 Hb] Hw Hd; [lia|].
  destruct (loop_writes (enough s) n (mMaxHTMLSegmentSize v) (mIterator o) (fReset (mHTMLSegment o)) "" acts)
    as (pre & post & it & b & -> & HL & Hh & Hr); [done|by eapply holds_reset|done|done|].
  cbn [write_segments]. unfold AdvanceHTMLSegment, Imaging_Advance. rewrite Hs, HL. cbn [mbind option_bind].
  assert (Hz := holds_size _ _ Hh). cbn [String.append] in Hh, Hz. destruct (Z.ltb_spec 0 (fSize b)) as [Hlt|Hge].
  - unfold GetHTMLSegment. cbn [mHTMLSegment mIterator set_page]. destruct (holds_get _ _ Hh) as [Ht Hh'].
    destruct (fGetBuffer b) as [t b1]. cbn [fst snd] in Ht, Hh'. subst t.
    destruct fuel as [|fuel]; [destruct n; [done|lia]|].
    destruct Hr as [[-> Hnone]|(_ & k & Hk & Hlt' & Hwk)].
    + rewrite segments_done by done. eexists [_], _, _. split; [done|]. rewrite app_nil_r. split; [done|].
      exists "". cbn. by eapply holds_reset.
    + assert (Hp : pre <> []) by (intros ->; change (slen (text [])) with 0 in Hz; lia). specialize (Hlt' Hp).
      destruct (IH k (set_page it b1 (set_page it b o)) post) as (l & it' & b' & HL' & Ht & Hb'); try done; [lia|lia|by eexists| |].
      { intros id Hid. apply Hd. set_solver. }
      rewrite HL'. cbn [mbind option_bind]. exists (text pre :: l), it', b'. split; [done|]. split; [|done].
      change (text pre :: l) with ([text pre] ++ l). rewrite join_concat, Ht, text_app. done.
  - assert (Ht : text pre = "") by (destruct (text pre); [done|unfold slen in Hz; cbn in Hz; lia]).
    destruct Hr as [[-> Hnone]|(Hr & _)]; [|by rewrite empty_room in Hr by lia].
    exists [], it, b. rewrite app_nil_r, Ht. split; [done|]. split; [done|by eexists].
Qed.
End segments.

(** ** The text as a nested list *)
Section nested.
Context (v : viewer) (s : store).
Abbreviation im := (mImagingObject v).
Abbreviation leaf_ := (leaf s true).

Definition display_text (id : Z) : string := default "" (e ← s !! id; DisplayEntry v im s id e).
Definition is_shown (id : Z) : bool := match s !! id with Some e => mbShow e | None => false end.
Definition own_text (id : Z) : string := if is_shown id then display_text id else "".
(** What stands around what an entry shows of itself and below it.  Of an entry that is
    hidden nothing is written in front, but the end of an item all the same: always in the
    form with lists, when there is something below it in the other. *)
Definition item_open (t : tree) : string :=
  if is_shown (root t) then
    match im with
    | Safe => ""
    | Fast true => "<li id=i" +++ Z_to_string (root t) +++ ">"
    | Fast false =>
        match kids_of t with [] => "" | _ => qq "<div class=`list` id=l" +++ Z_to_string (root t) +++ line ">" end
    end
  else "".
Definition item_close (t : tree) : string :=
  match im with
  | Safe => ""
  | Fast true => line "</li>"
  | Fast false =>
      match kids_of t with [] => "" | _ => if is_shown (root t) || negb (leaf_ t) then line "</div>" else "" end
  end.
(** The level below an entry ends with one [</li>] more when its last entry is open. *)
Definition stray (kids : list tree) : string :=
  match im, last kids with
  | Fast true, Some k => if leaf_ k then "" else line "</li>"
  | _, _ => ""
  end.
Definition list_open : string := match im with Fast true => line "<ul>" | _ => "" end.
Definition list_close : string := match im with Fast true => line "</ul>" | _ => "" end.
Fixpoint inside (t : tree) : string :=
  let '(Tree id kids) := t in
  if leaf_ (Tree id kids) then ""
  else list_open
       +++ join "" (map (fun k => item_open k +++ own_text (root k) +++ inside k +++ item_close k) kids)
       +++ stray kids +++ list_close.
Definition item (t : tree) : string := item_open t +++ own_text (root t) +++ inside t +++ item_close t.
Lemma inside_node id kids :
  inside (Tree id kids) = if leaf_ (Tree id kids) then "" else list_open +++ join "" (map item kids) +++ stray kids +++ list_close.
Proof. done. Qed.

(** Entries that can be drawn, shown or hidden. *)
Definition can_draw (t : tree) : Prop :=
  exists e, s !! root t = Some e /\ is_Some (GetEntryHTML v s (root t) e).
Fixpoint all_drawn (t : tree) : Prop :=
  let '(Tree id kids) := t in
  can_draw (Tree id kids) /\ (fix all (l : list tree) : Prop := match l with [] => True | t :: l => all_drawn t /\ all l end) kids.
Lemma all_drawn_node id kids : all_drawn (Tree id kids) <-> can_draw (Tree id kids) /\ Forall all_drawn kids.
Proof. cbn [all_drawn]. apply and_iff_compat_l. induction kids as [|t l IH]; [by split|]. rewrite Forall_cons, IH. done. Qed.

Lemma join_one a : join "" [a] = a.
Proof. done. Qed.
Lemma join_two a b : join "" [a; b] = a +++ b.
Proof. done. Qed.
Lemma join_pair a b l : join "" (a :: b :: l) = a +++ join "" (b :: l).
Proof. done. Qed.

(** What the walk writes for an entry: it opens the item; a closed entry with children is
    closed at once when it is a [div]. *)
Definition closes_early (t : tree) : string :=
  match im with Fast false => if leaf_ t then item_close t else "" | _ => "" end.
Lemma text_visit t parent : rep s parent t -> can_draw t ->
  text v s [Visit (root t)] = item_open t +++ own_text (root t) +++ closes_early t.
Proof.
  intros Hr (e & He & h & Hh). apply rep_links in Hr. destruct Hr as (e' & He' & _ & Hk). rewrite He in He'. injection He' as <-.
  unfold text, own_text, is_shown, display_text, closes_early, item_open, item_close, is_shown, leaf, open. cbn [flat_map act_text]. unfold visit_text.
  rewrite He. cbn [mbind option_bind]. unfold entry_text, DisplayEntry. rewrite Hh, Hk, app_nil_r. cbn [mbind option_bind default negb orb].
  destruct (mbShow e); cbn [from_option app]; unfold id.
  - destruct im as [|[]]; cbn [from_option app]; unfold id.
    + by rewrite join_one, sapp_nil_r.
    + by rewrite join_two, sapp_nil_r.
    + destruct (kids_of t); [by rewrite orb_true_r, join_one, sapp_nil_r|]. rewrite orb_false_r.
      destruct (mbExpanded e); cbn [negb app orb]; [by rewrite join_two, sapp_nil_r|].
      by rewrite join_pair, join_two.
  - destruct im as [|[]]; [done..|]. destruct (kids_of t); [by rewrite orb_true_r|]. rewrite orb_false_r. by destruct (mbExpanded e).
Qed.

Definition level_end (c : bool) : string :=
  match im with Safe => "" | Fast true => if c then "" else line "</li>" | Fast false => if c then "" else line "</div>" end.
Lemma text_level l : text v s [Level l] = join "" (level_text im l).
Proof. unfold text. cbn [flat_map act_text]. by rewrite app_nil_r. Qed.
Lemma inside_leaf t : leaf_ t = true -> inside t = "".
Proof. destruct t as [id kids]. intros H. by rewrite inside_node, H. Qed.
Lemma close_open t : leaf_ t = false -> item_close t = level_end false.
Proof.
  intros H. unfold item_close, level_end. rewrite H. destruct im as [|[]]; [done|done|].
  destruct (kids_of t) eqn:E; [unfold leaf in H; by rewrite E, orb_true_r in H|]. by rewrite orb_true_r.
Qed.

(** An entry, what is below it, and what is written before the next entry of its level or
    at the end of the level. *)
Lemma text_entry k p : rep s p k -> can_draw k ->
  text v s (below s true false k) = inside k +++ (if leaf_ k then "" else level_end false) ->
  text v s (Visit (root k) :: below s true false k ++ if leaf_ k then [Level SameLevel] else []) = item k /\
  forall c, text v s (Visit (root k) :: below s true false k ++ [Level (CloseLevel c)])
            = item k +++ stray [k] +++ list_close +++ level_end c.
Proof.
  intros Hr Hd Hb. change (Visit (root k) :: ?l) with ([Visit (root k)] ++ l).
  assert (Ho := close_open k). assert (Hl := inside_leaf k). unfold item.
  split; [|intros c]; rewrite !text_app, (text_visit k p), Hb by done;
    rewrite ?text_level; unfold closes_early, level_end, stray, list_close, item_close, level_text, Fast_CloseLevel, Fast_SameLevel in *;
    destruct (leaf_ k) eqn:El; rewrite ?text_level, ?Hl, <- ?Ho by done; cbn [last];
    destruct im as [|[]]; try destruct c; cbn [app join last]; rewrite ?El, ?sapp_nil_r, ?sapp_assoc; try done.
Qed.

Lemma stray_cons k l : l <> [] -> stray (k :: l) = stray l.
Proof. intros H. unfold stray. by destruct l. Qed.
Lemma text_on_level p l : l <> [] -> Forall (rep s p) l -> Forall can_draw l ->
  Forall (fun k => text v s (below s true false k) = inside k +++ (if leaf_ k then "" else level_end false)) l ->
  forall c, text v s (on_level s true c l) = join "" (map item l) +++ stray l +++ list_close +++ level_end c.
Proof.
  intros Hl Hr Hd Hb c. induction l as [|k l IH]; [done|]. inv Hr. inv Hd. inv Hb.
  destruct (text_entry k p) as [Hn Hc]; try done. destruct l as [|k2 l].
  - exact (Hc c).
  - change (on_level s true c (k :: k2 :: l)) with
      ((Visit (root k) :: below s true false k) ++ (if leaf_ k then [Level SameLevel] else []) ++ on_level s true c (k2 :: l)).
    rewrite app_assoc, text_app, IH by done. rewrite (stray_cons k) by done. change ((?x :: ?l) ++ ?r) with (x :: l ++ r).
    rewrite Hn. change (map item (k :: k2 :: l)) with ([item k] ++ map item (k2 :: l)). by rewrite join_concat, sapp_assoc.
Qed.

(** What is below an entry is the nested list of the entries there. *)
Lemma text_below t : forall parent c, rep s parent t -> Forall all_drawn (kids_of t) ->
  text v s (below s true c t) = inside t +++ (if leaf_ t then "" else level_end c).
Proof.
  induction t as [id kids IH] using tree_induction. intros parent c [Hl Hr]%rep_node Hd. cbn [kids_of] in Hd.
  rewrite below_node, inside_node. destruct (leaf_ (Tree id kids)) eqn:El; [done|].
  change (Level OpenLevel :: ?l) with ([Level OpenLevel] ++ l). rewrite text_app, text_level.
  assert (Hne : kids <> []) by (intros ->; unfold leaf in El; by rewrite orb_true_r in El).
  rewrite (text_on_level (Some id)); [|done|done| |].
  - unfold list_open. rewrite !sapp_assoc. f_equal. by destruct im as [|[]].
  - apply (Forall_impl _ _ _ Hd). intros [] H. by apply all_drawn_node in H as [? _].
  - clear Hl El Hne. induction IH as [|k kids Hk _ IH]; [done|]. inv Hr. inv Hd. constructor; [|by apply IH].
    apply (Hk (Some id)); [done|]. destruct k. by match goal with H : all_drawn _ |- _ => apply all_drawn_node in H as [_ ?] end.
Qed.
Lemma drawable_below t : forall parent c, rep s parent t -> Forall all_drawn (kids_of t) -> drawable v s (below s true c t).
Proof.
  induction t as [id kids IH] using tree_induction. intros parent c [Hl Hr]%rep_node Hd. cbn [kids_of] in Hd.
  rewrite below_node. destruct (leaf_ (Tree id kids)); [intros j Hj; by apply elem_of_nil in Hj|].
  enough (H : drawable v s (on_level s true c kids)) by (intros j [Hj|Hj]%elem_of_cons; [done|by apply H]). clear Hl.
  induction IH as [|k kids Hk _ IH]; [intros j Hj; by apply elem_of_nil in Hj|].
  inv Hr. inv Hd. intros j [Hj|Hj]%elem_of_cons.
  - injection Hj as ->. destruct k as [i ks]. match goal with H : all_drawn _ |- _ => apply all_drawn_node in H as [(e & He & h & Hh) _] end.
    unfold visit_text. cbn [root] in *. rewrite He. cbn [mbind option_bind]. unfold entry_text, DisplayEntry. rewrite Hh. destruct (mbShow e); by eexists.
  - apply elem_of_app in Hj as [Hj|Hj].
    + apply (Hk (Some id) false) in Hj; [done|done|]. destruct k. by match goal with H : all_drawn _ |- _ => apply all_drawn_node in H as [_ ?] end.
    + destruct kids as [|k2 kids]; [set_solver|]. apply elem_of_app in Hj as [Hj|Hj]; [destruct (leaf_ k); set_solver|]. by apply IH.
Qed.
End nested.

(** ** The whole page *)
Record page_ok (v : viewer) (o : outline) (t : tree) : Prop := {
  po_root : root t = top_id;
  po_rep : rep (mEntryHash o) None t;
  po_nodup : NoDup (ids t);
  po_drawn : Forall (all_drawn v (mEntryHash o)) (kids_of t);
  po_visible : mbVisibleOnly (mIterator o) = true;
  po_buffer : exists x, holds (mHTMLSegment o) x
}.

Section page.
Context (v : viewer).
Abbreviation im := (mImagingObject v).

(** A walk of the visible entries below an entry ends within the fuel. *)
Lemma walk_visible s parent t it : rep s parent t -> NoDup (ids t) -> mbVisibleOnly it = true ->
  walk s (enough s) (Reset (root t) it) = Some (below s true true t).
Proof.
  intros Hr Hn Hv. assert (E : Reset (root t) it = Reset (root t) (Iterator true 0 None [])) by (unfold Reset; by rewrite Hv).
  assert (H1 := ids_size s _ _ Hr Hn). assert (H2 := visits_below s true t true). rewrite E.
  assert (H3 : (length (ids_of (kids_of t)) < length (ids t))%nat) by (destruct t; cbn; lia).
  replace (enough s) with (S (visits (below s true true t) + (S (size s) - visits (below s true true t))))%nat by (unfold enough; lia).
  by apply walk_scope with parent.
Qed.

Lemma page_text fuel o t : page_ok v o t -> mMaxHTMLSegmentSize v = -1 \/ 1 <= mMaxHTMLSegmentSize v ->
  (enough (mEntryHash o) < fuel)%nat ->
  exists l it b, write_segments v fuel (snd (StartHTMLSegments o)) = Some (l, set_page it b o) /\
    join "" l = inside v (mEntryHash o) t.
Proof.
  intros [Ht Hr Hn Hd Hv Hb] Hmax Hf. unfold StartHTMLSegments, Imaging_Reset. cbn [snd].
  destruct (segments_text v (mEntryHash o) Hmax fuel (enough (mEntryHash o))
    (set_page (Reset top_id (mIterator o)) (mHTMLSegment o) o) (below (mEntryHash o) true true t)) as (l & it & b & HL & Hl & _); try done.
  - rewrite <- Ht. by apply walk_visible with None.
  - by apply drawable_below with None.
  - rewrite HL. exists l, it, b. split; [done|]. rewrite Hl, (text_below v _ t None) by done.
    destruct (leaf _ _ t); [by rewrite sapp_nil_r|]. unfold level_end. destruct im as [|[]]; by rewrite sapp_nil_r.
Qed.

(** What is written into the element of an entry. *)
Lemma update_text useList parent o t : im = Fast useList -> rep (mEntryHash o) parent t -> NoDup (ids t) ->
  all_drawn v (mEntryHash o) t -> mbVisibleOnly (mIterator o) = true -> (exists x, holds (mHTMLSegment o) x) ->
  exists it b, UpdateEntry v (root t) o
    = Some (set_page it b o, [HidePopup; WriteElement (element_id useList (root t))
        (display_text v (mEntryHash o) (root t) +++ inside v (mEntryHash o) t)]).
Proof.
  intros Him Hr Hn Hd Hv [x Hb]. unfold UpdateEntry. rewrite Him. unfold Fast_UpdateEntry, display_text. rewrite Him.
  assert (Hk : Forall (all_drawn v (mEntryHash o)) (kids_of t)) by (destruct t; by apply all_drawn_node in Hd as [_ ?]).
  assert (Hc : can_draw v (mEntryHash o) t) by (destruct t; by apply all_drawn_node in Hd as [? _]).
  destruct Hc as (e & He & h & Hh). rewrite He. cbn [mbind option_bind]. unfold DisplayEntry. rewrite Hh. cbn [mbind option_bind from_option].
  unfold Imaging_Advance. cbn [mEntryHash mIterator mHTMLSegment set_page].
  destruct (loop_writes v (mEntryHash o) (enough (mEntryHash o)) (enough (mEntryHash o)) (-1) (Reset (root t) (mIterator o))
    (fReset (mHTMLSegment o)) "" (below (mEntryHash o) true true t)) as (pre & post & it & b & E & HL & Hh' & Hrest); try done.
  - by eapply holds_reset.
  - by apply walk_visible with parent.
  - by apply drawable_below with parent.
  - rewrite HL. cbn [mbind option_bind mHTMLSegment set_page mIterator].
    destruct Hrest as [[-> _]|[Hr' _]]; [|by unfold room in Hr']. rewrite app_nil_r in E. subst pre.
    destruct (holds_get _ _ Hh') as [Hg _]. destruct (fGetBuffer b) as [y b']. cbn [fst String.append] in Hg. subst y.
    exists it, b'. unfold id. do 4 f_equal. rewrite (text_below v _ t parent) by done.
    destruct (leaf _ _ t); [by rewrite sapp_nil_r|]. unfold level_end. rewrite Him. destruct useList; by rewrite sapp_nil_r.
Qed.
End page.

(** ** Opening and closing an entry *)

(** [shows s t' t]: [t'] is below [t] and every entry between them is open. *)
Inductive shows (s : store) (t' : tree) : tree -> Prop :=
| shows_kid id kids : leaf s true (Tree id kids) = false -> t' ∈ kids -> shows s t' (Tree id kids)
| shows_below id kids k : leaf s true (Tree id kids) = false -> k ∈ kids -> shows s t' k -> shows s t' (Tree id kids).

Lemma ids_root t : root t ∈ ids t.
Proof. destruct t. cbn. set_solver. Qed.
Lemma ids_kid id kids k i : k ∈ kids -> i ∈ ids k -> i ∈ ids (Tree id kids).
Proof. intros Hk Hi. cbn [ids]. apply elem_of_cons. right. apply elem_flat_map. by exists k. Qed.
Lemma shows_ids s t t' : shows s t' t -> root t' ∈ ids t.
Proof. induction 1; [eapply ids_kid; [done|apply ids_root]|by eapply ids_kid]. Qed.
Lemma NoDup_kid id kids k : k ∈ kids -> NoDup (ids (Tree id kids)) -> NoDup (ids k) /\ id ∉ ids k.
Proof.
  intros Hk Hn. cbn [ids] in Hn. apply NoDup_cons in Hn as [Hid Hn]. split.
  - apply list_elem_of_split in Hk as (l & r & ->). rewrite flat_map_app in Hn. cbn [flat_map] in Hn.
    apply NoDup_app in Hn as (_ & _ & Hn). by apply NoDup_app in Hn as [? _].
  - intros H. apply Hid, elem_flat_map. by exists k.
Qed.

Lemma shows_below_root s t t' : shows s t' t -> root t' ∈ ids_of (kids_of t).
Proof. intros H. inv H; cbn [kids_of]; apply elem_flat_map; eexists; (split; [done|]); [apply ids_root|by eapply shows_ids]. Qed.
Lemma shows_other s t t' : shows s t' t -> NoDup (ids t) -> root t <> root t'.
Proof. intros H%shows_below_root Hn E. destruct t as [id kids]. cbn in *. subst id. apply NoDup_cons in Hn as [Hn _]. done. Qed.
Lemma NoDup_around id l k r : NoDup (ids (Tree id (l ++ k :: r))) ->
  forall i, i ∈ ids k -> id <> i /\ i ∉ ids_of l /\ i ∉ ids_of r.
Proof.
  cbn [ids]. rewrite flat_map_app. cbn [flat_map]. intros Hn i Hi. apply NoDup_cons in Hn as [Hid Hn]. apply NoDup_app in Hn as (_ & Hl & Hn). apply NoDup_app in Hn as (_ & Hr & _).
  split_and!; [intros ->; set_solver| |by apply Hr]. intros H. apply (Hl i H). set_solver.
Qed.

Section redraw.
Context (v : viewer) (s : store) (t' : tree) (b : bool).
Abbreviation im := (mImagingObject v).
(** The entry of [t'] is opened or closed. *)
Definition s' : store := alter (set_expanded b) (root t') s.

Lemma lookup_other i : i <> root t' -> s' !! i = s !! i.
Proof. intros H. unfold s'. by rewrite lookup_alter_ne. Qed.
Lemma links_kept parent t : links s parent t -> links s' parent t.
Proof.
  intros (e & He & Hp & Hk). unfold links, s'. destruct (decide (root t = root t')) as [E|E].
  - exists (set_expanded b e). rewrite E, lookup_alter_eq, <- E, He. done.
  - exists e. by rewrite lookup_alter_ne.
Qed.
Lemma rep_kept t : forall parent, rep s parent t -> rep s' parent t.
Proof.
  induction t as [id kids IH] using tree_induction. intros parent [Hl Hr]%rep_node. apply rep_node. split; [by apply links_kept|].
  clear Hl. induction IH as [|k kids Hk _ IH]; [done|]. inv Hr. constructor; auto.
Qed.
Lemma GetEntryHTML_kept i e : GetEntryHTML v s' i e = GetEntryHTML v s i e.
Proof.
  assert (H : position_text v s' i e = position_text v s i e).
  { unfold position_text. destruct (mParent e) as [p|]; [|done]. unfold s'. destruct (decide (p = root t')) as [->|E].
    - rewrite lookup_alter_eq. by destruct (s !! root t').
    - by rewrite lookup_alter_ne. }
  unfold GetEntryHTML, GetLink, access_title. by rewrite H.
Qed.
Lemma display_kept i : i <> root t' -> display_text v s' i = display_text v s i.
Proof.
  intros H. unfold display_text. rewrite lookup_other by done. destruct (s !! i); [|done]. cbn [mbind option_bind]. unfold DisplayEntry.
  by rewrite GetEntryHTML_kept.
Qed.
Lemma leaf_kept t : root t <> root t' -> leaf s' true t = leaf s true t.
Proof. intros H. unfold leaf, open. by rewrite lookup_other. Qed.

Lemma shown_kept i : is_shown s' i = is_shown s i.
Proof.
  unfold is_shown, s'. destruct (decide (i = root t')) as [->|H]; [|by rewrite lookup_alter_ne].
  rewrite lookup_alter_eq. by destruct (s !! root t').
Qed.
Lemma own_kept i : i <> root t' -> own_text v s' i = own_text v s i.
Proof. intros H. unfold own_text. by rewrite shown_kept, display_kept. Qed.
Lemma item_open_kept t : item_open v s' t = item_open v s t.
Proof. unfold item_open. by rewrite shown_kept. Qed.
Lemma item_close_kept t : root t <> root t' \/ is_shown s (root t) = true -> item_close v s' t = item_close v s t.
Proof.
  unfold item_close. rewrite shown_kept. intros [H|H]; [by rewrite leaf_kept|by rewrite H].
Qed.

Lemma root_in_ids k kids : k ∈ kids -> root k ∈ ids_of kids.
Proof. intros H. apply elem_flat_map. exists k. split; [done|apply ids_root]. Qed.
(** What does not contain the entry stays as it is. *)
Lemma inside_kept t : root t' ∉ ids t -> inside v s' t = inside v s t.
Proof.
  induction t as [id kids IH] using tree_induction. intros H. rewrite !inside_node. cbn [ids] in H. apply not_elem_of_cons in H as [H1 H2].
  rewrite leaf_kept by done. destruct (leaf s true (Tree id kids)); [done|]. f_equal. f_equal.
  - f_equal. apply map_ext_in. intros k Hk%list_elem_of_In. rewrite Forall_forall in IH. specialize (IH k Hk).
    assert (Hk' : root t' ∉ ids k) by (intros Hx; apply H2, elem_flat_map; by exists k).
    assert (Hne : root k <> root t') by (intros E; apply Hk'; rewrite <- E; apply ids_root).
    unfold item. rewrite IH, own_kept, item_open_kept, item_close_kept by auto. done.
  - f_equal. unfold stray. destruct im as [|[]]; [done| |done]. destruct (last kids) as [k|] eqn:El; [|done].
    rewrite leaf_kept; [done|]. intros E. apply H2. rewrite <- E. apply root_in_ids. by eapply last_Some_elem_of.
Qed.
Lemma items_kept kids : root t' ∉ ids_of kids -> map (item v s') kids = map (item v s) kids.
Proof.
  intros H. apply map_ext_in. intros k Hk%list_elem_of_In.
  assert (Hk' : root t' ∉ ids k) by (intros Hx; apply H, elem_flat_map; by exists k).
  assert (Hne : root k <> root t') by (intros E; apply Hk'; rewrite <- E; apply ids_root).
  unfold item. rewrite inside_kept, own_kept, item_open_kept, item_close_kept by auto. done.
Qed.

(** Texts that agree but for one [</li>] in front. *)
Definition maybe_li (x : string) : Prop := x = "" \/ (im = Fast true /\ x = line "</li>").
Definition but_for_li (x y : string) : Prop :=
  exists a c r, x = a +++ r /\ y = c +++ r /\ maybe_li a /\ maybe_li c.
Lemma but_for_li_app x y z : but_for_li x y -> but_for_li (x +++ z) (y +++ z).
Proof. intros (a & c & r & -> & -> & Ha & Hc). exists a, c, (r +++ z). by rewrite !sapp_assoc. Qed.
Lemma but_for_li_refl x : but_for_li x x.
Proof. exists "", "", x. split_and!; try done; by left. Qed.
Lemma stray_maybe s0 kids : maybe_li (stray v s0 kids).
Proof.
  unfold stray, maybe_li. destruct im as [|[]]; [by left| |by left]. destruct (last kids) as [k|]; [|by left].
  destruct (leaf s0 true k); [by left|by right].
Qed.
Lemma stray_kept kids : (forall k, last kids = Some k -> root k <> root t') -> stray v s' kids = stray v s kids.
Proof. unfold stray. intros H. destruct im as [|[]]; [done| |done]. destruct (last kids) as [k|]; [|done]. by rewrite leaf_kept by auto. Qed.
Lemma last_other l k r : (r = [] -> root k <> root t') -> root t' ∉ ids_of r ->
  forall x, last (l ++ k :: r) = Some x -> root x <> root t'.
Proof.
  intros Hk Hr x Hx. rewrite last_app_cons in Hx. destruct r as [|y r]; [injection Hx as <-; by apply Hk|].
  rewrite last_cons_cons in Hx. intros E. apply Hr. rewrite <- E. apply root_in_ids. by eapply last_Some_elem_of.
Qed.

Lemma page_around id l k r pre post post' : NoDup (ids (Tree id (l ++ k :: r))) ->
  leaf s true (Tree id (l ++ k :: r)) = false -> root t' ∈ ids k ->
  item v s k = pre +++ item v s t' +++ post -> item v s' k = pre +++ item v s' t' +++ post' ->
  but_for_li post post' -> (root k = root t' -> post = "" /\ post' = "") ->
  exists pre post post', inside v s (Tree id (l ++ k :: r)) = pre +++ item v s t' +++ post /\
    inside v s' (Tree id (l ++ k :: r)) = pre +++ item v s' t' +++ post' /\ but_for_li post post'.
Proof.
  intros Hn Hleaf Hk E E' Hli Hroot. destruct (NoDup_around _ _ _ _ Hn _ Hk) as (Hid & Hl & Hr).
  rewrite !inside_node, leaf_kept, Hleaf by done. rewrite !map_app. cbn [map]. rewrite !join_concat, !items_kept by done.
  change (?x :: ?y) with ([x] ++ y). rewrite !join_concat, !join_one, E, E', !sapp_assoc.
  set (kids := l ++ k :: r). exists (list_open v +++ join "" (map (item v s) l) +++ pre),
    (post +++ join "" (map (item v s) r) +++ stray v s kids +++ list_close v),
    (post' +++ join "" (map (item v s) r) +++ stray v s' kids +++ list_close v).
  rewrite !sapp_assoc. split; [done|]. split; [done|].
  destruct (decide (r = [] /\ root k = root t')) as [[-> Ek]|Hne].
  - destruct (Hroot Ek) as [-> ->]. cbn [map join String.append].
    exists (stray v s kids), (stray v s' kids), (list_close v). split_and!; auto using stray_maybe.
  - rewrite stray_kept; [by apply but_for_li_app|]. apply last_other; [|done]. intros -> Ek. by apply Hne.
Qed.

(** Two pages before and after: the same text in front of the entry's item, and the same
    text behind it but for a [</li>]. *)
Lemma page_redrawn t : shows s t' t -> NoDup (ids t) ->
  exists pre post post', inside v s t = pre +++ item v s t' +++ post /\ inside v s' t = pre +++ item v s' t' +++ post' /\
    but_for_li post post'.
Proof.
  induction 1 as [id kids Hleaf Hk|id kids k Hleaf Hk Hs IH]; intros Hn.
  - apply list_elem_of_split in Hk as (l & r & ->).
    apply (page_around id l t' r "" "" ""); try done; [apply ids_root| | |apply but_for_li_refl]; by rewrite sapp_nil_r.
  - destruct (NoDup_kid _ _ _ Hk Hn) as [Hnk _]. destruct (IH Hnk) as (pre & post & post' & E & E' & Hli).
    assert (Hne := shows_other _ _ _ Hs Hnk). assert (Hin := shows_ids _ _ _ Hs).
    apply list_elem_of_split in Hk as (l & r & ->).
    apply (page_around id l k r (item_open v s k +++ own_text v s (root k) +++ pre) (post +++ item_close v s k) (post' +++ item_close v s k));
      try done; [unfold item at 1; rewrite E|unfold item at 1; rewrite E', own_kept, item_open_kept, item_close_kept by auto|by apply but_for_li_app]; by rewrite !sapp_assoc.
Qed.
End redraw.
