(* ===== verification/HelpContentsInv.v ===== *)
(** * The entries of the table of contents form a tree
    In every state of the outline the entries are linked as a tree below the top entry,
    the numbers grow downwards, and the page and its parts can be drawn. *)
From S2P Require Import Prelude JsString JsNum JsVal HelpString HelpBooks HelpTree HelpOutline HelpContents HelpContentsPage.
Open Scope Z_scope.
#[local] Set Warnings "-register-all".

(** ** Links between entries *)
Record contents_ok (s : store) (next : Z) : Prop := {
  ok_top : exists e, s !! top_id = Some e /\ mParent e = None;
  ok_range : forall id e, s !! id = Some e -> top_id <= id < next;
  ok_parent : forall id e, s !! id = Some e -> id <> top_id ->
    exists p pe kids, mParent e = Some p /\ p < id /\ s !! p = Some pe /\ mChildren pe = Some kids /\ id ∈ kids;
  ok_children : forall id e kids, s !! id = Some e -> mChildren e = Some kids ->
    kids <> [] /\ NoDup kids /\ forall k, k ∈ kids -> exists c, s !! k = Some c /\ mParent c = Some id /\ id < k
}.

Definition link_of (e : entry) : option Z * option (list Z) := (mParent e, mChildren e).
(** The same entries with the same links. *)
Definition same_links (s s' : store) : Prop := forall i, link_of <$> s !! i = link_of <$> s' !! i.
Lemma same_links_refl s : same_links s s.
Proof. done. Qed.
Lemma same_links_trans s1 s2 s3 : same_links s1 s2 -> same_links s2 s3 -> same_links s1 s3.
Proof. intros H K i. by rewrite H, K. Qed.
Lemma same_links_alter f i s : (forall e, link_of (f e) = link_of e) -> same_links s (alter f i s).
Proof.
  intros Hf j. destruct (decide (j = i)) as [->|H]; [|by rewrite lookup_alter_ne].
  rewrite lookup_alter_eq. destruct (s !! i); [|done]. cbn. by rewrite Hf.
Qed.
Lemma same_links_lookup s s' i e : same_links s s' -> s' !! i = Some e ->
  exists e', s !! i = Some e' /\ mParent e' = mParent e /\ mChildren e' = mChildren e.
Proof. intros H E. specialize (H i). rewrite E in H. destruct (s !! i) as [e'|]; [|done]. injection H as Hp Hc. by exists e'. Qed.
Lemma same_links_sym s s' : same_links s s' -> same_links s' s.
Proof. intros H i. by rewrite H. Qed.

Lemma contents_ok_same s s' n : same_links s s' -> contents_ok s n -> contents_ok s' n.
Proof.
  intros H [(e & He & Hp) Hr Hpa Hch]. assert (H' := same_links_sym _ _ H). split.
  - destruct (same_links_lookup _ _ _ _ H' He) as (e' & He' & Hp' & _). exists e'. by rewrite Hp'.
  - intros i x Hx. destruct (same_links_lookup _ _ _ _ H Hx) as (x' & Hx' & _). by eapply Hr.
  - intros i x Hx Hi. destruct (same_links_lookup _ _ _ _ H Hx) as (x' & Hx' & E & _).
    destruct (Hpa i x' Hx' Hi) as (p & pe & kids & Hp1 & Hlt & Hpe & Hk & Hin).
    destruct (same_links_lookup _ _ _ _ H' Hpe) as (pe' & Hpe' & _ & Ek).
    exists p, pe', kids. split_and!; try done; congruence.
  - intros i x kids Hx Hk. destruct (same_links_lookup _ _ _ _ H Hx) as (x' & Hx' & _ & E). rewrite <- E in Hk.
    destruct (Hch i x' kids Hx' Hk) as (Hne & Hnd & Hall). split; [done|]. split; [done|]. intros k Hin.
    destruct (Hall k Hin) as (c & Hc & Hpc & Hlt). destruct (same_links_lookup _ _ _ _ H' Hc) as (c' & Hc' & Ec & _).
    exists c'. split_and!; try done; congruence.
Qed.

(** ** A new child *)
Lemma contents_ok_new s n p pe e : contents_ok s n -> 0 <= n -> s !! p = Some pe ->
  mParent e = Some p -> mChildren e = None -> contents_ok (<[p := add_child n pe]> (<[n := e]> s)) (n + 1).
Proof.
  intros [(te & Hte & Htp) Hr Hpa Hch] Hn Hpe Hep Hec.
  assert (Hlt := Hr _ _ Hpe). assert (Hfresh : s !! n = None) by (destruct (s !! n) eqn:E; [apply Hr in E; lia|done]).
  assert (Hlook : forall i x, (<[p := add_child n pe]> (<[n := e]> s)) !! i = Some x ->
    i = p /\ x = add_child n pe \/ i = n /\ i <> p /\ x = e \/ i <> n /\ i <> p /\ s !! i = Some x).
  { intros i x. destruct (decide (i = p)) as [->|Hip].
    - rewrite lookup_insert_eq. intros [= <-]. by left.
    - rewrite lookup_insert_ne by done. destruct (decide (i = n)) as [->|Hin].
      + rewrite lookup_insert_eq. intros [= <-]. right. by left.
      + rewrite lookup_insert_ne by done. right. by right. }
  assert (Hold : forall i x, s !! i = Some x -> exists x', (<[p := add_child n pe]> (<[n := e]> s)) !! i = Some x' /\
    mParent x' = mParent x /\ (i <> p -> x' = x) /\ (i = p -> x' = add_child n x)).
  { intros i x Hx. destruct (decide (i = p)) as [->|Hip].
    - rewrite Hpe in Hx. injection Hx as <-. exists (add_child n pe). by rewrite lookup_insert_eq.
    - exists x. rewrite lookup_insert_ne by done. rewrite lookup_insert_ne by (intros ->; congruence). done. }
  assert (Hnew : (<[p := add_child n pe]> (<[n := e]> s)) !! n = Some e) by (rewrite lookup_insert_ne by lia; apply lookup_insert_eq).
  split.
  - destruct (Hold _ _ Hte) as (x & Hx & Hxp & _). exists x. by rewrite Hxp.
  - intros i x [[-> _]|[(-> & _)|(_ & _ & Hx)]]%Hlook; [lia|unfold top_id; lia|apply Hr in Hx; lia].
  - intros i x Hx Hi. destruct (Hlook i x Hx) as [[-> ->]|[(-> & _ & ->)|(_ & Hip & Hs)]].
    + destruct (Hpa p pe Hpe Hi) as (q & qe & kids & E1 & E2 & E3 & E4 & E5).
      destruct (Hold _ _ E3) as (qe' & Hq & _ & Hsame & _). rewrite Hsame in Hq by lia. by exists q, qe, kids.
    + exists p, (add_child n pe), (match mChildren pe with None => [n] | Some l => l ++ [n] end).
      rewrite lookup_insert_eq. split_and!; try done; [lia|]. destruct (mChildren pe); set_solver.
    + destruct (Hpa i x Hs Hi) as (q & qe & kids & E1 & E2 & E3 & E4 & E5).
      destruct (Hold _ _ E3) as (qe' & Hq & _ & Hsame & Hp'). destruct (decide (q = p)) as [->|Hqp].
      * rewrite (Hp' eq_refl) in Hq. exists p, (add_child n qe), (kids ++ [n]).
        split_and!; [done|done|done|by unfold add_child; cbn; rewrite E4|set_solver].
      * rewrite Hsame in Hq by done. by exists q, qe, kids.
  - intros i x kids Hx Hk. destruct (Hlook i x Hx) as [[-> ->]|[(-> & _ & ->)|(_ & Hip & Hs)]]; [|congruence|].
    + cbn [add_child mChildren] in Hk. injection Hk as <-. destruct (mChildren pe) as [l|] eqn:El.
      * destruct (Hch p pe l Hpe El) as (H1 & H2 & H3). split; [by destruct l|]. split.
        { apply NoDup_app. split; [done|]. split; [|apply NoDup_singleton]. intros k Hk ->%list_elem_of_singleton.
          destruct (H3 n Hk) as (c & Hc & _). congruence. }
        intros k [Hk| ->%list_elem_of_singleton]%elem_of_app.
        { destruct (H3 k Hk) as (c & Hc & Hcp & Hlt'). destruct (Hold _ _ Hc) as (c' & Hc' & E & _). exists c'. by rewrite E. }
        exists e. split_and!; try done. lia.
      * split; [done|]. split; [apply NoDup_singleton|]. intros k ->%list_elem_of_singleton. exists e. split_and!; try done. lia.
    + destruct (Hch i x kids Hs Hk) as (H1 & H2 & H3). split; [done|]. split; [done|]. intros k Hin.
      destruct (H3 k Hin) as (c & Hc & Hcp & Hlt'). destruct (Hold _ _ Hc) as (c' & Hc' & E & _). exists c'. by rewrite E.
Qed.

(** ** The tree below an entry *)
Fixpoint tree_of (fuel : nat) (s : store) (id : Z) : tree :=
  Tree id (match fuel with
           | O => []
           | S fuel => match s !! id with Some e => map (tree_of fuel s) (default [] (mChildren e)) | None => [] end
           end).
Lemma tree_of_S fuel s id e : s !! id = Some e -> tree_of (S fuel) s id = Tree id (map (tree_of fuel s) (default [] (mChildren e))).
Proof. intros H. cbn [tree_of]. by rewrite H. Qed.
Lemma root_tree_of fuel s id : root (tree_of fuel s id) = id.
Proof. by destruct fuel. Qed.

Lemma NoDup_flat_map {A B} (f : A -> list B) l : NoDup l -> (forall x, x ∈ l -> NoDup (f x)) ->
  (forall x y z, x ∈ l -> y ∈ l -> z ∈ f x -> z ∈ f y -> x = y) -> NoDup (flat_map f l).
Proof.
  induction 1 as [|x l Hx _ IH]; intros Hf Hd; [constructor|]. cbn [flat_map]. apply NoDup_app. split; [apply Hf; set_solver|]. split.
  - intros z Hz (y & Hy & Hzy)%elem_flat_map. apply Hx. rewrite (Hd x y z); [done|set_solver|set_solver|done|done].
  - apply IH; [intros y Hy; apply Hf; set_solver|]. intros y1 y2 z H1 H2. apply Hd; set_solver.
Qed.

Section trees.
Context (s : store) (n : Z) (Hok : contents_ok s n).

Lemma kids_found id e kids : s !! id = Some e -> kids = default [] (mChildren e) ->
  NoDup kids /\ forall k, k ∈ kids -> exists c, s !! k = Some c /\ mParent c = Some id /\ id < k.
Proof.
  intros He ->. destruct (mChildren e) as [l|] eqn:E; cbn; [|split; [constructor|intros k Hk; by apply elem_of_nil in Hk]].
  by destruct (ok_children _ _ Hok id e l He E) as (_ & ? & ?).
Qed.
Lemma rep_tree_of fuel : forall id e, s !! id = Some e -> n - id <= Z.of_nat fuel -> rep s (mParent e) (tree_of fuel s id).
Proof.
  induction fuel as [|fuel IH]; intros id e He Hf; [apply (ok_range _ _ Hok) in He; lia|].
  rewrite (tree_of_S _ _ _ _ He). apply rep_node. destruct (kids_found id e _ He eq_refl) as [_ Hk]. split.
  - exists e. split; [done|]. split; [done|]. cbn [kids_of]. destruct (mChildren e) as [l|] eqn:E; [|done]. cbn [from_option].
    destruct (ok_children _ _ Hok id e l He E) as (Hne & _).
    assert (H : map root (map (tree_of fuel s) l) = l).
    { rewrite map_map. rewrite <- (map_id l) at 2. apply map_ext. intros i. apply root_tree_of. }
    rewrite <- H at 1. by destruct l.
  - apply Forall_forall. intros t (k & -> & Hin)%list_elem_of_fmap. destruct (Hk k Hin) as (c & Hc & Hp & Hlt). rewrite <- Hp.
    apply IH; [done|lia].
Qed.

(** An entry below [id] has its parent there. *)
Lemma ids_parent fuel : forall id e, s !! id = Some e -> forall x, x ∈ ids (tree_of fuel s id) ->
  x = id \/ id < x /\ exists c p, s !! x = Some c /\ mParent c = Some p /\ p ∈ ids (tree_of fuel s id).
Proof.
  induction fuel as [|fuel IH]; intros id e He x Hx; [left; cbn in Hx; set_solver|].
  rewrite (tree_of_S _ _ _ _ He) in *. cbn [ids] in *. apply elem_of_cons in Hx as [->|Hx]; [by left|right].
  apply elem_flat_map in Hx as (t & Ht & Hx). apply list_elem_of_fmap in Ht as (k & -> & Hin).
  destruct (kids_found id e _ He eq_refl) as [_ Hk]. destruct (Hk k Hin) as (c & Hc & Hp & Hlt).
  destruct (IH k c Hc x Hx) as [->|(Hkx & d & p & Hd & Hdp & Hin')].
  - split; [done|]. exists c, id. split_and!; try done. set_solver.
  - split; [lia|]. exists d, p. split; [done|]. split; [done|]. apply elem_of_cons. right. apply elem_flat_map. exists (tree_of fuel s k).
    split; [by apply list_elem_of_fmap_2|done].
Qed.
Lemma parent_less id e p : s !! id = Some e -> mParent e = Some p -> p < id.
Proof.
  intros He Hp. destruct (decide (id = top_id)) as [->|Hne].
  - destruct (ok_top _ _ Hok) as (te & Hte & Htp). congruence.
  - destruct (ok_parent _ _ Hok id e He Hne) as (q & _ & _ & Hq & Hlt & _). congruence.
Qed.
Lemma trees_disjoint fuel id e k1 k2 x : s !! id = Some e -> k1 ∈ default [] (mChildren e) -> k2 ∈ default [] (mChildren e) ->
  x ∈ ids (tree_of fuel s k1) -> x ∈ ids (tree_of fuel s k2) -> k1 = k2.
Proof.
  intros He H1 H2. destruct (kids_found id e _ He eq_refl) as [_ Hk].
  destruct (Hk k1 H1) as (c1 & Hc1 & Hp1 & Hlt1). destruct (Hk k2 H2) as (c2 & Hc2 & Hp2 & Hlt2).
  assert (Hwf : forall m : nat, forall x, x - id <= Z.of_nat m -> x ∈ ids (tree_of fuel s k1) -> x ∈ ids (tree_of fuel s k2) -> k1 = k2).
  { induction m as [|m IH]; intros y Hm Hy1 Hy2.
    - destruct (ids_parent fuel k1 c1 Hc1 y Hy1) as [->|[? _]]; lia.
    - destruct (ids_parent fuel k1 c1 Hc1 y Hy1) as [->|(Hl1 & d1 & p1 & Hd1 & Hdp1 & Hin1)];
        destruct (ids_parent fuel k2 c2 Hc2 _ Hy2) as [E|(Hl2 & d2 & p2 & Hd2 & Hdp2 & Hin2)].
      + done.
      + assert (p2 = id) as -> by congruence. destruct (ids_parent fuel k2 c2 Hc2 id Hin2) as [?|[? _]]; lia.
      + subst y. assert (p1 = id) as -> by congruence. destruct (ids_parent fuel k1 c1 Hc1 id Hin1) as [?|[? _]]; lia.
      + assert (p2 = p1) as -> by congruence. apply (IH p1); [|done|done]. assert (p1 < y) by (by eapply parent_less). lia. }
  intros Hx1 Hx2. apply (Hwf (Z.to_nat (x - id)) x); [lia|done|done].
Qed.
Lemma NoDup_tree_of fuel : forall id e, s !! id = Some e -> NoDup (ids (tree_of fuel s id)).
Proof.
  induction fuel as [|fuel IH]; intros id e He; [cbn; apply NoDup_singleton|].
  destruct (kids_found id e _ He eq_refl) as [Hn Hk]. rewrite (tree_of_S _ _ _ _ He). cbn [ids]. apply NoDup_cons. split.
  - intros (t & Ht & Hx)%elem_flat_map. apply list_elem_of_fmap in Ht as (k & -> & Hin).
    destruct (Hk k Hin) as (c & Hc & _ & Hlt). destruct (ids_parent fuel k c Hc id Hx) as [?|[? _]]; lia.
  - rewrite flat_map_concat_map, map_map, <- flat_map_concat_map. apply NoDup_flat_map; [done| |].
    + intros k Hin. destruct (Hk k Hin) as (c & Hc & _). by eapply IH.
    + intros k1 k2 x. by apply (trees_disjoint fuel id e).
Qed.

(** Every entry is in the tree. *)
Definition contents_tree : tree := tree_of (Z.to_nat (n + 1)) s top_id.
Lemma ids_kids fuel : forall id e, s !! id = Some e -> n - id <= Z.of_nat fuel -> forall p pe kids k,
  p ∈ ids (tree_of fuel s id) -> s !! p = Some pe -> mChildren pe = Some kids -> k ∈ kids -> k ∈ ids (tree_of fuel s id).
Proof.
  induction fuel as [|fuel IH]; intros id e He Hf p pe kids k Hp Hpe Hk Hin; [apply (ok_range _ _ Hok) in He; lia|].
  rewrite (tree_of_S _ _ _ _ He) in *. cbn [ids] in *. destruct (kids_found id e _ He eq_refl) as [_ Hfound]. apply elem_of_cons. right.
  apply elem_of_cons in Hp as [->|Hp].
  - rewrite He in Hpe. injection Hpe as <-. apply elem_flat_map. exists (tree_of fuel s k). split; [|by destruct fuel; cbn; set_solver].
    apply list_elem_of_fmap_2. by rewrite Hk.
  - apply elem_flat_map in Hp as (t & Ht & Hp). apply elem_flat_map. exists t. split; [done|].
    apply list_elem_of_fmap in Ht as (j & -> & Hj). destruct (Hfound j Hj) as (c & Hc & _ & Hlt).
    apply (IH j c Hc) with p pe kids; try done. lia.
Qed.
Lemma all_in_tree id e : s !! id = Some e -> id ∈ ids contents_tree.
Proof.
  intros He. destruct (ok_top _ _ Hok) as (te & Hte & _). assert (Hn := ok_range _ _ Hok _ _ Hte).
  assert (Hwf : forall m : nat, forall i x, i - top_id <= Z.of_nat m -> s !! i = Some x -> i ∈ ids contents_tree).
  { induction m as [|m IH]; intros i x Hm Hx; assert (Hr := ok_range _ _ Hok _ _ Hx).
    - replace i with top_id by lia. unfold contents_tree. destruct (Z.to_nat (n + 1)); cbn; set_solver.
    - destruct (decide (i = top_id)) as [->|Hne]; [apply IH with te; [lia|done]|].
      destruct (ok_parent _ _ Hok i x Hx Hne) as (p & pe & kids & _ & Hlt & Hpe & Hk & Hin).
      apply (ids_kids _ top_id te Hte) with p pe kids; try done; [unfold top_id in *; lia|]. apply IH with pe; [lia|done]. }
  apply (Hwf (Z.to_nat (id - top_id)) id e); [|done]. apply (ok_range _ _ Hok) in He. lia.
Qed.
Lemma contents_tree_rep : rep s None contents_tree /\ NoDup (ids contents_tree) /\ root contents_tree = top_id.
Proof.
  destruct (ok_top _ _ Hok) as (te & Hte & Hp). assert (Hn := ok_range _ _ Hok _ _ Hte). unfold contents_tree.
  split; [rewrite <- Hp; apply rep_tree_of; [done|unfold top_id in *; lia]|]. split; [by eapply NoDup_tree_of|apply root_tree_of].
Qed.
End trees.
