(* ===== verification/HelpContentsSteps.v ===== *)
(** * The states of the table of contents
    Setting up, loading the contents of the books, drawing, clicks and [fSync] keep the
    entries linked as a tree below the top entry, which stays open. *)
From S2P Require Import Prelude JsString JsNum JsVal HelpString HelpBooks HelpTree HelpOutline HelpContents HelpContentsPage HelpContentsInv.
Open Scope Z_scope.
#[local] Set Warnings "-register-all".

Record outline_ok (o : outline) : Prop := {
  oo_next : 0 <= mNextEntryID o;
  oo_contents : contents_ok (mEntryHash o) (mNextEntryID o);
  oo_top : exists e, mEntryHash o !! top_id = Some e /\ mbExpanded e = true;
  oo_visible : mbVisibleOnly (mIterator o) = true;
  oo_buffer : exists x, holds (mHTMLSegment o) x;
  oo_books : forall b, b ∈ mBookEntryArray o -> b <> top_id /\ is_Some (mEntryHash o !! b)
}.
(** No entry but the top one is hidden. *)
Definition all_shown (o : outline) : Prop := forall id e, mEntryHash o !! id = Some e -> id <> top_id -> mbShow e = true.

Lemma new_outline_ok : outline_ok new_outline.
Proof.
  assert (H : forall i x, mEntryHash new_outline !! i = Some x -> i = top_id /\ x = top_entry).
  { intros i x Hx. cbn in Hx. by apply lookup_singleton_Some in Hx as [<- <-]. }
  split; try done.
  - split.
    + by exists top_entry.
    + intros i x [-> _]%H. done.
    + intros i x [-> _]%H. done.
    + intros i x kids [-> ->]%H. done.
  - by exists top_entry.
  - exists "". apply holds_new.
  - intros b Hb. by apply elem_of_nil in Hb.
Qed.

(** ** Changes of entries and of the page *)
Lemma ok_set_store o s : outline_ok o -> same_links (mEntryHash o) s ->
  (forall e, mEntryHash o !! top_id = Some e -> mbExpanded e = true -> exists e', s !! top_id = Some e' /\ mbExpanded e' = true) ->
  outline_ok (set_store s o).
Proof.
  intros [Hn Hc (e & He & Hx) Hv Hb Hbk] Hs Ht. split; cbn; try done.
  - by apply contents_ok_same with (mEntryHash o).
  - by apply Ht with e.
  - intros b Hin. destruct (Hbk b Hin) as [? [x Hx']]. split; [done|]. specialize (Hs b). rewrite Hx' in Hs. by destruct (s !! b).
Qed.
Lemma ok_on_entry o f id : outline_ok o -> (forall e, link_of (f e) = link_of e) ->
  (forall e, mbExpanded (f e) = mbExpanded e \/ mbExpanded (f e) = true) \/ id <> top_id -> outline_ok (on_entry f id o).
Proof.
  intros Ho Hf Hx. apply ok_set_store; [done|by apply same_links_alter|]. intros e He Hex.
  destruct (decide (id = top_id)) as [->|Hne].
  - exists (f e). rewrite lookup_alter_eq, He. split; [done|]. destruct Hx as [Hx|Hx]; [|done]. destruct (Hx e) as [->| ->]; done.
  - exists e. by rewrite lookup_alter_ne.
Qed.
Lemma ok_page o it b x : outline_ok o -> mbVisibleOnly it = true -> holds b x -> outline_ok (set_page it b o).
Proof. intros [] Hi Hb. split; cbn; try done. by exists x. Qed.
Lemma ok_anchor o a : outline_ok o -> outline_ok (set_anchor a o).
Proof. by intros []. Qed.
Lemma ok_sync o b f a : outline_ok o -> outline_ok (set_sync b f a o).
Proof. by intros []. Qed.
Lemma ok_books o l i r : outline_ok o -> (forall b, b ∈ l -> b <> top_id /\ is_Some (mEntryHash o !! b)) -> outline_ok (set_books l i r o).
Proof. by intros []. Qed.
#[local] Hint Resolve ok_anchor ok_sync : core.

(** ** New entries *)
Section building.
Context (books : book_list) (v : viewer).

(** What an operation that adds entries keeps. *)
Record grows (o o' : outline) : Prop := {
  gr_ok : outline_ok o';
  gr_found : forall i, is_Some (mEntryHash o !! i) -> is_Some (mEntryHash o' !! i);
  gr_books : mBookEntryArray o' = mBookEntryArray o
}.
Lemma grows_refl o : outline_ok o -> grows o o.
Proof. done. Qed.
Lemma grows_trans o1 o2 o3 : grows o1 o2 -> grows o2 o3 -> grows o1 o3.
Proof. intros [] []. split; [done|auto|congruence]. Qed.
Lemma grows_on_entry o f id : outline_ok o -> (forall e, link_of (f e) = link_of e) ->
  (forall e, mbExpanded (f e) = mbExpanded e \/ mbExpanded (f e) = true) \/ id <> top_id -> grows o (on_entry f id o).
Proof.
  intros Ho Hf Hx. split; [by apply ok_on_entry| |done]. intros i [e He]. cbn.
  destruct (decide (i = id)) as [->|Hne]; [rewrite lookup_alter_eq, He|rewrite lookup_alter_ne by done; rewrite He]; by eexists.
Qed.

Lemma NewChild_grows p text url icon openicon o id o' : outline_ok o -> NewChild v p text url icon openicon o = Some (id, o') ->
  grows o o' /\ id <> top_id /\ is_Some (mEntryHash o' !! id).
Proof.
  intros [Hn Hc (te & Hte & Htx) Hv Hb Hbk] H. unfold NewChild in H. destruct (mEntryHash o !! p) as [pe|] eqn:Ep; [|done].
  cbn [mbind option_bind] in H. injection H as <- <-.
  set (e0 := new_entry p pe text url icon openicon).
  set (e := if (mLevel e0 =? 0) && mbExpandAllAtTop v then set_expanded true e0 else e0).
  assert (He : mParent e = Some p /\ mChildren e = None) by (unfold e; by case_if). destruct He as [He1 He2].
  assert (Hp := ok_range _ _ Hc _ _ Ep).
  assert (Hf : forall i, is_Some (mEntryHash o !! i) -> is_Some (<[p := add_child (mNextEntryID o) pe]> (<[mNextEntryID o := e]> (mEntryHash o)) !! i)).
  { intros i Hi. destruct (decide (i = p)) as [->|H1]; [rewrite lookup_insert_eq; by eexists|]. rewrite lookup_insert_ne by done.
    destruct (decide (i = mNextEntryID o)) as [->|H2]; [rewrite lookup_insert_eq; by eexists|]. by rewrite lookup_insert_ne. }
  split; [split; cbn; [|done|done]|split; [unfold top_id; lia|]].
  - split; cbn; try done; [lia|by apply contents_ok_new| |intros b Hin; destruct (Hbk b Hin); auto].
    destruct (decide (p = top_id)) as [->|Hne].
    + exists (add_child (mNextEntryID o) pe). rewrite lookup_insert_eq. split; [done|]. rewrite Hte in Ep. by injection Ep as <-.
    + exists te. rewrite lookup_insert_ne by done. rewrite lookup_insert_ne by (unfold top_id; lia). done.
  - cbn. rewrite lookup_insert_ne by lia. rewrite lookup_insert_eq. by eexists.
Qed.

Section toc_ind.
Context (P : toc -> Prop) (Htoc : forall t u i o inside, Forall P inside -> P (Toc t u i o inside)).
Fixpoint toc_induction (t : toc) : P t :=
  match t with
  | Toc t u i o inside =>
      Htoc t u i o inside
        ((fix all (l : list toc) : Forall P l :=
            match l with [] => Forall_nil_2 P | t :: l => Forall_cons_2 P t l (toc_induction t) (all l) end) inside)
  end.
End toc_ind.
Lemma add_toc_unfold p t u i oi inside o : add_toc v p (Toc t u i oi inside) o =
  ('(id, o) ← NewChild v p (Some t) u i oi o; AddTOCEntries v id inside o).
Proof.
  cbn [add_toc]. destruct (NewChild v p (Some t) u i oi o) as [[id o1]|]; [|done]. cbn [mbind option_bind]. revert o1.
  induction inside as [|x l IH]; intros o1; [done|]. cbn [AddTOCEntries]. destruct (add_toc v id x o1) as [o2|]; [apply IH|done].
Qed.
Lemma AddTOCEntries_grows l : forall p o o', outline_ok o -> AddTOCEntries v p l o = Some o' -> grows o o'.
Proof.
  enough (H : Forall (fun t => forall p o o', outline_ok o -> add_toc v p t o = Some o' -> grows o o') l).
  { induction H as [|t l Ht _ IH]; intros p o o' Ho E; cbn [AddTOCEntries] in E; [injection E as <-; by apply grows_refl|].
    destruct (add_toc v p t o) as [o1|] eqn:E1; [|done]. apply Ht in E1; [|done]. cbn [mbind option_bind] in E.
    eapply grows_trans; [done|]. apply IH in E; [done|]. by destruct E1. }
  apply Forall_forall. intros t _. induction t as [t u i oi inside IH] using toc_induction. intros p o o' Ho E.
  rewrite add_toc_unfold in E. destruct (NewChild v p (Some t) u i oi o) as [[id o1]|] eqn:E1; [|done]. cbn [mbind option_bind] in E.
  destruct (NewChild_grows _ _ _ _ _ _ _ _ Ho E1) as (Hg & _). eapply grows_trans; [done|].
  assert (Ho1 := gr_ok _ _ Hg). clear E1 Hg Ho o. revert o1 Ho1 E. induction IH as [|t' k Ht _ IHl]; intros o1 Ho1 E; cbn [AddTOCEntries] in E.
  - injection E as <-. by apply grows_refl.
  - destruct (add_toc v id t' o1) as [o2|] eqn:E2; [|done]. apply Ht in E2; [|done]. cbn [mbind option_bind] in E.
    eapply grows_trans; [done|]. apply IHl in E; [done|]. by destruct E2.
Qed.

Lemma group_entry_ok n : forall p o o', outline_ok o -> group_entry books v p n o = Some o' -> outline_ok o'.
Proof.
  induction n as [d show expand i oi|t expand i oi children IH] using node_induction; intros p o o' Ho E.
  - cbn [group_entry] in E. destruct (GetBookTitle books _) as [title|]; [|done]. cbn [mbind option_bind] in E.
    destruct (NewChild v p title _ _ _ o) as [[id o1]|] eqn:E1; [|done]. cbn [mbind option_bind] in E.
    destruct (NewChild_grows _ _ _ _ _ _ _ _ Ho E1) as (Hg & Hid & Hs). assert (Ho1 := gr_ok _ _ Hg).
    destruct (mEntryHash o1 !! p) as [pe|]; [|done]. cbn [mbind option_bind] in E. injection E as <-.
    apply ok_books; [apply ok_on_entry; [done|by destruct show|by right]|]. cbn.
    intros b Hb. assert (Hb' : b <> top_id /\ is_Some (mEntryHash o1 !! b)).
    { apply elem_of_app in Hb as [Hb| ->%list_elem_of_singleton]; [|done]. by apply (oo_books _ Ho1). }
    destruct Hb' as [? [x Hx]]. split; [done|]. destruct (decide (b = id)) as [->|Hne];
      [rewrite lookup_alter_eq, Hx|rewrite lookup_alter_ne by done; rewrite Hx]; by eexists.
  - cbn [group_entry] in E. destruct (NewChild v p (Some t) _ _ _ o) as [[id o1]|] eqn:E1; [|done]. cbn [mbind option_bind] in E.
    destruct (NewChild_grows _ _ _ _ _ _ _ _ Ho E1) as (Hg & Hid & _).
    assert (Ho1 : outline_ok (on_entry (set_expanded expand) id o1)) by (apply ok_on_entry; [by destruct Hg|done|by right]).
    clear Hg E1. revert E Ho1. generalize (on_entry (set_expanded expand) id o1). clear o1.
    induction IH as [|n l Hn _ IHl]; intros o1 E Ho1; [by injection E as <-|].
    destruct (group_entry books v id n o1) as [o2|] eqn:E2; [|done]. apply Hn in E2; [|done]. by apply IHl in E.
Qed.
Lemma InitGroupings_ok l : forall p o o', outline_ok o -> InitGroupings books v p l o = Some o' -> outline_ok o'.
Proof.
  induction l as [|n l IH]; intros p o o' Ho E; cbn [InitGroupings] in E; [by injection E as <-|].
  destruct (group_entry books v p n o) as [o1|] eqn:E1; [|done]. apply group_entry_ok in E1; [|done]. by apply IH in E.
Qed.
Lemma InitBodyHTML_ok l o h o' : outline_ok o -> InitBodyHTML books v l o = Some (h, o') -> outline_ok o'.
Proof.
  unfold InitBodyHTML. intros Ho E. destruct (InitGroupings books v top_id l o) as [o1|] eqn:E1; [|done].
  apply InitGroupings_ok in E1; [|done]. injection E as _ <-. by apply ok_books, (oo_books _ E1).
Qed.
Lemma InitLoadBookTOC_ok l o o' b : outline_ok o -> InitLoadBookTOC books v l o = Some (o', b) -> outline_ok o'.
Proof.
  unfold InitLoadBookTOC. intros Ho E. destruct (at_index _ _) as [bid|] eqn:Eb; [|done]. cbn [mbind option_bind] in E.
  assert (Hbid : bid ∈ mBookEntryArray o) by (unfold at_index in Eb; case_if; [done|]; by eapply list_elem_of_lookup_2).
  destruct (oo_books _ Ho _ Hbid) as [Hne _].
  destruct (AddTOCEntries v bid l (on_entry (set_book_index (mInitIndex o)) bid o)) as [o1|] eqn:E1; [|done].
  apply AddTOCEntries_grows in E1; [|apply ok_on_entry; [done|done|by right]]. assert (Ho1 := gr_ok _ _ E1).
  cbn [mbind option_bind] in E. destruct (mEntryHash o1 !! bid) as [e|]; [|done]. cbn [mbind option_bind] in E.
  assert (Ho2 : forall o2, (if mbShow e then bk ← GetBook books (mInitIndex o1);
      Some (if 0 <? fEntries (mFiles bk) then on_entry (set_url "0") bid o1 else o1) else Some o1) = Some o2 -> outline_ok o2).
  { intros o2. destruct (mbShow e); [|by intros [= <-]]. destruct (GetBook _ _); [|done]. cbn. case_if; intros [= <-]; [|done].
    apply ok_on_entry; [done|done|by left; left]. }
  destruct (if mbShow e then _ else _) as [o2|]; [|done]. specialize (Ho2 o2 eq_refl). cbn [mbind option_bind] in E.
  case_if; injection E as <- <-; by apply ok_books, (oo_books _ Ho2).
Qed.
End building.

(** ** Drawing *)
Section drawing.
Context (books : book_list) (v : viewer).

Lemma Advance_visible s it more it' ev : Advance s it = Some (more, it', ev) -> mbVisibleOnly it' = mbVisibleOnly it.
Proof.
  unfold Advance. destruct (mEntry it) as [i|]; [|by intros [= _ <- _]]. destruct (s !! i) as [e|]; [|done]. cbn [mbind option_bind].
  destruct (if negb (mbVisibleOnly it) || mbExpanded e then mChildren e else None); [by intros [= _ <- _]|].
  destruct (i =? mIteratorScope it); [by intros [= _ <- _]|]. destruct (climb s _ _ _) as [[[r st] ev']|]; [|done]. by intros [= _ <- _].
Qed.
Lemma advance_loop_keeps fuel im max s : forall it b it' b', mbVisibleOnly it = true -> (exists x, holds b x) ->
  advance_loop v fuel im max s it b = Some (it', b') -> mbVisibleOnly it' = true /\ exists x, holds b' x.
Proof.
  induction fuel as [|fuel IH]; intros it b it' b' Hv [x Hb] E; [done|]. cbn [advance_loop] in E.
  destruct (room max b); [|injection E as <- <-; by eauto].
  destruct (Advance s it) as [[[more it1] ev]|] eqn:EA; [|done]. cbn [mbind option_bind] in E. apply Advance_visible in EA.
  assert (Hb1 := holds_append_all (flat_map (level_text im) ev) _ _ Hb).
  destruct more; [|injection E as <- <-; split; [congruence|by eauto]].
  destruct (mEntry it1) as [i|]; [|injection E as <- <-; split; [congruence|by eauto]].
  destruct (s !! i) as [e|]; [|done]. cbn [mbind option_bind] in E. destruct (entry_text v im s i e) as [t|]; [|done]. cbn [mbind option_bind] in E.
  apply IH in E; [done|congruence|]. eexists. by apply holds_append_all.
Qed.
Lemma Imaging_Advance_ok max o r o' : outline_ok o -> Imaging_Advance v max o = Some (r, o') ->
  exists it b, o' = set_page it b o /\ outline_ok (set_page it b o).
Proof.
  unfold Imaging_Advance. intros Ho E. destruct (advance_loop _ _ _ _ _ _ _) as [[it b]|] eqn:EL; [|done]. injection E as _ <-.
  exists it, b. split; [done|]. destruct (oo_buffer _ Ho) as [x Hx].
  apply advance_loop_keeps in EL as [Hv [y Hy]]; [by eapply ok_page|by destruct Ho|]. exists "". by eapply holds_reset.
Qed.
Lemma ok_reset o id : outline_ok o -> outline_ok (set_page (Reset id (mIterator o)) (mHTMLSegment o) o).
Proof. intros Ho. destruct (oo_buffer _ Ho) as [x Hx]. eapply ok_page; [done| |done]. by destruct Ho. Qed.
Lemma ok_get o : outline_ok o -> outline_ok (set_page (mIterator o) (snd (fGetBuffer (mHTMLSegment o))) o).
Proof. intros Ho. destruct (oo_buffer _ Ho) as [x Hx]. apply holds_get in Hx as [_ Hx]. eapply ok_page; [done|by destruct Ho|done]. Qed.

(** An operation that leaves the entries alone. *)
Definition only_page (o o' : outline) : Prop := exists it b, o' = set_page it b o.
Lemma UpdateEntry_ok id o o' ef : outline_ok o -> UpdateEntry v id o = Some (o', ef) -> outline_ok o' /\ only_page o o'.
Proof.
  intros Ho E. unfold UpdateEntry in E. destruct (mImagingObject v) as [|l]; [injection E as <- _; split; [done|]; exists (mIterator o), (mHTMLSegment o); by destruct o|].
  unfold Fast_UpdateEntry in E. destruct (mEntryHash o !! id) as [e|]; [|done]. cbn [mbind option_bind] in E.
  destruct (DisplayEntry v _ _ _ _) as [d|]; [|done]. cbn [mbind option_bind] in E.
  destruct (Imaging_Advance v _ _) as [[r o1]|] eqn:EA; [|done]. cbn [mbind option_bind] in E.
  apply Imaging_Advance_ok in EA as (it & b & -> & Ho1); [|by apply ok_reset].
  assert (Ho2 := ok_get _ Ho1). destruct (fGetBuffer _) as [t b'] eqn:EG. injection E as <- _. cbn [snd] in Ho2.
  split; [done|]. by exists it, b'.
Qed.

Lemma Expand_ok id o o' ef : outline_ok o -> Expand v id o = Some (o', ef) -> outline_ok o'.
Proof.
  unfold Expand. intros Ho E. destruct (Z.eqb_spec id top_id); [done|]. destruct (mEntryHash o !! id); [|done]. cbn [mbind option_bind] in E.
  apply UpdateEntry_ok in E as [? _]; [done|]. apply ok_on_entry; [done|done|by right].
Qed.
Lemma Collapse_ok id o o' ef : outline_ok o -> Collapse v id o = Some (o', ef) -> outline_ok o'.
Proof.
  unfold Collapse. intros Ho E. destruct (Z.eqb_spec id top_id); [done|]. destruct (mEntryHash o !! id); [|done]. cbn [mbind option_bind] in E.
  apply UpdateEntry_ok in E as [? _]; [done|]. apply ok_on_entry; [done|done|by right].
Qed.
Lemma DisplayDoc_ok id o o' ef : outline_ok o -> DisplayDoc books v id o = Some (o', ef) -> outline_ok o'.
Proof.
  unfold DisplayDoc. intros Ho E. destruct (id =? top_id); [done|]. destruct (mEntryHash o !! id) as [e|]; [|done]. cbn [mbind option_bind] in E.
  destruct (book_above _ _ _) as [bk|]; [|done]. cbn [mbind option_bind] in E.
  destruct (match bk with Some b => _ | None => _ end) as [url|]; [|done]. cbn [mbind option_bind] in E.
  destruct (mbExpanded e).
  - destruct (mbAccessible v); [|by injection E as <- _].
    destruct (Collapse v id o) as [[o1 ef1]|] eqn:E1; [|done]. injection E as <- _. by apply Collapse_ok in E1.
  - destruct (mChildren e); [|by injection E as <- _].
    destruct (Expand v id o) as [[o1 ef1]|] eqn:E1; [|done]. injection E as <- _. by apply Expand_ok in E1.
Qed.

(** ** Opening what is around an entry *)
Inductive chain (s : store) : option Z -> list Z -> Prop :=
| chain_top : chain s None []
| chain_up p e l : s !! p = Some e -> chain s (mParent e) l -> chain s (Some p) (p :: l).
Lemma chain_same s s' p l : same_links s s' -> chain s p l -> chain s' p l.
Proof.
  intros Hs. induction 1 as [|p e l He _ IH]; [constructor|].
  destruct (same_links_lookup _ _ _ _ (same_links_sym _ _ Hs) He) as (e' & He' & Hp & _). econstructor; [done|]. by rewrite Hp.
Qed.
Lemma chain_ex s n : contents_ok s n -> forall id e, s !! id = Some e -> exists l, chain s (Some id) l /\
  NoDup l /\ Forall (fun i => i <= id /\ is_Some (s !! i)) l.
Proof.
  intros Hok. assert (H : forall m : nat, forall id e, id - top_id <= Z.of_nat m -> s !! id = Some e -> exists l, chain s (Some id) l /\
    NoDup l /\ Forall (fun i => i <= id /\ is_Some (s !! i)) l).
  { induction m as [|m IH]; intros id e Hm He; assert (Hr := ok_range _ _ Hok _ _ He);
      (destruct (mParent e) as [p|] eqn:Ep; [|exists [id]; split; [econstructor; [done|]; rewrite Ep; constructor|split; [apply NoDup_singleton|constructor; [by eauto|constructor]]]]);
      assert (Hlt := parent_less _ _ Hok _ _ _ He Ep);
      (destruct (decide (id = top_id)) as [->|Hne]; [destruct (ok_top _ _ Hok) as (te & Hte & Htp); congruence|]);
      destruct (ok_parent _ _ Hok id e He Hne) as (q & pe & kids & Eq & _ & Hpe & _); assert (q = p) as -> by congruence.
    - apply (ok_range _ _ Hok) in Hpe. lia.
    - destruct (IH p pe) as (l & Hl & Hn & Hf); [lia|done|]. exists (id :: l). split; [econstructor; [done|by rewrite Ep]|]. split.
      + constructor; [|done]. intros Hin. rewrite Forall_forall in Hf. destruct (Hf _ Hin). lia.
      + constructor; [by eauto|]. apply (Forall_impl _ _ _ Hf). intros i [? ?]. split; [lia|done]. }
  intros id e He. apply (H (Z.to_nat (id - top_id)) id e); [apply (ok_range _ _ Hok) in He; lia|done].
Qed.
Lemma chain_det s p l : chain s p l -> forall k, chain s p k -> l = k.
Proof.
  induction 1 as [|p e l He _ IH]; intros k Hk; inversion Hk as [|q x k' Hx Hk']; [done|]. subst.
  rewrite He in Hx. injection Hx as <-. f_equal. by apply IH.
Qed.
Lemma chain_found s p l : chain s p l -> forall x, x ∈ l -> is_Some (s !! x).
Proof.
  induction 1 as [|p e l He _ IH]; intros x Hx; [by apply elem_of_nil in Hx|]. apply elem_of_cons in Hx as [->|Hx]; [by eexists|by apply IH].
Qed.
Lemma chain_size s n : contents_ok s n -> forall p l, chain s p l -> (length l <= size s)%nat.
Proof.
  intros Hok p l Hl. destruct Hl as [|p e l He Hl]; [cbn; lia|]. destruct (chain_ex s n Hok p e He) as (l' & Hl' & Hn & Hf).
  assert (l' = p :: l) as -> by (apply (chain_det s (Some p)); [done|by econstructor]). clear Hl.
  rewrite <- length_map_to_list, <- (length_fmap fst). apply submseteq_length, NoDup_submseteq; [done|].
  intros i Hi. rewrite Forall_forall in Hf. destruct (Hf i Hi) as [_ [x Hx]].
  apply list_elem_of_fmap. exists (i, x). split; [done|]. by apply elem_of_map_to_list.
Qed.

(** The entries after the entries [l] were opened. *)
Definition opened (s : store) (l : list Z) (s' : store) : Prop :=
  forall i, s' !! i = if decide (i ∈ l) then set_expanded true <$> s !! i else s !! i.
Lemma opened_links s l s' : opened s l s' -> same_links s s'.
Proof. intros H i. rewrite (H i). case_decide; [|done]. by destruct (s !! i). Qed.
Lemma open_parents_spec fuel : forall p l last s, chain s p l -> NoDup l -> (length l <= fuel)%nat ->
  exists last' s', open_parents fuel p last s = Some (last', s') /\ opened s l s' /\
    (forall x, last' = Some x -> last = Some x \/ x ∈ l /\ exists e, s !! x = Some e /\ mbExpanded e = false) /\
    (last' = None -> s' = s).
Proof.
  induction fuel as [|fuel IH]; intros p l last s Hl Hn Hf.
  - destruct Hl; [|cbn in Hf; lia]. exists last, s. cbn. split_and!; [done| |by left|done]. intros i. by rewrite decide_False by set_solver.
  - destruct Hl as [|p e l He Hl].
    { exists last, s. cbn. split_and!; [done| |by left|done]. intros i. by rewrite decide_False by set_solver. }
    cbn [open_parents]. rewrite He. cbn [mbind option_bind]. apply NoDup_cons in Hn as [Hp Hn]. cbn [length] in Hf.
    destruct (mbExpanded e) eqn:Ex.
    + destruct (IH (mParent e) l last s Hl Hn) as (last' & s' & E & Ho & Hlast & Hnone); [lia|]. exists last', s'. split; [done|]. split; [|split; [|done]].
      * intros i. rewrite (Ho i). destruct (decide (i = p)) as [->|Hne].
        { rewrite decide_False, decide_True by set_solver. rewrite He. destruct e. cbn in Ex. by subst. }
        apply decide_ext. set_solver.
      * intros x Hx. destruct (Hlast x Hx) as [?|[? ?]]; [by left|right; split; [set_solver|done]].
    + assert (Hs : same_links s (<[p := set_expanded true e]> s)).
      { intros i. destruct (decide (i = p)) as [->|Hne]; [rewrite lookup_insert_eq, He; done|by rewrite lookup_insert_ne]. }
      destruct (IH (mParent e) l (Some p) (<[p := set_expanded true e]> s)) as (last' & s' & E & Ho & Hlast & Hnone); [by apply chain_same with s|done|lia|].
      exists last', s'. split; [done|]. split; [|split].
      * intros i. rewrite (Ho i). destruct (decide (i = p)) as [->|Hne].
        { rewrite decide_False, decide_True by set_solver. by rewrite lookup_insert_eq, He. }
        rewrite lookup_insert_ne by done. apply decide_ext. set_solver.
      * intros x Hx. right. destruct (Hlast x Hx) as [[= <-]|[Hin (e1 & He1 & Hx1)]]; [split; [set_solver|by eexists]|].
        split; [set_solver|]. exists e1. rewrite lookup_insert_ne in He1 by (intros ->; done). done.
      * intros Hx. exfalso. clear -E Hx. revert E. generalize (<[p := set_expanded true e]> s). generalize (mParent e). generalize p. subst last'.
        induction fuel as [|fuel IH]; intros p' q s0 E; destruct q as [q|]; try done. cbn [open_parents] in E.
        destruct (s0 !! q) as [x|]; [|done]. cbn [mbind option_bind] in E. destruct (mbExpanded x); by eapply IH.
Qed.
End drawing.
