(* ===== verification/HelpContentsSync.v ===== *)
(** * Showing the entry of a page, and drawing an entry again
    What [fSync] finds and opens; that the entry can be seen afterwards; that opening or
    closing an entry writes what a new page would show. *)
From S2P Require Import Prelude JsString JsNum JsVal HelpString HelpBooks HelpTree HelpOutline HelpContents HelpContentsPage HelpContentsInv HelpContentsSteps.
Open Scope Z_scope.
#[local] Set Warnings "-register-all".

(** ** Searching below a book *)
Section search.
Context (s : store).
Definition visited (l : list act) : list Z := flat_map (fun a => match a with Visit i => [i] | _ => [] end) l.
Lemma visited_app l k : visited (l ++ k) = visited l ++ visited k.
Proof. apply flat_map_app. Qed.
Lemma visited_levels ev : visited (map Level ev) = [].
Proof. by induction ev. Qed.
(** An iterator over all entries visits the entries below its scope in order. *)
Lemma visited_below t : forall c, visited (below s false c t) = ids_of (kids_of t).
Proof.
  induction t as [id kids IH] using tree_induction. intros c. rewrite below_node. unfold leaf, open. cbn [kids_of negb orb].
  destruct kids as [|k0 kids0]; [done|]. change (visited (Level OpenLevel :: ?l)) with (visited l). set (kids := k0 :: kids0) in *.
  clearbody kids. clear k0 kids0. induction IH as [|k l Hk _ IH]; [done|]. rewrite on_level_cons. unfold rest_level.
  change (visited (Visit ?i :: ?l)) with (i :: visited l). rewrite visited_app, Hk. cbn [flat_map]. destruct k as [i ks]. cbn [root kids_of ids app].
  f_equal. f_equal. destruct l as [|k2 l]; [done|]. rewrite visited_app, IH. by destruct (leaf s false (Tree i ks)).
Qed.

Definition has_url (P : string -> bool) (i : Z) : bool := match s !! i with Some e => P (mURL e) | None => false end.
Lemma search_loop_walk P fuel : forall n it acts, (n <= fuel)%nat -> walk s n it = Some acts ->
  Forall (fun i => is_Some (s !! i)) (visited acts) -> search_loop fuel P s it = Some (List.find (has_url P) (visited acts)).
Proof.
  induction fuel as [|fuel IH]; intros n it acts Hn Hw Hd; [by destruct n; [|lia]|]. destruct n as [|n]; [done|].
  cbn [walk search_loop] in *. destruct (Advance s it) as [[[more it1] ev]|]; [|done]. cbn [mbind option_bind] in *.
  destruct more; [|injection Hw as <-; by rewrite visited_levels].
  destruct (mEntry it1) as [i|]; [|injection Hw as <-; by rewrite visited_levels].
  destruct (walk s n it1) as [l|] eqn:Ew; [|done]. injection Hw as <-. rewrite visited_app, visited_levels in *.
  change (visited (Visit i :: l)) with (i :: visited l) in *. cbn [app List.find] in *. inversion Hd as [|x y [e He] Hd' E1]. subst x y.
  rewrite He. cbn [mbind option_bind]. unfold has_url at 1. rewrite He. destruct (P (mURL e)); [done|]. by apply (IH n); [lia| |].
Qed.

(** The entries below an entry, in the order of the contents. *)
Context (n : Z) (Hok : contents_ok s n).
Definition entries_below (id : Z) : list Z := ids_of (kids_of (tree_of (Z.to_nat (n + 1)) s id)).
Lemma search_below_spec P id e : s !! id = Some e -> search_below P s id = Some (List.find (has_url P) (entries_below id)).
Proof.
  intros He. assert (Hr := ok_range _ _ Hok _ _ He). set (t := tree_of (Z.to_nat (n + 1)) s id).
  assert (Hrep : rep s (mParent e) t) by (apply (rep_tree_of s n Hok); [done|unfold top_id in *; lia]).
  assert (Hnd : NoDup (ids t)) by (by apply (NoDup_tree_of s n Hok) with e).
  assert (Hroot : root t = id) by apply root_tree_of.
  assert (Hsz := ids_size s _ _ Hrep Hnd). assert (Hvis := visits_below s false t true).
  assert (Hlen : (length (ids_of (kids_of t)) < length (ids t))%nat) by (destruct t; cbn; lia).
  unfold search_below, entries_below. fold t. rewrite <- (visited_below t true).
  assert (E : walk s (enough s) (Reset id (Iterator false top_id None [])) = Some (below s false true t)).
  { replace (enough s) with (S (visits (below s false true t) + (S (size s) - visits (below s false true t))))%nat by (unfold enough; lia).
    rewrite <- Hroot. by apply walk_scope with (mParent e). }
  apply search_loop_walk with (enough s); [done|exact E|]. rewrite visited_below.
  assert (H := ids_in_store s _ _ Hrep). destruct t. cbn in *. by inversion H.
Qed.

(** The entry of a page: the first below the book with its file and anchor, else the first
    with its file, else the book itself. *)
Definition target (id f : Z) (anchor : string) (be : entry) : option Z :=
  match (if 0 <? slen anchor then List.find (has_url (fun u => String.eqb u (Z_to_string f +++ anchor))) (entries_below id) else None) with
  | Some i => Some i
  | None =>
      match List.find (has_url (fun u => String.eqb (without_anchor u) (Z_to_string f))) (entries_below id) with
      | Some i => Some i
      | None => if mbShow be && String.eqb (Z_to_string f) (mURL be) then Some id else None
      end
  end.
Lemma matched_entry_spec id f anchor be : s !! id = Some be -> matched_entry s id f anchor = Some (target id f anchor be).
Proof.
  intros He. unfold matched_entry, target. rewrite He. cbn [mbind option_bind]. rewrite !(search_below_spec _ _ _ He).
  destruct (0 <? slen anchor); [|cbn [mbind option_bind]; by destruct (List.find _ _)].
  cbn [mbind option_bind]. destruct (List.find (has_url (fun u => String.eqb u _)) _); [done|]. cbn [mbind option_bind]. by destruct (List.find _ _).
Qed.
Lemma entries_below_found id e i : s !! id = Some e -> i ∈ entries_below id -> is_Some (s !! i).
Proof.
  intros He Hi. assert (Hr := ok_range _ _ Hok _ _ He).
  assert (Hrep : rep s (mParent e) (tree_of (Z.to_nat (n + 1)) s id)) by (apply (rep_tree_of s n Hok); [done|unfold top_id in *; lia]).
  assert (H := ids_in_store s _ _ Hrep). unfold entries_below in Hi. destruct (tree_of _ s id). cbn in *. inversion H as [|? ? ? Hf].
  rewrite Forall_forall in Hf. by apply Hf.
Qed.
Lemma target_found id f anchor be i : s !! id = Some be -> target id f anchor be = Some i -> is_Some (s !! i).
Proof.
  intros He. unfold target. intros E.
  assert (Hf : forall P j, List.find (has_url P) (entries_below id) = Some j -> is_Some (s !! j)).
  { intros P j Hj. apply find_some in Hj as [Hj _]. apply list_elem_of_In in Hj. by eapply entries_below_found. }
  destruct (if 0 <? slen anchor then _ else None) as [j|] eqn:E1.
  - injection E as ->. case_if; [by eapply Hf|done].
  - clear E1. destruct (List.find _ _) as [j|] eqn:E1; [injection E as ->; by eapply Hf|]. case_if; [injection E as <-; by eexists|done].
Qed.
End search.

(** The entry of a book is the last one with its number. *)
Definition book_found (o : outline) (b : Z) : option Z :=
  last (List.filter (fun i => match mEntryHash o !! i with Some e => bool_decide (mBookIndex e = Some b) | None => false end) (mBookEntryArray o)).
Lemma book_found_ok o b id : outline_ok o -> book_found o b = Some id -> id <> top_id /\ is_Some (mEntryHash o !! id).
Proof.
  intros Ho E. apply (oo_books _ Ho). apply last_Some_elem_of in E. apply list_elem_of_In, filter_In in E as [E _]. by apply list_elem_of_In.
Qed.
Lemma book_entry_spec s b l : (forall i, i ∈ l -> is_Some (s !! i)) -> forall found,
  book_entry l b s found = Some (match last (List.filter (fun i => match s !! i with Some e => bool_decide (mBookIndex e = Some b) | None => false end) l) with
                                 | Some i => Some i | None => found end).
Proof.
  induction l as [|i l IH]; intros Hl found; [done|]. cbn [book_entry List.filter].
  destruct (Hl i) as [e He]; [set_solver|]. rewrite He. cbn [mbind option_bind]. rewrite IH by (intros j Hj; apply Hl; set_solver).
  destruct (bool_decide (mBookIndex e = Some b)); [|done]. rewrite last_cons. by destruct (last _).
Qed.

(** ** Every entry can be drawn *)
Section shown.
Context (v : viewer).
Lemma GetEntryHTML_total s n i e : contents_ok s n -> s !! i = Some e -> is_Some (GetEntryHTML v s i e).
Proof.
  intros Hok He. assert (H : is_Some (position_text v s i e)).
  { unfold position_text. destruct (mParent e) as [p|] eqn:Ep; [|by eexists]. destruct (decide (i = top_id)) as [->|Hne].
    - destruct (ok_top _ _ Hok) as (te & Hte & Htp). congruence.
    - destruct (ok_parent _ _ Hok i e He Hne) as (q & pe & kids & Eq & _ & Hpe & Hk & _). assert (q = p) as -> by congruence.
      rewrite Hpe. cbn [mbind option_bind]. rewrite Hk. by eexists. }
  destruct H as [t Ht]. unfold GetEntryHTML, GetLink, access_title. rewrite Ht. destruct (mbAccessible v); by eexists.
Qed.
Lemma all_drawn_ok o t : outline_ok o -> forall parent, rep (mEntryHash o) parent t -> top_id ∉ ids t ->
  all_drawn v (mEntryHash o) t.
Proof.
  intros Ho. induction t as [id kids IH] using tree_induction. intros parent [(e & He & _) Hr]%rep_node Hn. cbn [root ids] in *.
  apply not_elem_of_cons in Hn as [Hne Hn]. apply all_drawn_node. split.
  - exists e. split; [done|]. eapply GetEntryHTML_total; [by destruct Ho|done].
  - clear He. induction IH as [|k l Hk _ IHl]; [done|]. inv Hr. cbn [flat_map] in Hn. apply not_elem_of_app in Hn as [Hn1 Hn2].
    constructor; [by eapply Hk|by apply IHl].
Qed.
Definition tree_at (o : outline) : tree := contents_tree (mEntryHash o) (mNextEntryID o).
Lemma outline_page o : outline_ok o -> page_ok v o (tree_at o).
Proof.
  intros Ho. destruct (contents_tree_rep _ _ (oo_contents _ Ho)) as (Hr & Hn & Hroot). split; try done; [|by destruct Ho|by destruct Ho].
  unfold tree_at. destruct (contents_tree _ _) as [i kids]. cbn in Hroot. subst i. cbn [kids_of]. apply rep_node in Hr as [_ Hr].
  cbn [ids] in Hn. apply NoDup_cons in Hn as [Hn _]. apply Forall_forall. intros k Hk. rewrite Forall_forall in Hr.
  apply all_drawn_ok with (Some top_id); [done|by apply Hr|]. intros H. apply Hn, elem_flat_map. by exists k.
Qed.

(** ** An entry whose surroundings are open can be seen *)
Lemma shows_more s t t' T : t' = T \/ shows s t' T -> leaf s true t' = false -> t ∈ kids_of t' -> shows s t T.
Proof.
  intros [->|H] Hl Hk; [destruct T; by apply shows_kid|]. induction H as [id kids Hl' Hin|id kids k Hl' Hin _ IH].
  - apply shows_below with t'; [done|done|]. destruct t'. by apply shows_kid.
  - by apply shows_below with k.
Qed.
Lemma seen s n : contents_ok s n -> forall l id e, s !! id = Some e -> chain s (mParent e) l ->
  (forall p, p ∈ l -> exists pe, s !! p = Some pe /\ mbExpanded pe = true) ->
  exists t, root t = id /\ rep s (mParent e) t /\ (t = contents_tree s n \/ shows s t (contents_tree s n)).
Proof.
  intros Hok. destruct (contents_tree_rep s n Hok) as (Hr & Hn & Hroot). induction l as [|p l IH]; intros id e He Hl Hx.
  - exists (contents_tree s n). assert (Ep : mParent e = None) by (by inversion Hl). rewrite Ep. split; [|by split; [|left]].
    rewrite Hroot. destruct (decide (id = top_id)) as [->|Hne]; [done|]. destruct (ok_parent _ _ Hok id e He Hne) as (q & _ & _ & Eq & _). congruence.
  - inversion Hl as [|q pe l' Hpe Hl' E1 E2]. subst q l'. symmetry in E1.
    destruct (IH p pe Hpe Hl') as (tp & Hrp & Hrep & Hin); [intros q Hq; apply Hx; set_solver|].
    destruct (decide (id = top_id)) as [->|Hne]; [destruct (ok_top _ _ Hok) as (te & Hte & Htp); congruence|].
    destruct (ok_parent _ _ Hok id e He Hne) as (q & pe' & kids & Eq & _ & Hpe' & Hk & Hid). assert (q = p) as -> by congruence.
    rewrite Hpe in Hpe'. injection Hpe' as <-. destruct tp as [i ks]. cbn in Hrp. subst i. apply rep_node in Hrep as [(pe2 & Hpe2 & _ & Hk2) Hks].
    cbn [root kids_of] in *. rewrite Hpe in Hpe2. injection Hpe2 as <-. assert (kids = map root ks) as -> by (destruct ks; congruence).
    apply list_elem_of_fmap in Hid as (t & -> & Ht). exists t. split; [done|]. rewrite ?E1. rewrite Forall_forall in Hks. split; [by apply Hks|]. right.
    apply shows_more with (Tree p ks); [done| |done]. unfold leaf, open. cbn [root kids_of negb orb]. rewrite Hpe.
    destruct (Hx p) as (pe3 & Hpe3 & Hx3); [set_solver|]. rewrite Hpe in Hpe3. injection Hpe3 as <-. rewrite Hx3. destruct ks; [by apply elem_of_nil in Ht|done].
Qed.

(** ** [fRevealEntry] *)
Lemma reveal_ok o id e : outline_ok o -> mEntryHash o !! id = Some e ->
  exists l last s, chain (mEntryHash o) (mParent e) l /\
    reveal id o = Some (last, set_anchor (Some ("t" +++ Z_to_string id)) (set_store s o)) /\
    opened (mEntryHash o) l s /\
    (forall x, last = Some x -> x <> top_id /\ is_Some (s !! x)) /\ (last = None -> s = mEntryHash o) /\
    outline_ok (set_anchor (Some ("t" +++ Z_to_string id)) (set_store s o)).
Proof.
  intros Ho He. destruct (chain_ex _ _ (oo_contents _ Ho) id e He) as (l' & Hl' & Hn' & _).
  inversion Hl' as [|q x l Hx Hl E1 E2]. subst q l'. rewrite He in Hx. injection Hx as <-. apply NoDup_cons in Hn' as [_ Hn].
  assert (Hsz := chain_size _ _ (oo_contents _ Ho) _ _ Hl).
  destruct (open_parents_spec (enough (mEntryHash o)) (mParent e) l None (mEntryHash o) Hl Hn) as (last & s & E & Hop & Hlast & Hnone); [unfold enough; lia|].
  exists l, last, s. unfold reveal. rewrite He. cbn [mbind option_bind]. rewrite E. split_and!; try done.
  - intros x Hx. destruct (Hlast x Hx) as [?|(Hin & y & Hy & Hex)]; [done|]. split.
    + intros ->. destruct (oo_top _ Ho) as (te & Hte & Htx). congruence.
    + rewrite (Hop x), Hy. by case_decide; eexists.
  - apply ok_anchor, ok_set_store; [done|by eapply opened_links|]. intros te Hte Hx. rewrite (Hop top_id), Hte. case_decide; by eexists.
Qed.
Lemma update_ok o id : outline_ok o -> id <> top_id -> is_Some (mEntryHash o !! id) ->
  exists it b ef, UpdateEntry v id o = Some (set_page it b o, ef) /\ outline_ok (set_page it b o).
Proof.
  intros Ho Hne [e He]. assert (Hc := oo_contents _ Ho). assert (Hr := ok_range _ _ Hc _ _ He).
  enough (H : exists it b ef, UpdateEntry v id o = Some (set_page it b o, ef)).
  { destruct H as (it & b & ef & E). exists it, b, ef. split; [done|]. by apply UpdateEntry_ok in E as [? _]. }
  destruct (mImagingObject v) as [|useList] eqn:Him.
  - unfold UpdateEntry. rewrite Him. exists (mIterator o), (mHTMLSegment o). destruct o. by eexists.
  - set (t := tree_of (Z.to_nat (mNextEntryID o + 1)) (mEntryHash o) id).
    assert (Hrep : rep (mEntryHash o) (mParent e) t) by (apply (rep_tree_of _ _ Hc); [done|unfold top_id in *; lia]).
    assert (Hnd : NoDup (ids t)) by (by apply (NoDup_tree_of _ _ Hc) with e).
    assert (Hroot : root t = id) by apply root_tree_of.
    assert (Ht : top_id ∉ ids t) by (intros Hin; destruct (ids_parent _ _ Hc _ _ _ He _ Hin) as [?|[? _]]; [done|lia]).
    destruct (update_text v useList (mParent e) o t Him Hrep Hnd) as (it & b & E); [by eapply all_drawn_ok|by destruct Ho|by destruct Ho|].
    rewrite Hroot in E. eauto.
Qed.
End shown.

(** ** [fSync] *)
Lemma target_not_top s n id f anchor be i : contents_ok s n -> s !! id = Some be -> id <> top_id ->
  target s n id f anchor be = Some i -> i <> top_id.
Proof.
  intros Hok He Hne. assert (Hr := ok_range _ _ Hok _ _ He).
  assert (Hf : forall P j, List.find (has_url s P) (entries_below s n id) = Some j -> j <> top_id).
  { intros P j [Hj _]%find_some ->. apply list_elem_of_In in Hj. unfold entries_below in Hj.
    assert (Hin : top_id ∈ ids (tree_of (Z.to_nat (n + 1)) s id)) by (destruct (tree_of _ s id); cbn in *; set_solver).
    destruct (ids_parent s n Hok _ id be He _ Hin) as [?|[? _]]; [congruence|lia]. }
  unfold target. destruct (if 0 <? slen anchor then _ else None) as [j|] eqn:E1.
  - intros [= <-]. case_if; [by eapply Hf|done].
  - clear E1. destruct (List.find _ _) as [j|] eqn:E1; [intros [= <-]; by eapply Hf|]. case_if; [by intros [= <-]|done].
Qed.

Section sync.
Context (v : viewer).
(** The entry that [fSync] is to show. *)
Definition sync_target (o : outline) (b f : Z) (anchor : string) : option Z :=
  if f =? -1 then None
  else bid ← book_found o b; be ← mEntryHash o !! bid; target (mEntryHash o) (mNextEntryID o) bid f anchor be.

Lemma RevealEntry_spec o id e visible : outline_ok o -> mEntryHash o !! id = Some e -> id <> top_id ->
  exists l o' ef t, RevealEntry v id visible o = Some (o', ef) /\ chain (mEntryHash o) (mParent e) l /\
    opened (mEntryHash o) l (mEntryHash o') /\ outline_ok o' /\ mPanelAnchor o' = Some ("t" +++ Z_to_string id) /\
    root t = id /\ shows (mEntryHash o') t (tree_at o') /\
    (if visible then last ef = Some JumpToAnchor \/ ef = [ReloadView] else ef = []).
Proof.
  intros Ho He Hid. destruct (reveal_ok o id e Ho He) as (l & lst & s & Hl & Er & Hop & Hlast & _ & Ho1).
  set (o1 := set_anchor _ _) in *.
  assert (Hsee : exists t, root t = id /\ shows s t (tree_at o1)).
  { assert (Hs1 : contents_ok s (mNextEntryID o)) by exact (oo_contents _ Ho1).
    assert (He1 : exists e1, s !! id = Some e1 /\ mParent e1 = mParent e) by (rewrite (Hop id), He; case_decide; by eexists).
    destruct He1 as (e1 & He1 & Hp1). destruct (seen s _ Hs1 l id e1 He1) as (t & Hroot & _ & Ht).
    - rewrite Hp1. apply chain_same with (mEntryHash o); [by eapply opened_links|done].
    - intros p Hp. destruct (chain_found _ _ _ Hl p Hp) as [pe Hpe]. exists (set_expanded true pe).
      by rewrite (Hop p), decide_True, Hpe by done.
    - exists t. split; [done|]. destruct Ht as [->|Ht]; [|done]. destruct (contents_tree_rep _ _ Hs1) as (_ & _ & Hroot'). congruence. }
  destruct Hsee as (t & Hroot & Ht).
  unfold RevealEntry, Fast_RevealEntry, Safe_RevealEntry. rewrite Er. cbn [mbind option_bind].
  destruct (mImagingObject v) eqn:Him; destruct visible.
  - destruct lst; [unfold UpdateEntry; rewrite Him|]; exists l, o1; eexists; exists t; split_and!; try done; [by right|by left].
  - exists l, o1, [], t. by split_and!.
  - destruct lst as [x|].
    + destruct (Hlast x eq_refl) as [Hx1 Hx2]. destruct (update_ok v o1 x Ho1 Hx1 Hx2) as (it & b & ef & E & Ho2).
      rewrite E. cbn [mbind option_bind]. exists l, (set_page it b o1), (ef ++ [JumpToAnchor]), t. split_and!; try done. left. by rewrite last_snoc.
    + exists l, o1, [JumpToAnchor], t. split_and!; try done. by left.
  - exists l, o1, [], t. by split_and!.
Qed.

(** C16. Once the panel is initialised, [fSync] finds the entry of the page: below the book
    the first entry with its file and anchor, else the first with its file, else the book
    when it is not hidden.  It opens exactly the entries around it, so that it can be
    seen, and the panel goes to it; when there is none the contents stay as they are and
    a message is shown if one was asked for.  Books may be hidden. *)
Theorem sync_shows o b f anchor visible report : outline_ok o -> mbPanelInitialized o = true ->
  exists o' ef, Sync v b f anchor visible report o = Some (o', ef) /\
    match sync_target o b f anchor with
    | None => o' = o /\ ef = (if report then [AlertLater (mTOCFileNotFoundMessage v)] else [])
    | Some id =>
        exists e l t, mEntryHash o !! id = Some e /\ chain (mEntryHash o) (mParent e) l /\
          opened (mEntryHash o) l (mEntryHash o') /\ outline_ok o' /\ mPanelAnchor o' = Some ("t" +++ Z_to_string id) /\
          root t = id /\ shows (mEntryHash o') t (tree_at o') /\
          (if visible then last ef = Some JumpToAnchor \/ ef = [ReloadView] else ef = [])
    end.
Proof.
  intros Ho Hi. unfold Sync. rewrite Hi.
  rewrite (book_entry_spec _ b (mBookEntryArray o)) by (intros i Hi'; by apply (oo_books _ Ho)).
  cbn [mbind option_bind]. fold (book_found o b). unfold sync_target.
  set (m := if f =? -1 then None else _).
  assert (Em : match book_found o b with Some id => if f =? -1 then Some None else matched_entry (mEntryHash o) id f anchor | None => Some None end = Some m).
  { unfold m. destruct (book_found o b) as [id|] eqn:Eb; [|by destruct (f =? -1)]. destruct (f =? -1); [done|]. cbn [mbind option_bind].
    destruct (book_found_ok o b id Ho Eb) as [_ [be Hbe]]. rewrite Hbe. cbn [mbind option_bind].
    apply matched_entry_spec; [by destruct Ho|done]. }
  assert (Hm : forall id, m = Some id -> id <> top_id /\ is_Some (mEntryHash o !! id)).
  { unfold m. intros id. destruct (f =? -1); [done|]. destruct (book_found o b) as [bid|] eqn:Eb; [|done]. cbn [mbind option_bind].
    destruct (book_found_ok o b bid Ho Eb) as [Hne [be Hbe]]. rewrite Hbe. cbn [mbind option_bind]. intros Et. split.
    - eapply target_not_top; [by destruct Ho|done|done|done].
    - eapply target_found; [by destruct Ho|done|done]. }
  clearbody m. destruct (book_found o b) as [bid|]; rewrite ?Em; [|injection Em as <-]; cbn [mbind option_bind].
  - destruct m as [id|]; [|by exists o; eexists; split; [done|]; destruct report].
    destruct (Hm id eq_refl) as [Hne [e He]].
    destruct (RevealEntry_spec o id e visible Ho He Hne) as (l & o' & ef & t & Er & H). rewrite Er. cbn [mbind option_bind].
    exists o', (ef ++ []). rewrite app_nil_r. split; [done|]. exists e, l, t. destruct H as (? & ? & ? & ? & ? & ? & ?). by split_and!.
  - exists o; eexists; split; [done|]; by destruct report.
Qed.

(** ** Drawing an entry again *)
Lemma shows_rep s t t' : shows s t' t -> forall parent, rep s parent t -> exists p, rep s (Some p) t'.
Proof.
  induction 1 as [id kids _ Hin|id kids k _ Hin _ IH]; intros parent [_ Hr]%rep_node; rewrite Forall_forall in Hr; [by exists id; apply Hr|].
  by apply (IH (Some id)), Hr.
Qed.
Lemma shows_NoDup s t t' : shows s t' t -> NoDup (ids t) -> NoDup (ids t') /\ root t ∉ ids t'.
Proof.
  induction 1 as [id kids _ Hin|id kids k _ Hin Hs IH]; intros Hn; destruct (NoDup_kid _ _ _ Hin Hn) as [Hnk Hid]; [done|].
  destruct (IH Hnk) as [H1 H2]. split; [done|]. cbn [root]. intros H. apply Hid. clear -Hs H. induction Hs as [i ks _ Hin|i ks k' _ Hin _ IH]; by eapply ids_kid; eauto.
Qed.
Lemma tree_at_on_entry o f id : (forall e, link_of (f e) = link_of e) -> tree_at (on_entry f id o) = tree_at o.
Proof.
  intros Hf. unfold tree_at, contents_tree. cbn [mNextEntryID on_entry set_store mEntryHash]. generalize (Z.to_nat (mNextEntryID o + 1)), top_id.
  induction n as [|n IH]; intros i; [done|]. cbn [tree_of]. assert (H := same_links_alter f id (mEntryHash o) Hf i).
  destruct (mEntryHash o !! i) as [e|], (alter f id (mEntryHash o) !! i) as [e'|]; try done. injection H as _ Hc. rewrite Hc.
  f_equal. apply map_ext. intros k. apply IH.
Qed.

Lemma size_on_entry o f id : size (mEntryHash (on_entry f id o)) = size (mEntryHash o).
Proof.
  cbn. by rewrite <- !(size_dom (D := gset Z)), dom_alter_L.
Qed.
(** How the item of an entry begins: with the element that its text is written into. *)
Definition item_start (useList : bool) (id : Z) : string :=
  if useList then "<li id=" +++ element_id true id +++ ">" else qq "<div class=`list` id=" +++ element_id false id +++ line ">".
(** What opening or closing an entry does. *)
Lemma toggle_spec useList (opening : bool) o t : mImagingObject v = Fast useList -> outline_ok o -> shows (mEntryHash o) t (tree_at o) ->
  exists o', (if opening then Expand else Collapse) v (root t) o
      = Some (o', [HidePopup; WriteElement (element_id useList (root t)) (display_text v (mEntryHash o') (root t) +++ inside v (mEntryHash o') t)]) /\
    mEntryHash o' = s' (mEntryHash o) t opening /\ outline_ok o' /\ tree_at o' = tree_at o /\
    mbExpanded <$> mEntryHash o' !! root t = Some opening.
Proof.
  intros Him Ho Ht. set (o1 := on_entry (set_expanded opening) (root t) o).
  assert (Hp := outline_page v o Ho). assert (Hn := po_nodup _ _ _ Hp). assert (Hroot := po_root _ _ _ Hp).
  assert (Hne : root t <> top_id) by (rewrite <- Hroot; intros E; by apply (shows_other _ _ _ Ht Hn)).
  assert (Ho1 : outline_ok o1) by (apply ok_on_entry; [done|done|by right]).
  destruct (shows_rep _ _ _ Ht None (po_rep _ _ _ Hp)) as [p Hrep]. destruct (shows_NoDup _ _ _ Ht Hn) as [Hnt Hrt]. rewrite Hroot in Hrt.
  assert (Hrep1 : rep (mEntryHash o1) (Some p) t) by (by apply (rep_kept (mEntryHash o) t opening)).
  assert (Hfound : is_Some (mEntryHash o !! root t)) by (apply rep_links in Hrep; destruct Hrep as (e & He & _); by eexists).
  destruct Hfound as [e He].
  destruct (update_text v useList (Some p) o1 t Him Hrep1 Hnt) as (it & b & Eu); [by eapply all_drawn_ok|by destruct Ho1|by destruct Ho1|].
  exists (set_page it b o1). split_and!; [|done|by apply UpdateEntry_ok in Eu as [? _]| |cbn; by rewrite lookup_alter_eq, He].
  - unfold Expand, Collapse. destruct opening; (destruct (Z.eqb_spec (root t) top_id); [done|]); rewrite He; exact Eu.
  - by apply (tree_at_on_entry o (set_expanded opening)).
Qed.

(** C9. Where the contents are drawn with scripts, opening or closing an entry that can be
    seen writes into the entry's own element exactly what a new page would have there: the
    page that would be written before and the one that would be written after differ only
    inside the item of the entry, but for one [</li>] behind it in the form with lists.
    Other entries may be hidden, as the only book of the repository is; in the form
    without lists the entry has something below it, since others have no element of
    their own; and a page is written whole or in segments of one character or more. *)
Theorem entry_redrawn useList opening fuel o t : mImagingObject v = Fast useList -> outline_ok o ->
  (mMaxHTMLSegmentSize v = -1 \/ 1 <= mMaxHTMLSegmentSize v) -> (enough (mEntryHash o) < fuel)%nat ->
  shows (mEntryHash o) t (tree_at o) -> is_shown (mEntryHash o) (root t) = true -> (useList = false -> kids_of t <> []) ->
  exists o' html before after pre old post post' item_end w w',
    (if opening : bool then Expand else Collapse) v (root t) o = Some (o', [HidePopup; WriteElement (element_id useList (root t)) html]) /\
    mbExpanded <$> mEntryHash o' !! root t = Some opening /\
    write_segments v fuel (snd (StartHTMLSegments o)) = Some (before, w) /\
    write_segments v fuel (snd (StartHTMLSegments o')) = Some (after, w') /\
    join "" before = pre +++ item_start useList (root t) +++ old +++ item_end +++ post /\
    join "" after = pre +++ item_start useList (root t) +++ html +++ item_end +++ post' /\
    item_end = (if useList then line "</li>" else line "</div>") /\
    but_for_li v post post'.
Proof.
  intros Him Ho Hmax Hf Ht Hsh Hkids.
  destruct (toggle_spec useList opening o t Him Ho Ht) as (o' & Eu & Es & Ho' & Etree & Hx).
  assert (Hp := outline_page v o Ho). assert (Hp' := outline_page v o' Ho').
  assert (Hsz : size (mEntryHash o') = size (mEntryHash o)) by (rewrite Es; apply (size_on_entry o)).
  destruct (page_text v fuel o (tree_at o) Hp Hmax Hf) as (before & it1 & b1 & Ew & Ej).
  destruct (page_text v fuel o' _ Hp' Hmax) as (after & it2 & b2 & Ew' & Ej'); [unfold enough in *; by rewrite Hsz|].
  destruct (page_redrawn v (mEntryHash o) t opening (tree_at o) Ht (po_nodup _ _ _ Hp)) as (pre & post & post' & E & E' & Hli).
  assert (Eo : item_open v (mEntryHash o) t = item_start useList (root t)).
  { unfold item_open, item_start. rewrite Hsh, Him. destruct useList; [done|]. by destruct (kids_of t); [destruct Hkids|]. }
  exists o', (display_text v (mEntryHash o') (root t) +++ inside v (mEntryHash o') t), before, after, pre,
    (display_text v (mEntryHash o) (root t) +++ inside v (mEntryHash o) t), post, post', (item_close v (mEntryHash o) t). do 2 eexists.
  split; [exact Eu|]. split; [done|]. split; [exact Ew|]. split; [exact Ew'|].
  split; [rewrite Ej, E; unfold item, own_text; rewrite Hsh, Eo, !sapp_assoc; reflexivity|].
  split. { rewrite Ej', Etree, Es, E'. unfold item, own_text. rewrite shown_kept, Hsh, item_open_kept, item_close_kept, Eo, !sapp_assoc by auto. reflexivity. }
  split; [|exact Hli]. unfold item_close. rewrite Him. destruct useList; [done|]. destruct (kids_of t); [by destruct Hkids|]. by rewrite Hsh.
Qed.
End sync.
