(* ===== verification/HelpContentsReach.v ===== *)
(** * Every state of the table of contents
    The states that setting up, loading, drawing, clicks and [fSync] can reach; an example
    with two books. *)
From S2P Require Import Prelude JsString JsNum JsVal HelpString HelpBooks HelpTree HelpOutline HelpContents HelpContentsPage HelpContentsInv HelpContentsSteps HelpContentsSync.
Open Scope Z_scope.
#[local] Set Warnings "-register-all".

Lemma all_shown_opened o s l a : opened (mEntryHash o) l s -> all_shown o -> all_shown (set_anchor a (set_store s o)).
Proof.
  intros Ho Hs i e He Hi. cbn in He. rewrite (Ho i) in He. case_decide; [|by apply Hs with i].
  destruct (mEntryHash o !! i) as [x|] eqn:E; [|done]. injection He as <-. cbn. by apply Hs with i.
Qed.
Lemma on_entry_shown o id b : all_shown o -> all_shown (on_entry (set_expanded b) id o).
Proof.
  intros Hs i e He Hi. cbn in He. destruct (decide (i = id)) as [->|Hne]; [|rewrite lookup_alter_ne in He by done; by apply Hs with i].
  rewrite lookup_alter_eq in He. destruct (mEntryHash o !! id) as [x|] eqn:E; [|done]. injection He as <-. cbn. by apply Hs with id.
Qed.

Section shown_books.
Context (books : book_list) (v : viewer).

(** Every book of the groups is to be shown. *)
Fixpoint shown_node (n : node) : bool :=
  match n with
  | Group _ _ _ _ children => forallb shown_node children
  | Directory _ show _ _ _ => show
  end.

Lemma shown_on_entry o f id : (forall e, mbShow (f e) = mbShow e \/ mbShow (f e) = true) -> all_shown o -> all_shown (on_entry f id o).
Proof.
  intros Hf Hs i e He Hi. cbn in He. destruct (decide (i = id)) as [->|Hne]; [|rewrite lookup_alter_ne in He by done; by apply Hs with i].
  rewrite lookup_alter_eq in He. destruct (mEntryHash o !! id) as [x|] eqn:E; [|done]. injection He as <-.
  destruct (Hf x) as [->|]; [by apply Hs with id|done].
Qed.
Lemma shown_books o l i r : all_shown o -> all_shown (set_books l i r o).
Proof. done. Qed.
Lemma shown_new p text url icon openicon o id o' : all_shown o -> NewChild v p text url icon openicon o = Some (id, o') -> all_shown o'.
Proof.
  intros Hs H. unfold NewChild in H. destruct (mEntryHash o !! p) as [pe|] eqn:Ep; [|done]. cbn [mbind option_bind] in H. injection H as <- <-.
  intros i e He Hi. cbn in He. destruct (decide (i = p)) as [->|Hip].
  - rewrite lookup_insert_eq in He. injection He as <-. cbn. by apply Hs with p.
  - rewrite lookup_insert_ne in He by done. destruct (decide (i = mNextEntryID o)) as [->|Hin].
    + rewrite lookup_insert_eq in He. injection He as <-. by case_if.
    + rewrite lookup_insert_ne in He by done. by apply Hs with i.
Qed.
Lemma shown_toc l : forall p o o', all_shown o -> AddTOCEntries v p l o = Some o' -> all_shown o'.
Proof.
  enough (H : Forall (fun t => forall p o o', all_shown o -> add_toc v p t o = Some o' -> all_shown o') l).
  { induction H as [|t l Ht _ IH]; intros p o o' Ho E; cbn [AddTOCEntries] in E; [by injection E as <-|].
    destruct (add_toc v p t o) as [o1|] eqn:E1; [|done]. apply Ht in E1; [|done]. by apply IH in E. }
  apply Forall_forall. intros t _. induction t as [t u i oi inside IH] using toc_induction. intros p o o' Ho E.
  rewrite add_toc_unfold in E. destruct (NewChild v p (Some t) u i oi o) as [[id o1]|] eqn:E1; [|done]. cbn [mbind option_bind] in E.
  apply shown_new in E1; [|done]. clear Ho o. revert o1 E1 E. induction IH as [|t' k Ht _ IHl]; intros o1 Ho1 E; cbn [AddTOCEntries] in E.
  - by injection E as <-.
  - destruct (add_toc v id t' o1) as [o2|] eqn:E2; [|done]. apply Ht in E2; [|done]. by apply IHl in E.
Qed.
Lemma shown_group n : forall p o o', shown_node n = true -> all_shown o -> group_entry books v p n o = Some o' -> all_shown o'.
Proof.
  induction n as [d show expand i oi|t expand i oi children IH] using node_induction; intros p o o' Hn Ho E.
  - cbn [group_entry shown_node] in *. subst show. destruct (GetBookTitle books _) as [title|]; [|done]. cbn [mbind option_bind] in E.
    destruct (NewChild v p title _ _ _ o) as [[id o1]|] eqn:E1; [|done]. cbn [mbind option_bind] in E. apply shown_new in E1; [|done].
    destruct (mEntryHash o1 !! p) as [pe|]; [|done]. cbn [mbind option_bind] in E. injection E as <-.
    apply shown_books, shown_on_entry; [by right|done].
  - cbn [group_entry shown_node] in *. destruct (NewChild v p (Some t) _ _ _ o) as [[id o1]|] eqn:E1; [|done]. cbn [mbind option_bind] in E.
    apply shown_new in E1; [|done]. assert (Ho1 : all_shown (on_entry (set_expanded expand) id o1)) by (apply shown_on_entry; [by left|done]).
    clear E1. revert E Ho1. generalize (on_entry (set_expanded expand) id o1). clear o1.
    induction IH as [|n l Hx _ IHl]; intros o1 E Ho1; [by injection E as <-|]. cbn [forallb] in Hn. bool_to_prop.
    destruct (group_entry books v id n o1) as [o2|] eqn:E2; [|done]. apply Hx in E2; [|done|done]. by apply IHl in E.
Qed.
Lemma shown_init l h o' : forallb shown_node l = true -> InitBodyHTML books v l new_outline = Some (h, o') -> all_shown o'.
Proof.
  unfold InitBodyHTML. intros Hl E. destruct (InitGroupings books v top_id l new_outline) as [o1|] eqn:E1; [|done]. injection E as _ <-.
  apply shown_books. assert (H0 : all_shown new_outline) by (intros i e He Hi; cbn in He; apply lookup_singleton_Some in He as [<- _]; done).
  revert H0 E1. generalize new_outline. induction l as [|n l IH]; intros o H0 E; cbn [InitGroupings forallb] in *; [by injection E as <-|]. bool_to_prop.
  destruct (group_entry books v top_id n o) as [o2|] eqn:E2; [|done]. apply shown_group in E2; [|done|done]. by apply IH in E.
Qed.
Lemma shown_load l o o' b : all_shown o -> InitLoadBookTOC books v l o = Some (o', b) -> all_shown o'.
Proof.
  unfold InitLoadBookTOC. intros Ho E. destruct (at_index _ _) as [bid|]; [|done]. cbn [mbind option_bind] in E.
  destruct (AddTOCEntries v bid l (on_entry (set_book_index (mInitIndex o)) bid o)) as [o1|] eqn:E1; [|done].
  apply shown_toc in E1; [|apply shown_on_entry; [by left|done]].
  cbn [mbind option_bind] in E. destruct (mEntryHash o1 !! bid) as [e|]; [|done]. cbn [mbind option_bind] in E.
  assert (Ho2 : forall o2, (if mbShow e then bk ← GetBook books (mInitIndex o1);
      Some (if 0 <? fEntries (mFiles bk) then on_entry (set_url "0") bid o1 else o1) else Some o1) = Some o2 -> all_shown o2).
  { intros o2. destruct (mbShow e); [|by intros [= <-]]. destruct (GetBook _ _); [|done]. cbn. case_if; intros [= <-]; [|done].
    apply shown_on_entry; [by left|done]. }
  destruct (if mbShow e then _ else _) as [o2|]; [|done]. specialize (Ho2 o2 eq_refl). cbn [mbind option_bind] in E.
  by case_if; injection E as <- <-.
Qed.
Lemma shown_expand id o o' ef : outline_ok o -> all_shown o -> Expand v id o = Some (o', ef) \/ Collapse v id o = Some (o', ef) -> all_shown o'.
Proof.
  unfold Expand, Collapse. intros Ho Hs H. destruct (Z.eqb_spec id top_id); [by destruct H|].
  destruct (mEntryHash o !! id) as [e|]; [|by destruct H]. cbn [mbind option_bind] in H.
  destruct H as [E|E]; apply UpdateEntry_ok in E as [_ (it & b & ->)]; try (apply ok_on_entry; [done|done|by right]);
    apply (shown_on_entry o (set_expanded _) id); [by left|done|by left|done].
Qed.
End shown_books.

(** ** The steps *)
Section reach.
Context (books : book_list) (v : viewer).
Inductive toc_step (o o' : outline) : Prop :=
| step_load l b : InitLoadBookTOC books v l o = Some (o', b) -> toc_step o o'
| step_start : o' = snd (StartHTMLSegments o) -> toc_step o o'
| step_advance r : AdvanceHTMLSegment v o = Some (r, o') -> toc_step o o'
| step_get : o' = snd (GetHTMLSegment o) -> toc_step o o'
| step_expand id ef : ClickedExpand v id o = Some (o', ef) -> toc_step o o'
| step_collapse id ef : ClickedCollapse v id o = Some (o', ef) -> toc_step o o'
| step_display id ef : DisplayDoc books v id o = Some (o', ef) -> toc_step o o'
| step_sync b f anchor visible report ef : Sync v b f anchor visible report o = Some (o', ef) -> toc_step o o'.

Lemma Sync_ok o b f anchor visible report o' ef : outline_ok o -> Sync v b f anchor visible report o = Some (o', ef) ->
  outline_ok o' /\ (all_shown o -> all_shown o').
Proof.
  unfold Sync. intros Ho E. destruct (mbPanelInitialized o); [|injection E as <- _; by split; [apply ok_sync|]].
  destruct (book_entry _ _ _ _) as [bk|]; [|done]. cbn [mbind option_bind] in E.
  destruct (match bk with Some id => _ | None => _ end) as [m|]; [|done]. cbn [mbind option_bind] in E.
  destruct m as [id|]; [|cbn [mbind option_bind] in E; by injection E as <- _].
  destruct (RevealEntry v id visible o) as [[o1 ef1]|] eqn:Er; [|done]. cbn [mbind option_bind] in E. injection E as <- _.
  assert (H : exists e, mEntryHash o !! id = Some e).
  { revert Er. unfold RevealEntry, Fast_RevealEntry, Safe_RevealEntry, reveal. destruct (mEntryHash o !! id); [by eexists|by destruct (mImagingObject v)]. }
  destruct H as [e He]. destruct (reveal_ok o id e Ho He) as (l & lst & s & _ & E & Hop & _ & _ & Ho1). clear He.
  unfold RevealEntry, Fast_RevealEntry, Safe_RevealEntry in Er. rewrite E in Er. cbn [mbind option_bind] in Er.
  assert (Hs1 := fun H => all_shown_opened o s l (Some ("t" +++ Z_to_string id)) Hop H). set (o2 := set_anchor _ _) in *. clearbody o2.
  assert (Hup : forall x ef o3, UpdateEntry v x o2 = Some (o3, ef) -> outline_ok o3 /\ (all_shown o -> all_shown o3)).
  { intros x ef2 o3 Hu. apply UpdateEntry_ok in Hu as [? (it & b' & ->)]; [|done]. split; [done|]. exact Hs1. }
  destruct (mImagingObject v), visible; try (injection Er as <- _; done).
  - destruct lst; [by apply Hup in Er|by injection Er as <- _].
  - destruct lst as [x|]; [|by injection Er as <- _]. destruct (UpdateEntry v x o2) as [[o3 ef2]|] eqn:Eu; [|done]. injection Er as <- _. by apply Hup in Eu.
Qed.
Lemma toc_step_ok o o' : outline_ok o -> toc_step o o' -> outline_ok o' /\ (all_shown o -> all_shown o').
Proof.
  intros Ho [l b E| -> |r E| -> |id ef E|id ef E|id ef E|b f anchor visible report ef E].
  - split; [by apply InitLoadBookTOC_ok in E|intros Hs; by apply shown_load in E].
  - split; [by apply ok_reset|done].
  - apply Imaging_Advance_ok in E as (it & b & -> & H); [|done]. by split.
  - unfold GetHTMLSegment. assert (H := ok_get _ Ho). by destruct (fGetBuffer (mHTMLSegment o)).
  - unfold ClickedExpand in E. destruct (Expand v id o) as [[o1 ef1]|] eqn:E1; [|done]. injection E as <- _.
    split; [by apply Expand_ok in E1|intros Hs; eapply shown_expand; eauto].
  - unfold ClickedCollapse in E. destruct (Collapse v id o) as [[o1 ef1]|] eqn:E1; [|done]. injection E as <- _.
    split; [by apply Collapse_ok in E1|intros Hs; eapply shown_expand; eauto].
  - split; [by apply DisplayDoc_ok in E|]. intros Hs. unfold DisplayDoc in E. destruct (id =? top_id); [done|].
    destruct (mEntryHash o !! id) as [e|]; [|done]. cbn [mbind option_bind] in E.
    destruct (book_above _ _ _) as [bk|]; [|done]. cbn [mbind option_bind] in E.
    destruct (match bk with Some b => _ | None => _ end) as [url|]; [|done]. cbn [mbind option_bind] in E.
    destruct (mbExpanded e); [destruct (mbAccessible v)|destruct (mChildren e)]; try by injection E as <- _.
    + destruct (Collapse v id o) as [[o1 ef1]|] eqn:E1; [|done]. injection E as <- _. eapply shown_expand; eauto.
    + destruct (Expand v id o) as [[o1 ef1]|] eqn:E1; [|done]. injection E as <- _. eapply shown_expand; eauto.
  - by apply Sync_ok in E.
Qed.

(** C23. After the groups and books were set up, and whatever contents were loaded, entries
    opened and closed, pages drawn and synchronised in any order, the entries form one tree:
    it holds each entry once, parents and children are linked both ways, the top entry is
    open, and entries are hidden only when a book is. *)
Theorem contents_reachable groups html o0 o :
  InitBodyHTML books v groups new_outline = Some (html, o0) -> rtc toc_step o0 o ->
  outline_ok o /\ root (tree_at o) = top_id /\ rep (mEntryHash o) None (tree_at o) /\ NoDup (ids (tree_at o)) /\
  (forall i, is_Some (mEntryHash o !! i) <-> i ∈ ids (tree_at o)) /\
  (forallb shown_node groups = true -> all_shown o).
Proof.
  intros E0 Hr. assert (H : outline_ok o /\ (forallb shown_node groups = true -> all_shown o)).
  { assert (H0 : outline_ok o0 /\ (forallb shown_node groups = true -> all_shown o0)).
    { split; [eapply InitBodyHTML_ok; [apply new_outline_ok|done]|]. intros Hg. by eapply shown_init. }
    clear E0. induction Hr as [|o1 o2 o3 Hs _ IH]; [done|]. apply IH. destruct H0 as [H1 H2].
    destruct (toc_step_ok _ _ H1 Hs) as [H3 H4]. split; [done|]. auto. }
  destruct H as [Ho Hs]. destruct (contents_tree_rep _ _ (oo_contents _ Ho)) as (Hrep & Hn & Hroot).
  split; [done|]. split; [done|]. split; [done|]. split; [done|]. split; [|done]. intros i. split.
  - intros [e He]. apply (all_in_tree _ _ (oo_contents _ Ho) i e He).
  - intros Hi. assert (H := ids_in_store _ _ _ Hrep). rewrite Forall_forall in H. by apply H.
Qed.
End reach.

(** ** Two books *)
Definition example_book (dir title : string) (files : list (string * string)) : book := book_init title "" files (new_book dir).
Definition example_books : book_list :=
  BookList 2 [example_book "guide" "Guide" [("Home", "home.html"); ("Reports", "reports.html")];
              example_book "manual" "Manual" [("Search", "search.html")]] ∅.
Definition example_viewer (browser platform : Z) : viewer :=
  Viewer browser platform false false "http://host/" "http://host/" "" 200 true 17 "#ccccff" "#000000" "font-family: Verdana"
    "Loading" "expanded" "collapsed" "topic" "%s of %s" "not found".
Definition example_groups : list node :=
  [Group "Manuals" false None None [Directory "guide" true false None None]; Directory "manual" true false None None].
Definition page_entry (title url : string) (inside : list toc) : toc := Toc title (JStr url) Undefined Undefined inside.
Definition example_toc (b : Z) : list toc :=
  if b =? 0 then [page_entry "Home" "0" []; page_entry "Reports" "1" [page_entry "Top hosts" "1#hosts" []]]
  else [page_entry "Search" "0" []].
Abbreviation mozilla := (example_viewer 4 1).

(** All contents loaded. *)
Definition example_loads (o : outline) : option outline :=
  '(o, _) ← InitLoadBookTOC example_books mozilla (example_toc 0) o;
  '(o, _) ← InitLoadBookTOC example_books mozilla (example_toc 1) o;
  Some o.
Definition example_start : outline := default new_outline (snd <$> InitBodyHTML example_books mozilla example_groups new_outline).
Definition example_contents : outline := default new_outline (example_loads example_start).

Lemma example_steps : rtc (toc_step example_books mozilla) example_start example_contents.
Proof.
  unfold example_contents, example_loads.
  destruct (InitLoadBookTOC example_books mozilla (example_toc 0) example_start) as [[o1 b1]|] eqn:E1; [|vm_compute in E1; discriminate].
  cbn [mbind option_bind]. destruct (InitLoadBookTOC example_books mozilla (example_toc 1) o1) as [[o2 b2]|] eqn:E2.
  - eapply rtc_l; [by eapply step_load|]. eapply rtc_l; [by eapply step_load|]. constructor.
  - exfalso. vm_compute in E1. injection E1 as <- _. vm_compute in E2. discriminate.
Qed.
Lemma example_ok : outline_ok example_contents /\ all_shown example_contents.
Proof.
  assert (H0 : outline_ok example_start /\ all_shown example_start).
  { unfold example_start. destruct (InitBodyHTML example_books mozilla example_groups new_outline) as [[h o]|] eqn:E; [|vm_compute in E; discriminate].
    split; [eapply InitBodyHTML_ok; [apply new_outline_ok|exact E]|eapply shown_init; [|exact E]; done]. }
  assert (H := example_steps). induction H as [|o1 o2 o3 Hs _ IH]; [done|]. apply IH. destruct H0 as [H1 H2].
  destruct (toc_step_ok _ _ _ _ H1 Hs). auto.
Qed.
Definition example_group : tree := Tree 0 [Tree 1 [Tree 3 []; Tree 4 [Tree 5 []]]].
Lemma example_tree : tree_at example_contents = Tree (-1) [example_group; Tree 2 [Tree 6 []]].
Proof. vm_compute. reflexivity. Qed.
Lemma example_shows : shows (mEntryHash example_contents) example_group (tree_at example_contents).
Proof. rewrite example_tree. apply shows_kid; [vm_compute; reflexivity|]. apply list_elem_of_here. Qed.

Example contents_reachable_witness :
  outline_ok example_contents /\ NoDup (ids (tree_at example_contents)) /\ all_shown example_contents.
Proof.
  destruct (InitBodyHTML example_books mozilla example_groups new_outline) as [[h o]|] eqn:E; [|vm_compute in E; discriminate].
  assert (Eo : o = example_start) by (unfold example_start; rewrite E; reflexivity). subst o.
  destruct (contents_reachable example_books mozilla example_groups h example_start example_contents E example_steps) as (H1 & _ & _ & H2 & _ & H3).
  split; [exact H1|]. split; [exact H2|]. apply H3. reflexivity.
Defined.

(** ** The book as it is shipped
    One book, which is hidden ([ShowBooks] of books.js says no), and the first of its
    contents. *)
Definition shipped_books : book_list :=
  BookList 1 [example_book "." "Online help"
    [("Home", "home.html"); ("Using Online Help", "usinghelp.html"); ("Accessing Cyberoam iView", "accessiview.html");
     ("Dashboards", "dashboard.html"); ("Main Dashboard", "maindashboard.html"); ("UTM Main Dashboard", "Basics.02.05.html")]] ∅.
Definition shipped_groups : list node := [Directory "." false true None None].
Definition shipped_toc : list toc :=
  [page_entry "Home" "0" [page_entry "Using Online Help" "1" []; page_entry "Accessing Cyberoam iView" "2" []];
   page_entry "Dashboards" "3" [page_entry "Main Dashboard" "4" [page_entry "UTM Main Dashboard" "5"
     [page_entry "Allowed Traffic Overview widget" "" [page_entry "Allowed Traffic Overview widget" "5#9000085" []]]]]].
Definition shipped_start : outline := default new_outline (snd <$> InitBodyHTML shipped_books mozilla shipped_groups new_outline).
Definition shipped_contents : outline := default new_outline (fst <$> InitLoadBookTOC shipped_books mozilla shipped_toc shipped_start).
Lemma shipped_ok : outline_ok shipped_contents.
Proof.
  assert (H0 : outline_ok shipped_start).
  { unfold shipped_start. destruct (InitBodyHTML shipped_books mozilla shipped_groups new_outline) as [[h o]|] eqn:E; [|vm_compute in E; discriminate].
    eapply InitBodyHTML_ok; [apply new_outline_ok|exact E]. }
  unfold shipped_contents. destruct (InitLoadBookTOC shipped_books mozilla shipped_toc shipped_start) as [[o1 b1]|] eqn:E1; [|vm_compute in E1; discriminate].
  apply (toc_step_ok shipped_books mozilla shipped_start o1 H0). by eapply step_load.
Qed.
Definition home_tree : tree := Tree 1 [Tree 2 []; Tree 3 []].
Lemma shipped_tree : tree_at shipped_contents = Tree (-1) [Tree 0 [home_tree; Tree 4 [Tree 5 [Tree 6 [Tree 7 [Tree 8 []]]]]]].
Proof. vm_compute. reflexivity. Qed.
Lemma shipped_hidden : is_shown (mEntryHash shipped_contents) 0 = false.
Proof. vm_compute. reflexivity. Qed.
Lemma home_shows : shows (mEntryHash shipped_contents) home_tree (tree_at shipped_contents).
Proof.
  rewrite shipped_tree. eapply shows_below; [vm_compute; reflexivity|apply list_elem_of_here|].
  apply shows_kid; [vm_compute; reflexivity|]. apply list_elem_of_here.
Qed.

Example sync_shows_witness :
  exists o' ef, Sync mozilla 0 5 "#9000085" true true shipped_contents = Some (o', ef) /\ mPanelAnchor o' = Some "t8" /\
    exists t, root t = 8 /\ shows (mEntryHash o') t (tree_at o').
Proof.
  assert (Ht : sync_target shipped_contents 0 5 "#9000085" = Some 8) by (vm_compute; reflexivity).
  destruct (sync_shows mozilla shipped_contents 0 5 "#9000085" true true shipped_ok ltac:(vm_compute; reflexivity)) as (o' & ef & E & H).
  rewrite Ht in H. destruct H as (e & l & t & _ & _ & _ & _ & Ha & Hr & Hsh & _).
  exists o', ef. split; [exact E|]. split; [exact Ha|]. exists t. split; [exact Hr|exact Hsh].
Defined.
Example entry_redrawn_witness :
  exists o' html, Expand mozilla 1 shipped_contents = Some (o', [HidePopup; WriteElement "i1" html]).
Proof.
  destruct (entry_redrawn mozilla true true 100 shipped_contents home_tree ltac:(vm_compute; reflexivity) shipped_ok
    ltac:(right; vm_compute; congruence) ltac:(vm_compute; lia) home_shows ltac:(vm_compute; reflexivity) ltac:(discriminate))
    as (o' & html & _ & _ & _ & _ & _ & _ & _ & _ & _ & E & _).
  exists o', html. exact E.
Defined.

(** A page that waits for its entry when the last book is loaded: the script throws. *)
Example pending_sync_throws :
  let o := default new_outline (fst <$> InitLoadBookTOC example_books mozilla (example_toc 0) example_start) in
  exists w, Sync mozilla 0 1 "" false false o = Some (w, []) /\
    snd <$> InitLoadBookTOC example_books mozilla (example_toc 1) w = Some true.
Proof. eexists. split; [vm_compute; reflexivity|vm_compute; reflexivity]. Qed.
(** With lists, the end of an open last entry is followed by one [</li>] more. *)
Example li_too_many :
  let o := on_entry (set_expanded true) 4 (on_entry (set_expanded true) 1 (on_entry (set_expanded true) 0 example_contents)) in
  let count p := Z.of_nat (length (js_split (inside mozilla (mEntryHash o) (tree_at o)) p)) - 1 in
  count "<li id" = 6 /\ count "</li>" = 8.
Proof. vm_compute. done. Qed.
(** A hidden entry has the end of an item without its beginning: the page of the shipped
    book, closed, ends two items and begins two, and the book's own end is in excess. *)
Example hidden_li :
  let count p := Z.of_nat (length (js_split (inside mozilla (mEntryHash shipped_contents) (tree_at shipped_contents)) p)) - 1 in
  count "<li id" = 2 /\ count "</li>" = 4.
Proof. vm_compute. done. Qed.
