(* ===== verification/HelpHover.v ===== *)
(** * The pop-up of the contents and of the index
    The functions that write the table of a pop-up are copies of the search panel's. *)
From S2P Require Import Prelude JsString HelpView.

(** [WWHOutline_HoverTextFormat] *)
Definition Outline_HoverTextFormat : styles -> string -> string -> string -> string -> string := HelpView.HoverTextFormat.
(** [WWHIndex_HoverTextFormat] *)
Definition Index_HoverTextFormat : styles -> string -> string -> string -> string -> string := HelpView.HoverTextFormat.
(** [WWHFavorites_HoverTextFormat] *)
Definition Favorites_HoverTextFormat : styles -> string -> string -> string -> string -> string := HelpView.HoverTextFormat.
