(* ===== verification/HelpIndex.v ===== *)
(** * The index of the online help (wwhelp/wwhimpl/js/scripts/index.js): entries
    The books' data files add entries to a tree of hashes; entries with the same key are
    one entry with the links of all of them.  When the last book is loaded the "see also"
    entries are linked with their targets, and the top entries are sorted; the others are
    sorted when the iterator comes to them.  [None] is an exception of the language. *)
From S2P Require Import Prelude JsString JsNum HelpString HelpBooks HelpScore HelpTree HelpOutline HelpContents.
Open Scope Z_scope.
#[local] Set Warnings "-register-all".

(** ** Settings and messages of the index *)
Record settings := Settings {
  mThreshold : Z; mSeperator : string; mbSupportsFocus : bool;
  i_mHighlightColor : string; i_mEnabledColor : string; i_mDisabledColor : string; i_mIndent : Z; i_mFontStyle : string;
  mNavigationCurrentColor : string; mNavigationEnabledColor : string; mNavigationDisabledColor : string;
  mNavigationFontStyle : string; mAccessibilityListSeparator : string;
  mIndexSelectMessage1 : string; mIndexSelectMessage2 : string;
  mAccessibilityIndexEntry : string; mAccessibilityIndexSecondEntry : string
}.

(** ** Entries *)

(** [WWHIndexEntry_Object].  A hash of children goes from keys to entries; the order of its
    keys does not matter, as they are sorted before use. *)
Record entry := Entry {
  mGroupID : option Z; mText : option string; mBookLinks : option (gmap Z (list string));
  mChildren : option (gmap string Z); mChildrenSortArray : option (list Z);
  mSeeAlsoKey : option string; mSeeAlsoGroupKey : option string;
  mSeeAlsoTargetName : option string; mSeeAlsoTargetGroupID : option Z; mSectionIndex : option Z
}.
(** A group has a [mGroupID]. *)
Definition mbGroup (e : entry) : bool := match mGroupID e with Some _ => true | None => false end.
Abbreviation store := (gmap Z entry).

Definition set_links (l : option (gmap Z (list string))) (e : entry) : entry :=
  Entry (mGroupID e) (mText e) l (mChildren e) (mChildrenSortArray e) (mSeeAlsoKey e) (mSeeAlsoGroupKey e)
    (mSeeAlsoTargetName e) (mSeeAlsoTargetGroupID e) (mSectionIndex e).
Definition set_children (h : option (gmap string Z)) (a : option (list Z)) (e : entry) : entry :=
  Entry (mGroupID e) (mText e) (mBookLinks e) h a (mSeeAlsoKey e) (mSeeAlsoGroupKey e)
    (mSeeAlsoTargetName e) (mSeeAlsoTargetGroupID e) (mSectionIndex e).
Definition set_target (name : option string) (group : option Z) (e : entry) : entry :=
  Entry (mGroupID e) (mText e) (mBookLinks e) (mChildren e) (mChildrenSortArray e) (mSeeAlsoKey e) (mSeeAlsoGroupKey e)
    name group (mSectionIndex e).
Definition set_section (i : Z) (e : entry) : entry :=
  Entry (mGroupID e) (mText e) (mBookLinks e) (mChildren e) (mChildrenSortArray e) (mSeeAlsoKey e) (mSeeAlsoGroupKey e)
    (mSeeAlsoTargetName e) (mSeeAlsoTargetGroupID e) (Some i).

(** [WWHIndexIterator_Object]; the two stacks as one, its top first. *)
Record iterator := Iterator { mIteratorScope : option Z; mEntry : option Z; mStack : list (Z * nat) }.

(** [WWHIndex_Object]; entries are objects, numbered by [mEntryCount] at their creation. *)
Record index := Index {
  mEntries : store; mEntryCount : Z; mMaxLevel : Z; mSeeAlsoArray : option (list Z); mInitIndex : Z;
  mbPanelInitialized : bool; mPanelAnchor : option string; mSectionIndexShown : Z; mbThresholdExceeded : option bool;
  mSectionCache : gmap Z string; mIterator : iterator; mHTMLSegment : buffer; mClickedEntry : option Z
}.
Definition top_id : Z := -1.
Definition top_entry : entry := Entry None None None None None None None None None None.
Definition new_index : index :=
  Index {[top_id := top_entry]} 0 0 (Some []) 0 false None 0 None ∅ (Iterator None None []) new_buffer None.

Definition set_entries (s : store) (x : index) : index :=
  Index s (mEntryCount x) (mMaxLevel x) (mSeeAlsoArray x) (mInitIndex x) (mbPanelInitialized x) (mPanelAnchor x)
    (mSectionIndexShown x) (mbThresholdExceeded x) (mSectionCache x) (mIterator x) (mHTMLSegment x) (mClickedEntry x).
Definition set_loading (init : Z) (ready : bool) (level : Z) (x : index) : index :=
  Index (mEntries x) (mEntryCount x) level (mSeeAlsoArray x) init ready (mPanelAnchor x)
    (mSectionIndexShown x) (mbThresholdExceeded x) (mSectionCache x) (mIterator x) (mHTMLSegment x) (mClickedEntry x).
Definition set_see_also (l : option (list Z)) (x : index) : index :=
  Index (mEntries x) (mEntryCount x) (mMaxLevel x) l (mInitIndex x) (mbPanelInitialized x) (mPanelAnchor x)
    (mSectionIndexShown x) (mbThresholdExceeded x) (mSectionCache x) (mIterator x) (mHTMLSegment x) (mClickedEntry x).
Definition set_shown (anchor : option string) (section : Z) (clicked : option Z) (x : index) : index :=
  Index (mEntries x) (mEntryCount x) (mMaxLevel x) (mSeeAlsoArray x) (mInitIndex x) (mbPanelInitialized x) anchor
    section (mbThresholdExceeded x) (mSectionCache x) (mIterator x) (mHTMLSegment x) clicked.
Definition set_memo (exceeded : option bool) (cache : gmap Z string) (x : index) : index :=
  Index (mEntries x) (mEntryCount x) (mMaxLevel x) (mSeeAlsoArray x) (mInitIndex x) (mbPanelInitialized x) (mPanelAnchor x)
    (mSectionIndexShown x) exceeded cache (mIterator x) (mHTMLSegment x) (mClickedEntry x).
Definition set_page (s : store) (it : iterator) (b : buffer) (x : index) : index :=
  Index s (mEntryCount x) (mMaxLevel x) (mSeeAlsoArray x) (mInitIndex x) (mbPanelInitialized x) (mPanelAnchor x)
    (mSectionIndexShown x) (mbThresholdExceeded x) (mSectionCache x) it b (mClickedEntry x).

(** ** Adding entries *)

(** A parameter with a text that is not empty. *)
Definition given (p : option string) : option string :=
  match p with Some t => if 0 <? slen t then Some t else None | None => None end.
(** [WWHIndexEntry_GetKey] *)
Definition GetKey (group_tag text sort : option string) : option string :=
  t ← given text;
  Some (default "" (given group_tag)
        +++ match given sort with Some s => if String.eqb s t then "" else ":" +++ s | None => "" end
        +++ ":" +++ t).
(** [VarKey + "~"] *)
Definition hash_key (key : option string) : string := default "null" key +++ "~".

(** The parameters of a call of [fA]; the calls on the entry that it returns follow it. *)
Inductive item := Item {
  i_text : option string; i_links : option (list string); i_sort : option string; i_tag : option string;
  i_see : option string; i_see_sort : option string;
  i_see_group : option string; i_see_group_sort : option string; i_see_group_tag : option string;
  i_inside : list item
}.
Definition item_key (i : item) : string := hash_key (GetKey (i_tag i) (i_text i) (i_sort i)).
Definition see_also_key (i : item) : option string := GetKey None (i_see i) (i_see_sort i).
Definition see_also_group_key (i : item) : option string := GetKey (i_see_group_tag i) (i_see_group i) (i_see_group_sort i).
(** [ParamLinks] when there are any. *)
Definition item_links (i : item) : option (list string) :=
  match i_links i with Some (l :: ls) => Some (l :: ls) | _ => None end.

(** [new WWHIndexEntry_Object] for an entry of a book. *)
Definition new_entry (i : item) (id book : Z) : entry :=
  Entry (match given (i_tag i) with Some _ => Some id | None => None end) (i_text i)
    (match item_links i with Some l => Some {[book := l]} | None => None end) None None
    (see_also_key i) (see_also_group_key i) None None None.
(** An entry that exists gets the links. *)
Definition add_links (l : list string) (book : Z) (e : entry) : entry :=
  let h := default ∅ (mBookLinks e) in
  set_links (Some (<[book := default [] (h !! book) ++ l]> h)) e.
(** [WWHIndexEntry_AddEntry] on the entry [parent]. *)
Definition AddEntry (parent : Z) (i : item) (x : index) : option (Z * index) :=
  p ← mEntries x !! parent;
  let h := default ∅ (mChildren p) in
  let s := <[parent := set_children (Some h) (mChildrenSortArray p) p]> (mEntries x) in
  match h !! item_key i with
  | None =>
      let id := mEntryCount x in
      let e := new_entry i id (mInitIndex x) in
      let s := <[id := e]> (<[parent := set_children (Some (<[item_key i := id]> h)) (mChildrenSortArray p) p]> s) in
      see ← match see_also_key i with
            | Some _ => l ← mSeeAlsoArray x; Some (Some (l ++ [id]))
            | None => Some (mSeeAlsoArray x)
            end;
      Some (id, Index s (id + 1) (mMaxLevel x) see (mInitIndex x) (mbPanelInitialized x) (mPanelAnchor x)
                  (mSectionIndexShown x) (mbThresholdExceeded x) (mSectionCache x) (mIterator x) (mHTMLSegment x)
                  (mClickedEntry x))
  | Some c =>
      e ← s !! c;
      Some (c, set_entries (match item_links i with
                            | Some l => <[c := add_links l (mInitIndex x) e]> s
                            | None => s
                            end) x)
  end.
(** A book's [WWHBookData_AddIndexEntries]. *)
Fixpoint add_item (parent : Z) (i : item) (x : index) : option index :=
  '(id, x) ← AddEntry parent i x;
  (fix add_all (l : list item) (x : index) : option index :=
     match l with [] => Some x | i :: l => x ← add_item id i x; add_all l x end) (i_inside i) x.
Fixpoint AddIndexEntries (parent : Z) (l : list item) (x : index) : option index :=
  match l with [] => Some x | i :: l => x ← add_item parent i x; AddIndexEntries parent l x end.

(** ** Sorting *)

(** [WWHIndexEntry_SortChildren]: the sort key of a key. *)
Definition sort_key (key : string) : string :=
  toUpperCase (substring2 key 1 (slen key - 1)) +++ ":" +++ key.
(** [array.sort()] on texts. *)
Definition sort_strings : list string -> list string := js_sort compare_strings.
(** [KeyHash], from sort keys to keys. *)
Definition key_hash (keys : list string) : gmap string string := list_to_map (map (fun k => (sort_key k, k)) keys).
Definition sorted_children (h : option (gmap string Z)) : list Z :=
  match h with
  | Some h =>
      let keys := map fst (map_to_list h) in
      omap (fun k => key ← key_hash keys !! k; h !! key) (sort_strings (map sort_key keys))
  | None => []
  end.
Definition SortChildren (e : entry) : entry := set_children None (Some (sorted_children (mChildren e))) e.

(** ** Loading *)

(** [WWHIndex_ProcessSeeAlsoEntries]: the entry [id], at position [i] of [mSeeAlsoArray]. *)
Definition process_see_also (i : Z) (id : Z) (s : store) : option store :=
  e ← s !! id; top ← s !! top_id; h ← mChildren top;
  match h !! (default "undefined" (mSeeAlsoGroupKey e) +++ "~") with
  | Some g =>
      ge ← s !! g;
      match mChildren ge with
      | Some gh =>
          match gh !! (default "undefined" (mSeeAlsoKey e) +++ "~") with
          | Some t =>
              te ← s !! t;
              let name := default ("s" +++ Z_to_string i) (mSeeAlsoTargetName te) in
              let s := <[t := set_target (Some name) (mSeeAlsoTargetGroupID te) te]> s in
              e ← s !! id;
              Some (<[id := set_target (Some name) (mGroupID ge) e]> s)
          | None => Some s
          end
      | None => Some s
      end
  | None => Some s
  end.
Fixpoint process_all (i : Z) (l : list Z) (s : store) : option store :=
  match l with [] => Some s | id :: l => s ← process_see_also i id s; process_all (i + 1) l s end.
Definition ProcessSeeAlsoEntries (x : index) : option index :=
  l ← mSeeAlsoArray x;
  s ← process_all 0 l (mEntries x);
  Some (set_see_also None (set_entries s x)).
(** The sections are numbered in their order. *)
Fixpoint number_sections (i : Z) (l : list Z) (s : store) : store :=
  match l with [] => s | id :: l => number_sections (i + 1) l (alter (set_section i) id s) end.

Section loading.
Context (books : book_list) (v : viewer).
Definition InitHeadHTML : string := "".
(** [WWHIndex_InitBodyHTML] *)
Definition index_script (src : string) : string :=
  line (qq "<script language=`JavaScript1.2` src=`" +++ mHelpURLPrefix v +++ src +++ VarParameters v +++ qq "`></script>").
Definition InitBodyHTML (x : index) : string * index :=
  (line ("<h2>" +++ mInitializingMessage v +++ "</h2>")
   +++ join "" (map (fun b => index_script (mDirectory b +++ "wwhdata/js/index.js")
                              +++ index_script "wwhelp/wwhimpl/js/scripts/index1s.js") (mBookList books)),
   set_loading 0 (mbPanelInitialized x) (mMaxLevel x) x).
(** [WWHIndex_InitLoadBookIndex] *)
Definition InitLoadBookIndex (l : list item) (x : index) : option index :=
  x ← AddIndexEntries top_id l x;
  let x := set_loading (mInitIndex x + 1) (mbPanelInitialized x) (mMaxLevel x) x in
  if mInitIndex x =? Z.of_nat (length (mBookList books)) then
    x ← ProcessSeeAlsoEntries x;
    top ← mEntries x !! top_id;
    let top := match mChildrenSortArray top with None => SortChildren top | Some _ => top end in
    let s := <[top_id := top]> (mEntries x) in
    let s := number_sections 0 (default [] (mChildrenSortArray top)) s in
    Some (set_loading (mInitIndex x) true (mMaxLevel x) (set_entries s x))
  else Some x.
(** index1s.js, with what a book's data file defines. *)
Definition load_book (max_level : Z) (l : list item) (x : index) : option index :=
  InitLoadBookIndex l
    (if mMaxLevel x <? max_level then set_loading (mInitIndex x) (mbPanelInitialized x) max_level x else x).
Fixpoint load_books (l : list (Z * list item)) (x : index) : option index :=
  match l with [] => Some x | (m, b) :: l => x ← load_book m b x; load_books l x end.
End loading.
