(* ===== verification/HelpIndexSort.v ===== *)
(** * The order of the index
    Different keys have different sort keys, so that sorting the children of an entry
    gives each of them once, in one order. *)
From Stdlib Require Import Sorted.
From S2P Require Import Prelude JsString JsNum HelpString HelpBooks HelpScore HelpTree HelpOutline HelpContents HelpIndex.
Open Scope Z_scope.

(** ** Sort keys *)
Definition str_lt (a b : string) : Prop := compare_strings a b < 0.
Lemma compare_strings_swap a b : compare_strings b a = - compare_strings a b.
Proof. by apply (cmp_swap _ _ compares_strings). Qed.
Lemma compare_strings_eq a b : compare_strings a b = 0 -> a = b.
Proof. unfold compare_strings. destruct (String.compare a b) eqn:E; try done. intros _. by apply String.compare_eq_iff. Qed.
Lemma compare_strings_refl a : compare_strings a a = 0.
Proof. assert (H := compare_strings_swap a a). lia. Qed.
#[global] Instance str_lt_trans : Transitive str_lt.
Proof.
  unfold str_lt. intros a b c Hab Hbc. assert (H := cmp_trans _ _ compares_strings a b c I I I). destruct (decide (compare_strings a c = 0)) as [E|E]; [|lia].
  apply compare_strings_eq in E as ->. rewrite (compare_strings_swap b c) in Hab. lia.
Qed.
#[global] Instance str_lt_irrefl : Irreflexive str_lt.
Proof. intros a. unfold str_lt, complement. rewrite compare_strings_refl. lia. Qed.
Lemma str_lt_total a b : str_lt a b \/ a = b \/ str_lt b a.
Proof.
  unfold str_lt. rewrite (compare_strings_swap a b). destruct (Z.lt_trichotomy (compare_strings a b) 0) as [H|[H|H]]; [by left| |right; right; lia].
  right. left. by apply compare_strings_eq.
Qed.

Lemma smap_length f s : String.length (smap f s) = String.length s.
Proof. induction s as [|c s IH]; [done|]. cbn. by rewrite IH. Qed.
Lemma sapp_inj_l a b c d : String.length a = String.length c -> a +++ b = c +++ d -> a = c /\ b = d.
Proof.
  revert c. induction a as [|x a IH]; intros [|y c] Hl E; try done. cbn in E, Hl. injection E as -> E. injection Hl as Hl.
  by destruct (IH c Hl E) as [-> ->].
Qed.
(** Every key ends with a tilde behind a text. *)
Definition key_ok (k : string) : Prop := (2 <= String.length k)%nat.
Lemma item_key_ok i : key_ok (item_key i).
Proof.
  unfold key_ok, item_key, hash_key, GetKey. rewrite sapp_length. destruct (given (i_text i)) as [t|] eqn:E; cbn [mbind option_bind from_option id].
  - rewrite !sapp_length. cbn. lia.
  - cbn. lia.
Qed.
Lemma sort_key_length k : key_ok k -> String.length (sort_key k) = (2 * String.length k - 1)%nat.
Proof.
  unfold sort_key, toUpperCase, substring2, key_ok, clamp, slen. rewrite !sapp_length, smap_length, stake_length, sdrop_length. cbn. lia.
Qed.
Lemma sort_key_inj a b : key_ok a -> key_ok b -> sort_key a = sort_key b -> a = b.
Proof.
  intros Ha Hb E. assert (El := f_equal String.length E). rewrite !sort_key_length in El by done. unfold key_ok in *.
  unfold sort_key in E. apply sapp_inj_l in E as [_ E].
  - by apply (sapp_inj_l ":" _ ":") in E as [_ ?].
  - unfold toUpperCase, substring2, clamp, slen. rewrite !smap_length, !stake_length, !sdrop_length.
    assert (E' : String.length a = String.length b) by lia. by rewrite E'.
Qed.

(** ** Sorted children *)
Definition key_lt (a b : string) : Prop := str_lt (sort_key a) (sort_key b).
#[global] Instance key_lt_trans : Transitive key_lt.
Proof. intros a b c. unfold key_lt. apply str_lt_trans. Qed.
#[global] Instance key_lt_irrefl : Irreflexive key_lt.
Proof. intros a. apply str_lt_irrefl. Qed.

Lemma sort_strings_Permutation l : sort_strings l ≡ₚ l.
Proof. apply js_sort_Permutation. Qed.
Lemma sort_strings_sorted l : NoDup l -> StronglySorted str_lt (sort_strings l).
Proof.
  intros Hn. assert (Hs := js_sort_sorted all_values compare_strings l compares_strings (proj2 (Forall_forall _ _) (fun _ _ => I))).
  fold (sort_strings l) in Hs. rewrite <- sort_strings_Permutation in Hn. revert Hs Hn. generalize (sort_strings l) as k.
  induction 1 as [|x k Hk IH Hx]; intros Hn; [constructor|]. apply NoDup_cons in Hn as [Hni Hn]. constructor; [by apply IH|].
  rewrite Forall_forall in Hx |- *. intros y Hy. specialize (Hx y Hy). cbn in Hx. unfold str_lt.
  destruct (decide (compare_strings x y = 0)) as [E|E]; [|lia]. by apply compare_strings_eq in E as ->.
Qed.
(** The keys of a hash in the order of its children. *)
Definition sorted_keys (h : gmap string Z) : list string :=
  let keys := map fst (map_to_list h) in
  omap (fun k => key_hash keys !! k) (sort_strings (map sort_key keys)).

Definition keys_ok (h : gmap string Z) : Prop := forall k id, h !! k = Some id -> key_ok k.
Lemma keys_of_hash (h : gmap string Z) : map fst (map_to_list h) = (map_to_list h).*1.
Proof. done. Qed.
Lemma elem_keys (h : gmap string Z) k : k ∈ map fst (map_to_list h) <-> is_Some (h !! k).
Proof.
  rewrite keys_of_hash, list_elem_of_fmap. split.
  - intros ([k' id] & -> & H%elem_of_map_to_list). by eexists.
  - intros [id H]. exists (k, id). split; [done|]. by apply elem_of_map_to_list.
Qed.
Section sorted.
Context (h : gmap string Z) (Hok : keys_ok h).
Let keys := map fst (map_to_list h).
Lemma keys_inj a b : a ∈ keys -> b ∈ keys -> sort_key a = sort_key b -> a = b.
Proof. intros [x Ha]%elem_keys [y Hb]%elem_keys. apply sort_key_inj; by eapply Hok. Qed.
Lemma NoDup_sort_keys : NoDup (map sort_key keys).
Proof.
  assert (Hn : NoDup keys) by apply NoDup_fst_map_to_list. assert (Hi := keys_inj). revert Hi Hn. generalize keys as l.
  induction l as [|k l IH]; intros Hi Hn; [constructor|]. apply NoDup_cons in Hn as [Hk Hn]. cbn. apply NoDup_cons. split.
  - intros (k' & E & Hk')%list_elem_of_fmap. apply Hi in E as ->; [done|set_solver|set_solver].
  - apply IH; [|done]. intros a b Ha Hb. apply Hi; set_solver.
Qed.
Lemma key_hash_lookup k : k ∈ keys -> key_hash keys !! sort_key k = Some k.
Proof.
  intros Hk. unfold key_hash. apply elem_of_list_to_map_1.
  - assert (E : (map (fun k => (sort_key k, k)) keys).*1 = map sort_key keys) by apply map_map. rewrite E. apply NoDup_sort_keys.
  - apply list_elem_of_fmap. by exists k.
Qed.
Lemma map_sorted_keys : map sort_key (sorted_keys h) = sort_strings (map sort_key keys).
Proof.
  unfold sorted_keys. fold keys. assert (H : Forall (fun s => exists k, k ∈ keys /\ s = sort_key k) (sort_strings (map sort_key keys))).
  { rewrite sort_strings_Permutation. apply Forall_forall. intros s (k & -> & Hk)%list_elem_of_fmap. by exists k. }
  induction H as [|s l (k & Hk & ->) _ IH]; [done|]. cbn. rewrite key_hash_lookup by done. cbn. by rewrite IH.
Qed.
Lemma elem_sorted_keys k : k ∈ sorted_keys h <-> is_Some (h !! k).
Proof.
  unfold sorted_keys. fold keys. rewrite list_elem_of_omap. setoid_rewrite sort_strings_Permutation. split.
  - intros (s & (k' & -> & Hk)%list_elem_of_fmap & E). rewrite key_hash_lookup in E by done. injection E as <-. by apply elem_keys.
  - intros Hk%elem_keys. exists (sort_key k). split; [by apply list_elem_of_fmap_2|by apply key_hash_lookup].
Qed.
Lemma sorted_keys_sorted : StronglySorted key_lt (sorted_keys h).
Proof.
  assert (H := sort_strings_sorted _ NoDup_sort_keys). rewrite <- map_sorted_keys in H. revert H. generalize (sorted_keys h) as l.
  induction l as [|k l IH]; intros H; [constructor|]. cbn in H. apply StronglySorted_inv in H as [H Hk]. constructor; [by apply IH|].
  by apply (Forall_fmap sort_key) in Hk.
Qed.
Lemma sorted_children_keys : Forall2 (fun k id => h !! k = Some id) (sorted_keys h) (sorted_children (Some h)).
Proof.
  assert (E : sorted_children (Some h) = omap (h !!.) (sorted_keys h)).
  { cbn. unfold sorted_keys. fold keys. induction (sort_strings (map sort_key keys)) as [|s l IH]; [done|]. cbn.
    destruct (key_hash keys !! s) as [k|]; cbn; [|exact IH]. destruct (h !! k); cbn; [f_equal|]; exact IH. }
  rewrite E. assert (H : Forall (fun k => is_Some (h !! k)) (sorted_keys h)) by (apply Forall_forall; intros k; apply elem_sorted_keys).
  clear E. induction H as [|k l [id Hid] _ IH]; [constructor|]. cbn. rewrite Hid. by constructor.
Qed.
End sorted.
