(* ===== verification/HelpIndexPage.v ===== *)
(** * The index of the online help (wwhelp/wwhimpl/js/scripts/index.js): pages and clicks
    The iterator, the pages of the panel, the texts of links, clicks, and the page that
    lists the documents of an entry.  [None] is an exception, or a loop that does not end
    within its fuel. *)
From S2P Require Import Prelude JsString JsNum HelpString HelpBooks HelpTree HelpOutline HelpContents HelpIndex.
Open Scope Z_scope.

(** ** The iterator *)

(** [WWHIndexIterator_Reset] *)
Definition Reset (i : Z) (s : store) : option iterator :=
  if i =? -1 then Some (Iterator (Some top_id) (Some top_id) [])
  else
    top ← s !! top_id;
    let scope := match mChildrenSortArray top with Some (k :: l) => at_index (k :: l) i | _ => None end in
    Some (Iterator scope scope []).
(** The loop of [WWHIndexIterator_Advance] that looks for the next child of a parent. *)
Fixpoint climb (s : store) (scope : option Z) (stack : list (Z * nat)) : option (option Z * list (Z * nat)) :=
  match stack with
  | [] => Some (None, [])
  | (p, i) :: rest =>
      pe ← s !! p;
      kids ← mChildrenSortArray pe;
      match kids !! S i with
      | Some k => Some (Some k, (p, S i) :: rest)
      | None => if bool_decide (scope = Some p) then Some (None, (p, S i) :: rest) else climb s scope rest
      end
  end.
(** Sorts the children of an entry when that was not done. *)
Definition sort_entry (e : entry) : entry :=
  match mChildren e, mChildrenSortArray e with Some _, None => SortChildren e | _, _ => e end.
(** [WWHIndexIterator_Advance] *)
Definition Advance (s : store) (it : iterator) : option (bool * store * iterator) :=
  match mEntry it with
  | None => Some (false, s, it)
  | Some id =>
      e ← s !! id;
      let e := sort_entry e in
      let s := <[id := e]> s in
      '(next, st) ←
        match mChildrenSortArray e with
        | Some (k :: _) => Some (Some k, (id, O) :: mStack it)
        | _ => if bool_decide (mIteratorScope it = Some id) then Some (None, mStack it)
               else climb s (mIteratorScope it) (mStack it)
        end;
      Some (bool_decide (next <> None), s, Iterator (mIteratorScope it) next st)
  end.

Section pages.
Context (books : book_list) (v : viewer) (opt : settings).

(** ** The page of the index *)

(** [WWHIndex_ThresholdExceeded] *)
Definition exceeds (x : index) : bool :=
  mbAccessible v || ((0 <? mThreshold opt) && (mThreshold opt <? mEntryCount x)).
Definition ThresholdExceeded (x : index) : bool * index :=
  let b := default (exceeds x) (mbThresholdExceeded x) in (b, set_memo (Some b) (mSectionCache x) x).

Definition text_of (e : entry) : string := default "null" (mText e).
(** [WWHIndex_GetPopupAction] *)
Definition GetPopupAction (info : string) : string :=
  if mbHoverEnabled v then
    qq " onmouseover=`fS('" +++ info +++ "', " +++ EventString v +++ qq ");`" +++ qq " onmouseout=`fH();`"
  else "".
(** The positions of the iterator, from its scope to the entry. *)
Definition entry_info (base : string) (positions : list nat) : string :=
  fold_left (fun info i => (if 0 <? slen info then info +++ ":" else info) +++ Z_to_string (Z.of_nat i)) positions base.
(** The texts of the entries above, without the top entry and groups, and of the entry. *)
Definition title_text (s : store) (parents : list Z) (e : entry) : option string :=
  ps ← mapM (fun p => pe ← s !! p; Some (if (p =? top_id) || mbGroup pe then "" else text_of pe +++ mAccessibilityListSeparator opt +++ " ")) parents;
  Some (join "" ps +++ text_of e).
Definition access_title (s : store) (parents : list Z) (e : entry) : option string :=
  if mbAccessible v then
    t ← title_text s parents e; Some (qq " title=`" +++ EscapeHTML t +++ qq "`")
  else Some "".
Definition anchor_name (e : entry) : string :=
  match mSeeAlsoTargetName e with Some n => qq " name=`sa" +++ n +++ qq "`" | None => "" end.
(** What stands before and behind the text of an entry. *)
Definition around (title info : string) (e : entry) : string * string :=
  if mbGroup e then
    (qq "<b><a class=`Section` name=`section" +++ match mSectionIndex e with Some i => Z_to_string i | None => "undefined" end +++ qq "`>", "</a></b>")
  else match mSeeAlsoKey e with
  | Some _ =>
      match mSeeAlsoTargetName e with
      | Some _ => (qq "<i><a href=`javascript:fA('" +++ info +++ qq "');`" +++ GetPopupAction info +++ title +++ ">", "</a></i>")
      | None => ("<i>", "</i>")
      end
  | None =>
      match mBookLinks e with
      | Some _ => ("<a" +++ anchor_name e +++ qq " href=`javascript:fC('" +++ info +++ qq "');`" +++ GetPopupAction info +++ title +++ ">", "</a>")
      | None =>
          if 0 <? slen (anchor_name e) then
            (qq "<a class=`AnchorOnly`" +++ anchor_name e +++ title +++ qq " href=`javascript:fN();`>", "</a>")
          else ("", "")
      end
  end.
(** The paragraph of the entry at which the iterator is. *)
Definition paragraph (s : store) (base : string) (stack : list (Z * nat)) (e : entry) : option string :=
  title ← access_title s (rev (map fst stack)) e;
  let '(prefix, suffix) := around title (entry_info base (rev (map snd stack))) e in
  Some (line ("<p class=l" +++ Z_to_string (Z.of_nat (length stack) - 1) +++ "><nobr>" +++ prefix +++ text_of e +++ suffix +++ "</nobr></p>")).
Definition space : string := line "<p>&nbsp;</p>".

(** [WWHIndex_AdvanceHTMLSegment]: whether there is a segment, which is in the buffer. *)
Fixpoint advance_loop (fuel : nat) (base : string) (s : store) (it : iterator) (b : buffer) : option (store * iterator * buffer) :=
  match fuel with
  | O => None
  | S fuel =>
      if fSize b <? mMaxHTMLSegmentSize v then
        '(more, s, it) ← Advance s it;
        match more, mEntry it with
        | true, Some id =>
            e ← s !! id;
            let b := if mbGroup e && negb (fSize b =? 0) then fAppend space b else b in
            p ← paragraph s base (mStack it) e;
            advance_loop fuel base s it (fAppend p b)
        | _, _ => Some (s, it, b)
        end
      else Some (s, it, b)
  end.
Definition enough (s : store) : nat := S (S (size s)).
Definition AdvanceHTMLSegment (x : index) : option (bool * index) :=
  let '(exceeded, x) := ThresholdExceeded x in
  let base := if exceeded then Z_to_string (mSectionIndexShown x) else "" in
  '(s, it, b) ← advance_loop (enough (mEntries x)) base (mEntries x) (mIterator x) (fReset (mHTMLSegment x));
  Some (0 <? fSize b, set_page s it b x).
Definition GetHTMLSegment (x : index) : string * index :=
  let '(t, b) := fGetBuffer (mHTMLSegment x) in (t, set_page (mEntries x) (mIterator x) b x).
Definition EndHTMLSegments : string := "".
(** [WWHIndex_StartHTMLSegments] *)
Definition StartHTMLSegments (x : index) : option (string * index) :=
  let '(exceeded, x) := ThresholdExceeded x in
  it ← Reset (if exceeded then mSectionIndexShown x else -1) (mEntries x);
  Some (line (qq "<script type=`text/javascript` language=`JavaScript1.2`>") +++ line " <!--"
        +++ accessor "fC(ParamEntryInfo)" "WWHFrame.WWHIndex.fClickedEntry(ParamEntryInfo);" +++ nl
        +++ accessor "fA(ParamEntryInfo)" "WWHFrame.WWHIndex.fClickedSeeAlsoEntry(ParamEntryInfo);" +++ nl
        +++ accessor "fN()" "return false;" +++ nl
        +++ accessor ("fS(ParamEntryID," +++ nl +++ "               ParamEvent)")
              "WWHFrame.WWHJavaScript.mPanels.mPopup.fShow(ParamEntryID, ParamEvent);" +++ nl
        +++ accessor "fH()" "WWHFrame.WWHJavaScript.mPanels.mPopup.fHide();"
        +++ line " // -->" +++ line "</script>", set_page (mEntries x) it (mHTMLSegment x) x).
(** The segments that panelvie.htm writes. *)
Fixpoint write_segments (fuel : nat) (x : index) : option (list string * index) :=
  match fuel with
  | O => None
  | S fuel =>
      '(more, x) ← AdvanceHTMLSegment x;
      if more : bool then
        let '(t, x) := GetHTMLSegment x in
        '(l, x) ← write_segments fuel x; Some (t :: l, x)
      else Some ([], x)
  end.

(** [WWHIndex_HeadHTML] *)
Definition rule (selector : string) (body : list string) : string :=
  line ("  " +++ selector) +++ line "  {" +++ join "" (map (fun s => line ("    " +++ s)) body) +++ line "  }".
Definition style_open : string := line (qq "<style type=`text/css`>") +++ line " <!--".
Definition style_close : string := line " -->" +++ line "</style>".
Definition paragraph_rule : string :=
  rule "p" ["margin-top: 1pt;"; "margin-bottom: 1pt;"; "margin-right: 0pt;"; "color: " +++ i_mDisabledColor opt +++ ";"; i_mFontStyle opt +++ ";"].
Definition level_rule (l : Z) : string := rule ("p.l" +++ Z_to_string l) ["margin-left: " +++ Z_to_string (i_mIndent opt * l) +++ "pt;"].
Definition HeadHTML (x : index) : string :=
  style_open
  +++ rule "a.Section" ["text-decoration: none;"; "font-weight: bold;"]
  +++ rule "a:active" ["text-decoration: none;"; "background-color: " +++ i_mHighlightColor opt +++ ";"]
  +++ rule "a:hover" ["text-decoration: underline;"; "color: " +++ i_mEnabledColor opt +++ ";"]
  +++ rule "a" ["text-decoration: none;"; "color: " +++ i_mEnabledColor opt +++ ";"]
  +++ rule "a.AnchorOnly" ["text-decoration: none;"; "color: " +++ i_mDisabledColor opt +++ ";"]
  +++ paragraph_rule
  +++ join "" (map level_rule (range 0 (Z.to_nat (mMaxLevel x + 2))))
  +++ style_close.

(** ** The list of sections *)
Definition NavigationHeadHTML : string :=
  style_open
  +++ rule "a.selected" ["text-decoration: none;"; "color: " +++ mNavigationCurrentColor opt +++ ";"]
  +++ rule "a.enabled" ["text-decoration: none;"; "color: " +++ mNavigationEnabledColor opt +++ ";"]
  +++ rule "p.navigation" ["margin-top: 1pt;"; "margin-bottom: 1pt;"; "color: " +++ mNavigationDisabledColor opt +++ ";"; mNavigationFontStyle opt +++ ";"]
  +++ style_close.
(** One section, with a link unless it is shown or has nothing below it. *)
Definition section_text (exceeded : bool) (shown i : Z) (e : entry) : string :=
  if exceeded && (i =? shown) then
    qq "<a class=`selected` name=`in" +++ Z_to_string i +++ qq "` href=`javascript:void(0);`>" +++ text_of e +++ "</a>"
  else match mChildren e, mChildrenSortArray e with
  | None, None => text_of e
  | _, _ => qq "<a class=`enabled` name=`in" +++ Z_to_string i +++ qq "` href=`javascript:fD(" +++ Z_to_string i +++ qq ");`>" +++ text_of e +++ "</a>"
  end.
(** [WWHIndex_GetSectionNavigation] *)
Definition GetSectionNavigation (exceeded : bool) (x : index) : option string :=
  top ← mEntries x !! top_id;
  l ← mChildrenSortArray top;
  ts ← mapM (fun '(i, id) => e ← mEntries x !! id; Some (section_text exceeded (mSectionIndexShown x) (Z.of_nat i) e)) (imap pair l);
  Some (qq "<p class=`navigation`>" +++ join (mSeperator opt) ts +++ "</p>").
(** [WWHIndex_NavigationBodyHTML] *)
Definition NavigationBodyHTML (x : index) : option (string * index) :=
  let '(exceeded, x) := ThresholdExceeded x in
  let key := if exceeded : bool then mSectionIndexShown x else -1 in
  nav ← (match mSectionCache x !! key with Some t => Some t | None => GetSectionNavigation exceeded x end);
  Some (line (qq "<script type=`text/javascript` language=`JavaScript1.2`>") +++ line " <!--"
        +++ accessor "fD(ParamSectionIndex)" "WWHFrame.WWHIndex.fDisplaySection(ParamSectionIndex);"
        +++ line " // -->" +++ line "</script>" +++ nav +++ space,
        set_memo (mbThresholdExceeded x) (<[key := nav]> (mSectionCache x)) x).

(** ** Clicks *)

(** What the index does outside itself; the frame of [fFocus] is that of the sections or of
    the document. *)
Inductive effect :=
| FocusSection (anchor : string) | FocusDocument (anchor : string) | ClearScrollPosition | ReloadPanel
| SetSupportsFocus (b : bool) | JumpToAnchor | SetDocumentHREF (url : string).

Definition focus_section (x : index) : effect := FocusSection ("in" +++ Z_to_string (mSectionIndexShown x)).
Definition PanelNavigationLoaded (x : index) : list effect := [focus_section x].
Definition PanelViewLoaded : list effect := [].
(** [WWHIndex_DisplaySection] *)
Definition DisplaySection (i : Z) (x : index) : index * list effect :=
  let x := set_shown (mPanelAnchor x) i (mClickedEntry x) x in
  let '(exceeded, x) := ThresholdExceeded x in
  if exceeded : bool then (x, [ClearScrollPosition; ReloadPanel])
  else
    let x := set_shown (Some ("section" +++ Z_to_string i)) i (mClickedEntry x) x in
    (x, focus_section x
        :: (if mbSupportsFocus opt then [SetSupportsFocus false; JumpToAnchor; SetSupportsFocus true] else [])
        ++ [JumpToAnchor]).

(** An element of an array, by a text that is its index. *)
Definition array_get (l : list Z) (key : string) : option Z :=
  i ← parseInt10 key; if String.eqb (Z_to_string i) key then at_index l i else None.
(** [WWHIndex_GetEntry]; [None] also when it returns nothing: then its callers read a
    property of it. *)
Definition follow (s : store) (o : option Z) (part : string) : option Z :=
  id ← o; e ← s !! id; l ← mChildrenSortArray e; array_get l part.
Definition GetEntry (info : string) (x : index) : option Z :=
  fold_left (follow (mEntries x)) (js_split info ":") (Some top_id).
(** [WWHIndex_HoverTextTranslate] *)
Definition HoverTextTranslate (info : string) (x : index) : option (option string) :=
  id ← GetEntry info x; e ← mEntries x !! id; Some (mText e).

Definition DisplayLink (url : string) : list effect := [SetDocumentHREF url].
(** The document of the only link of an entry. *)
Definition only_link (e : entry) : option (Z * string) :=
  match map_to_list (default ∅ (mBookLinks e)) with [(b, [l])] => Some (b, l) | _ => None end.
(** [WWHIndex_ClickedEntry] *)
Definition ClickedEntry (info : string) (x : index) : option (index * list effect) :=
  id ← GetEntry info x;
  e ← mEntries x !! id;
  match only_link e with
  | Some (b, l) =>
      let '(f, a) := link_parts l in
      url ← GetBookIndexFileIndexURL books v b f a;
      Some (x, DisplayLink url)
  | None =>
      Some (set_shown (mPanelAnchor x) (mSectionIndexShown x) (Some id) x,
            DisplayLink (mBaseURL v +++ "wwhelp/wwhimpl/js/html/indexsel.htm"))
  end.
(** [WWHIndex_ClickedSeeAlsoEntry]: the section of the target. *)
Definition target_section (s : store) (group : Z) (l : list Z) : option (option Z) :=
  gs ← mapM (fun id => mGroupID <$> s !! id) l;
  Some ((fun p => Z.of_nat (fst p)) <$> list_find (fun g => g = Some group) gs).
Definition ClickedSeeAlsoEntry (info : string) (x : index) : option (index * list effect) :=
  id ← GetEntry info x;
  e ← mEntries x !! id;
  match mSeeAlsoTargetName e, mSeeAlsoTargetGroupID e with
  | Some name, Some g =>
      top ← mEntries x !! top_id;
      l ← mChildrenSortArray top;
      target ← target_section (mEntries x) g l;
      match target with
      | Some i =>
          let x := set_shown (Some ("sa" +++ name)) (mSectionIndexShown x) (mClickedEntry x) x in
          let '(exceeded, x) := ThresholdExceeded x in
          Some (if exceeded && negb (i =? mSectionIndexShown x) then DisplaySection i x
                else (x, [focus_section x; JumpToAnchor]))
      | None => Some (x, [])
      end
  | _, _ => Some (x, [])
  end.
End pages.
