(* ===== verification/HelpIndexWalk.v ===== *)
(** * Walking the index
    The iterator sorts the children of an entry when it comes to it; what it visits does
    not depend on what was sorted before.  A walk visits what is below its scope in the
    order of the tree, each entry with the entries above it and its positions. *)
From S2P Require Import Prelude JsString JsNum HelpString HelpBooks HelpScore HelpTree HelpOutline HelpContents HelpIndex HelpIndexPage.
Open Scope Z_scope.

(** ** What sorting leaves as it is *)

(** The children of an entry, whether they were sorted or not. *)
Definition kids (e : entry) : list Z := default [] (mChildrenSortArray (sort_entry e)).
Definition fixed (e : entry) : entry := set_children None None e.
Lemma sort_entry_idem e : sort_entry (sort_entry e) = sort_entry e.
Proof. unfold sort_entry. by destruct e as [? ? ? [h|] [a|]]. Qed.
Lemma kids_sort_entry e : kids (sort_entry e) = kids e.
Proof. unfold kids. by rewrite sort_entry_idem. Qed.
Lemma fixed_sort_entry e : fixed (sort_entry e) = fixed e.
Proof. unfold sort_entry. by destruct e as [? ? ? [h|] [a|]]. Qed.

(** An entry without children. *)
Definition bare (e : entry) : bool := match mChildren e, mChildrenSortArray e with None, None => true | _, _ => false end.
Lemma bare_sort_entry e : bare (sort_entry e) = bare e.
Proof. unfold sort_entry, bare. by destruct e as [? ? ? [h|] [a|]]. Qed.

(** Two stores that differ only in what is sorted. *)
Definition shape (e : entry) : entry * list Z * bool := (fixed e, kids e, bare e).
Record same (s s' : store) : Prop := { same_at : forall id, shape <$> s !! id = shape <$> s' !! id }.
#[global] Instance same_equivalence : Equivalence same.
Proof. split; [by intros s|intros s s' [H]; by constructor|intros s s' s'' [H] [H']; constructor; intros id; by rewrite H]. Qed.
Lemma same_lookup s s' id e : same s s' -> s !! id = Some e -> exists e', s' !! id = Some e' /\ fixed e' = fixed e /\ kids e' = kids e.
Proof.
  intros [H] He. specialize (H id). rewrite He in H. destruct (s' !! id) as [e'|]; [|done]. exists e'.
  assert (E : Some (shape e) = Some (shape e')) by exact H. apply (inj Some) in E. split_and!; [done|by apply (f_equal (fst ∘ fst)) in E|by apply (f_equal (snd ∘ fst)) in E].
Qed.
Lemma same_bare s s' id e e' : same s s' -> s !! id = Some e -> s' !! id = Some e' -> bare e = bare e'.
Proof.
  intros [H] He He'. specialize (H id). rewrite He, He' in H. assert (E : Some (shape e) = Some (shape e')) by exact H. apply (inj Some) in E.
  by apply (f_equal snd) in E.
Qed.
Definition is_sorted (s : store) (id : Z) : Prop := exists e, s !! id = Some e /\ mChildrenSortArray e = Some (kids e).
Definition later (s s' : store) : Prop := same s s' /\ forall id, is_sorted s id -> is_sorted s' id.
#[global] Instance later_preorder : PreOrder later.
Proof. split; [by intros s|intros s s' s'' [H Hs] [H' Hs']; split; [by etransitivity|auto]]. Qed.
Lemma sort_later s id e : s !! id = Some e -> later s (<[id := sort_entry e]> s).
Proof.
  intros He. split.
  - constructor. intros i. destruct (decide (i = id)) as [->|Hi]; [|by rewrite lookup_insert_ne].
    rewrite lookup_insert_eq, He. cbn. unfold shape. by rewrite fixed_sort_entry, kids_sort_entry, bare_sort_entry.
  - intros i (e' & He' & Hs). destruct (decide (i = id)) as [->|Hi]; [|exists e'; by rewrite lookup_insert_ne].
    exists (sort_entry e). rewrite lookup_insert_eq. split; [done|]. rewrite He in He'. injection He' as <-.
    assert (E : sort_entry e = e) by (unfold sort_entry; by destruct (mChildren e), (mChildrenSortArray e)). by rewrite E.
Qed.

(** ** The tree of the index *)
Section tree.
Context (s : store).
Definition linked (t : tree) : Prop := exists e, s !! root t = Some e /\ kids e = map root (kids_of t).
Fixpoint rep (t : tree) : Prop :=
  let '(Tree id kids) := t in
  linked (Tree id kids) /\ (fix all (l : list tree) : Prop := match l with [] => True | t :: l => rep t /\ all l end) kids.
Lemma index_rep_node id l : rep (Tree id l) <-> linked (Tree id l) /\ Forall rep l.
Proof. cbn [rep]. apply and_iff_compat_l. induction l as [|t l IH]; [by split|]. rewrite Forall_cons, IH. done. Qed.
Lemma rep_linked t : rep t -> linked t.
Proof. destruct t. by intros [H _]%index_rep_node. Qed.
Lemma rep_kid t k : rep t -> k ∈ kids_of t -> rep k.
Proof. destruct t as [id l]. intros [_ H]%index_rep_node Hk. rewrite Forall_forall in H. by apply H. Qed.
End tree.
#[global] Instance linked_proper : Proper (same ==> eq ==> iff) linked.
Proof.
  assert (H : forall s s' t, same s s' -> linked s t -> linked s' t).
  { intros s s' t H (e & He & Hk). destruct (same_lookup _ _ _ _ H He) as (e' & He' & _ & E). exists e'. by rewrite E. }
  intros s s' Hs t ? <-. split; by apply H.
Qed.
#[global] Instance rep_proper : Proper (same ==> eq ==> iff) rep.
Proof.
  intros s s' Hs t ? <-. induction t as [id l IH] using tree_induction. rewrite !index_rep_node.
  assert (E : linked s (Tree id l) <-> linked s' (Tree id l)) by (by apply linked_proper). rewrite E. apply and_iff_compat_l.
  rewrite !Forall_forall. rewrite Forall_forall in IH. split; intros H x Hx; apply IH; auto.
Qed.

(** An entry that is visited: its number, and the entries above it with the positions, the
    nearest first. *)
Definition visit : Type := Z * list (Z * nat).
Fixpoint below (st : list (Z * nat)) (t : tree) : list visit :=
  let '(Tree id kids) := t in
  (fix level (i : nat) (l : list tree) : list visit :=
     match l with [] => [] | k :: l => (root k, (id, i) :: st) :: below ((id, i) :: st) k ++ level (S i) l end) O kids.
Fixpoint level (st : list (Z * nat)) (id : Z) (i : nat) (l : list tree) : list visit :=
  match l with [] => [] | k :: l => (root k, (id, i) :: st) :: below ((id, i) :: st) k ++ level st id (S i) l end.
Lemma below_level st t : below st t = level st (root t) O (kids_of t).
Proof.
  destruct t as [id l]. cbn [below root kids_of]. generalize O as i. induction l as [|k l IH]; intros i; [done|].
  cbn [level]. by rewrite IH.
Qed.

(** Where an entry is in the tree: the trees above it, each with a position. *)
Definition frames : Type := list (tree * nat).
Definition stack_of (fr : frames) : list (Z * nat) := map (fun '(t, i) => (root t, i)) fr.
Inductive placed (T : tree) : frames -> tree -> Prop :=
| Placed_top : placed T [] T
| Placed_kid fr p i k : placed T fr p -> kids_of p !! i = Some k -> placed T ((p, i) :: fr) k.
(** What is visited after the part of the tree at such a place. *)
Fixpoint rest (fr : frames) : list visit :=
  match fr with [] => [] | (p, i) :: fr => level (stack_of fr) (root p) (S i) (drop (S i) (kids_of p)) ++ rest fr end.

Section walking.
Context (T : tree) (Hn : NoDup (ids T)).

Lemma placed_ids fr t : placed T fr t -> (fr = [] /\ t = T) \/ (fr <> [] /\ forall x, x ∈ ids t -> x ∈ flat_map ids (kids_of T)).
Proof.
  induction 1 as [|fr p i k Hp IH Hk]; [by left|right]. split; [done|]. intros x Hx.
  assert (Hkp : x ∈ flat_map ids (kids_of p)) by (apply elem_flat_map; exists k; split; [by eapply list_elem_of_lookup_2|done]).
  destruct IH as [[-> ->]|[_ IH]]; [done|]. apply IH. destruct p. by apply list_elem_of_further.
Qed.
Lemma placed_inner fr t : placed T fr t -> fr <> [] -> root t <> root T.
Proof.
  intros H Hfr E. destruct (placed_ids _ _ H) as [[? _]|[_ Hin]]; [done|]. destruct T as [id l]. apply NoDup_cons in Hn as [Hi _].
  apply Hi. cbn in E. rewrite <- E. apply Hin. destruct t. by apply list_elem_of_here.
Qed.
Lemma placed_rep s fr t : rep s T -> placed T fr t -> rep s t.
Proof. intros H. induction 1 as [|fr p i k _ IH Hk]; [done|]. eapply rep_kid; [done|]. by eapply list_elem_of_lookup_2. Qed.

Definition frames_sorted (s : store) (fr : frames) : Prop := Forall (fun '(t, _) => is_sorted s (root t)) fr.
Lemma frames_later s s' fr : later s s' -> frames_sorted s fr -> frames_sorted s' fr.
Proof. intros [_ H] Hf. eapply Forall_impl; [done|]. intros [t i]. apply H. Qed.

Lemma frames_stack s fr : frames_sorted s fr -> Forall (fun '(p, _) => is_sorted s p) (stack_of fr).
Proof. intros H. apply Forall_fmap. eapply Forall_impl; [done|]. by intros [q j]. Qed.

(** The iterator stands at an entry, with what is still to be visited. *)
Inductive stands (s : store) : iterator -> list visit -> Prop :=
| Stands_end it : mEntry it = None -> stands s it []
| Stands_at fr t : placed T fr t -> frames_sorted s fr ->
    stands s (Iterator (Some (root T)) (Some (root t)) (stack_of fr)) (below (stack_of fr) t ++ rest fr).
(** The next entry of a walk. *)
Definition next_is (s : store) (o : option (option Z * list (Z * nat))) (pending : list visit) : Prop :=
  match pending with
  | [] => exists st, o = Some (None, st)
  | (id, st) :: more => o = Some (Some id, st) /\ stands s (Iterator (Some (root T)) (Some id) st) more
  end.
Lemma sorted_kids s t : rep s t -> is_sorted s (root t) -> exists e, s !! root t = Some e /\ mChildrenSortArray e = Some (map root (kids_of t)).
Proof. intros (e & He & Hk)%rep_linked (e' & He' & Hs). exists e. split; [done|]. rewrite He in He'. injection He' as <-. by rewrite Hs, Hk. Qed.
Lemma climb_spec s fr : rep s T -> frames_sorted s fr -> forall t, placed T fr t ->
  next_is s (climb s (Some (root T)) (stack_of fr)) (rest fr).
Proof.
  intros Hr. induction fr as [|[p i] fr IH]; intros Hs t Hp; [by exists []|]. apply Forall_cons in Hs as [Hsp Hs].
  inversion Hp as [|fr' p' i' k Hpp Hk]; subst. cbn [stack_of map climb rest]. fold (stack_of fr).
  assert (Hrp : rep s p) by (by eapply placed_rep). destruct (sorted_kids _ _ Hrp Hsp) as (e & He & Hkids).
  rewrite He. cbn [mbind option_bind]. rewrite Hkids. cbn [mbind option_bind]. rewrite list_lookup_fmap.
  destruct (kids_of p !! S i) as [k|] eqn:Ek; cbn [fmap option_fmap option_map].
  - rewrite (drop_S _ _ _ Ek). cbn [level app]. split; [done|].
    rewrite <- app_assoc. apply (Stands_at s ((p, S i) :: fr) k); [by constructor|by constructor].
  - rewrite drop_ge by (by apply lookup_ge_None). cbn [level app]. case_bool_decide as E.
    + injection E as E. destruct fr as [|f fr]; [by eexists|]. by destruct (placed_inner _ _ Hpp).
    + apply (IH Hs p Hpp).
Qed.
Lemma Advance_stands s it pending : rep s T -> stands s it pending ->
  exists s' it', Advance s it = Some (match pending with [] => false | _ => true end, s', it') /\ later s s' /\ stands s' it' (tail pending) /\
    match pending with
    | [] => mEntry it' = None
    | (id, st) :: _ => mEntry it' = Some id /\ mStack it' = st /\ Forall (fun '(p, _) => is_sorted s' p) st
    end.
Proof.
  intros Hr [it' He|fr t Hp Hf].
  { exists s, it'. unfold Advance. rewrite He. split; [done|]. split; [done|]. split; [by constructor|done]. }
  assert (Hrt := placed_rep _ _ _ Hr Hp). destruct (rep_linked _ _ Hrt) as (e & He & Hk). unfold Advance. cbn [mEntry mIteratorScope mStack]. rewrite He. cbn [mbind option_bind].
  set (s' := <[root t := sort_entry e]> s). assert (Hl : later s s') by (by apply sort_later).
  assert (Hf' : frames_sorted s' fr) by (by eapply frames_later). assert (Hr' : rep s' T) by (by rewrite <- (proj1 Hl)).
  unfold kids in Hk. rewrite below_level. destruct (kids_of t) as [|k l] eqn:El.
  - cbn [level app]. assert (Hc := climb_spec s' fr Hr' Hf' t Hp).
    assert (Hm : (if bool_decide (Some (root T) = Some (root t)) then Some (None, stack_of fr) else climb s' (Some (root T)) (stack_of fr)) = climb s' (Some (root T)) (stack_of fr)).
    { case_bool_decide as E; [|done]. injection E as E. destruct fr as [|f fr]; [done|]. by destruct (placed_inner _ _ Hp). }
    rewrite Hm. revert Hc. generalize (climb s' (Some (root T)) (stack_of fr)) as o. intros o Ho.
    assert (Ho' : match mChildrenSortArray (sort_entry e) with Some (k :: _) => Some (Some k, (root t, 0%nat) :: stack_of fr) | _ => o end = o)
      by (destruct (mChildrenSortArray (sort_entry e)) as [[|? ?]|]; done).
    rewrite Ho'. destruct (rest fr) as [|[id st] more] eqn:Er.
    + destruct Ho as [st ->]. cbn [mbind option_bind]. do 2 eexists. split; [done|]. split; [done|]. split; [by constructor|done].
    + destruct Ho as [-> Ho]. cbn [mbind option_bind]. do 2 eexists. split; [done|]. split; [done|]. split; [done|]. split_and!; [done|done|].
      inversion Ho as [|fr' t' Hp' Hf'' E]; subst; [done|]. by apply frames_stack.
  - cbn [map] in Hk. assert (Hs : mChildrenSortArray (sort_entry e) = Some (root k :: map root l)) by (destruct (mChildrenSortArray (sort_entry e)); [by rewrite <- Hk|done]).
    rewrite Hs. cbn [mbind option_bind level app tail]. do 2 eexists. split; [done|]. split; [done|].
    assert (Hft : frames_sorted s' ((t, 0%nat) :: fr)).
    { constructor; [|done]. exists (sort_entry e). split; [apply lookup_insert_eq|]. unfold kids. by rewrite sort_entry_idem, Hs. }
    split.
    + assert (Hp' : placed T ((t, 0%nat) :: fr) k) by (constructor; [done|by rewrite El]).
      assert (H := Stands_at s' _ _ Hp' Hft). cbn [stack_of map rest] in H. rewrite El in H. cbn [drop] in H.
      rewrite <- app_assoc. exact H.
    + split_and!; [done|done|]. change ((root t, 0%nat) :: stack_of fr) with (stack_of ((t, 0%nat) :: fr)).
      by apply frames_stack.
Qed.
End walking.

(** ** The length of a walk *)
Lemma ids_below t : forall st, ids t = root t :: map fst (below st t).
Proof.
  induction t as [id l IH] using tree_induction. intros st. rewrite below_level. cbn [ids root kids_of]. f_equal.
  generalize O as i. induction IH as [|t l Ht _ IHl]; intros i; [done|]. cbn [flat_map level map]. rewrite map_app, (Ht ((id, i) :: st)), (IHl (S i)). done.
Qed.
Lemma rep_found s t : rep s t -> forall id, id ∈ ids t -> is_Some (s !! id).
Proof.
  induction t as [id l IH] using tree_induction. intros [(e & He & _) Hrl]%index_rep_node i [->|Hi]%elem_of_cons; [by exists e|].
  apply elem_flat_map in Hi as (t & Ht & Hi). rewrite Forall_forall in IH, Hrl. by apply (IH t Ht (Hrl t Ht)).
Qed.
Lemma below_size s t : rep s t -> NoDup (ids t) -> (length (below [] t) < size s)%nat.
Proof.
  intros Hr Hn. assert (Hle : (length (ids t) <= size s)%nat).
  { rewrite <- (size_dom (D := gset Z)), <- (size_list_to_set (C := gset Z) (ids t) Hn). apply subseteq_size. intros i Hi.
    apply elem_of_list_to_set in Hi. apply elem_of_dom. by apply (rep_found s t). }
  rewrite (ids_below t []) in Hle. cbn [length] in Hle. rewrite length_map in Hle. unfold lt. exact Hle.
Qed.
Lemma level_app st id l k : forall i, level st id i (l ++ k) = level st id i l ++ level st id (i + length l) k.
Proof.
  induction l as [|t l IH]; intros i; [by rewrite Nat.add_0_r|]. cbn [app level length]. rewrite IH, <- app_assoc.
  by replace (S i + length l)%nat with (i + S (length l))%nat by lia.
Qed.
Lemma placed_suffix T fr t : placed T fr t -> exists pre, below [] T = pre ++ below (stack_of fr) t ++ rest fr.
Proof.
  induction 1 as [|fr p i k Hp [pre IH] Hk]; [exists []; cbn; by rewrite app_nil_r|]. rewrite IH, (below_level (stack_of fr) p).
  replace (level (stack_of fr) (root p) 0 (kids_of p)) with (level (stack_of fr) (root p) 0 (take i (kids_of p) ++ k :: drop (S i) (kids_of p)))
    by (by rewrite (take_drop_middle _ _ _ Hk)).
  rewrite level_app, length_take_le by (apply lookup_lt_Some in Hk; lia). cbn [level Nat.add rest].
  change (stack_of ((p, i) :: fr)) with ((root p, i) :: stack_of fr).
  exists (pre ++ level (stack_of fr) (root p) 0 (take i (kids_of p)) ++ [(root k, (root p, i) :: stack_of fr)]).
  rewrite <- !app_assoc. cbn [app]. by rewrite <- !app_assoc.
Qed.
Lemma stands_suffix T s it pending : stands T s it pending -> exists pre, below [] T = pre ++ pending.
Proof. intros [it' _|fr t Hp _]; [exists (below [] T); by rewrite app_nil_r|by apply placed_suffix]. Qed.
Lemma stands_length T s it pending : NoDup (ids T) -> rep s T -> stands T s it pending -> (length pending < size s)%nat.
Proof.
  intros Hn Hr (pre & E)%stands_suffix. assert (H := below_size _ _ Hr Hn). rewrite E, length_app in H. lia.
Qed.
(** Where an entry that is visited is. *)
Lemma level_placed T fr p : placed T fr p -> forall l i, drop i (kids_of p) = l ->
  Forall (fun k => forall fr, placed T fr k -> forall x, x ∈ below (stack_of fr) k -> exists fr' t', placed T fr' t' /\ fr' <> [] /\ x = (root t', stack_of fr')) l ->
  forall x, x ∈ level (stack_of fr) (root p) i l -> exists fr' t', placed T fr' t' /\ fr' <> [] /\ x = (root t', stack_of fr').
Proof.
  intros Hp l. induction l as [|k l IH]; intros i Hl HP x Hx; [by apply elem_of_nil in Hx|]. apply Forall_cons in HP as [Hk HP].
  assert (Hi : kids_of p !! i = Some k) by (rewrite <- (Nat.add_0_r i), <- lookup_drop, Hl; done).
  assert (Hpk : placed T ((p, i) :: fr) k) by (by constructor). cbn [level] in Hx.
  apply elem_of_cons in Hx as [->|[Hx|Hx]%elem_of_app]; [by exists ((p, i) :: fr), k|by apply (Hk ((p, i) :: fr) Hpk)|].
  apply (IH (S i)); [|done|done]. rewrite (drop_S _ _ _ Hi) in Hl. by injection Hl.
Qed.
Lemma below_placed T t : forall fr, placed T fr t -> forall x, x ∈ below (stack_of fr) t -> exists fr' t', placed T fr' t' /\ fr' <> [] /\ x = (root t', stack_of fr').
Proof.
  induction t as [id l IH] using tree_induction. intros fr Hp x Hx. rewrite below_level in Hx. by apply (level_placed T fr (Tree id l) Hp l 0 eq_refl IH).
Qed.
