(* ===== verification/HelpIndexText.v ===== *)
(** * The text of the index
    The segments of the page are, one after the other, the paragraphs of the entries that
    a walk visits; a space stands before each group but at the beginning of a segment. *)
From S2P Require Import Prelude JsString JsNum HelpString HelpBooks HelpScore HelpTree HelpOutline HelpContents HelpIndex HelpIndexPage HelpIndexWalk.
Open Scope Z_scope.

(** ** Texts do not depend on what is sorted *)
Section text.
Context (v : viewer) (opt : settings).

Lemma fixed_fields e e' : fixed e = fixed e' ->
  mGroupID e = mGroupID e' /\ mText e = mText e' /\ mBookLinks e = mBookLinks e' /\ mSeeAlsoKey e = mSeeAlsoKey e' /\
  mSeeAlsoTargetName e = mSeeAlsoTargetName e' /\ mSectionIndex e = mSectionIndex e' /\
  mSeeAlsoTargetGroupID e = mSeeAlsoTargetGroupID e'.
Proof. destruct e, e'. unfold fixed, set_children. cbn. by intros [= -> -> -> -> -> -> -> ->]. Qed.
Lemma text_of_fixed e e' : fixed e = fixed e' -> text_of e = text_of e'.
Proof. intros (_ & H & _)%fixed_fields. unfold text_of. by rewrite H. Qed.
Lemma mbGroup_fixed e e' : fixed e = fixed e' -> mbGroup e = mbGroup e'.
Proof. intros (H & _)%fixed_fields. unfold mbGroup. by rewrite H. Qed.
Lemma around_fixed title info e e' : fixed e = fixed e' -> around v title info e = around v title info e'.
Proof.
  intros H. assert (Hg := mbGroup_fixed _ _ H). apply fixed_fields in H as (_ & _ & Hl & Hk & Ht & Hs & _).
  unfold around, anchor_name. by rewrite Hg, Hl, Hk, Ht, Hs.
Qed.
Lemma title_text_same s s' parents e e' : same s s' -> fixed e = fixed e' -> title_text opt s parents e = title_text opt s' parents e'.
Proof.
  intros Hs He. unfold title_text. rewrite (text_of_fixed _ _ He). erewrite mapM_ext; [done|]. intros p. cbn.
  destruct (s !! p) as [pe|] eqn:Ep.
  - destruct (same_lookup _ _ _ _ Hs Ep) as (pe' & -> & Hf & _). cbn. by rewrite (text_of_fixed _ _ Hf), (mbGroup_fixed _ _ Hf).
  - assert (H := same_at _ _ Hs p). rewrite Ep in H. by destruct (s' !! p).
Qed.
Lemma paragraph_same s s' base st e e' : same s s' -> fixed e = fixed e' -> paragraph v opt s base st e = paragraph v opt s' base st e'.
Proof.
  intros Hs He. unfold paragraph, access_title. rewrite (title_text_same s s' _ e e' Hs He).
  destruct (mbAccessible v); [destruct (title_text opt s' _ e')|]; cbn [mbind option_bind]; try done;
    by rewrite (around_fixed _ _ _ _ He), (text_of_fixed _ _ He).
Qed.
Lemma paragraph_drawn s base st e : Forall (fun '(p, _) => is_Some (s !! p)) st -> exists t, paragraph v opt s base st e = Some t /\ t <> "".
Proof.
  intros H. unfold paragraph.
  assert (Ht : exists t, access_title v opt s (rev (map fst st)) e = Some t).
  { unfold access_title, title_text. case_if; [|by eexists].
    assert (Hp : is_Some (mapM (fun p => pe ← s !! p; Some (if (p =? top_id) || mbGroup pe then "" else text_of pe +++ mAccessibilityListSeparator opt +++ " ")) (rev (map fst st)))).
    { apply mapM_is_Some, Forall_forall. intros p Hp. rewrite list_elem_of_In, <- in_rev, <- list_elem_of_In in Hp.
      apply list_elem_of_fmap in Hp as ([q i] & -> & Hq). rewrite Forall_forall in H. destruct (H _ Hq) as [pe Hpe]. cbn. rewrite Hpe. by eexists. }
    destruct Hp as [ps ->]. by eexists. }
  destruct Ht as [t ->]. cbn [mbind option_bind]. destruct (around v t _ e) as [prefix suffix]. by eexists.
Qed.

(** ** The segments *)
Context (s0 : store) (base : string).
Definition para_text (x : visit) : string := default "" (e ← s0 !! fst x; paragraph v opt s0 base (snd x) e).
Definition is_group (x : visit) : bool := match s0 !! fst x with Some e => mbGroup e | None => false end.
(** A segment; [b]: something stands before. *)
Fixpoint chunk (b : bool) (l : list visit) : string :=
  match l with [] => "" | x :: l => (if is_group x && b then space else "") +++ para_text x +++ chunk true l end.

Lemma same_size s s' : same s s' -> size s = size s'.
Proof.
  intros H. assert (E : shape <$> s = shape <$> s') by (apply map_eq; intros i; rewrite !lookup_fmap; apply (same_at _ _ H)).
  by rewrite <- (map_size_fmap shape s), E, map_size_fmap.
Qed.

Section writing.
Context (T : tree) (Hn : NoDup (ids T)) (Hrep : rep s0 T).
Definition stacks_sorted (s : store) (l : list visit) : Prop := Forall (fun x => Forall (fun '(p, _) => is_sorted s p) (snd x)) l.
Lemma stacks_later s s' l : later s s' -> stacks_sorted s l -> stacks_sorted s' l.
Proof.
  intros [_ H] Hl. eapply Forall_impl; [done|]. intros x Hx. eapply Forall_impl; [exact Hx|]. intros [p i]. apply H.
Qed.

Lemma visit_drawn s id st e : same s0 s -> s !! id = Some e -> Forall (fun '(p, _) => is_sorted s p) st ->
  paragraph v opt s base st e = Some (para_text (id, st)) /\ para_text (id, st) <> "" /\ is_group (id, st) = mbGroup e.
Proof.
  intros Hs He Hst. symmetry in Hs. destruct (same_lookup _ _ _ _ Hs He) as (e0 & He0 & Hf & _).
  destruct (paragraph_drawn s base st e) as (t & Ht & Hne).
  { eapply Forall_impl; [done|]. intros [p i] (pe & Hp & _). by eexists. }
  assert (E : para_text (id, st) = t).
  { unfold para_text. cbn [fst snd]. rewrite He0. cbn [mbind option_bind]. assert (Hp := paragraph_same s s0 base st e e0 Hs (eq_sym Hf)). rewrite <- Hp, Ht. done. }
  rewrite E, Ht. split_and!; [done|done|]. unfold is_group. cbn [fst]. rewrite He0. by apply mbGroup_fixed.
Qed.
Lemma index_loop_writes : forall pending n s it b t, (length pending < n)%nat -> same s0 s -> stands T s it pending -> holds b t ->
  exists pre post s' it' b', pending = pre ++ post /\ advance_loop v opt n base s it b = Some (s', it', b') /\ holds b' (t +++ chunk (negb (String.eqb t "")) pre) /\ later s s' /\ stands T s' it' post /\ stacks_sorted s' pre /\ (post = [] \/ mMaxHTMLSegmentSize v <= fSize b') /\ Forall (fun x => para_text x <> "") pre.
Proof.
  induction pending as [|[id st] more IH]; intros n s it b t Hlen Hs Hst Hb; (destruct n as [|n]; [cbn in Hlen; lia|]); cbn [advance_loop].
  - destruct (fSize b <? mMaxHTMLSegmentSize v); [|exists [], [], s, it, b; cbn; rewrite sapp_nil_r; split_and!; auto; [done|constructor]].
    assert (Hr : rep s T) by (by rewrite <- Hs). destruct (Advance_stands T Hn s it [] Hr Hst) as (s' & it' & -> & Hl & Hst' & He).
    cbn [mbind option_bind]. exists [], [], s', it', b. cbn. rewrite sapp_nil_r. split_and!; auto. constructor.
  - destruct (fSize b <? mMaxHTMLSegmentSize v) eqn:Em; bool_to_prop;
      [|exists [], ((id, st) :: more), s, it, b; cbn; rewrite sapp_nil_r; split_and!; auto; [done|constructor]].
    assert (Hr : rep s T) by (by rewrite <- Hs). destruct (Advance_stands T Hn s it _ Hr Hst) as (s1 & it1 & -> & Hl & Hst' & He & Hk & Hsort).
    cbn [mbind option_bind tail] in *. rewrite He. assert (Hs1 : same s0 s1) by (etransitivity; [done|apply Hl]).
    assert (Hin : exists e, s1 !! id = Some e).
    { inversion Hst' as [it2 He2 E1 E2|fr t1 Hp Hf E1 E2]; subst; [congruence|]. cbn in He. injection He as <-.
      assert (Hr1 : rep s1 T) by (by rewrite <- Hs1). destruct (rep_linked _ _ (placed_rep T s1 _ _ Hr1 Hp)) as (e & Hee & _). by exists e. }
    destruct Hin as [e Hee]. rewrite Hee. cbn [mbind option_bind]. rewrite Hk.
    destruct (visit_drawn s1 id st e Hs1 Hee Hsort) as (-> & Hne & Hg). cbn [mbind option_bind].
    set (b1 := if mbGroup e && negb (fSize b =? 0) then fAppend space b else b).
    set (sp := if is_group (id, st) && negb (String.eqb t "") then space else "").
    assert (Hb1 : holds b1 (t +++ sp)).
    { unfold b1, sp. rewrite Hg, (holds_size _ _ Hb). assert (Ez : (slen t =? 0) = String.eqb t "") by (by destruct t).
      rewrite Ez. case_if; [by apply holds_append|by rewrite sapp_nil_r]. }
    destruct (IH n s1 it1 (fAppend (para_text (id, st)) b1) ((t +++ sp) +++ para_text (id, st)))
      as (pre & post & s' & it' & b' & -> & HL & Hh & Hl' & Hst2 & Hpre & Hend); [cbn in Hlen; lia|done|done|by apply holds_append|].
    exists ((id, st) :: pre), post, s', it', b'. split; [done|]. split; [done|]. split.
    { cbn [chunk]. fold sp. assert (E : String.eqb ((t +++ sp) +++ para_text (id, st)) "" = false).
      { apply String.eqb_neq. intros E. apply Hne. destruct (t +++ sp); [done|done]. }
      rewrite E in Hh. cbn [negb] in Hh. by rewrite !sapp_assoc in Hh. }
    split; [by etransitivity|]. split; [done|]. split; [|split; [apply Hend|constructor; [done|apply Hend]]]. constructor; [|done].
    cbn [snd]. eapply Forall_impl; [exact Hsort|]. intros [p i]. apply Hl'.
Qed.

(** All segments of the page. *)
Context (Hmax : 0 < mMaxHTMLSegmentSize v).
Lemma segments_spec : forall n pending x b, (length pending < n)%nat -> (length pending <= size s0)%nat ->
  same s0 (mEntries x) -> stands T (mEntries x) (mIterator x) pending -> (exists t, holds (mHTMLSegment x) t) ->
  mbThresholdExceeded x = Some b -> base = (if b then Z_to_string (mSectionIndexShown x) else "") ->
  exists chunks s' it' buf, write_segments v opt n x = Some (map (chunk false) chunks, set_page s' it' buf x) /\ concat chunks = pending /\ Forall (fun c => c <> []) chunks /\ later (mEntries x) s' /\ stacks_sorted s' pending /\ (exists t, holds buf t).
Proof.
  induction n as [|n IH]; intros pending x b Hlen Hsz Hs Hst [t0 Hb] Hth Hbase; [lia|]. cbn [write_segments].
  unfold AdvanceHTMLSegment, ThresholdExceeded. rewrite Hth. cbn [default from_option id].
  assert (Ex : set_memo (Some b) (mSectionCache x) x = x) by (destruct x; cbn in *; by subst). rewrite Ex, <- Hbase.
  destruct (index_loop_writes pending (enough (mEntries x)) (mEntries x) (mIterator x) (fReset (mHTMLSegment x)) "")
    as (pre & post & s1 & it1 & b1 & -> & HL & Hh & Hl & Hst1 & Hpre & Hend & Htexts); [unfold enough; rewrite <- (same_size _ _ Hs); lia|done|done|by eapply holds_reset|].
  rewrite HL. cbn [mbind option_bind String.append negb String.eqb] in *. assert (Hz := holds_size _ _ Hh).
  destruct (Z.ltb_spec 0 (fSize b1)) as [Hlt|Hge].
  - unfold GetHTMLSegment. cbn [mHTMLSegment mIterator mEntries set_page]. destruct (holds_get _ _ Hh) as [Ht Hh'].
    destruct (fGetBuffer b1) as [t b2]. cbn [fst snd] in Ht, Hh'. subst t.
    assert (Hp : pre <> []) by (intros ->; cbn in Hz; unfold slen in Hz; cbn in Hz; lia).
    destruct (IH post (set_page s1 it1 b2 (set_page s1 it1 b1 x)) b) as (chunks & s2 & it2 & b3 & HW & Hc & Hne & Hl2 & Hsort & Hb3).
    { rewrite length_app in Hlen. destruct pre; [done|cbn in Hlen; lia]. }
    { rewrite length_app in Hsz. lia. }
    { etransitivity; [exact Hs|apply Hl]. }
    { done. } { by eexists. } { done. } { done. }
    rewrite HW. cbn [mbind option_bind]. exists (pre :: chunks), s2, it2, b3. split; [done|]. cbn [concat]. rewrite Hc. split; [done|].
    split; [by constructor|]. split; [by etransitivity|]. split; [|done]. apply Forall_app. split; [by eapply stacks_later|done].
  - assert (Hp : pre = []).
    { destruct pre as [|[id st] pre]; [done|]. cbn [chunk] in Hz. exfalso. rewrite !slen_app in Hz. apply Forall_cons in Hpre as [Hsort _].
      apply Forall_cons in Htexts as [Hne _].
      assert (0 < slen (para_text (id, st))) by (destruct (para_text (id, st)); [done|unfold slen; cbn; lia]).
      assert (H2 := slen_nonneg (chunk true pre)). rewrite andb_false_r in Hz. change (slen "") with 0 in Hz. lia. }
    subst pre. destruct Hend as [->|Hend]; [|lia]. exists [], s1, it1, b1. split_and!; try done. by eexists.
Qed.
End writing.
End text.
