(* ===== verification/HelpIndexLoad.v ===== *)
(** * Loading the index
    The calls of the books' data files make the entries that the data describe: one for
    each path of keys, with the text and the kind of the first call for the path and the
    links of all of them. *)
From S2P Require Import Prelude JsString JsNum HelpString HelpBooks HelpScore HelpTree HelpOutline HelpContents HelpIndex HelpIndexSort HelpIndexPage HelpIndexWalk.
Open Scope Z_scope.
#[local] Set Warnings "-clear-no-such-hyp".

(** ** What the data describe *)
Abbreviation path := (list string).
Abbreviation occurrence := (path * (Z * item))%type.
(** The calls of an item of book [b] on the entry at [p], with their paths. *)
Fixpoint occurrences (b : Z) (p : path) (i : item) : list occurrence :=
  (p ++ [item_key i], (b, i)) :: flat_map (occurrences b (p ++ [item_key i])) (i_inside i).
Definition occs_of (b : Z) (p : path) (l : list item) : list occurrence := flat_map (occurrences b p) l.
Fixpoint book_occs (b : Z) (l : list (Z * list item)) : list occurrence :=
  match l with [] => [] | (_, items) :: l => occs_of b [] items ++ book_occs (b + 1) l end.
Definition at_path (p : path) (o : list occurrence) : list (Z * item) := map snd (filter (fun x => fst x = p) o).
(** The links of several calls for one entry. *)
Definition add_call (h : option (gmap Z (list string))) (c : Z * item) : option (gmap Z (list string)) :=
  match item_links (snd c) with
  | Some l => Some (<[fst c := default [] (default ∅ h !! fst c) ++ l]> (default ∅ h))
  | None => h
  end.
Definition all_links (l : list (Z * item)) : option (gmap Z (list string)) := fold_left add_call l None.
(** The entry that calls for one path make. *)
Definition merged (id : Z) (l : list (Z * item)) : entry :=
  match l with
  | [] => top_entry
  | (_, i) :: _ =>
      Entry (match given (i_tag i) with Some _ => Some id | None => None end) (i_text i) (all_links l) None None
        (see_also_key i) (see_also_group_key i) None None None
  end.

Lemma at_path_app p o o' : at_path p (o ++ o') = at_path p o ++ at_path p o'.
Proof. unfold at_path. by rewrite filter_app, map_app. Qed.
Lemma at_path_one p c : at_path p [(p, c)] = [c].
Proof. unfold at_path. by rewrite filter_cons_True. Qed.
Lemma at_path_other p q c : q <> p -> at_path p [(q, c)] = [].
Proof. intros H. unfold at_path. by rewrite filter_cons_False. Qed.
Lemma all_links_snoc l c : all_links (l ++ [c]) = add_call (all_links l) c.
Proof. unfold all_links. by rewrite fold_left_app. Qed.
Lemma add_links_call l b i e : item_links i = Some l -> mBookLinks (add_links l b e) = add_call (mBookLinks e) (b, i).
Proof. intros H. unfold add_call. cbn [fst snd]. by rewrite H. Qed.

(** ** The invariant of loading: [m] says where the entries are *)
Record loaded (m : gmap Z path) (o : list occurrence) (s : store) (count : Z) (see : option (list Z)) : Prop := {
  ld_top : m !! top_id = Some [];
  ld_dom : forall id, is_Some (m !! id) <-> is_Some (s !! id);
  ld_inj : forall i j p, m !! i = Some p -> m !! j = Some p -> i = j;
  ld_range : forall id p, m !! id = Some p -> top_id <= id < count;
  ld_array : forall id e, s !! id = Some e -> mChildrenSortArray e = None /\ mChildren e <> Some ∅;
  ld_kids : forall id p e, m !! id = Some p -> s !! id = Some e ->
    forall k c, default ∅ (mChildren e) !! k = Some c <-> m !! c = Some (p ++ [k]);
  ld_less : forall a c p k, m !! a = Some p -> m !! c = Some (p ++ [k]) -> a < c;
  ld_parent : forall c p k, m !! c = Some (p ++ [k]) -> key_ok k /\ exists a, m !! a = Some p;
  ld_entry : forall id p e, m !! id = Some p -> s !! id = Some e -> fixed e = merged id (at_path p o);
  ld_paths : forall p, at_path p o <> [] <-> p <> [] /\ exists id, m !! id = Some p;
  ld_see : exists l, see = Some l /\ NoDup l /\ forall id, id ∈ l <-> exists e, s !! id = Some e /\ is_Some (mSeeAlsoKey e)
}.
Lemma loaded_new : loaded {[top_id := []]} [] (mEntries new_index) (mEntryCount new_index) (mSeeAlsoArray new_index).
Proof.
  unfold new_index. cbn [mEntries mEntryCount mSeeAlsoArray]. split.
  - by rewrite lookup_singleton_eq.
  - intros id. destruct (decide (id = top_id)) as [->|H]; [by rewrite !lookup_singleton_eq|by rewrite !lookup_singleton_ne].
  - intros i j p [<- _]%lookup_singleton_Some [<- _]%lookup_singleton_Some. done.
  - intros id p [<- _]%lookup_singleton_Some. unfold top_id. lia.
  - intros id e [<- <-]%lookup_singleton_Some. done.
  - intros id p e [<- <-]%lookup_singleton_Some [_ <-]%lookup_singleton_Some k c. cbn. rewrite lookup_empty.
    split; [done|]. by intros [_ ?]%lookup_singleton_Some.
  - intros a c p k [_ <-]%lookup_singleton_Some [_ ?]%lookup_singleton_Some. done.
  - intros c p k [_ H]%lookup_singleton_Some. by destruct p.
  - intros id p e [_ <-]%lookup_singleton_Some [_ <-]%lookup_singleton_Some. done.
  - intros p. split; [done|]. intros [H (id & [_ <-]%lookup_singleton_Some)]. done.
  - exists []. split; [done|]. split; [constructor|]. intros id. split; [by intros ?%elem_of_nil|].
    intros (e & [_ <-]%lookup_singleton_Some & [k Hk]). done.
Qed.
Lemma snoc_inj (p q : path) j k : p ++ [j] = q ++ [k] -> p = q /\ j = k.
Proof. apply app_inj_tail. Qed.

(** A call for a new path. *)
Section fresh.
Context (m : gmap Z path) (o : list occurrence) (s : store) (n : Z) (see : list Z).
Context (L : loaded m o s n (Some see)).
Context (parent : Z) (p : path) (pe : entry) (i : item) (b : Z).
Context (Hp : m !! parent = Some p) (Hpe : s !! parent = Some pe).
Let k := item_key i.
Let h := default ∅ (mChildren pe).
Let q := p ++ [k].
Context (Hfresh : h !! k = None).
Let m' := <[n := q]> m.
Let s' := <[n := new_entry i n b]> (<[parent := set_children (Some (<[k := n]> h)) (mChildrenSortArray pe) pe]> s).

Lemma fresh_id : m !! n = None /\ s !! n = None /\ parent <> n.
Proof.
  assert (H : m !! n = None) by (destruct (m !! n) as [r|] eqn:E; [apply (ld_range _ _ _ _ _ L) in E; lia|done]).
  split; [done|]. split; [|congruence]. apply eq_None_not_Some. rewrite <- (ld_dom _ _ _ _ _ L). by rewrite H.
Qed.
Lemma fresh_path id : m !! id <> Some q.
Proof. intros H. apply (ld_kids _ _ _ _ _ L _ _ _ Hp Hpe) in H. fold h in H. congruence. Qed.
Lemma fresh_calls : at_path q o = [].
Proof.
  destruct (at_path q o) eqn:E; [done|]. assert (H : at_path q o <> []) by (by rewrite E).
  apply (ld_paths _ _ _ _ _ L) in H as [_ [id H]]. by destruct (fresh_path id).
Qed.
Lemma lookup_m' id r : m' !! id = Some r <-> (id = n /\ r = q) \/ (id <> n /\ m !! id = Some r).
Proof.
  unfold m'. destruct (decide (id = n)) as [->|H]; [rewrite lookup_insert_eq|rewrite lookup_insert_ne by done].
  - split; [by intros [= ->]; left|]. by intros [[_ ->]|[? _]].
  - split; [by right|]. by intros [[? _]|[_ ?]].
Qed.
Lemma lookup_s' id e : s' !! id = Some e ->
  (id = n /\ e = new_entry i n b) \/ (id = parent /\ e = set_children (Some (<[k := n]> h)) (mChildrenSortArray pe) pe) \/
  (id <> n /\ id <> parent /\ s !! id = Some e).
Proof.
  unfold s'. destruct (decide (id = n)) as [->|H1]; [rewrite lookup_insert_eq|rewrite lookup_insert_ne by done].
  - intros [= <-]. by left.
  - destruct (decide (id = parent)) as [->|H2]; [rewrite lookup_insert_eq|rewrite lookup_insert_ne by done].
    + intros [= <-]. right. by left.
    + intros H. by right; right.
Qed.
Lemma fresh_kids id r e : m' !! id = Some r -> s' !! id = Some e ->
  forall j c, default ∅ (mChildren e) !! j = Some c <-> m' !! c = Some (r ++ [j]).
Proof.
  intros Hr He j c. rewrite lookup_m'. destruct fresh_id as (Hmn & Hsn & Hpn). apply lookup_m' in Hr.
  destruct (lookup_s' _ _ He) as [[-> ->]|[[-> ->]|(H1 & H2 & He')]].
  - destruct Hr as [[_ ->]|[? _]]; [|done]. cbn [new_entry mChildren default from_option id]. rewrite lookup_empty. split; [done|].
    intros [[_ E]|[_ E]].
    + apply (f_equal length) in E. unfold q in E. rewrite !length_app in E. cbn in E. lia.
    + apply (ld_parent _ _ _ _ _ L) in E as [_ [a Ha]]. by destruct (fresh_path a).
  - destruct Hr as [[? _]|[_ Hr]]; [done|]. assert (r = p) as -> by congruence. cbn [set_children mChildren default from_option id].
    destruct (decide (j = k)) as [->|Hj].
    + rewrite lookup_insert_eq. split.
      * intros [= <-]. left. done.
      * intros [[-> _]|[_ H]]; [done|]. by destruct (fresh_path c).
    + rewrite lookup_insert_ne by done. fold h. unfold h. rewrite (ld_kids _ _ _ _ _ L _ _ _ Hp Hpe). split.
      * intros H. right. split; [|done]. intros ->. congruence.
      * intros [[_ E]|[_ H]]; [|done]. apply snoc_inj in E as [_ ?]. congruence.
  - destruct Hr as [[? _]|[_ Hr]]; [done|]. rewrite (ld_kids _ _ _ _ _ L _ _ _ Hr He'). split.
    + intros H. right. split; [|done]. intros ->. congruence.
    + intros [[_ E]|[_ H]]; [|done]. apply snoc_inj in E as [-> _]. destruct H2. by eapply (ld_inj _ _ _ _ _ L).
Qed.
Lemma fresh_entry id r e : m' !! id = Some r -> s' !! id = Some e -> fixed e = merged id (at_path r (o ++ [(q, (b, i))])).
Proof.
  intros Hr He. rewrite at_path_app. apply lookup_m' in Hr. destruct fresh_id as (Hmn & Hsn & Hpn).
  destruct (lookup_s' _ _ He) as [[-> ->]|[[-> ->]|(H1 & H2 & He')]].
  - destruct Hr as [[_ ->]|[? _]]; [|done]. rewrite fresh_calls, at_path_one. cbn [app merged]. unfold all_links, add_call, new_entry, fixed, set_children. cbn.
    destruct (item_links i); [|done]. cbn. by rewrite lookup_empty.
  - destruct Hr as [[? _]|[_ Hr]]; [done|]. assert (r = p) as -> by congruence. rewrite at_path_other, app_nil_r.
    + change (fixed pe = merged parent (at_path p o)). by apply (ld_entry _ _ _ _ _ L).
    + intros E. apply (fresh_path parent). by rewrite Hp, E.
  - destruct Hr as [[? _]|[_ Hr]]; [done|]. rewrite at_path_other, app_nil_r; [by apply (ld_entry _ _ _ _ _ L)|].
    intros <-. by destruct (fresh_path id).
Qed.
Lemma fresh_see see' : see' = (match see_also_key i with Some _ => see ++ [n] | None => see end) ->
  NoDup see' /\ forall id, id ∈ see' <-> exists e, s' !! id = Some e /\ is_Some (mSeeAlsoKey e).
Proof.
  intros Hsee. destruct fresh_id as (Hmn & Hsn & Hpn). destruct (ld_see _ _ _ _ _ L) as (l & [= <-] & Hnd & Hl).
      assert (Hnl : n ∉ see) by (rewrite Hl; intros (e & He & _); congruence).
      assert (Hold : forall id, id <> n -> (id ∈ see <-> exists e, s' !! id = Some e /\ is_Some (mSeeAlsoKey e))).
      { intros id Hid. rewrite Hl. unfold s'. rewrite lookup_insert_ne by done.
        destruct (decide (id = parent)) as [->|H2]; [rewrite lookup_insert_eq, Hpe|by rewrite lookup_insert_ne].
        split; intros (e & [= <-] & He); by eexists. }
      assert (Hnew : (exists e, s' !! n = Some e /\ is_Some (mSeeAlsoKey e)) <-> is_Some (see_also_key i)).
      { unfold s'. rewrite lookup_insert_eq. split; [by intros (e & [= <-] & ?)|]. intros H. by exists (new_entry i n b). }
      subst see'. destruct (see_also_key i).
      + split; [apply NoDup_app; split_and!; [done|set_solver|apply NoDup_singleton]|]. intros id. rewrite elem_of_app, list_elem_of_singleton.
        destruct (decide (id = n)) as [->|Hid]; [rewrite Hnew; naive_solver|rewrite <- (Hold id Hid); naive_solver].
      + split; [done|]. intros id. destruct (decide (id = n)) as [->|Hid]; [|by apply Hold]. rewrite Hnew. split; [done|by intros [? ?]].
Qed.
Lemma loaded_fresh see' : see' = (match see_also_key i with Some _ => see ++ [n] | None => see end) ->
  loaded m' (o ++ [(q, (b, i))]) s' (n + 1) (Some see').
Proof.
  intros Hsee. destruct fresh_id as (Hmn & Hsn & Hpn). assert (Hrange := ld_range _ _ _ _ _ L). split.
  - apply lookup_m'. right. split; [|apply (ld_top _ _ _ _ _ L)]. assert (H := Hrange _ _ Hp). unfold top_id in *. lia.
  - intros id. unfold m', s'. destruct (decide (id = n)) as [->|H1]; [by rewrite !lookup_insert_eq|]. rewrite !lookup_insert_ne by done.
    rewrite (ld_dom _ _ _ _ _ L). destruct (decide (id = parent)) as [->|H2]; [by rewrite lookup_insert_eq, Hpe|by rewrite lookup_insert_ne].
  - intros a c r [[-> ->]|[? Ha]]%lookup_m' [[-> E]|[? Hc]]%lookup_m'; try done.
    + by destruct (fresh_path c).
    + subst r. by destruct (fresh_path a).
    + by eapply (ld_inj _ _ _ _ _ L).
  - intros id r [[-> _]|[_ H]]%lookup_m'; [apply Hrange in Hp; lia|apply Hrange in H; lia].
  - intros id e He. destruct (lookup_s' _ _ He) as [[-> ->]|[[-> ->]|(_ & _ & He')]].
    + done.
    + cbn. split; [by apply (ld_array _ _ _ _ _ L _ _ Hpe)|]. intros [= E]. by apply insert_non_empty in E.
    + by apply (ld_array _ _ _ _ _ L _ _ He').
  - apply fresh_kids.
  - intros a c r j [[-> ->]|[Ha Hra]]%lookup_m' [[-> E]|[Hc Hrc]]%lookup_m'.
    + apply (f_equal length) in E. unfold q in E. rewrite !length_app in E. cbn in E. lia.
    + apply (ld_parent _ _ _ _ _ L) in Hrc as [_ [d Hd]]. by destruct (fresh_path d).
    + apply Hrange in Hra. lia.
    + by eapply (ld_less _ _ _ _ _ L).
  - intros c r j [[-> E]|[_ H]]%lookup_m'.
    + apply snoc_inj in E as [-> ->]. split; [apply item_key_ok|]. exists parent. apply lookup_m'. by right.
    + apply (ld_parent _ _ _ _ _ L) in H as [? [a Ha]]. split; [done|]. exists a. apply lookup_m'. right. split; [|done].
      intros ->. congruence.
  - apply fresh_entry.
  - intros r. rewrite at_path_app. destruct (decide (r = q)) as [->|Hr].
    + rewrite at_path_one. split; [|by destruct (at_path q o)]. intros _. split; [by destruct p|]. exists n. apply lookup_m'. by left.
    + rewrite at_path_other, app_nil_r by done. rewrite (ld_paths _ _ _ _ _ L). split; intros [? [id Hid]]; (split; [done|]).
      * exists id. apply lookup_m'. right. split; [|done]. intros ->. congruence.
      * apply lookup_m' in Hid as [[_ ?]|[_ ?]]; [done|]. by exists id.
  - exists see'. split; [done|]. by apply fresh_see.
Qed.
End fresh.

(** A call for a path that has an entry. *)
Section again.
Context (m : gmap Z path) (o : list occurrence) (s : store) (n : Z) (see : option (list Z)).
Context (L : loaded m o s n see).
Context (p : path) (c : Z) (e : entry) (i : item) (b : Z).
Let q := p ++ [item_key i].
Context (Hc : m !! c = Some q) (He : s !! c = Some e).
Let e' := match item_links i with Some l => add_links l b e | None => e end.

Lemma again_kept : mChildren e' = mChildren e /\ mChildrenSortArray e' = mChildrenSortArray e /\ mSeeAlsoKey e' = mSeeAlsoKey e.
Proof. unfold e'. by destruct (item_links i). Qed.
Lemma again_calls : exists b0 i0 l, at_path q o = (b0, i0) :: l.
Proof.
  assert (H : at_path q o <> []) by (apply (ld_paths _ _ _ _ _ L); split; [by destruct p|by exists c]).
  destruct (at_path q o) as [|[b0 i0] l]; [done|]. by exists b0, i0, l.
Qed.
Lemma again_entry : fixed e' = merged c (at_path q o ++ [(b, i)]).
Proof.
  destruct again_calls as (b0 & i0 & l & E). assert (H := ld_entry _ _ _ _ _ L _ _ _ Hc He). rewrite E in *. cbn [app merged] in *.
  change ((b0, i0) :: l ++ [(b, i)]) with (((b0, i0) :: l) ++ [(b, i)]). rewrite all_links_snoc. destruct e as [g t h ch ca sk sg tn tg si].
  unfold fixed, set_children in H. cbn in H. injection H as -> -> -> -> -> -> -> ->. unfold e', add_call. cbn [fst snd].
  destruct (item_links i); done.
Qed.
Lemma lookup_again id x : <[c := e']> s !! id = Some x -> exists y, s !! id = Some y /\ mChildren x = mChildren y /\
  mChildrenSortArray x = mChildrenSortArray y /\ mSeeAlsoKey x = mSeeAlsoKey y.
Proof.
  destruct (decide (id = c)) as [->|H]; [rewrite lookup_insert_eq|rewrite lookup_insert_ne by done; intros Hx; by exists x].
  intros [= <-]. exists e. split; [done|]. apply again_kept.
Qed.
Lemma loaded_again : loaded m (o ++ [(q, (b, i))]) (<[c := e']> s) n see.
Proof.
  split.
  - apply (ld_top _ _ _ _ _ L).
  - intros id. rewrite (ld_dom _ _ _ _ _ L). destruct (decide (id = c)) as [->|H]; [by rewrite lookup_insert_eq, He|by rewrite lookup_insert_ne].
  - apply (ld_inj _ _ _ _ _ L).
  - apply (ld_range _ _ _ _ _ L).
  - intros id x (y & Hy & -> & -> & _)%lookup_again. by apply (ld_array _ _ _ _ _ L _ _ Hy).
  - intros id r x Hr (y & Hy & -> & _)%lookup_again. by apply (ld_kids _ _ _ _ _ L id).
  - apply (ld_less _ _ _ _ _ L).
  - apply (ld_parent _ _ _ _ _ L).
  - intros id r x Hr Hx. rewrite at_path_app. destruct (decide (id = c)) as [->|H].
    + rewrite lookup_insert_eq in Hx. injection Hx as <-. assert (r = q) as -> by congruence. rewrite at_path_one. apply again_entry.
    + rewrite lookup_insert_ne in Hx by done. rewrite at_path_other, app_nil_r; [by apply (ld_entry _ _ _ _ _ L)|].
      intros <-. apply H. by eapply (ld_inj _ _ _ _ _ L).
  - intros r. rewrite at_path_app. destruct (decide (r = q)) as [->|Hr].
    + rewrite at_path_one. split; [|by destruct (at_path q o)]. intros _. split; [by destruct p|]. by exists c.
    + rewrite at_path_other, app_nil_r by done. apply (ld_paths _ _ _ _ _ L).
  - destruct (ld_see _ _ _ _ _ L) as (l & E & Hnd & Hl). exists l. split; [done|]. split; [done|]. intros id. rewrite Hl.
    destruct (decide (id = c)) as [->|H]; [rewrite lookup_insert_eq, He|by rewrite lookup_insert_ne].
    destruct again_kept as (_ & _ & Hk). split; intros (x & [= <-] & Hx); [exists e'|exists e]; by rewrite Hk in *.
Qed.
End again.

(** ** Loading *)

(** What loading does not touch. *)
Definition aside (x : index) :=
  (mMaxLevel x, mInitIndex x, mbPanelInitialized x, mPanelAnchor x, mSectionIndexShown x, mbThresholdExceeded x,
   mSectionCache x, mIterator x, mHTMLSegment x, mClickedEntry x).
Definition loading (m : gmap Z path) (o : list occurrence) (x : index) : Prop :=
  loaded m o (mEntries x) (mEntryCount x) (mSeeAlsoArray x).

Lemma AddEntry_loading m o x parent p i : loading m o x -> m !! parent = Some p ->
  exists id m' x', AddEntry parent i x = Some (id, x') /\ loading m' (o ++ [(p ++ [item_key i], (mInitIndex x, i))]) x' /\
    m ⊆ m' /\ m' !! id = Some (p ++ [item_key i]) /\ aside x' = aside x.
Proof.
  intros L Hp. unfold loading in *. destruct (proj1 (ld_dom _ _ _ _ _ L parent) (ex_intro _ _ Hp)) as [pe Hpe].
  destruct (ld_see _ _ _ _ _ L) as (see & Hsee & _). assert (Harr := proj1 (ld_array _ _ _ _ _ L _ _ Hpe)).
  unfold AddEntry. rewrite Hpe. cbn [mbind option_bind]. destruct (default ∅ (mChildren pe) !! item_key i) as [c|] eqn:Eh.
  - assert (Hc := proj1 (ld_kids _ _ _ _ _ L _ _ _ Hp Hpe _ _) Eh). destruct (proj1 (ld_dom _ _ _ _ _ L c) (ex_intro _ _ Hc)) as [e He].
    assert (Es : <[parent := set_children (Some (default ∅ (mChildren pe))) (mChildrenSortArray pe) pe]> (mEntries x) = mEntries x).
    { apply insert_id. rewrite Hpe. destruct pe as [? ? ? [h|] ?]; [done|]. cbn in Eh. by rewrite lookup_empty in Eh. }
    rewrite Es, He. cbn [mbind option_bind]. exists c, m. eexists. split; [done|].
    assert (H := loaded_again _ _ _ _ _ L p c e i (mInitIndex x) Hc He).
    split; [|by destruct (item_links i)]. cbn. destruct (item_links i); [done|]. by rewrite insert_id in H.
  - rewrite Hsee. assert (L' := L). rewrite Hsee in L'.
    assert (H := loaded_fresh _ _ _ _ _ L' parent p pe i (mInitIndex x) Hp Hpe Eh _ eq_refl).
    exists (mEntryCount x), (<[mEntryCount x := p ++ [item_key i]]> m).
    assert (Hn : m !! mEntryCount x = None).
    { destruct (m !! mEntryCount x) as [r|] eqn:E; [apply (ld_range _ _ _ _ _ L) in E; lia|done]. }
    rewrite insert_insert_eq in *. destruct (see_also_key i) eqn:Ek; cbn [mbind option_bind]; eexists; (split; [done|]); cbn;
      (split; [done|]); (split; [by apply insert_subseteq|]); (split; [apply lookup_insert_eq|done]).
Qed.

Section item_ind.
Context (P : item -> Prop) (Hitem : forall i, Forall P (i_inside i) -> P i).
Fixpoint item_induction (i : item) : P i :=
  Hitem i ((fix all (l : list item) : Forall P l :=
              match l with [] => Forall_nil_2 P | i :: l => Forall_cons_2 P i l (item_induction i) (all l) end) (i_inside i)).
End item_ind.
Lemma add_item_eq parent i x : add_item parent i x = '(id, x) ← AddEntry parent i x; AddIndexEntries id (i_inside i) x.
Proof.
  destruct i as [? ? ? ? ? ? ? ? ? l]. cbn [add_item i_inside]. destruct (AddEntry _ _ _) as [[id y]|]; [|done]. cbn [mbind option_bind].
  revert y. induction l as [|i l IH]; intros y; [done|]. cbn [AddIndexEntries]. destruct (add_item id i y); [|done]. cbn. apply IH.
Qed.
Definition loads (f : index -> option index) (occs : Z -> list occurrence) (m : gmap Z path) : Prop :=
  forall m1 o x, m ⊆ m1 -> loading m1 o x ->
    exists m' x', f x = Some x' /\ loading m' (o ++ occs (mInitIndex x)) x' /\ m1 ⊆ m' /\ aside x' = aside x.
Lemma list_loads l : Forall (fun i => forall m parent p, m !! parent = Some p -> loads (add_item parent i) (fun b => occurrences b p i) m) l ->
  forall m parent p, m !! parent = Some p -> loads (AddIndexEntries parent l) (fun b => occs_of b p l) m.
Proof.
  induction 1 as [|i l Hi _ IH]; intros m parent p Hp m1 o x Hm L.
  - exists m1, x. cbn. by rewrite app_nil_r.
  - destruct (Hi m parent p Hp m1 o x Hm L) as (m2 & x2 & E & L2 & Hm2 & Ha). cbn [AddIndexEntries]. rewrite E. cbn [mbind option_bind].
    assert (Hi2 : mInitIndex x2 = mInitIndex x) by (unfold aside in Ha; congruence).
    destruct (IH m parent p Hp m2 _ x2 ltac:(by etransitivity) L2) as (m3 & x3 & -> & L3 & Hm3 & Ha3).
    exists m3, x3. split; [done|]. rewrite Hi2, <- app_assoc in L3. split; [done|]. split; [by etransitivity|congruence].
Qed.
Lemma item_loads i : forall m parent p, m !! parent = Some p -> loads (add_item parent i) (fun b => occurrences b p i) m.
Proof.
  induction i as [i IH] using item_induction. intros m parent p Hp m1 o x Hm L. rewrite add_item_eq.
  destruct (AddEntry_loading m1 o x parent p i L) as (id & m2 & x2 & E & L2 & Hm2 & Hid & Ha); [by eapply lookup_weaken|]. rewrite E. cbn [mbind option_bind].
  assert (Hi2 : mInitIndex x2 = mInitIndex x) by (unfold aside in Ha; congruence).
  destruct (list_loads _ IH m2 id (p ++ [item_key i]) Hid m2 _ x2 ltac:(done) L2) as (m3 & x3 & -> & L3 & Hm3 & Ha3).
  exists m3, x3. split; [done|]. rewrite Hi2, <- app_assoc in L3. destruct i. split; [done|]. split; [by etransitivity|congruence].
Qed.
Lemma AddIndexEntries_loading l m o x : loading m o x ->
  exists m' x', AddIndexEntries top_id l x = Some x' /\ loading m' (o ++ occs_of (mInitIndex x) [] l) x' /\ aside x' = aside x.
Proof.
  intros L. destruct (list_loads l ltac:(apply Forall_forall; intros; by apply item_loads) m top_id [] (ld_top _ _ _ _ _ L) m o x ltac:(done) L)
    as (m' & x' & ? & ? & _ & ?). by exists m', x'.
Qed.
