(* ===== verification/HelpIndexPaths.v ===== *)
(** * The index as a sorted tree of paths
    When all data are loaded the entries form a tree whose children are sorted by their
    keys.  A walk visits the paths below its scope, each once, in their order. *)
From Stdlib Require Import Sorted.
From S2P Require Import Prelude JsString JsNum HelpString HelpBooks HelpScore HelpTree HelpOutline HelpContents HelpIndex HelpIndexSort HelpIndexPage HelpIndexWalk HelpIndexLoad.
Open Scope Z_scope.
#[local] Set Warnings "-clear-no-such-hyp".

(** ** Lists without repetitions *)
Lemma sorted_NoDup {A} (R : A -> A -> Prop) {I : Irreflexive R} l : StronglySorted R l -> NoDup l.
Proof.
  induction 1 as [|a l _ IH Ha]; constructor; [|done]. intros Hin. rewrite Forall_forall in Ha. by apply (irreflexivity R a), Ha.
Qed.
Lemma NoDup_labels {A B} (f : A -> option B) l ps : Forall2 (fun x q => f x = Some q) l ps -> NoDup ps -> NoDup l.
Proof.
  induction 1 as [|x q l ps Hx Hl IH]; intros Hn; [constructor|]. apply NoDup_cons in Hn as [Hq Hn]. constructor; [|by apply IH].
  intros [i Hi]%list_elem_of_lookup. destruct (Forall2_lookup_l _ _ _ _ _ Hl Hi) as (q' & Hq' & Hx'). apply Hq.
  rewrite Hx' in Hx. injection Hx as ->. by eapply list_elem_of_lookup_2.
Qed.

(** ** The order of paths *)
Fixpoint path_lt (p q : path) : Prop :=
  match p, q with
  | [], _ :: _ => True
  | j :: p, k :: q => key_lt j k \/ (j = k /\ path_lt p q)
  | _, [] => False
  end.
#[global] Instance path_lt_irrefl : Irreflexive path_lt.
Proof. intros p. induction p as [|k p IH]; [by intros []|]. intros [H|[_ H]]; [by apply (irreflexivity key_lt k)|done]. Qed.
#[global] Instance path_lt_trans : Transitive path_lt.
Proof.
  intros p. induction p as [|j p IH]; intros [|k q] [|l r] H H'; try done. destruct H as [H|[-> H]], H' as [H'|[-> H']].
  - left. by etransitivity.
  - by left.
  - by left.
  - right. split; [done|]. by apply (IH q).
Qed.
Lemma path_lt_app p q r : path_lt q r -> path_lt (p ++ q) (p ++ r).
Proof. intros H. induction p as [|k p IH]; [done|]. by right. Qed.

(** ** Entries at their paths *)
Record shaped (m : gmap Z path) (n : Z) (s : store) : Prop := {
  sh_top : m !! top_id = Some [];
  sh_dom : forall id, is_Some (m !! id) <-> is_Some (s !! id);
  sh_inj : forall i j p, m !! i = Some p -> m !! j = Some p -> i = j;
  sh_range : forall id p, m !! id = Some p -> top_id <= id < n;
  sh_less : forall a c p k, m !! a = Some p -> m !! c = Some (p ++ [k]) -> a < c;
  sh_parent : forall c p k, m !! c = Some (p ++ [k]) -> exists a, m !! a = Some p;
  sh_kids : forall id p e, m !! id = Some p -> s !! id = Some e ->
    exists ks, StronglySorted key_lt ks /\ Forall2 (fun k c => m !! c = Some (p ++ [k])) ks (kids e) /\
      forall k c, m !! c = Some (p ++ [k]) -> k ∈ ks
}.
Lemma loaded_shaped m o s n see : loaded m o s n see -> shaped m n s.
Proof.
  intros L. split.
  - apply (ld_top _ _ _ _ _ L).
  - apply (ld_dom _ _ _ _ _ L).
  - apply (ld_inj _ _ _ _ _ L).
  - apply (ld_range _ _ _ _ _ L).
  - apply (ld_less _ _ _ _ _ L).
  - intros c p k H. by apply (ld_parent _ _ _ _ _ L) in H as [_ ?].
  - intros i p e Hp He. destruct (ld_array _ _ _ _ _ L _ _ He) as [Ha Hne]. assert (Hk := ld_kids _ _ _ _ _ L _ _ _ Hp He).
    unfold kids, sort_entry. destruct (mChildren e) as [h|] eqn:Eh.
    + rewrite Ha. cbn [SortChildren set_children mChildrenSortArray default from_option id]. rewrite Eh. cbn [default from_option id] in Hk.
      assert (Hok : keys_ok h) by (intros k c H; by apply Hk, (ld_parent _ _ _ _ _ L) in H as [? _]).
      exists (sorted_keys h). split; [by apply sorted_keys_sorted|]. split.
      * eapply Forall2_impl; [by apply sorted_children_keys|]. intros k c. apply Hk.
      * intros k c H. apply elem_sorted_keys; [done|]. exists c. by apply Hk.
    + rewrite Ha. exists []. split; [constructor|]. split; [constructor|]. intros k c H. apply Hk in H. cbn in H. by rewrite lookup_empty in H.
Qed.
Lemma shaped_kids m n s s' : (forall id, kids <$> s !! id = kids <$> s' !! id) -> shaped m n s -> shaped m n s'.
Proof.
  intros E H. split.
  - apply (sh_top _ _ _ H).
  - intros id. rewrite (sh_dom _ _ _ H). specialize (E id). destruct (s !! id), (s' !! id); done.
  - apply (sh_inj _ _ _ H).
  - apply (sh_range _ _ _ H).
  - apply (sh_less _ _ _ H).
  - apply (sh_parent _ _ _ H).
  - intros id p e Hp He. specialize (E id). rewrite He in E. destruct (s !! id) as [e0|] eqn:E0; [|done]. cbn in E.
    assert (Ek : kids e0 = kids e) by congruence. rewrite <- Ek. by apply (sh_kids _ _ _ H id).
Qed.

Section shaped.
Context (m : gmap Z path) (n : Z) (s : store) (H : shaped m n s).

Lemma parent_path p r id : m !! id = Some (p ++ r) -> exists a, m !! a = Some p.
Proof.
  revert id. induction r as [|k r IH] using rev_ind; intros id Hid; [rewrite app_nil_r in Hid; by exists id|].
  rewrite app_assoc in Hid. apply (sh_parent _ _ _ H) in Hid as [a Ha]. by eapply IH.
Qed.
(** Every entry is the root of a tree. *)
Lemma tree_at fuel : forall id p, m !! id = Some p -> n - id <= Z.of_nat fuel -> exists t, root t = id /\ rep s t.
Proof.
  induction fuel as [|fuel IH]; intros id p Hid Hf; [apply (sh_range _ _ _ H) in Hid; lia|].
  destruct (proj1 (sh_dom _ _ _ H id) (ex_intro _ _ Hid)) as [e He].
  destruct (sh_kids _ _ _ H _ _ _ Hid He) as (ks & _ & Hks & _).
  assert (Hl : exists l, map root l = kids e /\ Forall (rep s) l).
  { assert (Hn : Forall (fun c => exists t, root t = c /\ rep s t) (kids e)).
    { revert Hks. generalize (kids e) as l. induction 1 as [|k c ks' l Hc _ IHl]; constructor; [|done]. apply (IH c _ Hc).
      apply (sh_less _ _ _ H _ _ _ _ Hid) in Hc. lia. }
    revert Hn. generalize (kids e) as l. induction 1 as [|c l (t & <- & Ht) _ (l' & <- & Hl')]; [by exists []|]. exists (t :: l'). split; [done|by constructor]. }
  destruct Hl as (l & Hl & Hr). exists (Tree id l). split; [done|]. apply index_rep_node. split; [|done]. by exists e.
Qed.
Definition places (p : path) (ks : list string) (q : path) : Prop :=
  exists k r, k ∈ ks /\ q = p ++ k :: r /\ exists id, m !! id = Some q.
Definition listed (l : list visit) (p : path) (P : path -> Prop) : Prop :=
  exists ps, Forall2 (fun x q => m !! fst x = Some q) l ps /\ StronglySorted path_lt ps /\ forall q, q ∈ ps <-> P q.
Lemma sorted_app {A} (R : A -> A -> Prop) l k : StronglySorted R l -> StronglySorted R k ->
  (forall x y, x ∈ l -> y ∈ k -> R x y) -> StronglySorted R (l ++ k).
Proof.
  intros Hl Hk Hx. induction Hl as [|a l _ IH Ha]; [done|]. cbn. constructor.
  - apply IH. intros x y Hin. apply Hx. set_solver.
  - apply Forall_app. split; [done|]. apply Forall_forall. intros y Hy. apply Hx; set_solver.
Qed.
Lemma level_paths p id st ks l :
  Forall (fun t => forall p st, rep s t -> m !! root t = Some p ->
    listed (below st t) p (fun q => exists k r, q = p ++ k :: r /\ exists id, m !! id = Some q)) l ->
  Forall (rep s) l -> Forall2 (fun k t => m !! root t = Some (p ++ [k])) ks l -> StronglySorted key_lt ks ->
  forall i, listed (level st id i l) p (places p ks).
Proof.
  intros HP Hr Hks. revert HP Hr. induction Hks as [|k t ks l Hk Hks IH]; intros HP Hr Hsort i.
  - exists []. split; [constructor|]. split; [constructor|]. intros q. split; [by intros ?%elem_of_nil|]. by intros (k & r & ?%elem_of_nil & _).
  - apply Forall_cons in HP as [Ht HP]. apply Forall_cons in Hr as [Hrt Hr]. apply StronglySorted_inv in Hsort as [Hsort Hlt].
    destruct (IH HP Hr Hsort (S i)) as (ps & Hps & Hs & Hin). destruct (Ht _ ((id, i) :: st) Hrt Hk) as (qs & Hqs & Hsq & Hinq).
    exists ((p ++ [k]) :: qs ++ ps). split; [cbn [level]; constructor; [done|by apply Forall2_app]|].
    assert (Hall : forall q, q ∈ (p ++ [k]) :: qs <-> exists r, q = p ++ k :: r /\ exists id, m !! id = Some q).
    { intros q. rewrite elem_of_cons, Hinq. split.
      - intros [->|(j & r & -> & Hex)]; [exists []; by eauto|]. rewrite <- app_assoc in *. by exists (j :: r).
      - intros ([|j r] & -> & Hex); [by left|right]. exists j, r. by rewrite <- app_assoc. }
    split.
    + rewrite app_comm_cons. apply sorted_app; [|done|].
      * constructor; [done|]. apply Forall_forall. intros q (j & r & -> & _)%Hinq. rewrite <- (app_nil_r (p ++ [k])) at 1. by apply path_lt_app.
      * intros x y (r & -> & _)%Hall (j & r' & Hj & -> & _)%Hin. apply path_lt_app. left. rewrite Forall_forall in Hlt. by apply Hlt.
    + intros q. rewrite app_comm_cons, elem_of_app, Hall, Hin. unfold places. split.
      * intros [(r & -> & Hex)|(j & r & Hj & Hq)]; [exists k, r; set_solver|exists j, r; set_solver].
      * intros (j & r & [->|Hj]%elem_of_cons & -> & Hex); [left; by exists r|right]. by exists j, r.
Qed.
Lemma below_paths t : forall p st, rep s t -> m !! root t = Some p ->
  listed (below st t) p (fun q => exists k r, q = p ++ k :: r /\ exists id, m !! id = Some q).
Proof.
  induction t as [id l IH] using tree_induction. intros p st Hr Hp. cbn [root] in Hp. rewrite below_level. cbn [root kids_of].
  destruct (proj1 (index_rep_node s id l) Hr) as [(e & He & Hk) Hrl]. destruct (sh_kids _ _ _ H _ _ _ Hp He) as (ks & Hs & Hks & Hall).
  cbn [root kids_of] in *. rewrite Hk, Forall2_fmap_r in Hks.
  destruct (level_paths p id st ks l IH Hrl Hks Hs 0%nat) as (ps & Hps & Hsp & Hin). exists ps. split; [done|]. split; [done|].
  intros q. rewrite Hin. unfold places. split.
  - intros (k & r & _ & -> & Hex). by exists k, r.
  - intros (k & r & -> & (c & Hc)). exists k, r. split; [|by eauto]. assert (Hc' := Hc). change (k :: r) with ([k] ++ r) in Hc'.
    rewrite app_assoc in Hc'. destruct (parent_path _ _ _ Hc') as [a Ha]. by eapply Hall.
Qed.
Lemma NoDup_ids t p : rep s t -> m !! root t = Some p -> NoDup (ids t).
Proof.
  intros Hr Hp. rewrite (ids_below t []). destruct (below_paths t p [] Hr Hp) as (ps & Hps & Hs & Hin).
  assert (Hn := sorted_NoDup _ _ Hs). apply (Forall2_fmap_l fst (fun i q => m !! i = Some q)) in Hps.
  apply NoDup_cons. split.
  - intros [i Hi]%list_elem_of_lookup. destruct (Forall2_lookup_l _ _ _ _ _ Hps Hi) as (q & Hq & Hmq).
    apply list_elem_of_lookup_2, Hin in Hq as (k & r & -> & _). rewrite Hp in Hmq. injection Hmq as E.
    apply (f_equal length) in E. rewrite length_app in E. cbn in E. lia.
  - by eapply (NoDup_labels (m !!.)).
Qed.
End shaped.
