(* ===== verification/HelpIndexReady.v ===== *)
(** * The index when all books are loaded
    The "see also" entries and their targets share a name, the top entry is sorted and its
    children have their numbers; everything else is as the data say. *)
From S2P Require Import Prelude JsString JsNum HelpString HelpBooks HelpScore HelpTree HelpOutline HelpContents HelpIndex HelpIndexSort HelpIndexPage HelpIndexWalk HelpIndexLoad HelpIndexPaths.
Open Scope Z_scope.
#[local] Set Warnings "-clear-no-such-hyp".

(** ** The targets of "see also" entries *)

(** The keys of the group and of the entry that an entry refers to. *)
Definition group_ref (e : entry) : string := default "undefined" (mSeeAlsoGroupKey e) +++ "~".
Definition entry_ref (e : entry) : string := default "undefined" (mSeeAlsoKey e) +++ "~".
Definition target_of (s : store) (id : Z) : option (Z * Z) :=
  e ← s !! id; top ← s !! top_id; h ← mChildren top; g ← h !! group_ref e;
  ge ← s !! g; gh ← mChildren ge; t ← gh !! entry_ref e; Some (g, t).
Definition refers_to (s : store) (t id : Z) : Prop := snd <$> target_of s id = Some t.
#[global] Instance refers_to_dec s t id : Decision (refers_to s t id).
Proof. unfold refers_to. apply _. Defined.
(** The name of a target: the position of the first entry of the list that refers to it. *)
Definition name_at (s : store) (l : list Z) (t : Z) : option string :=
  (fun p => "s" +++ Z_to_string (Z.of_nat (fst p))) <$> list_find (refers_to s t) l.
(** What linking makes of an entry. *)
Definition link_entry (s : store) (l : list Z) (id : Z) (e : entry) : entry :=
  if decide (id ∈ l) then
    match target_of s id with
    | Some (g, t) => set_target (name_at s l t) (s !! g ≫= mGroupID) e
    | None => e
    end
  else set_target (name_at s l id) None e.
Definition link_all (s : store) (l : list Z) : store := map_imap (fun id e => Some (link_entry s l id e)) s.

Section links.
Context (s : store) (l : list Z).
Context (Hfresh : forall id e, s !! id = Some e -> mSeeAlsoTargetName e = None /\ mSeeAlsoTargetGroupID e = None).
Context (Hin : forall id, id ∈ l -> is_Some (s !! id)) (Hnd : NoDup l).
Context (Htop : l <> [] -> exists top, s !! top_id = Some top /\ is_Some (mChildren top)).
Context (Hdom : forall id e h k c, s !! id = Some e -> mChildren e = Some h -> h !! k = Some c -> is_Some (s !! c)).
(** No target refers to another entry. *)
Context (Hchain : forall id g t, id ∈ l -> target_of s id = Some (g, t) -> t ∉ l).

Lemma lookup_link_all l1 id : link_all s l1 !! id = link_entry s l1 id <$> s !! id.
Proof. unfold link_all. rewrite map_lookup_imap. by destruct (s !! id). Qed.
Lemma link_kept l1 id e : mChildren (link_entry s l1 id e) = mChildren e /\ mGroupID (link_entry s l1 id e) = mGroupID e /\
  group_ref (link_entry s l1 id e) = group_ref e /\ entry_ref (link_entry s l1 id e) = entry_ref e.
Proof. unfold link_entry. case_decide; [|done]. by destruct (target_of s id) as [[g t]|]. Qed.
Lemma name_snoc l1 id t : name_at s (l1 ++ [id]) t =
  match name_at s l1 t with
  | Some n => Some n
  | None => if decide (refers_to s t id) then Some ("s" +++ Z_to_string (Z.of_nat (length l1))) else None
  end.
Proof.
  unfold name_at. destruct (list_find (refers_to s t) l1) as [[i y]|] eqn:E.
  - by rewrite (list_find_app_l _ _ _ _ _ E).
  - rewrite list_find_app_r by done. cbn. case_decide; cbn; done.
Qed.
Lemma name_unreferred l1 id t : ~ refers_to s t id -> name_at s (l1 ++ [id]) t = name_at s l1 t.
Proof. intros H. rewrite name_snoc, decide_False by done. by destruct (name_at s l1 t). Qed.

Lemma name_referred l1 id t : id ∈ l1 -> refers_to s t id -> is_Some (name_at s l1 t).
Proof.
  intros Hid Hr. unfold name_at. destruct (list_find (refers_to s t) l1) as [[i y]|] eqn:E; [by eexists|].
  apply list_find_None in E. rewrite Forall_forall in E. by destruct (E id Hid).
Qed.
Lemma name_none l1 t : (forall j, j ∈ l1 -> ~ refers_to s t j) -> name_at s l1 t = None.
Proof.
  intros H. unfold name_at. destruct (list_find (refers_to s t) l1) as [[i y]|] eqn:E; [|done].
  apply list_find_Some in E as (Hi & Hr & _). by destruct (H y (list_elem_of_lookup_2 _ _ _ Hi)).
Qed.
Lemma refers_apart j id : id ∈ l -> refers_to s j id -> j ∉ l.
Proof. unfold refers_to. intros Hid H. destruct (target_of s id) as [[g t]|] eqn:E; [|done]. injection H as <-. by apply (Hchain id g). Qed.

(** What linking one more entry changes. *)
Section round.
Context (l1 : list Z) (id : Z) (Hl : id ∈ l) (Hni : id ∉ l1) (Hsub : forall j, j ∈ l1 -> j ∈ l).
Lemma link_new x : link_entry s (l1 ++ [id]) id x =
  match target_of s id with Some (g, t) => set_target (name_at s (l1 ++ [id]) t) (s !! g ≫= mGroupID) x | None => x end.
Proof. unfold link_entry. by rewrite decide_True by set_solver. Qed.
Lemma link_before x : s !! id = Some x -> link_entry s l1 id x = x.
Proof.
  intros Hx. unfold link_entry. rewrite decide_False by done. destruct (Hfresh _ _ Hx) as [E1 E2]. rewrite name_none.
  - destruct x. cbn in *. by subst.
  - intros j Hj Hr. by apply (refers_apart id j) in Hr; [|apply Hsub].
Qed.
Lemma link_target t x : refers_to s t id -> s !! t = Some x -> link_entry s (l1 ++ [id]) t x = set_target (name_at s (l1 ++ [id]) t) None x.
Proof.
  intros Hr Hx. unfold link_entry. rewrite decide_False; [done|]. apply (refers_apart t id) in Hr; [|done]. set_solver.
Qed.
Lemma link_other j x : j <> id -> ~ refers_to s j id -> link_entry s (l1 ++ [id]) j x = link_entry s l1 j x.
Proof.
  intros Hj Hr. unfold link_entry. destruct (decide (j ∈ l1)) as [Hin1|Hni1].
  - rewrite decide_True by set_solver. destruct (target_of s j) as [[g t]|] eqn:E; [|done].
    destruct (name_referred l1 j t Hin1) as [n Hn]; [unfold refers_to; by rewrite E|]. by rewrite name_snoc, Hn.
  - rewrite decide_False by set_solver. by rewrite name_unreferred.
Qed.
Lemma group_kept g : mGroupID <$> link_all s l1 !! g = mGroupID <$> s !! g.
Proof. rewrite lookup_link_all. destruct (s !! g) as [x|]; [|done]. cbn. by destruct (link_kept l1 g x) as (_ & -> & _). Qed.

(** One round of the loop. *)
Lemma process_round : process_see_also (Z.of_nat (length l1)) id (link_all s l1) = Some (link_all s (l1 ++ [id])).
Proof.
  destruct (Hin id Hl) as [e He]. destruct Htop as (top & Ht & [h Hh]); [intros E; rewrite E in Hl; by apply elem_of_nil in Hl|].
  unfold process_see_also. rewrite !lookup_link_all, He, Ht. cbn [fmap option_fmap option_map mbind option_bind].
  destruct (link_kept l1 top_id top) as (-> & _). rewrite Hh. cbn [mbind option_bind]. rewrite (link_before e He).
  fold (group_ref e) (entry_ref e).
  assert (Htarget : target_of s id = g ← h !! group_ref e; ge ← s !! g; gh ← mChildren ge; t ← gh !! entry_ref e; Some (g, t)).
  { unfold target_of. rewrite He, Ht. cbn [mbind option_bind]. by rewrite Hh. }
  assert (Hnone : target_of s id = None -> link_all s l1 = link_all s (l1 ++ [id])).
  { intros E. apply map_eq. intros j. rewrite !lookup_link_all. destruct (s !! j) as [x|] eqn:Ex; [|done]. cbn. f_equal.
    destruct (decide (j = id)) as [->|Hj]; [by rewrite link_new, E, link_before|]. rewrite link_other; [done|done|]. unfold refers_to. by rewrite E. }
  revert Htarget. destruct (h !! group_ref e) as [g|] eqn:Eg; intros Htarget; cbn [mbind option_bind] in Htarget; [|by rewrite <- Hnone]. rewrite lookup_link_all.
  destruct (Hdom _ _ _ _ _ Ht Hh Eg) as [ge Hge]. rewrite Hge. cbn [fmap option_fmap option_map mbind option_bind].
  destruct (link_kept l1 g ge) as (-> & -> & _). rewrite Hge in Htarget. cbn [mbind option_bind] in Htarget.
  revert Htarget. destruct (mChildren ge) as [gh|] eqn:Egh; intros Htarget; cbn [mbind option_bind] in Htarget; [|by rewrite <- Hnone].
  revert Htarget. destruct (gh !! entry_ref e) as [t|] eqn:Et; intros Htarget; cbn [mbind option_bind] in Htarget; [|by rewrite <- Hnone]. clear Hnone.
  assert (Hr : refers_to s t id) by (unfold refers_to; by rewrite Htarget). assert (Htn := refers_apart t id Hl Hr).
  assert (Ht1 : t ∉ l1) by (intros Hj; by apply Htn, Hsub).
  destruct (Hdom _ _ _ _ _ Hge Egh Et) as [te Hte]. rewrite lookup_link_all, Hte. cbn [fmap option_fmap option_map mbind option_bind].
  assert (Hid : t <> id) by (intros ->; done). rewrite lookup_insert_ne, lookup_link_all, He by done. cbn [fmap option_fmap option_map mbind option_bind].
  rewrite (link_before e He). f_equal.
  assert (Hname : name_at s (l1 ++ [id]) t = Some (default ("s" +++ Z_to_string (Z.of_nat (length l1))) (mSeeAlsoTargetName (link_entry s l1 t te)))).
  { rewrite name_snoc. unfold link_entry. rewrite (decide_False (P := t ∈ l1)) by exact Ht1. cbn [set_target mSeeAlsoTargetName].
    destruct (name_at s l1 t); [done|]. by rewrite decide_True. }
  rewrite <- Hname. apply map_eq. intros j. rewrite lookup_link_all. destruct (decide (j = id)) as [->|Hj].
  - rewrite lookup_insert_eq, He. cbn. by rewrite link_new, Htarget, Hge.
  - rewrite lookup_insert_ne by done. destruct (decide (j = t)) as [->|Hjt].
    + rewrite lookup_insert_eq, Hte. cbn. rewrite link_target by done. f_equal. unfold link_entry. by rewrite (decide_False (P := t ∈ l1)) by exact Ht1.
    + rewrite lookup_insert_ne, lookup_link_all by done. destruct (s !! j) as [x|]; [|done]. cbn. f_equal. symmetry. apply link_other; [done|].
      unfold refers_to. rewrite Htarget. cbn. congruence.
Qed.
End round.
Lemma process_rounds l2 : forall l1, l = l1 ++ l2 -> process_all (Z.of_nat (length l1)) l2 (link_all s l1) = Some (link_all s l).
Proof.
  induction l2 as [|id l2 IH]; intros l1 El; [rewrite app_nil_r in El; by subst|]. cbn [process_all].
  rewrite process_round.
  - cbn [mbind option_bind]. specialize (IH (l1 ++ [id])). rewrite length_app in IH. cbn [length] in IH.
    replace (Z.of_nat (length l1) + 1) with (Z.of_nat (length l1 + 1)) by lia. apply IH. by rewrite <- app_assoc.
  - rewrite El. set_solver.
  - rewrite El in Hnd. apply NoDup_app in Hnd as (_ & H & _). intros H1. apply (H id H1). set_solver.
  - rewrite El. set_solver.
Qed.
Lemma link_nothing : link_all s [] = s.
Proof.
  apply map_eq. intros j. rewrite lookup_link_all. destruct (s !! j) as [x|] eqn:E; [|done]. cbn. f_equal.
  unfold link_entry. rewrite decide_False by (by intros ?%elem_of_nil). destruct (Hfresh _ _ E) as [E1 E2]. destruct x. cbn in *. by subst.
Qed.
Lemma process_links : process_all 0 l s = Some (link_all s l).
Proof. rewrite <- link_nothing at 1. by apply (process_rounds l []). Qed.
End links.

(** ** The last step of loading *)

(** Linking ends without an exception, whatever refers to what, and changes only the names
    and groups of targets. *)
Definition plain (e : entry) : entry := set_target None None e.
Definition alike (s s' : store) : Prop := forall id, plain <$> s !! id = plain <$> s' !! id.
Lemma alike_lookup s s' id e : alike s s' -> s !! id = Some e -> exists e', s' !! id = Some e' /\ plain e' = plain e.
Proof.
  intros H He. specialize (H id). rewrite He in H. destruct (s' !! id) as [e'|]; [|done]. exists e'.
  assert (E : Some (plain e) = Some (plain e')) by exact H. by apply (inj Some) in E.
Qed.
Lemma plain_fields e e' : plain e = plain e' -> mChildren e = mChildren e' /\ mChildrenSortArray e = mChildrenSortArray e' /\ mSeeAlsoKey e = mSeeAlsoKey e'.
Proof. destruct e, e'. unfold plain, set_target. cbn. by intros [= -> -> -> -> -> -> -> ->]. Qed.
Lemma alike_trans s s' s'' : alike s s' -> alike s' s'' -> alike s s''.
Proof. intros H H' id. by rewrite H. Qed.
Lemma alike_insert s id e e' : s !! id = Some e -> plain e' = plain e -> alike s (<[id := e']> s).
Proof.
  intros He E j. destruct (decide (j = id)) as [->|H]; [|by rewrite lookup_insert_ne]. rewrite lookup_insert_eq, He. cbn. by rewrite E.
Qed.
Definition closed (s : store) : Prop :=
  forall id e h k c, s !! id = Some e -> mChildren e = Some h -> h !! k = Some c -> is_Some (s !! c).
Lemma alike_is_Some s s' id : alike s s' -> is_Some (s !! id) -> is_Some (s' !! id).
Proof. intros H [e He]. destruct (alike_lookup _ _ _ _ H He) as (e' & He' & _). by exists e'. Qed.
Lemma alike_sym s s' : alike s s' -> alike s' s.
Proof. by intros H id. Qed.
Lemma alike_closed s s' : alike s s' -> closed s -> closed s'.
Proof.
  intros H Hc id e h k c He Hh Hk. destruct (alike_lookup _ _ _ _ (alike_sym _ _ H) He) as (e0 & He0 & E).
  apply plain_fields in E as (E & _). eapply alike_is_Some; [done|]. eapply (Hc id e0 h k c He0); [|done]. congruence.
Qed.
Lemma process_total l : forall i s, (forall id, id ∈ l -> is_Some (s !! id)) -> closed s ->
  (l <> [] -> exists top, s !! top_id = Some top /\ is_Some (mChildren top)) ->
  exists s', process_all i l s = Some s' /\ alike s s'.
Proof.
  induction l as [|id l IH]; intros i s Hin Hc Htop; [by exists s|]. cbn [process_all].
  destruct (Htop ltac:(done)) as (top & Ht & [h Hh]). destruct (Hin id) as [e He]; [set_solver|].
  assert (H1 : exists s', process_see_also i id s = Some s' /\ alike s s').
  { unfold process_see_also. rewrite He, Ht. cbn [mbind option_bind]. rewrite Hh. cbn [mbind option_bind].
    destruct (h !! _) as [g|] eqn:Eg; [|by exists s]. destruct (Hc _ _ _ _ _ Ht Hh Eg) as [ge Hge]. rewrite Hge. cbn [mbind option_bind].
    destruct (mChildren ge) as [gh|] eqn:Egh; [|by exists s]. destruct (gh !! _) as [t|] eqn:Et; [|by exists s].
    destruct (Hc _ _ _ _ _ Hge Egh Et) as [te Hte]. rewrite Hte. cbn [mbind option_bind].
    match goal with |- context [<[t := ?y]> s] => assert (H2 : alike s (<[t := y]> s)) by (by eapply alike_insert) end.
    destruct (alike_lookup _ _ _ _ H2 He) as (e2 & He2 & _). rewrite He2. cbn [mbind option_bind]. eexists. split; [done|].
    eapply alike_trans; [exact H2|]. by eapply alike_insert. }
  destruct H1 as (s1 & -> & H1). cbn [mbind option_bind]. destruct (IH (i + 1) s1) as (s2 & -> & H2).
  - intros j Hj. eapply alike_is_Some; [done|]. apply Hin. set_solver.
  - by eapply alike_closed.
  - intros _. destruct (alike_lookup _ _ _ _ H1 Ht) as (top' & Ht' & E). exists top'. split; [done|].
    apply plain_fields in E as (-> & _). by exists h.
  - exists s2. split; [done|]. by eapply alike_trans.
Qed.

(** Numbering the sections. *)
Definition core (e : entry) : entry * list Z := (set_section 0 (fixed e), kids e).
Lemma number_sections_core l : forall i s id, core <$> number_sections i l s !! id = core <$> s !! id.
Proof.
  induction l as [|j l IH]; intros i s id; [done|]. cbn [number_sections]. rewrite IH.
  destruct (decide (id = j)) as [->|H]; [rewrite lookup_alter_eq|by rewrite lookup_alter_ne]. by destruct (s !! j) as [[? ? ? [?|] [?|]]|].
Qed.
Lemma number_sections_array l : forall i s id e, s !! id = Some e ->
  exists e', number_sections i l s !! id = Some e' /\ mChildrenSortArray e' = mChildrenSortArray e /\ mChildren e' = mChildren e /\
    mSeeAlsoTargetName e' = mSeeAlsoTargetName e /\ mSeeAlsoTargetGroupID e' = mSeeAlsoTargetGroupID e.
Proof.
  induction l as [|j l IH]; intros i s id e He; [by exists e|]. cbn [number_sections].
  destruct (decide (id = j)) as [->|H].
  - destruct (IH (i + 1) (alter (set_section i) j s) j (set_section i e)) as (e' & He' & E); [by rewrite lookup_alter_eq, He|].
    by exists e'.
  - apply IH. by rewrite lookup_alter_ne.
Qed.
Lemma number_sections_at l : forall i s k id e, NoDup l -> l !! k = Some id -> s !! id = Some e ->
  exists e', number_sections i l s !! id = Some e' /\ mSectionIndex e' = Some (i + Z.of_nat k).
Proof.
  assert (Hother : forall l i s id e, id ∉ l -> s !! id = Some e -> number_sections i l s !! id = Some e).
  { clear l. induction l as [|j l IH]; intros i s id e Hi He; [done|]. cbn [number_sections]. apply IH; [set_solver|].
    rewrite lookup_alter_ne; [done|set_solver]. }
  induction l as [|j l IH]; intros i s k id e Hn Hk He; [done|]. apply NoDup_cons in Hn as [Hj Hn]. cbn [number_sections]. destruct k as [|k].
  - injection Hk as ->. exists (set_section i e). split; [|cbn; f_equal; lia]. apply Hother; [done|]. by rewrite lookup_alter_eq, He.
  - destruct (IH (i + 1) (alter (set_section i) j s) k id e Hn Hk) as (e' & -> & E).
    { rewrite lookup_alter_ne; [done|]. intros ->. apply Hj. by eapply list_elem_of_lookup_2. }
    exists e'. split; [done|]. rewrite E. f_equal. lia.
Qed.

(** ** The index that is ready *)
Definition facts (e : entry) := (mGroupID e, mText e, mBookLinks e, mSeeAlsoKey e, mSeeAlsoGroupKey e).
Definition names (e : entry) : option string * option Z := (mSeeAlsoTargetName e, mSeeAlsoTargetGroupID e).
Record ready (m : gmap Z path) (o : list occurrence) (n : Z) (s : store) : Prop := {
  rd_shaped : shaped m n s;
  rd_entry : forall id p e, m !! id = Some p -> s !! id = Some e -> facts e = facts (merged id (at_path p o));
  rd_paths : forall p, at_path p o <> [] <-> p <> [] /\ exists id, m !! id = Some p;
  rd_top : is_sorted s top_id;
  rd_sections : forall top i id, s !! top_id = Some top -> kids top !! i = Some id -> exists e, s !! id = Some e /\ mSectionIndex e = Some (Z.of_nat i);
  rd_links : exists s0 see s1, loaded m o s0 n (Some see) /\ process_all 0 see s0 = Some s1 /\ forall id, names <$> s !! id = names <$> s1 !! id
}.
Lemma core_facts e e' : core e = core e' -> facts e = facts e' /\ names e = names e' /\ kids e = kids e'.
Proof.
  intros E. assert (E1 := f_equal fst E). assert (E2 := f_equal snd E). cbn [core fst snd] in E1, E2. destruct e, e'. unfold set_section, fixed, set_children in E1.
  cbn in E1. injection E1 as -> -> -> -> -> -> ->. done.
Qed.
Lemma plain_facts e e' : plain e = plain e' -> facts e = facts e' /\ kids e = kids e'.
Proof.
  intros E. assert (Hp := plain_fields _ _ E). destruct Hp as (E1 & E2 & _). split.
  - destruct e, e'. unfold plain, set_target in E. cbn in E. unfold facts. cbn. congruence.
  - destruct e as [g t b h a], e' as [g' t' b' h' a']. cbn in E1, E2. subst h' a'. unfold kids, sort_entry. cbn. by destruct h, a.
Qed.
Lemma fixed_facts e e' : fixed e = fixed e' -> facts e = facts e'.
Proof. destruct e, e'. unfold fixed, set_children, facts. cbn. congruence. Qed.

Section last.
Context (m : gmap Z path) (o : list occurrence) (s0 : store) (n : Z) (see : list Z) (L : loaded m o s0 n (Some see)).
Lemma loaded_top_children : see <> [] -> exists top, s0 !! top_id = Some top /\ is_Some (mChildren top).
Proof.
  intros Hne. destruct see as [|id l] eqn:Es; [done|]. rewrite <- Es in *. destruct (ld_see _ _ _ _ _ L) as (l' & [= <-] & _ & Hs).
  destruct (proj1 (Hs id)) as (e & He & Hk); [rewrite Es; set_solver|].
  destruct (proj2 (ld_dom _ _ _ _ _ L id)) as [p Hp]; [by exists e|]. assert (Hf := ld_entry _ _ _ _ _ L _ _ _ Hp He).
  destruct p as [|k r].
  { assert (E : at_path [] o = []).
    { destruct (at_path [] o) eqn:E; [done|]. destruct (proj1 (ld_paths _ _ _ _ _ L [])) as [? _]; [by rewrite E|done]. }
    rewrite E in Hf. cbn in Hf. destruct e. unfold fixed, set_children in Hf. cbn in Hf, Hk. injection Hf as -> -> -> -> -> -> -> ->. by destruct Hk. }
  destruct (parent_path _ _ _ (loaded_shaped _ _ _ _ _ L) [k] r id Hp) as [c Hc].
  destruct (proj1 (ld_dom _ _ _ _ _ L top_id)) as [top Ht]; [eexists; apply (ld_top _ _ _ _ _ L)|]. exists top. split; [done|].
  assert (Hkids := proj2 (ld_kids _ _ _ _ _ L _ _ _ (ld_top _ _ _ _ _ L) Ht k c) Hc). by destruct (mChildren top); [eexists|].
Qed.
Lemma loaded_closed : closed s0.
Proof.
  intros id e h k c He Hh Hc. destruct (proj2 (ld_dom _ _ _ _ _ L id)) as [p Hp]; [by exists e|]. apply (ld_dom _ _ _ _ _ L).
  eexists. apply (ld_kids _ _ _ _ _ L _ _ _ Hp He). by rewrite Hh.
Qed.
Lemma loaded_links : exists s1, process_all 0 see s0 = Some s1 /\ alike s0 s1.
Proof.
  apply process_total; [|apply loaded_closed|apply loaded_top_children]. intros id Hid.
  destruct (ld_see _ _ _ _ _ L) as (l & [= <-] & _ & Hs). apply Hs in Hid as (e & He & _). by exists e.
Qed.
(** Linking, sorting the top entry, numbering. *)
Lemma finish s1 top : process_all 0 see s0 = Some s1 -> alike s0 s1 -> s1 !! top_id = Some top ->
  mChildrenSortArray top = None /\
  ready m o n (number_sections 0 (kids (SortChildren top)) (<[top_id := SortChildren top]> s1)).
Proof.
  intros Hp Ha Ht. destruct (alike_lookup _ _ _ _ (alike_sym _ _ Ha) Ht) as (top0 & Ht0 & Ep).
  destruct (plain_fields _ _ Ep) as (Ec & Es & _). destruct (ld_array _ _ _ _ _ L _ _ Ht0) as [Harr _].
  assert (Harr' : mChildrenSortArray top = None) by congruence. split; [done|].
  assert (Ek : kids (SortChildren top) = kids top).
  { clear -Harr'. destruct top as [g t b h a]. cbn in Harr'. subst a. by destruct h. }
  set (s2 := <[top_id := SortChildren top]> s1). set (s3 := number_sections 0 (kids (SortChildren top)) s2).
  assert (Hcore : forall id, core <$> s3 !! id = core <$> s1 !! id).
  { intros id. unfold s3. rewrite number_sections_core. unfold s2. destruct (decide (id = top_id)) as [->|H]; [|by rewrite lookup_insert_ne].
    rewrite lookup_insert_eq, Ht. cbn. f_equal. unfold core. by rewrite Ek. }
  assert (Hfrom : forall id e, s3 !! id = Some e -> exists e1 e0, s1 !! id = Some e1 /\ s0 !! id = Some e0 /\
    facts e = facts e0 /\ kids e = kids e0 /\ names e = names e1).
  { intros id e He. specialize (Hcore id). rewrite He in Hcore. destruct (s1 !! id) as [e1|] eqn:E1; [|done].
    assert (E : Some (core e) = Some (core e1)) by exact Hcore. apply (inj Some) in E. apply core_facts in E as (Ef & En & Ekk).
    destruct (alike_lookup _ _ _ _ (alike_sym _ _ Ha) E1) as (e0 & He0 & Ep0). apply plain_facts in Ep0 as [Ef0 Ek0].
    exists e1, e0. split_and!; congruence. }
  assert (Hsh : shaped m n s3).
  { eapply shaped_kids; [|by eapply loaded_shaped]. intros id. specialize (Hcore id). specialize (Ha id). destruct (s3 !! id) as [e|] eqn:E3.
    - destruct (Hfrom id e E3) as (e1 & e0 & _ & E0 & _ & Ekk & _). rewrite E0. cbn. by rewrite Ekk.
    - destruct (s1 !! id); [done|]. by destruct (s0 !! id). }
  split; [done| |apply (ld_paths _ _ _ _ _ L)| | |exists s0, see, s1; split_and!; [done|done|]].
  - intros id p e Hid He. destruct (Hfrom id e He) as (e1 & e0 & _ & He0 & -> & _). rewrite <- (ld_entry _ _ _ _ _ L _ _ _ Hid He0). done.
  - destruct (number_sections_array (kids (SortChildren top)) 0 s2 top_id (SortChildren top)) as (e & He & E1 & E2 & _); [apply lookup_insert_eq|].
    exists e. split; [done|]. rewrite E1. unfold kids at 1, sort_entry. rewrite E2. cbn. by rewrite E1.
  - intros top' i id Ht' Hi. assert (Etop : kids top' = kids (SortChildren top)).
    { destruct (Hfrom top_id top' Ht') as (e1 & e0 & E1 & E0 & _ & -> & _). rewrite Ek. rewrite E0 in Ht0. injection Ht0 as ->.
      symmetry. by apply plain_facts. }
    rewrite Etop in Hi. destruct (sh_kids _ _ _ Hsh top_id [] top' (sh_top _ _ _ Hsh) Ht') as (ks & Hsort & Hks & _). rewrite Etop in Hks.
    assert (Hex : exists e2, s2 !! id = Some e2).
    { destruct (Forall2_lookup_r _ _ _ _ _ Hks Hi) as (k & _ & Hm). destruct (proj1 (sh_dom _ _ _ Hsh id) (ex_intro _ _ Hm)) as [e3 He3].
      assert (Hc := number_sections_core (kids (SortChildren top)) 0 s2 id). fold s3 in Hc. rewrite He3 in Hc. destruct (s2 !! id) as [e2|]; [by exists e2|done]. }
    destruct Hex as [e2 He2]. destruct (number_sections_at (kids (SortChildren top)) 0 s2 i id e2) as (e3 & He3 & E3); [|done|done|].
    + apply sorted_NoDup in Hsort; [|apply _]. apply (NoDup_labels (m !!.) _ ((fun k => [] ++ [k]) <$> ks)).
      * by apply Forall2_fmap_r, Forall2_flip.
      * apply NoDup_fmap_2; [by intros ? ? [=]|done].
    + exists e3. by rewrite E3.
  - intros id. specialize (Hcore id). destruct (s3 !! id) as [e|] eqn:E3, (s1 !! id) as [e1|] eqn:E1; try done. cbn.
    assert (E : Some (core e) = Some (core e1)) by exact Hcore. apply (inj Some) in E. apply core_facts in E as (_ & En & _). by rewrite En.
Qed.
End last.
