(* ===== verification/HelpIndexShow.v ===== *)
(** * What the index shows
    Loading the books makes the index ready; pages and clicks keep it so.  In every state
    after that the page shows exactly the entries that the data describe, sorted. *)
From Stdlib Require Import Sorted.
From S2P Require Import Prelude JsString JsNum HelpString HelpBooks HelpScore HelpTree HelpOutline HelpContents HelpIndex HelpIndexSort HelpIndexPage HelpIndexWalk HelpIndexText HelpIndexLoad HelpIndexPaths HelpIndexReady.
Open Scope Z_scope.
#[local] Set Warnings "-clear-no-such-hyp".

(** ** Loading all books *)
Section loading.
Context (books : book_list).
Abbreviation book_count := (Z.of_nat (length (mBookList books))).
(** A state during loading: nothing was shown yet. *)
Definition unshown (x : index) : Prop :=
  mbThresholdExceeded x = None /\ mSectionCache x = ∅ /\ mSectionIndexShown x = 0 /\ mEntry (mIterator x) = None /\
  mHTMLSegment x = new_buffer /\ mClickedEntry x = None.
Lemma unshown_aside x x' : aside x' = aside x -> unshown x -> unshown x'.
Proof. unfold aside, unshown. intros E (H1 & H2 & H3 & H4 & H5 & H6). injection E as _ _ _ _ E3 E1 E2 E4 E5 E6. split_and!; congruence. Qed.
Definition bumped (max_level : Z) (x : index) : index :=
  if mMaxLevel x <? max_level then set_loading (mInitIndex x) (mbPanelInitialized x) max_level x else x.
Lemma bumped_loading m o max x : loading m o x -> unshown x ->
  loading m o (bumped max x) /\ unshown (bumped max x) /\ mInitIndex (bumped max x) = mInitIndex x.
Proof. unfold bumped. by case_if. Qed.
Lemma load_book_spec m o x max l : loading m o x -> unshown x -> mInitIndex x + 1 <= book_count ->
  exists x', load_book books max l x = Some x' /\ unshown x' /\ mInitIndex x' = mInitIndex x + 1 /\
    exists m', if mInitIndex x + 1 =? book_count
      then ready m' (o ++ occs_of (mInitIndex x) [] l) (mEntryCount x') (mEntries x') /\ mbPanelInitialized x' = true
      else loading m' (o ++ occs_of (mInitIndex x) [] l) x'.
Proof.
  intros L U Hi. destruct (bumped_loading m o max x L U) as (L0 & U0 & Hi0). unfold load_book. fold (bumped max x).
  destruct (AddIndexEntries_loading l m o (bumped max x) L0) as (m' & x2 & E & L2 & Ha). unfold InitLoadBookIndex. rewrite E. cbn [mbind option_bind].
  rewrite Hi0 in L2. assert (U2 := unshown_aside _ _ Ha U0). assert (Hi2 : mInitIndex x2 = mInitIndex x) by (unfold aside in Ha; congruence).
  cbn [set_loading mInitIndex]. rewrite Hi2. destruct (Z.eqb_spec (mInitIndex x + 1) book_count) as [Eb|Eb].
  - unfold ProcessSeeAlsoEntries. cbn [set_loading mSeeAlsoArray mEntries]. unfold loading in L2.
    destruct (ld_see _ _ _ _ _ L2) as (see & Hsee & _). rewrite Hsee in L2 |- *. cbn [mbind option_bind].
    destruct (loaded_links _ _ _ _ _ L2) as (s1 & Hp & Hs1). rewrite Hp. cbn [mbind option_bind set_see_also set_entries mEntries].
    destruct (proj1 (ld_dom _ _ _ _ _ L2 top_id)) as [top0 Ht0]; [eexists; apply (ld_top _ _ _ _ _ L2)|].
    destruct (alike_lookup _ _ _ _ Hs1 Ht0) as (top & Ht & _). rewrite Ht. cbn [mbind option_bind].
    destruct (finish _ _ _ _ _ L2 s1 top Hp Hs1 Ht) as [Harr R]. rewrite Harr. eexists. split; [done|]. split; [done|]. split; [cbn; lia|].
    exists m'. split; [|done]. cbn. unfold kids in R. cbn in R. exact R.
  - eexists. split; [done|]. split; [done|]. split; [done|]. by exists m'.
Qed.
Lemma load_books_spec l : forall m o x, loading m o x -> unshown x -> l <> [] ->
  mInitIndex x + Z.of_nat (length l) = book_count ->
  exists m' x', load_books books l x = Some x' /\ unshown x' /\ mbPanelInitialized x' = true /\
    ready m' (o ++ book_occs (mInitIndex x) l) (mEntryCount x') (mEntries x').
Proof.
  induction l as [|[max items] l IH]; intros m o x L U Hne Hc; [done|]. cbn [length] in Hc. cbn [load_books book_occs].
  destruct (load_book_spec m o x max items L U) as (x1 & -> & U1 & Hi1 & m1 & H1); [lia|]. cbn [mbind option_bind].
  destruct l as [|b l].
  - cbn [length] in Hc. destruct (Z.eqb_spec (mInitIndex x + 1) book_count); [|lia]. destruct H1 as [R Hr]. exists m1, x1.
    cbn. by rewrite app_nil_r.
  - cbn [length] in Hc. destruct (Z.eqb_spec (mInitIndex x + 1) book_count); [lia|].
    destruct (IH m1 _ x1 H1 U1 ltac:(done)) as (m2 & x2 & -> & U2 & Hr & R); [cbn [length]; lia|]. exists m2, x2.
    rewrite Hi1, <- app_assoc in R. done.
Qed.
Lemma index_loads l : length l = length (mBookList books) -> l <> [] ->
  exists m x, load_books books l new_index = Some x /\ unshown x /\ mbPanelInitialized x = true /\
    ready m (book_occs 0 l) (mEntryCount x) (mEntries x).
Proof. intros Hl Hne. apply (load_books_spec l _ [] new_index loaded_new); [done|done|]. cbn. lia. Qed.
End loading.

(** ** What pages and clicks keep *)
Lemma ready_later m o n s s' : later s s' -> ready m o n s -> ready m o n s'.
Proof.
  intros [Hs Hsort] R. assert (Hback : forall id e', s' !! id = Some e' -> exists e, s !! id = Some e /\ fixed e' = fixed e /\ kids e' = kids e).
  { intros id e' He'. destruct (same_lookup s' s id e' (symmetry Hs) He') as (e & He & Hf & Hk). by exists e. }
  assert (Hsh : shaped m n s').
  { apply (shaped_kids m n s); [|apply (rd_shaped _ _ _ _ R)]. intros id. assert (H := same_at _ _ Hs id).
    destruct (s !! id), (s' !! id); try done. by apply (f_equal (fmap (snd ∘ fst))) in H. }
  split; [done| |apply (rd_paths _ _ _ _ R)|apply Hsort, (rd_top _ _ _ _ R)| |].
  - intros id p e' Hp He'. destruct (Hback _ _ He') as (e & He & Hf & _). rewrite (fixed_facts _ _ Hf). by apply (rd_entry _ _ _ _ R _ _ _ Hp).
  - intros top' i id Ht' Hi. destruct (Hback _ _ Ht') as (top & Ht & _ & Hk). rewrite Hk in Hi.
    destruct (rd_sections _ _ _ _ R _ _ _ Ht Hi) as (e & He & Es). destruct (same_lookup _ _ _ _ Hs He) as (e' & He' & Hf & _). exists e'.
    split; [done|]. apply fixed_fields in Hf as (_ & _ & _ & _ & _ & E & _). congruence.
  - destruct (rd_links _ _ _ _ R) as (s0 & see & s1 & L & Hp & Hn). exists s0, see, s1. split_and!; [done|done|]. intros id. rewrite <- Hn.
    assert (H := same_at _ _ Hs id). destruct (s !! id) as [e|] eqn:E.
    + destruct (same_lookup _ _ _ _ Hs E) as (e' & -> & Hf & _). cbn. apply fixed_fields in Hf as (_ & _ & _ & _ & E1 & _ & E2). unfold names. by rewrite E1, E2.
    + by destruct (s' !! id).
Qed.

Section showing.
Context (books : book_list) (v : viewer) (opt : settings).

(** The tree from a section, or the whole tree. *)
Definition it_ok (s : store) (it : iterator) : Prop := exists T pending, NoDup (ids T) /\ rep s T /\ stands T s it pending.
Definition sections (s : store) : list Z := default [] (kids <$> s !! top_id).
Definition section_ok (s : store) (i : Z) : Prop := 0 <= i /\ (i < Z.of_nat (length (sections s)) \/ i = 0).
Definition at_section (i : Z) (x : index) : index := set_shown None i None x.
Record index_ok (m : gmap Z path) (o : list occurrence) (x : index) : Prop := {
  io_ready : ready m o (mEntryCount x) (mEntries x);
  io_iterator : it_ok (mEntries x) (mIterator x);
  io_buffer : exists t, holds (mHTMLSegment x) t;
  io_memo : default (exceeds v opt x) (mbThresholdExceeded x) = exceeds v opt x;
  io_section : section_ok (mEntries x) (mSectionIndexShown x);
  io_cache : forall k t, mSectionCache x !! k = Some t ->
    (exceeds v opt x = false -> k = -1) /\ GetSectionNavigation opt (exceeds v opt x) (at_section k x) = Some t;
  io_clicked : forall id, mClickedEntry x = Some id -> is_Some (mEntries x !! id)
}.
Lemma ready_top m o n s : ready m o n s -> exists top, s !! top_id = Some top /\ mChildrenSortArray top = Some (sections s) /\ kids top = sections s.
Proof. intros R. destruct (rd_top _ _ _ _ R) as (top & Ht & Hs). exists top. unfold sections. by rewrite Ht. Qed.
Lemma whole_tree m o n s : ready m o n s -> exists T, root T = top_id /\ rep s T /\ NoDup (ids T) /\ m !! root T = Some [].
Proof.
  intros R. assert (Hsh := rd_shaped _ _ _ _ R). assert (Ht := sh_top _ _ _ Hsh). destruct (tree_at m n s Hsh (Z.to_nat (n + 1)) top_id [] Ht) as (T & E & Hr).
  { apply (sh_range _ _ _ Hsh) in Ht. unfold top_id in *. lia. }
  exists T. rewrite E. split_and!; try done. eapply NoDup_ids; [done|done|by rewrite E].
Qed.
Lemma index_ok_loaded l x m : unshown x -> ready m (book_occs 0 l) (mEntryCount x) (mEntries x) -> index_ok m (book_occs 0 l) x.
Proof.
  intros (H1 & H2 & H3 & H4 & H5 & H6) R. destruct (whole_tree _ _ _ _ R) as (T & _ & Hr & Hn & _). split; try done.
  - exists T, []. split_and!; try done. by constructor.
  - exists "". by rewrite H5.
  - by rewrite H1.
  - split; [lia|]. right. done.
  - intros k t. by rewrite H2, lookup_empty.
  - intros id. by rewrite H6.
Qed.
Lemma sections_same s s' : same s s' -> sections s' = sections s.
Proof.
  intros H. unfold sections. assert (E := same_at _ _ H top_id). destruct (s !! top_id), (s' !! top_id); try done. apply (f_equal (fmap (snd ∘ fst))) in E.
  cbn in E |- *. congruence.
Qed.
Lemma section_text_same exc k i e e' : fixed e' = fixed e -> bare e = bare e' -> section_text exc k i e = section_text exc k i e'.
Proof.
  intros Hf Hb. unfold section_text. rewrite (text_of_fixed _ _ Hf). unfold bare in Hb. destruct (exc && _); [done|].
  by destruct (mChildren e), (mChildrenSortArray e), (mChildren e'), (mChildrenSortArray e').
Qed.
(** The list of sections depends on texts and on what has something below it. *)
Lemma navigation_same exc x x' : same (mEntries x) (mEntries x') -> is_sorted (mEntries x) top_id -> is_sorted (mEntries x') top_id ->
  mSectionIndexShown x = mSectionIndexShown x' -> GetSectionNavigation opt exc x = GetSectionNavigation opt exc x'.
Proof.
  intros Hs (top & Ht & Ha) (top' & Ht' & Ha') Hsec. unfold GetSectionNavigation. rewrite Ht, Ht'. cbn [mbind option_bind].
  rewrite Ha, Ha', Hsec. cbn [mbind option_bind]. destruct (same_lookup _ _ _ _ Hs Ht) as (top2 & E & _ & Hk). rewrite Ht' in E. injection E as <-. rewrite Hk.
  erewrite mapM_ext; [done|]. intros [i id]. cbn. destruct (mEntries x !! id) as [e|] eqn:Ee.
  - destruct (same_lookup _ _ _ _ Hs Ee) as (e' & Ee' & Hf & _). rewrite Ee'. cbn [mbind option_bind].
    by rewrite (section_text_same _ _ _ _ _ Hf (same_bare _ _ _ _ _ Hs Ee Ee')).
  - assert (E := same_at _ _ Hs id). rewrite Ee in E. by destruct (mEntries x' !! id).
Qed.

Section kept.
Context (m : gmap Z path) (o : list occurrence).
Lemma threshold_ok x : index_ok m o x -> ThresholdExceeded v opt x = (exceeds v opt x, set_memo (Some (exceeds v opt x)) (mSectionCache x) x).
Proof. intros H. unfold ThresholdExceeded. by rewrite (io_memo _ _ _ H). Qed.
(** Changes that keep the invariant. *)
Lemma index_ok_update x x' : index_ok m o x -> mEntryCount x' = mEntryCount x -> later (mEntries x) (mEntries x') ->
  it_ok (mEntries x') (mIterator x') -> (exists t, holds (mHTMLSegment x') t) ->
  mbThresholdExceeded x' = mbThresholdExceeded x \/ mbThresholdExceeded x' = Some (exceeds v opt x) ->
  section_ok (mEntries x) (mSectionIndexShown x') -> mSectionCache x' = mSectionCache x ->
  (forall id, mClickedEntry x' = Some id -> is_Some (mEntries x !! id)) -> index_ok m o x'.
Proof.
  intros H Hn Hl Hit Hb Hm Hs Hc Hcl. assert (R := io_ready _ _ _ H). assert (R' := ready_later _ _ _ _ _ Hl R).
  assert (Hx : exceeds v opt x' = exceeds v opt x) by (unfold exceeds; by rewrite Hn). split.
  - by rewrite Hn.
  - done.
  - done.
  - rewrite Hx. destruct Hm as [->| ->]; [apply (io_memo _ _ _ H)|done].
  - unfold section_ok. rewrite (sections_same _ _ (proj1 Hl)). done.
  - intros k t. rewrite Hc, Hx. intros Hk. destruct (io_cache _ _ _ H k t Hk) as [? <-]. split; [done|].
    symmetry. apply navigation_same; [apply Hl|apply (rd_top _ _ _ _ R)|apply (rd_top _ _ _ _ R')|done].
  - intros id Hid. destruct (Hcl id Hid) as [e He]. destruct (same_lookup _ _ _ _ (proj1 Hl) He) as (e' & He' & _). by exists e'.
Qed.
Lemma index_ok_moved x x' : index_ok m o x -> mEntryCount x' = mEntryCount x -> mEntries x' = mEntries x ->
  mIterator x' = mIterator x -> mHTMLSegment x' = mHTMLSegment x ->
  mbThresholdExceeded x' = mbThresholdExceeded x \/ mbThresholdExceeded x' = Some (exceeds v opt x) ->
  section_ok (mEntries x) (mSectionIndexShown x') -> mSectionCache x' = mSectionCache x ->
  (forall id, mClickedEntry x' = Some id -> is_Some (mEntries x !! id)) -> index_ok m o x'.
Proof.
  intros H Hn He Hi Hb. apply index_ok_update; [done|done|by rewrite He|rewrite He, Hi; apply (io_iterator _ _ _ H)|].
  rewrite Hb. apply (io_buffer _ _ _ H).
Qed.
Lemma it_ok_end s it : (exists n, ready m o n s) -> mEntry it = None -> it_ok s it.
Proof. intros [n R] He. destruct (whole_tree _ _ _ _ R) as (T & _ & Hr & Hn & _). exists T, []. split_and!; [done|done|by constructor]. Qed.

(** Where the iterator starts. *)
Definition scope_of (s : store) (i : Z) (T : tree) : Prop :=
  if i =? -1 then m !! root T = Some [] else at_index (sections s) i = Some (root T) /\ exists k, m !! root T = Some [k].
Lemma section_path n s i id : ready m o n s -> at_index (sections s) i = Some id -> exists k, m !! id = Some [k].
Proof.
  intros R Hi. destruct (ready_top _ _ _ _ R) as (top & Ht & _ & Hk). assert (Hsh := rd_shaped _ _ _ _ R).
  destruct (sh_kids _ _ _ Hsh _ _ _ (sh_top _ _ _ Hsh) Ht) as (ks & _ & Hks & _). rewrite Hk in Hks.
  unfold at_index in Hi. case_if; [done|]. destruct (Forall2_lookup_r _ _ _ _ _ Hks Hi) as (k & _ & Hm). by exists k.
Qed.
Lemma reset_spec n s i : ready m o n s -> i = -1 \/ section_ok s i ->
  exists it, Reset i s = Some it /\
    ((i <> -1 /\ sections s = [] /\ mEntry it = None) \/
     exists T, scope_of s i T /\ rep s T /\ NoDup (ids T) /\ stands T s it (below [] T)).
Proof.
  intros R Hi. assert (Hsh := rd_shaped _ _ _ _ R). unfold Reset, scope_of. destruct (Z.eqb_spec i (-1)) as [->|Hne].
  - eexists. split; [done|]. right. destruct (whole_tree _ _ _ _ R) as (T & E & Hr & Hn & Hm). exists T. split_and!; [done|done|done|].
    rewrite <- E. assert (H := Stands_at T s [] T (Placed_top T) (Forall_nil_2 _)). cbn [stack_of map rest] in H. by rewrite app_nil_r in H.
  - destruct Hi as [?|[Hi0 Hi]]; [done|]. destruct (ready_top _ _ _ _ R) as (top & Ht & Ha & _). rewrite Ht. cbn [mbind option_bind]. rewrite Ha.
    eexists. split; [done|]. destruct (sections s) as [|k l] eqn:Es; [by left|right].
    assert (Hex : exists id, at_index (k :: l) i = Some id).
    { assert (Hlt : 0 <= i < Z.of_nat (length (k :: l))) by (destruct Hi; cbn [length] in *; lia). unfold at_index.
      destruct (Z.ltb_spec i 0); [lia|]. destruct (lookup_lt_is_Some_2 (k :: l) (Z.to_nat i)) as [id Hid]; [lia|by exists id]. }
    destruct Hex as [id Hid]. rewrite Hid. rewrite <- Es in Hid. destruct (section_path _ _ _ _ R Hid) as [key Hkey].
    destruct (tree_at m n s Hsh (Z.to_nat (n + 1)) id [key] Hkey) as (T & E & Hr); [apply (sh_range _ _ _ Hsh) in Hkey; unfold top_id in *; lia|].
    exists T. subst id. split; [split; [done|by exists key]|]. split; [done|]. split; [by eapply NoDup_ids|].
    assert (H := Stands_at T s [] T (Placed_top T) (Forall_nil_2 _)). cbn [stack_of map rest] in H. by rewrite app_nil_r in H.
Qed.
End kept.
End showing.
