(* ===== verification/HelpIndexReach.v ===== *)
(** * Every state of the index
    Pages, the list of sections and clicks keep what loading has made; in every state the
    page shows the entries that the data describe, and its links lead back to them. *)
From Stdlib Require Import Sorted.
From S2P Require Import Prelude JsString JsNum HelpString HelpBooks HelpScore HelpTree HelpOutline HelpContents HelpIndex HelpIndexSort HelpIndexPage HelpIndexWalk HelpIndexText HelpIndexLoad HelpIndexPaths HelpIndexReady HelpIndexShow.
Open Scope Z_scope.
#[local] Set Warnings "-clear-no-such-hyp".

Section reach.
Context (books : book_list) (v : viewer) (opt : settings).

(** What the pages of the panel and the clicks on them do. *)
Inductive index_step (x : index) : index -> Prop :=
| Step_start html x' : StartHTMLSegments v opt x = Some (html, x') -> index_step x x'
| Step_advance b x' : AdvanceHTMLSegment v opt x = Some (b, x') -> index_step x x'
| Step_get : index_step x (snd (GetHTMLSegment x))
| Step_navigation html x' : NavigationBodyHTML v opt x = Some (html, x') -> index_step x x'
| Step_section i : 0 <= i < Z.of_nat (length (sections (mEntries x))) -> index_step x (fst (DisplaySection v opt i x))
| Step_clicked info x' ef : ClickedEntry books v info x = Some (x', ef) -> index_step x x'
| Step_see_also info x' ef : ClickedSeeAlsoEntry v opt info x = Some (x', ef) -> index_step x x'.

Section steps.
Context (m : gmap Z path) (o : list occurrence).
Abbreviation ok := (index_ok v opt m o).
Lemma ok_ready x : ok x -> exists n, ready m o n (mEntries x).
Proof. intros H. eexists. apply (io_ready _ _ _ _ _ H). Qed.
(** The page starts where its scope is. *)
Lemma start_spec x : ok x ->
  let i := if exceeds v opt x then mSectionIndexShown x else -1 in
  exists html it, StartHTMLSegments v opt x = Some (html, set_page (mEntries x) it (mHTMLSegment x) (set_memo (Some (exceeds v opt x)) (mSectionCache x) x)) /\
    ((i <> -1 /\ sections (mEntries x) = [] /\ mEntry it = None) \/
     exists T, scope_of m (mEntries x) i T /\ rep (mEntries x) T /\ NoDup (ids T) /\ stands T (mEntries x) it (below [] T)).
Proof.
  intros H i. assert (R := io_ready _ _ _ _ _ H). unfold StartHTMLSegments. rewrite (threshold_ok _ _ _ _ _ H).
  destruct (reset_spec m o _ _ i R) as (it & Hit & Hs).
  { unfold i. destruct (exceeds v opt x); [right; apply (io_section _ _ _ _ _ H)|by left]. }
  cbn [set_memo mSectionIndexShown mEntries]. fold i. rewrite Hit. cbn [mbind option_bind]. by eexists _, it.
Qed.
Lemma it_ok_start x it i : ok x -> ((i <> -1 /\ sections (mEntries x) = [] /\ mEntry it = None) \/
     exists T, scope_of m (mEntries x) i T /\ rep (mEntries x) T /\ NoDup (ids T) /\ stands T (mEntries x) it (below [] T)) -> it_ok (mEntries x) it.
Proof.
  intros H [(_ & _ & He)|(T & _ & Hr & Hn & Hst)]; [by apply (it_ok_end m o); [apply ok_ready|]|]. by exists T, (below [] T).
Qed.
Lemma section_click x i : ok x -> 0 <= i < Z.of_nat (length (sections (mEntries x))) -> ok (fst (DisplaySection v opt i x)).
Proof.
  intros H Hi. unfold DisplaySection, ThresholdExceeded. set (y := set_shown (mPanelAnchor x) i (mClickedEntry x) x).
  assert (Hy : exceeds v opt y = exceeds v opt x) by done. assert (Hm : mbThresholdExceeded y = mbThresholdExceeded x) by done.
  rewrite Hm, Hy, (io_memo _ _ _ _ _ H).
  assert (Hok : forall a, ok (set_shown a i (mClickedEntry x) (set_memo (Some (exceeds v opt x)) (mSectionCache x) y))).
  { intros a. apply (index_ok_moved v opt m o x); try done; [by right| |apply (io_clicked _ _ _ _ _ H)].
    exact (conj (proj1 Hi) (or_introl (proj2 Hi))). }
  destruct (exceeds v opt x) eqn:E; [exact (Hok (mPanelAnchor x))|exact (Hok (Some ("section" +++ Z_to_string i)))].
Qed.
Lemma target_in_sections s g l i : target_section s g l = Some (Some i) -> 0 <= i < Z.of_nat (length l).
Proof.
  unfold target_section. destruct (mapM _ l) as [gs|] eqn:E; [|done]. cbn [mbind option_bind]. apply length_mapM in E. rewrite E.
  destruct (list_find _ gs) as [[k y]|] eqn:F; [|done]. intros [= <-]. cbn. apply list_find_Some in F as (F & _). apply lookup_lt_Some in F. lia.
Qed.
Lemma see_also_click x info x' ef : ok x -> ClickedSeeAlsoEntry v opt info x = Some (x', ef) -> ok x'.
Proof.
  intros H E. assert (R := io_ready _ _ _ _ _ H). unfold ClickedSeeAlsoEntry in E. destruct (GetEntry info x) as [id|]; [|done].
  cbn [mbind option_bind] in E. destruct (mEntries x !! id) as [e|]; [|done]. cbn [mbind option_bind] in E.
  destruct (mSeeAlsoTargetName e) as [name|]; [|by injection E as <- _]. destruct (mSeeAlsoTargetGroupID e) as [g|]; [|by injection E as <- _].
  destruct (ready_top _ _ _ _ R) as (top & Ht & Ha & _). rewrite Ht in E. cbn [mbind option_bind] in E. rewrite Ha in E. cbn [mbind option_bind] in E.
  destruct (target_section _ _ _) as [[i|]|] eqn:Et; [|by injection E as <- _|done]. cbn [mbind option_bind] in E.
  apply target_in_sections in Et. set (y := set_shown (Some ("sa" +++ name)) (mSectionIndexShown x) (mClickedEntry x) x) in E.
  assert (Hy : ok y).
  { apply (index_ok_moved v opt m o x); try done; [by left|apply (io_section _ _ _ _ _ H)|apply (io_clicked _ _ _ _ _ H)]. }
  rewrite (threshold_ok _ _ _ _ _ Hy) in E.
  assert (Hz : ok (set_memo (Some (exceeds v opt y)) (mSectionCache y) y)).
  { apply (index_ok_moved v opt m o y); try done; [by right|apply (io_section _ _ _ _ _ Hy)|apply (io_clicked _ _ _ _ _ Hy)]. }
  case_if.
  - assert (Hd := section_click _ i Hz Et). destruct (DisplaySection v opt i _) as [z ef']. by injection E as <- _.
  - by injection E as <- _.
Qed.
(** The list of sections that was kept is the one that would be made now. *)
Lemma nav_section k x : exceeds v opt x = false \/ mSectionIndexShown x = k ->
  GetSectionNavigation opt (exceeds v opt x) (at_section k x) = GetSectionNavigation opt (exceeds v opt x) x.
Proof.
  intros Hk. unfold GetSectionNavigation. cbn [at_section set_shown mEntries mSectionIndexShown]. destruct (mEntries x !! top_id) as [top|]; [|done].
  cbn [mbind option_bind]. destruct (mChildrenSortArray top) as [l|]; [|done]. cbn [mbind option_bind]. erewrite mapM_ext; [done|].
  intros [i id]. cbn. destruct (mEntries x !! id); [|done]. cbn. destruct Hk as [->| <-]; done.
Qed.
Lemma navigation_kept x : ok x ->
  exists nav html x', GetSectionNavigation opt (exceeds v opt x) x = Some nav /\ NavigationBodyHTML v opt x = Some (html, x') /\
    html = line (qq "<script type=`text/javascript` language=`JavaScript1.2`>") +++ line " <!--"
        +++ accessor "fD(ParamSectionIndex)" "WWHFrame.WWHIndex.fDisplaySection(ParamSectionIndex);"
        +++ line " // -->" +++ line "</script>" +++ nav +++ space /\ ok x'.
Proof.
  intros H. assert (R := io_ready _ _ _ _ _ H). unfold NavigationBodyHTML. rewrite (threshold_ok _ _ _ _ _ H).
  cbn [set_memo mSectionIndexShown mSectionCache mbThresholdExceeded]. set (key := if exceeds v opt x then mSectionIndexShown x else -1).
  assert (Hkey : exceeds v opt x = false \/ mSectionIndexShown x = key) by (unfold key; destruct (exceeds v opt x); [by right|by left]).
  assert (Hnav : exists nav, GetSectionNavigation opt (exceeds v opt x) x = Some nav).
  { unfold GetSectionNavigation. destruct (ready_top _ _ _ _ R) as (top & Ht & Ha & Hk). rewrite Ht. cbn [mbind option_bind]. rewrite Ha. cbn [mbind option_bind].
    assert (Hall : is_Some (mapM (fun '(i, id) => e ← mEntries x !! id; Some (section_text (exceeds v opt x) (mSectionIndexShown x) (Z.of_nat i) e)) (imap pair (sections (mEntries x))))).
    { apply mapM_is_Some, Forall_forall. intros [i id] Hin. apply list_elem_of_lookup in Hin as [j Hj]. rewrite list_lookup_imap in Hj.
      destruct (sections (mEntries x) !! j) as [c|] eqn:Ec; [|done]. injection Hj as -> ->. rewrite <- Hk in Ec.
      destruct (rd_sections _ _ _ _ R top _ _ Ht Ec) as (e & He & _). cbn. rewrite He. by eexists. }
    destruct Hall as [ts ->]. by eexists. }
  destruct Hnav as [nav Hnav]. exists nav.
  assert (Hgot : match mSectionCache x !! key with Some t => Some t | None => GetSectionNavigation opt (exceeds v opt x) (set_memo (Some (exceeds v opt x)) (mSectionCache x) x) end = Some nav).
  { destruct (mSectionCache x !! key) as [t|] eqn:Ec; [|done]. destruct (io_cache _ _ _ _ _ H _ _ Ec) as [_ Ht].
    rewrite (nav_section key x Hkey), Hnav in Ht. done. }
  rewrite Hgot. cbn [mbind option_bind]. do 2 eexists. split_and!; [done|done|done|].
  destruct H as [H1 H2 H3 H4 H5 H6 H7]. split; try done.
  intros k t. cbn [set_memo mSectionCache]. change (exceeds v opt (set_memo _ _ _)) with (exceeds v opt x).
  destruct (decide (k = key)) as [->|Hne]; [rewrite lookup_insert_eq|rewrite lookup_insert_ne by done; apply H6].
  intros [= <-]. split; [unfold key; by intros ->|]. rewrite <- Hnav. exact (nav_section key x Hkey).
Qed.

Lemma step_ok x x' : ok x -> index_step x x' -> ok x'.
Proof.
  intros H Hst. assert (Hkeep := fun y => index_ok_moved v opt m o x y H). destruct Hst as [html x' E|b x' E| |html x' E|i Hi|info x' ef E|info x' ef E].
  - destruct (start_spec x H) as (html' & it & E' & Hit). rewrite E in E'. injection E' as _ ->.
    apply (index_ok_update v opt m o x); try done; [exact (it_ok_start x it _ H Hit)|apply (io_buffer _ _ _ _ _ H)|by right|apply (io_section _ _ _ _ _ H)|apply (io_clicked _ _ _ _ _ H)].
  - destruct (io_iterator _ _ _ _ _ H) as (T & pending & Hn & Hr & Hs). destruct (io_buffer _ _ _ _ _ H) as [t Ht].
    unfold AdvanceHTMLSegment in E. rewrite (threshold_ok _ _ _ _ _ H) in E. cbn [set_memo mSectionIndexShown mEntries mIterator mHTMLSegment] in E.
    destruct (index_loop_writes v opt (mEntries x) (if exceeds v opt x then Z_to_string (mSectionIndexShown x) else "") T Hn Hr
      pending (enough (mEntries x)) (mEntries x) (mIterator x) (fReset (mHTMLSegment x)) "") as (pre & post & s' & it' & b' & _ & HL & Hh & Hl & Hst & _).
    { assert (Hlen := stands_length _ _ _ _ Hn Hr Hs). unfold enough. lia. }
    { done. } { done. } { by eapply holds_reset. }
    rewrite HL in E. cbn [mbind option_bind] in E. injection E as _ <-.
    apply (index_ok_update v opt m o x); try done; [|by eexists|by right|apply (io_section _ _ _ _ _ H)|apply (io_clicked _ _ _ _ _ H)].
    exists T, post. split_and!; [done| |done]. cbn. by rewrite <- (proj1 Hl).
  - unfold GetHTMLSegment. destruct (io_buffer _ _ _ _ _ H) as [t Ht]. destruct (holds_get _ _ Ht) as [_ Hh].
    destruct (fGetBuffer (mHTMLSegment x)) as [t' b].
    apply (index_ok_update v opt m o x); try done; [apply (io_iterator _ _ _ _ _ H)|by eexists|by left|apply (io_section _ _ _ _ _ H)|apply (io_clicked _ _ _ _ _ H)].
  - destruct (navigation_kept x H) as (nav & html' & y & _ & E' & _ & Hy). rewrite E in E'. by injection E' as _ ->.
  - by apply section_click.
  - unfold ClickedEntry in E. destruct (GetEntry info x) as [id|]; [|done]. cbn [mbind option_bind] in E.
    destruct (mEntries x !! id) as [e|] eqn:He; [|done]. cbn [mbind option_bind] in E. destruct (only_link e) as [[b l]|].
    + destruct (link_parts l) as [f a]. destruct (GetBookIndexFileIndexURL _ _ _ _ _); [|done]. by injection E as <- _.
    + injection E as <- _. apply Hkeep; try done; [by left|apply (io_section _ _ _ _ _ H)|]. intros j [= <-]. by eexists.
  - by eapply see_also_click.
Qed.
Lemma steps_ok x x' : ok x -> rtc index_step x x' -> ok x'.
Proof. intros H Hr. induction Hr as [x|x y z Hst _ IH]; [done|]. apply IH. by eapply step_ok. Qed.
End steps.
End reach.
