(* ===== verification/HelpIndexLinks.v ===== *)
(** * The page of the index
    What the page shows in every state, and where its links lead. *)
From Stdlib Require Import Sorted.
From S2P Require Import Prelude JsString JsNum HelpString HelpBooks HelpScore HelpTree HelpOutline HelpContents HelpIndex HelpIndexSort HelpIndexPage HelpIndexWalk HelpIndexText HelpIndexLoad HelpIndexPaths HelpIndexReady HelpIndexShow HelpIndexReach.
Open Scope Z_scope.
#[local] Set Warnings "-clear-no-such-hyp".

(** ** Links as positions *)
Section info.
Context (s : store).
Lemma array_get_at l (i : nat) : array_get l (Z_to_string (Z.of_nat i)) = l !! i.
Proof.
  unfold array_get. rewrite parseInt10_Z_to_string by lia. cbn [mbind option_bind]. rewrite String.eqb_refl. unfold at_index.
  destruct (Z.ltb_spec (Z.of_nat i) 0); [lia|]. by rewrite Nat2Z.id.
Qed.
Lemma numeral_plain (i : nat) : sall (not_char ":") (Z_to_string (Z.of_nat i)) = true.
Proof. apply digits_not_char; [done|]. rewrite Z_to_string_nonneg by lia. apply nat_digits_digits. lia. Qed.
Lemma numeral_nonempty (i : nat) : 0 < slen (Z_to_string (Z.of_nat i)).
Proof.
  assert (H := parseInt10_Z_to_string (Z.of_nat i) ltac:(lia)). destruct (Z_to_string (Z.of_nat i)); [done|]. unfold slen. cbn. lia.
Qed.
Definition numerals (l : list nat) : list string := map (fun i => Z_to_string (Z.of_nat i)) l.
Lemma numerals_plain l : Forall (fun t => sall (not_char ":") t = true) (numerals l).
Proof. apply Forall_forall. intros t (j & -> & _)%list_elem_of_fmap. apply numeral_plain. Qed.
Lemma numerals_snoc l i : numerals (l ++ [i]) = numerals l ++ [Z_to_string (Z.of_nat i)].
Proof. apply map_app. Qed.
Lemma entry_info_join ps : forall parts, parts <> [] -> Forall (fun t => 0 < slen t) parts ->
  entry_info (join ":" parts) ps = join ":" (parts ++ numerals ps).
Proof.
  induction ps as [|i ps IH]; intros parts Hne Hp; [by rewrite app_nil_r|]. unfold entry_info. cbn [fold_left].
  assert (Hl : 0 < slen (join ":" parts)).
  { destruct parts as [|t parts]; [done|]. apply Forall_cons in Hp as [Ht _]. cbn [join]. destruct parts; [done|]. rewrite slen_app. assert (H := slen_nonneg (":" +++ join ":" (s0 :: parts))). lia. }
  destruct (Z.ltb_spec 0 (slen (join ":" parts))); [|lia]. fold (entry_info ((join ":" parts +++ ":") +++ Z_to_string (Z.of_nat i)) ps).
  rewrite sapp_assoc. assert (E := join_app ":" parts [Z_to_string (Z.of_nat i)] Hne ltac:(done)). cbn [join] in E. rewrite <- E, IH.
  - by rewrite <- app_assoc.
  - by destruct parts.
  - apply Forall_app. split; [done|]. constructor; [apply numeral_nonempty|done].
Qed.
(** The text of a link is split into the positions that it was made of. *)
Lemma split_info base ps : (base = "" /\ ps <> []) \/ (exists i : nat, base = Z_to_string (Z.of_nat i)) ->
  js_split (entry_info base ps) ":" = (if String.eqb base "" then [] else [base]) ++ numerals ps.
Proof.
  intros [[-> Hps]|[i ->]].
  - destruct ps as [|i ps]; [done|]. cbn [String.eqb app]. unfold entry_info. cbn [fold_left]. change (0 <? slen "") with false. cbn iota.
    change ("" +++ Z_to_string (Z.of_nat i)) with (Z_to_string (Z.of_nat i)). fold (entry_info (Z_to_string (Z.of_nat i)) ps).
    change (Z_to_string (Z.of_nat i)) with (join ":" [Z_to_string (Z.of_nat i)]) at 1. rewrite entry_info_join; [|done|constructor; [apply numeral_nonempty|done]].
    apply (js_split_join ":"%char); [exact (numerals_plain (i :: ps))|done].
  - assert (Hne := numeral_nonempty i). destruct (String.eqb_spec (Z_to_string (Z.of_nat i)) "") as [E|_]; [rewrite E in Hne; done|].
    change (Z_to_string (Z.of_nat i)) with (join ":" [Z_to_string (Z.of_nat i)]) at 1. rewrite entry_info_join; [|done|by constructor].
    apply (js_split_join ":"%char); [exact (numerals_plain (i :: ps))|done].
Qed.
(** Following the positions of a place from the top of its tree. *)
Lemma follow_placed T fr t : rep s T -> placed T fr t -> Forall (fun '(p, _) => is_sorted s p) (stack_of fr) ->
  fold_left (follow s) (numerals (rev (map snd (stack_of fr)))) (Some (root T)) = Some (root t).
Proof.
  intros Hr. induction 1 as [|fr p i k Hp IH Hk]; intros Hs; [done|]. change (stack_of ((p, i) :: fr)) with ((root p, i) :: stack_of fr) in *.
  apply Forall_cons in Hs as [Hsp Hs]. cbn [map snd rev]. rewrite numerals_snoc, fold_left_app, (IH Hs). cbn [fold_left].
  assert (Hrp : rep s p) by (by eapply placed_rep).
  destruct (sorted_kids s p Hrp Hsp) as (e & He & Ha). unfold follow. cbn [mbind option_bind]. rewrite He. cbn [mbind option_bind]. rewrite Ha. cbn [mbind option_bind].
  rewrite array_get_at. rewrite list_lookup_fmap, Hk. done.
Qed.
End info.

(** ** The page *)
Section page.
Context (books : book_list) (v : viewer) (opt : settings) (Hmax : 0 < mMaxHTMLSegmentSize v).
Definition base_of (x : index) : string := if exceeds v opt x then Z_to_string (mSectionIndexShown x) else "".
(** The text in the link of an entry that is visited. *)
Definition link_info (x : index) (vis : visit) : string := entry_info (base_of x) (rev (map snd (snd vis))).

Section states.
Context (m : gmap Z path) (o : list occurrence).
Abbreviation ok := (index_ok v opt m o).
Definition in_scope (x : index) (p : path) : Prop :=
  (exists id, m !! id = Some p) /\
  if exceeds v opt x then exists id k j r, at_index (sections (mEntries x)) (mSectionIndexShown x) = Some id /\ m !! id = Some [k] /\ p = k :: j :: r
  else p <> [].
(** What a walk visits is what is in the scope. *)
Lemma scope_paths x : ok x -> forall it pending,
  (let i := if exceeds v opt x then mSectionIndexShown x else -1 in
   (i <> -1 /\ sections (mEntries x) = [] /\ pending = []) \/
   (exists T, scope_of m (mEntries x) i T /\ rep (mEntries x) T /\ stands T (mEntries x) it (below [] T) /\ pending = below [] T)) ->
  exists ps, Forall2 (fun vis p => m !! fst vis = Some p) pending ps /\ StronglySorted path_lt ps /\ forall p, p ∈ ps <-> in_scope x p.
Proof.
  intros H it pending Hcase. cbn zeta in Hcase. assert (R := io_ready _ _ _ _ _ H). assert (Hsh := rd_shaped _ _ _ _ R). unfold in_scope.
  assert (Hsec := io_section _ _ _ _ _ H). destruct Hcase as [(Hne & Hno & ->)|(T & Hscope & Hr & _ & ->)].
  - exists []. split; [constructor|]. split; [constructor|]. intros p. split; [by intros ?%elem_of_nil|]. intros [_ Hp]. exfalso.
    destruct (exceeds v opt x); [|lia]. destruct Hp as (id & k & j & r & Hid & _). rewrite Hno in Hid. unfold at_index in Hid. by case_if.
  - unfold scope_of in Hscope. destruct (exceeds v opt x).
    + destruct (Z.eqb_spec (mSectionIndexShown x) (-1)); [destruct Hsec; lia|]. destruct Hscope as [Hat [k Hk]].
      destruct (below_paths m _ _ Hsh T [k] [] Hr Hk) as (ps & Hps & Hs & Hin). exists ps. split; [done|]. split; [done|]. intros p. rewrite Hin. split.
      * intros (j & r & -> & Hex). split; [done|]. by exists (root T), k, j, r.
      * intros (Hex & id & k' & j & r & Hid & Hk' & ->). rewrite Hat in Hid. injection Hid as <-. rewrite Hk in Hk'. injection Hk' as <-. by exists j, r.
    + destruct (below_paths m _ _ Hsh T [] [] Hr Hscope) as (ps & Hps & Hs & Hin). exists ps. split; [done|]. split; [done|]. intros p. rewrite Hin. split.
      * intros (k & r & -> & Hex). done.
      * intros [Hex Hne]. destruct p as [|k r]; [done|]. by exists k, r.
Qed.
(** The links of what is visited lead back to it. *)
Lemma scope_links x s' T vis : ok x -> later (mEntries x) s' -> (let i := if exceeds v opt x then mSectionIndexShown x else -1 in scope_of m (mEntries x) i T) ->
  rep (mEntries x) T -> vis ∈ below [] T -> Forall (fun '(p, _) => is_sorted s' p) (snd vis) ->
  fold_left (follow s') (js_split (link_info x vis) ":") (Some top_id) = Some (fst vis).
Proof.
  intros H Hl Hscope Hr Hin Hsort. cbn zeta in Hscope. assert (R := io_ready _ _ _ _ _ H). assert (R' := ready_later _ _ _ _ _ Hl R).
  destruct (below_placed T T [] (Placed_top T) vis Hin) as (fr & t & Hp & Hne & ->). cbn [fst snd] in *.
  assert (Hr' : rep s' T) by (by rewrite <- (proj1 Hl)). assert (Hfollow := follow_placed s' T fr t Hr' Hp Hsort).
  destruct (ready_top _ _ _ _ R') as (top & Ht & Ha & _). rewrite (sections_same _ _ (proj1 Hl)) in Ha.
  unfold link_info, base_of. cbn [snd]. unfold scope_of in Hscope. destruct (exceeds v opt x).
  - assert (Hsec := io_section _ _ _ _ _ H). destruct Hsec as [Hsec _]. destruct (Z.eqb_spec (mSectionIndexShown x) (-1)); [lia|].
    destruct Hscope as [Hat _]. assert (Ei : mSectionIndexShown x = Z.of_nat (Z.to_nat (mSectionIndexShown x))) by lia.
    rewrite split_info by (right; exists (Z.to_nat (mSectionIndexShown x)); f_equal; exact Ei). assert (Hb := numeral_nonempty (Z.to_nat (mSectionIndexShown x))). rewrite <- Ei in Hb.
    destruct (String.eqb_spec (Z_to_string (mSectionIndexShown x)) "") as [E|_]; [rewrite E in Hb; done|]. cbn [app fold_left].
    assert (Hfirst : follow s' (Some top_id) (Z_to_string (mSectionIndexShown x)) = Some (root T)).
    { unfold follow. cbn [mbind option_bind]. rewrite Ht. cbn [mbind option_bind]. rewrite Ha. cbn [mbind option_bind]. rewrite Ei, array_get_at.
      unfold at_index in Hat. destruct (Z.ltb_spec (mSectionIndexShown x) 0); [lia|done]. }
    rewrite Hfirst. exact Hfollow.
  - rewrite split_info.
    + cbn [String.eqb app]. assert (Etop : root T = top_id).
      { assert (Hsh := rd_shaped _ _ _ _ R). apply (sh_inj _ _ _ Hsh _ _ [] Hscope), (sh_top _ _ _ Hsh). }
      by rewrite <- Etop.
    + left. split; [done|]. intros E. apply Hne. apply (f_equal length) in E. rewrite length_rev, !length_map in E. by destruct fr.
Qed.
Lemma page_spec x : ok x ->
  exists html x1 chunks x2 ps, StartHTMLSegments v opt x = Some (html, x1) /\
    write_segments v opt (enough (mEntries x)) x1 = Some (map (chunk v opt (mEntries x) (base_of x) false) chunks, x2) /\
    Forall2 (fun vis p => m !! fst vis = Some p) (concat chunks) ps /\ StronglySorted path_lt ps /\ (forall p, p ∈ ps <-> in_scope x p) /\
    Forall (fun vis => GetEntry (link_info x vis) x2 = Some (fst vis)) (concat chunks).
Proof.
  intros H. assert (R := io_ready _ _ _ _ _ H). destruct (start_spec v opt m o x H) as (html & it & HS & Hcase).
  set (x1 := set_page (mEntries x) it (mHTMLSegment x) (set_memo (Some (exceeds v opt x)) (mSectionCache x) x)) in *.
  assert (Hpend : exists T pending, rep (mEntries x) T /\ NoDup (ids T) /\ stands T (mEntries x) it pending /\
    (let i := if exceeds v opt x then mSectionIndexShown x else -1 in
     (i <> -1 /\ sections (mEntries x) = [] /\ pending = []) \/ (scope_of m (mEntries x) i T /\ pending = below [] T))).
  { cbn zeta in *. destruct Hcase as [(H1 & H2 & He)|(T & Hsc & Hr & Hn & Hst)].
    - destruct (whole_tree _ _ _ _ R) as (T & _ & Hr & Hn & _). exists T, []. split_and!; [done|done|by constructor|by left].
    - exists T, (below [] T). split_and!; try done. by right. }
  destruct Hpend as (T & pending & Hr & Hn & Hst & Hcase'). clear Hcase. assert (Hlen := stands_length _ _ _ _ Hn Hr Hst).
  destruct (segments_spec v opt (mEntries x) (base_of x) T Hn Hr Hmax (enough (mEntries x)) pending x1 (exceeds v opt x))
    as (chunks & s' & it' & buf & HW & Hc & _ & Hl & Hsort & _); [unfold enough; lia|lia|done|done|apply (io_buffer _ _ _ _ _ H)|done|done|].
  destruct (scope_paths x H it pending) as (ps & Hps & Hss & Hin).
  { cbn zeta in *. destruct Hcase' as [?|[Hsc ->]]; [by left|right]. by exists T. }
  exists html, x1, chunks. do 2 eexists. split; [done|]. split; [exact HW|]. rewrite Hc. split; [exact Hps|]. split; [done|]. split; [done|].
  apply Forall_forall. intros vis Hvis. unfold GetEntry. cbn [set_page mEntries]. unfold stacks_sorted in Hsort. rewrite Forall_forall in Hsort.
  cbn zeta in Hcase'. destruct Hcase' as [(_ & _ & ->)|[Hsc ->]]; [by apply elem_of_nil in Hvis|].
  by apply (scope_links x s' T vis H Hl Hsc Hr Hvis), Hsort.
Qed.
End states.

(** ** From the books' data to the page *)

(** The sections that the data describe, in their order. *)
Lemma section_keys m o x : index_ok v opt m o x ->
  exists ks, StronglySorted key_lt ks /\ (forall k, k ∈ ks <-> at_path [k] o <> []) /\
    forall i k, at_index ks i = Some k <-> exists id, at_index (sections (mEntries x)) i = Some id /\ m !! id = Some [k].
Proof.
  intros H. assert (R := io_ready _ _ _ _ _ H). assert (Hsh := rd_shaped _ _ _ _ R). destruct (ready_top _ _ _ _ R) as (top & Ht & _ & Hk).
  destruct (sh_kids _ _ _ Hsh _ _ _ (sh_top _ _ _ Hsh) Ht) as (ks & Hs & Hks & Hall). rewrite Hk in Hks. exists ks. split; [done|]. split.
  - intros k. rewrite (rd_paths _ _ _ _ R). split.
    + intros [i Hi]%list_elem_of_lookup. split; [done|]. destruct (Forall2_lookup_l _ _ _ _ _ Hks Hi) as (id & _ & Hm). by exists id.
    + intros [_ [id Hm]]. by apply (Hall k id).
  - intros i k. unfold at_index. case_if; [split; [done|by intros (id & ? & _)]|]. split.
    + intros Hi. destruct (Forall2_lookup_l _ _ _ _ _ Hks Hi) as (id & Hid & Hm). by exists id.
    + intros (id & Hid & Hm). destruct (Forall2_lookup_r _ _ _ _ _ Hks Hid) as (k' & Hk' & Hm'). cbn in Hm'. rewrite Hm in Hm'. by injection Hm' as ->.
Qed.
(** The entry of a visit is the one that the calls for a path make. *)
Definition entry_of (o : list occurrence) (x : index) (vis : visit) (p : path) : Prop :=
  exists e, mEntries x !! fst vis = Some e /\ facts e = facts (merged (fst vis) (at_path p o)).

(** C5. After all books were loaded, and whatever pages were drawn and links clicked, the
    page of the index shows, in segments, exactly the entries that the books' data
    describe, or those of the section that is shown: each once, with the text of the first
    call for it and the links of all of them, in the order of the sort keys at each level. *)
Theorem index_shows l : length l = length (mBookList books) -> l <> [] ->
  exists x0, load_books books l new_index = Some x0 /\ forall x, rtc (index_step books v opt) x0 x ->
    exists html x1 chunks x2 ps ks, StartHTMLSegments v opt x = Some (html, x1) /\
      write_segments v opt (enough (mEntries x)) x1 = Some (map (chunk v opt (mEntries x) (base_of x) false) chunks, x2) /\
      Forall2 (entry_of (book_occs 0 l) x) (concat chunks) ps /\ StronglySorted path_lt ps /\
      StronglySorted key_lt ks /\ (forall k, k ∈ ks <-> at_path [k] (book_occs 0 l) <> []) /\
      forall p, p ∈ ps <-> at_path p (book_occs 0 l) <> [] /\
        (exceeds v opt x = true -> exists k j r, at_index ks (mSectionIndexShown x) = Some k /\ p = k :: j :: r).
Proof.
  intros Hl Hne. destruct (index_loads books l Hl Hne) as (m & x0 & Hload & U & _ & R). exists x0. split; [done|]. intros x Hr.
  assert (H : index_ok v opt m (book_occs 0 l) x) by (eapply steps_ok; [by apply index_ok_loaded|done]). clear R.
  assert (R := io_ready _ _ _ _ _ H). destruct (page_spec m _ x H) as (html & x1 & chunks & x2 & ps & HS & HW & Hps & Hs & Hin & _).
  destruct (section_keys m _ x H) as (ks & Hks & Hkin & Hkat). exists html, x1, chunks, x2, ps, ks. split_and!; try done.
  - eapply Forall2_impl; [exact Hps|]. intros vis p Hm. destruct (proj1 (sh_dom _ _ _ (rd_shaped _ _ _ _ R) (fst vis)) (ex_intro _ _ Hm)) as [e He].
    exists e. split; [done|]. by apply (rd_entry _ _ _ _ R _ _ _ Hm).
  - intros p. rewrite Hin, (rd_paths _ _ _ _ R). unfold in_scope. destruct (exceeds v opt x).
    + split.
      * intros [Hex (id & k & j & r & Hid & Hk & ->)]. split; [done|]. intros _. exists k, j, r. split; [|done]. apply Hkat. by exists id.
      * intros [[_ Hex] Hsec]. destruct (Hsec eq_refl) as (k & j & r & (id & Hid & Hk)%Hkat & ->). split; [done|]. by exists id, k, j, r.
    + split; [by intros [? ?]|by intros [[? ?] _]].
Qed.
(** C12. The link of every entry on the page of the index, split at its colons and followed
    through the sorted children, leads back to that entry. *)
Theorem index_links_back l : length l = length (mBookList books) -> l <> [] ->
  exists x0, load_books books l new_index = Some x0 /\ forall x, rtc (index_step books v opt) x0 x ->
    exists html x1 chunks x2, StartHTMLSegments v opt x = Some (html, x1) /\
      write_segments v opt (enough (mEntries x)) x1 = Some (map (chunk v opt (mEntries x) (base_of x) false) chunks, x2) /\
      Forall (fun vis => GetEntry (link_info x vis) x2 = Some (fst vis)) (concat chunks).
Proof.
  intros Hl Hne. destruct (index_loads books l Hl Hne) as (m & x0 & Hload & U & _ & R). exists x0. split; [done|]. intros x Hr.
  assert (H : index_ok v opt m (book_occs 0 l) x) by (eapply steps_ok; [by apply index_ok_loaded|done]).
  destruct (page_spec m _ x H) as (html & x1 & chunks & x2 & ps & HS & HW & _ & _ & _ & Hlinks). by exists html, x1, chunks, x2.
Qed.
End page.
