(* ===== verification/HelpIndexSee.v ===== *)
(** * "See also" in the index
    A click on a "see also" entry goes to the section of its target and to an anchor that
    the page gives to the target only. *)
From S2P Require Import Prelude JsString JsNum HelpString HelpBooks HelpScore HelpTree HelpOutline HelpContents HelpIndex HelpIndexSort HelpIndexPage HelpIndexWalk HelpIndexText HelpIndexLoad HelpIndexPaths HelpIndexReady HelpIndexShow HelpIndexReach.
Open Scope Z_scope.
#[local] Set Warnings "-clear-no-such-hyp".

(** ** Data whose references are not to other "see also" entries *)
Definition ref_path (i : item) : path :=
  [default "undefined" (see_also_group_key i) +++ "~"; default "undefined" (see_also_key i) +++ "~"].
Definition no_chain (o : list occurrence) : bool :=
  forallb (fun '(_, (_, i)) =>
    match see_also_key i, at_path (ref_path i) o with
    | Some _, (_, j) :: _ => match see_also_key j with Some _ => false | None => true end
    | _, _ => true
    end) o.
Lemma no_chain_spec o p b i more b' j more' : no_chain o = true -> at_path p o = (b, i) :: more -> is_Some (see_also_key i) ->
  at_path (ref_path i) o = (b', j) :: more' -> see_also_key j = None.
Proof.
  intros Hc Hp [k Hk] Hq. unfold no_chain in Hc. rewrite forallb_forall in Hc.
  assert (Hin : (p, (b, i)) ∈ o).
  { unfold at_path in Hp. assert (Hx : (b, i) ∈ map snd (filter (fun x => fst x = p) o)) by (rewrite Hp; by left).
    apply list_elem_of_fmap in Hx as ([q c] & E & [Hq' Hx]%list_elem_of_filter). cbn in *. by subst. }
  specialize (Hc _ (proj1 (list_elem_of_In _ _) Hin)). cbn in Hc. rewrite Hk, Hq in Hc. by destruct (see_also_key j).
Qed.

Section loaded.
Context (m : gmap Z path) (o : list occurrence) (s0 : store) (n : Z) (see : list Z) (L : loaded m o s0 n (Some see)).
Context (Hchain : no_chain o = true).
Lemma merged_names id l : names (merged id l) = (None, None).
Proof. by destruct l as [|[b i] l]. Qed.
Lemma loaded_names id e : s0 !! id = Some e -> mSeeAlsoTargetName e = None /\ mSeeAlsoTargetGroupID e = None.
Proof.
  intros He. destruct (proj2 (ld_dom _ _ _ _ _ L id)) as [p Hp]; [by exists e|]. assert (H := ld_entry _ _ _ _ _ L _ _ _ Hp He).
  assert (Hm := merged_names id (at_path p o)). rewrite <- H in Hm. unfold names in Hm. by injection Hm.
Qed.
Lemma see_found id : id ∈ see <-> exists e, s0 !! id = Some e /\ is_Some (mSeeAlsoKey e).
Proof. destruct (ld_see _ _ _ _ _ L) as (l & [= <-] & _ & H). apply H. Qed.
(** The calls for an entry, and what they make of it. *)
Lemma entry_calls id e : s0 !! id = Some e -> exists p, m !! id = Some p /\ facts e = facts (merged id (at_path p o)).
Proof.
  intros He. destruct (proj2 (ld_dom _ _ _ _ _ L id)) as [p Hp]; [by exists e|]. exists p. split; [done|].
  by rewrite <- (ld_entry _ _ _ _ _ L _ _ _ Hp He).
Qed.
Lemma target_of_paths id e g t : s0 !! id = Some e ->
  (target_of s0 id = Some (g, t) <-> m !! g = Some [group_ref e] /\ m !! t = Some [group_ref e; entry_ref e]).
Proof.
  intros He. unfold target_of. rewrite He. cbn [mbind option_bind]. destruct (proj1 (ld_dom _ _ _ _ _ L top_id)) as [top Ht]; [eexists; apply (ld_top _ _ _ _ _ L)|].
  rewrite Ht. cbn [mbind option_bind]. assert (Hkt := ld_kids _ _ _ _ _ L _ _ _ (ld_top _ _ _ _ _ L) Ht). cbn [app] in Hkt.
  assert (Hkids : forall i p e k c, m !! i = Some p -> s0 !! i = Some e -> (h ← mChildren e; h !! k) = Some c <-> m !! c = Some (p ++ [k])).
  { intros i p x k c Hi Hx. rewrite <- (ld_kids _ _ _ _ _ L _ _ _ Hi Hx). destruct (mChildren x); cbn; [done|]. by rewrite lookup_empty. }
  assert (Htop := fun k c => Hkids top_id [] top k c (ld_top _ _ _ _ _ L) Ht). cbn [app] in Htop. split.
  - intros H. destruct (mChildren top) as [h|] eqn:Eh; [|done]. cbn [mbind option_bind] in H. destruct (h !! group_ref e) as [g'|] eqn:Eg; [|done]. cbn [mbind option_bind] in H.
    assert (Hg : m !! g' = Some [group_ref e]) by (apply (Htop (group_ref e) g'); cbn; done).
    destruct (s0 !! g') as [ge|] eqn:Ege; [|done]. cbn [mbind option_bind] in H. destruct (mChildren ge) as [gh|] eqn:Egh; [|done]. cbn [mbind option_bind] in H.
    destruct (gh !! entry_ref e) as [t'|] eqn:Et; [|done]. injection H as <- <-. split; [done|].
    apply (Hkids g' [group_ref e] ge (entry_ref e) t' Hg Ege). rewrite Egh. done.
  - intros [Hg Htt]. apply Htop in Hg as Hgh. destruct (mChildren top) as [h|]; [|done]. cbn [mbind option_bind] in *. rewrite Hgh. cbn [mbind option_bind].
    destruct (proj1 (ld_dom _ _ _ _ _ L g)) as [ge Hge]; [by eexists|]. rewrite Hge. cbn [mbind option_bind].
    change [group_ref e; entry_ref e] with ([group_ref e] ++ [entry_ref e]) in Htt. apply (Hkids g _ ge _ _ Hg Hge) in Htt.
    destruct (mChildren ge) as [gh|]; [|done]. cbn [mbind option_bind] in *. by rewrite Htt.
Qed.
Lemma chain_free id g t : id ∈ see -> target_of s0 id = Some (g, t) -> t ∉ see.
Proof.
  intros (e & He & Hk)%see_found Ht (te & Hte & Htk)%see_found. apply (target_of_paths id e g t He) in Ht as [_ Ht].
  destruct (entry_calls id e He) as (p & Hp & Hf). destruct (entry_calls t te Hte) as (q & Hq & Hft). rewrite Ht in Hq. injection Hq as <-.
  destruct (at_path p o) as [|[b i] more] eqn:Ep; [unfold facts in Hf; injection Hf as _ _ _ E _; cbn in E; rewrite E in Hk; by destruct Hk|].
  destruct (at_path _ o) as [|[b' j] more'] eqn:Eq in Hft; [unfold facts in Hft; injection Hft as _ _ _ E _; cbn in E; rewrite E in Htk; by destruct Htk|].
  unfold facts in Hf, Hft. injection Hf as _ _ _ E1 E2. injection Hft as _ _ _ E3 _. cbn [merged mSeeAlsoKey mSeeAlsoGroupKey] in *.
  rewrite E3 in Htk. rewrite (no_chain_spec o p b i more b' j more' Hchain Ep) in Htk; [by destruct Htk|by rewrite <- E1|].
  unfold ref_path. rewrite <- E1, <- E2. exact Eq.
Qed.
Lemma loaded_linked : process_all 0 see s0 = Some (link_all s0 see).
Proof.
  destruct (ld_see _ _ _ _ _ L) as (l & [= <-] & Hnd & Hs). apply process_links.
  - apply loaded_names.
  - intros id (e & He & _)%Hs. by exists e.
  - done.
  - by eapply loaded_top_children.
  - by eapply loaded_closed.
  - apply chain_free.
Qed.
Lemma name_at_inj t t' name : name_at s0 see t = Some name -> name_at s0 see t' = Some name -> t = t'.
Proof.
  unfold name_at. destruct (list_find (refers_to s0 t) see) as [[i y]|] eqn:E; [|done]. destruct (list_find (refers_to s0 t') see) as [[j z]|] eqn:E'; [|done].
  cbn. intros [= <-] [= H]. apply Z_to_string_inj, Nat2Z.inj in H; [|lia|lia]. subst j. apply list_find_Some in E as (Hi & Hr & _). apply list_find_Some in E' as (Hj & Hr' & _).
  rewrite Hi in Hj. injection Hj as <-. unfold refers_to in *. congruence.
Qed.
End loaded.

(** ** A click on a "see also" entry *)
Section click.
Context (books : book_list) (v : viewer) (opt : settings).
Section state.
Context (m : gmap Z path) (o : list occurrence) (x : index) (H : index_ok v opt m o x) (Hchain : no_chain o = true).
Abbreviation s := (mEntries x).

(** The names of a "see also" entry and of its target. *)
Lemma see_names id e g t : s !! id = Some e -> is_Some (mSeeAlsoKey e) -> m !! g = Some [group_ref e] -> m !! t = Some [group_ref e; entry_ref e] ->
  exists name te ge, s !! t = Some te /\ s !! g = Some ge /\ mSeeAlsoTargetName e = Some name /\ mSeeAlsoTargetGroupID e = mGroupID ge /\
    mSeeAlsoTargetName te = Some name /\ mSeeAlsoKey te = None /\
    forall t' te', s !! t' = Some te' -> mSeeAlsoKey te' = None -> mSeeAlsoTargetName te' = Some name -> t' = t.
Proof.
  intros He Hk Hg Ht. assert (R := io_ready _ _ _ _ _ H). destruct (rd_links _ _ _ _ R) as (s0 & see & s1 & L & Hp & Hn).
  assert (Es1 := loaded_linked _ _ _ _ _ L Hchain). rewrite Hp in Es1. injection Es1 as ->.
  assert (Hback : forall j y, s !! j = Some y -> exists y0, s0 !! j = Some y0 /\ facts y = facts y0 /\ names y = names (link_entry s0 see j y0)).
  { intros j y Hy. specialize (Hn j). rewrite Hy, lookup_link_all in Hn. destruct (s0 !! j) as [y0|] eqn:E0; [|done]. exists y0. split; [done|].
    split; [|assert (E : Some (names y) = Some (names (link_entry s0 see j y0))) by exact Hn; by apply (inj Some) in E]. destruct (entry_calls _ _ _ _ _ L j y0 E0) as (p & Hpj & ->). by apply (rd_entry _ _ _ _ R). }
  assert (Hsh := rd_shaped _ _ _ _ R). destruct (proj1 (sh_dom _ _ _ Hsh t)) as [te Hte]; [by eexists|]. destruct (proj1 (sh_dom _ _ _ Hsh g)) as [ge Hge]; [by eexists|].
  destruct (Hback _ _ He) as (e0 & He0 & Hf0 & Hn0). destruct (Hback _ _ Hte) as (t0 & Ht0 & Hft & Hnt). destruct (Hback _ _ Hge) as (g0 & Hg0 & Hfg & _).
  unfold facts in Hf0, Hft, Hfg. injection Hf0 as _ _ _ Ek Egk. injection Hft as _ _ _ Etk _. injection Hfg as Egid _ _ _ _.
  assert (Hsee : id ∈ see) by (apply (see_found _ _ _ _ _ L); exists e0; by rewrite <- Ek).
  assert (Htarget : target_of s0 id = Some (g, t)).
  { apply (target_of_paths _ _ _ _ _ L id e0 g t He0). unfold group_ref, entry_ref in *. by rewrite <- Ek, <- Egk. }
  assert (Hts := chain_free _ _ _ _ _ L Hchain id g t Hsee Htarget).
  destruct (name_referred s0 see id t Hsee) as [name Hname]; [unfold refers_to; by rewrite Htarget|].
  assert (Hsnone : forall j y, s !! j = Some y -> j ∉ see -> mSeeAlsoTargetName y = name_at s0 see j).
  { intros j y Hy Hj. destruct (Hback _ _ Hy) as (y0 & _ & _ & Hny). unfold link_entry in Hny. rewrite decide_False in Hny by done. unfold names in Hny. by injection Hny. }
  exists name, te, ge. split; [done|]. split; [done|].
  unfold link_entry in Hn0. rewrite decide_True, Htarget, Hname, Hg0 in Hn0 by done. unfold names in Hn0. cbn in Hn0. injection Hn0 as E1 E2.
  split; [done|]. split; [congruence|]. split; [by rewrite (Hsnone t te Hte Hts)|]. split.
  - rewrite Etk. destruct (mSeeAlsoKey t0) eqn:E; [|done]. destruct Hts. apply (see_found _ _ _ _ _ L). exists t0. by rewrite E.
  - intros t' te' Ht' Hk' Hn'. assert (Hns : t' ∉ see).
    { intros (y & Hy & Hky)%(see_found _ _ _ _ _ L). destruct (Hback _ _ Ht') as (y0 & Hy0 & Hfy & _). unfold facts in Hfy. injection Hfy as _ _ _ E _.
      rewrite Hy in Hy0. injection Hy0 as <-. rewrite <- E, Hk' in Hky. by destruct Hky. }
    rewrite (Hsnone t' te' Ht' Hns) in Hn'. by eapply name_at_inj.
Qed.
(** The section of a group. *)
Lemma group_section g ge i : s !! g = Some ge -> mbGroup ge = true -> sections s !! i = Some g ->
  mGroupID ge = Some g /\ target_section s g (sections s) = Some (Some (Z.of_nat i)).
Proof.
  intros Hge Hgroup Hi. assert (R := io_ready _ _ _ _ _ H). assert (Hsh := rd_shaped _ _ _ _ R).
  assert (Hid : forall j y, s !! j = Some y -> mGroupID y = Some j \/ mGroupID y = None).
  { intros j y Hy. destruct (proj2 (sh_dom _ _ _ Hsh j)) as [p Hp]; [by eexists|]. assert (Hf := rd_entry _ _ _ _ R _ _ _ Hp Hy).
    unfold facts in Hf. injection Hf as -> _ _ _ _. destruct (at_path p o) as [|[b it] l]; [by right|]. cbn. destruct (given (i_tag it)); [by left|by right]. }
  unfold mbGroup in Hgroup. destruct (Hid _ _ Hge) as [Eg|Eg]; [|by rewrite Eg in Hgroup]. split; [done|].
  destruct (ready_top _ _ _ _ R) as (top & Ht & _ & Hk).
  assert (Hall : forall j k, sections s !! k = Some j -> exists y, s !! j = Some y).
  { intros j k Hj. rewrite <- Hk in Hj. destruct (rd_sections _ _ _ _ R top k j Ht Hj) as (y & Hy & _). by exists y. }
  unfold target_section. destruct (mapM (fun id => mGroupID <$> s !! id) (sections s)) as [gs|] eqn:Em.
  - cbn [mbind option_bind]. apply mapM_Some in Em. destruct (Forall2_lookup_l _ _ _ _ _ Em Hi) as (y & Hy & Ey). rewrite Hge in Ey. cbn in Ey. injection Ey as <-. rewrite Eg in Hy.
    assert (Hf : list_find (fun g' => g' = Some g) gs = Some (i, Some g)).
    { apply list_find_Some. split; [done|]. split; [done|]. intros k y Hky Hlt ->. destruct (Forall2_lookup_r _ _ _ _ _ Em Hky) as (j & Hj & Ej).
      destruct (Hall j k Hj) as [z Hz]. rewrite Hz in Ej. cbn in Ej. injection Ej as Ej. destruct (Hid _ _ Hz) as [E|E]; [|congruence]. assert (j = g) as -> by congruence.
      destruct (rd_sections _ _ _ _ R top k g Ht) as (a & Ha & E1); [by rewrite Hk|]. destruct (rd_sections _ _ _ _ R top i g Ht) as (b & Hb & E2); [by rewrite Hk|].
      rewrite Ha in Hb. injection Hb as <-. rewrite E1 in E2. injection E2 as E2. lia. }
    rewrite Hf. done.
  - exfalso. apply mapM_None, Exists_exists in Em as (j & [k Hj]%list_elem_of_lookup & Ej). destruct (Hall j k Hj) as [y Hy]. by rewrite Hy in Ej.
Qed.
End state.

(** C20. When no "see also" entry refers to another one ([chain_without_anchor] shows one that
    does), and the group of the target has a section of its own, a click on a "see also" entry whose
    target exists goes to the section of the target's group, loading it if it is not shown,
    and to an anchor that no other entry of the index has. *)
Theorem see_also_jumps l : length l = length (mBookList books) -> l <> [] -> no_chain (book_occs 0 l) = true ->
  exists m x0, load_books books l new_index = Some x0 /\ ready m (book_occs 0 l) (mEntryCount x0) (mEntries x0) /\
    forall x, rtc (index_step books v opt) x0 x -> forall info id e g ge t i,
      GetEntry info x = Some id -> mEntries x !! id = Some e -> is_Some (mSeeAlsoKey e) ->
      m !! g = Some [group_ref e] -> m !! t = Some [group_ref e; entry_ref e] ->
      mEntries x !! g = Some ge -> mbGroup ge = true -> sections (mEntries x) !! i = Some g ->
      exists name te x' ef, ClickedSeeAlsoEntry v opt info x = Some (x', ef) /\ mEntries x' = mEntries x /\
        mPanelAnchor x' = Some ("sa" +++ name) /\
        (if exceeds v opt x then mSectionIndexShown x' = Z.of_nat i /\
            ef = (if Z.of_nat i =? mSectionIndexShown x then [focus_section x; JumpToAnchor] else [ClearScrollPosition; ReloadPanel])
          else mSectionIndexShown x' = mSectionIndexShown x /\ ef = [focus_section x; JumpToAnchor]) /\
        mEntries x !! t = Some te /\ mSeeAlsoKey te = None /\ mSeeAlsoTargetName te = Some name /\
        forall t' te', mEntries x !! t' = Some te' -> mSeeAlsoKey te' = None -> mSeeAlsoTargetName te' = Some name -> t' = t.
Proof.
  intros Hl Hne Hchain. destruct (index_loads books l Hl Hne) as (m & x0 & Hload & U & _ & R0). exists m, x0. split; [done|]. split; [done|].
  intros x Hr info id e g ge t i Hinfo He Hk Hg Ht Hge Hgroup Hi.
  assert (H : index_ok v opt m (book_occs 0 l) x) by (eapply steps_ok; [by apply index_ok_loaded|done]). assert (R := io_ready _ _ _ _ _ H).
  destruct (see_names m _ x H Hchain id e g t He Hk Hg Ht) as (name & te & ge' & Hte & Hge' & En & Eg & Ent & Etk & Huniq).
  rewrite Hge in Hge'. injection Hge' as <-. destruct (group_section m _ x H g ge i Hge Hgroup Hi) as [Egid Hsec].
  destruct (ready_top _ _ _ _ R) as (top & Htop & Ha & _).
  unfold ClickedSeeAlsoEntry. rewrite Hinfo. cbn [mbind option_bind]. rewrite He. cbn [mbind option_bind]. rewrite En, Eg, Egid, Htop. cbn [mbind option_bind].
  rewrite Ha. cbn [mbind option_bind]. rewrite Hsec. cbn [mbind option_bind].
  set (y := set_shown (Some ("sa" +++ name)) (mSectionIndexShown x) (mClickedEntry x) x). unfold ThresholdExceeded.
  change (mbThresholdExceeded y) with (mbThresholdExceeded x). change (exceeds v opt y) with (exceeds v opt x). rewrite (io_memo _ _ _ _ _ H).
  exists name, te. destruct (exceeds v opt x) eqn:Ex; cbn [andb].
  - change (mSectionIndexShown (set_memo _ _ _)) with (mSectionIndexShown x). destruct (Z.eqb_spec (Z.of_nat i) (mSectionIndexShown x)) as [E|E]; cbn [negb].
    + do 2 eexists. split; [done|]. split_and!; try done.
    + do 2 eexists. split; [done|]. split_and!; try done.
  - do 2 eexists. split; [done|]. split_and!; try done.
Qed.
End click.
