(* ===== verification/HelpIndexSelect.v ===== *)
(** * The documents of an index entry (wwhelp/wwhimpl/js/scripts/index.js, indexsel.htm)
    The page that lists the documents of an entry with more than one link: for each book
    its links, sorted as texts, those of one document on one line with numbers. *)
From Stdlib Require Import Sorted.
From S2P Require Import Prelude JsString JsNum HelpString HelpBooks HelpScore HelpTree HelpOutline HelpContents HelpIndex HelpIndexSort HelpIndexPage.
Open Scope Z_scope.
#[local] Set Warnings "-clear-no-such-hyp".

(** ** The page *)
Section selection.
Context (books : book_list) (v : viewer) (opt : settings).

(** [WWHIndex_SelectionListHeadHTML] *)
Definition SelectionListHeadHTML : string :=
  style_open
  +++ rule "a" ["text-decoration: none;"; "color: " +++ i_mEnabledColor opt +++ ";"]
  +++ paragraph_rule opt
  +++ level_rule opt 1 +++ level_rule opt 2
  +++ rule "h2" [i_mFontStyle opt +++ ";"]
  +++ style_close.
(** [WWHStringUtilities_FormatMessage] with texts and numbers: after a number, which has no
    [length], the search starts at the front again; without an argument it only goes on. *)
Fixpoint format_args (args : list (option (string + Z))) (s : string) (i : Z) : string :=
  match args with
  | [] => s
  | a :: args =>
      let j := indexOf_from s "%s" i in
      if j =? -1 then s
      else
        let put r := substring2 s 0 j +++ r +++ substring2 s (j + 2) (slen s) in
        match a with
        | Some (inl r) => format_args args (put r) (j + slen r)
        | Some (inr n) => format_args args (put (Z_to_string n)) 0
        | None => format_args args s (j + 2)
        end
  end.
(** The title of a link; without accessibility the variable was never set. *)
Definition link_title (message : string) (args : list (option (string + Z))) : string :=
  if mbAccessible v then qq " title=`" +++ EscapeHTML (format_args args message 0) +++ qq "`" else "undefined".
(** The address of a link, in its tag. *)
Definition link_href (url : string) : string :=
  qq " href=`javascript:WWHFrame.WWHIndex.fDisplayLink('" +++ SearchReplace (EscapeURLForJavaScriptAnchor url) "%" "%25" +++ qq "');`".
(** The first link to a document, and the others. *)
Definition first_link (bk : book) (class title url : string) : string :=
  line "</nobr></p>" +++ qq "<p class=`" +++ class +++ qq "`><nobr>" +++ qq "<a name=`indexselect`" +++ link_href url
  +++ link_title (mAccessibilityIndexEntry opt) [Some (inl title); inl <$> mTitle bk] +++ ">" +++ title +++ "</a>".
Definition other_link (bk : book) (title url : string) (count : Z) : string :=
  ",&nbsp;" +++ "<a" +++ link_href url
  +++ link_title (mAccessibilityIndexSecondEntry opt) [Some (inl title); inl <$> mTitle bk; Some (inr count)]
  +++ ">" +++ Z_to_string count +++ "</a>".
(** One link of a book, behind a link to the document [prev] with the number [count]. *)
Definition select_link (b : Z) (bk : book) (class : string) (prev : option Z) (count : Z) (link : string) : option (string * (Z * Z)) :=
  let '(f, anchor) := link_parts link in
  file ← f;
  title ← FileIndexToTitle (mFiles bk) file;
  url ← GetBookIndexFileIndexURL books v b f anchor;
  Some (if bool_decide (prev = Some file) then (other_link bk title url (count + 1), (file, count + 1))
        else (first_link bk class title url, (file, 1))).
Fixpoint select_links (b : Z) (bk : book) (class : string) (prev : option Z) (count : Z) (links : list string) : option string :=
  match links with
  | [] => Some ""
  | l :: links =>
      '(t, (file, count)) ← select_link b bk class prev count l;
      r ← select_links b bk class (Some file) count links;
      Some (t +++ r)
  end.
(** The links of one book. *)
Definition select_book (links : gmap Z (list string)) (b : Z) (bk : book) : option string :=
  let many := negb (Z.of_nat (length (mBookList books)) =? 1) in
  match links !! b with
  | Some l =>
      t ← select_links b bk (if many then "l2" else "l1") None 0 (sort_strings l);
      Some ((if 1 <? Z.of_nat (length (mBookList books)) then
               space +++ qq "<p class=`l1`><nobr><b>" +++ default "null" (mTitle bk) +++ "</b>" else "")
            +++ t +++ line "</nobr></p>")
  | None => Some ""
  end.
(** [WWHIndex_SelectionListBodyHTML] *)
Definition SelectionListBodyHTML (x : index) : option string :=
  match mClickedEntry x with
  | None => Some ""
  | Some id =>
      e ← mEntries x !! id;
      ts ← mapM (fun '(i, bk) => links ← mBookLinks e; select_book links (Z.of_nat i) bk) (imap pair (mBookList books));
      Some ("<h2>" +++ mIndexSelectMessage1 opt +++ " " +++ mIndexSelectMessage2 opt +++ line "</h2>"
            +++ line ("<p><b>" +++ text_of e +++ "</b></p>") +++ join "" ts)
  end.
(** [WWHIndex_SelectionListLoaded] *)
Definition SelectionListLoaded : list effect := [FocusDocument "indexselect"].
End selection.

(** ** Links as texts *)
Definition link_text (l : Z * option string) : string :=
  Z_to_string (fst l) +++ match snd l with Some a => "#" +++ a | None => "" end.
Definition link_ok (bk : book) (l : Z * option string) : Prop :=
  0 <= fst l < file_count bk /\ match snd l with Some a => a <> "" /\ sall (not_char "#") a = true | None => True end.
Lemma link_parts_text f a : 0 <= f -> match a with Some a => a <> "" /\ sall (not_char "#") a = true | None => True end ->
  link_parts (link_text (f, a)) = (Some f, a).
Proof.
  intros Hf Ha. unfold link_parts, link_text. cbn [fst snd].
  assert (Hn : sall (not_char "#") (Z_to_string f) = true) by (apply digits_not_char; [done|]; rewrite Z_to_string_nonneg by done; by apply nat_digits_digits).
  destruct a as [a|].
  - destruct Ha as [Hne Ha]. change ("#" +++ a) with (String "#" a). rewrite (js_split_char_cons "#"%char) by done.
    rewrite (js_split_char_none "#"%char) by done. cbn [head tail default from_option id]. rewrite parseInt_Z_to_string by done.
    by destruct a.
  - rewrite sapp_nil_r, (js_split_char_none "#"%char) by done. cbn [head tail default from_option id]. by rewrite parseInt_Z_to_string.
Qed.

(** A text between two with the same beginning begins like them. *)
Definition str_le (a b : string) : Prop := compare_strings a b <= 0.
Definition code (c : Ascii.ascii) : Z := Z.of_N (Ascii.N_of_ascii c).
Lemma str_le_cons x a y b : str_le (String x a) (String y b) -> code x < code y \/ (x = y /\ str_le a b).
Proof.
  unfold str_le. rewrite compare_strings_cons. unfold then_by. cbn [fst snd]. fold (code x) (code y). unfold compare_Z.
  destruct (Z.ltb_spec (code x) (code y)); [by left|]. destruct (Z.ltb_spec (code y) (code x)); [cbn; lia|]. cbn. intros Hab. right. split; [|done].
  assert (E : Ascii.N_of_ascii x = Ascii.N_of_ascii y) by (unfold code in *; lia). apply (f_equal Ascii.ascii_of_N) in E. by rewrite !Ascii.ascii_N_embedding in E.
Qed.
Lemma str_between d r1 b r3 : str_le (d +++ r1) b -> str_le b (d +++ r3) -> exists r, b = d +++ r /\ str_le r r3.
Proof.
  revert b. induction d as [|x d IH]; intros b H1 H3; [by exists b|]. cbn [String.append] in *. destruct b as [|y b]; [unfold str_le in H1; cbn in H1; lia|].
  apply str_le_cons in H1 as [H1|[<- H1]]; apply str_le_cons in H3 as [H3|[E H3]]; try lia; [subst; lia|]. destruct (IH b H1 H3) as (r & -> & Hr). by exists r.
Qed.
(** What follows the number of a link. *)
Definition suffix (r : string) : Prop := r = "" \/ exists a, r = String "#" a.
Lemma suffix_bound r r' : str_le r r' -> suffix r' -> r = "" \/ exists c a, r = String c a /\ code c <= 35.
Proof.
  intros H Hr'. destruct r as [|c r]; [by left|right]. exists c, r. split; [done|]. destruct Hr' as [->|[a ->]].
  - unfold str_le in H. cbn in H. lia.
  - apply str_le_cons in H as [H|[-> _]]; [change (code "#") with 35 in H; lia|done].
Qed.
Lemma digit_code c : is_digit c = true -> 48 <= code c.
Proof.
  unfold is_digit, code. intros [H _]%andb_true_iff. apply Nat.leb_le in H. unfold Ascii.nat_of_ascii in H. lia.
Qed.
Lemma same_number d e r2 r : sall is_digit d = true -> sall is_digit e = true -> suffix r2 -> (r = "" \/ exists c a, r = String c a /\ code c <= 35) ->
  e +++ r2 = d +++ r -> e = d.
Proof.
  revert d. induction e as [|y e IH]; intros [|x d] Hd He Hr2 Hr E; cbn in *.
  - done.
  - apply andb_true_iff in Hd as [Hx _]. apply digit_code in Hx. destruct Hr2 as [->|[a ->]]; [done|]. injection E as <- _. change (code "#") with 35 in Hx. lia.
  - apply andb_true_iff in He as [Hy _]. apply digit_code in Hy. destruct Hr as [->|(c & a & -> & Hc)]; [done|]. injection E as <- _. lia.
  - injection E as -> E. apply andb_true_iff in Hd as [_ Hd]. apply andb_true_iff in He as [_ He]. f_equal. by apply IH.
Qed.
Lemma text_suffix (a : option string) : suffix match a with Some a => "#" +++ a | None => "" end.
Proof. destruct a as [a|]; [right; by exists a|by left]. Qed.
Lemma numeral_digits f : 0 <= f -> sall is_digit (Z_to_string f) = true.
Proof. intros H. rewrite Z_to_string_nonneg by done. by apply nat_digits_digits. Qed.
(** Links to one document are neighbours when links are sorted. *)
Lemma between_file l1 l2 l3 : 0 <= fst l1 -> 0 <= fst l2 -> str_le (link_text l1) (link_text l2) -> str_le (link_text l2) (link_text l3) ->
  fst l1 = fst l3 -> fst l2 = fst l1.
Proof.
  intros H1 H2 H12 H23 E. unfold link_text at 1 in H12. unfold link_text at 2 in H23. rewrite <- E in H23. destruct (str_between _ _ _ _ H12 H23) as (r & Er & Hr).
  apply Z_to_string_inj; [done|done|]. eapply (same_number (Z_to_string (fst l1)) _ _ r); [by apply numeral_digits|by apply numeral_digits|apply text_suffix| |exact Er].
  eapply suffix_bound; [exact Hr|apply text_suffix].
Qed.

(** ** Links by documents *)
Abbreviation link := (Z * option string)%type.
Abbreviation group := (Z * list (option string))%type.
(** Neighbours that lead to one document. *)
Fixpoint runs (l : list link) : list group :=
  match l with
  | [] => []
  | (f, a) :: l =>
      match runs l with
      | (g, more) :: r => if f =? g then (g, a :: more) :: r else (f, [a]) :: (g, more) :: r
      | [] => [(f, [a])]
      end
  end.
Definition links_of (g : group) : list link := map (pair (fst g)) (snd g).
Lemma runs_flat l : concat (map links_of (runs l)) = l.
Proof.
  induction l as [|[f a] l IH]; [done|]. cbn [runs]. destruct (runs l) as [|[g more] r]; [by rewrite <- IH|].
  destruct (Z.eqb_spec f g) as [->|_]; rewrite <- IH; done.
Qed.
Lemma runs_nonempty l : Forall (fun g : group => snd g <> []) (runs l).
Proof.
  induction l as [|[f a] l IH]; [done|]. cbn [runs]. destruct (runs l) as [|[g more] r]; [by repeat constructor|].
  apply Forall_cons in IH as [Hg IH]. case_match; by repeat constructor.
Qed.
Lemma runs_head f a l : exists more r, runs ((f, a) :: l) = (f, more) :: r.
Proof.
  cbn [runs]. destruct (runs l) as [|[g more] r]; [by eexists _, _|]. destruct (Z.eqb_spec f g) as [->|_]; by eexists _, _.
Qed.
Lemma runs_keys l g : g ∈ map fst (runs l) -> g ∈ map fst l.
Proof.
  induction l as [|[f a] l IH]; [done|]. cbn [runs map]. destruct (runs l) as [|[h more] r]; [set_solver|].
  destruct (Z.eqb_spec f h) as [->|_]; cbn in *; set_solver.
Qed.
(** In a list in which a document's links are neighbours there is one run for it. *)
Inductive neighbours : list link -> Prop :=
| Neighbours_nil : neighbours []
| Neighbours_cons x l : neighbours l -> (fst x ∈ map fst l -> fst <$> head l = Some (fst x)) -> neighbours (x :: l).
Lemma runs_NoDup l : neighbours l -> NoDup (map fst (runs l)).
Proof.
  induction 1 as [|[f a] l Hl IH Hx]; [constructor|]. cbn [fst] in Hx. destruct l as [|[g b] l]; [cbn; repeat constructor; set_solver|].
  destruct (runs_head g b l) as (more & r & E). assert (Hk := runs_keys ((g, b) :: l) f). rewrite E in Hk, IH. change (runs ((f, a) :: (g, b) :: l)) with (match runs ((g, b) :: l) with
      | (g, more) :: r => if f =? g then (g, a :: more) :: r else (f, [a]) :: (g, more) :: r
      | [] => [(f, [a])]
      end). rewrite E. destruct (Z.eqb_spec f g) as [->|Hne]; [exact IH|]. cbn [map fst] in *. apply NoDup_cons. split; [|exact IH].
  intros Hf. apply Hk, Hx in Hf. cbn in Hf. by injection Hf.
Qed.
Definition links_le (x y : link) : Prop := str_le (link_text x) (link_text y).
Lemma sorted_neighbours l : Forall (fun x : link => 0 <= fst x) l -> StronglySorted links_le l -> neighbours l.
Proof.
  intros Hp Hs. induction Hs as [|x l Hs IH Hx]; [constructor|]. apply Forall_cons in Hp as [H0 Hp]. constructor; [by apply IH|].
  intros (z & Ez & Hz)%list_elem_of_fmap. destruct l as [|y l]; [by apply elem_of_nil in Hz|].  cbn. f_equal.
  apply elem_of_cons in Hz as [->|Hz]; [done|]. apply Forall_cons in Hx as [Hxy _]. apply Forall_cons in Hp as [Hy _].
  apply StronglySorted_inv in Hs as [_ Hyl]. rewrite Forall_forall in Hyl. apply (between_file x y z); try done. by apply Hyl.
Qed.

Section groups.
Context (books : book_list) (v : viewer) (opt : settings) (b : Z) (bk : book) (class : string) (Hb : GetBook books b = Some bk) (H0 : 0 <= b).
Definition title_of (f : Z) : string := default "" (FileIndexToTitle (mFiles bk) f).
Definition url_of (f : Z) (a : option string) : string := default "" (GetBookIndexFileIndexURL books v b (Some f) a).
(** A document: its title for the first link, and numbers from 2 for the others. *)
Fixpoint others_html (f : Z) (l : list (option string)) (n : Z) : string :=
  match l with [] => "" | a :: l => other_link v opt bk (title_of f) (url_of f a) n +++ others_html f l (n + 1) end.
Definition group_html (g : group) : string :=
  match snd g with
  | [] => ""
  | a :: l => first_link v opt bk class (title_of (fst g)) (url_of (fst g) a) +++ others_html (fst g) l 2
  end.
Definition groups_html (l : list group) : string := join "" (map group_html l).
Lemma groups_html_cons g l : groups_html (g :: l) = group_html g +++ groups_html l.
Proof. unfold groups_html. destruct l as [|h l]; [cbn [map join]; by rewrite sapp_nil_r|done]. Qed.
Lemma select_link_ok prev count f a : link_ok bk (f, a) ->
  select_link books v opt b bk class prev count (link_text (f, a)) =
  Some (if bool_decide (prev = Some f) then (other_link v opt bk (title_of f) (url_of f a) (count + 1), (f, count + 1))
        else (first_link v opt bk class (title_of f) (url_of f a), (f, 1))).
Proof.
  intros [[Hf Hc] Ha]. cbn [fst snd] in *. unfold select_link. rewrite link_parts_text; [|done|done]. cbn [mbind option_bind].
  assert (Hat : is_Some (at_index (mFileList (mFiles bk)) f)).
  { unfold at_index. case_if; bool_to_prop; [lia|]. apply lookup_lt_is_Some. unfold file_count, fEntries in Hc. lia. }
  destruct Hat as [fl Hfl]. unfold title_of, url_of, GetBookIndexFileIndexURL, FileIndexToTitle, FileIndexToHREF.
  assert (E : (0 <=? b) && (0 <=? f) = true) by (apply andb_true_iff; split; by apply Z.leb_le).
  rewrite Hb, E. cbn [mbind option_bind]. by rewrite !Hfl.
Qed.
Lemma select_links_runs l : Forall (link_ok bk) l -> forall prev count,
  select_links books v opt b bk class prev count (map link_text l) =
  Some (match runs l with
        | (g, more) :: r => if bool_decide (prev = Some g) then others_html g more (count + 1) +++ groups_html r else groups_html (runs l)
        | [] => ""
        end).
Proof.
  induction 1 as [|[f a] l Hx Hl IH]; intros prev count; [done|]. cbn [map select_links runs]. rewrite select_link_ok by done. cbn [mbind option_bind].
  assert (Hrest : forall n, select_links books v opt b bk class (Some f) n (map link_text l) =
    Some (match runs l with (g, more) :: r => if f =? g then others_html f more (n + 1) +++ groups_html r else groups_html (runs l) | [] => "" end)).
  { intros n. rewrite IH. destruct (runs l) as [|[g more] r]; [done|]. destruct (Z.eqb_spec f g) as [->|Hne].
    - by rewrite bool_decide_eq_true_2.
    - by rewrite bool_decide_eq_false_2 by congruence. }
  case_bool_decide as Hp; cbn [mbind option_bind]; rewrite Hrest; cbn [mbind option_bind]; destruct (runs l) as [|[g more] r].
  - rewrite bool_decide_eq_true_2 by done. cbn [others_html]. change (groups_html []) with "". by rewrite !sapp_nil_r.
  - destruct (Z.eqb_spec f g) as [->|Hne]; rewrite bool_decide_eq_true_2 by done; cbn [others_html]; by rewrite ?sapp_assoc, ?sapp_nil_r.
  - rewrite bool_decide_eq_false_2 by done. rewrite groups_html_cons. unfold group_html. cbn [fst snd others_html]. change (groups_html []) with "". by rewrite !sapp_nil_r.
  - destruct (Z.eqb_spec f g) as [->|Hne]; rewrite bool_decide_eq_false_2 by done; rewrite !groups_html_cons; unfold group_html; cbn [fst snd others_html]; by rewrite ?sapp_assoc, ?sapp_nil_r.
Qed.
End groups.

Section page.
Context (books : book_list) (v : viewer) (opt : settings).

(** C29. The page that lists the documents of an entry shows each document of a book once,
    whatever the order of the entry's links: its title as the first link to it, and behind
    it, on the same line, its other links with the numbers from 2. *)
Theorem selection_groups b bk hash l : GetBook books b = Some bk -> 0 <= b -> hash !! b = Some (map link_text l) -> Forall (link_ok bk) l ->
  exists groups, NoDup (map fst groups) /\ Forall (fun g : group => snd g <> []) groups /\ concat (map links_of groups) ≡ₚ l /\
    select_book books v opt hash b bk = Some ((if 1 <? Z.of_nat (length (mBookList books)) then
      space +++ qq "<p class=`l1`><nobr><b>" +++ default "null" (mTitle bk) +++ "</b>" else "")
      +++ groups_html books v opt b bk (if Z.of_nat (length (mBookList books)) =? 1 then "l1" else "l2") groups +++ line "</nobr></p>").
Proof.
  intros Hb H0 Hl Hok. destruct (Permutation_map_inv _ _ (sort_strings_Permutation (map link_text l))) as (k & Ek & Hk).
  exists (runs k). assert (Hokk : Forall (link_ok bk) k) by (by rewrite <- Hk). split; [|split; [apply runs_nonempty|split; [by rewrite runs_flat|]]].
  - apply runs_NoDup, sorted_neighbours; [by eapply Forall_impl; [exact Hokk|]; intros x [[? _] _]|].
    assert (Hs := js_sort_sorted all_values compare_strings (map link_text l) compares_strings (proj2 (Forall_forall _ _) (fun _ _ => I))).
    fold (sort_strings (map link_text l)) in Hs. rewrite Ek in Hs. clear -Hs. induction k as [|x k IH]; [constructor|].
    cbn [map] in Hs. apply StronglySorted_inv in Hs as [Hs Hx]. constructor; [by apply IH|]. by apply (Forall_fmap link_text) in Hx.
  - unfold select_book. rewrite Hl, Ek, (select_links_runs books v opt b bk _ Hb H0 k Hokk None 0). cbn [mbind option_bind].
    assert (Eg : forall class, match runs k with (g, more) :: r => if bool_decide (@None Z = Some g) then others_html books v opt b bk g more (0 + 1) +++ groups_html books v opt b bk class r else groups_html books v opt b bk class (runs k) | [] => "" end
      = groups_html books v opt b bk class (runs k)) by (intros class; destruct (runs k) as [|[g more] r]; [done|]; by rewrite bool_decide_eq_false_2).
    rewrite Eg. by destruct (Z.of_nat (length (mBookList books)) =? 1).
Qed.
End page.
