(* ===== verification/HelpIndexExample.v ===== *)
(** * An index (webapp/build/docs/onlinehelp/wwhdata/js/index.js)
    The index of the manual, and a small one with "see also" entries: what the theorems on
    the index say of them, and what its page, its sections and its clicks show. *)
From S2P Require Import Prelude JsString JsNum HelpString HelpBooks HelpScore HelpTree HelpOutline HelpContents HelpIndex HelpIndexSort HelpIndexPage HelpIndexWalk HelpIndexText HelpIndexLoad HelpIndexPaths HelpIndexReady HelpIndexShow HelpIndexReach HelpIndexLinks HelpIndexSee HelpIndexSelect.
Open Scope Z_scope.
Open Scope string_scope.

(** ** The manual *)
Definition Topic (text : string) (links : list string) (inside : list item) : item :=
  Item (Some text) (match links with [] => None | _ => Some links end) None None None None None None None inside.
Definition Section_of (letter : string) (inside : list item) : item :=
  Item (Some letter) None None (Some "002") None None None None None inside.
(** [WWHBookData_MaxIndexLevel] and [WWHBookData_AddIndexEntries] *)
Definition MaxIndexLevel : Z := 5.
Definition manual_index : list item := [
  Section_of "A" [
    Topic "Accessing Cyberoam iView" ["2"] [
      Topic "Log out procedure" ["2#9000021"] []];
    Topic "Application" [] [
      Topic "Add Application" ["1213#9000502"] [];
      Topic "Add Application Identifier" ["1213#9000514"] [];
      Topic "Delete Application" ["1213#9000573"] [];
      Topic "Delete Application Identifier" ["1213#9000582"] [];
      Topic "Update Application" ["1213#9000545"] []];
    Topic "Application Group" ["1213"] [
      Topic "Add Application Group" ["1213#9000533"] [];
      Topic "Delete Application Group" ["1213#9000592"] [];
      Topic "Reset to Default Application Group" ["1213#9000620"] [];
      Topic "Update Application Group" ["1213#9000560"] [];
      Topic "Update Application Group Membership" ["1213#9000604"] []];
    Topic "Archives" ["1227"] [
      Topic "Backup Management" ["1230#9001293"] [];
      Topic "Download Backup Files" ["1230#9001317"] [];
      Topic "Load Archive" ["1228#9001169"] [];
      Topic "Restore Backup Files" ["1229#9001279"; "1230#9001332"] [];
      Topic "Search Archives" ["1229"] []];
    Topic "Audit Logs" ["1226"] [
      Topic "Category-Event Messages" ["1226#9000995"] []]];
  Section_of "B" [
    Topic "Bookmark Management" ["1220"] []];
  Section_of "C" [
    Topic "Custom View" ["1215"] [
      Topic "Add Bookmark Group" ["1221"] [];
      Topic "Add Custom View" ["1216"] [];
      Topic "Delete Bookmark Group" ["1222"] [];
      Topic "Delete Custom View" ["1216#9000689"] [];
      Topic "Update Custom View" ["1216#9000675"] []]];
  Section_of "D" [
    Topic "Dashboards" ["3"] [
      Topic "Custom Dashboard" ["11"] [
        Topic "Email Address Dashboard" ["14"] [
          Topic "Top Mails Received From" ["14#9000697"] [];
          Topic "Top Mails Sent to" ["14#9000682"] [];
          Topic "Top Recipient Destinations" ["14#9000756"] [];
          Topic "Top Recipient Hosts" ["14#9000726"] [];
          Topic "Top Recipient Users" ["14#9000786"] [];
          Topic "Top Sender Destinations" ["14#9000741"] [];
          Topic "Top Sender Hosts" ["14#9000712"] [];
          Topic "Top Sender Users" ["14#9000771"] [];
          Topic "Top Spam Received" ["14#9000800"] [];
          Topic "Top Spam Sent" ["14#9000814"] []];
        Topic "Source Host Dashboard" ["13"] [
          Topic "Top Application Group" ["13#9000542"] [];
          Topic "Top Attacks Generated" ["13#9000655"] [];
          Topic "Top Attacks Received" ["13#9000642"] [];
          Topic "Top Denied Application Group" ["13#9000614"] [];
          Topic "Top Denied Categories" ["13#9000628"] [];
          Topic "Top Files downloaded via FTP" ["13#9000588"] [];
          Topic "Top Files uploaded via FTP" ["13#9000572"] [];
          Topic "Top Users" ["13#9000603"] [];
          Topic "Top Web Categories" ["13#9000557"] []];
        Topic "User Dashboard" ["12"] [
          Topic "Top Application Group" ["12#9000418"] [];
          Topic "Top Categories" ["12#9000433"] [];
          Topic "Top Denied Application Group" ["12#9000488"] [];
          Topic "Top Denied Categories" ["12#9000502"] [];
          Topic "Top Files downloaded via FTP" ["12#9000461"] [];
          Topic "Top Files uploaded via FTP" ["12#9000448"] [];
          Topic "Top Hosts" ["12#9000474"] [];
          Topic "Top Web Viruses" ["12#9000516"] []]];
      Topic "Cyberoam iView Dashboard" ["10"] [
        Topic "CPU Usage" ["10#9000286"] [];
        Topic "Disk Usage" ["10#9000316"] [];
        Topic "Event Frequency" ["10#9000331"] [];
        Topic "Memory Usage" ["10#9000301"] []];
      Topic "Device Dashboard" ["6"] [
        Topic "Allowed Traffic Summary" ["6#9000148"] [];
        Topic "Content Denied Summary" ["6#9000260"] [];
        Topic "Denied Traffic Summary" ["6#9000157"] [];
        Topic "Firewall Denied Summary" ["6#9000250"] [];
        Topic "FTP Traffic Summary" ["6#9000199"] [];
        Topic "IDP Attacks Summary" ["6#9000232"] [];
        Topic "Mail Traffic Summary" ["6#9000185"] [];
        Topic "Spam Summary" ["6#9000222"] [];
        Topic "Virus Summary" ["6#9000212"] [];
        Topic "Web Traffic Summary" ["6#9000172"] []];
      Topic "Main Dashboard" ["4"] [
        Topic "Allowed Traffic" ["5#9000085"] [];
        Topic "Denied Traffic" ["5#9000098"] []]];
    Topic "Device" ["1212"] [
      Topic "Activate Device" ["1212#9000426"] [];
      Topic "Add Device" ["1212#9000413"] [];
      Topic "Deactivate Device" ["1212#9000446"] [];
      Topic "Delete Device" ["1212#9000457"] [];
      Topic "Device Auto Discovery" ["1212#9000397"] [];
      Topic "Update Device" ["1212#9000434"] []];
    Topic "Device Group" ["1211"] [
      Topic "Add Device Group" ["1211#9000307"] [];
      Topic "Delete Device Group" ["1211#9000341"] [];
      Topic "Update Device Group" ["1211#9000328"] []]];
  Section_of "L" [
    Topic "Logs" ["1223"] []];
  Section_of "M" [
    Topic "Mail Server Configuration" ["1214"] []];
  Section_of "P" [
    Topic "Port" ["1224"] []];
  Section_of "R" [
    Topic "Report Notification" ["1217"] [
      Topic "Add Report Notification" ["1217#9000715"] [];
      Topic "Delete Report Notification" ["1217#9000744"] [];
      Topic "Update Report Notification" ["1217#9000732"] []]];
  Section_of "U" [
    Topic "User" ["1210"] [
      Topic "Add User" ["1210#9000240"] [];
      Topic "Delete User" ["1210#9000272"] [];
      Topic "Update User" ["1210#9000260"] [];
      Topic "User Privileges" ["1210#9000050"] []];
    Topic "Using Online Help" ["1"] []]].

Definition index_viewer : viewer :=
  Viewer 4 1 false false "http://host/" "http://host/" "" 2000 true 17 "#ccccff" "#000000" "font-family: Verdana"
    "Loading" "expanded" "collapsed" "topic" "%s of %s" "not found".
Definition index_settings (threshold : Z) : settings :=
  Settings threshold " - " true "#ccccff" "#0000ff" "#000000" 17 "font-family: Verdana"
    "#ff0000" "#0000ff" "#000000" "font-family: Verdana" ":" "Topic" "is in:" "%s in %s" "%s in %s, link %s".
Definition manual_books : book_list := BookList 1 [new_book "manual"] ∅.
Definition manual_loaded : index := default new_index (load_books manual_books [(MaxIndexLevel, manual_index)] new_index).

(** ** What the theorems say of it *)
Definition manual_books_data : list (Z * list item) := [(MaxIndexLevel, manual_index)].
Example index_shows_witness :
  exists html x1 chunks x2 ps, StartHTMLSegments index_viewer (index_settings 500) manual_loaded = Some (html, x1) /\
    write_segments index_viewer (index_settings 500) (enough (mEntries manual_loaded)) x1
      = Some (map (chunk index_viewer (index_settings 500) (mEntries manual_loaded) (base_of index_viewer (index_settings 500) manual_loaded) false) chunks, x2) /\
    Forall2 (entry_of (book_occs 0 manual_books_data) manual_loaded) (concat chunks) ps /\
    (forall p, at_path p (book_occs 0 manual_books_data) <> [] -> p ∈ ps).
Proof.
  destruct (index_shows manual_books index_viewer (index_settings 500) ltac:(cbn; lia) manual_books_data ltac:(reflexivity) ltac:(discriminate)) as (x0 & E & H).
  assert (E0 : x0 = manual_loaded) by (unfold manual_loaded; unfold manual_books_data in E; rewrite E; reflexivity). subst x0.
  destruct (H manual_loaded ltac:(constructor)) as (html & x1 & chunks & x2 & ps & ks & HS & HW & Hps & _ & _ & _ & Hin).
  exists html, x1, chunks, x2, ps. split; [exact HS|]. split; [exact HW|]. split; [exact Hps|]. intros p Hp. apply Hin. split; [exact Hp|]. vm_compute. discriminate.
Defined.
Example index_links_back_witness :
  exists html x1 chunks x2, StartHTMLSegments index_viewer (index_settings 50) manual_loaded = Some (html, x1) /\
    write_segments index_viewer (index_settings 50) (enough (mEntries manual_loaded)) x1
      = Some (map (chunk index_viewer (index_settings 50) (mEntries manual_loaded) (base_of index_viewer (index_settings 50) manual_loaded) false) chunks, x2) /\
    Forall (fun vis => GetEntry (link_info index_viewer (index_settings 50) manual_loaded vis) x2 = Some (fst vis)) (concat chunks).
Proof.
  destruct (index_links_back manual_books index_viewer (index_settings 50) ltac:(cbn; lia) manual_books_data ltac:(reflexivity) ltac:(discriminate)) as (x0 & E & H).
  assert (E0 : x0 = manual_loaded) by (unfold manual_loaded; unfold manual_books_data in E; rewrite E; reflexivity). subst x0.
  apply (H manual_loaded). constructor.
Defined.
(** The colon behind the text in a sort key comes after the space of a longer text. *)
Example shorter_text_later :
  (match mEntries manual_loaded !! 0 with
   | Some e => omap (fun id => e ← mEntries manual_loaded !! id; mText e) (sorted_children (mChildren e))
   | None => []
   end) = ["Accessing Cyberoam iView"; "Application Group"; "Application"; "Archives"; "Audit Logs"].
Proof. vm_compute. reflexivity. Qed.
(** The space before a section is lost when the section begins a segment. *)
Definition pages_of (threshold : Z) (x : index) : list string * index :=
  let opt := index_settings threshold in
  default ([], x) ('(_, x) ← StartHTMLSegments index_viewer opt x; write_segments index_viewer opt (enough (mEntries x)) x).
Definition manual_segments : list string := fst (pages_of 500 manual_loaded).
Example space_lost :
  map (fun t => String.prefix (space +++ "<p class=l0>") t || String.prefix "<p class=l0>" t) (take 3 manual_segments) = [true; false; true] /\
  String.prefix "<p class=l0>" (default "" (manual_segments !! 2%nat)) = true /\
  indexOf (default "" (manual_segments !! 1%nat)) (space +++ "<p class=l0>") <> -1.
Proof. vm_compute. split; [reflexivity|]. split; [reflexivity|discriminate]. Qed.

(** ** "See also" entries *)
Definition See_also (text target letter : string) : item :=
  Item (Some text) None None None (Some target) None (Some letter) None (Some "002") [].
Definition small_index : list item :=
  [Section_of "V" [See_also "Virus" "Scan" "S"]; Section_of "S" [Topic "Scan" ["1"] []]].
Definition small_loaded : index := default new_index (load_books manual_books [(1, small_index)] new_index).
Abbreviation small_start := (StartHTMLSegments index_viewer (index_settings 500) small_loaded).
Definition small_page : index := default new_index (snd <$> small_start).
Definition small_shown : index := default new_index (snd <$> AdvanceHTMLSegment index_viewer (index_settings 500) small_page).
Lemma small_steps : rtc (index_step manual_books index_viewer (index_settings 500)) small_loaded small_shown.
Proof.
  eapply rtc_l; [|eapply rtc_l; [|constructor]].
  - eapply (Step_start _ _ _ _ (default "" (fst <$> small_start)) small_page). vm_compute. reflexivity.
  - eapply (Step_advance _ _ _ _ true small_shown). vm_compute. reflexivity.
Qed.
(** Which entry a path of the example is. *)
Lemma small_entry m p i b id j : ready m (book_occs 0 [(1, small_index)]) (mEntryCount small_loaded) (mEntries small_loaded) ->
  at_path p (book_occs 0 [(1, small_index)]) = [(b, i)] -> m !! id = Some p ->
  (forall k e, mEntries small_loaded !! k = Some e -> mText e = i_text i -> k = j) -> id = j.
Proof.
  intros R Hp Hm Ht. destruct (proj1 (sh_dom _ _ _ (rd_shaped _ _ _ _ R) id) (ex_intro _ _ Hm)) as [e He].
  assert (Hf := rd_entry _ _ _ _ R _ _ _ Hm He). rewrite Hp in Hf. apply (Ht id e He). unfold facts in Hf. cbn in Hf. congruence.
Qed.
Lemma small_text t j : Forall (fun '(k, e) => mText e = Some t -> k = j) (map_to_list (mEntries small_loaded)) ->
  forall k e, mEntries small_loaded !! k = Some e -> mText e = Some t -> k = j.
Proof. intros H k e Hk. rewrite Forall_forall in H. apply (H (k, e)). by apply elem_of_map_to_list. Qed.
Example see_also_jumps_witness :
  exists name x' ef, ClickedSeeAlsoEntry index_viewer (index_settings 500) "1:0" small_shown = Some (x', ef) /\
    mPanelAnchor x' = Some ("sa" +++ name) /\ ef = [focus_section small_shown; JumpToAnchor].
Proof.
  destruct (see_also_jumps manual_books index_viewer (index_settings 500) [(1, small_index)] ltac:(reflexivity) ltac:(discriminate) ltac:(vm_compute; reflexivity))
    as (m & x0 & E & R & H).
  assert (E0 : x0 = small_loaded) by (unfold small_loaded; rewrite E; reflexivity). subst x0.
  assert (Hg : m !! 2 = Some ["002:S~"]).
  { destruct (proj1 (rd_paths _ _ _ _ R ["002:S~"]) ltac:(vm_compute; discriminate)) as [_ [g Hg]].
    assert (g = 2) as <-; [|exact Hg]. eapply (small_entry m ["002:S~"]); [exact R|vm_compute; reflexivity|exact Hg|]. apply small_text. vm_compute. repeat constructor; congruence. }
  assert (Ht : m !! 3 = Some ["002:S~"; ":Scan~"]).
  { destruct (proj1 (rd_paths _ _ _ _ R ["002:S~"; ":Scan~"]) ltac:(vm_compute; discriminate)) as [_ [g Hg']].
    assert (g = 3) as <-; [|exact Hg']. eapply (small_entry m ["002:S~"; ":Scan~"]); [exact R|vm_compute; reflexivity|exact Hg'|]. apply small_text. vm_compute. repeat constructor; congruence. }
  destruct (mEntries small_shown !! 1) as [e|] eqn:He; [|vm_compute in He; discriminate].
  destruct (mEntries small_shown !! 2) as [ge|] eqn:Hge; [|vm_compute in Hge; discriminate].
  assert (Eg : group_ref e = "002:S~") by (vm_compute in He; injection He as <-; reflexivity).
  assert (Ee : entry_ref e = ":Scan~") by (vm_compute in He; injection He as <-; reflexivity).
  destruct (H small_shown small_steps "1:0" 1 e 2 ge 3 0%nat) as (name & te & x' & ef & Ec & _ & Ha & Hsec & _).
  - vm_compute. reflexivity.
  - exact He.
  - vm_compute in He. injection He as <-. eexists. vm_compute. reflexivity.
  - rewrite Eg. exact Hg.
  - rewrite Eg, Ee. exact Ht.
  - exact Hge.
  - vm_compute in Hge. injection Hge as <-. reflexivity.
  - vm_compute. reflexivity.
  - exists name, x', ef. split; [exact Ec|]. split; [exact Ha|]. vm_compute (exceeds _ _ _) in Hsec. apply Hsec.
Defined.
(** A "see also" entry that refers to another one: the page has no anchor for the click. *)
Definition chain_index : list item :=
  [Section_of "S" [Topic "Scan" ["1"] []; See_also "Threat" "Virus" "V"]; Section_of "V" [See_also "Virus" "Scan" "S"]].
Definition chain_loaded : index := default new_index (load_books manual_books [(1, chain_index)] new_index).
Definition chain_shown : index := snd (pages_of 500 chain_loaded).
Example chain_without_anchor :
  (mPanelAnchor ∘ fst <$> ClickedSeeAlsoEntry index_viewer (index_settings 500) "0:1" chain_shown) = Some (Some "sas0") /\
  map (fun t => indexOf t (qq "name=`sas0`")) (fst (pages_of 500 chain_loaded)) = [-1] /\
  map (fun t => indexOf t (qq "name=`sas1`") =? -1)%Z (fst (pages_of 500 chain_loaded)) = [false].
Proof. vm_compute. split; [|split]; reflexivity. Qed.
(** Different texts and sort texts with one key are one entry, with the first text. *)
Example keys_collide :
  let i := Item (Some "b") None (Some "a") None None None None None None [] in
  item_key i = item_key (Topic "a:b" [] []) /\
  let x := default new_index (load_books manual_books [(1, [Section_of "A" [Topic "a:b" ["1"] []; i]])] new_index) in
  (mEntryCount x, length (map_to_list (mEntries x))) = (2, 3%nat).
Proof. vm_compute. split; reflexivity. Qed.

(** ** The documents of an entry *)
Definition guide : book :=
  book_init "Guide" "" [("Home", "home.html"); ("Hosts", "hosts.html"); ("Users", "users.html")] (new_book "guide").
Definition guide_books : book_list := BookList 1 [guide] ∅.
Definition guide_links : list (Z * option string) := [(2, None); (1, Some "9000021"); (2, Some "9"); (1, None)].
Lemma guide_links_ok : Forall (link_ok guide) guide_links.
Proof. repeat constructor; cbn; try lia; try discriminate; reflexivity. Qed.
Example selection_groups_witness :
  exists groups, NoDup (map fst groups) /\ concat (map links_of groups) ≡ₚ guide_links /\
    select_book guide_books index_viewer (index_settings 500) {[0 := map link_text guide_links]} 0 guide =
    Some (groups_html guide_books index_viewer (index_settings 500) 0 guide "l1" groups +++ line "</nobr></p>").
Proof.
  destruct (selection_groups guide_books index_viewer (index_settings 500) 0 guide {[0 := map link_text guide_links]} guide_links
    ltac:(reflexivity) ltac:(lia) ltac:(reflexivity) guide_links_ok) as (groups & H1 & _ & H2 & H3).
  exists groups. split; [exact H1|]. split; [exact H2|]. exact H3.
Defined.
(** Without accessibility a variable that was never set is part of every link's tag; with
    one book the first line of the list closes elements that were not opened. *)
Definition one_entry : index :=
  default new_index (load_books guide_books [(1, [Section_of "H" [Topic "Hosts" ["2"; "1#9000021"; "2#9"] []]])] new_index).
Definition one_selected : index :=
  let x := snd (pages_of 500 one_entry) in
  default x (fst <$> ClickedEntry guide_books index_viewer "0:0" x).
Definition one_list : string := default "" (SelectionListBodyHTML guide_books index_viewer (index_settings 500) one_selected).
Example undefined_title :
  indexOf one_list (qq "');`undefined>Hosts</a>") <> -1.
Proof. vm_compute. discriminate. Qed.
Example unopened_paragraph :
  indexOf one_list (qq "<p><b>Hosts</b></p>" +++ nl +++ "</nobr></p>" +++ nl +++ qq "<p class=`l1`><nobr>") <> -1.
Proof. vm_compute. discriminate. Qed.
