(* ===== verification/HelpBrowser.v ===== *)
(** * The browser of the help viewer (wwhelp/wwhimpl/common/scripts/browser.js)
    [WWHBrowser_Object]: which browser it is, addresses in one form, cookies and their
    path, the focus.  The browser's cookies are the class [Jar]. *)
From S2P Require Import Prelude JsString JsNum JsVal JsDate HelpString.
Open Scope Z_scope.

(** ** [WWHBrowser_Object] *)
Record browser := Browser {
  mLocale : string; b_mPlatform : Z; b_mBrowser : Z; mCookiePath : string; mbCookiesEnabled : option bool;
  b_mbSupportsFocus : bool; mbSupportsPopups : bool; mbSupportsIFrames : bool; mbSupportsFrameRenaming : bool;
  mbWindowsIE40 : bool; mbMacIE45 : bool; b_mbMacIE50 : bool; mbWindowsIE60 : bool; mbUnsupported : bool
}.
(** What the script reads of [navigator]; the language is [navigator.language], or that of
    Internet Explorer. *)
Record navigator := Navigator { language : option string; userAgent : string; appVersion : string }.

(** The browser by its name and version; [mbWindowsIE40], which is not among the fields that
    are declared, is false until it is set. *)
Definition ie_version (n : navigator) : num :=
  let t := toLowerCase (appVersion n) in parseFloat (substring1 t (indexOf t "msie" + 4)).
Definition tenths (a : Z) : num := num_div (num_of_Z a) (num_of_Z 10).
Definition between (a b : Z) (x : num) : bool := num_leb (tenths a) x && num_ltb x (tenths b).
Definition at_least (a : Z) (v : option Z) : bool := match v with Some v => a <=? v | None => false end.
Definition detect (n : navigator) (platform : Z) (b : browser) : browser :=
  let Agent := toLowerCase (userAgent n) in
  let major := parseInt (appVersion n) in
  if contains Agent "mozilla" && negb (contains Agent "spoofer") && negb (contains Agent "compatible") then
    if at_least 5 major then
      Browser (mLocale b) platform 4 (mCookiePath b) (mbCookiesEnabled b) true (mbSupportsPopups b) true (mbSupportsFrameRenaming b)
        (mbWindowsIE40 b) (mbMacIE45 b) (b_mbMacIE50 b) (mbWindowsIE60 b) (contains (userAgent n) "m18" || mbUnsupported b)
    else if at_least 4 major then
      Browser (mLocale b) platform 1 (mCookiePath b) (mbCookiesEnabled b) (b_mbSupportsFocus b) (mbSupportsPopups b) (mbSupportsIFrames b) false
        (mbWindowsIE40 b) (mbMacIE45 b) (b_mbMacIE50 b) (mbWindowsIE60 b) (mbUnsupported b)
    else b
  else if contains Agent "msie" then
    if at_least 4 major then
      let v := ie_version n in
      let set iframes w40 m45 m50 w60 :=
        Browser (mLocale b) platform 2 (mCookiePath b) (mbCookiesEnabled b) true (mbSupportsPopups b) iframes (mbSupportsFrameRenaming b)
          w40 m45 m50 w60 (mbUnsupported b) in
      if between 40 41 v then set (mbSupportsIFrames b) ((platform =? 1) || mbWindowsIE40 b) (mbMacIE45 b) (b_mbMacIE50 b) (mbWindowsIE60 b)
      else if between 45 46 v then set (mbSupportsIFrames b) (mbWindowsIE40 b) ((platform =? 2) || mbMacIE45 b) (b_mbMacIE50 b) (mbWindowsIE60 b)
      else if between 50 51 v then set (mbSupportsIFrames b) (mbWindowsIE40 b) (mbMacIE45 b) ((platform =? 2) || b_mbMacIE50 b) (mbWindowsIE60 b)
      else if between 55 60 v then set true (mbWindowsIE40 b) (mbMacIE45 b) (b_mbMacIE50 b) (mbWindowsIE60 b)
      else if num_leb (tenths 60) v then set true (mbWindowsIE40 b) (mbMacIE45 b) (b_mbMacIE50 b) true
      else set (mbSupportsIFrames b) (mbWindowsIE40 b) (mbMacIE45 b) (b_mbMacIE50 b) (mbWindowsIE60 b)
    else b
  else if contains Agent "icab" then
    Browser (mLocale b) platform 3 (mCookiePath b) (mbCookiesEnabled b) (b_mbSupportsFocus b) false (mbSupportsIFrames b) (mbSupportsFrameRenaming b)
      (mbWindowsIE40 b) (mbMacIE45 b) (b_mbMacIE50 b) (mbWindowsIE60 b) (mbUnsupported b)
  else b.
(** [WWHBrowser_Initialize], on the fields of a new object. *)
Definition platform_of (agent : string) : Z :=
  if contains agent "win" || contains agent "16bit" then 1 else if contains agent "mac" then 2 else 0.
Definition Initialize (n : navigator) : browser :=
  let Agent := toLowerCase (userAgent n) in
  let platform := platform_of Agent in
  let locale := SearchReplace (toLowerCase (default "en" (language n))) "-" "_" in
  let b := detect n platform (Browser locale platform 0 "/" None false true false true false false false false false) in
  if contains Agent "applewebkit" then
    Browser (mLocale b) platform 5 (mCookiePath b) (mbCookiesEnabled b) false true true (mbSupportsFrameRenaming b)
      (mbWindowsIE40 b) (mbMacIE45 b) (b_mbMacIE50 b) (mbWindowsIE60 b) (mbUnsupported b)
  else b.

(** ** Addresses *)
Fixpoint drop_slashes (s : string) : string :=
  match s with String c t => if Ascii.eqb c "/" then drop_slashes t else s | EmptyString => EmptyString end.
Definition is_letter (c : Ascii.ascii) : bool :=
  let n := Ascii.nat_of_ascii c in (Nat.leb 65 n && Nat.leb n 90 || Nat.leb 97 n && Nat.leb n 122)%bool.
(** Matching a file's address with a drive letter, which may be followed by a bar: the
    drive and the path, which has no line break. *)
Definition drive_match (url : string) : option (string * string) :=
  if String.eqb (toLowerCase (substring2 url 0 5)) "file:" then
    match substring1 url 5 with
    | String "/" t =>
        match drop_slashes t with
        | String d (String c (String "/" p)) =>
            if is_letter d && (Ascii.eqb c ":" || Ascii.eqb c "|") && negb (contains p nl) && negb (contains p cr)
            then Some (String d "", p) else None
        | _ => None
        end
    | _ => None
    end
  else None.
(** [WWHBrowser_NormalizeURL] *)
Definition lower_protocol (url : string) : string :=
  if contains url ":" then
    match js_split url ":" with
    | p :: parts => toLowerCase p +++ join "" (map (fun t => ":" +++ t) parts)
    | [] => url
    end
  else url.
Definition NormalizeURL (b : browser) (url : string) : string :=
  let url := lower_protocol url in
  let url := if b_mPlatform b =? 1 then
               match drive_match url with Some (d, p) => "file:///" +++ d +++ ":/" +++ p | None => url end
             else url in
  SearchReplace url " " "%20".

(** Scripts that are run a moment later, and the focus. *)
Inductive effect :=
| Later (script : string) (ms : Z) | FocusFrame (frame : string) | FocusAnchor (frame : string) (i : nat).
Definition SetLocation (frame url : string) : list effect :=
  [Later (frame +++ qq ".location = `" +++ EscapeURLForJavaScriptAnchor url +++ qq "`;") 1].
Definition ReplaceLocation (frame url : string) : list effect :=
  [Later (frame +++ qq ".location.replace(`" +++ EscapeURLForJavaScriptAnchor url +++ qq "`);") 1].
(** [href] is the address that the frame has. *)
Definition ReloadLocation (frame href : string) : list effect := ReplaceLocation frame href.
(** [WWHBrowser_Focus]: the anchors of the frame by name, [named] as the collection finds
    them. *)
Definition Focus (b : browser) (frame : string) (anchor : option string) (anchors : list string) (named : string -> option nat) : list effect :=
  if b_mbSupportsFocus b && (0 <? slen frame) then
    FocusFrame frame ::
      match anchor with
      | Some a =>
          if 0 <? slen a then
            match named a with
            | Some i => [FocusAnchor frame i]
            | None => match list_find (fun t => t = a) anchors with Some (i, _) => [FocusAnchor frame i] | None => [] end
            end
          else []
      | None => []
      end
  else [].

(** ** The path of cookies *)
(** [WWHBrowser_SetCookiePath] *)
Definition without_parameters (url : string) : string :=
  if contains url "?" then default "" (head (js_split url "?"))
  else if contains url "#" then default "" (head (js_split url "#")) else url.
Definition without_last (url : string) : string :=
  let i := lastIndexOf url "/" in if i + 1 <? slen url then substring2 url 0 i else url.
Inductive protocol := Http | Ftp | File.
(** The protocol and where the path starts. *)
Definition path_start (url : string) : option (protocol * Z) :=
  if indexOf url "http:/" =? 0 then
    let i := indexOf_from url "/" 6 in if i =? -1 then None else Some (Http, i)
  else if indexOf url "ftp:/" =? 0 then
    let i := indexOf_from url "/" 5 in if i =? -1 then None else Some (Ftp, i)
  else if indexOf url "file:///" =? 0 then Some (File, 7)
  else None.
Definition cookie_path (b : browser) (url : string) : string :=
  let url := without_last (without_parameters url) in
  match path_start url with
  | None => "/"
  | Some (File, i) =>
      let p := substring2 url i (slen url) in
      if (b_mPlatform b =? 1) && (b_mBrowser b =? 2) && (1 <? slen p) then
        let p := SearchReplace (unescape p) "/" "\" in
        if indexOf p "\" =? 0 then "/" +++ substring2 p 1 (slen p) else p
      else p
  | Some (_, i) =>
      let p := substring2 url i (slen url) in
      let j := indexOf_from p "/" i in
      if j =? -1 then "/" else substring2 p j (slen p)
  end.
Definition with_path (p : string) (b : browser) : browser :=
  Browser (mLocale b) (b_mPlatform b) (b_mBrowser b) p (mbCookiesEnabled b) (b_mbSupportsFocus b) (mbSupportsPopups b)
    (mbSupportsIFrames b) (mbSupportsFrameRenaming b) (mbWindowsIE40 b) (mbMacIE45 b) (b_mbMacIE50 b) (mbWindowsIE60 b) (mbUnsupported b).
Definition SetCookiePath (url : string) (b : browser) : browser := with_path (cookie_path b url) b.

(** ** Cookies *)

(** [escape(s)] *)
Definition hex_digit (d : Z) : Ascii.ascii := Ascii.ascii_of_nat (Z.to_nat (if d <? 10 then 48 + d else 55 + d)).
Definition unescaped (c : Ascii.ascii) : bool :=
  is_letter c || is_digit c || contains "@*_+-./" (String c "").
Definition escape_char (c : Ascii.ascii) : string :=
  if unescaped c then String c ""
  else let n := Z.of_nat (Ascii.nat_of_ascii c) in String "%" (String (hex_digit (n / 16)) (String (hex_digit (n mod 16)) "")).
Definition escape (s : string) : string := sflat escape_char s.
(** [date.toGMTString()] *)
Definition two_digits (n : Z) : string := (if n <? 10 then "0" else "") +++ Z_to_string n.
Definition toGMTString (t : date) : string :=
  nth (Z.to_nat (getDay t)) ["Sun"; "Mon"; "Tue"; "Wed"; "Thu"; "Fri"; "Sat"] "" +++ ", " +++ two_digits (getDate t) +++ " "
  +++ nth (Z.to_nat (getMonth t)) ["Jan"; "Feb"; "Mar"; "Apr"; "May"; "Jun"; "Jul"; "Aug"; "Sep"; "Oct"; "Nov"; "Dec"] "" +++ " "
  +++ Z_to_string (getFullYear t) +++ " " +++ two_digits (getHours t) +++ ":" +++ two_digits (getMinutes t) +++ ":" +++ two_digits (getSeconds t) +++ " GMT".

(** The cookies that the page sees: [document.cookie] when it is read, and what an
    assignment to it does. *)
Class Jar := { jar : Type; jar_text : jar -> string; jar_set : string -> jar -> jar }.

Section cookies.
Context `{Jar} (now : date).
(** [WWHBrowser_SetCookie] *)
Definition attributes (path : string) (days : option Z) : string :=
  "; path=" +++ path
  +++ match days with
      | Some d => if d =? 0 then "" else "; expires=" +++ toGMTString (now + d * 1000 * 60 * 60 * 24)
      | None => ""
      end.
Definition SetCookie (b : browser) (name value : string) (days : option Z) (j : jar) : jar :=
  jar_set (escape name +++ "=" +++ escape value +++ attributes (mCookiePath b) days) j.
(** [WWHBrowser_GetCookie] *)
Definition GetCookie (name : string) (j : jar) : option string :=
  let cookies := jar_text j in
  let first := escape name +++ "=" in
  let key := if indexOf cookies first =? 0 then first else "; " +++ escape name +++ "=" in
  let i := indexOf cookies key in
  if i =? -1 then None
  else
    let start := i + slen key in
    let j := indexOf_from cookies ";" start in
    Some (unescape (substring2 cookies start (if j =? -1 then slen cookies else j))).
Definition DeleteCookie (b : browser) (name : string) (j : jar) : jar := SetCookie b name "" (Some (-1)) j.
(** [WWHBrowser_CookiesEnabled] *)
Definition set_enabled (e : bool) (b : browser) : browser :=
  Browser (mLocale b) (b_mPlatform b) (b_mBrowser b) (mCookiePath b) (Some e) (b_mbSupportsFocus b) (mbSupportsPopups b)
    (mbSupportsIFrames b) (mbSupportsFrameRenaming b) (mbWindowsIE40 b) (mbMacIE45 b) (b_mbMacIE50 b) (mbWindowsIE60 b) (mbUnsupported b).
Definition CookiesEnabled (b : browser) (j : jar) : bool * browser * jar :=
  match mbCookiesEnabled b with
  | Some e => (e, b, j)
  | None =>
      let name := "WWHBrowser_CookiesEnabled" in
      let j := SetCookie b name "True" None j in
      match GetCookie name j with
      | Some _ => (true, set_enabled true b, DeleteCookie b name j)
      | None => (false, set_enabled false b, j)
      end
  end.
End cookies.
