(* ===== verification/HelpCookies.v ===== *)
(** * Cookies that are read back, and their path
    What is written with [SetCookie] is found again by [GetCookie] among other cookies;
    where the path of cookies is right; addresses in one form. *)
From S2P Require Import Prelude JsString JsNum JsVal JsDate HelpString HelpPages HelpBrowser.
Open Scope Z_scope.

(** ** [escape] *)
Lemma unescape_char c t : unescape (escape_char c +++ t) = String c (unescape t).
Proof. destruct c as [[] [] [] [] [] [] [] []]; reflexivity. Qed.
Lemma unescape_escape s : unescape (escape s) = s.
Proof. induction s as [|c s IH]; [done|]. change (escape (String c s)) with (escape_char c +++ escape s). by rewrite unescape_char, IH. Qed.
(** A character of an escaped text. *)
Definition plain_char (c : Ascii.ascii) : bool := negb (Ascii.eqb c ";") && negb (Ascii.eqb c "=").
Lemma escape_char_plain c : sall plain_char (escape_char c) = true.
Proof. destruct c as [[] [] [] [] [] [] [] []]; reflexivity. Qed.
Lemma escape_plain s : sall plain_char (escape s) = true.
Proof. induction s as [|c s IH]; [done|]. change (escape (String c s)) with (escape_char c +++ escape s). by rewrite sall_app, escape_char_plain, IH. Qed.
Lemma escape_inj a b : escape a = escape b -> a = b.
Proof. intros E. by rewrite <- (unescape_escape a), E, unescape_escape. Qed.
Lemma plain_char_not c : plain_char c = true -> not_char ";" c = true /\ not_char "=" c = true.
Proof. unfold plain_char, not_char. rewrite (Ascii.eqb_sym ";"), (Ascii.eqb_sym "="). by intros [? ?]%andb_true_iff. Qed.
Lemma plain_no_semicolon s : sall plain_char s = true -> sall (not_char ";") s = true.
Proof. apply sall_impl. intros c Hc. by apply plain_char_not. Qed.
Lemma plain_no_equals s : sall plain_char s = true -> sall (not_char "=") s = true.
Proof. apply sall_impl. intros c Hc. by apply plain_char_not. Qed.

(** ** Reading *)
Definition cookie := (string * string)%type.
Definition cookie_text (c : cookie) : string := fst c +++ "=" +++ snd c.
(** The text of [document.cookie]. *)
Definition cookie_list (l : list cookie) : string := join "; " (map cookie_text l).
Definition cookie_ok (c : cookie) : Prop := sall plain_char (fst c) = true /\ sall (not_char ";") (snd c) = true.
Definition value_of (n : string) (l : list cookie) : option string := snd <$> List.find (fun c => String.eqb (fst c) n) l.

Lemma index_of_skip c p h t : sall (not_char c) h = true ->
  index_of (String c p) (h +++ t) = Nat.add (String.length h) <$> index_of (String c p) t.
Proof.
  induction h as [|d h IH]; intros Hh.
  - change ("" +++ t) with t. cbn [String.length]. by destruct (index_of (String c p) t).
  - cbn [sall] in Hh. apply andb_true_iff in Hh as [Hd Hh]. unfold not_char in Hd. apply negb_true_iff in Hd.
    cbn [String.append index_of prefixb]. rewrite Hd. cbn [andb]. rewrite (IH Hh). by destruct (index_of (String c p) t).
Qed.
(** The text before a character, and the text behind it, are those of the whole. *)
Lemma prefix_name n m t : sall (not_char "=") n = true -> sall (not_char "=") m = true ->
  prefixb (n +++ "=") (m +++ "=" +++ t) = String.eqb m n.
Proof.
  revert m. induction n as [|c n IH]; intros [|d m] Hn Hm; [done| | |].
  - cbn [String.append prefixb sall] in *. apply andb_true_iff in Hm as [Hd _]. unfold not_char in Hd. apply negb_true_iff in Hd. by rewrite Hd.
  - cbn [String.append prefixb sall] in *. apply andb_true_iff in Hn as [Hc _]. unfold not_char in Hc. apply negb_true_iff in Hc. rewrite Ascii.eqb_sym in Hc. by rewrite Hc.
  - cbn [sall] in *. apply andb_true_iff in Hn as [_ Hn]. apply andb_true_iff in Hm as [_ Hm]. specialize (IH m Hn Hm).
    change (prefixb (String c n +++ "=") (String d m +++ "=" +++ t)) with (Ascii.eqb c d && prefixb (n +++ "=") (m +++ "=" +++ t)). rewrite IH.
    change (String.eqb (String d m) (String c n)) with (if Ascii.eqb d c then String.eqb m n else false). rewrite Ascii.eqb_sym. by destruct (Ascii.eqb d c).
Qed.

(** The cookies behind the first. *)
Lemma join_empty_cons t l : join "" (t :: l) = t +++ join "" l.
Proof. destruct l; [cbn [join]; by rewrite sapp_nil_r|done]. Qed.
Definition more (l : list cookie) : string := join "" (map (fun c => "; " +++ cookie_text c) l).
Lemma cookie_list_cons c l : cookie_list (c :: l) = cookie_text c +++ more l.
Proof.
  revert c. induction l as [|d l IH]; intros c; [unfold more; cbn; by rewrite sapp_nil_r|].
  change (cookie_list (c :: d :: l)) with (cookie_text c +++ "; " +++ cookie_list (d :: l)). rewrite IH.
  unfold more at 2. cbn [map]. rewrite join_empty_cons. by rewrite sapp_assoc.
Qed.
(** What follows a value. *)
Definition value_end (r : string) : Prop := r = "" \/ exists t, r = String ";" t.
Lemma more_end l : value_end (more l).
Proof. destruct l as [|c l]; [by left|]. right. unfold more. cbn [map]. rewrite join_empty_cons. by eexists. Qed.
Lemma more_cons c l : more (c :: l) = "; " +++ cookie_text c +++ more l.
Proof. unfold more. cbn [map]. by rewrite join_empty_cons, sapp_assoc. Qed.
(** Where the key of a cookie is found behind the first cookie. *)
Definition key_of (n : string) : string := "; " +++ n +++ "=".
Lemma index_key n h t : sall (not_char ";") h = true -> index_of (key_of n) (h +++ t) = Nat.add (String.length h) <$> index_of (key_of n) t.
Proof. apply index_of_skip. Qed.
Lemma index_next n m t : sall plain_char n = true -> sall plain_char m = true ->
  index_of (key_of n) ("; " +++ m +++ "=" +++ t) = if String.eqb m n then Some O else S <$> index_of (key_of n) (" " +++ m +++ "=" +++ t).
Proof.
  intros Hn Hm. assert (Hp : prefixb (key_of n) ("; " +++ m +++ "=" +++ t) = String.eqb m n).
  { apply prefix_name; by apply plain_no_equals. }
  change (index_of (key_of n) ("; " +++ m +++ "=" +++ t)) with
    (if prefixb (key_of n) ("; " +++ m +++ "=" +++ t) then Some O else S <$> index_of (key_of n) (" " +++ m +++ "=" +++ t)). by rewrite Hp.
Qed.
Lemma index_more n l : sall plain_char n = true -> Forall cookie_ok l -> forall h, sall (not_char ";") h = true ->
  match value_of n l with
  | Some w => exists a r, h +++ more l = a +++ key_of n +++ w +++ r /\
      index_of (key_of n) (h +++ more l) = Some (String.length a) /\ sall (not_char ";") w = true /\ value_end r
  | None => index_of (key_of n) (h +++ more l) = None
  end.
Proof.
  intros Hn. induction 1 as [|[m w] l [Hm Hw] Hl IH]; intros h Hh; [by rewrite index_key|].
  cbn [fst snd] in Hm, Hw. rewrite more_cons. unfold cookie_text. cbn [fst snd]. rewrite index_key by done. rewrite (sapp_assoc m), (sapp_assoc "="), index_next by done.
  unfold value_of. cbn [List.find fst]. destruct (String.eqb_spec m n) as [->|Hne].
  - exists h, (more l). unfold key_of. rewrite !sapp_assoc. cbn. rewrite Nat.add_0_r. split_and!; try done. apply more_end.
  - fold (value_of n l). assert (Hh' : sall (not_char ";") (" " +++ m +++ "=" +++ w) = true).
    { rewrite !sall_app, Hw. by rewrite (plain_no_semicolon m Hm). }
    specialize (IH _ Hh'). rewrite (sapp_assoc " "), (sapp_assoc m), (sapp_assoc "=") in IH. destruct (value_of n l) as [u|]; [|by rewrite IH].
    destruct IH as (a & r & E & Ei & Hu & Hr). rewrite Ei. exists (h +++ ";" +++ a), r. split_and!; try done.
    + rewrite sapp_assoc, (sapp_assoc ";"), <- E. done.
    + cbn. rewrite sapp_length. done.
Qed.
Lemma value_part a w r : sall (not_char ";") w = true -> value_end r ->
  let t := a +++ w +++ r in
  let j := indexOf_from t ";" (slen a) in
  substring2 t (slen a) (if j =? -1 then slen t else j) = w.
Proof.
  intros Hw Hr. cbn zeta. rewrite indexOf_from_app.
  assert (Ei : index_of ";" (w +++ r) = match r with EmptyString => None | _ => Some (String.length w) end).
  { rewrite (index_of_skip ";" "") by done. destruct Hr as [->|[t ->]]; [done|]. cbn. by rewrite Nat.add_0_r. }
  rewrite Ei. destruct Hr as [->|[t ->]].
  - rewrite Z.eqb_refl, sapp_nil_r. apply substring2_suffix.
  - assert (Ha := slen_nonneg a). destruct (Z.eqb_spec (slen a + Z.of_nat (String.length w)) (-1)); [lia|].
    unfold substring2, clamp, slen. rewrite !sapp_length, !Nat2Z.inj_add. cbn [String.length].
    replace (Z.to_nat (Z.min _ _)) with (String.length a) by lia. replace (Z.to_nat _) with (String.length w) by lia.
    rewrite sdrop_app. apply stake_app.
Qed.
(** [GetCookie] finds the cookie with the name, if there is one. *)
Lemma GetCookie_spec `{Jar} n l j : jar_text j = cookie_list l -> Forall cookie_ok l ->
  GetCookie n j = unescape <$> value_of (escape n) l.
Proof.
  intros Ht Hl. unfold GetCookie. rewrite Ht, indexOf_prefix. assert (Hn := escape_plain n). set (k := escape n) in *.
  destruct Hl as [|[m w] l [Hm Hw] Hl]; [clearbody k; by destruct k|]. cbn [fst snd] in Hm, Hw. rewrite cookie_list_cons. unfold cookie_text. cbn [fst snd].
  rewrite (sapp_assoc m), (sapp_assoc "="), prefix_name by (by apply plain_no_equals). unfold value_of. cbn [List.find fst].
  destruct (String.eqb_spec m k) as [->|Hne].
  - assert (E : indexOf (k +++ "=" +++ w +++ more l) (k +++ "=") = 0).
    { apply Z.eqb_eq. rewrite indexOf_prefix, prefix_name by (by apply plain_no_equals). by apply String.eqb_eq. }
    rewrite E. cbn [Z.eqb]. rewrite <- (sapp_assoc k). cbn [fmap option_fmap option_map snd]. f_equal. f_equal.
    apply (value_part (k +++ "=") w (more l)); [done|apply more_end].
  - fold (value_of k l). assert (Hh : sall (not_char ";") (m +++ "=" +++ w) = true) by (by rewrite !sall_app, Hw, (plain_no_semicolon m Hm)).
    assert (Hi := index_more k l Hn Hl _ Hh). rewrite (sapp_assoc m), (sapp_assoc "=") in Hi. fold (key_of k). unfold indexOf.
    destruct (value_of k l) as [u|]; [|by rewrite Hi]. destruct Hi as (a & r & E & Ei & Hu & Hr). rewrite Ei.
    destruct (Z.eqb_spec (Z.of_nat (String.length a)) (-1)); [lia|]. cbn [fmap option_fmap option_map]. f_equal. f_equal.
    rewrite E, <- (sapp_assoc a). assert (Es : Z.of_nat (String.length a) + slen (key_of k) = slen (a +++ key_of k)) by (by rewrite slen_app).
    rewrite Es. by apply value_part.
Qed.

(** ** Writing, then reading *)

(** What a browser promises for cookies with a path that the page is below: it shows them
    in one text, keeps those that do not expire in the past, one for each name, and leaves
    the others alone. *)
Class JarLaws `{Jar} (path : string) := {
  cookies_of : jar -> list cookie;
  jar_text_list j : jar_text j = cookie_list (cookies_of j);
  jar_cookies_ok j : Forall cookie_ok (cookies_of j);
  jar_set_value now n w days j m : sall plain_char n = true -> sall (not_char ";") w = true ->
    match days with Some d => 0 <= d | None => True end ->
    value_of m (cookies_of (jar_set (n +++ "=" +++ w +++ attributes now path days) j))
    = if decide (m = n) then Some w else value_of m (cookies_of j)
}.

Section written.
Context `{Jar} (b : browser) {HL : JarLaws (mCookiePath b)} (now : date).
Lemma GetCookie_jar n j : GetCookie n j = unescape <$> value_of (escape n) (cookies_of j).
Proof. apply GetCookie_spec; [apply jar_text_list|apply jar_cookies_ok]. Qed.
(** A cookie that was set is found with its value; other cookies are found as before. *)
Lemma GetCookie_SetCookie n m v days j : match days with Some d => 0 <= d | None => True end ->
  GetCookie m (SetCookie now b n v days j) = if decide (m = n) then Some v else GetCookie m j.
Proof.
  intros Hd. rewrite !GetCookie_jar. unfold SetCookie. rewrite (jar_set_value now (escape n) (escape v) days j (escape m)); [|apply escape_plain| |done].
  - destruct (decide (m = n)) as [->|Hne].
    + rewrite decide_True by done. cbn. by rewrite unescape_escape.
    + rewrite decide_False; [done|]. intros E. by apply Hne, escape_inj.
  - apply plain_no_semicolon, escape_plain.
Qed.
Lemma cookies_enabled j : mbCookiesEnabled b = None -> exists b' j', CookiesEnabled now b j = (true, b', j') /\ mbCookiesEnabled b' = Some true.
Proof.
  intros E. unfold CookiesEnabled. rewrite E, GetCookie_SetCookie by done. rewrite decide_True by done. by eexists _, _.
Qed.
End written.

(** A browser for which this holds. *)
Definition cookie_okb (c : cookie) : bool := sall plain_char (fst c) && sall (not_char ";") (snd c).
Definition keep_cookie (text : string) (l : list cookie) : list cookie :=
  match js_split (default "" (head (js_split text ";"))) "=" with
  | n :: w :: r => (n, join "=" (w :: r)) :: List.filter (fun c => negb (String.eqb (fst c) n)) l
  | _ => l
  end.
Definition simple_jar : Jar :=
  {| jar := list cookie; jar_text l := cookie_list (List.filter cookie_okb l); jar_set := keep_cookie |}.
Lemma value_of_filter m n l : m <> n -> value_of m (List.filter (fun c => negb (String.eqb (fst c) n)) l) = value_of m l.
Proof.
  intros Hne. unfold value_of. induction l as [|[k w] l IH]; [done|]. cbn [List.filter fst]. destruct (String.eqb_spec k n) as [->|Hk]; cbn [negb List.find fst].
  - destruct (String.eqb_spec n m); [congruence|done].
  - destruct (String.eqb k m); [done|exact IH].
Qed.
Lemma filter_filter_comm {A} (f g : A -> bool) l : List.filter f (List.filter g l) = List.filter g (List.filter f l).
Proof. induction l as [|x l IH]; [done|]. cbn. destruct (f x) eqn:Ef, (g x) eqn:Eg; cbn; rewrite ?Ef, ?Eg, IH; done. Qed.
Lemma attributes_end now path days : exists t, attributes now path days = String ";" t.
Proof. by eexists. Qed.
#[global] Program Instance simple_laws path : @JarLaws simple_jar path := {| cookies_of := List.filter cookie_okb |}.
Next Obligation. done. Qed.
Next Obligation.
  intros path j. apply Forall_forall. intros c [_ Hc]%list_elem_of_In%List.filter_In. by apply andb_true_iff in Hc.
Qed.
Next Obligation.
  intros path now n w days j m Hn Hw _. destruct (attributes_end now path days) as [t ->]. cbn [jar_set simple_jar]. unfold keep_cookie.
  assert (E : head (js_split (n +++ "=" +++ w +++ String ";" t) ";") = Some (n +++ "=" +++ w)).
  { assert (Hh : sall (not_char ";") (n +++ "=" +++ w) = true) by (by rewrite !sall_app, Hw, (plain_no_semicolon n Hn)).
    assert (Es := js_split_char_cons ";"%char _ t Hh). rewrite !sapp_assoc in Es. by rewrite Es. }
  rewrite E. cbn [default from_option id]. change ("=" +++ w) with (String "=" w). rewrite (js_split_char_cons "="%char) by (by apply plain_no_equals).
  assert (Hj := join_split_char "="%char w). destruct (js_split w "=") as [|u r] eqn:Eu; [by apply js_split_nonempty in Eu|]. rewrite Hj.
  cbn [List.filter]. assert (Hc : cookie_okb (n, w) = true) by (by apply andb_true_iff). rewrite Hc, filter_filter_comm. unfold value_of at 1. cbn [List.find fst].
  destruct (decide (m = n)) as [->|Hne]; [by rewrite String.eqb_refl|]. destruct (String.eqb_spec n m); [congruence|]. by apply value_of_filter.
Qed.

(** ** The path of cookies *)
Lemma contains_char c s : contains s (String c "") = negb (sall (not_char c) s).
Proof.
  unfold contains. induction s as [|d s IH]; [done|]. cbn [index_of prefixb sall]. unfold not_char at 1.
  destruct (Ascii.eqb c d); [by destruct s|]. cbn [andb negb]. rewrite <- IH. by destruct (index_of (String c "") s).
Qed.
Lemma without_parameters_none url : sall (not_char "?") url = true -> sall (not_char "#") url = true -> without_parameters url = url.
Proof. intros Hq Hh. unfold without_parameters. by rewrite (contains_char "?"), Hq, (contains_char "#"), Hh. Qed.
Lemma without_last_file d f : sall (not_char "/") f = true -> f <> "" -> without_last (d +++ "/" +++ f) = d.
Proof.
  intros Hf Hne. unfold without_last, lastIndexOf. change ("/" +++ f) with (String "/" f). rewrite last_index_of_char by done. rewrite slen_app.
  assert (0 < slen f) by (unfold slen; destruct f; [done|cbn; lia]). assert (Es : slen (String "/" f) = 1 + slen f) by (unfold slen; cbn [String.length]; lia).
  fold (slen d). destruct (Z.ltb_spec (slen d + 1) (slen d + slen (String "/" f))); [|lia]. apply substring2_prefix.
Qed.
(** The path of a page on a server whose name has five characters or more is that of its
    directory. *)
Lemma cookie_path_http b host dir file : sall (not_char "/") host = true -> 5 <= slen host -> sall (not_char "/") file = true -> file <> "" ->
  let url := "http://" +++ host +++ "/" +++ dir +++ "/" +++ file in
  sall (not_char "?") url = true -> sall (not_char "#") url = true -> cookie_path b url = "/" +++ dir.
Proof.
  intros Hh H5 Hf Hne url Hq Hs. unfold cookie_path. rewrite without_parameters_none by done.
  assert (E : without_last url = "http:/" +++ "/" +++ host +++ "/" +++ dir).
  { assert (Eu : url = ("http://" +++ host +++ "/" +++ dir) +++ "/" +++ file) by (unfold url; by rewrite !sapp_assoc).
    rewrite Eu, without_last_file by done. done. }
  rewrite E. set (p := "/" +++ host +++ "/" +++ dir).
  assert (Ei : path_start ("http:/" +++ p) = Some (Http, 6)).
  { unfold path_start. rewrite indexOf_prefix, prefixb_app. assert (E6 := indexOf_from_app "http:/" p "/"). change (slen "http:/") with 6 in E6. by rewrite E6. }
  rewrite Ei. assert (Es := substring2_suffix "http:/" p). change (slen "http:/") with 6 in Es. rewrite Es.
  assert (Eh : host = stake 5 host +++ sdrop 5 host) by (by rewrite stake_sdrop).
  assert (Hr : sall (not_char "/") (sdrop 5 host) = true) by (rewrite Eh, sall_app in Hh; by apply andb_true_iff in Hh as [_ Hh]).
  assert (Ep : p = ("/" +++ stake 5 host) +++ sdrop 5 host +++ "/" +++ dir) by (unfold p; rewrite Eh at 1; by rewrite !sapp_assoc).
  assert (Hl : slen ("/" +++ stake 5 host) = 6) by (rewrite slen_app; unfold slen in *; rewrite stake_length; cbn [String.length]; lia).
  assert (Ej : indexOf_from p "/" 6 = slen (("/" +++ stake 5 host) +++ sdrop 5 host)).
  { rewrite Ep, <- Hl, indexOf_from_app, (index_of_skip "/" "") by done. change (index_of "/" ("/" +++ dir)) with (Some O).
    cbn [fmap option_fmap option_map]. rewrite (slen_app _ (sdrop 5 host)). unfold slen at 3. rewrite Nat.add_0_r. lia. }
  rewrite Ej. assert (Hnn := slen_nonneg (("/" +++ stake 5 host) +++ sdrop 5 host)). destruct (Z.eqb_spec (slen (("/" +++ stake 5 host) +++ sdrop 5 host)) (-1)); [lia|].
  rewrite Ep, <- (sapp_assoc ("/" +++ stake 5 host)). apply substring2_suffix.
Qed.
(** With a shorter name the search starts behind the end of the name. *)
Definition any_browser : browser := Initialize (Navigator None "Mozilla/5.0 (X11; Linux) Gecko Firefox/3.6" "5.0 (X11)").
Example short_host_path :
  cookie_path any_browser "http://iview/help/guide/index.html" = "/help/guide" /\ cookie_path any_browser "http://iv/help/guide/index.html" = "/guide".
Proof. vm_compute. split; reflexivity. Qed.
(** Pages of other protocols share the path of the server. *)
Example https_path : cookie_path any_browser "https://iview/help/guide/index.html" = "/".
Proof. reflexivity. Qed.

(** ** The browser *)
Lemma detect_known n p b : b_mPlatform b = p -> b_mBrowser b = 0 -> b_mbSupportsFocus b = false -> mbSupportsPopups b = true ->
  let d := detect n p b in
  0 <= b_mBrowser d <= 4 /\ b_mPlatform d = p /\ (b_mbSupportsFocus d = true <-> b_mBrowser d = 2 \/ b_mBrowser d = 4) /\
  (mbSupportsPopups d = false <-> b_mBrowser d = 3).
Proof.
  intros Hp Hb Hf Hs d. unfold d, detect. cbn zeta. repeat case_match; cbn; rewrite ?Hp, ?Hb, ?Hf, ?Hs; split_and!; try lia; split; intros; try lia; try done.
Qed.
Lemma Initialize_known n :
  let b := Initialize n in
  0 <= b_mBrowser b <= 5 /\ 0 <= b_mPlatform b <= 2 /\ (b_mbSupportsFocus b = true <-> b_mBrowser b = 2 \/ b_mBrowser b = 4) /\
  (mbSupportsPopups b = false <-> b_mBrowser b = 3).
Proof.
  intros b. unfold b, Initialize. set (p := platform_of _). set (b0 := Browser _ p 0 _ _ _ _ _ _ _ _ _ _ _).
  destruct (detect_known n p b0) as (H1 & H2 & H3 & H4); [done|done|done|done|].
  assert (Hp : 0 <= p <= 2) by (unfold p, platform_of; repeat case_match; lia).
  destruct (contains _ "applewebkit"); cbn [b_mBrowser b_mPlatform b_mbSupportsFocus mbSupportsPopups]; rewrite ?H2; split_and!; try lia; try tauto; split; intros; try lia; done.
Qed.
