(* ===== verification/HelpAddress.v ===== *)
(** * Addresses in one form (browser.js)
    The form in which the viewer compares addresses, as a relation of its own
    ([address_form]): [NormalizeURL] computes it, and an address in it stays as it is. *)
From S2P Require Import Prelude JsString JsNum JsVal HelpString HelpPages HelpBrowser HelpCookies.
Open Scope Z_scope.

(** ** Spaces *)
Definition space_text (c : Ascii.ascii) : string := if Ascii.eqb c " " then "%20" else String c "".
Definition spaces : string -> string := sflat space_text.
Lemma spaces_spec s : SearchReplace s " " "%20" = spaces s.
Proof. apply SearchReplace_char. Qed.
Lemma spaces_app a b : spaces (a +++ b) = spaces a +++ spaces b.
Proof. apply sflat_app. Qed.
Lemma spaces_none s : sall (not_char " ") s = true -> spaces s = s.
Proof.
  induction s as [|c s IH]; intros H; [done|]. cbn [sall] in H. apply andb_true_iff in H as [Hc H]. unfold not_char in Hc. rewrite Ascii.eqb_sym in Hc. apply negb_true_iff in Hc.
  change (spaces (String c s)) with (space_text c +++ spaces s). rewrite (IH H). unfold space_text. by rewrite Hc.
Qed.
Lemma spaces_no_space s : sall (not_char " ") (spaces s) = true.
Proof.
  induction s as [|c s IH]; [done|]. change (spaces (String c s)) with (space_text c +++ spaces s). rewrite sall_app, IH, andb_true_r.
  unfold space_text. destruct (Ascii.eqb_spec c " ") as [->|Hc]; [done|]. cbn [sall]. rewrite andb_true_r. unfold not_char. apply negb_true_iff. rewrite Ascii.eqb_sym. by apply Ascii.eqb_neq.
Qed.
Lemma spaces_idem s : spaces (spaces s) = spaces s.
Proof. apply spaces_none, spaces_no_space. Qed.
Lemma spaces_keeps (P : Ascii.ascii -> bool) s : P "%"%char = true -> P "2"%char = true -> P "0"%char = true -> sall P s = true -> sall P (spaces s) = true.
Proof.
  intros H1 H2 H3. induction s as [|c s IH]; intros H; [done|]. cbn [sall] in H. apply andb_true_iff in H as [Hc H].
  change (spaces (String c s)) with (space_text c +++ spaces s). rewrite sall_app, (IH H), andb_true_r. unfold space_text.
  destruct (Ascii.eqb c " "); cbn [sall]; by rewrite ?H1, ?H2, ?H3, ?Hc.
Qed.
Lemma spaces_back (P : Ascii.ascii -> bool) s : P " "%char = true -> sall P (spaces s) = true -> sall P s = true.
Proof.
  intros Hp. induction s as [|c s IH]; intros H; [done|]. change (spaces (String c s)) with (space_text c +++ spaces s) in H.
  rewrite sall_app in H. apply andb_true_iff in H as [Hc H]. cbn [sall]. rewrite (IH H), andb_true_r. unfold space_text in Hc.
  destruct (Ascii.eqb_spec c " ") as [->|_]; [done|]. cbn [sall] in Hc. by rewrite andb_true_r in Hc.
Qed.
(** A beginning without the character that is written for a space was there before. *)
Lemma spaces_prefix a : forall y t, sall (not_char "%") a = true -> spaces y = a +++ t -> exists t', y = a +++ t' /\ spaces t' = t.
Proof.
  induction a as [|c a IH]; intros y t Ha E; [by exists y|]. cbn [sall] in Ha. apply andb_true_iff in Ha as [Hc Ha].
  destruct y as [|d y]; [done|]. change (spaces (String d y)) with (space_text d +++ spaces y) in E. unfold space_text in E. destruct (Ascii.eqb d " ").
  - injection E as <- _. done.
  - injection E as -> E. destruct (IH y t Ha E) as (t' & -> & Ht). by exists t'.
Qed.

(** ** The protocol *)
Lemma lower_char_idem c : lower_char (lower_char c) = lower_char c.
Proof. destruct c as [[] [] [] [] [] [] [] []]; reflexivity. Qed.
Lemma toLowerCase_idem s : toLowerCase (toLowerCase s) = toLowerCase s.
Proof. unfold toLowerCase. induction s as [|c s IH]; [done|]. cbn. by rewrite lower_char_idem, IH. Qed.
Lemma toLowerCase_app a b : toLowerCase (a +++ b) = toLowerCase a +++ toLowerCase b.
Proof. unfold toLowerCase. induction a as [|c a IH]; [done|]. cbn. by rewrite IH. Qed.
Lemma lower_space_text c : toLowerCase (space_text c) = space_text (lower_char c).
Proof. destruct c as [[] [] [] [] [] [] [] []]; reflexivity. Qed.
Lemma toLowerCase_spaces s : toLowerCase (spaces s) = spaces (toLowerCase s).
Proof.
  induction s as [|c s IH]; [done|]. change (spaces (String c s)) with (space_text c +++ spaces s). rewrite toLowerCase_app, IH, lower_space_text. done.
Qed.
Lemma lower_not_colon s : sall (not_char ":") s = true -> sall (not_char ":") (toLowerCase s) = true.
Proof.
  unfold toLowerCase. induction s as [|c s IH]; intros H; [done|]. cbn [sall smap] in *. apply andb_true_iff in H as [Hc H]. rewrite (IH H), andb_true_r.
  revert Hc. by destruct c as [[] [] [] [] [] [] [] []].
Qed.
Lemma colon_parts l : forall p, p +++ join "" (map (fun t => ":" +++ t) l) = join ":" (p :: l).
Proof.
  induction l as [|q l IH]; intros p; [by rewrite sapp_nil_r|]. cbn [map]. rewrite join_empty_cons, sapp_assoc, (IH q). done.
Qed.
Lemma lower_protocol_colon p t : sall (not_char ":") p = true -> lower_protocol (p +++ ":" +++ t) = toLowerCase p +++ ":" +++ t.
Proof.
  intros Hp. unfold lower_protocol. rewrite contains_char. rewrite sall_app. change (sall (not_char ":") (":" +++ t)) with false. rewrite andb_false_r. cbn [negb].
  change (":" +++ t) with (String ":" t). rewrite js_split_char_cons by done. rewrite colon_parts.
  assert (E := join_split_char ":" t). destruct (js_split t ":") as [|u r] eqn:Eu; [by apply js_split_nonempty in Eu|]. change (join ":" (toLowerCase p :: u :: r)) with (toLowerCase p +++ ":" +++ join ":" (u :: r)). by rewrite E.
Qed.
Lemma lower_protocol_none s : sall (not_char ":") s = true -> lower_protocol s = s.
Proof. intros H. unfold lower_protocol. by rewrite contains_char, H. Qed.
Lemma colon_cases s : sall (not_char ":") s = true \/ exists p t, s = p +++ ":" +++ t /\ sall (not_char ":") p = true.
Proof.
  induction s as [|c s IH]; [by left|]. destruct (Ascii.eqb_spec ":" c) as [<-|Hc]; [right; by exists "", s|].
  destruct IH as [H|(p & t & -> & Hp)]; [left|right].
  - cbn [sall]. rewrite H, andb_true_r. unfold not_char. apply negb_true_iff. by apply Ascii.eqb_neq.
  - exists (String c p), t. split; [done|]. cbn [sall]. rewrite Hp, andb_true_r. unfold not_char. apply negb_true_iff. by apply Ascii.eqb_neq.
Qed.

(** ** The drive *)
Definition drive_head (d : Ascii.ascii) (a : string) : Prop :=
  exists f sl c, a = f +++ "/" +++ sl +++ String d (String c "/") /\ toLowerCase f = "file:" /\ sall (Ascii.eqb "/") sl = true /\
    is_letter d = true /\ Ascii.eqb c ":" || Ascii.eqb c "|" = true.
Lemma toLowerCase_length s : String.length (toLowerCase s) = String.length s.
Proof. unfold toLowerCase. induction s as [|c s IH]; [done|]. cbn. by rewrite IH. Qed.
Lemma drop_slashes_spec t : exists sl, t = sl +++ drop_slashes t /\ sall (Ascii.eqb "/") sl = true.
Proof.
  induction t as [|c t IH]; [by exists ""|]. cbn [drop_slashes]. destruct (Ascii.eqb_spec c "/") as [->|_]; [|by exists ""].
  destruct IH as (sl & E & Hs). exists (String "/" sl). split; [by rewrite E at 1|done].
Qed.
Lemma drop_slashes_all sl d t : sall (Ascii.eqb "/") sl = true -> is_letter d = true -> drop_slashes (sl +++ String d t) = String d t.
Proof.
  intros Hs Hd. induction sl as [|c sl IH].
  - cbn. destruct (Ascii.eqb_spec d "/") as [->|_]; [done|done].
  - cbn [sall] in Hs. apply andb_true_iff in Hs as [Hc Hs]. apply Ascii.eqb_eq in Hc as <-. cbn. by apply IH.
Qed.
Lemma substring2_five f t : String.length f = 5%nat -> substring2 (f +++ t) 0 5 = f /\ substring1 (f +++ t) 5 = t.
Proof.
  intros Hf. split.
  - assert (E := substring2_prefix f t). assert (El : slen f = 5) by (unfold slen; by rewrite Hf). by rewrite El in E.
  - unfold substring1, clamp, slen. rewrite sapp_length, Hf. replace (Z.to_nat _) with (String.length f) by lia. apply sdrop_app.
Qed.
Definition one_line (p : string) : bool := negb (contains p nl) && negb (contains p cr).
Lemma drive_match_spec x d p : drive_match x = Some (d, p) <-> exists c a, d = String c "" /\ drive_head c a /\ x = a +++ p /\ one_line p = true.
Proof.
  split.
  - unfold drive_match. destruct (String.eqb_spec (toLowerCase (substring2 x 0 5)) "file:") as [Ef|]; [|done].
    assert (Hl : String.length (substring2 x 0 5) = 5%nat) by (by rewrite <- toLowerCase_length, Ef).
    assert (Ex : x = substring2 x 0 5 +++ substring1 x 5).
    { assert (Hx : (5 <= String.length x)%nat) by (rewrite <- Hl; unfold substring2; rewrite stake_length, sdrop_length; lia).
      assert (H5 : String.length (stake 5 x) = 5%nat) by (rewrite stake_length; lia).
      destruct (substring2_five (stake 5 x) (sdrop 5 x) H5) as [E1 E2]. rewrite stake_sdrop in E1, E2. by rewrite E1, E2, stake_sdrop. }
    set (f := substring2 x 0 5) in *. clearbody f. destruct (substring1 x 5) as [|[[] [] [] [] [] [] [] []] t]; try done.
    destruct (drop_slashes_spec t) as (sl & Et & Hs). destruct (drop_slashes t) as [|c [|e [|[[] [] [] [] [] [] [] []] q]]]; try done.
    destruct (is_letter c) eqn:Hc; [|done]. destruct (Ascii.eqb e ":" || Ascii.eqb e "|") eqn:He; [|done]. cbn [andb].
    fold (one_line q). destruct (one_line q) eqn:Hq; [|done]. intros [= <- <-].
    exists c, (f +++ "/" +++ sl +++ String c (String e "/")). split; [done|]. split; [by exists f, sl, e|]. split; [|done].
    rewrite Ex, Et, !sapp_assoc. done.
  - intros (c & a & -> & (f & sl & e & -> & Ef & Hs & Hc & He) & -> & Hp).
    assert (Hl : String.length f = 5%nat) by (by rewrite <- toLowerCase_length, Ef).
    unfold drive_match. rewrite !sapp_assoc. destruct (substring2_five f ("/" +++ sl +++ String c (String e "/") +++ p) Hl) as [E1 E2]. rewrite E1, E2, Ef.
    change (("file:" =? "file:")%string) with true. cbn iota. change ("/" +++ ?t) with (String "/" t). change (String c (String e "/") +++ p) with (String c (String e (String "/" p))).
    cbv beta iota. rewrite drop_slashes_all by done. cbv beta iota. rewrite Hc, He. unfold one_line in Hp. cbn [andb]. by rewrite Hp.
Qed.
Lemma is_letter_plain c : is_letter c = true -> not_char "%" c = true /\ not_char " " c = true /\ not_char ":" c = true.
Proof. by destruct c as [[] [] [] [] [] [] [] []]. Qed.
Lemma slashes_plain (c : Ascii.ascii) sl : c <> "/"%char -> sall (Ascii.eqb "/") sl = true -> sall (not_char c) sl = true.
Proof. intros Hc. apply sall_impl. intros e <-%Ascii.eqb_eq. unfold not_char. apply negb_true_iff. by apply Ascii.eqb_neq. Qed.
Lemma lower_plain s d : toLowerCase s = "file:" -> d = "%"%char \/ d = " "%char -> sall (not_char d) s = true.
Proof.
  intros E Hd. assert (H : sall (fun c => not_char d (lower_char c)) s = true).
  { assert (G : sall (not_char d) (toLowerCase s) = true) by (rewrite E; by destruct Hd as [-> | ->]).
    clear E. unfold toLowerCase in G. induction s as [|c s IH]; [done|]. cbn [smap sall] in *. apply andb_true_iff in G as [-> G]. by apply IH. }
  revert H. apply sall_impl. intros c. destruct Hd as [-> | ->]; by destruct c as [[] [] [] [] [] [] [] []].
Qed.
Lemma drive_head_plain d a : drive_head d a -> sall (not_char "%") a = true /\ sall (not_char " ") a = true.
Proof.
  intros (f & sl & c & -> & Ef & Hs & Hd & Hc). destruct (is_letter_plain d Hd) as (H1 & H2 & _).
  assert (Hcp : not_char "%" c = true /\ not_char " " c = true) by (apply orb_true_iff in Hc as [->%Ascii.eqb_eq| ->%Ascii.eqb_eq]; done).
  destruct Hcp as [H3 H4]. split.
  - rewrite !sall_app. cbn [sall]. rewrite (lower_plain f "%" Ef (or_introl eq_refl)), (slashes_plain "%" sl) by done. by rewrite H1, H3.
  - rewrite !sall_app. cbn [sall]. rewrite (lower_plain f " " Ef (or_intror eq_refl)), (slashes_plain " " sl) by done. by rewrite H2, H4.
Qed.
Lemma one_line_spaces p : one_line (spaces p) = one_line p.
Proof.
  unfold one_line. change nl with (String (Ascii.ascii_of_nat 10) ""). change cr with (String (Ascii.ascii_of_nat 13) ""). rewrite !contains_char, !negb_involutive.
  assert (E : forall c, not_char c " " = true -> not_char c "%" = true -> not_char c "2" = true -> not_char c "0" = true -> sall (not_char c) (spaces p) = sall (not_char c) p).
  { intros c H1 H2 H3 H4. apply eq_true_iff_eq. split; [by apply spaces_back|by apply spaces_keeps]. }
  by rewrite !E.
Qed.
(** Writing the spaces changes neither what the drive is nor whether there is one. *)
Lemma drive_match_spaces x : drive_match (spaces x) = (fun '(d, p) => (d, spaces p)) <$> drive_match x.
Proof.
  destruct (drive_match x) as [[d p]|] eqn:E; cbn [fmap option_fmap option_map].
  - apply drive_match_spec in E as (c & a & -> & Ha & -> & Hp). apply drive_match_spec. exists c, a. split; [done|]. split; [done|].
    destruct (drive_head_plain c a Ha) as [_ Hs]. rewrite spaces_app, (spaces_none a Hs). split; [done|]. by rewrite one_line_spaces.
  - destruct (drive_match (spaces x)) as [[d p]|] eqn:E'; [|done]. apply drive_match_spec in E' as (c & a & -> & Ha & Ex & Hp).
    destruct (drive_head_plain c a Ha) as [Hn _]. destruct (spaces_prefix a x p Hn Ex) as (p' & -> & <-).
    assert (Hd : drive_match (a +++ p') = Some (String c "", p')); [|congruence].
    apply drive_match_spec. exists c, a. by rewrite one_line_spaces in Hp.
Qed.
Lemma lower_protocol_spaces u : lower_protocol (spaces (lower_protocol u)) = spaces (lower_protocol u).
Proof.
  destruct (colon_cases u) as [Hu|(p & t & -> & Hp)].
  - rewrite (lower_protocol_none u Hu). apply lower_protocol_none. by apply spaces_keeps.
  - rewrite lower_protocol_colon by done. rewrite !spaces_app. change (spaces ":") with ":".
    rewrite lower_protocol_colon by (by apply spaces_keeps; [..|apply lower_not_colon]). by rewrite toLowerCase_spaces, toLowerCase_idem.
Qed.

(** Bringing an address into its form a second time changes nothing more. *)
Lemma NormalizeURL_twice b u : NormalizeURL b (NormalizeURL b u) = NormalizeURL b u.
Proof.
  unfold NormalizeURL. rewrite !spaces_spec. set (y := lower_protocol u).
  assert (Hy : lower_protocol (spaces y) = spaces y) by apply lower_protocol_spaces.
  destruct (b_mPlatform b =? 1); [|by rewrite Hy, spaces_idem].
  assert (Hm := drive_match_spaces y). destruct (drive_match y) as [[d p]|] eqn:E; cbn [fmap option_fmap option_map] in Hm; [|by rewrite Hy, Hm, spaces_idem].
  apply drive_match_spec in E as (c & a & -> & (f & sl & e & _ & _ & _ & Hc & _) & _ & Hp).
  destruct (is_letter_plain c Hc) as (_ & H2 & _).
  assert (Es : spaces ("file:///" +++ String c "" +++ ":/" +++ p) = "file:///" +++ String c "" +++ ":/" +++ spaces p).
  { rewrite !spaces_app. rewrite (spaces_none (String c "")); [done|]. cbn [sall]. by rewrite H2. }
  rewrite Es. assert (El : lower_protocol ("file:///" +++ String c "" +++ ":/" +++ spaces p) = "file:///" +++ String c "" +++ ":/" +++ spaces p) by exact (lower_protocol_colon "file" _ eq_refl).
  rewrite El. assert (Ed : drive_match ("file:///" +++ String c "" +++ ":/" +++ spaces p) = Some (String c "", spaces p)).
  { apply drive_match_spec. exists c, ("file:///" +++ String c ":/"). split; [done|]. split; [by exists "file:", "//", ":"%char|]. split; [done|]. by rewrite one_line_spaces. }
  rewrite Ed. by rewrite <- Es, spaces_idem, Es.
Qed.

(** ** What the form is *)

(** An address of a file on a drive: "file:" in any case, slashes, the letter, a colon or
    a bar, a slash, and the rest on one line. *)
Definition on_drive (u : string) (d : Ascii.ascii) (rest : string) : Prop :=
  exists a, drive_head d a /\ u = a +++ rest /\ one_line rest = true.

(** The form of an address.  Spaces are written %20 everywhere; an address without a
    colon is left as it is otherwise; the protocol - what stands before the first colon -
    is in lower case; on Windows, a file on a drive has three slashes and a colon. *)
Inductive address_form (windows : bool) : string -> string -> Prop :=
| form_plain u :
    sall (not_char ":") u = true -> address_form windows u (spaces u)
| form_protocol p t :
    sall (not_char ":") p = true ->
    (windows = true -> forall d rest, ~ on_drive (p +++ ":" +++ t) d rest) ->
    address_form windows (p +++ ":" +++ t) (spaces (toLowerCase p) +++ ":" +++ spaces t)
| form_drive u d rest :
    windows = true -> on_drive u d rest ->
    address_form windows u ("file:///" +++ String d (":/" +++ spaces rest)).

Lemma colon_first p t q v :
  sall (not_char ":") p = true -> sall (not_char ":") q = true -> p +++ ":" +++ t = q +++ ":" +++ v -> p = q /\ t = v.
Proof.
  revert q. induction p as [|c p IH]; intros [|d q] Hp Hq E; cbn in *.
  - by injection E.
  - injection E as <- _. done.
  - injection E as -> _. done.
  - injection E as <- E. apply andb_true_iff in Hp as [_ Hp], Hq as [_ Hq]. by destruct (IH q Hp Hq E) as [-> ->].
Qed.

(** The protocol of a file on a drive. *)
Lemma file_protocol f : toLowerCase f = "file:" <-> exists g, f = g +++ ":" /\ toLowerCase g = "file" /\ sall (not_char ":") g = true.
Proof.
  split.
  - assert (Hc : forall c d, lower_char c = d -> not_char ":" d = true -> not_char ":" c = true) by (intros c d <-; by destruct c as [[] [] [] [] [] [] [] []]).
    unfold toLowerCase. destruct f as [|c1 [|c2 [|c3 [|c4 [|c5 [|? ?]]]]]]; try done. cbn [smap]. intros [= E1 E2 E3 E4 E5].
    assert (c5 = ":"%char) as -> by (revert E5; by destruct c5 as [[] [] [] [] [] [] [] []]).
    exists (String c1 (String c2 (String c3 (String c4 "")))). split; [done|]. cbn [smap sall]. rewrite E1, E2, E3, E4. split; [done|].
    by rewrite (Hc _ _ E1), (Hc _ _ E2), (Hc _ _ E3), (Hc _ _ E4).
  - intros (g & -> & Hg & _). by rewrite toLowerCase_app, Hg.
Qed.

Lemma on_drive_colon u d rest : on_drive u d rest -> exists p t, u = p +++ ":" +++ t /\ sall (not_char ":") p = true /\ toLowerCase p = "file".
Proof.
  intros (a & (f & sl & c & -> & Hf & _) & -> & _). apply file_protocol in Hf as (g & -> & Hg & Hn). exists g. eexists. split; [by rewrite !sapp_assoc|done].
Qed.

(** Lower-casing the protocol changes nothing about the drive. *)
Lemma on_drive_swap p q t d rest : sall (not_char ":") p = true -> toLowerCase q = toLowerCase p -> sall (not_char ":") q = true ->
  on_drive (p +++ ":" +++ t) d rest -> on_drive (q +++ ":" +++ t) d rest.
Proof.
  intros Hp E Hq (a & (f & sl & c & -> & Hf & Hs & Hd & Hc) & Eu & Hr). apply file_protocol in Hf as (g & -> & Hg & Hn).
  rewrite !sapp_assoc in Eu. apply colon_first in Eu as [-> ->]; [|done..].
  exists ((q +++ ":") +++ "/" +++ sl +++ String d (String c "/")). split; [|by rewrite !sapp_assoc].
  exists (q +++ ":"), sl, c. split; [done|]. split; [|done]. by rewrite toLowerCase_app, E, Hg.
Qed.
Lemma on_drive_lower u d rest : on_drive (lower_protocol u) d rest <-> on_drive u d rest.
Proof.
  destruct (colon_cases u) as [Hu|(p & t & -> & Hp)]; [by rewrite lower_protocol_none|]. rewrite lower_protocol_colon by done.
  split; apply on_drive_swap; rewrite ?toLowerCase_idem; try done; by apply lower_not_colon.
Qed.
Lemma drive_match_on_drive u d rest : drive_match u = Some (String d "", rest) <-> on_drive u d rest.
Proof.
  rewrite drive_match_spec. split.
  - intros (c & a & [= <-] & Ha & -> & Hr). by exists a.
  - intros (a & Ha & -> & Hr). by exists d, a.
Qed.

Lemma drive_match_letter u x rest : drive_match u = Some (x, rest) -> exists d, x = String d "" /\ on_drive u d rest.
Proof. intros H. pose proof H as H0. apply drive_match_spec in H as (d & a & -> & _). exists d. split; [done|]. by apply drive_match_on_drive. Qed.
Lemma spaces_drive d rest a : drive_head d a -> spaces ("file:///" +++ String d "" +++ ":/" +++ rest) = "file:///" +++ String d (":/" +++ spaces rest).
Proof.
  intros (f & sl & e & _ & _ & _ & Hc & _). destruct (is_letter_plain d Hc) as (_ & H2 & _).
  rewrite !spaces_app. rewrite (spaces_none (String d "")); [done|]. cbn [sall]. by rewrite H2.
Qed.

(** What the code computes is the form, and the form is one. *)
Lemma NormalizeURL_has_form b u : address_form (b_mPlatform b =? 1) u (NormalizeURL b u).
Proof.
  unfold NormalizeURL. rewrite spaces_spec.
  assert (Hd : (if b_mPlatform b =? 1 then drive_match (lower_protocol u) else None) = None ->
    address_form (b_mPlatform b =? 1) u (spaces (lower_protocol u))).
  { intros Hn. destruct (colon_cases u) as [Hu|(p & t & -> & Hp)].
    - rewrite lower_protocol_none by done. by constructor.
    - rewrite lower_protocol_colon, !spaces_app by done. apply form_protocol; [done|]. intros Hw d rest Ho.
      rewrite Hw in Hn. apply on_drive_lower, drive_match_on_drive in Ho. congruence. }
  destruct (b_mPlatform b =? 1) eqn:Hw; [|by apply Hd].
  destruct (drive_match (lower_protocol u)) as [[x rest]|] eqn:E; [|by apply Hd].
  apply drive_match_letter in E as (d & -> & Ho). pose proof Ho as (a & Ha & _). rewrite (spaces_drive d rest a Ha).
  apply form_drive; [done|]. by apply on_drive_lower.
Qed.
Lemma address_form_unique w u n1 n2 : address_form w u n1 -> address_form w u n2 -> n1 = n2.
Proof.
  assert (Hcp : forall p t, sall (not_char ":") (p +++ ":" +++ t) = false).
  { intros p t. rewrite sall_app. change (sall (not_char ":") (":" +++ t)) with false. apply andb_false_r. }
  intros [v Hv|p t Hp Hn|v d rest Hw Ho] H2.
  - inversion H2 as [|p t|? d rest Hw Ho]; subst; [done|by rewrite Hcp in Hv|].
    apply on_drive_colon in Ho as (p & t & -> & _). by rewrite Hcp in Hv.
  - inversion H2 as [v Hv|q v Hq _ E|? d rest Hw Ho]; subst; [by rewrite Hcp in Hv| |by apply Hn in Ho].
    by apply colon_first in E as [-> ->].
  - inversion H2 as [? Hv|q y Hq Hn|? d' rest' _ Ho']; subst.
    + apply on_drive_colon in Ho as (p & t & -> & _). by rewrite Hcp in Hv.
    + by apply Hn in Ho.
    + apply drive_match_on_drive in Ho, Ho'. rewrite Ho in Ho'. by injection Ho' as -> ->.
Qed.

(** C30. Addresses are compared in one form, and this is it: spaces written %20, the
    protocol - what stands before the first colon - in lower case, and on Windows
    [file:///], the letter, a colon and a slash before the rest of a file on a drive,
    whatever the number of slashes and with a bar for the colon; nothing else changes.
    The form is stable: an address in it stays as it is. *)
Theorem NormalizeURL_spec b u :
  (forall n, NormalizeURL b u = n <-> address_form (b_mPlatform b =? 1) u n) /\
  sall (not_char " ") (NormalizeURL b u) = true /\
  NormalizeURL b (NormalizeURL b u) = NormalizeURL b u.
Proof.
  split; [|split; [unfold NormalizeURL; rewrite spaces_spec; apply spaces_no_space|apply NormalizeURL_twice]].
  intros n. split; [intros <-; apply NormalizeURL_has_form|]. intros H. eapply address_form_unique; [apply NormalizeURL_has_form|done].
Qed.

(** A file on a drive of Windows, as two browsers write it. *)
Example drive_forms :
  address_form true "FILE://C|/My Help/a.htm" "file:///C:/My%20Help/a.htm" /\
  address_form true "file:///C:/My Help/a.htm" "file:///C:/My%20Help/a.htm".
Proof.
  split; apply (form_drive _ _ "C" "My Help/a.htm"); try done; [exists "FILE://C|/"|exists "file:///C:/"]; (split; [|done]).
  - by exists "FILE:", "/", "|"%char.
  - by exists "file:", "//", ":"%char.
Qed.
