(* ===== verification/HelpFavorites.v ===== *)
(** * The favourites of the help viewer (wwhelp/wwhimpl/js/scripts/favorite.js)
    The pages that the reader has recorded, the panel that shows them, and the cookie in
    which they are kept, with the contexts of the books that were open then.  [None] is
    an exception of the language. *)
From S2P Require Import Prelude JsString JsNum JsVal JsDate HelpString HelpBooks HelpBrowser HelpOutline HelpContents.
Open Scope Z_scope.

(** ** [WWHFavorites_Object] *)
Record favorite := Favorite { v_mBookIndex : Z; v_mFileIndex : Z; v_mTitle : string }.
Record favorites := Favorites {
  v_mbPanelInitialized : bool; mFavorites : list favorite; mCurrent : favorite; mDisplayIndex : Z; v_mHTMLSegment : buffer
}.
Definition no_favorite : favorite := Favorite (-1) (-1) "".
Definition new_favorites : favorites := Favorites false [] no_favorite 0 new_buffer.
Definition set_favorites (l : list favorite) (w : favorites) : favorites :=
  Favorites (v_mbPanelInitialized w) l (mCurrent w) (mDisplayIndex w) (v_mHTMLSegment w).
Definition set_current (c : favorite) (w : favorites) : favorites :=
  Favorites (v_mbPanelInitialized w) (mFavorites w) c (mDisplayIndex w) (v_mHTMLSegment w).
Definition set_drawn (ready : bool) (i : Z) (b : buffer) (w : favorites) : favorites :=
  Favorites ready (mFavorites w) (mCurrent w) i b.
(** Messages and settings of the panel. *)
Record look := Look {
  mFavoritesRemoveButtonLabel : string; mFavoritesAddButtonLabel : string;
  k_mFontStyle : string; k_mHighlightColor : string; k_mEnabledColor : string
}.

Section panel.
Context (books : book_list) (v : viewer) (msg : look).

(** A text that is written into the buffer from its start, and read. *)
Definition written (l : list string) (w : favorites) : string * favorites :=
  let '(t, b) := fGetBuffer (fold_left (fun b t => fAppend t b) l (fReset (v_mHTMLSegment w))) in
  (t, set_drawn (v_mbPanelInitialized w) (mDisplayIndex w) b w).

(** ** The list *)
Definition same_page (b f : Z) (e : favorite) : bool := (v_mBookIndex e =? b) && (v_mFileIndex e =? f).
Definition Recorded (b f : Z) (w : favorites) : bool := existsb (same_page b f) (mFavorites w).
(** Whether the books have a page; [None] when the script throws. *)
Definition known_page (b f : Z) : option bool :=
  if (0 <=? b) && (0 <=? f) && (b <? Z.of_nat (length (mBookList books))) then
    bk ← GetBook books b; Some (f <? file_count bk)
  else Some false.
Definition ClearCurrent (w : favorites) : favorites := set_current no_favorite w.
Definition SetCurrent (b f : Z) (w : favorites) : option favorites :=
  known ← known_page b f;
  if known : bool then
    t ← BookIndexFileIndexToTitle books b f; Some (set_current (Favorite b f t) w)
  else Some (ClearCurrent w).
Definition Add (b f : Z) (w : favorites) : option favorites :=
  if (0 <=? b) && (0 <=? f) && negb (Recorded b f w) then
    known ← known_page b f;
    if known : bool then
      t ← BookIndexFileIndexToTitle books b f; Some (set_favorites (mFavorites w ++ [Favorite b f t]) w)
    else Some w
  else Some w.
(** [WWHFavorites_Remove]: each element behind removed ones is moved by their number. *)
Definition remove_step (b f : Z) (s : list favorite * nat) (i : nat) : list favorite * nat :=
  let '(a, offset) := s in
  match a !! i with
  | Some e => if same_page b f e then (a, S offset) else (<[(i - offset)%nat := e]> a, offset)
  | None => s
  end.
Definition Remove (b f : Z) (w : favorites) : favorites :=
  if (0 <=? b) && (0 <=? f) then
    let l := mFavorites w in
    let '(a, offset) := fold_left (remove_step b f) (seq 0 (length l)) (l, O) in
    set_favorites (take (length l - offset) a) w
  else w.

(** ** The cookie *)

(** The contexts of the books, separated by commas once there is something to separate. *)
Definition contexts_text : string :=
  fold_left (fun t b => (if 0 <? slen t then t +++ "," else t) +++ default "null" (mContext b)) (mBookList books) "".
Definition favorites_text (l : list favorite) : string :=
  fold_left (fun t e => (if 0 <? slen t then t +++ "," else t) +++ Z_to_string (v_mBookIndex e) +++ ":" +++ Z_to_string (v_mFileIndex e)) l "".
(** From the books' numbers in the cookie to those of now. *)
Definition context_indices (contexts : list string) : gmap Z Z :=
  list_to_map (omap (fun '(i, c) => let n := GetContextIndex books c in if 0 <=? n then Some (Z.of_nat i, n) else None) (imap pair contexts)).
(** An entry of the cookie. *)
Definition read_entry (indices : gmap Z Z) (text : string) : option (option favorite) :=
  let parts := js_split text ":" in
  let b := parseInt (default "" (head parts)) in
  let f := t ← parts !! 1%nat; parseInt t in
  match b ← b; indices !! b with
  | Some n =>
      bk ← GetBook books n;
      match f with
      | Some f => if f <? file_count bk then t ← BookIndexFileIndexToTitle books n f; Some (Some (Favorite n f t)) else Some None
      | None => Some None
      end
  | None => Some None
  end.
(** The favourites of a cookie. *)
Definition read_text (text : option string) : option (list favorite) :=
  match text with
  | Some t =>
      match js_split t nl with
      | [contexts; entries] => omap id <$> mapM (read_entry (context_indices (js_split contexts ","))) (js_split entries ",")
      | _ => Some []
      end
  | None => Some []
  end.

Section stored.
Context `{Jar} (now : date) (br : browser) (mFavoritesCookie : string) (mCookiesDaysToExpire : Z).
Definition ReadCookie (j : jar) (w : favorites) : option favorites :=
  l ← read_text (GetCookie mFavoritesCookie j); Some (set_favorites l w).
Definition WriteCookie (w : favorites) (j : jar) : jar :=
  SetCookie now br mFavoritesCookie (contexts_text +++ nl +++ favorites_text (mFavorites w)) (Some mCookiesDaysToExpire) j.
Definition ClickedAdd (w : favorites) (j : jar) : option (favorites * jar) :=
  w ← Add (v_mBookIndex (mCurrent w)) (v_mFileIndex (mCurrent w)) w; Some (w, WriteCookie w j).
Definition ClickedRemove (w : favorites) (j : jar) : favorites * jar :=
  let w := Remove (v_mBookIndex (mCurrent w)) (v_mFileIndex (mCurrent w)) w in (w, WriteCookie w j).
(** [WWHFavorites_InitBodyHTML] *)
Definition InitBodyHTML (j : jar) (w : favorites) : option (string * favorites) :=
  let b := fAppend ("<h2>" +++ mInitializingMessage v +++ line "</h2>") (fReset (v_mHTMLSegment w)) in
  w ← ReadCookie j w;
  let '(t, b) := fGetBuffer b in
  Some (t, set_drawn true (mDisplayIndex w) b w).
End stored.

(** ** The panel *)
Definition InitHeadHTML : string := "".
Definition div_rule : list string :=
  [line "  div"; line "  {"; line "    margin-top: 1pt;"; line "    margin-bottom: 1pt;"; line ("    " +++ k_mFontStyle msg +++ ";"); line "  }"].
Definition NavigationHeadHTML (w : favorites) : string * favorites :=
  written ([line (qq "<style type=`text/css`>"); line " <!--"] ++ div_rule ++ [line " -->"; line "</style>"]) w.
(** The form with the current page, when it is known: to add it, or to remove it. *)
Definition NavigationBodyHTML (w : favorites) : string * favorites :=
  let c := mCurrent w in
  written
    (if (0 <=? v_mBookIndex c) && (0 <=? v_mFileIndex c) then
       let '(submit, label) :=
         if Recorded (v_mBookIndex c) (v_mFileIndex c) w
         then (qq " onsubmit=`WWHFrame.WWHFavorites.fClickedRemove();`", mFavoritesRemoveButtonLabel msg)
         else (qq " onsubmit=`WWHFrame.WWHFavorites.fClickedAdd();`", mFavoritesAddButtonLabel msg) in
       [qq "<form name=`WWHFavoritesForm`" +++ submit +++ line ">";
        line (qq " <table width=`100%` border=`0` cellpadding=`0` cellspacing=`4px`>"); line "  <tr>"; line (qq "   <td width=`100%`>");
        line (qq "    <table width=`100%` border=`1` cellpadding=`0` cellspacing=`0`>"); line "     <tr>"; line (qq "      <td width=`100%`>");
        "<div>"; (if 0 <? slen (v_mTitle c) then v_mTitle c else "&#160;"); "</div>"; line "      </td>"; line "     </tr>"; line "    </table>"; line "   </td>";
        line "   <td>"; qq "    <input type=`submit` value=`" +++ label +++ line (qq "` />"); line "   </td>"; line "  </tr>"; line " </table>"; line "</form>"]
     else []) w.
Definition HeadHTML (w : favorites) : string * favorites :=
  written
    ([line (qq "<style type=`text/css`>"); line " <!--";
      line "  a:active"; line "  {"; line "    text-decoration: none;"; line ("    background-color: " +++ k_mHighlightColor msg +++ ";"); line "  }";
      line "  a:hover"; line "  {"; line "    text-decoration: underline;"; line ("    color: " +++ k_mEnabledColor msg +++ ";"); line "  }";
      line "  a"; line "  {"; line "    text-decoration: none;"; line ("    color: " +++ k_mEnabledColor msg +++ ";"); line "  }"]
     ++ div_rule ++
     [line " -->"; line "</style>"; line (qq "<script type=`text/javascript` language=`JavaScript1.2`>"); line " <!--";
      accessor "fC(ParamEntryID)" "WWHFrame.WWHFavorites.fClickedEntry(ParamEntryID);"; nl;
      accessor ("fS(ParamEntryID," +++ nl +++ "               ParamEvent)") "WWHFrame.WWHJavaScript.mPanels.mPopup.fShow(ParamEntryID, ParamEvent);"; nl;
      accessor "fH()" "WWHFrame.WWHJavaScript.mPanels.mPopup.fHide();"; line " // -->"; line "</script>"]) w.
Definition StartHTMLSegments (w : favorites) : string * favorites :=
  ("", set_drawn (v_mbPanelInitialized w) 0 (v_mHTMLSegment w) w).
Definition GetPopupAction (i : Z) : string :=
  if mbHoverEnabled v then
    qq " onmouseover=`fS(" +++ Z_to_string i +++ ", " +++ EventString v +++ qq ");`" +++ qq " onmouseout=`fH();`"
  else "".
(** One favourite, as its parts are written. *)
Definition entry_html (i : Z) (e : favorite) : list string :=
  let link := qq "<a href=`javascript:fC(" +++ Z_to_string i +++ qq ");`" in
  let title := if mbAccessible v then qq " title=`" +++ EscapeHTML (v_mTitle e) +++ qq "`" else "" in
  [qq "<table width=`100%` border=`0` cellpadding=`0` cellspacing=`2`>"; "<tr>"; qq "<td width=`17` valign=`middle`>"; link +++ ">";
   qq "<img border=`0` src=`" +++ mHelpURLPrefix v +++ qq "wwhelp/wwhimpl/common/images/doc.gif` width=`17` height=`17` alt=``>"; "</a>"; "</td>";
   qq "<td width=`100%` align=`left` valign=`middle`>"; "<div>"; link +++ GetPopupAction i +++ title +++ ">"; v_mTitle e; "</a>"; "</div>"; "</td>"; "</tr>";
   line "</table>"].
(** [WWHFavorites_AdvanceHTMLSegment]: all that is left, in one segment. *)
Fixpoint draw_entries (i : Z) (l : list favorite) (b : buffer) : buffer :=
  match l with [] => b | e :: l => draw_entries (i + 1) l (fold_left (fun b t => fAppend t b) (entry_html i e) b) end.
Definition AdvanceHTMLSegment (w : favorites) : bool * favorites :=
  let l := drop (Z.to_nat (mDisplayIndex w)) (mFavorites w) in
  let b := draw_entries (mDisplayIndex w) l (fReset (v_mHTMLSegment w)) in
  (0 <? fSize b, set_drawn (v_mbPanelInitialized w) (mDisplayIndex w + Z.of_nat (length l)) b w).
Definition GetHTMLSegment (w : favorites) : string * favorites :=
  let '(t, b) := fGetBuffer (v_mHTMLSegment w) in (t, set_drawn (v_mbPanelInitialized w) (mDisplayIndex w) b w).
Definition EndHTMLSegments : string := "".

(** What the panel asks of the rest of the viewer. *)
Inductive favorites_effect := FocusNavigation | HideHover | ShowDocument (url : string).
Definition PanelNavigationLoaded : list favorites_effect := [FocusNavigation].
Definition PanelViewLoaded : list favorites_effect := [].
Definition HoverTextTranslate (i : Z) (w : favorites) : string :=
  if (0 <=? i) && (i <? Z.of_nat (length (mFavorites w))) then default "" (v_mTitle <$> at_index (mFavorites w) i) else "".
Definition ClickedEntry (i : Z) (w : favorites) : option (list favorites_effect) :=
  e ← at_index (mFavorites w) i;
  url ← GetBookIndexFileIndexURL books v (v_mBookIndex e) (Some (v_mFileIndex e)) None;
  Some [HideHover; ShowDocument url].
End panel.
