(* ===== verification/HelpFavoritesKept.v ===== *)
(** * Favourites that are kept
    The list under clicks, and the list that a later session reads from the cookie, when
    the books may have changed their places. *)
From S2P Require Import Prelude JsString JsNum JsVal JsDate HelpString HelpBooks HelpPages HelpBrowser HelpCookies HelpOutline HelpContents HelpFavorites.
Open Scope Z_scope.
#[local] Set Warnings "-clear-no-such-hyp".

(** ** Removing *)
Section remove.
Context (b f : Z) (l : list favorite).
Abbreviation keep := (fun e => negb (same_page b f e)).
Definition kept (i : nat) : list favorite := List.filter keep (take i l).
Lemma kept_length i : (length (kept i) <= i)%nat.
Proof. unfold kept. etrans; [apply List.filter_length_le|]. rewrite length_take. lia. Qed.
Lemma kept_S i e : l !! i = Some e -> kept (S i) = kept i ++ (if same_page b f e then [] else [e]).
Proof. intros He. unfold kept. rewrite (take_S_r _ _ _ He), List.filter_app. cbn. by destruct (same_page b f e). Qed.
(** What the loop has done before index [i]: the elements that stay are in front, those
    from [i] on are where they were. *)
Lemma remove_elements i : (i <= length l)%nat ->
  exists a, fold_left (remove_step b f) (seq 0 i) (l, O) = (a, (i - length (kept i))%nat) /\ length a = length l /\
    take (length (kept i)) a = kept i /\ drop i a = drop i l.
Proof.
  induction i as [|i IH]; intros Hi; [exists l; by rewrite Nat.sub_0_l|]. destruct (IH ltac:(lia)) as (a & Ea & Hl & Ht & Hd). clear IH.
  rewrite seq_S, fold_left_app, Ea. cbn [fold_left Nat.add]. destruct (lookup_lt_is_Some_2 l i ltac:(lia)) as [e He].
  assert (Hae : a !! i = Some e).
  { assert (E : drop i a !! O = drop i l !! O) by (by rewrite Hd). by rewrite !lookup_drop, Nat.add_0_r, He in E. }
  unfold remove_step. rewrite Hae, (kept_S i e He). assert (Hk := kept_length i). assert (Hda : drop (S i) a = drop (S i) l).
  { apply (f_equal (drop 1)) in Hd. by rewrite !drop_drop, Nat.add_1_r in Hd. }
  destruct (same_page b f e).
  - exists a. rewrite app_nil_r. split_and!; try done. f_equal. lia.
  - replace (i - (i - length (kept i)))%nat with (length (kept i)) by lia. exists (<[length (kept i) := e]> a). rewrite length_app, length_insert. cbn [length]. split_and!; try done.
    + f_equal. lia.
    + rewrite Nat.add_1_r. rewrite (take_S_r _ _ e) by (apply list_lookup_insert_eq; lia). rewrite take_insert_ge by lia. by rewrite Ht.
    + by rewrite drop_insert_lt by lia.
Qed.
End remove.
Lemma Remove_spec b f w : 0 <= b -> 0 <= f -> Remove b f w = set_favorites (List.filter (fun e => negb (same_page b f e)) (mFavorites w)) w.
Proof.
  intros Hb Hf. unfold Remove. assert (E : (0 <=? b) && (0 <=? f) = true) by (apply andb_true_iff; split; by apply Z.leb_le). rewrite E.
  destruct (remove_elements b f (mFavorites w) (length (mFavorites w)) (le_n _)) as (a & Ea & Hl & Ht & _). rewrite Ea.
  assert (Hk : kept b f (mFavorites w) (length (mFavorites w)) = List.filter (fun e => negb (same_page b f e)) (mFavorites w)) by (unfold kept; by rewrite firstn_all).
  assert (Hn := kept_length b f (mFavorites w) (length (mFavorites w))). f_equal. rewrite Hk in *.
  replace (length (mFavorites w) - (length (mFavorites w) - length (List.filter (λ e : favorite, negb (same_page b f e)) (mFavorites w))))%nat
    with (length (List.filter (λ e : favorite, negb (same_page b f e)) (mFavorites w))) by lia. exact Ht.
Qed.

(** ** The text of the cookie *)
Definition joined (t s : string) : string := (if 0 <? slen t then t +++ "," else t) +++ s.
Lemma fold_left_map {A B C} (f : C -> B -> C) (g : A -> B) l : forall c, fold_left (fun c a => f c (g a)) l c = fold_left f (map g l) c.
Proof. induction l as [|a l IH]; intros c; [done|]. apply IH. Qed.
Lemma joined_texts l : forall t, 0 < slen t -> Forall (fun s => 0 < slen s) l ->
  fold_left joined l t = join "," (t :: l).
Proof.
  induction l as [|s l IH]; intros t Ht Hl; [done|]. apply Forall_cons in Hl as [Hs Hl]. cbn [fold_left]. unfold joined at 2. destruct (Z.ltb_spec 0 (slen t)); [|lia].
  assert (Hpos : 0 < slen ((t +++ ",") +++ s)) by (rewrite slen_app; assert (H' := slen_nonneg (t +++ ",")); lia). rewrite (IH _ Hpos Hl).
  cbn [join]. destruct l; by rewrite ?sapp_assoc.
Qed.
Lemma joined_list l : Forall (fun s => 0 < slen s) l ->
  fold_left joined l "" = join "," l.
Proof.
  intros H. destruct H as [|s l Hs Hl]; [done|]. cbn [fold_left]. change (joined "" s) with s. by apply joined_texts.
Qed.
Definition entry_text (e : favorite) : string := Z_to_string (v_mBookIndex e) +++ ":" +++ Z_to_string (v_mFileIndex e).
Lemma entry_text_pos e : 0 < slen (entry_text e).
Proof. unfold entry_text. rewrite !slen_app. change (slen ":") with 1. assert (H1 := slen_nonneg (Z_to_string (v_mBookIndex e))). assert (H2 := slen_nonneg (Z_to_string (v_mFileIndex e))). lia. Qed.
Lemma favorites_text_join l : favorites_text l = join "," (map entry_text l).
Proof.
  rewrite <- joined_list.
  - exact (fold_left_map joined entry_text l "").
  - apply Forall_forall. intros s (e & -> & _)%list_elem_of_fmap. apply entry_text_pos.
Qed.

(** A context that can be written: not empty, and without the characters that separate. *)
Definition context_ok (b : book) : Prop := exists c, mContext b = Some c /\ c <> "" /\ sall (not_char ",") c = true /\ sall (not_char (Ascii.ascii_of_nat 10)) c = true.
Definition context_of (b : book) : string := default "null" (mContext b).
Lemma contexts_text_join books : Forall context_ok (mBookList books) -> contexts_text books = join "," (map context_of (mBookList books)).
Proof.
  intros H. rewrite <- joined_list.
  - exact (fold_left_map joined context_of (mBookList books) "").
  - apply Forall_forall. intros s (b & -> & Hb)%list_elem_of_fmap. rewrite Forall_forall in H. destruct (H b Hb) as (c & Hc & Hne & _).
    unfold context_of. rewrite Hc. cbn. unfold slen. destruct c; [done|cbn; lia].
Qed.
Lemma sall_join (P : Ascii.ascii -> bool) sep l : sall P sep = true -> Forall (fun s => sall P s = true) l -> sall P (join sep l) = true.
Proof.
  intros Hp. induction 1 as [|s l Hs Hl IH]; [done|]. destruct l as [|t l]; [done|]. cbn [join] in *. by rewrite !sall_app, Hs, Hp, IH.
Qed.

(** ** Reading it in another session *)

(** The favourite as a page of the books of now, if there is one. *)
Definition translate (books books' : book_list) (e : favorite) : option favorite :=
  b ← GetBook books (v_mBookIndex e);
  let n := GetContextIndex books' (context_of b) in
  if 0 <=? n then
    bk ← GetBook books' n;
    if v_mFileIndex e <? file_count bk then t ← BookIndexFileIndexToTitle books' n (v_mFileIndex e); Some (Favorite n (v_mFileIndex e) t) else None
  else None.
(** The table of contexts has numbers of books. *)
Definition contexts_known (books : book_list) : Prop :=
  forall c n, mBookContextToIndex books !! c = Some n -> 0 <= n < Z.of_nat (length (mBookList books)).
(** A page of the books. *)
Definition on_shelf (books : book_list) (e : favorite) : Prop :=
  exists b, GetBook books (v_mBookIndex e) = Some b /\ 0 <= v_mFileIndex e < file_count b /\
    BookIndexFileIndexToTitle books (v_mBookIndex e) (v_mFileIndex e) = Some (v_mTitle e).
Lemma on_shelf_nonneg books e : on_shelf books e -> 0 <= v_mBookIndex e /\ 0 <= v_mFileIndex e.
Proof. intros (b & Hb & Hf & _). split; [|lia]. unfold GetBook, at_index in Hb. destruct (Z.ltb_spec (v_mBookIndex e) 0); [done|lia]. Qed.
Lemma at_index_range {A} (l : list A) i : 0 <= i < Z.of_nat (length l) -> is_Some (at_index l i).
Proof. intros H. unfold at_index. destruct (Z.ltb_spec i 0); [lia|]. apply lookup_lt_is_Some. lia. Qed.
Lemma title_known books n f b : GetBook books n = Some b -> 0 <= f < file_count b -> is_Some (BookIndexFileIndexToTitle books n f).
Proof. intros Hb Hf. unfold BookIndexFileIndexToTitle. rewrite Hb. cbn. unfold FileIndexToTitle. apply fmap_is_Some, at_index_range. exact Hf. Qed.

(** A table of the positions that have a value. *)
Lemma numbered_lookup {A B} (g : A -> option B) l : forall k b, 0 <= b ->
  (list_to_map (omap (fun p : nat * A => (fun x => (Z.of_nat (fst p), x)) <$> g (snd p)) (imap (fun i c => ((k + i)%nat, c)) l)) : gmap Z B) !! b
  = if Z.of_nat k <=? b then l !! (Z.to_nat b - k)%nat ≫= g else None.
Proof.
  induction l as [|a l IH]; intros k b Hb; [cbn; rewrite lookup_empty; by destruct (Z.of_nat k <=? b)|].
  rewrite imap_cons. cbn [omap list_omap fst snd]. rewrite Nat.add_0_r.
  assert (E : imap ((fun (i : nat) c => ((k + i)%nat, c)) ∘ S) l = imap (fun (i : nat) c => ((S k + i)%nat, c)) l) by (apply imap_ext; intros i c _; cbn; f_equal; lia).
  rewrite E. assert (Hs := IH (S k) b Hb). clear IH E. destruct (Z.leb_spec (Z.of_nat k) b) as [Hk|Hk].
  - destruct (decide (b = Z.of_nat k)) as [->|Hne].
    + rewrite Nat2Z.id, Nat.sub_diag. cbn [lookup list_lookup mbind option_bind]. destruct (Z.leb_spec (Z.of_nat (S k)) (Z.of_nat k)); [lia|].
      destruct (g a) as [x|]; cbn [fmap option_fmap option_map]; [cbn [list_to_map foldr uncurry fst snd]; by rewrite lookup_insert_eq|exact Hs].
    + destruct (Z.leb_spec (Z.of_nat (S k)) b); [|lia]. replace (Z.to_nat b - k)%nat with (S (Z.to_nat b - S k)) by lia. cbn [lookup list_lookup].
      destruct (g a) as [x|]; cbn [fmap option_fmap option_map]; [|exact Hs]. cbn [list_to_map foldr uncurry fst snd]. rewrite lookup_insert_ne by done. exact Hs.
  - destruct (Z.leb_spec (Z.of_nat (S k)) b); [lia|].
    destruct (g a) as [x|]; cbn [fmap option_fmap option_map]; [|exact Hs]. cbn [list_to_map foldr uncurry fst snd]. rewrite lookup_insert_ne by lia. exact Hs.
Qed.
Definition known_context (books : book_list) (c : string) : option Z := let n := GetContextIndex books c in if 0 <=? n then Some n else None.
Lemma context_indices_lookup books l b : 0 <= b -> context_indices books l !! b = l !! Z.to_nat b ≫= known_context books.
Proof.
  intros Hb. assert (E := numbered_lookup (known_context books) l 0 b Hb). destruct (Z.leb_spec (Z.of_nat 0) b); [|lia]. rewrite Nat.sub_0_r in E.
  rewrite <- E. unfold context_indices. change (imap (fun (i : nat) c => ((0 + i)%nat, c)) l) with (imap pair l). f_equal. f_equal.
  apply list_omap_ext, Forall_Forall2_diag, Forall_forall. intros [i c] _. cbn. unfold known_context. by destruct (0 <=? GetContextIndex books c).
Qed.
Lemma nonneg_plain c z : is_digit c = false -> 0 <= z -> sall (not_char c) (Z_to_string z) = true.
Proof. intros Hc Hz. apply digits_not_char; [done|]. rewrite Z_to_string_nonneg by done. by apply nat_digits_digits. Qed.
Section read.
Context (books books' : book_list) (Hok : Forall context_ok (mBookList books)) (Hkn : contexts_known books').
Lemma context_book c : 0 <= GetContextIndex books' c -> is_Some (GetBook books' (GetContextIndex books' c)).
Proof.
  unfold GetContextIndex. intros H. apply at_index_range. destruct (mBookContextToIndex books' !! (c +++ "~")) as [n|] eqn:E; cbn in *; [by apply (Hkn (c +++ "~"))|lia].
Qed.
Lemma read_entry_written e : on_shelf books e ->
  read_entry books' (context_indices books' (map context_of (mBookList books))) (entry_text e) = Some (translate books books' e).
Proof.
  intros He. destruct (on_shelf_nonneg _ _ He) as [Hb Hf]. unfold read_entry, entry_text.
  change (":" +++ Z_to_string (v_mFileIndex e)) with (String ":" (Z_to_string (v_mFileIndex e))).
  rewrite js_split_char_cons by (by apply nonneg_plain). rewrite js_split_char_none by (by apply nonneg_plain).
  cbn [head default from_option id lookup list_lookup mbind option_bind]. rewrite !parseInt_Z_to_string by done. cbn [mbind option_bind].
  rewrite context_indices_lookup by done. destruct He as (b & Eb & _). unfold translate. rewrite Eb. cbn [mbind option_bind].
  unfold GetBook, at_index in Eb. destruct (Z.ltb_spec (v_mBookIndex e) 0); [lia|]. rewrite list_lookup_fmap, Eb. cbn [fmap option_fmap option_map mbind option_bind].
  unfold known_context. destruct (Z.leb_spec 0 (GetContextIndex books' (context_of b))) as [Hn|Hn]; [|done].
  destruct (context_book _ Hn) as [bk Ebk]. cbn [mbind option_bind]. rewrite Ebk. cbn [mbind option_bind].
  destruct (Z.ltb_spec (v_mFileIndex e) (file_count bk)); [|done].
  destruct (title_known _ _ (v_mFileIndex e) _ Ebk ltac:(lia)) as [t Et]. by rewrite Et.
Qed.
Lemma read_entries l : Forall (on_shelf books) l ->
  mapM (read_entry books' (context_indices books' (map context_of (mBookList books)))) (map entry_text l) = Some (map (translate books books') l).
Proof.
  induction 1 as [|e l He Hl IH]; [done|]. cbn [map mapM]. by rewrite (read_entry_written e He), IH.
Qed.
Lemma context_text_plain (P : Ascii.ascii -> bool) :
  (forall b, context_ok b -> sall P (context_of b) = true) -> Forall (fun s => sall P s = true) (map context_of (mBookList books)).
Proof. intros H. apply Forall_map. apply (Forall_impl _ _ _ Hok). intros b Hb. by apply H. Qed.
Lemma context_plain b : context_ok b -> sall (not_char ",") (context_of b) = true /\ sall (not_char (Ascii.ascii_of_nat 10)) (context_of b) = true.
Proof. intros (c & E & _ & H1 & H2). unfold context_of. by rewrite E. Qed.
(** What is written is read as the same pages, where the books have them. *)
Lemma read_written l : mBookList books <> [] -> Forall (on_shelf books) l ->
  read_text books' (Some (contexts_text books +++ nl +++ favorites_text l)) = Some (omap (translate books books') l).
Proof.
  intros Hne Hl. unfold read_text. rewrite contexts_text_join by done. rewrite favorites_text_join.
  assert (Hnl : forall a b : string, sall (not_char (Ascii.ascii_of_nat 10)) a = true -> sall (not_char (Ascii.ascii_of_nat 10)) b = true -> js_split (a +++ nl +++ b) nl = [a; b]).
  { intros a b Ha Hb. change (nl +++ b) with (String (Ascii.ascii_of_nat 10) b). change nl with (String (Ascii.ascii_of_nat 10) ""). rewrite (js_split_char_cons _ a) by done. by rewrite js_split_char_none. }
  rewrite Hnl.
  - rewrite (js_split_join ","%char).
    + destruct l as [|e l]; [done|]. rewrite (js_split_join ","%char).
      * rewrite read_entries by done. cbn [fmap option_fmap option_map]. f_equal. clear. induction (e :: l) as [|x k IH]; [done|]. cbn. rewrite IH. by destruct (translate books books' x).
      * apply Forall_map. apply (Forall_impl _ _ _ Hl). intros x [H1 H2]%on_shelf_nonneg. unfold entry_text. rewrite !sall_app. by rewrite !nonneg_plain.
      * done.
    + apply context_text_plain. intros b Hb. by apply context_plain.
    + by destruct (mBookList books).
  - apply sall_join; [done|]. apply context_text_plain. intros b Hb. by apply context_plain.
  - apply sall_join; [done|]. apply Forall_map. apply (Forall_impl _ _ _ Hl). intros x [H1 H2]%on_shelf_nonneg. unfold entry_text. rewrite !sall_app. by rewrite !nonneg_plain.
Qed.
End read.

(** ** A session *)

(** What the reader and the viewer do to the panel: a page is shown, a page that is in no
    book is shown, and the button. *)
Inductive favorites_action := Visit (b f : Z) | LeaveBooks | ClickAdd | ClickRemove.
Definition is_click (a : favorites_action) : bool := match a with ClickAdd | ClickRemove => true | _ => false end.
Section session.
Context (books : book_list) `{Jar} (now : date) (br : browser) (cookie_name : string) (days : Z).
Definition favorites_do (a : favorites_action) (s : favorites * jar) : option (favorites * jar) :=
  let '(w, j) := s in
  match a with
  | Visit b f => w ← SetCurrent books b f w; Some (w, j)
  | LeaveBooks => Some (ClearCurrent w, j)
  | ClickAdd => ClickedAdd books now br cookie_name days w j
  | ClickRemove => Some (ClickedRemove books now br cookie_name days w j)
  end.
Fixpoint favorites_run (l : list favorites_action) (s : favorites * jar) : option (favorites * jar) :=
  match l with [] => Some s | a :: l => s ← favorites_do a s; favorites_run l s end.

(** The same with pages only: the page that is shown and the pages that are recorded. *)
Definition page : Type := Z * Z.
Definition page_exists (p : page) : bool :=
  (0 <=? fst p) && (0 <=? snd p) && match GetBook books (fst p) with Some b => snd p <? file_count b | None => false end.
Definition pages_do (a : favorites_action) (s : option page * list page) : option page * list page :=
  let '(c, l) := s in
  match a, c with
  | Visit b f, _ => (if page_exists (b, f) then Some (b, f) else None, l)
  | LeaveBooks, _ => (None, l)
  | ClickAdd, Some p => (c, if decide (p ∈ l) then l else l ++ [p])
  | ClickRemove, Some p => (c, List.filter (fun q => negb (bool_decide (q = p))) l)
  | _, None => s
  end.
Definition pages_run (l : list favorites_action) (s : option page * list page) : option page * list page := fold_left (fun s a => pages_do a s) l s.
Definition page_of (e : favorite) : page := (v_mBookIndex e, v_mFileIndex e).
Definition current_page (w : favorites) : option page := if 0 <=? v_mBookIndex (mCurrent w) then Some (page_of (mCurrent w)) else None.
Definition pages_of (w : favorites) : option page * list page := (current_page w, map page_of (mFavorites w)).
(** The favourites are pages of the books, with their titles, and so is the current page. *)
Definition well_kept (w : favorites) : Prop :=
  Forall (on_shelf books) (mFavorites w) /\ (mCurrent w = no_favorite \/ on_shelf books (mCurrent w)).

Lemma known_page_exists b f : known_page books b f = Some (page_exists (b, f)).
Proof.
  unfold known_page, page_exists. cbn [fst snd]. destruct (Z.leb_spec 0 b), (Z.leb_spec 0 f); try done. cbn [andb].
  destruct (Z.ltb_spec b (Z.of_nat (length (mBookList books)))) as [Hb|Hb].
  - destruct (at_index_range (mBookList books) b ltac:(lia)) as [x E]. fold (GetBook books b) in E. by rewrite E.
  - unfold GetBook, at_index. destruct (Z.ltb_spec b 0); [lia|]. by rewrite lookup_ge_None_2 by lia.
Qed.
Lemma page_exists_title b f : page_exists (b, f) = true -> exists t, BookIndexFileIndexToTitle books b f = Some t /\ on_shelf books (Favorite b f t) /\ 0 <= b /\ 0 <= f.
Proof.
  unfold page_exists. cbn [fst snd]. intros [[Hb Hf]%andb_true_iff E]%andb_true_iff. apply Z.leb_le in Hb, Hf. destruct (GetBook books b) as [x|] eqn:Ex; [|done].
  apply Z.ltb_lt in E. destruct (title_known books b f x Ex ltac:(lia)) as [t Et]. exists t. split_and!; try done. exists x. by split_and!.
Qed.
Lemma on_shelf_exists e : on_shelf books e -> page_exists (page_of e) = true.
Proof.
  intros He. destruct (on_shelf_nonneg _ _ He) as [Hb Hf]. destruct He as (b & Eb & Hr & _). unfold page_exists, page_of. cbn [fst snd]. rewrite Eb.
  apply andb_true_iff. split; [apply andb_true_iff; split; by apply Z.leb_le|apply Z.ltb_lt; lia].
Qed.
Lemma same_page_spec b f e : same_page b f e = bool_decide (page_of e = (b, f)).
Proof.
  unfold same_page, page_of. destruct (Z.eqb_spec (v_mBookIndex e) b), (Z.eqb_spec (v_mFileIndex e) f); cbn [andb]; case_bool_decide; congruence.
Qed.
Lemma Recorded_spec b f w : Recorded b f w = bool_decide ((b, f) ∈ map page_of (mFavorites w)).
Proof.
  unfold Recorded. induction (mFavorites w) as [|e l IH]; [done|]. cbn [existsb map]. rewrite IH, same_page_spec. rewrite (bool_decide_ext ((b, f) ∈ page_of e :: map page_of l) (page_of e = (b, f) \/ (b, f) ∈ map page_of l)).
  - by rewrite bool_decide_or.
  - rewrite elem_of_cons. split; intros [?|?]; auto.
Qed.
Lemma page_filter p l : map page_of (List.filter (fun e => negb (same_page (fst p) (snd p) e)) l) = List.filter (fun q => negb (bool_decide (q = p))) (map page_of l).
Proof.
  destruct p as [b f]. cbn [fst snd]. induction l as [|e l IH]; [done|]. cbn [List.filter map]. rewrite same_page_spec.
  repeat case_bool_decide; try congruence; cbn [negb map]; rewrite IH; done.
Qed.
Lemma current_cases w : well_kept w ->
  (mCurrent w = no_favorite /\ current_page w = None) \/
  (on_shelf books (mCurrent w) /\ 0 <= v_mBookIndex (mCurrent w) /\ 0 <= v_mFileIndex (mCurrent w) /\ current_page w = Some (page_of (mCurrent w))).
Proof.
  intros [_ [E|E]]; unfold current_page; [left; by rewrite E|right]. destruct (on_shelf_nonneg _ _ E). destruct (Z.leb_spec 0 (v_mBookIndex (mCurrent w))); [by split_and!|lia].
Qed.
Lemma Add_spec w : well_kept w -> exists w', Add books (v_mBookIndex (mCurrent w)) (v_mFileIndex (mCurrent w)) w = Some w' /\ well_kept w' /\ pages_of w' = pages_do ClickAdd (pages_of w).
Proof.
  intros Hw. unfold Add, pages_of. destruct (current_cases w Hw) as [[Ec E]|(Hc & Hb & Hf & E)].
  - rewrite Ec. exists w. rewrite E. by split_and!.
  - rewrite E. apply Z.leb_le in Hb as Hb', Hf. rewrite Hb', Hf, Recorded_spec. cbn [andb pages_do]. fold (page_of (mCurrent w)).
    destruct (decide (page_of (mCurrent w) ∈ map page_of (mFavorites w))) as [Hin|Hin].
    + rewrite bool_decide_eq_true_2 by done. cbn. exists w. by rewrite E.
    + rewrite bool_decide_eq_false_2 by done. cbn [negb]. rewrite known_page_exists. fold (page_of (mCurrent w)). rewrite on_shelf_exists by done. cbn [mbind option_bind].
      assert (Hc' := Hc). destruct Hc' as (x & _ & _ & Et). rewrite Et. cbn [mbind option_bind]. eexists. split; [done|]. cbn [set_favorites mFavorites]. split.
      * destruct Hw as [Hl Hcur]. split; [|done]. cbn. apply Forall_app. split; [done|]. apply Forall_singleton. by destruct (mCurrent w).
      * change (current_page (set_favorites (mFavorites w ++ [Favorite (v_mBookIndex (mCurrent w)) (v_mFileIndex (mCurrent w)) (v_mTitle (mCurrent w))]) w)) with (current_page w). rewrite E. by rewrite map_app.
Qed.
Lemma Remove_pages w : well_kept w -> let w' := Remove (v_mBookIndex (mCurrent w)) (v_mFileIndex (mCurrent w)) w in
  well_kept w' /\ pages_of w' = pages_do ClickRemove (pages_of w).
Proof.
  intros Hw. cbn zeta. unfold pages_of. destruct (current_cases w Hw) as [[Ec E]|(Hc & Hb & Hf & E)].
  - rewrite Ec. change (Remove (v_mBookIndex no_favorite) (v_mFileIndex no_favorite) w) with w. split; [done|]. by rewrite E.
  - rewrite Remove_spec, E by done. destruct Hw as [Hl Hcur]. split; [split; [|done]|].
    + cbn. apply Forall_forall. intros e [He _]%list_elem_of_In%List.filter_In. rewrite Forall_forall in Hl. apply Hl. by apply list_elem_of_In.
    + change (current_page (set_favorites (List.filter (fun e => negb (same_page (v_mBookIndex (mCurrent w)) (v_mFileIndex (mCurrent w)) e)) (mFavorites w)) w)) with (current_page w).
      rewrite E. cbn [pages_do]. f_equal. exact (page_filter (page_of (mCurrent w)) (mFavorites w)).
Qed.

Definition saved (w : favorites) (j : jar) : Prop :=
  GetCookie cookie_name j = Some (contexts_text books +++ nl +++ favorites_text (mFavorites w)).
(** One action: it never throws, it does to the pages what it says, and a click writes the
    cookie. *)
Lemma favorites_do_spec a w j : well_kept w -> exists w' j', favorites_do a (w, j) = Some (w', j') /\ well_kept w' /\
  pages_of w' = pages_do a (pages_of w) /\
  (if is_click a then j' = WriteCookie books now br cookie_name days w' j else j' = j /\ mFavorites w' = mFavorites w).
Proof.
  intros Hw. destruct a as [b f| | |]; cbn [favorites_do is_click].
  - unfold SetCurrent. rewrite known_page_exists. cbn [mbind option_bind]. destruct (page_exists (b, f)) eqn:Ep.
    + destruct (page_exists_title b f Ep) as (t & Et & Ht & Hb & Hf). rewrite Et. eexists _, _. split; [done|]. split_and!; try done.
      * destruct Hw as [Hl _]. split; [done|by right].
      * unfold pages_of, pages_do, current_page. cbn. rewrite Ep. destruct (Z.leb_spec 0 b); [done|lia].
    + eexists _, _. split; [done|]. split_and!; try done.
      * destruct Hw as [Hl _]. split; [done|by left].
      * unfold pages_of, pages_do. by rewrite Ep.
  - eexists _, _. split; [done|]. split_and!; try done. destruct Hw as [Hl _]. split; [done|by left].
  - destruct (Add_spec w Hw) as (w' & Ea & Hw' & Ep). unfold ClickedAdd. rewrite Ea. eexists _, _. by split_and!.
  - destruct (Remove_pages w Hw) as [Hw' Ep]. unfold ClickedRemove. eexists _, _. by split_and!.
Qed.
Lemma pages_do_nodup a s : NoDup (snd s) -> NoDup (snd (pages_do a s)).
Proof.
  destruct s as [c l]. cbn [snd]. intros Hn. destruct a, c as [p|]; cbn [pages_do snd]; try done.
  - destruct (decide (p ∈ l)); [done|]. apply NoDup_app. split_and!; [done| |apply NoDup_singleton]. intros x Hx ->%list_elem_of_singleton. done.
  - apply NoDup_ListNoDup, List.NoDup_filter. by apply NoDup_ListNoDup.
Qed.
Section laws.
Context {HL : JarLaws (mCookiePath br)} (Hdays : 0 <= days).
Lemma favorites_run_spec acts : forall w j, well_kept w -> exists w' j', favorites_run acts (w, j) = Some (w', j') /\ well_kept w' /\
  pages_of w' = pages_run acts (pages_of w) /\ (forall m, m <> cookie_name -> GetCookie m j' = GetCookie m j) /\
  (existsb is_click acts = true \/ saved w j -> saved w' j').
Proof.
  induction acts as [|a acts IH]; intros w j Hw.
  - exists w, j. split_and!; try done. by intros [Hc|Hc].
  - destruct (favorites_do_spec a w j Hw) as (w1 & j1 & E1 & Hw1 & Ep1 & Hj1). destruct (IH w1 j1 Hw1) as (w' & j' & E' & Hw' & Ep' & Hm & Hs).
    exists w', j'. cbn [favorites_run]. rewrite E1. split_and!; try done.
    + unfold pages_run in *. cbn [fold_left]. by rewrite <- Ep1.
    + intros m Hne. rewrite (Hm m Hne). destruct (is_click a); [|by destruct Hj1 as [-> _]]. rewrite Hj1. unfold WriteCookie. rewrite (GetCookie_SetCookie br now) by done. by rewrite decide_False.
    + cbn [existsb]. intros Hc. apply Hs. destruct (is_click a) eqn:Ea.
      * right. unfold saved. rewrite Hj1. unfold WriteCookie. rewrite (GetCookie_SetCookie br now) by done. by rewrite decide_True.
      * destruct Hj1 as [-> Ef]. unfold saved. rewrite Ef. by destruct Hc as [Hc|Hc]; [left|right].
Qed.
Lemma pages_run_nodup acts : forall s, NoDup (snd s) -> NoDup (snd (pages_run acts s)).
Proof. induction acts as [|a acts IH]; intros s Hs; [done|]. apply IH. by apply pages_do_nodup. Qed.
End laws.
End session.

Lemma translate_on_shelf books books' e e' : on_shelf books e -> translate books books' e = Some e' -> on_shelf books' e' /\ v_mFileIndex e' = v_mFileIndex e.
Proof.
  intros He. destruct (on_shelf_nonneg _ _ He) as [_ Hf]. destruct He as (b & Eb & _). unfold translate. rewrite Eb. cbn [mbind option_bind].
  destruct (Z.leb_spec 0 (GetContextIndex books' (context_of b))) as [Hn|]; [|done]. destruct (GetBook books' _) as [bk|] eqn:Ek; cbn [mbind option_bind]; [|done].
  destruct (Z.ltb_spec (v_mFileIndex e) (file_count bk)); [|done]. destruct (BookIndexFileIndexToTitle books' _ _) as [t|] eqn:Et; cbn [mbind option_bind]; [|done].
  intros [= <-]. split; [|done]. exists bk. by split_and!.
Qed.
(** Each book is found by its context. *)
Definition contexts_found (books : book_list) : Prop :=
  forall i b, GetBook books i = Some b -> GetContextIndex books (context_of b) = i.
Lemma translate_same books e : contexts_found books -> on_shelf books e -> translate books books e = Some e.
Proof.
  intros Hc He. destruct (on_shelf_nonneg _ _ He) as [Hb Hf]. destruct He as (b & Eb & Hr & Et). unfold translate. rewrite Eb. cbn [mbind option_bind].
  rewrite (Hc _ _ Eb). destruct (Z.leb_spec 0 (v_mBookIndex e)); [|lia]. rewrite Eb. cbn [mbind option_bind]. destruct (Z.ltb_spec (v_mFileIndex e) (file_count b)); [|lia].
  rewrite Et. by destruct e.
Qed.

(** C13. Favourites of the help survive the session, and the books' changing of places, when
    there is a book and every book has a context - a text that is not empty and has neither
    a comma nor a new line ([nameless_first] shows what happens otherwise): whatever
    pages the reader visits and however often the button is clicked, no handler throws,
    the favourites are the pages that were added and not removed since (each once, with
    its title), other cookies stay as they were, and once the button was clicked, a later
    session, whose table of contexts has numbers of its books, reads from the cookie the
    same pages of the books with the same contexts, dropping
    those whose book or file is not there any more; with the same books, it reads the same
    list. *)
Theorem favorites_survive (books : book_list) `{HJ : Jar} (now : date) (br : browser) {HL : JarLaws (mCookiePath br)} (cookie_name : string) (days : Z)
    (acts : list favorites_action) (w : favorites) (j : jar)
    (Hbooks : Forall context_ok (mBookList books)) (Hne : mBookList books <> []) (Hdays : 0 <= days) (Hw : well_kept books w) (Hnd : NoDup (map page_of (mFavorites w))) :
  exists w' j', favorites_run books now br cookie_name days acts (w, j) = Some (w', j') /\
    well_kept books w' /\ pages_of w' = pages_run books acts (pages_of w) /\ NoDup (map page_of (mFavorites w')) /\
    (forall m, m <> cookie_name -> GetCookie m j' = GetCookie m j) /\
    (existsb is_click acts = true -> forall books' w0, contexts_known books' ->
       exists l, ReadCookie books' cookie_name j' w0 = Some (set_favorites l w0) /\
         l = omap (translate books books') (mFavorites w') /\ Forall (on_shelf books') l /\
         (books' = books -> contexts_found books -> l = mFavorites w')).
Proof.
  destruct (favorites_run_spec books now br cookie_name days Hdays acts w j Hw) as (w' & j' & E & Hw' & Ep & Hm & Hs). exists w', j'. split_and!; try done.
  - assert (Hn := pages_run_nodup books acts (pages_of w) Hnd). by rewrite <- Ep in Hn.
  - intros Hc books' w0 Hkn. specialize (Hs (or_introl Hc)). destruct Hw' as [Hl _]. eexists. split; [|split; [reflexivity|split]].
    + unfold ReadCookie. rewrite Hs, read_written by done. done.
    + apply Forall_forall. intros e' (e & He & Et)%list_elem_of_omap. rewrite Forall_forall in Hl. by destruct (translate_on_shelf books books' e e' (Hl e He) Et).
    + intros -> Hf. clear -Hl Hf. induction Hl as [|e l He Hl IH]; [done|]. cbn. by rewrite translate_same, IH.
Qed.

(** ** Two sessions *)
Definition load_book (d : string * string * list (string * string)) (bl : book_list) : book_list :=
  let '(context, title, files) := d in
  let bl := Init_AddBookDir context bl in Init_IncrementIndex (default bl (Init_AddBook title context files bl)).
Definition shelf (l : list (string * string * list (string * string))) : book_list := fold_left (fun bl d => load_book d bl) l new_book_list.
Definition guide : string * string * list (string * string) := ("guide", "User guide", [("Start", "start.htm"); ("Reports", "reports.htm")]).
Definition admin : string * string * list (string * string) := ("admin", "Administration", [("Users", "users.htm"); ("Logs", "logs.htm"); ("Backup", "backup.htm")]).
(** The next version has the books in the other order, behind a new one, and a page less. *)
Definition shelf_now : book_list := shelf [guide; admin].
Definition shelf_next : book_list := shelf [("news", "What is new", [("News", "news.htm")]); ("admin", "Administration", [("Users", "users.htm"); ("Log files", "logs.htm")]); guide].
Definition reading : list favorites_action := [Visit 1 2; ClickAdd; Visit 0 0; ClickAdd; Visit 0 1; ClickAdd; Visit 1 1; ClickAdd; ClickAdd; Visit 0 0; ClickRemove; Visit 7 0; ClickAdd; LeaveBooks; ClickAdd].
Lemma contexts_known_shelf : contexts_known shelf_next.
Proof.
  change (map_Forall (fun (_ : string) n => 0 <= n < Z.of_nat (length (mBookList shelf_next))) (mBookContextToIndex shelf_next)).
  apply (bool_decide_eq_true_1 _). vm_compute. reflexivity.
Qed.
Lemma contexts_ok_shelf : Forall context_ok (mBookList shelf_now).
Proof. repeat constructor; eexists; (split; [reflexivity|]); split_and!; done. Qed.
Lemma well_kept_new books : well_kept books new_favorites.
Proof. split; [constructor|by left]. Qed.
Definition some_day : date := 1276507800000.
(** The reader keeps three pages; in the new version two of them are there, one with a new
    title. *)
Theorem favorites_survive_witness :
  exists w' j' l, favorites_run shelf_now (H := simple_jar) some_day any_browser "favorites" 365 reading (new_favorites, []) = Some (w', j') /\
    pages_of w' = (None, [(1, 2); (0, 1); (1, 1)]) /\
    ReadCookie shelf_next (H := simple_jar) "favorites" j' new_favorites = Some (set_favorites l new_favorites) /\
    l = [Favorite 2 1 "Reports"; Favorite 1 1 "Log files"].
Proof.
  destruct (favorites_survive shelf_now (HJ := simple_jar) some_day any_browser "favorites" 365 reading new_favorites [] contexts_ok_shelf)
    as (w' & j' & E & _ & Ep & _ & _ & Hr); [discriminate|lia|apply well_kept_new|constructor|].
  destruct (Hr eq_refl shelf_next new_favorites contexts_known_shelf) as (l & El & El' & _ & _). exists w', j', l.
  split; [exact E|split; [rewrite Ep; vm_compute; reflexivity|split; [exact El|]]]. rewrite El'.
  revert E. vm_compute. intros [= <- _]. reflexivity.
Defined.
(** When the first book's context is empty no comma is written behind it: the numbers of
    the books in the cookie are then those of their neighbours, and with the same books
    the favourite that is read is a page of another book. *)
Definition shelf_nameless : book_list := shelf [("", "Guide", [("Start", "start.htm"); ("Reports", "reports.htm")]); admin; ("news", "What is new", [("News", "news.htm")])].
Example nameless_first :
  let text := contexts_text shelf_nameless +++ nl +++ favorites_text [Favorite 1 0 "Users"] in
  text = "admin,news" +++ nl +++ "1:0" /\ read_text shelf_nameless (Some text) = Some [Favorite 2 0 "News"].
Proof. vm_compute. split; reflexivity. Qed.
