(* ===== verification/HelpPanels.v ===== *)
(** * Tabs and panels of the help viewer (js/scripts/panels.js, javascpt.js, handler.js)
    The panel that is shown, the tab that is chosen, and the handlers that pages call when
    they were loaded.  What handlers ask of the rest of the viewer and of the browser is
    written down in order ([asked]); [None] is an exception of the language.  Tabs are
    drawn in [HelpTabs], the frames with their loads are in [HelpFrames]. *)
From S2P Require Import Prelude JsString JsNum JsVal HelpString HelpBooks HelpBrowser.
Open Scope Z_scope.

(** ** Panels *)

(** The four objects that can be the panel of a tab: [WWHOutline], [WWHIndex], [WWHSearch]
    and [WWHFavorites]. *)
Inductive panel_kind := Contents | Index | SearchForm | FavoriteList.
#[export] Instance panel_kind_eq_dec : EqDecision panel_kind.
Proof. solve_decision. Defined.
(** What the panels read and set of such an object. *)
Record panel_object := PanelObject { o_kind : panel_kind; o_initialized : bool; o_anchor : option string }.
(** [WWHPanelsEntry_Object] *)
Record panel_entry := PanelEntry { mPanelObject : panel_object; mScrollPosition : Z * Z }.
Record panels := Panels {
  mCurrentPanel : Z; mPanelEntries : list panel_entry; mbChangingPanels : bool; mbLoading : bool; mbReloadOnlyNavigation : bool
}.
(** [WWHJavaScript_Object], and the two fields of [WWHHelp] that it uses. *)
Record tabs := Tabs {
  mbClickedChangeTab : bool; mbChangingTabs : bool; mCurrentTab : Z; t_mInitialTabName : option string; mbAutoSyncTOC : bool
}.

(** ** What is asked for *)
Inductive frame := WWHTabsFrame | WWHPanelFrame | WWHPanelNavigationFrame | WWHPanelViewFrame.
#[export] Instance frame_eq_dec : EqDecision frame.
Proof. solve_decision. Defined.
Inductive asked_for :=
| Replace (f : frame) (file : string)        (* [WWHHelp.fReplaceLocation], a file of js/html *)
| RunReplace (script : string)               (* a timer with a script that loads the view *)
| RunScroll (script : string)                (* a timer with a script that scrolls the view *)
| RunClick (i : Z)                           (* a timer with a click *)
| RunAutoSync                                (* a timer with [WWHHelp.fAutoSyncTOC] *)
| FocusAt (f : frame) (anchor : string)      (* [WWHHelp.fFocus] *)
| SetHash (hash : string)                    (* the view's [location.hash] *)
| SetFrameName (f : frame)
| HidePopup | SetPopupWindow (reference : string)
| NavigationLoaded (k : panel_kind) | ViewLoaded (k : panel_kind)   (* methods of a panel's object *)
| SyncContents (b f : Z) (anchor : string) (report : bool)          (* [WWHOutline.fSync] *)
| SetFavorite (b f : Z)                                              (* [WWHFavorites.fSetCurrent] *)
| ClickedSyncTOC                                                     (* [WWHControls.fClickedSyncTOC] *)
| HandlerInitialized.

(** The window of the view: how far it is scrolled, by the browsers' different names, and
    the hash of its address. *)
Record view_window := ViewWindow { pageOffset : Z * Z; body_scroll : option (Z * Z); element_scroll : option (Z * Z); view_hash : string }.

Record viewer := Viewer { w_panels : panels; w_tabs : tabs; w_view : view_window; asked : list asked_for }.
Definition set_panels (p : panels) (w : viewer) : viewer := Viewer p (w_tabs w) (w_view w) (asked w).
Definition set_tabs (t : tabs) (w : viewer) : viewer := Viewer (w_panels w) t (w_view w) (asked w).
Definition ask (e : asked_for) (w : viewer) : viewer := Viewer (w_panels w) (w_tabs w) (w_view w) (asked w ++ [e]).
Definition set_flags (changing loading only : bool) (w : viewer) : viewer :=
  let p := w_panels w in set_panels (Panels (mCurrentPanel p) (mPanelEntries p) changing loading only) w.
Definition changing_panels (b : bool) (w : viewer) : viewer := set_flags b (mbLoading (w_panels w)) (mbReloadOnlyNavigation (w_panels w)) w.
Definition loading (b : bool) (w : viewer) : viewer := set_flags (mbChangingPanels (w_panels w)) b (mbReloadOnlyNavigation (w_panels w)) w.
Definition only_navigation (b : bool) (w : viewer) : viewer := set_flags (mbChangingPanels (w_panels w)) (mbLoading (w_panels w)) b w.
Definition set_current_panel (i : Z) (w : viewer) : viewer :=
  let p := w_panels w in set_panels (Panels i (mPanelEntries p) (mbChangingPanels p) (mbLoading p) (mbReloadOnlyNavigation p)) w.

Definition GetCurrentPanelEntry (w : viewer) : option panel_entry := at_index (mPanelEntries (w_panels w)) (mCurrentPanel (w_panels w)).
Definition GetCurrentPanelObject (w : viewer) : option panel_object := mPanelObject <$> GetCurrentPanelEntry w.
(** The entry of the current panel with another position or another object. *)
Definition set_entry (e : panel_entry) (w : viewer) : viewer :=
  let p := w_panels w in
  set_panels (Panels (mCurrentPanel p) (<[Z.to_nat (mCurrentPanel p) := e]> (mPanelEntries p)) (mbChangingPanels p) (mbLoading p) (mbReloadOnlyNavigation p)) w.
Definition set_scroll (s : Z * Z) (w : viewer) : option viewer :=
  e ← GetCurrentPanelEntry w; Some (set_entry (PanelEntry (mPanelObject e) s) w).
Definition set_anchor (a : option string) (w : viewer) : option viewer :=
  e ← GetCurrentPanelEntry w;
  let o := mPanelObject e in Some (set_entry (PanelEntry (PanelObject (o_kind o) (o_initialized o) a) (mScrollPosition e)) w).
Definition set_initialized (w : viewer) : option viewer :=
  e ← GetCurrentPanelEntry w;
  let o := mPanelObject e in Some (set_entry (PanelEntry (PanelObject (o_kind o) true (o_anchor o)) (mScrollPosition e)) w).

(** Messages of the tabs, and the settings that show them. *)
Record tab_labels := TabLabels { mTabsTOCLabel : string; mTabsIndexLabel : string; mTabsSearchLabel : string; mTabsFavoritesLabel : string }.
Record tab_settings := TabSettings { show_contents : bool; show_index : bool; show_search : bool; show_favorites : bool }.
(** The pages of a panel: methods of its object, in the files of each. *)
Class PanelPages := {
  p_InitHeadHTML : panel_kind -> string; p_InitBodyHTML : panel_kind -> string;
  p_HoverTextTranslate : panel_kind -> Z -> string; p_HoverTextFormat : panel_kind -> string -> string -> string -> string
}.

Section viewer.
Context (br : browser) (accessible : bool) (prefix : string) (labels : tab_labels) (settings : tab_settings).

Definition mPanelTabTitle (k : panel_kind) : string :=
  match k with
  | Contents => mTabsTOCLabel labels | Index => mTabsIndexLabel labels
  | SearchForm => mTabsSearchLabel labels | FavoriteList => mTabsFavoritesLabel labels
  end.
Definition mPanelFilename (k : panel_kind) : string :=
  let netscape := b_mBrowser br =? 1 in
  match k with
  | Contents => "panelvie.htm"
  | Index => if netscape then "panelfni.htm" else "panelfsi.htm"
  | SearchForm => if netscape then "panelfns.htm" else "panelfss.htm"
  | FavoriteList => if netscape then "panelfnf.htm" else "panelfsf.htm"
  end.
Definition page_url (file : string) : string := prefix +++ "wwhelp/wwhimpl/js/html/" +++ file.

(** ** Frames (handler.js and help.js) *)
Definition GetFrameReference (w : viewer) (f : frame) : option string :=
  match f with
  | WWHTabsFrame => Some "WWHFrame.frames[0].frames[0]"
  | WWHPanelFrame => Some "WWHFrame.frames[0].frames[1]"
  | WWHPanelNavigationFrame => Some "WWHFrame.frames[0].frames[1].frames[0]"
  | WWHPanelViewFrame =>
      o ← GetCurrentPanelObject w;
      Some (if String.eqb (mPanelFilename (o_kind o)) "panelvie.htm" then "WWHFrame.frames[0].frames[1]" else "WWHFrame.frames[0].frames[1].frames[1]")
  end.
(** [WWHHelp_SetFrameName] is called only where names of frames are read aloud. *)
Definition name_frame (f : frame) (w : viewer) : viewer := if accessible then ask (SetFrameName f) w else w.

(** ** The panel's position *)
Definition ClearScrollPosition (w : viewer) : option viewer := set_scroll (0, 0) w.
(** How far the view is scrolled, as the browser tells it. *)
Definition view_offset (old : Z * Z) (v : view_window) : Z * Z :=
  let b := b_mBrowser br in
  if (b =? 1) || (b =? 3) || (b =? 4) || (b =? 5) then pageOffset v
  else if b =? 2 then
    match body_scroll v with
    | None => (0, 0)
    | Some s => match element_scroll v with Some (x, y) => if negb (x =? 0) || negb (y =? 0) then (x, y) else s | None => s end
    end
  else old.
Definition SaveScrollPosition (w : viewer) : option viewer :=
  if mbLoading (w_panels w) then Some w
  else
    e ← GetCurrentPanelEntry w;
    if o_initialized (mPanelObject e) then set_scroll (view_offset (mScrollPosition e) (w_view w)) w else Some w.
(** [WWHPanels_JumpToAnchor] *)
Definition JumpToAnchor (w : viewer) : option viewer :=
  if mbLoading (w_panels w) then Some w
  else
    o ← GetCurrentPanelObject w;
    match o_initialized o, o_anchor o with
    | true, Some a =>
        if b_mbSupportsFocus br then set_anchor None (ask (FocusAt WWHPanelViewFrame a) w)
        else
          let workaround := (b_mBrowser br =? 1) && (slen (view_hash (w_view w)) =? 0) in
          let w := ask (SetHash a) w in
          if workaround then Some w else set_anchor None w
    | _, _ => Some w
    end.
Definition RestoreScrollPosition (w : viewer) : option viewer :=
  if mbLoading (w_panels w) then Some w
  else
    e ← GetCurrentPanelEntry w;
    match o_anchor (mPanelObject e) with
    | Some _ => JumpToAnchor w
    | None =>
        let '(x, y) := mScrollPosition e in
        ref ← GetFrameReference w WWHPanelViewFrame;
        Some (ask (RunScroll (ref +++ ".window.scrollTo(" +++ Z_to_string x +++ ", " +++ Z_to_string y +++ ");")) w)
    end.

(** ** Loading *)
Definition ReloadPanel (w : viewer) : option viewer :=
  if mbLoading (w_panels w) then Some w
  else
    let w := loading true w in
    o ← GetCurrentPanelObject w;
    Some (ask (Replace WWHPanelFrame (if o_initialized o then mPanelFilename (o_kind o) else "panelmsg.htm")) w).
Definition ChangePanel (i : Z) (w : viewer) : option viewer :=
  if negb (mbChangingPanels (w_panels w)) && negb (mbLoading (w_panels w)) then
    w ← SaveScrollPosition (changing_panels true w);
    ReloadPanel (set_current_panel i (ask HidePopup w))
  else Some w.
Definition ReloadNavigation (w : viewer) : viewer :=
  if mbLoading (w_panels w) then w else ask (Replace WWHPanelNavigationFrame "panelnav.htm") (only_navigation true (loading true w)).
Definition replace_script (reference : string) : string :=
  reference +++ qq ".location.replace(`" +++ EscapeURLForJavaScriptAnchor (page_url "panelvie.htm") +++ qq "`);".
Definition ReloadView (w : viewer) : option viewer :=
  if mbLoading (w_panels w) then Some w
  else
    w ← SaveScrollPosition w;
    let w := ask HidePopup (loading true w) in
    ref ← GetFrameReference w WWHPanelViewFrame;
    let b := b_mBrowser br in
    let extra :=
      if ((b =? 1) || (b =? 4)) && negb (slen (view_hash (w_view w)) =? 0) then
        ref +++ qq ".location.hash = ``; " +++ (if b =? 4 then replace_script ref +++ " " else "")
      else "" in
    Some (ask (RunReplace (extra +++ replace_script ref)) w).
Definition InitLoaded (w : viewer) : option viewer :=
  w ← ClearScrollPosition w; ReloadPanel (loading false w).
Definition PanelNavigationLoaded (w : viewer) : option viewer :=
  o ← GetCurrentPanelObject w;
  let only := mbReloadOnlyNavigation (w_panels w) in
  let w := name_frame WWHPanelNavigationFrame w in
  let w := if only then loading false w else w in
  let w := ask (NavigationLoaded (o_kind o)) w in
  Some (if only then only_navigation false w else ask (Replace WWHPanelViewFrame "panelvie.htm") w).

(** ** Tabs (javascpt.js) *)
Definition EndChangeTab (w : viewer) : viewer :=
  let t := w_tabs w in
  let contents := bool_decide (t_mInitialTabName t = Some "contents") in
  ask RunAutoSync
    (set_tabs (Tabs false false (mCurrentTab t) (if contents then None else t_mInitialTabName t) (contents || mbAutoSyncTOC t)) w).
Definition PanelViewLoaded (w : viewer) : option viewer :=
  let w := loading false (name_frame WWHPanelViewFrame w) in
  w ← RestoreScrollPosition w;
  ref ← GetFrameReference w WWHPanelViewFrame;
  o ← GetCurrentPanelObject w;
  let w := ask (ViewLoaded (o_kind o)) (ask (SetPopupWindow ref) w) in
  Some (if mbChangingPanels (w_panels w) then changing_panels false (EndChangeTab w) else w).
Definition StartChangeTab (i : Z) (w : viewer) : viewer :=
  let t := w_tabs w in
  if negb (mbChangingTabs t) && negb (mCurrentTab t =? i) then
    ask (Replace WWHTabsFrame "tabs.htm") (set_tabs (Tabs (mbClickedChangeTab t) true i (t_mInitialTabName t) (mbAutoSyncTOC t)) w)
  else w.
Definition ClickedChangeTab (i : Z) (w : viewer) : viewer :=
  let t := w_tabs w in
  if mbClickedChangeTab t then w
  else StartChangeTab i (set_tabs (Tabs true (mbChangingTabs t) (mCurrentTab t) (t_mInitialTabName t) (mbAutoSyncTOC t)) w).
Definition ClickedChangeTabWithDelay (i : Z) (w : viewer) : viewer := ask (RunClick i) w.
(** The tab of the contents, by its title. *)
Definition contents_tab (l : list panel_entry) : option nat :=
  fst <$> list_find (fun e => mPanelTabTitle (o_kind (mPanelObject e)) = mTabsTOCLabel labels) l.
Definition JavaScript_SyncTOC (b f : Z) (anchor : string) (report : bool) (w : viewer) : option viewer :=
  if show_contents settings && ((0 <=? b) && (0 <=? f)) then
    o ← GetCurrentPanelObject w;
    if String.eqb (mPanelTabTitle (o_kind o)) (mTabsTOCLabel labels) then Some (ask (SyncContents b f anchor report) w)
    else
      match contents_tab (mPanelEntries (w_panels w)) with
      | Some i =>
          let t := w_tabs w in
          Some (StartChangeTab (Z.of_nat i) (set_tabs (Tabs (mbClickedChangeTab t) (mbChangingTabs t) (mCurrentTab t) (Some "contents") (mbAutoSyncTOC t)) w))
      | None => Some w
      end
  else Some w.
Definition JavaScript_FavoritesCurrent (b f : Z) (w : viewer) : option viewer :=
  let w := ask (SetFavorite b f) w in
  o ← GetCurrentPanelObject w;
  Some (if String.eqb (mPanelTabTitle (o_kind o)) (mTabsFavoritesLabel labels) then ReloadNavigation w else w).
(** [WWHTabs_Loaded], which the page of the tabs calls. *)
Definition TabsLoaded (w : viewer) : option viewer := ChangePanel (mCurrentTab (w_tabs w)) (name_frame WWHTabsFrame w).

(** ** The start *)

(** The panels that are shown; favourites need cookies. *)
Definition panel_kinds (cookies : bool) : list panel_kind :=
  (if show_contents settings then [Contents] else []) ++ (if show_index settings then [Index] else [])
  ++ (if show_search settings then [SearchForm] else []) ++ (if cookies && show_favorites settings then [FavoriteList] else []).
Definition new_panels (cookies : bool) : panels :=
  Panels 0 (map (fun k => PanelEntry (PanelObject k false None) (0, 0)) (panel_kinds cookies)) false false false.
(** [mPanelTabIndex] of a panel's object, -1 when it is not shown. *)
Definition mPanelTabIndex (w : viewer) (k : panel_kind) : Z :=
  match list_find (fun e => o_kind (mPanelObject e) = k) (mPanelEntries (w_panels w)) with Some (i, _) => Z.of_nat i | None => -1 end.
Definition kind_named (name : string) : option panel_kind :=
  if String.eqb name "contents" then Some Contents else if String.eqb name "index" then Some Index
  else if String.eqb name "search" then Some SearchForm else if String.eqb name "favorites" then Some FavoriteList else None.
(** [WWHJavaScript_Init]: the panels, and the tab to begin with. *)
Definition mInitialTab (w : viewer) : Z :=
  let i := match (t ← t_mInitialTabName (w_tabs w); kind_named t) with Some k => mPanelTabIndex w k | None => -1 end in
  if i <? 0 then 0 else i.
Definition JavaScript_Init (cookies : bool) (name : option string) (v : view_window) (initialized : bool) : viewer :=
  let w := Viewer (new_panels cookies) (Tabs false false (-1) name false) v [] in
  if initialized then w else ask HandlerInitialized w.
(** [WWHHandler_Finalize], after the pictures were asked for. *)
Definition Finalize (w : viewer) : viewer :=
  match t_mInitialTabName (w_tabs w) with
  | Some _ => StartChangeTab (mInitialTab w) w
  | None => ClickedChangeTab (mInitialTab w) w
  end.

(** ** The rest of the handler (handler.js) *)
Definition IsReady (w : viewer) : bool :=
  negb (mbChangingTabs (w_tabs w) || mbChangingPanels (w_panels w) || mbLoading (w_panels w)).
Definition GetCurrentTab (w : viewer) : string :=
  let i := mCurrentPanel (w_panels w) in
  if i =? mPanelTabIndex w Contents then "contents" else if i =? mPanelTabIndex w Index then "index"
  else if i =? mPanelTabIndex w SearchForm then "search" else if i =? mPanelTabIndex w FavoriteList then "favorites" else "".
(** [WWHHandler_SetCurrentTab]; [can_sync] is [WWHControls.fCanSyncTOC()]. *)
Definition show_tab (k : panel_kind) (shown : panel_kind -> asked_for) (w : viewer) : option viewer :=
  if mCurrentPanel (w_panels w) =? mPanelTabIndex w k then o ← GetCurrentPanelObject w; Some (ask (shown (o_kind o)) w)
  else Some (ClickedChangeTab (mPanelTabIndex w k) w).
Definition SetCurrentTab (can_sync : bool) (name : string) (w : viewer) : option viewer :=
  match kind_named name with
  | Some k =>
      if mPanelTabIndex w k =? -1 then Some w
      else
        match k with
        | Contents => if can_sync then Some (ask ClickedSyncTOC w) else show_tab k ViewLoaded w
        | _ => show_tab k NavigationLoaded w
        end
  | None => Some w
  end.
Definition ProcessAccessKey (can_sync : bool) (key : Z) (w : viewer) : option viewer :=
  if key =? 1 then SetCurrentTab can_sync "contents" w else if key =? 2 then SetCurrentTab can_sync "index" w
  else if key =? 3 then SetCurrentTab can_sync "search" w else Some w.
(** The names of frames; the list of the tabs has no favourites. *)
Definition GetFrameName (separator tabs_name navigation_name : string) (w : viewer) (f : frame) : option string :=
  match f with
  | WWHTabsFrame =>
      let add (t : string) (show : bool) (label : string) := if show then (if 0 <? slen t then t +++ separator +++ " " else t) +++ label else t in
      let t := add (add (add "" (show_contents settings) (mTabsTOCLabel labels)) (show_index settings) (mTabsIndexLabel labels)) (show_search settings) (mTabsSearchLabel labels) in
      Some (EscapeHTML (FormatMessage tabs_name [Some t]))
  | WWHPanelFrame => None
  | WWHPanelNavigationFrame =>
      o ← GetCurrentPanelObject w; Some (EscapeHTML (FormatMessage navigation_name [Some (mPanelTabTitle (o_kind o))]))
  | WWHPanelViewFrame => o ← GetCurrentPanelObject w; Some (mPanelTabTitle (o_kind o))
  end.

(** ** Pages of the current panel (panels.js) *)
Section pages.
Context `{PanelPages} (stage : Z).
Definition InitHeadHTML (w : viewer) : option string :=
  if 0 <? stage then o ← GetCurrentPanelObject w; Some (p_InitHeadHTML (o_kind o)) else Some "".
Definition InitBodyHTML (w : viewer) : option string :=
  if 0 <? stage then o ← GetCurrentPanelObject w; Some (p_InitBodyHTML (o_kind o)) else Some "".
Definition PanelHoverText_Translate (entry : Z) (w : viewer) : option string :=
  o ← GetCurrentPanelObject w; Some (if o_initialized o then p_HoverTextTranslate (o_kind o) entry else "").
Definition PanelHoverText_Format (width id text : string) (w : viewer) : option string :=
  o ← GetCurrentPanelObject w; Some (if o_initialized o then p_HoverTextFormat (o_kind o) width id text else "").
End pages.
End viewer.
