(* ===== verification/HelpTabs.v ===== *)
(** * The tabs as they are drawn (js/scripts/tabs.js)
    One cell for each panel, in a table but for an old browser; the tab that is chosen is
    not a link. *)
From S2P Require Import Prelude JsString JsNum JsVal HelpString HelpBooks HelpBrowser HelpPanels.
Open Scope Z_scope.

(** Colours and style of the tabs. *)
Record tab_style := TabStyle { mSelectedTabForegroundColor : string; mDefaultTabForegroundColor : string; t_mFontStyle : string }.

(** [WWHTabs_HeadHTML] *)
Definition tab_rule (selector : string) (l : list string) : list string :=
  ["  " +++ selector +++ nl; "  {" +++ nl] ++ map (fun t => "    " +++ t +++ ";" +++ nl) l ++ ["  }" +++ nl].
Definition HeadHTML (s : tab_style) : string :=
  join "" (
    [qq "<style type=`text/css`>" +++ nl; " <!--" +++ nl]
    ++ tab_rule "a.active" ["text-decoration: none"; "color: " +++ mSelectedTabForegroundColor s; t_mFontStyle s]
    ++ tab_rule "a.inactive" ["text-decoration: none"; "color: " +++ mDefaultTabForegroundColor s; t_mFontStyle s]
    ++ tab_rule "th" ["color: " +++ mSelectedTabForegroundColor s; t_mFontStyle s]
    ++ tab_rule "td" ["color: " +++ mDefaultTabForegroundColor s; t_mFontStyle s]
    ++ [" -->" +++ nl; "</style>" +++ nl]).

(** [WWHTabs_Object]: the width of a tab; [frac] writes a number that is not whole. *)
Definition mWidth (frac : QArith_base.Q -> string) (count : Z) : option string :=
  if 0 <? count then Some (num_to_string frac (num_div (num_of_Z 100) (num_of_Z count)) +++ "%") else None.

Section tabs.
Context (br : browser) (accessible : bool) (prefix : string) (labels : tab_labels).
Context (mAccessibilityActiveTab mAccessibilityInactiveTab : string) (width : option string).
Definition ImageDir : string := prefix +++ "wwhelp/wwhimpl/js/images".
Definition StyleAttribute : string := qq " style=`font-size: 1px; line-height: 1px;`".
Definition netscape : bool := b_mBrowser br =? 1.
Definition width_text : string := default "null" width.
(** A cell with a picture, and one with a picture on a background. *)
Definition spacer (file : string) : string := "<td><div" +++ StyleAttribute +++ qq "><img src=`" +++ ImageDir +++ "/" +++ file +++ qq ".gif` alt=``></div></td>".
Definition corner (OnClick file : string) : string :=
  "<td" +++ OnClick +++ "><div" +++ StyleAttribute +++ qq "><img src=`" +++ ImageDir +++ "/" +++ file +++ qq ".gif` alt=``></div></td>" +++ nl.
Definition edge (OnClick background file : string) : string :=
  "<td" +++ OnClick +++ qq " background=`" +++ ImageDir +++ "/" +++ background +++ qq ".gif`><div" +++ StyleAttribute +++ qq "><img src=`" +++ ImageDir +++ "/" +++ file
  +++ qq ".gif` alt=``></div></td>" +++ nl.
(** A row of the tab at [i] of [n], between the spaces beside it. *)
Definition tab_row (i n : nat) (l : list string) : list string :=
  ["<tr>"; spacer (if Nat.eqb i 0 then "spc_tabl" else "spc_tabm") +++ nl] ++ l
  ++ (if Nat.eqb (S i) n then [spacer "spc_tabr" +++ nl] else []) ++ ["</tr>"].
Definition tab_cell (current : Z) (n i : nat) (e : panel_entry) : list string :=
  let title := mPanelTabTitle labels (o_kind (mPanelObject e)) in
  let active := Z.of_nat i =? current in
  let access :=
    if accessible then
      qq " title=`" +++ EscapeHTML (FormatMessage (if active then mAccessibilityActiveTab else mAccessibilityInactiveTab) [Some title]) +++ qq "`"
    else "" in
  let index := Z_to_string (Z.of_nat i) in
  let CellType := if active then "th" else "td" in
  let WrapPrefix :=
    if active then qq "<b><a class=`active` name=`tab" +++ index +++ qq "` href=`javascript:void(0);`" +++ access +++ ">"
    else qq "<b><a class=`inactive` name=`tab" +++ index +++ qq "` href=`javascript:WWHFrame.WWHJavaScript.fClickedChangeTab(" +++ index +++ qq ");`" +++ access +++ ">" in
  let OnClick := if active then "" else qq " onclick=`WWHFrame.WWHJavaScript.fClickedChangeTabWithDelay(" +++ index +++ qq ");`" in
  let x := if active then "" else "x" in
  (if netscape then [] else [qq "<td width=`" +++ width_text +++ qq "`>"])
  ++ [qq "<table align=`left` border=`0` cellspacing=`0` cellpadding=`0` width=`" +++ (if netscape then width_text else "100%") +++ qq "`>";
      "<tr>"; spacer ("spc_top" +++ x); "</tr>"]
  ++ tab_row i n [corner OnClick ("btn_nw" +++ x); edge OnClick ("btn_n" +++ x) "spc_n"; corner OnClick ("btn_ne" +++ x)]
  ++ tab_row i n
       [edge OnClick ("btn_w" +++ x) "spc_w";
        "<" +++ CellType +++ qq " background=`" +++ ImageDir +++ "/btn_bg" +++ x +++ qq ".gif` nowrap align=`center` width=`100%`" +++ OnClick +++ ">";
        WrapPrefix; title; "</a></b>"; "</" +++ CellType +++ ">"; edge OnClick ("btn_e" +++ x) "spc_e"]
  ++ tab_row i n [corner OnClick ("btn_sw" +++ x); edge OnClick ("btn_s" +++ x) ("spc_s" +++ x); corner OnClick ("btn_se" +++ x)]
  ++ ["</table>"] ++ (if netscape then [] else ["</td>" +++ nl]).
(** [WWHTabs_BodyHTML] *)
Definition BodyHTML (w : viewer) : string :=
  let l := mPanelEntries (w_panels w) in
  join "" (
    (if netscape then [] else [qq "<table border=`0` cellspacing=`0` cellpadding=`0` width=`100%`>" +++ nl; "<tr>"])
    ++ concat (imap (tab_cell (mCurrentTab (w_tabs w)) (length l)) l)
    ++ (if netscape then [] else ["</tr>" +++ nl; "</table>" +++ nl])).
End tabs.
