(* ===== verification/HelpFrames.v ===== *)
(** * The frames of the help viewer: pages that are loaded, and what they call
    The handlers of [HelpPanels] together with the browser: locations that were asked for
    are loaded some time, in any order; a loaded page calls its handler (the pages of
    js/html); in between the reader clicks. *)
From S2P Require Import Prelude JsString JsNum JsVal HelpString HelpBooks HelpBrowser HelpPanels.
Open Scope Z_scope.

(** The pages that are on their way, one for each frame at most; clicks whose timers run;
    the tab that the page of the tabs shows as chosen; all that was asked for so far. *)
Record frames := Frames { f_viewer : viewer; loads : list (frame * string); clicks : list Z; drawn : option Z; history : list asked_for }.

Section frames.
Context (br : browser) (accessible : bool) (prefix : string) (labels : tab_labels) (settings : tab_settings).

(** The frame of the view is the panel's own for the contents. *)
Definition real_frame (w : viewer) (f : frame) : frame :=
  match f, GetCurrentPanelObject w with
  | WWHPanelViewFrame, Some o => if String.eqb (mPanelFilename br (o_kind o)) "panelvie.htm" then WWHPanelFrame else WWHPanelViewFrame
  | _, _ => f
  end.
(** A new page in a frame takes the place of the one that is on its way there, and in the
    frames within it. *)
Definition displaced (f g : frame) : bool :=
  bool_decide (f = g) || bool_decide (f = WWHPanelFrame) && (bool_decide (g = WWHPanelNavigationFrame) || bool_decide (g = WWHPanelViewFrame)).
Definition start_load (f : frame) (file : string) (l : list (frame * string)) : list (frame * string) :=
  List.filter (fun p => negb (displaced f (fst p))) l ++ [(f, file)].
(** What the browser does with what was asked for. *)
Definition carry_out (s : frames) (e : asked_for) : frames :=
  let w := f_viewer s in
  match e with
  | Replace f file => Frames w (start_load (real_frame w f) file (loads s)) (clicks s) (drawn s) (history s)
  | RunReplace _ => Frames w (start_load (real_frame w WWHPanelViewFrame) "panelvie.htm" (loads s)) (clicks s) (drawn s) (history s)
  | RunClick i => Frames w (loads s) (clicks s ++ [i]) (drawn s) (history s)
  | SetHash h => let v := w_view w in
                 Frames (Viewer (w_panels w) (w_tabs w) (ViewWindow (pageOffset v) (body_scroll v) (element_scroll v) ("#" +++ h)) (asked w))
                   (loads s) (clicks s) (drawn s) (history s)
  | _ => s
  end.
Definition silent (w : viewer) : viewer := Viewer (w_panels w) (w_tabs w) (w_view w) [].
(** After a handler. *)
Definition with_viewer (w : viewer) (s : frames) : frames :=
  fold_left carry_out (asked w) (Frames (silent w) (loads s) (clicks s) (drawn s) (history s ++ asked w)).

(** The pages: tabs.htm, panelmsg.htm, panelini.htm, the frame sets, panelnav.htm and
    panelvie.htm.  While panelini.htm is loaded the panel's object is initialised. *)
Definition page_loaded (file : string) (w : viewer) : option viewer :=
  if String.eqb file "tabs.htm" then TabsLoaded br accessible w
  else if String.eqb file "panelmsg.htm" then Some (ask (Replace WWHPanelFrame "panelini.htm") w)
  else if String.eqb file "panelini.htm" then w ← set_initialized w; InitLoaded br w
  else if String.eqb file "panelnav.htm" then PanelNavigationLoaded accessible w
  else if String.eqb file "panelvie.htm" then PanelViewLoaded br accessible w
  else Some (ask (Replace WWHPanelNavigationFrame "panelnav.htm") w).
Definition after_load (f : frame) (l : list (frame * string)) : list (frame * string) := List.filter (fun p => negb (bool_decide (fst p = f))) l.
Definition find_load (f : frame) (l : list (frame * string)) : option string := snd <$> List.find (fun p => bool_decide (fst p = f)) l.

(** What happens: clicks on the tabs that are links; timers of clicks; keys; the other
    parts of the viewer, which ask for the contents and tell the page that is shown only
    when [IsReady] (help.js), and which draw the panel again or move it from its own
    pages; the reader scrolls; a page is there. *)
Inductive frame_action :=
| ClickTab (i : Z) | ClickCell (i : Z) | FireClick (n : nat) | Key (can_sync : bool) (name : string)
| ShowInContents (b f : Z) (anchor : string) (report : bool) | PageShown (b f : Z)
| DrawView | DrawPanel | Move (anchor : string) | Scrolled (v : view_window) | Loaded (f : frame).
Definition current_initialized (w : viewer) : bool := match GetCurrentPanelObject w with Some o => o_initialized o | None => false end.
Definition is_tab (i : Z) (w : viewer) : bool := (0 <=? i) && (i <? Z.of_nat (length (mPanelEntries (w_panels w)))).
(** Whether it can happen. *)
Definition enabled (a : frame_action) (s : frames) : bool :=
  let w := f_viewer s in
  match a with
  | ClickTab i | ClickCell i => is_tab i w && match drawn s with Some d => negb (d =? i) | None => false end
  | FireClick n => bool_decide (is_Some (clicks s !! n))
  | ShowInContents _ _ _ _ | PageShown _ _ => IsReady w
  | DrawView | DrawPanel | Move _ => current_initialized w
  | Key _ _ | Scrolled _ => true
  | Loaded f => bool_decide (is_Some (find_load f (loads s)))
  end.
Definition react (a : frame_action) (s : frames) : option viewer :=
  let w := f_viewer s in
  match a with
  | ClickTab i => Some (ClickedChangeTab i w)
  | ClickCell i => Some (ClickedChangeTabWithDelay i w)
  | FireClick n => i ← clicks s !! n; Some (ClickedChangeTab i w)
  | Key can_sync name => SetCurrentTab can_sync name w
  | ShowInContents b f anchor report => JavaScript_SyncTOC labels settings b f anchor report w
  | PageShown b f => JavaScript_FavoritesCurrent labels b f w
  | DrawView => ReloadView br prefix w
  | DrawPanel => w ← ClearScrollPosition w; ReloadPanel br w
  | Move anchor => w ← set_anchor (Some anchor) w; JumpToAnchor br w
  | Scrolled v => Some (Viewer (w_panels w) (w_tabs w) v (asked w))
  | Loaded f => file ← find_load f (loads s); page_loaded file w
  end.
(** What the browser takes away before the handler runs. *)
Definition taken (a : frame_action) (s : frames) : frames :=
  match a with
  | FireClick n => Frames (f_viewer s) (loads s) (delete n (clicks s)) (drawn s) (history s)
  | Loaded f => Frames (f_viewer s) (after_load f (loads s)) (clicks s) (if decide (f = WWHTabsFrame) then Some (mCurrentTab (w_tabs (f_viewer s))) else drawn s) (history s)
  | _ => s
  end.
Definition happen (a : frame_action) (s : frames) : option frames :=
  if enabled a s then w ← react a s; Some (with_viewer w (taken a s)) else Some s.
Fixpoint happen_all (l : list frame_action) (s : frames) : option frames :=
  match l with [] => Some s | a :: l => s ← happen a s; happen_all l s end.

(** The viewer when it was started. *)
Definition start (cookies : bool) (name : option string) (v : view_window) : frames :=
  with_viewer (Finalize (silent (JavaScript_Init settings cookies name v true))) (Frames (JavaScript_Init settings cookies name v true) [] [] None []).

(** All pages arrive, those of the panel before that of the tabs. *)
Definition next_load (l : list (frame * string)) : option frame :=
  match List.find (fun p => negb (bool_decide (fst p = WWHTabsFrame))) l with Some (f, _) => Some f | None => fst <$> head l end.
Fixpoint settle (n : nat) (s : frames) : option frames :=
  match n, next_load (loads s) with
  | S n, Some f => s ← happen (Loaded f) s; settle n s
  | _, _ => Some s
  end.
End frames.
