(* ===== verification/HelpFramesCore.v ===== *)
(** * Tabs and frames without their texts
    What of the viewer decides which page is loaded next: the flags, the tab, the panel and
    which panels are initialised.  Each handler is described by what it does to these and
    by the pages that it asks for. *)
From S2P Require Import Prelude JsString JsNum JsVal HelpString HelpBooks HelpBrowser HelpPanels HelpFrames.
Open Scope Z_scope.
#[local] Set Warnings "-clear-no-such-hyp".

Record vcore := VCore {
  c_panel : Z; c_objs : list (panel_kind * bool); c_changing : bool; c_loading : bool; c_only : bool;
  c_clicked : bool; c_tabs : bool; c_tab : Z
}.
Definition obj_of (e : panel_entry) : panel_kind * bool := (o_kind (mPanelObject e), o_initialized (mPanelObject e)).
Definition vcore_of (w : viewer) : vcore :=
  let p := w_panels w in let t := w_tabs w in
  VCore (mCurrentPanel p) (map obj_of (mPanelEntries p)) (mbChangingPanels p) (mbLoading p) (mbReloadOnlyNavigation p)
    (mbClickedChangeTab t) (mbChangingTabs t) (mCurrentTab t).
Definition c_cur (c : vcore) : option (panel_kind * bool) := at_index (c_objs c) (c_panel c).
Definition core_load (loading : bool) (c : vcore) : vcore := VCore (c_panel c) (c_objs c) (c_changing c) loading (c_only c) (c_clicked c) (c_tabs c) (c_tab c).
Definition core_only (loading only : bool) (c : vcore) : vcore := VCore (c_panel c) (c_objs c) (c_changing c) loading only (c_clicked c) (c_tabs c) (c_tab c).
Definition core_tab (clicked tabs : bool) (i : Z) (c : vcore) : vcore := VCore (c_panel c) (c_objs c) (c_changing c) (c_loading c) (c_only c) clicked tabs i.
(** Requests that lead to something that happens later. *)
Definition loud (e : asked_for) : bool := match e with Replace _ _ | RunReplace _ | RunClick _ => true | _ => false end.
Definition louds (w : viewer) : list asked_for := List.filter loud (asked w).
(** The handler succeeds, with this core, after these requests. *)
Definition does (r : option viewer) (w : viewer) (c : vcore) (l : list asked_for) : Prop :=
  exists w', r = Some w' /\ vcore_of w' = c /\ louds w' = louds w ++ l.
Lemma does_some w w' c l : vcore_of w' = c -> louds w' = louds w ++ l -> does (Some w') w c l.
Proof. intros. by exists w'. Qed.
Lemma does_same w : does (Some w) w (vcore_of w) [].
Proof. exists w. by rewrite app_nil_r. Qed.
Lemma does_bind r w c l (g : viewer -> option viewer) c' l' :
  does r w c l -> (forall w', vcore_of w' = c -> louds w' = louds w ++ l -> does (g w') w' c' l') -> does (w ← r; g w) w c' (l ++ l').
Proof.
  intros (w1 & -> & Hc & Hl) H. destruct (H w1 Hc Hl) as (w2 & E & Hc' & Hl'). exists w2. cbn [mbind option_bind]. split_and!; try done. by rewrite Hl', Hl, app_assoc.
Qed.
Lemma louds_ask e w : louds (ask e w) = louds w ++ (if loud e then [e] else []).
Proof. unfold louds. cbn [ask asked]. rewrite List.filter_app. cbn. by destruct (loud e). Qed.
Lemma vcore_ask e w : vcore_of (ask e w) = vcore_of w.
Proof. done. Qed.
Lemma louds_panels p w : louds (set_panels p w) = louds w.
Proof. done. Qed.
Lemma louds_tabs t w : louds (set_tabs t w) = louds w.
Proof. done. Qed.

(** ** The current panel *)
Lemma at_index_map {A B} (f : A -> B) l i : at_index (map f l) i = f <$> at_index l i.
Proof. unfold at_index. destruct (i <? 0); [done|]. apply list_lookup_fmap. Qed.
Lemma current_entry w k i : c_cur (vcore_of w) = Some (k, i) ->
  exists e, GetCurrentPanelEntry w = Some e /\ o_kind (mPanelObject e) = k /\ o_initialized (mPanelObject e) = i.
Proof.
  unfold c_cur. cbn [vcore_of c_objs c_panel]. rewrite at_index_map. unfold GetCurrentPanelEntry.
  destruct (at_index (mPanelEntries (w_panels w)) (mCurrentPanel (w_panels w))) as [e|]; [|done]. intros [= <- <-]. by exists e.
Qed.
Lemma current_object w k i : c_cur (vcore_of w) = Some (k, i) -> exists a, GetCurrentPanelObject w = Some (PanelObject k i a).
Proof. intros H. destruct (current_entry w k i H) as (e & E & <- & <-). unfold GetCurrentPanelObject. rewrite E. cbn. exists (o_anchor (mPanelObject e)). by destruct (mPanelObject e). Qed.
Lemma entry_index w e : GetCurrentPanelEntry w = Some e -> mPanelEntries (w_panels w) !! Z.to_nat (mCurrentPanel (w_panels w)) = Some e.
Proof. unfold GetCurrentPanelEntry, at_index. by destruct (_ <? 0). Qed.
Lemma set_entry_core e e' w : GetCurrentPanelEntry w = Some e -> obj_of e' = obj_of e -> vcore_of (set_entry e' w) = vcore_of w.
Proof.
  intros He Ho. assert (E : map obj_of (<[Z.to_nat (mCurrentPanel (w_panels w)) := e']> (mPanelEntries (w_panels w))) = map obj_of (mPanelEntries (w_panels w))).
  { etrans; [apply (list_fmap_insert obj_of)|]. rewrite Ho. apply list_insert_id. etrans; [apply list_lookup_fmap|]. by rewrite (entry_index w e He). }
  unfold vcore_of, set_entry. cbn. by rewrite E.
Qed.
Section handlers.
Context (br : browser) (accessible : bool) (prefix : string) (labels : tab_labels) (settings : tab_settings).
Context (w : viewer) (k : panel_kind) (i : bool).
Context (Hcur : c_cur (vcore_of w) = Some (k, i)).

Lemma set_scroll_does s : does (set_scroll s w) w (vcore_of w) [].
Proof. destruct (current_entry w k i Hcur) as (e & E & Ek & Ei). unfold set_scroll. rewrite E. apply does_some; [by apply (set_entry_core e)|by rewrite app_nil_r]. Qed.
Lemma set_anchor_does a : does (set_anchor a w) w (vcore_of w) [].
Proof. destruct (current_entry w k i Hcur) as (e & E & Ek & Ei). unfold set_anchor. rewrite E. apply does_some; [by apply (set_entry_core e)|by rewrite app_nil_r]. Qed.
Lemma SaveScrollPosition_does : does (SaveScrollPosition br w) w (vcore_of w) [].
Proof.
  unfold SaveScrollPosition. destruct (mbLoading (w_panels w)); [apply does_same|]. destruct (current_entry w k i Hcur) as (e & E & Ek & Ei). rewrite E. cbn [mbind option_bind].
  destruct (o_initialized (mPanelObject e)); [apply set_scroll_does|apply does_same].
Qed.
Lemma ReloadPanel_does : does (ReloadPanel br w) w
  (core_load true (vcore_of w)) (if mbLoading (w_panels w) then [] else [Replace WWHPanelFrame (if i then mPanelFilename br k else "panelmsg.htm")]).
Proof.
  unfold ReloadPanel. destruct (mbLoading (w_panels w)) eqn:El.
  - assert (E : core_load true (vcore_of w) = vcore_of w) by (unfold core_load, vcore_of; cbn; by rewrite El). rewrite E. apply does_same.
  - assert (Hc : c_cur (vcore_of (loading true w)) = Some (k, i)) by exact Hcur. destruct (current_object _ _ _ Hc) as [a ->]. apply does_some; [done|]. by rewrite louds_ask.
Qed.
End handlers.
Lemma JumpToAnchor_does br w k i : c_cur (vcore_of w) = Some (k, i) -> does (JumpToAnchor br w) w (vcore_of w) [].
Proof.
  intros Hcur. unfold JumpToAnchor. destruct (mbLoading (w_panels w)); [apply does_same|]. destruct (current_object w k i Hcur) as [a ->]. cbn [mbind option_bind o_initialized o_anchor].
  destruct i, a as [a|]; try apply does_same. destruct (b_mbSupportsFocus br).
  - destruct (set_anchor_does (ask (FocusAt WWHPanelViewFrame a) w) k true Hcur None) as (w' & E & Hc & Hl). exists w'. split_and!; try done. by rewrite Hl, louds_ask, !app_nil_r.
  - destruct ((b_mBrowser br =? 1) && (slen (view_hash (w_view w)) =? 0)); [apply does_some; [done|by rewrite louds_ask]|].
    destruct (set_anchor_does (ask (SetHash a) w) k true Hcur None) as (w' & E & Hc & Hl). exists w'. split_and!; try done. by rewrite Hl, louds_ask, !app_nil_r.
Qed.
Lemma view_reference br w k i : c_cur (vcore_of w) = Some (k, i) -> is_Some (GetFrameReference br w WWHPanelViewFrame).
Proof. intros Hcur. unfold GetFrameReference. destruct (current_object w k i Hcur) as [a ->]. by eexists. Qed.
Lemma RestoreScrollPosition_does br w k i : c_cur (vcore_of w) = Some (k, i) -> does (RestoreScrollPosition br w) w (vcore_of w) [].
Proof.
  intros Hcur. unfold RestoreScrollPosition. destruct (mbLoading (w_panels w)); [apply does_same|]. destruct (current_entry w k i Hcur) as (e & E & Ek & Ei). rewrite E. cbn [mbind option_bind].
  destruct (o_anchor (mPanelObject e)); [by eapply JumpToAnchor_does|]. destruct (mScrollPosition e) as [x y]. destruct (view_reference br w k i Hcur) as [r ->].
  apply does_some; [done|by rewrite louds_ask].
Qed.
Lemma ChangePanel_does br w k i j k' i' : c_cur (vcore_of w) = Some (k, i) -> at_index (c_objs (vcore_of w)) j = Some (k', i') ->
  let c := vcore_of w in
  if negb (c_changing c) && negb (c_loading c)
  then does (ChangePanel br j w) w (VCore j (c_objs c) true true (c_only c) (c_clicked c) (c_tabs c) (c_tab c))
         [Replace WWHPanelFrame (if i' then mPanelFilename br k' else "panelmsg.htm")]
  else does (ChangePanel br j w) w c [].
Proof.
  intros Hcur Hj. cbn zeta. unfold ChangePanel. change (c_changing (vcore_of w)) with (mbChangingPanels (w_panels w)). change (c_loading (vcore_of w)) with (mbLoading (w_panels w)).
  destruct (mbChangingPanels (w_panels w)); [apply does_same|]. destruct (mbLoading (w_panels w)) eqn:El; [apply does_same|]. cbn [negb andb].
  destruct (SaveScrollPosition_does br (changing_panels true w) k i Hcur) as (w1 & E1 & Hc1 & Hl1). rewrite E1. cbn [mbind option_bind].
  set (w2 := set_current_panel j (ask HidePopup w1)).
  assert (Hc2 : vcore_of w2 = VCore j (c_objs (vcore_of w1)) (c_changing (vcore_of w1)) (c_loading (vcore_of w1)) (c_only (vcore_of w1)) (c_clicked (vcore_of w1)) (c_tabs (vcore_of w1)) (c_tab (vcore_of w1))) by done.
  rewrite Hc1 in Hc2. cbn in Hc2.
  assert (Hcur2 : c_cur (vcore_of w2) = Some (k', i')) by (rewrite Hc2; exact Hj).
  destruct (ReloadPanel_does br w2 k' i' Hcur2) as (w3 & E3 & Hc3 & Hl3). exists w3. split; [done|]. split; [by rewrite Hc3, Hc2|].
  assert (El2 : mbLoading (w_panels w2) = false) by (change (c_loading (vcore_of w2) = false); by rewrite Hc2). rewrite El2 in Hl3. rewrite Hl3. f_equal.
  unfold w2. change (louds (set_current_panel j (ask HidePopup w1))) with (louds (ask HidePopup w1)). rewrite louds_ask, Hl1. by rewrite !app_nil_r.
Qed.
Definition core_initialized (c : vcore) (k : panel_kind) : vcore :=
  VCore (c_panel c) (<[Z.to_nat (c_panel c) := (k, true)]> (c_objs c)) (c_changing c) true (c_only c) (c_clicked c) (c_tabs c) (c_tab c).
Lemma c_cur_index c o : c_cur c = Some o -> c_objs c !! Z.to_nat (c_panel c) = Some o /\ 0 <= c_panel c.
Proof. unfold c_cur, at_index. destruct (Z.ltb_spec (c_panel c) 0); [done|]. intros H1. split; [done|lia]. Qed.
Lemma c_cur_initialized c k i : c_cur c = Some (k, i) -> c_cur (core_initialized c k) = Some (k, true).
Proof.
  intros [H H0]%c_cur_index. unfold c_cur, at_index, core_initialized. cbn [c_panel c_objs]. destruct (Z.ltb_spec (c_panel c) 0); [lia|].
  apply list_lookup_insert_eq. by eapply lookup_lt_Some.
Qed.
Lemma set_initialized_does w k i : c_cur (vcore_of w) = Some (k, i) ->
  does (set_initialized w) w (core_load (c_loading (vcore_of w)) (core_initialized (vcore_of w) k)) [].
Proof.
  intros Hcur. destruct (current_entry w k i Hcur) as (e & E & Ek & Ei). unfold set_initialized. rewrite E. apply does_some; [|by rewrite app_nil_r].
  unfold vcore_of, set_entry, core_load, core_initialized. cbn. f_equal. etrans; [apply (list_fmap_insert obj_of)|]. by rewrite <- Ek.
Qed.
Lemma initialized_does br w k i : c_cur (vcore_of w) = Some (k, i) ->
  does (w ← set_initialized w; InitLoaded br w) w (core_initialized (vcore_of w) k) [Replace WWHPanelFrame (mPanelFilename br k)].
Proof.
  intros Hcur. destruct (set_initialized_does w k i Hcur) as (w1 & E1 & Hc1 & Hl1). rewrite E1. cbn [mbind option_bind]. unfold InitLoaded, ClearScrollPosition.
  assert (Hcur1 : c_cur (vcore_of w1) = Some (k, true)) by (rewrite Hc1; exact (c_cur_initialized _ _ _ Hcur)).
  destruct (set_scroll_does w1 k true Hcur1 (0, 0)) as (w2 & E2 & Hc2 & Hl2). rewrite E2. cbn [mbind option_bind].
  assert (Hcur2 : c_cur (vcore_of (loading false w2)) = Some (k, true)) by (change (c_cur (vcore_of w2) = Some (k, true)); by rewrite Hc2).
  destruct (ReloadPanel_does br (loading false w2) k true Hcur2) as (w3 & E3 & Hc3 & Hl3). exists w3. split; [done|]. split.
  - rewrite Hc3. change (core_load true (vcore_of (loading false w2))) with (core_load true (vcore_of w2)). by rewrite Hc2, Hc1.
  - rewrite Hl3. change (louds (loading false w2)) with (louds w2). by rewrite Hl2, Hl1, !app_nil_r.
Qed.
Lemma ReloadNavigation_spec w :
  vcore_of (ReloadNavigation w) = (if c_loading (vcore_of w) then vcore_of w else core_only true true (vcore_of w)) /\
  louds (ReloadNavigation w) = louds w ++ (if c_loading (vcore_of w) then [] else [Replace WWHPanelNavigationFrame "panelnav.htm"]).
Proof.
  unfold ReloadNavigation. change (c_loading (vcore_of w)) with (mbLoading (w_panels w)). destruct (mbLoading (w_panels w)); [by rewrite app_nil_r|].
  by rewrite louds_ask.
Qed.
Lemma ReloadView_does br prefix w k i : c_cur (vcore_of w) = Some (k, i) ->
  if c_loading (vcore_of w) then does (ReloadView br prefix w) w (vcore_of w) []
  else exists script, does (ReloadView br prefix w) w (core_load true (vcore_of w)) [RunReplace script].
Proof.
  intros Hcur. unfold ReloadView. change (c_loading (vcore_of w)) with (mbLoading (w_panels w)). destruct (mbLoading (w_panels w)); [apply does_same|].
  destruct (SaveScrollPosition_does br w k i Hcur) as (w1 & E1 & Hc1 & Hl1). rewrite E1. cbn [mbind option_bind].
  assert (Hcur1 : c_cur (vcore_of (ask HidePopup (loading true w1))) = Some (k, i)) by (change (c_cur (vcore_of w1) = Some (k, i)); by rewrite Hc1).
  destruct (view_reference br _ k i Hcur1) as [r Er]. rewrite Er. cbn [mbind option_bind]. eexists. eexists. split; [reflexivity|]. split.
  - change (core_load true (vcore_of w1) = core_load true (vcore_of w)). by rewrite Hc1.
  - rewrite louds_ask, louds_ask. change (louds (loading true w1)) with (louds w1). rewrite Hl1. by rewrite !app_nil_r.
Qed.
Lemma vcore_name accessible f w : vcore_of (name_frame accessible f w) = vcore_of w /\ louds (name_frame accessible f w) = louds w.
Proof. unfold name_frame. destruct accessible; [|done]. split; [done|]. by rewrite louds_ask, app_nil_r. Qed.
Lemma PanelNavigationLoaded_does accessible w k i : c_cur (vcore_of w) = Some (k, i) ->
  if c_only (vcore_of w) then does (PanelNavigationLoaded accessible w) w (core_only false false (vcore_of w)) []
  else does (PanelNavigationLoaded accessible w) w (vcore_of w) [Replace WWHPanelViewFrame "panelvie.htm"].
Proof.
  intros Hcur. unfold PanelNavigationLoaded. destruct (current_object w k i Hcur) as [a ->]. cbn [mbind option_bind].
  destruct (vcore_name accessible WWHPanelNavigationFrame w) as [Hc Hl]. set (w1 := name_frame accessible WWHPanelNavigationFrame w) in *. clearbody w1.
  change (c_only (vcore_of w)) with (mbReloadOnlyNavigation (w_panels w)). destruct (mbReloadOnlyNavigation (w_panels w)).
  - apply does_some; [change (core_only false false (vcore_of w1) = core_only false false (vcore_of w)); by rewrite Hc|].
    etrans; [apply (louds_ask (NavigationLoaded _) (loading false w1))|]. change (louds (loading false w1)) with (louds w1). by rewrite Hl.
  - apply does_some; [exact Hc|]. rewrite !louds_ask, Hl. cbn [loud o_kind]. by rewrite app_nil_r.
Qed.
(** The end of loading: the change of tabs ends too, when there was one. *)
Definition core_shown (c : vcore) : vcore :=
  if c_changing c then VCore (c_panel c) (c_objs c) false false (c_only c) false false (c_tab c) else core_load false c.
Lemma PanelViewLoaded_does br accessible w k i : c_cur (vcore_of w) = Some (k, i) ->
  does (PanelViewLoaded br accessible w) w (core_shown (vcore_of w)) [].
Proof.
  intros Hcur. unfold PanelViewLoaded. destruct (vcore_name accessible WWHPanelViewFrame w) as [Hc Hl]. set (w1 := name_frame accessible WWHPanelViewFrame w) in *. clearbody w1.
  assert (Hcur1 : c_cur (vcore_of (loading false w1)) = Some (k, i)) by (change (c_cur (vcore_of w1) = Some (k, i)); by rewrite Hc).
  destruct (RestoreScrollPosition_does br (loading false w1) k i Hcur1) as (w2 & E2 & Hc2 & Hl2). rewrite E2. cbn [mbind option_bind].
  assert (Hcur2 : c_cur (vcore_of w2) = Some (k, i)) by (by rewrite Hc2). destruct (view_reference br w2 k i Hcur2) as [r ->]. cbn [mbind option_bind].
  destruct (current_object w2 k i Hcur2) as [a ->]. cbn [mbind option_bind o_kind].
  assert (Hl' : louds w2 = louds w) by (rewrite Hl2, app_nil_r; exact Hl). assert (Hc' : vcore_of w2 = core_load false (vcore_of w)).
  { rewrite Hc2. change (vcore_of (loading false w1)) with (core_load false (vcore_of w1)). by rewrite Hc. }
  set (w3 := ask (ViewLoaded k) (ask (SetPopupWindow r) w2)). assert (Hc3 : vcore_of w3 = core_load false (vcore_of w)) by exact Hc'.
  assert (Hl3 : louds w3 = louds w) by (unfold w3; rewrite !louds_ask, Hl'; by rewrite !app_nil_r). clearbody w3.
  assert (Ech : mbChangingPanels (w_panels w3) = c_changing (vcore_of w)) by (change (c_changing (vcore_of w3) = c_changing (vcore_of w)); by rewrite Hc3). rewrite Ech.
  unfold core_shown. destruct (c_changing (vcore_of w)) eqn:Ec.
  - apply does_some.
    + change (vcore_of (changing_panels false (EndChangeTab w3))) with
        (VCore (c_panel (vcore_of w3)) (c_objs (vcore_of w3)) false (c_loading (vcore_of w3)) (c_only (vcore_of w3)) false false (c_tab (vcore_of w3))). by rewrite Hc3.
    + unfold EndChangeTab. set (t := Tabs _ _ _ _ _). etrans; [exact (louds_ask RunAutoSync (set_tabs t w3))|]. cbn [loud]. by rewrite louds_tabs, Hl3.
  - apply does_some; [by rewrite Hc3|by rewrite Hl3, app_nil_r].
Qed.
(** ** Tabs *)
Lemma StartChangeTab_spec j w : let c := vcore_of w in
  if negb (c_tabs c) && negb (c_tab c =? j)
  then vcore_of (StartChangeTab j w) = core_tab (c_clicked c) true j c /\ louds (StartChangeTab j w) = louds w ++ [Replace WWHTabsFrame "tabs.htm"]
  else StartChangeTab j w = w.
Proof.
  cbn zeta. unfold StartChangeTab. change (c_tabs (vcore_of w)) with (mbChangingTabs (w_tabs w)). change (c_tab (vcore_of w)) with (mCurrentTab (w_tabs w)).
  destruct (negb (mbChangingTabs (w_tabs w)) && negb (mCurrentTab (w_tabs w) =? j)); [|done]. by rewrite louds_ask, louds_tabs.
Qed.
Lemma ClickedChangeTab_spec j w : let c := vcore_of w in
  if c_clicked c then ClickedChangeTab j w = w
  else if negb (c_tabs c) && negb (c_tab c =? j)
  then vcore_of (ClickedChangeTab j w) = core_tab true true j c /\ louds (ClickedChangeTab j w) = louds w ++ [Replace WWHTabsFrame "tabs.htm"]
  else vcore_of (ClickedChangeTab j w) = core_tab true (c_tabs c) (c_tab c) c /\ louds (ClickedChangeTab j w) = louds w.
Proof.
  cbn zeta. unfold ClickedChangeTab. change (c_clicked (vcore_of w)) with (mbClickedChangeTab (w_tabs w)). destruct (mbClickedChangeTab (w_tabs w)); [done|].
  set (w1 := set_tabs _ w). assert (H := StartChangeTab_spec j w1). cbn zeta in H.
  change (c_tabs (vcore_of w1)) with (c_tabs (vcore_of w)) in H. change (c_tab (vcore_of w1)) with (c_tab (vcore_of w)) in H.
  destruct (negb (c_tabs (vcore_of w)) && negb (c_tab (vcore_of w) =? j)); [exact H|]. by rewrite H.
Qed.
