(* ===== verification/HelpFramesLive.v ===== *)
(** * A change of tabs comes to its end
    While no page of the tabs arrives during the loading of a panel, and no timer clicks on
    the tab that is shown, every reachable state is [good]; then, whatever is on its way,
    the panel of the tab that was chosen last is shown when all has arrived. *)
From S2P Require Import Prelude JsString JsNum JsVal HelpString HelpBooks HelpBrowser HelpPanels HelpFrames HelpFramesCore.
Open Scope Z_scope.
#[local] Set Warnings "-clear-no-such-hyp".

(** ** What is on its way: the page of the tabs or not, and one page of the panel or none *)
Abbreviation tabs_page := (WWHTabsFrame, "tabs.htm").
Inductive shape : bool -> option (frame * string) -> list (frame * string) -> Prop :=
| shape_none : shape false None []
| shape_tabs : shape true None [tabs_page]
| shape_panel f file : f <> WWHTabsFrame -> shape false (Some (f, file)) [(f, file)]
| shape_tabs_panel f file : f <> WWHTabsFrame -> shape true (Some (f, file)) [tabs_page; (f, file)]
| shape_panel_tabs f file : f <> WWHTabsFrame -> shape true (Some (f, file)) [(f, file); tabs_page].
Lemma displaced_tabs f : f <> WWHTabsFrame -> displaced f WWHTabsFrame = false /\ displaced WWHTabsFrame f = false.
Proof. by destruct f. Qed.
Lemma start_panel t l f file : shape t None l -> f <> WWHTabsFrame -> shape t (Some (f, file)) (start_load f file l).
Proof. intros H Hf. destruct (displaced_tabs f Hf) as [E _]. inv H; unfold start_load; cbn [List.filter fst]; rewrite ?E; by constructor. Qed.
Lemma start_tabs p l : shape false p l -> shape true p (start_load WWHTabsFrame "tabs.htm" l).
Proof. intros H. inv H as [| |f file Hf| |]; unfold start_load; cbn [List.filter fst]; [constructor|]. destruct (displaced_tabs f Hf) as [_ E]. rewrite E. by constructor. Qed.
Lemma after_tabs p l : shape true p l -> shape false p (after_load WWHTabsFrame l).
Proof.
  intros H. inv H as [| | |f file Hf|f file Hf]; unfold after_load; cbn [List.filter fst]; [constructor| |];
    rewrite (bool_decide_eq_false_2 (f = WWHTabsFrame)) by done; by constructor.
Qed.
Lemma after_panel t f file l : shape t (Some (f, file)) l -> shape t None (after_load f l).
Proof.
  intros H. inv H; unfold after_load; cbn [List.filter fst]; rewrite ?(bool_decide_eq_true_2 (f = f)) by done; rewrite ?(bool_decide_eq_false_2 (WWHTabsFrame = f)) by done; constructor.
Qed.
Lemma find_tabs t p l : shape t p l -> find_load WWHTabsFrame l = if t then Some "tabs.htm" else None.
Proof. intros H. inv H as [| |f file Hf|f file Hf|f file Hf]; unfold find_load; cbn [List.find fst]; rewrite ?(bool_decide_eq_false_2 (f = WWHTabsFrame)) by done; done. Qed.
Lemma find_panel t p l f : shape t p l -> f <> WWHTabsFrame -> find_load f l = match p with Some (g, file) => if decide (g = f) then Some file else None | None => None end.
Proof.
  intros H Hf. inv H as [| |g file Hg|g file Hg|g file Hg]; unfold find_load; cbn [List.find fst]; rewrite ?(bool_decide_eq_false_2 (WWHTabsFrame = f)) by done; try done;
    destruct (decide (g = f)) as [->|Hne]; rewrite ?(bool_decide_eq_true_2 (f = f)), ?(bool_decide_eq_false_2 (g = f)) by done; done.
Qed.
Lemma next_shape t p l : shape t p l -> next_load l = match p with Some (f, _) => Some f | None => if t then Some WWHTabsFrame else None end.
Proof. intros H. inv H as [| |g file Hg|g file Hg|g file Hg]; unfold next_load; cbn; rewrite ?(bool_decide_eq_false_2 (g = WWHTabsFrame)) by done; done. Qed.

Section live.
Context (br : browser) (accessible : bool) (prefix : string) (labels : tab_labels) (settings : tab_settings).
Context (Hlabels : mTabsTOCLabel labels <> mTabsFavoritesLabel labels).

Definition view_frame (k : panel_kind) : frame := if decide (k = Contents) then WWHPanelFrame else WWHPanelViewFrame.
Definition core_frame (c : vcore) (f : frame) : frame :=
  match f, c_cur c with WWHPanelViewFrame, Some (k, _) => view_frame k | _, _ => f end.
Lemma filename_contents k : String.eqb (mPanelFilename br k) "panelvie.htm" = bool_decide (k = Contents).
Proof. unfold mPanelFilename. by destruct k, (b_mBrowser br =? 1). Qed.
Lemma real_frame_core w f : real_frame br w f = core_frame (vcore_of w) f.
Proof.
  unfold real_frame, core_frame, GetCurrentPanelObject, GetCurrentPanelEntry, c_cur. cbn [vcore_of c_objs c_panel]. rewrite at_index_map.
  destruct f, (at_index (mPanelEntries (w_panels w)) (mCurrentPanel (w_panels w))) as [e|]; try done. cbn [fmap option_fmap option_map]. rewrite filename_contents. unfold obj_of, view_frame. case_decide; case_bool_decide; done.
Qed.
(** What loud requests lead to. *)
Definition core_carry (c : vcore) (x : list (frame * string) * list Z) (e : asked_for) : list (frame * string) * list Z :=
  let '(l, cl) := x in
  match e with
  | Replace f file => (start_load (core_frame c f) file l, cl)
  | RunReplace _ => (start_load (core_frame c WWHPanelViewFrame) "panelvie.htm" l, cl)
  | RunClick i => (l, cl ++ [i])
  | _ => x
  end.
Definition flow_of (s : frames) : list (frame * string) * list Z := (loads s, clicks s).
Lemma carry_all c l : forall s, vcore_of (f_viewer s) = c -> asked (f_viewer s) = [] ->
  let s' := fold_left (carry_out br) l s in
  vcore_of (f_viewer s') = c /\ asked (f_viewer s') = [] /\ drawn s' = drawn s /\ flow_of s' = fold_left (core_carry c) (List.filter loud l) (flow_of s).
Proof.
  induction l as [|e l IH]; intros s Hc Ha; [done|]. cbn [fold_left List.filter]. cbn zeta.
  assert (H : vcore_of (f_viewer (carry_out br s e)) = c /\ asked (f_viewer (carry_out br s e)) = [] /\ drawn (carry_out br s e) = drawn s /\
    flow_of (carry_out br s e) = if loud e then core_carry c (flow_of s) e else flow_of s).
  { destruct e; cbn [carry_out loud]; rewrite ?real_frame_core, ?Hc; done. }
  destruct H as (Hc' & Ha' & Hd & Hf). destruct (IH _ Hc' Ha') as (IH1 & IH2 & IH3 & IH4). split_and!; [done|done|by rewrite IH3|]. rewrite IH4, Hf. by destruct (loud e).
Qed.
Lemma with_viewer_spec w s :
  vcore_of (f_viewer (with_viewer br w s)) = vcore_of w /\ asked (f_viewer (with_viewer br w s)) = [] /\ drawn (with_viewer br w s) = drawn s /\
  flow_of (with_viewer br w s) = fold_left (core_carry (vcore_of w)) (louds w) (flow_of s).
Proof. by apply (carry_all (vcore_of w) (asked w)). Qed.

(** ** Good states *)

(** A page of the panel that is on its way, and how many pages will have arrived at the end. *)
Inductive plan (k : panel_kind) : bool -> bool -> frame * string -> nat -> Prop :=
| plan_message i : plan k i false (WWHPanelFrame, "panelmsg.htm") 5
| plan_init i : plan k i false (WWHPanelFrame, "panelini.htm") 4
| plan_file : k <> Contents -> plan k true false (WWHPanelFrame, mPanelFilename br k) 3
| plan_navigation : k <> Contents -> plan k true false (WWHPanelNavigationFrame, "panelnav.htm") 2
| plan_only : k <> Contents -> plan k true true (WWHPanelNavigationFrame, "panelnav.htm") 1
| plan_view : plan k true false (view_frame k, "panelvie.htm") 1.
Definition on_its_way (k : panel_kind) (i : bool) (c : vcore) (p : option (frame * string)) (n : nat) : Prop :=
  match p with
  | None => c_loading c = false /\ c_only c = false /\ n = O
  | Some x => c_loading c = true /\ plan k i (c_only c) x n
  end.
Definition tab_exists (c : vcore) (j : Z) : Prop := is_Some (at_index (c_objs c) j).
Record consistent (c : vcore) (i t : bool) (d : option Z) : Prop := {
  con_changing : c_changing c = true -> c_loading c = true /\ c_only c = false /\ c_panel c = c_tab c /\ t = false;
  con_tabs : t = true -> c_tabs c = true;
  con_progress : c_tabs c = true -> t = true \/ c_changing c = true;
  con_rest : c_tabs c = false -> c_tab c = c_panel c /\ i = true /\ c_clicked c = false /\ c_changing c = false;
  con_drawn : t = false -> d = Some (c_tab c);
  con_other : t = true -> c_loading c = true \/ i = true -> c_tab c <> c_panel c
}.
Definition good_core (c : vcore) (x : list (frame * string) * list Z) (d : option Z) (n : nat) : Prop :=
  exists k i t p m, c_cur c = Some (k, i) /\ shape t p (fst x) /\ on_its_way k i c p m /\ n = (m + (if t then 6 else 0))%nat /\
    tab_exists c (c_tab c) /\ Forall (tab_exists c) (snd x) /\ consistent c i t d.
(** [n] pages at most are still to arrive. *)
Definition good (n : nat) (s : frames) : Prop := asked (f_viewer s) = [] /\ good_core (vcore_of (f_viewer s)) (flow_of s) (drawn s) n.
(** The state is shown by what a handler did. *)
Lemma good_after n s0 w c l : asked (f_viewer s0) = [] -> vcore_of w = c -> louds w = l ->
  good_core c (fold_left (core_carry c) l (flow_of s0)) (drawn s0) n -> good n (with_viewer br w s0).
Proof. intros Ha Hc Hl H. destruct (with_viewer_spec w s0) as (E1 & E2 & E3 & E4). split; [done|]. by rewrite E1, E3, E4, Hc, Hl. Qed.

Lemma happen_does a s c l n : enabled a s = true -> asked (f_viewer s) = [] -> asked (f_viewer (taken a s)) = [] ->
  does (react br accessible prefix labels settings a s) (f_viewer s) c l ->
  good_core c (fold_left (core_carry c) l (flow_of (taken a s))) (drawn (taken a s)) n ->
  exists s', happen br accessible prefix labels settings a s = Some s' /\ good n s' /\ vcore_of (f_viewer s') = c.
Proof.
  intros He Ha Ht (w' & E & Hc & Hl) Hg. unfold happen. rewrite He, E. cbn [mbind option_bind]. eexists. split; [done|].
  assert (Hl' : louds w' = l) by (rewrite Hl; unfold louds; by rewrite Ha). split; [by apply (good_after n _ w' c l)|].
  destruct (with_viewer_spec w' (taken a s)) as (-> & _). done.
Qed.
Lemma tab_exists_insert c k j : is_Some (c_objs c !! Z.to_nat (c_panel c)) -> tab_exists c j -> tab_exists (core_initialized c k) j.
Proof.
  unfold tab_exists, core_initialized, at_index. cbn [c_objs]. destruct (j <? 0); [done|]. intros _ [o Ho].
  apply lookup_lt_is_Some. rewrite length_insert. by eapply lookup_lt_Some.
Qed.
(** The page that is loaded into the panel's frame. *)
Lemma plan_first k (i : bool) : exists m, plan k i false (WWHPanelFrame, if i then mPanelFilename br k else "panelmsg.htm") m /\ (m <= 5)%nat /\ (i = true -> (m <= 3)%nat).
Proof.
  destruct i; [|by exists 5%nat; split_and!; [constructor|lia|]]. destruct (decide (k = Contents)) as [->|Hne].
  - exists 1%nat. split_and!; [exact (plan_view Contents)|lia|lia].
  - exists 3%nat. split_and!; [by constructor|lia|lia].
Qed.
Lemma plan_frame k i o f file m : plan k i o (f, file) m -> f <> WWHTabsFrame /\ (0 < m)%nat.
Proof. intros H. inv H; split; try done; try lia. unfold view_frame. by case_decide. Qed.
Lemma page_frame_set k w : k <> Contents -> page_loaded br accessible (mPanelFilename br k) w = Some (ask (Replace WWHPanelNavigationFrame "panelnav.htm") w).
Proof. intros Hk. unfold mPanelFilename. by destruct k, (b_mBrowser br =? 1). Qed.

Lemma shape_det t p t' p' l : shape t p l -> shape t' p' l -> t' = t /\ p' = p.
Proof.
  intros H H'. assert (E1 := find_tabs _ _ _ H). rewrite (find_tabs _ _ _ H') in E1. assert (E2 := next_shape _ _ _ H). rewrite (next_shape _ _ _ H') in E2.
  assert (t' = t) as -> by (destruct t, t'; done). split; [done|].
  inv H; inv H'; done.
Qed.
(** A page that arrives: what its handler does, and what is on its way then. *)
Lemma arrives f file s t p n' c l : asked (f_viewer s) = [] -> shape t p (loads s) -> find_load f (loads s) = Some file ->
  does (page_loaded br accessible file (f_viewer s)) (f_viewer s) c l ->
  good_core c (fold_left (core_carry c) l (after_load f (loads s), clicks s)) (if decide (f = WWHTabsFrame) then Some (c_tab (vcore_of (f_viewer s))) else drawn s) n' ->
  exists s', happen br accessible prefix labels settings (Loaded f) s = Some s' /\ good n' s' /\ vcore_of (f_viewer s') = c.
Proof.
  intros Ha Hsh Hf Hd Hg. apply (happen_does _ _ c l); try done.
  - cbn [enabled]. rewrite Hf. by apply bool_decide_eq_true_2.
  - cbn [react]. rewrite Hf. exact Hd.
Qed.
Ltac bool_vars := repeat match goal with E : true = ?x |- _ => is_var x; destruct E | E : false = ?x |- _ => is_var x; destruct E end.
(** A page of the panel arrives. *)
Lemma panel_arrives n s t f file : good n s -> shape t (Some (f, file)) (loads s) ->
  exists n' s', happen br accessible prefix labels settings (Loaded f) s = Some s' /\ good n' s' /\ (n' < n)%nat /\ c_tab (vcore_of (f_viewer s')) = c_tab (vcore_of (f_viewer s)).
Proof.
  intros [Ha (k & i & t' & p & m & Hcur & Hsh & How & -> & Htab & Hcl & Hcon)] Hsh'. cbn [flow_of fst snd] in *.
  destruct (shape_det _ _ _ _ _ Hsh' Hsh) as [-> ->]. destruct How as [Hld Hp]. set (c := vcore_of (f_viewer s)) in *.
  destruct (plan_frame _ _ _ _ _ _ Hp) as [Hf Hm]. assert (Haf := after_panel _ _ _ _ Hsh).
  assert (Hfind : find_load f (loads s) = Some file) by (rewrite (find_panel _ _ _ f Hsh Hf); by rewrite decide_True).
  assert (Hgo : forall c' l m', does (page_loaded br accessible file (f_viewer s)) (f_viewer s) c' l ->
    good_core c' (fold_left (core_carry c') l (after_load f (loads s), clicks s)) (drawn s) (m' + (if t then 6 else 0)) -> (m' < m)%nat -> c_tab c' = c_tab c ->
    exists n' s', happen br accessible prefix labels settings (Loaded f) s = Some s' /\ good n' s' /\ (n' < m + (if t then 6 else 0))%nat /\ c_tab (vcore_of (f_viewer s')) = c_tab c).
  { intros c' l m' Hd Hg Hlt Hct. destruct (arrives f file s t _ (m' + (if t then 6 else 0)) c' l Ha Hsh Hfind Hd) as (s' & E & Hg' & Hc').
    - by rewrite decide_False.
    - exists (m' + (if t then 6 else 0))%nat, s'. split_and!; [done|done|lia|by rewrite Hc']. }
  assert (Hnext : forall k' i' file' m', c_cur c = Some (k', i') -> forall g, g <> WWHTabsFrame -> core_frame c g <> WWHTabsFrame -> plan k' i' (c_only c) (core_frame c g, file') m' -> i' = i ->
    good_core c (fold_left (core_carry c) [Replace g file'] (after_load f (loads s), clicks s)) (drawn s) (m' + (if t then 6 else 0))).
  { intros k' i' file' m' Hcur' g _ Hg Hp' ->. exists k', i, t, (Some (core_frame c g, file')), m'. split_and!; try done. by apply start_panel. }
  assert (Eo : exists o, o = c_only c /\ plan k i o (f, file) m) by (by exists (c_only c)). clear Hp. destruct Eo as (o & Eo & Hp).
  assert (Hsnext : forall g file' m', core_frame c g <> WWHTabsFrame -> plan k i o (core_frame c g, file') m' ->
    good_core c (fold_left (core_carry c) [Replace g file'] (after_load f (loads s), clicks s)) (drawn s) (m' + (if t then 6 else 0))).
  { intros g file' m' Hg Hp'. rewrite Eo in Hp'. exists k, i, t, (Some (core_frame c g, file')), m'. split_and!; try done. by apply start_panel. }
  clear Hnext. inversion Hp; subst f file m; bool_vars.
  - (* panelmsg.htm *)
    apply (Hgo c [Replace WWHPanelFrame "panelini.htm"] 4%nat); [by apply does_some; [|rewrite louds_ask]| |lia|done].
    apply Hsnext; [done|]. constructor.
  - (* panelini.htm *)
    destruct (plan_first k true) as (m' & Hp' & _ & Hm'). specialize (Hm' eq_refl).
    apply (Hgo (core_initialized c k) [Replace WWHPanelFrame (mPanelFilename br k)] m'); [by eapply initialized_does| |lia|done].
    destruct (c_cur_index _ _ Hcur) as [Hix _].
    exists k, true, t, (Some (WWHPanelFrame, mPanelFilename br k)), m'. split_and!; try done.
    + by apply c_cur_initialized with (i := i).
    + by apply start_panel.
    + split; [done|]. change (c_only (core_initialized c k)) with (c_only c). by rewrite <- Eo.
    + apply tab_exists_insert; [by eexists|done].
    + cbn [fold_left core_carry snd]. apply (Forall_impl _ _ _ Hcl). intros j Hj. apply tab_exists_insert; [by eexists|done].
    + destruct Hcon as [C1 C2 C3 C4 C5 C6]. split; [intros E; by destruct (C1 E) as (? & ? & ? & ?)|exact C2|exact C3|intros E; by destruct (C4 E) as (? & _ & ? & ?)|exact C5|intros E _; apply (C6 E); by left].
  - (* a frame set *)
    apply (Hgo c [Replace WWHPanelNavigationFrame "panelnav.htm"] 2%nat); [rewrite page_frame_set by done; by apply does_some; [|rewrite louds_ask]| |lia|done].
    apply Hsnext; [done|]. by constructor.
  - (* panelnav.htm *)
    assert (Hd := PanelNavigationLoaded_does accessible (f_viewer s) k _ Hcur). fold c in Hd. rewrite <- Eo in Hd.
    apply (Hgo c [Replace WWHPanelViewFrame "panelvie.htm"] 1%nat); [exact Hd| |lia|done].
    assert (Ev : core_frame c WWHPanelViewFrame = view_frame k) by (unfold core_frame; by rewrite Hcur).
    apply Hsnext; [|rewrite Ev; constructor]. rewrite Ev. unfold view_frame. by case_decide.
  - (* panelnav.htm alone *)
    assert (Hd := PanelNavigationLoaded_does accessible (f_viewer s) k _ Hcur). fold c in Hd. rewrite <- Eo in Hd.
    apply (Hgo (core_only false false c) [] 0%nat); [exact Hd| |lia|done].
    exists k, true, t, None, 0%nat. split_and!; try done. destruct Hcon as [C1 C2 C3 C4 C5 C6]. split; try done; [cbn; intros E; destruct (C1 E) as (_ & E' & _); congruence|intros E _; apply (C6 E); by right].
  - (* panelvie.htm *)
    apply (Hgo (core_shown c) [] 0%nat); [by eapply PanelViewLoaded_does| |lia|unfold core_shown; by destruct (c_changing c)].
    unfold core_shown. destruct (c_changing c) eqn:Ec; destruct Hcon as [C1 C2 C3 C4 C5 C6].
    + destruct (C1 Ec) as (_ & E2 & E3 & ->). exists k, true, false, None, 0%nat. split_and!; try done.
    + exists k, true, t, None, 0%nat. split_and!; try done. split; [intros E; exfalso; change (c_changing c = true) in E; congruence|exact C2|exact C3|exact C4|exact C5|intros E _; apply (C6 E); by left].
Qed.
(** The page of the tabs arrives while no panel is loaded. *)
Lemma tabs_arrive n s : good n s -> shape true None (loads s) ->
  exists n' s', happen br accessible prefix labels settings (Loaded WWHTabsFrame) s = Some s' /\ good n' s' /\ (n' < n)%nat /\ c_tab (vcore_of (f_viewer s')) = c_tab (vcore_of (f_viewer s)).
Proof.
  intros [Ha (k & i & t' & p & m & Hcur & Hsh & How & -> & Htab & Hcl & Hcon)] Hsh'. cbn [flow_of fst snd] in *.
  destruct (shape_det _ _ _ _ _ Hsh' Hsh) as [-> ->]. destruct How as (Hld & Ho & ->). assert (Htab' := Htab). destruct Htab' as [[k' i'] Ho'].
  destruct (vcore_name accessible WWHTabsFrame (f_viewer s)) as [Hc Hl]. set (w := name_frame accessible WWHTabsFrame (f_viewer s)) in *.
  assert (Hcurw : c_cur (vcore_of w) = Some (k, i)) by (by rewrite Hc). assert (How : at_index (c_objs (vcore_of w)) (c_tab (vcore_of (f_viewer s))) = Some (k', i')) by (by rewrite Hc).
  assert (Hd := ChangePanel_does br w k i _ k' i' Hcurw How). cbn zeta in Hd. rewrite Hc in Hd. set (c := vcore_of (f_viewer s)) in *. rewrite Hld in Hd.
  destruct (c_changing c) eqn:Ec; destruct Hcon as [C1 C2 C3 C4 C5 C6]; [by destruct (C1 Ec) as (E & _); congruence|]. cbn [negb andb] in Hd.
  destruct (plan_first k' i') as (m' & Hp' & Hm' & _). set (c' := VCore (c_tab c) (c_objs c) true true (c_only c) (c_clicked c) (c_tabs c) (c_tab c)) in *.
  destruct (arrives WWHTabsFrame "tabs.htm" s true None m' c' [Replace WWHPanelFrame (if i' then mPanelFilename br k' else "panelmsg.htm")] Ha Hsh) as (s' & E & Hg & Hc').
  - exact (find_tabs _ _ _ Hsh).
  - destruct Hd as (w' & E & E1 & E2). exists w'. split_and!; [exact E|done|by rewrite E2, Hl].
  - rewrite decide_True by done. exists k', i', false, (Some (WWHPanelFrame, if i' then mPanelFilename br k' else "panelmsg.htm")), m'. split_and!; try done.
    + cbn. apply (start_panel false); [|done]. by apply after_tabs.
    + split; [done|]. change (c_only c') with (c_only c). by rewrite Ho.
    + split; try done; [|intros E; exfalso; change (c_tabs c = false) in E; rewrite (C2 eq_refl) in E; done]. intros _. by right.
  - exists m', s'. split_and!; [done|done|lia|by rewrite Hc'].
Qed.
(** ** Everything arrives *)
Definition shown (s : frames) (i : Z) : Prop :=
  let c := vcore_of (f_viewer s) in
  loads s = [] /\ c_panel c = i /\ c_tab c = i /\ c_clicked c = false /\ IsReady (f_viewer s) = true /\ drawn s = Some i /\ exists k, c_cur c = Some (k, true).
Lemma nothing_left n s : good n s -> loads s = [] -> shown s (c_tab (vcore_of (f_viewer s))).
Proof.
  intros [Ha (k & i & t & p & m & Hcur & Hsh & How & -> & Htab & Hcl & Hcon)] El. cbn [flow_of fst] in Hsh. rewrite El in Hsh. inv Hsh. destruct How as (Hld & Ho & ->).
  destruct Hcon as [C1 C2 C3 C4 C5 C6]. set (c := vcore_of (f_viewer s)) in *.
  assert (Ech : c_changing c = false) by (apply not_true_is_false; intros E; destruct (C1 E) as (E' & _); congruence).
  assert (Et : c_tabs c = false) by (apply not_true_is_false; intros E; destruct (C3 E); congruence). destruct (C4 Et) as (E1 & -> & E3 & _).
  unfold shown. cbn zeta. fold c. split_and!; try done; [|by apply C5|by exists k]. unfold IsReady.
  change (negb (c_tabs c || c_changing c || c_loading c) = true). by rewrite Et, Ech, Hld.
Qed.
Lemma settles n : forall s m, good n s -> (n <= m)%nat ->
  exists s', settle br accessible prefix labels settings m s = Some s' /\ good 0 s' /\ shown s' (c_tab (vcore_of (f_viewer s))).
Proof.
  induction n as [n IH] using lt_wf_ind. intros s m Hg Hm. assert (Hg' := Hg). destruct Hg' as [Ha (k & i & t & p & q & Hcur & Hsh & How & En & Htab & Hcl & Hcon)]. cbn [flow_of fst snd] in *.
  assert (Hn := next_shape _ _ _ Hsh).
  assert (Hstep : forall f n' s', next_load (loads s) = Some f -> happen br accessible prefix labels settings (Loaded f) s = Some s' -> good n' s' -> (n' < n)%nat ->
    c_tab (vcore_of (f_viewer s')) = c_tab (vcore_of (f_viewer s)) -> exists s'', settle br accessible prefix labels settings m s = Some s'' /\ good 0 s'' /\ shown s'' (c_tab (vcore_of (f_viewer s)))).
  { intros f n' s' En' Eh Hg' Hlt Et. destruct m as [|m]; [lia|]. cbn [settle]. rewrite En', Eh. cbn [mbind option_bind]. rewrite <- Et. apply (IH n'); [done|done|lia]. }
  destruct p as [[f file]|].
  - destruct (panel_arrives n s t f file Hg Hsh) as (n' & s' & E & Hg' & Hlt & Et). by apply (Hstep f n' s').
  - destruct t.
    + destruct (tabs_arrive n s Hg Hsh) as (n' & s' & E & Hg' & Hlt & Et). by apply (Hstep WWHTabsFrame n' s').
    + inv Hsh. match goal with E : [] = loads s |- _ => symmetry in E; rename E into El end. destruct How as (_ & _ & ->).
      exists s. split; [destruct m; [done|]; cbn [settle]; by rewrite El|]. split; [exact Hg|by eapply nothing_left].
Qed.
(** ** What the reader and the other parts do *)
Lemma good_bound n s : good n s -> (n <= 11)%nat.
Proof. intros [_ (k & i & t & p & m & _ & _ & How & -> & _)]. assert ((m <= 5)%nat); [|destruct t; lia]. destruct p as [x|]; [destruct How as [_ H]; inv H; lia|destruct How as (_ & _ & ->); lia]. Qed.
Lemma happen_good a s n : enabled a s = true -> asked (f_viewer (taken a s)) = [] ->
  (exists w', react br accessible prefix labels settings a s = Some w' /\
     good_core (vcore_of w') (fold_left (core_carry (vcore_of w')) (louds w') (flow_of (taken a s))) (drawn (taken a s)) n) ->
  exists s', happen br accessible prefix labels settings a s = Some s' /\ good n s'.
Proof. intros He Ha (w' & E & Hg). unfold happen. rewrite He, E. cbn [mbind option_bind]. eexists. split; [done|]. by eapply good_after. Qed.
Lemma happen_quiet a s n : good n s -> enabled a s = true -> taken a s = s ->
  does (react br accessible prefix labels settings a s) (f_viewer s) (vcore_of (f_viewer s)) [] ->
  exists s', happen br accessible prefix labels settings a s = Some s' /\ good n s'.
Proof.
  intros [Ha Hg] He Ht (w' & E & Hc & Hl). apply happen_good; rewrite ?Ht; try done. exists w'. split; [done|]. rewrite Hc, Hl. unfold louds. by rewrite Ha.
Qed.
(** A tab is begun. *)
Lemma start_good c x d n j b : good_core c x d n -> tab_exists c j -> c_tabs c = false -> c_tab c <> j ->
  exists n', good_core (core_tab b true j c) (fold_left (core_carry (core_tab b true j c)) [Replace WWHTabsFrame "tabs.htm"] x) d n'.
Proof.
  intros (k & i & t & p & m & Hcur & Hsh & How & -> & Htab & Hcl & [C1 C2 C3 C4 C5 C6]) Hj Et Hne. destruct (C4 Et) as (E1 & -> & E2 & E3).
  assert (t = false) as -> by (apply not_true_is_false; intros E; rewrite (C2 E) in Et; done).
  exists (m + 6)%nat, k, true, true, p, m. destruct x as [l cl]. cbn [fst snd] in *. split_and!; try done.
  - cbn. by apply start_tabs.
  - split; try done; [|by left|].
    + intros E. exfalso. change (c_changing c = true) in E. congruence.
    + intros _ _. cbn. congruence.
Qed.
Lemma click_good c x d n j w : good_core c x d n -> tab_exists c j -> c_clicked c || c_tabs c || negb (c_tab c =? j) = true -> vcore_of w = c -> louds w = [] ->
  exists n', good_core (vcore_of (ClickedChangeTab j w)) (fold_left (core_carry (vcore_of (ClickedChangeTab j w))) (louds (ClickedChangeTab j w)) x) d n'.
Proof.
  intros Hg Hj Hc <- Hl. assert (H := ClickedChangeTab_spec j w). cbn zeta in H. set (c := vcore_of w) in *. destruct (c_clicked c) eqn:Ec.
  - rewrite H, Hl. by exists n.
  - destruct (c_tabs c) eqn:Et; cbn [negb andb orb] in *.
    + destruct H as [-> ->]. rewrite Hl. exists n. destruct Hg as (k & i & t & p & m & Hcur & Hsh & How & -> & Htab & Hcl & [C1 C2 C3 C4 C5 C6]).
      exists k, i, t, p, m. split_and!; try done. split; try done. intros _. exact (C3 Et).
    + rewrite Hc in H. destruct H as [-> ->]. rewrite Hl. apply (start_good c x d n); try done. by apply negb_true_iff, Z.eqb_neq in Hc.
Qed.
(** Not the page of the tabs while a panel is loaded, and no timer's click on the tab that is
    shown. *)
Definition careful (a : frame_action) (s : frames) : bool :=
  let w := f_viewer s in
  match a with
  | Loaded WWHTabsFrame => negb (mbLoading (w_panels w))
  | FireClick n =>
      match clicks s !! n with
      | Some j => mbClickedChangeTab (w_tabs w) || mbChangingTabs (w_tabs w) || negb (mCurrentTab (w_tabs w) =? j)
      | None => true
      end
  | _ => true
  end.
Lemma is_tab_exists j w : is_tab j w = true -> tab_exists (vcore_of w) j.
Proof.
  unfold is_tab, tab_exists. intros [H1 H2]%andb_true_iff. apply Z.leb_le in H1. apply Z.ltb_lt in H2. cbn [vcore_of c_objs]. rewrite at_index_map. apply fmap_is_Some.
  unfold at_index. destruct (Z.ltb_spec j 0); [lia|]. apply lookup_lt_is_Some. lia.
Qed.
Lemma mPanelTabIndex_exists w k : mPanelTabIndex w k <> -1 -> tab_exists (vcore_of w) (mPanelTabIndex w k).
Proof.
  unfold mPanelTabIndex. destruct (list_find _ _) as [[j e]|] eqn:E; [|done]. intros _.
  apply list_find_Some in E as (E & _ & _). unfold tab_exists. cbn [vcore_of c_objs]. rewrite at_index_map. unfold at_index. destruct (Z.ltb_spec (Z.of_nat j) 0); [lia|]. rewrite Nat2Z.id, E. by eexists.
Qed.
Abbreviation happens := (happen br accessible prefix labels settings).
Lemma louds_asked w : asked w = [] -> louds w = [].
Proof. unfold louds. by intros ->. Qed.
Lemma good_current n s : good n s -> exists k i, c_cur (vcore_of (f_viewer s)) = Some (k, i).
Proof. intros [_ (k & i & _ & _ & _ & Hcur & _)]. by exists k, i. Qed.
Lemma good_rest n s : good n s -> c_tabs (vcore_of (f_viewer s)) = false -> c_tab (vcore_of (f_viewer s)) = c_panel (vcore_of (f_viewer s)).
Proof. intros [_ (k & i & t & p & m & _ & _ & _ & _ & _ & _ & [_ _ _ C4 _ _])] E. by destruct (C4 E). Qed.
Lemma tab_click n s j : good n s -> enabled (ClickTab j) s = true -> exists n' s', happens (ClickTab j) s = Some s' /\ good n' s'.
Proof.
  intros Hg He. assert (Hg' := Hg). destruct Hg' as [Ha Hc]. cbn [enabled] in He. apply andb_true_iff in He as [Hj Hd].
  destruct (click_good _ _ _ _ j (f_viewer s) Hc) as [n' Hn']; [by apply is_tab_exists| |done|by apply louds_asked|].
  - destruct Hc as (k & i & t & p & m & Hcur & Hsh & How & -> & Htab & Hcl & [C1 C2 C3 C4 C5 C6]). destruct (drawn s) as [d|] eqn:Ed; [|done].
    destruct (c_tabs (vcore_of (f_viewer s))) eqn:Et; [by rewrite orb_true_r|]. assert (t = false) as -> by (apply not_true_is_false; intros E; specialize (C2 E); done).
    injection (C5 eq_refl) as ->. change (c_tab (vcore_of (f_viewer s))) with (mCurrentTab (w_tabs (f_viewer s))). by rewrite Hd, !orb_true_r.
  - destruct (happen_good (ClickTab j) s n') as (s' & E & Hs'); [by apply andb_true_iff|done|by eexists|]. by exists n', s'.
Qed.
Lemma timer_click n s m : good n s -> enabled (FireClick m) s = true -> careful (FireClick m) s = true -> exists n' s', happens (FireClick m) s = Some s' /\ good n' s'.
Proof.
  intros Hg He Hcare. assert (Hg' := Hg). destruct Hg' as [Ha Hc]. assert (He' := He). cbn [enabled] in He'. apply bool_decide_eq_true in He' as [j Ej]. cbn [careful] in Hcare. rewrite Ej in Hcare.
  assert (Hcl : good_core (vcore_of (f_viewer s)) (loads s, delete m (clicks s)) (drawn s) n).
  { destruct Hc as (k & i & t & p & q & Hcur & Hsh & How & -> & Htab & Hcl & Hcon). exists k, i, t, p, q. split_and!; try done. cbn [flow_of snd] in *.
    apply Forall_forall. intros x Hx. rewrite Forall_forall in Hcl. apply Hcl. rewrite delete_take_drop in Hx. apply elem_of_app in Hx as [Hx|Hx]; [by apply elem_of_take in Hx as (? & ?%list_elem_of_lookup_2 & _)|].
    apply list_elem_of_lookup in Hx as [y Hx]. rewrite lookup_drop in Hx. by eapply list_elem_of_lookup_2. }
  destruct (click_good _ _ _ _ j (f_viewer s) Hcl) as [n' Hn']; [| |done|by apply louds_asked|].
  - destruct Hc as (k & i & t & p & q & _ & _ & _ & _ & _ & Hall & _). rewrite Forall_forall in Hall. apply Hall. by eapply list_elem_of_lookup_2.
  - exact Hcare.
  - destruct (happen_good (FireClick m) s n') as (s' & E & Hs'); [done|done| |by exists n', s']. cbn [react]. rewrite Ej. by eexists.
Qed.
Lemma key_pressed n s can_sync name : good n s -> exists n' s', happens (Key can_sync name) s = Some s' /\ good n' s'.
Proof.
  intros Hg. assert (Hg' := Hg). destruct Hg' as [Ha Hc]. destruct (good_current n s Hg) as (k & i & Hcur). destruct (current_object _ _ _ Hcur) as [a Eo].
  assert (Hquiet : forall r, SetCurrentTab can_sync name (f_viewer s) = r -> does r (f_viewer s) (vcore_of (f_viewer s)) [] -> exists n' s', happens (Key can_sync name) s = Some s' /\ good n' s').
  { intros r Er Hd. destruct (happen_quiet (Key can_sync name) s n Hg) as (s' & E & Hs'); [done|done| |by exists n, s']. cbn [react]. by rewrite Er. }
  assert (Hshow : forall k' f, (forall x, loud (f x) = false) -> mPanelTabIndex (f_viewer s) k' <> -1 -> SetCurrentTab can_sync name (f_viewer s) = show_tab k' f (f_viewer s) ->
    exists n' s', happens (Key can_sync name) s = Some s' /\ good n' s').
  { intros k' f Hf Hix Er. unfold show_tab in Er. destruct (Z.eqb_spec (mCurrentPanel (w_panels (f_viewer s))) (mPanelTabIndex (f_viewer s) k')) as [Ei|Ei].
    - eapply Hquiet; [exact Er|]. rewrite Eo. apply does_some; [done|]. rewrite louds_ask, Hf. done.
    - destruct (click_good _ _ _ _ (mPanelTabIndex (f_viewer s) k') (f_viewer s) Hc) as [n' Hn']; [by apply mPanelTabIndex_exists| |done|by apply louds_asked|].
      + destruct (c_tabs (vcore_of (f_viewer s))) eqn:Et; [by rewrite orb_true_r|]. rewrite (good_rest n s Hg Et). change (c_panel (vcore_of (f_viewer s))) with (mCurrentPanel (w_panels (f_viewer s))).
        destruct (Z.eqb_spec (mCurrentPanel (w_panels (f_viewer s))) (mPanelTabIndex (f_viewer s) k')); [done|by rewrite orb_true_r].
      + destruct (happen_good (Key can_sync name) s n') as (s' & E & Hs'); [done|done| |by exists n', s']. cbn [react]. rewrite Er. by eexists. }
  destruct (kind_named name) as [k'|] eqn:En.
  - destruct (Z.eqb_spec (mPanelTabIndex (f_viewer s) k') (-1)) as [Em|Em].
    + eapply Hquiet; [|apply does_same]. unfold SetCurrentTab. by rewrite En, Em.
    + apply Z.eqb_neq in Em as Em'. destruct k'; [destruct can_sync; [eapply Hquiet; [unfold SetCurrentTab; rewrite En, Em'; reflexivity|by apply does_some; [|rewrite louds_ask]]|]|..];
        (eapply Hshow; [|exact Em|unfold SetCurrentTab; rewrite En, Em'; reflexivity]; done).
  - eapply Hquiet; [|apply does_same]. unfold SetCurrentTab. by rewrite En.
Qed.
Lemma cell_click n s j : good n s -> enabled (ClickCell j) s = true -> exists n' s', happens (ClickCell j) s = Some s' /\ good n' s'.
Proof.
  intros Hg He. assert (Hg' := Hg). destruct Hg' as [Ha Hc]. assert (Hj := He). cbn [enabled] in Hj. apply andb_true_iff in Hj as [Hj _].
  destruct (happen_good (ClickCell j) s n) as (s' & E & Hs'); [done|done| |by exists n, s']. eexists. split; [reflexivity|].
  unfold ClickedChangeTabWithDelay. rewrite louds_ask, (louds_asked _ Ha). destruct Hc as (k & i & t & p & q & Hcur & Hsh & How & -> & Htab & Hcl & Hcon). exists k, i, t, p, q. split_and!; try done.
  cbn [app fold_left core_carry flow_of snd taken loud] in *. apply Forall_app. split; [done|]. apply Forall_singleton. by apply is_tab_exists.
Qed.
(** When nothing is loaded and no tab is changed. *)
Lemma ready_core n s : good n s -> IsReady (f_viewer s) = true ->
  let c := vcore_of (f_viewer s) in exists k, n = O /\ c_cur c = Some (k, true) /\ loads s = [] /\ c_tabs c = false /\ c_loading c = false /\ c_only c = false /\
    c_tab c = c_panel c /\ c_clicked c = false /\ drawn s = Some (c_tab c) /\ Forall (tab_exists c) (clicks s) /\ tab_exists c (c_tab c).
Proof.
  intros [Ha (k & i & t & p & q & Hcur & Hsh & How & -> & Htab & Hcl & [C1 C2 C3 C4 C5 C6])] Hr. cbn zeta in *. set (c := vcore_of (f_viewer s)) in *.
  change (negb (c_tabs c || c_changing c || c_loading c) = true) in Hr. apply negb_true_iff, orb_false_iff in Hr as [Hr Hld]. apply orb_false_iff in Hr as [Ht Hch].
  destruct (C4 Ht) as (E1 & -> & E3 & _). assert (t = false) as -> by (apply not_true_is_false; intros E; rewrite (C2 E) in Ht; done).
  destruct p as [x|]; [destruct How as [E _]; congruence|]. destruct How as (_ & Ho & ->). inv Hsh. exists k. split_and!; try done. by apply C5.
Qed.
Lemma contents_asked n s b f anchor report : good n s -> enabled (ShowInContents b f anchor report) s = true -> exists n' s', happens (ShowInContents b f anchor report) s = Some s' /\ good n' s'.
Proof.
  intros Hg He. destruct (ready_core n s Hg He) as (k & -> & Hcur & Hl & Ht & Hld & Ho & E1 & E3 & Hd & Hcl & Htab). destruct (current_object _ _ _ Hcur) as [a Eo].
  assert (Hquiet : does (react br accessible prefix labels settings (ShowInContents b f anchor report) s) (f_viewer s) (vcore_of (f_viewer s)) [] ->
    exists n' s', happens (ShowInContents b f anchor report) s = Some s' /\ good n' s').
  { intros Hd'. destruct (happen_quiet _ s 0 Hg He eq_refl Hd') as (s' & E & Hs'). by exists 0%nat, s'. }
  cbn [react] in Hquiet. unfold JavaScript_SyncTOC in Hquiet. destruct (show_contents settings && ((0 <=? b) && (0 <=? f))) eqn:Ec; [|apply Hquiet, does_same].
  rewrite Eo in Hquiet. cbn [mbind option_bind o_kind] in Hquiet. destruct (String.eqb_spec (mPanelTabTitle labels k) (mTabsTOCLabel labels)) as [Et|Et].
  { apply Hquiet, does_some; [done|]. by rewrite louds_ask. }
  destruct (contents_tab labels (mPanelEntries (w_panels (f_viewer s)))) as [j|] eqn:Ej; [|apply Hquiet, does_same]. clear Hquiet.
  unfold contents_tab in Ej. destruct (list_find _ _) as [[j' e]|] eqn:El; [|done]. injection Ej as ->. assert (El' := El). apply list_find_Some in El' as (Ej & Etitle & _).
  assert (Hne : c_tab (vcore_of (f_viewer s)) <> Z.of_nat j).
  { rewrite E1. intros Ep. destruct (current_entry _ _ _ Hcur) as (e' & Ee & Ek & _). unfold GetCurrentPanelEntry, at_index in Ee. change (mCurrentPanel (w_panels (f_viewer s))) with (c_panel (vcore_of (f_viewer s))) in Ee.
    rewrite Ep in Ee. destruct (Z.of_nat j <? 0); [done|]. rewrite Nat2Z.id, Ej in Ee. injection Ee as <-. by rewrite Ek in Etitle. }
  assert (Hex : tab_exists (vcore_of (f_viewer s)) (Z.of_nat j)).
  { unfold tab_exists. cbn [vcore_of c_objs]. rewrite at_index_map. unfold at_index. destruct (Z.ltb_spec (Z.of_nat j) 0); [lia|]. rewrite Nat2Z.id, Ej. by eexists. }
  assert (Hg' := Hg). destruct Hg' as [Ha Hc].
  set (w1 := set_tabs (Tabs (mbClickedChangeTab (w_tabs (f_viewer s))) (mbChangingTabs (w_tabs (f_viewer s))) (mCurrentTab (w_tabs (f_viewer s))) (Some "contents") (mbAutoSyncTOC (w_tabs (f_viewer s)))) (f_viewer s)).
  assert (H := StartChangeTab_spec (Z.of_nat j) w1). cbn zeta in H. change (vcore_of w1) with (vcore_of (f_viewer s)) in H. rewrite Ht in H. apply Z.eqb_neq in Hne as Hne'. rewrite Hne' in H. destruct H as [H1 H2].
  destruct (start_good _ _ _ _ (Z.of_nat j) (c_clicked (vcore_of (f_viewer s))) Hc Hex Ht Hne) as [n' Hn'].
  destruct (happen_good (ShowInContents b f anchor report) s n') as (s' & E & Hs'); [exact He|done| |by exists n', s'].
  exists (StartChangeTab (Z.of_nat j) w1). split.
  - cbn [react]. unfold JavaScript_SyncTOC, contents_tab. rewrite Ec, Eo. cbn [mbind option_bind o_kind]. apply String.eqb_neq in Et. rewrite Et, El. done.
  - rewrite H1, H2. change (louds w1) with (louds (f_viewer s)). rewrite (louds_asked _ Ha). exact Hn'.
Qed.
Lemma page_shown n s b f : good n s -> enabled (PageShown b f) s = true -> exists n' s', happens (PageShown b f) s = Some s' /\ good n' s'.
Proof.
  intros Hg He. destruct (ready_core n s Hg He) as (k & -> & Hcur & Hl & Ht & Hld & Ho & E1 & E3 & Hd & Hcl & Htab). assert (Hg' := Hg). destruct Hg' as [Ha Hc].
  assert (Hcur' : c_cur (vcore_of (ask (SetFavorite b f) (f_viewer s))) = Some (k, true)) by exact Hcur. destruct (current_object _ _ _ Hcur') as [a Eo].
  destruct (String.eqb (mPanelTabTitle labels k) (mTabsFavoritesLabel labels)) eqn:Et.
  - assert (Hk : k <> Contents) by (intros ->; apply String.eqb_eq in Et; cbn in Et; congruence).
    destruct (happen_good (PageShown b f) s 1) as (s' & E & Hs'); [exact He|done| |by exists 1%nat, s'].
    eexists. split; [cbn [react]; unfold JavaScript_FavoritesCurrent; rewrite Eo; cbn [mbind option_bind o_kind]; rewrite Et; reflexivity|].
    destruct (ReloadNavigation_spec (ask (SetFavorite b f) (f_viewer s))) as [H1 H2]. rewrite H1, H2. rewrite louds_ask, (louds_asked _ Ha).
    change (vcore_of (ask (SetFavorite b f) (f_viewer s))) with (vcore_of (f_viewer s)). rewrite Hld. cbn [loud app]. destruct Hc as (k' & i & t & p & q & Hcur2 & Hsh & How & En & _ & _ & [C1 C2 C3 C4 C5 C6]).
    cbn [flow_of fst snd] in Hsh. rewrite Hl in Hsh. inv Hsh. set (c := vcore_of (f_viewer s)) in *.
    exists k', true, false, (Some (WWHPanelNavigationFrame, "panelnav.htm")), 1%nat. split_and!; try done.
    + change (flow_of (taken (PageShown b f) s)) with (loads s, clicks s). rewrite Hl. cbn. by constructor.
    + split; [done|]. by constructor.
    + split; try done. intros E. exfalso. change (c_changing c = true) in E. destruct (C1 E) as (E' & _). congruence.
  - destruct (happen_quiet (PageShown b f) s 0 Hg He eq_refl) as (s' & E & Hs'); [|by exists 0%nat, s'].
    cbn [react]. unfold JavaScript_FavoritesCurrent. rewrite Eo. cbn [mbind option_bind o_kind]. rewrite Et. apply does_some; [done|]. by rewrite louds_ask.
Qed.
(** The panel or its view is loaded again. *)
Lemma reload_good c x d n k l file : good_core c x d n -> c_cur c = Some (k, true) -> c_loading c = false ->
  core_carry (core_load true c) x l = (start_load (core_frame c WWHPanelViewFrame) "panelvie.htm" (fst x), snd x) /\ file = "panelvie.htm" \/
  core_carry (core_load true c) x l = (start_load WWHPanelFrame (mPanelFilename br k) (fst x), snd x) /\ file = mPanelFilename br k ->
  exists n', good_core (core_load true c) (core_carry (core_load true c) x l) d n'.
Proof.
  intros (k' & i & t & p & q & Hcur' & Hsh & How & -> & Htab & Hcl & [C1 C2 C3 C4 C5 C6]) Hcur Hld Hl. rewrite Hcur in Hcur'. injection Hcur' as <- <-.
  destruct p as [y|]; [destruct How as [E _]; congruence|]. destruct How as (_ & Ho & ->).
  assert (Hch : c_changing c = true -> False) by (intros E; destruct (C1 E) as (E' & _); congruence).
  assert (Hcon : consistent (core_load true c) true t d) by (split; try done; first [by intros E; destruct Hch|intros E _; apply (C6 E); by right]).
  assert (Ev : core_frame c WWHPanelViewFrame = view_frame k) by (unfold core_frame; by rewrite Hcur).
  destruct Hl as [[-> _]|[-> _]].
  - exists (1 + (if t then 6 else 0))%nat, k, true, t, (Some (view_frame k, "panelvie.htm")), 1%nat. rewrite Ev. split_and!; try done.
    + cbn. apply start_panel; [done|]. unfold view_frame. by case_decide.
    + split; [done|]. change (c_only (core_load true c)) with (c_only c). rewrite Ho. constructor.
  - destruct (plan_first k true) as (m' & Hp' & _). exists (m' + (if t then 6 else 0))%nat, k, true, t, (Some (WWHPanelFrame, mPanelFilename br k)), m'. split_and!; try done.
    + cbn. by apply start_panel.
    + split; [done|]. change (c_only (core_load true c)) with (c_only c). by rewrite Ho.
Qed.
Lemma initialized_current w k i : c_cur (vcore_of w) = Some (k, i) -> current_initialized w = i.
Proof. intros H. unfold current_initialized. by destruct (current_object _ _ _ H) as [a ->]. Qed.
Lemma view_drawn n s : good n s -> enabled DrawView s = true -> exists n' s', happens DrawView s = Some s' /\ good n' s'.
Proof.
  intros Hg He. destruct (good_current n s Hg) as (k & i & Hcur). assert (Hi := He). cbn [enabled] in Hi. rewrite (initialized_current _ _ _ Hcur) in Hi. subst i.
  assert (Hd := ReloadView_does br prefix (f_viewer s) k true Hcur). assert (Hg' := Hg). destruct Hg' as [Ha Hc]. destruct (c_loading (vcore_of (f_viewer s))) eqn:Hld.
  - destruct (happen_quiet DrawView s n Hg He eq_refl Hd) as (s' & E & Hs'). by exists n, s'.
  - destruct Hd as (script & w' & E & E1 & E2). destruct (reload_good _ _ _ _ k (RunReplace script) "panelvie.htm" Hc Hcur Hld) as [n' Hn']; [by left|].
    destruct (happen_good DrawView s n') as (s' & Es & Hs'); [done|done| |by exists n', s']. exists w'. split; [done|]. by rewrite E1, E2, (louds_asked _ Ha).
Qed.
Lemma panel_drawn n s : good n s -> enabled DrawPanel s = true -> exists n' s', happens DrawPanel s = Some s' /\ good n' s'.
Proof.
  intros Hg He. destruct (good_current n s Hg) as (k & i & Hcur). assert (Hi := He). cbn [enabled] in Hi. rewrite (initialized_current _ _ _ Hcur) in Hi. subst i.
  assert (Hg' := Hg). destruct Hg' as [Ha Hc]. destruct (set_scroll_does (f_viewer s) k true Hcur (0, 0)) as (w1 & E1 & Hc1 & Hl1).
  assert (Hcur1 : c_cur (vcore_of w1) = Some (k, true)) by (by rewrite Hc1). destruct (ReloadPanel_does br w1 k true Hcur1) as (w2 & E2 & Hc2 & Hl2).
  assert (Er : react br accessible prefix labels settings DrawPanel s = Some w2) by (cbn [react]; unfold ClearScrollPosition; rewrite E1; exact E2).
  rewrite Hl1, (louds_asked _ Ha) in Hl2. change (mbLoading (w_panels w1)) with (c_loading (vcore_of w1)) in Hl2. rewrite Hc1 in Hl2, Hc2. cbn [app] in Hl2.
  destruct (c_loading (vcore_of (f_viewer s))) eqn:Hld.
  - destruct (happen_good DrawPanel s n) as (s' & Es & Hs'); [done|done| |by exists n, s']. exists w2. split; [done|]. rewrite Hc2, Hl2.
    assert (E : core_load true (vcore_of (f_viewer s)) = vcore_of (f_viewer s)) by (unfold core_load; by rewrite <- Hld). by rewrite E.
  - destruct (reload_good _ _ _ _ k (Replace WWHPanelFrame (mPanelFilename br k)) (mPanelFilename br k) Hc Hcur Hld) as [n' Hn']; [by right|].
    destruct (happen_good DrawPanel s n') as (s' & Es & Hs'); [done|done| |by exists n', s']. exists w2. split; [done|]. by rewrite Hc2, Hl2.
Qed.
Lemma panel_moved n s a : good n s -> enabled (Move a) s = true -> exists n' s', happens (Move a) s = Some s' /\ good n' s'.
Proof.
  intros Hg He. destruct (good_current n s Hg) as (k & i & Hcur). destruct (happen_quiet (Move a) s n Hg He eq_refl) as (s' & E & Hs'); [|by exists n, s'].
  cbn [react]. destruct (set_anchor_does (f_viewer s) k i Hcur (Some a)) as (w1 & E1 & Hc1 & Hl1). rewrite E1. cbn [mbind option_bind].
  assert (Hcur1 : c_cur (vcore_of w1) = Some (k, i)) by (by rewrite Hc1). destruct (JumpToAnchor_does br w1 k i Hcur1) as (w2 & E2 & Hc2 & Hl2).
  exists w2. split_and!; [done|by rewrite Hc2|by rewrite Hl2, Hl1, !app_nil_r].
Qed.
(** Every action keeps the state good. *)
Lemma happens_good n s a : good n s -> careful a s = true -> exists n' s', happens a s = Some s' /\ good n' s'.
Proof.
  intros Hg Hc. destruct (enabled a s) eqn:He; [|exists n, s; unfold happen; by rewrite He].
  destruct a as [i|i|m|cs name|b f an r|b f| | |an|v|f].
  - by eapply tab_click.
  - by eapply cell_click.
  - by eapply timer_click.
  - by eapply key_pressed.
  - by eapply contents_asked.
  - by eapply page_shown.
  - by eapply view_drawn.
  - by eapply panel_drawn.
  - by eapply panel_moved.
  - destruct (happen_quiet (Scrolled v) s n Hg He eq_refl) as (s' & E & Hs'); [|by exists n, s']. by apply does_some; [|rewrite app_nil_r].
  - assert (Hg' := Hg). destruct Hg' as [Ha (k & i & t & p & q & Hcur & Hsh & How & -> & _)]. cbn [flow_of fst] in Hsh. cbn [enabled] in He. apply bool_decide_eq_true in He.
    destruct (decide (f = WWHTabsFrame)) as [->|Hf].
    + rewrite (find_tabs _ _ _ Hsh) in He. destruct t; [|by destruct He]. cbn [careful] in Hc. apply negb_true_iff in Hc.
      destruct p as [x|]; [destruct How as [E _]; change (c_loading (vcore_of (f_viewer s))) with (mbLoading (w_panels (f_viewer s))) in E; congruence|].
      destruct (tabs_arrive _ s Hg Hsh) as (n' & s' & E & Hg' & _). by exists n', s'.
    + rewrite (find_panel _ _ _ f Hsh Hf) in He. destruct p as [[g file]|]; [|by destruct He]. destruct (decide (g = f)) as [->|]; [|by destruct He].
      destruct (panel_arrives _ s t f file Hg Hsh) as (n' & s' & E & Hg' & _). by exists n', s'.
Qed.
Fixpoint all_careful (l : list frame_action) (s : frames) : bool :=
  match l with
  | [] => true
  | a :: l => careful a s && match happens a s with Some s => all_careful l s | None => true end
  end.
Lemma run_good l : forall n s, good n s -> all_careful l s = true -> exists n' s', happen_all br accessible prefix labels settings l s = Some s' /\ good n' s'.
Proof.
  induction l as [|a l IH]; intros n s Hg Hc; [by exists n, s|]. cbn [all_careful] in Hc. apply andb_true_iff in Hc as [Ha Hc].
  destruct (happens_good n s a Hg Ha) as (n1 & s1 & E & Hg1). rewrite E in Hc. destruct (IH n1 s1 Hg1 Hc) as (n' & s' & E' & Hg'). exists n', s'. cbn [happen_all]. by rewrite E.
Qed.
(** The start. *)
Lemma initial_tab_exists w : 0 < Z.of_nat (length (mPanelEntries (w_panels w))) -> tab_exists (vcore_of w) (mInitialTab w).
Proof.
  intros H. assert (H0 : tab_exists (vcore_of w) 0).
  { unfold tab_exists. cbn [vcore_of c_objs]. rewrite at_index_map. apply fmap_is_Some. change (at_index (mPanelEntries (w_panels w)) 0) with (mPanelEntries (w_panels w) !! 0%nat). apply lookup_lt_is_Some. lia. }
  unfold mInitialTab. destruct (t_mInitialTabName (w_tabs w) ≫= kind_named) as [k|]; [|done].
  destruct (Z.ltb_spec (mPanelTabIndex w k) 0) as [Hlt|Hge]; [done|]. apply mPanelTabIndex_exists. lia.
Qed.
Lemma start_is_good cookies name v : panel_kinds settings cookies <> [] -> exists n, good n (start br settings cookies name v).
Proof.
  intros Hk. unfold start. set (w0 := JavaScript_Init settings cookies name v true). change (silent w0) with w0.
  assert (Hlen : 0 < Z.of_nat (length (mPanelEntries (w_panels w0)))) by (cbn; rewrite length_map; destruct (panel_kinds settings cookies); [done|cbn; lia]).
  assert (Hex := initial_tab_exists w0 Hlen). set (j := mInitialTab w0) in *.
  assert (Hj : 0 <= j) by (unfold j, mInitialTab; match goal with |- context [if ?x <? 0 then _ else _] => destruct (Z.ltb_spec x 0); lia end).
  assert (Hf : exists b, vcore_of (Finalize w0) = core_tab b true j (vcore_of w0) /\ louds (Finalize w0) = [Replace WWHTabsFrame "tabs.htm"]).
  { assert (Hne : (c_tab (vcore_of w0) =? j) = false) by (apply Z.eqb_neq; change (c_tab (vcore_of w0)) with (-1); lia).
    unfold Finalize. fold j. destruct (t_mInitialTabName (w_tabs w0)).
    - assert (H := StartChangeTab_spec j w0). cbn zeta in H. rewrite Hne in H. destruct H as [H1 H2]. exists false. by rewrite H1, H2.
    - assert (H := ClickedChangeTab_spec j w0). cbn zeta in H. rewrite Hne in H. destruct H as [H1 H2]. exists true. by rewrite H1, H2. }
  destruct Hf as (b & E1 & E2). exists 6%nat. eapply good_after; [done|exact E1|exact E2|].
  destruct (panel_kinds settings cookies) as [|k ks] eqn:Eks; [done|].
  exists k, false, true, None, 0%nat. split_and!; try done.
  - unfold c_cur. cbn. by rewrite Eks.
  - cbn. constructor.
  - split; try done; [by left|by intros _ [E|E]].
Qed.
End live.

(** C6. A change of tabs comes to its end, when there is a panel and the titles of contents
    and favourites differ: from the start, whatever the reader clicks and
    presses, in whatever order the pages of the frames arrive and whatever the other parts
    of the viewer draw again, no handler throws; and when the eleven pages at most that
    are still on their way have arrived, the panel of the tab that was chosen last is
    shown, initialised, with its tab marked, and the viewer is ready for the next click -
    as long as the page of the tabs never arrives while a panel is loaded ([tab_stuck]),
    and no timer clicks on the tab that is shown, as the second of two quick clicks on the
    same tab does ([double_click_deaf]). *)
Theorem tabs_settle br accessible prefix labels settings cookies name v acts
    (Hlabels : mTabsTOCLabel labels <> mTabsFavoritesLabel labels) (Hk : panel_kinds settings cookies <> [])
    (Hc : all_careful br accessible prefix labels settings acts (start br settings cookies name v) = true) :
  exists s s', happen_all br accessible prefix labels settings acts (start br settings cookies name v) = Some s /\
    settle br accessible prefix labels settings 11 s = Some s' /\ shown s' (mCurrentTab (w_tabs (f_viewer s))).
Proof.
  destruct (start_is_good br settings cookies name v Hk) as [n Hg].
  destruct (run_good br accessible prefix labels settings Hlabels acts n _ Hg Hc) as (n' & s & E & Hs).
  destruct (settles br accessible prefix labels settings n' s 11 Hs (good_bound br _ _ Hs)) as (s' & E' & _ & Hs'). by exists s, s'.
Qed.
