(* ===== verification/HelpFramesStuck.v ===== *)
(** * Tabs that no longer answer
    What happens when the page of the tabs arrives while a panel is loaded; runs of the
    viewer on concrete clicks. *)
From S2P Require Import Prelude JsString JsNum JsVal HelpString HelpBooks HelpBrowser HelpPanels HelpFrames HelpFramesCore HelpFramesLive.
Open Scope Z_scope.
#[local] Set Warnings "-clear-no-such-hyp".

Section stuck.
Context (br : browser) (accessible : bool) (prefix : string) (labels : tab_labels) (settings : tab_settings).
Abbreviation happens := (happen br accessible prefix labels settings).

(** A change of tabs without anything that will end it: no page of the tabs is on its way,
    and the panel that is loaded, if any, is not loaded for it. *)
Definition no_tabs_page (l : list (frame * string)) : Prop := Forall (fun p => snd p <> "tabs.htm") l.
Definition stuck_core (panel tab : Z) (c : vcore) : Prop :=
  c_tabs c = true /\ c_changing c = false /\ c_panel c = panel /\ c_tab c = tab /\ is_Some (c_cur c).
Definition stuck (panel tab : Z) (s : frames) : Prop :=
  asked (f_viewer s) = [] /\ stuck_core panel tab (vcore_of (f_viewer s)) /\ no_tabs_page (loads s).
Definition no_tabs_request (e : asked_for) : bool := match e with Replace _ file => negb (String.eqb file "tabs.htm") | _ => true end.
Lemma carry_no_tabs c l : forall x, forallb no_tabs_request l = true -> no_tabs_page (fst x) -> no_tabs_page (fst (fold_left (core_carry c) l x)).
Proof.
  induction l as [|e l IH]; intros [ls cl] Hl Hx; [done|]. cbn [forallb] in Hl. apply andb_true_iff in Hl as [He Hl]. cbn [fold_left]. apply (IH _ Hl).
  assert (Hsl : forall f file, file <> "tabs.htm" -> no_tabs_page (start_load f file ls)).
  { intros f file Hf. unfold start_load. apply Forall_app. split; [|by apply Forall_singleton]. apply Forall_forall. intros p [Hp _]%list_elem_of_In%List.filter_In.
    unfold no_tabs_page in Hx. rewrite Forall_forall in Hx. by apply Hx, list_elem_of_In. }
  destruct e; try exact Hx; cbn [core_carry fst]; apply Hsl; [|done]. cbn in He. by apply negb_true_iff, String.eqb_neq in He.
Qed.
Lemma filename_no_tabs k : String.eqb (mPanelFilename br k) "tabs.htm" = false.
Proof. unfold mPanelFilename. by destruct k, (b_mBrowser br =? 1). Qed.
Lemma stuck_does panel tab s a c l : stuck panel tab s -> enabled a s = true -> asked (f_viewer (taken a s)) = [] -> no_tabs_page (loads (taken a s)) ->
  does (react br accessible prefix labels settings a s) (f_viewer s) c l -> stuck_core panel tab c -> forallb no_tabs_request l = true ->
  exists s', happens a s = Some s' /\ stuck panel tab s'.
Proof.
  intros (Ha & _ & _) He Ht Hn (w' & E & Hc & Hl) Hs Hr. unfold happen. rewrite He, E. cbn [mbind option_bind]. eexists. split; [done|].
  destruct (with_viewer_spec br w' (taken a s)) as (E1 & E2 & E3 & E4). split_and!; [done|by rewrite E1, Hc|].
  change (loads (with_viewer br w' (taken a s))) with (fst (flow_of (with_viewer br w' (taken a s)))). rewrite E4. apply carry_no_tabs; [|done]. rewrite Hl, (louds_asked _ Ha). done.
Qed.
Lemma stuck_clicks panel tab s j w : stuck panel tab s -> w = f_viewer s ->
  exists c, stuck_core panel tab c /\ does (Some (ClickedChangeTab j w)) w c [].
Proof.
  intros (Ha & (Ht & Hc & Hp & Hi & Hcur) & _) ->. assert (H := ClickedChangeTab_spec j (f_viewer s)). cbn zeta in H. rewrite Ht in H. cbn [negb andb] in H.
  destruct (c_clicked (vcore_of (f_viewer s))).
  - exists (vcore_of (f_viewer s)). split; [done|]. rewrite H. apply does_same.
  - destruct H as [H1 H2]. eexists. split; [|apply does_some; [exact H1|by rewrite H2, app_nil_r]]. by split_and!.
Qed.
(** Nothing that happens ends it, and the panel stays. *)
Lemma stuck_stays panel tab a s : stuck panel tab s -> exists s', happens a s = Some s' /\ stuck panel tab s'.
Proof.
  intros Hs. destruct (enabled a s) eqn:He; [|exists s; unfold happen; by rewrite He]. assert (Hs' := Hs). destruct Hs' as (Ha & Hcore & Hn). assert (Hcore' := Hcore). destruct Hcore' as (Ht & Hch & Hp & Hi & [[k i] Hcur]).
  assert (Hsame : does (react br accessible prefix labels settings a s) (f_viewer s) (vcore_of (f_viewer s)) [] -> taken a s = s -> exists s', happens a s = Some s' /\ stuck panel tab s').
  { intros Hd E. apply (stuck_does panel tab s a (vcore_of (f_viewer s)) []); try done; by rewrite E. }
  assert (Hready : IsReady (f_viewer s) = false) by (unfold IsReady; change (mbChangingTabs (w_tabs (f_viewer s))) with (c_tabs (vcore_of (f_viewer s))); by rewrite Ht).
  destruct a as [j|j|m|cs name|b f an r|b f| | |an|v|f].
  - destruct (stuck_clicks panel tab s j _ Hs eq_refl) as (c & Hc & Hd). by eapply (stuck_does panel tab s (ClickTab j)).
  - apply (stuck_does panel tab s (ClickCell j) (vcore_of (f_viewer s)) [RunClick j]); try done. apply does_some; [done|]. unfold ClickedChangeTabWithDelay. by rewrite louds_ask.
  - assert (He' := He). cbn [enabled] in He'. apply bool_decide_eq_true in He' as [j Ej]. destruct (stuck_clicks panel tab s j _ Hs eq_refl) as (c & Hc & Hd).
    apply (stuck_does panel tab s (FireClick m) c []); try done. cbn [react]. rewrite Ej. exact Hd.
  - destruct (current_object _ _ _ Hcur) as [o Eo].
    assert (Hshow : forall k' f, (forall x, loud (f x) = false) -> SetCurrentTab cs name (f_viewer s) = show_tab k' f (f_viewer s) -> exists s', happens (Key cs name) s = Some s' /\ stuck panel tab s').
    { intros k' f Hf Er. unfold show_tab in Er. destruct (mCurrentPanel (w_panels (f_viewer s)) =? mPanelTabIndex (f_viewer s) k').
      - apply Hsame; [|done]. cbn [react]. rewrite Er, Eo. apply does_some; [done|]. by rewrite louds_ask, Hf.
      - destruct (stuck_clicks panel tab s (mPanelTabIndex (f_viewer s) k') _ Hs eq_refl) as (c & Hc & Hd). apply (stuck_does panel tab s (Key cs name) c []); try done. cbn [react]. rewrite Er. exact Hd. }
    destruct (kind_named name) as [k'|] eqn:En; [|apply Hsame; [|done]; cbn [react]; unfold SetCurrentTab; rewrite En; apply does_same].
    destruct (mPanelTabIndex (f_viewer s) k' =? -1) eqn:Em; [apply Hsame; [|done]; cbn [react]; unfold SetCurrentTab; rewrite En, Em; apply does_same|].
    destruct k'; [destruct cs; [apply Hsame; [|done]; cbn [react]; unfold SetCurrentTab; rewrite En, Em; by apply does_some; [|rewrite louds_ask]|]|..];
      (eapply Hshow; [|unfold SetCurrentTab; rewrite En, Em; reflexivity]; done).
  - cbn [enabled] in He. congruence.
  - cbn [enabled] in He. congruence.
  - assert (Hd := ReloadView_does br prefix (f_viewer s) k i Hcur). destruct (c_loading (vcore_of (f_viewer s))); [by apply Hsame|].
    destruct Hd as [script Hd]. apply (stuck_does panel tab s DrawView (core_load true (vcore_of (f_viewer s))) [RunReplace script]); try done; split_and!; try done; by eexists.
  - destruct (set_scroll_does (f_viewer s) k i Hcur (0, 0)) as (w1 & E1 & Hc1 & Hl1). assert (Hcur1 : c_cur (vcore_of w1) = Some (k, i)) by (by rewrite Hc1).
    destruct (ReloadPanel_does br w1 k i Hcur1) as (w2 & E2 & Hc2 & Hl2). rewrite Hc1 in Hc2. rewrite Hl1, app_nil_r in Hl2.
    eapply (stuck_does panel tab s DrawPanel); [done..|exists w2; split_and!; [|exact Hc2|exact Hl2]| |].
    + cbn [react]. unfold ClearScrollPosition. by rewrite E1.
    + split_and!; try done; by eexists.
    + destruct (mbLoading (w_panels w1)); [done|]. destruct i; [|done]. cbn. by rewrite filename_no_tabs.
  - destruct (set_anchor_does (f_viewer s) k i Hcur (Some an)) as (w1 & E1 & Hc1 & Hl1). assert (Hcur1 : c_cur (vcore_of w1) = Some (k, i)) by (by rewrite Hc1).
    destruct (JumpToAnchor_does br w1 k i Hcur1) as (w2 & E2 & Hc2 & Hl2). apply Hsame; [|done]. cbn [react]. rewrite E1. exists w2. split_and!; [done|by rewrite Hc2|by rewrite Hl2, Hl1, !app_nil_r].
  - apply Hsame; [|done]. by apply does_some; [|rewrite app_nil_r].
  - assert (He' := He). cbn [enabled] in He'. apply bool_decide_eq_true in He' as [file Ef].
    assert (Hfile : String.eqb file "tabs.htm" = false).
    { unfold find_load in Ef. destruct (List.find _ _) as [[g file']|] eqn:El; [|done]. injection Ef as ->. apply List.find_some in El as [El _]. unfold no_tabs_page in Hn. rewrite Forall_forall in Hn.
      apply String.eqb_neq. by apply (Hn (g, file)), list_elem_of_In. }
    assert (Hleft : no_tabs_page (loads (taken (Loaded f) s))).
    { cbn [taken loads]. apply Forall_forall. intros p [Hin _]%list_elem_of_In%List.filter_In. unfold no_tabs_page in Hn. rewrite Forall_forall in Hn. by apply Hn, list_elem_of_In. }
    assert (Hgo : forall c l, does (page_loaded br accessible file (f_viewer s)) (f_viewer s) c l -> stuck_core panel tab c -> forallb no_tabs_request l = true -> exists s', happens (Loaded f) s = Some s' /\ stuck panel tab s').
    { intros c l Hd Hc Hl. apply (stuck_does panel tab s (Loaded f) c l); try done. cbn [react]. rewrite Ef. exact Hd. }
    unfold page_loaded in Hgo. rewrite Hfile in Hgo.
    destruct (String.eqb file "panelmsg.htm"); [eapply Hgo; [by apply does_some; [|rewrite louds_ask]|done|done]|].
    destruct (String.eqb file "panelini.htm").
    { eapply Hgo; [by eapply initialized_does| |cbn; by rewrite filename_no_tabs]. split_and!; try done. exists (k, true). by eapply c_cur_initialized. }
    destruct (String.eqb file "panelnav.htm").
    { assert (Hd := PanelNavigationLoaded_does accessible (f_viewer s) k i Hcur). destruct (c_only (vcore_of (f_viewer s))); (eapply Hgo; [exact Hd| |done]); split_and!; try done; by eexists. }
    destruct (String.eqb file "panelvie.htm").
    { eapply Hgo; [by eapply PanelViewLoaded_does| |done]. unfold core_shown. rewrite Hch. split_and!; done. }
    eapply Hgo; [by apply does_some; [|rewrite louds_ask]|done|done].
Qed.
Lemma stuck_run panel tab l : forall s, stuck panel tab s -> exists s', happen_all br accessible prefix labels settings l s = Some s' /\ stuck panel tab s'.
Proof.
  induction l as [|a l IH]; intros s Hs; [by exists s|]. destruct (stuck_stays panel tab a s Hs) as (s1 & E & Hs1). destruct (IH s1 Hs1) as (s' & E' & Hs'). exists s'. cbn [happen_all]. by rewrite E.
Qed.
(** The page of the tabs that arrives while a panel is loaded. *)
Lemma becomes_stuck n s : good br n s -> mbLoading (w_panels (f_viewer s)) = true -> is_Some (find_load WWHTabsFrame (loads s)) ->
  let c := vcore_of (f_viewer s) in
  exists s', happens (Loaded WWHTabsFrame) s = Some s' /\ stuck (c_panel c) (c_tab c) s' /\ c_tab c <> c_panel c.
Proof.
  intros [Ha (k & i & t & p & m & Hcur & Hsh & How & -> & Htab & Hcl & [C1 C2 C3 C4 C5 C6])] Hld Hf. cbn zeta. cbn [flow_of fst] in Hsh. rewrite (find_tabs _ _ _ Hsh) in Hf. destruct t; [|by destruct Hf].
  change (mbLoading (w_panels (f_viewer s))) with (c_loading (vcore_of (f_viewer s))) in Hld. destruct p as [[g file]|]; [|destruct How as [E _]; congruence]. destruct How as [_ Hp].
  assert (Hch : c_changing (vcore_of (f_viewer s)) = false) by (apply not_true_is_false; intros E; by destruct (C1 E) as (_ & _ & _ & ?)).
  assert (Hstay : TabsLoaded br accessible (f_viewer s) = Some (name_frame accessible WWHTabsFrame (f_viewer s))).
  { unfold TabsLoaded, ChangePanel. destruct (vcore_name accessible WWHTabsFrame (f_viewer s)) as [E _].
    change (mbLoading (w_panels (name_frame accessible WWHTabsFrame (f_viewer s)))) with (c_loading (vcore_of (name_frame accessible WWHTabsFrame (f_viewer s)))). rewrite E, Hld. by rewrite andb_false_r. }
  destruct (vcore_name accessible WWHTabsFrame (f_viewer s)) as [E1 E2]. eexists. split; [|split].
  - unfold happen. cbn [enabled]. rewrite (find_tabs _ _ _ Hsh). cbn [react]. rewrite (find_tabs _ _ _ Hsh). cbn [mbind option_bind page_loaded]. unfold page_loaded. cbn. rewrite Hstay. reflexivity.
  - destruct (with_viewer_spec br (name_frame accessible WWHTabsFrame (f_viewer s)) (taken (Loaded WWHTabsFrame) s)) as (F1 & F2 & F3 & F4). split_and!; [exact F2| |].
    + change (stuck_core (c_panel (vcore_of (f_viewer s))) (c_tab (vcore_of (f_viewer s))) (vcore_of (f_viewer (with_viewer br (name_frame accessible WWHTabsFrame (f_viewer s)) (taken (Loaded WWHTabsFrame) s))))).
      rewrite F1, E1. split_and!; try done; first [by apply C2|by eexists].
    + change (no_tabs_page (fst (flow_of (with_viewer br (name_frame accessible WWHTabsFrame (f_viewer s)) (taken (Loaded WWHTabsFrame) s))))).
      rewrite F4, E2, (louds_asked _ Ha). change (no_tabs_page (after_load WWHTabsFrame (loads s))). assert (Haf := after_tabs _ _ Hsh). destruct (plan_frame _ _ _ _ _ _ _ Hp) as [Hg _].
      inversion Haf; subst. apply Forall_singleton. cbn. intros ->. assert (H := filename_no_tabs k). apply String.eqb_neq in H. inversion Hp; congruence.
  - apply C6; [done|by left].
Qed.
End stuck.

(** C19. Tabs can stop to answer for good: when the reader chooses a tab while the panel is
    loaded (its view was drawn again, or its navigation because another page is shown) and
    the page of the tabs arrives first, the tab is marked, but the old panel stays; and
    from then on, whatever is clicked, pressed or loaded, the panel never changes, the
    viewer is never ready again, and so the contents no longer follow the page. *)
Theorem tab_stuck br accessible prefix labels settings cookies name v acts
    (Hlabels : mTabsTOCLabel labels <> mTabsFavoritesLabel labels) (Hk : panel_kinds settings cookies <> [])
    (Hc : all_careful br accessible prefix labels settings acts (start br settings cookies name v) = true) :
  exists s, happen_all br accessible prefix labels settings acts (start br settings cookies name v) = Some s /\
    let panel := mCurrentPanel (w_panels (f_viewer s)) in
    let tab := mCurrentTab (w_tabs (f_viewer s)) in
    (mbLoading (w_panels (f_viewer s)) = true -> is_Some (find_load WWHTabsFrame (loads s)) ->
     tab <> panel /\
     exists s1, happen br accessible prefix labels settings (Loaded WWHTabsFrame) s = Some s1 /\
       forall more, exists s2, happen_all br accessible prefix labels settings more s1 = Some s2 /\
         mCurrentPanel (w_panels (f_viewer s2)) = panel /\ mCurrentTab (w_tabs (f_viewer s2)) = tab /\ IsReady (f_viewer s2) = false).
Proof.
  destruct (start_is_good br settings cookies name v Hk) as [n Hg].
  destruct (run_good br accessible prefix labels settings Hlabels acts n _ Hg Hc) as (n' & s & E & Hs). exists s. split; [done|]. intros panel tab Hld Hf.
  destruct (becomes_stuck br accessible prefix labels settings n' s Hs Hld Hf) as (s1 & E1 & Hst & Hne). split; [done|]. exists s1. split; [done|]. intros more.
  destruct (stuck_run br accessible prefix labels settings _ _ more s1 Hst) as (s2 & E2 & Ha & (Ht & Hch & Hp & Hi & _) & _). exists s2. split_and!; [done|exact Hp|exact Hi|].
  unfold IsReady. change (mbChangingTabs (w_tabs (f_viewer s2))) with (c_tabs (vcore_of (f_viewer s2))). by rewrite Ht.
Qed.

(** ** Two runs *)
Definition firefox : browser := Initialize (Navigator None "Mozilla/5.0 (X11; Linux) Gecko Firefox/3.6" "5.0 (X11)").
Definition english : tab_labels := TabLabels "Contents" "Index" "Search" "Favorites".
Definition all_tabs : tab_settings := TabSettings true true true true.
Definition top_window : view_window := ViewWindow (0, 0) None None "".
(** The pages of the first panel. *)
Definition first_pages : list frame_action := [Loaded WWHTabsFrame; Loaded WWHPanelFrame; Loaded WWHPanelFrame; Loaded WWHPanelFrame].
(** The reader goes to the favourites; another document is shown; the index is clicked while
    the favourites' navigation is loaded, but its page comes later. *)
Definition reading_tabs : list frame_action :=
  first_pages ++ [Scrolled (ViewWindow (0, 120) None None ""); ClickTab 3; Loaded WWHTabsFrame; Loaded WWHPanelFrame; Loaded WWHPanelFrame; Loaded WWHPanelFrame;
    Loaded WWHPanelNavigationFrame; Loaded WWHPanelViewFrame; PageShown 0 1; ClickCell 1; FireClick 0; Loaded WWHPanelNavigationFrame].
Theorem tabs_settle_witness :
  exists s s', happen_all firefox false "" english all_tabs reading_tabs (start firefox all_tabs true None top_window) = Some s /\
    settle firefox false "" english all_tabs 11 s = Some s' /\ shown s' 1.
Proof.
  assert (E1 : (fun s => mCurrentTab (w_tabs (f_viewer s))) <$> happen_all firefox false "" english all_tabs reading_tabs (start firefox all_tabs true None top_window) = Some 1) by (vm_compute; reflexivity).
  destruct (tabs_settle firefox false "" english all_tabs true None top_window reading_tabs) as (s & s' & Es & Es' & Hs); [discriminate|discriminate|vm_compute; reflexivity|].
  exists s, s'. split; [exact Es|split; [exact Es'|]]. rewrite Es in E1. injection E1 as E1. rewrite E1 in Hs. exact Hs.
Defined.
(** The contents are drawn again, and the reader clicks on the index at once. *)
Definition quick_click : list frame_action := first_pages ++ [DrawView; ClickTab 1].
Theorem tab_stuck_witness :
  exists s s1, happen_all firefox false "" english all_tabs quick_click (start firefox all_tabs true None top_window) = Some s /\
    happen firefox false "" english all_tabs (Loaded WWHTabsFrame) s = Some s1 /\
    forall more, exists s2, happen_all firefox false "" english all_tabs more s1 = Some s2 /\
      mCurrentPanel (w_panels (f_viewer s2)) = 0 /\ mCurrentTab (w_tabs (f_viewer s2)) = 1 /\ IsReady (f_viewer s2) = false.
Proof.
  destruct (tab_stuck firefox false "" english all_tabs true None top_window quick_click) as (s & Es & Hs); [discriminate|discriminate|vm_compute; reflexivity|].
  assert (E : (fun s => (mCurrentPanel (w_panels (f_viewer s)), mCurrentTab (w_tabs (f_viewer s)), mbLoading (w_panels (f_viewer s)), find_load WWHTabsFrame (loads s)))
    <$> happen_all firefox false "" english all_tabs quick_click (start firefox all_tabs true None top_window) = Some (0, 1, true, Some "tabs.htm")) by (vm_compute; reflexivity).
  rewrite Es in E. injection E as E1 E2 E3 E4. rewrite E1, E2 in Hs. destruct (Hs E3) as (_ & s1 & Es1 & Hmore); [rewrite E4; eexists; reflexivity|].
  exists s, s1. split; [exact Es|split; [exact Es1|exact Hmore]].
Defined.
(** Two clicks on the same tab, each of which waits for its timer: the second timer clicks
    on the tab that is shown by then.  No change of tabs begins, but the mark that one was
    clicked stays, and later clicks on any tab do nothing. *)
Definition double_click : list frame_action :=
  first_pages ++ [ClickCell 1; ClickCell 1; FireClick 0; Loaded WWHTabsFrame; Loaded WWHPanelFrame; Loaded WWHPanelFrame; Loaded WWHPanelFrame;
    Loaded WWHPanelNavigationFrame; Loaded WWHPanelViewFrame; FireClick 0; ClickTab 2].
Lemma double_click_deaf :
  exists s, happen_all firefox false "" english all_tabs double_click (start firefox all_tabs true None top_window) = Some s /\
    mCurrentPanel (w_panels (f_viewer s)) = 1 /\ mCurrentTab (w_tabs (f_viewer s)) = 1 /\ loads s = [] /\ clicks s = [] /\
    forall j, ClickedChangeTab j (f_viewer s) = f_viewer s.
Proof.
  assert (E : (fun s => (mCurrentPanel (w_panels (f_viewer s)), mCurrentTab (w_tabs (f_viewer s)), loads s, clicks s, mbClickedChangeTab (w_tabs (f_viewer s))))
    <$> happen_all firefox false "" english all_tabs double_click (start firefox all_tabs true None top_window) = Some (1, 1, [], [], true)) by (vm_compute; reflexivity).
  destruct (happen_all _ _ _ _ _ _ _) as [s|]; [|done]. injection E as E1 E2 E3 E4 E5. exists s. split_and!; try done.
  intros j. unfold ClickedChangeTab. by rewrite E5.
Qed.
